(* ===== verification/_CoqProject ===== *)
-Q . S2P
Prelude.v
Enums.v
PyValue.v
FileSystem.v
PyText.v
Sanitization.v
Goals.v
Plans.v
Serialization.v
TaskSpec.v
Tools.v
NetworkTools.v
AuditTrail.v
Replay.v
Memory.v
Evaluator.v
Causal.v
Egress.v
Policy.v
PolicyConfig.v
Approval.v
Gates.v
Traces.v
Credentials.v
GitHubClient.v
GitHubRest.v
GitHubTools.v
FileTools.v
Sandbox.v
Transactions.v
Planner.v
RuntimeStores.v
Evals.v
Evidence.v
StoreSpec.v
AgentLoop.v
PlanProviders.v
Operator.v
ServerConfig.v
Server.v
TaskQueue.v
PgQueue.v
Fixtures.v
Interactive.v
MemoryProps.v
EvaluatorProps.v
QueueRuns.v
QueueInv.v
AuditProps.v
TxInvariants.v
TxSafety.v
TxRollback.v
ReplayRuns.v
TxEnv.v
GitHubTheory.v
TxOutcome.v
TxProps.v
ReplayProps.v
PlannerProps.v
LoopTheory.v
LoopProps.v
CoreProps.v
GateTheory.v
PolicyProps.v
QueueProps.v
QueueReload.v
PgTheory.v
PgProps.v
StoreProps.v
VaultProps.v
GitHubProps.v
RestProps.v
ProviderProps.v
OperatorProps.v
ServerProps.v
FileTheory.v
Workspace.v
FileProps.v
SandboxProps.v
EvalProps.v
