(* ===== verification/Prelude.v ===== *)
(** * Leos agent runtime: a verification development

    Leos (src/src/leos_agent) executes plans proposed by an agent under a
    policy.  A plan is a list of steps, each naming a tool with arguments; the
    transaction manager checks every step, asks a human where the policy wants
    one, dry-runs and executes the tool, verifies what was observed against the
    causal contract and the predictions of the step, and rolls everything back
    when a step fails.  Every decision goes into a hash-chained audit log.

    ** Files and what they model

    - Prelude.v (this file): the state-and-exception monad [M S E A], its proof
      principles ([keeps], [post], [yields], [total]), binary64 floats, string
      helpers and insertion-ordered dictionaries.
    - Enums.v: errors.py (exception classes with their parents) and enums.py (every
      enumeration with its values, as a class [PyEnum]).
    - PyValue.v: Python values ([pyval]) with equality, truth, [str], [repr], JSON output, and
      [PyRuntime], the class of platform functions.  PyText.v: the text encodings of the
      standard library (JSON layouts, HTML and URL escaping, base64, UTF-8 with replacement).
    - FileSystem.v: directories, files and symbolic links with the system calls and the
      parts of pathlib and os.path the program uses.
    - Sanitization.v: sanitization.py, the boundary that rejects or redacts secrets.
    - Goals.v: goals.py and state.py.  Plans.v: causal_contract.py, plans.py and the
      predictions of causal.py.  Tools.v: tools.py without the file writer.
    - AuditTrail.v: audit.py, the log and its verification.  Replay.v: replay.py, the anomaly
      detector of audit.py, observability.py.  Memory.v: memory.py.  Evaluator.v:
      goal_evaluator.py and evaluator_registry.py.
    - Causal.v: causal.py, conflicts.py, simulation.py.  Egress.v: egress.py and
      network_guard.py.  Policy.v, PolicyConfig.v: policy.py with its parsers,
      policy_manifest.py, policy_wizard.py, manifest.py and tool_manifest_registry.py.
    - Approval.v: approval.py and recovery.py.  Gates.v: the base gate, the file exchange
      (approval_exchange.py) and the prepared gate of github_operator.py behind one record
      [ApprovalGate] and one interface [AntiReplay].  Interactive.v: the gate that asks at the
      terminal.
    - Transactions.v: transactions.py, every phase of [TransactionManager.execute_plan],
      one definition per method or block.
    - Planner.v: replanning.py, planner.py with the validation of model output, kernel.py.
      PlanProviders.v: model.py, prompts.py, the planner over a language model, and
      github_agent.py.  AgentLoop.v: agent_loop.py, [AgentLoop.run] block by block, with the
      proposal provider and the runtime store as records of operations.
    - Serialization.v: serialization.py.  TaskQueue.v: task_queue.py, the queue with its SQLite
      mirror, the watchdog and the runner.  PgQueue.v: task_queue_backends.py, the PostgreSQL
      queue as one worker sees the shared table.  TaskSpec.v: the policies and the abstract
      queue, a step relation, that both refine.
    - RuntimeStores.v: runtime_store.py, sqlite_store.py and postgres_store.py; StoreSpec.v:
      the abstract store and the interface [StoreLaws], which StoreProps.v discharges.
    - Credentials.v: credentials.py and credential_backends.py, the vault protocol as a record
      of operations.  GitHubClient.v, GitHubTools.v: github_tools.py, the client protocol with
      the in-memory repository, and the twelve tools over any client and vault.
      GitHubRest.v: github_client.py over any transport, and github_app_auth.py.
    - FileTools.v: the file writer of tools.py and the file tools of dev_tools.py.  Sandbox.v:
      sandbox.py, sandbox_backends.py and the tools of dev_tools.py that start processes.
      NetworkTools.v: network_tools.py.
    - Operator.v: github_operator.py and recipes/github_pr.py, from the observed issue to the
      applied plan.  ServerConfig.v, Server.v: the HTTP service (server/config.py, run.py,
      app.py).  Traces.v: trace_viewer.py.
    - Evals.v: eval_runner.py, every safety case as the composition of the components above.
      Evidence.v: proof.py, the evidence documents of a release.
    - Fixtures.v: a concrete platform, tools, gate and plans; the witnesses instantiate the
      theorems there and the examples evaluate whole runs.
    - Theory: TxInvariants.v, TxSafety.v, TxRollback.v, TxOutcome.v, TxEnv.v (runs of the
      manager), ReplayRuns.v, GateTheory.v (the gate over a run), LoopTheory.v, QueueRuns.v,
      QueueInv.v, PgTheory.v, GitHubTheory.v (invariants of the client and the relational
      logic of two executions), FileTheory.v (resolving paths), Workspace.v.
    - Properties: AuditProps.v, TxProps.v, ReplayProps.v, PlannerProps.v, LoopProps.v,
      CoreProps.v, PolicyProps.v, MemoryProps.v, EvaluatorProps.v, QueueProps.v, QueueReload.v,
      PgProps.v, StoreProps.v, VaultProps.v, GitHubProps.v, RestProps.v, ProviderProps.v,
      OperatorProps.v, ServerProps.v, FileProps.v, SandboxProps.v, EvalProps.v.

    ** How the state corresponds to the code

    [TState X G] holds what a run of execute_plan can read or change: the
    system state [t_sys] (audit log, clock and uuid counters), the environment
    [t_env] of type [X] on which the tools act, the world state, the heap
    [t_heap] of ActionStep objects (a plan holds indices, so a step mutated by
    the manager is seen through the plan, as with Python references), the plan
    and its goal, the capability grant counters, the gate's own state and the
    rollback stack.  [t_calls] is a ghost trace of the tool calls made (dry
    runs, executions, rollbacks with step, arguments or token); no definition
    reads it.  A method is a function in the monad: an exception keeps the state
    reached, and a [try] block catches the classes it names.  A
    [step!] bind stands for the early exits of the step loop: [None] when the
    phase has blocked the step, failed it, or rolled the run back.

    Tools, the JSON-schema validator and the gate are parameters of the
    definitions (arbitrary functions over [X], which may raise and may change the
    environment); the theorems hold for all of them.  [PyRuntime] has SHA-256, HMAC, float
    formatting and parsing, the order of set iteration, the clock, uuid4 and
    the ipaddress test; nothing is assumed about them, except that the
    tamper-evidence theorem concludes equality of the logs up to an explicit hash
    collision.

    The operator and the service run the same manager: a request to the server is an atomic
    step on the state of the service (audits, packets, receipts, token bucket) and the
    repository behind it; the safety cases build their managers, clients and stores from the
    same definitions.

    ** What the theorems show

    - TxProps: over a whole run, only permitted tool calls are made; a failed run compensates in
      reverse order; nothing executes without a successful dry run with the same
      arguments; the budget bounds every run that calls a tool; a consumed
      idempotency key never executes again; completed steps satisfy their
      schema, contract and predictions; the final goal status is the exact
      function of the step statuses; rollback never raises.
    - AuditProps: verification accepts exactly the well-formed chains, a
      log that verifies and ends in the recorded hash is the recorded log (or a
      hash collision is exhibited), records carry no secret, and executing a
      plan preserves the chain.  ReplayProps: replaying the log of a run gives its facts back.
    - CoreProps: the secret boundary accepts exactly the values without secrets
      and its result is JSON; the goal and world state invariants; causal checks, policy
      decisions, approval validation and egress are characterised exactly;
      approvals are consumed at most once at either gate, and an approval from
      the file exchange went through every configured check.
    - PolicyProps: signed policies load exactly, generated policies deny first, and a tool
      that a manifest vouches for agrees with it.
    - OperatorProps: a plan is applied only with signed, unexpired approvals of exactly its
      steps, each used once.  ServerProps: over every history of requests the repository
      only changes through such plans; requests are authenticated and limited; pages render
      no markup from data; the configuration is the exact composition of its sources.
    - QueueProps, QueueReload: every operation of the task queue refines the
      abstract queue; tasks follow their life cycle; locks, watchdog, enqueueing and
      the runner are characterised on every branch; a runner over a
      finite queue comes to an end; loading the database gives the queue back.
    - PgProps: a worker of the PostgreSQL queue refines the same abstract queue however
      other workers and failing statements interleave; claims, locked calls and the reaper
      are characterised on every branch.
    - StoreProps: the four runtime stores refine one abstract store; a SQL
      store gives the last saved goal back, up to its budget; a line separator in a text
      ruins a JSON lines file.
    - MemoryProps: every record of a store is well typed and in the index, recall is the
      scan of all records, and the written file loads to the same records.
    - EvaluatorProps: SUCCEEDED and FAILED are exactly what the facts say about the
      criteria.  PlannerProps: the first proposal within the limits is selected, and
      accepted LLM proposals name known tools with well-typed arguments.  ProviderProps: the
      retries of the model planner are bounded and recorded; what the issue planner proposes.
    - LoopProps: a whole run of the agent loop makes only permitted calls, stays in
      its bounds, and reports success exactly when a plan ran and the goal is
      achieved in the final world state.
    - VaultProps: the vaults answer from the history of their calls.  GitHubProps: whole
      runs over the GitHub tools spare protected branches and pull requests; a credential
      reaches nothing but the places made for credentials (two executions that differ in it
      agree on the rest); updates, branch creation and branch deletion are
      exact on every branch, and so is what their rollback gives back.  RestProps: what the
      REST client may send.
    - FileProps: whole runs over the file tools touch nothing outside the workspace, and a
      plan that does not verify all its steps leaves every file reading as before; both for
      trees without link loops, and [loop_escapes] shows that a loop defeats the check.
      SandboxProps: every process of a run starts in the workspace with a bounded
      environment, container options are independent of the command, a runner is never weaker
      than asked for, and the network tools fetch only what the URL policy lets through.
    - EvalProps: an evaluation report accounts for every fixture file and cannot be forged by
      one; fifteen safety cases pass on every platform, and the whole suite on a concrete one;
      evidence is release grade exactly for a clean worktree, and what its exit code says.

    ** Bounds

    Recursion is structural over values, steps and rollback entries.  The agent loop
    recurses on the iterations left, which [max_iterations] bounds in the code too.
    The subclass test of Enums.v follows at most
    four parents, the depth of the exception hierarchy.  The kernel's path walk has fuel
    40, which is Linux's limit; [joinreal] has one more than the number of links, and
    [joinreal_enough] shows that more changes nothing.  Python integers are unbounded ([Z]), floats
    binary64.

    ** Not modelled

    The command line (cli.py: argument parsing, wiring and printing), the adapters over
    vendor SDKs (model_adapters.py), the re-exports of core.py, and the scripts and examples
    outside the package.  Of observability.py the sinks that forward to other packages, of
    credential_backends.py the loaders of optional packages.  Sockets, HTTP parsing, URL and
    HTML tokenizing, JSON and TOML parsing and JSON Schema are interfaces; of a process only
    the call that starts it and what it returns are modelled.  The file system has no
    permissions, no full disk and no concurrent writer, and [Path.resolve] is that of
    CPython 3.10 to 3.12.  Of the databases the statements of the program are
    modelled with the effect SQL gives them, over tables that are lists of rows; opening,
    closing and creating them are driver calls.  The in-memory store copies events and
    checkpoints one level deep; they are values here.  Requests to the service are atomic
    steps: only the token bucket has a lock, and interleavings inside a request are not
    modelled.  The loop, the
    kernel and the transaction manager share one audit log and one memory, their
    default wiring.

    ** Plan

    What is left, in order: the commands of cli.py as compositions of the modelled components,
    and the release scripts.

    ** Conventions of this file

    Strings.  A Python [str] is represented by the bytes of its UTF-8
    encoding.  Substring tests, concatenation, splitting on ASCII whitespace and
    comparisons agree with Python's; the case conversions and [strip] act on
    the ASCII range (the program applies them to host names, HTTP methods,
    event types and criteria written in ASCII).

    Floats.  A Python [float] is a [SpecFloat.spec_float] with the binary64
    parameters (53, 1024); subtraction, addition and comparison are the IEEE ones.

    Nondeterminism of the platform.  [time.time()] and [uuid.uuid4()] are
    oracles indexed by the number of earlier calls; the counters are part of
    the state, so two consecutive calls read consecutive oracle values and
    nothing is assumed about them. *)
From Stdlib Require Export ZArith String Ascii SpecFloat.
From stdpp Require Export base list gmap strings pretty relations.
#[export] Set Default Goal Selector "!".

Declare Scope leos_scope.
Delimit Scope leos_scope with leos.
#[global] Open Scope leos_scope.
#[global] Open Scope string_scope.
#[global] Open Scope list_scope.

(** ** Results and the state-and-exception monad *)

(** [exn] is left abstract here: Enums.v instantiates it. *)
Inductive res (E A : Type) : Type :=
| Ok (a : A)
| Raise (e : E).
Arguments Ok {E A} _.
Arguments Raise {E A} _.

Definition is_ok {E A} (r : res E A) : bool := match r with Ok _ => true | Raise _ => false end.

Definition res_map {E A B} (f : A -> B) (r : res E A) : res E B :=
  match r with Ok a => Ok (f a) | Raise e => Raise e end.

Definition res_bind {E A B} (r : res E A) (f : A -> res E B) : res E B :=
  match r with Ok a => f a | Raise e => Raise e end.

(** [M S E A]: a method over a mutable state [S].  An exception keeps the
    mutations performed before it was raised, as in Python. *)
Definition M (S E A : Type) : Type := S -> res E A * S.

Definition ret {S E A} (a : A) : M S E A := fun s => (Ok a, s).
Definition raise {S E A} (e : E) : M S E A := fun s => (Raise e, s).
Definition bind {S E A B} (m : M S E A) (f : A -> M S E B) : M S E B :=
  fun s => match m s with
           | (Ok a, s') => f a s'
           | (Raise e, s') => (Raise e, s')
           end.
Definition gets {S E A} (f : S -> A) : M S E A := fun s => (Ok (f s), s).
Definition modify {S E} (f : S -> S) : M S E unit := fun s => (Ok tt, f s).
(** [try: m except Exception as exc: h exc] *)
Definition catch {S E A} (m : M S E A) (h : E -> M S E A) : M S E A :=
  fun s => match m s with
           | (Ok a, s') => (Ok a, s')
           | (Raise e, s') => h e s'
           end.
Definition of_res {S E A} (r : res E A) : M S E A := fun s => (r, s).

Notation "'let!' x ':=' m 'in' k" := (bind m (fun x => k))
  (at level 10, x pattern, m at level 100, k at level 200) : leos_scope.
Notation "m ;;; k" := (bind m (fun _ => k))
  (at level 100, k at level 200, right associativity) : leos_scope.

Fixpoint for_each {S E A} (l : list A) (f : A -> M S E unit) : M S E unit :=
  match l with
  | [] => ret tt
  | x :: l' => f x ;;; for_each l' f
  end.

(** A block of a loop body that may [break]: [None] is the break. *)
Notation "'step!' x ':=' m 'in' k" :=
  (bind m (fun o => match o with Some x => k | None => ret None end))
  (at level 10, x name, m at level 100, k at level 200) : leos_scope.

(** ** Relational reasoning: what every run of a method keeps *)

Section keeps.
Context {S E : Type}.

Definition keeps {A} (R : relation S) (m : M S E A) : Prop := forall s, R s (snd (m s)).

Context (R : relation S) `{!PreOrder R}.

Lemma keeps_ret {A} (a : A) : keeps R (ret a).
Proof. intros s. simpl. reflexivity. Qed.
Lemma keeps_raise {A} (e : E) : keeps (A:=A) R (raise e).
Proof. intros s. simpl. reflexivity. Qed.
Lemma keeps_gets {A} (f : S -> A) : keeps R (gets f).
Proof. intros s. simpl. reflexivity. Qed.
Lemma keeps_of_res {A} (r : res E A) : keeps R (of_res r).
Proof. intros s. simpl. reflexivity. Qed.
Lemma keeps_modify (f : S -> S) : (forall s, R s (f s)) -> keeps R (modify f).
Proof. intros H s. apply H. Qed.
Lemma keeps_bind {A B} (m : M S E A) (f : A -> M S E B) :
  keeps R m -> (forall a, keeps R (f a)) -> keeps R (bind m f).
Proof.
  intros Hm Hf s. unfold bind. specialize (Hm s).
  destruct (m s) as [[a|e] s'] eqn:Em; simpl in *; [|done].
  etrans; [exact Hm|apply Hf].
Qed.
Lemma keeps_catch {A} (m : M S E A) (h : E -> M S E A) :
  keeps R m -> (forall e, keeps R (h e)) -> keeps R (catch m h).
Proof.
  intros Hm Hf s. unfold catch. specialize (Hm s).
  destruct (m s) as [[a|e] s'] eqn:Em; simpl in *; [done|].
  etrans; [exact Hm|apply Hf].
Qed.
Lemma keeps_for_each {A} (l : list A) (f : A -> M S E unit) :
  (forall a, keeps R (f a)) -> keeps R (for_each l f).
Proof.
  intros Hf. induction l as [|x l IH]; simpl; [apply keeps_ret|].
  apply keeps_bind; [apply Hf|intros _; apply IH].
Qed.
End keeps.

(** A log that only grows, by entries that satisfy [P]. *)
Definition only_adds {A} (P : A -> Prop) (l l' : list A) : Prop := exists added, l' = l ++ added /\ Forall P added.
#[export] Instance only_adds_preorder {A} (P : A -> Prop) : PreOrder (only_adds P).
Proof.
  split.
  - intros l. exists []. by rewrite app_nil_r.
  - intros l1 l2 l3 (a & -> & Ha) (b & -> & Hb). exists (a ++ b). by rewrite app_assoc, Forall_app.
Qed.

(** ** Postconditions of total runs *)

(** [post m s Q]: running [m] from [s] ends in a result and a state related by [Q]. *)
Definition post {S E A} (m : M S E A) (s : S) (Q : res E A -> S -> Prop) : Prop :=
  Q (fst (m s)) (snd (m s)).

Section post.
Context {S E : Type}.

Lemma post_ret {A} (a : A) (s : S) (Q : res E A -> S -> Prop) : Q (Ok a) s -> post (ret a) s Q.
Proof. done. Qed.
Lemma post_bind {A B} (m : M S E A) (f : A -> M S E B) s (Q : res E B -> S -> Prop) :
  post m s (fun r s' => match r with Ok a => post (f a) s' Q | Raise e => Q (Raise e) s' end) ->
  post (bind m f) s Q.
Proof. unfold post, bind. destruct (m s) as [[a|e] s']; done. Qed.
Lemma post_mono {A} (m : M S E A) s (Q Q' : res E A -> S -> Prop) :
  post m s Q -> (forall r s', Q r s' -> Q' r s') -> post m s Q'.
Proof. unfold post. auto. Qed.
Lemma post_keeps {A} (R : relation S) (m : M S E A) s : keeps R m -> post m s (fun _ s' => R s s').
Proof. intros H. apply H. Qed.
Lemma bind_ok {A B} (m : M S E A) (f : A -> M S E B) s a s' : m s = (Ok a, s') -> bind m f s = f a s'.
Proof. unfold bind. by intros ->. Qed.
Lemma bind_raise {A B} (m : M S E A) (f : A -> M S E B) s e s' : m s = (Raise e, s') -> bind m f s = (Raise e, s').
Proof. unfold bind. by intros ->. Qed.
Lemma bind_inv {A B} (m : M S E A) (f : A -> M S E B) s r s' :
  bind m f s = (r, s') ->
  (exists e, m s = (Raise e, s') /\ r = Raise e) \/
  (exists a s1, m s = (Ok a, s1) /\ f a s1 = (r, s')).
Proof.
  unfold bind. destruct (m s) as [[a|e] s1]; intros H; [right; eauto|left].
  simplify_eq. eauto.
Qed.
End post.

Lemma run_ok {S E A} (p : res E A * S) a : fst p = Ok a -> p = (Ok a, snd p).
Proof. destruct p. simpl. by intros ->. Qed.

(** The values a method can return. *)
Definition yields {S E A} (m : M S E A) (a : A) : Prop := exists s s', m s = (Ok a, s').

Section yields.
Context {S E : Type}.

Lemma yields_ret {A} (a b : A) : yields (S:=S) (E:=E) (ret a) b -> a = b.
Proof. by intros (s & s' & [= -> _]). Qed.
Lemma yields_raise {A} (e : E) (b : A) : ~ yields (S:=S) (raise e) b.
Proof. by intros (s & s' & ?). Qed.
Lemma yields_of_res {A} (r : res E A) (b : A) : yields (S:=S) (of_res r) b -> r = Ok b.
Proof. by intros (s & s' & [= -> _]). Qed.
Lemma yields_bind {A B} (m : M S E A) (f : A -> M S E B) b :
  yields (bind m f) b -> exists a, yields m a /\ yields (f a) b.
Proof.
  intros (s & s' & Hb). apply bind_inv in Hb as [(e & _ & ?)|(a & s1 & Hm & Hf)]; [done|].
  exists a. split; [by exists s, s1|by exists s1, s'].
Qed.
Lemma yields_step {A B} (m : M S E (option A)) (f : A -> M S E (option B)) b :
  yields (bind m (fun o => match o with Some x => f x | None => ret None end)) (Some b) ->
  exists a, yields m (Some a) /\ yields (f a) (Some b).
Proof. intros ([a|] & Hm & Hf)%yields_bind; [eauto|by apply yields_ret in Hf]. Qed.

Lemma keeps_bind_yields {A B} (R : relation S) `{!PreOrder R} (m : M S E A) (f : A -> M S E B) :
  keeps R m -> (forall a, yields m a -> keeps R (f a)) -> keeps R (bind m f).
Proof.
  intros Hm Hf s. unfold bind. specialize (Hm s).
  destruct (m s) as [[a|e] s'] eqn:Em; simpl in *; [|done].
  etrans; [exact Hm|]. apply Hf. unfold yields. eauto.
Qed.
Lemma keeps_step_yields {A B} (R : relation S) `{!PreOrder R} (m : M S E (option A)) (f : A -> M S E (option B)) :
  keeps R m -> (forall a, yields m (Some a) -> keeps R (f a)) ->
  keeps R (bind m (fun o => match o with Some x => f x | None => ret None end)).
Proof.
  intros Hm Hf. apply keeps_bind_yields; [done|done|]. intros [a|] Ha; [by apply Hf|].
  intros s. simpl. reflexivity.
Qed.
(** Running a [step!] block that went through. *)
Lemma step_inv {A B} (m : M S E (option A)) (f : A -> M S E (option B)) s b s' :
  bind m (fun o => match o with Some x => f x | None => ret None end) s = (Ok (Some b), s') ->
  exists a s1, m s = (Ok (Some a), s1) /\ f a s1 = (Ok (Some b), s').
Proof.
  intros Hb. apply bind_inv in Hb as [(e & _ & ?)|([a|] & s1 & Hm & Hf)]; [done|eauto|done].
Qed.
End yields.

(** Methods that never raise. *)
Definition total {S E A} (m : M S E A) : Prop := forall s, exists a s', m s = (Ok a, s').

Section total.
Context {S E : Type}.

Lemma total_ret {A} (a : A) : total (S:=S) (E:=E) (ret a).
Proof. intros s. by exists a, s. Qed.
Lemma total_gets {A} (f : S -> A) : total (E:=E) (gets f).
Proof. intros s. by exists (f s), s. Qed.
Lemma total_modify (f : S -> S) : total (E:=E) (modify f).
Proof. intros s. by exists tt, (f s). Qed.
Lemma total_bind {A B} (m : M S E A) (f : A -> M S E B) :
  total m -> (forall a, total (f a)) -> total (bind m f).
Proof. intros Hm Hf s. unfold bind. destruct (Hm s) as (a & s' & ->). apply Hf. Qed.
Lemma total_catch {A} (m : M S E A) (h : E -> M S E A) : (forall e, total (h e)) -> total (catch m h).
Proof. intros Hh s. unfold catch. destruct (m s) as [[a|e] s']; [eauto|apply Hh]. Qed.
Lemma total_for_each {A} (l : list A) (f : A -> M S E unit) : (forall a, total (f a)) -> total (for_each l f).
Proof.
  intros Hf. induction l as [|x l IH]; simpl; [apply total_ret|]. by apply total_bind.
Qed.
End total.

(** Case analysis on the scrutinee of the first match of a goal or hypothesis. *)
Ltac destr_match :=
  match goal with
  | |- context [match ?x with _ => _ end] => destruct x eqn:?
  | H : context [match ?x with _ => _ end] |- _ => destruct x eqn:?
  end.

Create HintDb keeps discriminated.

(** Decompose a [keeps] goal along the program. *)
Ltac keeps_step :=
  match goal with
  | |- keeps _ (bind _ _) => apply keeps_bind; [apply _| |intros ?]
  | |- keeps _ (ret _) => apply keeps_ret; apply _
  | |- keeps _ (raise _) => apply keeps_raise; apply _
  | |- keeps _ (gets _) => apply keeps_gets; apply _
  | |- keeps _ (of_res _) => apply keeps_of_res; apply _
  | |- keeps _ (catch _ _) => apply keeps_catch; [apply _| |intros ?]
  | |- keeps _ (for_each _ _) => apply keeps_for_each; [apply _|intros ?]
  | |- keeps _ (let _ := _ in _) => cbv zeta
  | |- keeps _ (match ?x with _ => _ end) => destruct x
  | |- keeps _ (let '_ := ?x in _) => destruct x
  | |- keeps _ _ => solve [eauto 3 with keeps]
  end.
Ltac keeps_auto := repeat keeps_step.

Create HintDb total discriminated.
Ltac total_step :=
  match goal with
  | |- total (bind _ _) => apply total_bind; [|intros ?]
  | |- total (ret _) => apply total_ret
  | |- total (gets _) => apply total_gets
  | |- total (modify _) => apply total_modify
  | |- total (catch _ _) => apply total_catch; intros ?
  | |- total (for_each _ _) => apply total_for_each; intros ?
  | |- total (let _ := _ in _) => cbv zeta
  | |- total (match ?x with _ => _ end) => destruct x
  | |- total _ => solve [eauto 3 with total]
  end.
Ltac total_auto := repeat total_step.

(** ** Floats *)

Abbreviation float := spec_float.
Definition fprec : Z := 53%Z.
Definition femax : Z := 1024%Z.
Definition fadd : float -> float -> float := SFadd fprec femax.
Definition fsub : float -> float -> float := SFsub fprec femax.
Definition fmul : float -> float -> float := SFmul fprec femax.
Definition fltb : float -> float -> bool := SFltb.
Definition fleb : float -> float -> bool := SFleb.
Definition feqb : float -> float -> bool := SFeqb.
(** [float(n)] for an integer [n], rounded to nearest even. *)
Definition f_of_Z (n : Z) : float := binary_normalize fprec femax n 0 false.
Definition fzero : float := f_of_Z 0.
Definition fone : float := f_of_Z 1.
Definition finf : float := S754_infinity false.

#[export] Instance float_eq_dec : EqDecision float.
Proof. solve_decision. Defined.

(** ** Strings *)

Definition ascii_in (lo hi : N) (c : ascii) : bool := (lo <=? N_of_ascii c)%N && (N_of_ascii c <=? hi)%N.
Definition is_upper : ascii -> bool := ascii_in 65 90.
Definition is_lower : ascii -> bool := ascii_in 97 122.
Definition is_digit : ascii -> bool := ascii_in 48 57.
Definition is_alnum (c : ascii) : bool := is_upper c || is_lower c || is_digit c.
(** ASCII characters for which [str.isspace] holds. *)
Definition is_space (c : ascii) : bool := ascii_in 9 13 c || ascii_in 28 32 c.

Definition lower_char (c : ascii) : ascii :=
  if is_upper c then ascii_of_nat (nat_of_ascii c + 32) else c.
Definition upper_char (c : ascii) : ascii :=
  if is_lower c then ascii_of_nat (nat_of_ascii c - 32) else c.

Fixpoint string_map (f : ascii -> ascii) (s : string) : string :=
  match s with
  | EmptyString => EmptyString
  | String c s' => String (f c) (string_map f s')
  end.
Definition py_lower : string -> string := string_map lower_char.
Definition py_upper : string -> string := string_map upper_char.

(** [s.lstrip(cs)], [s.rstrip(cs)] and [s.strip(cs)], [cs] given as a predicate. *)
Fixpoint strip_left (f : ascii -> bool) (s : string) : string :=
  match s with
  | EmptyString => EmptyString
  | String c s' => if f c then strip_left f s' else s
  end.
Fixpoint strip_right (f : ascii -> bool) (s : string) : string :=
  match s with
  | EmptyString => EmptyString
  | String c s' =>
      match strip_right f s' with
      | EmptyString => if f c then EmptyString else String c EmptyString
      | r => String c r
      end
  end.
Definition strip_chars (f : ascii -> bool) (s : string) : string := strip_right f (strip_left f s).
Definition py_strip : string -> string := strip_chars is_space.

(** [needle in s] *)
Fixpoint str_in (needle s : string) : bool :=
  String.prefix needle s ||
  match s with
  | EmptyString => false
  | String _ s' => str_in needle s'
  end.

(** [sep.join(l)] *)
Fixpoint str_join (sep : string) (l : list string) : string :=
  match l with
  | [] => ""
  | [x] => x
  | x :: l' => x +:+ sep +:+ str_join sep l'
  end.

(** [s.split()]: maximal runs of non-space characters. *)
Fixpoint split_aux (s cur : string) : list string :=
  match s with
  | EmptyString => if String.eqb cur "" then [] else [cur]
  | String c s' =>
      if is_space c
      then (if String.eqb cur "" then split_aux s' "" else cur :: split_aux s' "")
      else split_aux s' (cur +:+ String c "")
  end.
Definition py_split (s : string) : list string := split_aux s "".

(** [repr(s)] of a string: single quotes unless [s] contains one and no double
    quote; backslash, quote and control characters are escaped. *)
Definition hex_digit (n : nat) : ascii :=
  ascii_of_nat (if (n <? 10)%nat then 48 + n else 87 + n).
Definition sq : ascii := "'"%char.
Definition dq : ascii := ascii_of_nat 34.
Definition bslash : ascii := ascii_of_nat 92.
Definition repr_char (q c : ascii) : string :=
  if Ascii.eqb c q || Ascii.eqb c bslash then String bslash (String c "")
  else if Ascii.eqb c (ascii_of_nat 10) then String bslash "n"
  else if Ascii.eqb c (ascii_of_nat 13) then String bslash "r"
  else if Ascii.eqb c (ascii_of_nat 9) then String bslash "t"
  else if (nat_of_ascii c <? 32)%nat || Ascii.eqb c (ascii_of_nat 127)
  then String bslash (String "x" (String (hex_digit (nat_of_ascii c / 16))
         (String (hex_digit (nat_of_ascii c mod 16)) "")))
  else String c "".
Fixpoint string_flat_map (f : ascii -> string) (s : string) : string :=
  match s with
  | EmptyString => ""
  | String c s' => f c +:+ string_flat_map f s'
  end.
Definition py_repr (s : string) : string :=
  let q := if str_in (String sq "") s && negb (str_in (String dq "") s) then dq else sq in
  String q (string_flat_map (repr_char q) s +:+ String q "").

Definition str_mem (s : string) (l : list string) : bool := existsb (String.eqb s) l.

(** [str(n)] of an integer. *)
Definition str_Z (n : Z) : string := pretty n.
(** Every character of a string satisfies [f]. *)
Fixpoint all_chars (f : ascii -> bool) (s : string) : bool :=
  match s with EmptyString => true | String c s' => f c && all_chars f s' end.

(** [sorted] of a list of strings (byte order of UTF-8 is code-point order). *)
Fixpoint insert_sorted (x : string) (l : list string) : list string :=
  match l with
  | [] => [x]
  | y :: l' => if String.leb x y then x :: l else y :: insert_sorted x l'
  end.
Fixpoint py_sorted (l : list string) : list string :=
  match l with
  | [] => []
  | x :: l' => insert_sorted x (py_sorted l')
  end.

Lemma str_mem_elem s l : str_mem s l = true <-> s ∈ l.
Proof.
  unfold str_mem. rewrite existsb_exists. split.
  - intros [x [Hx E]]. apply String.eqb_eq in E. subst. by apply list_elem_of_In.
  - intros H. exists s. rewrite String.eqb_refl. by rewrite list_elem_of_In in H.
Qed.
Lemma str_mem_false s l : str_mem s l = false <-> s ∉ l.
Proof. rewrite <-str_mem_elem. by destruct (str_mem s l). Qed.

Lemma string_map_idemp f s : (forall c, f (f c) = f c) -> string_map f (string_map f s) = string_map f s.
Proof. intros Hf. induction s as [|c s IH]; simpl; [done|by rewrite Hf, IH]. Qed.
Lemma lower_char_idemp c : lower_char (lower_char c) = lower_char c.
Proof. by destruct c as [[] [] [] [] [] [] [] []]. Qed.
Lemma upper_char_idemp c : upper_char (upper_char c) = upper_char c.
Proof. by destruct c as [[] [] [] [] [] [] [] []]. Qed.
Lemma py_lower_idemp s : py_lower (py_lower s) = py_lower s.
Proof. apply string_map_idemp, lower_char_idemp. Qed.
Lemma py_upper_idemp s : py_upper (py_upper s) = py_upper s.
Proof. apply string_map_idemp, upper_char_idemp. Qed.

Lemma insert_sorted_perm x l : insert_sorted x l ≡ₚ x :: l.
Proof.
  induction l as [|y l IH]; simpl; [done|].
  destruct (String.leb x y); [done|]. rewrite IH. constructor.
Qed.
Lemma py_sorted_perm l : py_sorted l ≡ₚ l.
Proof. induction l as [|x l IH]; simpl; [done|]. by rewrite insert_sorted_perm, IH. Qed.

Lemma str_app_assoc (a b c : string) : (a +:+ b) +:+ c = a +:+ (b +:+ c).
Proof. induction a as [|x a IH]; [done|exact (f_equal (String x) IH)]. Qed.
Lemma str_app_cons x (a b : string) : String x a +:+ b = String x (a +:+ b).
Proof. done. Qed.
Lemma str_length_app (a b : string) : String.length (a +:+ b) = (String.length a + String.length b)%nat.
Proof. induction a as [|x a IH]; [done|]. rewrite str_app_cons. simpl. by rewrite IH. Qed.
Lemma str_app_nil (a : string) : a +:+ "" = a.
Proof. induction a as [|x a IH]; [done|exact (f_equal (String x) IH)]. Qed.
Lemma all_chars_app f (a b : string) : all_chars f (a +:+ b) = all_chars f a && all_chars f b.
Proof. induction a as [|c a IH]; [done|]. rewrite str_app_cons. cbn [all_chars]. by rewrite IH, andb_assoc. Qed.

(** ** Insertion-ordered dictionaries with string keys *)

Abbreviation dict A := (list (string * A)).

Section dict.
Context {A : Type}.
Implicit Types (d : dict A) (k : string) (v : A).

Fixpoint dget k d : option A :=
  match d with
  | [] => None
  | (k', v) :: d' => if String.eqb k k' then Some v else dget k d'
  end.
Definition dmem k d : bool := match dget k d with Some _ => true | None => false end.
(** [d[k] = v]: an existing key keeps its position. *)
Fixpoint dset k v d : dict A :=
  match d with
  | [] => [(k, v)]
  | (k', v') :: d' => if String.eqb k k' then (k', v) :: d' else (k', v') :: dset k v d'
  end.
Fixpoint ddel k d : dict A :=
  match d with
  | [] => []
  | (k', v') :: d' => if String.eqb k k' then d' else (k', v') :: ddel k d'
  end.
Definition dkeys d : list string := map fst d.
Definition dvals d : list A := map snd d.
(** [{**a, **b}] *)
Definition dupdate d d' : dict A := fold_left (fun acc kv => dset kv.1 kv.2 acc) d' d.

Lemma dget_dset_eq k v d : dget k (dset k v d) = Some v.
Proof.
  induction d as [|[k' v'] d IH]; simpl; [by rewrite String.eqb_refl|].
  destruct (String.eqb k k') eqn:E; simpl; by rewrite E.
Qed.
Lemma dget_dset_ne k k' v d : k <> k' -> dget k (dset k' v d) = dget k d.
Proof.
  intros Hne. induction d as [|[k1 v1] d IH]; simpl.
  - by rewrite (proj2 (String.eqb_neq k k')).
  - destruct (String.eqb k' k1) eqn:E; simpl; [|by rewrite IH].
    apply String.eqb_eq in E as ->. by rewrite (proj2 (String.eqb_neq k k1)).
Qed.
Lemma dget_In k v d : dget k d = Some v -> In (k, v) d.
Proof.
  induction d as [|[k' v'] d IH]; simpl; [done|].
  destruct (String.eqb k k') eqn:E; intros H; [|auto].
  apply String.eqb_eq in E. simplify_eq. auto.
Qed.
Lemma dget_None k d : dget k d = None <-> k ∉ dkeys d.
Proof.
  induction d as [|[k' v'] d IH]; simpl; [split; [intros _; apply not_elem_of_nil|done]|].
  rewrite not_elem_of_cons. destruct (String.eqb k k') eqn:E.
  - apply String.eqb_eq in E. split; [done|naive_solver].
  - apply String.eqb_neq in E. naive_solver.
Qed.
Lemma dmem_keys k d : dmem k d = true <-> k ∈ dkeys d.
Proof.
  unfold dmem. pose proof (dget_None k d). destruct (dget k d).
  - split; [|done]. intros _. destruct (decide (k ∈ dkeys d)); [done|naive_solver].
  - naive_solver.
Qed.
Lemma dkeys_dset_fresh k v d : k ∉ dkeys d -> dset k v d = d ++ [(k, v)].
Proof.
  induction d as [|[k' v'] d IH]; simpl; [done|].
  rewrite not_elem_of_cons. intros [Hne Hk].
  rewrite (proj2 (String.eqb_neq k k')) by done. by rewrite IH.
Qed.
Lemma dkeys_dset_present k v d : k ∈ dkeys d -> dkeys (dset k v d) = dkeys d.
Proof.
  induction d as [|[k' v'] d IH]; simpl; [intros H; by apply elem_of_nil in H|].
  destruct (String.eqb k k') eqn:E; simpl; [done|].
  apply String.eqb_neq in E. rewrite elem_of_cons. intros [?|?]; [done|]. by rewrite IH.
Qed.
Lemma dset_NoDup k v d : NoDup (dkeys d) -> NoDup (dkeys (dset k v d)).
Proof.
  intros Hnd. destruct (decide (k ∈ dkeys d)) as [Hk|Hk].
  - by rewrite dkeys_dset_present.
  - rewrite dkeys_dset_fresh by done. unfold dkeys. rewrite map_app. simpl.
    apply NoDup_app. repeat split; [done| |apply NoDup_singleton].
    intros x Hx. rewrite list_elem_of_singleton. by intros ->.
Qed.
End dict.

Lemma Forall_dset {A} (P : string * A -> Prop) k v (d : dict A) :
  P (k, v) -> Forall P d -> Forall P (dset k v d).
Proof.
  intros Hv. induction 1 as [|[k' v'] d Hx Hd IH]; simpl; [by repeat constructor|].
  destruct (String.eqb_spec k k') as [->|]; by constructor.
Qed.
Lemma forallb_Forall {A} (f : A -> bool) l : forallb f l = true <-> Forall (fun x => f x = true) l.
Proof.
  induction l as [|x l IH]; simpl; [by rewrite Forall_nil|].
  by rewrite andb_true_iff, Forall_cons, IH.
Qed.

Lemma Forall_zip_impl {A} (P Q R : A -> Prop) l :
  Forall P l -> Forall Q l -> (forall x, P x -> Q x -> R x) -> Forall R l.
Proof. intros HP HQ HR. induction HP; inv HQ; constructor; auto. Qed.
