(* ===== verification/Enums.v ===== *)
(** Exceptions of the runtime (errors.py and the error classes the other
    modules derive from it), together with the built-in Python exceptions the
    modelled code raises.  [exn_parent] is the [class C(Base)] clause of each
    class, [isinstance] what an [except] clause tests. *)
From S2P Require Import Prelude.


Inductive exn_class : Type :=
(* errors.py *)
| LeosError
| StepFailureError | PolicyError | SecurityError
| DryRunFailed | PreconditionFailed | PostconditionFailed | VerificationFailed
| SchemaValidationFailed | RollbackFailed | LLMOutputValidationError
| PolicyDenied | PolicyConfigurationError | PolicyIntegrityError
| SecretBoundaryViolation | SecretLeakedToUntrustedTool | SandboxViolation
| WorkspaceEscapeBlocked | RuntimeEgressBlocked
| ToolTimeout | BudgetExceeded | IdempotencyConflict | InvalidGoalTransition
(* classes of other modules *)
| SanitizationError | CredentialError | CredentialScopeError | CredentialExpiredError
| CredentialRevokedError | EvaluatorRegistryError | RuntimeStoreError | SerializationError
| SandboxUnavailable | ModelCallError | StructuredOutputError | ToolManifestRegistryError
| CredentialBackendUnavailable | GitHubAppUnavailable | GitHubAppAuthError
| GitHubAPIError | GitHubRateLimitError | GitHubConflictError | GitHubNotFoundError | GitHubAuthError
| ServerUnavailable | ServerConfigurationError
(* built-in *)
| PyException | KeyError | ValueError | TypeError | IndexError | AttributeError | RuntimeError | UnicodeDecodeError
| JSONDecodeError | OSError | TimeoutError | PermissionError | FileNotFoundError | FileExistsError | NotADirectoryError | IsADirectoryError
(* an exception raised by code outside the model (a tool, a callback) *)
| ForeignError (name : string).

#[export] Instance exn_class_eq_dec : EqDecision exn_class.
Proof. solve_decision. Defined.

(** The direct base class; [None] for the root. *)
Definition exn_parent (c : exn_class) : option exn_class :=
  match c with
  | PyException => None
  | LeosError => Some PyException
  | StepFailureError | PolicyError | SecurityError => Some LeosError
  | DryRunFailed | PreconditionFailed | PostconditionFailed | VerificationFailed
  | SchemaValidationFailed | RollbackFailed | LLMOutputValidationError => Some StepFailureError
  | PolicyDenied | PolicyConfigurationError | PolicyIntegrityError => Some PolicyError
  | SecretBoundaryViolation | SecretLeakedToUntrustedTool | SandboxViolation
  | WorkspaceEscapeBlocked | RuntimeEgressBlocked => Some SecurityError
  | ToolTimeout | BudgetExceeded | IdempotencyConflict | InvalidGoalTransition => Some LeosError
  | SanitizationError | CredentialError | EvaluatorRegistryError | RuntimeStoreError
  | SandboxUnavailable | ModelCallError | StructuredOutputError | ToolManifestRegistryError
  | GitHubAppUnavailable | GitHubAppAuthError | GitHubAPIError | ServerUnavailable | ServerConfigurationError => Some LeosError
  | GitHubRateLimitError | GitHubConflictError | GitHubNotFoundError | GitHubAuthError => Some GitHubAPIError
  | CredentialScopeError | CredentialExpiredError | CredentialRevokedError
  | CredentialBackendUnavailable => Some CredentialError
  | SerializationError | UnicodeDecodeError | JSONDecodeError => Some ValueError
  | KeyError | ValueError | TypeError | IndexError | AttributeError | RuntimeError | OSError => Some PyException
  | TimeoutError | PermissionError | FileNotFoundError | FileExistsError | NotADirectoryError | IsADirectoryError => Some OSError
  | ForeignError _ => Some PyException
  end.

(** [issubclass(c, d)]; the hierarchy is four levels deep. *)
Fixpoint issubclass_fuel (n : nat) (c d : exn_class) : bool :=
  bool_decide (c = d) ||
  match n with
  | O => false
  | S n' => match exn_parent c with Some p => issubclass_fuel n' p d | None => false end
  end.
Definition issubclass (c d : exn_class) : bool := issubclass_fuel 4 c d.

(** [type(e).__name__] *)
Definition exn_name (c : exn_class) : string :=
  match c with
  | LeosError => "LeosError" | StepFailureError => "StepFailureError" | PolicyError => "PolicyError"
  | SecurityError => "SecurityError" | DryRunFailed => "DryRunFailed"
  | PreconditionFailed => "PreconditionFailed" | PostconditionFailed => "PostconditionFailed"
  | VerificationFailed => "VerificationFailed" | SchemaValidationFailed => "SchemaValidationFailed"
  | RollbackFailed => "RollbackFailed" | LLMOutputValidationError => "LLMOutputValidationError"
  | PolicyDenied => "PolicyDenied" | PolicyConfigurationError => "PolicyConfigurationError"
  | PolicyIntegrityError => "PolicyIntegrityError" | SecretBoundaryViolation => "SecretBoundaryViolation"
  | SecretLeakedToUntrustedTool => "SecretLeakedToUntrustedTool" | SandboxViolation => "SandboxViolation"
  | WorkspaceEscapeBlocked => "WorkspaceEscapeBlocked" | RuntimeEgressBlocked => "RuntimeEgressBlocked"
  | ToolTimeout => "ToolTimeout" | BudgetExceeded => "BudgetExceeded"
  | IdempotencyConflict => "IdempotencyConflict" | InvalidGoalTransition => "InvalidGoalTransition"
  | SanitizationError => "SanitizationError" | CredentialError => "CredentialError"
  | CredentialScopeError => "CredentialScopeError" | CredentialExpiredError => "CredentialExpiredError"
  | CredentialRevokedError => "CredentialRevokedError" | EvaluatorRegistryError => "EvaluatorRegistryError"
  | RuntimeStoreError => "RuntimeStoreError" | SerializationError => "SerializationError"
  | RuntimeError => "RuntimeError" | PyException => "Exception" | KeyError => "KeyError"
  | ValueError => "ValueError" | TypeError => "TypeError" | PermissionError => "PermissionError"
  | IndexError => "IndexError" | UnicodeDecodeError => "UnicodeDecodeError" | OSError => "OSError"
  | FileNotFoundError => "FileNotFoundError" | FileExistsError => "FileExistsError"
  | NotADirectoryError => "NotADirectoryError" | IsADirectoryError => "IsADirectoryError"
  | SandboxUnavailable => "SandboxUnavailable" | ModelCallError => "ModelCallError"
  | StructuredOutputError => "StructuredOutputError"
  | ToolManifestRegistryError => "ToolManifestRegistryError"
  | CredentialBackendUnavailable => "CredentialBackendUnavailable"
  | GitHubAppUnavailable => "GitHubAppUnavailable" | GitHubAppAuthError => "GitHubAppAuthError"
  | GitHubAPIError => "GitHubAPIError" | GitHubRateLimitError => "GitHubRateLimitError"
  | GitHubConflictError => "GitHubConflictError" | GitHubNotFoundError => "GitHubNotFoundError"
  | GitHubAuthError => "GitHubAuthError" | AttributeError => "AttributeError"
  | ServerUnavailable => "ServerUnavailable" | ServerConfigurationError => "ServerConfigurationError"
  | JSONDecodeError => "JSONDecodeError" | TimeoutError => "TimeoutError" | ForeignError n => n
  end.

Record exn : Type := Exn { exn_cls : exn_class; exn_msg : string }.

#[export] Instance exn_eq_dec : EqDecision exn.
Proof. solve_decision. Defined.

(** [str(e)]: a KeyError prints the [repr] of its argument. *)
Definition exn_str (e : exn) : string :=
  if decide (exn_cls e = KeyError) then py_repr (exn_msg e) else exn_msg e.

Definition isinstance (e : exn) (c : exn_class) : bool := issubclass (exn_cls e) c.

(** Every class is an [Exception]: no [except Exception] clause of the program misses one. *)
Lemma issubclass_PyException c : issubclass c PyException = true.
Proof. by destruct c. Qed.

(** * Runtime enumerations and risk helpers (enums.py), and the class [PyEnum]
    of Python string enums: a finite list of members with distinct values. *)


(** A [class C(str, Enum)]: [C(value)] searches the members for the value and
    raises ValueError when there is none. *)
Class PyEnum (A : Type) := {
  enum_name : string;
  enum_all : list A;
  enum_value : A -> string;
  enum_all_complete : forall a, a ∈ enum_all;
  enum_value_inj :: Inj (=) (=) enum_value;
}.
#[global] Hint Mode PyEnum ! : typeclass_instances.
#[global] Arguments enum_name A {_}.
#[global] Arguments enum_all A {_}.

Definition enum_of {A} `{PyEnum A} (v : string) : res exn A :=
  match List.find (fun a => String.eqb (enum_value a) v) (enum_all A) with
  | Some a => Ok a
  | None => Raise (Exn ValueError (py_repr v +:+ " is not a valid " +:+ enum_name A))
  end.

Lemma enum_of_value {A} `{PyEnum A} (a : A) : enum_of (enum_value a) = Ok a.
Proof.
  unfold enum_of. destruct (List.find _ _) as [b|] eqn:E.
  - apply List.find_some in E as [_ E]. apply String.eqb_eq, (inj enum_value) in E. by subst.
  - exfalso. pose proof (enum_all_complete a) as Ha. rewrite list_elem_of_In in Ha.
    pose proof (List.find_none _ _ E _ Ha) as Hn. simpl in Hn. by rewrite String.eqb_refl in Hn.
Qed.
Lemma enum_of_inv {A} `{PyEnum A} v (a : A) : enum_of v = Ok a -> enum_value a = v.
Proof.
  unfold enum_of. destruct (List.find _ _) as [b|] eqn:E; intros H0; simplify_eq.
  apply List.find_some in E as [_ E]. by apply String.eqb_eq.
Qed.

Ltac solve_enum_complete := intros []; apply (bool_decide_unpack _); vm_compute; exact I.
Ltac solve_enum_inj := intros [] [] H; done || discriminate H.

Inductive Permission : Type :=
| READ_MEMORY | WRITE_MEMORY | READ_FILES | WRITE_FILES | NETWORK | SEND_MESSAGE
| EXECUTE_CODE | DELETE | FINANCIAL | SYSTEM_CONFIG.
Definition Permission_value (p : Permission) : string :=
  match p with
  | READ_MEMORY => "read_memory" | WRITE_MEMORY => "write_memory" | READ_FILES => "read_files"
  | WRITE_FILES => "write_files" | NETWORK => "network" | SEND_MESSAGE => "send_message"
  | EXECUTE_CODE => "execute_code" | DELETE => "delete" | FINANCIAL => "financial"
  | SYSTEM_CONFIG => "system_config"
  end.
#[export] Instance Permission_eq_dec : EqDecision Permission.
Proof. solve_decision. Defined.
#[export] Program Instance Permission_enum : PyEnum Permission := {|
  enum_name := "Permission"; enum_value := Permission_value;
  enum_all := [READ_MEMORY; WRITE_MEMORY; READ_FILES; WRITE_FILES; NETWORK; SEND_MESSAGE;
               EXECUTE_CODE; DELETE; FINANCIAL; SYSTEM_CONFIG] |}.
Next Obligation. solve_enum_complete. Qed.
Next Obligation. solve_enum_inj. Qed.

Inductive RiskLevel : Type := LOW | MEDIUM | HIGH | CRITICAL.
Definition RiskLevel_value (r : RiskLevel) : string :=
  match r with LOW => "low" | MEDIUM => "medium" | HIGH => "high" | CRITICAL => "critical" end.
#[export] Instance RiskLevel_eq_dec : EqDecision RiskLevel.
Proof. solve_decision. Defined.
#[export] Program Instance RiskLevel_enum : PyEnum RiskLevel := {|
  enum_name := "RiskLevel"; enum_value := RiskLevel_value; enum_all := [LOW; MEDIUM; HIGH; CRITICAL] |}.
Next Obligation. solve_enum_complete. Qed.
Next Obligation. solve_enum_inj. Qed.

Inductive Reversibility : Type := REVERSIBLE | COMPENSATABLE | IRREVERSIBLE.
Definition Reversibility_value (r : Reversibility) : string :=
  match r with
  | REVERSIBLE => "reversible" | COMPENSATABLE => "compensatable" | IRREVERSIBLE => "irreversible"
  end.
#[export] Instance Reversibility_eq_dec : EqDecision Reversibility.
Proof. solve_decision. Defined.
#[export] Program Instance Reversibility_enum : PyEnum Reversibility := {|
  enum_name := "Reversibility"; enum_value := Reversibility_value;
  enum_all := [REVERSIBLE; COMPENSATABLE; IRREVERSIBLE] |}.
Next Obligation. solve_enum_complete. Qed.
Next Obligation. solve_enum_inj. Qed.

Inductive CompensationStrategy : Type := CS_UNDO | CS_COMPENSATE | CS_MANUAL | CS_NONE.
Definition CompensationStrategy_value (c : CompensationStrategy) : string :=
  match c with
  | CS_UNDO => "undo" | CS_COMPENSATE => "compensate" | CS_MANUAL => "manual" | CS_NONE => "none"
  end.
#[export] Instance CompensationStrategy_eq_dec : EqDecision CompensationStrategy.
Proof. solve_decision. Defined.
#[export] Program Instance CompensationStrategy_enum : PyEnum CompensationStrategy := {|
  enum_name := "CompensationStrategy"; enum_value := CompensationStrategy_value;
  enum_all := [CS_UNDO; CS_COMPENSATE; CS_MANUAL; CS_NONE] |}.
Next Obligation. solve_enum_complete. Qed.
Next Obligation. solve_enum_inj. Qed.

Inductive Decision : Type := APPROVED | DENIED | NEEDS_HUMAN.
Definition Decision_value (d : Decision) : string :=
  match d with APPROVED => "approved" | DENIED => "denied" | NEEDS_HUMAN => "needs_human" end.
#[export] Instance Decision_eq_dec : EqDecision Decision.
Proof. solve_decision. Defined.
#[export] Program Instance Decision_enum : PyEnum Decision := {|
  enum_name := "Decision"; enum_value := Decision_value; enum_all := [APPROVED; DENIED; NEEDS_HUMAN] |}.
Next Obligation. solve_enum_complete. Qed.
Next Obligation. solve_enum_inj. Qed.

Inductive StepStatus : Type :=
| PENDING | DRY_RUN_OK | EXECUTED | VERIFIED | ROLLED_BACK | FAILED | BLOCKED.
Definition StepStatus_value (s : StepStatus) : string :=
  match s with
  | PENDING => "pending" | DRY_RUN_OK => "dry_run_ok" | EXECUTED => "executed"
  | VERIFIED => "verified" | ROLLED_BACK => "rolled_back" | FAILED => "failed" | BLOCKED => "blocked"
  end.
#[export] Instance StepStatus_eq_dec : EqDecision StepStatus.
Proof. solve_decision. Defined.
#[export] Program Instance StepStatus_enum : PyEnum StepStatus := {|
  enum_name := "StepStatus"; enum_value := StepStatus_value;
  enum_all := [PENDING; DRY_RUN_OK; EXECUTED; VERIFIED; ROLLED_BACK; FAILED; BLOCKED] |}.
Next Obligation. solve_enum_complete. Qed.
Next Obligation. solve_enum_inj. Qed.

Inductive GoalStatus : Type :=
| G_CREATED | G_CLARIFYING | G_PLANNING | G_AWAITING_APPROVAL | G_RUNNING | G_PAUSED
| G_BLOCKED | G_FAILED | G_PARTIALLY_DONE | G_SUCCEEDED | G_CANCELLED | G_ARCHIVED.
Definition GoalStatus_value (g : GoalStatus) : string :=
  match g with
  | G_CREATED => "created" | G_CLARIFYING => "clarifying" | G_PLANNING => "planning"
  | G_AWAITING_APPROVAL => "awaiting_approval" | G_RUNNING => "running" | G_PAUSED => "paused"
  | G_BLOCKED => "blocked" | G_FAILED => "failed" | G_PARTIALLY_DONE => "partially_done"
  | G_SUCCEEDED => "succeeded" | G_CANCELLED => "cancelled" | G_ARCHIVED => "archived"
  end.
#[export] Instance GoalStatus_eq_dec : EqDecision GoalStatus.
Proof. solve_decision. Defined.
#[export] Program Instance GoalStatus_enum : PyEnum GoalStatus := {|
  enum_name := "GoalStatus"; enum_value := GoalStatus_value;
  enum_all := [G_CREATED; G_CLARIFYING; G_PLANNING; G_AWAITING_APPROVAL; G_RUNNING; G_PAUSED;
               G_BLOCKED; G_FAILED; G_PARTIALLY_DONE; G_SUCCEEDED; G_CANCELLED; G_ARCHIVED] |}.
Next Obligation. solve_enum_complete. Qed.
Next Obligation. solve_enum_inj. Qed.

Inductive TaskStatus : Type :=
| T_QUEUED | T_RUNNING | T_PAUSED | T_CANCELLED | T_SUCCEEDED | T_FAILED | T_TIMED_OUT.
Definition TaskStatus_value (t : TaskStatus) : string :=
  match t with
  | T_QUEUED => "queued" | T_RUNNING => "running" | T_PAUSED => "paused" | T_CANCELLED => "cancelled"
  | T_SUCCEEDED => "succeeded" | T_FAILED => "failed" | T_TIMED_OUT => "timed_out"
  end.
#[export] Instance TaskStatus_eq_dec : EqDecision TaskStatus.
Proof. solve_decision. Defined.
#[export] Program Instance TaskStatus_enum : PyEnum TaskStatus := {|
  enum_name := "TaskStatus"; enum_value := TaskStatus_value;
  enum_all := [T_QUEUED; T_RUNNING; T_PAUSED; T_CANCELLED; T_SUCCEEDED; T_FAILED; T_TIMED_OUT] |}.
Next Obligation. solve_enum_complete. Qed.
Next Obligation. solve_enum_inj. Qed.

Inductive SandboxPolicy : Type := SP_NONE | SP_WORKSPACE | SP_CONTAINER | SP_MICROVM.
Definition SandboxPolicy_value (s : SandboxPolicy) : string :=
  match s with
  | SP_NONE => "none" | SP_WORKSPACE => "workspace" | SP_CONTAINER => "container" | SP_MICROVM => "microvm"
  end.
#[export] Instance SandboxPolicy_eq_dec : EqDecision SandboxPolicy.
Proof. solve_decision. Defined.
#[export] Program Instance SandboxPolicy_enum : PyEnum SandboxPolicy := {|
  enum_name := "SandboxPolicy"; enum_value := SandboxPolicy_value;
  enum_all := [SP_NONE; SP_WORKSPACE; SP_CONTAINER; SP_MICROVM] |}.
Next Obligation. solve_enum_complete. Qed.
Next Obligation. solve_enum_inj. Qed.

(** [_RISK_VALUES] and [_risk_value] *)
Definition risk_value (r : RiskLevel) : Z :=
  match r with LOW => 1 | MEDIUM => 2 | HIGH => 3 | CRITICAL => 4 end.

(** [max(risks, key=_risk_value, default=RiskLevel.LOW)]: the first maximal element. *)
Definition max_risk (risks : list RiskLevel) : RiskLevel :=
  match risks with
  | [] => LOW
  | r :: rs => fold_left (fun m x => if (risk_value m <? risk_value x)%Z then x else m) rs r
  end.

#[export] Instance risk_value_inj : Inj (=) (=) risk_value.
Proof. intros [] [] H; done || discriminate H. Qed.

Lemma max_risk_fold_upper rs r x :
  x = r \/ x ∈ rs ->
  (risk_value x <= risk_value (fold_left (fun m y => if (risk_value m <? risk_value y)%Z then y else m) rs r))%Z.
Proof.
  revert r x. induction rs as [|y rs IH]; intros r x; simpl.
  - intros [->|Hx]; [lia|by apply elem_of_nil in Hx].
  - assert (Hhd : forall z, z = r \/ z = y -> (risk_value z <=
        risk_value (if (risk_value r <? risk_value y)%Z then y else r))%Z).
    { intros z [-> | ->]; destruct (Z.ltb_spec (risk_value r) (risk_value y)); lia. }
    rewrite elem_of_cons. intros [->|[->|Hx]].
    + etrans; [apply (Hhd r); by left|]. apply IH. by left.
    + etrans; [apply (Hhd y); by right|]. apply IH. by left.
    + apply IH. by right.
Qed.
(** [_max_risk] bounds every risk of the list. *)
Lemma max_risk_upper risks r : r ∈ risks -> (risk_value r <= risk_value (max_risk risks))%Z.
Proof.
  destruct risks as [|x rs]; simpl; [by intros H%elem_of_nil|].
  rewrite elem_of_cons. intros [->|H]; apply max_risk_fold_upper; auto.
Qed.
