(* ===== verification/PyValue.v ===== *)
(** Python values of static type [Any], as the program passes them in step
    arguments, observed state deltas, audit payloads and world facts, with the
    language's own operations on them: [==], truth value, [str]/[repr] and
    [json.dumps].

    [VSecret] and [VHandle] are instances of the program's classes [Secret]
    (tools.py) and [SecretHandle] (credentials.py); a [Secret] has no [__eq__],
    so it carries an object identity.  [VRecord] is an instance of some other dataclass
    (name and fields in order), [VObj] any other object.  Mapping keys are strings. *)
From S2P Require Import Prelude Enums.

(** Platform functions the program calls and this development leaves
    uninterpreted: hashlib/hmac (OpenSSL), the shortest float representation of
    the C runtime, object addresses in default [repr]s, the clock, the uuid
    generator and the address classification of the [ipaddress] module. *)
Class PyRuntime := {
  sha256_hex : string -> string;              (** hashlib.sha256(s.encode()).hexdigest() *)
  hmac_sha256_hex : string -> string -> string; (** hmac.new(key, msg, sha256).hexdigest() *)
  float_repr : float -> string;               (** repr of a finite float *)
  float_fmt2 : float -> string;               (** format(f, ".2f") *)
  float_of_str : string -> option float;      (** float(s); [None] when it raises ValueError *)
  float_sum : list float -> float;            (** sum(...) of a non-empty list of floats *)
  set_order : list string -> list string;     (** iteration order of a set of strings *)
  obj_repr : string -> nat -> string;         (** default repr of an object *)
  time_at : nat -> float;                     (** result of the n-th call of time.time() *)
  uuid_at : nat -> string;                    (** result of the n-th call of str(uuid.uuid4()) *)
  (** [ip_address(s)]: [None] when it raises ValueError, otherwise whether one of
      is_loopback, is_private, is_link_local, is_multicast, is_reserved, is_unspecified holds *)
  ip_blocked : string -> option bool;
}.

Inductive pyval : Type :=
| VNone
| VBool (b : bool)
| VInt (z : Z)
| VFloat (f : float)
| VStr (s : string)
| VEnum (cls member value : string)
| VBytes (len : nat)
| VPath (s : string)
| VSecret (oid : nat) (value : string)
| VHandle (handle_id scope : string) (created_at : float) (expires_at : option float)
| VList (l : list pyval)
| VTuple (l : list pyval)
| VSet (l : list pyval)
| VDict (d : list (string * pyval))
| VRecord (cls : string) (fields : list (string * pyval))
| VObj (ty : string) (oid : nat).

(** [json.loads]: the value of a text, or the message of the JSONDecodeError. *)
Class JsonText := { json_loads : string -> string + pyval }.

(** Induction with hypotheses for the components of containers. *)
Section pyval_ind'.
Context (P : pyval -> Prop).
Context (HNone : P VNone) (HBool : forall b, P (VBool b)) (HInt : forall z, P (VInt z))
  (HFloat : forall f, P (VFloat f)) (HStr : forall s, P (VStr s))
  (HEnum : forall c m v, P (VEnum c m v)) (HBytes : forall n, P (VBytes n))
  (HPath : forall s, P (VPath s)) (HSecret : forall o v, P (VSecret o v))
  (HHandle : forall i s c e, P (VHandle i s c e))
  (HList : forall l, Forall P l -> P (VList l))
  (HTuple : forall l, Forall P l -> P (VTuple l))
  (HSet : forall l, Forall P l -> P (VSet l))
  (HDict : forall d, Forall (fun kv => P kv.2) d -> P (VDict d))
  (HRecord : forall c d, Forall (fun kv => P kv.2) d -> P (VRecord c d))
  (HObj : forall t o, P (VObj t o)).

Fixpoint pyval_ind' (v : pyval) : P v :=
  let list_ind := fix go (l : list pyval) : Forall P l :=
    match l with [] => List.Forall_nil _ | x :: l' => @List.Forall_cons _ P x l' (pyval_ind' x) (go l') end in
  let dict_ind := fix go (d : list (string * pyval)) : Forall (fun kv => P kv.2) d :=
    match d with
    | [] => List.Forall_nil _
    | kv :: d' => @List.Forall_cons _ (fun kv => P kv.2) kv d' (pyval_ind' kv.2) (go d')
    end in
  match v with
  | VNone => HNone | VBool b => HBool b | VInt z => HInt z | VFloat f => HFloat f
  | VStr s => HStr s | VEnum c m x => HEnum c m x | VBytes n => HBytes n | VPath s => HPath s
  | VSecret o x => HSecret o x | VHandle i s c e => HHandle i s c e
  | VList l => HList l (list_ind l) | VTuple l => HTuple l (list_ind l)
  | VSet l => HSet l (list_ind l) | VDict d => HDict d (dict_ind d)
  | VRecord c d => HRecord c d (dict_ind d) | VObj t o => HObj t o
  end.
End pyval_ind'.

(** ** Equality [==] *)

(** Exact comparison of a float with an integer, as Python performs it. *)
Definition fcompare_Z (f : float) (z : Z) : option comparison :=
  match f with
  | S754_zero _ => Some (0 ?= z)%Z
  | S754_infinity s => Some (if s then Lt else Gt)
  | S754_nan => None
  | S754_finite s m e =>
      let n := if s then Z.neg m else Z.pos m in
      Some (if (0 <=? e)%Z then (n * 2 ^ e ?= z)%Z else (n ?= z * 2 ^ (- e))%Z)
  end.

Inductive pynum : Type := NInt (z : Z) | NFloat (f : float).
Definition as_num (v : pyval) : option pynum :=
  match v with
  | VBool b => Some (NInt (if b then 1 else 0))
  | VInt z => Some (NInt z)
  | VFloat f => Some (NFloat f)
  | _ => None
  end.
Definition num_compare (a b : pynum) : option comparison :=
  match a, b with
  | NInt x, NInt y => Some (x ?= y)%Z
  | NFloat x, NFloat y => SFcompare x y
  | NFloat x, NInt y => fcompare_Z x y
  | NInt x, NFloat y => CompOpp <$> fcompare_Z y x
  end.
Definition is_eq (c : option comparison) : bool := match c with Some Eq => true | _ => false end.

(** The text of a [str] (or of a string enum, which compares as its value). *)
Definition as_str (v : pyval) : option string :=
  match v with VStr s => Some s | VEnum _ _ s => Some s | _ => None end.

Definition opt_float_eq (a b : option float) : bool :=
  match a, b with
  | None, None => true
  | Some x, Some y => feqb x y
  | _, _ => false
  end.

Fixpoint py_eq (a b : pyval) {struct a} : bool :=
  let list_eq := fix go (l l' : list pyval) : bool :=
    match l, l' with
    | [], [] => true
    | x :: l, y :: l' => py_eq x y && go l l'
    | _, _ => false
    end in
  let dict_sub := fix go (d : list (string * pyval)) (d' : list (string * pyval)) : bool :=
    match d with
    | [] => true
    | kv :: d => match dget kv.1 d' with Some y => py_eq kv.2 y | None => false end && go d d'
    end in
  let set_sub := fix go (l l' : list pyval) : bool :=
    match l with
    | [] => true
    | x :: l => existsb (py_eq x) l' && go l l'
    end in
  match a, b with
  | VNone, VNone => true
  | VBytes n, VBytes m => (n =? m)%nat
  | VPath s, VPath s' => String.eqb s s'
  | VSecret o _, VSecret o' _ => (o =? o')%nat
  | VHandle i s c e, VHandle i' s' c' e' =>
      String.eqb i i' && String.eqb s s' && feqb c c' && opt_float_eq e e'
  | VList l, VList l' => list_eq l l'
  | VTuple l, VTuple l' => list_eq l l'
  | VSet l, VSet l' => (length l =? length l')%nat && set_sub l l'
  | VDict d, VDict d' => (length d =? length d')%nat && dict_sub d d'
  | VRecord c d, VRecord c' d' => String.eqb c c' && (length d =? length d')%nat && dict_sub d d'
  | VObj _ o, VObj _ o' => (o =? o')%nat
  | _, _ =>
      match as_str a, as_str b with
      | Some s, Some s' => String.eqb s s'
      | _, _ =>
          match as_num a, as_num b with
          | Some x, Some y => is_eq (num_compare x y)
          | _, _ => false
          end
      end
  end.
Definition py_neq (a b : pyval) : bool := negb (py_eq a b).

(** [bool(v)] *)
Definition truthy (v : pyval) : bool :=
  match v with
  | VNone => false
  | VBool b => b
  | VInt z => negb (z =? 0)%Z
  | VFloat f => negb (match f with S754_zero _ => true | _ => false end)
  | VStr s | VEnum _ _ s => negb (String.eqb s "")
  | VBytes n => negb (n =? 0)%nat
  | VList l | VTuple l | VSet l => negb (length l =? 0)%nat
  | VDict d => negb (length d =? 0)%nat
  | _ => true
  end.

(** Values that [hash] accepts; lists, dicts and sets are unhashable. *)
Fixpoint hashable (v : pyval) : bool :=
  match v with
  | VList _ | VDict _ | VSet _ => false
  | VTuple l => forallb hashable l
  | _ => true
  end.

(** [x in c] *)
Definition py_in (x c : pyval) : res exn bool :=
  let type_error := Raise (Exn TypeError "argument is not a valid container or member") in
  match c with
  | VList l | VTuple l => Ok (existsb (fun y => py_eq y x) l)
  | VSet l => if hashable x then Ok (existsb (fun y => py_eq y x) l) else type_error
  | VDict d =>
      if hashable x
      then Ok (match as_str x with Some k => dmem k d | None => false end)
      else type_error
  | VStr s | VEnum _ _ s => match as_str x with Some t => Ok (str_in t s) | None => type_error end
  | _ => type_error
  end.

(** [type(v).__name__] *)
Definition type_name (v : pyval) : string :=
  match v with
  | VNone => "NoneType" | VBool _ => "bool" | VInt _ => "int" | VFloat _ => "float" | VStr _ => "str"
  | VEnum c _ _ => c | VBytes _ => "bytes" | VPath _ => "PosixPath" | VSecret _ _ => "Secret"
  | VHandle _ _ _ _ => "SecretHandle" | VList _ => "list" | VTuple _ => "tuple" | VSet _ => "set"
  | VDict _ => "dict" | VRecord c _ => c | VObj t _ => t
  end.

Section runtime.
Context `{PyRuntime}.

Definition float_str (f : float) : string :=
  match f with
  | S754_nan => "nan"
  | S754_infinity false => "inf"
  | S754_infinity true => "-inf"
  | _ => float_repr f
  end.

(** [repr(v)] *)
Fixpoint py_repr_val (v : pyval) : string :=
  match v with
  | VNone => "None"
  | VBool b => if b then "True" else "False"
  | VInt z => str_Z z
  | VFloat f => float_str f
  | VStr s => py_repr s
  | VEnum c m x => "<" +:+ c +:+ "." +:+ m +:+ ": " +:+ py_repr x +:+ ">"
  | VBytes n => obj_repr "bytes" n
  | VPath s => "PosixPath(" +:+ py_repr s +:+ ")"
  | VSecret _ _ => "<secret>"
  | VHandle i s _ _ => "SecretHandle(handle_id=" +:+ py_repr i +:+ ", scope=" +:+ py_repr s +:+ ")"
  | VList l => "[" +:+ str_join ", " (map py_repr_val l) +:+ "]"
  | VTuple l =>
      match l with
      | [x] => "(" +:+ py_repr_val x +:+ ",)"
      | _ => "(" +:+ str_join ", " (map py_repr_val l) +:+ ")"
      end
  | VSet l =>
      match l with
      | [] => "set()"
      | _ => "{" +:+ str_join ", " (map py_repr_val l) +:+ "}"
      end
  | VDict d => "{" +:+ str_join ", " (map (fun kv => py_repr kv.1 +:+ ": " +:+ py_repr_val kv.2) d) +:+ "}"
  | VRecord c d => c +:+ "(" +:+ str_join ", " (map (fun kv => kv.1 +:+ "=" +:+ py_repr_val kv.2) d) +:+ ")"
  | VObj t o => obj_repr t o
  end.

(** [str(v)] *)
Definition py_str (v : pyval) : string :=
  match v with
  | VStr s => s
  | VEnum c m _ => c +:+ "." +:+ m
  | VPath s => s
  | VHandle i _ _ _ => i
  | _ => py_repr_val v
  end.

(** [float(v)] *)
Definition py_float (v : pyval) : res exn float :=
  match v with
  | VFloat f => Ok f
  | VBool b => Ok (f_of_Z (if b then 1 else 0))
  | VInt z =>
      match f_of_Z z with
      | S754_infinity _ => Raise (Exn (ForeignError "OverflowError") "int too large to convert to float")
      | f => Ok f
      end
  | VStr s | VEnum _ _ s =>
      match float_of_str s with
      | Some f => Ok f
      | None => Raise (Exn ValueError ("could not convert string to float: " +:+ py_repr s))
      end
  | _ => Raise (Exn TypeError ("float() argument must be a string or a real number, not '" +:+ type_name v +:+ "'"))
  end.

(** The characters of a string, as UTF-8 sequences. *)
Fixpoint py_chars (s cur : string) : list string :=
  match s with
  | EmptyString => if String.eqb cur "" then [] else [cur]
  | String c s' =>
      let n := nat_of_ascii c in
      if (128 <=? n)%nat && (n <? 192)%nat then py_chars s' (cur +:+ String c "")
      else (if String.eqb cur "" then [] else [cur]) ++ py_chars s' (String c "")
  end.
(** What [for x in v] ranges over. *)
Definition py_iter (v : pyval) : res exn (list pyval) :=
  match v with
  | VList l | VTuple l | VSet l => Ok l
  | VDict d => Ok (map VStr (dkeys d))
  | VStr s | VEnum _ _ s => Ok (map VStr (py_chars s ""))
  | VBytes n => Raise (Exn TypeError "bytes contents are not modelled")
  | _ => Raise (Exn TypeError ("'" +:+ type_name v +:+ "' object is not iterable"))
  end.

(** [int(v)]; the digit limit of the interpreter is not modelled. *)
Fixpoint digits_value (s : string) (after_digit : bool) (acc : Z) : option Z :=
  match s with
  | EmptyString => if after_digit then Some acc else None
  | String c s' =>
      if is_digit c then digits_value s' true (acc * 10 + (Z.of_nat (nat_of_ascii c) - 48))
      else if Ascii.eqb c "_"%char && after_digit then digits_value s' false acc else None
  end.
Definition int_of_str (s : string) : option Z :=
  match py_strip s with
  | String "+" s' => digits_value s' false 0
  | String "-" s' => Z.opp <$> digits_value s' false 0
  | s' => digits_value s' false 0
  end.
Definition int_of_float (f : float) : res exn Z :=
  match f with
  | S754_zero _ => Ok 0%Z
  | S754_infinity _ => Raise (Exn (ForeignError "OverflowError") "cannot convert float infinity to integer")
  | S754_nan => Raise (Exn ValueError "cannot convert float NaN to integer")
  | S754_finite s m e =>
      let n := if (0 <=? e)%Z then (Z.pos m * 2 ^ e)%Z else (Z.pos m / 2 ^ (- e))%Z in Ok (if s then (- n)%Z else n)
  end.
Definition py_int (v : pyval) : res exn Z :=
  match v with
  | VBool b => Ok (if b then 1 else 0)%Z
  | VInt z => Ok z
  | VFloat f => int_of_float f
  | VStr s | VEnum _ _ s =>
      match int_of_str s with
      | Some z => Ok z
      | None => Raise (Exn ValueError ("invalid literal for int() with base 10: " +:+ py_repr s))
      end
  | _ => Raise (Exn TypeError ("int() argument must be a string, a bytes-like object or a real number, not '" +:+
                               type_name v +:+ "'"))
  end.

(** ** [json.dumps(v, ensure_ascii=False, sort_keys=True, default=str, separators=...)] *)

Definition json_char (c : ascii) : string :=
  if Ascii.eqb c dq then String bslash (String dq "")
  else if Ascii.eqb c bslash then String bslash (String bslash "")
  else if Ascii.eqb c (ascii_of_nat 10) then String bslash "n"
  else if Ascii.eqb c (ascii_of_nat 13) then String bslash "r"
  else if Ascii.eqb c (ascii_of_nat 9) then String bslash "t"
  else if Ascii.eqb c (ascii_of_nat 12) then String bslash "f"
  else if Ascii.eqb c (ascii_of_nat 8) then String bslash "b"
  else if (nat_of_ascii c <? 32)%nat
  then String bslash (String "u" (String "0" (String "0" (String (hex_digit (nat_of_ascii c / 16))
         (String (hex_digit (nat_of_ascii c mod 16)) "")))))
  else String c "".
Definition json_string (s : string) : string :=
  String dq (string_flat_map json_char s +:+ String dq "").

Definition json_float (f : float) : string :=
  match f with
  | S754_nan => "NaN"
  | S754_infinity false => "Infinity"
  | S754_infinity true => "-Infinity"
  | _ => float_repr f
  end.

Fixpoint insert_item {A} (kv : string * A) (l : dict A) : dict A :=
  match l with
  | [] => [kv]
  | kv' :: l' => if String.leb kv.1 kv'.1 then kv :: l else kv' :: insert_item kv l'
  end.
Fixpoint sort_items {A} (l : dict A) : dict A :=
  match l with
  | [] => []
  | kv :: l' => insert_item kv (sort_items l')
  end.

(** The ensure_ascii=True encoding: every character outside [ -~] is written
    \uXXXX, astral characters as a surrogate pair. *)
Definition hex4 (n : nat) : string :=
  String bslash (String "u" (String (hex_digit (n / 4096)) (String (hex_digit (n / 256 mod 16))
    (String (hex_digit (n / 16 mod 16)) (String (hex_digit (n mod 16)) ""))))).
Definition json_code_point (n : nat) : string :=
  if (n <? 65536)%nat then hex4 n
  else hex4 (55296 + (n - 65536) / 1024) +:+ hex4 (56320 + (n - 65536) mod 1024).
(** [need] continuation bytes of the code point [cp] are still to be read. *)
Fixpoint json_ascii_aux (need cp : nat) (s : string) : string :=
  match s with
  | EmptyString => ""
  | String c s' =>
      let n := nat_of_ascii c in
      match need with
      | S need' =>
          let cp' := (cp * 64 + n mod 64)%nat in
          match need' with
          | O => json_code_point cp' +:+ json_ascii_aux 0 0 s'
          | _ => json_ascii_aux need' cp' s'
          end
      | O =>
          if (n <? 127)%nat then json_char c +:+ json_ascii_aux 0 0 s'
          else if (n =? 127)%nat then hex4 n +:+ json_ascii_aux 0 0 s'
          else if (n <? 224)%nat then json_ascii_aux 1 (n mod 32) s'
          else if (n <? 240)%nat then json_ascii_aux 2 (n mod 16) s'
          else json_ascii_aux 3 (n mod 8) s'
      end
  end.
Definition json_string_ascii (s : string) : string := String dq (json_ascii_aux 0 0 s +:+ String dq "").

(** [isep] and [ksep] are the two separators, [enc] the string encoder. *)
Section json.
Context (isep ksep : string) (enc : string -> string).

Fixpoint json_dumps (v : pyval) : string :=
  match v with
  | VNone => "null"
  | VBool b => if b then "true" else "false"
  | VInt z => str_Z z
  | VFloat f => json_float f
  | VStr s => enc s
  | VEnum _ _ s => enc s
  | VList l | VTuple l => "[" +:+ str_join isep (map json_dumps l) +:+ "]"
  | VDict d =>
      let item := fun kv : string * string => enc kv.1 +:+ ksep +:+ kv.2 in
      "{" +:+ str_join isep (map item (sort_items (map (fun kv => (kv.1, json_dumps kv.2)) d))) +:+ "}"
  | _ => enc (py_str v)
  end.
End json.
Lemma py_str_strs l : map py_str (map VStr l) = l.
Proof. induction l as [|s l IH]; [done|]. simpl. by rewrite IH. Qed.
End runtime.
