(* ===== verification/FileSystem.v ===== *)
(** The file system as the program's file tools use it: a tree of directories, files
    and symbolic links, the system calls with their error numbers, and on top of them the part of
    [pathlib] and [os.path] the tools call (CPython 3.10 to 3.12).

    A path is the list of its components from the root.  Links are followed at most 40 times by
    the kernel (Linux), while [Path.resolve] follows them itself and detects loops; a loop
    does not fail there, the rest of the path is then only normalized.  Permissions,
    name lengths and full disks are not part of the model. *)
From S2P Require Import Prelude Enums.

(** ** Paths *)

Abbreviation path := (list string).
Definition slash : ascii := "/"%char.
Fixpoint split_slash (s : string) : list string :=
  match s with
  | EmptyString => [""]
  | String c s' =>
      if Ascii.eqb c slash then "" :: split_slash s'
      else match split_slash s' with x :: l => String c x :: l | [] => [String c ""] end
  end.
Definition is_abs (s : string) : bool := String.prefix "/" s.
Definition path_str (p : path) : string := "/" +:+ str_join "/" p.
(** The components of [PurePosixPath(s)]: empty and [.] ones are dropped, [..] stays. *)
Definition is_dot (c : string) : bool := String.eqb c "" || String.eqb c ".".
Definition path_parts (s : string) : list string := filter (fun c => is_dot c = false) (split_slash s).
(** [root / s] *)
Definition joinpath (root : path) (s : string) : list string := if is_abs s then path_parts s else root ++ path_parts s.
Definition parent (p : path) : path := removelast p.
(** The last part of a path, with [PurePath.stem] and [PurePath.suffix]. *)
Definition last_part (p : path) : string := default "" (last p).
Fixpoint last_dot (n : nat) (s : string) : option nat :=
  match s with
  | EmptyString => None
  | String c s' => match last_dot (S n) s' with Some k => Some k | None => if Ascii.eqb c "." then Some n else None end
  end.
Definition split_suffix (file : string) : string * string :=
  match last_dot 0 file with
  | Some k => if (0 <? k)%nat && (k <? String.length file - 1)%nat
              then (String.substring 0 k file, String.substring k (String.length file - k) file) else (file, "")
  | None => (file, "")
  end.
Definition stem (file : string) : string := fst (split_suffix file).
Definition file_suffix (file : string) : string := snd (split_suffix file).
(** [os.path.commonpath] of two absolute paths without dots. *)
Fixpoint commonpath (a b : path) : path :=
  match a, b with
  | x :: a', y :: b' => if String.eqb x y then x :: commonpath a' b' else []
  | _, _ => []
  end.
(** [os.path.normpath] of an absolute path. *)
Fixpoint normpath (done : path) (rest : list string) : path :=
  match rest with
  | [] => done
  | c :: rest' =>
      if is_dot c then normpath done rest'
      else if String.eqb c ".." then normpath (parent done) rest'
      else normpath (done ++ [c]) rest'
  end.
Definition has_nul (c : string) : bool := existsb (fun a => Ascii.eqb a "000"%char) (list_ascii_of_string c).

(** ** The tree and the kernel's path walk *)

Inductive node := Dir | File (content : string) | Link (target : string).
#[export] Instance node_eq_dec : EqDecision node.
Proof. solve_decision. Defined.
Abbreviation FS := (gmap path node).
Definition node_at (fs : FS) (p : path) : option node := match p with [] => Some Dir | _ => fs !! p end.

Definition is_link (n : node) : bool := match n with Link _ => true | _ => false end.
Definition links (fs : FS) : FS := filter (fun kv => is_link kv.2 = true) fs.

Inductive errno := ENOENT | EEXIST | ENOTDIR | EISDIR | ELOOP.
#[export] Instance errno_eq_dec : EqDecision errno.
Proof. solve_decision. Defined.

Definition link_start (cur : path) (target : string) : path := if is_abs target then [] else cur.

(** The node a path names, all links followed, the last one too; with [creat] the last
    component may be missing. [n] is the number of links that may still be followed. *)
Fixpoint walk (n : nat) (creat : bool) (fs : FS) {struct n} : path -> list string -> errno + path :=
  fix go (cur : path) (rest : list string) {struct rest} : errno + path :=
    match rest with
    | [] => inr cur
    | c :: rest' =>
        if is_dot c then go cur rest'
        else if String.eqb c ".." then go (parent cur) rest'
        else match fs !! (cur ++ [c]) with
             | None => if creat && bool_decide (rest' = []) then inr (cur ++ [c]) else inl ENOENT
             | Some Dir => go (cur ++ [c]) rest'
             | Some (File _) => if bool_decide (rest' = []) then inr (cur ++ [c]) else inl ENOTDIR
             | Some (Link t) =>
                 match n with
                 | O => inl ELOOP
                 | S n' => walk n' creat fs (link_start cur t) (split_slash t ++ rest')
                 end
             end
    end.
Definition MAXSYMLINKS : nat := 40.
Definition namei (creat : bool) (fs : FS) (p : list string) : errno + path := walk MAXSYMLINKS creat fs [] p.
Definition stat (fs : FS) (p : list string) : errno + node :=
  match namei false fs p with
  | inr q => match node_at fs q with Some x => inr x | None => inl ENOENT end
  | inl e => inl e
  end.
(** The directory of a path and its last component, which is not followed. *)
Definition in_parent (fs : FS) (p : path) : errno + path :=
  match namei false fs (parent p) with
  | inr q => match node_at fs q with
             | Some Dir => inr (q ++ match last p with Some c => [c] | None => [] end)
             | _ => inl ENOTDIR
             end
  | inl e => inl e
  end.
Definition lstat (fs : FS) (p : path) : errno + node :=
  match in_parent fs p with
  | inr q => match node_at fs q with Some x => inr x | None => inl ENOENT end
  | inl e => inl e
  end.

(** ** [os.path.realpath] and [Path.resolve] *)

(** [join(p, rest)] for the part of a path that is left unresolved. *)
Definition raw_join (p rest : list string) : list string :=
  match rest with "" :: (_ :: _) as rest' => rest' | _ => p ++ rest end.
Definition nul_error : exn := Exn ValueError "embedded null byte".
(** [_joinrealpath]: [active] are the links being resolved, [d] bounds how many more can
    be nested.  The cache of resolved links only saves work. *)
Fixpoint joinreal (d : nat) (fs : FS) (active : list path) {struct d} :
    path -> list string -> res exn (list string * bool) :=
  fix go (cur : path) (rest : list string) {struct rest} : res exn (list string * bool) :=
    match rest with
    | [] => Ok (cur, true)
    | c :: rest' =>
        if is_dot c then go cur rest'
        else if String.eqb c ".." then go (parent cur) rest'
        else if has_nul c then Raise nul_error
        else
          let newpath := cur ++ [c] in
          match lstat fs newpath with
          | inr (Link t) =>
              if bool_decide (newpath ∈ active) then Ok (raw_join newpath rest', false)
              else match d with
                   | O => Ok (raw_join newpath rest', false)
                   | S d' =>
                       match joinreal d' fs (newpath :: active) (link_start cur t) (split_slash t) with
                       | Ok (p, true) => go p rest'
                       | Ok (p, false) => Ok (raw_join p rest', false)
                       | Raise e => Raise e
                       end
                   end
          | _ => go newpath rest'
          end
    end.
Definition realpath (fs : FS) (p : list string) : res exn (list string * bool) := joinreal (S (size (links fs))) fs [] [] p.
(** [Path.resolve()] of an absolute path; the [stat] at its end finds the loops that remain. *)
Definition resolve (fs : FS) (p : list string) : res exn path :=
  match realpath fs p with
  | Raise e => Raise e
  | Ok (q, _) =>
      let q := normpath [] q in
      if existsb has_nul q then Raise nul_error
      else match stat fs q with
           | inl ELOOP => Raise (Exn RuntimeError ("Symlink loop from " +:+ py_repr (path_str q)))
           | _ => Ok q
           end
  end.

(** ** Operations *)

Definition strerror (e : errno) : exn_class * string :=
  match e with
  | ENOENT => (FileNotFoundError, "[Errno 2] No such file or directory")
  | EEXIST => (FileExistsError, "[Errno 17] File exists")
  | ENOTDIR => (NotADirectoryError, "[Errno 20] Not a directory")
  | EISDIR => (IsADirectoryError, "[Errno 21] Is a directory")
  | ELOOP => (OSError, "[Errno 40] Too many levels of symbolic links")
  end.
Definition os_error (e : errno) (p : path) : exn :=
  Exn (strerror e).1 ((strerror e).2 +:+ ": " +:+ py_repr (path_str p)).

Abbreviation FM A := (M FS exn A).
Definition sys {A} (p : path) (r : errno + A) : FM A := match r with inr a => ret a | inl e => raise (os_error e p) end.
Definition path_exists (fs : FS) (p : path) : bool := match stat fs p with inr _ => true | inl _ => false end.
Definition is_dir (fs : FS) (p : path) : bool := match stat fs p with inr Dir => true | _ => false end.
Definition is_file (fs : FS) (p : path) : bool := match stat fs p with inr (File _) => true | _ => false end.
Definition read_bytes (p : path) : FM string :=
  let! n := (fun fs => sys p (stat fs p) fs) in
  match n with File c => ret c | _ => raise (os_error EISDIR p) end.

(** Well-formed UTF-8 (Unicode, table 3-7). *)
Fixpoint utf8_valid (s : string) : bool :=
  match s with
  | EmptyString => true
  | String a s1 =>
      if ascii_in 0 127 a then utf8_valid s1
      else match s1 with
      | EmptyString => false
      | String b s2 =>
          if ascii_in 194 223 a then ascii_in 128 191 b && utf8_valid s2
          else match s2 with
          | EmptyString => false
          | String c s3 =>
              if ascii_in 224 239 a
              then ascii_in (if ascii_in 224 224 a then 160 else 128) (if ascii_in 237 237 a then 159 else 191) b &&
                   ascii_in 128 191 c && utf8_valid s3
              else match s3 with
              | EmptyString => false
              | String d s4 =>
                  ascii_in 240 244 a &&
                  ascii_in (if ascii_in 240 240 a then 144 else 128) (if ascii_in 244 244 a then 143 else 191) b &&
                  ascii_in 128 191 c && ascii_in 128 191 d && utf8_valid s4
              end
          end
      end
  end.
(** Text mode reading turns CR LF and CR into LF. *)
Definition CR : ascii := "013"%char.
Definition LF : ascii := "010"%char.
Fixpoint universal_newlines (s : string) : string :=
  match s with
  | EmptyString => ""
  | String a s1 =>
      if Ascii.eqb a CR
      then String LF (match s1 with
                      | String b s2 => if Ascii.eqb b LF then universal_newlines s2 else universal_newlines s1
                      | EmptyString => ""
                      end)
      else String a (universal_newlines s1)
  end.
Definition decode_utf8 (s : string) : res exn string :=
  if utf8_valid s then Ok s else Raise (Exn UnicodeDecodeError "'utf-8' codec can't decode").
Definition read_text (p : path) : FM string :=
  let! raw := read_bytes p in
  let! s := of_res (decode_utf8 raw) in
  ret (universal_newlines s).
Definition write_text (p : path) (content : string) : FM unit := fun fs =>
  match namei true fs p with
  | inl e => raise (os_error e p) fs
  | inr q => match node_at fs q with
             | Some Dir => raise (os_error EISDIR p) fs
             | _ => (Ok tt, <[q := File content]> fs)
             end
  end.
Definition os_mkdir (p : path) : FM unit := fun fs =>
  match in_parent fs p with
  | inl e => raise (os_error e p) fs
  | inr q => match node_at fs q with
             | Some _ => raise (os_error EEXIST p) fs
             | None => (Ok tt, <[q := Dir]> fs)
             end
  end.
(** [mkdir(parents=..., exist_ok=True)]; [n] counts the parents left. *)
Definition exist_ok (p : path) (e : exn) : FM unit := fun fs =>
  if isinstance e OSError && is_dir fs p then (Ok tt, fs) else (Raise e, fs).
Definition mkdir_exist_ok (p : path) : FM unit :=
  catch (os_mkdir p) (fun e => if isinstance e FileNotFoundError then raise e else exist_ok p e).
Fixpoint mkdir_parents (n : nat) (p : path) : FM unit :=
  catch (os_mkdir p) (fun e =>
    if isinstance e FileNotFoundError then
      match n with
      | O => raise e
      | S n' => mkdir_parents n' (parent p) ;;; mkdir_exist_ok p
      end
    else exist_ok p e).
Definition mkdir (p : path) : FM unit := mkdir_parents (length p) p.
(** [unlink(missing_ok=True)] *)
Definition unlink (p : path) : FM unit := fun fs =>
  match in_parent fs p with
  | inl ENOENT => (Ok tt, fs)
  | inl e => raise (os_error e p) fs
  | inr q => match node_at fs q with
             | None => (Ok tt, fs)
             | Some Dir => raise (os_error EISDIR p) fs
             | Some _ => (Ok tt, delete q fs)
             end
  end.
