(* ===== verification/PyText.v ===== *)
(** Text encodings of Python's standard library that several components use: the layouts of
    [json.dumps], [str.replace], [html.escape], [urllib.parse.quote] and [urlencode], base64, and UTF-8
    decoding that replaces errors.  A string is the sequence of its UTF-8 bytes. *)
From S2P Require Import Prelude Enums PyValue FileSystem.

(** ** [json.dumps] without sorting *)

Section dumps.
Context `{PyRuntime}.
(** [json.dumps(v)] in insertion order; [enc] is the string encoder. *)
Fixpoint json_flat (enc : string -> string) (v : pyval) : string :=
  match v with
  | VList l | VTuple l => "[" +:+ str_join ", " (map (json_flat enc) l) +:+ "]"
  | VDict d => "{" +:+ str_join ", " (map (fun kv => enc kv.1 +:+ ": " +:+ json_flat enc kv.2) d) +:+ "}"
  | v => json_dumps ", " ": " enc v
  end.
(** [json.dumps(v, indent=2)] *)
Fixpoint spaces (n : nat) : string := match n with O => "" | S n' => String " " (spaces n') end.
Definition new_line (level : nat) : string := String LF (spaces (2 * level)).
Fixpoint json_indent (enc : string -> string) (level : nat) (v : pyval) : string :=
  let block (op cl : string) (items : list string) := match items with
    | [] => op +:+ cl
    | _ => op +:+ new_line (S level) +:+ str_join ("," +:+ new_line (S level)) items +:+ new_line level +:+ cl
    end in
  match v with
  | VList l | VTuple l => block "[" "]" (map (json_indent enc (S level)) l)
  | VDict d => block "{" "}" (map (fun kv => enc kv.1 +:+ ": " +:+ json_indent enc (S level) kv.2) d)
  | v => json_dumps ", " ": " enc v
  end.
End dumps.

(** ** [str] *)

Definition LF_str : string := String LF "".
Fixpoint drop_chars (n : nat) (s : string) : string :=
  match n, s with S n', String _ s' => drop_chars n' s' | _, _ => s end.
(** [s.replace(old, new)] for a non-empty [old]: [skip] characters of a match are still to be dropped. *)
Fixpoint replace_aux (old new : string) (skip : nat) (s : string) : string :=
  match s with
  | EmptyString => ""
  | String c s' =>
      match skip with
      | S k => replace_aux old new k s'
      | O => if String.prefix old s then new +:+ replace_aux old new (String.length old - 1) s'
             else String c (replace_aux old new 0 s')
      end
  end.
Definition str_replace (old new s : string) : string := replace_aux old new 0 s.
Definition ends_with (suffix s : string) : bool :=
  (String.length suffix <=? String.length s)%nat &&
  String.eqb (drop_chars (String.length s - String.length suffix) s) suffix.
(** [s.rstrip(c)] *)
Definition rstrip_char (c : ascii) (s : string) : string := strip_right (Ascii.eqb c) s.
(** [s.split(sep)] for a one-character separator. *)
Fixpoint split_on (sep : ascii) (s : string) : list string :=
  match s with
  | EmptyString => [""]
  | String c s' =>
      if Ascii.eqb c sep then "" :: split_on sep s'
      else match split_on sep s' with x :: l => String c x :: l | [] => [String c ""] end
  end.

(** ** [html.escape] *)

Definition html_char (c : ascii) : string :=
  if Ascii.eqb c "&" then "&amp;" else if Ascii.eqb c "<" then "&lt;" else if Ascii.eqb c ">" then "&gt;"
  else if Ascii.eqb c dq then "&quot;" else if Ascii.eqb c sq then "&#x27;" else String c "".
Definition html_escape (s : string) : string := string_flat_map html_char s.

(** ** [urllib.parse] *)

Definition always_safe (c : ascii) : bool :=
  is_alnum c || Ascii.eqb c "_" || Ascii.eqb c "." || Ascii.eqb c "-" || Ascii.eqb c "~".
Definition percent (c : ascii) : string :=
  let n := nat_of_ascii c in
  String "%" (String (upper_char (hex_digit (n / 16))) (String (upper_char (hex_digit (n mod 16))) "")).
Definition quote_char (safe : ascii -> bool) (c : ascii) : string :=
  if always_safe c || safe c then String c "" else percent c.
(** [quote(s, safe=...)] *)
Definition quote (safe : ascii -> bool) (s : string) : string := string_flat_map (quote_char safe) s.
Definition quote_plus (s : string) : string :=
  string_map (fun c => if Ascii.eqb c " " then "+"%char else c) (quote (Ascii.eqb " ") s).
Definition urlencode (d : dict string) : string :=
  str_join "&" (map (fun kv => quote_plus kv.1 +:+ "=" +:+ quote_plus kv.2) d).

(** ** base64 *)

Definition b64_char (n : Z) : ascii := ascii_of_N (Z.to_N
  (if n <? 26 then n + 65 else if n <? 52 then n + 71 else if n <? 62 then n - 4
   else if n =? 62 then 43 else 47))%Z.
Definition b64_val (c : ascii) : option Z :=
  let n := Z.of_N (N_of_ascii c) in
  if is_upper c then Some (n - 65)%Z else if is_lower c then Some (n - 71)%Z else if is_digit c then Some (n + 4)%Z
  else if Ascii.eqb c "+" then Some 62%Z else if Ascii.eqb c "/" then Some 63%Z else None.
Definition byte_of (c : ascii) : Z := Z.of_N (N_of_ascii c).
Definition chr (n : Z) : ascii := ascii_of_N (Z.to_N n).
Fixpoint b64encode (s : string) : string :=
  match s with
  | EmptyString => ""
  | String a EmptyString =>
      String (b64_char (byte_of a / 4)) (String (b64_char (byte_of a mod 4 * 16)) "==")
  | String a (String b EmptyString) =>
      String (b64_char (byte_of a / 4)) (String (b64_char (byte_of a mod 4 * 16 + byte_of b / 16))
        (String (b64_char (byte_of b mod 16 * 4)) "="))
  | String a (String b (String c s')) =>
      String (b64_char (byte_of a / 4)) (String (b64_char (byte_of a mod 4 * 16 + byte_of b / 16))
        (String (b64_char (byte_of b mod 16 * 4 + byte_of c / 64)) (String (b64_char (byte_of c mod 64)) (b64encode s'))))
  end.
(** [binascii.a2b_base64], not strict: characters outside the alphabet are skipped and complete padding ends
    the data.  [quad] sextets of the current group were read, [left] are the bits still to be written. *)
Fixpoint a2b_base64 (quad : nat) (pads : nat) (left_ : Z) (s : string) : string + string :=
  match s with
  | EmptyString =>
      match quad with
      | O => inr ""
      | 1%nat => inl "Invalid base64-encoded string: number of data characters cannot be 1 more than a multiple of 4"
      | _ => inl "Incorrect padding"
      end
  | String c s' =>
      if Ascii.eqb c "=" then
        if (2 <=? quad)%nat then
          if (4 <=? quad + S pads)%nat then inr "" else a2b_base64 quad (S pads) left_ s'
        else a2b_base64 quad pads left_ s'
      else match b64_val c with
      | None => a2b_base64 quad pads left_ s'
      | Some v =>
          let emit (x : Z) (r : string + string) := match r with inr out => inr (String (chr (x mod 256)) out) | inl e => inl e end in
          match quad with
          | O => a2b_base64 1 0 v s'
          | 1%nat => emit (left_ * 4 + v / 16)%Z (a2b_base64 2 0 (v mod 16)%Z s')
          | 2%nat => emit (left_ * 16 + v / 4)%Z (a2b_base64 3 0 (v mod 4)%Z s')
          | _ => emit (left_ * 64 + v)%Z (a2b_base64 0 0 0%Z s')
          end
      end
  end.
Fixpoint is_ascii_text (s : string) : bool :=
  match s with EmptyString => true | String c s' => (nat_of_ascii c <? 128)%nat && is_ascii_text s' end.
(** [base64.b64decode] of a [str]; binascii.Error is a ValueError. *)
Definition b64decode (s : string) : res exn string :=
  if negb (is_ascii_text s) then Raise (Exn ValueError "string argument should contain only ASCII characters")
  else match a2b_base64 0 0 0%Z s with inr out => Ok out | inl e => Raise (Exn ValueError e) end.

(** ** [bytes.decode("utf-8", errors="replace")] *)

Definition fffd (s : string) : string := String "239" (String "191" (String "189" s)).
Definition cont (c : ascii) : bool := ascii_in 128 191 c.
(** The admissible second bytes after a lead byte of three or four. *)
Definition second3 (a b : ascii) : bool :=
  ascii_in (if ascii_in 224 224 a then 160 else 128) (if ascii_in 237 237 a then 159 else 191) b.
Definition second4 (a b : ascii) : bool :=
  ascii_in (if ascii_in 240 240 a then 144 else 128) (if ascii_in 244 244 a then 143 else 191) b.
Fixpoint utf8_replace (s : string) : string :=
  match s with
  | EmptyString => ""
  | String a s1 =>
      if ascii_in 0 127 a then String a (utf8_replace s1)
      else match s1 with
      | EmptyString => fffd ""
      | String b s2 =>
          if ascii_in 194 223 a then
            if cont b then String a (String b (utf8_replace s2)) else fffd (utf8_replace s1)
          else if ascii_in 224 239 a then
            if second3 a b then
              match s2 with
              | EmptyString => fffd ""
              | String c s3 => if cont c then String a (String b (String c (utf8_replace s3))) else fffd (utf8_replace s2)
              end
            else fffd (utf8_replace s1)
          else if ascii_in 240 244 a then
            if second4 a b then
              match s2 with
              | EmptyString => fffd ""
              | String c s3 =>
                  if cont c then
                    match s3 with
                    | EmptyString => fffd ""
                    | String d s4 =>
                        if cont d then String a (String b (String c (String d (utf8_replace s4))))
                        else fffd (utf8_replace s3)
                    end
                  else fffd (utf8_replace s2)
              end
            else fffd (utf8_replace s1)
          else fffd (utf8_replace s1)
      end
  end.
(** [b[:n].decode("utf-8", errors="replace")] *)
Definition decode_prefix (n : nat) (s : string) : string := utf8_replace (String.substring 0 n s).
Example replaced : utf8_replace (String "a" (String "195" "b")) = String "a" (fffd "b").
Proof. reflexivity. Qed.
Example decoded : (b64encode "any carnal plea", b64decode "YW55IGNhcm5hbCBwbGVhc3U=") = ("YW55IGNhcm5hbCBwbGVh", Ok "any carnal pleasu").
Proof. vm_compute. reflexivity. Qed.

(** ** Facts *)

Lemma b64_val_char n : (0 <= n < 64)%Z -> b64_val (b64_char n) = Some n /\ Ascii.eqb (b64_char n) "=" = false /\
  (nat_of_ascii (b64_char n) <? 128)%nat = true.
Proof.
  intros Hn. assert (Hall : forallb (fun k => bool_decide (b64_val (b64_char k) = Some k /\
    Ascii.eqb (b64_char k) "=" = false /\ (nat_of_ascii (b64_char k) <? 128)%nat = true)) (seqZ 0 64) = true) by (vm_compute; done).
  rewrite forallb_forall in Hall. specialize (Hall n). apply bool_decide_eq_true in Hall; [done|].
  apply list_elem_of_In, elem_of_seqZ. lia.
Qed.
Lemma byte_range c : (0 <= byte_of c < 256)%Z.
Proof. unfold byte_of. pose proof (N_ascii_bounded c). lia. Qed.
Lemma chr_byte c x : (x mod 256)%Z = byte_of c -> chr (x mod 256) = c.
Proof. intros ->. unfold chr, byte_of. by rewrite N2Z.id, ascii_N_embedding. Qed.
Lemma three_bytes (P : string -> Prop) :
  P "" -> (forall a, P (String a "")) -> (forall a b, P (String a (String b ""))) ->
  (forall a b c s, P s -> P (String a (String b (String c s)))) -> forall s, P s.
Proof.
  intros H0 H1 H2 H3. fix IH 1. intros [|a [|b [|c s]]]; [done|apply H1|apply H2|apply H3, IH].
Qed.

(** Base64 decoding inverts encoding. *)
Ltac sextet_step :=
  match goal with
  | |- context [b64_val (b64_char ?n)] =>
      let E := fresh in assert (E : (0 <= n < 64)%Z) by (Z.to_euclidean_division_equations; lia);
      destruct (b64_val_char n E) as (-> & -> & _)
  | |- context [Ascii.eqb (b64_char ?n) "="] =>
      let E := fresh in assert (E : (0 <= n < 64)%Z) by (Z.to_euclidean_division_equations; lia);
      destruct (b64_val_char n E) as (-> & -> & _)
  end.
Ltac byte_step c :=
  match goal with |- context [chr (?x mod 256)] =>
    rewrite (chr_byte c x) by (Z.to_euclidean_division_equations; lia)
  end.
Lemma a2b_b64encode s : a2b_base64 0 0 0 (b64encode s) = inr s.
Proof.
  induction s as [|a|a b|a b c s IH] using three_bytes; [done|..];
    pose proof (byte_range a); try (pose proof (byte_range b)); try (pose proof (byte_range c));
    cbn [b64encode a2b_base64]; repeat sextet_step; cbn -[chr Z.modulo Z.div Z.mul Z.add b64encode]; rewrite ?IH;
    byte_step a; try (byte_step b); try (byte_step c); done.
Qed.
Lemma b64encode_ascii s : is_ascii_text (b64encode s) = true.
Proof.
  induction s as [|a|a b|a b c s IH] using three_bytes; [done|..];
    pose proof (byte_range a); try (pose proof (byte_range b)); try (pose proof (byte_range c));
    cbn [b64encode is_ascii_text]; rewrite ?IH;
    repeat match goal with |- context [b64_char ?n] =>
      let E := fresh in assert (E : (0 <= n < 64)%Z) by (Z.to_euclidean_division_equations; lia);
      destruct (b64_val_char n E) as (_ & _ & ->) end; done.
Qed.
Lemma b64_roundtrip s : b64decode (b64encode s) = Ok s.
Proof. unfold b64decode. by rewrite b64encode_ascii, a2b_b64encode. Qed.
