(* ===== verification/Goals.v ===== *)
(** Goals, their budgets, progress and life cycle (goals.py), and the world state (state.py). *)
From S2P Require Import Prelude Enums PyValue.


Record ResourceBudget := {
  max_tokens : option Z;
  max_cost_usd : option float;
  max_runtime_seconds : option float;
  max_tool_calls : option Z;
  max_retries : option Z;
  max_network_requests : option Z;
  max_file_writes : option Z;
  max_risk_level : RiskLevel;
}.

Definition neg_Z (o : option Z) : bool := match o with Some n => (n <? 0)%Z | None => false end.
Definition neg_float (o : option float) : bool := match o with Some f => fltb f fzero | None => false end.

(** [ResourceBudget.__post_init__]: the first negative limit raises. *)
Definition ResourceBudget_check (b : ResourceBudget) : res exn ResourceBudget :=
  match List.find snd
    [("max_tokens", neg_Z (max_tokens b)); ("max_cost_usd", neg_float (max_cost_usd b));
     ("max_runtime_seconds", neg_float (max_runtime_seconds b));
     ("max_tool_calls", neg_Z (max_tool_calls b)); ("max_retries", neg_Z (max_retries b));
     ("max_network_requests", neg_Z (max_network_requests b));
     ("max_file_writes", neg_Z (max_file_writes b))] with
  | Some (name, _) => Raise (Exn ValueError (name +:+ " must be non-negative"))
  | None => Ok b
  end.
Definition default_budget : ResourceBudget := {|
  max_tokens := None; max_cost_usd := None; max_runtime_seconds := None; max_tool_calls := None;
  max_retries := None; max_network_requests := None; max_file_writes := None; max_risk_level := CRITICAL |}.

Record GoalProgress := {
  total_steps : Z; verified_steps : Z; blocked_steps : Z; failed_steps : Z; rolled_back_steps : Z;
}.
Definition pending_steps (p : GoalProgress) : Z :=
  (total_steps p - verified_steps p - blocked_steps p - failed_steps p - rolled_back_steps p)%Z.
Definition phase (p : GoalProgress) : string :=
  if (0 <? blocked_steps p)%Z then "blocked"
  else if (0 <? failed_steps p)%Z || (0 <? rolled_back_steps p)%Z then "failed"
  else if (verified_steps p =? total_steps p)%Z && (0 <? total_steps p)%Z then "complete"
  else if (0 <? verified_steps p)%Z then "partial"
  else "pending".

Record GoalCriterion := {
  gc_key : string; gc_op : string; gc_value : pyval; gc_source : option string; gc_required : bool;
}.
Definition criterion_ops : list string :=
  ["equals"; "not_equals"; "in"; "not_in"; "exists"; "missing"; "contains"; "greater_than"; "less_than"].
(** [GoalCriterion.__post_init__] *)
Definition GoalCriterion_check (c : GoalCriterion) : res exn GoalCriterion :=
  if String.eqb (gc_key c) "" then Raise (Exn ValueError "GoalCriterion key must be non-empty")
  else if negb (str_mem (gc_op c) criterion_ops)
  then Raise (Exn ValueError ("Unsupported GoalCriterion op: " +:+ gc_op c))
  else Ok c.

Definition dget_or (k : string) (dflt : pyval) (d : dict pyval) : pyval := default dflt (dget k d).
(** [str(d[k]) if d.get(k) is not None else None] *)
Definition opt_str `{PyRuntime} (k : string) (d : dict pyval) : option string :=
  match dget k d with None | Some VNone => None | Some v => Some (py_str v) end.
Definition dget_item (k : string) (d : dict pyval) : res exn pyval :=
  match dget k d with Some v => Ok v | None => Raise (Exn KeyError k) end.
Definition opt_str_val (o : option string) : pyval := match o with Some s => VStr s | None => VNone end.

Definition GoalCriterion_from_mapping `{PyRuntime} (d : dict pyval) : res exn GoalCriterion :=
  res_bind (dget_item "key" d) (fun k =>
  res_bind (dget_item "op" d) (fun o =>
  GoalCriterion_check {|
    gc_key := py_str k; gc_op := py_str o; gc_value := dget_or "value" VNone d;
    gc_source := opt_str "source" d; gc_required := truthy (dget_or "required" (VBool true) d) |})).

Definition GoalCriterion_as_dict (c : GoalCriterion) : dict pyval :=
  [("key", VStr (gc_key c)); ("op", VStr (gc_op c)); ("value", gc_value c);
   ("source", opt_str_val (gc_source c)); ("required", VBool (gc_required c))].

Record Goal := {
  description : string;
  success_criteria : list string;
  criteria : list GoalCriterion;
  constraints : list string;
  stop_conditions : list string;
  priority : Z;
  goal_id : string;
  owner : option string;
  deadline : option float;
  budget : ResourceBudget;
  g_status : GoalStatus;
}.
Definition set_g_status (s : GoalStatus) (g : Goal) : Goal := {|
  description := description g; success_criteria := success_criteria g; criteria := criteria g;
  constraints := constraints g; stop_conditions := stop_conditions g; priority := priority g;
  goal_id := goal_id g; owner := owner g; deadline := deadline g; budget := budget g; g_status := s |}.

(** [_ALLOWED_GOAL_TRANSITIONS] *)
Definition allowed_goal_transitions (s : GoalStatus) : list GoalStatus :=
  match s with
  | G_CREATED => [G_CLARIFYING; G_PLANNING; G_CANCELLED; G_ARCHIVED]
  | G_CLARIFYING => [G_PLANNING; G_BLOCKED; G_CANCELLED]
  | G_PLANNING => [G_AWAITING_APPROVAL; G_RUNNING; G_BLOCKED; G_CANCELLED]
  | G_AWAITING_APPROVAL => [G_RUNNING; G_BLOCKED; G_CANCELLED]
  | G_RUNNING => [G_PAUSED; G_BLOCKED; G_FAILED; G_PARTIALLY_DONE; G_SUCCEEDED; G_CANCELLED]
  | G_PAUSED => [G_RUNNING; G_BLOCKED; G_CANCELLED]
  | G_BLOCKED => [G_PLANNING; G_RUNNING; G_FAILED; G_CANCELLED; G_ARCHIVED]
  | G_FAILED => [G_PLANNING; G_ARCHIVED]
  | G_PARTIALLY_DONE => [G_PLANNING; G_RUNNING; G_FAILED; G_SUCCEEDED; G_ARCHIVED]
  | G_SUCCEEDED => [G_ARCHIVED]
  | G_CANCELLED => [G_ARCHIVED]
  | G_ARCHIVED => []
  end.
Definition goal_allows (s s' : GoalStatus) : bool := bool_decide (s' ∈ allowed_goal_transitions s).

(** [Goal.transition] *)
Definition transition (s : GoalStatus) (g : Goal) : res exn Goal :=
  if goal_allows (g_status g) s then Ok (set_g_status s g)
  else Raise (Exn InvalidGoalTransition
    ("Cannot transition goal from " +:+ GoalStatus_value (g_status g) +:+ " to " +:+ GoalStatus_value s)).

(** ** The life cycle as a step relation *)

Inductive goal_step : relation Goal :=
| goal_step_intro g s g' : transition s g = Ok g' -> goal_step g g'.

Lemma transition_inv s g g' :
  transition s g = Ok g' -> goal_allows (g_status g) s = true /\ g' = set_g_status s g.
Proof. unfold transition. destruct (goal_allows _ _); [|done]. by intros [= <-]. Qed.
Lemma transition_status s g g' : transition s g = Ok g' -> g_status g' = s.
Proof. by intros [_ ->]%transition_inv. Qed.

(** Rank of a status in the part of the life cycle that cannot be left:
    SUCCEEDED and CANCELLED lead only to ARCHIVED, ARCHIVED nowhere. *)
Definition settled (s : GoalStatus) : bool :=
  match s with G_SUCCEEDED | G_CANCELLED | G_ARCHIVED => true | _ => false end.

Lemma goal_step_settled g g' :
  goal_step g g' -> settled (g_status g) = true -> g_status g' = G_ARCHIVED.
Proof.
  intros [g0 s g1 Ht] Hs. apply transition_inv in Ht as [Ha ->].
  apply bool_decide_eq_true in Ha. simpl.
  destruct (g_status g0); simpl in *; try done; by set_unfold in Ha; naive_solver.
Qed.
Lemma goal_step_not_created g g' : goal_step g g' -> g_status g' <> G_CREATED.
Proof.
  intros [g0 s g1 Ht]. apply transition_inv in Ht as [Ha ->].
  apply bool_decide_eq_true in Ha. simpl. intros ->.
  destruct (g_status g0); set_unfold in Ha; naive_solver.
Qed.
Lemma goal_step_id g g' : goal_step g g' -> goal_id g' = goal_id g /\ budget g' = budget g.
Proof. intros [g0 s g1 Ht]. by apply transition_inv in Ht as [_ ->]. Qed.

(** * The agent's belief state (state.py): facts, assumptions, uncertainty and
    the trust level of every key. *)


Inductive TrustLevel : Type :=
| TL_VERIFIED | TL_OBSERVED | TL_USER_PROVIDED | TL_TOOL_REPORTED | TL_MODEL_INFERRED | TL_UNTRUSTED_EXTERNAL.
Definition TrustLevel_value (t : TrustLevel) : string :=
  match t with
  | TL_VERIFIED => "verified" | TL_OBSERVED => "observed" | TL_USER_PROVIDED => "user_provided"
  | TL_TOOL_REPORTED => "tool_reported" | TL_MODEL_INFERRED => "model_inferred"
  | TL_UNTRUSTED_EXTERNAL => "untrusted_external"
  end.
#[export] Instance TrustLevel_eq_dec : EqDecision TrustLevel.
Proof. solve_decision. Defined.
#[export] Program Instance TrustLevel_enum : PyEnum TrustLevel := {|
  enum_name := "TrustLevel"; enum_value := TrustLevel_value;
  enum_all := [TL_VERIFIED; TL_OBSERVED; TL_USER_PROVIDED; TL_TOOL_REPORTED; TL_MODEL_INFERRED;
               TL_UNTRUSTED_EXTERNAL] |}.
Next Obligation. solve_enum_complete. Qed.
Next Obligation. solve_enum_inj. Qed.

Record WorldState := {
  facts : gmap string pyval;
  assumptions : gmap string pyval;
  uncertainty : gmap string float;
  trust : gmap string TrustLevel;
}.
Definition empty_world : WorldState :=
  {| facts := ∅; assumptions := ∅; uncertainty := ∅; trust := ∅ |}.

Definition set_fact (key : string) (value : pyval) (tl : TrustLevel) (w : WorldState) : WorldState :=
  {| facts := <[key := value]> (facts w); assumptions := assumptions w;
     uncertainty := uncertainty w; trust := <[key := tl]> (trust w) |}.

Definition observe (delta : dict pyval) (tl : TrustLevel) (w : WorldState) : WorldState :=
  fold_left (fun w kv => set_fact kv.1 kv.2 tl w) delta w.

Definition mark_trust (keys : list string) (tl : TrustLevel) (w : WorldState) : WorldState :=
  fold_left (fun w key =>
    if decide (is_Some (facts w !! key))
    then {| facts := facts w; assumptions := assumptions w; uncertainty := uncertainty w;
            trust := <[key := tl]> (trust w) |}
    else w) keys w.

Definition set_assumption (key : string) (value : pyval) (tl : TrustLevel) (u : option float)
    (w : WorldState) : WorldState :=
  {| facts := facts w; assumptions := <[key := value]> (assumptions w);
     uncertainty := match u with Some f => <[key := f]> (uncertainty w) | None => uncertainty w end;
     trust := <[key := tl]> (trust w) |}.

Definition promote_assumption (key : string) (tl : TrustLevel) (w : WorldState) : res exn WorldState :=
  match assumptions w !! key with
  | None => Raise (Exn KeyError ("Unknown assumption: " +:+ key))
  | Some v =>
      let w1 := set_fact key v tl {| facts := facts w; assumptions := delete key (assumptions w);
                                     uncertainty := uncertainty w; trust := trust w |} in
      Ok {| facts := facts w1; assumptions := assumptions w1;
            uncertainty := delete key (uncertainty w1); trust := trust w1 |}
  end.

(** [snapshot()]: copies of the four maps, trust by value. *)
Definition snapshot (w : WorldState) :
    gmap string pyval * gmap string pyval * gmap string float * gmap string string :=
  (facts w, assumptions w, uncertainty w, TrustLevel_value <$> trust w).

(** Every fact and every assumption has a trust level. *)
Definition trust_complete (w : WorldState) : Prop :=
  dom (facts w) ∪ dom (assumptions w) ⊆ dom (trust w).

Lemma trust_complete_empty : trust_complete empty_world.
Proof. unfold trust_complete. simpl. set_solver. Qed.
Lemma set_fact_trust_complete k v tl w : trust_complete w -> trust_complete (set_fact k v tl w).
Proof. unfold trust_complete. simpl. rewrite !dom_insert_L. set_solver. Qed.
Lemma observe_trust_complete d tl w : trust_complete w -> trust_complete (observe d tl w).
Proof.
  unfold observe. revert w. induction d as [|[k v] d IH]; intros w Hw; simpl; [done|].
  by apply IH, set_fact_trust_complete.
Qed.
Lemma mark_trust_trust_complete ks tl w : trust_complete w -> trust_complete (mark_trust ks tl w).
Proof.
  unfold mark_trust. revert w. induction ks as [|k ks IH]; intros w Hw; simpl; [done|].
  apply IH. case_decide; [|done]. unfold trust_complete in *. simpl. rewrite dom_insert_L. set_solver.
Qed.
Lemma set_assumption_trust_complete k v tl u w :
  trust_complete w -> trust_complete (set_assumption k v tl u w).
Proof. unfold trust_complete. simpl. rewrite !dom_insert_L. set_solver. Qed.
Lemma promote_trust_complete k tl w w' :
  trust_complete w -> promote_assumption k tl w = Ok w' -> trust_complete w'.
Proof.
  unfold promote_assumption, trust_complete. destruct (_ !! _) eqn:E; [|done].
  intros Hw [= <-]. simpl. rewrite !dom_insert_L, dom_delete_L. set_solver.
Qed.

(** ** What [observe] and [mark_trust] do to a key *)

Lemma observe_facts_ne d tl w k : k ∉ dkeys d -> facts (observe d tl w) !! k = facts w !! k.
Proof.
  unfold observe. revert w. induction d as [|[k' v] d IH]; intros w; simpl; [done|].
  rewrite not_elem_of_cons. intros [Hne Hk]. rewrite IH by done. simpl. by rewrite lookup_insert_ne.
Qed.
Lemma observe_trust_ne d tl w k : k ∉ dkeys d -> trust (observe d tl w) !! k = trust w !! k.
Proof.
  unfold observe. revert w. induction d as [|[k' v] d IH]; intros w; simpl; [done|].
  rewrite not_elem_of_cons. intros [Hne Hk]. rewrite IH by done. simpl. by rewrite lookup_insert_ne.
Qed.
Lemma observe_facts d tl w k v :
  NoDup (dkeys d) -> dget k d = Some v -> facts (observe d tl w) !! k = Some v.
Proof.
  revert w. induction d as [|[k' v'] d IH]; intros w; simpl; [done|].
  intros [Hk Hnd]%NoDup_cons. destruct (String.eqb_spec k k') as [->|Hne]; intros Hg.
  - simplify_eq. change (facts (observe d tl (set_fact k' v tl w)) !! k' = Some v).
    rewrite observe_facts_ne by done. simpl. apply lookup_insert_eq.
  - by apply (IH (set_fact k' v' tl w)).
Qed.
Lemma observe_facts_in d tl w k : k ∈ dkeys d -> is_Some (facts (observe d tl w) !! k).
Proof.
  revert w. induction d as [|[k' v'] d IH]; intros w; simpl; [by intros H%elem_of_nil|].
  destruct (decide (k ∈ dkeys d)) as [Hin|Hin]; intros Hk; [by apply (IH (set_fact k' v' tl w))|].
  apply elem_of_cons in Hk as [->|]; [|done].
  change (is_Some (facts (observe d tl (set_fact k' v' tl w)) !! k')).
  rewrite observe_facts_ne by done. simpl. rewrite lookup_insert_eq. eauto.
Qed.

Lemma mark_trust_facts ks tl w : facts (mark_trust ks tl w) = facts w.
Proof.
  unfold mark_trust. revert w. induction ks as [|k ks IH]; intros w; simpl; [done|].
  rewrite IH. by case_decide.
Qed.
Lemma mark_trust_lookup ks tl w k :
  trust (mark_trust ks tl w) !! k =
  if decide (k ∈ ks /\ is_Some (facts w !! k)) then Some tl else trust w !! k.
Proof.
  unfold mark_trust. revert w. induction ks as [|k' ks IH]; intros w; cbn [fold_left].
  - rewrite decide_False; [done|]. by intros [H%elem_of_nil _].
  - rewrite IH. destruct (decide (is_Some (facts w !! k'))) as [Hf|Hf]; cbn [facts trust].
    + destruct (decide (k = k')) as [->|Hne].
      * rewrite (decide_True (P := k' ∈ k' :: ks /\ _)) by (split; [left|done]).
        destruct (decide (k' ∈ ks /\ _)); [done|]. by rewrite lookup_insert_eq.
      * rewrite lookup_insert_ne by done.
        destruct (decide (k ∈ ks /\ _)) as [H|H], (decide (k ∈ k' :: ks /\ _)) as [H'|H']; set_solver.
    + destruct (decide (k ∈ ks /\ _)) as [H|H], (decide (k ∈ k' :: ks /\ _)) as [H'|H']; try done.
      * set_solver.
      * destruct H' as [[->|]%elem_of_cons ?]; [done|]. by destruct H.
Qed.
