(* ===== verification/Plans.v ===== *)
(** Predicted consequences of actions (data of causal.py), the tool-level causal contracts
    (causal_contract.py), and steps, conditions, plans and proposals (plans.py). *)
From S2P Require Import Prelude Enums PyValue Goals.


Inductive CausalEffect : Type := CE_CHANGES | CE_SETS | CE_PRESERVES | CE_UNKNOWN.
Definition CausalEffect_value (e : CausalEffect) : string :=
  match e with
  | CE_CHANGES => "changes" | CE_SETS => "sets" | CE_PRESERVES => "preserves" | CE_UNKNOWN => "unknown"
  end.

Record ActionConsequence := {
  ac_variable : string;
  ac_before : pyval;
  ac_expected_after : pyval;
  ac_confidence : float;
  ac_rationale : string;
  ac_effect : CausalEffect;
  ac_expected_without_action : pyval;
}.

(** [state.facts.get(v, state.assumptions.get(v))] *)
Definition before_value (w : WorldState) (variable : string) : pyval :=
  match facts w !! variable with
  | Some x => x
  | None => default VNone (assumptions w !! variable)
  end.
Definition changed : pyval := VStr "changed".

Record ObservationFieldRequirement := {
  ofr_observation : string;
  ofr_path : list string;
  ofr_operator : string;
  ofr_value : pyval;
  ofr_argument_key : option string;
}.

(** [ObservationFieldRequirement.__post_init__] *)
Definition ObservationFieldRequirement_check (r : ObservationFieldRequirement) :
    res exn ObservationFieldRequirement :=
  if negb (str_mem (ofr_operator r) ["exists"; "equals"; "in"; "not_equals"])
  then Raise (Exn ValueError ("Unsupported observation field operator: " +:+ ofr_operator r))
  else if String.eqb (ofr_observation r) ""
  then Raise (Exn ValueError "Observation field requirement must name an observation")
  else if bool_decide (ofr_path r = [])
  then Raise (Exn ValueError "Observation field requirement path must not be empty")
  else match ofr_argument_key r, ofr_value r with
       | None, _ | Some _, VNone => Ok r
       | Some _, _ => Raise (Exn ValueError
           "Observation field requirement cannot set both value and argument_key")
       end.

Record CausalContract := {
  cc_tool_name : string;
  cc_sets : list string;
  cc_changes : list string;
  cc_preserves : list string;
  cc_may_change : list string;
  cc_side_effects : list string;
  cc_rollback_effects : list string;
  cc_required_observations : list string;
  cc_required_fields : list ObservationFieldRequirement;
  cc_without_action : dict pyval;
  cc_risk_notes : list string;
  cc_confidence : float;
}.

(** [CausalContract.predictions] *)
Definition contract_predictions (c : CausalContract) (arguments : dict pyval) (w : WorldState) :
    list ActionConsequence :=
  map (fun variable =>
         let before := before_value w variable in
         let expected := default changed (dget variable arguments) in
         {| ac_variable := variable; ac_before := before; ac_expected_after := expected;
            ac_confidence := cc_confidence c;
            ac_rationale := cc_tool_name c +:+ " causal contract sets " +:+ variable +:+ ".";
            ac_effect := if py_neq expected changed then CE_SETS else CE_CHANGES;
            ac_expected_without_action := default before (dget variable (cc_without_action c)) |})
      (cc_sets c) ++
  map (fun variable =>
         let before := before_value w variable in
         {| ac_variable := variable; ac_before := before; ac_expected_after := changed;
            ac_confidence := cc_confidence c;
            ac_rationale := cc_tool_name c +:+ " causal contract changes " +:+ variable +:+ ".";
            ac_effect := CE_CHANGES;
            ac_expected_without_action := default before (dget variable (cc_without_action c)) |})
      (filter (fun variable => negb (str_mem variable (cc_sets c)) = true) (cc_changes c)).

Definition missing_required_observations (c : CausalContract) (observed : dict pyval) : list string :=
  filter (fun key => negb (dmem key observed) = true) (cc_required_observations c).

(** [_nested_get]: [None] stands for [(False, None)]. *)
Fixpoint nested_get (v : pyval) (path : list string) : option pyval :=
  match path with
  | [] => Some v
  | key :: path' =>
      match v with
      | VDict d => match dget key d with Some x => nested_get x path' | None => None end
      | _ => None
      end
  end.

(** [_expected_value], for a step with argument mapping [arguments]. *)
Definition expected_value (r : ObservationFieldRequirement) (arguments : option (dict pyval)) : option pyval :=
  match ofr_argument_key r with
  | None => Some (ofr_value r)
  | Some k => match arguments with Some args => dget k args | None => None end
  end.

(** One iteration of the loop of [CausalContract.field_violations]. *)
Definition field_violation (observed : dict pyval) (arguments : option (dict pyval))
    (r : ObservationFieldRequirement) : option string :=
  let label := ofr_observation r +:+ "." +:+ str_join "." (ofr_path r) in
  match dget (ofr_observation r) observed with
  | None => Some (label +:+ " missing observation")
  | Some v =>
      match nested_get v (ofr_path r) with
      | None => Some (label +:+ " missing")
      | Some actual =>
          if String.eqb (ofr_operator r) "exists" then None
          else
            match expected_value r arguments with
            | None => Some (label +:+ " missing expected argument " +:+
                            match ofr_argument_key r with Some k => py_repr k | None => "None" end)
            | Some expected =>
                if String.eqb (ofr_operator r) "equals" && py_neq actual expected
                then Some (label +:+ " did not match expected value")
                else if String.eqb (ofr_operator r) "not_equals" && py_eq actual expected
                then Some (label +:+ " unexpectedly matched disallowed value")
                else if String.eqb (ofr_operator r) "in"
                then match py_in actual expected with
                     | Ok true => None
                     | Ok false => Some (label +:+ " was not in allowed values")
                     | Raise _ => Some (label +:+ " expected a collection of allowed values")
                     end
                else None
            end
      end
  end.
Definition field_violations (c : CausalContract) (observed : dict pyval) (arguments : option (dict pyval)) :
    list string :=
  omap (field_violation observed arguments) (cc_required_fields c).

(** ** The contracts of the built-in tools *)

Definition f_0_9 : float := S754_finite false 8106479329266893 (-53).
Definition f_0_85 : float := S754_finite false 7656119366529843 (-53).

Definition ofr_exists (o : string) (p : list string) : ObservationFieldRequirement :=
  {| ofr_observation := o; ofr_path := p; ofr_operator := "exists"; ofr_value := VNone; ofr_argument_key := None |}.
Definition ofr_equals_arg (o : string) (p : list string) (k : string) : ObservationFieldRequirement :=
  {| ofr_observation := o; ofr_path := p; ofr_operator := "equals"; ofr_value := VNone;
     ofr_argument_key := Some k |}.
Definition ofr_equals (o : string) (p : list string) (v : pyval) : ObservationFieldRequirement :=
  {| ofr_observation := o; ofr_path := p; ofr_operator := "equals"; ofr_value := v; ofr_argument_key := None |}.

Definition safe_file_write_causal_contract : CausalContract := {|
  cc_tool_name := "safe_file_write"; cc_sets := ["file_written"]; cc_changes := []; cc_preserves := [];
  cc_may_change := ["disk_usage"]; cc_side_effects := ["filesystem_modified"];
  cc_rollback_effects := ["restores_previous_file_content"];
  cc_required_observations := ["file_written"]; cc_required_fields := [];
  cc_without_action := [("file_written", VStr "target_file_unchanged")];
  cc_risk_notes := ["Modifies one workspace-scoped file."]; cc_confidence := f_0_9 |}.

Definition github_create_branch_causal_contract : CausalContract := {|
  cc_tool_name := "github_create_branch"; cc_sets := ["github_branch"]; cc_changes := []; cc_preserves := [];
  cc_may_change := []; cc_side_effects := ["github_branch_created"];
  cc_rollback_effects := ["github_branch_deleted"]; cc_required_observations := ["github_branch"];
  cc_required_fields := [ofr_equals_arg "github_branch" ["branch"] "branch";
                         ofr_equals_arg "github_branch" ["base"] "base"; ofr_exists "github_branch" ["sha"]];
  cc_without_action := [];
  cc_risk_notes := ["Creates a remote GitHub branch and requires cleanup on rollback."];
  cc_confidence := f_0_85 |}.

Definition github_update_file_causal_contract : CausalContract := {|
  cc_tool_name := "github_update_file"; cc_sets := ["github_file_updated"]; cc_changes := []; cc_preserves := [];
  cc_may_change := []; cc_side_effects := ["github_repository_file_modified"];
  cc_rollback_effects := ["previous_github_file_content_restored_when_available"];
  cc_required_observations := ["github_file_updated"];
  cc_required_fields := [ofr_equals_arg "github_file_updated" ["path"] "path";
                         ofr_equals_arg "github_file_updated" ["branch"] "branch";
                         ofr_exists "github_file_updated" ["sha"]];
  cc_without_action := [];
  cc_risk_notes := ["Modifies repository content on a non-protected branch with optimistic guards."];
  cc_confidence := f_0_85 |}.

Definition github_open_pr_causal_contract : CausalContract := {|
  cc_tool_name := "github_open_pr"; cc_sets := ["github_pr"]; cc_changes := []; cc_preserves := [];
  cc_may_change := []; cc_side_effects := ["github_pull_request_created"];
  cc_rollback_effects := ["github_pull_request_closed"]; cc_required_observations := ["github_pr"];
  cc_required_fields := [ofr_exists "github_pr" ["number"]; ofr_equals "github_pr" ["state"] (VStr "open");
                         ofr_equals_arg "github_pr" ["head"] "head"; ofr_equals_arg "github_pr" ["base"] "base"];
  cc_without_action := []; cc_risk_notes := ["Creates or reuses an idempotent GitHub pull request."];
  cc_confidence := f_0_85 |}.

Definition github_comment_causal_contract : CausalContract := {|
  cc_tool_name := "github_comment"; cc_sets := ["github_comment"]; cc_changes := []; cc_preserves := [];
  cc_may_change := []; cc_side_effects := ["github_issue_comment_created"];
  cc_rollback_effects := ["github_issue_comment_deleted"]; cc_required_observations := ["github_comment"];
  cc_required_fields := [ofr_exists "github_comment" ["id"];
                         ofr_equals_arg "github_comment" ["issue_number"] "issue_number";
                         ofr_equals_arg "github_comment" ["body"] "body"];
  cc_without_action := []; cc_risk_notes := ["Posts a GitHub issue or PR comment."];
  cc_confidence := f_0_85 |}.

Definition github_close_pr_causal_contract : CausalContract := {|
  cc_tool_name := "github_close_pr"; cc_sets := ["github_pr_closed"]; cc_changes := []; cc_preserves := [];
  cc_may_change := []; cc_side_effects := ["github_pull_request_closed"]; cc_rollback_effects := [];
  cc_required_observations := ["github_pr_closed"];
  cc_required_fields := [ofr_equals_arg "github_pr_closed" ["number"] "pr_number";
                         ofr_equals "github_pr_closed" ["state"] (VStr "closed");
                         ofr_equals_arg "github_pr_closed" ["head"] "expected_head";
                         ofr_equals_arg "github_pr_closed" ["base"] "expected_base"];
  cc_without_action := [];
  cc_risk_notes := ["Closes only the pull request bound to the expected smoke head and base."];
  cc_confidence := f_0_9 |}.

Definition github_delete_branch_causal_contract : CausalContract := {|
  cc_tool_name := "github_delete_branch"; cc_sets := ["github_branch_deleted"]; cc_changes := [];
  cc_preserves := []; cc_may_change := []; cc_side_effects := ["github_branch_deleted"];
  cc_rollback_effects := []; cc_required_observations := ["github_branch_deleted"];
  cc_required_fields := [ofr_equals_arg "github_branch_deleted" ["branch"] "branch";
                         ofr_equals "github_branch_deleted" ["deleted"] (VBool true)];
  cc_without_action := [];
  cc_risk_notes := ["Deletes only a leos/ smoke branch bound to an expected remote SHA."];
  cc_confidence := f_0_9 |}.

(** ** What an empty violation list means *)

(** A requirement is met by an observed delta and the step's arguments. *)
Definition requirement_met (observed arguments : dict pyval) (r : ObservationFieldRequirement) : Prop :=
  exists v actual, dget (ofr_observation r) observed = Some v /\ nested_get v (ofr_path r) = Some actual /\
  (ofr_operator r = "exists" \/
   exists expected, expected_value r (Some arguments) = Some expected /\
     (ofr_operator r = "equals" -> py_eq actual expected = true) /\
     (ofr_operator r = "not_equals" -> py_eq actual expected = false) /\
     (ofr_operator r = "in" -> py_in actual expected = Ok true)).

Ltac solve_met :=
  split;
  [ first [discriminate | intros _; eexists; split_and!; [reflexivity|..]; intros; congruence]
  | intros (? & [= <-] & H1 & H2 & H3); first [reflexivity | exfalso;
      first [specialize (H1 eq_refl) | specialize (H2 eq_refl) | specialize (H3 eq_refl)]; congruence] ].

Lemma field_violation_None observed args r :
  field_violation observed (Some args) r = None <-> requirement_met observed args r.
Proof.
  unfold field_violation, requirement_met, py_neq.
  destruct (dget _ observed) as [v|]; [|naive_solver].
  destruct (nested_get v _) as [actual|] eqn:En; [|naive_solver].
  destruct (String.eqb_spec (ofr_operator r) "exists") as [->|Hne]; [naive_solver|].
  destruct (expected_value r (Some args)) as [ex|] eqn:Ee; [|naive_solver].
  assert (Hmet : (exists expected, Some ex = Some expected /\
       (ofr_operator r = "equals" -> py_eq actual expected = true) /\
       (ofr_operator r = "not_equals" -> py_eq actual expected = false) /\
       (ofr_operator r = "in" -> py_in actual expected = Ok true)) <->
     exists v' actual', Some v = Some v' /\ nested_get v' (ofr_path r) = Some actual' /\
       (ofr_operator r = "exists" \/ exists expected, Some ex = Some expected /\
       (ofr_operator r = "equals" -> py_eq actual' expected = true) /\
       (ofr_operator r = "not_equals" -> py_eq actual' expected = false) /\
       (ofr_operator r = "in" -> py_in actual' expected = Ok true))).
  { split; [intros; eauto 10|]. intros (v' & a' & Hv & Ha & [?|Hex]); [congruence|].
    injection Hv as <-. rewrite En in Ha. injection Ha as <-. exact Hex. }
  rewrite <-Hmet. clear Hmet.
  destruct (String.eqb_spec (ofr_operator r) "equals") as [Ho|Ho]; simpl.
  { rewrite Ho. destruct (py_eq actual ex) eqn:E; simpl; solve_met. }
  destruct (String.eqb_spec (ofr_operator r) "not_equals") as [Ho'|Ho']; simpl.
  { rewrite Ho'. destruct (py_eq actual ex) eqn:E; simpl; solve_met. }
  destruct (String.eqb_spec (ofr_operator r) "in") as [Hi|Hi]; [rewrite Hi|solve_met].
  destruct (py_in actual ex) as [[]|] eqn:E; solve_met.
Qed.
Lemma field_violations_nil c observed args :
  field_violations c observed (Some args) = [] <-> Forall (requirement_met observed args) (cc_required_fields c).
Proof.
  unfold field_violations. induction (cc_required_fields c) as [|r l IH]; simpl; [by rewrite Forall_nil|].
  rewrite Forall_cons, <-IH, <-field_violation_None. destruct (field_violation observed _ r); naive_solver.
Qed.
Lemma missing_required_nil c observed :
  missing_required_observations c observed = [] <->
  forall k, k ∈ cc_required_observations c -> dmem k observed = true.
Proof.
  unfold missing_required_observations. induction (cc_required_observations c) as [|k l IH]; simpl.
  - split; [by intros _ k' H%elem_of_nil|done].
  - rewrite filter_cons. destruct (dmem k observed) eqn:E; simpl.
    + rewrite IH. setoid_rewrite elem_of_cons. naive_solver.
    + split; [done|]. intros H. by rewrite (H k (list_elem_of_here _ _)) in E.
Qed.

(** * Steps, conditions, plans and proposals (plans.py). *)


Inductive CondOp : Type := OP_EXISTS | OP_NOT_EXISTS | OP_EQUALS.
Definition CondOp_value (o : CondOp) : string :=
  match o with OP_EXISTS => "exists" | OP_NOT_EXISTS => "not_exists" | OP_EQUALS => "equals" end.
#[export] Instance CondOp_eq_dec : EqDecision CondOp.
Proof. solve_decision. Defined.

Record StateCondition := {
  sc_variable : string;
  sc_operator : CondOp;
  sc_value : pyval;
  sc_trust_level : option TrustLevel;
}.
(** [StateCondition(variable, operator, value, trust_level)] from the raw operator string. *)
Definition StateCondition_new (variable operator : string) (value : pyval) (tl : option TrustLevel) :
    res exn StateCondition :=
  let mk o := Ok {| sc_variable := variable; sc_operator := o; sc_value := value; sc_trust_level := tl |} in
  if String.eqb operator "exists" then mk OP_EXISTS
  else if String.eqb operator "not_exists" then mk OP_NOT_EXISTS
  else if String.eqb operator "equals" then mk OP_EQUALS
  else Raise (Exn ValueError ("Unsupported condition operator: " +:+ operator)).

(** [StateCondition.describe] *)
Definition describe (c : StateCondition) : dict pyval :=
  [("variable", VStr (sc_variable c)); ("operator", VStr (CondOp_value (sc_operator c)))] ++
  (if decide (sc_operator c = OP_EQUALS) then [("value", sc_value c)] else []) ++
  match sc_trust_level c with Some t => [("trust_level", VStr (TrustLevel_value t))] | None => [] end.

Record CounterfactualReport := {
  cr_step_id : string;
  cr_tool_name : string;
  cr_action_consequences : list ActionConsequence;
  cr_no_action_consequences : list ActionConsequence;
  cr_risk : RiskLevel;
  cr_expected_cost : float;
  cr_expected_benefit : pyval;
  cr_summary : dict pyval;
}.

Record ActionStep := {
  tool_name : string;
  arguments : dict pyval;
  reason : string;
  status : StepStatus;
  risk : RiskLevel;
  reversibility : Reversibility;
  compensation_strategy : CompensationStrategy;
  rollback_reliability : float;
  required_permissions : list Permission;
  predictions : list ActionConsequence;
  counterfactual_report : option CounterfactualReport;
  idempotency_key : option string;
  preconditions : list StateCondition;
  postconditions : list StateCondition;
  invariants : list StateCondition;
  step_id : string;
}.

Definition set_status (v : StepStatus) (s : ActionStep) : ActionStep := {|
  tool_name := tool_name s; arguments := arguments s; reason := reason s; status := v; risk := risk s;
  reversibility := reversibility s; compensation_strategy := compensation_strategy s;
  rollback_reliability := rollback_reliability s; required_permissions := required_permissions s;
  predictions := predictions s; counterfactual_report := counterfactual_report s;
  idempotency_key := idempotency_key s; preconditions := preconditions s;
  postconditions := postconditions s; invariants := invariants s; step_id := step_id s |}.
Definition set_predictions (v : list ActionConsequence) (r : option CounterfactualReport) (s : ActionStep) :
    ActionStep := {|
  tool_name := tool_name s; arguments := arguments s; reason := reason s; status := status s; risk := risk s;
  reversibility := reversibility s; compensation_strategy := compensation_strategy s;
  rollback_reliability := rollback_reliability s; required_permissions := required_permissions s;
  predictions := v; counterfactual_report := r;
  idempotency_key := idempotency_key s; preconditions := preconditions s;
  postconditions := postconditions s; invariants := invariants s; step_id := step_id s |}.
Definition set_metadata (ps : list Permission) (r : RiskLevel) (rv : Reversibility) (cs : CompensationStrategy)
    (rr : float) (s : ActionStep) : ActionStep := {|
  tool_name := tool_name s; arguments := arguments s; reason := reason s; status := status s; risk := r;
  reversibility := rv; compensation_strategy := cs; rollback_reliability := rr; required_permissions := ps;
  predictions := predictions s; counterfactual_report := counterfactual_report s;
  idempotency_key := idempotency_key s; preconditions := preconditions s;
  postconditions := postconditions s; invariants := invariants s; step_id := step_id s |}.

(** [ActionStep.clone]: a deep copy; on this value representation, the same value. *)
Definition clone (s : ActionStep) : ActionStep := {|
  tool_name := tool_name s; arguments := arguments s; reason := reason s; status := status s; risk := risk s;
  reversibility := reversibility s; compensation_strategy := compensation_strategy s;
  rollback_reliability := rollback_reliability s; required_permissions := required_permissions s;
  predictions := predictions s; counterfactual_report := counterfactual_report s;
  idempotency_key := idempotency_key s; preconditions := preconditions s;
  postconditions := postconditions s; invariants := invariants s; step_id := step_id s |}.

(** A new step: the defaults of the dataclass. *)
Definition new_step (tool : string) (args : dict pyval) (why : string) (sid : string) : ActionStep := {|
  tool_name := tool; arguments := args; reason := why; status := PENDING; risk := LOW;
  reversibility := IRREVERSIBLE; compensation_strategy := CS_NONE; rollback_reliability := fzero;
  required_permissions := []; predictions := []; counterfactual_report := None; idempotency_key := None;
  preconditions := []; postconditions := []; invariants := []; step_id := sid |}.

(** A plan refers to its steps by index into the heap of [ActionStep] objects
    of the run, so that a step listed twice is one object and the rollback
    stack aliases the plan's steps, as in Python. *)
Record TransactionPlan := {
  p_goal : Goal;
  p_steps : list nat;
  plan_id : string;
  created_at : float;
  p_budget : option ResourceBudget;
}.
Definition set_p_goal (g : Goal) (p : TransactionPlan) : TransactionPlan :=
  {| p_goal := g; p_steps := p_steps p; plan_id := plan_id p; created_at := created_at p;
     p_budget := p_budget p |}.

Record PlanProposal := {
  pp_steps : list ActionStep;
  pp_rationale : string;
  pp_estimated_cost : float;
  pp_expected_benefit : float;
  pp_proposal_id : string;
}.

Record PlanScore := {
  ps_risk : RiskLevel;
  ps_risk_value : Z;
  ps_estimated_cost : float;
  ps_expected_benefit : float;
  ps_utility : float;
  ps_satisfies : bool;
}.

Record PlannerConfig := {
  max_risk_cfg : RiskLevel;
  max_cost : float;
  min_benefit : float;
  benefit_weight : float;
  cost_weight : float;
  risk_weight : float;
}.
Definition default_planner_config : PlannerConfig := {|
  max_risk_cfg := MEDIUM; max_cost := finf; min_benefit := fzero; benefit_weight := fone;
  cost_weight := fone; risk_weight := S754_finite false 4503599627370496 (-54) |}.

Lemma clone_eq s : clone s = s.
Proof. by destruct s. Qed.
