(* ===== verification/Serialization.v ===== *)
(** JSON form of goals, steps and plans (serialization.py).

    [json.loads(json.dumps(v))] is modelled on documents: [json_doc v] is the
    document that the text of [v] denotes, or the TypeError of the encoder.
    (Texts are not modelled: integers are assumed to have fewer than 4300
    digits, and a float's shortest [repr] reads back as the same float.)

    Deserialization reads documents that may come from anywhere.  The
    constructors do not check the types of most fields, so a document with, say,
    a number as description yields an object outside its annotations.  Such
    documents are the outcome [None] of [D]; every other document gives the
    object or the exception of the code. *)
From S2P Require Import Prelude Enums PyValue Sanitization Goals Plans.

(** A plan with its steps by value. *)
Record PlanObj := {
  po_goal : Goal;
  po_steps : list ActionStep;
  po_plan_id : string;
  po_created_at : float;
  po_budget : option ResourceBudget;
}.

(** ** [json.loads(json.dumps(v))] *)

Definition not_serializable (v : pyval) : exn :=
  Exn TypeError ("Object of type " +:+ type_name v +:+ " is not JSON serializable").
Fixpoint json_doc (v : pyval) : res exn pyval :=
  let items := fix go (l : list pyval) : res exn (list pyval) :=
    match l with
    | [] => Ok []
    | x :: l' => res_bind (json_doc x) (fun y => res_map (cons y) (go l'))
    end in
  let fields := fix go (d : list (string * pyval)) : res exn (list (string * pyval)) :=
    match d with
    | [] => Ok []
    | kv :: d' => res_bind (json_doc kv.2) (fun y => res_map (cons (kv.1, y)) (go d'))
    end in
  match v with
  | VNone | VBool _ | VInt _ | VFloat _ | VStr _ => Ok v
  | VEnum _ _ s => Ok (VStr s)
  | VList l | VTuple l => res_map VList (items l)
  | VDict d => res_map VDict (fields d)
  | _ => Raise (not_serializable v)
  end.

(** ** Serialization *)

Definition opt_Z_doc (o : option Z) : pyval := match o with Some z => VInt z | None => VNone end.
Definition opt_float_doc (o : option float) : pyval := match o with Some f => VFloat f | None => VNone end.
Definition strs_doc (l : list string) : pyval := VList (map VStr l).

Definition serialize_budget (b : ResourceBudget) : pyval := VDict
  [("max_tokens", opt_Z_doc (max_tokens b)); ("max_cost_usd", opt_float_doc (max_cost_usd b));
   ("max_runtime_seconds", opt_float_doc (max_runtime_seconds b)); ("max_tool_calls", opt_Z_doc (max_tool_calls b));
   ("max_retries", opt_Z_doc (max_retries b)); ("max_network_requests", opt_Z_doc (max_network_requests b));
   ("max_file_writes", opt_Z_doc (max_file_writes b));
   ("max_risk_level", VStr (RiskLevel_value (max_risk_level b)))].
Definition serialize_goal (g : Goal) : pyval := VDict
  [("description", VStr (description g)); ("success_criteria", strs_doc (success_criteria g));
   ("criteria", VList (map (fun c => VDict (GoalCriterion_as_dict c)) (criteria g)));
   ("constraints", strs_doc (constraints g)); ("stop_conditions", strs_doc (stop_conditions g));
   ("priority", VInt (priority g)); ("goal_id", VStr (goal_id g)); ("owner", opt_str_val (owner g));
   ("deadline", opt_float_doc (deadline g)); ("budget", serialize_budget (budget g));
   ("status", VStr (GoalStatus_value (g_status g)))].
(** The entry [value], absent for None. *)
Definition value_entry (v : pyval) : dict pyval := match v with VNone => [] | _ => [("value", v)] end.
Definition serialize_condition (c : StateCondition) : pyval := VDict
  ([("variable", VStr (sc_variable c)); ("operator", VStr (CondOp_value (sc_operator c)))] ++
   value_entry (sc_value c) ++
   match sc_trust_level c with Some t => [("trust_level", VStr (TrustLevel_value t))] | None => [] end).
Definition serialize_step (s : ActionStep) : pyval := VDict
  [("tool_name", VStr (tool_name s)); ("arguments", VDict (arguments s)); ("reason", VStr (reason s));
   ("status", VStr (StepStatus_value (status s))); ("risk", VStr (RiskLevel_value (risk s)));
   ("reversibility", VStr (Reversibility_value (reversibility s)));
   ("compensation_strategy", VStr (CompensationStrategy_value (compensation_strategy s)));
   ("rollback_reliability", VFloat (rollback_reliability s));
   ("required_permissions", strs_doc (map Permission_value (required_permissions s)));
   ("idempotency_key", opt_str_val (idempotency_key s));
   ("preconditions", VList (map serialize_condition (preconditions s)));
   ("postconditions", VList (map serialize_condition (postconditions s)));
   ("invariants", VList (map serialize_condition (invariants s)));
   ("step_id", VStr (step_id s))].
Definition plan_data (p : PlanObj) : pyval := VDict
  [("goal", serialize_goal (po_goal p)); ("steps", VList (map serialize_step (po_steps p)));
   ("plan_id", VStr (po_plan_id p));
   ("budget", match po_budget p with Some b => serialize_budget b | None => VNone end)].
(** [serialize_plan], up to the text of the document. *)
Definition serialize_plan (p : PlanObj) : res exn pyval :=
  match json_doc (plan_data p) with
  | Ok doc => Ok doc
  | Raise e => Raise (Exn SerializationError ("Plan contains non-JSON-serializable data: " +:+ exn_str e))
  end.

(** ** Deserialization *)

Definition D (A : Type) : Type := option (res exn A).
Definition dret {A} (a : A) : D A := Some (Ok a).
Definition dlift {A} (r : res exn A) : D A := Some r.
Definition dbind {A B} (m : D A) (f : A -> D B) : D B :=
  match m with None => None | Some (Raise e) => Some (Raise e) | Some (Ok a) => f a end.
Notation "'let?' x ':=' m 'in' k" := (dbind m (fun x => k))
  (at level 10, x pattern, m at level 100, k at level 200) : leos_scope.
Fixpoint dmap {A B} (f : A -> D B) (l : list A) : D (list B) :=
  match l with
  | [] => dret []
  | x :: l' => let? y := f x in let? ys := dmap f l' in dret (y :: ys)
  end.

Definition as_VStr (v : pyval) : D string := match v with VStr s => dret s | _ => None end.
Definition as_VDict (v : pyval) : D (dict pyval) := match v with VDict d => dret d | _ => None end.
Definition as_VList (v : pyval) : D (list pyval) := match v with VList l => dret l | _ => None end.
Definition as_VInt (v : pyval) : D Z := match v with VInt z => dret z | _ => None end.
Definition as_opt {A} (f : pyval -> D A) (v : pyval) : D (option A) :=
  match v with VNone => dret None | _ => let? a := f v in dret (Some a) end.
Definition as_VFloat (v : pyval) : D float := match v with VFloat f => dret f | _ => None end.
Definition must (k : string) (d : dict pyval) : D pyval := dlift (dget_item k d).

Section deserialize.
Context `{PyRuntime}.

(** [E(v)] for a string enumeration. *)
Definition as_enum {A} `{PyEnum A} (v : pyval) : D A :=
  match v with
  | VStr s => dlift (enum_of s)
  | _ => Some (Raise (Exn ValueError (py_repr_val v +:+ " is not a valid " +:+ enum_name A)))
  end.

Definition deserialize_budget (d : dict pyval) : D ResourceBudget :=
  let? r := as_enum (dget_or "max_risk_level" (VStr (RiskLevel_value CRITICAL)) d) in
  let? a := as_opt as_VInt (dget_or "max_tokens" VNone d) in
  let? b := as_opt as_VFloat (dget_or "max_cost_usd" VNone d) in
  let? c := as_opt as_VFloat (dget_or "max_runtime_seconds" VNone d) in
  let? e := as_opt as_VInt (dget_or "max_tool_calls" VNone d) in
  let? f := as_opt as_VInt (dget_or "max_retries" VNone d) in
  let? g := as_opt as_VInt (dget_or "max_network_requests" VNone d) in
  let? h := as_opt as_VInt (dget_or "max_file_writes" VNone d) in
  dlift (ResourceBudget_check {|
    max_tokens := a; max_cost_usd := b; max_runtime_seconds := c; max_tool_calls := e; max_retries := f;
    max_network_requests := g; max_file_writes := h; max_risk_level := r |}).
Definition deserialize_criterion (v : pyval) : D GoalCriterion :=
  let? d := as_VDict v in dlift (GoalCriterion_from_mapping d).
Definition deserialize_goal (d : dict pyval) : D Goal :=
  let? de := must "description" d in
  let? sc := as_VList (dget_or "success_criteria" (VList []) d) in
  let? cr := as_VList (dget_or "criteria" (VList []) d) in
  let? crs := dmap deserialize_criterion cr in
  let? co := as_VList (dget_or "constraints" (VList []) d) in
  let? sp := as_VList (dget_or "stop_conditions" (VList []) d) in
  let? bd := as_VDict (dget_or "budget" (VDict []) d) in
  let? b := deserialize_budget bd in
  let? st := must "status" d in
  let? s := as_enum st in
  let? desc := as_VStr de in
  let? scs := dmap as_VStr sc in
  let? cos := dmap as_VStr co in
  let? sps := dmap as_VStr sp in
  let? pr := as_VInt (dget_or "priority" (VInt 5) d) in
  let? gi := as_VStr (dget_or "goal_id" (VStr "") d) in
  let? ow := as_opt as_VStr (dget_or "owner" VNone d) in
  let? dl := as_opt as_VFloat (dget_or "deadline" VNone d) in
  dret {| description := desc; success_criteria := scs; criteria := crs; constraints := cos;
          stop_conditions := sps; priority := pr; goal_id := gi; owner := ow; deadline := dl; budget := b;
          g_status := s |}.
Definition deserialize_condition (v : pyval) : D StateCondition :=
  let? d := as_VDict v in
  let trust := dget_or "trust_level" VNone d in
  let? va := must "variable" d in
  let? tl := (if truthy trust then let? t := as_enum trust in dret (Some t) else dret None) in
  let? variable := as_VStr va in
  let? operator := as_VStr (dget_or "operator" (VStr "exists") d) in
  dlift (StateCondition_new variable operator (dget_or "value" VNone d) tl).
Definition deserialize_conditions (k : string) (d : dict pyval) : D (list StateCondition) :=
  let? l := as_VList (dget_or k (VList []) d) in dmap deserialize_condition l.
Definition deserialize_step (v : pyval) : D ActionStep :=
  let? d := as_VDict v in
  let? tn := must "tool_name" d in
  let? args := as_VDict (dget_or "arguments" (VDict []) d) in
  let? st := as_enum (dget_or "status" (VStr "pending") d) in
  let? rk := as_enum (dget_or "risk" (VStr "low") d) in
  let? rv := as_enum (dget_or "reversibility" (VStr "irreversible") d) in
  let? cs := as_enum (dget_or "compensation_strategy" (VStr "none") d) in
  let? rr := dlift (py_float (dget_or "rollback_reliability" (VFloat fzero) d)) in
  let? pl := as_VList (dget_or "required_permissions" (VList []) d) in
  let? ps := dmap as_enum pl in
  let? pre := deserialize_conditions "preconditions" d in
  let? post := deserialize_conditions "postconditions" d in
  let? inv := deserialize_conditions "invariants" d in
  let? tool := as_VStr tn in
  let? why := as_VStr (dget_or "reason" (VStr "") d) in
  let? key := as_opt as_VStr (dget_or "idempotency_key" VNone d) in
  let? sid := as_VStr (dget_or "step_id" (VStr "") d) in
  dret {| tool_name := tool; arguments := args; reason := why; status := st; risk := rk; reversibility := rv;
          compensation_strategy := cs; rollback_reliability := rr; required_permissions := ps;
          predictions := []; counterfactual_report := None; idempotency_key := key; preconditions := pre;
          postconditions := post; invariants := inv; step_id := sid |}.
(** [deserialize_plan]; the new plan is stamped with the current time. *)
Definition deserialize_plan (now : float) (doc : pyval) : D PlanObj :=
  let? d := as_VDict doc in
  let? gv := must "goal" d in
  let? gd := as_VDict gv in
  let? g := deserialize_goal gd in
  let? sl := as_VList (dget_or "steps" (VList []) d) in
  let? ss := dmap deserialize_step sl in
  let bv := dget_or "budget" VNone d in
  let? b := (if truthy bv then let? bd := as_VDict bv in let? b := deserialize_budget bd in dret (Some b)
             else dret None) in
  let? pid := as_VStr (dget_or "plan_id" (VStr "") d) in
  dret {| po_goal := g; po_steps := ss; po_plan_id := pid; po_created_at := now; po_budget := b |}.
End deserialize.

(** ** Documents *)

Fixpoint res_traverse {A B} (f : A -> res exn B) (l : list A) : res exn (list B) :=
  match l with [] => Ok [] | x :: l' => res_bind (f x) (fun y => res_map (cons y) (res_traverse f l')) end.
Lemma json_doc_list l : json_doc (VList l) = res_map VList (res_traverse json_doc l).
Proof. simpl. f_equal. induction l as [|x l IH]; simpl; [done|by rewrite IH]. Qed.
Lemma json_doc_tuple l : json_doc (VTuple l) = res_map VList (res_traverse json_doc l).
Proof. exact (json_doc_list l). Qed.
Definition json_field (kv : string * pyval) : res exn (string * pyval) := res_map (pair kv.1) (json_doc kv.2).
Lemma json_doc_dict d : json_doc (VDict d) = res_map VDict (res_traverse json_field d).
Proof.
  simpl. f_equal. induction d as [|[k x] d IH]; simpl; [done|]. unfold json_field at 1. simpl.
  destruct (json_doc x); simpl; [by rewrite IH|done].
Qed.

Lemma res_traverse_ok {A B} (f : A -> res exn B) l l' :
  res_traverse f l = Ok l' <-> Forall2 (fun x y => f x = Ok y) l l'.
Proof.
  revert l'. induction l as [|x l IH]; intros l'; simpl.
  - split; [by intros [= <-]|by inversion 1].
  - split.
    + destruct (f x) as [y|] eqn:Ef; [|done]. simpl. destruct (res_traverse f l) as [ys|]; [|done].
      intros [= <-]. constructor; [done|by apply IH].
    + inversion 1 as [|? y ? ys Ex Er]; subst. rewrite Ex. simpl. by rewrite (proj2 (IH ys) Er).
Qed.

(** Values [json.dumps] accepts. *)
Fixpoint jsonable (v : pyval) : bool :=
  match v with
  | VNone | VBool _ | VInt _ | VFloat _ | VStr _ | VEnum _ _ _ => true
  | VList l | VTuple l => forallb jsonable l
  | VDict d => forallb (fun kv => jsonable kv.2) d
  | _ => false
  end.

Lemma res_traverse_is_ok {A B} (f : A -> res exn B) (p : A -> bool) l :
  Forall (fun x => is_ok (f x) = p x) l -> is_ok (res_traverse f l) = forallb p l.
Proof.
  induction 1 as [|x l Hx _ IH]; simpl; [done|]. rewrite <-Hx. destruct (f x); simpl; [|done].
  rewrite <-IH. by destruct (res_traverse f l).
Qed.
Lemma res_map_is_ok {A B} (f : A -> B) (r : res exn A) : is_ok (res_map f r) = is_ok r.
Proof. by destruct r. Qed.
(** [json.dumps] accepts exactly the [jsonable] values. *)
Lemma json_doc_ok v : is_ok (json_doc v) = jsonable v.
Proof.
  induction v as [| | | | | | | | | |l IH|l IH| |d IH| |] using pyval_ind'; try done;
    rewrite ?json_doc_list, ?json_doc_tuple, ?json_doc_dict, res_map_is_ok.
  - by apply res_traverse_is_ok.
  - by apply res_traverse_is_ok.
  - apply res_traverse_is_ok. eapply Forall_impl; [exact IH|]. intros [k x] Hx. unfold json_field. simpl in *.
    by rewrite res_map_is_ok.
Qed.

Lemma res_traverse_forallb {A B} (f : A -> res exn B) (q : B -> bool) l l' :
  Forall (fun x => forall y, f x = Ok y -> q y = true) l -> res_traverse f l = Ok l' -> forallb q l' = true.
Proof.
  intros Hl Ht%res_traverse_ok. induction Ht as [|x y l l' Hxy _ IH]; simpl; [done|].
  inversion Hl as [|? ? Hx Hl']; subst. rewrite (Hx y Hxy). by apply IH.
Qed.
Lemma res_map_inv {A B} (f : A -> B) (r : res exn A) b : res_map f r = Ok b -> exists a, r = Ok a /\ f a = b.
Proof. destruct r; [|done]. intros [= <-]. eauto. Qed.
(** The result is plain JSON, and plain JSON is unchanged. *)
Lemma json_doc_json v w : json_doc v = Ok w -> is_json w = true.
Proof.
  revert w. induction v as [| | | | | | | | | |l IH|l IH| |d IH| |] using pyval_ind'; intros w;
    rewrite ?json_doc_list, ?json_doc_tuple, ?json_doc_dict; try (intros [= <-]; done); try done;
    intros (l' & Ht & <-)%res_map_inv; simpl.
  - by eapply res_traverse_forallb.
  - by eapply res_traverse_forallb.
  - eapply res_traverse_forallb; [|exact Ht]. eapply Forall_impl; [exact IH|]. intros [k x] Hx y.
    unfold json_field. intros (z & Hz & <-)%res_map_inv. by apply Hx.
Qed.
Lemma res_traverse_id {A} (f : A -> res exn A) (q : A -> bool) l :
  Forall (fun x => q x = true -> f x = Ok x) l -> forallb q l = true -> res_traverse f l = Ok l.
Proof.
  induction 1 as [|x l Hx _ IH]; simpl; [done|]. intros [Hq Hl]%andb_prop. rewrite (Hx Hq). simpl. by rewrite IH.
Qed.
Lemma json_doc_id w : is_json w = true -> json_doc w = Ok w.
Proof.
  induction w as [| | | | | | | | | |l IH|l IH| |d IH| |] using pyval_ind'; try done; simpl is_json; intros Hj;
    rewrite ?json_doc_list, ?json_doc_dict.
  - by rewrite (res_traverse_id _ is_json).
  - rewrite (res_traverse_id _ (fun kv => is_json kv.2)); [done| |done]. eapply Forall_impl; [exact IH|].
    intros [k x] Hx Hq. unfold json_field. simpl in *. by rewrite Hx.
Qed.

(** ** What a reloaded plan is *)

Definition doc_of (v : pyval) : pyval := match json_doc v with Ok w => w | Raise _ => v end.
Definition doc_args (d : dict pyval) : dict pyval := match doc_of (VDict d) with VDict d' => d' | _ => d end.
Definition restored_criterion (c : GoalCriterion) : GoalCriterion := {|
  gc_key := gc_key c; gc_op := gc_op c; gc_value := doc_of (gc_value c); gc_source := gc_source c;
  gc_required := gc_required c |}.
Definition restored_goal (g : Goal) : Goal := {|
  description := description g; success_criteria := success_criteria g;
  criteria := map restored_criterion (criteria g); constraints := constraints g;
  stop_conditions := stop_conditions g; priority := priority g; goal_id := goal_id g; owner := owner g;
  deadline := deadline g; budget := budget g; g_status := g_status g |}.
Definition restored_condition (c : StateCondition) : StateCondition := {|
  sc_variable := sc_variable c; sc_operator := sc_operator c; sc_value := doc_of (sc_value c);
  sc_trust_level := sc_trust_level c |}.
(** Predictions and the counterfactual report are not stored. *)
Definition restored_step (s : ActionStep) : ActionStep := {|
  tool_name := tool_name s; arguments := doc_args (arguments s); reason := reason s; status := status s;
  risk := risk s; reversibility := reversibility s; compensation_strategy := compensation_strategy s;
  rollback_reliability := rollback_reliability s; required_permissions := required_permissions s;
  predictions := []; counterfactual_report := None; idempotency_key := idempotency_key s;
  preconditions := map restored_condition (preconditions s);
  postconditions := map restored_condition (postconditions s);
  invariants := map restored_condition (invariants s); step_id := step_id s |}.
Definition restored_plan (now : float) (p : PlanObj) : PlanObj := {|
  po_goal := restored_goal (po_goal p); po_steps := map restored_step (po_steps p); po_plan_id := po_plan_id p;
  po_created_at := now; po_budget := po_budget p |}.

(** What the constructors of the parts have checked. *)
Definition plan_wf (p : PlanObj) : Prop :=
  is_ok (ResourceBudget_check (budget (po_goal p))) = true /\
  Forall (fun c => is_ok (GoalCriterion_check c) = true) (criteria (po_goal p)) /\
  (forall b, po_budget p = Some b -> is_ok (ResourceBudget_check b) = true).

(** ** Reading back what was written *)

Lemma json_doc_field k x d (d' : dict pyval) :
  res_traverse json_field ((k, x) :: d) = Ok d' ->
  exists w d'', json_doc x = Ok w /\ res_traverse json_field d = Ok d'' /\ d' = (k, w) :: d''.
Proof.
  simpl. unfold json_field at 1. simpl. destruct (json_doc x) as [w|]; [|done]. simpl.
  intros (d'' & E & <-)%res_map_inv. eauto.
Qed.
(** Reading off the documents of the fields of an object. *)
Ltac field_docs H :=
  lazymatch type of H with
  | res_traverse _ [] = Ok _ => injection H as <-
  | _ => let w := fresh "w" in let E := fresh "E" in let r := fresh "r" in
         apply json_doc_field in H as (w & r & E & H & ->);
         try (injection E as <-); field_docs H
  end.
Section roundtrip.
Context `{PyRuntime}.

(** Lists: if each element written as [ser x] is read back by [de] as [r x], so is the list. *)
Lemma doc_list_inv {A} (ser : A -> pyval) l doc :
  json_doc (VList (map ser l)) = Ok doc ->
  exists ds, doc = VList ds /\ Forall2 (fun x d => json_doc (ser x) = Ok d) l ds.
Proof.
  rewrite json_doc_list. intros (ds & Ht%res_traverse_ok & <-)%res_map_inv. exists ds. split; [done|].
  by apply Forall2_fmap_l in Ht.
Qed.
Lemma dmap_restored {A B} (ser : A -> pyval) (de : pyval -> D B) (r : A -> B) l ds :
  Forall2 (fun x d => json_doc (ser x) = Ok d) l ds ->
  Forall (fun x => forall d, json_doc (ser x) = Ok d -> de d = dret (r x)) l ->
  dmap de ds = dret (map r l).
Proof.
  induction 1 as [|x d l ds Hx _ IH]; simpl; [done|]. intros [Hd Hl]%Forall_cons.
  rewrite (Hd d Hx). simpl. by rewrite IH.
Qed.
Lemma strs_doc_ok l : json_doc (strs_doc l) = Ok (strs_doc l).
Proof. apply json_doc_id. simpl. by induction l. Qed.
Lemma strs_read l : dmap as_VStr (map VStr l) = dret l.
Proof. induction l as [|s l IH]; simpl; [done|by rewrite IH]. Qed.
Lemma enums_read {A} `{PyEnum A} (l : list A) : dmap as_enum (map VStr (map enum_value l)) = dret l.
Proof. induction l as [|a l IH]; simpl; [done|]. rewrite enum_of_value. simpl. by rewrite IH. Qed.
Lemma enum_read {A} `{PyEnum A} (a : A) : as_enum (VStr (enum_value a)) = dret a.
Proof. simpl. by rewrite enum_of_value. Qed.

Lemma budget_doc b : json_doc (serialize_budget b) = Ok (serialize_budget b).
Proof. apply json_doc_id. by destruct b as [[] [] [] [] [] [] [] ?]. Qed.
Lemma as_opt_Z o : as_opt as_VInt (opt_Z_doc o) = dret o.
Proof. by destruct o. Qed.
Lemma as_opt_float o : as_opt as_VFloat (opt_float_doc o) = dret o.
Proof. by destruct o. Qed.
Lemma as_opt_str o : as_opt as_VStr (opt_str_val o) = dret o.
Proof. by destruct o. Qed.
Lemma budget_check_id b : is_ok (ResourceBudget_check b) = true -> ResourceBudget_check b = Ok b.
Proof. unfold ResourceBudget_check. destruct (List.find _ _) as [[]|]; done. Qed.
Lemma criterion_check_id c : is_ok (GoalCriterion_check c) = true -> GoalCriterion_check c = Ok c.
Proof. unfold GoalCriterion_check. destruct (_ =? _); [done|]. by destruct (negb _). Qed.
Lemma budget_read b d :
  is_ok (ResourceBudget_check b) = true -> serialize_budget b = VDict d -> deserialize_budget d = dret b.
Proof.
  intros Hok [= <-]. unfold deserialize_budget, dget_or. cbn [dget String.eqb Ascii.eqb Bool.eqb default id].
  change RiskLevel_value with (enum_value (A:=RiskLevel)). rewrite enum_read. cbn [dbind dret].
  rewrite !as_opt_Z, !as_opt_float. cbn [dbind dret]. unfold dlift, dret. f_equal.
  destruct b as [x1 x2 x3 x4 x5 x6 x7 x8]. by apply budget_check_id.
Qed.

(** An object literal of the serializer: the documents of its fields. *)
Ltac doc_fields :=
  rewrite json_doc_dict; cbn [res_traverse]; unfold json_field; cbn [fst snd].

Lemma criterion_read c d :
  is_ok (GoalCriterion_check c) = true -> json_doc (VDict (GoalCriterion_as_dict c)) = Ok d ->
  deserialize_criterion d = dret (restored_criterion c).
Proof.
  intros Hok. unfold GoalCriterion_as_dict. doc_fields.
  destruct (json_doc (gc_value c)) as [w|] eqn:Ev; [|by destruct (gc_source c)].
  destruct c as [k o v src req]. simpl in Ev. destruct src as [src|]; simpl; intros [= <-];
    unfold deserialize_criterion, GoalCriterion_from_mapping, restored_criterion, doc_of; simpl; rewrite Ev;
    unfold dlift, dret; f_equal; apply criterion_check_id; revert Hok;
    unfold GoalCriterion_check; simpl; by repeat case_match.
Qed.
Lemma condition_read c d :
  json_doc (serialize_condition c) = Ok d -> deserialize_condition d = dret (restored_condition c).
Proof.
  unfold serialize_condition, restored_condition, doc_of. destruct c as [x o v tl].
  cbn [sc_variable sc_operator sc_value sc_trust_level].
  assert (Hf : v = VNone /\ value_entry v = [] \/ value_entry v = [("value", v)]) by (destruct v; auto).
  assert (Ht : forall t : TrustLevel, enum_of (TrustLevel_value t) = Ok t) by (intros t; exact (enum_of_value t)). 
  assert (Hn : forall t, negb (TrustLevel_value t =? "") = true) by (by intros []).
  assert (Hc : forall w, StateCondition_new x (CondOp_value o) w tl =
    Ok {| sc_variable := x; sc_operator := o; sc_value := w; sc_trust_level := tl |}) by (by destruct o).
  destruct Hf as [[-> Hf]|Hf]; rewrite Hf; doc_fields.
  - destruct tl as [t|]; simpl; intros [= <-]; unfold deserialize_condition; simpl; [rewrite Hn, Ht; simpl|];
      unfold dlift, dret; f_equal; apply Hc.
  - destruct tl as [t|]; simpl; (destruct (json_doc v) as [w|] eqn:Ev; simpl; [|done]); intros [= <-];
      unfold deserialize_condition; simpl; [rewrite Hn, Ht; simpl|]; unfold dlift, dret; f_equal; apply Hc.
Qed.
Lemma conditions_read k l ds d :
  Forall2 (fun c x => json_doc (serialize_condition c) = Ok x) l ds -> dget k d = Some (VList ds) ->
  deserialize_conditions k d = dret (map restored_condition l).
Proof.
  intros Hl Hd. unfold deserialize_conditions, dget_or. rewrite Hd. cbn.
  eapply dmap_restored; [exact Hl|]. apply Forall_forall. intros c _ x. apply condition_read.
Qed.
Lemma doc_args_ok args w : json_doc (VDict args) = Ok w -> w = VDict (doc_args args).
Proof.
  intros Ha. unfold doc_args, doc_of. rewrite Ha. rewrite json_doc_dict in Ha.
  by apply res_map_inv in Ha as (d & _ & <-).
Qed.
Lemma float_read f : py_float (VFloat f) = Ok f.
Proof. done. Qed.
Lemma opt_str_doc o : json_doc (opt_str_val o) = Ok (opt_str_val o).
Proof. by destruct o. Qed.
Lemma opt_float_doc_ok o : json_doc (opt_float_doc o) = Ok (opt_float_doc o).
Proof. by destruct o. Qed.
Ltac fold_enums :=
  change StepStatus_value with (enum_value (A:=StepStatus)); change RiskLevel_value with (enum_value (A:=RiskLevel));
  change Reversibility_value with (enum_value (A:=Reversibility));
  change CompensationStrategy_value with (enum_value (A:=CompensationStrategy));
  change Permission_value with (enum_value (A:=Permission)); change GoalStatus_value with (enum_value (A:=GoalStatus)).
Ltac read_fields := cbn [dget String.eqb Ascii.eqb Bool.eqb default id dbind dret dlift as_VDict as_VStr as_VList strs_doc].
Lemma step_read s d :
  json_doc (serialize_step s) = Ok d -> deserialize_step d = dret (restored_step s).
Proof.
  unfold serialize_step. rewrite json_doc_dict. intros (fs & Hf & <-)%res_map_inv. field_docs Hf.
  apply doc_args_ok in E as ->. rewrite strs_doc_ok in E0. rewrite opt_str_doc in E1.
  injection E0 as <-. injection E1 as <-.
  apply doc_list_inv in E2 as (l2 & -> & E2), E3 as (l3 & -> & E3), E4 as (l4 & -> & E4).
  unfold deserialize_step. cbn [as_VDict dbind dret].
  rewrite (conditions_read "preconditions" _ _ _ E2) by reflexivity.
  rewrite (conditions_read "postconditions" _ _ _ E3) by reflexivity.
  rewrite (conditions_read "invariants" _ _ _ E4) by reflexivity.
  unfold must, dget_item, dget_or. read_fields.
  fold_enums. rewrite !enum_read. cbn [dbind dret]. rewrite enums_read, as_opt_str. reflexivity.
Qed.
Lemma goal_read g d doc :
  is_ok (ResourceBudget_check (budget g)) = true ->
  Forall (fun c => is_ok (GoalCriterion_check c) = true) (criteria g) ->
  json_doc (serialize_goal g) = Ok doc -> doc = VDict d -> deserialize_goal d = dret (restored_goal g).
Proof.
  intros Hb Hc. unfold serialize_goal. rewrite json_doc_dict. intros (fs & Hf & <-)%res_map_inv. field_docs Hf.
  intros [= <-]. rewrite strs_doc_ok in E, E1, E2. rewrite opt_str_doc in E3. rewrite budget_doc in E5.
  rewrite opt_float_doc_ok in E4. simplify_eq. apply doc_list_inv in E0 as (l & -> & E0).
  unfold deserialize_goal, must, dget_item, dget_or. read_fields.
  rewrite (dmap_restored _ _ restored_criterion _ _ E0).
  2: { eapply Forall_impl; [exact Hc|]. intros c Hok x. by apply criterion_read. }
  cbn [dbind dret]. unfold serialize_budget at 1. cbn [as_VDict dbind dret].
  rewrite (budget_read (budget g)) by done. fold_enums. cbn [dbind dret].
  rewrite enum_read, !strs_read, as_opt_str, as_opt_float. reflexivity.
Qed.
(** Writing what was read gives the document again. *)
Lemma doc_list_write {A} (ser : A -> pyval) (r : A -> A) l ds :
  (forall x d, json_doc (ser x) = Ok d -> ser (r x) = d) ->
  Forall2 (fun x d => json_doc (ser x) = Ok d) l ds -> map ser (map r l) = ds.
Proof. intros Hr. induction 1 as [|x d l ds Hx _ IH]; simpl; [done|]. by rewrite (Hr x d Hx), IH. Qed.
Lemma criterion_write c d :
  json_doc (VDict (GoalCriterion_as_dict c)) = Ok d -> VDict (GoalCriterion_as_dict (restored_criterion c)) = d.
Proof.
  unfold GoalCriterion_as_dict. rewrite json_doc_dict. intros (fs & Hf & <-)%res_map_inv. field_docs Hf.
  rewrite opt_str_doc in E0. simplify_eq. simpl. unfold doc_of. by rewrite E.
Qed.
Lemma condition_write c d :
  json_doc (serialize_condition c) = Ok d -> serialize_condition (restored_condition c) = d.
Proof.
  unfold serialize_condition, restored_condition, doc_of. destruct c as [x o v tl].
  cbn [sc_variable sc_operator sc_value sc_trust_level].
  assert (Hv : v = VNone \/ value_entry v = [("value", v)] /\ forall w, json_doc v = Ok w -> value_entry w = [("value", w)]).
  { destruct v; auto; right; (split; [done|]); intros w; rewrite ?json_doc_list, ?json_doc_tuple, ?json_doc_dict;
      try (intros [= <-]; done); try done; by intros (? & _ & <-)%res_map_inv. }
  destruct Hv as [->|[-> Hv]]; rewrite json_doc_dict.
  - by destruct tl as [t|]; intros [= <-].
  - intros (fs & Hf & <-)%res_map_inv. destruct tl as [t|]; simpl app in Hf; field_docs Hf;
      match goal with E : json_doc v = Ok _ |- _ => rewrite E, (Hv _ E) end; reflexivity.
Qed.
Lemma step_write s d : json_doc (serialize_step s) = Ok d -> serialize_step (restored_step s) = d.
Proof.
  unfold serialize_step at 1. rewrite json_doc_dict. intros (fs & Hf & <-)%res_map_inv. field_docs Hf.
  apply doc_args_ok in E as ->. rewrite strs_doc_ok in E0. rewrite opt_str_doc in E1. simplify_eq.
  apply doc_list_inv in E2 as (l2 & -> & E2), E3 as (l3 & -> & E3), E4 as (l4 & -> & E4).
  unfold serialize_step. cbn [restored_step tool_name arguments reason status risk reversibility compensation_strategy
    rollback_reliability required_permissions idempotency_key preconditions postconditions invariants step_id].
  by rewrite (doc_list_write _ _ _ _ condition_write E2), (doc_list_write _ _ _ _ condition_write E3),
    (doc_list_write _ _ _ _ condition_write E4).
Qed.
Lemma goal_write g d : json_doc (serialize_goal g) = Ok d -> serialize_goal (restored_goal g) = d.
Proof.
  unfold serialize_goal at 1. rewrite json_doc_dict. intros (fs & Hf & <-)%res_map_inv. field_docs Hf.
  rewrite strs_doc_ok in E, E1, E2. rewrite opt_str_doc in E3. rewrite budget_doc in E5.
  rewrite opt_float_doc_ok in E4. simplify_eq. apply doc_list_inv in E0 as (l & -> & E0).
  unfold serialize_goal, restored_goal. cbn [description success_criteria criteria constraints stop_conditions
    priority goal_id owner deadline budget g_status]. by rewrite (doc_list_write _ _ _ _ criterion_write E0).
Qed.
Lemma plan_write now p doc : serialize_plan p = Ok doc -> plan_data (restored_plan now p) = doc.
Proof.
  unfold serialize_plan, plan_data at 1. rewrite json_doc_dict.
  destruct (res_traverse _ _) as [fs|] eqn:Hf; [|done]. intros [= <-]. field_docs Hf.
  apply doc_list_inv in E0 as (l & -> & E0). apply goal_write in E.
  assert (w1 = match po_budget p with Some b => serialize_budget b | None => VNone end) as ->.
  { destruct (po_budget p) as [b|]; [rewrite budget_doc in E1|]; by injection E1 as <-. }
  unfold plan_data, restored_plan. cbn [po_goal po_steps po_plan_id po_budget].
  by rewrite E, (doc_list_write _ _ _ _ step_write E0).
Qed.
Lemma plan_rewrite now p doc : serialize_plan p = Ok doc -> serialize_plan (restored_plan now p) = Ok doc.
Proof.
  intros Hs. unfold serialize_plan. rewrite (plan_write now p doc Hs), json_doc_id; [done|].
  revert Hs. unfold serialize_plan. destruct (json_doc _) as [d|] eqn:E; [|done]. intros [= <-]. by eapply json_doc_json.
Qed.

Lemma plan_read now p doc :
  plan_wf p -> serialize_plan p = Ok doc -> deserialize_plan now doc = dret (restored_plan now p).
Proof.
  intros (Hb & Hc & Hp). unfold serialize_plan, plan_data. rewrite json_doc_dict.
  destruct (res_traverse _ _) as [fs|] eqn:Hf; [|done]. intros [= <-]. field_docs Hf.
  apply doc_list_inv in E0 as (l & -> & E0).
  assert (exists gd, w = VDict gd) as [gd ->].
  { unfold serialize_goal in E. rewrite json_doc_dict in E. apply res_map_inv in E as (gd & _ & <-). eauto. }
  unfold deserialize_plan, must, dget_item, dget_or. read_fields.
  rewrite (goal_read _ _ _ Hb Hc E eq_refl). cbn [dbind dret].
  rewrite (dmap_restored _ _ restored_step _ _ E0).
  2: { apply Forall_forall. intros s _ x. apply step_read. }
  cbn [dbind dret]. destruct (po_budget p) as [b|] eqn:Eb.
  - rewrite budget_doc in E1. simplify_eq. cbn [truthy serialize_budget length Nat.eqb negb as_VDict dbind dret].
    rewrite (budget_read b) by auto. unfold restored_plan. by rewrite Eb.
  - simpl in E1. simplify_eq. unfold restored_plan. by rewrite Eb.
Qed.
End roundtrip.
