(* ===== verification/TaskSpec.v ===== *)
(** Task life cycle: the policies of task_queue.py and the abstract queue that
    both task queues implement.

    A task is seen as its status, its owner and its attempts.  [view_step]
    lists the moves of one task; [queue_moves] lets any task of the queue move,
    or a new one appear.  TaskQueue.v and PgQueue.v prove that every method is
    a sequence of such moves, so the consequences proved here hold of both. *)
From S2P Require Import Prelude Enums PyValue Goals Serialization.

Record RetryPolicy := { max_attempts : Z }.
Definition RetryPolicy_new (n : Z) : res exn RetryPolicy :=
  if (n <? 1)%Z then Raise (Exn ValueError "max_attempts must be at least 1") else Ok {| max_attempts := n |}.
Definition default_retry_policy : RetryPolicy := {| max_attempts := 1 |}.

Record TimeoutPolicy := { heartbeat_timeout_seconds : option float; runtime_timeout_seconds : option float }.
Definition TimeoutPolicy_new (h r : option float) : res exn TimeoutPolicy :=
  if neg_float h then Raise (Exn ValueError "heartbeat_timeout_seconds must be non-negative")
  else if neg_float r then Raise (Exn ValueError "runtime_timeout_seconds must be non-negative")
  else Ok {| heartbeat_timeout_seconds := h; runtime_timeout_seconds := r |}.
Definition default_timeout_policy : TimeoutPolicy :=
  {| heartbeat_timeout_seconds := Some (f_of_Z 60); runtime_timeout_seconds := None |}.

(** The JSON documents of the policies (serialization.py). *)
Definition serialize_retry_policy (p : RetryPolicy) : pyval := VDict [("max_attempts", VInt (max_attempts p))].
Definition deserialize_retry_policy (doc : pyval) : D RetryPolicy :=
  let? d := as_VDict doc in
  let? v := must "max_attempts" d in
  let? n := as_VInt v in
  dlift (RetryPolicy_new n).
Definition serialize_timeout_policy (p : TimeoutPolicy) : pyval := VDict
  [("heartbeat_timeout_seconds", opt_float_doc (heartbeat_timeout_seconds p));
   ("runtime_timeout_seconds", opt_float_doc (runtime_timeout_seconds p))].
Definition deserialize_timeout_policy (doc : pyval) : D TimeoutPolicy :=
  let? d := as_VDict doc in
  let? h := as_opt as_VFloat (dget_or "heartbeat_timeout_seconds" (VFloat (f_of_Z 60)) d) in
  let? r := as_opt as_VFloat (dget_or "runtime_timeout_seconds" VNone d) in
  dlift (TimeoutPolicy_new h r).

Definition retry_wf (p : RetryPolicy) : Prop := (1 <= max_attempts p)%Z.
Definition timeout_wf (p : TimeoutPolicy) : Prop :=
  neg_float (heartbeat_timeout_seconds p) = false /\ neg_float (runtime_timeout_seconds p) = false.
Lemma retry_roundtrip p : retry_wf p -> deserialize_retry_policy (serialize_retry_policy p) = dret p.
Proof.
  intros Hp. unfold deserialize_retry_policy, RetryPolicy_new. simpl.
  unfold retry_wf in Hp. destruct (Z.ltb_spec (max_attempts p) 1); [lia|]. by destruct p.
Qed.
Lemma timeout_roundtrip p : timeout_wf p -> deserialize_timeout_policy (serialize_timeout_policy p) = dret p.
Proof.
  intros [Hh Hr]. destruct p as [h r]. simpl in *. unfold deserialize_timeout_policy, TimeoutPolicy_new.
  destruct h as [h|], r as [r|]; simpl in *; unfold dlift; simpl; rewrite ?Hh, ?Hr; done.
Qed.

(** ** The abstract queue *)

Record TaskView := {
  tv_status : TaskStatus;
  tv_owner : option string;
  tv_attempts : Z;
  tv_max : Z;
}.
Definition released (st : TaskStatus) (v : TaskView) : TaskView :=
  {| tv_status := st; tv_owner := None; tv_attempts := tv_attempts v; tv_max := tv_max v |}.
Definition owned (w : string) (v : TaskView) : Prop := tv_status v = T_RUNNING /\ tv_owner v = Some w.
Definition new_view (max : Z) : TaskView :=
  {| tv_status := T_QUEUED; tv_owner := None; tv_attempts := 0; tv_max := max |}.

Inductive view_step : relation TaskView :=
| vs_claim v w : tv_status v = T_QUEUED ->
    view_step v {| tv_status := T_RUNNING; tv_owner := Some w; tv_attempts := tv_attempts v + 1; tv_max := tv_max v |}
| vs_finish v w st : owned w v -> st = T_SUCCEEDED \/ st = T_FAILED -> view_step v (released st v)
| vs_retry v w : owned w v -> view_step v (released T_QUEUED v)
| vs_pause v w : owned w v -> view_step v (released T_PAUSED v)
| vs_resume v : tv_status v = T_PAUSED ->
    view_step v {| tv_status := T_QUEUED; tv_owner := tv_owner v; tv_attempts := tv_attempts v; tv_max := tv_max v |}
| vs_cancel v : view_step v (released T_CANCELLED v)
| vs_timeout v : tv_status v = T_RUNNING -> view_step v (released T_TIMED_OUT v)
| vs_reclaim v : tv_status v = T_RUNNING -> (tv_attempts v < tv_max v)%Z -> view_step v (released T_QUEUED v).

Inductive queue_move : relation (gmap string TaskView) :=
| qm_enqueue m id max : m !! id = None -> (1 <= max)%Z -> queue_move m (<[id := new_view max]> m)
| qm_task m id v v' : m !! id = Some v -> view_step v v' -> queue_move m (<[id := v']> m).
Definition queue_moves : relation (gmap string TaskView) := rtc queue_move.

(** ** Consequences *)

(** A task runs exactly while it has an owner. *)
Definition view_ok (v : TaskView) : Prop :=
  (tv_status v = T_RUNNING <-> is_Some (tv_owner v)) /\ (0 <= tv_attempts v)%Z /\
  (tv_status v = T_RUNNING -> (1 <= tv_attempts v)%Z) /\ (1 <= tv_max v)%Z.
Definition views_ok (m : gmap string TaskView) : Prop := map_Forall (fun _ v => view_ok v) m.
Definition final_status (st : TaskStatus) : bool :=
  match st with T_SUCCEEDED | T_FAILED | T_CANCELLED | T_TIMED_OUT => true | _ => false end.

Lemma released_ok st v : st <> T_RUNNING -> view_ok v -> view_ok (released st v).
Proof.
  intros Hst (_ & H1 & _ & H3). unfold view_ok, released. simpl. split_and!; [|done|done|done].
  split; [done|by intros [? ?]].
Qed.
Lemma view_step_ok v v' : view_step v v' -> view_ok v -> view_ok v'.
Proof.
  intros Hs Hok. destruct Hs as [v w Hq|v w st _ [->| ->]|v w _|v w _|v Hp|v|v _|v _ _]; try by apply released_ok.
  - destruct Hok as (_ & H1 & _ & H3). unfold view_ok. simpl. split_and!; [|lia|lia|done]. split; [eauto|done].
  - destruct Hok as (H0 & H1 & _ & H3). unfold view_ok. simpl. split_and!; [|done|done|done].
    split; [done|]. rewrite <-H0, Hp. done.
Qed.
Lemma queue_moves_ok m m' : queue_moves m m' -> views_ok m -> views_ok m'.
Proof.
  induction 1 as [|m1 m2 m3 Hm _ IH]; [done|]. intros Hok. apply IH. destruct Hm as [m id max _ Hmax|m id v v' Hv Hs].
  - apply map_Forall_insert_2; [|done]. unfold view_ok, new_view. simpl. split_and!; try done.
  - apply map_Forall_insert_2; [|done]. by eapply view_step_ok, Hok.
Qed.

(** What can have happened to a task: attempts grow, the bound is fixed, a
    finished task stays finished, and a final status only changes to CANCELLED. *)
Definition view_later (v v' : TaskView) : Prop :=
  (tv_attempts v <= tv_attempts v')%Z /\ tv_max v' = tv_max v /\
  (final_status (tv_status v) = true -> tv_attempts v' = tv_attempts v /\
     (tv_status v' = tv_status v \/ tv_status v' = T_CANCELLED)).
Lemma view_later_refl v : view_later v v.
Proof. split_and!; auto; lia. Qed.
Lemma view_step_later v v' : view_step v v' -> view_later v v'.
Proof.
  intros Hs. destruct Hs as [v w Hq|v w st [Hr _] _|v w [Hr _]|v w [Hr _]|v Hp|v|v Hr|v Hr _]; unfold view_later; simpl;
    rewrite ?Hq, ?Hr, ?Hp; split_and!; auto; try lia; try done.
Qed.
Lemma view_later_trans v1 v2 v3 : view_later v1 v2 -> view_later v2 v3 -> view_later v1 v3.
Proof.
  intros (A1 & B1 & C1) (A2 & B2 & C2). split_and!; [lia|congruence|]. intros Hf. destruct (C1 Hf) as [E1 S1].
  assert (Hf2 : final_status (tv_status v2) = true) by (destruct S1 as [->| ->]; done).
  destruct (C2 Hf2) as [E2 S2]. split; [congruence|]. destruct S1 as [S1|S1], S2 as [S2|S2]; rewrite S2; auto.
Qed.
Lemma queue_moves_later m m' id v : queue_moves m m' -> m !! id = Some v -> exists v', m' !! id = Some v' /\ view_later v v'.
Proof.
  intros Hm. revert v. induction Hm as [|m1 m2 m3 Hm _ IH]; intros v Hv; [eauto using view_later_refl|].
  assert (exists v2, m2 !! id = Some v2 /\ view_later v v2) as (v2 & Hv2 & L).
  { destruct Hm as [m i max Hi _|m i v1 v2 Hi Hs].
    - exists v. rewrite lookup_insert_ne by congruence. eauto using view_later_refl.
    - destruct (decide (i = id)) as [->|Hne]; simplify_eq.
      + exists v2. rewrite lookup_insert_eq. eauto using view_step_later.
      + exists v. rewrite lookup_insert_ne by done. eauto using view_later_refl. }
  destruct (IH v2 Hv2) as (v3 & Hv3 & L3). eauto using view_later_trans.
Qed.
