(* ===== verification/Tools.v ===== *)
(** The tool protocol (tools.py): results, specifications, the registry and
    the built-in echo tool.

    A tool is the interface [Tool]: its specification and its three methods.
    The methods receive the mutable world state and act on the environment
    [X] outside the process (files, a remote repository), so they are methods
    of the state-and-exception monad over [X * WorldState]. *)
From S2P Require Import Prelude Enums PyValue Sanitization Goals Plans.

Record ToolResult := {
  ok : bool;
  message : string;
  data : dict pyval;
  observed_state_delta : dict pyval;
  rollback_token : option (dict pyval);
  error : option exn;
}.
Definition tool_result (b : bool) (msg : string) : ToolResult :=
  {| ok := b; message := msg; data := []; observed_state_delta := []; rollback_token := None; error := None |}.

(** The validator of the [jsonschema] package behind [validate_json_schema]:
    the issue list for an instance and a non-empty schema. *)
Class JsonSchemaValidator := { schema_issues : dict pyval -> dict pyval -> list pyval }.

(** [validate_json_schema]: an empty schema accepts everything. *)
Definition validate_json_schema `{JsonSchemaValidator} (inst schema : dict pyval) : list pyval :=
  match schema with [] => [] | _ => schema_issues inst schema end.

Record ToolSpec := {
  name : string;
  ts_description : string;
  permissions : list Permission;
  default_risk : RiskLevel;
  reversible : bool;
  ts_reversibility : Reversibility;
  ts_rollback_reliability : float;
  ts_compensation_strategy : CompensationStrategy;
  version : string;
  input_schema : dict pyval;
  output_schema : dict pyval;
  timeout_ms : Z;
  network_access : bool;
  egress_host : option string;
  egress_methods : list string;
  rollback_egress_methods : list string;
  filesystem_scope : string;
  secrets_allowed : bool;
  sandbox_policy : SandboxPolicy;
  requires_human_for : list string;
  causal_contract : option CausalContract;
}.

(** The part of [ToolSpec.__post_init__] that computes: the reversibility is
    derived from [reversible] when it is not given, [reversible] is then
    recomputed from it, and the rollback reliability must lie in [0, 1]. *)
Definition post_init_reversibility (reversible : bool) (r : option Reversibility) : Reversibility :=
  match r with
  | None => if reversible then REVERSIBLE else IRREVERSIBLE
  | Some r => r
  end.
Definition ToolSpec_check (s : ToolSpec) (given : option Reversibility) : res exn ToolSpec :=
  let r := post_init_reversibility (reversible s) given in
  if fleb fzero (ts_rollback_reliability s) && fleb (ts_rollback_reliability s) fone
  then Ok {| name := name s; ts_description := ts_description s; permissions := permissions s;
             default_risk := default_risk s; reversible := bool_decide (r = REVERSIBLE);
             ts_reversibility := r; ts_rollback_reliability := ts_rollback_reliability s;
             ts_compensation_strategy := ts_compensation_strategy s; version := version s;
             input_schema := input_schema s; output_schema := output_schema s; timeout_ms := timeout_ms s;
             network_access := network_access s; egress_host := egress_host s;
             egress_methods := egress_methods s; rollback_egress_methods := rollback_egress_methods s;
             filesystem_scope := filesystem_scope s; secrets_allowed := secrets_allowed s;
             sandbox_policy := sandbox_policy s; requires_human_for := requires_human_for s;
             causal_contract := causal_contract s |}
  else Raise (Exn ValueError "rollback_reliability must be between 0.0 and 1.0").

Definition validate_input `{JsonSchemaValidator} (s : ToolSpec) (args : dict pyval) : list pyval :=
  validate_json_schema args (input_schema s).
Definition validate_output `{JsonSchemaValidator} (s : ToolSpec) (output : dict pyval) : list pyval :=
  validate_json_schema output (output_schema s).

(** A method of a tool over the environment and the world state. *)
Definition TM (X A : Type) : Type := M (X * WorldState) exn A.

(** [attestations]: the method [runtime_attestations], if the tool has one;
    [client_allows]: the method [client.runtime_allows_egress], if any. *)
Record Tool (X : Type) := {
  spec : ToolSpec;
  dry_run : dict pyval -> TM X ToolResult;
  execute : dict pyval -> TM X ToolResult;
  rollback : dict pyval -> TM X ToolResult;
  attestations : option (X -> res exn pyval);
  client_allows : option (X -> string -> string -> bool);
}.
Arguments spec {X} _.
Arguments dry_run {X} _ _.
Arguments execute {X} _ _.
Arguments rollback {X} _ _.
Arguments attestations {X} _.
Arguments client_allows {X} _.

(** ** The registry *)

Abbreviation ToolRegistry X := (dict (Tool X)).

Definition register {X} (t : Tool X) (r : ToolRegistry X) : res exn (ToolRegistry X) :=
  if dmem (name (spec t)) r
  then Raise (Exn ValueError ("Tool already registered: " +:+ name (spec t)))
  else Ok (dset (name (spec t)) t r).
Definition registry_get {X} (n : string) (r : ToolRegistry X) : res exn (Tool X) :=
  match dget n r with
  | Some t => Ok t
  | None => Raise (Exn KeyError ("Unknown tool: " +:+ n))
  end.
Definition names {X} (r : ToolRegistry X) : list string := py_sorted (dkeys r).

(** Registries built by [register]: the key of a tool is its name. *)
Inductive registered {X} : ToolRegistry X -> Prop :=
| registered_empty : registered []
| registered_add r t r' : registered r -> register t r = Ok r' -> registered r'.

Lemma register_inv {X} (t : Tool X) r r' :
  register t r = Ok r' -> name (spec t) ∉ dkeys r /\ r' = r ++ [(name (spec t), t)].
Proof.
  unfold register. destruct (dmem _ r) eqn:E; [done|]. intros [= <-].
  assert (name (spec t) ∉ dkeys r) by (intros H%dmem_keys; congruence).
  by rewrite dkeys_dset_fresh.
Qed.
Lemma registered_inv {X} (r : ToolRegistry X) :
  registered r -> NoDup (dkeys r) /\ Forall (fun kv => name (spec kv.2) = kv.1) r.
Proof.
  induction 1 as [|r t r' _ [Hnd HF] Hreg]; [split; constructor|].
  apply register_inv in Hreg as [Hfresh ->]. split.
  - unfold dkeys. rewrite map_app. apply NoDup_app. repeat split; [done| |apply NoDup_singleton].
    intros x Hx. simpl. rewrite list_elem_of_singleton. by intros ->.
  - apply Forall_app. split; [done|]. by repeat constructor.
Qed.
(** The tool found under a name carries that name in its specification. *)
Lemma registered_name {X} (r : ToolRegistry X) n t :
  registered r -> registry_get n r = Ok t -> name (spec t) = n.
Proof.
  intros [_ HF]%registered_inv. unfold registry_get. destruct (dget n r) as [u|] eqn:E; [|done].
  intros [= ->]. apply dget_In in E. rewrite Forall_forall in HF.
  by apply (HF (n, t)), list_elem_of_In.
Qed.

(** ** The echo tool *)

Definition echo_spec : ToolSpec := {|
  name := "echo"; ts_description := "Return a message and record it in observed state.";
  permissions := []; default_risk := LOW; reversible := false; ts_reversibility := IRREVERSIBLE;
  ts_rollback_reliability := fone; ts_compensation_strategy := CS_NONE; version := "0.1.0";
  input_schema := []; output_schema := []; timeout_ms := 3000; network_access := false;
  egress_host := None; egress_methods := []; rollback_egress_methods := []; filesystem_scope := "none";
  secrets_allowed := false; sandbox_policy := SP_NONE; requires_human_for := []; causal_contract := None |}.

Definition EchoTool `{PyRuntime} {X} : Tool X := {|
  spec := echo_spec;
  dry_run := fun args => ret
    match dget "message" args with
    | None => tool_result false "Missing required argument: message"
    | Some m => tool_result true ("Would echo: " +:+ py_str m)
    end;
  execute := fun args =>
    match dget "message" args with
    | None => raise (Exn KeyError "message")
    | Some m =>
        ret {| ok := true; message := py_str m; data := [];
               observed_state_delta := [("last_echo", VStr (py_str m))];
               rollback_token := None; error := None |}
    end;
  rollback := fun _ => ret (tool_result true "Echo has no rollback side effect");
  attestations := None;
  client_allows := None |}.
