(* ===== verification/NetworkTools.v ===== *)
(** The network tools (network_tools.py): the URL safety policy, the fetch and browser tools and the HTML
    observation parser.

    [urlparse], the HTML tokenizer, the DNS resolver and the fetcher are interfaces; resolver and fetcher act on
    the environment [X]. *)
From S2P Require Import Prelude Enums PyValue Sanitization Goals Plans Tools FileSystem PyText.

(** The attributes of [urlparse(url)]; reading [port] may raise ValueError. *)
Record ParsedURL := {
  scheme : string; url_hostname : option string; username : option string; password : option string;
  port : res exn (option Z);
}.
Class UrlParser := { urlparse : string -> ParsedURL }.
Record NetworkFetchResponse := { nf_status : Z; nf_content : string; nf_content_type : string }.
(** An entry of the resolver's answer: its address, or the exception that [info[4][0]] raises. *)
Class Network (X : Type) := {
  resolver : string -> option Z -> M X exn (list (res exn string));
  fetcher : string -> float -> Z -> M X exn NetworkFetchResponse;
}.

Definition set_of_str (l : list string) : pyval := VList (map VStr l).
(** [make_untrusted_observation] *)
Definition make_untrusted_observation (payload : dict pyval) : dict pyval :=
  dupdate payload
    [("trust_level", VStr (TrustLevel_value TL_UNTRUSTED_EXTERNAL));
     ("allowed_uses", set_of_str ["summarization"; "evidence"]);
     ("forbidden_uses", set_of_str ["policy_override"; "credential_request"; "system_instruction"; "tool_permission_grant"])].

Record URLSafetyPolicy := {
  allowed_domains : list string; denied_domains : list string; resolve_dns : bool; max_redirects : Z;
}.
Definition default_url_policy : URLSafetyPolicy :=
  {| allowed_domains := []; denied_domains := []; resolve_dns := false; max_redirects := 0 |}.

Section policy.
Context `{PyRuntime} `{UrlParser} {X : Type} `{Network X}.
Context (p : URLSafetyPolicy).

Definition passed : ToolResult := tool_result true "URL passed safety policy".
(** [_blocked_ip]: the metadata address is link-local anyway. *)
Definition blocked_ip (addr : string) : option bool :=
  match ip_blocked addr with Some b => Some (b || String.eqb addr "169.254.169.254") | None => None end.
Definition in_domain (host d : string) : bool := String.eqb host d || ends_with ("." +:+ d) host.
(** The loop of [_validate_dns] over the answer. *)
Fixpoint check_addresses (infos : list (res exn string)) : ToolResult :=
  match infos with
  | [] => passed
  | info :: infos' =>
      match match info with Ok addr => blocked_ip addr | Raise _ => None end with
      | None => tool_result false "DNS resolver returned an invalid address"
      | Some true => tool_result false "DNS resolved to a local, private, metadata, or reserved IP"
      | Some false => check_addresses infos'
      end
  end.
Definition validate_dns (host : string) (port_ : option Z) : M X exn ToolResult := fun x =>
  match resolver host port_ x with
  | (Ok infos, x') => (Ok (check_addresses infos), x')
  | (Raise e, x') => (Ok (tool_result false ("DNS resolution failed closed: " +:+ exn_name (exn_cls e))), x')
  end.
Definition given (o : option string) : bool := match o with Some s => negb (String.eqb s "") | None => false end.
(** [URLSafetyPolicy.validate] *)
Definition validate_url (url : string) : M X exn ToolResult :=
  let parsed := urlparse url in
  if negb (str_mem (scheme parsed) ["http"; "https"]) then ret (tool_result false "Only http and https URLs are allowed")
  else if negb (given (url_hostname parsed)) then ret (tool_result false "URL must include a host")
  else if given (username parsed) || given (password parsed)
  then ret (tool_result false "Embedded credentials are not allowed in URLs")
  else
    let host := py_lower (rstrip_char "." (default "" (url_hostname parsed))) in
    if existsb (in_domain host) (denied_domains p) then ret (tool_result false "Domain is denied by URL safety policy")
    else if negb (bool_decide (allowed_domains p = [])) && negb (existsb (in_domain host) (allowed_domains p))
    then ret (tool_result false "Domain is not in the allowed domain list")
    else if String.eqb host "localhost" then ret (tool_result false "Localhost URLs are blocked")
    else match blocked_ip host with
    | None =>
        if resolve_dns p then let! po := of_res (port parsed) in validate_dns host po else ret passed
    | Some true => ret (tool_result false "Local, private, link-local, metadata, and reserved IPs are blocked")
    | Some false => ret passed
    end.
End policy.

(** ** NetworkFetchTool *)

Definition type_is_ (ty : string) : pyval := VDict [("type", VStr ty)].
Definition network_input_schema : dict pyval :=
  [("type", VStr "object"); ("required", VList [VStr "url"]);
   ("properties", VDict
     [("url", VDict [("type", VStr "string"); ("minLength", VInt 1)]);
      ("timeout_seconds", VDict [("type", VStr "number"); ("minimum", VFloat (SFdiv fprec femax (f_of_Z 1) (f_of_Z 10)));
                                 ("maximum", VInt 30)]);
      ("max_bytes", VDict [("type", VStr "integer"); ("minimum", VInt 1); ("maximum", VInt 1048576)])]);
   ("additionalProperties", VBool false)].
Definition string_items : pyval := VDict [("type", VStr "array"); ("items", type_is_ "string")].
Definition trust_schema : dict pyval :=
  [("trust_level", VDict [("type", VStr "string"); ("enum", VList [VStr (TrustLevel_value TL_UNTRUSTED_EXTERNAL)])]);
   ("allowed_uses", string_items); ("forbidden_uses", string_items)].
Definition observation_schema (key : string) (required : list string) (props : dict pyval) : dict pyval :=
  [("type", VStr "object"); ("required", VList [VStr key]);
   ("properties", VDict [(key, VDict
     [("type", VStr "object"); ("required", set_of_str required); ("properties", VDict (props ++ trust_schema));
      ("additionalProperties", VBool false)])]);
   ("additionalProperties", VBool false)].
Definition network_spec (n desc : string) (output : dict pyval) : ToolSpec := {|
  name := n; ts_description := desc; permissions := [NETWORK]; default_risk := MEDIUM; reversible := false;
  ts_reversibility := IRREVERSIBLE; ts_rollback_reliability := fone; ts_compensation_strategy := CS_NONE;
  version := "0.1.0"; input_schema := network_input_schema; output_schema := output; timeout_ms := 5000;
  network_access := true; egress_host := None; egress_methods := []; rollback_egress_methods := [];
  filesystem_scope := "none"; secrets_allowed := false; sandbox_policy := SP_NONE;
  requires_human_for := ["external_network"]; causal_contract := None |}.
Definition network_fetch_spec : ToolSpec :=
  network_spec "network_fetch" "Fetch an HTTP(S) URL as an untrusted external observation."
    (observation_schema "last_network_observation" ["url"; "status_code"; "content"; "content_type"; "trust_level"]
       [("url", type_is_ "string"); ("status_code", type_is_ "integer"); ("content", type_is_ "string");
        ("content_type", type_is_ "string")]).
Definition browser_read_spec : ToolSpec :=
  network_spec "browser_read" "Read an HTTP(S) page and extract title, text, and links as untrusted observation data."
    (observation_schema "last_browser_observation" ["url"; "status_code"; "title"; "text"; "links"; "trust_level"]
       [("url", type_is_ "string"); ("status_code", type_is_ "integer"); ("title", type_is_ "string");
        ("text", type_is_ "string"); ("links", string_items)]).

Section fetch.
Context `{PyRuntime} `{UrlParser} `{JsonSchemaValidator} {X : Type} `{Network X}.
Context (p : URLSafetyPolicy).
Abbreviation NT A := (TM X A).
Definition in_net {A} (m : M X exn A) : NT A := fun '(x, w) => let (r, x') := m x in (r, (x', w)).

Definition schema_failed (issues : list pyval) : ToolResult :=
  {| ok := false; message := "Input schema validation failed"; data := [("schema_issues", VList issues)];
     observed_state_delta := []; rollback_token := None;
     error := Some (Exn SchemaValidationFailed "Input schema validation failed") |}.
Definition fetch_dry_run (args : dict pyval) : NT ToolResult :=
  match validate_input network_fetch_spec args with
  | (_ :: _) as issues => ret (schema_failed issues)
  | [] =>
      let! u := of_res (dget_item "url" args) in
      let url := py_str u in
      let! safety := in_net (validate_url p url) in
      if negb (ok safety) then ret safety else ret (tool_result true ("Would fetch " +:+ url))
  end.
Definition fetch_observation (url : string) (r : NetworkFetchResponse) : dict pyval :=
  make_untrusted_observation
    [("url", VStr url); ("status_code", VInt (nf_status r)); ("content", VStr (nf_content r));
     ("content_type", VStr (nf_content_type r))].
Definition network_failed (msg : string) (e : exn) : ToolResult :=
  {| ok := false; message := msg; data := []; observed_state_delta := []; rollback_token := None; error := Some e |}.
Definition observation_result (msg key : string) (o : dict pyval) : ToolResult :=
  {| ok := true; message := msg; data := [("observation", VDict o)]; observed_state_delta := [(key, VDict o)];
     rollback_token := None; error := None |}.
Definition fetch_execute (args : dict pyval) : NT ToolResult :=
  let! dry := fetch_dry_run args in
  if negb (ok dry) then ret dry
  else
    let! u := of_res (dget_item "url" args) in
    let url := py_str u in
    let! timeout := of_res (py_float (dget_or "timeout_seconds" (VFloat (f_of_Z 5)) args)) in
    let! max_bytes := of_res (py_int (dget_or "max_bytes" (VInt 65536) args)) in
    fun s =>
      match in_net (fetcher url timeout max_bytes) s with
      | (Raise e, s') =>
          if isinstance e TimeoutError
          then (Ok (network_failed ("Network fetch timed out: " +:+ exn_str e) (Exn ToolTimeout (exn_str e))), s')
          else (Ok (network_failed ("Network fetch failed: " +:+ exn_str e) (Exn LeosError (exn_str e))), s')
      | (Ok r, s') => (Ok (observation_result ("Fetched " +:+ url) "last_network_observation" (fetch_observation url r)), s')
      end.
Definition NetworkFetchTool : Tool X := {|
  spec := network_fetch_spec; dry_run := fetch_dry_run; execute := fetch_execute;
  rollback := fun _ => ret (tool_result true "Network fetch has no rollback side effect");
  attestations := None; client_allows := None |}.
End fetch.

(** ** The HTML observation and BrowserReadTool *)

(** The calls the tokenizer makes while it is fed a page. *)
Inductive html_event : Type :=
| StartTag (tag : string) (attrs : list (string * option string))
| EndTag (tag : string)
| Data (text : string).
Class HtmlTokenizer := { html_feed : string -> list html_event }.
Record HTMLObservation := {
  ho_links : list string; title_parts : list string; text_parts : list string; in_title : bool; ignored_depth : Z;
}.
Definition new_observation : HTMLObservation :=
  {| ho_links := []; title_parts := []; text_parts := []; in_title := false; ignored_depth := 0 |}.
Definition ignored_tag (tag : string) : bool := str_mem tag ["script"; "style"].
(** [dict(attrs).get("href")] *)
Definition href (attrs : list (string * option string)) : option string :=
  match dget "href" (fold_left (fun d kv => dset kv.1 kv.2 d) attrs []) with Some (Some v) => Some v | _ => None end.
Definition handle_event (o : HTMLObservation) (e : html_event) : HTMLObservation :=
  match e with
  | StartTag tag attrs => {|
      ho_links := if String.eqb tag "a"
                  then match href attrs with Some l => if String.eqb l "" then ho_links o else ho_links o ++ [l] | None => ho_links o end
                  else ho_links o;
      title_parts := title_parts o; text_parts := text_parts o;
      in_title := if String.eqb tag "title" then true else in_title o;
      ignored_depth := if ignored_tag tag then ignored_depth o + 1 else ignored_depth o |}
  | EndTag tag => {|
      ho_links := ho_links o; title_parts := title_parts o; text_parts := text_parts o;
      in_title := if String.eqb tag "title" then false else in_title o;
      ignored_depth := if ignored_tag tag && negb (ignored_depth o =? 0)%Z then ignored_depth o - 1 else ignored_depth o |}
  | Data text =>
      if negb (ignored_depth o =? 0)%Z then o
      else
        let t := str_join " " (py_split text) in
        if String.eqb t "" then o
        else if in_title o
        then {| ho_links := ho_links o; title_parts := title_parts o ++ [t]; text_parts := text_parts o;
                in_title := in_title o; ignored_depth := ignored_depth o |}
        else {| ho_links := ho_links o; title_parts := title_parts o; text_parts := text_parts o ++ [t];
                in_title := in_title o; ignored_depth := ignored_depth o |}
  end%Z.
(** [_parse_html] *)
Definition parse_html `{HtmlTokenizer} (content : string) : HTMLObservation :=
  fold_left handle_event (html_feed content) new_observation.

Section browser.
Context `{PyRuntime} `{UrlParser} `{JsonSchemaValidator} `{HtmlTokenizer} {X : Type} `{Network X}.
Context (p : URLSafetyPolicy).
Definition browser_observation (o : dict pyval) : dict pyval :=
  let page := parse_html (py_str (dget_or "content" VNone o)) in
  make_untrusted_observation
    [("url", dget_or "url" VNone o); ("status_code", dget_or "status_code" VNone o);
     ("title", VStr (str_join " " (title_parts page))); ("text", VStr (str_join " " (text_parts page)));
     ("links", set_of_str (ho_links page))].
Definition browser_execute (args : dict pyval) : TM X ToolResult :=
  let! raw := fetch_execute p args in
  if negb (ok raw) then ret raw
  else
    match dget "observation" (data raw) with
    | Some (VDict o) =>
        let obs := browser_observation o in
        ret (observation_result ("Read browser page " +:+ py_str (dget_or "url" VNone obs)) "last_browser_observation" obs)
    | _ => raise (Exn KeyError (py_repr "observation"))
    end.
Definition BrowserReadTool : Tool X := {|
  spec := browser_read_spec; dry_run := fetch_dry_run p; execute := browser_execute;
  rollback := fun _ => ret (tool_result true "Browser read has no rollback side effect");
  attestations := None; client_allows := None |}.
End browser.

(** ** [_urllib_fetch] over the outcomes of [urllib.request.urlopen] *)

Inductive fetch_outcome : Type :=
| FetchOpened (status : Z) (raw : string) (content_type : option string)
| FetchTimeout (text : string)
| FetchURLError (timeout : bool) (e : exn)
| FetchOther (e : exn).
Definition urllib_fetch (max_bytes : Z) (o : fetch_outcome) : res exn NetworkFetchResponse :=
  match o with
  | FetchOpened status raw ct =>
      Ok {| nf_status := status; nf_content := decode_prefix (Z.to_nat max_bytes) raw;
            nf_content_type := default "application/octet-stream" ct |}
  | FetchTimeout text => Raise (Exn TimeoutError text)
  | FetchURLError timeout e => if timeout then Raise (Exn TimeoutError (exn_str e)) else Raise e
  | FetchOther e => Raise e
  end.
