(* ===== verification/AuditTrail.v ===== *)
(** The append-only audit log and its hash chain (audit.py), and the class
    [HasSys] through which every other component records events.

    A log opened with a path keeps, besides the events of this process, the
    lines of the JSONL file; a line is represented by the record it encodes
    (what [json.loads] returns for the line that [json.dumps] wrote). *)
From S2P Require Import Prelude Enums PyValue Sanitization Goals Plans Tools.

Record AuditEvent := {
  event_type : string;
  ev_message : string;
  payload : dict pyval;
  sequence : Z;
  previous_hash : string;
  event_hash : string;
  ev_created_at : float;
  event_id : string;
}.

(** [asdict(event)] *)
Definition event_asdict (e : AuditEvent) : dict pyval :=
  [("event_type", VStr (event_type e)); ("message", VStr (ev_message e)); ("payload", VDict (payload e));
   ("sequence", VInt (sequence e)); ("previous_hash", VStr (previous_hash e));
   ("event_hash", VStr (event_hash e)); ("created_at", VFloat (ev_created_at e));
   ("event_id", VStr (event_id e))].

Record AuditLog := {
  events : list AuditEvent;
  al_file : option (list (dict pyval));
}.

Definition GENESIS_HASH : string := "0000000000000000000000000000000000000000000000000000000000000000".

(** [AuditLog(path)]: no event is read back from an existing file. *)
Definition new_log : AuditLog := {| events := []; al_file := None |}.
Definition open_log (lines : list (dict pyval)) : AuditLog := {| events := []; al_file := Some lines |}.

(** The audit log together with the positions of the clock and uuid oracles. *)
Record Sys := { sys_log : AuditLog; n_time : nat; n_uuid : nat }.

Class HasSys (S : Type) := {
  sys_of : S -> Sys;
  upd_sys : Sys -> S -> S;
  sys_of_upd : forall x s, sys_of (upd_sys x s) = x;
}.
#[export] Program Instance Sys_HasSys : HasSys Sys := {| sys_of := fun s => s; upd_sys := fun x _ => x |}.
Next Obligation. done. Qed.

Section audit.
Context `{PyRuntime}.

Definition hashable_part (record : dict pyval) : dict pyval :=
  filter (fun kv => String.eqb kv.1 "event_hash" = false) record.
(** The text that is hashed. *)
Definition record_text (record : dict pyval) : string :=
  json_dumps "," ":" json_string (VDict (hashable_part record)).
Definition hash_event_record (record : dict pyval) : string := sha256_hex (record_text record).

(** [_append_event] *)
Definition append_event (et msg : string) (pl : dict pyval) (s : Sys) : Sys :=
  let l := sys_log s in
  let prev := match last (events l) with Some e => event_hash e | None => GENESIS_HASH end in
  let e0 := {| event_type := et; ev_message := msg; payload := pl;
               sequence := Z.of_nat (length (events l)) + 1; previous_hash := prev; event_hash := "";
               ev_created_at := time_at (n_time s); event_id := uuid_at (n_uuid s) |} in
  let e := {| event_type := et; ev_message := msg; payload := pl; sequence := sequence e0;
              previous_hash := prev; event_hash := hash_event_record (event_asdict e0);
              ev_created_at := ev_created_at e0; event_id := event_id e0 |} in
  {| sys_log := {| events := events l ++ [e];
                   al_file := (fun lines => lines ++ [event_asdict e]) <$> al_file l |};
     n_time := S (n_time s); n_uuid := S (n_uuid s) |}.

(** What [record] appends: the sanitized message and payload, or the
    [audit.secret_blocked] event that replaces them. *)
Definition record_content (et msg : string) (pl : dict pyval) : string * string * dict pyval :=
  match res_bind (sanitize_for_boundary REJECT "$.message" (VStr msg)) (fun m =>
        res_map (pair m) (sanitize_for_boundary REJECT "$.payload" (VDict pl))) with
  | Ok (VStr m, VDict d) => (et, m, d)
  | Ok _ => (et, msg, pl)
  | Raise exc =>
      ("audit.secret_blocked", "Audit payload contained secret-like value and was blocked",
       [("original_event_type", VStr et); ("error_type", VStr (exn_name (exn_cls exc)));
        ("reason", VStr (exn_str exc))])
  end.
Definition record (et msg : string) (pl : dict pyval) (s : Sys) : Sys :=
  let '(et', msg', pl') := record_content et msg pl in append_event et' msg' pl' s.

(** [records()] *)
Definition records (l : AuditLog) : list (dict pyval) :=
  match al_file l with Some lines => lines | None => map event_asdict (events l) end.

(** [verify_event_records]: the issues of one record, and the loop over the log. *)
Definition record_issues (index : Z) (expected_sequence : Z) (expected_previous : string)
    (r : dict pyval) : list pyval :=
  let seq := default VNone (dget "sequence" r) in
  let prev := default VNone (dget "previous_hash" r) in
  let hash := default VNone (dget "event_hash" r) in
  let computed := hash_event_record r in
  let issue reason expected observed :=
    VDict [("index", VInt index); ("reason", VStr reason); ("expected", expected); ("observed", observed)] in
  (if py_neq seq (VInt expected_sequence)
   then [issue "sequence_mismatch" (VInt expected_sequence) seq] else []) ++
  (if py_neq prev (VStr expected_previous)
   then [issue "previous_hash_mismatch" (VStr expected_previous) prev] else []) ++
  (if py_neq hash (VStr computed)
   then [issue "event_hash_mismatch" (VStr computed) hash] else []).
Fixpoint verify_loop (index expected_sequence : Z) (expected_previous : string)
    (rs : list (dict pyval)) : list pyval :=
  match rs with
  | [] => []
  | r :: rs' =>
      let hash := default VNone (dget "event_hash" r) in
      record_issues index expected_sequence expected_previous r ++
      verify_loop (index + 1) (expected_sequence + 1)
        (if truthy hash then py_str hash else "") rs'
  end.
Definition verify_event_records (rs : list (dict pyval)) : ToolResult :=
  match verify_loop 0 1 GENESIS_HASH rs with
  | [] => tool_result true "Audit integrity verification passed"
  | issues =>
      {| ok := false; message := "Audit integrity verification failed"; data := [("issues", VList issues)];
         observed_state_delta := []; rollback_token := None;
         error := Some (Exn VerificationFailed "Audit integrity verification failed") |}
  end.
Definition verify_integrity (l : AuditLog) : ToolResult := verify_event_records (records l).

(** ** Recording from any component *)

Context {St : Type} `{HasSys St}.

Definition audit (et msg : string) (pl : dict pyval) : M St exn unit :=
  modify (fun s => upd_sys (record et msg pl (sys_of s)) s).
(** [time.time()] *)
Definition time_time : M St exn float := fun s =>
  let x := sys_of s in
  (Ok (time_at (n_time x)), upd_sys {| sys_log := sys_log x; n_time := S (n_time x); n_uuid := n_uuid x |} s).
(** [str(uuid.uuid4())] *)
Definition uuid4 : M St exn string := fun s =>
  let x := sys_of s in
  (Ok (uuid_at (n_uuid x)), upd_sys {| sys_log := sys_log x; n_time := n_time x; n_uuid := S (n_uuid x) |} s).

#[global] Arguments hash_event_record : simpl never.

(** ** The chain invariant *)

Fixpoint chain_from (prev : string) (seq : Z) (es : list AuditEvent) : Prop :=
  match es with
  | [] => True
  | e :: es' =>
      sequence e = seq /\ previous_hash e = prev /\
      event_hash e = hash_event_record (event_asdict e) /\ chain_from (event_hash e) (seq + 1) es'
  end.
Definition chain_valid (es : list AuditEvent) : Prop := chain_from GENESIS_HASH 1 es.
(** A log is well formed when its own events form a chain and, when it
    started on an empty file, the file holds exactly those events. *)
Definition log_ok (l : AuditLog) : Prop :=
  chain_valid (events l) /\
  match al_file l with Some lines => lines = map event_asdict (events l) | None => True end.

Lemma chain_from_app prev seq es es' :
  chain_from prev seq (es ++ es') <->
  chain_from prev seq es /\
  chain_from (match last es with Some e => event_hash e | None => prev end) (seq + Z.of_nat (length es)) es'.
Proof.
  revert prev seq. induction es as [|e es IH]; intros prev seq; simpl.
  - rewrite Z.add_0_r. tauto.
  - rewrite IH. replace (seq + Z.of_nat (S (length es)))%Z
      with (seq + 1 + Z.of_nat (length es))%Z by lia.
    destruct es as [|e' es]; cbn [last]; [tauto|].
    destruct (last (e' :: es)) eqn:El; [tauto|]. by apply last_None in El.
Qed.

Lemma hash_ignores_event_hash e h :
  hash_event_record (event_asdict e) =
  hash_event_record (event_asdict {| event_type := event_type e; ev_message := ev_message e;
    payload := payload e; sequence := sequence e; previous_hash := previous_hash e; event_hash := h;
    ev_created_at := ev_created_at e; event_id := event_id e |}).
Proof. done. Qed.

Lemma append_event_log_ok et msg pl s : log_ok (sys_log s) -> log_ok (sys_log (append_event et msg pl s)).
Proof.
  intros [Hc Hf]. unfold append_event. split; simpl.
  - unfold chain_valid. apply chain_from_app. split; [exact Hc|].
    cbn [chain_from sequence previous_hash event_hash].
    split; [lia|]. split; [reflexivity|]. split; [reflexivity|exact I].
  - destruct (al_file (sys_log s)) as [lines|]; simpl; [|exact I]. by rewrite Hf, map_app.
Qed.

(** [log_extends]: events are only ever appended, and the chain stays valid. *)
Definition sys_extends (x y : Sys) : Prop :=
  events (sys_log x) `prefix_of` events (sys_log y) /\ (log_ok (sys_log x) -> log_ok (sys_log y)).
#[export] Instance sys_extends_preorder : PreOrder sys_extends.
Proof.
  split; [intros x; by split|]. intros x y z [H1 H2] [H3 H4]. split; [by etrans|auto].
Qed.
Lemma record_extends et msg pl s : sys_extends s (record et msg pl s).
Proof.
  unfold record. destruct (record_content et msg pl) as [[et' msg'] pl']. split.
  - simpl. by apply prefix_app_r.
  - apply append_event_log_ok.
Qed.

Definition log_extends : relation St := fun s s' => sys_extends (sys_of s) (sys_of s').
#[export] Instance log_extends_preorder : PreOrder log_extends.
Proof. split; [intros s; unfold log_extends; reflexivity|]. intros s s' s'' H1 H2. unfold log_extends in *. by etrans. Qed.

Lemma audit_keeps et msg pl : keeps log_extends (audit et msg pl).
Proof. intros s. unfold log_extends. simpl. rewrite sys_of_upd. apply record_extends. Qed.
Lemma time_keeps : keeps log_extends time_time.
Proof. intros s. unfold log_extends. simpl. by rewrite sys_of_upd. Qed.
Lemma uuid_keeps : keeps log_extends uuid4.
Proof. intros s. unfold log_extends. simpl. by rewrite sys_of_upd. Qed.
Lemma audit_total et msg pl : total (audit et msg pl).
Proof. apply total_modify. Qed.
Lemma time_total : total time_time.
Proof. intros s. unfold time_time. eauto. Qed.
Lemma uuid_total : total uuid4.
Proof. intros s. unfold uuid4. eauto. Qed.
End audit.

#[export] Hint Resolve audit_keeps time_keeps uuid_keeps : keeps.
#[export] Hint Resolve audit_total time_total uuid_total : total.
