(* ===== verification/Replay.v ===== *)
(** What reads an audit log: the replay of recorded events (replay.py), the anomaly detector (audit.py), and the counters
    and sinks (observability.py). *)
From S2P Require Import Prelude Enums PyValue Sanitization Goals Plans Tools AuditTrail.


(** A dictionary whose keys are any hashable values, in insertion order. *)
Abbreviation pydict A := (list (pyval * A)).
Section pydict.
Context {A : Type}.
Implicit Types (d : pydict A) (k : pyval).
Fixpoint kget k d : option A :=
  match d with [] => None | (k', v) :: d' => if py_eq k k' then Some v else kget k d' end.
Fixpoint kset k (v : A) d : pydict A :=
  match d with
  | [] => [(k, v)]
  | (k', v') :: d' => if py_eq k k' then (k', v) :: d' else (k', v') :: kset k v d'
  end.
End pydict.

Record ReplayResult := {
  rp_ok : bool;
  rp_state : WorldState;
  applied_events : Z;
  rp_errors : list pyval;
  rp_goals : pydict (dict pyval);
  rp_tasks : pydict (dict pyval);
  rp_plans : pydict (dict pyval);
  rollbacks : list (dict pyval);
  policy_decisions : list (dict pyval);
  budget_events : list (dict pyval);
  failed_steps : list (dict pyval);
  blocked_steps : list (dict pyval);
}.
Definition empty_replay : ReplayResult := {|
  rp_ok := true; rp_state := empty_world; applied_events := 0; rp_errors := []; rp_goals := []; rp_tasks := [];
  rp_plans := []; rollbacks := []; policy_decisions := []; budget_events := []; failed_steps := []; blocked_steps := [] |}.
Definition with_state (w : WorldState) (n : Z) (r : ReplayResult) : ReplayResult :=
  {| rp_ok := rp_ok r; rp_state := w; applied_events := applied_events r + n; rp_errors := rp_errors r;
     rp_goals := rp_goals r; rp_tasks := rp_tasks r; rp_plans := rp_plans r; rollbacks := rollbacks r;
     policy_decisions := policy_decisions r; budget_events := budget_events r; failed_steps := failed_steps r;
     blocked_steps := blocked_steps r |}.
Definition with_goals d (r : ReplayResult) : ReplayResult :=
  {| rp_ok := rp_ok r; rp_state := rp_state r; applied_events := applied_events r; rp_errors := rp_errors r;
     rp_goals := d; rp_tasks := rp_tasks r; rp_plans := rp_plans r; rollbacks := rollbacks r;
     policy_decisions := policy_decisions r; budget_events := budget_events r; failed_steps := failed_steps r;
     blocked_steps := blocked_steps r |}.
Definition with_tasks d (r : ReplayResult) : ReplayResult :=
  {| rp_ok := rp_ok r; rp_state := rp_state r; applied_events := applied_events r; rp_errors := rp_errors r;
     rp_goals := rp_goals r; rp_tasks := d; rp_plans := rp_plans r; rollbacks := rollbacks r;
     policy_decisions := policy_decisions r; budget_events := budget_events r; failed_steps := failed_steps r;
     blocked_steps := blocked_steps r |}.
Definition with_plans d (r : ReplayResult) : ReplayResult :=
  {| rp_ok := rp_ok r; rp_state := rp_state r; applied_events := applied_events r; rp_errors := rp_errors r;
     rp_goals := rp_goals r; rp_tasks := rp_tasks r; rp_plans := d; rollbacks := rollbacks r;
     policy_decisions := policy_decisions r; budget_events := budget_events r; failed_steps := failed_steps r;
     blocked_steps := blocked_steps r |}.
(** The lists that events are appended to: rollbacks, decisions, budget, failed and blocked steps. *)
Definition with_lists rb pd be fl bl (r : ReplayResult) : ReplayResult :=
  {| rp_ok := rp_ok r; rp_state := rp_state r; applied_events := applied_events r; rp_errors := rp_errors r;
     rp_goals := rp_goals r; rp_tasks := rp_tasks r; rp_plans := rp_plans r; rollbacks := rollbacks r ++ rb;
     policy_decisions := policy_decisions r ++ pd; budget_events := budget_events r ++ be; failed_steps := failed_steps r ++ fl;
     blocked_steps := blocked_steps r ++ bl |}.

Section replay.
Context `{PyRuntime}.

Definition unhashable {A} (v : pyval) : res exn A := Raise (Exn TypeError ("unhashable type: " +:+ py_repr (type_name v))).
Definition need_hash (v : pyval) : res exn unit := if hashable v then Ok tt else unhashable v.
(** [TrustLevel(str(payload.get(key, default)))] *)
Definition trust_arg (key : string) (d : TrustLevel) (pl : dict pyval) : res exn TrustLevel :=
  enum_of (py_str (default (VStr (TrustLevel_value d)) (dget key pl))).
(** [mark_trust] on a list of values: each one is looked up in the facts. *)
Definition mark_values (keys : list pyval) (tl : TrustLevel) (w : WorldState) : res exn WorldState :=
  res_map (fun _ => mark_trust (omap as_str keys) tl w)
    (fold_right (fun k acc => res_bind (need_hash k) (fun _ => acc)) (Ok tt) keys).
Definition key_arg (key : string) (pl : dict pyval) : res exn pyval :=
  let v := default (VStr "") (dget key pl) in res_map (fun _ => v) (need_hash v).
(** [{"type": t, **dict(payload)}] *)
Definition typed_entry (t : string) (pl : dict pyval) : dict pyval := dupdate [("type", VStr t)] pl.
Definition task_status (status : string) (pl : dict pyval) (r : ReplayResult) : res exn ReplayResult :=
  res_bind (key_arg "task_id" pl) (fun id =>
  Ok match kget id (rp_tasks r) with
     | Some d => with_tasks (kset id (dset "status" (VStr status) d) (rp_tasks r)) r
     | None => r
     end).
Definition FAILED_EVENTS : list string :=
  ["step.precondition_failed"; "step.postcondition_failed"; "step.dry_run_failed"; "step.execution_failed";
   "step.output_schema_failed"; "step.verification_failed"].
(** The chain of comparisons for an event type that is a string. *)
Definition apply_payload (et : string) (pl : dict pyval) (r : ReplayResult) : res exn ReplayResult :=
  if String.eqb et "step.executed" then
    match default (VDict []) (dget "observed" pl) with
    | VDict observed =>
        res_map (fun tl => with_state (observe observed tl (rp_state r)) 1 r) (trust_arg "observed_trust" TL_TOOL_REPORTED pl)
    | _ => Ok r
    end
  else if String.eqb et "step.verified" then
    match default (VTuple []) (dget "verified" pl) with
    | VList keys =>
        res_bind (trust_arg "verified_trust" TL_VERIFIED pl) (fun tl =>
        res_map (fun w => with_state w 0 r) (mark_values keys tl (rp_state r)))
    | _ => Ok r
    end
  else if String.eqb et "step.blocked" then Ok (with_lists [] [pl] [] [] [pl] r)
  else if str_mem et FAILED_EVENTS then Ok (with_lists [] [] [] [typed_entry et pl] [] r)
  else if String.eqb et "step.rollback" then Ok r
  else if String.eqb et "goal.created" then
    res_map (fun id => with_goals (kset id pl (rp_goals r)) r) (key_arg "goal_id" pl)
  else if String.eqb et "goal.status_changed" then
    res_map (fun id =>
      let d := default [] (kget id (rp_goals r)) in
      with_goals (kset id (dset "from_status" (default VNone (dget "from_status" pl))
                             (dset "status" (default VNone (dget "to_status" pl)) d)) (rp_goals r)) r) (key_arg "goal_id" pl)
  else if String.eqb et "plan.started" then
    res_map (fun id => with_plans (kset id pl (rp_plans r)) r) (key_arg "plan_id" pl)
  else if String.eqb et "plan.finished" then
    res_map (fun id =>
      match kget id (rp_plans r) with
      | Some d => with_plans (kset id (dset "goal_status" (default VNone (dget "goal_status" pl)) d) (rp_plans r)) r
      | None => r
      end) (key_arg "plan_id" pl)
  else if String.eqb et "memory.written" then
    match as_str (default VNone (dget "key" pl)) with
    | Some key => Ok (with_state (set_fact ("memory:" +:+ key) (default VNone (dget "value" pl)) TL_VERIFIED (rp_state r)) 1 r)
    | None => Ok r
    end
  else if str_mem et ["budget.checked"; "budget.exceeded"] then Ok (with_lists [] [] [pl] [] [] r)
  else if String.eqb et "rollback_attempted" then Ok (with_lists [typed_entry "attempted" pl] [] [] [] [] r)
  else if String.eqb et "rollback_succeeded" then Ok (with_lists [typed_entry "succeeded" pl] [] [] [] [] r)
  else if String.eqb et "rollback_failed" then Ok (with_lists [typed_entry "failed" pl] [] [] [] [] r)
  else if String.eqb et "rollback_partially_completed" then Ok (with_lists [typed_entry "partial" pl] [] [] [] [] r)
  else if String.eqb et "manual_recovery_required" then Ok (with_lists [typed_entry "manual_recovery" pl] [] [] [] [] r)
  else if String.eqb et "task.enqueued" then
    res_map (fun id => with_tasks (kset id (dupdate [("status", VStr "queued")] pl) (rp_tasks r)) r) (key_arg "task_id" pl)
  else if String.eqb et "task.claimed" then task_status "running" pl r
  else if String.eqb et "task.completed" then task_status "succeeded" pl r
  else if String.eqb et "task.failed" then task_status "failed" pl r
  else if String.eqb et "task.timed_out" then task_status "timed_out" pl r
  else if String.eqb et "task.cancelled" then task_status "cancelled" pl r
  else if String.eqb et "task.retry_scheduled" then task_status "retrying" pl r
  else if String.eqb et "state.trust_escalated" then
    match default (VTuple []) (dget "keys" pl) with
    | VList keys =>
        res_bind (trust_arg "to_trust" TL_VERIFIED pl) (fun tl =>
        res_map (fun w => with_state w 0 r) (mark_values keys tl (rp_state r)))
    | _ => Ok r
    end
  else Ok r.
(** The body of the loop. *)
Definition apply_record (r : ReplayResult) (record : dict pyval) : res exn ReplayResult :=
  match default (VDict []) (dget "payload" record) with
  | VDict pl =>
      let et := default (VStr "") (dget "event_type" record) in
      match as_str et with
      | Some et => apply_payload et pl r
      | None => res_map (fun _ => r) (need_hash et)     (** the set of failed events hashes it *)
      end
  | _ => Ok r
  end.
Fixpoint apply_records (r : ReplayResult) (l : list (dict pyval)) : res exn ReplayResult :=
  match l with [] => Ok r | x :: l' => res_bind (apply_record r x) (fun r' => apply_records r' l') end.
Definition replay_records (l : list (dict pyval)) (verify_integrity : bool) : res exn ReplayResult :=
  let integrity := verify_event_records l in
  if verify_integrity && negb (ok integrity)
  then Ok {| rp_ok := false; rp_state := empty_world; applied_events := 0;
             rp_errors := match dget "issues" (data integrity) with Some (VList issues) => issues | _ => [] end;
             rp_goals := []; rp_tasks := []; rp_plans := []; rollbacks := []; policy_decisions := []; budget_events := [];
             failed_steps := []; blocked_steps := [] |}
  else apply_records empty_replay l.
(** [AuditReplayer.replay] and [replay_audit_log] *)
Definition replay (l : AuditLog) (verify_integrity : bool) : res exn ReplayResult := replay_records (records l) verify_integrity.
End replay.

(** * Anomaly detection over audit records (audit.py, the detector), and the counters and sinks of observability.py. *)


(** Formatting of floats in messages: [{x:.1f}] and [{x:.0%}]. *)
Class FloatFormat := { fmt_1f : float -> string; fmt_percent : float -> string }.

Record AnomalyFinding := { af_rule : string; af_severity : string; af_message : string; af_evidence : dict pyval }.

Section detector.
Context `{PyRuntime} `{FloatFormat}.
(** The detector's window and threshold. *)
Context (burst_window : float) (burst_threshold : Z).
Abbreviation records := (list (dict pyval)).

(** [e.get("event_type") in {...}]; the set hashes its argument. *)
Definition type_in (l : list string) (e : dict pyval) : res exn bool :=
  let v := default VNone (dget "event_type" e) in
  match as_str v with
  | Some s => Ok (str_mem s l)
  | None => if hashable v then Ok false else Raise (Exn TypeError ("unhashable type: " +:+ py_repr (type_name v)))
  end.
(** [e.get("event_type") == s] *)
Definition type_is (s : string) (e : dict pyval) : bool := py_eq (default VNone (dget "event_type" e)) (VStr s).
Definition fail_types : list string := ["step.execution_failed"; "step.blocked"; "step.dry_run_failed"].
Fixpoint failure_times (events : records) : res exn (list float) :=
  match events with
  | [] => Ok []
  | e :: l =>
      res_bind (type_in fail_types e) (fun b =>
      if b then res_bind (py_float (default (VInt 0) (dget "created_at" e))) (fun t => res_map (cons t) (failure_times l))
      else failure_times l)
  end.
(** [failures.sort()] (time stamps that are numbers) *)
Fixpoint insert_float (x : float) (l : list float) : list float :=
  match l with [] => [x] | y :: l' => if fleb x y then x :: l else y :: insert_float x l' end.
Definition sort_floats (l : list float) : list float := foldr insert_float [] l.
(** [l[i]] *)
Definition py_item (l : list float) (i : Z) : res exn float :=
  let n := Z.of_nat (length l) in
  let j := if (i <? 0)%Z then (i + n)%Z else i in
  match (if (j <? 0)%Z then None else l !! Z.to_nat j) with
  | Some x => Ok x
  | None => Raise (Exn IndexError "list index out of range")
  end.
Definition burst_finding (n : Z) (window : float) : AnomalyFinding := {|
  af_rule := "burst"; af_severity := "high";
  af_message := "Burst of " +:+ str_Z burst_threshold +:+ " failures in " +:+ fmt_1f window +:+ "s";
  af_evidence := [("failure_count", VInt n); ("window_seconds", VFloat window)] |}.
Fixpoint burst_loop (failures : list float) (idxs : list Z) : res exn (list AnomalyFinding) :=
  match idxs with
  | [] => Ok []
  | i :: l =>
      res_bind (py_item failures (i + burst_threshold - 1)) (fun b =>
      res_bind (py_item failures i) (fun a =>
      let window := fsub b a in
      if fltb fzero window && fleb window burst_window then Ok [burst_finding (Z.of_nat (length failures)) window]
      else burst_loop failures l))
  end.
Definition burst_check (events : records) : res exn (list AnomalyFinding) :=
  if (Z.of_nat (length events) <? burst_threshold)%Z then Ok []
  else
    res_bind (failure_times events) (fun failures =>
    if (Z.of_nat (length failures) <? burst_threshold)%Z then Ok []
    else
      let failures := sort_floats failures in
      burst_loop failures (seqZ 0 (Z.of_nat (length failures) - burst_threshold + 1))).

(** [str(e.get("payload", {}).get("tool", ""))] *)
Definition event_tool (e : dict pyval) : res exn string :=
  match default (VDict []) (dget "payload" e) with
  | VDict pl => Ok (py_str (default (VStr "") (dget "tool" pl)))
  | v => Raise (Exn AttributeError (py_repr (type_name v) +:+ " object has no attribute 'get'"))
  end.
Fixpoint count_tools (es : records) (counts : dict Z) : res exn (dict Z) :=
  match es with
  | [] => Ok counts
  | e :: l => res_bind (event_tool e) (fun t => count_tools l (dset t (default 0%Z (dget t counts) + 1)%Z counts))
  end.
Definition loop_finding (tool : string) (n : Z) : AnomalyFinding := {|
  af_rule := "rollback_loop"; af_severity := "high";
  af_message := "Tool '" +:+ tool +:+ "' triggered " +:+ str_Z n +:+ " rollbacks";
  af_evidence := [("tool", VStr tool); ("rollback_count", VInt n)] |}.
Definition rollback_loop_check (events : records) : res exn (list AnomalyFinding) :=
  let rollbacks := List.filter (type_is "rollback_attempted") events in
  if (Z.of_nat (length rollbacks) <? 3)%Z then Ok []
  else
    res_map (fun counts =>
      match List.find (fun kv => (3 <=? kv.2)%Z && negb (String.eqb kv.1 "")) counts with
      | Some (tool, n) => [loop_finding tool n]
      | None => []
      end) (count_tools rollbacks []).

Definition ratio (a b : Z) : float := SFdiv fprec femax (f_of_Z a) (f_of_Z b).
Definition half : float := S754_finite false 4503599627370496 (-53).
Definition rate_finding (what severity key : string) (n total : Z) : AnomalyFinding := {|
  af_rule := "frequency"; af_severity := severity;
  af_message := "High " +:+ what +:+ " rate: " +:+ str_Z n +:+ "/" +:+ str_Z total +:+ " (" +:+ fmt_percent (ratio n total) +:+ ")";
  af_evidence := [(key, VInt n); ("total", VInt total)] |}.
Definition frequency_check (events : records) : res exn (list AnomalyFinding) :=
  match events with
  | [] => Ok []
  | _ =>
      let total := Z.of_nat (length events) in
      let blocked := Z.of_nat (length (List.filter (type_is "step.blocked") events)) in
      let first := if (10 <=? total)%Z && fltb half (ratio blocked total) then [rate_finding "block" "medium" "blocked" blocked total] else [] in
      res_map (fun l =>
        let fail_count := Z.of_nat (length (List.filter (fun b : bool => b) l)) in
        first ++ (if (10 <=? total)%Z && fltb half (ratio fail_count total)
                  then [rate_finding "failure" "high" "failures" fail_count total] else []))
        (foldr (fun e acc => res_bind (type_in ["step.execution_failed"; "step.dry_run_failed"; "step.verification_failed"] e) (fun b => res_map (cons b) acc))
           (Ok []) events)
  end.
Definition detect (events : records) : res exn (list AnomalyFinding) :=
  res_bind (burst_check events) (fun a =>
  res_bind (rollback_loop_check events) (fun b =>
  res_map (fun c => a ++ b ++ c) (frequency_check events))).
End detector.

(** ** Counters over audit events *)

Definition COUNTER_FOR_EVENT : dict string :=
  [("approval.used", "leos_approvals_approved_total"); ("approval.rejected", "leos_approvals_denied_total");
   ("rollback_attempted", "leos_rollbacks_attempted_total"); ("rollback_succeeded", "leos_rollbacks_succeeded_total");
   ("rollback_failed", "leos_rollbacks_failed_total"); ("egress.blocked", "leos_egress_blocked_total");
   ("rollback.egress_blocked", "leos_egress_blocked_total"); ("step.verified", "leos_steps_verified_total");
   ("step.blocked", "leos_steps_blocked_total"); ("step.execution_failed", "leos_steps_failed_total");
   ("step.dry_run_failed", "leos_steps_failed_total"); ("step.verification_failed", "leos_steps_failed_total")].
Definition GOAL_COUNTER_FOR_STATUS : dict string :=
  [("succeeded", "leos_goals_succeeded_total"); ("failed", "leos_goals_failed_total")].
Section metrics.
Context `{PyRuntime}.
(** [PrometheusMetrics]: the counters. *)
Definition bump (name : string) (c : dict Z) : dict Z := dset name (default 0%Z (dget name c) + 1)%Z c.
Definition bump_opt (name : option string) (c : dict Z) : dict Z := match name with Some n => bump n c | None => c end.
Definition metrics_event (c : dict Z) (e : AuditEvent) : dict Z :=
  let c := bump "leos_audit_events_total" c in
  let c := bump_opt (dget (event_type e) COUNTER_FOR_EVENT) c in
  if String.eqb (event_type e) "goal.status_changed"
  then bump_opt (dget (py_str (default (VStr "") (dget "to_status" (payload e)))) GOAL_COUNTER_FOR_STATUS) c
  else c.
Definition render_text (c : dict Z) : string :=
  let lf := String (ascii_of_nat 10) "" in
  str_join lf (flat_map (fun n => ["# TYPE " +:+ n +:+ " counter"; n +:+ " " +:+ str_Z (default 0%Z (dget n c))]) (py_sorted (dkeys c))) +:+ lf.
(** A sink: a callback on events with a state of its own, which may raise. *)
Definition compose_sinks {S} (sinks : list (AuditEvent -> M S exn unit)) (e : AuditEvent) : M S exn unit :=
  for_each sinks (fun sink => catch (sink e) (fun _ => ret tt)).
End metrics.
