(* ===== verification/Memory.v ===== *)
(** The memory store (memory.py): records with confidence, expiry and
    sensitivity, the key index, and the JSON file behind the store.

    Deep copies are the values themselves.  The file is represented by what
    [json.loads] makes of its text, or the exception it raises. *)
From S2P Require Import Prelude Enums PyValue Goals Plans Serialization AuditTrail.

Inductive MemoryType : Type :=
| MT_PREFERENCE | MT_FACT | MT_PROCEDURE | MT_FAILURE | MT_POLICY | MT_HYPOTHESIS | MT_SECRET_REF.
Definition MemoryType_value (t : MemoryType) : string :=
  match t with
  | MT_PREFERENCE => "preference" | MT_FACT => "fact" | MT_PROCEDURE => "procedure" | MT_FAILURE => "failure"
  | MT_POLICY => "policy" | MT_HYPOTHESIS => "hypothesis" | MT_SECRET_REF => "secret_ref"
  end.
#[export] Instance MemoryType_eq_dec : EqDecision MemoryType.
Proof. solve_decision. Defined.
#[export] Program Instance MemoryType_enum : PyEnum MemoryType := {|
  enum_name := "MemoryType"; enum_value := MemoryType_value;
  enum_all := [MT_PREFERENCE; MT_FACT; MT_PROCEDURE; MT_FAILURE; MT_POLICY; MT_HYPOTHESIS; MT_SECRET_REF] |}.
Next Obligation. solve_enum_complete. Qed.
Next Obligation. solve_enum_inj. Qed.

Inductive MemorySensitivity : Type := MS_PUBLIC | MS_INTERNAL | MS_SENSITIVE | MS_SECRET.
Definition MemorySensitivity_value (t : MemorySensitivity) : string :=
  match t with
  | MS_PUBLIC => "public" | MS_INTERNAL => "internal" | MS_SENSITIVE => "sensitive" | MS_SECRET => "secret"
  end.
#[export] Instance MemorySensitivity_eq_dec : EqDecision MemorySensitivity.
Proof. solve_decision. Defined.
#[export] Program Instance MemorySensitivity_enum : PyEnum MemorySensitivity := {|
  enum_name := "MemorySensitivity"; enum_value := MemorySensitivity_value;
  enum_all := [MS_PUBLIC; MS_INTERNAL; MS_SENSITIVE; MS_SECRET] |}.
Next Obligation. solve_enum_complete. Qed.
Next Obligation. solve_enum_inj. Qed.

(** A sequence of strings, as a tuple (the constructor's) or a list (the file's). *)
Record str_seq := StrSeq { seq_is_tuple : bool; seq_items : list string }.
Definition seq_val (s : str_seq) : pyval :=
  (if seq_is_tuple s then VTuple else VList) (map VStr (seq_items s)).

Record MemoryRecord := {
  rec_key : string;
  rec_value : pyval;
  rec_confidence : float;
  rec_provenance : string;
  rec_type : MemoryType;
  rec_sensitivity : MemorySensitivity;
  rec_scope : string;
  rec_source : option string;
  rec_ttl : option float;
  rec_last_verified_at : option float;
  rec_conflicts_with : str_seq;
  rec_supersedes : str_seq;
  rec_embedding_id : option string;
  rec_access_policy : option string;
  rec_forget_policy : option string;
  rec_created_at : float;
}.
(** A record with the defaults of the dataclass. *)
Definition new_record (key : string) (value : pyval) (confidence : float) (provenance : string) (now : float) :
    MemoryRecord := {|
  rec_key := key; rec_value := value; rec_confidence := confidence; rec_provenance := provenance;
  rec_type := MT_FACT; rec_sensitivity := MS_INTERNAL; rec_scope := "global"; rec_source := None; rec_ttl := None;
  rec_last_verified_at := None; rec_conflicts_with := StrSeq true []; rec_supersedes := StrSeq true [];
  rec_embedding_id := None; rec_access_policy := None; rec_forget_policy := None; rec_created_at := now |}.

(** [MemoryRecord.__post_init__] *)
Definition MemoryRecord_check (r : MemoryRecord) : res exn MemoryRecord :=
  if negb (fleb fzero (rec_confidence r) && fleb (rec_confidence r) fone)
  then Raise (Exn ValueError "confidence must be between 0.0 and 1.0")
  else if neg_float (rec_ttl r) then Raise (Exn ValueError "ttl must be non-negative")
  else if bool_decide (rec_sensitivity r = MS_SECRET) && negb (bool_decide (rec_type r = MT_SECRET_REF))
  then Raise (Exn SecretBoundaryViolation
         "Secret values must not be stored in memory; store a secret reference instead")
  else Ok r.

Definition expires_at (r : MemoryRecord) : option float := fadd (rec_created_at r) <$> rec_ttl r.
(** [is_expired(now)] for a given time. *)
Definition expired_at (r : MemoryRecord) (now : float) : bool :=
  match expires_at r with Some e => fleb e now | None => false end.

(** What [dataclasses.asdict] makes of a field: nested dataclasses become dicts. *)
Fixpoint asdict_val (v : pyval) : pyval :=
  match v with
  | VList l => VList (map asdict_val l)
  | VTuple l => VTuple (map asdict_val l)
  | VDict d => VDict (map (fun kv => (kv.1, asdict_val kv.2)) d)
  | VRecord _ d => VDict (map (fun kv => (kv.1, asdict_val kv.2)) d)
  | VHandle i s c e =>
      VDict [("handle_id", VStr i); ("scope", VStr s); ("created_at", VFloat c); ("expires_at", opt_float_doc e)]
  | _ => v
  end.
Definition record_to_dict (r : MemoryRecord) : dict pyval :=
  [("key", VStr (rec_key r)); ("value", asdict_val (rec_value r)); ("confidence", VFloat (rec_confidence r));
   ("provenance", VStr (rec_provenance r)); ("memory_type", VStr (MemoryType_value (rec_type r)));
   ("sensitivity", VStr (MemorySensitivity_value (rec_sensitivity r))); ("scope", VStr (rec_scope r));
   ("source", opt_str_val (rec_source r)); ("ttl", opt_float_doc (rec_ttl r));
   ("last_verified_at", opt_float_doc (rec_last_verified_at r));
   ("conflicts_with", seq_val (rec_conflicts_with r)); ("supersedes", seq_val (rec_supersedes r));
   ("embedding_id", opt_str_val (rec_embedding_id r)); ("access_policy", opt_str_val (rec_access_policy r));
   ("forget_policy", opt_str_val (rec_forget_policy r)); ("created_at", VFloat (rec_created_at r));
   ("expires_at", opt_float_doc (expires_at r))].

(** ** The store *)

Record MemoryStore := {
  ms_items : list MemoryRecord;
  ms_index : gmap string (list MemoryRecord);
  (** [None] without a path; the inner [None] when the file does not exist *)
  ms_file : option (option (res exn pyval));
}.
(** [self._index.setdefault(item.key, []).append(item)] *)
Definition index_add (m : gmap string (list MemoryRecord)) (r : MemoryRecord) : gmap string (list MemoryRecord) :=
  <[rec_key r := default [] (m !! rec_key r) ++ [r]]> m.
Definition build_index (items : list MemoryRecord) : gmap string (list MemoryRecord) := fold_left index_add items ∅.
Definition empty_store (file : option (option (res exn pyval))) : MemoryStore :=
  {| ms_items := []; ms_index := ∅; ms_file := file |}.
Definition with_records (items : list MemoryRecord) (idx : gmap string (list MemoryRecord)) (s : MemoryStore) :
    MemoryStore := {| ms_items := items; ms_index := idx; ms_file := ms_file s |}.

Record MState := { m_store : MemoryStore; m_sys : Sys }.
Definition with_mstore (x : MemoryStore) (s : MState) : MState := {| m_store := x; m_sys := m_sys s |}.
#[export] Program Instance MState_HasSys : HasSys MState :=
  {| sys_of := m_sys; upd_sys := fun x s => {| m_store := m_store s; m_sys := x |} |}.
Next Obligation. done. Qed.

Section memory.
Context `{PyRuntime}.
Notation MM := (M MState exn).

(** [_persist] *)
Definition persist : MM unit :=
  let! s := gets m_store in
  match ms_file s with
  | None => ret tt
  | Some _ =>
      let! doc := of_res (json_doc (VList (map (fun r => VDict (record_to_dict r)) (ms_items s)))) in
      modify (with_mstore {| ms_items := ms_items s; ms_index := ms_index s; ms_file := Some (Some (Ok doc)) |})
  end.
(** [remember]: the keyword arguments are given as the record they make at a time. *)
Definition remember (make : float -> MemoryRecord) : MM MemoryRecord :=
  let! now := time_time in
  let! r := of_res (MemoryRecord_check (make now)) in
  modify (fun s => with_mstore (with_records (ms_items (m_store s) ++ [r]) (index_add (ms_index (m_store s)) r)
                                  (m_store s)) s) ;;;
  persist ;;;
  ret r.

Definition scope_matches (scope : option string) (r : MemoryRecord) : bool :=
  match scope with Some x => String.eqb (rec_scope r) x | None => true end.
Definition type_matches (ty : option MemoryType) (r : MemoryRecord) : bool :=
  match ty with Some x => bool_decide (rec_type r = x) | None => true end.
Fixpoint recall_loop (include_expired : bool) (scope : option string) (ty : option MemoryType) (now : float)
    (candidates : list MemoryRecord) : list (dict pyval) :=
  match candidates with
  | [] => []
  | r :: l =>
      let rest := recall_loop include_expired scope ty now l in
      if negb (scope_matches scope r) then rest
      else if negb (type_matches ty r) then rest
      else if negb include_expired && expired_at r now then rest
      else record_to_dict r :: rest
  end.
Definition recall (key : string) (include_expired : bool) (scope : option string) (ty : option MemoryType) :
    MM (list (dict pyval)) :=
  let! now := time_time in
  let! s := gets m_store in
  ret (recall_loop include_expired scope ty now (default [] (ms_index s !! key))).

(** [is_expired(now)]: the clock is read only for a record that can expire. *)
Definition is_expired (r : MemoryRecord) (now : option float) : MM bool :=
  match expires_at r with
  | None => ret false
  | Some e => let! t := match now with Some t => ret t | None => time_time end in ret (fleb e t)
  end.
Fixpoint unexpired (now : option float) (l : list MemoryRecord) : MM (list MemoryRecord) :=
  match l with
  | [] => ret []
  | r :: l' =>
      let! gone := is_expired r now in
      let! rest := unexpired now l' in
      ret (if (gone : bool) then rest else r :: rest)
  end.
Definition purge_expired (now : option float) : MM Z :=
  let! s := gets m_store in
  let! items := unexpired now (ms_items s) in
  modify (fun s => with_mstore (with_records items (build_index items) (m_store s)) s) ;;;
  let removed := (Z.of_nat (length (ms_items s)) - Z.of_nat (length items))%Z in
  (if (removed =? 0)%Z then ret tt else persist) ;;;
  ret removed.

(** ** Opening *)

Definition record_fields : list string :=
  ["key"; "value"; "confidence"; "provenance"; "memory_type"; "sensitivity"; "scope"; "source"; "ttl";
   "last_verified_at"; "conflicts_with"; "supersedes"; "embedding_id"; "access_policy"; "forget_policy";
   "created_at"].
Definition required_fields : list string := ["key"; "value"; "confidence"; "provenance"].
(** The names in the TypeError of a call with missing arguments. *)
Definition missing_names (l : list string) : string :=
  match map py_repr l with
  | [] => ""
  | [a] => "1 required positional argument: " +:+ a
  | [a; b] => "2 required positional arguments: " +:+ a +:+ " and " +:+ b
  | qs => str_Z (Z.of_nat (length qs)) +:+ " required positional arguments: " +:+
          str_join ", " (removelast qs) +:+ ", and " +:+ List.last qs ""
  end.
(** The binding of the keyword arguments of [cls] called with [payload]. *)
Definition bind_fields (payload : dict pyval) : res exn unit :=
  match List.find (fun k => negb (str_mem k record_fields)) (dkeys payload) with
  | Some k => Raise (Exn TypeError ("MemoryRecord.__init__() got an unexpected keyword argument " +:+ py_repr k))
  | None =>
      match List.filter (fun k => negb (dmem k payload)) required_fields with
      | [] => Ok tt
      | l => Raise (Exn TypeError ("MemoryRecord.__init__() missing " +:+ missing_names l))
      end
  end.
Definition as_seq (v : pyval) : D str_seq :=
  let? l := as_VList v in let? ss := dmap as_VStr l in dret (StrSeq false ss).
(** A missing field keeps its default. *)
Definition field_or {A} (f : pyval -> D A) (k : string) (dflt : A) (d : dict pyval) : D A :=
  match dget k d with Some v => f v | None => dret dflt end.
(** [MemoryRecord.from_dict]; [n] is the clock index. *)
Definition record_from_dict (n : nat) (data : dict pyval) : D (MemoryRecord * nat) :=
  let payload := ddel "expires_at" data in
  let? _ := dlift (bind_fields payload) in
  let? key := as_VStr (dget_or "key" VNone payload) in
  let? conf := as_VFloat (dget_or "confidence" VNone payload) in
  let? prov := as_VStr (dget_or "provenance" VNone payload) in
  let? scope := field_or as_VStr "scope" "global" payload in
  let? source := field_or (as_opt as_VStr) "source" None payload in
  let? ttl := field_or (as_opt as_VFloat) "ttl" None payload in
  let? verified := field_or (as_opt as_VFloat) "last_verified_at" None payload in
  let? conflicts := field_or as_seq "conflicts_with" (StrSeq true []) payload in
  let? supersedes := field_or as_seq "supersedes" (StrSeq true []) payload in
  let? embedding := field_or (as_opt as_VStr) "embedding_id" None payload in
  let? access := field_or (as_opt as_VStr) "access_policy" None payload in
  let? forget := field_or (as_opt as_VStr) "forget_policy" None payload in
  let? (created, n') := match dget "created_at" payload with
                         | Some v => let? c := as_VFloat v in dret (c, n)
                         | None => dret (time_at n, S n)
                         end in
  let? ty := field_or as_enum "memory_type" MT_FACT payload in
  let? sens := field_or as_enum "sensitivity" MS_INTERNAL payload in
  let? r := dlift (MemoryRecord_check {|
    rec_key := key; rec_value := dget_or "value" VNone payload; rec_confidence := conf; rec_provenance := prov;
    rec_type := ty; rec_sensitivity := sens; rec_scope := scope; rec_source := source; rec_ttl := ttl;
    rec_last_verified_at := verified; rec_conflicts_with := conflicts; rec_supersedes := supersedes;
    rec_embedding_id := embedding; rec_access_policy := access; rec_forget_policy := forget;
    rec_created_at := created |}) in
  dret (r, n').
Fixpoint records_from (n : nat) (l : list pyval) : D (list MemoryRecord * nat) :=
  match l with
  | [] => dret ([], n)
  | v :: l' =>
      let? d := as_VDict v in
      let? (r, n1) := record_from_dict n d in
      let? (rs, n2) := records_from n1 l' in
      dret (r :: rs, n2)
  end.
(** [MemoryStore(path)] *)
Definition open_store (file : option (option (res exn pyval))) (n : nat) : D (MemoryStore * nat) :=
  match file with
  | Some (Some content) =>
      let? doc := dlift content in
      let? l := as_VList doc in
      let? (items, n') := records_from n l in
      dret ({| ms_items := items; ms_index := build_index items; ms_file := file |}, n')
  | _ => dret (empty_store file, n)
  end.
End memory.
