(* ===== verification/Evaluator.v ===== *)
(** Goal evaluation (goal_evaluator.py, evaluator_registry.py): the criterion
    rules, the registry of domain evaluators, typed criteria.

    A rule is an interface, since programs register their own; the built-in
    rules are its instances.  The facts are only read. *)
From S2P Require Import Prelude Enums PyValue Goals.

Inductive GoalEvaluationStatus : Type := EV_SUCCEEDED | EV_FAILED | EV_PARTIAL | EV_BLOCKED | EV_UNKNOWN.
Definition GoalEvaluationStatus_value (s : GoalEvaluationStatus) : string :=
  match s with
  | EV_SUCCEEDED => "succeeded" | EV_FAILED => "failed" | EV_PARTIAL => "partial" | EV_BLOCKED => "blocked"
  | EV_UNKNOWN => "unknown"
  end.
#[export] Instance GoalEvaluationStatus_eq_dec : EqDecision GoalEvaluationStatus.
Proof. solve_decision. Defined.

Record GoalEvaluation := {
  ge_status : GoalEvaluationStatus;
  ge_satisfied : list string;
  ge_unsatisfied : list string;
  ge_evidence : dict pyval;
  ge_explanation : string;
}.

Record CriterionEvaluation := {
  ce_criterion : string;
  ce_matched : bool;
  ce_status : GoalEvaluationStatus;
  ce_evidence : dict pyval;
  ce_explanation : string;
}.
Definition satisfied (e : CriterionEvaluation) : bool := bool_decide (ce_status e = EV_SUCCEEDED).
Definition failed (e : CriterionEvaluation) : bool := bool_decide (ce_status e = EV_FAILED).

Definition matched_with (st : GoalEvaluationStatus) (c : string) (ev : dict pyval) (why : string) :
    CriterionEvaluation :=
  {| ce_criterion := c; ce_matched := true; ce_status := st; ce_evidence := ev; ce_explanation := why |}.
(** [_satisfied], [_failed], [_unknown] *)
Definition ev_satisfied : string -> dict pyval -> string -> CriterionEvaluation := matched_with EV_SUCCEEDED.
Definition ev_failed : string -> dict pyval -> string -> CriterionEvaluation := matched_with EV_FAILED.
Definition ev_unknown : string -> dict pyval -> string -> CriterionEvaluation := matched_with EV_UNKNOWN.
Definition unmatched (c why : string) : CriterionEvaluation :=
  {| ce_criterion := c; ce_matched := false; ce_status := EV_UNKNOWN; ce_evidence := []; ce_explanation := why |}.

Record CriterionRule := {
  rule_name : string;
  rule_match : string -> res exn bool;
  rule_evaluate : string -> Goal -> WorldState -> option GoalProgress -> res exn CriterionEvaluation;
}.
Record DomainEvaluator := { domain : string; rules : list CriterionRule }.

(** ** Comparison of values *)

(** [s.split("/")] *)
Fixpoint split_slash (s cur : string) : list string :=
  match s with
  | EmptyString => [cur]
  | String c s' => if Ascii.eqb c "/" then cur :: split_slash s' "" else split_slash s' (cur +:+ String c "")
  end.
Definition num_ltb (a b : pynum) : bool := match num_compare a b with Some Lt => true | _ => false end.
Fixpoint strs_ltb (l l' : list string) : bool :=
  match l, l' with
  | _, [] => false
  | [], _ :: _ => true
  | x :: l, y :: l' => if String.eqb x y then strs_ltb l l' else String.ltb x y
  end.
Definition not_ordered (a b : pyval) : exn :=
  Exn TypeError ("not supported between instances of " +:+ py_repr (type_name a) +:+ " and " +:+
                 py_repr (type_name b)).
(** [a < b]; sets by proper inclusion, sequences lexicographically.  Values of
    types without an order raise TypeError; so do, in this model, two [bytes],
    whose contents it does not have. *)
Fixpoint py_lt (a b : pyval) {struct a} : res exn bool :=
  let list_lt := fix go (l l' : list pyval) : res exn bool :=
    match l, l' with
    | _, [] => Ok false
    | [], _ :: _ => Ok true
    | x :: l, y :: l' => if py_eq x y then go l l' else py_lt x y
    end in
  match a, b with
  | VList l, VList l' => list_lt l l'
  | VTuple l, VTuple l' => list_lt l l'
  | VSet l, VSet l' => Ok ((length l <? length l')%nat && forallb (fun x => existsb (py_eq x) l') l)
  | VPath s, VPath s' => Ok (strs_ltb (split_slash s "") (split_slash s' ""))
  | _, _ =>
      match as_str a, as_str b with
      | Some s, Some s' => Ok (String.ltb s s')
      | _, _ =>
          match as_num a, as_num b with
          | Some x, Some y => Ok (num_ltb x y)
          | _, _ => Raise (not_ordered a b)
          end
      end
  end.

(** ** Typed criteria *)

(** The test of [_evaluate_typed_criterion]; an exception of the comparison
    counts as not satisfied. *)
Definition typed_ok (c : GoalCriterion) (fs : gmap string pyval) : bool :=
  let actual := fs !! gc_key c in
  let a := default VNone actual in
  let present := bool_decide (is_Some actual) in
  let v := gc_value c in
  let holds (r : res exn bool) : bool := match r with Ok b => b | Raise _ => false end in
  let op := gc_op c in
  if String.eqb op "equals" then present && py_eq a v
  else if String.eqb op "not_equals" then present && py_neq a v
  else if String.eqb op "in" then present && holds (py_in a v)
  else if String.eqb op "not_in" then present && holds (res_map negb (py_in a v))
  else if String.eqb op "exists" then present
  else if String.eqb op "missing" then negb present
  else if String.eqb op "contains"
  then present && negb (match a with VNone => true | _ => false end) && holds (py_in v a)
  else if String.eqb op "greater_than" then present && holds (py_lt v a)
  else if String.eqb op "less_than" then present && holds (py_lt a v)
  else false.
(** [_evaluate_typed_criterion] *)
Definition evaluate_typed_criterion (c : GoalCriterion) (w : WorldState) : CriterionEvaluation :=
  let label := gc_key c +:+ " " +:+ gc_op c in
  let actual := facts w !! gc_key c in
  let evidence := [("key", VStr (gc_key c)); ("actual", default VNone actual); ("expected", gc_value c);
                   ("op", VStr (gc_op c)); ("required", VBool (gc_required c))] in
  if typed_ok c (facts w) then ev_satisfied label evidence ("Typed criterion satisfied: " +:+ label +:+ ".")
  else if String.eqb (gc_op c) "exists" && negb (bool_decide (is_Some actual))
  then matched_with EV_UNKNOWN label evidence ("Typed criterion is not observed yet: " +:+ label +:+ ".")
  else matched_with (if gc_required c then EV_FAILED else EV_UNKNOWN) label evidence
         ("Typed criterion unsatisfied: " +:+ label +:+ ".").

(** ** The built-in rules *)

(** [_normalize] *)
Definition normalize (s : string) : string := str_join " " (py_split (py_lower s)).
(** [_contains_any] *)
Definition contains_any (s : string) (needles : list string) : bool := existsb (fun n => str_in n s) needles.
Definition text_matches (needles : list string) (criterion : string) : bool := contains_any (normalize criterion) needles.

Definition tests_needles : list string :=
  ["tests pass"; "test pass"; "tests passed"; "python -m unittest"; "测试通过"].
Definition file_needles : list string := ["file updated"; "file patched"; "file written"; "文件已更新"; "文件写入"].
Definition pr_needles : list string :=
  ["pr opened"; "pull request opened"; "opened pr"; "pr created"; "github pr opened"; "pr 已创建"].
Definition ci_needles : list string := ["ci passing"; "ci passed"; "ci success"; "ci 通过"].

Definition tests_evaluate (c : string) (fs : gmap string pyval) : CriterionEvaluation :=
  match fs !! "tests_ok" with
  | Some (VBool true) =>
      ev_satisfied c [("tests_ok", VBool true)] "Test success criterion satisfied by tests_ok=True."
  | Some (VBool false) =>
      ev_failed c [("tests_ok", VBool false)] "Test success criterion failed because tests_ok=False."
  | _ => ev_unknown c [] "Test success criterion is unknown because tests_ok is missing."
  end.
Fixpoint file_loop (c : string) (fs : gmap string pyval) (keys : list string) : CriterionEvaluation :=
  match keys with
  | [] => ev_unknown c [] "File update criterion is unknown because no file update evidence exists."
  | k :: keys' =>
      match fs !! k with
      | Some v => ev_satisfied c [(k, v)] ("File update criterion satisfied by " +:+ k +:+ ".")
      | None => file_loop c fs keys'
      end
  end.
Definition file_evaluate (c : string) (fs : gmap string pyval) : CriterionEvaluation :=
  file_loop c fs ["file_patched"; "file_written"; "github_file_updated"].

Section rules.
Context `{PyRuntime}.

Definition state_of (d : dict pyval) : string := py_lower (py_str (dget_or "state" (VStr "") d)).
Definition pr_evaluate (c : string) (fs : gmap string pyval) : CriterionEvaluation :=
  match fs !! "github_pr" with
  | Some (VDict pr) =>
      if String.eqb (state_of pr) "open"
      then ev_satisfied c [("github_pr", VDict pr)] "PR criterion satisfied by open GitHub PR evidence."
      else match dget_or "number" VNone pr with
           | VNone => ev_unknown c [] "PR criterion is unknown because github_pr evidence is missing."
           | _ => ev_satisfied c [("github_pr", VDict pr); ("evidence_strength", VStr "weak")]
                    "PR criterion satisfied by PR number, but state evidence is weaker because state is missing."
           end
  | _ => ev_unknown c [] "PR criterion is unknown because github_pr evidence is missing."
  end.
Definition ci_evaluate (c : string) (fs : gmap string pyval) : CriterionEvaluation :=
  match fs !! "github_ci_status" with
  | Some (VDict ci) =>
      if str_mem (state_of ci) ["success"; "passed"; "green"]
      then ev_satisfied c [("github_ci_status", VDict ci)] "CI criterion satisfied by successful status."
      else ev_failed c [("github_ci_status", VDict ci)] "CI criterion failed because status is not green."
  | _ => ev_unknown c [] "CI criterion is unknown because github_ci_status is missing."
  end.
Definition fallback_evaluate (progress : option GoalProgress) : CriterionEvaluation :=
  let by_phase st := matched_with st "__fallback__" [] in
  match progress with
  | None => by_phase EV_UNKNOWN
      "No deterministic success criteria matched and no progress fallback is available."
  | Some p =>
      if String.eqb (phase p) "complete"
      then by_phase EV_SUCCEEDED "Fallback based on verified steps: progress phase is complete."
      else if String.eqb (phase p) "blocked"
      then by_phase EV_BLOCKED "Fallback based on verified steps: progress phase is blocked."
      else if String.eqb (phase p) "failed"
      then by_phase EV_FAILED "Fallback based on verified steps: progress phase is failed."
      else if String.eqb (phase p) "partial"
      then by_phase EV_PARTIAL "Fallback based on verified steps: progress phase is partial."
      else by_phase EV_UNKNOWN ("Fallback based on verified steps: progress phase is " +:+ phase p +:+ ".")
  end.

(** A rule over texts and facts. *)
Definition fact_rule (n : string) (needles : list string)
    (eval : string -> gmap string pyval -> CriterionEvaluation) : CriterionRule := {|
  rule_name := n; rule_match := fun c => Ok (text_matches needles c);
  rule_evaluate := fun c _ w _ => Ok (eval c (facts w)) |}.
Definition TestsPassRule : CriterionRule := fact_rule "tests_pass" tests_needles tests_evaluate.
Definition FileUpdatedRule : CriterionRule := fact_rule "file_updated" file_needles file_evaluate.
Definition PROpenedRule : CriterionRule := fact_rule "pr_opened" pr_needles pr_evaluate.
Definition CIPassedRule : CriterionRule := fact_rule "ci_passed" ci_needles ci_evaluate.
Definition FallbackRule : CriterionRule := {|
  rule_name := "progress_fallback"; rule_match := fun c => Ok (String.eqb c "__fallback__");
  rule_evaluate := fun _ _ _ progress => Ok (fallback_evaluate progress) |}.

Definition default_domain_evaluators : list DomainEvaluator := [
  {| domain := "software_engineering"; rules := [TestsPassRule; FileUpdatedRule] |};
  {| domain := "github"; rules := [PROpenedRule; CIPassedRule] |};
  {| domain := "fallback"; rules := [FallbackRule] |}].
End rules.

(** ** Domain evaluators and the registry *)

(** [DomainEvaluator.evaluate_criterion] *)
Fixpoint first_rule_evaluation (dom : string) (rs : list CriterionRule) (c : string) (g : Goal) (w : WorldState)
    (p : option GoalProgress) : res exn CriterionEvaluation :=
  match rs with
  | [] => Ok (unmatched c ("No rule matched criterion in domain " +:+ dom +:+ "."))
  | r :: rs' =>
      res_bind (rule_match r c) (fun b : bool =>
        if b then rule_evaluate r c g w p else first_rule_evaluation dom rs' c g w p)
  end.
Definition evaluate_criterion (e : DomainEvaluator) : string -> Goal -> WorldState -> option GoalProgress ->
    res exn CriterionEvaluation := first_rule_evaluation (domain e) (rules e).

Abbreviation EvaluatorRegistry := (dict DomainEvaluator).
Definition register_evaluator (e : DomainEvaluator) (r : EvaluatorRegistry) : res exn EvaluatorRegistry :=
  if String.eqb (domain e) "" then Raise (Exn EvaluatorRegistryError "Evaluator domain must be non-empty")
  else if dmem (domain e) r
  then Raise (Exn EvaluatorRegistryError ("Evaluator domain already registered: " +:+ domain e))
  else Ok (dset (domain e) e r).
Definition unregister_evaluator (d : string) (r : EvaluatorRegistry) : res exn EvaluatorRegistry :=
  if dmem d r then Ok (ddel d r)
  else Raise (Exn EvaluatorRegistryError ("Evaluator domain not registered: " +:+ d)).
Definition get_evaluator (d : string) (r : EvaluatorRegistry) : res exn DomainEvaluator :=
  match dget d r with
  | Some e => Ok e
  | None => Raise (Exn EvaluatorRegistryError ("Evaluator domain not registered: " +:+ d))
  end.
Fixpoint register_all (es : list DomainEvaluator) (r : EvaluatorRegistry) : res exn EvaluatorRegistry :=
  match es with [] => Ok r | e :: es' => res_bind (register_evaluator e r) (register_all es') end.
(** [EvaluatorRegistry(evaluators)] *)
Definition new_evaluator_registry `{PyRuntime} (es : list DomainEvaluator) : res exn EvaluatorRegistry :=
  register_all (match es with [] => default_domain_evaluators | _ => es end) [].
Definition rule_names (r : EvaluatorRegistry) : list string :=
  py_sorted (flat_map (fun de => map (fun x => domain de +:+ ":" +:+ rule_name x) (rules de)) (dvals r)).

(** [_evaluate_criterion]: the domains in registration order. *)
Fixpoint evaluate_text (r : EvaluatorRegistry) (c : string) (g : Goal) (w : WorldState) (p : option GoalProgress) :
    res exn CriterionEvaluation :=
  match r with
  | [] => Ok (unmatched c "No deterministic rule matched this criterion.")
  | (dom, de) :: r' =>
      if String.eqb dom "fallback" then evaluate_text r' c g w p
      else res_bind (evaluate_criterion de c g w p) (fun e =>
             if ce_matched e then Ok e else evaluate_text r' c g w p)
  end.
Fixpoint evaluate_texts (r : EvaluatorRegistry) (cs : list string) (g : Goal) (w : WorldState)
    (p : option GoalProgress) : res exn (list CriterionEvaluation) :=
  match cs with
  | [] => Ok []
  | c :: cs' => res_bind (evaluate_text r c g w p) (fun e => res_map (cons e) (evaluate_texts r cs' g w p))
  end.

Definition is_nil {A} (l : list A) : bool := match l with [] => true | _ => false end.
(** The verdict over the required and all evaluations. *)
Definition verdict (required all : list CriterionEvaluation) : GoalEvaluationStatus :=
  if existsb failed required then EV_FAILED
  else if negb (is_nil required) && forallb (fun e => satisfied e && ce_matched e) required then EV_SUCCEEDED
  else if existsb satisfied all then EV_PARTIAL
  else EV_UNKNOWN.
(** [EvaluatorRegistry.evaluate] *)
Definition evaluate (r : EvaluatorRegistry) (g : Goal) (w : WorldState) (p : option GoalProgress) :
    res exn GoalEvaluation :=
  let typed := map (fun c => evaluate_typed_criterion c w) (criteria g) in
  res_bind (evaluate_texts r (success_criteria g) g w p) (fun evaluations =>
  let all := typed ++ evaluations in
  let pairs := combine (criteria g) typed in
  let required_typed := map snd (List.filter (fun ce => gc_required ce.1) pairs) in
  let optional_typed := map snd (List.filter (fun ce => negb (gc_required ce.1)) pairs) in
  let required := required_typed ++ evaluations in
  if is_nil typed && is_nil (List.filter ce_matched evaluations)
  then
    res_bind (get_evaluator "fallback" r) (fun fb =>
    res_map (fun e => {| ge_status := ce_status e; ge_satisfied := []; ge_unsatisfied := [];
                         ge_evidence := ce_evidence e;
                         ge_explanation := ce_explanation e |})
            (evaluate_criterion fb "__fallback__" g w p))
  else
    let explanations := List.filter (fun x => negb (String.eqb x "")) (map ce_explanation all) ++
      (if existsb (fun e => negb (satisfied e)) optional_typed
       then ["Optional typed criteria were not satisfied; required success criteria remain decisive."] else []) in
    Ok {| ge_status := verdict required all;
          ge_satisfied := map ce_criterion (List.filter satisfied all);
          ge_unsatisfied := map ce_criterion (List.filter (fun e => negb (satisfied e)) required);
          ge_evidence := fold_left (fun d e => dset (ce_criterion e) (VDict (ce_evidence e)) d)
                           (List.filter (fun e => negb (is_nil (ce_evidence e))) all) [];
          ge_explanation := match str_join "; " explanations with
                            | EmptyString => "Evaluated deterministic goal criteria."
                            | x => x
                            end |}).
