(* ===== verification/Causal.v ===== *)
(** Conflict detection (conflicts.py), the simulated environments (simulation.py), and the action-consequence model with
    the counterfactual review (causal.py). *)
From S2P Require Import Prelude Enums PyValue Sanitization Goals Plans Tools AuditTrail Memory.


Record Conflict := { conflict_type : string; cf_summary : string; cf_evidence : dict pyval; requires_human : bool }.

Section conflicts.
Context `{PyRuntime}.

Definition goal_policy_conflict (goal_constraints denied_tools : list string) : list Conflict :=
  flat_map (fun tool => flat_map (fun constraint =>
    if str_in tool constraint
    then [{| conflict_type := "goal_policy"; cf_summary := "Goal constraint mentions denied tool '" +:+ tool +:+ "'";
             cf_evidence := [("tool", VStr tool); ("constraint", VStr constraint)]; requires_human := true |}]
    else []) goal_constraints) denied_tools.
Definition memory_fact_conflict (memory : MemoryRecord) (fact_key : string) (fact_value : pyval) : list Conflict :=
  if String.eqb (rec_key memory) fact_key && py_neq (rec_value memory) fact_value
  then [{| conflict_type := "memory_fact"; cf_summary := "Memory conflicts with verified fact";
           cf_evidence := [("key", VStr fact_key); ("memory_value", rec_value memory); ("fact_value", fact_value)];
           requires_human := false |}]
  else [].
Definition resource_conflict (path first second : string) : Conflict := {|
  conflict_type := "plan_resource"; cf_summary := "Multiple steps write the same path '" +:+ path +:+ "'";
  cf_evidence := [("path", VStr path); ("first_step_id", VStr first); ("second_step_id", VStr second)];
  requires_human := true |}.
(** The loop of [plan_resource_conflicts]; [writers] maps a path to its last writer. *)
Fixpoint resource_loop (steps : list ActionStep) (writers : dict string) : list Conflict :=
  match steps with
  | [] => []
  | st :: l =>
      match as_str (default VNone (dget "path" (arguments st))) with
      | None => resource_loop l writers
      | Some path =>
          match dget path writers with
          | Some first => if String.eqb first (step_id st) then [] else [resource_conflict path first (step_id st)]
          | None => []
          end ++ resource_loop l (dset path (step_id st) writers)
      end
  end.
Definition plan_resource_conflicts (steps : list ActionStep) : list Conflict := resource_loop steps [].

(** [max(0.0, x)] *)
Definition fmax0 (x : float) : float := if fltb fzero x then x else fzero.
(** 0.2 *)
Definition one_fifth : float := S754_finite false 7205759403792794 (-55).
Definition resolve_memory_fact (memory : MemoryRecord) (fact_value : pyval) : dict pyval :=
  [("action", VStr "prefer_fact"); ("key", VStr (rec_key memory)); ("old_confidence", VFloat (rec_confidence memory));
   ("new_confidence", VFloat (fmax0 (fsub (rec_confidence memory) one_fifth))); ("value", fact_value)].
End conflicts.

(** ** simulation.py *)

Record Payment := { payment_id : string; recipient : string; amount : float; payment_key : string }.
Record SimulationEnvironment := {
  filesystem : dict string;                 (** path, content *)
  browser : dict string;                    (** url, page *)
  email : list (dict string);
  calendar : list (dict string);
  payments : list Payment;
  shell : list (list string);
  github : list (dict string);
}.
Definition empty_simulation : SimulationEnvironment :=
  {| filesystem := []; browser := []; email := []; calendar := []; payments := []; shell := []; github := [] |}.

Definition fake_write (path content : string) (files : dict string) : dict string := dset path content files.
Definition fake_read (path : string) (files : dict string) : res exn string :=
  match dget path files with Some c => Ok c | None => Raise (Exn FileNotFoundError path) end.
Definition fake_exists (path : string) (files : dict string) : bool := dmem path files.
Definition fake_fetch (url : string) (pages : dict string) : dict pyval :=
  [("url", VStr url); ("content", VStr (default "" (dget url pages))); ("trust_level", VStr "untrusted_external")].
(** [f"{prefix}-{len(l) + 1}"] *)
Definition next_id {A} (prefix : string) (l : list A) : string := prefix +:+ "-" +:+ str_Z (Z.of_nat (length l) + 1).
Definition send (to_ subject body : string) (sent : list (dict string)) : string * list (dict string) :=
  let id := next_id "msg" sent in (id, sent ++ [[("id", id); ("to", to_); ("subject", subject); ("body", body)]]).
Definition create_event (title starts_at : string) (evs : list (dict string)) : string * list (dict string) :=
  let id := next_id "event" evs in (id, evs ++ [[("id", id); ("title", title); ("starts_at", starts_at)]]).
Definition pay (to_ : string) (amount : float) (idempotency_key : string) (ps : list Payment) : string * list Payment :=
  match List.find (fun p => String.eqb (payment_key p) idempotency_key) ps with
  | Some p => (payment_id p, ps)
  | None =>
      let id := next_id "payment" ps in
      (id, ps ++ [{| payment_id := id; recipient := to_; amount := amount; payment_key := idempotency_key |}])
  end.
Definition run_shell (argv : list string) (commands : list (list string)) : dict pyval * list (list string) :=
  ([("ok", VBool true); ("returncode", VInt 0); ("stdout", VStr ""); ("stderr", VStr "")], commands ++ [argv]).
Definition create_issue (title body : string) (issues : list (dict string)) : Z * list (dict string) :=
  let n := (Z.of_nat (length issues) + 1)%Z in (n, issues ++ [[("number", str_Z n); ("title", title); ("body", body)]]).

(** * The action-consequence model and the counterfactual review (causal.py). *)


Record CausalHypothesis := {
  ch_action_name : string;
  ch_affected_variables : list string;
  ch_rationale : string;
  ch_confidence : float;
}.
(** A [CausalGraph] is its list of hypotheses; [register] appends one. *)
Abbreviation CausalGraph := (list CausalHypothesis).
Definition register_hypothesis (h : CausalHypothesis) (g : CausalGraph) : CausalGraph := g ++ [h].

(** [CausalGraph.predict] *)
Definition predict (g : CausalGraph) (tool : string) (args : dict pyval) (w : WorldState) :
    list ActionConsequence :=
  concat (map (fun h =>
    if String.eqb (ch_action_name h) tool
    then map (fun variable =>
           let before := before_value w variable in
           let expected := default changed (dget variable args) in
           {| ac_variable := variable; ac_before := before; ac_expected_after := expected;
              ac_confidence := ch_confidence h; ac_rationale := ch_rationale h;
              ac_effect := if py_eq expected changed then CE_CHANGES else CE_SETS;
              ac_expected_without_action := before |}) (ch_affected_variables h)
    else []) g).

(** [predict_for_tool]: a tool's causal contract takes precedence over the graph. *)
Definition predict_for_tool (g : CausalGraph) (tool : string) (args : dict pyval) (w : WorldState)
    (contract : option CausalContract) : list ActionConsequence :=
  match contract with
  | Some c => contract_predictions c args w
  | None => predict g tool args w
  end.

(** The mismatch reported for one consequence, if any (loop body of [verify]). *)
Definition mismatch (delta : dict pyval) (c : ActionConsequence) : option pyval :=
  let report observed why :=
    VDict [("variable", VStr (ac_variable c)); ("effect", VStr (CausalEffect_value (ac_effect c)));
           ("expected_after", ac_expected_after c); ("observed", observed); ("reason", VStr why)] in
  match dget (ac_variable c) delta with
  | None => Some (report VNone "missing_observation")
  | Some observed =>
      if py_neq (ac_expected_after c) changed && py_neq observed (ac_expected_after c)
      then Some (report observed "consequence_mismatch")
      else None
  end.

(** [CausalGraph.verify] *)
Definition verify (preds : list ActionConsequence) (result : ToolResult) : ToolResult :=
  match omap (mismatch (observed_state_delta result)) preds with
  | [] => tool_result true "Causal consequence verification passed"
  | mismatches =>
      {| ok := false; message := "Causal consequence verification failed";
         data := [("mismatches", VList mismatches)]; observed_state_delta := []; rollback_token := None;
         error := Some (Exn VerificationFailed "Causal consequence verification failed") |}
  end.

(** The no-action counterpart of a predicted consequence. *)
Definition no_action (tool : string) (c : ActionConsequence) : ActionConsequence := {|
  ac_variable := ac_variable c; ac_before := ac_before c; ac_expected_after := ac_before c;
  ac_confidence := ac_confidence c;
  ac_rationale := "Without " +:+ tool +:+ ", " +:+ ac_variable c +:+ " is expected to remain unchanged.";
  ac_effect := CE_PRESERVES; ac_expected_without_action := ac_before c |}.

Definition CausalEffect_member (e : CausalEffect) : string :=
  match e with CE_CHANGES => "CHANGES" | CE_SETS => "SETS" | CE_PRESERVES => "PRESERVES" | CE_UNKNOWN => "UNKNOWN" end.
Definition RiskLevel_member (r : RiskLevel) : string :=
  match r with LOW => "LOW" | MEDIUM => "MEDIUM" | HIGH => "HIGH" | CRITICAL => "CRITICAL" end.
Definition consequence_asdict (c : ActionConsequence) : pyval :=
  VDict [("variable", VStr (ac_variable c)); ("before", ac_before c); ("expected_after", ac_expected_after c);
         ("confidence", VFloat (ac_confidence c)); ("rationale", VStr (ac_rationale c));
         ("effect", VEnum "CausalEffect" (CausalEffect_member (ac_effect c)) (CausalEffect_value (ac_effect c)));
         ("expected_without_action", ac_expected_without_action c)].
Definition report_asdict (r : CounterfactualReport) : pyval :=
  VDict [("step_id", VStr (cr_step_id r)); ("tool_name", VStr (cr_tool_name r));
         ("action_consequences", VList (map consequence_asdict (cr_action_consequences r)));
         ("no_action_consequences", VList (map consequence_asdict (cr_no_action_consequences r)));
         ("risk", VEnum "RiskLevel" (RiskLevel_member (cr_risk r)) (RiskLevel_value (cr_risk r)));
         ("expected_cost", VFloat (cr_expected_cost r)); ("expected_benefit", cr_expected_benefit r);
         ("summary", VDict (cr_summary r))].

Section review.
Context `{PyRuntime} {St : Type} `{HasSys St}.

(** [sum(consequence.confidence for ...)]: the integer 0 for no consequence. *)
Definition expected_benefit_of (cs : list ActionConsequence) : pyval :=
  match cs with [] => VInt 0 | _ => VFloat (float_sum (map ac_confidence cs)) end.

Definition counterfactual_of (step : ActionStep) (cs : list ActionConsequence) : CounterfactualReport :=
  let nacs := map (no_action (tool_name step)) cs in
  {| cr_step_id := step_id step; cr_tool_name := tool_name step; cr_action_consequences := cs;
     cr_no_action_consequences := nacs; cr_risk := risk step;
     cr_expected_cost := f_of_Z (risk_value (risk step)); cr_expected_benefit := expected_benefit_of cs;
     cr_summary := [("action_variables", VList (map (fun c => VStr (ac_variable c)) cs));
                    ("no_action_variables", VList (map (fun c => VStr (ac_variable c)) nacs))] |}.

(** [CounterfactualReview.review] with the predictions of the step. *)
Definition review (step : ActionStep) (cs : list ActionConsequence) : M St exn CounterfactualReport :=
  let report := counterfactual_of step cs in
  audit "step.counterfactual_review" "Reviewed action consequences against no-action alternative"
    [("step_id", VStr (step_id step)); ("tool", VStr (tool_name step)); ("report", report_asdict report)] ;;;
  ret report.

Lemma review_keeps step cs : keeps log_extends (review step cs).
Proof. unfold review. keeps_auto. Qed.
End review.
#[export] Hint Resolve review_keeps : keeps.

(** ** Meaning of a passed verification *)

(** A prediction holds of an observed delta. *)
Definition prediction_holds (delta : dict pyval) (c : ActionConsequence) : Prop :=
  exists observed, dget (ac_variable c) delta = Some observed /\
    (py_eq (ac_expected_after c) changed = true \/ py_eq observed (ac_expected_after c) = true).

Lemma mismatch_None delta c : mismatch delta c = None <-> prediction_holds delta c.
Proof.
  unfold mismatch, prediction_holds, py_neq. destruct (dget _ delta) as [o|]; [|naive_solver].
  destruct (py_eq (ac_expected_after c) changed) eqn:E1, (py_eq o (ac_expected_after c)) eqn:E2; simpl;
    split; try done; try (intros _; exists o; auto); intros (? & [= <-] & [?|?]); congruence.
Qed.
Lemma omap_nil {A B} (f : A -> option B) l : omap f l = [] <-> Forall (fun x => f x = None) l.
Proof.
  induction l as [|x l IH]; simpl; [by rewrite Forall_nil|].
  rewrite Forall_cons, <-IH. destruct (f x); naive_solver.
Qed.
Lemma verify_ok preds result :
  ok (verify preds result) = true <-> Forall (prediction_holds (observed_state_delta result)) preds.
Proof.
  unfold verify. transitivity (omap (mismatch (observed_state_delta result)) preds = []).
  - by destruct (omap _ preds).
  - rewrite omap_nil. split; intros HF; (eapply Forall_impl; [exact HF|]); intros c; apply mismatch_None.
Qed.

(** The no-action alternative predicts that nothing changes. *)
Lemma no_action_preserves tool c :
  ac_expected_after (no_action tool c) = ac_before c /\ ac_effect (no_action tool c) = CE_PRESERVES.
Proof. done. Qed.
