(* ===== verification/Egress.v ===== *)
(** Outbound network constraints: the host/method allow-list (egress.py) and
    the runtime guard that applies it to every URL (network_guard.py). *)
From S2P Require Import Prelude Enums PyValue.

Record EgressPolicy := {
  allowed_hosts : list string;
  allowed_methods : list string;
  max_requests : option Z;
}.
Definition default_methods : list string := ["GET"; "POST"; "PATCH"; "PUT"; "DELETE"].

Section egress.
Context `{PyRuntime}.

Definition is_bracket (c : ascii) : bool := Ascii.eqb c "[" || Ascii.eqb c "]".
(** [_host_is_blocked_address] *)
Definition host_is_blocked_address (host : string) : bool :=
  match ip_blocked (strip_chars is_bracket host) with
  | None => String.eqb host "localhost"
  | Some b => b
  end.

(** [EgressPolicy.allows] *)
Definition allows (p : EgressPolicy) (host method : string) : bool :=
  let normalized_host := py_lower (py_strip host) in
  let normalized_method := py_upper (py_strip method) in
  if String.eqb normalized_host "" || str_in "*" normalized_host then false
  else if negb (str_mem normalized_method (map py_upper (allowed_methods p))) then false
  else if host_is_blocked_address normalized_host then false
  else str_mem normalized_host (map py_lower (allowed_hosts p)).

(** What the allow-list check requires. *)
Lemma allows_inv p host method :
  allows p host method = true <->
  py_lower (py_strip host) <> "" /\ str_in "*" (py_lower (py_strip host)) = false /\
  py_upper (py_strip method) ∈ map py_upper (allowed_methods p) /\
  host_is_blocked_address (py_lower (py_strip host)) = false /\
  py_lower (py_strip host) ∈ map py_lower (allowed_hosts p).
Proof.
  unfold allows. rewrite <-!str_mem_elem. set (h := py_lower (py_strip host)).
  destruct (String.eqb_spec h ""), (str_in "*" h), (str_mem (py_upper _) _), (host_is_blocked_address h);
    simpl; naive_solver.
Qed.

(** ** The runtime guard *)

Record RuntimeEgressDecision := {
  red_allowed : bool; red_host : string; red_method : string; red_reason : option string;
}.
Record RuntimeEgressGuard := { reg_policy : option EgressPolicy; reg_allow_unrestricted : bool }.

(** [hostname] stands for [urlparse(url).hostname]. *)
Context (hostname : string -> option string).

Definition check_url (g : RuntimeEgressGuard) (url method : string) : RuntimeEgressDecision :=
  let host := py_lower (py_strip (default "" (hostname url))) in
  let m := py_upper (py_strip method) in
  let deny why := {| red_allowed := false; red_host := host; red_method := m; red_reason := Some why |} in
  let allow := {| red_allowed := true; red_host := host; red_method := m; red_reason := None |} in
  if reg_allow_unrestricted g then allow
  else match reg_policy g with
       | None => deny "runtime egress denied: no egress policy configured"
       | Some p =>
           if String.eqb host "" then deny "runtime egress denied: missing host"
           else if negb (allows p host m) then deny ("runtime egress denied for " +:+ m +:+ " " +:+ host)
           else allow
       end.

Definition require_url (g : RuntimeEgressGuard) (url method : string) : res exn RuntimeEgressDecision :=
  let d := check_url g url method in
  if negb (red_allowed d)
  then Raise (Exn RuntimeEgressBlocked
         (let r := default "" (red_reason d) in if String.eqb r "" then "runtime egress denied" else r))
  else Ok d.

End egress.
