(* ===== verification/Policy.v ===== *)
(** Policy rules, capability grants, profiles and the policy engine (policy.py). *)
From S2P Require Import Prelude Enums PyValue Goals Plans Tools AuditTrail Egress.

Definition perm_in (p : Permission) (l : list Permission) : bool := bool_decide (p ∈ l).
(** [bool(a & b)] for two sets of permissions *)
Definition perms_meet (a b : list Permission) : bool := existsb (fun p => perm_in p b) a.

(** ** Rules *)

Record PolicyRule := { pr_name : string; pr_when : dict pyval; pr_decision : Decision }.

(** [PolicyRule.__post_init__] *)
Definition PolicyRule_check (r : PolicyRule) : res exn PolicyRule :=
  if decide (pr_decision r = APPROVED)
  then Raise (Exn PolicyConfigurationError "Policy-as-code rules cannot directly approve actions")
  else match pr_when r with
       | [] => Raise (Exn PolicyConfigurationError
                 ("Policy rule " +:+ pr_name r +:+ " must define at least one condition"))
       | _ => Ok r
       end.

Section policy.
Context `{PyRuntime}.

(** [dict(v)]: a mapping, or a sequence of pairs. *)
Definition pair_of (v : pyval) : res exn (string * pyval) :=
  match v with
  | VList [k; x] | VTuple [k; x] =>
      match as_str k with Some s => Ok (s, x) | None => Raise (Exn TypeError "unsupported dictionary key") end
  | VStr (String a (String b EmptyString)) => Ok (String a "", VStr (String b ""))
  | VList _ | VTuple _ | VStr _ =>
      Raise (Exn ValueError "dictionary update sequence element has the wrong length")
  | _ => Raise (Exn TypeError "cannot convert dictionary update sequence element to a sequence")
  end.
Fixpoint pairs_of (l : list pyval) (acc : dict pyval) : res exn (dict pyval) :=
  match l with
  | [] => Ok acc
  | v :: l' => res_bind (pair_of v) (fun kv => pairs_of l' (dset kv.1 kv.2 acc))
  end.
Definition dict_of (v : pyval) : res exn (dict pyval) :=
  match v with
  | VDict d => Ok d
  | VList l | VTuple l => pairs_of l []
  | VStr "" => Ok []
  | VStr _ => Raise (Exn ValueError "dictionary update sequence element has the wrong length")
  | _ => Raise (Exn TypeError "object is not iterable")
  end.

(** [PolicyRule.from_mapping] *)
Definition PolicyRule_from_mapping (d : dict pyval) : res exn PolicyRule :=
match dget "name" d with
| None => Raise (Exn PolicyConfigurationError "Policy rule is missing name")
| Some n =>
    match dget "when" d with
    | None => Raise (Exn PolicyConfigurationError ("Policy rule " +:+ py_str n +:+ " is missing when"))
    | Some w =>
        match dget "decision" d with
        | None => Raise (Exn PolicyConfigurationError ("Policy rule " +:+ py_str n +:+ " is missing decision"))
        | Some dec =>
            res_bind (dict_of w) (fun wd =>
            res_bind (enum_of (A:=Decision) (py_str dec)) (fun de =>
            PolicyRule_check {| pr_name := py_str n; pr_when := wd; pr_decision := de |}))
        end
    end
end.

Definition as_list (v : pyval) : list pyval :=
match v with VList l | VTuple l | VSet l => l | _ => [v] end.
(** [Permission(value)] *)
Definition permission_of (v : pyval) : res exn Permission :=
match as_str v with
| Some s => enum_of s
| None => Raise (Exn ValueError (py_repr_val v +:+ " is not a valid Permission"))
end.
Fixpoint permissions_of (l : list pyval) : res exn (list Permission) :=
match l with
| [] => Ok []
| v :: l' => res_bind (permission_of v) (fun p => res_map (cons p) (permissions_of l'))
end.

Lemma permission_of_value p : permission_of (VStr (Permission_value p)) = Ok p.
Proof. exact (enum_of_value p). Qed.
Lemma permissions_of_values ps : permissions_of (map (fun p => VStr (Permission_value p)) ps) = Ok ps.
Proof. induction ps as [|p ps IH]; [done|]. cbn [map permissions_of]. by rewrite permission_of_value, IH. Qed.

(** One condition of a rule against a step. *)
Definition condition_matches (key : string) (expected : pyval) (step : ActionStep) (profile : string) :
  res exn bool :=
if String.eqb key "profile" then Ok (String.eqb profile (py_str expected))
else if String.eqb key "tool" then Ok (String.eqb (tool_name step) (py_str expected))
else if String.eqb key "permission"
then res_map (fun ps => perms_meet ps (required_permissions step)) (permissions_of (as_list expected))
else if String.eqb key "risk_at_least"
then res_map (fun r => negb (risk_value (risk step) <? risk_value r)%Z) (enum_of (A:=RiskLevel) (py_str expected))
else if String.eqb key "reversibility"
then res_map (fun r => bool_decide (reversibility step = r)) (enum_of (A:=Reversibility) (py_str expected))
else Raise (Exn PolicyConfigurationError ("Unsupported policy rule condition: " +:+ key)).

(** [PolicyRule.matches]: the conditions are tried in order, the first failing one decides. *)
Fixpoint conditions_match (conds : dict pyval) (step : ActionStep) (profile : string) : res exn bool :=
match conds with
| [] => Ok true
| (key, expected) :: conds' =>
    res_bind (condition_matches key expected step profile) (fun b =>
    if b then conditions_match conds' step profile else Ok false)
end.
Definition rule_matches (r : PolicyRule) (step : ActionStep) (profile : string) : res exn bool :=
conditions_match (pr_when r) step profile.

(** The first matching rule. *)
Fixpoint first_rule (rules : list PolicyRule) (step : ActionStep) (profile : string) :
  res exn (option PolicyRule) :=
match rules with
| [] => Ok None
| r :: rules' =>
    res_bind (rule_matches r step profile) (fun b =>
    if b then Ok (Some r) else first_rule rules' step profile)
end.

(** ** Grants *)

Record CapabilityGrant := {
cg_principal : string;
cg_permissions : list Permission;
cg_tools : list string;
cg_max_risk : option RiskLevel;
cg_deny_permissions : list Permission;
cg_expires_at : option float;
cg_max_uses : option Z;
}.

Context {St : Type} `{HasSys St}.

(** [CapabilityGrant.applies_to(principal, tool_name)]; [uses] is the grant's
  [_uses] counter.  The clock is read only when the grant expires. *)
Definition applies_to (g : CapabilityGrant) (uses : Z) (principal tool : string) : M St exn bool :=
if negb (String.eqb (cg_principal g) principal) then ret false
else if negb (bool_decide (cg_tools g = [])) && negb (str_mem tool (cg_tools g)) then ret false
else
  let! expired := match cg_expires_at g with
                  | None => ret false
                  | Some t => let! now := time_time in ret (fltb t now)
                  end in
  if (expired : bool) then ret false
  else ret (negb match cg_max_uses g with Some m => (m <=? uses)%Z | None => false end).

(** ** Profiles *)

Record PolicyProfile := {
pp_name : string;
pp_granted_permissions : list Permission;
pp_max_auto_risk : RiskLevel;
pp_require_human_for : list Permission;
pp_deny_permissions : list Permission;
pp_rules : list PolicyRule;
pp_grants : list CapabilityGrant;
pp_require_strong_sandbox_for_execute : bool;
pp_network_default_deny : bool;
pp_require_causal_contract_for_medium_risk : bool;
pp_require_timeout_for_medium_risk : bool;
pp_require_output_schema_for_medium_risk : bool;
pp_require_typed_goal_criteria : bool;
pp_egress_policy : option EgressPolicy;
pp_allowed_tools : list string;
pp_require_signed_approval : bool;
}.

Definition PRODUCTION_PROFILE_NAMES : list string := ["production_locked_down"; "production_github_only"].
Definition is_production (profile : string) : bool := str_mem profile PRODUCTION_PROFILE_NAMES.

Definition PRODUCTION_GITHUB_ONLY_TOOLS : list string :=
["github_read_issue"; "github_get_repository"; "github_get_branch"; "github_get_pr"; "github_get_file";
 "github_create_branch"; "github_update_file"; "github_open_pr"; "github_close_pr"; "github_delete_branch";
 "github_comment"; "github_check_ci_status"; "echo"].

(** A profile with the dataclass defaults. *)
Definition base_profile (n : string) (granted : list Permission) (r : RiskLevel)
  (human deny : list Permission) : PolicyProfile := {|
pp_name := n; pp_granted_permissions := granted; pp_max_auto_risk := r; pp_require_human_for := human;
pp_deny_permissions := deny; pp_rules := []; pp_grants := [];
pp_require_strong_sandbox_for_execute := false; pp_network_default_deny := false;
pp_require_causal_contract_for_medium_risk := false; pp_require_timeout_for_medium_risk := false;
pp_require_output_schema_for_medium_risk := false; pp_require_typed_goal_criteria := false;
pp_egress_policy := None; pp_allowed_tools := []; pp_require_signed_approval := false |}.
(** The strict flags the two production profiles share. *)
Definition strict_profile (n : string) (human deny : list Permission) (e : option EgressPolicy)
  (tools : list string) (signed : bool) : PolicyProfile := {|
pp_name := n; pp_granted_permissions := []; pp_max_auto_risk := LOW; pp_require_human_for := human;
pp_deny_permissions := deny; pp_rules := []; pp_grants := [];
pp_require_strong_sandbox_for_execute := true; pp_network_default_deny := true;
pp_require_causal_contract_for_medium_risk := true; pp_require_timeout_for_medium_risk := true;
pp_require_output_schema_for_medium_risk := true; pp_require_typed_goal_criteria := true;
pp_egress_policy := e; pp_allowed_tools := tools; pp_require_signed_approval := signed |}.

(** [BUILT_IN_POLICY_PROFILES] *)
Definition BUILT_IN_POLICY_PROFILES : dict PolicyProfile := [
("personal_safe", base_profile "personal_safe" [] LOW [SEND_MESSAGE; FINANCIAL; DELETE; SYSTEM_CONFIG] []);
("developer_local", base_profile "developer_local" [READ_FILES; WRITE_FILES; EXECUTE_CODE] MEDIUM []
   [NETWORK; FINANCIAL; DELETE; SYSTEM_CONFIG]);
("production", base_profile "production" [] LOW
   [WRITE_FILES; SEND_MESSAGE; FINANCIAL; DELETE; EXECUTE_CODE; SYSTEM_CONFIG] []);
("production_locked_down", strict_profile "production_locked_down"
   [NETWORK; WRITE_FILES; SEND_MESSAGE; EXECUTE_CODE; READ_MEMORY; WRITE_MEMORY]
   [FINANCIAL; DELETE; SYSTEM_CONFIG] None [] false);
("production_github_only", strict_profile "production_github_only"
   [WRITE_FILES; SEND_MESSAGE; EXECUTE_CODE; READ_MEMORY; WRITE_MEMORY]
   [FINANCIAL; SYSTEM_CONFIG]
   (Some {| allowed_hosts := ["api.github.com"]; allowed_methods := default_methods; max_requests := None |})
   PRODUCTION_GITHUB_ONLY_TOOLS true)].

(** ** The engine *)

(** The attributes of [PolicyEngine]; the sets are given by a list of members. *)
Record PolicyEngine := {
granted_permissions : list Permission;
max_auto_risk : RiskLevel;
require_human_for : list Permission;
deny_permissions : list Permission;
rules : list PolicyRule;
grants : list CapabilityGrant;
principal : option string;
profile_name : string;
egress_policy : option EgressPolicy;
require_strong_sandbox_for_execute : bool;
network_default_deny : bool;
require_causal_contract_for_medium_risk : bool;
require_timeout_for_medium_risk : bool;
require_output_schema_for_medium_risk : bool;
require_typed_goal_criteria : bool;
allowed_tools : list string;
require_signed_approval : bool;
}.

Definition engine_of_profile (p : PolicyProfile) (who : option string) : PolicyEngine := {|
granted_permissions := pp_granted_permissions p; max_auto_risk := pp_max_auto_risk p;
require_human_for := pp_require_human_for p; deny_permissions := pp_deny_permissions p;
rules := pp_rules p; grants := pp_grants p; principal := who; profile_name := pp_name p;
egress_policy := pp_egress_policy p;
require_strong_sandbox_for_execute := pp_require_strong_sandbox_for_execute p;
network_default_deny := pp_network_default_deny p;
require_causal_contract_for_medium_risk := pp_require_causal_contract_for_medium_risk p;
require_timeout_for_medium_risk := pp_require_timeout_for_medium_risk p;
require_output_schema_for_medium_risk := pp_require_output_schema_for_medium_risk p;
require_typed_goal_criteria := pp_require_typed_goal_criteria p;
allowed_tools := pp_allowed_tools p; require_signed_approval := pp_require_signed_approval p |}.
(** [PolicyEngine.from_profile], by name. *)
Definition from_profile (profile : string) (who : option string) : res exn PolicyEngine :=
match dget profile BUILT_IN_POLICY_PROFILES with
| Some p => Ok (engine_of_profile p who)
| None => Raise (Exn KeyError ("Unknown policy profile: " +:+ profile))
end.

(** [PolicyEngine.assess] *)
Definition assess (ts : ToolSpec) (args : dict pyval) : RiskLevel :=
if existsb (fun p => perm_in p (permissions ts)) [DELETE; FINANCIAL; SYSTEM_CONFIG] then CRITICAL
else match dget "destructive" args with
     | Some (VBool true) => HIGH
     | _ => default_risk ts
     end.

(** [_egress_methods_for_step], [_rollback_egress_methods_for_tool] *)
Definition egress_methods_for_step (step : ActionStep) (ts : ToolSpec) : list string :=
let declared := map py_upper (egress_methods ts) in
match dget "method" (arguments step) with
| None | Some VNone => declared
| Some v =>
    let requested := py_upper (py_str v) in
    match declared with
    | [] => [requested]
    | _ => if negb (str_mem requested declared) then declared ++ [requested] else declared
    end
end.
Definition rollback_egress_methods_for_tool (ts : ToolSpec) : list string :=
map py_upper (rollback_egress_methods ts).

(** [a or b] on values *)
Definition py_or (a b : pyval) : pyval := if truthy a then a else b.
Definition arg (k : string) (step : ActionStep) : pyval := default VNone (dget k (arguments step)).
Definition str_or (a b : string) : string := if String.eqb a "" then b else a.
Definition is_network_tool (ts : ToolSpec) : bool := network_access ts || perm_in NETWORK (permissions ts).

Record EgressAssessment := {
ea_host : string;
ea_forward_methods : list string;
ea_rollback_methods : list string;
ea_allowed : bool;
ea_reason : option string;
}.

Definition egress_host_for_step (step : ActionStep) (ts : ToolSpec) : string :=
str_or (py_str (py_or (arg "host" step) (py_or (arg "hostname" step) (py_or (arg "domain" step) (VStr "")))))
       (default "" (egress_host ts)).

(** [PolicyEngine.production_egress_assessment] *)
Definition production_egress_assessment (e : PolicyEngine) (step : ActionStep) (ts : ToolSpec) :
  option EgressAssessment :=
if negb (is_production (profile_name e)) then None
else if negb (is_network_tool ts) then None
else
  let host := egress_host_for_step step ts in
  let forward := egress_methods_for_step step ts in
  let rollback := rollback_egress_methods_for_tool ts in
  let result b why := Some {| ea_host := host; ea_forward_methods := forward;
                              ea_rollback_methods := rollback; ea_allowed := b; ea_reason := why |} in
  match egress_policy e with
  | None => result false (Some (profile_name e +:+ " forbids network tools without an explicit egress policy"))
  | Some pol =>
      if String.eqb host ""
      then result false (Some (profile_name e +:+ " egress policy does not allow <missing-host>"))
      else
        let missing ms := filter (fun m => negb (allows pol host m) = true) ms in
        match forward with
        | [] => result false (Some (profile_name e +:+ " requires declared forward egress methods for " +:+ name ts))
        | _ =>
            match missing forward with
            | (_ :: _) as mf =>
                result false (Some (profile_name e +:+ " egress policy does not allow forward " +:+
                                    str_join "," mf +:+ " " +:+ host))
            | [] =>
                if negb (bool_decide (ts_reversibility ts = IRREVERSIBLE))
                then
                  match rollback with
                  | [] => result false (Some (profile_name e +:+
                            " requires rollback egress methods for reversible network tool " +:+ name ts))
                  | _ =>
                      match missing rollback with
                      | (_ :: _) as mr =>
                          result false (Some (profile_name e +:+ " egress policy does not allow rollback " +:+
                                              str_join "," mr +:+ " " +:+ host))
                      | [] => result true None
                      end
                  end
                else result true None
            end
        end
  end.

(** [PolicyEngine.production_block_reason] *)
Definition production_block_reason (e : PolicyEngine) (step : ActionStep) (ts : ToolSpec) : option string :=
if negb (is_production (profile_name e)) then None
else if negb (bool_decide (allowed_tools e = [])) && negb (str_mem (name ts) (allowed_tools e))
then Some (profile_name e +:+ " allows only bounded GitHub tools")
else
  let rest :=
    if require_strong_sandbox_for_execute e && perm_in EXECUTE_CODE (permissions ts)
       && bool_decide (sandbox_policy ts = SP_WORKSPACE)
    then Some (profile_name e +:+ " forbids workspace subprocess execution as a production sandbox")
    else if (risk_value MEDIUM <=? risk_value (risk step))%Z
    then
      if require_causal_contract_for_medium_risk e &&
           match causal_contract ts with None => true | Some _ => false end
      then Some (profile_name e +:+ " requires causal contracts for medium+ tools")
      else if require_timeout_for_medium_risk e && (timeout_ms ts <=? 0)%Z
      then Some (profile_name e +:+ " requires timeout_ms for medium+ tools")
      else if require_output_schema_for_medium_risk e && bool_decide (length (output_schema ts) = 0%nat)
      then Some (profile_name e +:+ " requires output_schema for medium+ tools")
      else None
    else None in
  match production_egress_assessment e step ts with
  | Some a => if negb (ea_allowed a) then ea_reason a else rest
  | None => rest
  end.

(** [PolicyEngine.validate_goal] *)
Definition validate_goal (e : PolicyEngine) (g : Goal) : res exn unit :=
if require_typed_goal_criteria e && bool_decide (length (criteria g) = 0%nat)
then Raise (Exn PolicyDenied (profile_name e +:+ " requires at least one typed goal criterion"))
else Ok tt.

(** [PolicyEngine._matching_grant]: the first applicable grant and its index;
  [uses i] is the counter of the [i]-th grant. *)
Fixpoint find_grant (i : nat) (gs : list CapabilityGrant) (uses : nat -> Z) (who tool : string) :
  M St exn (option (nat * CapabilityGrant)) :=
match gs with
| [] => ret None
| g :: gs' =>
    let! b := applies_to g (uses i) who tool in
    if (b : bool) then ret (Some (i, g)) else find_grant (S i) gs' uses who tool
end.
Definition matching_grant (e : PolicyEngine) (uses : nat -> Z) (tool : string) :
  M St exn (option (nat * CapabilityGrant)) :=
match principal e with
| None => ret None
| Some who => if String.eqb who "" then ret None else find_grant 0 (grants e) uses who tool
end.

Record DecisionResult := { dr_decision : Decision; dr_reason : string; dr_rule_name : option string }.

(** [required - granted], as the list whose order a Python set would give. *)
Definition missing_permissions (required granted : list Permission) : list Permission :=
filter (fun p => perm_in p required && negb (perm_in p granted) = true) (enum_all Permission).
Definition missing_reason (ms : list Permission) : string :=
"missing permissions: " +:+ py_repr_val (VList (map VStr (set_order (map Permission_value ms)))).

Definition consequential (step : ActionStep) : bool :=
negb (bool_decide (length (required_permissions step) = 0%nat)) ||
(risk_value MEDIUM <=? risk_value (risk step))%Z.
Definition not_reversible (step : ActionStep) : bool := negb (bool_decide (reversibility step = REVERSIBLE)).

(** The checks shared by the granted and the default path of [decide], with
  the permissions and the maximal risk that apply and the approval reason. *)
Definition decide_with (e : PolicyEngine) (step : ActionStep) (granted : list Permission)
  (max_risk : RiskLevel) (why : string) : DecisionResult :=
let required := required_permissions step in
let result d why := {| dr_decision := d; dr_reason := why; dr_rule_name := None |} in
if perms_meet required (require_human_for e)
then result NEEDS_HUMAN "permission requires human approval"
else
  match missing_permissions required granted with
  | (_ :: _) as ms => result NEEDS_HUMAN (missing_reason ms)
  | [] =>
      if (risk_value max_risk <? risk_value (risk step))%Z
      then result NEEDS_HUMAN ("risk " +:+ RiskLevel_value (risk step) +:+ " exceeds max " +:+
                               RiskLevel_value max_risk)
      else if consequential step && not_reversible step
      then result NEEDS_HUMAN ("consequential " +:+ Reversibility_value (reversibility step) +:+
                               " action requires human approval")
      else result APPROVED why
  end.

(** [PolicyEngine.decide] *)
Definition decide_step (e : PolicyEngine) (uses : nat -> Z) (step : ActionStep) : M St exn DecisionResult :=
let! rule := of_res (first_rule (rules e) step (profile_name e)) in
match rule with
| Some r =>
    ret {| dr_decision := pr_decision r; dr_reason := "matched rule '" +:+ pr_name r +:+ "'";
           dr_rule_name := Some (pr_name r) |}
| None =>
    let denied why := {| dr_decision := DENIED; dr_reason := why; dr_rule_name := None |} in
    if perms_meet (required_permissions step) (deny_permissions e)
    then ret (denied "permission denied by policy")
    else
      let! grant := matching_grant e uses (tool_name step) in
      match grant with
      | Some (_, g) =>
          if perms_meet (required_permissions step) (cg_deny_permissions g)
          then ret (denied ("permission denied by grant for '" +:+ cg_principal g +:+ "'"))
          else ret (decide_with e step (cg_permissions g) (default (max_auto_risk e) (cg_max_risk g))
                      ("granted by '" +:+ cg_principal g +:+ "'"))
      | None => ret (decide_with e step (granted_permissions e) (max_auto_risk e) "auto-approved")
      end
end.

(** ** Facts about decisions *)

Lemma perms_meet_spec a b : perms_meet a b = true <-> exists p, p ∈ a /\ p ∈ b.
Proof.
unfold perms_meet, perm_in. rewrite existsb_exists. split; intros [p [H1 H2]]; exists p.
- apply list_elem_of_In in H1. by apply bool_decide_eq_true in H2.
- rewrite <-list_elem_of_In. split; [done|]. by apply bool_decide_eq_true.
Qed.
Lemma perms_meet_false a b : perms_meet a b = false <-> forall p, p ∈ a -> p ∉ b.
Proof.
rewrite <-not_true_iff_false, perms_meet_spec. naive_solver.
Qed.
Lemma missing_permissions_nil required granted :
missing_permissions required granted = [] <-> forall p, p ∈ required -> p ∈ granted.
Proof.
unfold missing_permissions. split.
- intros Hnil p Hp. destruct (decide (p ∈ granted)) as [|Hn]; [done|exfalso].
  assert (Hin : p ∈ filter (fun p => perm_in p required && negb (perm_in p granted) = true) (enum_all Permission)).
  { apply list_elem_of_filter. split; [|apply enum_all_complete].
    unfold perm_in. rewrite andb_true_iff, negb_true_iff, bool_decide_eq_true, bool_decide_eq_false. done. }
  rewrite Hnil in Hin. by apply elem_of_nil in Hin.
- intros Hall. destruct (filter _ _) as [|p l] eqn:E; [done|exfalso].
  assert (Hin : p ∈ p :: l) by left. rewrite <-E in Hin. apply list_elem_of_filter in Hin as [Hp _].
  unfold perm_in in Hp. rewrite andb_true_iff, negb_true_iff, bool_decide_eq_true, bool_decide_eq_false in Hp.
  naive_solver.
Qed.
Lemma first_rule_In rs step profile r : first_rule rs step profile = Ok (Some r) -> r ∈ rs.
Proof.
induction rs as [|r' rs IH]; simpl; [done|].
destruct (rule_matches r' step profile) as [[]|]; simpl; [|intros; right; auto|done].
intros; simplify_eq. left.
Qed.

(** What an automatic approval implies, for the permissions and bound in force. *)
Record auto_approvable (e : PolicyEngine) (step : ActionStep) (granted : list Permission) (mr : RiskLevel) : Prop := {
aa_no_human : forall p, p ∈ required_permissions step -> p ∉ require_human_for e;
aa_granted : forall p, p ∈ required_permissions step -> p ∈ granted;
aa_risk : (risk_value (risk step) <= risk_value mr)%Z;
aa_reversible : consequential step = true -> reversibility step = REVERSIBLE;
}.
Lemma decide_with_approved e step granted mr why :
dr_decision (decide_with e step granted mr why) = APPROVED <-> auto_approvable e step granted mr.
Proof.
unfold decide_with. destruct (perms_meet _ _) eqn:Eh.
{ split; [done|]. intros [Hh _ _ _]. rewrite <-perms_meet_false in Hh. congruence. }
pose proof (proj1 (perms_meet_false _ _) Eh) as Hh.
destruct (missing_permissions _ granted) as [|m ms] eqn:Em.
2: { split; [done|]. intros [_ Hg _ _]. rewrite <-missing_permissions_nil in Hg. congruence. }
pose proof (proj1 (missing_permissions_nil _ _) Em) as Hg.
destruct (Z.ltb_spec (risk_value mr) (risk_value (risk step))); [split; [done|]; intros []; lia|].
destruct (consequential step) eqn:Ec; simpl.
- unfold not_reversible. destruct (bool_decide_reflect (reversibility step = REVERSIBLE)); simpl.
  + split; [|done]. intros _. by split.
  + split; [done|]. intros [_ _ _ Hr]. naive_solver.
- split; [|done]. intros _. split; try done. congruence.
Qed.
Lemma decide_with_not_denied e step granted mr why : dr_decision (decide_with e step granted mr why) <> DENIED.
Proof. unfold decide_with. repeat destr_match; done. Qed.

(** The decision when no rule and no grant applies. *)
Lemma ungranted_decision e uses step (s : St) :
  rules e = [] -> matching_grant e uses (tool_name step) s = (Ok None, s) ->
  exists dr, fst (decide_step e uses step s) = Ok dr /\
    (dr_decision dr = DENIED <-> exists p, p ∈ required_permissions step /\ p ∈ deny_permissions e) /\
    (dr_decision dr = APPROVED <->
       (forall p, p ∈ required_permissions step -> p ∉ deny_permissions e) /\
       auto_approvable e step (granted_permissions e) (max_auto_risk e)).
Proof.
  intros Hr Hg. unfold decide_step. rewrite Hr. unfold bind, of_res, ret. simpl.
  destruct (perms_meet (required_permissions step) (deny_permissions e)) eqn:Ed.
  - eexists. split; [done|]. simpl. split.
    + split; [|done]. intros _. by apply perms_meet_spec.
    + split; [done|]. intros [Hd _]. rewrite <-perms_meet_false in Hd. congruence.
  - rewrite Hg. eexists. split; [done|]. simpl. rewrite decide_with_approved. split.
    + split; [by intros ?%decide_with_not_denied|]. rewrite <-perms_meet_spec. congruence.
    + rewrite perms_meet_false in Ed. naive_solver.
Qed.

Lemma applies_to_keeps g uses who tool : keeps log_extends (applies_to g uses who tool).
Proof. unfold applies_to. keeps_auto. Qed.
Lemma find_grant_keeps i gs uses who tool : keeps log_extends (find_grant i gs uses who tool).
Proof.
revert i. induction gs as [|g gs IH]; intros i; simpl; [keeps_auto|].
apply keeps_bind; [apply _|apply applies_to_keeps|]. intros []; [keeps_auto|apply IH].
Qed.
Lemma matching_grant_keeps e uses tool : keeps log_extends (matching_grant e uses tool).
Proof. unfold matching_grant. destruct (principal e); [|keeps_auto]. destruct (String.eqb _ _); [keeps_auto|apply find_grant_keeps]. Qed.
Lemma decide_step_keeps e uses step : keeps log_extends (decide_step e uses step).
Proof.
unfold decide_step. apply keeps_bind; [apply _|keeps_auto|]. intros [r|]; [keeps_auto|].
destruct (perms_meet _ _); [keeps_auto|]. apply keeps_bind; [apply _|apply matching_grant_keeps|].
intros [[i g]|]; keeps_auto.
Qed.
End policy.
