(* ===== verification/PolicyConfig.v ===== *)
(** Policies as data: the constructors and parsers of policy.py, the signed manifests of
    policy_manifest.py and the deny-by-default generator of policy_wizard.py.

    A mapping comes from a JSON document.  The code checks few of the types in it; a document whose
    tools or hosts are not strings gives an object outside its annotations and is the outcome
    [None] of [D], as in Serialization.v. *)
From S2P Require Import Prelude Enums PyValue FileSystem PyText Sanitization Goals Plans Serialization Tools AuditTrail Egress Policy.


Section parse.
Context `{PyRuntime}.

(** [tuple(data.get(k, ()))] *)
Definition tuple_entry (k : string) (d : dict pyval) : D (list pyval) := dlift (py_iter (dget_or k (VTuple []) d)).
Definition str_entries (l : list pyval) : D (list string) := dmap as_VStr l.
Definition flag_entry (k : string) (d : dict pyval) : bool := truthy (dget_or k (VBool false) d).

(** [CapabilityGrant(...)]: [__post_init__] converts the permissions. *)
Definition CapabilityGrant_new (who : string) (perms : list pyval) (tools : list string) (mr : option RiskLevel)
    (deny : list pyval) (expires : option float) (uses : option Z) : res exn CapabilityGrant :=
  res_bind (permissions_of perms) (fun ps =>
  res_map (fun ds => {| cg_principal := who; cg_permissions := ps; cg_tools := tools; cg_max_risk := mr;
                        cg_deny_permissions := ds; cg_expires_at := expires; cg_max_uses := uses |})
    (permissions_of deny)).
Definition CapabilityGrant_from_mapping (d : dict pyval) : D CapabilityGrant :=
  match dget "principal" d with
  | None => dlift (Raise (Exn PolicyConfigurationError "Capability grant is missing principal"))
  | Some who =>
      let? perms := tuple_entry "permissions" d in
      let? ts := tuple_entry "tools" d in
      let? mr := (let v := dget_or "max_risk" VNone d in
                  if truthy v then dlift (res_map Some (enum_of (A:=RiskLevel) (py_str v))) else dret None) in
      let? deny := tuple_entry "deny_permissions" d in
      let? tools := str_entries ts in
      dlift (CapabilityGrant_new (py_str who) perms tools mr deny None None)
  end.
(** [grant.record_use()], on the counters of the grants. *)
Definition record_use (uses : nat -> Z) (i : nat) : nat -> Z := fun k => if (k =? i)%nat then (uses k + 1)%Z else uses k.

Definition egress_from_mapping (v : pyval) : D (option EgressPolicy) :=
  match v with
  | VDict d =>
      let? hosts := tuple_entry "allowed_hosts" d in
      let? methods := dlift (py_iter (dget_or "allowed_methods" (VTuple (map VStr default_methods)) d)) in
      let? hs := str_entries hosts in
      let? ms := str_entries methods in
      let? m := as_opt as_VInt (dget_or "max_requests" VNone d) in
      dret (Some {| allowed_hosts := hs; allowed_methods := ms; max_requests := m |})
  | _ => dret None
  end.

Definition rule_of (v : pyval) : D PolicyRule := let? d := as_VDict v in dlift (PolicyRule_from_mapping d).
Definition grant_of (v : pyval) : D CapabilityGrant := let? d := as_VDict v in CapabilityGrant_from_mapping d.

(** [PolicyProfile.from_mapping] and [__post_init__], in the order in which they raise. *)
Definition PolicyProfile_from_mapping (d : dict pyval) : D PolicyProfile :=
  match dget "name" d with
  | None => dlift (Raise (Exn PolicyConfigurationError "Policy profile is missing name"))
  | Some n =>
      let? granted := tuple_entry "granted_permissions" d in
      let? risk := dlift (enum_of (A:=RiskLevel) (py_str (dget_or "max_auto_risk" (VStr (RiskLevel_value MEDIUM)) d))) in
      let? human := tuple_entry "require_human_for" d in
      let? deny := tuple_entry "deny_permissions" d in
      let? rules := (let? l := tuple_entry "rules" d in dmap rule_of l) in
      let? grants := (let? l := tuple_entry "grants" d in dmap grant_of l) in
      let? tools := tuple_entry "allowed_tools" d in
      let? egress := egress_from_mapping (dget_or "egress_policy" VNone d) in
      let? gs := dlift (permissions_of granted) in
      let? hs := dlift (permissions_of human) in
      let? ds := dlift (permissions_of deny) in
      dret {| pp_name := py_str n; pp_granted_permissions := gs; pp_max_auto_risk := risk;
              pp_require_human_for := hs; pp_deny_permissions := ds; pp_rules := rules; pp_grants := grants;
              pp_require_strong_sandbox_for_execute := flag_entry "require_strong_sandbox_for_execute" d;
              pp_network_default_deny := flag_entry "network_default_deny" d;
              pp_require_causal_contract_for_medium_risk := flag_entry "require_causal_contract_for_medium_risk" d;
              pp_require_timeout_for_medium_risk := flag_entry "require_timeout_for_medium_risk" d;
              pp_require_output_schema_for_medium_risk := flag_entry "require_output_schema_for_medium_risk" d;
              pp_require_typed_goal_criteria := flag_entry "require_typed_goal_criteria" d;
              pp_egress_policy := egress; pp_allowed_tools := map py_str tools;
              pp_require_signed_approval := flag_entry "require_signed_approval" d |}
  end.
(** [PolicyEngine.from_mapping] *)
Definition PolicyEngine_from_mapping (d : dict pyval) (who : option string) : D PolicyEngine :=
  let? p := PolicyProfile_from_mapping d in dret (engine_of_profile p who).

(** [validate_policy_config] *)
Definition config_issue (e : exn) : dict pyval :=
  [("reason", VStr "policy_config_invalid"); ("message", VStr (exn_str e))].
Definition validate_policy_config (d : dict pyval) : D (list (dict pyval)) :=
  match PolicyProfile_from_mapping d with
  | None => None
  | Some (Raise e) => dret [config_issue e]
  | Some (Ok _) => dret []
  end.
End parse.

(** ** Signed manifests (policy_manifest.py) *)

Section manifest.
Context `{PyRuntime}.

Definition ALGORITHM : string := "hmac-sha256".
Record SignedPolicyManifest := { sm_policy : dict pyval; sm_signature : dict pyval }.

(** [_canonicalize]: the encoder has no [default], so it rejects what is not JSON. *)
Definition canonicalize (policy_data : dict pyval) : res exn string :=
  res_map (json_dumps "," ":" json_string) (json_doc (VDict policy_data)).
Definition sign_policy (policy_data : dict pyval) (secret : string) : res exn SignedPolicyManifest :=
  res_map (fun c => {| sm_policy := policy_data;
                       sm_signature := [("algorithm", VStr ALGORITHM); ("value", VStr (hmac_sha256_hex secret c))] |})
    (canonicalize policy_data).
Definition integrity_error (msg : string) : exn := Exn PolicyIntegrityError msg.
(** [hmac.compare_digest(actual, expected)] for a [str] and any value. *)
Definition compare_digest (actual : string) (expected : pyval) : res exn bool :=
  match as_str expected with
  | None => Raise (Exn TypeError ("unsupported operand types(s) or combination of types: 'str' and " +:+ py_repr (type_name expected)))
  | Some s => if is_ascii_text s && is_ascii_text actual then Ok (String.eqb actual s)
              else Raise (Exn TypeError "comparing strings with non-ASCII characters is not supported")
  end.
Definition verify_policy_manifest (manifest : pyval) (secret : string) : res exn unit :=
  match manifest with
  | VDict m =>
      match dget_or "policy" VNone m, dget_or "signature" VNone m with
      | VDict policy_data, VDict signature =>
          let alg := dget_or "algorithm" VNone signature in
          if py_neq alg (VStr ALGORITHM) then Raise (integrity_error ("Unsupported signature algorithm: " +:+ py_str alg))
          else
            let expected := dget_or "value" VNone signature in
            if negb (truthy expected) then Raise (integrity_error "Signature is missing 'value'")
            else
              res_bind (canonicalize policy_data) (fun c =>
              res_bind (compare_digest (hmac_sha256_hex secret c) expected) (fun same =>
              if (same : bool) then Ok tt
              else Raise (integrity_error "Policy signature verification failed — manifest may have been tampered")))
      | VDict _, _ => Raise (integrity_error "Manifest is missing 'signature'")
      | _, _ => Raise (integrity_error "Manifest is missing 'policy'")
      end
  | _ => Raise (integrity_error "Manifest is not a JSON object")
  end.

(** The manifest file: [None] when there is no file, else what [json.load] gives. *)
Definition load_policy_from_file (p : path) (file : option (res exn pyval)) (secret : string) (who : option string) :
    D PolicyEngine :=
  match file with
  | None => dlift (Raise (Exn PolicyConfigurationError ("Policy manifest not found: " +:+ path_str p)))
  | Some (Raise e) =>
      dlift (Raise (if isinstance e JSONDecodeError
                    then Exn PolicyConfigurationError ("Invalid JSON in policy manifest: " +:+ exn_str e) else e))
  | Some (Ok manifest) =>
      let? _ := dlift (verify_policy_manifest manifest secret) in
      let? m := as_VDict manifest in
      let? pv := must "policy" m in
      let? pd := as_VDict pv in
      PolicyEngine_from_mapping pd who
  end.

Definition manifest_value (m : SignedPolicyManifest) : pyval :=
  VDict [("policy", VDict (sm_policy m)); ("signature", VDict (sm_signature m))].
Definition manifest_to_json (m : SignedPolicyManifest) : string :=
  json_indent json_string 0 (manifest_value m) +:+ String LF "".
End manifest.

(** ** The generator (policy_wizard.py) *)

Section wizard.
Context `{PyRuntime}.

(** [_CONSEQUENTIAL] *)
Definition CONSEQUENTIAL : list Permission :=
  [WRITE_MEMORY; WRITE_FILES; NETWORK; SEND_MESSAGE; EXECUTE_CODE; DELETE; FINANCIAL; SYSTEM_CONFIG].
Definition permission_values (ps : list Permission) : pyval := VList (map (fun p => VStr (Permission_value p)) ps).
Definition strict_flags : list string :=
  ["network_default_deny"; "require_signed_approval"; "require_typed_goal_criteria";
   "require_strong_sandbox_for_execute"; "require_causal_contract_for_medium_risk";
   "require_timeout_for_medium_risk"; "require_output_schema_for_medium_risk"].
(** The dictionary literal of [generate_policy_config]. *)
Definition policy_config (n : string) (granted : list Permission) (risk : RiskLevel) (tools hosts : list string) :
    dict pyval :=
  [("name", VStr (py_strip n)); ("granted_permissions", permission_values granted);
   ("deny_permissions", permission_values (List.filter (fun p => negb (perm_in p granted)) (enum_all Permission)));
   ("require_human_for", permission_values (List.filter (fun p => perm_in p CONSEQUENTIAL) granted));
   ("max_auto_risk", VStr (RiskLevel_value risk)); ("allowed_tools", VList (map VStr tools))] ++
  map (fun k => (k, VBool true)) strict_flags ++
  match hosts with [] => [] | _ => [("egress_policy", VDict [("allowed_hosts", VList (map VStr hosts))])] end.
Definition value_error (msg : string) : exn := Exn ValueError msg.
Definition generate_policy_config (n : string) (allowed_tools granted_permissions : list string)
    (max_auto_risk : string) (egress_hosts : list string) : D (dict pyval) :=
  if String.eqb (py_strip n) "" then dlift (Raise (value_error "profile name must be non-empty"))
  else
    match permissions_of (map VStr granted_permissions) with
    | Raise e => dlift (Raise (value_error ("unknown permission: " +:+ exn_str e)))
    | Ok granted =>
        match enum_of (A:=RiskLevel) max_auto_risk with
        | Raise _ => dlift (Raise (value_error ("unknown risk level: " +:+ max_auto_risk)))
        | Ok risk =>
            let config := policy_config n granted risk allowed_tools egress_hosts in
            let? issues := validate_policy_config config in
            match issues with
            | [] => dret config
            | _ => dlift (Raise (value_error ("generated config failed validation: " +:+
                                              py_repr_val (VList (map VDict issues)))))
            end
        end
    end.

(** [_split] *)
Fixpoint split_commas (s cur : string) : list string :=
  match s with
  | EmptyString => [cur]
  | String c s' => if Ascii.eqb c "," then cur :: split_commas s' "" else split_commas s' (cur +:+ String c "")
  end.
Definition split_items (raw : string) : list string :=
  List.filter (fun s => negb (String.eqb s "")) (map py_strip (split_commas raw "")).

(** [run_policy_init]: the state is the file system and the terminal's, on which [input_fn] and
    [print_fn] act. *)
Context {G : Type} (input_fn : string -> M G exn string) (print_fn : string -> M G exn unit).
Definition on_fs {A} (m : FM A) : M (FS * G) exn A := fun '(fs, g) => let (r, fs') := m fs in (r, (fs', g)).
Definition on_term {A} (m : M G exn A) : M (FS * G) exn A := fun '(fs, g) => let (r, g') := m g in (r, (fs, g')).
Definition say (s : string) : M (FS * G) exn unit := on_term (print_fn s).
Definition ask (s : string) : M (FS * G) exn string := on_term (input_fn s).
(** A list option, asked for when it is empty. *)
Definition list_option (non_interactive : bool) (given : list string) (prompt : string) : M (FS * G) exn (list string) :=
  match given with
  | [] => if non_interactive then ret [] else let! raw := ask prompt in ret (split_items raw)
  | _ => ret given
  end.
Definition run_policy_init (n : option string) (allow_tools grants : list string) (max_auto_risk : string)
    (egress_hosts : list string) (output : path) (non_interactive : bool) : M (FS * G) exn Z :=
  let! exists_ := gets (fun s => path_exists (fst s) output) in
  if (exists_ : bool) then say ("Error: refusing to overwrite existing file: " +:+ path_str output) ;;; ret 1%Z
  else
    let! n := match n with
              | Some n => ret (Some n)
              | None => if non_interactive then ret None else let! s := ask "Profile name: " in ret (Some s)
              end in
    let! tools := list_option non_interactive allow_tools "Allowed tools (comma-separated, empty = none): " in
    let! permissions := list_option non_interactive grants
      "Granted permissions (comma-separated, empty = none; consequential ones require approval): " in
    let! hosts := list_option non_interactive egress_hosts
      "Allowed egress hosts (comma-separated, empty = deny all): " in
    match n with
    | None => say "Error: --name is required with --non-interactive" ;;; ret 1%Z
    | Some n =>
        match generate_policy_config n tools permissions max_auto_risk hosts with
        | Some (Ok config) =>
            on_fs (mkdir (parent output)) ;;;
            on_fs (write_text output (json_indent json_string_ascii 0 (VDict config) +:+ String LF "")) ;;;
            say ("Wrote deny-by-default policy profile '" +:+ py_str (dget_or "name" VNone config) +:+ "' to " +:+
                 path_str output) ;;;
            say ("Review the file, then validate with: leos validate-policy " +:+ path_str output) ;;;
            ret 0%Z
        | Some (Raise e) =>
            if isinstance e ValueError then say ("Error: " +:+ exn_str e) ;;; ret 1%Z else raise e
        | None => ret 1%Z
        end
    end.
End wizard.

(** * Tool manifests (manifest.py) and their registry (tool_manifest_registry.py).

    The JSON Schema validator is the third-party interface [JsonSchemaValidator] of Tools.v; the schemas it is
    called with are those of the source. *)


(** [[member.value for member in E]] *)
Definition enum_list (A : Type) `{PyEnum A} : pyval := VList (map (fun a => VStr (enum_value a)) (enum_all A)).
Definition TOOL_MANIFEST_SCHEMA : dict pyval :=
  [("type", VStr "object"); ("required", VList [VStr "name"; VStr "version"; VStr "permissions"; VStr "risk";
   VStr "reversibility"; VStr "input_schema"]); ("properties", VDict [("name", VDict [("type", VStr "string");
   ("minLength", VInt 1)]); ("version", VDict [("type", VStr "string"); ("minLength", VInt 1)]); ("permissions",
   VDict [("type", VStr "array"); ("items", VDict [("type", VStr "string"); ("enum", enum_list Permission)])]);
   ("risk", VDict [("type", VStr "string"); ("enum", enum_list RiskLevel)]); ("reversibility", VDict [("type",
   VStr "string"); ("enum", enum_list Reversibility)]); ("input_schema", VDict [("type", VStr "object")]);
   ("output_schema", VDict [("type", VStr "object")]); ("timeout_ms", VDict [("type", VStr "integer");
   ("minimum", VInt 1)]); ("network_access", VDict [("type", VStr "boolean")]); ("egress_host", VDict [("type",
   VList [VStr "string"; VStr "null"])]); ("egress_methods", VDict [("type", VStr "array"); ("items", VDict
   [("type", VStr "string")])]); ("rollback_egress_methods", VDict [("type", VStr "array"); ("items", VDict
   [("type", VStr "string")])]); ("filesystem_scope", VDict [("type", VStr "string")]); ("secrets_allowed",
   VDict [("type", VStr "boolean")]); ("sandbox_policy", VDict [("type", VStr "string"); ("enum", enum_list
   SandboxPolicy)]); ("requires_human_for", VDict [("type", VStr "array"); ("items", VDict [("type", VStr
   "string")])]); ("rollback_reliability", VDict [("type", VStr "number"); ("minimum", VFloat fzero);
   ("maximum", VFloat fone)]); ("compensation_strategy", VDict [("type", VStr "string"); ("enum", enum_list
   CompensationStrategy)])]); ("additionalProperties", VBool false)].
Definition TASK_FILE_SCHEMA : dict pyval :=
  [("type", VStr "object"); ("required", VList [VStr "goal"; VStr "steps"]); ("properties", VDict [("goal",
   VDict [("type", VStr "object"); ("required", VList [VStr "description"; VStr "success_criteria"]);
   ("properties", VDict [("description", VDict [("type", VStr "string")]); ("success_criteria", VDict [("type",
   VStr "array"); ("minItems", VInt 1); ("items", VDict [("type", VStr "string")])]); ("criteria", VDict
   [("type", VStr "array"); ("items", VDict [("type", VStr "object"); ("required", VList [VStr "key"; VStr
   "op"]); ("properties", VDict [("key", VDict [("type", VStr "string"); ("minLength", VInt 1)]); ("op", VDict
   [("type", VStr "string"); ("enum", VList [VStr "equals"; VStr "not_equals"; VStr "in"; VStr "not_in"; VStr
   "exists"; VStr "missing"; VStr "contains"; VStr "greater_than"; VStr "less_than"])]); ("value", VDict []);
   ("source", VDict [("type", VStr "string")]); ("required", VDict [("type", VStr "boolean")])]);
   ("additionalProperties", VBool false)])]); ("constraints", VDict [("type", VStr "array"); ("items", VDict
   [("type", VStr "string")])]); ("stop_conditions", VDict [("type", VStr "array"); ("items", VDict [("type",
   VStr "string")])]); ("priority", VDict [("type", VStr "integer")])]); ("additionalProperties", VBool
   false)]); ("steps", VDict [("type", VStr "array"); ("minItems", VInt 1); ("items", VDict [("type", VStr
   "object"); ("required", VList [VStr "tool_name"; VStr "arguments"; VStr "reason"]); ("properties", VDict
   [("tool_name", VDict [("type", VStr "string")]); ("arguments", VDict [("type", VStr "object")]); ("reason",
   VDict [("type", VStr "string"); ("minLength", VInt 1)]); ("idempotency_key", VDict [("type", VStr
   "string")]); ("preconditions", VDict [("type", VStr "array"); ("items", VDict [("$ref", VStr
   "#/$defs/condition")])]); ("postconditions", VDict [("type", VStr "array"); ("items", VDict [("$ref", VStr
   "#/$defs/condition")])]); ("invariants", VDict [("type", VStr "array"); ("items", VDict [("$ref", VStr
   "#/$defs/condition")])])]); ("additionalProperties", VBool false)])])]); ("$defs", VDict [("condition", VDict
   [("type", VStr "object"); ("required", VList [VStr "variable"]); ("properties", VDict [("variable", VDict
   [("type", VStr "string"); ("minLength", VInt 1)]); ("operator", VDict [("type", VStr "string"); ("enum",
   VList [VStr "exists"; VStr "not_exists"; VStr "equals"]); ("default", VStr "exists")]); ("value", VDict []);
   ("trust_level", VDict [("type", VStr "string"); ("enum", VList [VStr "verified"; VStr "observed"; VStr
   "user_provided"; VStr "tool_reported"; VStr "model_inferred"; VStr "untrusted_external"])])]);
   ("additionalProperties", VBool false)])]); ("additionalProperties", VBool false)].

Record ToolManifest := {
  tm_name : string;
  tm_version : string;
  tm_permissions : list Permission;
  tm_risk : RiskLevel;
  tm_reversibility : Reversibility;
  tm_input_schema : dict pyval;
  tm_output_schema : dict pyval;
  tm_timeout_ms : Z;
  tm_network_access : bool;
  tm_egress_host : option string;
  tm_egress_methods : list string;
  tm_rollback_egress_methods : list string;
  tm_filesystem_scope : string;
  tm_secrets_allowed : bool;
  tm_sandbox_policy : SandboxPolicy;
  tm_requires_human_for : list string;
  tm_rollback_reliability : float;
  tm_compensation_strategy : CompensationStrategy;
}.

Section manifests.
Context `{PyRuntime} `{JsonSchemaValidator}.

Definition validate_task_file (d : dict pyval) : list pyval := validate_json_schema d TASK_FILE_SCHEMA.
Definition validate_tool_manifest (d : dict pyval) : list pyval := validate_json_schema d TOOL_MANIFEST_SCHEMA.
(** The issues as text: "path: message" joined by "; ". *)
Definition issue_text (v : pyval) : string :=
  match v with
  | VDict d => py_str (dget_or "path" VNone d) +:+ ": " +:+ py_str (dget_or "message" VNone d)
  | v => py_str v
  end.
Definition issues_text (issues : list pyval) : string := str_join "; " (map issue_text issues).

(** [tuple(str(v) for v in data.get(k, ()))] *)
Definition str_list_of (k : string) (d : dict pyval) : res exn (list string) :=
  res_map (map py_str) (py_iter (dget_or k (VTuple []) d)).
Definition tool_manifest_from_mapping (d : dict pyval) : res exn ToolManifest :=
  match validate_tool_manifest d with
  | (_ :: _) as issues => Raise (Exn ValueError ("Invalid tool manifest: " +:+ issues_text issues))
  | [] =>
      res_bind (dget_item "name" d) (fun n =>
      res_bind (dget_item "version" d) (fun v =>
      res_bind (dget_item "permissions" d) (fun psv =>
      res_bind (py_iter psv) (fun psl =>
      res_bind (permissions_of psl) (fun ps =>
      res_bind (dget_item "risk" d) (fun rv =>
      res_bind (enum_of (A:=RiskLevel) (py_str rv)) (fun r =>
      res_bind (dget_item "reversibility" d) (fun wv =>
      res_bind (enum_of (A:=Reversibility) (py_str wv)) (fun w =>
      res_bind (dget_item "input_schema" d) (fun iv =>
      res_bind (dict_of iv) (fun i =>
      res_bind (dict_of (dget_or "output_schema" (VDict []) d)) (fun o =>
      res_bind (py_int (dget_or "timeout_ms" (VInt 3000) d)) (fun t =>
      let host := match dget_or "egress_host" VNone d with VNone => None | h => Some (py_str h) end in
      res_bind (str_list_of "egress_methods" d) (fun em =>
      res_bind (str_list_of "rollback_egress_methods" d) (fun rm =>
      res_bind (enum_of (A:=SandboxPolicy) (py_str (dget_or "sandbox_policy" (VStr (SandboxPolicy_value SP_NONE)) d))) (fun sb =>
      res_bind (str_list_of "requires_human_for" d) (fun rh =>
      res_bind (py_float (dget_or "rollback_reliability" (VFloat fone) d)) (fun rr =>
      res_bind (enum_of (A:=CompensationStrategy)
                 (py_str (dget_or "compensation_strategy" (VStr (CompensationStrategy_value CS_NONE)) d))) (fun cs =>
      Ok {| tm_name := py_str n; tm_version := py_str v; tm_permissions := ps; tm_risk := r; tm_reversibility := w;
            tm_input_schema := i; tm_output_schema := o; tm_timeout_ms := t;
            tm_network_access := truthy (dget_or "network_access" (VBool false) d); tm_egress_host := host;
            tm_egress_methods := map py_upper em; tm_rollback_egress_methods := map py_upper rm;
            tm_filesystem_scope := py_str (dget_or "filesystem_scope" (VStr "none") d);
            tm_secrets_allowed := truthy (dget_or "secrets_allowed" (VBool false) d);
            tm_sandbox_policy := sb; tm_requires_human_for := rh; tm_rollback_reliability := rr;
            tm_compensation_strategy := cs |})))))))))))))))))))
  end.
(** [load_tool_manifest_file]; the argument is what [json.loads] makes of the file. *)
Definition load_tool_manifest_file (file : res exn pyval) : res exn ToolManifest :=
  res_bind file (fun v => match v with
    | VDict d => tool_manifest_from_mapping d
    | _ => Raise (Exn ValueError "Tool manifest must be a JSON object")
    end).

(** [ToolSpec.manifest] *)
Definition spec_manifest (s : ToolSpec) : ToolManifest := {|
  tm_name := name s; tm_version := version s; tm_permissions := permissions s; tm_risk := default_risk s;
  tm_reversibility := ts_reversibility s; tm_input_schema := input_schema s; tm_output_schema := output_schema s;
  tm_timeout_ms := timeout_ms s; tm_network_access := network_access s; tm_egress_host := egress_host s;
  tm_egress_methods := egress_methods s; tm_rollback_egress_methods := rollback_egress_methods s;
  tm_filesystem_scope := filesystem_scope s; tm_secrets_allowed := secrets_allowed s;
  tm_sandbox_policy := sandbox_policy s; tm_requires_human_for := requires_human_for s;
  tm_rollback_reliability := ts_rollback_reliability s; tm_compensation_strategy := ts_compensation_strategy s |}.

(** ** The registry *)

Abbreviation ToolManifestRegistry := (dict ToolManifest).
Definition registry_error (msg : string) : exn := Exn ToolManifestRegistryError msg.
Definition str_values (l : list string) : pyval := VList (map VStr l).
(** [_manifest_to_mapping] *)
Definition manifest_to_mapping (m : ToolManifest) : dict pyval :=
  [("name", VStr (tm_name m)); ("version", VStr (tm_version m));
   ("permissions", VList (map (fun p => VStr (Permission_value p)) (tm_permissions m)));
   ("risk", VStr (RiskLevel_value (tm_risk m))); ("reversibility", VStr (Reversibility_value (tm_reversibility m)));
   ("input_schema", VDict (tm_input_schema m)); ("output_schema", VDict (tm_output_schema m));
   ("timeout_ms", VInt (tm_timeout_ms m)); ("network_access", VBool (tm_network_access m));
   ("egress_host", match tm_egress_host m with Some h => VStr h | None => VNone end);
   ("egress_methods", str_values (tm_egress_methods m));
   ("rollback_egress_methods", str_values (tm_rollback_egress_methods m));
   ("filesystem_scope", VStr (tm_filesystem_scope m)); ("secrets_allowed", VBool (tm_secrets_allowed m));
   ("sandbox_policy", VStr (SandboxPolicy_value (tm_sandbox_policy m)));
   ("requires_human_for", str_values (tm_requires_human_for m));
   ("rollback_reliability", VFloat (tm_rollback_reliability m));
   ("compensation_strategy", VStr (CompensationStrategy_value (tm_compensation_strategy m)))].
Definition normalize_manifest (m : ToolManifest) : res exn ToolManifest :=
  let d := manifest_to_mapping m in
  match validate_tool_manifest d with
  | (_ :: _) as issues => Raise (registry_error ("Invalid tool manifest: " +:+ issues_text issues))
  | [] => match tool_manifest_from_mapping d with
          | Ok m' => Ok m'
          | Raise e => Raise (registry_error ("Invalid tool manifest: " +:+ exn_name (exn_cls e)))
          end
  end.
(** [_validate_manifest_semantics]; the schemas are dictionaries by type. *)
Definition validate_manifest_semantics (m : ToolManifest) : res exn unit :=
  if String.eqb (tm_name m) "" then Raise (registry_error "Manifest name must be non-empty")
  else if bool_decide (tm_reversibility m = IRREVERSIBLE) && bool_decide (tm_compensation_strategy m = CS_UNDO)
  then Raise (registry_error "Irreversible tools cannot use undo compensation")
  else Ok tt.
Definition register_manifest (m : ToolManifest) (r : ToolManifestRegistry) : res exn ToolManifestRegistry :=
  res_bind (normalize_manifest m) (fun n =>
  if dmem (tm_name n) r then Raise (registry_error ("Tool manifest already registered: " +:+ tm_name n))
  else res_map (fun _ => dset (tm_name n) n r) (validate_manifest_semantics n)).
Definition not_registered (n : string) : exn := registry_error ("Tool manifest not registered: " +:+ n).
Definition unregister_manifest (n : string) (r : ToolManifestRegistry) : res exn ToolManifestRegistry :=
  if dmem n r then Ok (ddel n r) else Raise (not_registered n).
Definition get_manifest (n : string) (r : ToolManifestRegistry) : res exn ToolManifest :=
  match dget n r with Some m => Ok m | None => Raise (not_registered n) end.
Definition manifest_names (r : ToolManifestRegistry) : list string := py_sorted (dkeys r).
Definition validate_against_tool (r : ToolManifestRegistry) (s : ToolSpec) : res exn unit :=
  res_bind (get_manifest (name s) r) (fun m =>
  let refuse why := Raise (registry_error why) in
  if negb (String.eqb (tm_name m) (name s)) then refuse "Manifest name does not match tool spec"
  else if negb (bool_decide (tm_permissions m = permissions s)) then refuse "Manifest permissions do not match tool spec"
  else if (risk_value (tm_risk m) <? risk_value (default_risk s))%Z then refuse "Manifest risk is lower than tool spec risk"
  else if negb (bool_decide (tm_risk m = default_risk s)) then refuse "Manifest risk does not match tool spec"
  else if tm_secrets_allowed m && negb (secrets_allowed s) then refuse "Manifest allows secrets but tool spec does not"
  else if negb (Bool.eqb (tm_secrets_allowed m) (secrets_allowed s))
  then refuse "Manifest secrets_allowed does not match tool spec"
  else if py_neq (VDict (tm_input_schema m)) (VDict (input_schema s)) then refuse "Manifest input_schema does not match tool spec"
  else if py_neq (VDict (tm_output_schema m)) (VDict (output_schema s)) then refuse "Manifest output_schema does not match tool spec"
  else Ok tt).

(** [load_directory]: the files in the order of their names, with what [json.loads] makes of their text; what was
    registered before a failure stays. *)
Definition load_one (file : res exn pyval) (r : ToolManifestRegistry) : res exn ToolManifestRegistry :=
  res_bind file (fun v => match v with
    | VDict d => res_bind (tool_manifest_from_mapping d) (fun m => register_manifest m r)
    | _ => Raise (registry_error "manifest must be a JSON object")
    end).
Fixpoint load_directory (files : list (string * res exn pyval)) : M ToolManifestRegistry exn unit := fun r =>
  match files with
  | [] => (Ok tt, r)
  | (file_name, file) :: files' =>
      match load_one file r with
      | Ok r' => load_directory files' r'
      | Raise e =>
          let reason := if isinstance e ToolManifestRegistryError then exn_str e else exn_name (exn_cls e) in
          (Raise (registry_error (file_name +:+ ": " +:+ reason)), r)
      end
  end.
(** The specification of a manifest, before [ToolSpec.__post_init__]. *)
Definition manifest_spec (m : ToolManifest) : res exn ToolSpec :=
  ToolSpec_check {|
    name := tm_name m; ts_description := "Manifest-declared tool: " +:+ tm_name m; permissions := tm_permissions m;
    default_risk := tm_risk m; reversible := false; ts_reversibility := tm_reversibility m;
    ts_rollback_reliability := tm_rollback_reliability m; ts_compensation_strategy := tm_compensation_strategy m;
    version := tm_version m; input_schema := tm_input_schema m; output_schema := tm_output_schema m;
    timeout_ms := tm_timeout_ms m; network_access := tm_network_access m; egress_host := tm_egress_host m;
    egress_methods := tm_egress_methods m; rollback_egress_methods := tm_rollback_egress_methods m;
    filesystem_scope := tm_filesystem_scope m; secrets_allowed := tm_secrets_allowed m;
    sandbox_policy := tm_sandbox_policy m; requires_human_for := tm_requires_human_for m; causal_contract := None |}
    (Some (tm_reversibility m)).
Fixpoint to_tool_specs (r : ToolManifestRegistry) : res exn (dict ToolSpec) :=
  match r with
  | [] => Ok []
  | (n, m) :: r' => res_bind (manifest_spec m) (fun s => res_map (cons (n, s)) (to_tool_specs r'))
  end.
End manifests.
