(* ===== verification/Approval.v ===== *)
(** Approval packets, decisions and the step hash that binds them (approval.py), and manual recovery packets
    (recovery.py). *)
From S2P Require Import Prelude Enums PyValue PyText Sanitization Goals Plans Tools AuditTrail.


Inductive ApprovalDecisionValue : Type := AD_APPROVE | AD_DENY | AD_DRY_RUN_ONLY | AD_NARROW_SCOPE.
Definition ApprovalDecisionValue_value (d : ApprovalDecisionValue) : string :=
  match d with
  | AD_APPROVE => "approve" | AD_DENY => "deny" | AD_DRY_RUN_ONLY => "dry_run_only"
  | AD_NARROW_SCOPE => "narrow_scope"
  end.
#[export] Instance ApprovalDecisionValue_eq_dec : EqDecision ApprovalDecisionValue.
Proof. solve_decision. Defined.
#[export] Program Instance ApprovalDecisionValue_enum : PyEnum ApprovalDecisionValue := {|
  enum_name := "ApprovalDecisionValue"; enum_value := ApprovalDecisionValue_value;
  enum_all := [AD_APPROVE; AD_DENY; AD_DRY_RUN_ONLY; AD_NARROW_SCOPE] |}.
Next Obligation. solve_enum_complete. Qed.
Next Obligation. solve_enum_inj. Qed.

Record ApprovalPacket := {
  ap_approval_id : string;
  ap_goal_id : string;
  ap_plan_id : string;
  ap_step_id : string;
  ap_step_hash : string;
  ap_tool_name : string;
  ap_action_summary : string;
  ap_risk_level : string;
  ap_required_permissions : list string;
  ap_causal_contract_summary : string;
  ap_dry_run_summary : string;
  ap_rollback_summary : string;
  ap_diff_summary : option string;
  ap_alternatives : list string;
  ap_created_at : float;
  ap_expires_at : option float;
  ap_requester : option string;
  ap_profile : string;
  ap_repo : option string;
  ap_branch : option string;
  ap_file_paths : list string;
  ap_expected_sha : option string;
  ap_expected_previous : option string;
  ap_egress_host : option string;
  ap_egress_methods : list string;
  ap_cleanup_description : option string;
}.

Definition str_list (l : list string) : pyval := VList (map VStr l).
Definition opt_float_val (o : option float) : pyval := match o with Some f => VFloat f | None => VNone end.

(** [ApprovalPacket.as_dict] *)
Definition packet_as_dict (p : ApprovalPacket) : dict pyval :=
  [("approval_id", VStr (ap_approval_id p)); ("goal_id", VStr (ap_goal_id p));
   ("plan_id", VStr (ap_plan_id p)); ("step_id", VStr (ap_step_id p));
   ("step_hash", VStr (ap_step_hash p)); ("tool_name", VStr (ap_tool_name p));
   ("action_summary", VStr (ap_action_summary p)); ("risk_level", VStr (ap_risk_level p));
   ("required_permissions", str_list (ap_required_permissions p));
   ("causal_contract_summary", VStr (ap_causal_contract_summary p));
   ("dry_run_summary", VStr (ap_dry_run_summary p)); ("rollback_summary", VStr (ap_rollback_summary p));
   ("diff_summary", opt_str_val (ap_diff_summary p)); ("alternatives", str_list (ap_alternatives p));
   ("created_at", VFloat (ap_created_at p)); ("expires_at", opt_float_val (ap_expires_at p));
   ("requester", opt_str_val (ap_requester p)); ("profile", VStr (ap_profile p));
   ("repo", opt_str_val (ap_repo p)); ("branch", opt_str_val (ap_branch p));
   ("file_paths", str_list (ap_file_paths p)); ("expected_sha", opt_str_val (ap_expected_sha p));
   ("expected_previous", opt_str_val (ap_expected_previous p));
   ("egress_host", opt_str_val (ap_egress_host p)); ("egress_methods", str_list (ap_egress_methods p));
   ("cleanup_description", opt_str_val (ap_cleanup_description p))].

Record ApprovalDecision := {
  ad_approval_id : string;
  ad_step_hash : string;
  ad_decision : ApprovalDecisionValue;
  ad_decided_at : float;
  ad_approver : option string;
  ad_reason : option string;
}.
(** [ApprovalDecision.as_dict] *)
Definition decision_as_dict (d : ApprovalDecision) : dict pyval :=
  [("approval_id", VStr (ad_approval_id d)); ("step_hash", VStr (ad_step_hash d));
   ("decision", VStr (ApprovalDecisionValue_value (ad_decision d))); ("decided_at", VFloat (ad_decided_at d));
   ("approver", opt_str_val (ad_approver d)); ("reason", opt_str_val (ad_reason d))].

Section approval.
Context `{PyRuntime}.

(** [str(d.get(k, default))] *)
Definition str_get (k dflt : string) (d : dict pyval) : string := py_str (default (VStr dflt) (dget k d)).
(** [str(d[k])] *)
Definition str_item (k : string) (d : dict pyval) : res exn string := res_map py_str (dget_item k d).
(** [[str(value) for value in d.get(k, ())]] *)
Definition strs_get (k : string) (d : dict pyval) : res exn (list string) :=
  res_map (map py_str) (py_iter (default (VTuple []) (dget k d))).
(** [float(d[k]) if d.get(k) is not None else None] *)
Definition opt_float_get (k : string) (d : dict pyval) : res exn (option float) :=
  match dget k d with None | Some VNone => Ok None | Some v => res_map Some (py_float v) end.

(** [ApprovalPacket.from_mapping]; [now] is the value of the [time.time()] call
    that is the default of created_at. *)
Definition packet_from_mapping (now : float) (d : dict pyval) : res exn ApprovalPacket :=
  res_bind (str_item "approval_id" d) (fun approval_id =>
  res_bind (str_item "goal_id" d) (fun goal_id =>
  res_bind (str_item "plan_id" d) (fun plan_id =>
  res_bind (str_item "step_id" d) (fun step_id =>
  res_bind (str_item "step_hash" d) (fun step_hash =>
  res_bind (str_item "tool_name" d) (fun tool_name =>
  res_bind (strs_get "required_permissions" d) (fun perms =>
  res_bind (strs_get "alternatives" d) (fun alternatives =>
  res_bind (py_float (default (VFloat now) (dget "created_at" d))) (fun created_at =>
  res_bind (opt_float_get "expires_at" d) (fun expires_at =>
  res_bind (strs_get "file_paths" d) (fun file_paths =>
  res_bind (strs_get "egress_methods" d) (fun egress_methods =>
  Ok {| ap_approval_id := approval_id; ap_goal_id := goal_id; ap_plan_id := plan_id; ap_step_id := step_id;
        ap_step_hash := step_hash; ap_tool_name := tool_name;
        ap_action_summary := str_get "action_summary" "" d; ap_risk_level := str_get "risk_level" "unknown" d;
        ap_required_permissions := perms;
        ap_causal_contract_summary := str_get "causal_contract_summary" "" d;
        ap_dry_run_summary := str_get "dry_run_summary" "" d;
        ap_rollback_summary := str_get "rollback_summary" "" d; ap_diff_summary := opt_str "diff_summary" d;
        ap_alternatives := alternatives; ap_created_at := created_at; ap_expires_at := expires_at;
        ap_requester := opt_str "requester" d; ap_profile := str_get "profile" "custom" d;
        ap_repo := opt_str "repo" d; ap_branch := opt_str "branch" d; ap_file_paths := file_paths;
        ap_expected_sha := opt_str "expected_sha" d; ap_expected_previous := opt_str "expected_previous" d;
        ap_egress_host := opt_str "egress_host" d; ap_egress_methods := egress_methods;
        ap_cleanup_description := opt_str "cleanup_description" d |})))))))))))).

(** ** The step hash *)

Definition requirement_val (r : ObservationFieldRequirement) : pyval :=
  VRecord "ObservationFieldRequirement"
    [("observation", VStr (ofr_observation r)); ("path", VTuple (map VStr (ofr_path r)));
     ("operator", VStr (ofr_operator r)); ("value", ofr_value r);
     ("argument_key", opt_str_val (ofr_argument_key r))].
Definition str_tuple (l : list string) : pyval := VTuple (map VStr l).
(** A causal contract as the dataclass instance the sanitizer walks through. *)
Definition contract_val (c : CausalContract) : pyval :=
  VRecord "CausalContract"
    [("tool_name", VStr (cc_tool_name c)); ("sets", str_tuple (cc_sets c));
     ("changes", str_tuple (cc_changes c)); ("preserves", str_tuple (cc_preserves c));
     ("may_change", str_tuple (cc_may_change c)); ("side_effects", str_tuple (cc_side_effects c));
     ("rollback_effects", str_tuple (cc_rollback_effects c));
     ("required_observations", str_tuple (cc_required_observations c));
     ("required_fields", VTuple (map requirement_val (cc_required_fields c)));
     ("without_action", VDict (cc_without_action c)); ("risk_notes", str_tuple (cc_risk_notes c));
     ("confidence", VFloat (cc_confidence c))].

Definition step_hash_payload (goal_id plan_id : string) (step : ActionStep) (ts : ToolSpec) : pyval :=
  VDict [("goal_id", VStr goal_id); ("plan_id", VStr plan_id); ("step_id", VStr (step_id step));
         ("tool_name", VStr (tool_name step)); ("arguments", VDict (arguments step));
         ("required_permissions", str_list (map Permission_value (required_permissions step)));
         ("risk", VStr (RiskLevel_value (risk step)));
         ("causal_contract",
            match causal_contract ts with Some c => VStr (safe_json_dumps (contract_val c)) | None => VNone end)].
Definition build_step_hash (goal_id plan_id : string) (step : ActionStep) (ts : ToolSpec) : string :=
  sha256_hex (safe_json_dumps (step_hash_payload goal_id plan_id step ts)).

(** ** Building a packet *)

(** [str(step.arguments[k]) if step.arguments.get(k) is not None else None] *)
Definition opt_arg (k : string) (step : ActionStep) : option string := opt_str k (arguments step).
Definition approval_branch (step : ActionStep) : option string :=
  match opt_arg "branch" step with
  | Some b => Some b
  | None => match opt_arg "head" step with Some h => Some h | None => opt_arg "base" step end
  end.
Definition rollback_summary_of (step : ActionStep) : string :=
  Reversibility_value (reversibility step) +:+ "; compensation=" +:+
  CompensationStrategy_value (compensation_strategy step) +:+
  "; rollback_reliability=" +:+ float_fmt2 (rollback_reliability step).

Context {St : Type} `{HasSys St}.

(** The default of [expires_in_seconds]. *)
Definition DEFAULT_EXPIRY : float := f_of_Z 300.
(** [build_approval_packet] *)
Definition build_approval_packet (plan : TransactionPlan) (step : ActionStep) (ts : ToolSpec)
    (dry_run_summary profile : string) (requester : option string) (expires_in : float) : M St exn ApprovalPacket :=
  let! approval_id := uuid4 in
  let! expires := (if fltb fzero expires_in then let! t := time_time in ret (Some (fadd t expires_in)) else ret None) in
  let! created := time_time in
  ret {| ap_approval_id := approval_id; ap_goal_id := goal_id (p_goal plan); ap_plan_id := plan_id plan;
         ap_step_id := step_id step;
         ap_step_hash := build_step_hash (goal_id (p_goal plan)) (plan_id plan) step ts;
         ap_tool_name := tool_name step; ap_action_summary := tool_name step +:+ ": " +:+ reason step;
         ap_risk_level := RiskLevel_value (risk step);
         ap_required_permissions := py_sorted (map Permission_value (required_permissions step));
         ap_causal_contract_summary :=
           match causal_contract ts with Some _ => "CausalContract" | None => "none" end;
         ap_dry_run_summary := dry_run_summary; ap_rollback_summary := rollback_summary_of step;
         ap_diff_summary := None;
         ap_alternatives := ["deny and leave state unchanged"; "request a lower-risk or narrower step"];
         ap_created_at := created; ap_expires_at := expires;
         ap_requester := requester; ap_profile := profile; ap_repo := opt_arg "repo" step;
         ap_branch := approval_branch step;
         ap_file_paths := match opt_arg "path" step with Some p => [p] | None => [] end;
         ap_expected_sha := opt_arg "expected_sha" step; ap_expected_previous := opt_arg "expected_previous" step;
         ap_egress_host := egress_host ts; ap_egress_methods := egress_methods ts;
         ap_cleanup_description := Some (rollback_summary_of step) |}.

(** ** Validation *)

(** The checks on the decision value. *)
Definition decision_value_issue (d : ApprovalDecisionValue) : option string :=
  match d with
  | AD_DRY_RUN_ONLY => Some "approval decision is dry_run_only"
  | AD_NARROW_SCOPE => Some "approval decision requires narrowed scope"
  | AD_DENY => Some ("approval decision is " +:+ ApprovalDecisionValue_value AD_DENY)
  | AD_APPROVE => None
  end.
(** [validate_approval_decision] without [now]: the clock is read only when the
    packet expires and the earlier checks pass. *)
Definition validate_approval_decision (p : ApprovalPacket) (d : ApprovalDecision)
    (current_step_hash profile : string) : M St exn (option string) :=
  if negb (String.eqb (ad_approval_id d) (ap_approval_id p)) then ret (Some "approval_id mismatch")
  else if negb (String.eqb (ad_step_hash d) (ap_step_hash p)) || negb (String.eqb (ad_step_hash d) current_step_hash)
  then ret (Some "step_hash mismatch")
  else if negb (String.eqb (ap_profile p) profile) then ret (Some "profile mismatch")
  else
    let! expired := match ap_expires_at p with
                    | None => ret false
                    | Some t => let! now := time_time in ret (fltb t now)
                    end in
    if (expired : bool) then ret (Some "approval expired") else ret (decision_value_issue (ad_decision d)).

(** An approval that is valid for a step hash and a profile at time [now]. *)
Record approval_valid (p : ApprovalPacket) (d : ApprovalDecision) (h profile : string) (now : float) : Prop := {
  av_id : ad_approval_id d = ap_approval_id p;
  av_hash : ad_step_hash d = ap_step_hash p;
  av_current : ad_step_hash d = h;
  av_profile : ap_profile p = profile;
  av_expiry : match ap_expires_at p with Some t => fltb t now = false | None => True end;
  av_decision : ad_decision d = AD_APPROVE;
}.

Lemma validate_valid p d h profile s :
  fst (validate_approval_decision p d h profile s) = Ok None <->
  approval_valid p d h profile (time_at (n_time (sys_of s))).
Proof.
  unfold validate_approval_decision.
  destruct (String.eqb_spec (ad_approval_id d) (ap_approval_id p)); simpl;
    [|split; [done|by intros []]].
  destruct (String.eqb_spec (ad_step_hash d) (ap_step_hash p)); simpl; [|split; [done|by intros []]].
  destruct (String.eqb_spec (ad_step_hash d) h); simpl; [|split; [done|by intros []]].
  destruct (String.eqb_spec (ap_profile p) profile); simpl; [|split; [done|by intros []]].
  assert (Hd : Ok (E:=exn) (decision_value_issue (ad_decision d)) = Ok None <-> ad_decision d = AD_APPROVE)
    by (destruct (ad_decision d); simpl; split; done).
  destruct (ap_expires_at p) as [t|] eqn:Et; simpl.
  - unfold bind, time_time. simpl. destruct (fltb t (time_at (n_time (sys_of s)))) eqn:El; simpl.
    + split; [done|]. intros [_ _ _ _ He _]. rewrite Et in He. congruence.
    + rewrite Hd. split; [|by intros []]. intros. split; try done. by rewrite Et.
  - rewrite Hd. split; [|by intros []]. intros. split; try done. by rewrite Et.
Qed.
Lemma validate_ok p d h profile s : exists o, fst (validate_approval_decision p d h profile s) = Ok o.
Proof.
  unfold validate_approval_decision. repeat case_match; simpl; eauto.
  unfold bind, time_time. simpl. case_match; simpl; eauto.
Qed.
Lemma build_packet_keeps plan step ts sum pr who ex :
  keeps log_extends (build_approval_packet plan step ts sum pr who ex).
Proof. unfold build_approval_packet. keeps_auto. Qed.
Lemma validate_keeps p d h profile : keeps log_extends (validate_approval_decision p d h profile).
Proof. unfold validate_approval_decision. keeps_auto. Qed.

(** ** Rendering *)

Definition packet_fields : list string :=
  ["approval_id"; "goal_id"; "plan_id"; "step_id"; "step_hash"; "tool_name"; "action_summary"; "risk_level";
   "required_permissions"; "causal_contract_summary"; "dry_run_summary"; "rollback_summary"; "diff_summary";
   "alternatives"; "requester"; "profile"; "created_at"; "expires_at"; "repo"; "branch"; "file_paths";
   "expected_sha"; "expected_previous"; "egress_host"; "egress_methods"; "cleanup_description"].
Definition newline : string := String (ascii_of_nat 10) "".
Definition render_fields (title : string) (keys : list string) (d : dict pyval) : string :=
  str_join newline (["# " +:+ title; ""] ++
    map (fun key => "- **" +:+ key +:+ "**: " +:+ py_str (default VNone (dget key d))) keys) +:+ newline.
Definition render_approval_packet_markdown (p : ApprovalPacket) : string :=
  render_fields "Approval Packet" packet_fields (packet_as_dict p).
Definition html_page (body : string) : string :=
  "<!doctype html><html><body><pre>" +:+ html_escape body +:+ "</pre></body></html>".
Definition render_approval_packet_html (p : ApprovalPacket) : string :=
  html_page (render_approval_packet_markdown p).

(** ** A packet read back from its dictionary *)

Lemma packet_strs l : map py_str (map VStr l) = l.
Proof. induction l as [|x l IH]; simpl; [done|by rewrite IH]. Qed.
Lemma opt_str_val_get o : match opt_str_val o with VNone => None | v => Some (py_str v) end = o.
Proof. by destruct o. Qed.
Lemma packet_roundtrip now p : packet_from_mapping now (packet_as_dict p) = Ok p.
Proof.
  destruct p; unfold packet_from_mapping, packet_as_dict, str_item, strs_get, opt_float_get, opt_str, str_get;
    simpl; rewrite ?packet_strs.
  repeat match goal with x : option _ |- _ => destruct x end; reflexivity.
Qed.
End approval.
#[export] Hint Resolve build_packet_keeps validate_keeps : keeps.

(** * Manual recovery packets (recovery.py). *)


Record ManualRecoveryPacket := {
  mr_recovery_id : string;
  mr_goal_id : option string;
  mr_plan_id : option string;
  mr_step_id : string;
  mr_tool_name : string;
  mr_reason : string;
  mr_risk_level : string;
  mr_suggested_actions : list string;
  mr_rollback_summary : string;
  mr_affected_resources : list string;
  mr_created_at : float;
  mr_profile : string;
  mr_token_redacted : bool;
}.

Section recovery.
Context `{PyRuntime}.

(** The mapping [as_dict] redacts. *)
Definition recovery_fields (p : ManualRecoveryPacket) : dict pyval :=
  [("recovery_id", VStr (mr_recovery_id p)); ("goal_id", opt_str_val (mr_goal_id p));
   ("plan_id", opt_str_val (mr_plan_id p)); ("step_id", VStr (mr_step_id p));
   ("tool_name", VStr (mr_tool_name p)); ("reason", VStr (mr_reason p));
   ("risk_level", VStr (mr_risk_level p)); ("suggested_actions", str_list (mr_suggested_actions p));
   ("rollback_summary", VStr (mr_rollback_summary p));
   ("affected_resources", str_list (mr_affected_resources p)); ("created_at", VFloat (mr_created_at p));
   ("profile", VStr (mr_profile p)); ("token_redacted", VBool (mr_token_redacted p))].
(** [ManualRecoveryPacket.as_dict] *)
Definition recovery_as_dict (p : ManualRecoveryPacket) : pyval := redact_secrets (VDict (recovery_fields p)).

(** [ManualRecoveryPacket.from_mapping] *)
Definition recovery_from_mapping (now : float) (d : dict pyval) : res exn ManualRecoveryPacket :=
  res_bind (str_item "recovery_id" d) (fun rid =>
  res_bind (str_item "step_id" d) (fun sid =>
  res_bind (str_item "tool_name" d) (fun tool =>
  res_bind (str_item "reason" d) (fun why =>
  res_bind (strs_get "suggested_actions" d) (fun actions =>
  res_bind (strs_get "affected_resources" d) (fun resources =>
  res_bind (py_float (default (VFloat now) (dget "created_at" d))) (fun created =>
  Ok {| mr_recovery_id := rid; mr_goal_id := opt_str "goal_id" d; mr_plan_id := opt_str "plan_id" d;
        mr_step_id := sid; mr_tool_name := tool; mr_reason := why;
        mr_risk_level := str_get "risk_level" "unknown" d; mr_suggested_actions := actions;
        mr_rollback_summary := str_get "rollback_summary" "" d; mr_affected_resources := resources;
        mr_created_at := created; mr_profile := str_get "profile" "custom" d;
        mr_token_redacted := truthy (default (VBool true) (dget "token_redacted" d)) |}))))))).

Definition default_actions : list string :=
  ["Inspect the affected resource manually."; "Apply the compensating action outside the agent if safe.";
   "Record the final recovery state in the audit trail."].

Context {St : Type} `{HasSys St}.

(** [ManualRecoveryPacket.build], with the default suggested actions. *)
Definition recovery_build (goal_id plan_id : option string) (step_id tool_name why risk_level profile
    rollback_summary : string) (affected_resources : list string) : M St exn ManualRecoveryPacket :=
  let! rid := uuid4 in
  let! now := time_time in
  ret {| mr_recovery_id := rid; mr_goal_id := goal_id; mr_plan_id := plan_id; mr_step_id := step_id;
         mr_tool_name := tool_name; mr_reason := why; mr_risk_level := risk_level;
         mr_suggested_actions := default_actions; mr_rollback_summary := rollback_summary;
         mr_affected_resources := affected_resources; mr_created_at := now; mr_profile := profile;
         mr_token_redacted := true |}.
Lemma recovery_build_keeps g p s t w r pr rs af : keeps log_extends (recovery_build g p s t w r pr rs af).
Proof. unfold recovery_build. keeps_auto. Qed.

Definition recovery_keys : list string :=
  ["recovery_id"; "goal_id"; "plan_id"; "step_id"; "tool_name"; "reason"; "risk_level"; "rollback_summary";
   "affected_resources"; "suggested_actions"; "profile"; "created_at"; "token_redacted"].
(** [render_markdown] and [render_html] *)
Definition recovery_render_markdown (p : ManualRecoveryPacket) : string :=
  render_fields "Manual Recovery Packet" recovery_keys
    match recovery_as_dict p with VDict d => d | _ => [] end.
Definition recovery_render_html (p : ManualRecoveryPacket) : string := html_page (recovery_render_markdown p).

Lemma recovery_roundtrip now p : recovery_from_mapping now (recovery_fields p) = Ok p.
Proof.
  destruct p; unfold recovery_from_mapping, recovery_fields, str_item, strs_get, opt_str, str_get;
    simpl; rewrite ?packet_strs.
  repeat match goal with x : option _ |- _ => destruct x end; reflexivity.
Qed.
(** The packet handed to the audit log and to operators is plain JSON. *)
Lemma recovery_as_dict_json p : is_json (recovery_as_dict p) = true.
Proof.
  unfold recovery_as_dict, redact_secrets. destruct (sanitize_for_boundary _ _ _) eqn:E; [|done].
  by eapply sanitize_is_json.
Qed.
End recovery.
#[export] Hint Resolve recovery_build_keeps : keeps.
