(* ===== verification/Gates.v ===== *)
(** Approval gates: the base class of policy.py, the file exchange of
    approval_exchange.py and the prepared-packet gate of github_operator.py.

    A gate is the interface [ApprovalGate]: its methods act on the gate's own
    state [G] (its attributes and the files it reads and writes) and on the
    clock, whose next oracle index is the second component of the state.  A
    JSON file is represented by the value [json.loads] returns for its text. *)
From S2P Require Import Prelude Enums PyValue Sanitization Goals Plans Tools AuditTrail Egress Policy Approval.

Definition GM (G A : Type) : Type := M (G * nat) exn A.

Record ApprovalGate (G : Type) := {
  signed_approval_enforced : G -> bool;
  last_decision_signature_valid : G -> bool;
  last_decision_signature_algorithm : G -> option string;
  prepare_packet : ApprovalPacket -> ActionStep -> GM G ApprovalPacket;
  request_packet : ApprovalPacket -> ActionStep -> GM G ApprovalDecision;
  consume_approval : ApprovalPacket -> ApprovalDecision -> ActionStep -> GM G (option string);
}.
Arguments signed_approval_enforced {G} _.
Arguments last_decision_signature_valid {G} _.
Arguments last_decision_signature_algorithm {G} _.
Arguments prepare_packet {G} _ _ _.
Arguments request_packet {G} _ _ _.
Arguments consume_approval {G} _ _ _ _.

Section gates.
Context `{PyRuntime}.

Definition gate_time {G} : GM G float := fun '(g, n) => (Ok (time_at n), (g, S n)).
Definition gate_get {G} : GM G G := fun '(g, n) => (Ok g, (g, n)).
Definition gate_put {G} (g : G) : GM G unit := fun '(_, n) => (Ok tt, (g, n)).

(** [ApprovalDecision(id, hash, value, approver=..., reason=...)]: decided_at is the current time. *)
Definition new_decision {G} (p : ApprovalPacket) (v : ApprovalDecisionValue) (approver why : option string) :
    GM G ApprovalDecision :=
  let! now := gate_time in
  ret {| ad_approval_id := ap_approval_id p; ad_step_hash := ap_step_hash p; ad_decision := v;
         ad_decided_at := now; ad_approver := approver; ad_reason := why |}.

(** ** The base class (policy.py) *)

(** [ApprovalGate.request]: without an approver callback every step is denied. *)
Definition gate_request {G} (approver : option (ActionStep -> GM G bool)) (step : ActionStep) : GM G Decision :=
  match approver with
  | None => ret DENIED
  | Some f => let! b := f step in ret (if (b : bool) then APPROVED else DENIED)
  end.
Definition base_gate {G} (approver : option (ActionStep -> GM G bool)) : ApprovalGate G := {|
  signed_approval_enforced := fun _ => false;
  last_decision_signature_valid := fun _ => false;
  last_decision_signature_algorithm := fun _ => None;
  prepare_packet := fun packet _ => ret packet;
  request_packet := fun packet step =>
    let! d := gate_request approver step in
    new_decision packet (if decide (d = APPROVED) then AD_APPROVE else AD_DENY) None None;
  consume_approval := fun _ _ _ => ret None |}.

(** ** Signatures (approval_exchange.py) *)

Definition decision_signature_payload (d : ApprovalDecision) : string :=
  json_dumps "," ":" json_string_ascii (redact_secrets (VDict (decision_as_dict d))).
Definition sign_approval_decision (d : ApprovalDecision) (secret : string) : string :=
  "hmac-sha256:" +:+ hmac_sha256_hex secret (decision_signature_payload d).
Fixpoint is_ascii (s : string) : bool :=
  match s with EmptyString => true | String c s' => (nat_of_ascii c <? 128)%nat && is_ascii s' end.
(** [verify_approval_decision_signature]: [hmac.compare_digest] rejects a
    non-ASCII [str] with TypeError. *)
Definition verify_approval_decision_signature (d : ApprovalDecision) (secret signature : string) : res exn bool :=
  if is_ascii signature then Ok (String.eqb (sign_approval_decision d secret) signature)
  else Raise (Exn TypeError "comparing strings with non-ASCII characters is not supported").

(** [_decision_from_mapping] *)
Definition decision_from_mapping {G} (data : dict pyval) : GM G ApprovalDecision :=
  let! now := gate_time in
  let decided_at := default (VFloat now) (dget "decided_at" data) in
  let! aid := of_res (str_item "approval_id" data) in
  let! h := of_res (str_item "step_hash" data) in
  let! dv := of_res (str_item "decision" data) in
  let! d := of_res (enum_of (A:=ApprovalDecisionValue) dv) in
  let! at_ := match decided_at with
              | VStr _ | VEnum _ _ _ | VInt _ | VBool _ | VFloat _ => of_res (py_float decided_at)
              | _ => gate_time
              end in
  ret {| ad_approval_id := aid; ad_step_hash := h; ad_decision := d; ad_decided_at := at_;
         ad_approver := opt_str "approver" data; ad_reason := opt_str "reason" data |}.

(** ** The file exchange *)

(** A decision file: its mode bits ([None] when [stat] raises OSError) and what
    [json.loads(path.read_text())] gives. *)
Record decision_file := { df_mode : option Z; df_json : res exn pyval }.

Record FileGateConfig := {
  fc_allowed_approvers : option (list string);
  fc_require_private_decision_files : bool;
  fc_signature_secret : option string;
  fc_require_signature : bool;
}.
Record FileGate := {
  fg_packet_dir : dict pyval;
  fg_decision_dir : dict decision_file;
  fg_consumed : list string;
  fg_last_valid : bool;
  fg_last_algorithm : option string;
}.

Definition id_char (c : ascii) : bool := is_alnum c || Ascii.eqb c "-" || Ascii.eqb c "_".
Fixpoint filter_chars (f : ascii -> bool) (s : string) : string :=
  match s with
  | EmptyString => EmptyString
  | String c s' => if f c then String c (filter_chars f s') else filter_chars f s'
  end.
(** [_safe_approval_id]; [_safe_identifier] of github_operator.py is the same test. *)
Definition safe_approval_id (approval_id : string) : res exn string :=
  let safe := filter_chars id_char approval_id in
  if String.eqb safe "" || negb (String.eqb safe approval_id)
  then Raise (Exn ValueError "approval_id contains unsafe path characters")
  else Ok safe.

(** [_read_json] *)
Definition read_json (f : decision_file) : res exn (dict pyval) :=
  res_bind (df_json f) (fun v =>
  match v with
  | VDict d => Ok d
  | _ => Raise (Exn ValueError "approval exchange file must contain a JSON object")
  end).

(** [_decision_file_permission_issue], on a POSIX system. *)
Definition decision_file_permission_issue (c : FileGateConfig) (f : decision_file) : option string :=
  if negb (fc_require_private_decision_files c) then None
  else match df_mode f with
       | None => Some "decision file permission check failed"
       | Some m => if negb (Z.land m 63 =? 0)%Z then Some "decision file permissions too broad" else None
       end.
(** [_approver_allowlist_issue] *)
Definition approver_allowlist_issue (c : FileGateConfig) (d : ApprovalDecision) : option string :=
  match fc_allowed_approvers c with
  | None => None
  | Some allowed =>
      match ad_approver d with
      | None => Some "approver required"
      | Some a => if negb (str_mem a allowed) then Some "approver not allowed" else None
      end
  end.
(** [_signature_issue] *)
Definition signature_issue (c : FileGateConfig) (d : ApprovalDecision) (data : dict pyval) :
    res exn (option string) :=
  if negb (fc_require_signature c) then Ok None
  else
    let secret := default "" (fc_signature_secret c) in
    if String.eqb secret "" then Ok (Some "approval decision signature required")
    else match dget "signature" data with
         | Some (VStr signature) | Some (VEnum _ _ signature) =>
             if String.eqb signature "" then Ok (Some "approval decision signature required")
             else res_map (fun b : bool => if b then None else Some "approval decision signature invalid")
                    (verify_approval_decision_signature d secret signature)
         | _ => Ok (Some "approval decision signature required")
         end.

Definition set_last (b : bool) (a : option string) (g : FileGate) : FileGate :=
  {| fg_packet_dir := fg_packet_dir g; fg_decision_dir := fg_decision_dir g; fg_consumed := fg_consumed g;
     fg_last_valid := b; fg_last_algorithm := a |}.
Definition write_packet (file : string) (p : ApprovalPacket) (g : FileGate) : FileGate :=
  {| fg_packet_dir := dset file (redact_secrets (VDict (packet_as_dict p))) (fg_packet_dir g);
     fg_decision_dir := fg_decision_dir g; fg_consumed := fg_consumed g;
     fg_last_valid := fg_last_valid g; fg_last_algorithm := fg_last_algorithm g |}.

(** The part of [request_packet] that reads an existing decision file. *)
Definition read_decision (c : FileGateConfig) (p : ApprovalPacket) (f : decision_file) : GM FileGate ApprovalDecision :=
  match decision_file_permission_issue c f with
  | Some why => new_decision p AD_DENY None (Some why)
  | None =>
      let! data := of_res (read_json f) in
      let! d := decision_from_mapping data in
      match approver_allowlist_issue c d with
      | Some why => new_decision p AD_DENY (ad_approver d) (Some why)
      | None =>
          let! issue := of_res (signature_issue c d data) in
          match issue with
          | Some why => new_decision p AD_DENY (ad_approver d) (Some why)
          | None =>
              if fc_require_signature c
              then (let! g := gate_get in gate_put (set_last true (Some "hmac-sha256") g)) ;;; ret d
              else ret d
          end
      end
  end.
(** [FileApprovalGate.request_packet] *)
Definition file_request_packet (c : FileGateConfig) (p : ApprovalPacket) : GM FileGate ApprovalDecision :=
  (let! g := gate_get in gate_put (set_last false None g)) ;;;
  let! safe := of_res (safe_approval_id (ap_approval_id p)) in
  let file := safe +:+ ".json" in
  (let! g := gate_get in gate_put (write_packet file p g)) ;;;
  let! g := gate_get in
  match dget file (fg_decision_dir g) with
  | Some f => read_decision c p f
  | None => new_decision p AD_DENY None None
  end.
(** [FileApprovalGate.consume_approval] *)
Definition file_consume_approval (p : ApprovalPacket) : GM FileGate (option string) :=
  let! g := gate_get in
  if str_mem (ap_approval_id p) (fg_consumed g)
  then ret (Some ("Approval " +:+ ap_approval_id p +:+ " was already consumed"))
  else
    gate_put {| fg_packet_dir := fg_packet_dir g; fg_decision_dir := fg_decision_dir g;
                fg_consumed := ap_approval_id p :: fg_consumed g;
                fg_last_valid := fg_last_valid g; fg_last_algorithm := fg_last_algorithm g |} ;;;
    ret None.
Definition file_gate (c : FileGateConfig) : ApprovalGate FileGate := {|
  signed_approval_enforced := fun _ =>
    fc_require_signature c && negb (String.eqb (default "" (fc_signature_secret c)) "");
  last_decision_signature_valid := fg_last_valid;
  last_decision_signature_algorithm := fg_last_algorithm;
  prepare_packet := fun packet _ => ret packet;
  request_packet := fun packet _ => file_request_packet c packet;
  consume_approval := fun packet _ _ => file_consume_approval packet |}.

(** ** Prepared packets (github_operator.py) *)

Record PreparedGate := {
  pg_packets : dict ApprovalPacket;   (** by step id *)
  pg_decisions : dict (dict pyval);   (** by approval id *)
  pg_receipts : dict string;          (** the files of receipt_dir *)
  pg_last_valid : bool;
  pg_last_algorithm : option string;
}.
Definition APPROVAL_SCHEMA : string := "leos.approval_bundle".
Definition DECISION_SCHEMA : string := "leos.approval_decisions".
Definition RECEIPT_SCHEMA : string := "leos.approval_consumption_receipt".
Definition SCHEMA_VERSION : Z := 1.

(** The two comprehensions of [__init__]. *)
Definition as_mapping (v : pyval) : res exn (dict pyval) :=
  match v with
  | VDict d => Ok d
  | _ => Raise (Exn TypeError "indices must be integers or slices, not str")
  end.
Fixpoint load_packets (l : list pyval) (acc : dict ApprovalPacket) (n : nat) : res exn (dict ApprovalPacket) * nat :=
  match l with
  | [] => (Ok acc, n)
  | v :: l' =>
      match dict_of v with
      | Raise e => (Raise e, n)
      | Ok d =>
          match packet_from_mapping (time_at n) d with
          | Raise e => (Raise e, S n)
          | Ok p => load_packets l' (dset (ap_step_id p) p acc) (S n)
          end
      end
  end.
Fixpoint load_decisions (l : list pyval) (acc : dict (dict pyval)) : res exn (dict (dict pyval)) :=
  match l with
  | [] => Ok acc
  | v :: l' =>
      res_bind (as_mapping v) (fun d =>
      res_bind (str_item "approval_id" d) (fun i => load_decisions l' (dset i d acc)))
  end.
(** [PreparedFileApprovalGate.__init__], over the receipts already on disk;
    [n] is the clock index. *)
Definition prepared_init (approval_bundle decision_bundle : dict pyval) (receipts : dict string) (n : nat) :
    res exn PreparedGate * nat :=
  let get k (d : dict pyval) := default VNone (dget k d) in
  if py_neq (get "schema" approval_bundle) (VStr APPROVAL_SCHEMA)
  then (Raise (Exn ValueError "invalid approval bundle schema"), n)
  else if py_neq (get "schema" decision_bundle) (VStr DECISION_SCHEMA)
  then (Raise (Exn ValueError "invalid approval decision schema"), n)
  else if py_neq (get "plan_digest" approval_bundle) (get "plan_digest" decision_bundle)
  then (Raise (Exn ValueError "approval decision plan digest mismatch"), n)
  else
    match py_iter (default (VList []) (dget "packets" approval_bundle)) with
    | Raise e => (Raise e, n)
    | Ok items =>
        match load_packets items [] n with
        | (Raise e, n') => (Raise e, n')
        | (Ok ps, n') =>
            (res_bind (py_iter (default (VList []) (dget "decisions" decision_bundle))) (fun ds =>
             res_map (fun dec => {| pg_packets := ps; pg_decisions := dec; pg_receipts := receipts;
                                    pg_last_valid := false; pg_last_algorithm := None |})
               (load_decisions ds [])), n')
        end
    end.

Definition prepared_prepare_packet (p : ApprovalPacket) (step : ActionStep) : GM PreparedGate ApprovalPacket :=
  let! g := gate_get in
  match dget (step_id step) (pg_packets g) with
  | None => raise (Exn PolicyDenied "missing approval packet for step")
  | Some stored =>
      if negb (String.eqb (ap_step_hash stored) (ap_step_hash p)) ||
         negb (String.eqb (ap_profile stored) (ap_profile p)) ||
         negb (String.eqb (ap_plan_id stored) (ap_plan_id p)) ||
         negb (String.eqb (ap_goal_id stored) (ap_goal_id p)) ||
         negb (String.eqb (ap_tool_name stored) (ap_tool_name p))
      then raise (Exn PolicyDenied "pre-created approval packet does not match current step")
      else ret stored
  end.
Definition set_pg_last (b : bool) (a : option string) (g : PreparedGate) : PreparedGate :=
  {| pg_packets := pg_packets g; pg_decisions := pg_decisions g; pg_receipts := pg_receipts g;
     pg_last_valid := b; pg_last_algorithm := a |}.
Definition prepared_request_packet (secret : string) (p : ApprovalPacket) : GM PreparedGate ApprovalDecision :=
  (let! g := gate_get in gate_put (set_pg_last false None g)) ;;;
  let! g := gate_get in
  match dget (ap_approval_id p) (pg_decisions g) with
  | None => new_decision p AD_DENY None (Some "approval decision missing")
  | Some data =>
      let! aid := of_res (str_item "approval_id" data) in
      let! h := of_res (str_item "step_hash" data) in
      let! dv := of_res (str_item "decision" data) in
      let! dval := of_res (enum_of (A:=ApprovalDecisionValue) dv) in
      let! at_val := of_res (dget_item "decided_at" data) in
      let! at_ := of_res (py_float at_val) in
      let d := {| ad_approval_id := aid; ad_step_hash := h; ad_decision := dval; ad_decided_at := at_;
                  ad_approver := opt_str "approver" data; ad_reason := opt_str "reason" data |} in
      let! good := match dget "signature" data with
                   | Some (VStr signature) | Some (VEnum _ _ signature) =>
                       of_res (verify_approval_decision_signature d secret signature)
                   | _ => ret false
                   end in
      if (good : bool)
      then (let! g := gate_get in gate_put (set_pg_last true (Some "hmac-sha256") g)) ;;; ret d
      else new_decision p AD_DENY (ad_approver d) (Some "approval decision signature invalid")
  end.
Definition receipt_val (p : ApprovalPacket) (d : ApprovalDecision) (step : ActionStep) (now : float) : pyval :=
  VDict [("schema", VStr RECEIPT_SCHEMA); ("schema_version", VInt SCHEMA_VERSION);
         ("approval_id", VStr (ap_approval_id p)); ("step_hash", VStr (ap_step_hash p));
         ("step_id", VStr (step_id step)); ("tool_name", VStr (tool_name step));
         ("decision", VStr (ApprovalDecisionValue_value (ad_decision d))); ("consumed_at", VFloat now);
         ("profile", VStr (ap_profile p))].
(** [consume_approval]: the receipt is created with O_EXCL, so the second
    attempt finds it. *)
Definition prepared_consume_approval (p : ApprovalPacket) (d : ApprovalDecision) (step : ActionStep) :
    GM PreparedGate (option string) :=
  let! safe := of_res (safe_approval_id (ap_approval_id p)) in
  let path := safe +:+ ".json" in
  let! now := gate_time in
  let! g := gate_get in
  if dmem path (pg_receipts g) then ret (Some "approval decision was already consumed")
  else
    gate_put {| pg_packets := pg_packets g; pg_decisions := pg_decisions g;
                pg_receipts := dset path (safe_json_dumps (receipt_val p d step now) +:+ newline) (pg_receipts g);
                pg_last_valid := pg_last_valid g; pg_last_algorithm := pg_last_algorithm g |} ;;;
    ret None.
Definition prepared_gate (secret : string) : ApprovalGate PreparedGate := {|
  signed_approval_enforced := fun _ => true;
  last_decision_signature_valid := pg_last_valid;
  last_decision_signature_algorithm := pg_last_algorithm;
  prepare_packet := prepared_prepare_packet;
  request_packet := fun packet _ => prepared_request_packet secret packet;
  consume_approval := prepared_consume_approval |}.

(** ** Anti-replay *)

(** A gate consumes each approval at most once: an invariant [spent] of the
    gate state records the consumed ids, no method of the gate forgets one, a
    successful [consume_approval] adds the packet's id, and none succeeds for
    an id already spent. *)
Class AntiReplay {G} (gate : ApprovalGate G) (spent : string -> G -> Prop) := {
  consume_fresh : forall p d st s s', consume_approval gate p d st s = (Ok None, s') ->
    ~ spent (ap_approval_id p) s.1 /\ spent (ap_approval_id p) s'.1;
  consume_spent : forall p d st s i, spent i s.1 -> spent i (snd (consume_approval gate p d st s)).1;
  request_spent : forall p st s i, spent i s.1 -> spent i (snd (request_packet gate p st s)).1;
  prepare_spent : forall p st s i, spent i s.1 -> spent i (snd (prepare_packet gate p st s)).1;
}.

(** ** What an approving decision of the file exchange went through *)

Definition same_spent (s s' : FileGate * nat) : Prop := fg_consumed s'.1 = fg_consumed s.1.
#[local] Instance same_spent_preorder : PreOrder same_spent.
Proof. split; [done|]. intros x y z H1 H2. unfold same_spent in *. by rewrite H2. Qed.
Lemma gate_time_same : keeps same_spent gate_time.
Proof. by intros [g n]. Qed.
Lemma gate_get_same : keeps same_spent gate_get.
Proof. by intros [g n]. Qed.
Lemma new_decision_same p v a w : keeps same_spent (new_decision p v a w).
Proof. by intros [g n]. Qed.
Lemma update_same (f : FileGate -> FileGate) :
  (forall g, fg_consumed (f g) = fg_consumed g) -> keeps same_spent (let! g := gate_get in gate_put (f g)).
Proof. intros Hf [g n]. apply Hf. Qed.
#[local] Hint Resolve gate_time_same gate_get_same new_decision_same : keeps.
Lemma decision_from_mapping_same data : keeps same_spent (decision_from_mapping data).
Proof. unfold decision_from_mapping. keeps_auto. Qed.
#[local] Hint Resolve decision_from_mapping_same : keeps.
Lemma read_decision_same c p f : keeps same_spent (read_decision c p f).
Proof.
  unfold read_decision. destruct (decision_file_permission_issue c f); [keeps_auto|].
  apply keeps_bind; [apply _|keeps_auto|]. intros data.
  apply keeps_bind; [apply _|keeps_auto|]. intros d.
  destruct (approver_allowlist_issue c d); [keeps_auto|].
  apply keeps_bind; [apply _|keeps_auto|]. intros [w|]; [keeps_auto|].
  destruct (fc_require_signature c); [|keeps_auto].
  apply keeps_bind; [apply _|by apply update_same|intros _; keeps_auto].
Qed.
Lemma file_request_same c p : keeps same_spent (file_request_packet c p).
Proof.
  unfold file_request_packet. apply keeps_bind; [apply _|by apply update_same|intros _].
  apply keeps_bind; [apply _|keeps_auto|]. intros safe.
  apply keeps_bind; [apply _|by apply update_same|intros _].
  apply keeps_bind; [apply _|keeps_auto|]. intros g.
  destruct (dget _ _); [apply read_decision_same|keeps_auto].
Qed.
#[export] Instance file_gate_anti_replay c : AntiReplay (file_gate c) (fun i g => i ∈ fg_consumed g).
Proof.
  split; simpl.
  - intros p _ _ [g n] s'. unfold file_consume_approval, bind. simpl.
    destruct (str_mem _ _) eqn:E; [done|]. intros [= <-]. simpl.
    apply str_mem_false in E. split; [done|left].
  - intros p _ _ [g n] i Hi. unfold file_consume_approval, bind. simpl.
    destruct (str_mem _ _) eqn:E; [done|]. simpl. by right.
  - intros p _ s i Hi. pose proof (file_request_same c p s) as E. unfold same_spent in E. by rewrite E.
  - intros p _ s i Hi. done.
Qed.

Definition receipts_kept (s s' : PreparedGate * nat) : Prop := pg_receipts s'.1 = pg_receipts s.1.
#[local] Instance receipts_kept_preorder : PreOrder receipts_kept.
Proof. split; [done|]. intros x y z H1 H2. unfold receipts_kept in *. by rewrite H2. Qed.
Lemma pg_update_kept (f : PreparedGate -> PreparedGate) :
  (forall g, pg_receipts (f g) = pg_receipts g) -> keeps receipts_kept (let! g := gate_get in gate_put (f g)).
Proof. intros Hf [g n]. apply Hf. Qed.
Lemma pg_new_decision_kept p v a w : keeps receipts_kept (new_decision p v a w).
Proof. by intros [g n]. Qed.
Lemma pg_get_kept : keeps receipts_kept gate_get.
Proof. by intros [g n]. Qed.
#[local] Hint Resolve pg_new_decision_kept pg_get_kept : keeps.
Lemma prepared_request_kept secret p : keeps receipts_kept (prepared_request_packet secret p).
Proof.
  unfold prepared_request_packet. apply keeps_bind; [apply _|by apply pg_update_kept|intros _].
  apply keeps_bind; [apply _|keeps_auto|]. intros g.
  destruct (dget _ _) as [data|]; [|keeps_auto].
  do 7 (apply keeps_bind; [apply _|keeps_auto|intros ?]).
  destruct (_ : bool); [|keeps_auto].
  apply keeps_bind; [apply _|by apply pg_update_kept|intros _; keeps_auto].
Qed.
Lemma prepared_prepare_kept p st : keeps receipts_kept (prepared_prepare_packet p st).
Proof. unfold prepared_prepare_packet. keeps_auto. Qed.

Lemma safe_approval_id_inv i s : safe_approval_id i = Ok s -> s = i.
Proof.
  unfold safe_approval_id. destruct (String.eqb (filter_chars id_char i) ""); simpl; [done|].
  destruct (String.eqb_spec (filter_chars id_char i) i); simpl; [congruence|done].
Qed.
(** The receipt file of an id. *)
Definition receipt_spent (i : string) (g : PreparedGate) : Prop := dmem (i +:+ ".json") (pg_receipts g) = true.
Lemma dmem_dset {A} k k' (v : A) d : dmem k d = true -> dmem k (dset k' v d) = true.
Proof.
  unfold dmem. destruct (decide (k = k')) as [->|Hne]; [by rewrite dget_dset_eq|by rewrite dget_dset_ne].
Qed.
Lemma prepared_consume_cases p d st s :
  let o := prepared_consume_approval p d st s in
  (pg_receipts o.2.1 = pg_receipts s.1 /\ fst o <> Ok None) \/
  (fst o = Ok None /\ ~ receipt_spent (ap_approval_id p) s.1 /\
   exists txt, pg_receipts o.2.1 = dset (ap_approval_id p +:+ ".json") txt (pg_receipts s.1)).
Proof.
  destruct s as [g n]. unfold prepared_consume_approval, bind, of_res. simpl.
  destruct (safe_approval_id (ap_approval_id p)) as [safe|e] eqn:Es; [|by left].
  apply safe_approval_id_inv in Es as ->. simpl.
  destruct (dmem _ (pg_receipts g)) eqn:E; simpl; [by left|right].
  split; [done|]. split; [unfold receipt_spent; simpl; congruence|eauto].
Qed.
#[export] Instance prepared_gate_anti_replay secret : AntiReplay (prepared_gate secret) receipt_spent.
Proof.
  split; simpl.
  - intros p d st s s' Hc. pose proof (prepared_consume_cases p d st s) as Hcs. rewrite Hc in Hcs. simpl in Hcs.
    destruct Hcs as [[_ Hn]|(_ & Hn & txt & Hr)]; [done|]. split; [done|].
    unfold receipt_spent. rewrite Hr. unfold dmem. by rewrite dget_dset_eq.
  - intros p d st s i Hi. destruct (prepared_consume_cases p d st s) as [[Hr _]|(_ & _ & txt & Hr)];
      unfold receipt_spent in *; simpl in *; rewrite Hr; [done|]. by apply dmem_dset.
  - intros p _ s i Hi. pose proof (prepared_request_kept secret p s) as E. unfold receipts_kept in E.
    unfold receipt_spent in *. by rewrite E.
  - intros p st s i Hi. pose proof (prepared_prepare_kept p st s) as E. unfold receipts_kept in E.
    unfold receipt_spent in *. by rewrite E.
Qed.
End gates.
