(* ===== verification/Traces.v ===== *)
(** The trace viewer (trace_viewer.py): audit records as an HTML page and as Markdown.

    A record is a JSON value; the functions accept any, as the callers pass what [json.loads] gives for a line. *)
From S2P Require Import Prelude Enums PyValue PyText Sanitization Goals.

Section traces.
Context `{PyRuntime}.

(** [_safe_records] *)
Definition safe_record (record : pyval) : dict pyval :=
  match redact_secrets record with VDict d => d | _ => [("event_type", VStr "unknown"); ("payload", VDict [])] end.
Definition safe_records (records : list pyval) : list (dict pyval) := map safe_record records.
Definition event_type_of (record : dict pyval) : string := py_str (dget_or "event_type" (VStr "unknown") record).
Definition message_of (record : dict pyval) : string := py_str (dget_or "message" (VStr "") record).
(** [sorted(Counter(...).items())] *)
Definition count_event (counts : dict Z) (t : string) : dict Z := dset t (default 0%Z (dget t counts) + 1)%Z counts.
Definition event_counts (records : list (dict pyval)) : dict Z := sort_items (fold_left count_event (map event_type_of records) []).

(** ** The page *)

Definition dquoted (s : string) : string := String dq (s +:+ String dq "").
(** [_render_event_row] *)
Definition render_event_row (index : Z) (record : dict pyval) : string :=
  str_join LF_str
    ["<tr>";
     "  <td>" +:+ str_Z index +:+ "</td>";
     "  <td><code>" +:+ html_escape (event_type_of record) +:+ "</code></td>";
     "  <td>" +:+ html_escape (message_of record) +:+ "</td>";
     "  <td><pre>" +:+ html_escape (json_indent json_string 0 (redact_secrets (dget_or "payload" (VDict []) record))) +:+ "</pre></td>";
     "</tr>"].
(** [enumerate(records, start=1)] *)
Fixpoint enumerate_from {A B} (f : Z -> A -> B) (n : Z) (l : list A) : list B :=
  match l with [] => [] | x :: l' => f n x :: enumerate_from f (n + 1)%Z l' end.
Definition render_count (entry : string * Z) : string :=
  "<li><code>" +:+ html_escape entry.1 +:+ "</code>: " +:+ str_Z entry.2 +:+ "</li>".
(** The page up to the title, between the titles, up to the total, the counts and the rows, and its end. *)
Definition page_head : string := str_join LF_str
  ["<!doctype html>"; "<html lang=" +:+ dquoted "en" +:+ ">"; "<head>"; "  <meta charset=" +:+ dquoted "utf-8" +:+ ">"; "  <title>"].
Definition page_style : string := str_join LF_str
  ["</title>"; "  <style>";
   "    body { font-family: system-ui, sans-serif; margin: 2rem; line-height: 1.4; }";
   "    table { border-collapse: collapse; width: 100%; }";
   "    th, td { border: 1px solid #ccc; padding: 0.45rem; vertical-align: top; }";
   "    th { background: #f5f5f5; text-align: left; }";
   "    code, pre { font-family: ui-monospace, SFMono-Regular, Menlo, Consolas, monospace; }";
   "    pre { white-space: pre-wrap; margin: 0; }";
   "    .summary { display: flex; gap: 2rem; align-items: flex-start; }";
   "  </style>"; "</head>"; "<body>"; "  <h1>"].
Definition page_summary : string := str_join LF_str
  ["</h1>"; "  <section class=" +:+ dquoted "summary" +:+ ">"; "    <div>"; "      <h2>Summary</h2>"; "      <p>Total events: "].
Definition page_types : string := str_join LF_str
  ["</p>"; "    </div>"; "    <div>"; "      <h2>Event Types</h2>"; "      <ul>"].
Definition page_table : string := str_join LF_str
  ["</ul>"; "    </div>"; "  </section>"; "  <h2>Timeline</h2>"; "  <table>"; "    <thead>"; "      <tr>"; "        <th>#</th>";
   "        <th>Event</th>"; "        <th>Message</th>"; "        <th>Payload</th>"; "      </tr>"; "    </thead>"; "    <tbody>"; "      "].
Definition page_end : string := str_join LF_str [""; "    </tbody>"; "  </table>"; "</body>"; "</html>"; ""].
(** [render_trace_html] *)
Definition render_trace_html (records : list pyval) (title : string) : string :=
  let safe := safe_records records in
  let rows := str_join LF_str (enumerate_from render_event_row 1 safe) in
  let counts := str_join LF_str (map render_count (event_counts safe)) in
  page_head +:+ html_escape title +:+ page_style +:+ html_escape title +:+ page_summary +:+
  str_Z (Z.of_nat (length safe)) +:+ page_types +:+ counts +:+ page_table +:+ rows +:+ page_end.

(** ** Markdown *)

Definition bslash_str : string := String bslash "".
Definition no_pipe (s : string) : string := str_replace "|" (bslash_str +:+ "|") s.
Definition one_line (s : string) : string := str_replace LF_str " " (no_pipe s).
(** [_cell] *)
Definition cell (value : pyval) : string :=
  match value with
  | VNone => ""
  | _ =>
      let v := redact_secrets value in
      one_line (match v with VDict _ | VList _ | VTuple _ => json_flat json_string v | _ => py_str v end)
  end.
(** [_event_details] *)
Definition event_details (msg : string) (payload : dict pyval) : string :=
  let field label k := label +:+ "=" +:+ cell (dget_or k VNone payload) in
  str_join "<br>" (List.filter (fun part => negb (String.eqb part "")) (msg ::
    if dmem "evaluation_status" payload
    then [field "evaluation_status" "evaluation_status"; field "satisfied" "satisfied_criteria";
          field "unsatisfied" "unsatisfied_criteria"; field "explanation" "explanation"]
    else match payload with [] => [] | _ => ["payload=" +:+ cell (VDict payload)] end)).
Definition mapping_payload (record : dict pyval) : option (dict pyval) :=
  match dget_or "payload" (VDict []) record with VDict d => Some d | _ => None end.
(** [_final_goal_status] *)
Fixpoint first_goal_status (l : list (dict pyval)) : string :=
  match l with
  | [] => ""
  | record :: l' =>
      match mapping_payload record with
      | Some payload =>
          let v := dget_or "goal_status" VNone payload in
          if truthy v then py_str v else first_goal_status l'
      | None => first_goal_status l'
      end
  end.
Definition trace_goal_status (records : list (dict pyval)) : string := first_goal_status (rev records).
(** [a or b or ...], with [d.get] for each key. *)
Fixpoint first_truthy (keys : list string) (d : dict pyval) : pyval :=
  match keys with
  | [] => VNone
  | [k] => dget_or k VNone d
  | k :: keys' => let v := dget_or k VNone d in if truthy v then v else first_truthy keys' d
  end.
Definition event_line (index : Z) (record : dict pyval) : string :=
  let payload := default [] (mapping_payload record) in
  let get keys := cell (first_truthy keys payload) in
  "| " +:+ str_Z index +:+ " | `" +:+ no_pipe (event_type_of record) +:+ "` | " +:+ get ["goal_id"; "goal"] +:+ " | " +:+
  get ["plan_id"] +:+ " | " +:+ get ["step_id"; "tool"] +:+ " | " +:+ get ["risk"] +:+ " | " +:+
  get ["permissions"; "required_permissions"] +:+ " | " +:+ get ["decision"; "approval_result"; "rule_name"] +:+ " | " +:+
  get ["goal_status"; "evaluation_status"; "phase"; "error_type"] +:+ " | " +:+
  event_details (one_line (message_of record)) payload +:+ " |".
(** [render_trace_markdown] *)
Definition render_trace_markdown (records : list pyval) : string :=
  let safe := safe_records records in
  let final := trace_goal_status safe in
  str_join LF_str (
    ["# Leos Trace"; ""; "Total events: " +:+ str_Z (Z.of_nat (length safe))] ++
    (if String.eqb final "" then [] else ["Final goal status: `" +:+ final +:+ "`"]) ++
    [""; "## Event Types"] ++
    match event_counts safe with
    | [] => ["- none"]
    | counts => map (fun entry => "- `" +:+ entry.1 +:+ "`: " +:+ str_Z entry.2) counts
    end ++
    [""; "## Timeline"; "";
     "| # | Event | Goal | Plan | Step | Risk | Permissions | Decision | Status | Details |";
     "|---:|---|---|---|---|---|---|---|---|---|"] ++
    enumerate_from event_line 1 safe) +:+ LF_str.
End traces.
