(* ===== verification/Credentials.v ===== *)
(** Credential vaults (credentials.py): handles, the vault interface and the
    in-memory vault, with the abstract vault it implements: a finite map from
    the handles that are alive to their secrets; and the vaults over envelope stores
    (credential_backends.py).

    A tool and the vault it uses run in the environment of the transaction
    manager; the uuids and times they draw come from a clock of their own. *)
From S2P Require Import Prelude Enums PyValue Sanitization Goals.


(** Results of the calls of [uuid.uuid4] and [time.time] that tools and vaults make. *)
Class ToolPlatform := {
  tool_uuid : nat -> string;
  tool_time : nat -> float;
}.
Record Clock := { c_uuid : nat; c_time : nat }.
Definition clock0 : Clock := {| c_uuid := 0; c_time := 0 |}.

(** A [Secret]: identity and value. *)
Record Secret := { secret_id : nat; unwrap : string }.
Definition secret_val (s : Secret) : pyval := VSecret (secret_id s) (unwrap s).
Record SecretHandle := {
  handle_id : string;
  scope : string;
  sh_created_at : float;
  sh_expires_at : option float;
}.
Definition opt_float_pv (f : option float) : pyval := match f with Some x => VFloat x | None => VNone end.
(** [to_dict] *)
Definition handle_to_dict (h : SecretHandle) : dict pyval :=
  [("handle_id", VStr (handle_id h)); ("scope", VStr (scope h)); ("created_at", VFloat (sh_created_at h));
   ("expires_at", opt_float_pv (sh_expires_at h))].

Section clock.
Context `{ToolPlatform} {V : Type}.

(** Methods over a vault state and the clock. *)
Definition VM (A : Type) : Type := M (V * Clock) exn A.
Definition clock_uuid : VM string := fun '(v, c) =>
  (Ok (tool_uuid (c_uuid c)), (v, {| c_uuid := S (c_uuid c); c_time := c_time c |})).
Definition clock_time : VM float := fun '(v, c) =>
  (Ok (tool_time (c_time c)), (v, {| c_uuid := c_uuid c; c_time := S (c_time c) |})).

(** [isinstance(v, (int, float, str))] *)
Definition float_like (v : pyval) : bool :=
  match v with VBool _ | VInt _ | VFloat _ | VStr _ | VEnum _ _ _ => true | _ => false end.
(** [from_dict]; the default of [created_at] is evaluated in any case. *)
Definition handle_from_dict `{PyRuntime} (d : dict pyval) : VM SecretHandle :=
  let! now := clock_time in
  let created := default (VFloat now) (dget "created_at" d) in
  let expires := default VNone (dget "expires_at" d) in
  let! id := of_res (dget_item "handle_id" d) in
  let! sc := of_res (dget_item "scope" d) in
  let! cr := (if float_like created then of_res (py_float created) else clock_time) in
  let! ex := (if float_like expires then let! f := of_res (py_float expires) in ret (Some f) else ret None) in
  ret {| handle_id := py_str id; scope := py_str sc; sh_created_at := cr; sh_expires_at := ex |}.
End clock.
Arguments VM V A : clear implicits.

(** [CredentialVault] *)
Record CredentialVault (V : Type) := {
  cv_put : Secret -> string -> option float -> VM V SecretHandle;
  cv_get : SecretHandle -> string -> VM V Secret;
  cv_revoke : SecretHandle -> VM V unit;
  cv_has : SecretHandle -> VM V bool;
}.
Arguments cv_put {V} _ _ _ _.
Arguments cv_get {V} _ _ _.
Arguments cv_revoke {V} _ _.
Arguments cv_has {V} _ _.

(** ** The in-memory vault *)

Record Vault := {
  v_secrets : gmap string Secret;
  v_handles : gmap string SecretHandle;
  v_revoked : gset string;
}.
Definition empty_vault : Vault := {| v_secrets := ∅; v_handles := ∅; v_revoked := ∅ |}.

Section vault.
Context `{ToolPlatform}.

Definition vault_put (s : Secret) (sc : string) (expires : option float) : VM Vault SecretHandle :=
  if String.eqb sc "" then raise (Exn CredentialScopeError "Credential scope must be non-empty")
  else
    let! id := clock_uuid in
    let! now := clock_time in
    let h := {| handle_id := id; scope := sc; sh_created_at := now; sh_expires_at := expires |} in
    modify (fun '(v, c) => ({| v_secrets := <[id := s]> (v_secrets v); v_handles := <[id := h]> (v_handles v);
                               v_revoked := v_revoked v |}, c)) ;;;
    ret h.
Definition vault_get (h : SecretHandle) (sc : string) : VM Vault Secret :=
  let! v := gets fst in
  match v_handles v !! handle_id h with
  | None => raise (Exn CredentialRevokedError "Credential handle is missing or revoked")
  | Some stored =>
      if bool_decide (handle_id h ∈ v_revoked v)
      then raise (Exn CredentialRevokedError "Credential handle is missing or revoked")
      else if negb (String.eqb (scope stored) sc) || negb (String.eqb (scope h) sc)
      then raise (Exn CredentialScopeError "Credential handle scope mismatch")
      else
        let! expired := match sh_expires_at stored with
                        | None => ret false
                        | Some e => let! now := clock_time in ret (fltb e now)
                        end in
        if expired : bool then raise (Exn CredentialExpiredError "Credential handle has expired")
        else match v_secrets v !! handle_id h with
             | Some s => ret s
             | None => raise (Exn KeyError (py_repr (handle_id h)))
             end
  end.
Definition vault_revoke (h : SecretHandle) : VM Vault unit := modify (fun '(v, c) =>
  ({| v_secrets := delete (handle_id h) (v_secrets v); v_handles := v_handles v;
      v_revoked := {[handle_id h]} ∪ v_revoked v |}, c)).
Definition vault_has (h : SecretHandle) : VM Vault bool := gets (fun '(v, _) =>
  bool_decide (is_Some (v_handles v !! handle_id h)) && negb (bool_decide (handle_id h ∈ v_revoked v))).
Definition InMemoryCredentialVault : CredentialVault Vault :=
  {| cv_put := vault_put; cv_get := vault_get; cv_revoke := vault_revoke; cv_has := vault_has |}.

(** ** The abstract vault: the living handles with their secrets *)

Definition alive (v : Vault) : gmap string (Secret * SecretHandle) :=
  filter (fun kv => kv.1 ∉ v_revoked v) (map_zip (v_secrets v) (v_handles v)).
(** Every handle that was not revoked has its secret, and none has another's id. *)
Record vault_ok (v : Vault) : Prop := {
  vo_secrets : forall id, is_Some (v_handles v !! id) -> id ∉ v_revoked v -> is_Some (v_secrets v !! id);
  vo_ids : forall id h, v_handles v !! id = Some h -> handle_id h = id;
}.
Lemma alive_lookup v id :
  vault_ok v -> alive v !! id =
    match v_handles v !! id with
    | Some h => if bool_decide (id ∈ v_revoked v) then None else (fun s => (s, h)) <$> v_secrets v !! id
    | None => None
    end.
Proof.
  intros Hok. unfold alive. rewrite map_lookup_filter, map_lookup_zip_with.
  destruct (v_handles v !! id) as [h|]; [|by destruct (v_secrets v !! id)].
  destruct (v_secrets v !! id) as [s|]; simpl; [|by case_bool_decide].
  unfold guard. case_bool_decide; destruct (decide _); done.
Qed.
(** What [get] makes of an entry at a time. *)
Definition open_entry (entry : option (Secret * SecretHandle)) (h : SecretHandle) (sc : string) (now : float) :
    res exn Secret :=
  match entry with
  | None => Raise (Exn CredentialRevokedError "Credential handle is missing or revoked")
  | Some (s, stored) =>
      if String.eqb (scope stored) sc && String.eqb (scope h) sc
      then if from_option (fun e => fltb e now) false (sh_expires_at stored)
           then Raise (Exn CredentialExpiredError "Credential handle has expired") else Ok s
      else Raise (Exn CredentialScopeError "Credential handle scope mismatch")
  end.

Lemma empty_vault_ok : vault_ok empty_vault.
Proof. split; [by intros id [h Hh]|done]. Qed.
Lemma vault_put_spec s sc e v c r v' c' :
  vault_ok v -> vault_put s sc e (v, c) = (r, (v', c')) ->
  vault_ok v' /\
  if String.eqb sc "" then r = Raise (Exn CredentialScopeError "Credential scope must be non-empty") /\ v' = v /\ c' = c
  else exists h, r = Ok h /\ h = {| handle_id := tool_uuid (c_uuid c); scope := sc; sh_created_at := tool_time (c_time c);
                                    sh_expires_at := e |} /\
    (tool_uuid (c_uuid c) ∉ v_revoked v -> alive v' = <[tool_uuid (c_uuid c) := (s, h)]> (alive v)) /\
    (tool_uuid (c_uuid c) ∈ v_revoked v -> alive v' = alive v) /\
    c' = {| c_uuid := S (c_uuid c); c_time := S (c_time c) |} /\ v_revoked v' = v_revoked v.
Proof.
  intros Hok. unfold vault_put. destruct (String.eqb sc "").
  { intros [= <- <- <-]. by split. }
  intros [= <- <- <-]. set (id := tool_uuid (c_uuid c)). set (h := {| handle_id := _ |}).
  set (v' := {| v_secrets := _ |}). assert (Hok' : vault_ok v').
  { split; simpl.
    - intros i Hi Hr. destruct (decide (i = id)) as [->|Hne]; [by rewrite lookup_insert_eq|].
      rewrite lookup_insert_ne by done. rewrite lookup_insert_ne in Hi by done. by apply Hok.
    - intros i h'. destruct (decide (i = id)) as [->|Hne].
      + rewrite lookup_insert_eq. by intros [= <-].
      + rewrite lookup_insert_ne by done. apply Hok. }
  split; [done|]. exists h. split_and!; [done|done| | |done|done].
  - intros Hr. apply map_eq. intros i. rewrite alive_lookup by done. simpl. destruct (decide (i = id)) as [->|Hne].
    + by rewrite !lookup_insert_eq, bool_decide_false.
    + rewrite !lookup_insert_ne by done. by rewrite alive_lookup.
  - intros Hr. apply map_eq. intros i. rewrite !alive_lookup by done. simpl. destruct (decide (i = id)) as [->|Hne].
    + rewrite !lookup_insert_eq, bool_decide_true by done. by destruct (v_handles v !! id).
    + by rewrite !lookup_insert_ne.
Qed.
Lemma vault_get_spec h sc v c r v' c' :
  vault_ok v -> vault_get h sc (v, c) = (r, (v', c')) ->
  v' = v /\ c_uuid c' = c_uuid c /\ r = open_entry (alive v !! handle_id h) h sc (tool_time (c_time c)).
Proof.
  intros Hok. rewrite (alive_lookup v (handle_id h) Hok). unfold vault_get, bind, gets. simpl.
  destruct (v_handles v !! handle_id h) as [stored|] eqn:Eh; [|by intros [= <- <- <-]].
  case_bool_decide as Hr; [by intros [= <- <- <-]|].
  destruct (vo_secrets _ Hok (handle_id h)) as [s Es]; [by eexists|done|]. rewrite Es. simpl. rewrite <-negb_andb.
  destruct (_ && _); simpl; [|by intros [= <- <- <-]].
  destruct (sh_expires_at stored) as [e|]; simpl; [|by intros [= <- <- <-]].
  destruct (fltb e _); by intros [= <- <- <-].
Qed.
Lemma vault_revoke_spec h v c r v' c' :
  vault_ok v -> vault_revoke h (v, c) = (r, (v', c')) ->
  r = Ok tt /\ vault_ok v' /\ c' = c /\ alive v' = delete (handle_id h) (alive v) /\
  v_revoked v' = {[handle_id h]} ∪ v_revoked v.
Proof.
  intros Hok [= <- <- <-]. set (v' := {| v_secrets := _ |}). assert (Hok' : vault_ok v').
  { split; simpl; [|apply Hok]. intros i Hi Hr. rewrite lookup_delete_ne by set_solver. apply Hok; [done|set_solver]. }
  split_and!; [done|done|done| |done]. apply map_eq. intros i. rewrite alive_lookup by done. simpl.
  destruct (decide (i = handle_id h)) as [->|Hne].
  - rewrite !lookup_delete_eq. destruct (v_handles v !! _); [|done]. by rewrite bool_decide_true by set_solver.
  - rewrite !lookup_delete_ne by done. rewrite (alive_lookup v) by done. destruct (v_handles v !! i); [|done].
    case_bool_decide as H1; case_bool_decide as H2; set_solver.
Qed.
Lemma vault_has_spec h v c : vault_ok v -> vault_has h (v, c) = (Ok (bool_decide (is_Some (alive v !! handle_id h))), (v, c)).
Proof.
  intros Hok. unfold vault_has, gets. do 2 f_equal. rewrite (alive_lookup v _ Hok).
  destruct (v_handles v !! handle_id h) as [h'|] eqn:E; [|done]. rewrite (bool_decide_true (is_Some _)) by done. simpl.
  case_bool_decide as Hr; simpl; [done|].
  destruct (vo_secrets _ Hok (handle_id h)) as [s ->]; [by eexists|done|]. by rewrite bool_decide_true.
Qed.
End vault.

(** * The managed credential vaults (credential_backends.py): the base class over any envelope store, and the stores
    kept in a private file, in a keyring and in a secrets service.

    An envelope is the document of its JSON text.  [get] returns the value that the code wraps in a new [Secret]. *)


(** [_write], [_read] and [_delete], the methods that a subclass implements. *)
Record EnvelopeStore (V : Type) := {
  es_write : string -> pyval -> M V exn unit;
  es_read : string -> M V exn (option pyval);
  es_delete : string -> M V exn unit;
}.
Arguments es_write {V} _ _ _.
Arguments es_read {V} _ _.
Arguments es_delete {V} _ _.

Section base.
Context `{PyRuntime} `{ToolPlatform} {V : Type} (store : EnvelopeStore V).

Definition in_store {A} (m : M V exn A) : VM V A := fun '(v, k) => let (r, v') := m v in (r, (v', k)).
(** [_make_envelope] *)
Definition envelope_doc (value sc : string) (created : float) (expires : option float) : pyval :=
  VDict [("value", VStr value); ("scope", VStr sc); ("created_at", VFloat created); ("expires_at", opt_float_pv expires)].
Definition make_envelope (s : Secret) (sc : string) (expires : option float) : VM V pyval :=
  let! now := clock_time in ret (envelope_doc (unwrap s) sc now expires).
Definition base_put (s : Secret) (sc : string) (expires : option float) : VM V SecretHandle :=
  if String.eqb sc "" then raise (Exn CredentialScopeError "Credential scope must be non-empty")
  else
    let! id := clock_uuid in
    let! envelope := make_envelope s sc expires in
    in_store (es_write store id envelope) ;;;
    let! now := clock_time in
    ret {| handle_id := id; scope := sc; sh_created_at := now; sh_expires_at := expires |}.
Definition base_get (h : SecretHandle) (sc : string) : VM V string :=
  let! found := in_store (es_read store (handle_id h)) in
  match found with
  | None => raise (Exn CredentialRevokedError "Credential handle is missing or revoked")
  | Some (VDict envelope) =>
      if py_neq (dget_or "scope" VNone envelope) (VStr sc) || negb (String.eqb (scope h) sc)
      then raise (Exn CredentialScopeError "Credential handle scope mismatch")
      else
        let! expired := match dget_or "expires_at" VNone envelope with
                        | VNone => ret false
                        | e => let! now := clock_time in
                               let! f := of_res (py_float e) in
                               ret (fltb f now)
                        end in
        if expired : bool then raise (Exn CredentialExpiredError "Credential handle has expired")
        else of_res (res_map py_str (dget_item "value" envelope))
  | Some v => raise (Exn AttributeError ("'" +:+ type_name v +:+ "' object has no attribute 'get'"))
  end.
Definition base_revoke (h : SecretHandle) : VM V unit := in_store (es_delete store (handle_id h)).
Definition base_has (h : SecretHandle) : VM V bool :=
  let! found := in_store (es_read store (handle_id h)) in
  ret (match found with Some _ => true | None => false end).
End base.

(** ** EnvFileCredentialVault *)

(** The file: absent, with a text that does not decode, with another document than an object, or with entries. *)
Inductive env_file : Type :=
| NoFile
| BadText (e : exn)
| NotObject
| Entries (d : dict pyval).
Record EnvFile := { ef_file : env_file; ef_mode : Z }.
Definition PRIVATE_MODE : Z := 384.  (* 0o600 *)
Definition ef_load : M EnvFile exn (dict pyval) := fun f =>
  match ef_file f with
  | NoFile => (Ok [], f)
  | BadText e => (Raise e, f)
  | NotObject => (Raise (Exn CredentialError "env credential file is corrupt"), f)
  | Entries d => (Ok d, f)
  end.
Definition ef_save (d : dict pyval) : M EnvFile exn unit := fun _ =>
  (Ok tt, {| ef_file := Entries d; ef_mode := PRIVATE_MODE |}).
(** The constructor, once the directory exists; [f] is the file as it was. *)
Definition ef_init : M EnvFile exn unit := fun f =>
  match ef_file f with NoFile => ef_save [] f | _ => (Ok tt, f) end.
Definition EnvFileStore : EnvelopeStore EnvFile := {|
  es_write id e := let! d := ef_load in ef_save (dset id e d);
  es_read id := let! d := ef_load in ret (dget id d);
  es_delete id := let! d := ef_load in ef_save (ddel id d) |}.

(** ** KeyringCredentialVault and VaultCredentialVault *)

(** [KeyringBackend] *)
Class KeyringBackend (B : Type) := {
  get_password : string -> string -> M B exn (option pyval);
  set_password : string -> string -> pyval -> M B exn unit;
  delete_password : string -> string -> M B exn unit;
}.
(** [suppress(Exception)] around the deletion. *)
Definition KeyringStore {B} `{KeyringBackend B} (service : string) : EnvelopeStore B := {|
  es_write := set_password service;
  es_read := get_password service;
  es_delete id := catch (delete_password service id) (fun _ => ret tt) |}.
(** [VaultKVClient] *)
Class VaultKVClient (B : Type) := {
  read_secret : string -> M B exn (option pyval);
  write_secret : string -> pyval -> M B exn unit;
  delete_secret : string -> M B exn unit;
}.
Definition VaultStore {B} `{VaultKVClient B} : EnvelopeStore B :=
  {| es_write := write_secret; es_read := read_secret; es_delete := delete_secret |}.

(** ** What a store promises *)

(** The content of a store in good states: a finite map that the methods read and change as they should. *)
Class StorePromise {V} (store : EnvelopeStore V) := {
  content : V -> gmap string pyval;
  good : V -> Prop;
  write_ok : forall id e v, good v ->
    exists v', es_write store id e v = (Ok tt, v') /\ good v' /\ content v' = <[id := e]> (content v);
  read_ok : forall id v, good v -> es_read store id v = (Ok (content v !! id), v);
  delete_ok : forall id v, good v ->
    exists v', es_delete store id v = (Ok tt, v') /\ good v' /\ content v' = delete id (content v);
}.

(** ** The abstract vault *)

Record credential := { cr_value : string; cr_scope : string; cr_expires : option float }.
Record VaultOps (V : Type) := {
  vo_put : Secret -> string -> option float -> VM V SecretHandle;
  vo_get : SecretHandle -> string -> VM V string;
  vo_revoke : SecretHandle -> VM V unit;
  vo_has : SecretHandle -> VM V bool;
}.
Arguments vo_put {V} _ _ _ _.
Arguments vo_get {V} _ _ _.
Arguments vo_revoke {V} _ _.
Arguments vo_has {V} _ _.
Section ops.
Context `{PyRuntime} `{ToolPlatform}.
Definition base_ops {V} (store : EnvelopeStore V) : VaultOps V :=
  {| vo_put := base_put store; vo_get := base_get store; vo_revoke := base_revoke store; vo_has := base_has store |}.

Abbreviation AVault := (gmap string credential).
Definition spec_put (s : Secret) (sc : string) (expires : option float) : VM AVault SecretHandle :=
  if String.eqb sc "" then raise (Exn CredentialScopeError "Credential scope must be non-empty")
  else
    let! id := clock_uuid in
    let! _ := clock_time in
    modify (fun '(a, k) => (<[id := {| cr_value := unwrap s; cr_scope := sc; cr_expires := expires |}]> a, k)) ;;;
    let! now := clock_time in
    ret {| handle_id := id; scope := sc; sh_created_at := now; sh_expires_at := expires |}.
Definition spec_get (h : SecretHandle) (sc : string) : VM AVault string :=
  let! a := gets fst in
  match a !! handle_id h with
  | None => raise (Exn CredentialRevokedError "Credential handle is missing or revoked")
  | Some cr =>
      if negb (String.eqb (cr_scope cr) sc) || negb (String.eqb (scope h) sc)
      then raise (Exn CredentialScopeError "Credential handle scope mismatch")
      else
        let! expired := match cr_expires cr with
                        | None => ret false
                        | Some e => let! now := clock_time in ret (fltb e now)
                        end in
        if expired : bool then raise (Exn CredentialExpiredError "Credential handle has expired") else ret (cr_value cr)
  end.
Definition spec_ops : VaultOps AVault := {|
  vo_put := spec_put; vo_get := spec_get;
  vo_revoke h := modify (fun '(a, k) => (delete (handle_id h) a, k));
  vo_has h := gets (fun '(a, _) => bool_decide (is_Some (a !! handle_id h))) |}.

(** Calls and what they come back with. *)
Inductive bcall : Type :=
| BPut (s : Secret) (sc : string) (expires : option float)
| BGet (h : SecretHandle) (sc : string)
| BRevoke (h : SecretHandle)
| BHas (h : SecretHandle).
Inductive bres : Type := RHandle (h : SecretHandle) | RValue (s : string) | RDone | RBool (b : bool).
Definition do_call {V} (o : VaultOps V) (cl : bcall) : VM V bres :=
  match cl with
  | BPut s sc e => let! h := vo_put o s sc e in ret (RHandle h)
  | BGet h sc => let! v := vo_get o h sc in ret (RValue v)
  | BRevoke h => vo_revoke o h ;;; ret RDone
  | BHas h => let! b := vo_has o h in ret (RBool b)
  end.
(** The results of a sequence of calls, the raised exceptions included. *)
Fixpoint do_calls {V} (o : VaultOps V) (cls : list bcall) (x : V * Clock) : list (res exn bres) * (V * Clock) :=
  match cls with
  | [] => ([], x)
  | cl :: cls' =>
      let (r, x') := do_call o cl x in
      let (rs, x'') := do_calls o cls' x' in (r :: rs, x'')
  end.
End ops.
