(* ===== verification/GitHubClient.v ===== *)
(** The GitHub client (github_tools.py): the protocol [GitHubClient] as a record of
    operations, and its in-memory implementation. *)
From S2P Require Import Prelude Enums PyValue Goals.

(** The operations over client states [C]; the last argument is the token.
    [gc_attrs] are the attributes the attestations read. *)
Record GitHubClient (C : Type) := {
  gc_read_issue : string -> Z -> option string -> M C exn (dict pyval);
  gc_repository_info : string -> option string -> M C exn (dict pyval);
  gc_get_branch : string -> string -> option string -> M C exn (dict pyval);
  gc_get_pr : string -> Z -> option string -> M C exn (dict pyval);
  gc_create_branch : string -> string -> string -> option string -> M C exn (dict pyval);
  gc_delete_branch : string -> string -> option string -> M C exn unit;
  gc_get_file : string -> string -> string -> option string -> M C exn (dict pyval);
  gc_update_file : string -> string -> string -> string -> string -> option string -> option string ->
    option string -> M C exn (dict pyval);
  gc_open_pr : string -> string -> string -> string -> string -> option string -> option string -> M C exn (dict pyval);
  gc_close_pr : string -> Z -> option string -> M C exn unit;
  gc_comment : string -> Z -> string -> option string -> M C exn (dict pyval);
  gc_delete_comment : string -> Z -> option string -> M C exn unit;
  gc_ci_status : string -> string -> option string -> M C exn (dict pyval);
  gc_attrs : C -> dict pyval;
  gc_allows : option (C -> string -> string -> bool);
}.

(** ** In memory *)

(** An entry of [files]; the dictionaries of the others have varying keys. *)
Record GhFile := { gf_path : string; gf_content : string; gf_sha : string }.
#[export] Instance GhFile_eq_dec : EqDecision GhFile.
Proof. solve_decision. Defined.
Definition file_dict (f : GhFile) : dict pyval :=
  [("path", VStr (gf_path f)); ("content", VStr (gf_content f)); ("sha", VStr (gf_sha f))].
Abbreviation file_key := (string * string * string)%type.
Record GhState := {
  gh_issues : gmap (string * Z) (dict pyval);
  gh_branches : gmap (string * string) string;
  gh_files : gmap file_key GhFile;
  gh_prs : gmap (string * Z) (dict pyval);
  gh_comments : gmap Z (dict pyval);
  gh_ci : gmap (string * string) (dict pyval);
  gh_pr_idempotency : gmap (string * string) Z;
  next_pr : Z;
  next_comment : Z;
  accepted_token_count : Z;
  accepted_token_fingerprints : list string;
  repository_private : gmap string bool;
}.
Definition empty_github : GhState := {|
  gh_issues := ∅; gh_branches := ∅; gh_files := ∅; gh_prs := ∅; gh_comments := ∅; gh_ci := ∅;
  gh_pr_idempotency := ∅; next_pr := 1; next_comment := 1; accepted_token_count := 0;
  accepted_token_fingerprints := []; repository_private := ∅ |}.
Definition with_code (b : gmap (string * string) string) (f : gmap file_key GhFile) (s : GhState) : GhState := {|
  gh_issues := gh_issues s; gh_branches := b; gh_files := f; gh_prs := gh_prs s; gh_comments := gh_comments s;
  gh_ci := gh_ci s; gh_pr_idempotency := gh_pr_idempotency s; next_pr := next_pr s; next_comment := next_comment s;
  accepted_token_count := accepted_token_count s; accepted_token_fingerprints := accepted_token_fingerprints s;
  repository_private := repository_private s |}.
Definition with_prs (p : gmap (string * Z) (dict pyval)) (keys : gmap (string * string) Z) (n : Z) (s : GhState) :
    GhState := {|
  gh_issues := gh_issues s; gh_branches := gh_branches s; gh_files := gh_files s; gh_prs := p;
  gh_comments := gh_comments s; gh_ci := gh_ci s; gh_pr_idempotency := keys; next_pr := n;
  next_comment := next_comment s; accepted_token_count := accepted_token_count s;
  accepted_token_fingerprints := accepted_token_fingerprints s; repository_private := repository_private s |}.
Definition with_comments (c : gmap Z (dict pyval)) (n : Z) (s : GhState) : GhState := {|
  gh_issues := gh_issues s; gh_branches := gh_branches s; gh_files := gh_files s; gh_prs := gh_prs s;
  gh_comments := c; gh_ci := gh_ci s; gh_pr_idempotency := gh_pr_idempotency s; next_pr := next_pr s;
  next_comment := n; accepted_token_count := accepted_token_count s;
  accepted_token_fingerprints := accepted_token_fingerprints s; repository_private := repository_private s |}.
Definition with_tokens (n : Z) (l : list string) (s : GhState) : GhState := {|
  gh_issues := gh_issues s; gh_branches := gh_branches s; gh_files := gh_files s; gh_prs := gh_prs s;
  gh_comments := gh_comments s; gh_ci := gh_ci s; gh_pr_idempotency := gh_pr_idempotency s; next_pr := next_pr s;
  next_comment := next_comment s; accepted_token_count := n; accepted_token_fingerprints := l;
  repository_private := repository_private s |}.

Definition protected_branches : list string := ["main"; "master"; "trunk"; "release"].
Definition GITHUB_EGRESS_HOST : string := "api.github.com".

Section memory.
Context `{PyRuntime}.
Notation GM A := (M GhState exn A).

(** [_sha], [_token_fingerprint], [_record_token] *)
Definition content_sha (content : string) : string := sha256_hex content.
Definition token_fingerprint (token : string) : string := String.substring 0 12 (sha256_hex token).
Definition record_token (token : option string) : GM unit := modify (fun s =>
  match token with
  | None => s
  | Some t => with_tokens (accepted_token_count s + 1) (accepted_token_fingerprints s ++ [token_fingerprint t]) s
  end).
(** [d[key]] of a dictionary with tuple keys. *)
Definition must_find {A} (key : pyval) (o : option A) : GM A :=
  match o with Some a => ret a | None => raise (Exn KeyError (py_repr_val key)) end.
Definition pr_key (repo : string) (n : Z) : pyval := VTuple [VStr repo; VInt n].

Definition seed_issue (repo : string) (n : Z) (title body : string) (s : GhState) : GhState := {|
  gh_issues := <[(repo, n) := [("repo", VStr repo); ("number", VInt n); ("title", VStr title); ("body", VStr body)]]>
                 (gh_issues s);
  gh_branches := gh_branches s; gh_files := gh_files s; gh_prs := gh_prs s; gh_comments := gh_comments s;
  gh_ci := gh_ci s; gh_pr_idempotency := gh_pr_idempotency s; next_pr := next_pr s; next_comment := next_comment s;
  accepted_token_count := accepted_token_count s; accepted_token_fingerprints := accepted_token_fingerprints s;
  repository_private := repository_private s |}.
Definition seed_file (repo branch path content : string) (s : GhState) : GhState :=
  let sha := content_sha content in
  with_code (match gh_branches s !! (repo, branch) with
             | Some _ => gh_branches s | None => <[(repo, branch) := sha]> (gh_branches s) end)
    (<[(repo, branch, path) := {| gf_path := path; gf_content := content; gf_sha := sha |}]> (gh_files s)) s.
Definition mem_repository_info (repo : string) (token : option string) : GM (dict pyval) :=
  record_token token ;;;
  let! private := gets (fun s => default true (repository_private s !! repo)) in
  ret [("repo", VStr repo); ("private", VBool private);
       ("visibility", VStr (if private : bool then "private" else "public")); ("default_branch", VStr "main")].
Definition mem_get_branch (repo branch : string) (token : option string) : GM (dict pyval) :=
  record_token token ;;;
  let! sha := gets (fun s => gh_branches s !! (repo, branch)) in
  ret [("repo", VStr repo); ("branch", VStr branch); ("exists", VBool (bool_decide (is_Some sha)));
       ("sha", VStr (default "" sha))].
Definition mem_get_pr (repo : string) (n : Z) (token : option string) : GM (dict pyval) :=
  record_token token ;;;
  let! s := gets id in
  must_find (pr_key repo n) (gh_prs s !! (repo, n)).
Definition mem_read_issue (repo : string) (n : Z) (token : option string) : GM (dict pyval) :=
  record_token token ;;;
  let! s := gets id in
  must_find (pr_key repo n) (gh_issues s !! (repo, n)).
(** The loop of [create_branch] over a copy of the entries of [files]. *)
Fixpoint copy_files (repo branch base : string) (l : list (file_key * GhFile)) (files : gmap file_key GhFile) :
    gmap file_key GhFile :=
  match l with
  | [] => files
  | ((r, b, path), f) :: l' =>
      copy_files repo branch base l'
        (if String.eqb r repo && String.eqb b base then <[(repo, branch, path) := f]> files else files)
  end.
Definition mem_create_branch (repo branch base : string) (token : option string) : GM (dict pyval) :=
  record_token token ;;;
  let! base_sha := gets (fun s => default base (gh_branches s !! (repo, base))) in
  modify (fun s => with_code (<[(repo, branch) := base_sha]> (gh_branches s))
                     (copy_files repo branch base (map_to_list (gh_files s)) (gh_files s)) s) ;;;
  ret [("repo", VStr repo); ("branch", VStr branch); ("base", VStr base); ("sha", VStr base_sha)].
Definition on_branch (repo branch : string) (k : file_key) : Prop := k.1.1 = repo /\ k.1.2 = branch.
#[export] Instance on_branch_dec repo branch k : base.Decision (on_branch repo branch k).
Proof. unfold on_branch. apply _. Defined.
Definition mem_delete_branch (repo branch : string) (token : option string) : GM unit :=
  record_token token ;;;
  if str_mem branch protected_branches
  then raise (Exn LeosError ("Refusing to delete protected branch '" +:+ branch +:+ "'"))
  else modify (fun s => with_code (delete (repo, branch) (gh_branches s))
                          (filter (fun kv => ~ on_branch repo branch kv.1) (gh_files s)) s).
Definition mem_get_file (repo path ref : string) (token : option string) : GM (dict pyval) :=
  record_token token ;;;
  let! s := gets id in
  match gh_files s !! (repo, ref, path) with
  | None => raise (Exn LeosError "GitHub file not found")
  | Some f => ret (file_dict f)
  end.
Definition mem_update_file (repo path branch content message : string) (expected_sha expected_previous : option string)
    (token : option string) : GM (dict pyval) :=
  record_token token ;;;
  let key := (repo, branch, path) in
  let! previous := gets (fun s => gh_files s !! key) in
  if match expected_sha with Some e => negb (bool_decide (gf_sha <$> previous = Some e)) | None => false end
  then raise (Exn LeosError "expected_sha mismatch")
  else if match expected_previous with Some e => negb (String.eqb (from_option gf_content "" previous) e) | None => false end
  then raise (Exn LeosError "expected_previous mismatch")
  else
    let sha := content_sha content in
    modify (fun s => with_code (<[(repo, branch) := sha]> (gh_branches s))
                       (<[key := {| gf_path := path; gf_content := content; gf_sha := sha |}]> (gh_files s)) s) ;;;
    ret [("repo", VStr repo); ("path", VStr path); ("branch", VStr branch); ("sha", VStr sha);
         ("previous", match previous with Some f => VDict (file_dict f) | None => VNone end)].
(** An idempotency key is used only if it is not empty. *)
Definition used_key (key : option string) : option string :=
  match key with Some k => if String.eqb k "" then None else Some k | None => None end.
Definition mem_open_pr (repo title body head base : string) (key : option string) (token : option string) :
    GM (dict pyval) :=
  record_token token ;;;
  let! s := gets id in
  match used_key key ≫= fun k => gh_pr_idempotency s !! (repo, k) with
  | Some number => must_find (pr_key repo number) (gh_prs s !! (repo, number))
  | None =>
      let number := next_pr s in
      let pr := [("repo", VStr repo); ("number", VInt number); ("title", VStr title); ("body", VStr body);
                 ("head", VStr head); ("base", VStr base); ("state", VStr "open");
                 ("idempotency_key", match key with Some k => VStr k | None => VNone end)] in
      modify (fun s => with_prs (<[(repo, number) := pr]> (gh_prs s))
                         (match used_key key with
                          | Some k => <[(repo, k) := number]> (gh_pr_idempotency s) | None => gh_pr_idempotency s end)
                         (number + 1) s) ;;;
      ret pr
  end.
Definition mem_close_pr (repo : string) (n : Z) (token : option string) : GM unit :=
  record_token token ;;;
  let! s := gets id in
  let! pr := must_find (pr_key repo n) (gh_prs s !! (repo, n)) in
  modify (fun s => with_prs (<[(repo, n) := dset "state" (VStr "closed") pr]> (gh_prs s)) (gh_pr_idempotency s) (next_pr s) s).
Definition mem_comment (repo : string) (issue : Z) (body : string) (token : option string) : GM (dict pyval) :=
  record_token token ;;;
  let! n := gets next_comment in
  let c := [("id", VInt n); ("repo", VStr repo); ("issue_number", VInt issue); ("body", VStr body)] in
  modify (fun s => with_comments (<[n := c]> (gh_comments s)) (n + 1) s) ;;;
  ret c.
Definition mem_delete_comment (repo : string) (n : Z) (token : option string) : GM unit :=
  record_token token ;;;
  modify (fun s => with_comments (delete n (gh_comments s)) (next_comment s) s).
Definition mem_ci_status (repo ref : string) (token : option string) : GM (dict pyval) :=
  record_token token ;;;
  gets (fun s => default [("repo", VStr repo); ("ref", VStr ref); ("state", VStr "unknown")] (gh_ci s !! (repo, ref))).
Definition runtime_allows_egress (host method : string) : bool :=
  String.eqb host GITHUB_EGRESS_HOST && str_mem (py_upper method) ["GET"; "POST"; "PATCH"; "PUT"; "DELETE"].
Definition runtime_egress_attrs : dict pyval :=
  [("runtime_egress_enforced", VBool true); ("runtime_egress_policy_configured", VBool true);
   ("runtime_egress_mode", VStr "in_memory"); ("runtime_egress_host", VStr GITHUB_EGRESS_HOST)].

Definition InMemoryGitHubClient : GitHubClient GhState := {|
  gc_read_issue := mem_read_issue; gc_repository_info := mem_repository_info; gc_get_branch := mem_get_branch;
  gc_get_pr := mem_get_pr; gc_create_branch := mem_create_branch; gc_delete_branch := mem_delete_branch;
  gc_get_file := mem_get_file; gc_update_file := mem_update_file; gc_open_pr := mem_open_pr;
  gc_close_pr := mem_close_pr; gc_comment := mem_comment; gc_delete_comment := mem_delete_comment;
  gc_ci_status := mem_ci_status; gc_attrs := fun _ => runtime_egress_attrs;
  gc_allows := Some (fun _ => runtime_allows_egress) |}.
End memory.
Arguments gc_read_issue {C} _ _ _ _.
Arguments gc_repository_info {C} _ _ _.
Arguments gc_get_branch {C} _ _ _ _.
Arguments gc_get_pr {C} _ _ _ _.
Arguments gc_create_branch {C} _ _ _ _ _.
Arguments gc_delete_branch {C} _ _ _ _.
Arguments gc_get_file {C} _ _ _ _ _.
Arguments gc_update_file {C} _ _ _ _ _ _ _ _ _.
Arguments gc_open_pr {C} _ _ _ _ _ _ _ _.
Arguments gc_close_pr {C} _ _ _ _.
Arguments gc_comment {C} _ _ _ _ _.
Arguments gc_delete_comment {C} _ _ _ _.
Arguments gc_ci_status {C} _ _ _ _.
Arguments gc_attrs {C} _ _.
Arguments gc_allows {C} _.
