(* ===== verification/GitHubRest.v ===== *)
(** The GitHub REST client (github_client.py): the requests it makes over any transport, the guard before every
    request, and the errors it makes of the responses; and the GitHub App authentication (github_app_auth.py).

    [hostname] stands for [urlparse(url).hostname].  An error carries, besides the exception, the
    [status_code] that only the GitHub errors have. *)
From S2P Require Import Prelude Enums PyValue FileSystem PyText Goals Egress Credentials GitHubClient.


Definition BODY_PREVIEW_LIMIT : nat := 512.
Definition DEFAULT_BASE_URL : string := "https://api.github.com".
Definition PROTECTED_BRANCHES : list string := ["main"; "master"; "trunk"; "release"].

Record GitHubHTTPResponse := { status_code : Z; body : string; headers : dict string }.
Record HTTPRequest := {
  rq_method : string; rq_url : string; rq_headers : dict string; rq_body : option string; rq_timeout : float;
}.
Record api_error := { ae_exn : exn; ae_status : option Z; ae_preview : option string }.
(** [GitHubAPIError.__str__] *)
Definition api_message (msg : string) (status : option Z) : string :=
  match status with None => msg | Some n => msg +:+ " (status=" +:+ str_Z n +:+ ")" end.
Definition api_exn (c : exn_class) (msg : string) (status : option Z) (preview : option string) : api_error :=
  {| ae_exn := Exn c (api_message msg status); ae_status := status; ae_preview := preview |}.
Definition plain (e : exn) : api_error := {| ae_exn := e; ae_status := None; ae_preview := None |}.
Definition api_plain (c : exn_class) (msg : string) : api_error := api_exn c msg None None.

Abbreviation RM C A := (M C api_error A).
(** [GitHubTransport] *)
Class GitHubTransport (C : Type) := { transport_request : HTTPRequest -> RM C GitHubHTTPResponse }.

(** [UrllibGitHubTransport] over the outcomes of [urllib.request.urlopen]. *)
Inductive url_outcome : Type :=
| Opened (r : GitHubHTTPResponse)
| HTTPErrorRaised (code : Z) (content : string) (hs : option (dict string))
| URLErrorRaised (text : string)
| OtherRaised (e : exn).
Definition safe_message (msg : string) : string :=
  str_join "" (take BODY_PREVIEW_LIMIT (py_chars (str_replace LF_str " " msg) "")).
Definition urllib_request (o : url_outcome) : res api_error GitHubHTTPResponse :=
  match o with
  | Opened r => Ok r
  | HTTPErrorRaised code content hs => Ok {| status_code := code; body := content; headers := default [] hs |}
  | URLErrorRaised text => Raise (api_plain GitHubAPIError ("GitHub request failed: " +:+ safe_message text))
  | OtherRaised e => Raise (plain e)
  end.

Record GitHubRESTClient := {
  base_url : string;
  timeout_seconds : float;
  user_agent : string;
  enforce_egress : bool;
  egress_guard : RuntimeEgressGuard;
}.
(** [__init__]; [given] is the argument [egress_guard]. *)
Definition rest_client_new (url : string) (timeout : float) (agent : string) (p : option EgressPolicy) (enforce : bool)
    (given : option RuntimeEgressGuard) : GitHubRESTClient := {|
  base_url := rstrip_char "/" url; timeout_seconds := timeout; user_agent := agent; enforce_egress := enforce;
  egress_guard := default {| reg_policy := p; reg_allow_unrestricted := false |} given |}.

(** ** Names *)

Definition parse_repo (repo : string) : res api_error (string * string) :=
  if str_in "://" repo then Raise (plain (Exn ValueError "repo must be owner/name, not a URL"))
  else if String.prefix "/" repo || ends_with "/" repo || str_in ".." repo
  then Raise (plain (Exn ValueError "repo must be a safe owner/name"))
  else
    let no_char := fun _ : ascii => false in
    match split_slash repo with
    | [a; b] => if String.eqb a "" || String.eqb b "" then Raise (plain (Exn ValueError "repo must be owner/name"))
                else Ok (quote no_char a, quote no_char b)
    | _ => Raise (plain (Exn ValueError "repo must be owner/name"))
    end.
Definition unsafe_name (s : string) : bool := String.eqb s "" || String.prefix "/" s || str_in ".." s.
Definition validate_branch (branch : string) : res api_error unit :=
  if unsafe_name branch then Raise (api_plain GitHubAPIError "Unsafe GitHub branch name") else Ok tt.
Definition validate_ref (ref : string) : res api_error unit :=
  if unsafe_name ref then Raise (api_plain GitHubAPIError "Unsafe GitHub ref") else Ok tt.
Definition validate_path (p : string) : res api_error unit :=
  if String.eqb p "" || String.prefix "/" p || str_mem ".." (split_slash p)
  then Raise (api_plain GitHubAPIError "Unsafe GitHub path") else Ok tt.
Definition quote_path (p : string) : string := quote (Ascii.eqb "/") p.

(** ** Responses *)

Section rest.
Context `{PyRuntime} `{JsonText} (hostname : string -> option string) {C : Type} `{GitHubTransport C}.

(** [_body_preview]: the token is redacted in what is left of the body after it was cut. *)
Definition body_preview (content : string) (token : option string) : string :=
  let preview := decode_prefix BODY_PREVIEW_LIMIT content in
  match token with
  | Some t => if String.eqb t "" then preview else str_replace t "<redacted>" preview
  | None => preview
  end.
Definition extract_error_message (preview : string) : string :=
  match json_loads preview with
  | inr (VDict d) => py_str (dget_or "message" (VStr preview) d)
  | _ => preview
  end.
(** [_header] *)
Fixpoint header (hs : dict string) (name : string) : option string :=
  match hs with
  | [] => None
  | (k, v) :: hs' => if String.eqb (py_lower k) (py_lower name) then Some v else header hs' name
  end.
Definition or_text (msg dflt : string) : string := if String.eqb msg "" then dflt else msg.
Definition raise_for_response (r : GitHubHTTPResponse) (token : option string) : api_error :=
  let preview := body_preview (body r) token in
  let msg := extract_error_message preview in
  let status := status_code r in
  let err c dflt := api_exn c (or_text msg dflt) (Some status) (Some preview) in
  if (status =? 403)%Z && bool_decide (header (headers r) "x-ratelimit-remaining" = Some "0")
  then err GitHubRateLimitError "GitHub rate limit exceeded"
  else if (status =? 401)%Z || (status =? 403)%Z then err GitHubAuthError "GitHub authentication failed"
  else if (status =? 404)%Z then err GitHubNotFoundError "GitHub resource not found"
  else if (status =? 409)%Z then err GitHubConflictError "GitHub conflict"
  else err GitHubAPIError "GitHub API request failed".
Definition parse_response (r : GitHubHTTPResponse) (token : option string) : res api_error pyval :=
  if negb ((200 <=? status_code r)%Z && (status_code r <? 300)%Z) then Raise (raise_for_response r token)
  else if String.eqb (body r) "" then Ok (VDict [])
  else
    let bad := Raise (api_exn GitHubAPIError "GitHub response was not valid JSON" (Some (status_code r)) None) in
    if utf8_valid (body r) then match json_loads (body r) with inr v => Ok v | inl _ => bad end else bad.

(** ** Requests *)

Definition json_text (d : dict pyval) : string := json_flat json_string_ascii (VDict d).
Definition make_request (c : GitHubRESTClient) (method path : string) (token : option string)
    (json_body : option (dict pyval)) : HTTPRequest := {|
  rq_method := method; rq_url := base_url c +:+ path;
  rq_headers := [("Accept", "application/vnd.github+json"); ("User-Agent", user_agent c);
                 ("X-GitHub-Api-Version", "2022-11-28")] ++
                match json_body with Some _ => [("Content-Type", "application/json")] | None => [] end ++
                match token with Some t => [("Authorization", "Bearer " +:+ t)] | None => [] end;
  rq_body := json_text <$> json_body; rq_timeout := timeout_seconds c |}.
Definition guard_request (c : GitHubRESTClient) (rq : HTTPRequest) : RM C unit :=
  if enforce_egress c
  then match require_url hostname (egress_guard c) (rq_url rq) (rq_method rq) with
       | Ok _ => ret tt
       | Raise e => raise (plain e)
       end
  else ret tt.
(** [_request_json] *)
Definition request_json (c : GitHubRESTClient) (method path : string) (token : option string)
    (json_body : option (dict pyval)) : RM C pyval :=
  let rq := make_request c method path token json_body in
  guard_request c rq ;;;
  let! r := transport_request rq in
  of_res (parse_response r token).

(** [data.get(k, dflt)] *)
Definition get_of (k : string) (dflt v : pyval) : RM C pyval :=
  match v with
  | VDict d => ret (dget_or k dflt d)
  | _ => raise (plain (Exn AttributeError ("'" +:+ type_name v +:+ "' object has no attribute 'get'")))
  end.
Definition py_call {A} (r : res exn A) : RM C A := match r with Ok a => ret a | Raise e => raise (plain e) end.
Definition is_api (c : exn_class) (e : api_error) : bool := isinstance (ae_exn e) c.
(** [data.get("object", {}).get("sha", dflt)] as a string *)
Definition object_sha (dflt : string) (v : pyval) : RM C string :=
  let! o := get_of "object" (VDict []) v in
  let! s := get_of "sha" (VStr dflt) o in
  ret (py_str s).
Definition repos (owner repo_name rest : string) : string := "/repos/" +:+ owner +:+ "/" +:+ repo_name +:+ rest.

Context (c : GitHubRESTClient).
Definition rest_read_issue (repo : string) (n : Z) (token : option string) : RM C (dict pyval) :=
  let! (owner, nm) := of_res (parse_repo repo) in
  let! d := request_json c "GET" (repos owner nm ("/issues/" +:+ str_Z n)) token None in
  let! number := get_of "number" (VInt n) d in
  let! title := get_of "title" (VStr "") d in
  let! text := get_of "body" (VStr "") d in
  let! state := get_of "state" (VStr "unknown") d in
  let! url := get_of "html_url" (VStr "") d in
  ret [("repo", VStr repo); ("number", number); ("title", title); ("body", text); ("state", state); ("html_url", url)].
Definition rest_repository_info (repo : string) (token : option string) : RM C (dict pyval) :=
  let! (owner, nm) := of_res (parse_repo repo) in
  let! d := request_json c "GET" (repos owner nm "") token None in
  let! p := get_of "private" (VBool false) d in
  let private := truthy p in
  let! v := get_of "visibility" (VStr (if private then "private" else "public")) d in
  let! b := get_of "default_branch" (VStr "") d in
  ret [("repo", VStr repo); ("private", VBool private); ("visibility", VStr (py_str v)); ("default_branch", VStr (py_str b))].
Definition branch_ref (owner nm branch : string) : string := repos owner nm ("/git/ref/heads/" +:+ quote_path branch).
Definition rest_get_branch (repo branch : string) (token : option string) : RM C (dict pyval) :=
  let! (owner, nm) := of_res (parse_repo repo) in
  of_res (validate_branch branch) ;;;
  let! found := catch (let! d := request_json c "GET" (branch_ref owner nm branch) token None in ret (Some d))
                  (fun e => if is_api GitHubNotFoundError e then ret None else raise e) in
  match found with
  | None => ret [("repo", VStr repo); ("branch", VStr branch); ("exists", VBool false); ("sha", VStr "")]
  | Some d =>
      let! sha := object_sha "" d in
      ret [("repo", VStr repo); ("branch", VStr branch); ("exists", VBool true); ("sha", VStr sha)]
  end.
(** [str(v.get("ref", "")) if isinstance(v, Mapping) else str(v)] *)
Definition ref_text (v : pyval) : pyval :=
  VStr (match v with VDict d => py_str (dget_or "ref" (VStr "") d) | _ => py_str v end).
Definition rest_get_pr (repo : string) (n : Z) (token : option string) : RM C (dict pyval) :=
  let! (owner, nm) := of_res (parse_repo repo) in
  let! d := request_json c "GET" (repos owner nm ("/pulls/" +:+ str_Z n)) token None in
  let! head := get_of "head" (VDict []) d in
  let! base := get_of "base" (VDict []) d in
  let! number := get_of "number" (VInt n) d in
  let! k := py_call (py_int number) in
  let! state := get_of "state" (VStr "unknown") d in
  let! url := get_of "html_url" (VStr "") d in
  ret [("repo", VStr repo); ("number", VInt k); ("state", VStr (py_str state)); ("head", ref_text head);
       ("base", ref_text base); ("html_url", VStr (py_str url))].
Definition branch_dict (repo branch base sha : string) (exists_ : bool) : dict pyval :=
  [("repo", VStr repo); ("branch", VStr branch); ("base", VStr base); ("sha", VStr sha); ("already_exists", VBool exists_)].
Definition rest_create_branch (repo branch base : string) (token : option string) : RM C (dict pyval) :=
  let! (owner, nm) := of_res (parse_repo repo) in
  of_res (validate_branch branch) ;;;
  of_res (validate_branch base) ;;;
  let! b := request_json c "GET" (branch_ref owner nm base) token None in
  let! base_sha := object_sha "" b in
  if String.eqb base_sha "" then raise (api_plain GitHubAPIError "GitHub base branch response did not include a SHA")
  else
    let! created :=
      catch (let! d := request_json c "POST" (repos owner nm "/git/refs") token
                         (Some [("ref", VStr ("refs/heads/" +:+ branch)); ("sha", VStr base_sha)]) in
             let! sha := object_sha base_sha d in
             ret (Some (branch_dict repo branch base sha false)))
        (fun e => if is_api GitHubAPIError e && bool_decide (ae_status e = Some 422%Z) then ret None else raise e) in
    match created with
    | Some d => ret d
    | None =>
        let! existing := request_json c "GET" (branch_ref owner nm branch) token None in
        let! sha := object_sha base_sha existing in
        ret (branch_dict repo branch base sha true)
    end.
(** [try: ... except GitHubNotFoundError: return] *)
Definition ignore_missing (m : RM C pyval) : RM C unit :=
  catch (let! _ := m in ret tt) (fun e => if is_api GitHubNotFoundError e then ret tt else raise e).
Definition rest_delete_branch (repo branch : string) (token : option string) : RM C unit :=
  let! (owner, nm) := of_res (parse_repo repo) in
  of_res (validate_branch branch) ;;;
  if str_mem branch PROTECTED_BRANCHES
  then raise (api_plain GitHubConflictError ("Refusing to delete protected branch '" +:+ branch +:+ "'"))
  else ignore_missing (request_json c "DELETE" (repos owner nm ("/git/refs/heads/" +:+ quote_path branch)) token None).
(** The content of a file in the response: base64 of UTF-8, with line breaks. *)
Definition decode_content (encoded : string) : res api_error string :=
  let bad := Raise (api_plain GitHubAPIError "GitHub file content could not be decoded as UTF-8") in
  match b64decode (str_replace LF_str "" encoded) with
  | Ok raw => if utf8_valid raw then Ok raw else bad
  | Raise _ => bad
  end.
Definition contents (owner nm p query : string) : string := repos owner nm ("/contents/" +:+ quote_path p +:+ query).
Definition rest_get_file (repo p ref : string) (token : option string) : RM C (dict pyval) :=
  let! (owner, nm) := of_res (parse_repo repo) in
  of_res (validate_path p) ;;;
  of_res (validate_ref ref) ;;;
  let! d := request_json c "GET" (contents owner nm p ("?" +:+ urlencode [("ref", ref)])) token None in
  let! encoded := get_of "content" (VStr "") d in
  let! encoding := get_of "encoding" (VStr "") d in
  if negb (String.eqb (py_str encoding) "base64")
  then raise (api_plain GitHubAPIError "GitHub file content was not base64 encoded")
  else
    let! content := of_res (decode_content (py_str encoded)) in
    let! sha := get_of "sha" (VStr "") d in
    ret [("repo", VStr repo); ("path", VStr p); ("ref", VStr ref); ("content", VStr content); ("sha", sha);
         ("encoding", VStr "base64")].
Definition mismatch : api_error := api_plain GitHubConflictError "expected_previous mismatch".
(** The optimistic guard of [update_file]: the previous file and the sha to send. *)
Definition check_previous (repo p branch : string) (expected_sha expected_previous token : option string) :
    RM C (option (dict pyval) * option string) :=
  match expected_previous with
  | None => ret (None, expected_sha)
  | Some wanted =>
      let! found := catch (let! d := rest_get_file repo p branch token in ret (Some d))
                      (fun e => if is_api GitHubNotFoundError e
                                then (if String.eqb wanted "" then ret None else raise mismatch) else raise e) in
      match found with
      | None => ret (None, expected_sha)
      | Some d =>
          if py_neq (dget_or "content" VNone d) (VStr wanted) then raise mismatch
          else ret (Some d, Some (py_str (dget_or "sha" (VStr "") d)))
      end
  end.
Definition rest_update_file (repo p branch content message : string)
    (expected_sha expected_previous token : option string) : RM C (dict pyval) :=
  let! (owner, nm) := of_res (parse_repo repo) in
  of_res (validate_path p) ;;;
  of_res (validate_branch branch) ;;;
  if String.eqb message "" then raise (api_plain GitHubAPIError "GitHub update_file requires a non-empty commit message")
  else match expected_sha, expected_previous with
  | None, None => raise (api_plain GitHubConflictError "expected_sha or expected_previous is required")
  | _, _ =>
      let! (previous, sha) := check_previous repo p branch expected_sha expected_previous token in
      let! d := request_json c "PUT" (contents owner nm p "") token
        (Some ([("message", VStr message); ("content", VStr (b64encode content)); ("branch", VStr branch)] ++
               match sha with Some s => if String.eqb s "" then [] else [("sha", VStr s)] | None => [] end)) in
      let! co := get_of "content" (VDict []) d in
      let! sha' := get_of "sha" (VStr "") co in
      let! cm := get_of "commit" (VDict []) d in
      let! csha := get_of "sha" (VStr "") cm in
      ret [("repo", VStr repo); ("path", VStr p); ("branch", VStr branch); ("sha", sha'); ("commit_sha", csha);
           ("previous", match previous with Some x => VDict x | None => VNone end)]
  end.
(** [_idempotency_marker] *)
Definition idempotency_marker (key : option string) : option string :=
  match key with
  | Some k => if String.eqb k "" then None else Some ("<!-- leos-idempotency-key: " +:+ k +:+ " -->")
  | None => None
  end.
Definition pr_payload (repo : string) (v : pyval) (key : option string) (exists_ : bool) : RM C (dict pyval) :=
  let! number := get_of "number" VNone v in
  let! title := get_of "title" (VStr "") v in
  let! state := get_of "state" (VStr "unknown") v in
  let! url := get_of "html_url" (VStr "") v in
  ret [("repo", VStr repo); ("number", number); ("title", title); ("state", state); ("html_url", url);
       ("idempotency_key", match key with Some k => VStr k | None => VNone end); ("already_exists", VBool exists_)].
(** The first open pull request whose body has the marker. *)
Definition marked (marker : string) (v : pyval) : bool :=
  match v with VDict d => str_in marker (py_str (dget_or "body" (VStr "") d)) | _ => false end.
Definition find_existing (owner nm head base : string) (marker : option string) (token : option string) :
    RM C (option pyval) :=
  match marker with
  | None => ret None
  | Some mk =>
      let! l := request_json c "GET" (repos owner nm ("/pulls?" +:+
                  urlencode [("state", "open"); ("head", owner +:+ ":" +:+ head); ("base", base)])) token None in
      ret (match l with VList prs => List.find (marked mk) prs | _ => None end)
  end.
Definition rest_open_pr (repo title text head base : string) (key token : option string) : RM C (dict pyval) :=
  let! (owner, nm) := of_res (parse_repo repo) in
  of_res (validate_branch head) ;;;
  of_res (validate_branch base) ;;;
  let marker := idempotency_marker key in
  let! existing := find_existing owner nm head base marker token in
  match existing with
  | Some pr => pr_payload repo pr key true
  | None =>
      let full_body := match marker with
                       | Some mk => if str_in mk text then text else text +:+ LF_str +:+ LF_str +:+ mk
                       | None => text
                       end in
      let! created := request_json c "POST" (repos owner nm "/pulls") token
        (Some [("title", VStr title); ("body", VStr full_body); ("head", VStr head); ("base", VStr base)]) in
      pr_payload repo created key false
  end.
Definition rest_close_pr (repo : string) (n : Z) (token : option string) : RM C unit :=
  let! (owner, nm) := of_res (parse_repo repo) in
  let! _ := request_json c "PATCH" (repos owner nm ("/pulls/" +:+ str_Z n)) token (Some [("state", VStr "closed")]) in
  ret tt.
Definition rest_comment (repo : string) (n : Z) (text : string) (token : option string) : RM C (dict pyval) :=
  let! (owner, nm) := of_res (parse_repo repo) in
  let! d := request_json c "POST" (repos owner nm ("/issues/" +:+ str_Z n +:+ "/comments")) token
              (Some [("body", VStr text)]) in
  let! id := get_of "id" VNone d in
  let! url := get_of "html_url" (VStr "") d in
  ret [("repo", VStr repo); ("id", id); ("issue_number", VInt n); ("body", VStr text); ("html_url", url)].
Definition rest_delete_comment (repo : string) (id : Z) (token : option string) : RM C unit :=
  let! (owner, nm) := of_res (parse_repo repo) in
  ignore_missing (request_json c "DELETE" (repos owner nm ("/issues/comments/" +:+ str_Z id)) token None).
Definition rest_ci_status (repo ref : string) (token : option string) : RM C (dict pyval) :=
  let! (owner, nm) := of_res (parse_repo repo) in
  of_res (validate_ref ref) ;;;
  let! d := request_json c "GET" (repos owner nm ("/commits/" +:+ quote (fun _ => false) ref +:+ "/status")) token None in
  let! st := get_of "state" (VStr "unknown") d in
  let state := py_str st in
  let! statuses := get_of "statuses" (VList []) d in
  ret [("repo", VStr repo); ("ref", VStr ref);
       ("state", VStr (if str_mem state ["success"; "failure"; "pending"; "error"] then state else "unknown"));
       ("statuses", statuses)].

(** ** The client as a [GitHubClient] *)

Definition at_boundary {A} (m : RM C A) : M C exn A := fun s =>
  match m s with (Ok a, s') => (Ok a, s') | (Raise e, s') => (Raise (ae_exn e), s') end.
Definition rest_allows_egress (host method : string) : bool :=
  match reg_policy (egress_guard c) with Some p => allows p host method | None => false end.
Definition rest_attrs : dict pyval :=
  [("runtime_egress_enforced", VBool (enforce_egress c));
   ("runtime_egress_policy_configured", VBool (match reg_policy (egress_guard c) with Some _ => true | None => false end));
   ("runtime_egress_mode", VStr (if enforce_egress c then "enforced" else "unrestricted"));
   ("runtime_egress_host", VStr (py_lower (default "" (hostname (base_url c)))))].
Definition rest_client : GitHubClient C := {|
  gc_read_issue r n t := at_boundary (rest_read_issue r n t);
  gc_repository_info r t := at_boundary (rest_repository_info r t);
  gc_get_branch r b t := at_boundary (rest_get_branch r b t);
  gc_get_pr r n t := at_boundary (rest_get_pr r n t);
  gc_create_branch r b x t := at_boundary (rest_create_branch r b x t);
  gc_delete_branch r b t := at_boundary (rest_delete_branch r b t);
  gc_get_file r p x t := at_boundary (rest_get_file r p x t);
  gc_update_file r p b x m es ep t := at_boundary (rest_update_file r p b x m es ep t);
  gc_open_pr r ti x h b k t := at_boundary (rest_open_pr r ti x h b k t);
  gc_close_pr r n t := at_boundary (rest_close_pr r n t);
  gc_comment r n x t := at_boundary (rest_comment r n x t);
  gc_delete_comment r n t := at_boundary (rest_delete_comment r n t);
  gc_ci_status r x t := at_boundary (rest_ci_status r x t);
  gc_attrs := fun _ => rest_attrs;
  gc_allows := Some (fun _ => rest_allows_egress) |}.
End rest.

(** * GitHub App authentication (github_app_auth.py): short-lived installation tokens, cached until shortly before they expire,
    and the precedence of the configured credentials.

    The signing of the JWT, the parsing of ISO dates, the clock and the key file are interfaces. *)


Definition APP_ID_ENV : string := "LEOS_GITHUB_APP_ID".
Definition INSTALLATION_ID_ENV : string := "LEOS_GITHUB_APP_INSTALLATION_ID".
Definition PRIVATE_KEY_PATH_ENV : string := "LEOS_GITHUB_APP_PRIVATE_KEY_PATH".
Definition PAT_ENV : string := "LEOS_GITHUB_TOKEN".
Definition JWT_LIFETIME_SECONDS : float := f_of_Z 540.
Definition JWT_BACKDATE_SECONDS : float := f_of_Z 60.

Class AppPlatform := {
  app_clock : nat -> float;                                     (** the n-th call of the clock *)
  jwt_encode : dict pyval -> string -> res exn string;          (** [_jwt_encoder or _pyjwt_encoder] *)
  iso_timestamp : string -> option float;                       (** [datetime.fromisoformat(s).timestamp()] *)
  read_key_file : string -> res exn string;
}.

Record GitHubAppTokenProvider := {
  app_id : string;
  installation_id : string;
  private_key : string;
  app_base_url : string;
  refresh_skew_seconds : float;
  app_timeout_seconds : float;
  cached_token : option string;
  cached_expires_at : float;
}.
Definition with_cached (t : string) (e : float) (p : GitHubAppTokenProvider) : GitHubAppTokenProvider := {|
  app_id := app_id p; installation_id := installation_id p; private_key := private_key p; app_base_url := app_base_url p;
  refresh_skew_seconds := refresh_skew_seconds p; app_timeout_seconds := app_timeout_seconds p;
  cached_token := Some t; cached_expires_at := e |}.
Definition auth_error (msg : string) : exn := Exn GitHubAppAuthError msg.
(** [__init__] with the default options. *)
Definition app_provider_new (id inst key : string) : res exn GitHubAppTokenProvider :=
  if String.eqb id "" || String.eqb inst "" then Raise (auth_error "app_id and installation_id are required")
  else Ok {| app_id := id; installation_id := inst; private_key := key; app_base_url := rstrip_char "/" DEFAULT_BASE_URL;
             refresh_skew_seconds := f_of_Z 60; app_timeout_seconds := f_of_Z 30; cached_token := None;
             cached_expires_at := fzero |}.

Section auth.
Context `{PyRuntime} `{JsonText} `{AppPlatform} {C : Type} `{GitHubTransport C}.

Definition env_get (k : string) (env : dict string) : string := default "" (dget k env).
Definition provider_from_env (env : dict string) : res exn GitHubAppTokenProvider :=
  let id := env_get APP_ID_ENV env in
  let inst := env_get INSTALLATION_ID_ENV env in
  let key_path := env_get PRIVATE_KEY_PATH_ENV env in
  match List.filter (fun kv => String.eqb kv.2 "")
          [(APP_ID_ENV, id); (INSTALLATION_ID_ENV, inst); (PRIVATE_KEY_PATH_ENV, key_path)] with
  | (_ :: _) as missing =>
      Raise (auth_error ("incomplete GitHub App configuration; missing: " +:+ str_join ", " (map fst missing)))
  | [] =>
      match read_key_file key_path with
      | Ok key => app_provider_new id inst key
      | Raise e => if isinstance e OSError
                   then Raise (auth_error ("could not read the App private key file: " +:+ exn_name (exn_cls e))) else Raise e
      end
  end.

(** The transport's state, the number of clock readings and the providers of [_provider_cache]. *)
Record AuthState := {
  au_transport : C;
  au_clock : nat;
  au_providers : gmap (list string) GitHubAppTokenProvider;
}.
Abbreviation AM A := (M AuthState exn A).
Definition with_transport (x : C) (s : AuthState) : AuthState :=
  {| au_transport := x; au_clock := au_clock s; au_providers := au_providers s |}.
Definition clock_now : AM float := fun s =>
  (Ok (app_clock (au_clock s)), {| au_transport := au_transport s; au_clock := S (au_clock s); au_providers := au_providers s |}).
Definition send_request (rq : HTTPRequest) : AM GitHubHTTPResponse := fun s =>
  match transport_request rq (au_transport s) with
  | (Ok r, x) => (Ok r, with_transport x s)
  | (Raise e, x) => (Raise (ae_exn e), with_transport x s)
  end.

Definition app_jwt (p : GitHubAppTokenProvider) (now : float) : res exn string :=
  res_bind (int_of_float (fsub now JWT_BACKDATE_SECONDS)) (fun iat =>
  res_bind (int_of_float (fadd now JWT_LIFETIME_SECONDS)) (fun exp =>
  jwt_encode [("iat", VInt iat); ("exp", VInt exp); ("iss", VStr (app_id p))] (private_key p))).
Definition parse_expires_at (value : string) (fallback : float) : float :=
  default fallback (iso_timestamp (str_replace "Z" "+00:00" value)).
Definition malformed : exn := auth_error "installation token response was malformed".
(** [payload[k]] *)
Definition py_subscript (v : pyval) (k : string) : res exn pyval :=
  match v with
  | VDict d => dget_item k d
  | _ => Raise (Exn TypeError ("'" +:+ type_name v +:+ "' object cannot be indexed by a string"))
  end.
(** The body of the [try] that reads the response. *)
Definition read_token_payload (text : string) (now : float) : res exn (string * float) :=
  res_bind (decode_utf8 text) (fun t =>
  res_bind (match json_loads t with inr v => Ok v | inl msg => Raise (Exn JSONDecodeError msg) end) (fun payload =>
  res_bind (py_subscript payload "token") (fun tv =>
  res_bind (py_subscript payload "expires_at") (fun ev =>
  Ok (py_str tv, parse_expires_at (py_str ev) (fadd now (f_of_Z 3300))))))).
Definition exchange (p : GitHubAppTokenProvider) (now : float) : AM (string * float) :=
  let! jwt := of_res (app_jwt p now) in
  let! r := send_request {|
    rq_method := "POST";
    rq_url := app_base_url p +:+ "/app/installations/" +:+ installation_id p +:+ "/access_tokens";
    rq_headers := [("Authorization", "Bearer " +:+ jwt); ("Accept", "application/vnd.github+json");
                   ("User-Agent", "leos-agent/0.1")];
    rq_body := None; rq_timeout := app_timeout_seconds p |} in
  if negb (status_code r =? 201)%Z
  then raise (auth_error ("installation token exchange failed with HTTP " +:+ str_Z (status_code r)))
  else
    match read_token_payload (body r) now with
    | Raise e => if isinstance e ValueError || isinstance e KeyError then raise malformed else raise e
    | Ok (t, e) => if String.eqb t "" then raise malformed else ret (t, e)
    end.
(** [token()], with the provider as it is afterwards. *)
Definition fresh (p : GitHubAppTokenProvider) (now : float) : option string :=
  match cached_token p with
  | Some t => if fltb now (fsub (cached_expires_at p) (refresh_skew_seconds p)) then Some t else None
  | None => None
  end.
Definition provider_token (p : GitHubAppTokenProvider) : AM (string * GitHubAppTokenProvider) :=
  let! now := clock_now in
  match fresh p now with
  | Some t => ret (t, p)
  | None => let! x := exchange p now in ret (fst x, with_cached (fst x) (snd x) p)
  end.

(** [resolve_github_credential]; a provider is cached under the three values of its configuration. *)
Definition keep_provider (k : list string) (p : GitHubAppTokenProvider) : AM unit := modify (fun s =>
  {| au_transport := au_transport s; au_clock := au_clock s; au_providers := <[k := p]> (au_providers s) |}).
Definition app_values (env : dict string) : list string :=
  [env_get APP_ID_ENV env; env_get INSTALLATION_ID_ENV env; env_get PRIVATE_KEY_PATH_ENV env].
Definition configured (env : dict string) : bool := existsb (fun v => negb (String.eqb v "")) (app_values env).
Definition resolve_github_credential (required : bool) (env : dict string) : AM (option string) :=
  if negb (String.eqb (env_get PAT_ENV env) "") then ret (Some (env_get PAT_ENV env))
  else if configured env
  then
    let k := app_values env in
    let! found := gets (fun s => au_providers s !! k) in
    let! p := match found with
              | Some p => ret p
              | None => let! p := of_res (provider_from_env env) in keep_provider k p ;;; ret p
              end in
    let! x := provider_token p in
    keep_provider k (snd x) ;;;
    ret (Some (fst x))
  else if required then raise (Exn ValueError "LEOS_GITHUB_TOKEN or a GitHub App configuration is required")
  else ret None.
End auth.
