(* ===== verification/GitHubTools.v ===== *)
(** The bounded GitHub tools (github_tools.py) over a client and a credential
    vault.  The environment [GhEnv] holds the states of both, the clock from which the
    vault and the tools draw uuids and times, and the tokens each tool
    keeps for its rollbacks. *)
From S2P Require Import Prelude Enums PyValue Sanitization Goals Plans Tools Credentials GitHubClient.

Record GhEnv (C V : Type) := {
  ge_client : C;
  ge_vault : V;
  ge_clock : Clock;
  ge_tokens : gmap string (gmap string string);   (** tool name to [_rollback_tokens] *)
}.
Arguments ge_client {C V} _.
Arguments ge_vault {C V} _.
Arguments ge_clock {C V} _.
Arguments ge_tokens {C V} _.

(** [_require] *)
Definition require (args : dict pyval) (names : list string) : option ToolResult :=
  match List.filter (fun n => negb (dmem n args)) names with
  | [] => None
  | missing =>
      Some {| ok := false; message := "Missing required argument(s): " +:+ str_join ", " missing; data := [];
              observed_state_delta := []; rollback_token := None; error := Some (Exn DryRunFailed "missing") |}
  end.
(** [_tool_error] *)
Definition tool_error (e : exn) : ToolResult :=
  {| ok := false; message := exn_str e; data := []; observed_state_delta := []; rollback_token := None; error := Some e |}.
Definition refused (msg why : string) : ToolResult :=
  {| ok := false; message := msg; data := []; observed_state_delta := []; rollback_token := None;
     error := Some (Exn DryRunFailed why) |}.
Definition observed (msg key : string) (v : pyval) (token : option (dict pyval)) : ToolResult :=
  {| ok := true; message := msg; data := []; observed_state_delta := [(key, v)]; rollback_token := token; error := None |}.
(** [_token_secret] *)
Definition token_secret (args : dict pyval) : res exn (option Secret) :=
  match dget "token" args with
  | None | Some VNone => Ok None
  | Some (VSecret id v) => Ok (Some {| secret_id := id; unwrap := v |})
  | Some _ => Raise (Exn SecretBoundaryViolation "GitHub token must be passed as Secret, not a plain string")
  end.
(** [_rollback_token]: None values are left out. *)
Definition rollback_items (items : dict pyval) : dict pyval :=
  List.filter (fun kv => match kv.2 with VNone => false | _ => true end) items.
Definition credential_scope `{PyRuntime} (repo : pyval) : string := "github:" +:+ py_str repo.
(** [d.setdefault(k, v)] *)
Definition dsetdefault (k : string) (v : pyval) (d : dict pyval) : dict pyval := if dmem k d then d else dset k v d.
(** [dict(v)] of a mapping. *)
Definition py_dict (v : pyval) : res exn (dict pyval) :=
  match v with VDict d => Ok d | _ => Raise (Exn TypeError "not a mapping") end.

Section tools.
Context `{PyRuntime} `{ToolPlatform} {C V : Type} (client : GitHubClient C) (vault : option (CredentialVault V)).
Notation ENV := (GhEnv C V).
Notation T A := (TM ENV A).

Definition with_client (c : C) (s : ENV) : ENV :=
  {| ge_client := c; ge_vault := ge_vault s; ge_clock := ge_clock s; ge_tokens := ge_tokens s |}.
Definition with_vault (v : V) (c : Clock) (s : ENV) : ENV :=
  {| ge_client := ge_client s; ge_vault := v; ge_clock := c; ge_tokens := ge_tokens s |}.
Definition with_token_map (name : string) (m : gmap string string) (s : ENV) : ENV :=
  {| ge_client := ge_client s; ge_vault := ge_vault s; ge_clock := ge_clock s; ge_tokens := <[name := m]> (ge_tokens s) |}.
Definition token_map (name : string) (s : ENV) : gmap string string := default ∅ (ge_tokens s !! name).
Definition in_client {A} (m : M C exn A) : T A := fun '(s, w) =>
  let '(r, c) := m (ge_client s) in (r, (with_client c s, w)).
Definition in_vault {A} (m : VM V A) : T A := fun '(s, w) =>
  let '(r, (v, c)) := m (ge_vault s, ge_clock s) in (r, (with_vault v c s, w)).
(** [try: m except LeosError as exc: return _tool_error(exc)], then [k]. *)
Definition try_leos {A} (m : T A) (k : A -> T ToolResult) : T ToolResult := fun s =>
  match m s with
  | (Ok a, s') => k a s'
  | (Raise e, s') => if isinstance e LeosError then (Ok (tool_error e), s') else (Raise e, s')
  end.
(** [str(d[k])], [int(d[k])] *)
Definition str_of (k : string) (d : dict pyval) : T string := of_res (res_map py_str (dget_item k d)).
Definition int_of (k : string) (d : dict pyval) : T Z := of_res (res_bind (dget_item k d) py_int).
Definition opt_str_of (k : string) (d : dict pyval) : option string := py_str <$> dget k d.

(** ** [_GitHubToolBase] *)

Definition runtime_attestations (ts : ToolSpec) (s : ENV) : res exn pyval :=
  let attrs := gc_attrs client (ge_client s) in
  let flag k := VBool (from_option truthy false (dget k attrs)) in
  Ok (VDict [("runtime_egress_enforced", flag "runtime_egress_enforced");
             ("runtime_egress_policy_configured", flag "runtime_egress_policy_configured");
             ("runtime_egress_mode", VStr (from_option py_str "unknown" (dget "runtime_egress_mode" attrs)));
             ("runtime_egress_host", VStr (from_option py_str (default "" (egress_host ts)) (dget "runtime_egress_host" attrs)))]).
(** [_remember_rollback_credential] *)
Definition remember_rollback_credential (tool : string) (secret : option Secret) (repo : pyval) : T (dict pyval) :=
  match secret, vault with
  | None, _ => ret []
  | Some s, Some cv =>
      let! h := in_vault (cv_put cv s (credential_scope repo) None) in
      ret [("auth_handle", VDict (handle_to_dict h))]
  | Some s, None =>
      let! id := in_vault clock_uuid in
      modify (fun '(e, w) => (with_token_map tool (<[id := unwrap s]> (token_map tool e)) e, w)) ;;;
      ret [("auth_token_id", VStr id)]
  end.
(** [_rollback_auth_token]: the token, or the result that ends the rollback. *)
Definition unavailable (e : exn) : ToolResult :=
  {| ok := false; message := "Rollback credential unavailable: " +:+ exn_name (exn_cls e); data := [];
     observed_state_delta := []; rollback_token := None; error := if isinstance e LeosError then Some e else None |}.
Definition credential_errors (e : exn) : bool :=
  isinstance e CredentialError || isinstance e KeyError || isinstance e TypeError || isinstance e ValueError.
Definition fetch_credential (cv : CredentialVault V) (token : dict pyval) (handle : pyval) : T Secret :=
  let! d := of_res (py_dict handle) in
  let! h := in_vault (handle_from_dict d) in
  in_vault (cv_get cv h (credential_scope (default (VStr "") (dget "repo" token)))).
Definition rollback_auth_token (tool : string) (token : dict pyval) : T (option string + ToolResult) :=
  match dget "auth_handle" token with
  | Some handle =>
      match vault with
      | None => ret (inr (tool_result false "Credential vault is not available for rollback"))
      | Some cv => fun s =>
          match fetch_credential cv token handle s with
          | (Ok secret, s') => (Ok (inl (Some (unwrap secret))), s')
          | (Raise e, s') => if credential_errors e then (Ok (inr (unavailable e)), s') else (Raise e, s')
          end
      end
  | None =>
      match dget "auth_token_id" token with
      | None | Some VNone => ret (inl None)
      | Some id =>
          let! m := gets (fun '(e, _) => token_map tool e) in
          modify (fun '(e, w) => (with_token_map tool (delete (py_str id) m) e, w)) ;;;
          ret (inl (m !! py_str id))
      end
  end.
(** A rollback: the credential, the calls, the result. *)
Definition rolling_back (tool : string) (token : dict pyval) (calls : option string -> T unit) (msg : string) : T ToolResult :=
  let! auth := rollback_auth_token tool token in
  match auth with
  | inr error => ret error
  | inl auth => try_leos (calls auth) (fun _ => ret (tool_result true msg))
  end.
(** The common beginning of [execute]: the dry run, then the token. *)
Definition executing (dry : ToolResult) (args : dict pyval) (body : option Secret -> T ToolResult) : T ToolResult :=
  if negb (ok dry) then ret dry
  else match token_secret args with
       | Raise e => ret (tool_error e)
       | Ok secret => body secret
       end.
Definition token_of (secret : option Secret) : option string := unwrap <$> secret.

Definition object_schema (required : list string) : dict pyval :=
  [("type", VStr "object"); ("required", VList (map VStr required))].
Definition gh_spec (n desc : string) (perms : list Permission) (risk : RiskLevel) (rev : Reversibility)
    (comp : CompensationStrategy) (methods back : list string) (inputs : list string) (output : string)
    (contract : option CausalContract) : ToolSpec := {|
  name := n; ts_description := desc; permissions := perms; default_risk := risk;
  reversible := bool_decide (rev = REVERSIBLE); ts_reversibility := rev; ts_rollback_reliability := fone;
  ts_compensation_strategy := comp; version := "0.1.0"; input_schema := object_schema inputs;
  output_schema := object_schema [output]; timeout_ms := 3000; network_access := true;
  egress_host := Some GITHUB_EGRESS_HOST; egress_methods := methods; rollback_egress_methods := back;
  filesystem_scope := "none"; secrets_allowed := true; sandbox_policy := SP_NONE; requires_human_for := [];
  causal_contract := contract |}.
Definition github_tool (ts : ToolSpec) (dry : dict pyval -> ToolResult) (exec back : dict pyval -> T ToolResult) :
    Tool ENV := {|
  spec := ts; dry_run := fun args => ret (dry args); execute := exec; rollback := back;
  attestations := Some (runtime_attestations ts);
  client_allows := match gc_allows client with Some f => Some (fun s => f (ge_client s)) | None => None end |}.
Definition no_rollback (token : dict pyval) : T ToolResult := ret (tool_result true "No rollback side effect").

(** ** Reading tools *)

Definition reading_dry (inputs : list string) (msg : string) (args : dict pyval) : ToolResult :=
  default (tool_result true msg) (require args inputs).
Definition reading_spec (n desc : string) (inputs : list string) (output : string) : ToolSpec :=
  gh_spec n desc [] LOW IRREVERSIBLE CS_NONE ["GET"] [] inputs output None.
Definition reading_tool (ts : ToolSpec) (inputs : list string) (would msg key : string)
    (call : dict pyval -> option string -> T (dict pyval)) : Tool ENV :=
  let dry := reading_dry inputs would in
  github_tool ts dry
    (fun args => executing (dry args) args (fun secret =>
       try_leos (call args (token_of secret)) (fun v => ret (observed msg key (VDict v) None))))
    no_rollback.

Definition GitHubReadIssueTool : Tool ENV :=
  reading_tool (reading_spec "github_read_issue" "Read a GitHub issue." ["repo"; "issue_number"] "github_issue")
    ["repo"; "issue_number"] "Would read GitHub issue" "Read GitHub issue" "github_issue"
    (fun args token =>
       let! repo := str_of "repo" args in let! n := int_of "issue_number" args in
       in_client (gc_read_issue client repo n token)).
Definition GitHubGetRepositoryTool : Tool ENV :=
  reading_tool (reading_spec "github_get_repository" "Read bounded GitHub repository metadata." ["repo"] "github_repository")
    ["repo"] "Would read GitHub repository metadata" "Read GitHub repository metadata" "github_repository"
    (fun args token => let! repo := str_of "repo" args in in_client (gc_repository_info client repo token)).
Definition GitHubGetBranchTool : Tool ENV :=
  reading_tool (reading_spec "github_get_branch" "Read a GitHub branch ref, including an explicit absent result."
                  ["repo"; "branch"] "github_branch_status")
    ["repo"; "branch"] "Would read GitHub branch" "Read GitHub branch" "github_branch_status"
    (fun args token =>
       let! repo := str_of "repo" args in let! branch := str_of "branch" args in
       in_client (gc_get_branch client repo branch token)).
Definition GitHubGetPRTool : Tool ENV :=
  reading_tool (reading_spec "github_get_pr" "Read a GitHub pull request for bounded verification."
                  ["repo"; "pr_number"] "github_pr_status")
    ["repo"; "pr_number"] "Would read GitHub pull request" "Read GitHub pull request" "github_pr_status"
    (fun args token =>
       let! repo := str_of "repo" args in let! n := int_of "pr_number" args in
       in_client (gc_get_pr client repo n token)).
Definition GitHubGetFileTool : Tool ENV :=
  reading_tool (reading_spec "github_get_file" "Read a file from GitHub." ["repo"; "path"; "ref"] "github_file")
    ["repo"; "path"; "ref"] "Would get GitHub file" "Read GitHub file" "github_file"
    (fun args token =>
       let! repo := str_of "repo" args in let! path := str_of "path" args in let! ref := str_of "ref" args in
       in_client (gc_get_file client repo path ref token)).
Definition GitHubCheckCIStatusTool : Tool ENV :=
  reading_tool (reading_spec "github_check_ci_status" "Check CI status for a GitHub ref." ["repo"; "ref"] "github_ci_status")
    ["repo"; "ref"] "Would check GitHub CI status" "Checked GitHub CI status" "github_ci_status"
    (fun args token =>
       let! repo := str_of "repo" args in let! ref := str_of "ref" args in
       in_client (gc_ci_status client repo ref token)).

(** ** Writing tools *)

Definition create_branch_spec : ToolSpec :=
  gh_spec "github_create_branch" "Create a GitHub branch from a base ref." [WRITE_FILES] MEDIUM REVERSIBLE CS_UNDO
    ["GET"; "POST"] ["DELETE"] ["repo"; "branch"; "base"] "github_branch" (Some github_create_branch_causal_contract).
Definition create_branch_dry : dict pyval -> ToolResult :=
  reading_dry ["repo"; "branch"; "base"] "Would create GitHub branch".
Definition create_branch_execute (args : dict pyval) : T ToolResult :=
  executing (create_branch_dry args) args (fun secret =>
  try_leos (let! repo := str_of "repo" args in let! branch := str_of "branch" args in let! base := str_of "base" args in
            in_client (gc_create_branch client repo branch base (token_of secret)))
    (fun branch =>
       let! repo := of_res (dget_item "repo" args) in
       let! name := of_res (dget_item "branch" args) in
       let! credential := remember_rollback_credential "github_create_branch" secret repo in
       ret (observed "Created GitHub branch" "github_branch" (VDict branch)
              (Some (rollback_items ([("repo", repo); ("branch", name)] ++ credential)))))).
Definition create_branch_rollback (token : dict pyval) : T ToolResult :=
  rolling_back "github_create_branch" token (fun auth =>
    let! repo := str_of "repo" token in let! branch := str_of "branch" token in
    in_client (gc_delete_branch client repo branch auth)) "Deleted GitHub branch".
Definition GitHubCreateBranchTool : Tool ENV :=
  github_tool create_branch_spec create_branch_dry create_branch_execute create_branch_rollback.

Definition update_file_spec : ToolSpec :=
  gh_spec "github_update_file" "Update a GitHub file with optimistic concurrency checks." [WRITE_FILES] MEDIUM COMPENSATABLE
    CS_COMPENSATE ["GET"; "PUT"] ["GET"; "PUT"] ["repo"; "path"; "branch"; "content"; "message"] "github_file_updated"
    (Some github_update_file_causal_contract).
Definition update_file_dry (args : dict pyval) : ToolResult :=
  match require args ["repo"; "path"; "branch"; "content"; "message"] with
  | Some r => r
  | None =>
      if negb (dmem "expected_sha" args) && negb (dmem "expected_previous" args)
      then refused "expected_sha or expected_previous is required" "missing guard"
      else tool_result true "Would update GitHub file"
  end.
Definition update_file_execute (args : dict pyval) : T ToolResult :=
  executing (update_file_dry args) args (fun secret =>
  try_leos (let! repo := str_of "repo" args in let! path := str_of "path" args in let! branch := str_of "branch" args in
            let! content := str_of "content" args in let! msg := str_of "message" args in
            in_client (gc_update_file client repo path branch content msg (opt_str_of "expected_sha" args)
                         (opt_str_of "expected_previous" args) (token_of secret)))
    (fun updated =>
       let previous := default VNone (dget "previous" updated) in
       let! repo := of_res (dget_item "repo" args) in
       let! path := of_res (dget_item "path" args) in
       let! branch := of_res (dget_item "branch" args) in
       let! credential := remember_rollback_credential "github_update_file" secret repo in
       ret (observed "Updated GitHub file" "github_file_updated" (VDict (ddel "previous" updated))
              (Some ([("repo", repo); ("path", path); ("branch", branch); ("previous", previous)] ++ credential))))).
Definition update_file_rollback (token : dict pyval) : T ToolResult :=
  match dget "previous" token with
  | Some (VDict previous) =>
      rolling_back "github_update_file" token (fun auth =>
        let! repo := str_of "repo" token in let! path := str_of "path" token in let! branch := str_of "branch" token in
        let! current := in_client (gc_get_file client repo path branch auth) in
        let! sha := str_of "sha" current in
        in_client (gc_update_file client repo path branch (py_str (default (VStr "") (dget "content" previous)))
                     "rollback file update" (Some sha) None auth) ;;;
        ret tt) "Restored previous GitHub file content"
  | _ => ret (tool_result true "No previous GitHub file content to restore")
  end.
Definition GitHubUpdateFileTool : Tool ENV :=
  github_tool update_file_spec update_file_dry update_file_execute update_file_rollback.

Definition open_pr_spec : ToolSpec :=
  gh_spec "github_open_pr" "Open a GitHub pull request." [SEND_MESSAGE] MEDIUM COMPENSATABLE CS_COMPENSATE
    ["GET"; "POST"] ["PATCH"] ["repo"; "title"; "body"; "head"; "base"] "github_pr" (Some github_open_pr_causal_contract).
Definition open_pr_dry : dict pyval -> ToolResult :=
  reading_dry ["repo"; "title"; "body"; "head"; "base"] "Would open GitHub PR".
Definition open_pr_execute (args : dict pyval) : T ToolResult :=
  executing (open_pr_dry args) args (fun secret =>
  try_leos (let! repo := str_of "repo" args in let! title := str_of "title" args in let! body := str_of "body" args in
            let! head := str_of "head" args in let! base := str_of "base" args in
            let key := match dget "idempotency_key" args with
                       | Some v => if truthy v then Some (py_str v) else None | None => None end in
            in_client (gc_open_pr client repo title body head base key (token_of secret)))
    (fun pr =>
       let! head := str_of "head" args in let! base := str_of "base" args in
       let pr := dsetdefault "base" (VStr base) (dsetdefault "head" (VStr head) pr) in
       let! repo := of_res (dget_item "repo" args) in
       let! number := of_res (dget_item "number" pr) in
       let! credential := remember_rollback_credential "github_open_pr" secret repo in
       ret (observed "Opened GitHub PR" "github_pr" (VDict pr)
              (Some (rollback_items ([("repo", repo); ("pr_number", number)] ++ credential)))))).
Definition open_pr_rollback (token : dict pyval) : T ToolResult :=
  rolling_back "github_open_pr" token (fun auth =>
    let! repo := str_of "repo" token in let! n := int_of "pr_number" token in
    in_client (gc_close_pr client repo n auth)) "Closed GitHub PR".
Definition GitHubOpenPRTool : Tool ENV := github_tool open_pr_spec open_pr_dry open_pr_execute open_pr_rollback.

Definition comment_spec : ToolSpec :=
  gh_spec "github_comment" "Comment on a GitHub issue or pull request." [SEND_MESSAGE] MEDIUM COMPENSATABLE CS_COMPENSATE
    ["POST"] ["DELETE"] ["repo"; "issue_number"; "body"] "github_comment" (Some github_comment_causal_contract).
Definition comment_dry : dict pyval -> ToolResult :=
  reading_dry ["repo"; "issue_number"; "body"] "Would post GitHub comment".
Definition comment_execute (args : dict pyval) : T ToolResult :=
  executing (comment_dry args) args (fun secret =>
  try_leos (let! repo := str_of "repo" args in let! n := int_of "issue_number" args in let! body := str_of "body" args in
            in_client (gc_comment client repo n body (token_of secret)))
    (fun comment =>
       let! body := str_of "body" args in
       let comment := dsetdefault "body" (VStr body) comment in
       let! repo := of_res (dget_item "repo" args) in
       let! id := of_res (dget_item "id" comment) in
       let! credential := remember_rollback_credential "github_comment" secret repo in
       ret (observed "Posted GitHub comment" "github_comment" (VDict comment)
              (Some (rollback_items ([("repo", repo); ("comment_id", id)] ++ credential)))))).
Definition comment_rollback (token : dict pyval) : T ToolResult :=
  rolling_back "github_comment" token (fun auth =>
    let! repo := str_of "repo" token in let! n := int_of "comment_id" token in
    in_client (gc_delete_comment client repo n auth)) "Deleted GitHub comment".
Definition GitHubCommentTool : Tool ENV := github_tool comment_spec comment_dry comment_execute comment_rollback.

(** ** Bounded cleanup *)

Definition close_pr_spec : ToolSpec :=
  gh_spec "github_close_pr" "Close the bounded smoke pull request after verifying its expected head and base." [SEND_MESSAGE]
    MEDIUM IRREVERSIBLE CS_NONE ["GET"; "PATCH"] [] ["repo"; "pr_number"; "expected_head"; "expected_base"] "github_pr_closed"
    (Some github_close_pr_causal_contract).
Definition close_pr_dry : dict pyval -> ToolResult :=
  reading_dry ["repo"; "pr_number"; "expected_head"; "expected_base"] "Would close bounded GitHub pull request".
Definition entry_is (k s : string) (d : dict pyval) : bool := py_eq (default VNone (dget k d)) (VStr s).
Definition close_pr_execute (args : dict pyval) : T ToolResult :=
  executing (close_pr_dry args) args (fun secret =>
    let token := token_of secret in
    let! repo := str_of "repo" args in let! n := int_of "pr_number" args in
    let! expected_head := str_of "expected_head" args in let! expected_base := str_of "expected_base" args in
    try_leos
      (let! current := in_client (gc_get_pr client repo n token) in
       if negb (entry_is "head" expected_head current) || negb (entry_is "base" expected_base current)
       then raise (Exn LeosError "GitHub PR head/base did not match bounded cleanup arguments")
       else
         in_client (gc_close_pr client repo n token) ;;;
         let! closed := in_client (gc_get_pr client repo n token) in
         if negb (entry_is "state" "closed" closed)
         then raise (Exn LeosError "GitHub PR close verification failed")
         else ret closed)
      (fun closed => ret (observed "Closed bounded GitHub pull request" "github_pr_closed" (VDict closed) None))).
Definition GitHubClosePRTool : Tool ENV := github_tool close_pr_spec close_pr_dry close_pr_execute no_rollback.

Definition delete_branch_spec : ToolSpec :=
  gh_spec "github_delete_branch" "Delete a bounded leos/ smoke branch after verifying its expected SHA." [DELETE] HIGH
    IRREVERSIBLE CS_NONE ["GET"; "DELETE"] [] ["repo"; "branch"; "expected_sha"] "github_branch_deleted"
    (Some github_delete_branch_causal_contract).
Definition delete_branch_dry (args : dict pyval) : ToolResult :=
  match require args ["repo"; "branch"; "expected_sha"] with
  | Some r => r
  | None =>
      if String.prefix "leos/" (from_option py_str "" (dget "branch" args))
      then tool_result true "Would delete bounded GitHub smoke branch"
      else refused "Cleanup branch must use the leos/ prefix" "unsafe branch"
  end.
Definition delete_branch_execute (args : dict pyval) : T ToolResult :=
  executing (delete_branch_dry args) args (fun secret =>
    let token := token_of secret in
    let! repo := str_of "repo" args in let! branch := str_of "branch" args in
    let! expected_sha := str_of "expected_sha" args in
    try_leos
      (let! current := in_client (gc_get_branch client repo branch token) in
       if negb (truthy (default VNone (dget "exists" current))) || negb (entry_is "sha" expected_sha current)
       then raise (Exn LeosError "GitHub branch SHA did not match bounded cleanup arguments")
       else
         in_client (gc_delete_branch client repo branch token) ;;;
         let! deleted := in_client (gc_get_branch client repo branch token) in
         if truthy (default VNone (dget "exists" deleted))
         then raise (Exn LeosError "GitHub branch delete verification failed")
         else ret tt)
      (fun _ => ret (observed "Deleted bounded GitHub smoke branch" "github_branch_deleted"
         (VDict [("repo", VStr repo); ("branch", VStr branch); ("deleted", VBool true); ("expected_sha", VStr expected_sha)])
         None))).
Definition GitHubDeleteBranchTool : Tool ENV :=
  github_tool delete_branch_spec delete_branch_dry delete_branch_execute no_rollback.

Definition github_tools : list (Tool ENV) :=
  [GitHubReadIssueTool; GitHubGetRepositoryTool; GitHubGetBranchTool; GitHubGetPRTool; GitHubCreateBranchTool;
   GitHubGetFileTool; GitHubUpdateFileTool; GitHubOpenPRTool; GitHubClosePRTool; GitHubDeleteBranchTool;
   GitHubCommentTool; GitHubCheckCIStatusTool].
End tools.
