(* ===== verification/FileTools.v ===== *)
(** [fnmatch.fnmatch] and [Path.rglob("*")], and the tools that use them and the file system: the file writer of tools.py
    and the file tools of dev_tools.py. *)
From S2P Require Import Prelude Enums PyValue FileSystem Sanitization Goals Plans Tools.


(** ** Patterns *)

(** A class [[...]] is a list of ranges of characters. *)
Inductive glob_item := Star | AnyChar | Lit (c : string) | Class (neg : bool) (ranges : list (string * string)).

(** The items of a class: [a-b] is a range, every other character stands for itself. *)
Fixpoint class_ranges (l : list string) : list (string * string) :=
  match l with
  | lo :: (dash :: hi :: l'') as l' =>
      if String.eqb dash "-" then (lo, hi) :: class_ranges l'' else (lo, lo) :: class_ranges l'
  | lo :: l' => (lo, lo) :: class_ranges l'
  | [] => []
  end.
(** The characters up to the closing bracket, and what follows it. *)
Fixpoint to_bracket (l : list string) : option (list string * list string) :=
  match l with
  | [] => None
  | c :: l' => if String.eqb c "]" then Some ([], l')
               else match to_bracket l' with Some (a, b) => Some (c :: a, b) | None => None end
  end.
Definition head_is (c : string) (l : list string) : bool := match l with x :: _ => String.eqb x c | [] => false end.
Definition class_body (l : list string) : option (list string * list string) :=
  if head_is "]" l then match to_bracket (tail l) with Some (a, b) => Some ("]" :: a, b) | None => None end
  else to_bracket l.
(** After an opening bracket: the class and the rest of the pattern; [None] if it never closes. *)
Definition parse_class (l : list string) : option (glob_item * list string) :=
  let neg := head_is "!" l in
  match class_body (if neg then tail l else l) with
  | Some (body, rest) => Some (Class neg (class_ranges body), rest)
  | None => None
  end.
(** [n] bounds the characters left. *)
Fixpoint parse_glob (n : nat) (l : list string) : list glob_item :=
  match n, l with
  | S n', c :: l' =>
      if String.eqb c "*" then Star :: parse_glob n' l'
      else if String.eqb c "?" then AnyChar :: parse_glob n' l'
      else if String.eqb c "[" then
        match parse_class l' with
        | Some (i, rest) => i :: parse_glob n' rest
        | None => Lit "[" :: parse_glob n' l'
        end
      else Lit c :: parse_glob n' l'
  | _, _ => []
  end.
(** UTF-8 sequences compare as the code points do. *)
Definition in_ranges (c : string) (l : list (string * string)) : bool :=
  existsb (fun r => String.leb r.1 c && String.leb c r.2) l.
Definition item_matches (i : glob_item) (c : string) : bool :=
  match i with
  | Star | AnyChar => true
  | Lit x => String.eqb x c
  | Class neg l => xorb neg (in_ranges c l)
  end.
Fixpoint glob_match (p : list glob_item) : list string -> bool :=
  match p with
  | [] => fun s => match s with [] => true | _ => false end
  | Star :: p' => fix star s := glob_match p' s || match s with [] => false | _ :: s' => star s' end
  | i :: p' => fun s => match s with c :: s' => item_matches i c && glob_match p' s' | [] => false end
  end.
Definition chars (s : string) : list string := py_chars s "".
Definition fnmatch (s pattern : string) : bool :=
  glob_match (parse_glob (length (chars pattern)) (chars pattern)) (chars s).

(** ** Walking a directory *)

Fixpoint path_leb (a b : path) : bool :=
  match a, b with
  | [], _ => true
  | _ :: _, [] => false
  | x :: a', y :: b' => if String.eqb x y then path_leb a' b' else String.leb x y
  end.
Fixpoint insert_path (x : path) (l : list path) : list path :=
  match l with
  | [] => [x]
  | y :: l' => if path_leb x y then x :: l else y :: insert_path x l'
  end.
Definition sort_paths (l : list path) : list path := foldr insert_path [] l.
(** The part of [q] below [p]. *)
Fixpoint below (p q : path) : option path :=
  match p, q with
  | [], _ => match q with [] => None | _ => Some q end
  | x :: p', y :: q' => if String.eqb x y then below p' q' else None
  | _ :: _, [] => None
  end.
(** [base.rglob("*")]: everything below a directory; links to directories are not entered. *)
Definition rglob (fs : FS) (base : path) : list path :=
  match namei false fs base with
  | inr q =>
      match node_at fs q with
      | Some Dir => omap (fun kv => match below q kv.1 with Some r => Some (base ++ r) | None => None end) (map_to_list fs)
      | _ => []
      end
  | inl _ => []
  end.

Example fnmatch_1 : fnmatch "src/a.pyc" "*.pyc" = true /\ fnmatch ".git/config" ".git/**" = true /\
  fnmatch "a.txt" "[!a-c].txt" = false /\ fnmatch "d.txt" "[!a-c].txt" = true /\ fnmatch "[x" "[x" = true /\
  fnmatch "a_c" "a[]-a]c" = true /\ fnmatch "build" "build/**" = false.
Proof. by vm_compute. Qed.

(** * The file tools of tools.py and dev_tools.py over the file system of FileSystem.v:
    writing with undo, patching, reading and listing, all below a workspace root. *)


(** The process that runs a tool: its files, and the child processes it has started. *)
Record ProcCall := {
  pc_argv : list string; pc_cwd : option path; pc_env : option (dict string); pc_timeout : float;
}.
Record HostEnv := { h_fs : FS; h_procs : list ProcCall }.
Definition with_fs (fs : FS) (e : HostEnv) : HostEnv := {| h_fs := fs; h_procs := h_procs e |}.

Section tools.
Context `{PyRuntime} `{JsonSchemaValidator}.
(** The working directory of the process, for relative paths. *)
Context (cwd : path).
Abbreviation T A := (TM HostEnv A).
Definition in_fs {A} (m : FM A) : T A := fun '(e, w) =>
  let '(r, fs) := m (h_fs e) in (r, (with_fs fs e, w)).
Definition the_fs : T FS := gets (fun '(e, _) => h_fs e).

Definition escape_error : exn := Exn WorkspaceEscapeBlocked "Path escapes workspace root".
(** The check on the resolved path: [os.path.commonpath([root, q]) != str(root)]. *)
Definition inside (root q : path) : bool := bool_decide (commonpath root q = root).
Definition check_inside (root q : path) : res exn path := if inside root q then Ok q else Raise escape_error.
Definition file_spec (n desc : string) (perms : list Permission) (risk : RiskLevel) (rev : Reversibility)
    (comp : CompensationStrategy) (input output : dict pyval) (human : list string)
    (contract : option CausalContract) : ToolSpec := {|
  name := n; ts_description := desc; permissions := perms; default_risk := risk;
  reversible := bool_decide (rev = REVERSIBLE); ts_reversibility := rev; ts_rollback_reliability := fone;
  ts_compensation_strategy := comp; version := "0.1.0"; input_schema := input; output_schema := output;
  timeout_ms := 3000; network_access := false; egress_host := None; egress_methods := [];
  rollback_egress_methods := []; filesystem_scope := "workspace"; secrets_allowed := false;
  sandbox_policy := SP_WORKSPACE; requires_human_for := human; causal_contract := contract |}.
Definition file_tool (ts : ToolSpec) (dry exec back : dict pyval -> T ToolResult) : Tool HostEnv := {|
  spec := ts; dry_run := dry; execute := exec; rollback := back; attestations := None; client_allows := None |}.
Definition failed (msg : string) (e : exn) : ToolResult :=
  {| ok := false; message := msg; data := []; observed_state_delta := []; rollback_token := None; error := Some e |}.
Definition observing (msg : string) (delta : dict pyval) (token : option (dict pyval)) : ToolResult :=
  {| ok := true; message := msg; data := []; observed_state_delta := delta; rollback_token := token; error := None |}.
Definition text_or_none (o : option string) : pyval := match o with Some s => VStr s | None => VNone end.
(** [path.read_text() if path.exists() else None] *)
Definition read_previous (p : path) : T (option string) :=
  let! fs := the_fs in
  if path_exists fs p then let! s := in_fs (read_text p) in ret (Some s) else ret None.
Definition token_path (token : dict pyval) : T path :=
  let! v := of_res (dget_item "path" token) in ret (joinpath cwd (py_str v)).

(** ** SafeFileWriteTool *)

Definition type_field (ty : string) : pyval := VDict [("type", VStr ty)].
Definition safe_file_write_spec : ToolSpec :=
  file_spec "safe_file_write" "Write a UTF-8 file inside the configured workspace root." [WRITE_FILES] MEDIUM REVERSIBLE CS_UNDO
    [("type", VStr "object"); ("required", VList [VStr "path"; VStr "content"]);
     ("properties", VDict [("path", type_field "string"); ("content", type_field "string"); ("file_written", type_field "string")]);
     ("additionalProperties", VBool true)]
    [("type", VStr "object"); ("properties", VDict [("file_written", type_field "string")]); ("additionalProperties", VBool true)]
    ["outside_workspace"] (Some safe_file_write_causal_contract).
(** [_resolve] *)
Definition safe_resolve (root : path) (fs : FS) (s : string) : res exn path :=
  res_bind (resolve fs (joinpath root s)) (check_inside root).
Definition write_target (root : path) (args : dict pyval) (fs : FS) : res exn path :=
  res_bind (dget_item "path" args) (fun v => safe_resolve root fs (py_str v)).
Definition safe_write_dry (root : path) (args : dict pyval) : T ToolResult :=
  match validate_input safe_file_write_spec args with
  | (_ :: _) as issues =>
      ret {| ok := false; message := "Input schema validation failed"; data := [("schema_issues", VList issues)];
             observed_state_delta := []; rollback_token := None;
             error := Some (Exn SchemaValidationFailed "Input schema validation failed") |}
  | [] =>
      let! fs := the_fs in
      ret match write_target root args fs with
          | Raise e =>
              failed ("Invalid path: " +:+ exn_str e)
                (if isinstance e WorkspaceEscapeBlocked then e else Exn DryRunFailed (exn_str e))
          | Ok p =>
              if dmem "content" args
              then {| ok := true; message := "Would write " +:+ path_str p; data := [("path", VStr (path_str p))];
                      observed_state_delta := []; rollback_token := None; error := None |}
              else failed "Missing required argument: content" (Exn DryRunFailed "Missing required argument: content")
          end
  end.
Definition safe_write_execute (root : path) (args : dict pyval) : T ToolResult :=
  let! fs := the_fs in
  let! p := of_res (write_target root args fs) in
  let! previous := read_previous p in
  in_fs (mkdir (parent p)) ;;;
  let! content := of_res (dget_item "content" args) in
  in_fs (write_text p (py_str content)) ;;;
  ret (observing ("Wrote " +:+ path_str p) [("file_written", VStr (path_str p))]
         (Some [("path", VStr (path_str p)); ("previous", text_or_none previous)])).
Definition safe_write_rollback (token : dict pyval) : T ToolResult :=
  let! p := token_path token in
  match default VNone (dget "previous" token) with
  | VNone => in_fs (unlink p)
  | previous => in_fs (write_text p (py_str previous))
  end ;;;
  ret (tool_result true ("Rolled back " +:+ path_str p)).
Definition SafeFileWriteTool (root : path) : Tool HostEnv :=
  file_tool safe_file_write_spec (safe_write_dry root) (safe_write_execute root) safe_write_rollback.
(** [workspace_root.resolve()] and [mkdir] of the constructor. *)
Definition SafeFileWriteTool_init (workspace_root : path) : FM (Tool HostEnv) :=
  let! root := (fun fs => of_res (resolve fs workspace_root) fs) in
  mkdir root ;;; ret (SafeFileWriteTool root).
(** [default_registry] *)
Definition default_registry (workspace_root : option path) : FM (ToolRegistry HostEnv) :=
  let! r := of_res (register EchoTool []) in
  match workspace_root with
  | None => ret r
  | Some root => let! t := SafeFileWriteTool_init root in of_res (register t r)
  end.

(** ** dev_tools.py *)

Definition resolve_workspace_path (workspace_root : path) (fs : FS) (s : string) : res exn path :=
  res_bind (resolve fs workspace_root) (fun root =>
  res_bind (resolve fs (joinpath root s)) (check_inside root)).
Definition arg_path (root : path) (args : dict pyval) (fs : FS) : res exn path :=
  res_bind (dget_item "path" args) (fun v => resolve_workspace_path root fs (py_str v)).
(** The dry runs that start with a required path. *)
Definition with_path (root : path) (args : dict pyval) (k : path -> T ToolResult) : T ToolResult :=
  let! fs := the_fs in
  match arg_path root args fs with
  | Raise e => ret (failed (exn_str e) (if isinstance e WorkspaceEscapeBlocked then e else Exn DryRunFailed (exn_str e)))
  | Ok p => k p
  end.
Fixpoint take_str (n : nat) (s : string) : string :=
  match n, s with S n', String c s' => String c (take_str n' s') | _, _ => "" end.
(** [s[:n]] of bytes *)
Definition slice_to (n : Z) (s : string) : string :=
  take_str (Z.to_nat (if (n <? 0)%Z then Z.of_nat (String.length s) + n else n)) s.
Definition is_binary (fs : FS) (p : path) : bool :=
  match fst (read_bytes p fs) with Ok raw => has_nul (slice_to 4096 raw) | Raise _ => false end.
Definition dry_then (dry : T ToolResult) (k : T ToolResult) : T ToolResult :=
  let! r := dry in if negb (ok r) then ret r else k.
(** [p.relative_to(root).as_posix()] *)
Definition relative_to (root p : path) : res exn string :=
  if inside root p
  then Ok (match drop (length root) p with [] => "." | l => str_join "/" l end)
  else Raise (Exn ValueError (py_repr (path_str p) +:+ " is not in the subpath of " +:+ py_repr (path_str root))).

Definition read_file_spec : ToolSpec :=
  file_spec "read_file" "Read a UTF-8 text file inside a workspace." [READ_FILES] LOW IRREVERSIBLE CS_NONE
    [("type", VStr "object"); ("required", VList [VStr "path"]); ("properties", VDict [("path", type_field "string")])]
    [("type", VStr "object"); ("required", VList [VStr "file_read"; VStr "content"; VStr "truncated"])] [] None.
Definition read_file_dry (root : path) (args : dict pyval) : T ToolResult :=
  with_path root args (fun p =>
    let! fs := the_fs in
    ret (if negb (path_exists fs p) || negb (is_file fs p)
         then failed "File does not exist" (Exn DryRunFailed "File does not exist")
         else if is_binary fs p then failed "Binary files are not supported" (Exn DryRunFailed "Binary file")
         else tool_result true ("Would read " +:+ path_str p))).
Definition int_arg (k : string) (d : Z) (args : dict pyval) : res exn Z :=
  match dget k args with Some v => py_int v | None => Ok d end.
Definition read_file_execute (root : path) (args : dict pyval) : T ToolResult :=
  dry_then (read_file_dry root args) (
  let! fs := the_fs in
  let! p := of_res (arg_path root args fs) in
  let! max_bytes := of_res (int_arg "max_bytes" 65536 args) in
  let! raw := in_fs (read_bytes p) in
  let truncated := (max_bytes <? Z.of_nat (String.length raw))%Z in
  let! content := of_res (decode_utf8 (slice_to max_bytes raw)) in
  let! rel := of_res (relative_to root p) in
  ret (observing ("Read " +:+ rel) [("file_read", VStr rel); ("content", VStr content); ("truncated", VBool truncated)] None)).
Definition ReadFileTool (root : path) : Tool HostEnv :=
  file_tool read_file_spec (read_file_dry root) (read_file_execute root)
    (fun _ => ret (tool_result true "Read file has no rollback side effect")).

Definition patch_file_spec : ToolSpec :=
  file_spec "patch_file" "Replace a UTF-8 file inside a workspace with rollback support." [WRITE_FILES] MEDIUM REVERSIBLE CS_UNDO
    [("type", VStr "object"); ("required", VList [VStr "path"; VStr "new_content"])]
    [("type", VStr "object"); ("required", VList [VStr "file_patched"; VStr "content_hash"])] [] None.
Definition patch_file_dry (root : path) (args : dict pyval) : T ToolResult :=
  with_path root args (fun p =>
    let! fs := the_fs in
    match as_str (default VNone (dget "new_content" args)) with
    | None => ret (failed "new_content must be a string" (Exn DryRunFailed "Invalid new_content"))
    | Some _ =>
        if path_exists fs p && is_binary fs p
        then ret (failed "Binary files are not supported" (Exn DryRunFailed "Binary file"))
        else
          let would := tool_result true ("Would patch " +:+ path_str p) in
          match default VNone (dget "expected_previous" args) with
          | VNone => ret would
          | expected =>
              let! previous := read_previous p in
              ret (if py_neq (VStr (default "" previous)) expected
                   then failed "expected_previous mismatch" (Exn DryRunFailed "Content mismatch") else would)
          end
    end).
Definition patch_file_execute (root : path) (args : dict pyval) : T ToolResult :=
  dry_then (patch_file_dry root args) (
  let! fs := the_fs in
  let! p := of_res (arg_path root args fs) in
  let! previous := read_previous p in
  let! existed := gets (fun '(e, _) => path_exists (h_fs e) p) in
  let! content := of_res (dget_item "new_content" args) in
  let new_content := py_str content in
  in_fs (mkdir (parent p)) ;;;
  in_fs (write_text p new_content) ;;;
  ret (observing ("Patched " +:+ path_str p)
         [("file_patched", VStr (path_str p)); ("content_hash", VStr (sha256_hex new_content))]
         (Some [("path", VStr (path_str p)); ("previous", text_or_none previous); ("existed", VBool existed)]))).
Definition patch_file_rollback (token : dict pyval) : T ToolResult :=
  let! p := token_path token in
  (if truthy (default VNone (dget "existed" token))
   then in_fs (write_text p (py_str (default (VStr "") (dget "previous" token))))
   else in_fs (unlink p)) ;;;
  ret (tool_result true ("Rolled back " +:+ path_str p)).
Definition PatchFileTool (root : path) : Tool HostEnv :=
  file_tool patch_file_spec (patch_file_dry root) (patch_file_execute root) patch_file_rollback.

(** *** Listing *)

Definition DEFAULT_EXCLUDES : list string :=
  [".git/**"; ".venv/**"; "__pycache__/**"; "*.pyc"; "dist/**"; "build/**"; "*.egg-info/**"].
Definition list_files_spec : ToolSpec :=
  file_spec "list_files" "List files recursively inside a workspace." [READ_FILES] LOW IRREVERSIBLE CS_NONE
    [("type", VStr "object"); ("additionalProperties", VBool true)]
    [("type", VStr "object"); ("required", VList [VStr "files_listed"; VStr "file_count"]);
     ("properties", VDict [("files_listed", type_field "array"); ("file_count", type_field "integer")]);
     ("additionalProperties", VBool true)] [] None.
Definition list_files_dry (root : path) (args : dict pyval) : T ToolResult :=
  let! fs := the_fs in
  match resolve_workspace_path root fs (py_str (default (VStr ".") (dget "path" args))) with
  | Ok _ => ret (tool_result true "Would list workspace files")
  | Raise e => if isinstance e WorkspaceEscapeBlocked then ret (failed (exn_str e) e) else raise e
  end.
Definition fnmatch_val (s : string) (pattern : pyval) : res exn bool :=
  match as_str pattern with
  | Some p => Ok (fnmatch s p)
  | None => Raise (Exn TypeError ("expected str, bytes or os.PathLike object, not " +:+ type_name pattern))
  end.
Fixpoint matches_any (rel base : string) (patterns : list pyval) : res exn bool :=
  match patterns with
  | [] => Ok false
  | p :: l =>
      res_bind (fnmatch_val rel p) (fun a => if a then Ok true else
      res_bind (fnmatch_val base p) (fun b => if b then Ok true else matches_any rel base l))
  end.
Fixpoint list_loop (root : path) (fs : FS) (include exclude : list pyval) (max_files : Z) (items : list path)
    (files : list string) : res exn (list string) :=
  match items with
  | [] => Ok files
  | item :: items' =>
      if negb (is_file fs item) then list_loop root fs include exclude max_files items' files
      else
        res_bind (relative_to root item) (fun rel =>
        let base := default "" (last item) in
        res_bind (matches_any rel base exclude) (fun out =>
        res_bind (if out then Ok false else matches_any rel base include) (fun keep =>
        if negb keep then list_loop root fs include exclude max_files items' files
        else
          let files' := files ++ [rel] in
          if (max_files <=? Z.of_nat (length files'))%Z then Ok files'
          else list_loop root fs include exclude max_files items' files')))
  end.
(** [tuple(arguments.get(key) or default)] *)
Definition globs (key : string) (d : list string) (args : dict pyval) : res exn (list pyval) :=
  let v := default VNone (dget key args) in if truthy v then py_iter v else Ok (map VStr d).
Definition list_files_execute (root : path) (args : dict pyval) : T ToolResult :=
  dry_then (list_files_dry root args) (
  let! fs := the_fs in
  let! base := of_res (resolve_workspace_path root fs (py_str (default (VStr ".") (dget "path" args)))) in
  let! include := of_res (globs "include_globs" ["*"; "**/*"] args) in
  let! exclude := of_res (globs "exclude_globs" DEFAULT_EXCLUDES args) in
  let! max_files := of_res (int_arg "max_files" 1000 args) in
  let! files := of_res (list_loop root fs include exclude max_files (sort_paths (rglob fs base)) []) in
  ret (observing ("Listed " +:+ str_Z (Z.of_nat (length files)) +:+ " file(s)")
         [("files_listed", VList (map VStr files)); ("file_count", VInt (Z.of_nat (length files)))] None)).
Definition ListFilesTool (root : path) : Tool HostEnv :=
  file_tool list_files_spec (list_files_dry root) (list_files_execute root)
    (fun _ => ret (tool_result true "List files has no rollback side effect")).
End tools.
