(* ===== verification/Sandbox.v ===== *)
(** Sandboxed commands: sandbox.py and sandbox_backends.py (runners and their choice), the command tool,
    and the tools of dev_tools.py that start a process. *)
From S2P Require Import Prelude Enums PyValue FileSystem Sanitization Goals Plans Tools FileTools.


(** What the operating system answers to [subprocess.run]; TimeoutExpired and
    OSError carry their text. *)
Inductive ProcOutcome :=
| Completed (returncode : Z) (stdout stderr : string)
| ProcTimeout (msg : string)
| ProcOSError (msg : string)
| ProcRaises (e : exn).
Class Processes := {
  which : string -> option string;                     (** shutil.which *)
  os_environ : dict string;
  subprocess_run : ProcCall -> FS -> ProcOutcome * FS;  (** a process may change any file *)
}.

Record SandboxCommand := {
  argv : list string; cwd : option string; env : dict string; timeout_seconds : float; max_output_bytes : Z;
}.
Record SandboxResult := {
  sr_ok : bool; returncode : option Z; sr_stdout : string; sr_stderr : string;
  timed_out : bool; truncated : bool; sr_message : string;
}.
Definition unavailable_error (msg : string) : exn := Exn SandboxUnavailable msg.

Section sandbox.
Context `{PyRuntime} `{JsonSchemaValidator} `{Processes}.
Abbreviation HM A := (M HostEnv exn A).

Definition run_process (c : ProcCall) : HM ProcOutcome := fun e =>
  let '(o, fs) := subprocess_run c (h_fs e) in (Ok o, {| h_fs := fs; h_procs := h_procs e ++ [c] |}).
Definition str_len (s : string) : Z := Z.of_nat (length (chars s)).
(** [s[:n]] of a text *)
Definition text_to (n : Z) (s : string) : string :=
  let l := chars s in
  str_join "" (take (Z.to_nat (if (n <? 0)%Z then Z.of_nat (length l) + n else n)) l).
Definition cut (n : Z) (s : string) : string := if (n <? str_len s)%Z then text_to n s else s.
(** The working directory of a command, checked against the workspace. *)
Definition command_cwd (root : path) (c : SandboxCommand) (fs : FS) : res exn path :=
  match cwd c with
  | None => Ok root
  | Some s =>
      res_bind (resolve fs (joinpath root s)) (fun q =>
      if inside root q then Ok q
      else Raise (Exn WorkspaceEscapeBlocked ("cwd '" +:+ s +:+ "' escapes workspace root")))
  end.
Definition empty_argv : exn := Exn SandboxViolation "argv must not be empty".
Definition not_started (msg err : string) : SandboxResult :=
  {| sr_ok := false; returncode := None; sr_stdout := ""; sr_stderr := err; timed_out := false; truncated := false;
     sr_message := msg |}.
Definition timed_out_result (msg : string) : SandboxResult :=
  {| sr_ok := false; returncode := None; sr_stdout := ""; sr_stderr := ""; timed_out := true; truncated := false;
     sr_message := msg |}.

(** ** WorkspaceSubprocessSandboxRunner *)

(** [for key in allowed_env_keys: if key in command.env: env[key] = command.env[key]] *)
Definition allowed_env (allowed : list string) (e : dict string) : dict string :=
  omap (fun k => (fun v => (k, v)) <$> dget k e) (set_order (remove_dups allowed)).
Definition workspace_run (root : path) (allowed : list string) (c : SandboxCommand) : HM SandboxResult :=
  match argv c with
  | [] => raise empty_argv
  | _ =>
      let! fs := gets h_fs in
      let! dir := of_res (command_cwd root c fs) in
      let! o := run_process {| pc_argv := argv c; pc_cwd := Some dir; pc_env := Some (allowed_env allowed (env c));
                               pc_timeout := timeout_seconds c |} in
      match o with
      | ProcTimeout _ => ret (timed_out_result "Command timed out")
      | ProcOSError msg => ret (not_started ("Command failed to start: " +:+ msg) msg)
      | ProcRaises e => raise e
      | Completed rc out err =>
          let n := max_output_bytes c in
          ret {| sr_ok := (rc =? 0)%Z; returncode := Some rc; sr_stdout := cut n out; sr_stderr := cut n err;
                 timed_out := false; truncated := (n <? str_len out)%Z || (n <? str_len err)%Z;
                 sr_message := if (rc =? 0)%Z then "Command completed" else "Command exited with " +:+ str_Z rc |}
      end
  end.

(** ** DockerSandboxRunner *)

Record DockerSandbox := {
  d_root : path; image : string; runtime : option string; d_timeout : float; network_disabled : bool;
  memory_limit : string; cpus : string; read_only_rootfs : bool; read_only_workspace : bool; pids_limit : Z;
  user : string;
}.
(** The runners that share the container arguments. *)
Inductive ContainerKind :=
| Docker
| Gvisor (runsc_runtime : string)
| RootlessPodman (userns : string) (seccomp_profile : option string).
(** The defaults of the constructor. *)
Definition docker_defaults (root : path) : DockerSandbox := {|
  d_root := root; image := "python:3.12-slim"; runtime := None; d_timeout := f_of_Z 30; network_disabled := true;
  memory_limit := "512m"; cpus := "1"; read_only_rootfs := true; read_only_workspace := false; pids_limit := 128;
  user := "65532:65532" |}.
Definition docker_init (d : DockerSandbox) (fs : FS) : res exn DockerSandbox :=
  res_bind (resolve fs (d_root d)) (fun root =>
  match root with
  | [] => Raise (Exn SandboxViolation "workspace_root must not be filesystem root")
  | _ =>
      if existsb (String.eqb "..") root
      then Raise (Exn WorkspaceEscapeBlocked "workspace_root must be resolved inside a concrete path")
      else Ok {| d_root := root; image := image d; runtime := runtime d; d_timeout := d_timeout d;
                 network_disabled := network_disabled d; memory_limit := memory_limit d; cpus := cpus d;
                 read_only_rootfs := read_only_rootfs d; read_only_workspace := read_only_workspace d;
                 pids_limit := pids_limit d; user := user d |}
  end).
Definition nonempty (o : option string) : option string :=
  match o with Some s => if String.eqb s "" then None else Some s | None => None end.
Fixpoint first_found (l : list string) : option string :=
  match l with [] => None | c :: l' => match nonempty (which c) with Some p => Some p | None => first_found l' end end.
Definition runtime_binary (k : ContainerKind) (d : DockerSandbox) : res exn string :=
  match nonempty (runtime d) with
  | Some r => Ok r
  | None =>
      match k with
      | RootlessPodman _ _ => match first_found ["podman"] with
                              | Some p => Ok p
                              | None => Raise (unavailable_error "podman runtime is not available")
                              end
      | _ => match first_found ["docker"; "podman"] with
             | Some p => Ok p
             | None => Raise (unavailable_error "docker or podman runtime is not available")
             end
      end
  end.
Definition found (b : string) : bool := match which b with Some _ => true | None => false end.
Definition docker_available (k : ContainerKind) (d : DockerSandbox) : bool :=
  match runtime_binary k d with Ok b => found b | Raise _ => false end.
Definition is_available (k : ContainerKind) (d : DockerSandbox) : bool :=
  docker_available k d && match k with Gvisor r => found r | _ => true end.
(** The arguments between [run] and the image. *)
Definition hardening (d : DockerSandbox) : list string :=
  ["--rm"; "--workdir"; "/workspace"; "--mount";
   ("type=bind,src=" +:+ path_str (d_root d) +:+ ",dst=/workspace") +:+ (if read_only_workspace d then ",readonly" else "");
   "--cap-drop"; "ALL"; "--security-opt"; "no-new-privileges"; "--memory"; memory_limit d; "--cpus"; cpus d;
   "--pids-limit"; str_Z (pids_limit d); "--tmpfs"; "/tmp"; "--user"; user d] ++
  (if network_disabled d then ["--network"; "none"] else []) ++
  (if read_only_rootfs d then ["--read-only"] else []).
Definition docker_argv (k : ContainerKind) (d : DockerSandbox) (c : SandboxCommand) (fs : FS) : res exn (list string) :=
  match argv c with
  | [] => Raise empty_argv
  | _ =>
      res_bind (command_cwd (d_root d) c fs) (fun _ =>
      res_bind (runtime_binary k d) (fun b => Ok (b :: "run" :: hardening d ++ image d :: argv c)))
  end.
(** [_insert_after_run]: after the first argument that is [run]. *)
Fixpoint insert_after_run (extra l : list string) : list string :=
  match l with
  | [] => []
  | x :: l' => if String.eqb x "run" then x :: extra ++ l' else x :: insert_after_run extra l'
  end.
Definition extra_args (k : ContainerKind) : list string :=
  match k with
  | Docker => []
  | Gvisor r => ["--runtime"; r]
  | RootlessPodman u p =>
      ["--userns"; u] ++ match nonempty p with Some s => ["--security-opt"; "seccomp=" +:+ s] | None => [] end
  end.
Definition build_argv (k : ContainerKind) (d : DockerSandbox) (c : SandboxCommand) (fs : FS) : res exn (list string) :=
  match k with
  | Docker => docker_argv k d c fs
  | _ => res_map (insert_after_run (extra_args k)) (docker_argv k d c fs)
  end.
Definition fmin (a b : float) : float := if fltb b a then b else a.
Definition docker_run (k : ContainerKind) (d : DockerSandbox) (c : SandboxCommand) : HM SandboxResult :=
  let! fs := gets h_fs in
  let! args := of_res (build_argv k d c fs) in
  let binary := hd "" args in
  if negb (found binary) then raise (unavailable_error (binary +:+ " runtime is not available"))
  else
    let! o := run_process {| pc_argv := args; pc_cwd := None; pc_env := None;
                             pc_timeout := fmin (timeout_seconds c) (d_timeout d) |} in
    match o with
    | ProcTimeout _ => ret (timed_out_result "Container command timed out")
    | ProcOSError msg => ret (not_started ("Container command failed to start: " +:+ msg) msg)
    | ProcRaises e => raise e
    | Completed rc out err =>
        let n := max_output_bytes c in
        ret {| sr_ok := (rc =? 0)%Z; returncode := Some rc; sr_stdout := text_to n out; sr_stderr := text_to n err;
               timed_out := false; truncated := (n <? str_len out)%Z || (n <? str_len err)%Z;
               sr_message := if (rc =? 0)%Z then "Container command completed" else "Container exited with " +:+ str_Z rc |}
    end.

(** ** The other runners and the choice of one *)

Record Firecracker := {
  firecracker_bin : string; kernel_image : path; rootfs_image : path; vcpu_count : Z; mem_size_mib : Z;
}.
Definition firecracker_available (f : Firecracker) (fs : FS) : bool :=
  found (firecracker_bin f) && path_exists fs (kernel_image f) && path_exists fs (rootfs_image f).
Definition build_config (f : Firecracker) (c : SandboxCommand) : dict pyval :=
  [("boot-source", VDict [("kernel_image_path", VStr (path_str (kernel_image f)));
                          ("boot_args", VStr "console=ttyS0 reboot=k panic=1 pci=off")]);
   ("drives", VList [VDict [("drive_id", VStr "rootfs"); ("path_on_host", VStr (path_str (rootfs_image f)));
                            ("is_root_device", VBool true); ("is_read_only", VBool true)]]);
   ("machine-config", VDict [("vcpu_count", VInt (vcpu_count f)); ("mem_size_mib", VInt (mem_size_mib f)); ("smt", VBool false)]);
   ("network-interfaces", VList []); ("command", VList (map VStr (argv c)))].
Inductive SandboxRunner :=
| WorkspaceRunner (root : path) (allowed : list string)
| ContainerRunner (k : ContainerKind) (d : DockerSandbox)
| FirecrackerRunner (f : Firecracker)
| ContainerPlaceholder
| MicroVMPlaceholder.
Definition run (r : SandboxRunner) (c : SandboxCommand) : HM SandboxResult :=
  match r with
  | WorkspaceRunner root allowed => workspace_run root allowed c
  | ContainerRunner (Gvisor rt as k) d =>
      if negb (found rt) then raise (unavailable_error ("gVisor runtime '" +:+ rt +:+ "' is not available"))
      else docker_run k d c
  | ContainerRunner k d => docker_run k d c
  | FirecrackerRunner f =>
      let! fs := gets h_fs in
      if negb (firecracker_available f fs)
      then raise (unavailable_error "firecracker runtime, guest kernel, or rootfs image is not available")
      else raise (unavailable_error "firecracker command-execution lifecycle is not yet wired")
  | ContainerPlaceholder => raise (unavailable_error "container sandbox requires external runtime")
  | MicroVMPlaceholder => raise (unavailable_error "microVM sandbox requires external runtime")
  end.
(** [WorkspaceSubprocessSandboxRunner(workspace_root)] *)
Definition workspace_init (root : path) (allowed : list string) : HM SandboxRunner := fun e =>
  let '(r, fs) := (let! q := (fun fs => of_res (resolve fs root) fs) in mkdir q ;;; ret (WorkspaceRunner q allowed)) (h_fs e) in
  (r, with_fs fs e).
(** [order.get(name, len(order))] for [order = {name: rank for rank, name in enumerate(prefer)}]:
    the last rank of a name, and the number of different names otherwise. *)
Fixpoint rank_of (n : Z) (prefer : list string) (name : string) : option Z :=
  match prefer with
  | [] => None
  | x :: l => match rank_of (n + 1) l name with
              | Some r => Some r
              | None => if String.eqb x name then Some n else None
              end
  end.
Definition rank (prefer : list string) (name : string) : Z :=
  match rank_of 0 prefer name with Some r => r | None => Z.of_nat (length (remove_dups prefer)) end.
Fixpoint insert_ranked {A} (rk : A -> Z) (x : A) (l : list A) : list A :=
  match l with
  | [] => [x]
  | y :: l' => if (rk x <=? rk y)%Z then x :: l else y :: insert_ranked rk x l'
  end.
(** [candidates.sort(key=...)], stable *)
Definition sort_ranked {A} (rk : A -> Z) (l : list A) : list A := foldr (insert_ranked rk) [] l.
Definition candidates (d : DockerSandbox) : list (string * ContainerKind) :=
  [("gvisor", Gvisor "runsc"); ("podman", RootlessPodman "keep-id" None); ("docker", Docker)].
Definition resolve_sandbox_runner (policy : SandboxPolicy) (d : DockerSandbox) (prefer : list string)
    (firecracker : option Firecracker) : HM SandboxRunner :=
  match policy with
  | SP_WORKSPACE => workspace_init (d_root d) []
  | SP_CONTAINER =>
      let! fs := gets h_fs in
      let! d' := of_res (docker_init d fs) in
      let l := candidates d' in
      let l := match prefer with [] => l | _ => sort_ranked (fun x => rank prefer x.1) l end in
      match List.find (fun x => is_available x.2 d') l with
      | Some (_, k) => ret (ContainerRunner k d')
      | None => raise (unavailable_error "no container isolation runtime (gVisor/rootless podman/docker) is available")
      end
  | SP_MICROVM =>
      let! fs := gets h_fs in
      match firecracker with
      | Some f => if firecracker_available f fs then ret (FirecrackerRunner f)
                  else raise (unavailable_error "no microVM runtime (firecracker) is available")
      | None => raise (unavailable_error "no microVM runtime (firecracker) is available")
      end
  | SP_NONE => raise (unavailable_error ("policy '" +:+ enum_value SP_NONE +:+ "' has no isolation backend"))
  end.
End sandbox.

(** * The tools that start processes: the sandbox command tool of sandbox.py, the diff and
    test tools of dev_tools.py, and the registries of developer tools. *)


Section devtools.
Context `{PyRuntime} `{JsonSchemaValidator} `{Processes}.
(** The working directory of the process. *)
Context (wd : path).
Abbreviation T A := (TM HostEnv A).
(** An action of a runner inside a tool. *)
Definition in_host {X A} (m : M X exn A) : TM X A := fun '(e, w) => let '(r, e') := m e in (r, (e', w)).

(** ** SandboxCommandTool *)

Definition sandbox_command_spec (policy : SandboxPolicy) : ToolSpec := {|
  name := "sandbox_command"; ts_description := "Run a subprocess command inside the workspace sandbox.";
  permissions := [EXECUTE_CODE]; default_risk := HIGH; reversible := false; ts_reversibility := IRREVERSIBLE;
  ts_rollback_reliability := fone; ts_compensation_strategy := CS_MANUAL; version := "0.1.0";
  input_schema :=
    [("type", VStr "object"); ("required", VList [VStr "argv"]);
     ("properties", VDict [("argv", VDict [("type", VStr "array"); ("minItems", VInt 1); ("items", type_field "string")]);
                           ("cwd", type_field "string"); ("timeout_seconds", type_field "number")]);
     ("additionalProperties", VBool false)];
  output_schema := []; timeout_ms := 3000; network_access := false; egress_host := None; egress_methods := [];
  rollback_egress_methods := []; filesystem_scope := "workspace"; secrets_allowed := false; sandbox_policy := policy;
  requires_human_for := []; causal_contract := None |}.
Definition sandbox_command_dry (args : dict pyval) : ToolResult :=
  match default (VList []) (dget "argv" args) with
  | VList ((_ :: _) as l) =>
      let would := tool_result true ("Would run: " +:+ str_join " " (map py_str l)) in
      match default VNone (dget "cwd" args) with
      | VNone => would
      | v => match as_str v with
             | Some s => if String.eqb (py_strip s) "" then tool_result false "cwd must be a non-empty string" else would
             | None => tool_result false "cwd must be a non-empty string"
             end
      end
  | _ => tool_result false "argv must be a non-empty list of strings"
  end.
Definition float_arg (k : string) (d : float) (args : dict pyval) : res exn float :=
  match dget k args with Some v => py_float v | None => Ok d end.
(** The tool works with every runner of the protocol: [run_] is its method [run], over an environment [X]. *)
Definition sandbox_command_execute {X} (run_ : SandboxCommand -> M X exn SandboxResult) (args : dict pyval) : TM X ToolResult :=
  let! l := of_res (py_iter (default (VList []) (dget "argv" args))) in
  let dir := default VNone (dget "cwd" args) in
  let! timeout := of_res (float_arg "timeout_seconds" (f_of_Z 10) args) in
  let! r := in_host (run_ {| argv := map py_str l; cwd := if truthy dir then Some (py_str dir) else None; env := [];
                                   timeout_seconds := timeout; max_output_bytes := 65536 |}) in
  ret {| ok := sr_ok r; message := sr_message r;
         data := [("stdout", VStr (sr_stdout r)); ("stderr", VStr (sr_stderr r)); ("timed_out", VBool (timed_out r));
                  ("truncated", VBool (truncated r))];
         observed_state_delta := [("command_returncode", match returncode r with Some z => VInt z | None => VNone end);
                                  ("command_ok", VBool (sr_ok r))];
         rollback_token := None; error := None |}.
Definition SandboxCommandTool {X} (policy : SandboxPolicy) (run_ : SandboxCommand -> M X exn SandboxResult) : Tool X := {|
  spec := sandbox_command_spec policy; dry_run := fun args => ret (sandbox_command_dry args);
  execute := sandbox_command_execute run_;
  rollback := fun _ => ret (tool_result true "Sandbox command has no rollback capability");
  attestations := None; client_allows := None |}.
Definition SandboxCommandTool_container {X} (run_ : SandboxCommand -> M X exn SandboxResult) : Tool X :=
  SandboxCommandTool SP_CONTAINER run_.

(** ** GitDiffTool and RunTestsTool *)

Definition git_diff_spec : ToolSpec :=
  file_spec "git_diff" "Return git diff for the workspace." [READ_FILES] LOW IRREVERSIBLE CS_NONE []
    [("type", VStr "object"); ("required", VList [VStr "git_diff"; VStr "truncated"])] [] None.
Definition git_failed (msg : string) : ToolResult := failed ("git diff failed: " +:+ msg) (Exn LeosError msg).
Definition git_diff_execute (root : path) (args : dict pyval) : T ToolResult :=
  let! max_output := of_res (int_arg "max_output_bytes" 65536 args) in
  match float_arg "timeout_seconds" (f_of_Z 10) args with
  | Raise e => ret (git_failed (exn_str e))
  | Ok t =>
      let! o := in_host (run_process {| pc_argv := ["git"; "diff"]; pc_cwd := Some root; pc_env := None; pc_timeout := t |}) in
      ret match o with
          | ProcTimeout msg | ProcOSError msg => git_failed msg
          | ProcRaises e => git_failed (exn_str e)
          | Completed rc out err =>
              if (rc =? 0)%Z
              then observing "Read git diff" [("git_diff", VStr (text_to max_output out));
                                              ("truncated", VBool (max_output <? str_len out)%Z)] None
              else {| ok := false; message := "git diff failed"; data := [("stderr", VStr err); ("returncode", VInt rc)];
                      observed_state_delta := []; rollback_token := None; error := None |}
          end
  end.
Definition GitDiffTool (root : path) : Tool HostEnv :=
  file_tool git_diff_spec (fun _ => ret (tool_result true "Would run git diff")) (git_diff_execute root)
    (fun _ => ret (tool_result true "Git diff has no rollback side effect")).

Definition SECRET_ENV_MARKERS : list string := ["TOKEN"; "API_KEY"; "PASSWORD"; "SECRET"].
Definition test_env_keys : list string := ["PATH"; "PYTHONPATH"; "VIRTUAL_ENV"].
Definition safe_test_env : dict string :=
  List.filter (fun kv => str_mem kv.1 test_env_keys && negb (existsb (fun m => str_in m (py_upper kv.1)) SECRET_ENV_MARKERS)) os_environ.
Definition run_tests_spec : ToolSpec :=
  file_spec "run_tests" "Run local test command inside the workspace." [EXECUTE_CODE] HIGH IRREVERSIBLE CS_MANUAL []
    [("type", VStr "object");
     ("required", VList (map VStr ["tests_ok"; "returncode"; "stdout"; "stderr"; "truncated"]))] [] None.
Definition test_argv (args : dict pyval) : pyval :=
  default (VList (map VStr ["python"; "-m"; "unittest"; "discover"; "-s"; "tests"])) (dget "argv" args).
Definition run_tests_dry (args : dict pyval) : ToolResult :=
  match test_argv args with
  | VList l => if forallb (fun v => match as_str v with Some _ => true | None => false end) l
               then tool_result true "Would run tests"
               else failed "argv must be a list of strings" (Exn DryRunFailed "Invalid argv")
  | _ => failed "argv must be a list of strings" (Exn DryRunFailed "Invalid argv")
  end.
Definition tests_result (b : bool) (msg : string) (rc out err : pyval) (cut_off : bool) (e : option exn) : ToolResult :=
  {| ok := b; message := msg; data := [];
     observed_state_delta := [("tests_ok", VBool b); ("returncode", rc); ("stdout", out); ("stderr", err); ("truncated", VBool cut_off)];
     rollback_token := None; error := e |}.
Definition run_tests_execute (root : path) (args : dict pyval) : T ToolResult :=
  dry_then (ret (run_tests_dry args)) (
  let! command := of_res (py_iter (test_argv args)) in
  let! n := of_res (int_arg "max_output_bytes" 65536 args) in
  let! t := of_res (float_arg "timeout_seconds" (f_of_Z 60) args) in
  let! o := in_host (run_process {| pc_argv := omap as_str command; pc_cwd := Some root; pc_env := Some safe_test_env; pc_timeout := t |}) in
  match o with
  | ProcTimeout msg => ret (tests_result false "Tests timed out" VNone (VStr "") (VStr msg) false (Some (Exn LeosError "Tests timed out")))
  | ProcOSError msg => raise (Exn OSError msg)
  | ProcRaises e => raise e
  | Completed rc out err =>
      ret (tests_result (rc =? 0)%Z "Tests completed" (VInt rc) (VStr (text_to n out)) (VStr (text_to n err))
             ((n <? str_len out)%Z || (n <? str_len err)%Z) None)
  end).
Definition RunTestsTool (root : path) : Tool HostEnv :=
  file_tool run_tests_spec (fun args => ret (run_tests_dry args)) (run_tests_execute root)
    (fun _ => ret (tool_result true "Run tests has no rollback capability")).

(** ** default_dev_registry *)

Fixpoint register_all {X} (l : list (Tool X)) (r : ToolRegistry X) : res exn (ToolRegistry X) :=
  match l with [] => Ok r | t :: l' => res_bind (register t r) (register_all l') end.
Definition dev_tools (root : path) (include_execute : bool) : list (Tool HostEnv) :=
  [EchoTool; ListFilesTool root; ReadFileTool root; PatchFileTool wd root; GitDiffTool root] ++
  (if include_execute then [RunTestsTool root] else []).
Definition default_dev_registry (workspace_root : path) (include_execute : bool) (fs : FS) : res exn (ToolRegistry HostEnv) :=
  res_bind (resolve fs workspace_root) (fun root => register_all (dev_tools root include_execute) []).
End devtools.
