(* ===== verification/Transactions.v ===== *)
(** Transactional execution of a plan (transactions.py, [TransactionManager]).

    The state of a run is the record [TState]: the audit log and oracle
    positions, the environment of the tools, the world state, the heap of step
    objects, the plan (whose goal is reassigned), the use counters of the
    grants, the gate and the rollback stack, which [execute_plan] keeps in a
    local variable.  [t_calls] is a history of the tool calls performed; no
    definition reads it.  A tool or a gate receives the values of the
    arguments and of the step; that it mutates these objects in place is not
    modelled.

    Every block of the loop body of [execute_plan] is a definition returning
    [None] when the block ends in [break]. *)
From S2P Require Import Prelude Enums PyValue Sanitization Goals Plans Tools AuditTrail Causal Egress Policy Approval Gates.

Inductive call_kind : Type := DryRun | Execute | Rollback.
#[export] Instance call_kind_eq_dec : EqDecision call_kind.
Proof. solve_decision. Defined.
Record tool_call := ToolCall {
  tc_kind : call_kind;
  tc_index : nat;              (** the step, as an index of the heap *)
  tc_step : ActionStep;        (** the step as hydrated before the call *)
  tc_spec : ToolSpec;
  tc_args : dict pyval;
  tc_result : res exn ToolResult;
}.

Record TState (X G : Type) := {
  t_sys : Sys;
  t_env : X;
  t_world : WorldState;
  t_heap : list ActionStep;
  t_plan : TransactionPlan;
  t_uses : nat -> Z;
  t_gate : G;
  t_stack : list (Tool X * dict pyval * nat);
  t_calls : list tool_call;
}.
Arguments t_sys {X G} _.
Arguments t_env {X G} _.
Arguments t_world {X G} _.
Arguments t_heap {X G} _.
Arguments t_plan {X G} _.
Arguments t_uses {X G} _ _.
Arguments t_gate {X G} _.
Arguments t_stack {X G} _.
Arguments t_calls {X G} _.

Section setters.
Context {X G : Type}.
Implicit Types s : TState X G.
Definition with_sys x s : TState X G := {| t_sys := x; t_env := t_env s; t_world := t_world s;
  t_heap := t_heap s; t_plan := t_plan s; t_uses := t_uses s; t_gate := t_gate s; t_stack := t_stack s;
  t_calls := t_calls s |}.
Definition with_world w s : TState X G := {| t_sys := t_sys s; t_env := t_env s; t_world := w;
  t_heap := t_heap s; t_plan := t_plan s; t_uses := t_uses s; t_gate := t_gate s; t_stack := t_stack s;
  t_calls := t_calls s |}.
Definition with_heap h s : TState X G := {| t_sys := t_sys s; t_env := t_env s; t_world := t_world s;
  t_heap := h; t_plan := t_plan s; t_uses := t_uses s; t_gate := t_gate s; t_stack := t_stack s;
  t_calls := t_calls s |}.
Definition with_plan p s : TState X G := {| t_sys := t_sys s; t_env := t_env s; t_world := t_world s;
  t_heap := t_heap s; t_plan := p; t_uses := t_uses s; t_gate := t_gate s; t_stack := t_stack s;
  t_calls := t_calls s |}.
Definition with_uses u s : TState X G := {| t_sys := t_sys s; t_env := t_env s; t_world := t_world s;
  t_heap := t_heap s; t_plan := t_plan s; t_uses := u; t_gate := t_gate s; t_stack := t_stack s;
  t_calls := t_calls s |}.
Definition with_stack k s : TState X G := {| t_sys := t_sys s; t_env := t_env s; t_world := t_world s;
  t_heap := t_heap s; t_plan := t_plan s; t_uses := t_uses s; t_gate := t_gate s; t_stack := k;
  t_calls := t_calls s |}.
(** After a method of the gate: its state and the clock index. *)
Definition with_gate g n s : TState X G := {|
  t_sys := {| sys_log := sys_log (t_sys s); n_time := n; n_uuid := n_uuid (t_sys s) |}; t_env := t_env s;
  t_world := t_world s; t_heap := t_heap s; t_plan := t_plan s; t_uses := t_uses s; t_gate := g;
  t_stack := t_stack s; t_calls := t_calls s |}.
(** After a method of a tool: the environment, the world state, the history. *)
Definition with_call e w c s : TState X G := {| t_sys := t_sys s; t_env := e; t_world := w;
  t_heap := t_heap s; t_plan := t_plan s; t_uses := t_uses s; t_gate := t_gate s; t_stack := t_stack s;
  t_calls := t_calls s ++ [c] |}.

#[export] Program Instance TState_HasSys : HasSys (TState X G) := {| sys_of := t_sys; upd_sys := with_sys |}.
Next Obligation. done. Qed.
End setters.

Record TransactionManager (X G : Type) := {
  tm_registry : ToolRegistry X;
  tm_policy : PolicyEngine;
  tm_causal : CausalGraph;
  tm_gate : ApprovalGate G;
  tm_allow_network_tools : bool;
  tm_sandbox_runners : list SandboxPolicy;
}.
Arguments tm_registry {X G} _.
Arguments tm_policy {X G} _.
Arguments tm_causal {X G} _.
Arguments tm_gate {X G} _.
Arguments tm_allow_network_tools {X G} _.
Arguments tm_sandbox_runners {X G} _.

Section transactions.
Context `{PyRuntime} `{JsonSchemaValidator} {X G : Type}.
Context (tm : TransactionManager X G).

Abbreviation TT A := (M (TState X G) exn A).
Abbreviation pol := (tm_policy tm).

Definition default_step : ActionStep := new_step "" [] "" "".
Definition get_step (i : nat) : TT ActionStep := gets (fun s => default default_step (t_heap s !! i)).
Definition upd_step (i : nat) (f : ActionStep -> ActionStep) : TT unit :=
  modify (fun s => with_heap (alter f i (t_heap s)) s).
Definition put_status (i : nat) (v : StepStatus) : TT unit := upd_step i (set_status v).

Definition lift_gate {A} (m : GM G A) : TT A := fun s =>
  let '(r, (g, n)) := m (t_gate s, n_time (t_sys s)) in (r, with_gate g n s).
Definition call_tool (k : call_kind) (i : nat) (st : ActionStep) (t : Tool X) (args : dict pyval) :
    TT ToolResult := fun s =>
  let m := match k with DryRun => dry_run t | Execute => execute t | Rollback => rollback t end in
  let '(r, (e, w)) := m args (t_env s, t_world s) in
  (r, with_call e w (ToolCall k i st (spec t) args r) s).

Definition opt_str_pv (o : option string) : pyval := opt_str_val o.
Definition strs (l : list string) : pyval := str_list l.

(** [_error_type] *)
Definition error_type (o : option exn) : pyval :=
  match o with Some e => VStr (exn_name (exn_cls e)) | None => VNone end.
(** [_affected_resources] *)
Definition affected_resources (st : ActionStep) : list string :=
  omap (fun key => match opt_str key (arguments st) with Some v => Some (key +:+ ":" +:+ v) | None => None end)
       ["repo"; "path"; "branch"; "issue_number"; "pr_number"].

(** ** Rollback *)

(** [_rollback_egress_block_reason] *)
Definition rollback_egress_block_reason (ts : ToolSpec) : option (string * list string * string) :=
  if negb (is_production (profile_name pol)) then None
  else if negb (is_network_tool ts) then None
  else
    let host := default "" (egress_host ts) in
    let methods := rollback_egress_methods_for_tool ts in
    match egress_policy pol with
    | None => Some (host, methods, profile_name pol +:+ " forbids rollback egress without an explicit policy")
    | Some ep =>
        if String.eqb host "" then Some (host, methods, profile_name pol +:+ " rollback egress missing host")
        else match methods with
        | [] => Some (host, methods, profile_name pol +:+ " requires rollback egress methods for " +:+ name ts)
        | _ =>
            match filter (fun m => negb (allows ep host m) = true) methods with
            | [] => None
            | missing => Some (host, methods, profile_name pol +:+ " egress policy does not allow rollback " +:+
                                              str_join "," missing +:+ " " +:+ host)
            end
        end
    end.

(** [_record_manual_recovery] *)
Definition record_manual_recovery (st : ActionStep) (ts : ToolSpec) (why : string) : TT unit :=
  let! plan := gets t_plan in
  let gid := Some (goal_id (p_goal plan)) in
  let pid := Some (plan_id plan) in
  let! packet := recovery_build gid pid (step_id st) (name ts) why (RiskLevel_value (risk st))
                   (profile_name pol) (rollback_summary_of st) (affected_resources st) in
  audit "recovery.packet_created" "Manual recovery packet created" [("packet", recovery_as_dict packet)] ;;;
  audit "recovery.manual_action_required" "Manual recovery action is required"
    [("recovery_id", VStr (mr_recovery_id packet)); ("goal_id", opt_str_pv gid); ("plan_id", opt_str_pv pid);
     ("step_id", VStr (step_id st)); ("tool", VStr (name ts)); ("reason", VStr why)].

(** One iteration of the loop of [_rollback]; the result tells whether the
    rollback succeeded. *)
Definition rollback_one (t : Tool X) (token : dict pyval) (i : nat) : TT bool :=
  let! st := get_step i in
  let ts := spec t in
  audit "rollback_attempted" "Attempting rollback" [("step_id", VStr (step_id st)); ("tool", VStr (name ts))] ;;;
  match rollback_egress_block_reason ts with
  | Some (host, methods, why) =>
      put_status i FAILED ;;;
      audit "rollback.egress_blocked" "Rollback blocked by production egress policy"
        [("step_id", VStr (step_id st)); ("tool", VStr (name ts)); ("host", VStr host);
         ("rollback_methods", strs methods); ("profile", VStr (profile_name pol));
         ("network_access", VBool (network_access ts)); ("reason", VStr why)] ;;;
      record_manual_recovery st ts why ;;;
      ret false
  | None =>
      (if is_network_tool ts
       then audit "rollback.egress_allowed" "Rollback egress allowed by runtime policy"
              [("step_id", VStr (step_id st)); ("tool", VStr (name ts)); ("host", opt_str_pv (egress_host ts));
               ("rollback_methods", strs (rollback_egress_methods ts));
               ("profile", VStr (profile_name pol)); ("network_access", VBool (network_access ts))]
       else ret tt) ;;;
      let! result := catch (call_tool Rollback i st t token) (fun e =>
        ret {| ok := false; message := "Rollback raised: " +:+ exn_str e; data := [];
               observed_state_delta := []; rollback_token := None;
               error := Some (Exn RollbackFailed (exn_str e)) |}) in
      put_status i (if ok result then ROLLED_BACK else FAILED) ;;;
      audit "step.rollback" (message result) [("step_id", VStr (step_id st)); ("ok", VBool (ok result))] ;;;
      if ok result
      then
        audit "rollback_succeeded" (message result)
          [("step_id", VStr (step_id st)); ("tool", VStr (name ts))] ;;;
        ret true
      else
        let err := match error result with Some e => e | None => Exn RollbackFailed (message result) end in
        audit "rollback_failed" (message result)
          [("step_id", VStr (step_id st)); ("tool", VStr (name ts)); ("error_type", error_type (Some err))] ;;;
        audit "manual_recovery_required" "Rollback failed; manual recovery is required"
          [("step_id", VStr (step_id st)); ("tool", VStr (name ts)); ("error_type", error_type (Some err))] ;;;
        record_manual_recovery st ts (message result) ;;;
        ret false
  end.

(** The [while rollback_stack] loop; [k] is the stack, its head the last
    entry pushed. *)
Fixpoint rollback_loop (k : list (Tool X * dict pyval * nat)) (succeeded failed : Z) : TT (Z * Z) :=
  match k with
  | [] => ret (succeeded, failed)
  | (t, token, i) :: k' =>
      modify (with_stack k') ;;;
      let! b := rollback_one t token i in
      if (b : bool) then rollback_loop k' (succeeded + 1) failed else rollback_loop k' succeeded (failed + 1)
  end.
(** [_rollback] *)
Definition rollback_all : TT unit :=
  let! k := gets t_stack in
  let! sf := rollback_loop k 0 0 in
  if negb (snd sf =? 0)%Z && negb (fst sf =? 0)%Z
  then audit "rollback_partially_completed" "Some rollback steps succeeded and some failed"
         [("succeeded", VInt (fst sf)); ("failed", VInt (snd sf))]
  else ret tt.

(** A block that ends in [break]: the step's status, the audit events, the
    rollback of the executed steps. *)
Definition audit_all (evs : list (string * string * dict pyval)) : TT unit :=
  for_each evs (fun ev => audit ev.1.1 ev.1.2 ev.2).
Definition stop {A} (i : nat) (v : StepStatus) (evs : list (string * string * dict pyval)) : TT (option A) :=
  put_status i v ;;; audit_all evs ;;; rollback_all ;;; ret None.

(** ** Goal status *)

(** [_transition_plan_goal]; the recursive call is for CREATED to RUNNING only. *)
Definition transition_to (v : GoalStatus) : TT unit :=
  let! plan := gets t_plan in
  let previous := g_status (p_goal plan) in
  let! g := of_res (transition v (p_goal plan)) in
  modify (with_plan (set_p_goal g plan)) ;;;
  audit "goal.status_changed" "Goal status changed"
    [("goal_id", VStr (goal_id g)); ("from_status", VStr (GoalStatus_value previous));
     ("to_status", VStr (GoalStatus_value (g_status g)))].
Definition transition_plan_goal (v : GoalStatus) : TT unit :=
  let! plan := gets t_plan in
  let current := g_status (p_goal plan) in
  if decide (current = v) then ret tt
  else
    (if decide (current = G_CREATED /\ v = G_RUNNING) then transition_to G_PLANNING else ret tt) ;;;
    transition_to v.

(** The statuses of the plan's steps, in plan order. *)
Definition step_statuses (s : TState X G) : list StepStatus :=
  map (fun i => status (default default_step (t_heap s !! i))) (p_steps (t_plan s)).
(** [_final_goal_status] *)
Definition final_goal_status (l : list StepStatus) : GoalStatus :=
  match l with
  | [] => G_PARTIALLY_DONE
  | _ =>
      let verified := length (filter (fun v => v = VERIFIED) l) in
      if (verified =? length l)%nat then G_PARTIALLY_DONE
      else if negb (verified =? 0)%nat then G_PARTIALLY_DONE
      else if existsb (fun v => bool_decide (v = BLOCKED)) l then G_BLOCKED
      else if existsb (fun v => bool_decide (v = FAILED \/ v = ROLLED_BACK)) l then G_FAILED
      else G_FAILED
  end.

(** [track_progress] *)
Definition track_progress (l : list StepStatus) : GoalProgress :=
  fold_left (fun p v =>
    match v with
    | VERIFIED => {| total_steps := total_steps p; verified_steps := verified_steps p + 1;
                     blocked_steps := blocked_steps p; failed_steps := failed_steps p;
                     rolled_back_steps := rolled_back_steps p |}
    | BLOCKED => {| total_steps := total_steps p; verified_steps := verified_steps p;
                    blocked_steps := blocked_steps p + 1; failed_steps := failed_steps p;
                    rolled_back_steps := rolled_back_steps p |}
    | FAILED => {| total_steps := total_steps p; verified_steps := verified_steps p;
                   blocked_steps := blocked_steps p; failed_steps := failed_steps p + 1;
                   rolled_back_steps := rolled_back_steps p |}
    | ROLLED_BACK => {| total_steps := total_steps p; verified_steps := verified_steps p;
                        blocked_steps := blocked_steps p; failed_steps := failed_steps p;
                        rolled_back_steps := rolled_back_steps p + 1 |}
    | _ => p
    end%Z) l
    {| total_steps := Z.of_nat (length l); verified_steps := 0; blocked_steps := 0; failed_steps := 0;
       rolled_back_steps := 0 |}.

(** ** Guards of a step *)

(** [_enforce_sandbox], called with a tool. *)
Definition enforce_sandbox (ts : ToolSpec) : option string :=
  let available p := bool_decide (p ∈ tm_sandbox_runners tm) in
  let p := sandbox_policy ts in
  if bool_decide (p = SP_CONTAINER) && negb (available p)
  then Some "container sandbox not available — requires external container runtime"
  else if bool_decide (p = SP_MICROVM) && negb (available p)
  then Some "microvm sandbox not available — requires external microvm runtime"
  else if network_access ts && negb (tm_allow_network_tools tm)
  then
    if is_production (profile_name pol) && match egress_policy pol with Some _ => true | None => false end
    then None
    else Some "network access not allowed in default sandbox"
  else if bool_decide (p = SP_WORKSPACE) && String.eqb (filesystem_scope ts) "none"
  then Some "workspace sandbox requires filesystem_scope"
  else None.

(** [_prepare_arguments] *)
Definition preserved_keys (ts : ToolSpec) : list string :=
  if String.prefix "github_" (name ts) then ["token"] else [].
Definition prepare_arguments (args : dict pyval) (secrets_allowed : bool) (preserve : list string) : dict pyval :=
  if secrets_allowed
  then map (fun kv => (kv.1, match kv.2 with
                             | VSecret o v => if str_mem kv.1 preserve then VSecret o v else VStr v
                             | v => v
                             end)) args
  else map (fun kv => (kv.1, redact_args kv.2)) args.

(** [_hydrate_step_metadata] *)
Definition hydrate (ts : ToolSpec) (st : ActionStep) : ActionStep :=
  set_metadata (permissions ts) (assess ts (arguments st)) (ts_reversibility ts)
    (ts_compensation_strategy ts) (ts_rollback_reliability ts) st.

(** [_check_conditions]: the issue of one condition, if any. *)
Definition condition_issue (w : WorldState) (c : StateCondition) : option pyval :=
  let actual := facts w !! sc_variable c in
  let present := match actual with Some _ => true | None => false end in
  let actual_val := default VNone actual in
  let issue (extra : dict pyval) := Some (VDict (dupdate (describe c) extra)) in
  if bool_decide (sc_operator c = OP_EXISTS) && negb present
  then issue [("reason", VStr "missing_fact")]
  else if bool_decide (sc_operator c = OP_NOT_EXISTS) && present
  then issue [("reason", VStr "unexpected_fact"); ("actual", actual_val)]
  else if bool_decide (sc_operator c = OP_EQUALS) && (negb present || py_neq actual_val (sc_value c))
  then issue [("reason", VStr "value_mismatch"); ("actual", actual_val)]
  else
    match sc_trust_level c with
    | None => None
    | Some t =>
        let have := trust w !! sc_variable c in
        if decide (have = Some t) then None
        else issue [("reason", VStr "trust_mismatch");
                    ("actual_trust", match have with Some t' => VStr (TrustLevel_value t') | None => VNone end)]
    end.
Definition check_conditions (cs : list StateCondition) (w : WorldState) : list pyval :=
  omap (condition_issue w) cs.

(** [_idempotency_marker] *)
Definition idempotency_marker (key : string) : string := "idempotency:" +:+ key.
(** [bool(step.idempotency_key)] *)
Definition idem_key (st : ActionStep) : option string :=
  match idempotency_key st with Some k => if String.eqb k "" then None else Some k | None => None end.

(** ** Runtime attestation of production network tools *)

Record Attestation := {
  at_map : dict pyval;             (** what the tool attests; empty when it cannot *)
  at_expected_host : string;
  at_runtime_host : string;
  at_mode : string;
  at_host_match : bool;
  at_forward : list string;
  at_rollback : list string;
  at_missing_forward : list string;
  at_missing_rollback : list string;
}.
Definition attest (x : X) (t : Tool X) : Attestation :=
  let ts := spec t in
  let m := match attestations t with
           | Some f => match f x with Ok (VDict d) => d | _ => [] end
           | None => []
           end in
  let expected := default "" (egress_host ts) in
  let host := py_str (default (VStr "") (dget "runtime_egress_host" m)) in
  let mode := py_str (default (VStr "unknown") (dget "runtime_egress_mode" m)) in
  let forward := map py_upper (egress_methods ts) in
  let rollback := rollback_egress_methods_for_tool ts in
  let missing ms := match client_allows t with
                    | Some f => if negb (String.eqb expected "") && String.eqb mode "enforced"
                                then filter (fun m => negb (f x expected m) = true) ms else []
                    | None => []
                    end in
  {| at_map := m; at_expected_host := expected; at_runtime_host := host; at_mode := mode;
     at_host_match := negb (String.eqb expected "") && String.eqb host expected;
     at_forward := forward; at_rollback := rollback;
     at_missing_forward := missing forward; at_missing_rollback := missing rollback |}.
Definition is_true_val (o : option pyval) : bool := match o with Some (VBool true) => true | _ => false end.
(** The reason for which an attestation fails, and the payload fields specific to it. *)
Definition attestation_failure (ts : ToolSpec) (callable : bool) (a : Attestation) :
    option (string * dict pyval) :=
  let get k := default VNone (dget k (at_map a)) in
  let net := [("network_access", VBool (network_access ts))] in
  let enforced := [("runtime_egress_enforced", get "runtime_egress_enforced");
                   ("runtime_egress_policy_configured", get "runtime_egress_policy_configured")] in
  let mode := [("runtime_egress_mode", VStr (at_mode a)); ("runtime_egress_host", VStr (at_runtime_host a));
               ("expected_egress_host", VStr (at_expected_host a))] in
  let hm := [("host_match", VBool (at_host_match a))] in
  let hosts := [("expected_egress_host", VStr (at_expected_host a));
                ("runtime_egress_host", VStr (at_runtime_host a))] in
  let reason := profile_name pol +:+ " requires runtime egress enforcement for network tools" in
  if bool_decide (length (at_map a) = 0%nat) then Some (reason, net)
  else if String.eqb (profile_name pol) "production_github_only" && String.eqb (at_mode a) "in_memory"
  then Some ("production_github_only requires enforced runtime egress, not in-memory attestation",
             net ++ enforced ++ mode ++ hm)
  else if negb (is_true_val (dget "runtime_egress_enforced" (at_map a))) ||
          negb (is_true_val (dget "runtime_egress_policy_configured" (at_map a))) ||
          negb (str_mem (at_mode a) ["enforced"; "in_memory"])
  then Some (reason, net ++ enforced ++ mode ++ hm)
  else if String.eqb (at_mode a) "enforced" && negb (at_host_match a)
  then Some ("production profile requires runtime egress host to match tool egress host", net ++ mode ++ hm)
  else if String.eqb (at_mode a) "enforced" && negb callable
  then Some ("production profile requires runtime egress method attestation", net ++ mode)
  else if negb (bool_decide (length (at_missing_forward a) = 0%nat))
  then Some ("production profile runtime egress policy does not allow required forward methods",
             hosts ++ [("runtime_missing_forward_methods", strs (at_missing_forward a))])
  else if negb (bool_decide (length (at_missing_rollback a) = 0%nat))
  then Some ("production profile runtime egress policy does not allow required rollback methods",
             hosts ++ [("runtime_missing_rollback_methods", strs (at_missing_rollback a))])
  else None.
Definition callable_client (t : Tool X) : bool := match client_allows t with Some _ => true | None => false end.

(** [_runtime_attestation_block_reason] *)
Definition runtime_attestation_block_reason (st : ActionStep) (t : Tool X) : TT (option string) :=
  let ts := spec t in
  if negb (is_production (profile_name pol)) then ret None
  else if negb (is_network_tool ts) then ret None
  else
    let! a := gets (fun s => attest (t_env s) t) in
    let get k := default VNone (dget k (at_map a)) in
    audit "runtime.attestation_checked" "Runtime attestations checked for production network tool"
      [("step_id", VStr (step_id st)); ("tool", VStr (tool_name st)); ("profile", VStr (profile_name pol));
       ("network_access", VBool (network_access ts));
       ("runtime_egress_enforced", get "runtime_egress_enforced");
       ("runtime_egress_policy_configured", get "runtime_egress_policy_configured");
       ("runtime_egress_mode", VStr (at_mode a)); ("runtime_egress_host", VStr (at_runtime_host a));
       ("expected_egress_host", VStr (at_expected_host a)); ("host_match", VBool (at_host_match a));
       ("expected_forward_methods", strs (at_forward a)); ("expected_rollback_methods", strs (at_rollback a));
       ("runtime_missing_forward_methods", strs (at_missing_forward a));
       ("runtime_missing_rollback_methods", strs (at_missing_rollback a))] ;;;
    match attestation_failure ts (callable_client t) a with
    | Some (why, extra) =>
        audit "runtime.attestation_failed" "Runtime attestation failed for production network tool"
          ([("step_id", VStr (step_id st)); ("tool", VStr (tool_name st)); ("profile", VStr (profile_name pol))]
           ++ extra ++ [("reason", VStr why)]) ;;;
        ret (Some why)
    | None => ret None
    end.

(** ** Budgets *)

Definition opt_Z_val (o : option Z) : pyval := match o with Some n => VInt n | None => VNone end.
(** [_record_budget_exceeded] *)
Definition record_budget_exceeded (i : nat) (msg : string) (pl : dict pyval) : TT unit :=
  put_status i BLOCKED ;;;
  let! st := get_step i in
  audit "budget.exceeded" msg
    ([("step_id", VStr (step_id st)); ("tool", VStr (tool_name st)); ("error_type", VStr "BudgetExceeded")] ++ pl).

Definition over (limit : option Z) (n : Z) : bool := match limit with Some m => (m <? n)%Z | None => false end.
(** The loop of [_budget_exceeded], with its two counters; the result tells
    whether a limit is exceeded. *)
Fixpoint budget_loop (b : ResourceBudget) (l : list nat) (file_writes network_requests : Z) : TT bool :=
  match l with
  | [] => ret false
  | i :: l' =>
      let! st := get_step i in
      match registry_get (tool_name st) (tm_registry tm) with
      | Raise e =>
          if negb (is_production (profile_name pol)) then raise e
          else
            record_budget_exceeded i "Unknown tool in plan"
              [("limit", VStr "known_tools"); ("allowed", VStr "registered tool"); ("actual", VStr (tool_name st));
               ("error", VStr (exn_str e))] ;;;
            ret true
      | Ok t =>
          upd_step i (hydrate (spec t)) ;;;
          let! st := get_step i in
          if (risk_value (max_risk_level b) <? risk_value (risk st))%Z
          then
            record_budget_exceeded i "Step exceeds maximum risk level"
              [("limit", VStr "max_risk_level"); ("allowed", VStr (RiskLevel_value (max_risk_level b)));
               ("actual", VStr (RiskLevel_value (risk st)))] ;;;
            ret true
          else
            let writes := if perm_in WRITE_FILES (required_permissions st)
                          then (file_writes + 1)%Z else file_writes in
            if perm_in WRITE_FILES (required_permissions st) && over (max_file_writes b) writes
            then
              record_budget_exceeded i "Plan exceeds maximum file writes"
                [("limit", VStr "max_file_writes"); ("allowed", opt_Z_val (max_file_writes b));
                 ("actual", VInt writes)] ;;;
              ret true
            else
              let net := network_access (spec t) || perm_in NETWORK (required_permissions st) in
              let requests := if net then (network_requests + 1)%Z else network_requests in
              if net && over (max_network_requests b) requests
              then
                record_budget_exceeded i "Plan exceeds maximum network requests"
                  [("limit", VStr "max_network_requests"); ("allowed", opt_Z_val (max_network_requests b));
                   ("actual", VInt requests)] ;;;
                ret true
              else budget_loop b l' writes requests
      end
  end.
(** [_budget_exceeded]; a [TransactionPlan] has no attribute [metrics], so the
    retry limit is never tested. *)
Definition budget_exceeded (b : ResourceBudget) : TT bool :=
  let! plan := gets t_plan in
  let n := Z.of_nat (length (p_steps plan)) in
  if over (max_tool_calls b) n
  then
    let allowed := default 0%Z (max_tool_calls b) in
    let! i := of_res match p_steps plan !! Z.to_nat (Z.min allowed (n - 1)) with
                     | Some i => Ok i
                     | None => Raise (Exn IndexError "list index out of range")
                     end in
    record_budget_exceeded i "Plan exceeds maximum tool calls"
      [("limit", VStr "max_tool_calls"); ("allowed", VInt allowed); ("actual", VInt n)] ;;;
    ret true
  else
    let! exceeded := budget_loop b (p_steps plan) 0 0 in
    if (exceeded : bool) then ret true
    else
      audit "budget.checked" "Resource budget accepted"
        [("plan_id", VStr (plan_id plan)); ("max_tool_calls", opt_Z_val (max_tool_calls b));
         ("max_file_writes", opt_Z_val (max_file_writes b));
         ("max_network_requests", opt_Z_val (max_network_requests b));
         ("max_risk_level", VStr (RiskLevel_value (max_risk_level b)))] ;;;
      ret false.

(** ** The blocks of the loop body of [execute_plan] *)

(** [reversibility] and [compensation_strategy] entries of a blocked step. *)
Definition reversal_fields (st : ActionStep) : dict pyval :=
  [("reversibility", VStr (Reversibility_value (reversibility st)));
   ("compensation_strategy", VStr (CompensationStrategy_value (compensation_strategy st)))].
Definition id_tool (st : ActionStep) : dict pyval :=
  [("step_id", VStr (step_id st)); ("tool", VStr (tool_name st))].
Definition policy_denied : dict pyval := [("error_type", VStr "PolicyDenied")].

(** The registry lookup. *)
Definition resolve_tool (i : nat) : TT (option (Tool X)) :=
  let! st := get_step i in
  match registry_get (tool_name st) (tm_registry tm) with
  | Ok t => ret (Some t)
  | Raise e =>
      if negb (is_production (profile_name pol)) then raise e
      else stop i BLOCKED [("step.blocked", "Step blocked: unknown tool",
             id_tool st ++ [("decision", VStr "denied"); ("reason", VStr (exn_str e))] ++ policy_denied)]
  end.

(** Egress assessment event. *)
Definition audit_egress (st : ActionStep) (ts : ToolSpec) : TT unit :=
  match production_egress_assessment pol st ts with
  | None => ret tt
  | Some a =>
      audit (if ea_allowed a then "egress.allowed" else "egress.blocked")
        "Production egress policy assessed tool network access"
        (id_tool st ++
         [("host", VStr (ea_host a)); ("forward_methods", strs (ea_forward_methods a));
          ("rollback_methods", strs (ea_rollback_methods a)); ("profile", VStr (profile_name pol));
          ("policy_name", VStr (profile_name pol)); ("network_access", VBool (network_access ts));
          ("reason", opt_str_pv (ea_reason a))])
  end.

(** [if issue:] on an optional reason. *)
Definition nonempty (o : option string) : option string :=
  match o with Some r => if String.eqb r "" then None else Some r | None => None end.

Definition check_attestation (i : nat) (st : ActionStep) (t : Tool X) : TT (option unit) :=
  let! issue := runtime_attestation_block_reason st t in
  match nonempty issue with
  | None => ret (Some tt)
  | Some why => stop i BLOCKED [("step.blocked", "Step blocked by runtime attestation policy",
      id_tool st ++ [("decision", VStr "denied"); ("risk", VStr (RiskLevel_value (risk st)));
                     ("profile", VStr (profile_name pol)); ("reason", VStr why)] ++ policy_denied)]
  end.

Definition check_production (i : nat) (st : ActionStep) (ts : ToolSpec) : TT (option unit) :=
  match nonempty (production_block_reason pol st ts) with
  | None => ret (Some tt)
  | Some why => stop i BLOCKED
      [(if str_in "causal contract" why then "causal_contract.missing" else "policy.blocked",
        "Step blocked by production policy",
        id_tool st ++ [("decision", VStr "denied"); ("risk", VStr (RiskLevel_value (risk st)));
                       ("profile", VStr (profile_name pol)); ("reason", VStr why)] ++ policy_denied)]
  end.

Definition check_sandbox (i : nat) (st : ActionStep) (ts : ToolSpec) : TT (option unit) :=
  match nonempty (enforce_sandbox ts) with
  | None => ret (Some tt)
  | Some why => stop i BLOCKED [("step.blocked", "Step blocked by sandbox policy",
      id_tool st ++ [("decision", VStr "denied"); ("error_type", VStr "SandboxViolation"); ("reason", VStr why)])]
  end.

Definition check_secrets (i : nat) (st : ActionStep) (ts : ToolSpec) : TT (option unit) :=
  if contains_secrets (VDict (arguments st)) && negb (secrets_allowed ts)
  then stop i BLOCKED [("step.blocked", "Step blocked: secrets not allowed",
         id_tool st ++ [("decision", VStr "denied"); ("error_type", VStr "SecretLeakedToUntrustedTool")])]
  else ret (Some tt).

(** The contract events and the counterfactual review; the predictions. *)
Definition predict_and_review (i : nat) (st : ActionStep) (ts : ToolSpec) : TT (list ActionConsequence) :=
  match causal_contract ts with
  | Some c => audit "step.causal_contract_used" "Using tool causal contract"
                (id_tool st ++ [("required_observations", strs (cc_required_observations c))])
  | None =>
      if (risk_value MEDIUM <=? risk_value (risk st))%Z
      then audit "step.causal_contract_missing_warning" "Medium or higher risk tool has no causal contract"
             (id_tool st ++ [("risk", VStr (RiskLevel_value (risk st)))])
      else ret tt
  end ;;;
  let! w := gets t_world in
  let preds := predict_for_tool (tm_causal tm) (tool_name st) (arguments st) w (causal_contract ts) in
  let! report := review st preds in
  upd_step i (set_predictions preds (Some report)) ;;;
  ret preds.

(** [_idempotency_conflict] with the rollback that follows it. *)
Definition check_idempotency (i : nat) (st : ActionStep) : TT (option unit) :=
  match idem_key st with
  | None => ret (Some tt)
  | Some key =>
      let! w := gets t_world in
      match facts w !! idempotency_marker key with
      | None => ret (Some tt)
      | Some previous =>
          stop i BLOCKED [("step.idempotency_duplicate", "Step idempotency key was already consumed",
            id_tool st ++ [("idempotency_key", VStr key); ("previous", previous);
                           ("error_type", VStr "IdempotencyConflict")])]
      end
  end.

Definition check_preconditions (i : nat) (st : ActionStep) : TT (option unit) :=
  let! w := gets t_world in
  match check_conditions (preconditions st ++ invariants st) w with
  | [] => ret (Some tt)
  | issues => stop i BLOCKED [("step.precondition_failed", "Step preconditions failed",
      id_tool st ++ [("issues", VList issues); ("error_type", VStr "PreconditionFailed")])]
  end.

Definition dry_run_failure (st : ActionStep) (r : ToolResult) : string * string * dict pyval :=
  let err := match error r with Some e => e | None => Exn DryRunFailed (message r) end in
  ("step.dry_run_failed", message r,
   [("step_id", VStr (step_id st)); ("data", VDict (data r)); ("error_type", error_type (Some err))]).
(** The dry run of a step: its failure stops the plan. *)
Definition dry_run_step (i : nat) (st : ActionStep) (t : Tool X) (args : dict pyval) : TT (option unit) :=
  let! r := call_tool DryRun i st t args in
  if negb (ok r) then stop i FAILED [dry_run_failure st r]
  else
    put_status i DRY_RUN_OK ;;;
    audit "step.dry_run_ok" (message r) (id_tool st) ;;;
    ret (Some tt).

(** Blocking a step whose approval is refused: [step.blocked], then [approval.rejected]. *)
Definition approval_blocked (st : ActionStep) (dr : DecisionResult) (title why : string) (err : string) :
    string * string * dict pyval :=
  ("step.blocked", title,
   id_tool st ++ [("decision", VStr "denied"); ("reason", VStr why); ("rule_name", opt_str_pv (dr_rule_name dr))] ++
   reversal_fields st ++ [("error_type", VStr err)]).
Definition approval_rejected (st : ActionStep) (p : ApprovalPacket) (why : string) : string * string * dict pyval :=
  ("approval.rejected", "Approval rejected before execution",
   id_tool st ++ [("approval_id", VStr (ap_approval_id p)); ("reason", VStr why)] ++ policy_denied).

(** The signed-gate requirement of the policy. *)
Definition check_signed_gate (i : nat) (st : ActionStep) (dr : DecisionResult) : TT (option unit) :=
  let! g := gets t_gate in
  if require_signed_approval pol && negb (signed_approval_enforced (tm_gate tm) g)
  then
    let why := profile_name pol +:+ " requires signed approval decisions" in
    stop i BLOCKED
      [("approval.signature_required", "Signed approval gate is required by production policy",
        id_tool st ++ [("profile", VStr (profile_name pol)); ("reason", VStr why)] ++ policy_denied);
       approval_blocked st dr "Step blocked by policy" why "PolicyDenied"]
  else ret (Some tt).

(** [prepare_packet]: any exception it raises blocks the step. *)
Definition prepare_step_packet (i : nat) (st : ActionStep) (dr : DecisionResult) (p : ApprovalPacket) :
    TT (option ApprovalPacket) :=
  let! r := catch (let! p' := lift_gate (prepare_packet (tm_gate tm) p st) in ret (inl p'))
                  (fun e => ret (inr e)) in
  match r with
  | inl p' => ret (Some p')
  | inr e =>
      let why := "Approval packet preparation failed: " +:+ exn_name (exn_cls e) in
      stop i BLOCKED
        [approval_blocked st dr "Step blocked by approval packet validation" why (exn_name (exn_cls e));
         ("approval.rejected", "Approval packet rejected before execution",
          id_tool st ++ [("reason", VStr why); ("error_type", VStr (exn_name (exn_cls e)))])]
  end.

Definition scope_events (st : ActionStep) (p : ApprovalPacket) (d : ApprovalDecision) (why : string) :
    list (string * string * dict pyval) :=
  let pl := id_tool st ++ [("approval_id", VStr (ap_approval_id p)); ("reason", VStr why)] in
  match ad_decision d with
  | AD_DRY_RUN_ONLY => [("approval.dry_run_only", "Approval limited the step to dry-run only", pl)]
  | AD_NARROW_SCOPE => [("approval.narrow_scope_requested", "Approval requested a narrower action scope", pl)]
  | _ => []
  end.
(** The decision of the gate on a packet and its validation. *)
Definition decide_packet (i : nat) (st : ActionStep) (ts : ToolSpec) (dr : DecisionResult) (p : ApprovalPacket) :
    TT (option ApprovalDecision) :=
  audit "approval.packet_created" "Approval packet created" (packet_as_dict p) ;;;
  let! d := lift_gate (request_packet (tm_gate tm) p st) in
  audit "approval.decision_recorded" "Approval decision recorded" (decision_as_dict d) ;;;
  let! plan := gets t_plan in
  let current_hash := build_step_hash (goal_id (p_goal plan)) (plan_id plan) st ts in
  let! issue := validate_approval_decision p d current_hash (profile_name pol) in
  match nonempty issue with
  | None => ret (Some d)
  | Some why =>
      stop i BLOCKED (scope_events st p d why ++
        [approval_blocked st dr "Step blocked by policy" why "PolicyDenied"; approval_rejected st p why])
  end.

(** [consume_approval] and the [approval.used] event. *)
Definition use_approval (i : nat) (st : ActionStep) (dr : DecisionResult) (p : ApprovalPacket)
    (d : ApprovalDecision) : TT (option unit) :=
  let! issue := lift_gate (consume_approval (tm_gate tm) p d st) in
  match nonempty issue with
  | Some why =>
      stop i BLOCKED [approval_blocked st dr "Step blocked by approval replay protection" why "PolicyDenied";
                      approval_rejected st p why]
  | None =>
      let! g := gets t_gate in
      audit "approval.used" "Approval used for step execution"
        (id_tool st ++
         [("approval_id", VStr (ap_approval_id p));
          ("approval_decision", VStr (ApprovalDecisionValue_value (ad_decision d)));
          ("approval_approver", opt_str_pv (ad_approver d));
          ("signed_approval_required", VBool (require_signed_approval pol));
          ("signed_approval_enforced", VBool (signed_approval_enforced (tm_gate tm) g));
          ("approval_signature_verified", VBool (last_decision_signature_valid (tm_gate tm) g));
          ("approval_signature_algorithm", opt_str_pv (last_decision_signature_algorithm (tm_gate tm) g))]) ;;;
      ret (Some tt)
  end.

(** The packet, its decision and its consumption, after the dry run [dry]. *)
Definition request_approval (i : nat) (st : ActionStep) (t : Tool X) (dr : DecisionResult) (dry : ToolResult) :
    TT (option unit) :=
  step! _u := check_signed_gate i st dr in
  let! plan := gets t_plan in
  let! p0 := build_approval_packet plan st (spec t) (message dry) (profile_name pol) (principal pol) DEFAULT_EXPIRY in
  step! p := prepare_step_packet i st dr p0 in
  step! d := decide_packet i st (spec t) dr p in
  step! _u := use_approval i st dr p d in
  put_status i DRY_RUN_OK ;;;
  ret (Some tt).
(** The human-approval path, for a step the policy does not approve by itself;
    the dry run comes first. *)
Definition human_approval (i : nat) (st : ActionStep) (t : Tool X) (args : dict pyval) (dr : DecisionResult) :
    TT (option unit) :=
  let! dry := call_tool DryRun i st t args in
  if negb (ok dry) then stop i FAILED [dry_run_failure st dry]
  else
    put_status i DRY_RUN_OK ;;;
    audit "step.dry_run_ok" (message dry) (id_tool st) ;;;
    request_approval i st t dr dry.

(** From the policy decision to the point where the tool may execute. *)
Definition authorize (i : nat) (st : ActionStep) (t : Tool X) (args : dict pyval) : TT (option unit) :=
  let! uses := gets t_uses in
  let! dr := decide_step pol uses st in
  match dr_decision dr with
  | NEEDS_HUMAN => human_approval i st t args dr
  | APPROVED => dry_run_step i st t args
  | d =>
      stop i BLOCKED [("step.blocked", "Step blocked by policy",
        id_tool st ++ [("decision", VStr (Decision_value d)); ("reason", VStr (dr_reason dr));
                       ("rule_name", opt_str_pv (dr_rule_name dr))] ++ reversal_fields st ++ policy_denied)]
  end.

(** Execution; a non-empty rollback token is pushed on the stack. *)
Definition execute_step (i : nat) (st : ActionStep) (t : Tool X) (args : dict pyval) : TT (option ToolResult) :=
  let! r := call_tool Execute i st t args in
  if negb (ok r)
  then stop i FAILED [("step.execution_failed", message r,
         [("step_id", VStr (step_id st)); ("data", VDict (data r)); ("error_type", error_type (error r))])]
  else
    put_status i EXECUTED ;;;
    match rollback_token r with
    | Some ((_ :: _) as token) => modify (fun s => with_stack ((t, token, i) :: t_stack s) s)
    | _ => ret tt
    end ;;;
    ret (Some r).

Definition check_output (i : nat) (st : ActionStep) (ts : ToolSpec) (r : ToolResult) : TT (option unit) :=
  match validate_output ts (observed_state_delta r) with
  | [] => ret (Some tt)
  | issues =>
      stop i FAILED [("step.output_schema_failed", "Output schema validation failed",
        id_tool st ++ [("data", VDict [("schema_issues", VList issues)]);
                       ("error_type", VStr "SchemaValidationFailed")])]
  end.

(** [_missing_contract_observations] and [_contract_field_violations] *)
Definition contract_missing (ts : ToolSpec) (r : ToolResult) : list string :=
  match causal_contract ts with
  | Some c => missing_required_observations c (observed_state_delta r)
  | None => []
  end.
Definition contract_violations (ts : ToolSpec) (st : ActionStep) (r : ToolResult) : list string :=
  match causal_contract ts with
  | Some c => field_violations c (observed_state_delta r) (Some (arguments st))
  | None => []
  end.
Definition check_contract (i : nat) (st : ActionStep) (ts : ToolSpec) (r : ToolResult) : TT (option unit) :=
  match contract_missing ts r, contract_violations ts st r with
  | [], [] =>
      match causal_contract ts with
      | Some c =>
          audit "step.causal_contract_verified" "Causal contract required observations verified"
            (id_tool st ++ [("required_observations", strs (cc_required_observations c))])
      | None => ret tt
      end ;;;
      ret (Some tt)
  | missing, violations =>
      stop i FAILED [("step.causal_contract_verification_failed", "Causal contract verification failed",
        id_tool st ++ [("missing", strs missing); ("missing_observations", strs missing);
                       ("field_violations", strs violations);
                       ("observed", strs (dkeys (observed_state_delta r)));
                       ("error_type", VStr "SchemaValidationFailed")])]
  end.

(** The observation of the delta and the causal verification. *)
Definition observe_and_verify (i : nat) (st : ActionStep) (preds : list ActionConsequence) (r : ToolResult) :
    TT (option string) :=
  modify (fun s => with_world (observe (observed_state_delta r) TL_TOOL_REPORTED (t_world s)) s) ;;;
  audit "step.executed" (message r)
    [("step_id", VStr (step_id st)); ("observed", VDict (observed_state_delta r));
     ("observed_trust", VStr (TrustLevel_value TL_TOOL_REPORTED))] ;;;
  let v := verify preds r in
  if negb (ok v)
  then stop i FAILED [("step.verification_failed", message v,
         [("step_id", VStr (step_id st)); ("data", VDict (data v)); ("error_type", error_type (error v))])]
  else ret (Some (message v)).

Definition check_postconditions (i : nat) (st : ActionStep) : TT (option unit) :=
  let! w := gets t_world in
  match check_conditions (postconditions st ++ invariants st) w with
  | [] => ret (Some tt)
  | issues => stop i FAILED [("step.postcondition_failed", "Step postconditions failed",
      id_tool st ++ [("issues", VList issues); ("error_type", VStr "PostconditionFailed")])]
  end.

(** [_record_grant_use] *)
Definition record_grant_use (st : ActionStep) : TT unit :=
  let! uses := gets t_uses in
  let! g := matching_grant pol uses (tool_name st) in
  match g with
  | Some (j, _) =>
      modify (fun s => with_uses (fun k => if (k =? j)%nat then (t_uses s k + 1)%Z else t_uses s k) s)
  | None => ret tt
  end.
(** [_record_idempotency_key] *)
Definition record_idempotency_key (st : ActionStep) (key : string) : TT unit :=
  let entry := VDict (id_tool st) in
  modify (fun s => with_world (set_fact (idempotency_marker key) entry TL_VERIFIED (t_world s)) s) ;;;
  audit "step.idempotency_recorded" "Step idempotency key recorded"
    (id_tool st ++ [("idempotency_key", VStr key)]).

(** The end of a successful step. *)
Definition finish_step (i : nat) (st : ActionStep) (r : ToolResult) (verification : string) : TT unit :=
  let keys := dkeys (observed_state_delta r) in
  modify (fun s => with_world (mark_trust keys TL_VERIFIED (t_world s)) s) ;;;
  record_grant_use st ;;;
  audit "state.trust_escalated" "Trust escalated for observed state keys"
    [("step_id", VStr (step_id st)); ("keys", strs keys);
     ("from_trust", VStr (TrustLevel_value TL_TOOL_REPORTED)); ("to_trust", VStr (TrustLevel_value TL_VERIFIED))] ;;;
  match idem_key st with Some key => record_idempotency_key st key | None => ret tt end ;;;
  put_status i VERIFIED ;;;
  audit "step.verified" verification
    [("step_id", VStr (step_id st)); ("verified", strs keys);
     ("verified_trust", VStr (TrustLevel_value TL_VERIFIED))].

(** The guards that precede the policy decision. *)
Definition step_guards (i : nat) (st : ActionStep) (t : Tool X) : TT (option (list ActionConsequence)) :=
  audit_egress st (spec t) ;;;
  step! _u := check_attestation i st t in
  step! _u := check_production i st (spec t) in
  step! _u := check_sandbox i st (spec t) in
  step! _u := check_secrets i st (spec t) in
  let! preds := predict_and_review i st (spec t) in
  step! _u := check_idempotency i st in
  step! _u := check_preconditions i st in
  ret (Some preds).

(** The checks that follow execution. *)
Definition step_checks (i : nat) (st : ActionStep) (t : Tool X) (preds : list ActionConsequence) (r : ToolResult) :
    TT (option unit) :=
  step! _u := check_output i st (spec t) r in
  step! _u := check_contract i st (spec t) r in
  step! verification := observe_and_verify i st preds r in
  step! _u := check_postconditions i st in
  finish_step i st r verification ;;;
  ret (Some tt).

(** The loop body. *)
Definition run_step (i : nat) : TT (option unit) :=
  step! t := resolve_tool i in
  upd_step i (hydrate (spec t)) ;;;
  let! st := get_step i in
  step! preds := step_guards i st t in
  let args := prepare_arguments (arguments st) (secrets_allowed (spec t)) (preserved_keys (spec t)) in
  step! _u := authorize i st t args in
  step! r := execute_step i st t args in
  step_checks i st t preds r.
Fixpoint run_steps (l : list nat) : TT unit :=
  match l with
  | [] => ret tt
  | i :: l' =>
      let! o := run_step i in
      match o with Some _ => run_steps l' | None => ret tt end
  end.

Definition finish_plan : TT unit :=
  let! final := gets (fun s => final_goal_status (step_statuses s)) in
  transition_plan_goal final ;;;
  let! plan := gets t_plan in
  audit "plan.finished" "Finished transaction plan"
    [("plan_id", VStr (plan_id plan)); ("goal_status", VStr (GoalStatus_value (g_status (p_goal plan))))].
(** [TransactionManager.execute_plan]; the plan it returns is [t_plan] of the final state. *)
Definition execute_plan : TT unit :=
  let! plan := gets t_plan in
  audit "plan.started" "Starting transaction plan"
    [("plan_id", VStr (plan_id plan)); ("goal", VStr (description (p_goal plan)))] ;;;
  transition_plan_goal G_RUNNING ;;;
  modify (with_stack []) ;;;
  let! plan := gets t_plan in
  let! exceeded := budget_exceeded (default (budget (p_goal plan)) (p_budget plan)) in
  (if (exceeded : bool) then ret tt else run_steps (p_steps plan)) ;;;
  finish_plan.
End transactions.
