(* ===== verification/Planner.v ===== *)
(** Failure analysis (replanning.py), the deterministic planner with the validation of model output (planner.py), and the
    kernel (kernel.py). *)
From S2P Require Import Prelude Enums PyValue Sanitization Goals Plans Tools AuditTrail Causal Egress Policy Approval Gates Transactions.


Inductive FailureType : Type :=
| F_POLICY_DENIED | F_PRECONDITION_FAILED | F_DRY_RUN_FAILED | F_EXECUTION_FAILED | F_OUTPUT_SCHEMA_FAILED
| F_CAUSAL_CONTRACT_FAILED | F_POSTCONDITION_FAILED | F_GOAL_EVALUATION_FAILED | F_SANDBOX_UNAVAILABLE
| F_NETWORK_BLOCKED | F_TIMEOUT | F_UNKNOWN_TOOL | F_APPROVAL_DENIED | F_UNKNOWN.
Definition FailureType_value (t : FailureType) : string :=
  match t with
  | F_POLICY_DENIED => "policy_denied" | F_PRECONDITION_FAILED => "precondition_failed"
  | F_DRY_RUN_FAILED => "dry_run_failed" | F_EXECUTION_FAILED => "execution_failed"
  | F_OUTPUT_SCHEMA_FAILED => "output_schema_failed" | F_CAUSAL_CONTRACT_FAILED => "causal_contract_failed"
  | F_POSTCONDITION_FAILED => "postcondition_failed" | F_GOAL_EVALUATION_FAILED => "goal_evaluation_failed"
  | F_SANDBOX_UNAVAILABLE => "sandbox_unavailable" | F_NETWORK_BLOCKED => "network_blocked"
  | F_TIMEOUT => "timeout" | F_UNKNOWN_TOOL => "unknown_tool" | F_APPROVAL_DENIED => "approval_denied"
  | F_UNKNOWN => "unknown"
  end.
#[export] Instance FailureType_eq_dec : EqDecision FailureType.
Proof. solve_decision. Defined.

Inductive PlanRepairStrategy : Type :=
| PR_ASK_APPROVAL | PR_LOWER_RISK_ALTERNATIVE | PR_OBSERVE_STATE | PR_REPAIR_ARGUMENTS
| PR_ROLLBACK_AND_REPLAN | PR_DRY_RUN_ONLY | PR_STOP.

Record FailureAnalysis := {
  fa_type : FailureType;
  fa_root_cause : string;
  fa_retryable : bool;
  fa_strategy : string;
  fa_evidence : dict pyval;
}.
(** The failed plan with its steps by value. *)
Record ReplanContext := {
  rc_goal : Goal;
  rc_plan : TransactionPlan;
  rc_steps : list ActionStep;
  rc_analysis : FailureAnalysis;
  rc_attempt : Z;
}.

(** [_is_failure_event] *)
Definition is_failure_event (et : string) : bool :=
  str_mem et
    ["step.blocked"; "step.precondition_failed"; "step.dry_run_failed"; "step.execution_failed";
     "step.output_schema_failed"; "step.causal_contract_verification_failed"; "step.postcondition_failed";
     "step.verification_failed"; "approval.rejected"; "policy.blocked"; "causal_contract.missing";
     "budget.exceeded"]
  || str_in "rollback_failed" et.

(** [_classify] *)
Definition classify (et reason message : string) : FailureType :=
  let text := py_lower (et +:+ " " +:+ reason +:+ " " +:+ message) in
  if str_in "approval.rejected" et then F_APPROVAL_DENIED
  else if str_in "unknown tool" text then F_UNKNOWN_TOOL
  else if str_in "sandbox" text || str_in "container sandbox not available" text then F_SANDBOX_UNAVAILABLE
  else if str_in "network" text || str_in "egress" text then F_NETWORK_BLOCKED
  else if str_in "causal_contract" et || str_in "verification" et then F_CAUSAL_CONTRACT_FAILED
  else if str_in "output_schema" et then F_OUTPUT_SCHEMA_FAILED
  else if str_in "precondition" et then F_PRECONDITION_FAILED
  else if str_in "dry_run" et then F_DRY_RUN_FAILED
  else if str_in "timeout" text then F_TIMEOUT
  else if str_in "execution" et then F_EXECUTION_FAILED
  else if str_in "postcondition" et then F_POSTCONDITION_FAILED
  else if str_in "policy" text || str_in "permission" text then F_POLICY_DENIED
  else F_UNKNOWN.

(** [_strategy] *)
Definition strategy (t : FailureType) : string :=
  match t with
  | F_POLICY_DENIED => "ask approval, choose a lower-risk alternative, or stop"
  | F_PRECONDITION_FAILED => "observe missing state or run read-only inspection"
  | F_DRY_RUN_FAILED => "repair arguments or choose a safer tool"
  | F_EXECUTION_FAILED => "rollback if possible, inspect failure output, and retry within budget"
  | F_OUTPUT_SCHEMA_FAILED => "regenerate structured output and do not execute malformed output"
  | F_CAUSAL_CONTRACT_FAILED => "rollback, observe state, then replan only if safe"
  | F_POSTCONDITION_FAILED => "repair action or add missing verification"
  | F_GOAL_EVALUATION_FAILED => "add missing verification or repair previous action"
  | F_SANDBOX_UNAVAILABLE => "switch to dry-run-only or stop"
  | F_NETWORK_BLOCKED => "use cached/local information or stop"
  | F_TIMEOUT => "reduce scope or retry once if idempotent"
  | F_UNKNOWN_TOOL => "choose a registered tool"
  | F_APPROVAL_DENIED => "stop or ask for narrower approval"
  | F_UNKNOWN => "stop"
  end.
Definition retryable_types : list FailureType :=
  [F_PRECONDITION_FAILED; F_DRY_RUN_FAILED; F_EXECUTION_FAILED; F_OUTPUT_SCHEMA_FAILED;
   F_CAUSAL_CONTRACT_FAILED; F_GOAL_EVALUATION_FAILED; F_TIMEOUT; F_UNKNOWN_TOOL].

Definition step_failed (s : ActionStep) : bool := bool_decide (status s ∈ [BLOCKED; FAILED; ROLLED_BACK]).
(** The last failure event of the log. *)
Definition last_failure (l : AuditLog) : option AuditEvent :=
  List.find (fun e => is_failure_event (event_type e)) (rev (events l)).
(** [FailureAnalyzer.analyze] *)
Definition analyze `{PyRuntime} (steps : list ActionStep) (l : AuditLog) : FailureAnalysis :=
  let last := last_failure l in
  match List.find step_failed steps with
  | None => {| fa_type := F_UNKNOWN; fa_root_cause := "plan did not expose a failed step"; fa_retryable := false;
               fa_strategy := "stop"; fa_evidence := [] |}
  | Some st =>
      let et := match last with Some e => event_type e | None => "" end in
      let reason := match last with Some e => py_str (dget_or "reason" (VStr "") (payload e)) | None => "" end in
      let msg := match last with Some e => ev_message e | None => StepStatus_value (status st) end in
      let ft := classify et reason msg in
      {| fa_type := ft; fa_root_cause := msg; fa_retryable := bool_decide (ft ∈ retryable_types);
         fa_strategy := strategy ft;
         fa_evidence := [("step_id", VStr (step_id st)); ("tool", VStr (tool_name st)); ("event_type", VStr et)] |}
  end.

(** * The deterministic planner (planner.py): candidates, scores, selection, and
    the validation of proposals that come from a language model.

    Candidates get new step objects, so the planner acts on the state of the
    transaction manager, whose heap holds the steps. *)


Record PlanCandidate := { pc_proposal : PlanProposal; pc_plan : TransactionPlan; pc_score : option PlanScore }.
Record PlannerResult := {
  pr_goal : Goal;
  pr_candidates : list PlanCandidate;
  pr_selected : option PlanCandidate;
}.
Definition with_score (x : PlanScore) (c : PlanCandidate) : PlanCandidate :=
  {| pc_proposal := pc_proposal c; pc_plan := pc_plan c; pc_score := Some x |}.

Section planner.
Context `{PyRuntime} {X G : Type}.
Context (registry : ToolRegistry X) (config : PlannerConfig).
Notation TT := (M (TState X G) exn).

(** [TransactionPlan(goal=goal, steps=steps)] of new step objects. *)
Definition new_plan (g : Goal) (steps : list ActionStep) : TT TransactionPlan :=
  let! h := gets t_heap in
  modify (with_heap (h ++ steps)) ;;;
  let! pid := uuid4 in
  let! now := time_time in
  ret {| p_goal := g; p_steps := seq (length h) (length steps); plan_id := pid; created_at := now;
         p_budget := None |}.
Fixpoint make_candidates (g : Goal) (proposals : list PlanProposal) : TT (list PlanCandidate) :=
  match proposals with
  | [] => ret []
  | p :: l =>
      let! plan := new_plan g (map clone (pp_steps p)) in
      let! cs := make_candidates g l in
      ret ({| pc_proposal := p; pc_plan := plan; pc_score := None |} :: cs)
  end.
Definition generate_candidates (g : Goal) (proposals : list PlanProposal) : TT (list PlanCandidate) :=
  match success_criteria g with
  | [] => raise (Exn ValueError "Goal must have explicit success criteria")
  | _ =>
      let! cs := make_candidates g proposals in
      audit "planner.candidates_generated" "Generated plan candidates"
        [("goal_id", VStr (goal_id g)); ("count", VInt (Z.of_nat (length cs)))] ;;;
      ret cs
  end.

Fixpoint step_risks (steps : list ActionStep) : res exn (list RiskLevel) :=
  match steps with
  | [] => Ok []
  | st :: l =>
      res_bind (registry_get (tool_name st) registry) (fun t =>
      res_map (cons (assess (spec t) (arguments st))) (step_risks l))
  end.
(** The score of a proposal whose steps have these risks. *)
Definition plan_score (p : PlanProposal) (risks : list RiskLevel) : PlanScore :=
  let risk := max_risk risks in
  let cost := pp_estimated_cost p in
  let benefit := pp_expected_benefit p in
  {| ps_risk := risk; ps_risk_value := risk_value risk; ps_estimated_cost := cost; ps_expected_benefit := benefit;
     ps_utility := fsub (fsub (fmul benefit (benefit_weight config)) (fmul cost (cost_weight config)))
                     (fmul (f_of_Z (risk_value risk)) (risk_weight config));
     ps_satisfies := (risk_value risk <=? risk_value (max_risk_cfg config))%Z && fleb cost (max_cost config) &&
                     fleb (min_benefit config) benefit |}.
Definition plan_steps (h : list ActionStep) (p : TransactionPlan) : list ActionStep :=
  map (fun i => default default_step (h !! i)) (p_steps p).
Definition score (c : PlanCandidate) : TT PlanScore :=
  let! h := gets t_heap in
  let! risks := of_res (step_risks (plan_steps h (pc_plan c))) in
  ret (plan_score (pc_proposal c) risks).

(** The loop of [select_satisfactory]: the candidates with their scores, and
    the first satisfactory one. *)
Fixpoint select_loop (cs : list PlanCandidate) (selected : option PlanCandidate) :
    TT (list PlanCandidate * option PlanCandidate) :=
  match cs with
  | [] => ret ([], selected)
  | c :: l =>
      let! x := match pc_score c with Some x => ret x | None => score c end in
      let c' := with_score x c in
      let selected' := match selected with None => if ps_satisfies x then Some c' else None | Some _ => selected end in
      let! (cs', r) := select_loop l selected' in
      ret (c' :: cs', r)
  end.
Definition select_satisfactory (cs : list PlanCandidate) : TT (list PlanCandidate * option PlanCandidate) :=
  let! (cs', selected) := select_loop cs None in
  audit "planner.selection_finished"
    (match selected with
     | Some _ => "Selected satisfactory plan candidate"
     | None => "No satisfactory plan candidate found"
     end)
    [("selected_proposal_id", match selected with Some c => VStr (pp_proposal_id (pc_proposal c)) | None => VNone end);
     ("candidate_count", VInt (Z.of_nat (length cs)))] ;;;
  ret (cs', selected).
(** [Planner.plan] *)
Definition planner_plan (g : Goal) (proposals : list PlanProposal) : TT PlannerResult :=
  let! cs := generate_candidates g proposals in
  let! (cs', selected) := select_satisfactory cs in
  ret {| pr_goal := g; pr_candidates := cs'; pr_selected := selected |}.
End planner.

(** ** Proposals from a language model *)

Definition DANGEROUS_UNTRUSTED_TOKENS : list string :=
  ["policy_override"; "grant_permission"; "tool_permission_grant"; "reveal_secret"; "credential_request";
   "system_instruction"].
(** [PLAN_PROPOSAL_SCHEMA] (manifest.py) *)
Definition typed (ty : string) (more : dict pyval) : pyval := VDict (("type", VStr ty) :: more).
Definition PLAN_PROPOSAL_SCHEMA : dict pyval :=
  [("type", VStr "object"); ("required", VList [VStr "steps"; VStr "rationale"]);
   ("properties", VDict
     [("steps", typed "array"
        [("minItems", VInt 1);
         ("items", typed "object"
           [("required", VList [VStr "tool_name"; VStr "arguments"; VStr "reason"]);
            ("properties", VDict [("tool_name", typed "string" []); ("arguments", typed "object" []);
                                  ("reason", typed "string" [("minLength", VInt 1)])]);
            ("additionalProperties", VBool false)])]);
      ("rationale", typed "string" [("minLength", VInt 1)]);
      ("estimated_cost", typed "number" [("minimum", VInt 0)]);
      ("expected_benefit", typed "number" [("minimum", VInt 0)])]);
   ("additionalProperties", VBool false)].

Section llm.
Context `{PyRuntime} `{JsonSchemaValidator} {St : Type} `{HasSys St}.
Notation MS := (M St exn).

Definition llm_error {A} (msg : string) : MS A := raise (Exn LLMOutputValidationError msg).
Definition proposal_at (i : nat) : string := "Proposal [" +:+ str_Z (Z.of_nat i) +:+ "]".
Definition step_at (i j : nat) : string := proposal_at i +:+ " step [" +:+ str_Z (Z.of_nat j) +:+ "]".

(** The text searched for forbidden tokens. *)
Definition rendered (raw : dict pyval) : string := py_lower (json_dumps ", " ": " json_string_ascii (VDict raw)).
(** [_reject_untrusted_control_intent] *)
Definition reject_untrusted_control_intent (raw : dict pyval) (i : nat) : MS unit :=
  match List.find (fun t => str_in t (rendered raw)) DANGEROUS_UNTRUSTED_TOKENS with
  | Some t => llm_error (proposal_at i +:+ " contains forbidden untrusted-control intent: " +:+ t)
  | None => ret tt
  end.

(** [tool_name not in available_tools] *)
Definition tool_unknown (v : pyval) (available : list string) : res exn bool :=
  if negb (hashable v) then Raise (Exn TypeError ("unhashable type: " +:+ py_repr (type_name v)))
  else Ok (match as_str v with Some s => negb (str_mem s available) | None => true end).
(** The body of the loop over the steps. *)
Definition validate_step (available : list string) (i j : nat) (v : pyval) : MS ActionStep :=
  match v with
  | VDict s =>
      let tool := dget_or "tool_name" (VStr "") s in
      if negb (truthy tool) then llm_error (step_at i j +:+ " tool_name is required")
      else
        let! unknown := of_res (tool_unknown tool available) in
        if (unknown : bool) then llm_error (step_at i j +:+ " references unknown tool: " +:+ py_str tool)
        else
          match dget_or "arguments" VNone s with
          | VDict args =>
              match as_str (dget_or "reason" (VStr "") s) with
              | Some why =>
                  if String.eqb (py_strip why) ""
                  then llm_error (step_at i j +:+ " reason must be a non-empty string")
                  else
                    let! sid := uuid4 in
                    ret (new_step (py_str tool) args (py_strip why) sid)
              | None => llm_error (step_at i j +:+ " reason must be a non-empty string")
              end
          | _ => llm_error (step_at i j +:+ " arguments must be an object")
          end
  | _ => llm_error (step_at i j +:+ " must be an object")
  end.
Fixpoint validate_steps (available : list string) (i j : nat) (l : list pyval) : MS (list ActionStep) :=
  match l with
  | [] => ret []
  | v :: l' =>
      let! st := validate_step available i j v in
      let! rest := validate_steps available i (S j) l' in
      ret (st :: rest)
  end.
Definition issue_text (v : pyval) : string :=
  match v with
  | VDict d => py_str (dget_or "path" VNone d) +:+ ": " +:+ py_str (dget_or "message" VNone d)
  | _ => py_str v
  end.
(** The body of the loop over the proposals. *)
Definition validate_proposal (available : list string) (i : nat) (v : pyval) : MS PlanProposal :=
  match v with
  | VDict raw =>
      match validate_json_schema raw PLAN_PROPOSAL_SCHEMA with
      | [] =>
          let! steps_data := of_res (dget_item "steps" raw) in
          if negb (truthy steps_data) then llm_error (proposal_at i +:+ " steps must not be empty")
          else
            reject_untrusted_control_intent raw i ;;;
            let! items := of_res (py_iter steps_data) in
            let! steps := validate_steps available i 0 items in
            let! rationale := of_res (dget_item "rationale" raw) in
            let! cost := of_res (py_float (dget_or "estimated_cost" (VFloat fzero) raw)) in
            let! benefit := of_res (py_float (dget_or "expected_benefit" (VFloat (S754_finite false 4503599627370496 (-53))) raw)) in
            let! pid := uuid4 in
            ret {| pp_steps := steps; pp_rationale := py_strip (py_str rationale); pp_estimated_cost := cost;
                   pp_expected_benefit := benefit; pp_proposal_id := pid |}
      | issues => llm_error (proposal_at i +:+ " failed schema validation: " +:+ str_join "; " (map issue_text issues))
      end
  | _ => llm_error (proposal_at i +:+ " must be an object")
  end.
Fixpoint validate_proposals (available : list string) (i : nat) (l : list pyval) : MS (list PlanProposal) :=
  match l with
  | [] => ret []
  | v :: l' =>
      let! p := validate_proposal available i v in
      let! ps := validate_proposals available (S i) l' in
      ret (p :: ps)
  end.
(** [validate_llm_proposals] *)
Definition validate_llm_proposals (data : pyval) (available : list string) : MS (list PlanProposal) :=
  match data with
  | VList l => validate_proposals available 0 l
  | _ => llm_error "Proposals data must be a list"
  end.
End llm.

(** * The kernel (kernel.py): goal intake, planning and execution over one
    transaction manager.  The kernel's registry, policy, audit log and world
    state are those of the manager. *)


Section kernel.
Context `{PyRuntime} `{JsonSchemaValidator} {X G : Type}.
Context (tm : TransactionManager X G) (config : PlannerConfig).
Notation TT := (M (TState X G) exn).

(** [_transition_goal] *)
Definition transition_goal (g : Goal) (st : GoalStatus) : TT Goal :=
  let! updated := of_res (transition st g) in
  audit "goal.status_changed" "Goal status changed"
    [("goal_id", VStr (goal_id g)); ("from_status", VStr (GoalStatus_value (g_status g)));
     ("to_status", VStr (GoalStatus_value (g_status updated)))] ;;;
  ret updated.
(** The part common to [build_plan] and [plan]. *)
Definition accept_goal (g : Goal) (msg : string) : TT Goal :=
  of_res (validate_goal (tm_policy tm) g) ;;;
  match stop_conditions g with
  | [] => audit "goal.warning" "Goal has no stop conditions" [("goal_id", VStr (goal_id g))]
  | _ => ret tt
  end ;;;
  audit "goal.created" msg
    [("goal_id", VStr (goal_id g)); ("description", VStr (description g));
     ("status", VStr (GoalStatus_value (g_status g)))] ;;;
  transition_goal g G_PLANNING.
(** [build_plan]: the steps are the caller's objects. *)
Definition build_plan (g : Goal) (steps : list nat) : TT TransactionPlan :=
  match success_criteria g with
  | [] => raise (Exn ValueError "Goal must have explicit success criteria")
  | _ =>
      let! g' := accept_goal g "Goal accepted by kernel" in
      let! pid := uuid4 in
      let! now := time_time in
      ret {| p_goal := g'; p_steps := steps; plan_id := pid; created_at := now; p_budget := None |}
  end.
(** [AgentKernel.plan] *)
Definition kernel_plan (g : Goal) (proposals : list PlanProposal) : TT PlannerResult :=
  let! g' := accept_goal g "Goal accepted by planner" in
  planner_plan (tm_registry tm) config g' proposals.
(** [AgentKernel.run]: the executed plan. *)
Definition kernel_execute (p : TransactionPlan) : TT TransactionPlan :=
  modify (with_plan p) ;;;
  execute_plan tm ;;;
  gets t_plan.
End kernel.
