(* ===== verification/RuntimeStores.v ===== *)
(** The runtime stores (runtime_store.py, sqlite_store.py, postgres_store.py):
    goals, plans, events and checkpoints in memory, in JSON lines, and in SQL
    tables.

    Files and payload columns hold documents where the code has JSON text; a
    document the code would not write is outside the model of the readers, as in
    Serialization.v.  The SQL stores differ in the names of their errors and in what the
    database accepts ([Dialect]); a statement may fail ([fault]). *)
From S2P Require Import Prelude Enums PyValue Sanitization Goals Plans Serialization AuditTrail.

(** The outcome [None] of a reader becomes an exception of its own. *)
Definition of_D {S A} (d : D A) : M S exn A := fun s =>
  match d with Some r => (r, s) | None => (Raise (Exn (ForeignError "unreadable document") ""), s) end.
(** [v == s] for a string [s]. *)
Definition is_str (s : string) (v : option pyval) : bool :=
  match v with Some (VStr x) | Some (VEnum _ _ x) => String.eqb x s | _ => false end.

Section stores.
Context `{PyRuntime}.

(** [_goal_to_dict], [_goal_from_dict] *)
Definition goal_to_dict (g : Goal) : dict pyval :=
  [("goal_id", VStr (goal_id g)); ("description", VStr (description g));
   ("success_criteria", strs_doc (success_criteria g));
   ("criteria", VList (map (fun c => VDict (GoalCriterion_as_dict c)) (criteria g)));
   ("constraints", strs_doc (constraints g)); ("stop_conditions", strs_doc (stop_conditions g));
   ("priority", VInt (priority g)); ("owner", opt_str_val (owner g)); ("deadline", opt_float_doc (deadline g));
   ("status", VStr (GoalStatus_value (g_status g)))].
Definition strs_from (k : string) (d : dict pyval) : D (list string) :=
  let? l := as_VList (dget_or k (VList []) d) in dret (map py_str l).
Definition goal_from_dict (d : dict pyval) : D Goal :=
  let? desc := must "description" d in
  let? sc := strs_from "success_criteria" d in
  let? cr := as_VList (dget_or "criteria" (VList []) d) in
  let? co := strs_from "constraints" d in
  let? sp := strs_from "stop_conditions" d in
  let? pr := as_VInt (dget_or "priority" (VInt 5) d) in
  let? gi := must "goal_id" d in
  let? dl := match dget "deadline" d with
             | None | Some VNone => dret None
             | Some v => let? f := dlift (py_float v) in dret (Some f)
             end in
  let? st := dlift (enum_of (py_str (dget_or "status" (VStr "created") d))) in
  let? crs := dmap deserialize_criterion cr in
  dret {| description := py_str desc; success_criteria := sc; criteria := crs; constraints := co;
          stop_conditions := sp; priority := pr; goal_id := py_str gi; owner := opt_str "owner" d; deadline := dl;
          budget := default_budget; g_status := st |}.
(** [_assert_store_safe], [_assert_sqlite_safe], [_assert_pg_safe] *)
Definition assert_store_safe (store : string) (v : pyval) : res exn unit :=
  match assert_no_secrets v with
  | Raise e =>
      if isinstance e SanitizationError
      then Raise (Exn RuntimeStoreError (store +:+ " rejected secret-like value: " +:+ exn_str e))
      else Raise e
  | Ok u => Ok u
  end.
Definition store_error (msg : string) : exn := Exn RuntimeStoreError msg.
(** The payload of a plan: serialization errors are wrapped. *)
Definition plan_payload (p : PlanObj) : res exn pyval :=
  match serialize_plan p with
  | Ok doc => Ok doc
  | Raise e =>
      if isinstance e SerializationError || isinstance e TypeError || isinstance e ValueError
      then Raise (store_error ("Could not serialize plan: " +:+ exn_name (exn_cls e)))
      else Raise e
  end.
Definition plan_from (now : float) (doc : pyval) : D PlanObj :=
  match deserialize_plan now doc with
  | Some (Raise e) => Some (Raise (store_error ("Could not deserialize plan: " +:+ exn_name (exn_cls e))))
  | d => d
  end.
(** Events are filtered by their entry [goal_id]. *)
Definition events_of (goal : option string) (l : list (dict pyval)) : list (dict pyval) :=
  match goal with None => l | Some id => List.filter (fun e => is_str id (dget "goal_id" e)) l end.

(** ** In memory *)

(** Plans are kept by reference; [mm_heap] holds the plan objects of the program. *)
Record MemStore := {
  mm_goals : gmap string Goal;
  mm_plans : gmap string nat;
  mm_events : list (dict pyval);
  mm_checkpoints : gmap string (dict pyval);
  mm_heap : list PlanObj;
}.
Definition mem_save_goal (g : Goal) : M MemStore exn unit := modify (fun s =>
  {| mm_goals := <[goal_id g := g]> (mm_goals s); mm_plans := mm_plans s; mm_events := mm_events s;
     mm_checkpoints := mm_checkpoints s; mm_heap := mm_heap s |}).
Definition mem_load_goal (id : string) : M MemStore exn (option Goal) := gets (fun s => mm_goals s !! id).
Definition mem_save_plan (ref : nat) : M MemStore exn unit :=
  let! s := gets id in
  match mm_heap s !! ref with
  | None => raise (Exn (ForeignError "dangling plan reference") "")
  | Some p => modify (fun s => {|
      mm_goals := mm_goals s; mm_plans := <[po_plan_id p := ref]> (mm_plans s); mm_events := mm_events s;
      mm_checkpoints := mm_checkpoints s; mm_heap := mm_heap s |})
  end.
Definition mem_load_plan (id : string) : M MemStore exn (option nat) := gets (fun s => mm_plans s !! id).
Definition mem_append_event (e : dict pyval) : M MemStore exn unit :=
  of_res (assert_store_safe "RuntimeStore" (VDict e)) ;;;
  modify (fun s => {| mm_goals := mm_goals s; mm_plans := mm_plans s; mm_events := mm_events s ++ [e];
                      mm_checkpoints := mm_checkpoints s; mm_heap := mm_heap s |}).
Definition mem_list_events (goal : option string) : M MemStore exn (list (dict pyval)) :=
  gets (fun s => events_of goal (mm_events s)).
Definition mem_save_checkpoint (k : string) (v : dict pyval) : M MemStore exn unit :=
  of_res (assert_store_safe "RuntimeStore" (VDict v)) ;;;
  modify (fun s => {| mm_goals := mm_goals s; mm_plans := mm_plans s; mm_events := mm_events s;
                      mm_checkpoints := <[k := v]> (mm_checkpoints s); mm_heap := mm_heap s |}).
Definition mem_load_checkpoint (k : string) : M MemStore exn (option (dict pyval)) := gets (fun s => mm_checkpoints s !! k).

(** ** JSON lines *)

(** [str.splitlines] also splits at U+0085, U+2028 and U+2029, which the
    encoder writes as they are; it escapes the other separators. *)
Definition utf8 (l : list nat) : string := string_of_list_ascii (map ascii_of_nat l).
Definition splits_line (s : string) : bool :=
  str_in (utf8 [194; 133]) s || str_in (utf8 [226; 128; 168]) s || str_in (utf8 [226; 128; 169]) s.
Fixpoint splits_doc (v : pyval) : bool :=
  match v with
  | VStr s => splits_line s
  | VList l => existsb splits_doc l
  | VDict d => existsb (fun kv => splits_line kv.1 || splits_doc kv.2) d
  | _ => false
  end.
(** A line this code wrote, or one it did not. *)
Inductive line : Type := LDoc (doc : pyval) | LJunk.
Record JsonlStore := {
  jl_goals : list line;
  jl_plans : list line;
  jl_events : list line;
  jl_checkpoints : option (option pyval);   (** no file, corrupt, or its document *)
  jl_sys : Sys;
}.
Definition with_jsys (x : Sys) (s : JsonlStore) : JsonlStore :=
  {| jl_goals := jl_goals s; jl_plans := jl_plans s; jl_events := jl_events s; jl_checkpoints := jl_checkpoints s;
     jl_sys := x |}.
#[export] Program Instance JsonlStore_HasSys : HasSys JsonlStore := {| sys_of := jl_sys; upd_sys := with_jsys |}.
Next Obligation. done. Qed.

(** [_read_jsonl]; [n] is the number of the next line.  A record split in two
    is cut inside a string, so its first part is not JSON. *)
Fixpoint read_jsonl (file : string) (n : nat) (l : list line) : res exn (list (dict pyval)) :=
  let at_line := file +:+ ":" +:+ str_Z (Z.of_nat n) +:+ ": " in
  match l with
  | [] => Ok []
  | LJunk :: _ => Raise (store_error (at_line +:+ "corrupt JSONL"))
  | LDoc v :: l' =>
      if splits_doc v then Raise (store_error (at_line +:+ "corrupt JSONL"))
      else match v with
           | VDict d => res_map (cons d) (read_jsonl file (S n) l')
           | _ => Raise (store_error (at_line +:+ "JSONL record is not an object"))
           end
  end.
(** [_append_jsonl]: the line to append. *)
Definition jsonl_line (file : string) (record : pyval) : res exn line :=
  res_bind (assert_store_safe "RuntimeStore" record) (fun _ =>
  match json_doc record with
  | Ok doc => Ok (LDoc doc)
  | Raise e => if isinstance e TypeError then Raise (store_error (file +:+ ": record is not JSON serializable")) else Raise e
  end).
Definition jsonl_save_goal (g : Goal) : M JsonlStore exn unit :=
  let! l := of_res (jsonl_line "goals.jsonl" (VDict (goal_to_dict g))) in
  modify (fun s => {| jl_goals := jl_goals s ++ [l]; jl_plans := jl_plans s; jl_events := jl_events s;
                      jl_checkpoints := jl_checkpoints s; jl_sys := jl_sys s |}).
(** The last record of the id, every earlier one being read as well. *)
Fixpoint find_goal (id : string) (records : list (dict pyval)) (found : option Goal) : D (option Goal) :=
  match records with
  | [] => dret found
  | r :: l => if is_str id (dget "goal_id" r) then let? g := goal_from_dict r in find_goal id l (Some g)
              else find_goal id l found
  end.
Definition jsonl_load_goal (id : string) : M JsonlStore exn (option Goal) :=
  let! lines := gets jl_goals in
  let! records := of_res (read_jsonl "goals.jsonl" 1 lines) in
  of_D (find_goal id records None).
Definition jsonl_save_plan (p : PlanObj) : M JsonlStore exn unit :=
  let! doc := of_res (plan_payload p) in
  of_res (assert_store_safe "RuntimeStore" doc) ;;;
  let! l := of_res (jsonl_line "plans.jsonl" doc) in
  modify (fun s => {| jl_goals := jl_goals s; jl_plans := jl_plans s ++ [l]; jl_events := jl_events s;
                      jl_checkpoints := jl_checkpoints s; jl_sys := jl_sys s |}).
Fixpoint find_plan (id : string) (records : list (dict pyval)) (found : option PlanObj) : M JsonlStore exn (option PlanObj) :=
  match records with
  | [] => ret found
  | r :: l =>
      if is_str id (dget "plan_id" r)
      then let! now := time_time in let! p := of_D (plan_from now (VDict r)) in find_plan id l (Some p)
      else find_plan id l found
  end.
Definition jsonl_load_plan (id : string) : M JsonlStore exn (option PlanObj) :=
  let! lines := gets jl_plans in
  let! records := of_res (read_jsonl "plans.jsonl" 1 lines) in
  find_plan id records None.
Definition jsonl_append_event (e : dict pyval) : M JsonlStore exn unit :=
  of_res (assert_store_safe "RuntimeStore" (VDict e)) ;;;
  let! l := of_res (jsonl_line "events.jsonl" (VDict e)) in
  modify (fun s => {| jl_goals := jl_goals s; jl_plans := jl_plans s; jl_events := jl_events s ++ [l];
                      jl_checkpoints := jl_checkpoints s; jl_sys := jl_sys s |}).
Definition jsonl_list_events (goal : option string) : M JsonlStore exn (list (dict pyval)) :=
  let! lines := gets jl_events in
  let! records := of_res (read_jsonl "events.jsonl" 1 lines) in
  ret (events_of goal records).
(** [_read_checkpoints] *)
Definition read_checkpoints (file : option (option pyval)) : res exn (dict pyval) :=
  match file with
  | None => Ok []
  | Some None => Raise (store_error "checkpoints.json: corrupt JSON")
  | Some (Some (VDict d)) => Ok d
  | Some (Some _) => Raise (store_error "checkpoints.json: root is not an object")
  end.
Definition jsonl_save_checkpoint (k : string) (v : dict pyval) : M JsonlStore exn unit :=
  of_res (assert_store_safe "RuntimeStore" (VDict v)) ;;;
  let! file := gets jl_checkpoints in
  let! d := of_res (read_checkpoints file) in
  let! doc := of_res (json_doc (VDict (dset k (VDict v) d))) in
  modify (fun s => {| jl_goals := jl_goals s; jl_plans := jl_plans s; jl_events := jl_events s;
                      jl_checkpoints := Some (Some doc); jl_sys := jl_sys s |}).
Definition jsonl_load_checkpoint (k : string) : M JsonlStore exn (option (dict pyval)) :=
  let! file := gets jl_checkpoints in
  let! d := of_res (read_checkpoints file) in
  ret (match dget k d with Some (VDict v) => Some v | _ => None end).
End stores.

(** ** SQL tables *)

(** A row of [goals], [plans] or [checkpoints], and one of [runtime_events]. *)
Record SqlRow := { sq_key : string; sq_payload : pyval; sq_created : float; sq_updated : float }.
Record SqlEvent := { ev_goal : option string; ev_payload : pyval; ev_created : float }.
Record SqlStore := {
  sq_goals : list SqlRow;
  sq_plans : list SqlRow;
  sq_checkpoints : list SqlRow;
  sq_events : list SqlEvent;
  sq_count : nat;
  sq_sys : Sys;
}.
Definition with_sqsys (x : Sys) (s : SqlStore) : SqlStore :=
  {| sq_goals := sq_goals s; sq_plans := sq_plans s; sq_checkpoints := sq_checkpoints s; sq_events := sq_events s;
     sq_count := sq_count s; sq_sys := x |}.
#[export] Program Instance SqlStore_HasSys : HasSys SqlStore := {| sys_of := sq_sys; upd_sys := with_sqsys |}.
Next Obligation. done. Qed.

(** What distinguishes the two databases: names in messages, the texts and
    times a column takes, and how a value other than a string or None is bound to a
    text column (the class of the error, or the text). *)
Record Dialect := {
  d_name : string;
  d_class : string;
  d_text : string -> bool;
  d_real : float -> bool;
  d_bind : pyval -> res string (option string);
}.
Definition sqlite_dialect (bind_value : pyval -> res string (option string)) : Dialect := {|
  d_name := "sqlite"; d_class := "SQLiteRuntimeStore"; d_text := fun _ => true;
  d_real := fun f => match f with S754_nan => false | _ => true end; d_bind := bind_value |}.
Definition postgres_dialect (bind_value : pyval -> res string (option string)) : Dialect := {|
  d_name := "postgres"; d_class := "PostgresRuntimeStore";
  d_text := fun s => negb (str_in (String Ascii.zero "") s); d_real := fun _ => true; d_bind := bind_value |}.

Section sql_store.
Context `{PyRuntime} (dia : Dialect) (fault : nat -> option string).
Notation SS := (M SqlStore exn).

(** [_execute], [_fetchone], [_fetchall] *)
Definition sql_run {A} (kind : string) (op : SqlStore -> res string (SqlStore * A)) : SS A := fun s =>
  let s1 := {| sq_goals := sq_goals s; sq_plans := sq_plans s; sq_checkpoints := sq_checkpoints s;
               sq_events := sq_events s; sq_count := S (sq_count s); sq_sys := sq_sys s |} in
  let failed cls := store_error (d_name dia +:+ " runtime store " +:+ kind +:+ " failed: " +:+ cls) in
  match fault (sq_count s) with
  | Some cls => (Raise (failed cls), s1)
  | None => match op s1 with
            | Raise cls => (Raise (failed cls), s1)
            | Ok (s2, a) => (Ok a, s2)
            end
  end.
(** [INSERT ... ON CONFLICT (key) DO UPDATE] *)
Fixpoint upsert (r : SqlRow) (l : list SqlRow) : list SqlRow :=
  match l with
  | [] => [r]
  | r' :: l' =>
      if String.eqb (sq_key r') (sq_key r)
      then {| sq_key := sq_key r'; sq_payload := sq_payload r; sq_created := sq_created r'; sq_updated := sq_updated r |} :: l'
      else r' :: upsert r l'
  end.
Definition row_of (k : string) (doc : pyval) (now : float) : SqlRow :=
  {| sq_key := k; sq_payload := doc; sq_created := now; sq_updated := now |}.
Definition accepted (k : string) (now : float) : res string unit :=
  if negb (d_text dia k) then Raise "DataError" else if negb (d_real dia now) then Raise "IntegrityError" else Ok tt.
Definition find_row (k : string) (l : list SqlRow) : option pyval :=
  sq_payload <$> List.find (fun r => String.eqb (sq_key r) k) l.
(** [_loads_object] *)
Definition loads_object (doc : pyval) (label : string) : res exn (dict pyval) :=
  match doc with VDict d => Ok d | _ => Raise (store_error ("Invalid " +:+ label +:+ ": expected object")) end.

Definition sql_save_goal (g : Goal) : SS unit :=
  let payload := VDict (goal_to_dict g) in
  of_res (assert_store_safe (d_class dia) payload) ;;;
  let! now := time_time in
  let! doc := of_res (json_doc payload) in
  sql_run "write" (fun s => match accepted (goal_id g) now with
    | Raise cls => Raise cls
    | Ok _ => Ok ({| sq_goals := upsert (row_of (goal_id g) doc now) (sq_goals s); sq_plans := sq_plans s;
                     sq_checkpoints := sq_checkpoints s; sq_events := sq_events s; sq_count := sq_count s;
                     sq_sys := sq_sys s |}, tt)
    end).
Definition sql_load_goal (id : string) : SS (option Goal) :=
  let! row := sql_run "read" (fun s => Ok (s, find_row id (sq_goals s))) in
  match row with
  | None => ret None
  | Some doc => let! d := of_res (loads_object doc "goal payload") in
                let! g := of_D (goal_from_dict d) in ret (Some g)
  end.
Definition sql_save_plan (p : PlanObj) : SS unit :=
  let! doc := of_res (plan_payload p) in
  of_res (assert_store_safe (d_class dia) doc) ;;;
  let! now := time_time in
  sql_run "write" (fun s => match accepted (po_plan_id p) now with
    | Raise cls => Raise cls
    | Ok _ => Ok ({| sq_goals := sq_goals s; sq_plans := upsert (row_of (po_plan_id p) doc now) (sq_plans s);
                     sq_checkpoints := sq_checkpoints s; sq_events := sq_events s; sq_count := sq_count s;
                     sq_sys := sq_sys s |}, tt)
    end).
Definition sql_load_plan (id : string) : SS (option PlanObj) :=
  let! row := sql_run "read" (fun s => Ok (s, find_row id (sq_plans s))) in
  match row with
  | None => ret None
  | Some doc => let! now := time_time in let! p := of_D (plan_from now doc) in ret (Some p)
  end.
Definition bind_goal_id (v : option pyval) : res string (option string) :=
  match v with
  | None | Some VNone => Ok None
  | Some (VStr s) => if d_text dia s then Ok (Some s) else Raise "DataError"
  | Some v => d_bind dia v
  end.
Definition sql_append_event (e : dict pyval) : SS unit :=
  of_res (assert_store_safe (d_class dia) (VDict e)) ;;;
  let! now := time_time in
  let! doc := of_res (json_doc (VDict e)) in
  sql_run "write" (fun s => match bind_goal_id (dget "goal_id" e) with
    | Raise cls => Raise cls
    | Ok goal =>
        if negb (d_real dia now) then Raise "IntegrityError"
        else Ok ({| sq_goals := sq_goals s; sq_plans := sq_plans s; sq_checkpoints := sq_checkpoints s;
                    sq_events := sq_events s ++ [{| ev_goal := goal; ev_payload := doc; ev_created := now |}];
                    sq_count := sq_count s; sq_sys := sq_sys s |}, tt)
    end).
Definition sql_list_events (goal : option string) : SS (list (dict pyval)) :=
  let! rows := sql_run "read" (fun s => Ok (s, match goal with
    | None => sq_events s
    | Some id => List.filter (fun e => bool_decide (ev_goal e = Some id)) (sq_events s)
    end)) in
  of_res (res_traverse (fun e => loads_object (ev_payload e) "runtime event") rows).
Definition sql_save_checkpoint (k : string) (v : dict pyval) : SS unit :=
  of_res (assert_store_safe (d_class dia) (VDict v)) ;;;
  let! now := time_time in
  let! doc := of_res (json_doc (VDict v)) in
  sql_run "write" (fun s => match accepted k now with
    | Raise cls => Raise cls
    | Ok _ => Ok ({| sq_goals := sq_goals s; sq_plans := sq_plans s;
                     sq_checkpoints := upsert (row_of k doc now) (sq_checkpoints s); sq_events := sq_events s;
                     sq_count := sq_count s; sq_sys := sq_sys s |}, tt)
    end).
Definition sql_load_checkpoint (k : string) : SS (option (dict pyval)) :=
  let! row := sql_run "read" (fun s => Ok (s, find_row k (sq_checkpoints s))) in
  match row with
  | None => ret None
  | Some doc => let! d := of_res (loads_object doc "checkpoint") in ret (Some d)
  end.
End sql_store.

(** ** The two SQL stores *)

Section instances.
Context `{PyRuntime} (bind_value : pyval -> res string (option string)) (fault : nat -> option string).
Definition sqlite_save_goal := sql_save_goal (sqlite_dialect bind_value) fault.
Definition sqlite_load_goal := sql_load_goal (sqlite_dialect bind_value) fault.
Definition sqlite_save_plan := sql_save_plan (sqlite_dialect bind_value) fault.
Definition sqlite_load_plan := sql_load_plan (sqlite_dialect bind_value) fault.
Definition sqlite_append_event := sql_append_event (sqlite_dialect bind_value) fault.
Definition sqlite_list_events := sql_list_events (sqlite_dialect bind_value) fault.
Definition sqlite_save_checkpoint := sql_save_checkpoint (sqlite_dialect bind_value) fault.
Definition sqlite_load_checkpoint := sql_load_checkpoint (sqlite_dialect bind_value) fault.
Definition postgres_save_goal := sql_save_goal (postgres_dialect bind_value) fault.
Definition postgres_load_goal := sql_load_goal (postgres_dialect bind_value) fault.
Definition postgres_save_plan := sql_save_plan (postgres_dialect bind_value) fault.
Definition postgres_load_plan := sql_load_plan (postgres_dialect bind_value) fault.
Definition postgres_append_event := sql_append_event (postgres_dialect bind_value) fault.
Definition postgres_list_events := sql_list_events (postgres_dialect bind_value) fault.
Definition postgres_save_checkpoint := sql_save_checkpoint (postgres_dialect bind_value) fault.
Definition postgres_load_checkpoint := sql_load_checkpoint (postgres_dialect bind_value) fault.
End instances.
