(* ===== verification/Evidence.v ===== *)
(** The evidence documents of a release (proof.py): the commands that are run, the manifest with its status, the
    redaction and truncation of outputs, the snapshots of files, and the documents written from them.

    Processes, clocks, the installed package and the platform are the interface [EvidencePlatform]; the regular
    expressions are written out as matchers.  Case-insensitive matching and classes of characters are those of ASCII. *)
From S2P Require Import Prelude Enums PyValue Sanitization Goals Tools FileSystem PyText NetworkTools Credentials FileTools Sandbox Evals.

(** ** Regular expressions *)

(** [pattern.sub]: [m] gives the replacement of a match at the start of a text and its length; the characters of a match
    that are still to be dropped are counted by [skip]. *)
Fixpoint re_sub (m : string -> option (string * nat)) (skip : nat) (s : string) : string :=
  match s with
  | EmptyString => ""
  | String c s' =>
      match skip with
      | S k => re_sub m k s'
      | O => match m s with
             | Some (replacement, n) => replacement +:+ re_sub m (n - 1) s'
             | None => String c (re_sub m 0 s')
             end
      end
  end.
(** [pattern.search] for a pattern that never matches the empty text. *)
Fixpoint re_search {A} (m : string -> option A) (s : string) : option A :=
  match s with
  | EmptyString => None
  | String _ s' => match m s with Some a => Some a | None => re_search m s' end
  end.
(** [len(pattern.findall)] for a pattern whose matches do not overlap. *)
Fixpoint re_count {A} (m : string -> option A) (s : string) : Z :=
  match s with
  | EmptyString => 0
  | String _ s' => (match m s with Some _ => 1 | None => 0 end + re_count m s')%Z
  end.
(** The longest start of a text in a class, and the rest. *)
Fixpoint span (f : ascii -> bool) (s : string) : string * string :=
  match s with
  | String c s' => if f c then let (a, b) := span f s' in (String c a, b) else ("", s)
  | EmptyString => ("", "")
  end.
Definition span1 (f : ascii -> bool) (s : string) : option (string * string) :=
  match span f s with ("", _) => None | p => Some p end.
(** A literal at the start of a text, with and without regard to case: what it matched and the rest. *)
Definition lit (l s : string) : option (string * string) :=
  if String.prefix l s then Some (String.substring 0 (String.length l) s, drop_chars (String.length l) s) else None.
Definition lit_ci (l s : string) : option (string * string) :=
  if String.prefix l (py_lower s) then Some (String.substring 0 (String.length l) s, drop_chars (String.length l) s) else None.

Definition MAX_EXCERPT : Z := 20000.
Definition KEY_SOURCE_FILES : list string := [
  "src/leos_agent/dev_tools.py";
  "src/leos_agent/network_tools.py";
  "src/leos_agent/eval_runner.py";
  "src/leos_agent/github_agent.py";
  "src/leos_agent/github_client.py";
  "src/leos_agent/planner.py";
  "src/leos_agent/proof.py";
  "src/leos_agent/sandbox.py";
  "src/leos_agent/sanitization.py";
  "src/leos_agent/sqlite_store.py";
  "src/leos_agent/task_queue.py";
  "src/leos_agent/causal.py";
  "src/leos_agent/causal_contract.py";
  "src/leos_agent/tools.py";
  "src/leos_agent/transactions.py";
  "src/leos_agent/policy.py";
  "src/leos_agent/audit.py";
  "src/leos_agent/memory.py";
  "src/leos_agent/trace_viewer.py";
  "src/leos_agent/cli.py"].
Definition COMMANDS : list (string * list string) := [
  ("unit_tests", ["python"; "-m"; "unittest"; "discover"; "-s"; "tests"]);
  ("safety_evals", ["leos"; "eval"; "--suite"; "safety"]);
  ("coverage_run", ["coverage"; "run"; "-m"; "unittest"; "discover"; "-s"; "tests"]);
  ("coverage_report", ["coverage"; "report"; "--fail-under=83"]);
  ("ruff_check", ["ruff"; "check"; "."]);
  ("ruff_format_check", ["ruff"; "format"; "--check"; "."]);
  ("mypy", ["mypy"; "src"]);
  ("bandit", ["bandit"; "-r"; "src"]);
  ("leos_help", ["leos"; "--help"]);
  ("leos_eval_help", ["leos"; "eval"; "--help"]);
  ("leos_trace_help", ["leos"; "trace"; "--help"]);
  ("leos_proof_help", ["leos"; "proof"; "--help"])].

Definition sq : ascii := "039".
Definition dq_char : ascii := "034".
Definition sep_char (c : ascii) : bool :=
  Ascii.eqb c sq || Ascii.eqb c dq_char || is_space c || Ascii.eqb c ":" || Ascii.eqb c "=".
Definition value_char (c : ascii) : bool :=
  negb (is_space c || Ascii.eqb c sq || Ascii.eqb c dq_char || Ascii.eqb c "," || Ascii.eqb c "}").
Definition secret_words : list string := ["token"; "api_key"; "api-key"; "apikey"; "password"; "secret"].
Fixpoint first_word (l : list string) (s : string) : option (string * string) :=
  match l with [] => None | w :: l' => match lit_ci w s with Some p => Some p | None => first_word l' s end end.
(** The separators and the value after them: the longest run [run] of separators is given up from its end until a value
    follows; [n] is the number of separators kept. *)
Fixpoint sep_and_value (n : nat) (rest : string) : option (string * string) :=
  match n with
  | O => None
  | S n' =>
      match span1 value_char (drop_chars n rest) with
      | Some (value, _) => Some (String.substring 0 n rest, value)
      | None => sep_and_value n' rest
      end
  end.
Definition match_assignment (s : string) : option (string * nat) :=
  match first_word secret_words s with
  | None => None
  | Some (word, rest) =>
      match sep_and_value (String.length (fst (span sep_char rest))) rest with
      | None => None
      | Some (sep, value) =>
          Some (word +:+ sep +:+ "<redacted>", (String.length word + String.length sep + String.length value)%nat)
      end
  end.
Definition bearer_char (c : ascii) : bool :=
  is_alnum c || existsb (Ascii.eqb c) ["."; "_"; "~"; "+"; "/"; "="; "-"]%char.
Definition match_bearer (s : string) : option (string * nat) :=
  match lit_ci "bearer" s with
  | None => None
  | Some (word, rest) =>
      match span1 is_space rest with
      | None => None
      | Some (gap, rest) =>
          match span1 bearer_char rest with
          | None => None
          | Some (value, _) =>
              Some (word +:+ gap +:+ "<redacted>", (String.length word + String.length gap + String.length value)%nat)
          end
      end
  end.
(** [redact_secrets] with [_redacted_match] *)
Definition redact_text (text : string) : string := re_sub match_bearer 0 (re_sub match_assignment 0 text).
(** [_excerpt] *)
Definition excerpt (text : string) : string * bool :=
  let redacted := redact_text text in (text_to MAX_EXCERPT redacted, (MAX_EXCERPT <? str_len redacted)%Z).

(** [Ran\s+(\d+)\s+tests?\s+in] *)
Definition match_ran (s : string) : option string :=
  match lit "Ran" s with
  | None => None
  | Some (_, s) =>
      match span1 is_space s with
      | None => None
      | Some (_, s) =>
          match span1 is_digit s with
          | None => None
          | Some (digits, s) =>
              match span1 is_space s with
              | None => None
              | Some (_, s) =>
                  match lit "test" s with
                  | None => None
                  | Some (_, s) =>
                      match span1 is_space (match lit "s" s with Some (_, s) => s | None => s end) with
                      | None => None
                      | Some (_, s) => match lit "in" s with Some _ => Some digits | None => None end
                      end
                  end
              end
          end
      end
  end.
(** The pattern of the version line, in multi-line mode: the key, the sign and a quoted text up to the end of a line. *)
Definition ends_line (s : string) : bool :=
  let (gap, rest) := span is_space s in String.eqb rest "" || existsb (Ascii.eqb LF) (list_ascii_of_string gap).
Definition match_version (s : string) : option string :=
  match lit "version" s with
  | None => None
  | Some (_, s) =>
      match lit "=" (snd (span is_space s)) with
      | None => None
      | Some (_, s) =>
          match snd (span is_space s) with
          | String c s =>
              if Ascii.eqb c dq_char
              then match span1 (fun c => negb (Ascii.eqb c dq_char)) s with
                   | Some (v, String _ s') => if ends_line s' then Some v else None
                   | _ => None
                   end
              else None
          | EmptyString => None
          end
      end
  end.
(** [^] in multi-line mode: the start of the text and the place after a line end. *)
Fixpoint search_line_starts {A} (m : string -> option A) (s : string) : option A :=
  match s with
  | EmptyString => None
  | String c s' => if Ascii.eqb c LF then match m s' with Some a => Some a | None => search_line_starts m s' end
                   else search_line_starts m s'
  end.
Definition re_search_lines {A} (m : string -> option A) (s : string) : option A :=
  match m s with Some a => Some a | None => search_line_starts m s end.
(** [(.*?)(?=^\[|\Z)]: up to the next line that begins with a bracket; [at_start] says whether [^] matches here. *)
Fixpoint section_text (at_start : bool) (s : string) : string :=
  match s with
  | EmptyString => ""
  | String c s' => if at_start && Ascii.eqb c "[" then "" else String c (section_text (Ascii.eqb c LF) s')
  end.
Definition has_LF_end (gap : string) : bool := match last (list_ascii_of_string gap) with Some c => Ascii.eqb c LF | None => false end.
Definition match_project (s : string) : option string :=
  match lit "[project]" s with
  | None => None
  | Some (_, s) => let (gap, rest) := span is_space s in Some (section_text (has_LF_end gap) rest)
  end.
Definition find_version (text : string) : option string :=
  re_search_lines match_version (default "" (re_search_lines match_project text)).

(** ** The records *)

Record CommandProof := {
  cp_name : string; cp_command : list string; cp_exit_code : option Z; cp_status : string; cp_started_at : string;
  cp_finished_at : string; cp_duration : float; cp_stdout : string; cp_stderr : string; cp_truncated : bool; cp_reason : option string;
}.
Record FileSnapshot := { sn_path : string; sn_sha256 : option string; sn_line_count : Z; sn_size : Z; sn_exists : bool }.
Record ProofManifest := {
  pm_generated_at : string; pm_proof_status : string; pm_release_grade : bool; pm_dirty : option bool;
  pm_warnings : list string; pm_git : dict pyval; pm_environment : dict pyval; pm_commands : list CommandProof;
  pm_sources : list FileSnapshot; pm_tests : list FileSnapshot; pm_package_version : string; pm_test_count : option Z;
}.
Definition opt_int (o : option Z) : pyval := match o with Some z => VInt z | None => VNone end.
Definition opt_text (o : option string) : pyval := match o with Some s => VStr s | None => VNone end.
Definition opt_flag (o : option bool) : pyval := match o with Some b => VBool b | None => VNone end.
Definition with_status (st : string) (l : list CommandProof) : Z := count_if (fun c => String.eqb (cp_status c) st) l.
(** [summary] *)
Definition manifest_summary (m : ProofManifest) : dict pyval :=
  let l := pm_commands m in
  [("total", VInt (Z.of_nat (length l))); ("passed", VInt (with_status "passed" l));
   ("failed", VInt (with_status "failed" l)); ("skipped", VInt (with_status "skipped" l))].
Definition command_dict (c : CommandProof) : pyval := VDict
  [("name", VStr (cp_name c)); ("command", VList (map VStr (cp_command c))); ("exit_code", opt_int (cp_exit_code c));
   ("status", VStr (cp_status c)); ("started_at", VStr (cp_started_at c)); ("finished_at", VStr (cp_finished_at c));
   ("duration_seconds", VFloat (cp_duration c)); ("stdout", VStr (cp_stdout c)); ("stderr", VStr (cp_stderr c));
   ("truncated", VBool (cp_truncated c)); ("reason", opt_text (cp_reason c))].
Definition snapshot_dict (f : FileSnapshot) : pyval := VDict
  [("path", VStr (sn_path f)); ("sha256", opt_text (sn_sha256 f)); ("line_count", VInt (sn_line_count f));
   ("size_bytes", VInt (sn_size f)); ("exists", VBool (sn_exists f))].
(** [as_json_dict] *)
Definition as_json_dict (m : ProofManifest) : dict pyval :=
  [("generated_at", VStr (pm_generated_at m)); ("proof_status", VStr (pm_proof_status m));
   ("release_grade", VBool (pm_release_grade m)); ("dirty_worktree", opt_flag (pm_dirty m));
   ("warnings", VList (map VStr (pm_warnings m))); ("git", VDict (pm_git m)); ("environment", VDict (pm_environment m));
   ("commands", VList (map command_dict (pm_commands m))); ("source_snapshot", VList (map snapshot_dict (pm_sources m)));
   ("test_inventory", VList (map snapshot_dict (pm_tests m))); ("package_version", VStr (pm_package_version m));
   ("test_count", opt_int (pm_test_count m)); ("summary", VDict (manifest_summary m))].
Definition exit_code_for_manifest (m : ProofManifest) : Z :=
  if String.eqb (pm_proof_status m) "failed_dirty_worktree" then 2
  else if existsb (fun c => String.eqb (cp_status c) "failed") (pm_commands m) then 1 else 0.

(** [_proof_status] *)
Definition no_git : string := "Git metadata unavailable; proof cannot be release-grade.".
Definition dirty_warning : string := "This proof was generated from a dirty worktree and is not release-grade evidence.".
Definition refused_warning : string := "--require-clean refused to generate release-grade proof.".
Definition proof_status (dirty : option bool) (require_clean : bool) : string * bool * list string :=
  match dirty with
  | None => ("git_unavailable", false, [no_git])
  | Some true =>
      if require_clean then ("failed_dirty_worktree", false, [dirty_warning; refused_warning])
      else ("precommit_dirty", false, [dirty_warning])
  | Some false => ("release_grade", true, [])
  end.

(** ** Running commands *)

(** What a caught [TimeoutExpired] holds of an output. *)
Inductive partial_output := NoOutput | TextOutput (s : string) | BytesOutput (s : string).
Inductive run_result :=
| Finished (code : Z) (out err : string)
| RunTimeout (out err : partial_output)
| RunRaises (e : exn).
Class EvidencePlatform := {
  (** the n-th [subprocess.run]: arguments, directory, environment, time limit; a process may change any file *)
  start_process : nat -> list string -> path -> option (dict string) -> Z -> FS -> run_result * FS;
  monotonic_at : nat -> float;              (** time.monotonic() *)
  iso_now_at : nat -> string;               (** datetime.now(timezone.utc).isoformat() *)
  round3 : float -> float;                  (** round(x, 3) *)
  installed_version : option string;        (** importlib.metadata.version("leos-agent") *)
  python_version : string;
  platform_text : string;
}.
(** The state: the host of the evaluation, and the calls made of each oracle. *)
Record EvidenceHost := { pv_host : EvalHost; pv_runs : nat; pv_monotonic : nat; pv_now : nat }.
Abbreviation PM A := (M EvidenceHost exn A).
Definition set_host (x : EvalHost) (h : EvidenceHost) : EvidenceHost :=
  {| pv_host := x; pv_runs := pv_runs h; pv_monotonic := pv_monotonic h; pv_now := pv_now h |}.
Definition on_host {A} (m : EM A) : PM A := fun h => let (r, x) := m (pv_host h) in (r, set_host x h).
Definition on_files {A} (m : FM A) : PM A := on_host (in_files m).
Definition files : PM FS := gets (fun h => eh_fs (pv_host h)).

Section evidence.
Context `{PyRuntime} `{JsonSchemaValidator} `{ToolPlatform} `{UrlParser} `{Processes} `{EvidencePlatform}.
(** The working directory, and what the safety evaluation takes. *)
Context (wd : path) (getaddrinfo : string -> option Z -> M unit exn (list (res exn string))) (temp_path : FS -> path).

Definition now : PM string := fun h =>
  (Ok (iso_now_at (pv_now h)), {| pv_host := pv_host h; pv_runs := pv_runs h; pv_monotonic := pv_monotonic h; pv_now := S (pv_now h) |}).
Definition monotonic : PM float := fun h =>
  (Ok (monotonic_at (pv_monotonic h)),
   {| pv_host := pv_host h; pv_runs := pv_runs h; pv_monotonic := S (pv_monotonic h); pv_now := pv_now h |}).
Definition process (argv : list string) (dir : path) (environ : option (dict string)) (timeout : Z) : PM run_result := fun h =>
  let (r, fs) := start_process (pv_runs h) argv dir environ timeout (eh_fs (pv_host h)) in
  (Ok r, {| pv_host := host_fs fs (pv_host h); pv_runs := S (pv_runs h); pv_monotonic := pv_monotonic h; pv_now := pv_now h |}).

(** The local function [git] of [_git_metadata]. *)
Definition git (root : path) (args : list string) : PM (option string) :=
  let! r := process ("git" :: args) root None 5 in
  ret match r with Finished code out _ => if (code =? 0)%Z then Some (py_strip out) else None | _ => None end.
Definition git_metadata (root : path) : PM (dict pyval * option bool) :=
  let! branch := git root ["branch"; "--show-current"] in
  let! commit := git root ["rev-parse"; "HEAD"] in
  let! st := git root ["status"; "--porcelain"] in
  ret match branch, commit, st with
      | Some b, Some c, Some s =>
          let dirty := negb (String.eqb s "") in
          ([("available", VBool true); ("branch", VStr b); ("commit_sha", VStr c); ("dirty_worktree", VBool dirty)], Some dirty)
      | _, _, _ =>
          ([("available", VBool false); ("branch", VNone); ("commit_sha", VNone); ("dirty_worktree", VNone)], None)
      end.

(** [_pyproject_version], [_package_version], [_environment] *)
Definition pyproject_version (root : path) : PM string :=
  let! text := catch (on_files (read_text (root ++ ["pyproject.toml"])))
                 (fun e => if isinstance e OSError then raise (Exn RuntimeError "pyproject.toml could not be read") else raise e) in
  match find_version text with
  | Some v => ret v
  | None => raise (Exn RuntimeError "project.version is missing from pyproject.toml")
  end.
Definition package_version (root : path) : PM string :=
  let! project := pyproject_version root in
  match installed_version with
  | None => ret project
  | Some v =>
      if String.eqb v project then ret v
      else raise (Exn RuntimeError
             "installed leos-agent version does not match pyproject.toml; install the current project before generating release proof")
  end.
Definition environment (root : path) (given : string) : PM (dict pyval) :=
  let! v := if String.eqb given "" then package_version root else ret given in
  ret [("python_version", VStr python_version); ("platform", VStr platform_text);
       ("working_directory", VStr (path_str root)); ("package_version", VStr v)].

(** [_output_text] *)
Definition output_text (o : partial_output) : string :=
  match o with NoOutput => "" | TextOutput s => s | BytesOutput s => utf8_replace s end.
Definition src_env (root : path) : dict string := dset "PYTHONPATH" (path_str (root ++ ["src"])) os_environ.
Definition ended (n : string) (command : list string) (code : option Z) (st started_at : string) (started : float)
    (out err : string * bool) (why : option string) : PM CommandProof :=
  let! finished_at := now in
  let! t := monotonic in
  ret {| cp_name := n; cp_command := command; cp_exit_code := code; cp_status := st; cp_started_at := started_at;
         cp_finished_at := finished_at; cp_duration := round3 (fsub t started); cp_stdout := out.1; cp_stderr := err.1;
         cp_truncated := out.2 || err.2; cp_reason := why |}.
(** [_run_command] *)
Definition run_command (root : path) (entry : string * list string) : PM CommandProof :=
  let (n, command) := entry in
  let! started := monotonic in
  let! started_at := now in
  let! r := process command root (Some (src_env root)) 300 in
  match r with
  | Finished code out err =>
      ended n command (Some code) (if (code =? 0)%Z then "passed" else "failed") started_at started (excerpt out) (excerpt err) None
  | RunTimeout out err =>
      ended n command None "failed" started_at started (excerpt (output_text out)) (excerpt (output_text err))
        (Some "Command timed out")
  | RunRaises e =>
      if isinstance e FileNotFoundError
      then ended n command None "skipped" started_at started ("", false) ("", false) (Some (exn_str e))
      else raise e
  end.
(** [_skipped_command] *)
Definition skipped_command (why : string) (entry : string * list string) : PM CommandProof :=
  let! t := now in
  ret {| cp_name := entry.1; cp_command := entry.2; cp_exit_code := None; cp_status := "skipped"; cp_started_at := t;
         cp_finished_at := t; cp_duration := fzero; cp_stdout := ""; cp_stderr := ""; cp_truncated := false; cp_reason := Some why |}.
Fixpoint each {A B} (f : A -> PM B) (l : list A) : PM (list B) :=
  match l with [] => ret [] | a :: l' => let! b := f a in let! bs := each f l' in ret (b :: bs) end.

Definition named (n : string) (l : list CommandProof) : option CommandProof := List.find (fun c => String.eqb (cp_name c) n) l.
(** [_test_count] *)
Definition test_count (commands : list CommandProof) : option Z :=
  match named "unit_tests" commands with
  | Some c =>
      if String.eqb (cp_status c) "passed"
      then match re_search match_ran (cp_stdout c +:+ LF_str +:+ cp_stderr c) with Some d => int_of_str d | None => None end
      else None
  | None => None
  end.

(** ** Files *)

(** [_test_files] *)
Definition test_pattern (p : path) : bool := fnmatch (last_part p) "test_*.py".
Fixpoint relative_paths (root : path) (l : list path) : res exn (list string) :=
  match l with [] => Ok [] | p :: l' => res_bind (relative_to root p) (fun s => res_map (cons s) (relative_paths root l')) end.
Definition proof_test : string := "tests/test_proof_generation.py".
Definition test_files (root : path) (fs : FS) : res exn (list string) :=
  res_bind (relative_paths root (List.filter test_pattern (rglob fs (root ++ ["tests"])))) (fun l =>
  let sorted := py_sorted l in
  Ok (py_sorted (remove_dups (if str_mem proof_test sorted then sorted else sorted ++ [proof_test])))).
(** [_snapshot_files] *)
Definition count_LF (s : string) : Z := Z.of_nat (length (List.filter (Ascii.eqb LF) (list_ascii_of_string s))).
Definition line_count (s : string) : Z :=
  (count_LF s + if negb (String.eqb s "") && negb (ends_with LF_str s) then 1 else 0)%Z.
Definition snapshot_file (root : path) (rel : string) : PM FileSnapshot :=
  let p := joinpath root rel in
  let! fs := files in
  if negb (path_exists fs p) then ret {| sn_path := rel; sn_sha256 := None; sn_line_count := 0; sn_size := 0; sn_exists := false |}
  else
    let! data := on_files (read_bytes p) in
    ret {| sn_path := rel; sn_sha256 := Some (sha256_hex data); sn_line_count := line_count data;
           sn_size := Z.of_nat (String.length data); sn_exists := true |}.

(** ** The documents *)

Definition py_bool (b : bool) : string := if b then "True" else "False".
Definition show (v : pyval) : string := py_str v.
Definition tick (s : string) : string := "`" +:+ s +:+ "`".
(** [_render_index] *)
Definition dirty_note : string := LF_str +:+ LF_str +:+ "**WARNING: This proof was generated from a dirty worktree. " +:+
  "It is useful for local review but not release-grade evidence.**".
Definition warning_lines (m : ProofManifest) : string :=
  (match pm_warnings m with [] => "- none" | l => str_join LF_str (map (fun w => "- WARNING: " +:+ w) l) end) +:+
  (match pm_dirty m with Some true => dirty_note | _ => "" end).
Definition render_index (m : ProofManifest) : string := str_join LF_str [
  "# Proof Index"; "";
  "- Proof status: " +:+ tick (pm_proof_status m);
  "- Release grade: " +:+ tick (py_bool (pm_release_grade m));
  "- Generated at: " +:+ tick (pm_generated_at m);
  "- Package version: " +:+ tick (pm_package_version m);
  "- Unit tests: " +:+ tick (show (opt_int (pm_test_count m)));
  "- Commit SHA: " +:+ tick (show (entry "commit_sha" (pm_git m)));
  "- Branch: " +:+ tick (show (entry "branch" (pm_git m)));
  "- Dirty worktree: " +:+ tick (show (opt_flag (pm_dirty m)));
  "- Summary: " +:+ show (VDict (manifest_summary m));
  ""; "## Warnings"; warning_lines m; ""; "## Documents";
  "- [SOURCE_SNAPSHOT.md](SOURCE_SNAPSHOT.md)"; "- [TEST_INVENTORY.md](TEST_INVENTORY.md)";
  "- [TEST_RESULTS.md](TEST_RESULTS.md)"; "- [SAFETY_EVAL_RESULTS.md](SAFETY_EVAL_RESULTS.md)";
  "- [COVERAGE_SUMMARY.md](COVERAGE_SUMMARY.md)"; "- [STATIC_ANALYSIS.md](STATIC_ANALYSIS.md)";
  "- [SECURITY_SCAN.md](SECURITY_SCAN.md)"; "- [ARCHITECTURE_CLAIMS.md](ARCHITECTURE_CLAIMS.md)";
  "- [PRODUCTION_READINESS.md](PRODUCTION_READINESS.md)"; "- [KNOWN_LIMITATIONS.md](KNOWN_LIMITATIONS.md)"; ""].
(** [_render_file_table] *)
Definition snapshot_row (f : FileSnapshot) : string :=
  let sha := match sn_sha256 f with Some s => if String.eqb s "" then "missing" else s | None => "missing" end in
  "| " +:+ tick (sn_path f) +:+ " | " +:+ tick sha +:+ " | " +:+ str_Z (sn_line_count f) +:+ " | " +:+ str_Z (sn_size f) +:+
  " | " +:+ py_bool (sn_exists f) +:+ " |".
Definition render_file_table (title generated_at : string) (l : list FileSnapshot) : string :=
  str_join LF_str (["# " +:+ title; ""; "Generated: " +:+ tick generated_at; "";
                    "| Path | SHA256 | Lines | Size | Exists |"; "|---|---|---:|---:|---|"] ++ map snapshot_row l) +:+ LF_str.
(** [_render_command_doc] *)
Definition output_block (title s : string) : list string :=
  if String.eqb s "" then [] else [""; "### " +:+ title; ""; "```text"; s; "```"].
Definition command_lines (c : CommandProof) : list string :=
  ["## " +:+ cp_name c; ""; "- Command: " +:+ tick (str_join " " (cp_command c));
   "- Exit code: " +:+ tick (show (opt_int (cp_exit_code c))); "- Status: " +:+ tick (cp_status c);
   "- Duration seconds: " +:+ tick (show (VFloat (cp_duration c))); "- Truncated: " +:+ tick (py_bool (cp_truncated c))] ++
  (match cp_reason c with Some r => if String.eqb r "" then [] else ["- Reason: " +:+ r] | None => [] end) ++
  output_block "stdout" (cp_stdout c) ++ output_block "stderr" (cp_stderr c) ++ [""].
Definition render_command_doc (title : string) (m : ProofManifest) (names : list string) : string :=
  str_join LF_str (["# " +:+ title; ""] ++ flat_map command_lines (List.filter (fun c => str_mem (cp_name c) names) (pm_commands m))).
(** [_render_security_scan] *)
Definition match_severity (level s : string) : option unit :=
  match lit_ci "severity:" s with
  | None => None
  | Some (_, s) => match lit_ci level (snd (span is_space s)) with Some _ => Some tt | None => None end
  end.
Definition mentions_nosec (rel : string) : PM Z :=
  let p := joinpath wd rel in
  let! fs := files in
  if negb (path_exists fs p) then ret 0%Z
  else let! text := on_files (read_text p) in ret (if str_in "# nosec" text then 1%Z else 0%Z).
Definition render_security_scan (m : ProofManifest) : PM string :=
  let bandit := named "bandit" (pm_commands m) in
  let text := match bandit with Some c => cp_stdout c +:+ LF_str +:+ cp_stderr c | None => "" end in
  let! counts := each mentions_nosec KEY_SOURCE_FILES in
  ret (str_join LF_str [
    "# Security Scan"; "";
    "- Bandit exit code: " +:+ tick (show (match bandit with Some c => opt_int (cp_exit_code c) | None => VNone end));
    "- Bandit status: " +:+ tick (match bandit with Some c => cp_status c | None => "missing" end);
    "- High issues: " +:+ str_Z (re_count (match_severity "high") text);
    "- Medium issues: " +:+ str_Z (re_count (match_severity "medium") text);
    "- Low issues: " +:+ str_Z (re_count (match_severity "low") text);
    "- `# nosec` count in key source files: " +:+ str_Z (foldr Z.add 0%Z counts);
    ""; "Known warnings:"; "- Bandit output is a static scan and does not prove runtime isolation.";
    "- Sandbox, network, and secret guarantees are also covered by unit tests and safety evals."; "";
    render_command_doc "Bandit Raw Output" m ["bandit"]; ""]).
(** [_render_claims], [_render_production_readiness], [_render_known_limitations] *)
Definition claim_rows : list (list string) := [
  ["Workspace path escape is blocked"; "`src/leos_agent/dev_tools.py`, `src/leos_agent/tools.py`"; "`tests/test_dev_tools.py`, safety evals"; "`workspace_escape`"; "passed"];
  ["Network tools are opt-in"; "`src/leos_agent/network_tools.py`, `src/leos_agent/transactions.py`"; "`tests/test_network_tools.py`"; "`prompt_injection_untrusted_network`"; "passed"];
  ["External network data is untrusted"; "`src/leos_agent/network_tools.py`"; "`tests/test_network_tools.py`"; "safety eval"; "passed"];
  ["Secrets are not passed to untrusted tools"; "`src/leos_agent/tools.py`, `src/leos_agent/transactions.py`"; "safety eval"; "`secret_exfiltration`"; "passed"];
  ["High risk requires approval"; "`src/leos_agent/policy.py`, `src/leos_agent/transactions.py`"; "safety eval"; "`high_risk_requires_approval`"; "passed"];
  ["Output schema violation fails safely"; "`src/leos_agent/transactions.py`, `src/leos_agent/tools.py`"; "safety eval"; "`output_schema_violation`"; "passed"];
  ["Reversible actions can rollback"; "`src/leos_agent/transactions.py`, `src/leos_agent/dev_tools.py`"; "`tests/test_dev_tools.py`, safety eval"; "`rollback_reliability`"; "passed"];
  ["Audit log has hash-chain integrity"; "`src/leos_agent/audit.py`"; "`tests/test_core.py`, `tests/test_replay.py`"; "test results"; "covered"];
  ["Docker sandbox command construction includes hardening flags"; "`src/leos_agent/sandbox.py`"; "`tests/test_sandbox.py`"; "command-construction tests"; "partial"];
  ["Causal contract schema scaffold exists"; "`src/leos_agent/causal_contract.py`"; "`tests/test_causal_contract.py`"; "tests"; "scaffold"];
  ["Causal contract runtime enforcement"; "`src/leos_agent/transactions.py`, `src/leos_agent/causal.py`"; "`tests/test_causal_contract.py`"; "tests"; "partial"];
  ["SQLite TaskQueue persistence"; "`src/leos_agent/task_queue.py`"; "`tests/test_task_queue_persistence.py`"; "coverage"; "partial"];
  ["SQLite AuditLog/MemoryStore persistence"; "`src/leos_agent/audit.py`, `src/leos_agent/memory.py`"; "none"; "known limitations"; "not_complete"]].
Definition production_readiness_lines : list string := [
  "# Production Readiness";
  "";
  "## Ready for local development";
  "- Workspace-scoped file read/list/patch/diff tools.";
  "- Opt-in local test execution for developer workflows.";
  "- Policy, audit, rollback, network trust marking, and safety eval regression checks.";
  "";
  "## Ready for safety regression testing";
  "- `leos eval --suite safety`.";
  "- Proof documents with command results, source hashes, test inventory, and dirty/release-grade status.";
  "";
  "## Not ready for production autonomy";
  "- Workspace subprocess execution is not a production isolation boundary.";
  "- Docker sandbox support still needs real runtime integration tests before production use.";
  "- Network fetch still needs deployment-level egress proxy controls.";
  "- Causal contract runtime enforcement is useful but not a complete structural causal model.";
  "- SQLite persistence currently does not cover every core state component.";
  "- Safety evals are regression checks, not formal proof.";
  "";
  "## Required before production";
  "- Container or microVM execution enforced for code execution.";
  "- Real egress controls and SSRF-resistant deployment policy.";
  "- Complete persistence for audit, memory, tasks, and state.";
  "- Expanded adversarial evals and release-grade proof generated from a clean commit.";
  ""].
Definition known_limitation_lines : list string := [
  "# Known Limitations";
  "";
  "- Proof documents generated from a dirty worktree are not release-grade.";
  "- Proof documents are audit aids, not mathematical or formal verification.";
  "- Causal contract support is partial runtime enforcement, not a complete SCM.";
  "- Docker sandbox command construction is not full isolation proof in CI.";
  "- URLSafetyPolicy reduces SSRF risk but does not replace deployment egress controls.";
  "- RunTestsTool is local-dev oriented and not a production code-execution sandbox.";
  "- Workspace subprocess sandbox is not a production isolation boundary.";
  "- SQLite TaskQueue persistence exists, but AuditLog/MemoryStore SQLite persistence is not complete.";
  "- Safety eval suite is a minimal regression suite, not a complete safety proof.";
  ""].
Definition render_claims : string :=
  str_join LF_str (["# Architecture Claims"; ""; "| Claim | Code paths | Test paths | Proof evidence | Status |"; "|---|---|---|---|---|"] ++
                   map (fun row => "| " +:+ str_join " | " row +:+ " |") claim_rows) +:+ LF_str.
Definition render_production_readiness : string := str_join LF_str production_readiness_lines.
Definition render_known_limitations : string := str_join LF_str known_limitation_lines.

(** [_write_all] *)
Definition write_doc (output : path) (file content : string) : PM unit := on_files (write_text (output ++ [file]) content).
Definition readme_text : string := str_join LF_str
  ["# Leos Proof Documents"; ""; "Generated audit evidence for this repository snapshot."; ""].
Definition write_all (output : path) (m : ProofManifest) : PM unit :=
  write_doc output "MANIFEST.json" (json_indent json_string 0 (VDict (as_json_dict m))) ;;;
  write_doc output "README.md" readme_text ;;;
  write_doc output "PROOF_INDEX.md" (render_index m) ;;;
  write_doc output "SOURCE_SNAPSHOT.md" (render_file_table "Source Snapshot" (pm_generated_at m) (pm_sources m)) ;;;
  write_doc output "TEST_INVENTORY.md" (render_file_table "Test Inventory" (pm_generated_at m) (pm_tests m)) ;;;
  write_doc output "TEST_RESULTS.md" (render_command_doc "Test Results" m ["unit_tests"]) ;;;
  write_doc output "COVERAGE_SUMMARY.md" (render_command_doc "Coverage Summary" m ["coverage_run"; "coverage_report"]) ;;;
  write_doc output "STATIC_ANALYSIS.md" (render_command_doc "Static Analysis" m ["ruff_check"; "ruff_format_check"; "mypy"]) ;;;
  (let! scan := render_security_scan m in write_doc output "SECURITY_SCAN.md" scan) ;;;
  (let! report := on_host (run_safety_evals wd getaddrinfo temp_path) in
   write_doc output "SAFETY_EVAL_RESULTS.md" (render_eval_report_markdown report)) ;;;
  write_doc output "ARCHITECTURE_CLAIMS.md" render_claims ;;;
  write_doc output "PRODUCTION_READINESS.md" render_production_readiness ;;;
  write_doc output "KNOWN_LIMITATIONS.md" render_known_limitations.

(** [generate_proofs]: the commands run only when the status allows it. *)
Definition gather_commands (root : path) (st : string) (no_run : bool) : PM (list CommandProof) :=
  if String.eqb st "failed_dirty_worktree" then each (skipped_command "require-clean refused dirty worktree") COMMANDS
  else if no_run then each (skipped_command "--no-run requested") COMMANDS
  else each (run_command root) COMMANDS.
Definition generate_proofs (output : path) (require_clean no_run : bool) (repo_root : option path) : PM ProofManifest :=
  let! fs := files in
  let! root := of_res (resolve fs (default wd repo_root)) in
  on_files (mkdir output) ;;;
  let! generated_at := now in
  let! meta := git_metadata root in
  let '(st, grade, warnings) := proof_status meta.2 require_clean in
  let! sources := each (snapshot_file root) KEY_SOURCE_FILES in
  let! fs := files in
  let! tests := of_res (test_files root fs) in
  let! inventory := each (snapshot_file root) tests in
  let! version := package_version root in
  let! commands := gather_commands root st no_run in
  let! environ := environment root version in
  let m := {| pm_generated_at := generated_at; pm_proof_status := st; pm_release_grade := grade; pm_dirty := meta.2;
              pm_warnings := warnings; pm_git := meta.1; pm_environment := environ; pm_commands := commands;
              pm_sources := sources; pm_tests := inventory; pm_package_version := version;
              pm_test_count := test_count commands |} in
  write_all output m ;;;
  ret m.
End evidence.
