(* ===== verification/StoreSpec.v ===== *)
(** What a runtime store promises: an abstract store, the interface
    [StoreLaws] that states how the eight operations act on it, and the consequences for
    every history of calls.  StoreProps.v proves the laws of the
    in-memory, JSON lines and SQL stores. *)
From S2P Require Import Prelude Enums PyValue Goals Plans Serialization AuditTrail RuntimeStores.

Record AStore := {
  as_goals : gmap string Goal;
  as_plans : gmap string PlanObj;
  as_events : list (dict pyval);
  as_checkpoints : gmap string (dict pyval);
}.
Definition add_goal (g : Goal) (a : AStore) : AStore :=
  {| as_goals := <[goal_id g := g]> (as_goals a); as_plans := as_plans a; as_events := as_events a;
     as_checkpoints := as_checkpoints a |}.
Definition add_plan (p : PlanObj) (a : AStore) : AStore :=
  {| as_goals := as_goals a; as_plans := <[po_plan_id p := p]> (as_plans a); as_events := as_events a;
     as_checkpoints := as_checkpoints a |}.
Definition add_event (e : dict pyval) (a : AStore) : AStore :=
  {| as_goals := as_goals a; as_plans := as_plans a; as_events := as_events a ++ [e];
     as_checkpoints := as_checkpoints a |}.
Definition add_checkpoint (k : string) (v : dict pyval) (a : AStore) : AStore :=
  {| as_goals := as_goals a; as_plans := as_plans a; as_events := as_events a;
     as_checkpoints := <[k := v]> (as_checkpoints a) |}.

(** A plan without the time stamp that loading gives it. *)
Definition unstamp (p : PlanObj) : PlanObj :=
  {| po_goal := po_goal p; po_steps := po_steps p; po_plan_id := po_plan_id p; po_created_at := fzero;
     po_budget := po_budget p |}.
(** What the constructor has checked; the shape of the events of this program. *)
Definition goal_fine (g : Goal) : Prop := Forall (fun c => is_ok (GoalCriterion_check c) = true) (criteria g).
Definition event_fine (e : dict pyval) : Prop :=
  match dget "goal_id" e with None | Some VNone | Some (VStr _) => True | _ => False end.

(** The operations over states [S] and plan handles [Hd]. *)
Class StoreOps (S Hd : Type) := {
  op_save_goal : Goal -> M S exn unit;
  op_load_goal : string -> M S exn (option Goal);
  op_save_plan : Hd -> M S exn unit;
  op_load_plan : string -> M S exn (option Hd);
  op_append_event : dict pyval -> M S exn unit;
  op_list_events : option string -> M S exn (list (dict pyval));
  op_save_checkpoint : string -> dict pyval -> M S exn unit;
  op_load_checkpoint : string -> M S exn (option (dict pyval));
  store_ok : S -> Prop;
  contents : S -> AStore;
  plan_at : S -> Hd -> option PlanObj;
  admissible : pyval -> Prop;        (** documents the store can hold *)
  kept_goal : Goal -> Goal;          (** what a goal, a plan and a mapping are after reloading *)
  kept_plan : PlanObj -> PlanObj;
  kept_dict : dict pyval -> dict pyval;
}.

Section laws.
Context {S Hd : Type} `{StoreOps S Hd}.

(** A call that returns changes the contents by [f]; one that raises changes nothing. *)
Definition writes_at (s : S) (m : M S exn unit) (f : AStore -> AStore) : Prop := forall r s',
  m s = (r, s') -> store_ok s' /\ contents s' = match r with Ok _ => f (contents s) | Raise _ => contents s end.
(** A call that changes nothing, and returns, if it does, as [Q] says. *)
Definition reads_as {A} (m : M S exn A) (Q : AStore -> S -> A -> Prop) : Prop := forall s r s',
  store_ok s -> m s = (r, s') -> store_ok s' /\ contents s' = contents s /\ forall a, r = Ok a -> Q (contents s) s' a.
Definition loaded_plan (id : string) (a : AStore) (s : S) (o : option Hd) : Prop :=
  match o with
  | None => as_plans a !! id = None
  | Some h => exists p, plan_at s h = Some p /\ as_plans a !! id = Some (unstamp p)
  end.

Class StoreLaws : Prop := {
  law_save_goal g s : store_ok s -> goal_fine g -> admissible (VDict (goal_to_dict g)) ->
    writes_at s (op_save_goal g) (add_goal (kept_goal g));
  law_load_goal id : reads_as (op_load_goal id) (fun a _ o => o = as_goals a !! id);
  law_save_plan h p s : store_ok s -> plan_at s h = Some p -> plan_wf p -> admissible (plan_data p) ->
    writes_at s (op_save_plan h) (add_plan (unstamp (kept_plan p)));
  law_load_plan id : reads_as (op_load_plan id) (loaded_plan id);
  law_append_event e s : store_ok s -> event_fine e -> admissible (VDict e) ->
    writes_at s (op_append_event e) (add_event (kept_dict e));
  law_list_events goal : reads_as (op_list_events goal) (fun a _ l => l = events_of goal (as_events a));
  law_save_checkpoint k v s : store_ok s -> admissible (VDict v) ->
    writes_at s (op_save_checkpoint k v) (add_checkpoint k (kept_dict v));
  law_load_checkpoint k : reads_as (op_load_checkpoint k) (fun a _ o => o = as_checkpoints a !! k);
}.
End laws.
Arguments StoreLaws S Hd {_}.

(** ** Histories of calls *)

(** A call and its observed result; a plan is seen without its time stamp. *)
Inductive obs : Type :=
| SaveGoal (g : Goal) (r : res exn unit)
| LoadGoal (id : string) (r : res exn (option Goal))
| SavePlan (p : PlanObj) (r : res exn unit)
| LoadPlan (id : string) (r : res exn (option PlanObj))
| AppendEvent (e : dict pyval) (r : res exn unit)
| ListEvents (goal : option string) (r : res exn (list (dict pyval)))
| SaveCheckpoint (k : string) (v : dict pyval) (r : res exn unit)
| LoadCheckpoint (k : string) (r : res exn (option (dict pyval))).

Inductive trace {X L} (step : X -> L -> X -> Prop) : X -> list L -> X -> Prop :=
| trace_nil x : trace step x [] x
| trace_cons x l y ls z : step x l y -> trace step y ls z -> trace step x (l :: ls) z.
Lemma trace_app_inv {X L} (step : X -> L -> X -> Prop) x l1 l2 z :
  trace step x (l1 ++ l2) z -> exists y, trace step x l1 y /\ trace step y l2 z.
Proof.
  revert x. induction l1 as [|l l1 IH]; intros x Ht; simpl in Ht.
  - exists x. split; [constructor|done].
  - inversion Ht as [|x' l' y ls z' Hs Ht']; subst. destruct (IH y Ht') as (w & H1 & H2). exists w. split; [by econstructor|done].
Qed.

Section histories.
Context {S Hd : Type} `{StoreLaws S Hd}.

(** The calls of a store, on admissible arguments. *)
Inductive store_step : S -> obs -> S -> Prop :=
| ss_save_goal g s r s' : goal_fine g -> admissible (VDict (goal_to_dict g)) -> op_save_goal g s = (r, s') ->
    store_step s (SaveGoal g r) s'
| ss_load_goal id s r s' : op_load_goal id s = (r, s') -> store_step s (LoadGoal id r) s'
| ss_save_plan h p s r s' : plan_at s h = Some p -> plan_wf p -> admissible (plan_data p) -> op_save_plan h s = (r, s') ->
    store_step s (SavePlan p r) s'
| ss_load_plan id s r s' : op_load_plan id s = (r, s') ->
    store_step s (LoadPlan id (res_map (fun o => o ≫= fun h => unstamp <$> plan_at s' h) r)) s'
| ss_append_event e s r s' : event_fine e -> admissible (VDict e) -> op_append_event e s = (r, s') ->
    store_step s (AppendEvent e r) s'
| ss_list_events goal s r s' : op_list_events goal s = (r, s') -> store_step s (ListEvents goal r) s'
| ss_save_checkpoint k v s r s' : admissible (VDict v) -> op_save_checkpoint k v s = (r, s') ->
    store_step s (SaveCheckpoint k v r) s'
| ss_load_checkpoint k s r s' : op_load_checkpoint k s = (r, s') -> store_step s (LoadCheckpoint k r) s'.

(** The abstract store: a call that raises does nothing, a write that
    returns has been done, a read that returns answers from the contents. *)
Definition wrote (r : res exn unit) (f : AStore -> AStore) (a : AStore) : AStore :=
  match r with Ok _ => f a | Raise _ => a end.
Definition answers {A} (r : res exn A) (v : A) : Prop := forall x, r = Ok x -> x = v.
Inductive astore_step : AStore -> obs -> AStore -> Prop :=
| as_save_goal g r a : astore_step a (SaveGoal g r) (wrote r (add_goal (kept_goal g)) a)
| as_load_goal id r a : answers r (as_goals a !! id) -> astore_step a (LoadGoal id r) a
| as_save_plan p r a : astore_step a (SavePlan p r) (wrote r (add_plan (unstamp (kept_plan p))) a)
| as_load_plan id r a : answers r (as_plans a !! id) -> astore_step a (LoadPlan id r) a
| as_append_event e r a : astore_step a (AppendEvent e r) (wrote r (add_event (kept_dict e)) a)
| as_list_events goal r a : answers r (events_of goal (as_events a)) -> astore_step a (ListEvents goal r) a
| as_save_checkpoint k v r a : astore_step a (SaveCheckpoint k v r) (wrote r (add_checkpoint k (kept_dict v)) a)
| as_load_checkpoint k r a : answers r (as_checkpoints a !! k) -> astore_step a (LoadCheckpoint k r) a.

Lemma writes_step s m f r s' (o : obs) :
  writes_at s m f -> m s = (r, s') -> astore_step (contents s) o (wrote r f (contents s)) ->
  store_ok s' /\ astore_step (contents s) o (contents s').
Proof. intros Hw Hm Hs. destruct (Hw r s' Hm) as [Hok Hc]. split; [done|]. rewrite Hc. by destruct r. Qed.
Lemma store_step_sound s o s' : store_step s o s' -> store_ok s -> store_ok s' /\ astore_step (contents s) o (contents s').
Proof.
  intros Hs Hok. destruct Hs as [g s r s' Hf Ha E|id s r s' E|h p s r s' Hh Hw Ha E|id s r s' E|e s r s' Hf Ha E|goal s r s' E|k v s r s' Ha E|k s r s' E].
  - eapply writes_step; [by apply law_save_goal|done|constructor].
  - destruct (law_load_goal id s r s' Hok E) as (? & -> & ?). split; [done|by constructor].
  - eapply writes_step; [by eapply law_save_plan|done|constructor].
  - destruct (law_load_plan id s r s' Hok E) as (? & -> & Hq). split; [done|]. constructor. intros x Hx.
    destruct r as [[h|]|e]; [| |done]; destruct (Hq _ eq_refl) as [? Hp] || pose proof (Hq _ eq_refl) as Hp; simpl in Hp, Hx.
    + destruct Hp as [Hp1 Hp2]. rewrite Hp1 in Hx. by injection Hx as <-.
    + by injection Hx as <-.
  - eapply writes_step; [by apply law_append_event|done|constructor].
  - destruct (law_list_events goal s r s' Hok E) as (? & -> & ?). split; [done|by constructor].
  - eapply writes_step; [by apply law_save_checkpoint|done|constructor].
  - destruct (law_load_checkpoint k s r s' Hok E) as (? & -> & ?). split; [done|by constructor].
Qed.
Lemma store_trace_sound s l s' : trace store_step s l s' -> store_ok s -> store_ok s' /\ trace astore_step (contents s) l (contents s').
Proof.
  induction 1 as [s|s o s2 ls s' Hs _ IH]; intros Hok; [split; [done|constructor]|].
  destruct (store_step_sound _ _ _ Hs Hok) as [Hok2 H2]. destruct (IH Hok2) as [Hok3 H3]. split; [done|by econstructor].
Qed.

(** What later calls leave alone. *)
Definition saves_goal (id : string) (o : obs) : bool :=
  match o with SaveGoal g (Ok _) => String.eqb (goal_id (kept_goal g)) id | _ => false end.
Lemma trace_goal_kept id a l a' :
  trace astore_step a l a' -> Forall (fun o => saves_goal id o = false) l -> as_goals a' !! id = as_goals a !! id.
Proof.
  induction 1 as [a|a o a2 ls a' Hs _ IH]; intros Hl; [done|]. inversion Hl as [|o' ls' Ho Hl']; subst. rewrite (IH Hl').
  destruct Hs as [g [] a|id' r a ?|p [] a|id' r a ?|e [] a|goal r a ?|k v [] a|k r a ?]; try done. simpl in *.
  apply String.eqb_neq in Ho. by rewrite lookup_insert_ne.
Qed.
Lemma trace_last_goal id a g l r a' :
  trace astore_step a (SaveGoal g (Ok tt) :: l ++ [LoadGoal id (Ok r)]) a' -> goal_id (kept_goal g) = id ->
  Forall (fun o => saves_goal id o = false) l -> r = Some (kept_goal g).
Proof.
  intros Ht Hid Hl. inversion Ht as [|x o a1 ls z Hs Ht1]; subst. inversion Hs; subst.
  apply trace_app_inv in Ht1 as (a2 & H1 & H2). inversion H2 as [|x o a3 ls z Hs3 H3]; subst. inversion Hs3 as [| ? ? ? Hr | | | | | |]; subst.
  rewrite (Hr _ eq_refl), (trace_goal_kept _ _ _ _ H1 Hl). simpl. by rewrite lookup_insert_eq.
Qed.
End histories.
