(* ===== verification/AgentLoop.v ===== *)
(** The closed loop (agent_loop.py): propose, plan, execute, evaluate, and
    repair within bounds.

    The proposal provider and the runtime store are interfaces over states of
    their own ([P], [R]); a provider reads the goal, the world state and the
    registry.  The state [LState] adds the memory store and these two to the
    state of the transaction manager.  The loop, the kernel and the manager
    share one audit log and one memory, as they do by default. *)
From S2P Require Import Prelude Enums PyValue Sanitization Goals Plans Tools AuditTrail Memory Evaluator Causal Egress Policy Approval Gates Transactions Planner.

Record ProposalProvider (X P : Type) := {
  propose : Goal -> WorldState -> ToolRegistry X -> M P exn (list PlanProposal);
  propose_repair : option (ReplanContext -> Goal -> WorldState -> ToolRegistry X -> M P exn (list PlanProposal));
  provider_calls : P -> Z;       (** [getattr(provider, "calls", 0)] *)
}.
Arguments propose {X P} _ _ _ _.
Arguments propose_repair {X P} _.
Arguments provider_calls {X P} _ _.
Record RuntimeStore (R : Type) := {
  save_goal : Goal -> M R exn unit;
  save_plan : TransactionPlan -> list ActionStep -> M R exn unit;
  append_runtime_event : dict pyval -> M R exn unit;
  save_checkpoint : string -> dict pyval -> M R exn unit;
}.
Arguments save_goal {R} _ _.
Arguments save_plan {R} _ _ _.
Arguments append_runtime_event {R} _ _.
Arguments save_checkpoint {R} _ _ _.

Record AgentLoopConfig := {
  max_iterations : Z;
  max_replans : Z;
  al_max_tool_calls : option Z;
  memory_scope : string;
  use_goal_evaluator : bool;
}.
Definition AgentLoopConfig_check (c : AgentLoopConfig) : res exn AgentLoopConfig :=
  if (max_iterations c <? 1)%Z then Raise (Exn ValueError "max_iterations must be >= 1")
  else if (max_replans c <? 0)%Z then Raise (Exn ValueError "max_replans must be >= 0")
  else if match al_max_tool_calls c with Some n => (n <? 1)%Z | None => false end
  then Raise (Exn ValueError "max_tool_calls must be >= 1 when set")
  else Ok c.
Definition default_loop_config : AgentLoopConfig :=
  {| max_iterations := 3; max_replans := 1; al_max_tool_calls := None; memory_scope := "agent_loop";
     use_goal_evaluator := true |}.

Record AgentLoopResult := {
  lr_goal : Goal;
  lr_stop_reason : string;
  lr_iterations : Z;
  lr_selected_plans : list TransactionPlan;
  lr_progress : option GoalProgress;
  lr_evaluation : option GoalEvaluation;
  lr_analyses : list FailureAnalysis;
}.
Definition loop_succeeded (r : AgentLoopResult) : bool :=
  match lr_evaluation r with
  | Some e => bool_decide (ge_status e = EV_SUCCEEDED)
  | None => bool_decide (g_status (lr_goal r) = G_SUCCEEDED)
  end.

(** [DeterministicProposalProvider]; the state counts the calls. *)
Definition deterministic_provider {X} (batches : list (list PlanProposal)) : ProposalProvider X Z := {|
  propose := fun _ _ _ calls =>
    let index := match batches with
                 | [] => 0%Z
                 | _ => Z.min calls (Z.of_nat (length batches) - 1)
                 end in
    (Ok (default [] (batches !! Z.to_nat index)), (calls + 1)%Z);
  propose_repair := None;
  provider_calls := fun calls => calls |}.

Record LState (X G P R : Type) := {
  l_tx : TState X G;
  l_memory : MemoryStore;
  l_provider : P;
  l_store : R;
}.
Arguments l_tx {X G P R} _.
Arguments l_memory {X G P R} _.
Arguments l_provider {X G P R} _.
Arguments l_store {X G P R} _.

(** The local variables of [run]. *)
Record LoopVars := {
  lv_goal : Goal;
  lv_plans : list TransactionPlan;
  lv_progress : option GoalProgress;
  lv_evaluation : option GoalEvaluation;
  lv_replans : Z;
  lv_tool_calls : Z;
  lv_pending : option (list PlanProposal);
  lv_analyses : list FailureAnalysis;
}.
Definition init_vars (g : Goal) : LoopVars :=
  {| lv_goal := g; lv_plans := []; lv_progress := None; lv_evaluation := None; lv_replans := 0;
     lv_tool_calls := 0; lv_pending := None; lv_analyses := [] |}.
Definition set_pending (p : option (list PlanProposal)) (v : LoopVars) : LoopVars :=
  {| lv_goal := lv_goal v; lv_plans := lv_plans v; lv_progress := lv_progress v; lv_evaluation := lv_evaluation v;
     lv_replans := lv_replans v; lv_tool_calls := lv_tool_calls v; lv_pending := p; lv_analyses := lv_analyses v |}.
Definition add_analysis (a : FailureAnalysis) (v : LoopVars) : LoopVars :=
  {| lv_goal := lv_goal v; lv_plans := lv_plans v; lv_progress := lv_progress v; lv_evaluation := lv_evaluation v;
     lv_replans := lv_replans v; lv_tool_calls := lv_tool_calls v; lv_pending := lv_pending v;
     lv_analyses := lv_analyses v ++ [a] |}.
Definition count_replan (v : LoopVars) : LoopVars :=
  {| lv_goal := lv_goal v; lv_plans := lv_plans v; lv_progress := lv_progress v; lv_evaluation := lv_evaluation v;
     lv_replans := lv_replans v + 1; lv_tool_calls := lv_tool_calls v; lv_pending := lv_pending v;
     lv_analyses := lv_analyses v |}.
(** After the execution of a plan of [n] steps. *)
Definition after_plan (g : Goal) (plan : TransactionPlan) (n : Z) (p : GoalProgress) (e : option GoalEvaluation)
    (v : LoopVars) : LoopVars :=
  {| lv_goal := g; lv_plans := lv_plans v ++ [plan]; lv_progress := Some p; lv_evaluation := e;
     lv_replans := lv_replans v; lv_tool_calls := lv_tool_calls v + n; lv_pending := lv_pending v;
     lv_analyses := lv_analyses v |}.

(** [_stop_reason] and [_evaluation_stop_reason]; [None] for the empty string. *)
Definition goal_stop_reason (g : Goal) : option string :=
  match g_status g with
  | G_SUCCEEDED => Some "goal_succeeded" | G_BLOCKED => Some "goal_blocked" | G_FAILED => Some "goal_failed"
  | _ => None
  end.
Definition evaluation_stop_reason (e : GoalEvaluation) : option string :=
  match ge_status e with
  | EV_SUCCEEDED => Some "goal_succeeded" | EV_BLOCKED => Some "goal_blocked" | EV_FAILED => Some "goal_failed"
  | _ => None
  end.
Definition evaluation_target (e : GoalEvaluation) : option GoalStatus :=
  match ge_status e with
  | EV_SUCCEEDED => Some G_SUCCEEDED | EV_FAILED => Some G_FAILED | EV_BLOCKED => Some G_BLOCKED | _ => None
  end.
Definition state_keys (w : WorldState) : list string := py_sorted (map fst (map_to_list (facts w))).

Section loop.
Context `{PyRuntime} `{JsonSchemaValidator} {X G P R : Type}.
Context (tm : TransactionManager X G) (planner_config : PlannerConfig).
Context (provider : ProposalProvider X P) (store : option (RuntimeStore R)).
Context (evaluators : EvaluatorRegistry) (cfg : AgentLoopConfig).
Notation S := (LState X G P R).
Notation LL := (M S exn).

Definition with_tx (t : TState X G) (s : S) : S :=
  {| l_tx := t; l_memory := l_memory s; l_provider := l_provider s; l_store := l_store s |}.
#[export] Program Instance LState_HasSys : HasSys S :=
  {| sys_of := fun s => t_sys (l_tx s); upd_sys := fun x s => with_tx (with_sys x (l_tx s)) s |}.
Next Obligation. done. Qed.

Definition in_tx {A} (m : M (TState X G) exn A) : LL A := fun s =>
  let '(r, t) := m (l_tx s) in (r, with_tx t s).
Definition in_memory {A} (m : M MState exn A) : LL A := fun s =>
  let '(r, x) := m {| m_store := l_memory s; m_sys := t_sys (l_tx s) |} in
  (r, {| l_tx := with_sys (m_sys x) (l_tx s); l_memory := m_store x; l_provider := l_provider s;
         l_store := l_store s |}).
Definition in_provider {A} (m : M P exn A) : LL A := fun s =>
  let '(r, p) := m (l_provider s) in
  (r, {| l_tx := l_tx s; l_memory := l_memory s; l_provider := p; l_store := l_store s |}).
Definition in_store (m : M R exn unit) : LL unit := fun s =>
  let '(r, x) := m (l_store s) in
  (r, {| l_tx := l_tx s; l_memory := l_memory s; l_provider := l_provider s; l_store := x |}).

(** [_store] *)
Definition store_op (operation : string) (callback : RuntimeStore R -> M R exn unit) : LL unit :=
  match store with
  | None => ret tt
  | Some st =>
      catch (in_store (callback st)) (fun e =>
        audit "loop.runtime_store_failed" "Runtime store operation failed"
          [("operation", VStr operation); ("error_type", VStr (exn_name (exn_cls e))); ("reason", VStr (exn_str e))])
  end.
(** [_recall_goal_memory] *)
Definition recall_goal_memory (g : Goal) : LL unit :=
  let! l := in_memory (recall (goal_id g) false (Some (memory_scope cfg)) None) in
  audit "loop.memory_recalled" "Agent loop recalled goal memory"
    [("goal_id", VStr (goal_id g)); ("count", VInt (Z.of_nat (length l)))].
(** [_write_iteration_memory] *)
Definition iteration_record (g : Goal) (iteration : Z) (p : GoalProgress) (now : float) : MemoryRecord := {|
  rec_key := goal_id g;
  rec_value := VDict [("iteration", VInt iteration); ("goal_status", VStr (GoalStatus_value (g_status g)));
                     ("progress_phase", VStr (phase p)); ("verified_steps", VInt (verified_steps p))];
  rec_confidence := fone; rec_provenance := "agent_loop"; rec_type := MT_FACT; rec_sensitivity := MS_INTERNAL;
  rec_scope := memory_scope cfg; rec_source := None; rec_ttl := None; rec_last_verified_at := None;
  rec_conflicts_with := StrSeq true []; rec_supersedes := StrSeq true []; rec_embedding_id := None;
  rec_access_policy := None; rec_forget_policy := None; rec_created_at := now |}.
Definition write_iteration_memory (g : Goal) (iteration : Z) (p : GoalProgress) : LL unit :=
  in_memory (remember (iteration_record g iteration p)) ;;;
  audit "loop.memory_updated" "Agent loop wrote progress memory"
    [("goal_id", VStr (goal_id g)); ("iteration", VInt iteration); ("scope", VStr (memory_scope cfg))].

(** [_transition_goal_for_evaluation] *)
Definition transition_for_evaluation (g : Goal) (e : GoalEvaluation) : LL Goal :=
  match evaluation_target e with
  | None => ret g
  | Some target =>
      if bool_decide (g_status g = target) then ret g
      else
        let statuses := [("goal_id", VStr (goal_id g)); ("from_status", VStr (GoalStatus_value (g_status g)))] in
        match transition target g with
        | Ok g' =>
            audit "loop.goal_transitioned" "Goal status changed from goal evaluation"
              (statuses ++ [("to_status", VStr (GoalStatus_value (g_status g')));
                            ("evaluation_status", VStr (GoalEvaluationStatus_value (ge_status e)))]) ;;;
            ret g'
        | Raise exc =>
            audit "loop.goal_transition_skipped" "Goal transition from evaluation was not allowed"
              (statuses ++ [("to_status", VStr (GoalStatus_value target));
                            ("evaluation_status", VStr (GoalEvaluationStatus_value (ge_status e)));
                            ("error_type", VStr (exn_name (exn_cls exc))); ("reason", VStr (exn_str exc))]) ;;;
            ret g
        end
  end.
Definition audit_analysis (msg : string) (g : Goal) (iteration : Z) (a : FailureAnalysis) : LL unit :=
  audit "loop.failure_analyzed" msg
    [("goal_id", VStr (goal_id g)); ("iteration", VInt iteration);
     ("failure_type", VStr (FailureType_value (fa_type a))); ("root_cause", VStr (fa_root_cause a));
     ("retryable", VBool (fa_retryable a)); ("suggested_strategy", VStr (fa_strategy a));
     ("evidence", VDict (fa_evidence a))].
Definition steps_of (p : TransactionPlan) : LL (list ActionStep) := gets (fun s => plan_steps (t_heap (l_tx s)) p).
(** [_propose_repair], for a provider that has the method. *)
Definition propose_repair_of (f : ReplanContext -> Goal -> WorldState -> ToolRegistry X -> M P exn (list PlanProposal))
    (c : ReplanContext) : LL (list PlanProposal) :=
  let! w := gets (fun s => t_world (l_tx s)) in
  in_provider (f c (rc_goal c) w (tm_registry tm)).

(** How an iteration ends: [Next] goes on, [Stop] breaks with a reason. *)
Inductive outcome : Type := Next (v : LoopVars) | Stop (v : LoopVars) (why : string).

(** [proposals]: the pending repair, or the provider's. *)
Definition get_proposals (v : LoopVars) : LL (list PlanProposal) :=
  match lv_pending v with
  | Some ps => ret ps
  | None =>
      let! w := gets (fun s => t_world (l_tx s)) in
      in_provider (propose provider (lv_goal v) w (tm_registry tm))
  end.
(** The handler of the KeyError of [kernel.plan]. *)
Definition planning_failed (iteration : Z) (exc : exn) (v : LoopVars) : LL outcome :=
  match propose_repair provider with
  | Some f =>
      if (lv_replans v <? max_replans cfg)%Z
      then
        let a := {| fa_type := F_UNKNOWN_TOOL; fa_root_cause := exn_str exc; fa_retryable := true;
                    fa_strategy := "choose a registered tool";
                    fa_evidence := [("error_type", VStr (exn_name (exn_cls exc)))] |} in
        let v1 := count_replan (add_analysis a v) in
        audit_analysis "Agent loop analyzed a planning failure" (lv_goal v) iteration a ;;;
        let! empty := in_tx (new_plan (lv_goal v) []) in
        let! repair := propose_repair_of f {| rc_goal := lv_goal v; rc_plan := empty; rc_steps := [];
                                              rc_analysis := a; rc_attempt := lv_replans v1 |} in
        let v2 := set_pending (Some repair) v1 in
        ret (match repair with [] => Stop v2 "no_satisfactory_plan" | _ => Next v2 end)
      else ret (Stop v "no_satisfactory_plan")
  | None => ret (Stop v "no_satisfactory_plan")
  end.
(** After an execution that ended the goal for the reason [why]. *)
Definition maybe_replan (iteration : Z) (executed : TransactionPlan) (why : string) (v : LoopVars) : LL outcome :=
  match propose_repair provider with
  | Some f =>
      if str_mem why ["goal_failed"; "goal_blocked"] && (lv_replans v <? max_replans cfg)%Z
      then
        let! steps := steps_of executed in
        let! a := gets (fun s => analyze steps (sys_log (t_sys (l_tx s)))) in
        let v1 := add_analysis a v in
        audit_analysis "Agent loop analyzed a failed plan" (lv_goal v) iteration a ;;;
        if fa_retryable a
        then
          let v2 := count_replan v1 in
          let! steps := steps_of executed in
          let! repair := propose_repair_of f {| rc_goal := lv_goal v; rc_plan := executed; rc_steps := steps;
                                                rc_analysis := a; rc_attempt := lv_replans v2 |} in
          let v3 := set_pending (Some repair) v2 in
          match repair with
          | [] => ret (Stop v3 why)
          | _ =>
              audit "loop.replan_requested" "Agent loop requested a bounded repair plan"
                [("goal_id", VStr (goal_id (lv_goal v))); ("iteration", VInt iteration);
                 ("replan_attempt", VInt (lv_replans v2)); ("proposal_count", VInt (Z.of_nat (length repair)));
                 ("failure_type", VStr (FailureType_value (fa_type a)))] ;;;
              ret (Next v3)
          end
        else ret (Stop v1 why)
      else ret (Stop v why)
  | None => ret (Stop v why)
  end.
(** The evaluation of the goal after an execution: the goal and the reason to stop. *)
Definition evaluate_goal (iteration : Z) (g : Goal) (p : GoalProgress) :
    LL (Goal * option GoalEvaluation * option string) :=
  if use_goal_evaluator cfg
  then
    let! w := gets (fun s => t_world (l_tx s)) in
    let! e := of_res (evaluate evaluators g w (Some p)) in
    audit "loop.goal_evaluated" "Agent loop evaluated goal success criteria"
      [("goal_id", VStr (goal_id g)); ("iteration", VInt iteration);
       ("evaluation_status", VStr (GoalEvaluationStatus_value (ge_status e)));
       ("satisfied_criteria", strs (ge_satisfied e)); ("unsatisfied_criteria", strs (ge_unsatisfied e));
       ("explanation", VStr (ge_explanation e)); ("evidence_keys", strs (py_sorted (dkeys (ge_evidence e))))] ;;;
    match evaluation_stop_reason e with
    | Some why => let! g' := transition_for_evaluation g e in ret (g', Some e, Some why)
    | None => ret (g, Some e, None)
    end
  else ret (g, None, goal_stop_reason g).
(** Executing the selected plan and what follows. *)
Definition act (iteration : Z) (c : PlanCandidate) (v : LoopVars) : LL outcome :=
  let plan := pc_plan c in
  let n := Z.of_nat (length (p_steps plan)) in
  let! steps := steps_of plan in
  store_op "save_plan" (fun st => save_plan st plan steps) ;;;
  audit "loop.plan_selected" "Agent loop selected a plan"
    [("goal_id", VStr (goal_id (lv_goal v))); ("iteration", VInt iteration); ("plan_id", VStr (plan_id plan));
     ("proposal_id", VStr (pp_proposal_id (pc_proposal c))); ("step_count", VInt n)] ;;;
  let! executed := in_tx (kernel_execute tm plan) in
  let g := p_goal executed in
  audit "loop.plan_executed" "Agent loop executed selected plan"
    [("goal_id", VStr (goal_id g)); ("iteration", VInt iteration); ("plan_id", VStr (plan_id executed));
     ("goal_status", VStr (GoalStatus_value (g_status g)))] ;;;
  let! p := gets (fun s => track_progress (step_statuses (l_tx s))) in
  audit "loop.goal_progress_checked" "Agent loop checked goal progress"
    [("goal_id", VStr (goal_id g)); ("iteration", VInt iteration); ("verified_steps", VInt (verified_steps p));
     ("blocked_steps", VInt (blocked_steps p)); ("failed_steps", VInt (failed_steps p));
     ("rolled_back_steps", VInt (rolled_back_steps p)); ("phase", VStr (phase p))] ;;;
  let! (g', e, why) := evaluate_goal iteration g p in
  write_iteration_memory g' iteration p ;;;
  let v' := after_plan g' executed n p (match e with Some _ => e | None => lv_evaluation v end) v in
  match why with
  | Some reason => maybe_replan iteration executed reason v'
  | None => ret (Next v')
  end.
(** The planning result of an iteration. *)
Definition act_on (iteration : Z) (r : PlannerResult) (v : LoopVars) : LL outcome :=
  match pr_selected r with
  | None => ret (Stop v "no_satisfactory_plan")
  | Some c =>
      let plan := pc_plan c in
      let attempted := (lv_tool_calls v + Z.of_nat (length (p_steps plan)))%Z in
      match al_max_tool_calls cfg with
      | Some m =>
          if (m <? attempted)%Z
          then
            audit "loop.tool_call_budget_exceeded" "Agent loop stopped before selected plan exceeded tool call budget"
              [("goal_id", VStr (goal_id (lv_goal v))); ("iteration", VInt iteration);
               ("plan_id", VStr (plan_id plan)); ("max_tool_calls", VInt m);
               ("attempted_tool_calls", VInt attempted)] ;;;
            ret (Stop v "tool_call_budget_exceeded")
          else act iteration c v
      | None => act iteration c v
      end
  end.
(** The body of the loop. *)
Definition iterate (iteration : Z) (v : LoopVars) : LL outcome :=
  let! keys := gets (fun s => state_keys (t_world (l_tx s))) in
  audit "loop.iteration_started" "Agent loop iteration started"
    [("goal_id", VStr (goal_id (lv_goal v))); ("iteration", VInt iteration); ("state_keys", strs keys)] ;;;
  store_op "append_runtime_event" (fun st => append_runtime_event st
    [("event_type", VStr "loop.iteration_started"); ("goal_id", VStr (goal_id (lv_goal v)));
     ("iteration", VInt iteration); ("state_keys", strs keys)]) ;;;
  recall_goal_memory (lv_goal v) ;;;
  let! proposals := get_proposals v in
  let v := set_pending None v in
  match proposals with
  | [] => ret (Stop v "no_plan")
  | _ =>
      let! planned := catch (let! r := in_tx (kernel_plan tm planner_config (lv_goal v) proposals) in ret (Ok r))
                        (fun e => if isinstance e KeyError then ret (Raise e) else raise e) in
      match planned with
      | Raise e => planning_failed iteration e v
      | Ok r => act_on iteration r v
      end
  end.
(** [for iteration in range(1, max_iterations + 1)]; [n] iterations are left. *)
Fixpoint iterations (n : nat) (iteration : Z) (v : LoopVars) : LL (LoopVars * string) :=
  match n with
  | O => ret (v, "max_iterations_reached")
  | Datatypes.S n' =>
      let! o := iterate iteration v in
      match o with
      | Next v' => iterations n' (iteration + 1) v'
      | Stop v' why => ret (v', why)
      end
  end.
(** [AgentLoop.run] *)
Definition loop_run (g : Goal) : LL AgentLoopResult :=
  audit "loop.started" "Agent loop started"
    [("goal_id", VStr (goal_id g)); ("max_iterations", VInt (max_iterations cfg))] ;;;
  store_op "save_goal" (fun st => save_goal st g) ;;;
  let! (v, why) := iterations (Z.to_nat (max_iterations cfg)) 1 (init_vars g) in
  let! calls := gets (fun s => provider_calls provider (l_provider s)) in
  let n := match lv_plans v with
           | [] => Z.min (max_iterations cfg) calls
           | l => Z.of_nat (length l)
           end in
  let g' := lv_goal v in
  audit "loop.finished" "Agent loop finished"
    [("goal_id", VStr (goal_id g')); ("iterations", VInt n); ("stop_reason", VStr why);
     ("goal_status", VStr (GoalStatus_value (g_status g')))] ;;;
  store_op "save_checkpoint" (fun st => save_checkpoint st ("agent_loop:" +:+ goal_id g' +:+ ":final")
    [("goal_id", VStr (goal_id g')); ("stop_reason", VStr why); ("iterations", VInt n);
     ("final_status", VStr (GoalStatus_value (g_status g')));
     ("evaluation_status", match lv_evaluation v with
                           | Some e => VStr (GoalEvaluationStatus_value (ge_status e))
                           | None => VNone
                           end);
     ("selected_plan_ids", strs (map plan_id (lv_plans v)))]) ;;;
  ret {| lr_goal := g'; lr_stop_reason := why; lr_iterations := n; lr_selected_plans := lv_plans v;
         lr_progress := lv_progress v; lr_evaluation := lv_evaluation v; lr_analyses := lv_analyses v |}.
End loop.
