(* ===== verification/Operator.v ===== *)
(** The operator's GitHub workflow (github_operator.py): observe an issue, draft a plan, build the approval packets,
    sign the decisions and apply the plan under the production profile.

    The client is any [GitHubClient]; by default the REST client with the profile's egress policy.  The audit log of a
    command is the log of the state.  Documents are JSON values. *)
From S2P Require Import Prelude Enums PyValue FileSystem PyText Sanitization Goals Plans Serialization Tools AuditTrail Memory Evaluator Causal Egress Policy Approval Gates Credentials GitHubClient GitHubRest GitHubTools Transactions Planner AgentLoop PlanProviders.

Definition PLAN_SCHEMA : string := "leos.github_issue_plan".
Definition PROFILE : string := "production_github_only".
Definition GITHUB_HOST : string := "api.github.com".

Record OperatorResult := { or_ok : bool; or_message : string; or_data : dict pyval }.
Definition failed (msg : string) (d : dict pyval) : OperatorResult := {| or_ok := false; or_message := msg; or_data := d |}.

(** The state of a command: clocks and log, the environment of the tools, the receipt directory. *)
Record OpState (C : Type) := { os_sys : Sys; os_env : GhEnv C unit; os_receipts : dict string }.
Arguments os_sys {C} _.
Arguments os_env {C} _.
Arguments os_receipts {C} _.
#[export] Program Instance OpState_HasSys C : HasSys (OpState C) := {|
  sys_of := os_sys; upd_sys := fun x o => {| os_sys := x; os_env := os_env o; os_receipts := os_receipts o |} |}.
Next Obligation. done. Qed.

(** ** Plans *)

Section plans.
Context `{PyRuntime}.

Definition is_alnum_str (s : string) : bool := negb (String.eqb s "") && forallb is_alnum (list_ascii_of_string s).
(** [_validate_repo] *)
Definition validate_repo (repo : string) : res exn unit :=
  let fine part := negb (String.eqb part "") && is_alnum_str (str_replace "_" "" (str_replace "-" "" part)) in
  match FileSystem.split_slash repo with
  | [a; b] => if fine a && fine b then Ok tt else Raise (Exn ValueError "repo must be OWNER/REPO")
  | _ => Raise (Exn ValueError "repo must be OWNER/REPO")
  end.
Definition issue_if (b : bool) (msg : string) : list string := if b then [msg] else [].
Definition is_none (v : pyval) : bool := match v with VNone => true | _ => false end.
Definition str_entry (k : string) (d : dict pyval) : string := py_str (dget_or k (VStr "") d).
Definition change_issues (change : dict pyval) : list string :=
  issue_if (String.eqb (py_strip (str_entry "path" change)) "") "change.path is required" ++
  issue_if (match as_str (dget_or "content" VNone change) with Some _ => false | None => true end) "change.content must be a string" ++
  issue_if (String.eqb (py_strip (str_entry "commit_message" change)) "") "change.commit_message is required" ++
  issue_if (Bool.eqb (negb (is_none (dget_or "expected_sha" VNone change))) (negb (is_none (dget_or "expected_previous" VNone change))))
    "exactly one of expected_sha or expected_previous is required".
Definition validate_operator_plan (data : dict pyval) (require_ready : bool) : list string :=
  let branch := str_entry "work_branch" data in
  issue_if (py_neq (dget_or "schema" VNone data) (VStr PLAN_SCHEMA) || py_neq (dget_or "schema_version" VNone data) (VInt SCHEMA_VERSION))
    "unsupported GitHub operator plan schema" ++
  issue_if (py_neq (dget_or "profile" VNone data) (VStr PROFILE)) ("profile must be " +:+ PROFILE) ++
  match validate_repo (str_entry "repo" data) with Ok _ => [] | Raise e => [exn_str e] end ++
  issue_if (require_ready && py_neq (dget_or "status" VNone data) (VStr "ready")) "plan status must be ready" ++
  issue_if (require_ready && (negb (String.prefix "leos/" branch) || str_mem branch ["leos/"; "leos/main"]))
    "work_branch must use a non-empty leos/ prefix" ++
  issue_if (negb (str_mem (py_lower (str_entry "base_branch" data)) ["main"; "master"; "trunk"; "release"]))
    "base_branch must be an explicit protected source branch" ++
  match dget_or "change" VNone data with
  | VDict change => if require_ready then change_issues change else []
  | _ => ["change must be an object"]
  end ++
  issue_if (match dget_or "egress" VNone data with
            | VDict egress => py_neq (dget_or "host" VNone egress) (VStr GITHUB_HOST)
            | _ => true
            end) "egress host must be api.github.com" ++
  match assert_no_secrets (VDict data) with
  | Ok _ => []
  | Raise e => ["plan contains secret-like value: " +:+ exn_name (exn_cls e)]
  end.
(** [_without_none] *)
Definition without_none (d : dict pyval) : dict pyval := List.filter (fun kv => negb (is_none kv.2)) d.
Definition criterion (k o : string) (v : pyval) : GoalCriterion :=
  {| gc_key := k; gc_op := o; gc_value := v; gc_source := None; gc_required := true |}.
Definition operator_goal (desc : string) (success : list string) (crit : list GoalCriterion) (stop id : string) : Goal := {|
  description := desc; success_criteria := success; criteria := crit; constraints := []; stop_conditions := [stop];
  priority := 5; goal_id := id; owner := None; deadline := None; budget := default_budget; g_status := G_CREATED |}.
Definition placeholder : Secret := {| secret_id := 0; unwrap := "approval-placeholder" |}.
Definition with_key (key : string) (st : ActionStep) : ActionStep := {|
  tool_name := tool_name st; arguments := arguments st; reason := reason st; status := status st; risk := risk st;
  reversibility := reversibility st; compensation_strategy := compensation_strategy st;
  rollback_reliability := rollback_reliability st; required_permissions := required_permissions st;
  predictions := predictions st; counterfactual_report := counterfactual_report st; idempotency_key := Some key;
  preconditions := preconditions st; postconditions := postconditions st; invariants := invariants st; step_id := step_id st |}.
(** [str(data[k][k'])] *)
Definition item2 (k k' : string) (data : dict pyval) : res exn string :=
  res_bind (dget_item k data) (fun v => res_map py_str (py_subscript v k')).
(** [compile_operator_plan]: the goal and the three steps. *)
Definition compile_steps (data : dict pyval) (token : Secret) : res exn (Goal * list ActionStep) :=
  match validate_operator_plan data true with
  | (_ :: _) as issues => Raise (Exn ValueError (str_join "; " issues))
  | [] =>
      let repo := str_entry "repo" data in
      let branch := str_entry "work_branch" data in
      let base := str_entry "base_branch" data in
      let tok := [("token", secret_val token)] in
      res_bind (res_bind (dget_item "change" data) dict_of) (fun change =>
      res_bind (res_bind (dget_item "pull_request" data) dict_of) (fun pr =>
      res_bind (item2 "step_ids" "create_branch" data) (fun id1 =>
      res_bind (str_item "path" change) (fun path =>
      res_bind (str_item "content" change) (fun content =>
      res_bind (str_item "commit_message" change) (fun msg =>
      res_bind (item2 "step_ids" "update_file" data) (fun id2 =>
      res_bind (str_item "title" pr) (fun title =>
      res_bind (str_item "body" pr) (fun text =>
      res_bind (str_item "idempotency_key" pr) (fun key =>
      res_bind (item2 "step_ids" "open_pr" data) (fun id3 =>
      res_bind (item2 "issue" "number" data) (fun number =>
      res_bind (str_item "goal_id" data) (fun gid =>
      Ok (operator_goal ("Prepare a reviewed pull request for " +:+ repo +:+ " issue #" +:+ number) []
            [criterion "github_branch" "exists" VNone; criterion "github_file_updated" "exists" VNone;
             criterion "github_pr" "exists" VNone; criterion "read_back_verified" "equals" (VBool true)]
            "PR opened and read-back verified or execution blocked" gid,
          [new_step "github_create_branch" ([("repo", VStr repo); ("branch", VStr branch); ("base", VStr base)] ++ tok)
             "Create the bounded working branch." id1;
           new_step "github_update_file"
             (without_none ([("repo", VStr repo); ("path", VStr path); ("branch", VStr branch); ("content", VStr content);
                             ("message", VStr msg); ("expected_sha", dget_or "expected_sha" VNone change);
                             ("expected_previous", dget_or "expected_previous" VNone change)] ++ tok))
             "Apply one operator-authored file update with an optimistic guard." id2;
           with_key key (new_step "github_open_pr"
             ([("repo", VStr repo); ("title", VStr title); ("body", VStr text); ("head", VStr branch); ("base", VStr base);
               ("idempotency_key", VStr key)] ++ tok)
             "Open an idempotent pull request for human review." id3)]))))))))))))))
  end.
(** [operator_plan_digest] *)
Definition operator_plan_digest (data : dict pyval) : res exn string :=
  res_bind (assert_no_secrets (VDict data)) (fun _ =>
  res_map (fun v => sha256_hex (json_dumps "," ":" json_string_ascii v)) (json_doc (VDict data))).
Context {S : Type} `{HasSys S}.
Definition compile_operator_plan (data : dict pyval) (token : Secret) : M S exn (TransactionPlan * list ActionStep) :=
  let! x := of_res (compile_steps data token) in
  let! pid := of_res (str_item "plan_id" data) in
  let! now := time_time in
  ret ({| p_goal := fst x; p_steps := seq 0 3; plan_id := pid; created_at := now; p_budget := None |}, snd x).
End plans.

(** ** Running plans *)

Section operator.
Context `{PyRuntime} `{JsonSchemaValidator} `{ToolPlatform} {C : Type} (client : GitHubClient C).
Abbreviation ENV := (GhEnv C unit).
Abbreviation OM A := (M (OpState C) exn A).

Fixpoint register_tools (l : list (Tool ENV)) (r : ToolRegistry ENV) : res exn (ToolRegistry ENV) :=
  match l with [] => Ok r | t :: l' => res_bind (register t r) (register_tools l') end.
(** [build_github_operator_registry] *)
Definition operator_tools : list (Tool ENV) :=
  [GitHubReadIssueTool client; GitHubGetFileTool client; GitHubCreateBranchTool client None; GitHubUpdateFileTool client None;
   GitHubOpenPRTool client None].
Definition build_github_operator_registry : res exn (ToolRegistry ENV) := register_tools operator_tools [].
(** [AgentKernel(registry, policy, ...)] *)
Definition operator_kernel {G} (r : ToolRegistry ENV) (p : PolicyEngine) (gate : ApprovalGate G) : TransactionManager ENV G := {|
  tm_registry := r; tm_policy := p; tm_causal := []; tm_gate := gate; tm_allow_network_tools := false; tm_sandbox_runners := [] |}.
(** A new registry holds new tools, without kept tokens. *)
Definition new_tools (o : OpState C) : OpState C := {|
  os_sys := os_sys o; os_receipts := os_receipts o;
  os_env := {| ge_client := ge_client (os_env o); ge_vault := tt; ge_clock := ge_clock (os_env o); ge_tokens := ∅ |} |}.
(** The state of a new kernel: the tools are new objects without kept tokens. *)
Definition kernel_state {G} (p : TransactionPlan) (steps : list ActionStep) (g : G) (o : OpState C) : TState ENV G := {|
  t_sys := os_sys o; t_env := os_env (new_tools o);
  t_world := empty_world; t_heap := steps; t_plan := p; t_uses := fun _ => 0%Z; t_gate := g; t_stack := []; t_calls := [] |}.
(** A computation of the kernel, with the receipts its gate leaves. *)
Definition in_kernel {G A} (receipts : G -> dict string -> dict string) (m : M (TState ENV G) exn A) (s : OpState C -> TState ENV G) :
    OM (A * WorldState) := fun o =>
  let '(r, t) := m (s o) in
  (res_map (fun a => (a, t_world t)) r,
   {| os_sys := t_sys t; os_env := t_env t; os_receipts := receipts (t_gate t) (os_receipts o) |}).

(** [build_plan] and [run] of the plan it gives: the statuses of its steps. *)
Definition build_and_run {G} (tm : TransactionManager ENV G) (g : Goal) (steps : list nat) : M (TState ENV G) exn (list StepStatus) :=
  let! p := build_plan tm g steps in
  let! _ := kernel_execute tm p in
  gets step_statuses.
Definition no_plan (g : Goal) : TransactionPlan := {| p_goal := g; p_steps := []; plan_id := ""; created_at := fzero; p_budget := None |}.
Definition first_status (l : list StepStatus) : StepStatus := default PENDING (head l).

(** [github_issue_dry_run] *)
Definition github_issue_dry_run (repo : string) (issue_number : Z) (token : option Secret) : OM OperatorResult :=
  of_res (validate_repo repo) ;;;
  if (issue_number <? 1)%Z then raise (Exn ValueError "issue number must be >= 1")
  else
    let! policy := of_res (from_profile PROFILE None) in
    let! r := of_res (register (GitHubReadIssueTool client) []) in
    let! gid := uuid4 in
    let goal := operator_goal ("Observe GitHub issue " +:+ repo +:+ "#" +:+ str_Z issue_number) ["GitHub issue observed"]
                  [criterion "github_issue" "exists" VNone] "Issue observed or request blocked" gid in
    let args := [("repo", VStr repo); ("issue_number", VInt issue_number)] ++
                match token with Some t => [("token", secret_val t)] | None => [] end in
    let! sid := uuid4 in
    let step := new_step "github_read_issue" args "Read issue safely." sid in
    let tm := operator_kernel r policy (base_gate (G:=unit) None) in
    let! (statuses, w) := in_kernel (fun _ rs => rs) (build_and_run tm goal [0%nat]) (kernel_state (no_plan goal) [step] tt) in
    let st := first_status statuses in
    if negb (bool_decide (st = VERIFIED))
    then ret (failed ("GitHub issue dry-run " +:+ StepStatus_value st) [("writes_performed", VBool false)])
    else
      let! issue := of_res (dict_of (default (VDict []) (facts w !! "github_issue"))) in
      ret {| or_ok := true; or_message := "GitHub issue dry-run completed without writes";
             or_data := [("repo", VStr repo); ("issue_number", VInt issue_number); ("title", dget_or "title" (VStr "") issue);
                         ("state", dget_or "state" (VStr "") issue); ("html_url", dget_or "html_url" (VStr "") issue);
                         ("writes_performed", VBool false); ("egress_host", VStr GITHUB_HOST)] |}.

(** [create_draft_plan] *)
Definition draft_plan (repo : string) (n : Z) (observed : dict pyval) (plan_id goal_id id1 id2 id3 : string) : dict pyval :=
  let num := str_Z n in
  let title := text_or "title" ("Issue #" +:+ num) observed in
  [("schema", VStr PLAN_SCHEMA); ("schema_version", VInt SCHEMA_VERSION); ("status", VStr "draft"); ("profile", VStr PROFILE);
   ("goal_id", VStr goal_id); ("plan_id", VStr plan_id);
   ("step_ids", VDict [("create_branch", VStr id1); ("update_file", VStr id2); ("open_pr", VStr id3)]);
   ("repo", VStr repo);
   ("issue", VDict [("number", VInt n); ("title", VStr title); ("html_url", dget_or "html_url" (VStr "") observed);
                    ("trust_level", VStr "untrusted_external")]);
   ("base_branch", VStr "main"); ("work_branch", VStr "");
   ("change", VDict [("path", VStr ""); ("content", VStr ""); ("commit_message", VStr ("Address issue #" +:+ num));
                     ("expected_sha", VNone); ("expected_previous", VNone)]);
   ("pull_request", VDict
     [("title", VStr ("Fix #" +:+ num +:+ ": " +:+ title));
      ("body", VStr ("Addresses #" +:+ num +:+ "." +:+ LF_str +:+ LF_str +:+ "Prepared by Leos for human-approved execution."));
      ("idempotency_key", VStr ("leos-" +:+ str_replace "/" "-" repo +:+ "-issue-" +:+ num +:+ "-" +:+ plan_id))]);
   ("egress", VDict [("host", VStr GITHUB_HOST); ("forward_methods", str_list ["GET"; "POST"; "PUT"]);
                     ("rollback_methods", str_list ["DELETE"; "GET"; "PATCH"; "PUT"])]);
   ("operator_instructions", str_list
     ["Set status to ready."; "Set work_branch to a leos/ prefixed branch."; "Set change.path and change.content.";
      "Set exactly one optimistic guard: expected_sha or expected_previous."])].
Definition create_draft_plan (repo : string) (n : Z) (token : option Secret) : OM (dict pyval) :=
  let! observed := github_issue_dry_run repo n token in
  if negb (or_ok observed) then raise (Exn LeosError (or_message observed))
  else
    let! pid := uuid4 in
    let! gid := uuid4 in
    let! id1 := uuid4 in
    let! id2 := uuid4 in
    let! id3 := uuid4 in
    ret (draft_plan repo n (or_data observed) pid gid id1 id2 id3).

(** ** Approval *)

(** [_hydrate_step] *)
Definition hydrate_step (ts : ToolSpec) (policy : PolicyEngine) (st : ActionStep) : ActionStep := {|
  tool_name := tool_name st; arguments := arguments st; reason := reason st; status := status st;
  risk := assess ts (arguments st); reversibility := ts_reversibility ts; compensation_strategy := ts_compensation_strategy ts;
  rollback_reliability := ts_rollback_reliability ts; required_permissions := permissions ts;
  predictions := predictions st; counterfactual_report := counterfactual_report st; idempotency_key := idempotency_key st;
  preconditions := preconditions st; postconditions := postconditions st; invariants := invariants st; step_id := step_id st |}.
(** [tool.dry_run(step.arguments, WorldState())] on the tools of a new registry. *)
Definition dry_run_message (t : Tool ENV) (st : ActionStep) : OM string := fun o =>
  let '(r, (e, _)) := dry_run t (arguments st) (os_env o, empty_world) in
  (res_map message r, {| os_sys := os_sys o; os_env := e; os_receipts := os_receipts o |}).
Fixpoint build_packets (r : ToolRegistry ENV) (policy : PolicyEngine) (p : TransactionPlan) (steps : list ActionStep)
    (expires_in : float) : OM (list pyval) :=
  match steps with
  | [] => ret []
  | st :: steps' =>
      let! t := of_res (registry_get (tool_name st) r) in
      let st := hydrate_step (spec t) policy st in
      let! summary := dry_run_message t st in
      let! packet := build_approval_packet p st (spec t) summary PROFILE None expires_in in
      let! rest := build_packets r policy p steps' expires_in in
      ret (VDict (packet_as_dict packet) :: rest)
  end.
Definition approval_bundle (p : TransactionPlan) (digest : string) (packets : list pyval) : dict pyval :=
  [("schema", VStr APPROVAL_SCHEMA); ("schema_version", VInt SCHEMA_VERSION); ("profile", VStr PROFILE);
   ("plan_id", VStr (plan_id p)); ("goal_id", VStr (goal_id (p_goal p))); ("plan_digest", VStr digest); ("packets", VList packets)].
(** [build_approval_bundle] *)
Definition build_approval_bundle (data : dict pyval) (expires_in : float) : OM (dict pyval) :=
  let! (p, steps) := compile_operator_plan data placeholder in
  let! policy := of_res (from_profile PROFILE None) in
  let! r := of_res build_github_operator_registry in
  modify new_tools ;;;
  let! packets := build_packets r policy p steps expires_in in
  let! digest := of_res (operator_plan_digest data) in
  let bundle := approval_bundle p digest packets in
  of_res (assert_no_secrets (VDict bundle)) ;;;
  ret bundle.

(** [build_signed_decision_bundle] *)
Definition signed_decision (d : ApprovalDecision) (secret : string) : pyval :=
  VDict (dset "signature" (VStr (sign_approval_decision d secret)) (decision_as_dict d)).
Fixpoint sign_packets (packets : list pyval) (value approver secret : string) (why : option string) : OM (list pyval) :=
  match packets with
  | [] => ret []
  | v :: packets' =>
      let! pd := of_res (dict_of v) in
      let! now := time_time in
      let! p := of_res (packet_from_mapping now pd) in
      let! dv := of_res (enum_of (A:=ApprovalDecisionValue) value) in
      let! now := time_time in
      let d := {| ad_approval_id := ap_approval_id p; ad_step_hash := ap_step_hash p; ad_decision := dv; ad_decided_at := now;
                  ad_approver := Some approver; ad_reason := why |} in
      let! rest := sign_packets packets' value approver secret why in
      ret (signed_decision d secret :: rest)
  end.
Definition build_signed_decision_bundle (bundle : dict pyval) (value approver secret : string) (why : option string) :
    OM (dict pyval) :=
  if py_neq (dget_or "schema" VNone bundle) (VStr APPROVAL_SCHEMA)
  then raise (Exn ValueError "invalid approval bundle schema")
  else
    let! packets := of_res (py_iter (dget_or "packets" (VList []) bundle)) in
    let! decisions := sign_packets packets value approver secret why in
    ret [("schema", VStr DECISION_SCHEMA); ("schema_version", VInt SCHEMA_VERSION); ("profile", dget_or "profile" VNone bundle);
         ("plan_id", dget_or "plan_id" VNone bundle); ("plan_digest", dget_or "plan_digest" VNone bundle);
         ("decisions", VList decisions)].

(** ** Applying a plan *)

(** The gate of [apply_operator_plan], over the receipts on disk; the clock is read for each packet. *)
Definition prepared_gate_of (approval decision : dict pyval) : OM PreparedGate := fun o =>
  let '(r, n) := prepared_init approval decision (os_receipts o) (n_time (os_sys o)) in
  (r, {| os_sys := {| sys_log := sys_log (os_sys o); n_time := n; n_uuid := n_uuid (os_sys o) |};
         os_env := os_env o; os_receipts := os_receipts o |}).
Definition differs (k : string) (d : dict pyval) (v : pyval) : bool := py_neq (dget_or k VNone d) v.
Definition id_mismatch (data approval decision : dict pyval) : option string :=
  let pid := dget_or "plan_id" VNone data in
  if differs "plan_id" approval pid then Some "approval plan_id does not match the current plan"
  else if differs "plan_id" decision pid then Some "approval decision plan_id does not match the current plan"
  else None.
(** The plan, then the file read back through the same kernel, on the steps 0 to 2 and 3 of the heap: whether the plan was verified, and
    then its goal, its progress and whether the file reads as intended. *)
Definition run_and_read_back (tm : TransactionManager ENV PreparedGate) (p : TransactionPlan) (repo path branch : string)
    (content : pyval) (token : Secret) : M (TState ENV PreparedGate) exn (option (Goal * GoalProgress * bool)) :=
  let! executed := kernel_execute tm p in
  let! statuses := gets step_statuses in
  if negb (forallb (fun v => bool_decide (v = VERIFIED)) statuses) then ret None
  else
    let! gid := uuid4 in
    let goal := operator_goal "Verify the GitHub file update" ["updated file read back"] [criterion "github_file" "exists" VNone]
                  "File observed or blocked" gid in
    let! sid := uuid4 in
    let step := new_step "github_get_file"
                  [("repo", VStr repo); ("path", VStr path); ("ref", VStr branch); ("token", secret_val token)]
                  "Read back the updated file through the tool boundary." sid in
    modify (fun s => with_heap (t_heap s ++ [step]) s) ;;;
    let! read := build_and_run tm goal [3%nat] in
    let! w := gets t_world in
    let verified := bool_decide (first_status read = VERIFIED) &&
      match facts w !! "github_file" with Some (VDict f) => py_eq (dget_or "content" VNone f) content | _ => false end in
    modify (fun s => with_world (observe [("read_back_verified", VBool verified)] TL_VERIFIED (t_world s)) s) ;;;
    ret (Some (p_goal executed, track_progress statuses, verified)).
Definition applied (data : dict pyval) (w : WorldState) (audit_path : string) (e : GoalEvaluation) : res exn OperatorResult :=
  res_map (fun pr => {|
    or_ok := true; or_message := "GitHub plan applied and verified; pull request remains open for human review";
    or_data := [("repo", dget_or "repo" VNone data); ("branch", dget_or "work_branch" VNone data);
                ("pr_number", dget_or "number" VNone pr); ("pr_url", dget_or "html_url" VNone pr);
                ("audit_path", VStr audit_path); ("evaluation_status", VStr (GoalEvaluationStatus_value (ge_status e)));
                ("automatic_merge", VBool false)] |})
    (dict_of (default (VDict []) (facts w !! "github_pr"))).
(** [apply_operator_plan]; [env] is the process environment. *)
Definition apply_operator_plan (env : dict string) (data approval decision : dict pyval) (token : Secret)
    (secret audit_path : string) : OM OperatorResult :=
  let audited msg := failed msg [("audit_path", VStr audit_path)] in
  if negb (bool_decide (dget "LEOS_ENABLE_REAL_GITHUB_WRITES" env = Some "1")) then ret (failed "real GitHub writes are disabled" [])
  else match validate_operator_plan data true with
  | (_ :: _) as issues => ret (failed (str_join "; " issues) [])
  | [] =>
      if differs "profile" approval (VStr PROFILE) || differs "profile" decision (VStr PROFILE)
      then ret (failed "approval profile does not match production_github_only" [])
      else match id_mismatch data approval decision with
      | Some msg => ret (failed msg [])
      | None =>
          let! digest := of_res (operator_plan_digest data) in
          if differs "plan_digest" approval (VStr digest) || differs "plan_digest" decision (VStr digest)
          then ret (failed "approval does not match the current plan" [])
          else
            let! policy := of_res (from_profile PROFILE None) in
            let! r := of_res build_github_operator_registry in
            let! gate := prepared_gate_of approval decision in
            let! (p, steps) := compile_operator_plan data token in
            let! change := of_res (res_bind (dget_item "change" data) dict_of) in
            let! (x, w) := in_kernel (fun g _ => pg_receipts g)
              (run_and_read_back (operator_kernel r policy (prepared_gate secret)) p (str_entry "repo" data)
                 (str_entry "path" change) (str_entry "work_branch" data) (dget_or "content" VNone change) token)
              (kernel_state p steps gate) in
            match x with
            | None => ret (audited "GitHub apply was blocked or failed")
            | Some (g, progress, verified) =>
                let! registry := of_res (new_evaluator_registry []) in
                let! e := of_res (evaluate registry g w (Some progress)) in
                audit "github.operator.goal_evaluated" "GitHub operator goal evaluated after read-back verification"
                  [("plan_id", VStr (plan_id p)); ("goal_id", VStr (goal_id g));
                   ("evaluation_status", VStr (GoalEvaluationStatus_value (ge_status e)))] ;;;
                if negb verified || negb (bool_decide (ge_status e = EV_SUCCEEDED))
                then ret (audited "post-action verification failed")
                else of_res (applied data w audit_path e)
            end
      end
  end.

(** ** The recipe for one file (recipes/github_pr.py) *)

Record GitHubFileChange := {
  fc_repo : string; fc_issue_number : Z; fc_path : string; fc_content : string; fc_work_branch : string;
  fc_commit_message : option string; fc_expected_sha : option string; fc_expected_previous : option string;
  fc_base_branch : string;
}.
Record PreparedChange := { pc_plan : dict pyval; pc_approval : dict pyval }.
(** [d[k] = v], one after the other. *)
Definition set_entries (l d : dict pyval) : dict pyval := fold_left (fun d kv => dset kv.1 kv.2 d) l d.
Definition fill_change (c : GitHubFileChange) (d : dict pyval) : dict pyval :=
  set_entries ([("path", VStr (fc_path c)); ("content", VStr (fc_content c))] ++
               match fc_commit_message c with Some m => [("commit_message", VStr m)] | None => [] end ++
               [("expected_sha", opt_str_val (fc_expected_sha c)); ("expected_previous", opt_str_val (fc_expected_previous c))]) d.
Definition prepare_single_file_pr (c : GitHubFileChange) (token : option Secret) (expires_in : float) : OM PreparedChange :=
  let! plan := create_draft_plan (fc_repo c) (fc_issue_number c) token in
  let plan := set_entries [("status", VStr "ready"); ("work_branch", VStr (fc_work_branch c)); ("base_branch", VStr (fc_base_branch c))] plan in
  let! change := of_res (res_bind (dget_item "change" plan) dict_of) in
  let plan := dset "change" (VDict (fill_change c change)) plan in
  match validate_operator_plan plan true with
  | (_ :: _) as issues => raise (Exn ValueError (str_join "; " issues))
  | [] =>
      let! approval := build_approval_bundle plan expires_in in
      ret {| pc_plan := plan; pc_approval := approval |}
  end.
Definition approve_single_file_pr (p : PreparedChange) (approver secret value : string) (why : option string) : OM (dict pyval) :=
  build_signed_decision_bundle (pc_approval p) value approver secret why.
(** [Secret(token_value)] is a new object, [origin]. *)
Definition apply_single_file_pr (env : dict string) (p : PreparedChange) (decision : dict pyval) (origin : nat)
    (token_value secret work_dir : string) : OM OperatorResult :=
  apply_operator_plan env (pc_plan p) (pc_approval p) decision {| secret_id := origin; unwrap := token_value |} secret
    (work_dir +:+ "/audit.jsonl").

(** ** The doctor *)

(** The permission bits of a regular file, [None] when there is no such file. *)
Context (file_mode : string -> option Z) (c0 : C).
(** [_github_auth_mode] *)
Definition github_auth_mode (env : dict string) : string * list string :=
  let value n := env_get n env in
  let app := [APP_ID_ENV; INSTALLATION_ID_ENV; PRIVATE_KEY_PATH_ENV] in
  let missing := py_sorted (List.filter (fun n => String.eqb (value n) "") app) in
  let incomplete := match missing with
                    | [] => []
                    | _ => issue_if (length missing <? length app)%nat
                             ("incomplete GitHub App configuration; missing: " +:+ str_join ", " missing)
                    end in
  let configured := match missing with [] => true | _ => false end in
  let key := if configured
             then match file_mode (value PRIVATE_KEY_PATH_ENV) with
                  | None => ["GitHub App private key file does not exist"]
                  | Some m => issue_if (negb (Z.land m 63 =? 0)%Z) "GitHub App private key file must not be group/world accessible"
                  end
             else [] in
  (if negb (String.eqb (value PAT_ENV) "") then "pat" else if configured then "github_app" else "none", incomplete ++ key).
(** The tool's network metadata names the host. *)
Definition metadata_issue (r : ToolRegistry ENV) (n : string) : res exn (list string) :=
  res_map (fun t => issue_if (negb (network_access (spec t)) || negb (bool_decide (egress_host (spec t) = Some GITHUB_HOST)))
                      (n +:+ " has invalid network metadata")) (registry_get n r).
(** [production_github_doctor], over the attributes of its REST client. *)
Definition production_github_doctor (profile : string) (env : dict string) : res exn OperatorResult :=
  if negb (String.eqb profile PROFILE) then Ok (failed ("doctor supports only " +:+ PROFILE) [])
  else
    res_bind (from_profile profile None) (fun policy =>
    res_bind build_github_operator_registry (fun r =>
    res_bind (res_traverse (metadata_issue r) (names r)) (fun metadata =>
    let writes := bool_decide (dget "LEOS_ENABLE_REAL_GITHUB_WRITES" env = Some "1") in
    let (mode, auth) := github_auth_mode env in
    let attr k := dget_or k VNone (gc_attrs client c0) in
    let failures :=
      issue_if (negb (bool_decide (allowed_hosts <$> egress_policy policy = Some [GITHUB_HOST])))
        "egress host is not fixed to api.github.com" ++
      issue_if (negb (network_default_deny policy)) "network default deny is not enabled" ++
      issue_if (negb (require_signed_approval policy)) "signed approval is not required" ++
      issue_if writes "real GitHub writes are enabled in the current environment" ++
      List.concat metadata ++ auth in
    Ok {| or_ok := match failures with [] => true | _ => false end;
          or_message := match failures with [] => "production GitHub doctor passed" | _ => str_join "; " failures end;
          or_data := [("profile", VStr profile); ("runtime_egress_enforced", attr "runtime_egress_enforced");
                      ("runtime_egress_policy_configured", attr "runtime_egress_policy_configured");
                      ("runtime_egress_host", attr "runtime_egress_host");
                      ("signed_approval_required", VBool (require_signed_approval policy));
                      ("real_writes_enabled", VBool writes); ("tool_count", VInt (Z.of_nat (length (names r))));
                      ("github_auth_mode", VStr mode)] |}))).
End operator.

(** ** The private files of a command *)

(** [sort_keys=True] at every level. *)
Fixpoint sorted_doc (v : pyval) : pyval :=
  match v with
  | VList l => VList (map sorted_doc l)
  | VTuple l => VTuple (map sorted_doc l)
  | VDict d => VDict (sort_items (map (fun kv => (kv.1, sorted_doc kv.2)) d))
  | _ => v
  end.
(** The mode of the file is not part of the model. *)
Definition write_private_json `{PyRuntime} (p : path) (d : dict pyval) : FM unit :=
  of_res (assert_no_secrets (VDict d)) ;;;
  mkdir (parent p) ;;;
  write_text p (json_indent json_string_ascii 0 (sorted_doc (VDict d)) +:+ LF_str).
Definition load_json_object `{JsonText} (p : path) : FM (dict pyval) :=
  let! text := read_text p in
  match json_loads text with
  | inl msg => raise (Exn JSONDecodeError msg)
  | inr (VDict d) => ret d
  | inr _ => raise (Exn ValueError "JSON file must contain an object")
  end.
Definition decision_path_for (approval_path : path) : path :=
  let file := last_part approval_path in
  parent approval_path ++
  [if String.eqb (file_suffix file) ".json" then stem file +:+ ".decision.json" else file +:+ ".decision.json"].
Example decision_paths :
  map decision_path_for [["p"; "a.json"]; ["p"; "a.b.json"]; ["p"; ".json"]; ["p"; "bundle"]] =
  [["p"; "a.decision.json"]; ["p"; "a.b.decision.json"]; ["p"; ".json.decision.json"]; ["p"; "bundle.decision.json"]].
Proof. by vm_compute. Qed.
