(* ===== verification/ServerConfig.v ===== *)
(** Configuration of the HTTP service (server/config.py), its start (server/run.py) and what [create_app] checks before
    it builds the application (server/app.py). *)
From S2P Require Import Prelude Enums PyValue FileSystem PyText Goals Operator.

Record ServerConfig := {
  sc_host : string;
  sc_port : Z;
  sc_workers : Z;
  sc_data_dir : string;
  sc_inbox_dir : option string;
  sc_rate_limit_per_minute : Z;
  sc_max_body_bytes : Z;
}.
Definition DEFAULT_CONFIG_FILENAME : string := "leos-server.toml".
Definition CONFIG_PATH_ENV : string := "LEOS_SERVER_CONFIG".
Definition SECRET_TOML_KEYS : list string :=
  ["api_key"; "leos_server_api_key"; "approval_hmac_secret"; "leos_approval_hmac_secret"; "github_token"; "leos_github_token";
   "token"; "secret"; "hmac_secret"; "password"].
Definition ALLOWED_TOML_KEYS : list string :=
  ["host"; "port"; "workers"; "data_dir"; "inbox_dir"; "rate_limit_per_minute"; "max_body_bytes"].
Definition SECRET_ENV_VARS : list (string * string * bool) :=
  [("api_key", "LEOS_SERVER_API_KEY", true); ("approval_hmac_secret", "LEOS_APPROVAL_HMAC_SECRET", false);
   ("github_token", "LEOS_GITHUB_TOKEN", false)].
Definition SETTING_ENV_VARS : list (string * string) :=
  [("host", "LEOS_SERVER_HOST"); ("port", "LEOS_SERVER_PORT"); ("workers", "LEOS_SERVER_WORKERS");
   ("data_dir", "LEOS_SERVER_DATA_DIR"); ("inbox_dir", "LEOS_SERVER_INBOX_DIR");
   ("rate_limit_per_minute", "LEOS_SERVER_RATE_LIMIT_PER_MINUTE"); ("max_body_bytes", "LEOS_SERVER_MAX_BODY_BYTES")].

(** [str(Path(s))] and [Path(s).name]. *)
Definition path_text (s : string) : string :=
  let body := str_join "/" (path_parts s) in
  if is_abs s then (if String.prefix "//" s && negb (String.prefix "///" s) then "//" else "/") +:+ body
  else if String.eqb body "" then "." else body.
Definition path_name (s : string) : string := default "" (last (path_parts s)).

Definition config_error (msg : string) : exn := Exn ServerConfigurationError msg.
Definition env_value (n : string) (env : dict string) : string := default "" (dget n env).

(** ** Loading *)

Section config.
Context `{PyRuntime}.
(** The TOML parser: [None] when neither [tomllib] nor [tomli] can be imported, else what opening and parsing a file gives. *)
Context (toml_load : option (string -> res exn pyval)) (toml_exists : string -> bool).

Definition listed (keys : list string) (d : dict pyval) : list string := py_sorted (List.filter (fun k => str_mem k keys) (dkeys d)).
Definition unlisted (keys : list string) (d : dict pyval) : list string :=
  py_sorted (List.filter (fun k => negb (str_mem k keys)) (dkeys d)).
Definition lowered (d : dict pyval) : dict pyval := fold_left (fun acc kv => dset (py_lower kv.1) kv.2 acc) d [].
Definition checked_table (name : string) (document : pyval) : res exn (dict pyval) :=
  match document with
  | VDict d =>
      let values := lowered d in
      match listed SECRET_TOML_KEYS values with
      | (_ :: _) as keys =>
          Raise (config_error ("secret configuration (" +:+ str_join ", " keys +:+ ") must come from the environment " +:+
                               "or a credential vault, never the TOML file; refusing to start"))
      | [] =>
          match unlisted ALLOWED_TOML_KEYS values with
          | (_ :: _) as keys => Raise (config_error ("unknown configuration key(s) in " +:+ name +:+ ": " +:+ str_join ", " keys))
          | [] => Ok values
          end
      end
  | _ => Raise (config_error (name +:+ " must contain a TOML table"))
  end.
(** [_read_toml] *)
Definition read_toml (p : string) : res exn (dict pyval) :=
  match toml_load with
  | None => Raise (config_error ("reading leos-server.toml requires Python 3.11+ or the optional 'tomli' package " +:+
                                 "(installed with the 'server' extra)"))
  | Some load =>
      match load p with
      | Ok document => checked_table (path_name p) document
      | Raise e => if isinstance e OSError || isinstance e ValueError
                   then Raise (config_error ("could not read " +:+ path_name p +:+ ": " +:+ exn_name (exn_cls e))) else Raise e
      end
  end.
(** [_int_value] *)
Definition int_value (name : string) (value : pyval) : res exn Z :=
  match py_int value with
  | Ok z => Ok z
  | Raise e => if isinstance e TypeError || isinstance e ValueError then Raise (config_error (name +:+ " must be an integer")) else Raise e
  end.
(** [_validate] *)
Definition validate_config (values : dict pyval) : res exn ServerConfig :=
  let host := py_str (dget_or "host" (VStr "127.0.0.1") values) in
  if String.eqb (py_strip host) "" then Raise (config_error "host must not be empty")
  else
    res_bind (int_value "port" (dget_or "port" (VInt 8080) values)) (fun port =>
    if negb ((1 <=? port) && (port <=? 65535))%Z then Raise (config_error "port must be between 1 and 65535")
    else
      res_bind (int_value "workers" (dget_or "workers" (VInt 1) values)) (fun workers =>
      if (workers <? 1)%Z then Raise (config_error "workers must be at least 1")
      else
        let inbox := dget_or "inbox_dir" VNone values in
        res_bind (int_value "rate_limit_per_minute" (dget_or "rate_limit_per_minute" (VInt 60) values)) (fun rate_limit =>
        res_bind (int_value "max_body_bytes" (dget_or "max_body_bytes" (VInt 1000000) values)) (fun max_body =>
        if ((rate_limit <? 0) || (max_body <? 0))%Z
        then Raise (config_error "rate_limit_per_minute and max_body_bytes must not be negative")
        else Ok {| sc_host := host; sc_port := port; sc_workers := workers;
                   sc_data_dir := py_str (dget_or "data_dir" (VStr "leos-data") values);
                   sc_inbox_dir := if truthy inbox then Some (py_str inbox) else None;
                   sc_rate_limit_per_minute := rate_limit; sc_max_body_bytes := max_body |})))).

(** The environment, then the overrides, over the values of the file. *)
Definition with_env (env : dict string) (values : dict pyval) : dict pyval :=
  fold_left (fun d kn => let v := env_value kn.2 env in if String.eqb v "" then d else dset kn.1 (VStr v) d) SETTING_ENV_VARS values.
Definition with_overrides (overrides values : dict pyval) : dict pyval :=
  fold_left (fun d kv => if is_none kv.2 then d else dset kv.1 kv.2 d) overrides values.
(** [load_server_config]; [p] is the [path] argument. *)
Definition load_server_config (p : option string) (env : dict string) (overrides : dict pyval) : res exn ServerConfig :=
  let from_env := env_value CONFIG_PATH_ENV env in
  let explicit := match p with Some _ => p | None => if String.eqb from_env "" then None else Some from_env end in
  let file := default DEFAULT_CONFIG_FILENAME explicit in
  if match explicit with Some _ => negb (toml_exists file) | None => false end
  then Raise (config_error ("config file not found: " +:+ path_text file))
  else
    res_bind (if toml_exists file then read_toml file else Ok []) (fun values =>
    validate_config (with_overrides overrides (with_env env values))).

(** [summarize_config] *)
Definition secret_line (env : dict string) (x : string * string * bool) : string :=
  let '(label, name, required) := x in
  let state := if negb (String.eqb (env_value name env) "") then "set" else if required then "MISSING (required)" else "unset" in
  "  " +:+ label +:+ ": " +:+ state +:+ " (from " +:+ name +:+ ")".
Definition summarize_config (env : dict string) (c : ServerConfig) : string :=
  str_join LF_str (
    ["leos server configuration:"; "  host: " +:+ sc_host c; "  port: " +:+ str_Z (sc_port c); "  workers: " +:+ str_Z (sc_workers c);
     "  data_dir: " +:+ path_text (sc_data_dir c);
     "  inbox_dir: " +:+ match sc_inbox_dir c with Some d => path_text d | None => "(inbox disabled)" end] ++
    map (secret_line env) SECRET_ENV_VARS).

(** ** The start of the service *)

Definition MIN_API_KEY_LENGTH : Z := 32.
(** [len(s)], in code points. *)
Fixpoint py_len (s : string) : Z :=
  match s with EmptyString => 0 | String c s' => (if cont c then 0 else 1) + py_len s' end%Z.
(** [_parse_api_keys] *)
Definition parse_api_keys (raw : string) : res exn (list string) :=
  match List.filter (fun k => negb (String.eqb k "")) (map py_strip (split_on "," raw)) with
  | [] => Raise (config_error "an API key is required (api_key= or LEOS_SERVER_API_KEY); refusing to start")
  | keys =>
      let weak := length (List.filter (fun k => (py_len k <? MIN_API_KEY_LENGTH)%Z) keys) in
      if (weak =? 0)%nat then Ok keys
      else Raise (config_error (str_Z (Z.of_nat weak) +:+ " API key(s) are shorter than " +:+ str_Z MIN_API_KEY_LENGTH +:+
                                " characters; refusing to start with weak keys"))
  end.
(** What [create_app] is given and finds in the environment. *)
Record App := { app_keys : list string; app_data_dir : string; app_inbox : option string; app_rate : Z; app_max_body : Z }.
(** The beginning of [create_app]; [fastapi] tells whether the package is there. *)
Definition create_app (fastapi : bool) (env : dict string) (api_key : option string) (data_dir : string) (inbox_dir : option string)
    (rate max_body : Z) : res exn App :=
  if negb fastapi then Raise (Exn ServerUnavailable "the service layer requires the optional 'fastapi' package")
  else
    let given := default "" api_key in
    let raw := if String.eqb given "" then env_value "LEOS_SERVER_API_KEY" env else given in
    if String.eqb raw "" then Raise (config_error "an API key is required (api_key= or LEOS_SERVER_API_KEY); refusing to start")
    else res_map (fun keys => {| app_keys := keys; app_data_dir := data_dir; app_inbox := inbox_dir; app_rate := rate; app_max_body := max_body |})
           (parse_api_keys raw).
(** [_app_from_config], [build_app], [check_config] *)
Definition app_from_config (fastapi : bool) (env : dict string) (c : ServerConfig) : res exn App :=
  create_app fastapi env None (sc_data_dir c) (sc_inbox_dir c) (sc_rate_limit_per_minute c) (sc_max_body_bytes c).
Definition build_app (fastapi : bool) (env : dict string) : res exn App :=
  res_bind (load_server_config None env []) (app_from_config fastapi env).
Definition check_config (fastapi : bool) (env : dict string) (c : ServerConfig) : res exn (list string) :=
  res_map (fun _ => [summarize_config env c; "configuration ok"]) (app_from_config fastapi env c).
(** [run_server] up to [uvicorn.run]: the environment the worker processes start with. *)
Definition worker_env (c : ServerConfig) (env : dict string) : dict string :=
  let env := dset "LEOS_SERVER_DATA_DIR" (path_text (sc_data_dir c)) env in
  let env := dset "LEOS_SERVER_RATE_LIMIT_PER_MINUTE" (str_Z (sc_rate_limit_per_minute c)) env in
  let env := dset "LEOS_SERVER_MAX_BODY_BYTES" (str_Z (sc_max_body_bytes c)) env in
  match sc_inbox_dir c with Some d => dset "LEOS_SERVER_INBOX_DIR" (path_text d) env | None => env end.
Definition run_server (uvicorn fastapi : bool) (env : dict string) (c : ServerConfig) : res exn (dict string) :=
  if negb uvicorn
  then Raise (Exn ServerUnavailable "leos serve requires the optional 'server' extra: pip install 'leos-agent[server]'")
  else res_map (fun _ => worker_env c env) (app_from_config fastapi env c).
End config.
