(* ===== verification/Server.v ===== *)
(** The HTTP service over the operator flow (server/app.py): the token bucket, the guards of a request and every endpoint.

    A request reaches the definitions as FastAPI hands it over: the route with its path parameter and the parsed body, and the
    two headers the code reads.  [serve] is a total function: an [HTTPException] is its response, any other
    exception the response 500, and the state reached is kept. *)
From S2P Require Import Prelude Enums PyValue FileSystem PyText Sanitization Goals Plans Serialization Tools AuditTrail Egress Policy PolicyConfig Approval Gates Traces Credentials GitHubClient GitHubRest GitHubTools RuntimeStores Transactions Operator ServerConfig.

(** ** The files of the approval exchange (approval_exchange.py) *)

Section exchange.
Context `{PyRuntime} {St : Type} `{HasSys St}.
(** [read_approval_packet] *)
Definition read_approval_packet (f : decision_file) : M St exn ApprovalPacket :=
  let! data := of_res (read_json f) in
  let! now := time_time in
  of_res (packet_from_mapping now data).
(** [build_decision_for_packet] *)
Definition build_decision_for_packet (p : ApprovalPacket) (value : string) (approver why : option string) : M St exn ApprovalDecision :=
  let! v := of_res (enum_of (A:=ApprovalDecisionValue) value) in
  let! now := time_time in
  ret {| ad_approval_id := ap_approval_id p; ad_step_hash := ap_step_hash p; ad_decision := v; ad_decided_at := now;
         ad_approver := approver; ad_reason := why |}.
(** The file [write_approval_decision] leaves. *)
Definition decision_document (d : ApprovalDecision) (signature : option string) : dict pyval :=
  match signature with Some s => dset "signature" (VStr s) (decision_as_dict d) | None => decision_as_dict d end.
Definition written_decision (d : ApprovalDecision) (signature : option string) : decision_file :=
  {| df_mode := Some 384%Z; df_json := Ok (redact_secrets (VDict (decision_document d signature))) |}.
End exchange.

(** ** The token bucket *)

(** [time.monotonic()] and [time.time_ns()], by the number of earlier calls. *)
Class ServerClock := { monotonic : nat -> float; time_ns : nat -> Z }.

Record TokenBucket := { tb_capacity : float; tb_refill_per_second : float; tb_tokens : float; tb_updated : float }.
(** [_TokenBucket(capacity, refill_per_second)] made at time [now]. *)
Definition new_bucket (capacity refill now : float) : TokenBucket :=
  {| tb_capacity := capacity; tb_refill_per_second := refill; tb_tokens := capacity; tb_updated := now |}.
(** [min(a, b)] *)
Definition py_min (a b : float) : float := if fltb b a then b else a.
(** [allow], at time [now]. *)
Definition bucket_allow (now : float) (b : TokenBucket) : bool * TokenBucket :=
  let tokens := py_min (tb_capacity b) (fadd (tb_tokens b) (fmul (fsub now (tb_updated b)) (tb_refill_per_second b))) in
  let with_tokens t := {| tb_capacity := tb_capacity b; tb_refill_per_second := tb_refill_per_second b; tb_tokens := t; tb_updated := now |} in
  if fleb fone tokens then (true, with_tokens (fsub tokens fone)) else (false, with_tokens tokens).
(** The bucket of [create_app]. *)
Definition write_bucket (a : App) (now : float) : option TokenBucket :=
  if (0 <? app_rate a)%Z then Some (new_bucket (f_of_Z (app_rate a)) (SFdiv fprec femax (f_of_Z (app_rate a)) (f_of_Z 60)) now) else None.

(** ** Requests and responses *)

Inductive Endpoint : Type :=
| Healthz | Readyz
| PostPlans (body : dict pyval) | PostPlansValidate (body : dict pyval)
| PostApprovals (body : dict pyval) | PostApprovalsDecide (body : dict pyval) | PostApply (body : dict pyval)
| GetAudit (plan_id : string) | GetTrace (plan_id : string)
| GetInbox | GetInboxPacket (approval_id : string) | PostInboxDecide (approval_id : string) (body : dict pyval).
Record Request := { rq_api_key : option string; rq_content_length : option string; rq_endpoint : Endpoint }.
Inductive Response : Type :=
| JSONResponse (status : Z) (content : pyval)
| HTMLResponse (page : string)
| InternalServerError.
Definition resp_ok (content : dict pyval) : Response := JSONResponse 200 (VDict content).
Definition detail (status : Z) (text : string) : Response := JSONResponse status (VDict [("detail", VStr text)]).

(** The exceptions of a handler. *)
Inductive fault : Type := HTTPException (status : Z) (text : string) | Fault (e : exn).

(** [inbox_dir]: the files of its two directories. *)
Record InboxFiles := { ib_packets : dict decision_file; ib_decisions : dict decision_file }.
(** The state between requests: the operator's (client, receipts, clocks), the credentials, the bucket, how often the clocks
    of this file were read, the audit files below [data_dir/audits] by directory and name, the inbox. *)
Record Server (C T : Type) := {
  sv_op : OpState C;
  sv_auth : AuthState (C:=T);
  sv_bucket : option TokenBucket;
  sv_ticks : nat;
  sv_audits : dict (dict (list line));
  sv_inbox : InboxFiles;
}.
Arguments sv_op {C T} _.
Arguments sv_auth {C T} _.
Arguments sv_bucket {C T} _.
Arguments sv_ticks {C T} _.
Arguments sv_audits {C T} _.
Arguments sv_inbox {C T} _.

Definition set_op {C T} (o : OpState C) (s : Server C T) : Server C T := {|
  sv_op := o; sv_auth := sv_auth s; sv_bucket := sv_bucket s; sv_ticks := sv_ticks s; sv_audits := sv_audits s; sv_inbox := sv_inbox s |}.
Definition set_auth {C T} (a : AuthState) (s : Server C T) : Server C T := {|
  sv_op := sv_op s; sv_auth := a; sv_bucket := sv_bucket s; sv_ticks := sv_ticks s; sv_audits := sv_audits s; sv_inbox := sv_inbox s |}.
Definition set_bucket {C T} (b : option TokenBucket) (s : Server C T) : Server C T := {|
  sv_op := sv_op s; sv_auth := sv_auth s; sv_bucket := b; sv_ticks := S (sv_ticks s); sv_audits := sv_audits s; sv_inbox := sv_inbox s |}.
Definition tick {C T} (s : Server C T) : Server C T := {|
  sv_op := sv_op s; sv_auth := sv_auth s; sv_bucket := sv_bucket s; sv_ticks := S (sv_ticks s); sv_audits := sv_audits s; sv_inbox := sv_inbox s |}.
Definition set_audits {C T} (a : dict (dict (list line))) (s : Server C T) : Server C T := {|
  sv_op := sv_op s; sv_auth := sv_auth s; sv_bucket := sv_bucket s; sv_ticks := sv_ticks s; sv_audits := a; sv_inbox := sv_inbox s |}.
Definition set_inbox {C T} (i : InboxFiles) (s : Server C T) : Server C T := {|
  sv_op := sv_op s; sv_auth := sv_auth s; sv_bucket := sv_bucket s; sv_ticks := sv_ticks s; sv_audits := sv_audits s; sv_inbox := i |}.
Definition set_log {C} (l : AuditLog) (o : OpState C) : OpState C := {|
  os_sys := {| sys_log := l; n_time := n_time (os_sys o); n_uuid := n_uuid (os_sys o) |}; os_env := os_env o; os_receipts := os_receipts o |}.

(** ** Names *)

Definition id_name_char (c : ascii) : bool := is_alnum c || Ascii.eqb c "." || Ascii.eqb c "_" || Ascii.eqb c "-".
Definition id_name (s : string) : bool := negb (String.eqb s "") && forallb id_name_char (list_ascii_of_string s).
(** [_SAFE_ID.match(s)]: [$] also matches before a line break at the end. *)
Definition safe_id (s : string) : bool := id_name s || (ends_with LF_str s && id_name (String.substring 0 (String.length s - 1) s)).
(** [audits_dir / plan_id]: the directory itself for ".", its parent for "..". *)
Definition audit_dir (plan_id : string) : string := if String.eqb plan_id "." then "" else plan_id.
Definition audit_file_name (name : string) : bool :=
  String.prefix "apply-" name && ends_with ".jsonl" name && (12 <=? String.length name)%nat.

(** ** The application *)

Section app.
Context `{PyRuntime} `{JsonText} `{JsonSchemaValidator} `{ToolPlatform} `{AppPlatform} `{ServerClock}.
Context {C T : Type} `{GitHubTransport T} (client : GitHubClient C) (a : App).
Abbreviation SM A := (M (Server C T) fault A).
(** The process environment at the time of the request. *)
Context (env : dict string).

Definition fault_of {A} (r : res exn A) : res fault A := match r with Ok x => Ok x | Raise e => Raise (Fault e) end.
Definition pure {A} (r : res exn A) : SM A := of_res (fault_of r).
Definition http {A} (status : Z) (text : string) : SM A := raise (HTTPException status text).
(** An operation of the operator or of the credentials. *)
Definition op {A} (m : M (OpState C) exn A) : SM A := fun s => let '(r, o) := m (sv_op s) in (fault_of r, set_op o s).
Definition auth {A} (m : M (AuthState (C:=T)) exn A) : SM A := fun s => let '(r, x) := m (sv_auth s) in (fault_of r, set_auth x s).
(** [AuditLog()] and the command that writes to it. *)
Definition unlogged {A} (m : M (OpState C) exn A) : SM A := fun s => op m (set_op (set_log new_log (sv_op s)) s).
(** [except <classes> as exc: raise HTTPException(...)] *)
Definition failing {A} (m : SM A) (caught : exn -> bool) (status : Z) (text : exn -> string) : SM A :=
  catch m (fun f => match f with Fault e => if caught e then http status (text e) else raise f | f => raise f end).
Definition leos_or_value (e : exn) : bool := isinstance e LeosError || isinstance e ValueError.

(** *** The guards *)

Fixpoint match_keys (provided : string) (keys : list string) (matched : bool) : res exn bool :=
  match keys with
  | [] => Ok matched
  | k :: keys' => res_bind (compare_digest provided (VStr k)) (fun same => match_keys provided keys' (matched || same))
  end.
Definition require_api_key (provided : option string) : SM unit :=
  let! matched := pure (match_keys (default "" provided) (app_keys a) false) in
  if (matched : bool) then ret tt else http 401 "invalid or missing API key".
Definition require_write_budget : SM unit := fun s =>
  match sv_bucket s with
  | None => (Ok tt, s)
  | Some b =>
      let (allowed, b') := bucket_allow (monotonic (sv_ticks s)) b in
      ((if allowed then ret tt else http 429 "write rate limit exceeded; retry later") (set_bucket (Some b') s))
  end.
Definition authed (e : Endpoint) : bool := match e with Healthz | Readyz => false | _ => true end.
Definition write_guarded (e : Endpoint) : bool :=
  match e with PostApprovals _ | PostApprovalsDecide _ | PostApply _ | PostInboxDecide _ _ => true | _ => false end.
Definition when (b : bool) (m : SM unit) : SM unit := if b then m else ret tt.

(** *** The endpoints *)

Definition readyz : SM Response :=
  match from_profile PROFILE None with
  | Raise e => http 503 ("policy profile unavailable: " +:+ exn_name (exn_cls e))
  | Ok _ => ret (resp_ok [("status", VStr "ready"); ("profile", VStr PROFILE);
                          ("writes_enabled", VBool (bool_decide (dget "LEOS_ENABLE_REAL_GITHUB_WRITES" env = Some "1")))])
  end.
Definition int_entry (k : string) (d : dict pyval) : option Z :=
  match dget k d with Some (VInt n) => Some n | Some (VBool b) => Some (if b then 1 else 0)%Z | _ => None end.
Definition post_plans (body : dict pyval) : SM Response :=
  match String.eqb (str_entry "repo" body) "", int_entry "issue_number" body with
  | false, Some n =>
      let! plan := failing (unlogged (create_draft_plan client (str_entry "repo" body) n None)) leos_or_value 502
                     (fun e => "draft plan failed: " +:+ exn_str e) in
      ret (resp_ok plan)
  | _, _ => http 400 "repo and issue_number are required"
  end.
(** [body.get(k)] when it is an object. *)
Definition object_entry (k : string) (body : dict pyval) : option (dict pyval) :=
  match dget k body with Some (VDict d) => Some d | _ => None end.
Definition post_plans_validate (body : dict pyval) : SM Response :=
  match object_entry "plan" body with
  | None => http 400 "plan object is required"
  | Some plan =>
      let issues := validate_operator_plan plan true in
      ret (resp_ok [("ready", VBool (match issues with [] => true | _ => false end)); ("issues", str_list issues)])
  end.
Definition post_approvals (body : dict pyval) : SM Response :=
  match object_entry "plan" body with
  | None => http 400 "plan object is required"
  | Some plan =>
      let! expires := pure (py_float (dget_or "expires_in_seconds" (VFloat (f_of_Z 900)) body)) in
      let! bundle := failing (unlogged (build_approval_bundle client plan expires)) leos_or_value 400
                       (fun e => "approval bundle failed: " +:+ exn_str e) in
      ret (resp_ok bundle)
  end.
Definition hmac_secret : SM string :=
  let secret := env_value "LEOS_APPROVAL_HMAC_SECRET" env in
  if String.eqb secret "" then http 403 "LEOS_APPROVAL_HMAC_SECRET is required" else ret secret.
Definition post_approvals_decide (body : dict pyval) : SM Response :=
  match object_entry "approval" body with
  | None => http 400 "approval bundle is required"
  | Some approval =>
      let! secret := hmac_secret in
      let! bundle := failing (unlogged (build_signed_decision_bundle approval (py_str (dget_or "decision" (VStr "deny") body))
                                          (str_entry "approver" body) secret (opt_str "reason" body)))
                       leos_or_value 400 (fun e => "decision bundle failed: " +:+ exn_str e) in
      ret (resp_ok bundle)
  end.

(** [_safe_plan_id] *)
Definition safe_plan_id (plan_id : string) : SM string := if safe_id plan_id then ret plan_id else http 400 "invalid plan id".
Definition now_ns : SM Z := fun s => (Ok (time_ns (sv_ticks s)), tick s).
(** A command with its own audit file, which is there as soon as a record was written. *)
Definition audited {A} (dir file : string) (m : M (OpState C) exn A) : SM A := fun s =>
  let '(r, o) := m (set_log (open_log []) (sv_op s)) in
  let old := default [] (dget dir (sv_audits s)) in
  let written := map (fun d => LDoc (VDict d)) (default [] (al_file (sys_log (os_sys o)))) in
  let audits := match written with
                | [] => sv_audits s
                | _ => dset dir (dset file (default [] (dget file old) ++ written) old) (sv_audits s)
                end in
  (fault_of r, set_audits audits (set_op o s)).
(** [resolve_github_credential] makes a new [Secret] or gives the one it cached. *)
Definition credential : SM (option Secret) :=
  let! token := auth (resolve_github_credential false env) in
  ret ((fun t => {| secret_id := 1; unwrap := t |}) <$> token).
Definition post_apply (body : dict pyval) : SM Response :=
  match object_entry "plan" body, object_entry "approval" body, object_entry "decision" body with
  | Some plan, Some approval, Some decision =>
      let! plan_id := safe_plan_id (str_entry "plan_id" plan) in
      let! token := failing credential (fun e => isinstance e LeosError) 403
                      (fun e => "GitHub App credential error: " +:+ exn_name (exn_cls e)) in
      match token with
      | None => http 403 "LEOS_GITHUB_TOKEN or a GitHub App configuration is required"
      | Some token =>
          let! secret := hmac_secret in
          let! ns := now_ns in
          let file := "apply-" +:+ str_Z ns +:+ ".jsonl" in
          let path := path_text (app_data_dir a +:+ "/audits/" +:+ plan_id +:+ "/" +:+ file) in
          let! result := audited (audit_dir plan_id) file (apply_operator_plan client env plan approval decision token secret path) in
          if or_ok result
          then ret (resp_ok [("ok", VBool true); ("message", VStr (or_message result)); ("data", VDict (ddel "audit_path" (or_data result)))])
          else http 403 (or_message result)
      end
  | _, _, _ => http 400 "plan, approval, and decision objects are required"
  end.

(** [_load_audit_records]: [splitlines] also splits inside a record, which is then no JSON. *)
Definition load_line (l : line) : res exn pyval :=
  match l with
  | LDoc v => if splits_doc v then Raise (Exn JSONDecodeError "Unterminated string") else Ok v
  | LJunk => Raise (Exn JSONDecodeError "Expecting value")
  end.
Definition audit_files (plan_id : string) (audits : dict (dict (list line))) : dict (list line) :=
  sort_items (List.filter (fun kv => audit_file_name kv.1) (default [] (dget (audit_dir plan_id) audits))).
Definition load_audit_records (plan_id : string) : SM (list pyval) :=
  let! files := gets (fun s => audit_files plan_id (sv_audits s)) in
  match files with
  | [] => http 404 "no audit records for this plan"
  | _ => pure (res_traverse load_line (concat (dvals files)))
  end.
Definition get_audit (plan_id : string) : SM Response :=
  let! plan_id := safe_plan_id plan_id in
  let! records := load_audit_records plan_id in
  ret (resp_ok [("events", VList records)]).
Definition get_trace (plan_id : string) : SM Response :=
  let! safe := safe_plan_id plan_id in
  let! records := load_audit_records safe in
  ret (HTMLResponse (render_trace_html records ("Leos Trace " +:+ plan_id))).

(** *** The inbox *)

Definition read_packet (approval_id : string) : SM ApprovalPacket :=
  if safe_id approval_id
  then
    let! packets := gets (fun s => ib_packets (sv_inbox s)) in
    match dget (approval_id +:+ ".json") packets with
    | None => http 404 "unknown approval packet"
    | Some f => op (read_approval_packet f)
    end
  else http 400 "invalid approval id".
Definition pending_entry (p : ApprovalPacket) : pyval := VDict
  [("approval_id", VStr (ap_approval_id p)); ("plan_id", VStr (ap_plan_id p)); ("tool_name", VStr (ap_tool_name p));
   ("risk_level", VStr (ap_risk_level p)); ("action_summary", VStr (ap_action_summary p));
   ("expires_at", opt_float_val (ap_expires_at p)); ("profile", VStr (ap_profile p))].
Definition undecided (i : InboxFiles) : dict decision_file :=
  sort_items (List.filter (fun kv => ends_with ".json" kv.1 && negb (dmem kv.1 (ib_decisions i))) (ib_packets i)).
Fixpoint pending (files : dict decision_file) : SM (list pyval) :=
  match files with
  | [] => ret []
  | kv :: files' =>
      let! p := op (read_approval_packet kv.2) in
      let! rest := pending files' in
      ret (pending_entry p :: rest)
  end.
Definition get_inbox : SM Response :=
  let! files := gets (fun s => undecided (sv_inbox s)) in
  let! entries := pending files in
  ret (resp_ok [("pending", VList entries)]).
Definition get_inbox_packet (approval_id : string) : SM Response :=
  let! p := read_packet approval_id in
  ret (HTMLResponse (render_approval_packet_html p)).
Definition str_or_none (s : string) : option string := if String.eqb s "" then None else Some s.
Definition record_decision (name : string) (f : decision_file) (i : InboxFiles) : InboxFiles :=
  {| ib_packets := ib_packets i; ib_decisions := dset name f (ib_decisions i) |}.
Definition post_inbox_decide (approval_id : string) (body : dict pyval) : SM Response :=
  let! p := read_packet approval_id in
  let! secret := hmac_secret in
  let name := approval_id +:+ ".json" in
  let! decided := gets (fun s => dmem name (ib_decisions (sv_inbox s))) in
  if (decided : bool) then http 409 "a decision was already recorded for this packet"
  else
    let! d := failing (op (build_decision_for_packet p (str_entry "decision" body) (str_or_none (str_entry "approver" body))
                             (opt_str "reason" body)))
                (fun e => isinstance e ValueError) 400 (fun e => "invalid decision: " +:+ exn_str e) in
    modify (fun s => set_inbox (record_decision name (written_decision d (Some (sign_approval_decision d secret))) (sv_inbox s)) s) ;;;
    ret (resp_ok [("approval_id", VStr (ap_approval_id p)); ("decision", VStr (ApprovalDecisionValue_value (ad_decision d)));
                  ("signature_algorithm", VStr "hmac-sha256")]).

(** *** A request *)

Definition inbox_endpoint (e : Endpoint) : bool := match e with GetInbox | GetInboxPacket _ | PostInboxDecide _ _ => true | _ => false end.
Definition endpoint (e : Endpoint) : SM Response :=
  match e with
  | Healthz => ret (resp_ok [("status", VStr "ok")])
  | Readyz => readyz
  | PostPlans body => post_plans body
  | PostPlansValidate body => post_plans_validate body
  | PostApprovals body => post_approvals body
  | PostApprovalsDecide body => post_approvals_decide body
  | PostApply body => post_apply body
  | GetAudit plan_id => get_audit plan_id
  | GetTrace plan_id => get_trace plan_id
  | GetInbox => get_inbox
  | GetInboxPacket i => get_inbox_packet i
  | PostInboxDecide i body => post_inbox_decide i body
  end.
Definition handle (rq : Request) : SM Response :=
  let e := rq_endpoint rq in
  if inbox_endpoint e && match app_inbox a with Some _ => false | None => true end then http 404 "Not Found"
  else
    when (authed e) (require_api_key (rq_api_key rq)) ;;;
    when (write_guarded e) require_write_budget ;;;
    endpoint e.
(** The middleware [limit_body_size]; an HTTP server passes no Content-Length with other digits than the ASCII ones. *)
Definition too_large (length_header : option string) : bool :=
  match length_header with
  | Some s => negb (String.eqb s "") && forallb is_digit (list_ascii_of_string s) &&
              match int_of_str s with Some n => (app_max_body a <? n)%Z | None => false end
  | None => false
  end.
Definition serve (rq : Request) : Server C T -> Response * Server C T := fun s =>
  if (0 <? app_max_body a)%Z && too_large (rq_content_length rq) then (detail 413 "request body too large", s)
  else match handle rq s with
       | (Ok r, s') => (r, s')
       | (Raise (HTTPException status text), s') => (detail status text, s')
       | (Raise (Fault _), s') => (InternalServerError, s')
       end.
End app.
