(* ===== verification/TaskQueue.v ===== *)
(** The task queue with its SQLite mirror, the watchdog and the task runner
    (task_queue.py).

    A RuntimeTask object is identified with its id: [_tasks] never rebinds an
    id, as long as uuid4 does not repeat.  Plans are objects on a heap, because
    the task, its enqueuer and the kernel share them.  The database is owned by
    this process; it holds documents where the columns hold JSON text, and NULL
    where a timestamp is NaN, as SQLite stores it. *)
From S2P Require Import Prelude Enums PyValue Goals Plans Serialization TaskSpec AuditTrail.

Record RuntimeTask := {
  rt_plan : nat;
  task_id : string;
  rt_status : TaskStatus;
  retry_policy : RetryPolicy;
  timeout_policy : TimeoutPolicy;
  rt_key : option string;
  attempts : Z;
  locked_by : option string;
  enqueued_at : float;
  started_at : option float;
  last_heartbeat_at : option float;
  finished_at : option float;
  failure_reason : option string;
}.
(** Assignment of the fields that change. *)
Definition set_life (st : TaskStatus) (lock : option string) (n : Z) (start beat fin : option float)
    (why : option string) (t : RuntimeTask) : RuntimeTask := {|
  rt_plan := rt_plan t; task_id := task_id t; rt_status := st; retry_policy := retry_policy t;
  timeout_policy := timeout_policy t; rt_key := rt_key t; attempts := n; locked_by := lock;
  enqueued_at := enqueued_at t; started_at := start; last_heartbeat_at := beat; finished_at := fin;
  failure_reason := why |}.
(** [RuntimeTask.active] *)
Definition task_active (t : RuntimeTask) : bool :=
  bool_decide (rt_status t ∈ [T_QUEUED; T_RUNNING; T_PAUSED]).

Record TaskRow := {
  row_id : string;
  row_plan : pyval;
  row_status : string;
  row_retry : pyval;
  row_timeout : pyval;
  row_key : option string;
  row_attempts : Z;
  row_locked : option string;
  row_enqueued : option float;
  row_started : option float;
  row_heartbeat : option float;
  row_finished : option float;
  row_failure : option string;
}.
Record TaskDb := { db_tasks : list TaskRow; db_idempotency : list (string * string) }.
Definition sql_real (f : float) : option float := match f with S754_nan => None | _ => Some f end.
Definition sql_opt (o : option float) : option float := o ≫= sql_real.

Record TaskQueue := {
  q_tasks : gmap string RuntimeTask;
  q_order : list string;
  q_index : gmap string string;
  q_db : option TaskDb;
}.
(** The queue, the plans, the audit log with the platform's counters, and what
    else the kernel acts on. *)
Record QState (X : Type) := { qs_queue : TaskQueue; qs_plans : list PlanObj; qs_sys : Sys; qs_env : X }.
Arguments qs_queue {X} _.
Arguments qs_plans {X} _.
Arguments qs_sys {X} _.
Arguments qs_env {X} _.

(** What the kernel acts on: the plans, the clock and the log, its environment. *)
Record KState (X : Type) := { k_plans : list PlanObj; k_sys : Sys; k_env : X }.
Arguments k_plans {X} _.
Arguments k_sys {X} _.
Arguments k_env {X} _.

Section state.
Context {X : Type}.
Definition with_queue (q : TaskQueue) (s : QState X) : QState X :=
  {| qs_queue := q; qs_plans := qs_plans s; qs_sys := qs_sys s; qs_env := qs_env s |}.
Definition with_qsys (x : Sys) (s : QState X) : QState X :=
  {| qs_queue := qs_queue s; qs_plans := qs_plans s; qs_sys := x; qs_env := qs_env s |}.
#[export] Program Instance QState_HasSys : HasSys (QState X) := {| sys_of := qs_sys; upd_sys := with_qsys |}.
Next Obligation. done. Qed.
End state.

Definition put_task (t : RuntimeTask) (q : TaskQueue) : TaskQueue :=
  {| q_tasks := <[task_id t := t]> (q_tasks q); q_order := q_order q; q_index := q_index q; q_db := q_db q |}.
Definition put_db (db : TaskDb) (q : TaskQueue) : TaskQueue :=
  {| q_tasks := q_tasks q; q_order := q_order q; q_index := q_index q; q_db := Some db |}.

Section queue.
Context `{PyRuntime} {X : Type}.
Notation Q := (M (QState X) exn).

Definition now_or (now : option float) : Q float := match now with Some t => ret t | None => time_time end.

(** ** Persistence *)

(** [UPDATE tasks SET ... WHERE task_id=?] *)
Definition update_row (t : RuntimeTask) (r : TaskRow) : TaskRow :=
  if String.eqb (row_id r) (task_id t) then {|
    row_id := row_id r; row_plan := row_plan r; row_status := TaskStatus_value (rt_status t);
    row_retry := row_retry r; row_timeout := row_timeout r; row_key := row_key r;
    row_attempts := attempts t; row_locked := locked_by t; row_enqueued := row_enqueued r;
    row_started := sql_opt (started_at t); row_heartbeat := sql_opt (last_heartbeat_at t);
    row_finished := sql_opt (finished_at t); row_failure := failure_reason t |}
  else r.
Definition persist_update (t : RuntimeTask) : Q unit :=
  let! q := gets qs_queue in
  match q_db q with
  | None => ret tt
  | Some db => modify (with_queue (put_db {| db_tasks := map (update_row t) (db_tasks db);
                                             db_idempotency := db_idempotency db |} q))
  end.
Definition new_row (t : RuntimeTask) (doc : pyval) : TaskRow := {|
  row_id := task_id t; row_plan := doc; row_status := TaskStatus_value (rt_status t);
  row_retry := serialize_retry_policy (retry_policy t); row_timeout := serialize_timeout_policy (timeout_policy t);
  row_key := rt_key t; row_attempts := attempts t; row_locked := locked_by t;
  row_enqueued := sql_real (enqueued_at t); row_started := sql_opt (started_at t);
  row_heartbeat := sql_opt (last_heartbeat_at t); row_finished := sql_opt (finished_at t);
  row_failure := failure_reason t |}.
Definition integrity_error (column : string) : exn :=
  Exn (ForeignError "IntegrityError") ("UNIQUE constraint failed: " +:+ column).
Definition get_plan (i : nat) : Q PlanObj :=
  let! ps := gets qs_plans in
  match ps !! i with Some p => ret p | None => raise (Exn (ForeignError "dangling plan reference") "") end.
(** [_persist_enqueue]: the plan is serialized before the first statement runs. *)
Definition persist_enqueue (t : RuntimeTask) : Q unit :=
  let! q := gets qs_queue in
  match q_db q with
  | None => ret tt
  | Some db =>
      let! p := get_plan (rt_plan t) in
      let! doc := of_res (serialize_plan p) in
      if bool_decide (task_id t ∈ map row_id (db_tasks db)) then raise (integrity_error "tasks.task_id")
      else
        let db1 := {| db_tasks := db_tasks db ++ [new_row t doc]; db_idempotency := db_idempotency db |} in
        modify (with_queue (put_db db1 q)) ;;;
        match rt_key t with
        | Some key =>
            if String.eqb key "" then ret tt
            else if bool_decide (key ∈ map fst (db_idempotency db))
            then raise (integrity_error "idempotency.idempotency_key")
            else modify (with_queue (put_db {| db_tasks := db_tasks db1;
                                               db_idempotency := db_idempotency db ++ [(key, task_id t)] |} q))
        | None => ret tt
        end
  end.

(** ** Operations *)

Definition opt_str_field (o : option string) : pyval := opt_str_val o.
Definition require_task (id : string) : Q RuntimeTask :=
  let! q := gets qs_queue in
  match q_tasks q !! id with
  | Some t => ret t
  | None => raise (Exn KeyError ("Unknown task: " +:+ id))
  end.
Definition require_lock (t : RuntimeTask) (worker : string) : Q unit :=
  if bool_decide (rt_status t = T_RUNNING) && bool_decide (locked_by t = Some worker) then ret tt
  else raise (Exn PermissionError "Task is not locked by this worker").
(** Mutating the task object. *)
Definition assign (t : RuntimeTask) : Q unit := modify (fun s => with_queue (put_task t (qs_queue s)) s).
Definition plan_id_of (t : RuntimeTask) : Q string := let! p := get_plan (rt_plan t) in ret (po_plan_id p).

(** A truthy idempotency key. *)
Definition real_key (o : option string) : option string :=
  match o with Some k => if String.eqb k "" then None else Some k | None => None end.

Definition enqueue_new (plan : nat) (key : option string) (rp : option RetryPolicy) (tp : option TimeoutPolicy) :
    Q RuntimeTask :=
  let! id := uuid4 in
  let! now := time_time in
  let t := {| rt_plan := plan; task_id := id; rt_status := T_QUEUED; retry_policy := default default_retry_policy rp;
              timeout_policy := default default_timeout_policy tp; rt_key := key; attempts := 0; locked_by := None;
              enqueued_at := now; started_at := None; last_heartbeat_at := None; finished_at := None;
              failure_reason := None |} in
  modify (fun s => let q := qs_queue s in with_queue {|
    q_tasks := <[id := t]> (q_tasks q); q_order := q_order q ++ [id];
    q_index := match real_key key with Some k => <[k := id]> (q_index q) | None => q_index q end;
    q_db := q_db q |} s) ;;;
  let! pid := plan_id_of t in
  audit "task.enqueued" "Task enqueued"
    [("task_id", VStr id); ("plan_id", VStr pid); ("idempotency_key", opt_str_field key)] ;;;
  persist_enqueue t ;;;
  ret t.
Definition enqueue (plan : nat) (key : option string) (rp : option RetryPolicy) (tp : option TimeoutPolicy) :
    Q RuntimeTask :=
  let! q := gets qs_queue in
  match real_key key ≫= fun k => (pair k) <$> q_index q !! k with
  | Some (k, id) =>
      match q_tasks q !! id with
      | None => raise (Exn KeyError id)
      | Some existing =>
          let! pid := plan_id_of existing in
          audit "task.deduplicated" "Task idempotency key already exists"
            [("task_id", VStr (task_id existing)); ("plan_id", VStr pid); ("idempotency_key", VStr k);
             ("status", VStr (TaskStatus_value (rt_status existing)))] ;;;
          ret existing
      end
  | None => enqueue_new plan key rp tp
  end.

Fixpoint claim_loop (worker : string) (timestamp : float) (order : list string) : Q (option RuntimeTask) :=
  match order with
  | [] => ret None
  | id :: order' =>
      let! q := gets qs_queue in
      match q_tasks q !! id with
      | None => raise (Exn KeyError id)
      | Some t =>
          if negb (bool_decide (rt_status t = T_QUEUED)) then claim_loop worker timestamp order'
          else
            let t' := set_life T_RUNNING (Some worker) (attempts t + 1) (Some timestamp) (Some timestamp)
                        (finished_at t) (failure_reason t) t in
            assign t' ;;;
            let! pid := plan_id_of t' in
            audit "task.claimed" "Task claimed by worker"
              [("task_id", VStr (task_id t')); ("plan_id", VStr pid); ("worker_id", VStr worker);
               ("attempts", VInt (attempts t'))] ;;;
            persist_update t' ;;;
            ret (Some t')
      end
  end.
Definition claim (worker : string) (now : option float) : Q (option RuntimeTask) :=
  let! timestamp := now_or now in
  let! q := gets qs_queue in
  claim_loop worker timestamp (q_order q).

Definition heartbeat (id worker : string) (now : option float) : Q RuntimeTask :=
  let! t := require_task id in
  require_lock t worker ;;;
  let! at_ := now_or now in
  let t' := set_life (rt_status t) (locked_by t) (attempts t) (started_at t) (Some at_) (finished_at t)
              (failure_reason t) t in
  assign t' ;;;
  audit "task.heartbeat" "Task heartbeat recorded" [("task_id", VStr (task_id t')); ("worker_id", VStr worker)] ;;;
  persist_update t' ;;;
  ret t'.

(** [_finish] *)
Definition finish (id worker : string) (st : TaskStatus) (now : option float) : Q RuntimeTask :=
  let! t := require_task id in
  require_lock t worker ;;;
  let! at_ := now_or now in
  let t' := set_life st None (attempts t) (started_at t) (last_heartbeat_at t) (Some at_) (failure_reason t) t in
  assign t' ;;;
  ret t'.
Definition complete (id worker : string) (now : option float) : Q RuntimeTask :=
  let! t := finish id worker T_SUCCEEDED now in
  audit "task.completed" "Task completed" [("task_id", VStr (task_id t)); ("worker_id", VStr worker)] ;;;
  persist_update t ;;;
  ret t.
Definition fail (id worker why : string) (now : option float) : Q RuntimeTask :=
  let! t := finish id worker T_FAILED now in
  let t' := set_life (rt_status t) (locked_by t) (attempts t) (started_at t) (last_heartbeat_at t) (finished_at t)
              (Some why) t in
  assign t' ;;;
  audit "task.failed" why [("task_id", VStr (task_id t')); ("worker_id", VStr worker)] ;;;
  persist_update t' ;;;
  ret t'.
Definition retry (id worker why : string) : Q RuntimeTask :=
  let! t := require_task id in
  require_lock t worker ;;;
  let t' := set_life T_QUEUED None (attempts t) None None None (Some why) t in
  assign t' ;;;
  audit "task.retry_scheduled" why
    [("task_id", VStr (task_id t')); ("worker_id", VStr worker); ("attempts", VInt (attempts t'));
     ("max_attempts", VInt (max_attempts (retry_policy t')))] ;;;
  persist_update t' ;;;
  ret t'.
Definition cancel (id why : string) (now : option float) : Q RuntimeTask :=
  let! t := require_task id in
  let! at_ := now_or now in
  let t' := set_life T_CANCELLED None (attempts t) (started_at t) (last_heartbeat_at t) (Some at_) (Some why) t in
  assign t' ;;;
  audit "task.cancelled" why [("task_id", VStr (task_id t'))] ;;;
  persist_update t' ;;;
  ret t'.
Definition pause (id worker : string) : Q RuntimeTask :=
  let! t := require_task id in
  require_lock t worker ;;;
  let t' := set_life T_PAUSED None (attempts t) (started_at t) (last_heartbeat_at t) (finished_at t)
              (failure_reason t) t in
  assign t' ;;;
  audit "task.paused" "Task paused" [("task_id", VStr (task_id t')); ("worker_id", VStr worker)] ;;;
  persist_update t' ;;;
  ret t'.
Definition resume (id : string) : Q RuntimeTask :=
  let! t := require_task id in
  if negb (bool_decide (rt_status t = T_PAUSED)) then raise (Exn ValueError "Only paused tasks can be resumed")
  else
    let t' := set_life T_QUEUED (locked_by t) (attempts t) (started_at t) (last_heartbeat_at t) (finished_at t)
                (failure_reason t) t in
    assign t' ;;;
    audit "task.resumed" "Task resumed" [("task_id", VStr (task_id t'))] ;;;
    persist_update t' ;;;
    ret t'.
Definition get (id : string) : Q RuntimeTask := require_task id.
(** [tasks()] *)
Fixpoint lookup_all (m : gmap string RuntimeTask) (ids : list string) : res exn (list RuntimeTask) :=
  match ids with
  | [] => Ok []
  | id :: ids' =>
      match m !! id with
      | None => Raise (Exn KeyError id)
      | Some t => res_map (cons t) (lookup_all m ids')
      end
  end.
Definition tasks : Q (list RuntimeTask) :=
  let! q := gets qs_queue in of_res (lookup_all (q_tasks q) (q_order q)).

(** ** Loading the database *)

(** [ORDER BY enqueued_at]: NULL first, rows of equal time in table order. *)
Definition enqueued_before (r r' : TaskRow) : bool :=
  match row_enqueued r, row_enqueued r' with
  | None, Some _ => true
  | Some a, Some b => fltb a b
  | _, None => false
  end.
Fixpoint insert_row (r : TaskRow) (l : list TaskRow) : list TaskRow :=
  match l with
  | [] => [r]
  | r' :: l' => if enqueued_before r' r then r' :: insert_row r l' else r :: l
  end.
Fixpoint order_by_enqueued (l : list TaskRow) : list TaskRow :=
  match l with [] => [] | r :: l' => insert_row r (order_by_enqueued l') end.

(** [n] is the clock index, [ref] the reference of the new plan object. *)
Definition load_row (n ref : nat) (r : TaskRow) : D (RuntimeTask * PlanObj * nat) :=
  let? p := deserialize_plan (time_at n) (row_plan r) in
  let? st := dlift (enum_of (row_status r)) in
  let? rp := deserialize_retry_policy (row_retry r) in
  let? tp := deserialize_timeout_policy (row_timeout r) in
  let '(enq, n') := match row_enqueued r with
                    | Some (S754_zero _) | None => (time_at (S n), S (S n))
                    | Some f => (f, S n)
                    end in
  dret ({| rt_plan := ref; task_id := row_id r; rt_status := st; retry_policy := rp; timeout_policy := tp;
           rt_key := row_key r; attempts := row_attempts r;
           locked_by := match row_locked r with
                        | Some w => if String.eqb w "None" then None else Some w
                        | None => None
                        end;
           enqueued_at := enq; started_at := row_started r; last_heartbeat_at := row_heartbeat r;
           finished_at := row_finished r; failure_reason := row_failure r |}, p, n').
Fixpoint load_rows (rows : list TaskRow) (q : TaskQueue) (plans : list PlanObj) (n : nat) :
    D (TaskQueue * list PlanObj * nat) :=
  match rows with
  | [] => dret (q, plans, n)
  | r :: rows' =>
      let? (t, p, n') := load_row n (length plans) r in
      load_rows rows' {| q_tasks := <[task_id t := t]> (q_tasks q); q_order := q_order q ++ [task_id t];
                         q_index := q_index q; q_db := q_db q |} (plans ++ [p]) n'
  end.
Definition empty_queue (db : option TaskDb) : TaskQueue :=
  {| q_tasks := ∅; q_order := []; q_index := ∅; q_db := db |}.
(** [_load_tasks] *)
Definition load_tasks (db : TaskDb) (plans : list PlanObj) (n : nat) : D (TaskQueue * list PlanObj * nat) :=
  let? (q, plans', n') := load_rows (order_by_enqueued (db_tasks db)) (empty_queue (Some db)) plans n in
  dret ({| q_tasks := q_tasks q; q_order := q_order q;
           q_index := fold_left (fun m kv => <[kv.1 := kv.2]> m) (db_idempotency db) (q_index q);
           q_db := q_db q |}, plans', n').

(** ** The watchdog *)

Definition exceeded (limit since : option float) (now : float) : bool :=
  match limit, since with Some l, Some t => fltb l (fsub now t) | _, _ => false end.
(** [_timeout_reason] *)
Definition timeout_reason (t : RuntimeTask) (now : float) : option string :=
  if exceeded (heartbeat_timeout_seconds (timeout_policy t)) (last_heartbeat_at t) now
  then Some "Task heartbeat timed out"
  else if exceeded (runtime_timeout_seconds (timeout_policy t)) (started_at t) now
  then Some "Task runtime timed out"
  else None.
(** The loop body: the ids come from [queue.tasks()], the objects are read as
    they are now. *)
Fixpoint check_loop (timestamp : float) (ids : list string) (timed_out : list string) : Q (list string) :=
  match ids with
  | [] => ret timed_out
  | id :: ids' =>
      let! t := require_task id in
      if negb (bool_decide (rt_status t = T_RUNNING)) then check_loop timestamp ids' timed_out
      else match timeout_reason t timestamp with
           | None => check_loop timestamp ids' timed_out
           | Some why =>
               let t' := set_life T_TIMED_OUT None (attempts t) (started_at t) (last_heartbeat_at t)
                           (Some timestamp) (Some why) t in
               assign t' ;;;
               persist_update t' ;;;
               let! pid := plan_id_of t' in
               audit "task.timed_out" why
                 [("task_id", VStr (task_id t')); ("plan_id", VStr pid); ("attempts", VInt (attempts t'))] ;;;
               check_loop timestamp ids' (timed_out ++ [id])
           end
  end.
(** [Watchdog.check]: the ids of the tasks it returns. *)
Definition watchdog_check (now : option float) : Q (list string) :=
  let! timestamp := now_or now in
  let! ts := tasks in
  check_loop timestamp (map task_id ts) [].

(** ** The runner *)

Context (kernel_run : nat -> M (KState X) exn unit).

Definition run_kernel (plan : nat) : Q unit := fun s =>
  let '(r, k) := kernel_run plan {| k_plans := qs_plans s; k_sys := qs_sys s; k_env := qs_env s |} in
  (r, {| qs_queue := qs_queue s; qs_plans := k_plans k; qs_sys := k_sys k; qs_env := k_env k |}).

Definition handle_failure (t : RuntimeTask) (worker why : string) (now : option float) : Q RuntimeTask :=
  if (attempts t <? max_attempts (retry_policy t))%Z then retry (task_id t) worker why
  else fail (task_id t) worker why now.
(** After the kernel returned. *)
Definition conclude (t : RuntimeTask) (worker : string) (now : option float) : Q RuntimeTask :=
  let! p := get_plan (rt_plan t) in
  let status := g_status (po_goal p) in
  audit "task.runner_finished" "Task runner finished execution"
    [("task_id", VStr (task_id t)); ("plan_id", VStr (po_plan_id p)); ("worker_id", VStr worker);
     ("goal_status", VStr (GoalStatus_value status))] ;;;
  if bool_decide (status = G_SUCCEEDED) then complete (task_id t) worker now
  else handle_failure t worker ("Goal ended with status " +:+ GoalStatus_value status) now.
(** [try: kernel.run(...) except Exception as exc: return ...] *)
Definition attempt (plan : nat) : Q (option exn) :=
  catch (run_kernel plan ;;; ret None) (fun e => ret (Some e)).
Definition run_next (worker : string) (now : option float) : Q (option RuntimeTask) :=
  let! claimed := claim worker now in
  match claimed with
  | None =>
      audit "task.runner_idle" "No queued task available" [("worker_id", VStr worker)] ;;; ret None
  | Some t =>
      let! pid := plan_id_of t in
      audit "task.runner_started" "Task runner started execution"
        [("task_id", VStr (task_id t)); ("plan_id", VStr pid); ("worker_id", VStr worker)] ;;;
      let! raised := attempt (rt_plan t) in
      let! t' := match raised with
                 | Some e => handle_failure t worker ("Task execution raised: " +:+ exn_str e) now
                 | None => conclude t worker now
                 end in
      ret (Some t')
  end.
End queue.
