(* ===== verification/PgQueue.v ===== *)
(** The PostgreSQL task queue (task_queue_backends.py): the database is
    authoritative, every operation is one conditional statement, and running
    tasks hold a lease.

    Many workers share the table.  A worker's operation is modelled with the
    table as it finds it: before the [n]-th statement of this worker the other
    workers act ([interfere]), rows their transactions hold are skipped by the
    claim ([locked_rows]), and the statement may fail without effect ([fault]
    gives the class of the driver's exception).  Nothing is assumed about the
    three in the definitions.  Columns that hold JSON text hold the document
    here; a document this program would not write is outside the model of the
    deserializers and reads as an exception of its own. *)
From S2P Require Import Prelude Enums PyValue Sanitization Goals Plans Serialization TaskSpec AuditTrail TaskQueue.

(** A row of [leos_tasks]. *)
Record PgRow := {
  pg_id : string;
  pg_plan : pyval;
  pg_status : string;
  pg_retry : pyval;
  pg_timeout : pyval;
  pg_max : Z;
  pg_key : option string;
  pg_attempts : Z;
  pg_locked : option string;
  pg_enqueued : float;
  pg_started : option float;
  pg_heartbeat : option float;
  pg_lease : option float;
  pg_finished : option float;
  pg_failure : option string;
}.
Definition set_pg (st : TaskStatus) (lock : option string) (n : Z) (start beat lease fin : option float)
    (why : option string) (r : PgRow) : PgRow := {|
  pg_id := pg_id r; pg_plan := pg_plan r; pg_status := TaskStatus_value st; pg_retry := pg_retry r;
  pg_timeout := pg_timeout r; pg_max := pg_max r; pg_key := pg_key r; pg_attempts := n; pg_locked := lock;
  pg_enqueued := pg_enqueued r; pg_started := start; pg_heartbeat := beat; pg_lease := lease;
  pg_finished := fin; pg_failure := why |}.

(** ** The SQL the methods use *)

(** Comparison of DOUBLE PRECISION: NaN is above every other value. *)
Definition pg_lt (a b : float) : bool :=
  match a, b with
  | S754_nan, _ => false
  | _, S754_nan => true
  | _, _ => fltb a b
  end.
(** INTEGER columns have 32 bits. *)
Definition int4 (n : Z) : bool := (- 2 ^ 31 <=? n)%Z && (n <? 2 ^ 31)%Z.
(** The new table with the rows RETURNING gives, or the exception's class. *)
Definition sql (A : Type) : Type := list PgRow -> res string (list PgRow * A).
(** [UPDATE ... SET ... WHERE ... RETURNING *] *)
Definition sql_update (cond : PgRow -> bool) (f : PgRow -> PgRow) : sql (list PgRow) := fun rows =>
  let hit := List.filter cond rows in
  if forallb (fun r => int4 (pg_attempts (f r))) hit
  then Ok (map (fun r => if cond r then f r else r) rows, map f hit)
  else Raise "NumericValueOutOfRange".
(** [INSERT ... RETURNING *], with [ON CONFLICT (idempotency_key) DO NOTHING] if [skip]. *)
Definition sql_insert (skip : bool) (r : PgRow) : sql (list PgRow) := fun rows =>
  if negb (int4 (pg_max r)) then Raise "NumericValueOutOfRange"
  else
    let same_key := existsb (fun r' => match pg_key r, pg_key r' with
                                       | Some k, Some k' => String.eqb k k' | _, _ => false end) rows in
    let same_id := bool_decide (pg_id r ∈ map pg_id rows) in
    if skip && same_key then Ok (rows, [])
    else if same_id || same_key then Raise "UniqueViolation"
    else Ok (rows ++ [r], [r]).
Definition sql_select {A} (f : list PgRow -> A) : sql A := fun rows => Ok (rows, f rows).
(** [ORDER BY enqueued_at, task_id] *)
Definition pg_before (a b : PgRow) : bool :=
  pg_lt (pg_enqueued a) (pg_enqueued b) ||
  (negb (pg_lt (pg_enqueued b) (pg_enqueued a)) && String.ltb (pg_id a) (pg_id b)).
Fixpoint insert_pg (r : PgRow) (l : list PgRow) : list PgRow :=
  match l with
  | [] => [r]
  | r' :: l' => if pg_before r' r then r' :: insert_pg r l' else r :: l
  end.
Definition pg_sorted (l : list PgRow) : list PgRow := fold_right insert_pg [] l.

Definition has_status (st : TaskStatus) (r : PgRow) : bool := String.eqb (pg_status r) (TaskStatus_value st).
(** [task_id = %s AND status = 'running' AND locked_by = %s] *)
Definition locked_cond (id worker : string) (r : PgRow) : bool :=
  String.eqb (pg_id r) id && has_status T_RUNNING r && bool_decide (pg_locked r = Some worker).
(** [lease_expires_at IS NOT NULL AND lease_expires_at < %s] on a running task *)
Definition lease_expired (now : float) (r : PgRow) : bool :=
  has_status T_RUNNING r && match pg_lease r with Some l => pg_lt l now | None => false end.
Definition claimable (rows : list PgRow) (locked : string -> bool) : option PgRow :=
  find (fun r => has_status T_QUEUED r && negb (locked (pg_id r))) (pg_sorted rows).

Definition claim_row (worker : string) (timestamp lease : float) (r : PgRow) : PgRow :=
  set_pg T_RUNNING (Some worker) (pg_attempts r + 1) (Some timestamp) (Some timestamp)
    (Some (fadd timestamp lease)) (pg_finished r) (pg_failure r) r.
Definition beat_row (timestamp lease : float) (r : PgRow) : PgRow :=
  {| pg_id := pg_id r; pg_plan := pg_plan r; pg_status := pg_status r; pg_retry := pg_retry r;
     pg_timeout := pg_timeout r; pg_max := pg_max r; pg_key := pg_key r; pg_attempts := pg_attempts r;
     pg_locked := pg_locked r; pg_enqueued := pg_enqueued r; pg_started := pg_started r;
     pg_heartbeat := Some timestamp; pg_lease := Some (fadd timestamp lease); pg_finished := pg_finished r;
     pg_failure := pg_failure r |}.
Definition finish_row (st : TaskStatus) (why : option string) (timestamp : float) (r : PgRow) : PgRow :=
  set_pg st None (pg_attempts r) (pg_started r) (pg_heartbeat r) None (Some timestamp) why r.
Definition retry_row (why : string) (r : PgRow) : PgRow :=
  set_pg T_QUEUED None (pg_attempts r) None None None None (Some why) r.
Definition pause_row (r : PgRow) : PgRow :=
  set_pg T_PAUSED None (pg_attempts r) (pg_started r) (pg_heartbeat r) None (pg_finished r) (pg_failure r) r.
Definition resume_row (r : PgRow) : PgRow :=
  set_pg T_QUEUED (pg_locked r) (pg_attempts r) (pg_started r) (pg_heartbeat r) (pg_lease r) (pg_finished r)
    (pg_failure r) r.
Definition requeue_row (r : PgRow) : PgRow :=
  set_pg T_QUEUED None (pg_attempts r) None None None (pg_finished r) (Some "Task lease expired; requeued") r.
Definition timeout_row (timestamp : float) (r : PgRow) : PgRow :=
  set_pg T_TIMED_OUT None (pg_attempts r) (pg_started r) (pg_heartbeat r) None (Some timestamp)
    (Some "Task lease expired; attempts exhausted") r.

(** What one worker sees: the shared table, its statement count, its plan
    objects, its audit log and the platform. *)
Record PgState := {
  pg_rows : list PgRow;
  pg_count : nat;
  pg_plans : list PlanObj;
  pg_sys : Sys;
}.
Definition with_pgsys (x : Sys) (s : PgState) : PgState :=
  {| pg_rows := pg_rows s; pg_count := pg_count s; pg_plans := pg_plans s; pg_sys := x |}.
#[export] Program Instance PgState_HasSys : HasSys PgState := {| sys_of := pg_sys; upd_sys := with_pgsys |}.
Next Obligation. done. Qed.

Section pg.
Context `{PyRuntime} (interfere : nat -> list PgRow -> list PgRow) (locked_rows : nat -> string -> bool)
  (fault : nat -> option string) (lease_seconds : float).
Notation PQ := (M PgState exn).

(** [__init__], as far as the parameter goes. *)
Definition lease_check : res exn unit :=
  if fleb lease_seconds fzero then Raise (Exn ValueError "lease_seconds must be positive") else Ok tt.

(** A statement with its commit, and the translation of the driver's exceptions. *)
Definition run_sql {A} (kind : string) (op : nat -> sql A) : PQ A := fun s =>
  let n := pg_count s in
  let rows := interfere n (pg_rows s) in
  let s1 rows' := {| pg_rows := rows'; pg_count := S n; pg_plans := pg_plans s; pg_sys := pg_sys s |} in
  let failed cls := Exn RuntimeStoreError ("postgres task queue " +:+ kind +:+ " failed: " +:+ cls) in
  match fault n with
  | Some cls => (Raise (failed cls), s1 rows)
  | None =>
      match op n rows with
      | Raise cls => (Raise (failed cls), s1 rows)
      | Ok (rows', a) => (Ok a, s1 rows')
      end
  end.
(** [_mutate], [_mutate_all], [_fetchone] and [_fetchall] *)
Definition mutate (op : nat -> sql (list PgRow)) : PQ (option PgRow) :=
  let! l := run_sql "write" op in ret (head l).
Definition mutate_all (op : nat -> sql (list PgRow)) : PQ (list PgRow) := run_sql "write" op.
Definition fetch_one (cond : PgRow -> bool) : PQ (option PgRow) :=
  run_sql "read" (fun _ => sql_select (find cond)).
Definition fetch_all : PQ (list PgRow) := run_sql "read" (fun _ => sql_select pg_sorted).

(** [_task_from_row]: the plan becomes an object of this worker. *)
Definition pg_task (ref n : nat) (r : PgRow) : D (RuntimeTask * PlanObj) :=
  let? p := deserialize_plan (time_at n) (pg_plan r) in
  let? st := dlift (enum_of (pg_status r)) in
  let? rp := deserialize_retry_policy (pg_retry r) in
  let? tp := deserialize_timeout_policy (pg_timeout r) in
  dret ({| rt_plan := ref; task_id := pg_id r; rt_status := st; retry_policy := rp; timeout_policy := tp;
           rt_key := pg_key r; attempts := pg_attempts r; locked_by := pg_locked r; enqueued_at := pg_enqueued r;
           started_at := pg_started r; last_heartbeat_at := pg_heartbeat r; finished_at := pg_finished r;
           failure_reason := pg_failure r |}, p).
Definition task_from_row (r : PgRow) : PQ RuntimeTask := fun s =>
  let x := pg_sys s in
  let x' := {| sys_log := sys_log x; n_time := S (n_time x); n_uuid := n_uuid x |} in
  match pg_task (length (pg_plans s)) (n_time x) r with
  | Some (Ok (t, p)) =>
      (Ok t, {| pg_rows := pg_rows s; pg_count := pg_count s; pg_plans := pg_plans s ++ [p]; pg_sys := x' |})
  | Some (Raise e) => (Raise e, with_pgsys x' s)
  | None => (Raise (Exn (ForeignError "unreadable document") ""), with_pgsys x' s)
  end.
Definition plan_id_at (ref : nat) : PQ string := gets (fun s => from_option po_plan_id "" (pg_plans s !! ref)).
Definition pg_now (now : option float) : PQ float := match now with Some t => ret t | None => time_time end.

(** [_require_exists] and [_locked_mutate] *)
Definition require_exists (id : string) : PQ unit :=
  let! r := fetch_one (fun r => String.eqb (pg_id r) id) in
  match r with None => raise (Exn KeyError ("Unknown task: " +:+ id)) | Some _ => ret tt end.
Definition locked_mutate (id worker : string) (f : PgRow -> PgRow) : PQ RuntimeTask :=
  let! r := mutate (fun _ => sql_update (locked_cond id worker) f) in
  match r with
  | None => require_exists id ;;; raise (Exn PermissionError "Task is not locked by this worker")
  | Some r => task_from_row r
  end.

(** ** Operations *)

(** [_assert_queue_safe] *)
Definition assert_queue_safe (v : pyval) : res exn unit :=
  match assert_no_secrets v with
  | Raise e =>
      if isinstance e SanitizationError
      then Raise (Exn RuntimeStoreError ("PostgresTaskQueue rejected secret-like value: " +:+ exn_str e))
      else Raise e
  | Ok u => Ok u
  end.
Definition pg_new_row (id : string) (doc : pyval) (rp : RetryPolicy) (tp : TimeoutPolicy) (key : option string)
    (now : float) : PgRow := {|
  pg_id := id; pg_plan := doc; pg_status := TaskStatus_value T_QUEUED; pg_retry := serialize_retry_policy rp;
  pg_timeout := serialize_timeout_policy tp; pg_max := max_attempts rp; pg_key := key; pg_attempts := 0;
  pg_locked := None; pg_enqueued := now; pg_started := None; pg_heartbeat := None; pg_lease := None;
  pg_finished := None; pg_failure := None |}.
Definition pg_enqueue (plan : PlanObj) (key : option string) (rp : option RetryPolicy) (tp : option TimeoutPolicy) :
    PQ RuntimeTask :=
  let rp := default default_retry_policy rp in
  let tp := default default_timeout_policy tp in
  let! doc := of_res (serialize_plan plan) in
  of_res (assert_queue_safe doc) ;;;
  let! id := uuid4 in
  let! now := time_time in
  let enqueued r :=
    let! t := task_from_row r in
    audit "task.enqueued" "Task enqueued"
      [("task_id", VStr (task_id t)); ("plan_id", VStr (po_plan_id plan)); ("idempotency_key", opt_str_val key)] ;;;
    ret t in
  let! row := mutate (fun _ => sql_insert (bool_decide (is_Some key)) (pg_new_row id doc rp tp key now)) in
  match row, key with
  | Some r, _ => enqueued r
  | None, None => raise (Exn RuntimeStoreError "task insert returned no row")
  | None, Some k =>
      let! existing := fetch_one (fun r => bool_decide (pg_key r = Some k)) in
      match existing with
      | None => raise (Exn RuntimeStoreError "idempotency conflict without an existing task row")
      | Some r =>
          let! t := task_from_row r in
          let! pid := plan_id_at (rt_plan t) in
          audit "task.deduplicated" "Task idempotency key already exists"
            [("task_id", VStr (task_id t)); ("plan_id", VStr pid); ("idempotency_key", VStr k);
             ("status", VStr (TaskStatus_value (rt_status t)))] ;;;
          ret t
      end
  end.
Definition claim_sql (worker : string) (timestamp : float) (n : nat) : sql (list PgRow) := fun rows =>
  match claimable rows (locked_rows n) with
  | None => Ok (rows, [])
  | Some r => sql_update (fun r' => String.eqb (pg_id r') (pg_id r)) (claim_row worker timestamp lease_seconds) rows
  end.
Definition pg_claim (worker : string) (now : option float) : PQ (option RuntimeTask) :=
  let! timestamp := pg_now now in
  let! row := mutate (claim_sql worker timestamp) in
  match row with
  | None => ret None
  | Some r =>
      let! t := task_from_row r in
      let! pid := plan_id_at (rt_plan t) in
      audit "task.claimed" "Task claimed by worker"
        [("task_id", VStr (task_id t)); ("plan_id", VStr pid); ("worker_id", VStr worker);
         ("attempts", VInt (attempts t))] ;;;
      ret (Some t)
  end.
Definition task_and_worker (id worker : string) : dict pyval := [("task_id", VStr id); ("worker_id", VStr worker)].
Definition pg_heartbeat_op (id worker : string) (now : option float) : PQ RuntimeTask :=
  let! timestamp := pg_now now in
  let! t := locked_mutate id worker (beat_row timestamp lease_seconds) in
  audit "task.heartbeat" "Task heartbeat recorded" (task_and_worker id worker) ;;;
  ret t.
(** [_finish] *)
Definition pg_finish (id worker : string) (st : TaskStatus) (why : option string) (now : option float) : PQ RuntimeTask :=
  let! timestamp := pg_now now in
  locked_mutate id worker (finish_row st why timestamp).
Definition pg_complete (id worker : string) (now : option float) : PQ RuntimeTask :=
  let! t := pg_finish id worker T_SUCCEEDED None now in
  audit "task.completed" "Task completed" (task_and_worker id worker) ;;;
  ret t.
Definition pg_fail (id worker why : string) (now : option float) : PQ RuntimeTask :=
  let! t := pg_finish id worker T_FAILED (Some why) now in
  audit "task.failed" why (task_and_worker id worker) ;;;
  ret t.
Definition pg_retry_op (id worker why : string) : PQ RuntimeTask :=
  let! t := locked_mutate id worker (retry_row why) in
  audit "task.retry_scheduled" why
    (task_and_worker id worker ++ [("attempts", VInt (attempts t)); ("max_attempts", VInt (max_attempts (retry_policy t)))]) ;;;
  ret t.
Definition pg_cancel (id why : string) (now : option float) : PQ RuntimeTask :=
  let! timestamp := pg_now now in
  let! row := mutate (fun _ => sql_update (fun r => String.eqb (pg_id r) id)
                                          (finish_row T_CANCELLED (Some why) timestamp)) in
  match row with
  | None => raise (Exn KeyError ("Unknown task: " +:+ id))
  | Some r => audit "task.cancelled" why [("task_id", VStr id)] ;;; task_from_row r
  end.
Definition pg_pause (id worker : string) : PQ RuntimeTask :=
  let! t := locked_mutate id worker pause_row in
  audit "task.paused" "Task paused" (task_and_worker id worker) ;;;
  ret t.
Definition pg_resume (id : string) : PQ RuntimeTask :=
  let! row := mutate (fun _ => sql_update (fun r => String.eqb (pg_id r) id && has_status T_PAUSED r) resume_row) in
  match row with
  | None => require_exists id ;;; raise (Exn ValueError "Only paused tasks can be resumed")
  | Some r => audit "task.resumed" "Task resumed" [("task_id", VStr id)] ;;; task_from_row r
  end.
(** The loop over reclaimed rows: the tasks it appends. *)
Fixpoint reap_loop (event msg : string) (rows : list PgRow) : PQ (list RuntimeTask) :=
  match rows with
  | [] => ret []
  | r :: rows' =>
      let! t := task_from_row r in
      let! pid := plan_id_at (rt_plan t) in
      audit event msg [("task_id", VStr (task_id t)); ("plan_id", VStr pid); ("attempts", VInt (attempts t))] ;;;
      let! l := reap_loop event msg rows' in
      ret (t :: l)
  end.
(** [reap_expired_leases] *)
Definition reap_expired_leases (now : option float) : PQ (list RuntimeTask) :=
  let! timestamp := pg_now now in
  let! requeued := mutate_all (fun _ =>
    sql_update (fun r => lease_expired timestamp r && (pg_attempts r <? pg_max r)%Z) requeue_row) in
  let! l := reap_loop "task.lease_reclaimed" "Task lease expired; requeued" requeued in
  let! timed_out := mutate_all (fun _ =>
    sql_update (fun r => lease_expired timestamp r && (pg_max r <=? pg_attempts r)%Z) (timeout_row timestamp)) in
  let! l' := reap_loop "task.timed_out" "Task lease expired; attempts exhausted" timed_out in
  ret (l ++ l').
Definition pg_get (id : string) : PQ RuntimeTask :=
  let! row := fetch_one (fun r => String.eqb (pg_id r) id) in
  match row with
  | None => raise (Exn KeyError ("Unknown task: " +:+ id))
  | Some r => task_from_row r
  end.
Fixpoint tasks_from_rows (rows : list PgRow) : PQ (list RuntimeTask) :=
  match rows with
  | [] => ret []
  | r :: rows' => let! t := task_from_row r in let! l := tasks_from_rows rows' in ret (t :: l)
  end.
Definition pg_tasks : PQ (list RuntimeTask) := let! rows := fetch_all in tasks_from_rows rows.
End pg.
