(* ===== verification/Fixtures.v ===== *)
(** Concrete platform functions, tools and plans, at which the theorems with
    hypotheses are instantiated and the definitions are evaluated. *)
From S2P Require Import Prelude Enums PyValue Sanitization Goals Plans Tools AuditTrail Causal Egress Policy Approval Gates Transactions Serialization TaskSpec TaskQueue.

(** A stand-in for SHA-256 with 64 hexadecimal digits: a polynomial checksum
    modulo 65521, written four times. *)
Definition checksum_prime : N := 65521.
Fixpoint checksum (acc : N) (s : string) : N :=
  match s with
  | EmptyString => acc
  | String c s' => checksum ((acc * 257 + N_of_ascii c + 1) mod checksum_prime) s'
  end.
Fixpoint hex_digits (n : nat) (x : N) (acc : string) : string :=
  match n with
  | O => acc
  | S n' => hex_digits n' (x / 16) (String (hex_digit (N.to_nat (x mod 16))) acc)
  end.
Definition toy_hash (s : string) : string :=
  let h := hex_digits 16 (checksum 7 s) "" in h +:+ h +:+ h +:+ h.

#[export] Instance toy_runtime : PyRuntime := {|
  sha256_hex := toy_hash;
  hmac_sha256_hex := fun key msg => toy_hash (key +:+ "|" +:+ msg);
  float_repr := fun f => match f with S754_finite s m e => "f" +:+ str_Z (Z.pos m) +:+ "e" +:+ str_Z e | _ => "0.0" end;
  float_fmt2 := fun _ => "0.00";
  float_of_str := fun _ => None;
  float_sum := fun l => fold_left fadd l fzero;
  set_order := fun l => l;
  obj_repr := fun ty n => "<" +:+ ty +:+ " object>";
  time_at := fun n => f_of_Z (1000 + Z.of_nat n);
  uuid_at := fun n => "id-" +:+ str_Z (Z.of_nat n);
  ip_blocked := fun s => if String.eqb s "127.0.0.1" then Some true else None |}.
#[export] Instance toy_schema : JsonSchemaValidator := {| schema_issues := fun _ _ => [] |}.

(** A tool that appends to a journal outside the process and can undo it. *)
Definition journal_spec (n : string) (perms : list Permission) (rv : Reversibility) : ToolSpec := {|
  name := n; ts_description := "append a line to the journal"; permissions := perms; default_risk := LOW;
  reversible := bool_decide (rv = REVERSIBLE); ts_reversibility := rv; ts_rollback_reliability := fone;
  ts_compensation_strategy := CS_NONE; version := "1"; input_schema := []; output_schema := [];
  timeout_ms := 1000; network_access := false; egress_host := None; egress_methods := [];
  rollback_egress_methods := []; filesystem_scope := "none"; secrets_allowed := false;
  sandbox_policy := SP_NONE; requires_human_for := []; causal_contract := None |}.
Definition journal_result (key line : string) : ToolResult := {|
  ok := true; message := "appended"; data := []; observed_state_delta := [(key, VStr line)];
  rollback_token := Some [("line", VStr line)]; error := None |}.
Definition line_of (args : dict pyval) : string := py_str (default (VStr "") (dget "line" args)).
Definition journal_tool (n : string) (perms : list Permission) (rv : Reversibility) (works : bool) :
    Tool (list string) := {|
  spec := journal_spec n perms rv;
  dry_run := fun args => ret (tool_result true "would append");
  execute := fun args '(x, w) =>
    if works then (Ok (journal_result n (line_of args)), (x ++ [line_of args], w))
    else (Ok (tool_result false "journal is full"), (x, w));
  rollback := fun token '(x, w) =>
    (Ok (tool_result true "removed"), (filter (fun l => l <> line_of token) x, w));
  attestations := None; client_allows := None |}.

Definition toy_registry : ToolRegistry (list string) :=
  [("append", journal_tool "append" [WRITE_FILES] REVERSIBLE true);
   ("append_irrev", journal_tool "append_irrev" [WRITE_FILES] IRREVERSIBLE true);
   ("broken", journal_tool "broken" [WRITE_FILES] REVERSIBLE false);
   ("echo", EchoTool)].
Definition developer_engine : PolicyEngine :=
  engine_of_profile (base_profile "developer_local" [READ_FILES; WRITE_FILES; EXECUTE_CODE] MEDIUM []
    [NETWORK; FINANCIAL; DELETE; SYSTEM_CONFIG]) None.
(** A gate whose approver answers yes. *)
Definition yes_gate : ApprovalGate unit := base_gate (Some (fun _ => ret true)).
Definition toy_manager (e : PolicyEngine) (gate : ApprovalGate unit) : TransactionManager (list string) unit := {|
  tm_registry := toy_registry; tm_policy := e; tm_causal := []; tm_gate := gate;
  tm_allow_network_tools := false; tm_sandbox_runners := [] |}.

Definition toy_goal : Goal := {|
  description := "keep a journal"; success_criteria := ["journal written"]; criteria := [];
  constraints := []; stop_conditions := []; priority := 0; goal_id := "goal-1"; owner := None;
  deadline := None; budget := default_budget; g_status := G_CREATED |}.
Definition toy_step (n : nat) (tool line : string) : ActionStep :=
  new_step tool [("line", VStr line); ("message", VStr line)] "because" ("step-" +:+ str_Z (Z.of_nat n)).
Definition toy_plan (steps : list ActionStep) : TransactionPlan := {|
  p_goal := toy_goal; p_steps := seq 0 (length steps); plan_id := "plan-1"; created_at := fzero; p_budget := None |}.
Definition toy_state (steps : list ActionStep) : TState (list string) unit := {|
  t_sys := {| sys_log := new_log; n_time := 0; n_uuid := 0 |}; t_env := []; t_world := empty_world;
  t_heap := steps; t_plan := toy_plan steps; t_uses := fun _ => 0%Z; t_gate := tt; t_stack := []; t_calls := [] |}.

Definition sys0 : Sys := {| sys_log := new_log; n_time := 0; n_uuid := 0 |}.
Definition toy_packet : ApprovalPacket := {|
  ap_approval_id := "approval-1"; ap_goal_id := "goal-1"; ap_plan_id := "plan-1"; ap_step_id :=
  "step-1"; ap_step_hash := "feed"; ap_tool_name := "append"; ap_action_summary := "append a line";
  ap_risk_level := "LOW"; ap_required_permissions := ["write_files"]; ap_causal_contract_summary :=
  "none"; ap_dry_run_summary := "would append"; ap_rollback_summary := "reversible"; ap_diff_summary
  := None; ap_alternatives := []; ap_created_at := fone; ap_expires_at := None; ap_requester :=
  None; ap_profile := "developer_local"; ap_repo := None; ap_branch := None; ap_file_paths := [];
  ap_expected_sha := None; ap_expected_previous := None; ap_egress_host := None; ap_egress_methods
  := []; ap_cleanup_description := None |}.
Definition toy_decision : ApprovalDecision := {|
  ad_approval_id := "approval-1"; ad_step_hash := "feed"; ad_decision := AD_APPROVE; ad_decided_at := fone;
  ad_approver := Some "ann"; ad_reason := None |}.
(** A signed decision as the approver writes it into the decision directory. *)
Definition toy_decision_data : dict pyval :=
  [("approval_id", VStr "approval-1"); ("step_hash", VStr "feed"); ("decision", VStr "approve");
   ("decided_at", VFloat fone); ("approver", VStr "ann");
   ("signature", VStr (sign_approval_decision toy_decision "key"))].
Definition toy_gate_config : FileGateConfig := {|
  fc_allowed_approvers := Some ["ann"; "bob"]; fc_require_private_decision_files := true;
  fc_signature_secret := Some "key"; fc_require_signature := true |}.
Definition toy_file_gate : FileGate := {|
  fg_packet_dir := []; fg_decision_dir := [("approval-1.json", {| df_mode := Some 384%Z; df_json := Ok (VDict toy_decision_data) |})];
  fg_consumed := []; fg_last_valid := false; fg_last_algorithm := None |}.

(** Two lines are written, the third step fails: the journal ends empty. *)
Definition failing_plan : list ActionStep :=
  [toy_step 0 "append" "one"; toy_step 1 "append" "two"; toy_step 2 "broken" "three"].
Definition good_plan : list ActionStep := [toy_step 0 "append" "one"; toy_step 1 "echo" "two"].
Abbreviation run_toy steps := (execute_plan (toy_manager developer_engine yes_gate) (toy_state steps)).

Example failing_plan_statuses :
  (fst (run_toy failing_plan), step_statuses (snd (run_toy failing_plan)), t_env (snd (run_toy failing_plan))) =
  (Ok tt, [ROLLED_BACK; ROLLED_BACK; FAILED], []).
Proof. vm_compute. reflexivity. Qed.
Example good_plan_statuses :
  (fst (run_toy good_plan), step_statuses (snd (run_toy good_plan)), t_env (snd (run_toy good_plan))) =
  (Ok tt, [VERIFIED; VERIFIED], ["one"]).
Proof. vm_compute. reflexivity. Qed.
Example good_plan_goal : g_status (p_goal (t_plan (snd (run_toy good_plan)))) = G_PARTIALLY_DONE.
Proof. vm_compute. reflexivity. Qed.

(** ** A task queue with a database, two plans (the second cannot be stored)
    and a kernel that does nothing. *)
Definition toy_plan_obj : PlanObj := {|
  po_goal := toy_goal; po_steps := good_plan; po_plan_id := "plan-1"; po_created_at := fzero; po_budget := None |}.
Definition secret_plan_obj : PlanObj := {|
  po_goal := toy_goal; po_steps := [new_step "append" [("line", VSecret 7 "hunter2")] "because" "step-9"];
  po_plan_id := "plan-2"; po_created_at := fzero; po_budget := None |}.
Definition toy_queue : QState unit := {|
  qs_queue := empty_queue (Some {| db_tasks := []; db_idempotency := [] |});
  qs_plans := [toy_plan_obj; secret_plan_obj]; qs_sys := sys0; qs_env := tt |}.
Definition toy_enqueued : QState unit := snd (enqueue 0 (Some "key") None None toy_queue).
Definition toy_claimed : QState unit := snd (claim "worker" None toy_enqueued).
Definition toy_kernel (plan : nat) : M (KState unit) exn unit := ret tt.

Example toy_claimed_row :
  (fun db => map (fun r => (row_id r, row_status r, row_attempts r, row_locked r)) (db_tasks db)) <$>
    q_db (qs_queue toy_claimed) = Some [("id-0", "running", 1%Z, Some "worker")].
Proof. vm_compute. reflexivity. Qed.
