(* ===== verification/Interactive.v ===== *)
(** The approval summary of a step and the interactive gate of policy.py, which asks at the terminal. *)
From S2P Require Import Prelude Enums PyValue PyText Sanitization Goals Plans Serialization Tools AuditTrail Causal Egress Policy Approval Gates Transactions Planner PlanProviders Fixtures.

(** [format(x, ".0f")] *)
Class SecondsFormat := { fmt_0f : float -> string }.

Record ApprovalRequest := {
  ar_goal : string;
  ar_action : string;
  ar_impact : string;
  ar_risk : string;
  ar_reversibility : string;
  ar_evidence : list string;
  ar_alternatives : list string;
  ar_minimal_permissions : list string;
}.

Section request.
Context `{PyRuntime}.
Definition approval_request_as_dict (r : ApprovalRequest) : dict pyval :=
  [("goal", VStr (ar_goal r)); ("action", VStr (ar_action r)); ("impact", VStr (ar_impact r)); ("risk", VStr (ar_risk r));
   ("reversibility", VStr (ar_reversibility r)); ("evidence", str_list (ar_evidence r));
   ("alternatives", str_list (ar_alternatives r)); ("minimal_permissions", str_list (ar_minimal_permissions r))].
(** [_summarize_impact] *)
Definition summarize_impact (st : ActionStep) : string :=
  match required_permissions st, arguments st with
  | (_ :: _) as ps, _ => "requires permissions: " +:+ str_join ", " (py_sorted (map Permission_value ps))
  | [], (_ :: _) as args => "uses arguments: " +:+ str_join ", " (py_sorted (dkeys args))
  | [], [] => "no external permission declared"
  end.
Definition step_target (st : ActionStep) : string :=
  match as_str (default VNone (dget "path" (arguments st))) with Some p => " target=" +:+ p | None => "" end.
Definition build_approval_request (st : ActionStep) (goal : string) : ApprovalRequest := {|
  ar_goal := goal;
  ar_action := tool_name st +:+ step_target st;
  ar_impact := summarize_impact st;
  ar_risk := RiskLevel_value (risk st) +:+ ": " +:+ reason st;
  ar_reversibility := Reversibility_value (reversibility st) +:+ "; compensation=" +:+
    CompensationStrategy_value (compensation_strategy st) +:+ "; rollback_reliability=" +:+ float_fmt2 (rollback_reliability st);
  ar_evidence := [reason st] ++ map (fun c => "precondition:" +:+ sc_variable c) (preconditions st) ++
    match idem_key st with Some k => ["idempotency_key:" +:+ k] | None => [] end;
  ar_alternatives := ["deny and leave state unchanged"; "request a lower-risk or narrower step"];
  ar_minimal_permissions := py_sorted (remove_dups (map Permission_value (required_permissions st))) |}.
End request.

(** ** The terminal *)

(** What happens at the next prompt: nothing within the timeout, a line, or an exception of [select] or [readline]. *)
Inductive term_event : Type := Quiet | Line (s : string) | Broken (e : exn).
Record Terminal := { isatty : bool; printed : list string; term_events : list term_event }.

Section gate.
Context `{PyRuntime} `{SecondsFormat} (timeout : float).
Abbreviation IM A := (GM Terminal A).

Definition show (s : string) : IM unit :=
  let! t := gate_get in
  gate_put {| isatty := isatty t; printed := printed t ++ [s]; term_events := term_events t |}.
(** The prompt, [select.select] and [readline]: [None] when the time is over. *)
Definition ask_line (prompt : string) : IM (option string) :=
  show prompt ;;;
  let! t := gate_get in
  let rest := {| isatty := isatty t; printed := printed t; term_events := tail (term_events t) |} in
  match term_events t with
  | [] => ret None
  | Quiet :: _ => gate_put rest ;;; ret None
  | Line s :: _ => gate_put rest ;;; ret (Some s)
  | Broken e :: _ => gate_put rest ;;; raise e
  end.
Definition prompt_text (question : string) : string := question +:+ " (timeout " +:+ fmt_0f timeout +:+ "s): ".
Definition answer_of (line : string) : string := py_lower (py_strip line).
Definition json_strs (l : list string) : string := json_flat json_string (str_list l).
Definition request_lines (st : ActionStep) : list string :=
  let r := build_approval_request st "Execute requested step" in
  [String (ascii_of_nat 10) "--- Approval Required ---"; "Goal:       " +:+ ar_goal r; "Action:     " +:+ ar_action r;
   "Impact:     " +:+ ar_impact r; "Risk:       " +:+ ar_risk r; "Reversible: " +:+ ar_reversibility r;
   "Evidence:   " +:+ json_strs (ar_evidence r); "Alternates: " +:+ json_strs (ar_alternatives r);
   "Permissions:" +:+ json_strs (ar_minimal_permissions r)] ++
  match arguments st with [] => [] | args => ["Arguments: " +:+ json_plain (VDict args)] end.
Definition timed_out : string := String (ascii_of_nat 10) "(timeout)".
(** [InteractiveApprovalGate.request] *)
Definition interactive_request (st : ActionStep) : IM Decision :=
  let! t := gate_get in
  if negb (isatty t) then ret DENIED
  else
    for_each (request_lines st) show ;;;
    catch (let! line := ask_line (prompt_text "Approve? [y/N]") in
           match line with
           | None => show timed_out ;;; ret DENIED
           | Some s => ret (if str_mem (answer_of s) ["y"; "yes"] then APPROVED else DENIED)
           end)
      (fun _ => ret DENIED).
Definition packet_answer (response : string) : ApprovalDecisionValue :=
  if str_mem response ["y"; "yes"] then AD_APPROVE
  else if str_mem response ["d"; "dry-run"; "dry_run"; "dry_run_only"] then AD_DRY_RUN_ONLY
  else if String.eqb response "narrow" then AD_NARROW_SCOPE
  else AD_DENY.
(** [InteractiveApprovalGate.request_packet] *)
Definition interactive_request_packet (p : ApprovalPacket) (st : ActionStep) : IM ApprovalDecision :=
  let! t := gate_get in
  if negb (isatty t) then new_decision p AD_DENY None None
  else
    show (render_approval_packet_markdown p) ;;;
    let! v := catch (let! line := ask_line (prompt_text "Approve packet? [y/N/dry-run/narrow]") in
                     match line with
                     | None => show timed_out ;;; ret None
                     | Some s => ret (Some (answer_of s))
                     end)
                (fun _ => ret None) in
    new_decision p (match v with Some s => packet_answer s | None => AD_DENY end) None None.
Definition InteractiveApprovalGate : ApprovalGate Terminal := {|
  signed_approval_enforced := fun _ => false;
  last_decision_signature_valid := fun _ => false;
  last_decision_signature_algorithm := fun _ => None;
  prepare_packet := fun packet _ => ret packet;
  request_packet := interactive_request_packet;
  consume_approval := fun _ _ _ => ret None |}.
End gate.

(** * What the gate decides *)


Section gate.
Context `{PyRuntime} `{SecondsFormat} (timeout : float).

(** The line that answers the next prompt, if there is one in time. *)
Definition next_line (t : Terminal) : option string :=
  match term_events t with Line s :: _ => Some s | _ => None end.
Lemma shows_run l t n : for_each l show (t, n) =
  (Ok tt, ({| isatty := isatty t; printed := printed t ++ l; term_events := term_events t |}, n)).
Proof.
  revert t. induction l as [|x l IH]; intros t; [destruct t; simpl; by rewrite app_nil_r|].
  change (for_each (x :: l) show (t, n)) with (bind (show x) (fun _ => for_each l show) (t, n)).
  unfold bind, show at 1, gate_get, gate_put. simpl. rewrite IH. simpl. by rewrite <-app_assoc.
Qed.
(** Whatever happens at the terminal, the gate decides, for this packet, and consumes at most one event: without a terminal, after
    the timeout, on an exception and on any other answer it denies. *)
Lemma interactive_packet_exact p st t n :
  exists t' now, interactive_request_packet timeout p st (t, n) =
    (Ok {| ad_approval_id := ap_approval_id p; ad_step_hash := ap_step_hash p;
           ad_decision := match isatty t, next_line t with true, Some s => packet_answer (answer_of s) | _, _ => AD_DENY end;
           ad_decided_at := now; ad_approver := None; ad_reason := None |}, (t', S n)) /\
    isatty t' = isatty t /\ term_events t' = (if isatty t then tail (term_events t) else term_events t) /\
    exists more, printed t' = printed t ++ more /\ (isatty t = false -> more = []).
Proof.
  unfold interactive_request_packet, next_line. destruct t as [[] pr [|[|s|e] evs]]; (eexists _, _; split; [reflexivity|]);
    (split_and!; [done..|]); simpl;
    first [by exists []; rewrite app_nil_r|eexists; split; [rewrite <-?app_assoc; reflexivity|done]].
Qed.
Lemma interactive_request_exact st t n :
  exists t', interactive_request timeout st (t, n) =
    (Ok (match isatty t, next_line t with true, Some s => if str_mem (answer_of s) ["y"; "yes"] then APPROVED else DENIED
         | _, _ => DENIED end), (t', n)).
Proof.
  unfold interactive_request, next_line. unfold bind at 1, gate_get. destruct (isatty t) eqn:E; cbn [negb]; [|by eexists].
  unfold bind at 1. rewrite shows_run. unfold catch, bind, ask_line, show, gate_get, gate_put. simpl.
  destruct (term_events t) as [|[|s|e] evs]; by eexists.
Qed.
End gate.

#[local] Instance toy_seconds : SecondsFormat := {| fmt_0f f := "30" |}.
Example interactive_answers :
  let ask l := match interactive_request_packet fone toy_packet (toy_step 0 "append" "one")
                       ({| isatty := true; printed := []; term_events := l |}, 0%nat) with
               | (Ok d, (t, _)) => Some (ad_decision d, length (term_events t))
               | _ => None
               end in
  (ask [Line " YES "; Quiet], ask [Line "yep"], ask [Quiet; Line "y"], ask [Line "narrow"], ask [Broken (Exn OSError "")]) =
  (Some (AD_APPROVE, 1%nat), Some (AD_DENY, 0%nat), Some (AD_DENY, 1%nat), Some (AD_NARROW_SCOPE, 0%nat), Some (AD_DENY, 0%nat)).
Proof. vm_compute. reflexivity. Qed.
