(* ===== verification/MemoryProps.v ===== *)
(** Properties of the memory store: well-formed records, the index, the file. *)
From S2P Require Import Prelude Enums PyValue Goals Plans Serialization AuditTrail Memory Fixtures.

(** What [__post_init__] accepts. *)
Record record_valid (r : MemoryRecord) : Prop := {
  rv_low : fleb fzero (rec_confidence r) = true;
  rv_high : fleb (rec_confidence r) fone = true;
  rv_ttl : neg_float (rec_ttl r) = false;
  rv_secret : rec_sensitivity r = MS_SECRET -> rec_type r = MT_SECRET_REF;
}.
Definition with_key (k : string) (r : MemoryRecord) : bool := String.eqb (rec_key r) k.
(** The index lists the records of a key in the order of [items]. *)
Definition store_ok (s : MemoryStore) : Prop :=
  Forall record_valid (ms_items s) /\
  forall k, default [] (ms_index s !! k) = List.filter (with_key k) (ms_items s).

Lemma check_valid r r' : MemoryRecord_check r = Ok r' -> r' = r /\ record_valid r.
Proof.
  unfold MemoryRecord_check. destruct (fleb fzero _ && _) eqn:Ec; [|done]. cbn [negb].
  destruct (neg_float _) eqn:Et; [done|].
  destruct (bool_decide (rec_sensitivity r = MS_SECRET) && _) eqn:Es; [done|]. intros [= <-]. split; [done|].
  apply andb_prop in Ec as [Hl Hh]. split; try done. intros Hs. rewrite bool_decide_true in Es by done.
  simpl in Es. destruct (bool_decide (rec_type r = MT_SECRET_REF)) eqn:E; [|done]. by apply bool_decide_eq_true in E.
Qed.
Lemma valid_check r : record_valid r -> MemoryRecord_check r = Ok r.
Proof.
  intros [Hl Hh Ht Hs]. unfold MemoryRecord_check. rewrite Hl, Hh, Ht. cbn [negb andb].
  destruct (bool_decide (rec_sensitivity r = MS_SECRET)) eqn:E; [|done].
  apply bool_decide_eq_true in E. by rewrite bool_decide_true by auto.
Qed.

Lemma index_add_lookup m r k :
  default [] (index_add m r !! k) = default [] (m !! k) ++ List.filter (with_key k) [r].
Proof.
  unfold index_add, with_key. simpl. destruct (String.eqb_spec (rec_key r) k) as [<-|Hne].
  - by rewrite lookup_insert_eq.
  - by rewrite lookup_insert_ne, app_nil_r.
Qed.
Lemma fold_index_lookup l m k :
  default [] (fold_left index_add l m !! k) = default [] (m !! k) ++ List.filter (with_key k) l.
Proof.
  revert m. induction l as [|r l IH]; intros m; [by rewrite app_nil_r|]. cbn [fold_left]. rewrite IH, index_add_lookup.
  rewrite <-app_assoc. f_equal. simpl. by destruct (with_key k r).
Qed.
Lemma build_index_lookup l k : default [] (build_index l !! k) = List.filter (with_key k) l.
Proof. unfold build_index. by rewrite fold_index_lookup, lookup_empty. Qed.

Section memory.
Context `{PyRuntime}.

(** ** Every method keeps the store well formed *)

Lemma persist_store s : ms_items (m_store (snd (persist s))) = ms_items (m_store s) /\
  ms_index (m_store (snd (persist s))) = ms_index (m_store s).
Proof.
  unfold persist, bind, gets. simpl. destruct (ms_file _); [|done]. by destr_match.
Qed.
Lemma persist_ok s : store_ok (m_store s) -> store_ok (m_store (snd (persist s))).
Proof. destruct (persist_store s) as [E1 E2]. unfold store_ok. by rewrite E1, E2. Qed.
Lemma remember_ok make s : store_ok (m_store s) -> store_ok (m_store (snd (remember make s))).
Proof.
  intros [Hv Hi]. unfold remember, bind at 1, time_time, bind at 1, of_res.
  destruct (MemoryRecord_check _) as [r|e] eqn:E; [|done]. apply check_valid in E as [-> Hr].
  unfold bind at 1, modify. set (s1 := with_mstore _ _). assert (Hok : store_ok (m_store s1)).
  { split; simpl; [by apply Forall_app; split; [|constructor]|].
    intros k. by rewrite index_add_lookup, Hi, List.filter_app. }
  apply persist_ok in Hok. unfold bind. by destruct (persist s1) as [[u|e] s2].
Qed.
Lemma unexpired_items now l s :
  exists l' s', unexpired now l s = (Ok l', s') /\ l' `sublist_of` l /\ m_store s' = m_store s.
Proof.
  revert s. induction l as [|r l IH]; intros s; simpl; [by exists [], s|]. unfold bind at 1.
  assert (exists b s1, is_expired r now s = (Ok b, s1) /\ m_store s1 = m_store s) as (b & s1 & -> & Hs1).
  { unfold is_expired. destruct (expires_at r) as [e|]; [|by exists false, s].
    destruct now as [t|]; [by exists (fleb e t), s|]. unfold bind, time_time. simpl. eauto. }
  unfold bind at 1. destruct (IH s1) as (l' & s' & -> & Hl & Hs'). destruct b; simpl.
  - exists l', s'. split_and!; [done|by constructor|congruence].
  - exists (r :: l'), s'. split_and!; [done|by constructor|congruence].
Qed.
Lemma purge_ok now s : store_ok (m_store s) -> store_ok (m_store (snd (purge_expired now s))).
Proof.
  intros [Hv _]. unfold purge_expired, bind at 1, gets, bind at 1.
  destruct (unexpired_items now (ms_items (m_store s)) s) as (l & s1 & -> & Hl & Hs1).
  unfold bind at 1, modify. set (s2 := with_mstore _ _). assert (Hok : store_ok (m_store s2)).
  { split; simpl; [|intros k; apply build_index_lookup]. rewrite Forall_forall in *. intros r Hr.
    apply Hv. by eapply elem_of_sublist. }
  cbv zeta. unfold bind. destruct (_ =? 0)%Z; [done|]. apply persist_ok in Hok. by destruct (persist s2) as [[u|e] s3].
Qed.
Lemma recall_store key inc scope ty s : m_store (snd (recall key inc scope ty s)) = m_store s.
Proof. done. Qed.

(** The methods, and whatever else moves the clock and the log. *)
Inductive memory_step : relation MState :=
| ms_remember make s : memory_step s (snd (remember make s))
| ms_recall key inc scope ty s : memory_step s (snd (recall key inc scope ty s))
| ms_purge now s : memory_step s (snd (purge_expired now s))
| ms_other x s : memory_step s {| m_store := m_store s; m_sys := x |}.
Lemma memory_step_ok s s' : memory_step s s' -> store_ok (m_store s) -> store_ok (m_store s').
Proof. destruct 1; auto using remember_ok, purge_ok. Qed.
Lemma memory_steps_ok s s' : rtc memory_step s s' -> store_ok (m_store s) -> store_ok (m_store s').
Proof. induction 1; eauto using memory_step_ok. Qed.

Lemma dbind_ok {A B} (m : D A) (f : A -> D B) b : dbind m f = dret b -> exists a, m = dret a /\ f a = dret b.
Proof. destruct m as [[a|e]|]; [|done|done]. simpl. eauto. Qed.
Lemma record_from_valid n d r n' : record_from_dict n d = dret (r, n') -> record_valid r.
Proof.
  unfold record_from_dict. cbv zeta. intros Hd.
  repeat lazymatch type of Hd with dbind _ _ = dret _ =>
    let a := fresh "a" in let E := fresh "E" in apply dbind_ok in Hd as (a & E & Hd); try destruct a as [? ?] end.
  injection Hd as <- <-. match goal with Hc : dlift (MemoryRecord_check _) = _ |- _ => injection Hc as Hc; apply check_valid in Hc as [-> Hr] end.
  exact Hr.
Qed.
Lemma records_from_valid n l rs n' : records_from n l = dret (rs, n') -> Forall record_valid rs.
Proof.
  revert n rs n'. induction l as [|v l IH]; intros n rs n'; simpl; [by intros [= <- <-]|].
  intros (d & _ & Hd)%dbind_ok. apply dbind_ok in Hd as ([r n1] & Hr & Hd).
  apply dbind_ok in Hd as ([rs1 n2] & Hl & Hd). injection Hd as <- <-. constructor; [by eapply record_from_valid|eauto].
Qed.
Lemma open_ok file n st n' : open_store file n = dret (st, n') -> store_ok st.
Proof.
  assert (He : store_ok (empty_store file)) by (split; [constructor|intros k; simpl; by rewrite lookup_empty]).
  unfold open_store. destruct file as [[content|]|]; [|by intros [= <- <-]|by intros [= <- <-]].
  intros (doc & _ & Hd)%dbind_ok. apply dbind_ok in Hd as (l & _ & Hd).
  apply dbind_ok in Hd as ([items n1] & Hl & Hd). injection Hd as <- <-.
  split; [by eapply records_from_valid|apply build_index_lookup].
Qed.

(** ** The file *)

(** A record read back from the file: its value as plain JSON, sequences as lists. *)
Definition restored_record (r : MemoryRecord) : MemoryRecord := {|
  rec_key := rec_key r; rec_value := doc_of (asdict_val (rec_value r)); rec_confidence := rec_confidence r;
  rec_provenance := rec_provenance r; rec_type := rec_type r; rec_sensitivity := rec_sensitivity r;
  rec_scope := rec_scope r; rec_source := rec_source r; rec_ttl := rec_ttl r;
  rec_last_verified_at := rec_last_verified_at r;
  rec_conflicts_with := StrSeq false (seq_items (rec_conflicts_with r));
  rec_supersedes := StrSeq false (seq_items (rec_supersedes r)); rec_embedding_id := rec_embedding_id r;
  rec_access_policy := rec_access_policy r; rec_forget_policy := rec_forget_policy r;
  rec_created_at := rec_created_at r |}.

Lemma seq_doc q : json_doc (seq_val q) = Ok (VList (map VStr (seq_items q))).
Proof.
  destruct q as [[] l]; unfold seq_val; cbn [seq_is_tuple seq_items];
    [rewrite json_doc_tuple, <-json_doc_list|]; apply strs_doc_ok.
Qed.
Lemma as_seq_read l : as_seq (VList (map VStr l)) = dret (StrSeq false l).
Proof. unfold as_seq. simpl. by rewrite strs_read. Qed.
(** The document of a record, given that of its value. *)
Definition record_doc (r : MemoryRecord) (w : pyval) : dict pyval :=
  [("key", VStr (rec_key r)); ("value", w); ("confidence", VFloat (rec_confidence r));
   ("provenance", VStr (rec_provenance r)); ("memory_type", VStr (MemoryType_value (rec_type r)));
   ("sensitivity", VStr (MemorySensitivity_value (rec_sensitivity r))); ("scope", VStr (rec_scope r));
   ("source", opt_str_val (rec_source r)); ("ttl", opt_float_doc (rec_ttl r));
   ("last_verified_at", opt_float_doc (rec_last_verified_at r));
   ("conflicts_with", VList (map VStr (seq_items (rec_conflicts_with r))));
   ("supersedes", VList (map VStr (seq_items (rec_supersedes r))));
   ("embedding_id", opt_str_val (rec_embedding_id r)); ("access_policy", opt_str_val (rec_access_policy r));
   ("forget_policy", opt_str_val (rec_forget_policy r)); ("created_at", VFloat (rec_created_at r));
   ("expires_at", opt_float_doc (expires_at r))].
Lemma record_to_doc r d : json_doc (VDict (record_to_dict r)) = Ok d ->
  exists w, json_doc (asdict_val (rec_value r)) = Ok w /\ d = VDict (record_doc r w).
Proof.
  rewrite json_doc_dict. unfold record_to_dict. cbn [res_traverse]. unfold json_field. cbn [fst snd].
  rewrite !seq_doc, !opt_str_doc, !opt_float_doc_ok. simpl json_doc at 1.
  destruct (json_doc (asdict_val (rec_value r))) as [w|]; [|done]. intros [= <-]. eauto.
Qed.
Lemma record_read n r d : record_valid r -> json_doc (VDict (record_to_dict r)) = Ok d ->
  exists d', d = VDict d' /\ record_from_dict n d' = dret (restored_record r, n).
Proof.
  intros Hr (w & Hw & ->)%record_to_doc. eexists. split; [done|].
  unfold record_from_dict, record_doc, field_or, dget_or. cbn.
  rewrite !as_opt_str, !as_opt_float. cbn. rewrite !strs_read. cbn.
  change (enum_of (MemoryType_value (rec_type r))) with (enum_of (A:=MemoryType) (enum_value (rec_type r))).
  change (enum_of (MemorySensitivity_value (rec_sensitivity r)))
    with (enum_of (A:=MemorySensitivity) (enum_value (rec_sensitivity r))).
  rewrite !enum_of_value. cbn.
  assert (Hr' : record_valid (restored_record r)) by (destruct Hr; by split).
  unfold restored_record, doc_of in *. rewrite Hw in *. unfold dlift. rewrite (valid_check _ Hr'). done.
Qed.
Lemma records_read n l ds :
  Forall record_valid l -> Forall2 (fun r d => json_doc (VDict (record_to_dict r)) = Ok d) l ds ->
  records_from n ds = dret (map restored_record l, n).
Proof.
  intros Hv Hl. induction Hl as [|r d l ds Hd _ IH]; [done|]. inversion_clear Hv.
  destruct (record_read n r d) as (d' & -> & Hr); [done|done|]. cbn [records_from as_VDict dbind dret].
  rewrite Hr. cbn [dbind dret]. by rewrite IH.
Qed.
Lemma persist_content s s' :
  persist s = (Ok tt, s') -> ms_file (m_store s) <> None -> exists ds, ms_file (m_store s') = Some (Some (Ok (VList ds))) /\
    Forall2 (fun r d => json_doc (VDict (record_to_dict r)) = Ok d) (ms_items (m_store s)) ds.
Proof.
  unfold persist, bind, gets. intros Hp Hf. destruct (ms_file (m_store s)); [|done]. unfold of_res in Hp.
  destruct (json_doc _) as [doc|e] eqn:Ed; [|done]. injection Hp as <-. simpl.
  rewrite json_doc_list in Ed. apply res_map_inv in Ed as (ds & Hds%res_traverse_ok & <-).
  exists ds. split; [done|]. by apply Forall2_fmap_l in Hds.
Qed.

Lemma recall_loop_filter inc scope ty now l :
  recall_loop inc scope ty now l = map record_to_dict (List.filter
    (fun r => scope_matches scope r && type_matches ty r && (inc || negb (expired_at r now))) l).
Proof.
  induction l as [|r l IH]; simpl; [done|]. rewrite IH.
  destruct (scope_matches scope r), (type_matches ty r), inc, (expired_at r now); done.
Qed.
Lemma filter_filter_bool {A} (f g : A -> bool) l :
  List.filter f (List.filter g l) = List.filter (fun x => g x && f x) l.
Proof. induction l as [|x l IH]; simpl; [done|]. destruct (g x); simpl; by rewrite IH. Qed.

(** ** Properties *)

(** The memory store only ever holds well-formed records, however it was
    opened and whatever was called on it, with arguments valid or not: the
    confidence lies between 0 and 1, the time to live is not negative, a
    record of sensitivity SECRET is only a secret reference; and the key index
    lists for every key exactly its records, in the order they were stored. *)
Theorem memory_well_typed file n st n' sys s :
  open_store file n = dret (st, n') -> rtc memory_step {| m_store := st; m_sys := sys |} s ->
  Forall record_valid (ms_items (m_store s)) /\
  forall k, default [] (ms_index (m_store s) !! k) = List.filter (with_key k) (ms_items (m_store s)).
Proof. intros Ho Hs. apply (memory_steps_ok _ _ Hs). by eapply open_ok. Qed.

(** Recall by the index is the scan of all records it replaces: it returns
    the records with the key that match the scope and type asked for and, unless
    expired ones are included, have not expired at the time read from the
    clock, in the order they were stored; the store is unchanged. *)
Theorem memory_recall_scan key inc scope ty s :
  store_ok (m_store s) ->
  fst (recall key inc scope ty s) = Ok (map record_to_dict (List.filter
    (fun r => with_key key r && (scope_matches scope r && type_matches ty r &&
                                 (inc || negb (expired_at r (time_at (n_time (m_sys s))))))) (ms_items (m_store s)))) /\
  m_store (snd (recall key inc scope ty s)) = m_store s.
Proof.
  intros [_ Hi]. split; [|done]. unfold recall. simpl. by rewrite Hi, recall_loop_filter, filter_filter_bool.
Qed.

(** What remember has stored survives a restart: after it returned on a
    store with a file, opening that file yields every record of the store with
    all its fields, the values as plain JSON, and the rebuilt index. *)
Theorem memory_reload make s r s' n :
  store_ok (m_store s) -> remember make s = (Ok r, s') -> ms_file (m_store s) <> None ->
  ms_items (m_store s') = ms_items (m_store s) ++ [r] /\
  open_store (ms_file (m_store s')) n = dret
    ({| ms_items := map restored_record (ms_items (m_store s'));
        ms_index := build_index (map restored_record (ms_items (m_store s'))); ms_file := ms_file (m_store s') |}, n).
Proof.
  intros Hok Hr Hf. pose proof (remember_ok make s Hok) as Hok'. rewrite Hr in Hok'. cbn [snd] in Hok'. revert Hr.
  unfold remember, bind at 1, time_time, bind at 1, of_res.
  destruct (MemoryRecord_check _) as [r1|e]; [|done]. unfold bind at 1, modify. set (s1 := with_mstore _ _).
  unfold bind. destruct (persist s1) as [[[]|e] s2] eqn:Ep; [|done]. intros [= <- <-].
  pose proof (proj1 (persist_store s1)) as E1. rewrite Ep in E1. cbn [snd] in E1.
  apply persist_content in Ep as (ds & Ef & Hds); [|done]. rewrite Ef, E1. split; [done|]. unfold open_store.
  cbn [dbind dlift dret as_VList]. rewrite (records_read n (ms_items (m_store s1)) ds); [done| |done]. rewrite <-E1. apply Hok'.
Qed.
End memory.

(** ** Witnesses *)

Definition toy_memory : MState := {| m_store := empty_store (Some None); m_sys := sys0 |}.
Definition toy_note (now : float) : MemoryRecord := new_record "goal-1" (VTuple [VInt 1; VStr "note"]) fone "tests" now.
Definition toy_remembered : MState := snd (remember toy_note toy_memory).
Lemma memory_well_typed_witness :
  Forall record_valid (ms_items (m_store toy_remembered)) /\
  forall k, default [] (ms_index (m_store toy_remembered) !! k) =
    List.filter (with_key k) (ms_items (m_store toy_remembered)).
Proof.
  apply (memory_well_typed (Some None) 0 (empty_store (Some None)) 0 sys0 toy_remembered); [reflexivity|].
  apply rtc_once. apply (ms_remember toy_note toy_memory).
Defined.
Lemma toy_remembered_ok : store_ok (m_store toy_remembered).
Proof. apply remember_ok. by eapply (open_ok (Some None) 0). Qed.
Lemma memory_recall_scan_witness :
  fst (recall "goal-1" false (Some "global") None toy_remembered) = Ok [record_to_dict (toy_note (f_of_Z 1000))] /\
  m_store (snd (recall "goal-1" false (Some "global") None toy_remembered)) = m_store toy_remembered.
Proof. apply (memory_recall_scan "goal-1" false (Some "global") None toy_remembered toy_remembered_ok). Defined.
Lemma memory_reload_witness :
  ms_items (m_store toy_remembered) = ms_items (m_store toy_memory) ++ [toy_note (f_of_Z 1000)] /\
  open_store (ms_file (m_store toy_remembered)) 5 = dret
    ({| ms_items := map restored_record (ms_items (m_store toy_remembered));
        ms_index := build_index (map restored_record (ms_items (m_store toy_remembered)));
        ms_file := ms_file (m_store toy_remembered) |}, 5).
Proof.
  apply (memory_reload toy_note toy_memory (toy_note (f_of_Z 1000)) toy_remembered 5);
    [by eapply (open_ok (Some None) 0)|vm_compute; reflexivity|discriminate].
Defined.
