(* ===== verification/EvaluatorProps.v ===== *)
(** What the default evaluators decide: success and failure of a goal in terms
    of the facts. *)
From S2P Require Import Prelude Enums PyValue Goals Evaluator Fixtures.

Section spec.
Context `{PyRuntime}.
Implicit Types fs : gmap string pyval.

(** ** The facts a text criterion asks for *)

Definition tests_hold fs : Prop := fs !! "tests_ok" = Some (VBool true).
Definition file_holds fs : Prop :=
  exists k, k ∈ ["file_patched"; "file_written"; "github_file_updated"] /\ is_Some (fs !! k).
Definition pr_holds fs : Prop := exists pr, fs !! "github_pr" = Some (VDict pr) /\
  (state_of pr = "open" \/ exists n, dget "number" pr = Some n /\ n <> VNone).
Definition ci_green (ci : dict pyval) : Prop := state_of ci ∈ ["success"; "passed"; "green"].
Definition ci_holds fs : Prop := exists ci, fs !! "github_ci_status" = Some (VDict ci) /\ ci_green ci.

(** The rule a text is read by: the first whose needles it contains. *)
Inductive reading : Type := R_TESTS | R_FILE | R_PR | R_CI | R_NONE.
Definition reading_of (c : string) : reading :=
  if text_matches tests_needles c then R_TESTS
  else if text_matches file_needles c then R_FILE
  else if text_matches pr_needles c then R_PR
  else if text_matches ci_needles c then R_CI
  else R_NONE.
Definition text_holds fs (c : string) : Prop :=
  match reading_of c with
  | R_TESTS => tests_hold fs | R_FILE => file_holds fs | R_PR => pr_holds fs | R_CI => ci_holds fs | R_NONE => False
  end.
Definition text_fails fs (c : string) : Prop :=
  match reading_of c with
  | R_TESTS => fs !! "tests_ok" = Some (VBool false)
  | R_CI => exists ci, fs !! "github_ci_status" = Some (VDict ci) /\ ~ ci_green ci
  | _ => False
  end.
(** A required typed criterion fails unless it only waits for a fact to appear. *)
Definition typed_fails fs (c : GoalCriterion) : Prop :=
  gc_required c = true /\ typed_ok c fs = false /\ ~ (gc_op c = "exists" /\ fs !! gc_key c = None).

(** Nothing in the goal can be evaluated: the progress decides. *)
Definition unreadable (g : Goal) : Prop :=
  criteria g = [] /\ Forall (fun c => reading_of c = R_NONE) (success_criteria g).
Definition phase_is (p : option GoalProgress) (x : string) : Prop := exists pr, p = Some pr /\ phase pr = x.
Definition goal_achieved (g : Goal) fs (p : option GoalProgress) : Prop :=
  (unreadable g /\ phase_is p "complete") \/
  ((success_criteria g <> [] \/ Exists (fun c => gc_required c = true) (criteria g)) /\
   Forall (fun c => gc_required c = true -> typed_ok c fs = true) (criteria g) /\
   Forall (text_holds fs) (success_criteria g)).
Definition goal_refuted (g : Goal) fs (p : option GoalProgress) : Prop :=
  (unreadable g /\ phase_is p "failed") \/
  Exists (typed_fails fs) (criteria g) \/ Exists (text_fails fs) (success_criteria g).

(** ** The rules decide them *)

Definition text_evaluation fs (c : string) : CriterionEvaluation :=
  match reading_of c with
  | R_TESTS => tests_evaluate c fs | R_FILE => file_evaluate c fs | R_PR => pr_evaluate c fs
  | R_CI => ci_evaluate c fs | R_NONE => unmatched c "No deterministic rule matched this criterion."
  end.
Definition default_registry : EvaluatorRegistry :=
  map (fun e => (domain e, e)) default_domain_evaluators.
Lemma default_registry_new es : es = [] -> new_evaluator_registry es = Ok default_registry.
Proof. by intros ->. Qed.

Lemma file_loop_status c fs ks : ce_matched (file_loop c fs ks) = true /\
  (ce_status (file_loop c fs ks) = EV_SUCCEEDED <-> exists k, k ∈ ks /\ is_Some (fs !! k)) /\
  ce_status (file_loop c fs ks) <> EV_FAILED.
Proof.
  induction ks as [|k ks (IH1 & IH2 & IH3)]; simpl.
  - split_and!; [done| |done]. split; [done|]. by intros (k & ?%elem_of_nil & _).
  - destruct (fs !! k) as [v|] eqn:E; simpl.
    + split_and!; [done| |done]. split; [|done]. intros _. exists k. split; [left|by rewrite E].
    + split_and!; [done| |done]. rewrite IH2. split; intros (k' & Hk & Hf); exists k'.
      * split; [by right|done].
      * apply elem_of_cons in Hk as [->|]; [|done]. rewrite E in Hf. by destruct Hf.
Qed.
Lemma satisfied_status e : satisfied e = true <-> ce_status e = EV_SUCCEEDED.
Proof. apply bool_decide_eq_true. Qed.
Lemma failed_status e : failed e = true <-> ce_status e = EV_FAILED.
Proof. apply bool_decide_eq_true. Qed.
Lemma tests_status c fs : let e := tests_evaluate c fs in ce_matched e = true /\
  (ce_status e = EV_SUCCEEDED <-> tests_hold fs) /\ (ce_status e = EV_FAILED <-> fs !! "tests_ok" = Some (VBool false)).
Proof.
  unfold tests_evaluate, tests_hold. destruct (fs !! "tests_ok") as [[| [] | | | | | | | | | | | | | |]|];
    simpl; split_and!; split; done.
Qed.
Lemma pr_status c fs : let e := pr_evaluate c fs in ce_matched e = true /\
  (ce_status e = EV_SUCCEEDED <-> pr_holds fs) /\ ce_status e <> EV_FAILED.
Proof.
  unfold pr_evaluate, pr_holds, dget_or. destruct (fs !! "github_pr") as [v|] eqn:E.
  2: { simpl. split_and!; [done| |done]. split; [done|]. by intros (pr & ? & _). }
  destruct v; try (simpl; split_and!; [done| |done]; split; [done|]; by intros (pr & ? & _)).
  destruct (String.eqb_spec (state_of d) "open") as [Es|Es].
  { simpl. split_and!; [done| |done]. split; [|done]. intros _. eauto. }
  destruct (dget "number" d) as [n|] eqn:En; cbn [default id].
  - assert (n = VNone \/ n <> VNone) as [->|Hn] by (destruct n; (by left) || (by right)).
    + simpl. split_and!; [done| |done]. split; [done|]. intros (pr & [= <-] & [?|(m & Hm & Hm')]); [done|].
      rewrite En in Hm. by injection Hm as <-.
    + split_and!; try by destruct n. split; [|by destruct n]. intros _. exists d. split; [done|]. right. eauto.
  - simpl. split_and!; [done| |done]. split; [done|]. intros (pr & [= <-] & [?|(m & Hm & Hm')]); [done|].
    by rewrite En in Hm.
Qed.
Lemma ci_status c fs : let e := ci_evaluate c fs in ce_matched e = true /\
  (ce_status e = EV_SUCCEEDED <-> ci_holds fs) /\
  (ce_status e = EV_FAILED <-> exists ci, fs !! "github_ci_status" = Some (VDict ci) /\ ~ ci_green ci).
Proof.
  unfold ci_evaluate, ci_holds. destruct (fs !! "github_ci_status") as [v|] eqn:E.
  2: { simpl. split_and!; [done| |]; (split; [done|]); by intros (ci & ? & _). }
  destruct v; try (simpl; split_and!; [done| |]; (split; [done|]); by intros (ci & ? & _)).
  pose proof (str_mem_elem (state_of d) ["success"; "passed"; "green"]) as Hg. fold (ci_green d) in Hg.
  destruct (str_mem _ _); simpl; split_and!; try done.
  - split; [|done]. intros _. exists d. split; [done|]. by apply Hg.
  - split; [done|]. intros (ci & [= <-] & Hn). by destruct Hn; apply Hg.
  - split; [done|]. intros (ci & [= <-] & Hc). by apply Hg in Hc.
  - split; [|done]. intros _. exists d. split; [done|]. by intros Hc%Hg.
Qed.
Lemma text_status fs c : let e := text_evaluation fs c in
  (ce_matched e = false <-> reading_of c = R_NONE) /\
  (ce_status e = EV_SUCCEEDED <-> text_holds fs c) /\ (ce_status e = EV_FAILED <-> text_fails fs c).
Proof.
  unfold text_evaluation, text_holds, text_fails. destruct (reading_of c).
  - destruct (tests_status c fs) as (-> & ? & ?). done.
  - destruct (file_loop_status c fs ["file_patched"; "file_written"; "github_file_updated"]) as (Em & ? & ?).
    unfold file_evaluate. by rewrite Em.
  - destruct (pr_status c fs) as (-> & ? & ?). done.
  - destruct (ci_status c fs) as (-> & ? & ?). done.
  - simpl. split_and!; done.
Qed.
#[local] Arguments tests_evaluate : simpl never.
#[local] Arguments file_evaluate : simpl never.
#[local] Arguments pr_evaluate : simpl never.
#[local] Arguments ci_evaluate : simpl never.
#[local] Arguments text_matches : simpl never.
Lemma evaluate_text_default c g w p :
  evaluate_text default_registry c g w p = Ok (text_evaluation (facts w) c).
Proof.
  unfold default_registry, text_evaluation, reading_of. simpl. unfold evaluate_criterion. simpl.
  destruct (text_matches tests_needles c); simpl; [by rewrite (proj1 (tests_status c (facts w)))|].
  destruct (text_matches file_needles c); simpl; [unfold file_evaluate; by rewrite (proj1 (file_loop_status c (facts w) _))|].
  destruct (text_matches pr_needles c); simpl; [by rewrite (proj1 (pr_status c (facts w)))|].
  destruct (text_matches ci_needles c); simpl; [by rewrite (proj1 (ci_status c (facts w)))|done].
Qed.
Lemma evaluate_texts_default cs g w p :
  evaluate_texts default_registry cs g w p = Ok (map (text_evaluation (facts w)) cs).
Proof. induction cs as [|c cs IH]; [done|]. cbn [evaluate_texts map]. by rewrite evaluate_text_default, IH. Qed.

Lemma typed_status c w : let e := evaluate_typed_criterion c w in ce_matched e = true /\
  (ce_status e = EV_SUCCEEDED <-> typed_ok c (facts w) = true) /\
  (gc_required c = true -> ce_status e = EV_FAILED <-> typed_fails (facts w) c).
Proof.
  unfold evaluate_typed_criterion, typed_fails. destruct (typed_ok c (facts w)) eqn:Eo.
  { simpl. split_and!; [done|done|]. intros _. split; [done|]. by intros (_ & ? & _). }
  destruct (String.eqb_spec (gc_op c) "exists") as [Ex|Ex]; simpl.
  - destruct (facts w !! gc_key c) as [v|]; simpl.
    + destruct (gc_required c); split_and!; try done. intros _. split; [|done]. intros _. split_and!; [done|done|]. by intros [_ ?].
    + split_and!; [done|done|]. intros _. split; [done|]. intros (_ & _ & []). done.
  - destruct (gc_required c); split_and!; try done. intros _. split; [|done]. intros _. split_and!; [done|done|]. by intros [? _].
Qed.

(** ** The verdict *)

Lemma required_pairs (f : GoalCriterion -> CriterionEvaluation) (q : GoalCriterion -> bool) l :
  map snd (List.filter (fun ce => q ce.1) (combine l (map f l))) = map f (List.filter q l).
Proof. induction l as [|c l IH]; simpl; [done|]. destruct (q c); simpl; by rewrite IH. Qed.
Definition required_evaluations (g : Goal) (w : WorldState) : list CriterionEvaluation :=
  map (fun c => evaluate_typed_criterion c w) (List.filter gc_required (criteria g)) ++
  map (text_evaluation (facts w)) (success_criteria g).
Lemma verdict_failed required all : verdict required all = EV_FAILED <-> Exists (fun e => ce_status e = EV_FAILED) required.
Proof.
  unfold verdict. rewrite Exists_exists. destruct (existsb failed required) eqn:E.
  - split; [|done]. intros _. apply existsb_exists in E as (e & He & Hf). exists e.
    split; [by apply list_elem_of_In|by apply failed_status].
  - split.
    + destruct (negb _ && _); [done|]. by destruct (existsb satisfied all).
    + intros (e & He & Hf). apply not_true_iff_false in E. destruct E. apply existsb_exists. exists e.
      split; [by apply list_elem_of_In|by apply failed_status].
Qed.
Lemma verdict_succeeded required all :
  verdict required all = EV_SUCCEEDED <->
  required <> [] /\ Forall (fun e => ce_status e = EV_SUCCEEDED /\ ce_matched e = true) required.
Proof.
  unfold verdict. destruct (existsb failed required) eqn:Ef.
  - split; [done|]. intros [_ HF]. apply existsb_exists in Ef as (e & He & Hf%failed_status).
    rewrite Forall_forall in HF. apply list_elem_of_In, HF in He as [Hs _]. congruence.
  - destruct required as [|e0 l]; cbn [is_nil negb andb].
    { split; [by destruct (existsb satisfied all)|by intros [? _]]. }
    destruct (forallb _ (e0 :: l)) eqn:Ea.
    + split; [|done]. intros _. split; [done|]. apply forallb_Forall in Ea. eapply Forall_impl; [exact Ea|].
      intros e [Hs Hm]%andb_prop. by apply satisfied_status in Hs.
    + split; [by destruct (existsb satisfied all)|]. intros [_ HF]. apply not_true_iff_false in Ea. destruct Ea.
      apply forallb_Forall. eapply Forall_impl; [exact HF|]. intros e [Hs Hm]. simpl. rewrite Hm.
      by rewrite (proj2 (satisfied_status e) Hs).
Qed.
Lemma filter_matched_nil fs cs :
  is_nil (List.filter ce_matched (map (text_evaluation fs) cs)) = true <->
  Forall (fun c => reading_of c = R_NONE) cs.
Proof.
  induction cs as [|c cs IH]; simpl; [split; [constructor|done]|]. destruct (text_status fs c) as (Em & _).
  rewrite Forall_cons, <-IH, <-Em. destruct (ce_matched (text_evaluation fs c)); simpl; naive_solver.
Qed.
Lemma fallback_status p : let e := fallback_evaluate p in
  (ce_status e = EV_SUCCEEDED <-> phase_is p "complete") /\ (ce_status e = EV_FAILED <-> phase_is p "failed").
Proof.
  unfold fallback_evaluate, phase_is. destruct p as [p|]; [|simpl; split; split; try done; by intros (? & ? & _)].
  assert (Hp : forall x, (exists pr, Some p = Some pr /\ phase pr = x) <-> phase p = x) by naive_solver.
  rewrite !Hp. destruct (String.eqb_spec (phase p) "complete") as [->|?]; [simpl; by split|].
  destruct (String.eqb_spec (phase p) "blocked") as [->|?]; [simpl; by split|].
  destruct (String.eqb_spec (phase p) "failed") as [->|?]; [simpl; by split|].
  destruct (String.eqb_spec (phase p) "partial") as [->|?]; [simpl; by split|]. simpl. by split.
Qed.
Lemma Forall_filter_bool {A} (q : A -> bool) (P : A -> Prop) l :
  Forall P (List.filter q l) <-> Forall (fun x => q x = true -> P x) l.
Proof.
  induction l as [|x l IH]; simpl; [by rewrite !Forall_nil|]. rewrite Forall_cons, <-IH.
  destruct (q x); rewrite ?Forall_cons; naive_solver.
Qed.
Lemma required_nonempty g w :
  required_evaluations g w <> [] <->
  success_criteria g <> [] \/ Exists (fun c => gc_required c = true) (criteria g).
Proof.
  unfold required_evaluations. induction (criteria g) as [|c l IH]; simpl.
  - rewrite Exists_nil. destruct (success_criteria g); simpl; naive_solver.
  - rewrite Exists_cons. destruct (gc_required c); simpl; naive_solver.
Qed.
Lemma required_all g w :
  Forall (fun e => ce_status e = EV_SUCCEEDED /\ ce_matched e = true) (required_evaluations g w) <->
  Forall (fun c => gc_required c = true -> typed_ok c (facts w) = true) (criteria g) /\
  Forall (text_holds (facts w)) (success_criteria g).
Proof.
  unfold required_evaluations. rewrite Forall_app, !Forall_fmap, Forall_filter_bool. rewrite !Forall_forall.
  split; intros [Ht Hx]; (split; [intros c Hc; specialize (Ht c Hc)|intros c Hc; specialize (Hx c Hc)]); simpl in *.
  - intros Hr. by apply (typed_status c w), Ht.
  - by apply (text_status (facts w) c), Hx.
  - intros Hr. destruct (typed_status c w) as (Em & Es & _). by rewrite Em, Es, Ht.
  - destruct (text_status (facts w) c) as (Em & Es & _). split; [by apply Es|].
    destruct (ce_matched _) eqn:E; [done|]. unfold text_holds in Hx. by rewrite (proj1 Em eq_refl) in Hx.
Qed.
Lemma required_failed g w :
  Exists (fun e => ce_status e = EV_FAILED) (required_evaluations g w) <->
  Exists (typed_fails (facts w)) (criteria g) \/ Exists (text_fails (facts w)) (success_criteria g).
Proof.
  unfold required_evaluations. rewrite Exists_app, !Exists_fmap, !Exists_exists.
  split; (intros [(c & Hc & Hf)|(c & Hc & Hf)]; [left|right]).
  - apply list_elem_of_In, filter_In in Hc as [Hc%list_elem_of_In Hr]. exists c. split; [done|].
    by apply (typed_status c w).
  - exists c. split; [done|]. by apply (text_status (facts w) c).
  - exists c. split; [|by apply (typed_status c w), Hf; apply Hf].
    apply list_elem_of_In, filter_In. split; [by apply list_elem_of_In|apply Hf].
  - exists c. split; [done|]. by apply (text_status (facts w) c).
Qed.
Lemma readable_required g w p : ~ unreadable g -> exists e, evaluate default_registry g w p = Ok e /\
  exists all, ge_status e = verdict (required_evaluations g w) all.
Proof.
  intros Hu. unfold evaluate. rewrite evaluate_texts_default. cbn [res_bind]. cbv zeta.
  rewrite (required_pairs (fun c => evaluate_typed_criterion c w) gc_required).
  destruct (is_nil (map _ (criteria g)) && _) eqn:E; [|eexists; split; [reflexivity|eexists; reflexivity]].
  destruct Hu. apply andb_prop in E as [E1 E2]. split; [by destruct (criteria g)|by eapply filter_matched_nil].
Qed.
Lemma unreadable_fallback g w p : unreadable g -> exists e, evaluate default_registry g w p = Ok e /\
  ge_status e = ce_status (fallback_evaluate p).
Proof.
  intros [Hc Hs]. unfold evaluate. rewrite evaluate_texts_default, Hc. cbn [res_bind map is_nil]. cbv zeta.
  rewrite (proj2 (filter_matched_nil (facts w) _) Hs). cbn [andb]. eexists. split; reflexivity.
Qed.
Lemma unreadable_dec g : unreadable g \/ ~ unreadable g.
Proof.
  unfold unreadable. destruct (criteria g); [|right; by intros [? _]].
  destruct (is_nil (List.filter ce_matched (map (text_evaluation ∅) (success_criteria g)))) eqn:E.
  - left. split; [done|]. by apply filter_matched_nil in E.
  - right. intros [_ Hn]. apply (filter_matched_nil ∅) in Hn. congruence.
Qed.
(** A goal that cannot be read holds no required criterion that is met or refuted. *)
Lemma unreadable_none g fs : unreadable g ->
  (success_criteria g <> [] \/ Exists (fun c => gc_required c = true) (criteria g)) ->
  ~ Forall (text_holds fs) (success_criteria g).
Proof.
  intros [Hc Hs] [Hn|He] HF; [|rewrite Hc in He; by apply Exists_nil in He].
  destruct (success_criteria g) as [|c l]; [done|]. apply Forall_cons in Hs as [Hr _]. apply Forall_cons in HF as [Hh _].
  unfold text_holds in Hh. by rewrite Hr in Hh.
Qed.
Lemma unreadable_unrefuted g fs : unreadable g ->
  ~ (Exists (typed_fails fs) (criteria g) \/ Exists (text_fails fs) (success_criteria g)).
Proof.
  intros [Hc Hs] [He|He]; [rewrite Hc in He; by apply Exists_nil in He|].
  apply Exists_exists in He as (c & Hin & Hf). rewrite Forall_forall in Hs. unfold text_fails in Hf.
  by rewrite (Hs c Hin) in Hf.
Qed.

Lemma evaluate_default g w p :
  exists e, evaluate default_registry g w p = Ok e /\
    (ge_status e = EV_SUCCEEDED <-> goal_achieved g (facts w) p) /\
    (ge_status e = EV_FAILED <-> goal_refuted g (facts w) p).
Proof.
  unfold goal_achieved, goal_refuted. destruct (unreadable_dec g) as [Hu|Hu].
  - destruct (unreadable_fallback g w p Hu) as (e & -> & Es). exists e. split; [done|]. rewrite Es.
    destruct (fallback_status p) as [-> ->]. pose proof (unreadable_none g (facts w) Hu).
    pose proof (unreadable_unrefuted g (facts w) Hu). naive_solver.
  - destruct (readable_required g w p Hu) as (e & -> & all & Es). exists e. split; [done|].
    rewrite Es, verdict_succeeded, verdict_failed, required_nonempty, required_all, required_failed. naive_solver.
Qed.

End spec.
