(* ===== verification/QueueRuns.v ===== *)
(** The methods of the task queue in closed form: each one either raises and
    leaves the state alone, or stores one changed task. *)
From S2P Require Import Prelude Enums PyValue Goals Plans Serialization TaskSpec AuditTrail TaskQueue.

(** A changed task, in memory and in the database. *)
Definition store_task (t : RuntimeTask) (q : TaskQueue) : TaskQueue := {|
  q_tasks := <[task_id t := t]> (q_tasks q); q_order := q_order q; q_index := q_index q;
  q_db := (fun db => {| db_tasks := map (update_row t) (db_tasks db);
                        db_idempotency := db_idempotency db |}) <$> q_db q |}.

Section runs.
Context `{PyRuntime} {X : Type}.
Implicit Types s : QState X.

(** The clock after [now_or now]. *)
Definition tick (now : option float) (x : Sys) : Sys :=
  match now with Some _ => x | None => {| sys_log := sys_log x; n_time := S (n_time x); n_uuid := n_uuid x |} end.
Definition instant (now : option float) (x : Sys) : float := match now with Some t => t | None => time_at (n_time x) end.
(** The state after storing [t] and recording an event, from clock [x]. *)
Definition stored (t : RuntimeTask) (et msg : string) (pl : dict pyval) (x : Sys) s : QState X := {|
  qs_queue := store_task t (qs_queue s); qs_plans := qs_plans s; qs_sys := record et msg pl x; qs_env := qs_env s |}.

Lemma now_or_run now s : now_or now s = (Ok (instant now (qs_sys s)), with_qsys (tick now (qs_sys s)) s).
Proof. destruct now, s; done. Qed.
Lemma persist_run t (s : QState X) :
  persist_update t s = (Ok tt, with_queue {| q_tasks := q_tasks (qs_queue s); q_order := q_order (qs_queue s);
    q_index := q_index (qs_queue s); q_db := q_db (store_task t (qs_queue s)) |} s).
Proof. destruct s as [[m o i [db|]] p x e]; done. Qed.
Lemma store_run t et msg pl s :
  (assign t ;;; audit et msg pl ;;; persist_update t ;;; ret t) s = (Ok t, stored t et msg pl (qs_sys s) s).
Proof. destruct s as [[m o i [db|]] p x e]; done. Qed.

Lemma stored_put t t0 et msg pl x s :
  task_id t0 = task_id t -> stored t et msg pl x (with_queue (put_task t0 (qs_queue s)) s) = stored t et msg pl x s.
Proof.
  intros Hid. destruct s as [q p y e]. unfold stored, store_task, with_queue, put_task. simpl.
  by rewrite Hid, insert_insert_eq.
Qed.

(** Running a method that requires a task and its lock. *)
Definition owns (worker : string) (t : RuntimeTask) : bool :=
  bool_decide (rt_status t = T_RUNNING) && bool_decide (locked_by t = Some worker).
Definition locked_run {A} (id worker : string) (k : RuntimeTask -> M (QState X) exn A) s : res exn A * QState X :=
  match q_tasks (qs_queue s) !! id with
  | None => (Raise (Exn KeyError ("Unknown task: " +:+ id)), s)
  | Some t => if owns worker t then k t s else (Raise (Exn PermissionError "Task is not locked by this worker"), s)
  end.
Lemma require_run {A} id (k : RuntimeTask -> M (QState X) exn A) s :
  (let! t := require_task id in k t) s =
  match q_tasks (qs_queue s) !! id with
  | None => (Raise (Exn KeyError ("Unknown task: " +:+ id)), s)
  | Some t => k t s
  end.
Proof. unfold require_task, bind. simpl. by destruct (q_tasks _ !! id). Qed.
Lemma lock_run {A} id worker (k : RuntimeTask -> M (QState X) exn A) s :
  (let! t := require_task id in require_lock t worker ;;; k t) s = locked_run id worker k s.
Proof.
  rewrite require_run. unfold locked_run. destruct (q_tasks _ !! id) as [t|]; [|done].
  unfold require_lock, owns, bind. by destruct (_ && _).
Qed.

Lemma heartbeat_run id worker now s :
  heartbeat id worker now s = locked_run id worker (fun t s =>
    let t' := set_life (rt_status t) (locked_by t) (attempts t) (started_at t) (Some (instant now (qs_sys s)))
                (finished_at t) (failure_reason t) t in
    (Ok t', stored t' "task.heartbeat" "Task heartbeat recorded"
              [("task_id", VStr (task_id t)); ("worker_id", VStr worker)] (tick now (qs_sys s)) s)) s.
Proof.
  unfold heartbeat. rewrite lock_run. unfold locked_run. destruct (q_tasks _ !! id) as [t|]; [|done].
  destruct (owns worker t); [|done]. unfold bind at 1. rewrite now_or_run. by rewrite store_run.
Qed.
Definition finished_task (st : TaskStatus) (fin : float) (t : RuntimeTask) : RuntimeTask :=
  set_life st None (attempts t) (started_at t) (last_heartbeat_at t) (Some fin) (failure_reason t) t.
Lemma complete_run id worker now s :
  complete id worker now s = locked_run id worker (fun t s =>
    let t' := finished_task T_SUCCEEDED (instant now (qs_sys s)) t in
    (Ok t', stored t' "task.completed" "Task completed"
              [("task_id", VStr (task_id t)); ("worker_id", VStr worker)] (tick now (qs_sys s)) s)) s.
Proof.
  unfold complete, finish. unfold bind at 1. rewrite lock_run. unfold locked_run.
  destruct (q_tasks _ !! id) as [t|]; [|done]. destruct (owns worker t); [|done].
  unfold bind at 1. rewrite now_or_run. destruct s as [[m o i [db|]] p x e]; done.
Qed.
Definition failed_task (why : string) (fin : float) (t : RuntimeTask) : RuntimeTask :=
  set_life T_FAILED None (attempts t) (started_at t) (last_heartbeat_at t) (Some fin) (Some why) t.
Lemma fail_run id worker why now s :
  fail id worker why now s = locked_run id worker (fun t s =>
    let t' := failed_task why (instant now (qs_sys s)) t in
    (Ok t', stored t' "task.failed" why
              [("task_id", VStr (task_id t)); ("worker_id", VStr worker)] (tick now (qs_sys s)) s)) s.
Proof.
  unfold fail, finish. unfold bind at 1. rewrite lock_run. unfold locked_run.
  destruct (q_tasks _ !! id) as [t|]; [|done]. destruct (owns worker t); [|done].
  unfold bind at 1. rewrite now_or_run.
  etransitivity; [exact (store_run (failed_task why (instant now (qs_sys s)) t) _ _ _ _)|].
  f_equal. exact (stored_put (failed_task why (instant now (qs_sys s)) t)
    (finished_task T_FAILED (instant now (qs_sys s)) t) "task.failed" why
    [("task_id", VStr (task_id t)); ("worker_id", VStr worker)] (tick now (qs_sys s))
    (with_qsys (tick now (qs_sys s)) s) eq_refl).
Qed.
Definition retried_task (why : string) (t : RuntimeTask) : RuntimeTask :=
  set_life T_QUEUED None (attempts t) None None None (Some why) t.
Lemma retry_run id worker why s :
  retry id worker why s = locked_run id worker (fun t s =>
    let t' := retried_task why t in
    (Ok t', stored t' "task.retry_scheduled" why
       [("task_id", VStr (task_id t)); ("worker_id", VStr worker); ("attempts", VInt (attempts t));
        ("max_attempts", VInt (max_attempts (retry_policy t)))] (qs_sys s) s)) s.
Proof.
  unfold retry. rewrite lock_run. unfold locked_run. destruct (q_tasks _ !! id) as [t|]; [|done].
  destruct (owns worker t); [|done]. by rewrite store_run.
Qed.
Definition paused_task (t : RuntimeTask) : RuntimeTask :=
  set_life T_PAUSED None (attempts t) (started_at t) (last_heartbeat_at t) (finished_at t) (failure_reason t) t.
Lemma pause_run id worker s :
  pause id worker s = locked_run id worker (fun t s =>
    (Ok (paused_task t), stored (paused_task t) "task.paused" "Task paused"
       [("task_id", VStr (task_id t)); ("worker_id", VStr worker)] (qs_sys s) s)) s.
Proof.
  unfold pause. rewrite lock_run. unfold locked_run. destruct (q_tasks _ !! id) as [t|]; [|done].
  destruct (owns worker t); [|done]. by rewrite store_run.
Qed.
Definition cancelled_task (why : string) (fin : float) (t : RuntimeTask) : RuntimeTask :=
  set_life T_CANCELLED None (attempts t) (started_at t) (last_heartbeat_at t) (Some fin) (Some why) t.
Lemma cancel_run id why now s :
  cancel id why now s =
  match q_tasks (qs_queue s) !! id with
  | None => (Raise (Exn KeyError ("Unknown task: " +:+ id)), s)
  | Some t => let t' := cancelled_task why (instant now (qs_sys s)) t in
      (Ok t', stored t' "task.cancelled" why [("task_id", VStr (task_id t))] (tick now (qs_sys s)) s)
  end.
Proof.
  unfold cancel. rewrite require_run. destruct (q_tasks _ !! id) as [t|]; [|done].
  unfold bind at 1. rewrite now_or_run. by rewrite store_run.
Qed.
Definition resumed_task (t : RuntimeTask) : RuntimeTask :=
  set_life T_QUEUED (locked_by t) (attempts t) (started_at t) (last_heartbeat_at t) (finished_at t) (failure_reason t) t.
Lemma resume_run id s :
  resume id s =
  match q_tasks (qs_queue s) !! id with
  | None => (Raise (Exn KeyError ("Unknown task: " +:+ id)), s)
  | Some t => if bool_decide (rt_status t = T_PAUSED)
      then (Ok (resumed_task t), stored (resumed_task t) "task.resumed" "Task resumed"
              [("task_id", VStr (task_id t))] (qs_sys s) s)
      else (Raise (Exn ValueError "Only paused tasks can be resumed"), s)
  end.
Proof.
  unfold resume. rewrite require_run. destruct (q_tasks _ !! id) as [t|]; [|done].
  destruct (bool_decide _); [|done]. cbn [negb]. by rewrite store_run.
Qed.

(** ** Claiming *)

Fixpoint first_queued (m : gmap string RuntimeTask) (order : list string) : option RuntimeTask :=
  match order with
  | [] => None
  | id :: order' =>
      match m !! id with
      | Some t => if bool_decide (rt_status t = T_QUEUED) then Some t else first_queued m order'
      | None => None
      end
  end.
Definition claimed_task (worker : string) (at_ : float) (t : RuntimeTask) : RuntimeTask :=
  set_life T_RUNNING (Some worker) (attempts t + 1) (Some at_) (Some at_) (finished_at t) (failure_reason t) t.
Definition plan_id_in s (t : RuntimeTask) : string :=
  match qs_plans s !! rt_plan t with Some p => po_plan_id p | None => "" end.
(** Tasks of the order exist, and their plans too. *)
Definition order_ok s : Prop :=
  forall id, id ∈ q_order (qs_queue s) ->
    exists t, q_tasks (qs_queue s) !! id = Some t /\ rt_plan t < length (qs_plans s).
Lemma plan_id_run t s : rt_plan t < length (qs_plans s) -> plan_id_of t s = (Ok (plan_id_in s t), s).
Proof.
  intros Hl. apply lookup_lt_is_Some in Hl as [p Hp]. unfold plan_id_of, get_plan, plan_id_in, bind, gets.
  by rewrite Hp.
Qed.
Lemma claim_loop_run worker at_ order s :
  (forall id, id ∈ order -> exists t, q_tasks (qs_queue s) !! id = Some t /\ rt_plan t < length (qs_plans s)) ->
  claim_loop worker at_ order s =
  match first_queued (q_tasks (qs_queue s)) order with
  | None => (Ok None, s)
  | Some t => let t' := claimed_task worker at_ t in
      (Ok (Some t'), stored t' "task.claimed" "Task claimed by worker"
         [("task_id", VStr (task_id t)); ("plan_id", VStr (plan_id_in s t)); ("worker_id", VStr worker);
          ("attempts", VInt (attempts t + 1))] (qs_sys s) s)
  end.
Proof.
  induction order as [|id order IH]; intros Ho; [done|]. cbn [claim_loop first_queued].
  destruct (Ho id) as (t & Ht & Hp); [left|]. unfold bind at 1. cbn [gets]. rewrite Ht.
  destruct (bool_decide (rt_status t = T_QUEUED)); cbn [negb]; [|apply IH; intros i Hi; apply Ho; by right].
  unfold bind at 1. cbn [assign modify]. unfold bind at 1.
  rewrite plan_id_run by done. destruct s as [[m o ix [db|]] p x e]; done.
Qed.
Lemma claim_run worker now s :
  order_ok s ->
  claim worker now s =
  match first_queued (q_tasks (qs_queue s)) (q_order (qs_queue s)) with
  | None => (Ok None, with_qsys (tick now (qs_sys s)) s)
  | Some t => let t' := claimed_task worker (instant now (qs_sys s)) t in
      (Ok (Some t'), stored t' "task.claimed" "Task claimed by worker"
         [("task_id", VStr (task_id t)); ("plan_id", VStr (plan_id_in s t)); ("worker_id", VStr worker);
          ("attempts", VInt (attempts t + 1))] (tick now (qs_sys s)) s)
  end.
Proof.
  intros Ho. unfold claim. unfold bind at 1. rewrite now_or_run. unfold bind at 1. cbn [gets].
  rewrite claim_loop_run; [|exact Ho]. by destruct (first_queued _ _).
Qed.
(** [first_queued] is the first task of the order that is queued. *)
Lemma first_queued_spec m order t :
  first_queued m order = Some t ->
  exists l id l', order = l ++ id :: l' /\ m !! id = Some t /\ rt_status t = T_QUEUED /\
    forall i, i ∈ l -> exists t', m !! i = Some t' /\ rt_status t' <> T_QUEUED.
Proof.
  induction order as [|id order IH]; [done|]. simpl. destruct (m !! id) as [t0|] eqn:E; [|done].
  case_bool_decide as Hq.
  - intros [= ->]. exists [], id, order. split_and!; [done|done|done|]. intros i Hi. by apply elem_of_nil in Hi.
  - intros (l & i & l' & -> & Hi & Hs & Hl)%IH. exists (id :: l), i, l'. split_and!; [done|done|done|].
    intros j [->|Hj]%elem_of_cons; [eauto|auto].
Qed.
Lemma first_queued_none m order :
  (forall id, id ∈ order -> is_Some (m !! id)) ->
  first_queued m order = None <-> forall id t, id ∈ order -> m !! id = Some t -> rt_status t <> T_QUEUED.
Proof.
  induction order as [|id order IH]; intros Ho.
  - split; [|done]. intros _ id t Hi. by apply elem_of_nil in Hi.
  - simpl. destruct (Ho id) as [t Ht]; [left|]. rewrite Ht. case_bool_decide as Hq.
    + split; [done|]. intros Hn. exfalso. exact (Hn id t ltac:(left) Ht Hq).
    + rewrite IH by (intros i Hi; apply Ho; by right). split.
      * intros Hn i t' [->|Hi]%elem_of_cons Hi'; [congruence|eauto].
      * intros Hn i t' Hi. apply Hn. by right.
Qed.
End runs.
