(* ===== verification/QueueInv.v ===== *)
(** The invariant of the task queue and its refinement of the abstract queue:
    the theory behind the properties of QueueProps.v. *)
From S2P Require Import Prelude Enums PyValue Goals Plans Serialization TaskSpec AuditTrail TaskQueue QueueRuns.

Definition view_of (t : RuntimeTask) : TaskView :=
  {| tv_status := rt_status t; tv_owner := locked_by t; tv_attempts := attempts t;
     tv_max := max_attempts (retry_policy t) |}.
Definition views (q : TaskQueue) : gmap string TaskView := view_of <$> q_tasks q.

(** The fields fixed at creation. *)
Record same_static (t t' : RuntimeTask) : Prop := {
  st_plan : rt_plan t' = rt_plan t;
  st_id : task_id t' = task_id t;
  st_retry : retry_policy t' = retry_policy t;
  st_timeout : timeout_policy t' = timeout_policy t;
  st_key : rt_key t' = rt_key t;
  st_enqueued : enqueued_at t' = enqueued_at t;
}.

(** A row holds what [new_row] writes for the task as it is now. *)
Definition row_current (m : gmap string RuntimeTask) (r : TaskRow) : Prop :=
  exists t, m !! row_id r = Some t /\ r = new_row t (row_plan r).
Record db_ok (m : gmap string RuntimeTask) (ix : gmap string string) (db : TaskDb) : Prop := {
  db_ids : NoDup (map row_id (db_tasks db));
  db_rows : Forall (row_current m) (db_tasks db);
  db_docs : Forall (fun r => exists p, plan_wf p /\ serialize_plan p = Ok (row_plan r)) (db_tasks db);
  db_keys : NoDup (map fst (db_idempotency db));
  db_index : forall k id, (k, id) ∈ db_idempotency db -> ix !! k = Some id;
}.
Record queue_ok (q : TaskQueue) (plans : nat) : Prop := {
  qo_ids : forall id t, q_tasks q !! id = Some t -> task_id t = id;
  qo_order : forall id, id ∈ q_order q <-> is_Some (q_tasks q !! id);
  qo_nodup : NoDup (q_order q);
  qo_index : forall k id, q_index q !! k = Some id ->
    exists t, q_tasks q !! id = Some t /\ real_key (rt_key t) = Some k;
  qo_keys : forall id t k, q_tasks q !! id = Some t -> real_key (rt_key t) = Some k -> q_index q !! k = Some id;
  qo_plans : forall id t, q_tasks q !! id = Some t -> rt_plan t < plans;
  qo_policies : forall id t, q_tasks q !! id = Some t -> retry_wf (retry_policy t) /\ timeout_wf (timeout_policy t);
  qo_db : forall db, q_db q = Some db -> db_ok (q_tasks q) (q_index q) db;
}.

Section inv.
Context `{PyRuntime} {X : Type}.
Implicit Types s : QState X.

Definition state_ok s : Prop := queue_ok (qs_queue s) (length (qs_plans s)).

Lemma empty_queue_ok n : queue_ok (empty_queue None) n.
Proof.
  split; cbn [empty_queue q_tasks q_order q_index q_db]; try done.
  - intros id. rewrite lookup_empty. split; [by intros Hi%elem_of_nil|by intros [? ?]].
  - constructor.
Qed.
Definition empty_db : TaskDb := {| db_tasks := []; db_idempotency := [] |}.
Lemma empty_db_queue_ok n : queue_ok (empty_queue (Some empty_db)) n.
Proof.
  destruct (empty_queue_ok n) as [H1 H2 H3 H4 H5 H6 H7 _]. split; try done. intros db [= <-].
  split; try constructor. intros k id Hi. by apply elem_of_nil in Hi.
Qed.

(** ** The two kinds of steps *)

(** The queue is untouched. *)
Definition quiet s s' : Prop := qs_queue s' = qs_queue s /\ length (qs_plans s) <= length (qs_plans s').
(** One task changes, in memory and in the database. *)
Definition touch s s' : Prop := exists t t',
  q_tasks (qs_queue s) !! task_id t = Some t /\ same_static t t' /\
  (view_of t' = view_of t \/ view_step (view_of t) (view_of t')) /\
  qs_queue s' = store_task t' (qs_queue s) /\ qs_plans s' = qs_plans s.
Definition work : relation (QState X) := rtc (fun s s' => quiet s s' \/ touch s s').
#[export] Instance work_preorder : PreOrder work.
Proof. unfold work. apply _. Qed.
Lemma quiet_work s s' : quiet s s' -> work s s'.
Proof. intros Hq. apply rtc_once. by left. Qed.
Lemma touch_work s s' : touch s s' -> work s s'.
Proof. intros Hq. apply rtc_once. by right. Qed.

(** ** Storing a changed task keeps the invariant *)

Lemma update_row_current m t t' r :
  m !! task_id t = Some t -> same_static t t' -> row_current m r ->
  row_current (<[task_id t' := t']> m) (update_row t' r).
Proof.
  intros Hm Hs (t0 & Ht0 & Hr). unfold row_current, update_row. rewrite (st_id _ _ Hs).
  destruct (String.eqb_spec (row_id r) (task_id t)) as [E|E].
  - exists t'. simpl. rewrite E, lookup_insert_eq. split; [done|]. rewrite E, Hm in Ht0. injection Ht0 as <-.
    rewrite Hr. unfold new_row. simpl. by rewrite (st_id _ _ Hs), (st_retry _ _ Hs), (st_timeout _ _ Hs),
      (st_key _ _ Hs), (st_enqueued _ _ Hs).
  - exists t0. by rewrite lookup_insert_ne.
Qed.
Lemma update_row_id t r : row_id (update_row t r) = row_id r.
Proof. unfold update_row. by destruct (_ =? _). Qed.
Lemma update_row_plan t r : row_plan (update_row t r) = row_plan r.
Proof. unfold update_row. by destruct (_ =? _). Qed.
Lemma store_db_ok m ix db t t' :
  m !! task_id t = Some t -> same_static t t' -> db_ok m ix db ->
  db_ok (<[task_id t' := t']> m) ix
    {| db_tasks := map (update_row t') (db_tasks db); db_idempotency := db_idempotency db |}.
Proof.
  intros Hm Hs [H1 H2 Hd H3 H4]. split; simpl; [| | |done|done].
  - rewrite map_map. by rewrite (map_ext _ row_id) by (intros r; apply update_row_id).
  - rewrite Forall_fmap. eapply Forall_impl; [exact H2|]. intros r. by apply (update_row_current m t).
  - rewrite Forall_fmap. eapply Forall_impl; [exact Hd|]. intros r. simpl. by rewrite update_row_plan.
Qed.
Lemma store_ok q n t t' :
  queue_ok q n -> q_tasks q !! task_id t = Some t -> same_static t t' -> queue_ok (store_task t' q) n.
Proof.
  intros [H1 H2 H3 H4 H5 H6 H7 H8] Ht Hs.
  assert (Hid : task_id t' = task_id t) by apply Hs.
  assert (Hl : forall id x, q_tasks (store_task t' q) !! id = Some x ->
            exists y, q_tasks q !! id = Some y /\ same_static y x).
  { intros id x. simpl. rewrite Hid. destruct (decide (id = task_id t)) as [->|Hne].
    - rewrite lookup_insert_eq. intros [= <-]. eauto.
    - rewrite lookup_insert_ne by done. intros Hx. exists x. split; [done|by split]. }
  split.
  - intros id x (y & Hy & Hxy)%Hl. rewrite (st_id _ _ Hxy). by apply H1.
  - intros id. simpl. rewrite H2, Hid, lookup_insert_is_Some. split; [|intros [<-|[_ ?]]; eauto].
    intros Hi. destruct (decide (task_id t = id)); auto.
  - exact H3.
  - simpl. rewrite Hid. intros k id (x & Hx & Hk)%H4. destruct (decide (id = task_id t)) as [->|Hne].
    + exists t'. rewrite lookup_insert_eq. split; [done|]. rewrite (st_key _ _ Hs). congruence.
    + exists x. by rewrite lookup_insert_ne.
  - intros id x k (y & Hy & Hxy)%Hl Hk. simpl. apply (H5 id y k); [done|]. by rewrite <-(st_key _ _ Hxy).
  - intros id x (y & Hy & Hxy)%Hl. rewrite (st_plan _ _ Hxy). by eapply H6.
  - intros id x (y & Hy & Hxy)%Hl. rewrite (st_retry _ _ Hxy), (st_timeout _ _ Hxy). by eapply H7.
  - intros db. simpl. destruct (q_db q) as [db0|]; [|done]. intros [= <-]. by eapply store_db_ok, H8.
Qed.

Lemma quiet_ok s s' : quiet s s' -> state_ok s -> state_ok s'.
Proof.
  intros [Hq Hp] Hok. unfold state_ok. rewrite Hq. destruct Hok as [H1 H2 H3 H4 H5 H6 H7 H8].
  split; try done. intros id t Ht. pose proof (H6 id t Ht). lia.
Qed.
Lemma touch_ok s s' : touch s s' -> state_ok s -> state_ok s'.
Proof.
  intros (t & t' & Ht & Hs & _ & Hq & Hp) Hok. unfold state_ok. rewrite Hq, Hp. by eapply store_ok.
Qed.
Lemma touch_moves s s' : touch s s' -> queue_moves (views (qs_queue s)) (views (qs_queue s')).
Proof.
  intros (t & t' & Ht & Hs & Hv & Hq & _). rewrite Hq. unfold views, store_task. cbn [q_tasks].
  rewrite fmap_insert, (st_id _ _ Hs).
  assert (Hl : (view_of <$> q_tasks (qs_queue s)) !! task_id t = Some (view_of t)) by (by rewrite lookup_fmap, Ht).
  destruct Hv as [->|Hv].
  - rewrite insert_id by done. apply rtc_refl.
  - apply rtc_once. by eapply qm_task.
Qed.
Lemma work_ok s s' : work s s' -> state_ok s -> state_ok s'.
Proof. induction 1 as [|s1 s2 s3 [Hq|Ht] _ IH]; eauto using quiet_ok, touch_ok. Qed.
Lemma work_moves s s' : work s s' -> queue_moves (views (qs_queue s)) (views (qs_queue s')).
Proof.
  induction 1 as [s|s1 s2 s3 [[Hq _]|Ht] _ IH]; [apply rtc_refl|by rewrite <-Hq|].
  etrans; [by apply touch_moves|done].
Qed.
Lemma state_order_ok s : state_ok s -> order_ok s.
Proof. intros [_ H2 _ _ _ H6 _ _] id Hi. apply H2 in Hi as [t Ht]. eauto. Qed.

(** ** Every method works within the invariant *)

Definition works {A} (m : M (QState X) exn A) : Prop := forall s, state_ok s -> work s (snd (m s)).
Lemma works_bind {A B} (m : M (QState X) exn A) (f : A -> M (QState X) exn B) :
  works m -> (forall a, works (f a)) -> works (bind m f).
Proof.
  intros Hm Hf s Hok. unfold bind. specialize (Hm s Hok). destruct (m s) as [[a|e] s'] eqn:E; simpl in *; [|done].
  etrans; [exact Hm|]. apply Hf. by eapply work_ok.
Qed.
Lemma works_quiet {A} (m : M (QState X) exn A) : keeps quiet m -> works m.
Proof. intros Hm s _. apply quiet_work, Hm. Qed.
#[export] Instance quiet_preorder : PreOrder quiet.
Proof. split; [intros s; by split|]. intros a b c [H1 H2] [H3 H4]. split; [congruence|lia]. Qed.

Lemma set_life_static st lock n a b c why t : same_static t (set_life st lock n a b c why t).
Proof. by split. Qed.
Lemma stored_touch t t' et msg pl x s :
  state_ok s -> (exists id, q_tasks (qs_queue s) !! id = Some t) -> same_static t t' ->
  view_of t' = view_of t \/ view_step (view_of t) (view_of t') -> touch s (stored t' et msg pl x s).
Proof.
  intros Hok [id Ht] Hs Hv. exists t, t'. split_and!; [|done|done|done|done].
  by rewrite (qo_ids _ _ Hok id t Ht).
Qed.
Lemma owns_owned w t : owns w t = true -> owned w (view_of t).
Proof. unfold owns, owned. rewrite andb_true_iff, !bool_decide_eq_true. done. Qed.

Lemma locked_works {A} id w (k : RuntimeTask -> M (QState X) exn A) s :
  (forall t, q_tasks (qs_queue s) !! id = Some t -> owned w (view_of t) -> work s (snd (k t s))) ->
  work s (snd (locked_run id w k s)).
Proof.
  intros Hk. unfold locked_run. destruct (q_tasks _ !! id) as [t|] eqn:Et; [|simpl; done].
  destruct (owns w t) eqn:Eo; [|simpl; done]. by apply Hk, owns_owned.
Qed.
(** One changed task, by a move the abstract queue has. *)
Ltac stored_work := apply touch_work; eapply stored_touch; [done|eauto|apply set_life_static|].
Lemma heartbeat_works id w now : works (heartbeat id w now).
Proof.
  intros s Hok. rewrite heartbeat_run. apply locked_works. intros t Ht _. simpl. stored_work. by left.
Qed.
Lemma complete_works id w now : works (complete id w now).
Proof.
  intros s Hok. rewrite complete_run. apply locked_works. intros t Ht Ho. simpl. stored_work.
  right. eapply (vs_finish (view_of t)); eauto.
Qed.
Lemma fail_works id w why now : works (fail id w why now).
Proof.
  intros s Hok. rewrite fail_run. apply locked_works. intros t Ht Ho. simpl. stored_work.
  right. eapply (vs_finish (view_of t)); eauto.
Qed.
Lemma retry_works id w why : works (retry id w why).
Proof.
  intros s Hok. rewrite retry_run. apply locked_works. intros t Ht Ho. simpl. stored_work.
  right. by eapply (vs_retry (view_of t)).
Qed.
Lemma pause_works id w : works (pause id w).
Proof.
  intros s Hok. rewrite pause_run. apply locked_works. intros t Ht Ho. simpl. stored_work.
  right. by eapply (vs_pause (view_of t)).
Qed.
Lemma cancel_works id why now : works (cancel id why now).
Proof.
  intros s Hok. rewrite cancel_run. destruct (q_tasks _ !! id) as [t|] eqn:Et; [|simpl; done]. simpl.
  stored_work. right. apply (vs_cancel (view_of t)).
Qed.
Lemma resume_works id : works (resume id).
Proof.
  intros s Hok. rewrite resume_run. destruct (q_tasks _ !! id) as [t|] eqn:Et; [|simpl; done].
  case_bool_decide as Hp; [|simpl; done]. simpl. stored_work. right. by apply (vs_resume (view_of t)).
Qed.
Lemma claim_works w now : works (claim w now).
Proof.
  intros s Hok. rewrite claim_run by (by apply state_order_ok).
  destruct (first_queued _ _) as [t|] eqn:Ef; simpl.
  - apply first_queued_spec in Ef as (l & id & l' & _ & Ht & Hq & _). stored_work. right.
    by apply (vs_claim (view_of t)).
  - apply quiet_work. by split.
Qed.

Lemma audit_quiet_queue et msg pl : keeps quiet (audit (St:=QState X) et msg pl).
Proof. intros s. by split. Qed.
Lemma time_quiet_queue : keeps quiet (time_time (St:=QState X)).
Proof. intros s. by split. Qed.
Lemma plan_id_quiet t : keeps quiet (plan_id_of (X:=X) t).
Proof. intros s. unfold plan_id_of, get_plan, bind, gets. by destruct (qs_plans s !! rt_plan t). Qed.
Lemma get_plan_quiet i : keeps quiet (get_plan (X:=X) i).
Proof. intros s. unfold get_plan, bind, gets. by destruct (qs_plans s !! i). Qed.

(** The watchdog. *)
Lemma check_loop_works ts ids acc : works (check_loop ts ids acc).
Proof.
  revert acc. induction ids as [|id ids IH]; intros acc s Hok; [simpl; done|]. cbn [check_loop].
  rewrite require_run. destruct (q_tasks (qs_queue s) !! id) as [t|] eqn:Et; [|simpl; done].
  case_bool_decide as Hr; cbn [negb]; [|by apply IH]. destruct (timeout_reason t ts) as [why|]; [|by apply IH].
  set (t' := set_life _ _ _ _ _ _ _ t).
  unfold bind at 1. cbn [assign modify]. unfold bind at 1. rewrite persist_run.
  set (s1 := with_queue _ _).
  assert (Ht : touch s s1).
  { exists t, t'. split_and!; [|apply set_life_static| |by destruct s as [[? ? ? []] ? ? ?]|done].
    - by rewrite (qo_ids _ _ Hok id t Et).
    - right. apply (vs_timeout (view_of t)). exact Hr. }
  etrans; [by apply touch_work|]. apply (works_bind (plan_id_of t')).
  - apply works_quiet, plan_id_quiet.
  - intros pid. apply works_bind; [apply works_quiet, audit_quiet_queue|intros _; apply IH].
  - by eapply touch_ok.
Qed.
Lemma watchdog_works now : works (watchdog_check now).
Proof.
  unfold watchdog_check. apply works_bind; [|intros ts; apply works_bind; [|intros l; apply check_loop_works]].
  - apply works_quiet. intros s. rewrite now_or_run. by split.
  - apply works_quiet. intros s. by split.
Qed.

(** ** Enqueueing *)

Definition fresh_task (plan : nat) (id : string) (now : float) (key : option string) (rp : option RetryPolicy)
    (tp : option TimeoutPolicy) : RuntimeTask := {|
  rt_plan := plan; task_id := id; rt_status := T_QUEUED; retry_policy := default default_retry_policy rp;
  timeout_policy := default default_timeout_policy tp; rt_key := key; attempts := 0; locked_by := None;
  enqueued_at := now; started_at := None; last_heartbeat_at := None; finished_at := None; failure_reason := None |}.
(** The queue with a new task, before the database is written. *)
Definition add_task (t : RuntimeTask) (q : TaskQueue) : TaskQueue := {|
  q_tasks := <[task_id t := t]> (q_tasks q); q_order := q_order q ++ [task_id t];
  q_index := match real_key (rt_key t) with Some k => <[k := task_id t]> (q_index q) | None => q_index q end;
  q_db := q_db q |}.
(** What the constructors of the arguments have checked, and a uuid not seen before. *)
Record enqueue_pre (plan : nat) (rp : option RetryPolicy) (tp : option TimeoutPolicy) s : Prop := {
  ep_fresh : q_tasks (qs_queue s) !! uuid_at (n_uuid (qs_sys s)) = None;
  ep_plan : plan < length (qs_plans s);
  ep_wf : forall p, qs_plans s !! plan = Some p -> plan_wf p;
  ep_retry : retry_wf (default default_retry_policy rp);
  ep_timeout : timeout_wf (default default_timeout_policy tp);
}.

Lemma add_index_ok q t n k id :
  queue_ok q n -> q_tasks q !! task_id t = None -> (forall k, real_key (rt_key t) = Some k -> q_index q !! k = None) ->
  q_index (add_task t q) !! k = Some id <->
  (real_key (rt_key t) = Some k /\ id = task_id t) \/ q_index q !! k = Some id.
Proof.
  intros Hok Hf Hk. unfold add_task. simpl. destruct (real_key (rt_key t)) as [k'|] eqn:E; [|naive_solver].
  destruct (decide (k = k')) as [->|Hne].
  - rewrite lookup_insert_eq, (Hk k' eq_refl). naive_solver.
  - rewrite lookup_insert_ne by done. naive_solver.
Qed.
Lemma add_task_ok q t n :
  queue_ok q n -> q_tasks q !! task_id t = None -> (forall k, real_key (rt_key t) = Some k -> q_index q !! k = None) ->
  rt_plan t < n -> retry_wf (retry_policy t) -> timeout_wf (timeout_policy t) -> queue_ok (add_task t q) n.
Proof.
  intros Hok Hf Hk Hp Hr Ht. pose proof (fun k id => add_index_ok q t n k id Hok Hf Hk) as Hix.
  destruct Hok as [H1 H2 H3 H4 H5 H6 H7 H8].
  assert (Hl : forall id x, q_tasks (add_task t q) !! id = Some x <->
            (id = task_id t /\ x = t) \/ q_tasks q !! id = Some x).
  { intros id x. simpl. destruct (decide (id = task_id t)) as [->|Hne].
    - rewrite lookup_insert_eq, Hf. naive_solver.
    - rewrite lookup_insert_ne by done. naive_solver. }
  split.
  - intros id x [[-> ->]|Hx]%Hl; [done|by apply H1].
  - intros id. cbn [add_task q_order q_tasks]. rewrite elem_of_app, list_elem_of_singleton, H2, lookup_insert_is_Some.
    destruct (decide (id = task_id t)); naive_solver.
  - cbn [add_task q_order]. apply NoDup_app. split_and!; [done| |apply NoDup_singleton].
    intros id Hi ->%list_elem_of_singleton. apply H2 in Hi as [? ?]. congruence.
  - intros k id [[Hk' ->]|Hi]%Hix.
    + exists t. split; [apply Hl; auto|done].
    + destruct (H4 k id Hi) as (x & Hx & Hxk). exists x. split; [apply Hl; auto|done].
  - intros id x k [[-> ->]|Hx]%Hl Hxk; apply Hix; [by left|right; by apply (H5 id x k)].
  - intros id x [[-> ->]|Hx]%Hl; [done|by eapply H6].
  - intros id x [[-> ->]|Hx]%Hl; [done|by eapply H7].
  - intros db Hdb. simpl in Hdb. destruct (H8 db Hdb) as [D1 D2 Dd D3 D4]. split; [done| |done|done|].
    + eapply Forall_impl; [exact D2|]. intros r (x & Hx & Hr'). exists x. split; [apply Hl; auto|done].
    + intros k id Hi. apply Hix. right. by apply D4.
Qed.
(** Adding the row of a task that is in the queue. *)
Lemma add_row_ok m ix db t p doc :
  db_ok m ix db -> plan_wf p -> serialize_plan p = Ok doc -> m !! task_id t = Some t -> task_id t ∉ map row_id (db_tasks db) ->
  db_ok m ix {| db_tasks := db_tasks db ++ [new_row t doc]; db_idempotency := db_idempotency db |}.
Proof.
  intros [D1 D2 Dd D3 D4] Hp Hdoc Hm Hn. split; simpl; [| | |done|done].
  - rewrite map_app. simpl. apply NoDup_app. split_and!; [done| |apply NoDup_singleton].
    intros id Hi ->%list_elem_of_singleton. done.
  - apply Forall_app. split; [done|]. apply Forall_singleton. by exists t.
  - apply Forall_app. split; [done|]. apply Forall_singleton. by exists p.
Qed.
Lemma add_key_ok m ix rows l k id :
  db_ok m ix {| db_tasks := rows; db_idempotency := l |} -> k ∉ map fst l -> ix !! k = Some id ->
  db_ok m ix {| db_tasks := rows; db_idempotency := l ++ [(k, id)] |}.
Proof.
  intros [D1 D2 Dd D3 D4] Hn Hi. split; simpl in *; [done|done|done| |].
  - rewrite map_app. simpl. apply NoDup_app. split_and!; [done| |apply NoDup_singleton].
    intros k' Hk' ->%list_elem_of_singleton. done.
  - intros k' id' [Hin|Hin]%elem_of_app; [by apply D4|]. apply list_elem_of_singleton in Hin. by simplify_eq.
Qed.
Lemma put_db_ok q n db : queue_ok q n -> db_ok (q_tasks q) (q_index q) db -> queue_ok (put_db db q) n.
Proof. intros [H1 H2 H3 H4 H5 H6 H7 H8] Hdb. split; try done. simpl. by intros ? [= <-]. Qed.

(** Writing the database changes nothing else. *)
Definition db_only s s' : Prop :=
  q_tasks (qs_queue s') = q_tasks (qs_queue s) /\ q_order (qs_queue s') = q_order (qs_queue s) /\
  q_index (qs_queue s') = q_index (qs_queue s) /\ qs_plans s' = qs_plans s /\ qs_env s' = qs_env s /\
  qs_sys s' = qs_sys s.
Lemma persist_enqueue_ok t s :
  state_ok s -> (forall p, qs_plans s !! rt_plan t = Some p -> plan_wf p) ->
  q_tasks (qs_queue s) !! task_id t = Some t ->
  state_ok (snd (persist_enqueue t s)) /\ db_only s (snd (persist_enqueue t s)).
Proof.
  intros Hok Hwf Ht. assert (Hrefl : state_ok s /\ db_only s s) by (split; [done|by split_and!]).
  pose (P := fun r : res exn unit * QState X => state_ok (snd r) /\ db_only s (snd r)).
  change (P (persist_enqueue t s)).
  unfold persist_enqueue, bind at 1. cbn [gets]. destruct (q_db (qs_queue s)) as [db|] eqn:Edb; [|exact Hrefl].
  pose proof (qo_db _ _ Hok db Edb) as Hdb. unfold get_plan, bind, gets.
  destruct (qs_plans s !! rt_plan t) as [p|]; [|exact Hrefl]. unfold ret at 1, of_res.
  destruct (serialize_plan p) as [doc|e] eqn:Edoc; [|exact Hrefl].
  case_bool_decide as Hin; [exact Hrefl|]. cbn [modify].
  pose proof (add_row_ok _ _ _ _ p doc Hdb (Hwf p eq_refl) Edoc Ht Hin) as Hdb1.
  assert (H1 : state_ok (with_queue (put_db {| db_tasks := db_tasks db ++ [new_row t doc];
                 db_idempotency := db_idempotency db |} (qs_queue s)) s)) by (by apply put_db_ok).
  destruct (rt_key t) as [k|] eqn:Ek; [|split; [exact H1|by split_and!]].
  destruct (k =? "") eqn:Eke; [split; [exact H1|by split_and!]|].
  case_bool_decide as Hk; [split; [exact H1|by split_and!]|]. cbn [modify snd]. split; [|by split_and!].
  apply put_db_ok; [done|]. apply add_key_ok; [done|done|].
  apply (qo_keys _ _ Hok _ t k Ht). unfold real_key. by rewrite Ek, Eke.
Qed.

(** The two branches of [enqueue]. *)
Definition known_key (key : option string) s : option (string * string) :=
  real_key key ≫= fun k => (pair k) <$> q_index (qs_queue s) !! k.
Definition next_task (plan : nat) (key : option string) (rp : option RetryPolicy) (tp : option TimeoutPolicy) s :
    RuntimeTask :=
  fresh_task plan (uuid_at (n_uuid (qs_sys s))) (time_at (n_time (qs_sys s))) key rp tp.
Definition enqueued (t : RuntimeTask) s : QState X := {|
  qs_queue := add_task t (qs_queue s); qs_plans := qs_plans s;
  qs_sys := record "task.enqueued" "Task enqueued"
    [("task_id", VStr (task_id t)); ("plan_id", VStr (plan_id_in s t)); ("idempotency_key", opt_str_field (rt_key t))]
    {| sys_log := sys_log (qs_sys s); n_time := S (n_time (qs_sys s)); n_uuid := S (n_uuid (qs_sys s)) |};
  qs_env := qs_env s |}.
Lemma known_key_inv key k id s : known_key key s = Some (k, id) -> real_key key = Some k /\ q_index (qs_queue s) !! k = Some id.
Proof.
  unfold known_key. destruct (real_key key) as [k'|]; [|done]. simpl. destruct (q_index _ !! k') eqn:E; [|done].
  by intros [= -> ->].
Qed.
Lemma enqueue_known plan key rp tp s k id :
  state_ok s -> known_key key s = Some (k, id) ->
  exists t, q_tasks (qs_queue s) !! id = Some t /\ real_key (rt_key t) = Some k /\
    enqueue plan key rp tp s =
    (Ok t, with_qsys (record "task.deduplicated" "Task idempotency key already exists"
       [("task_id", VStr id); ("plan_id", VStr (plan_id_in s t)); ("idempotency_key", VStr k);
        ("status", VStr (TaskStatus_value (rt_status t)))] (qs_sys s)) s).
Proof.
  intros Hok Hk. pose proof (known_key_inv _ _ _ _ Hk) as [_ Hi]. destruct (qo_index _ _ Hok k id Hi) as (t & Ht & Htk).
  exists t. split_and!; [done|done|]. unfold enqueue, bind at 1. cbn [gets].
  change (real_key key ≫= fun k => (pair k) <$> q_index (qs_queue s) !! k) with (known_key key s). rewrite Hk, Ht.
  unfold bind at 1. rewrite plan_id_run by exact (qo_plans _ _ Hok id t Ht).
  by rewrite (qo_ids _ _ Hok id t Ht).
Qed.
Lemma enqueue_unknown plan key rp tp s :
  plan < length (qs_plans s) -> known_key key s = None ->
  enqueue plan key rp tp s =
  (persist_enqueue (next_task plan key rp tp s) ;;; ret (next_task plan key rp tp s)) (enqueued (next_task plan key rp tp s) s).
Proof.
  intros Hp Hk. unfold enqueue, bind at 1. cbn [gets].
  change (real_key key ≫= fun k => (pair k) <$> q_index (qs_queue s) !! k) with (known_key key s). rewrite Hk.
  unfold enqueue_new. unfold bind at 1. cbn [uuid4]. unfold bind at 1. cbn [time_time]. unfold bind at 1. cbn [modify].
  unfold bind at 1. rewrite plan_id_run by exact Hp. by destruct s.
Qed.
Lemma enqueue_ok plan key rp tp s :
  state_ok s -> enqueue_pre plan rp tp s ->
  state_ok (snd (enqueue plan key rp tp s)) /\
  queue_moves (views (qs_queue s)) (views (qs_queue (snd (enqueue plan key rp tp s)))).
Proof.
  intros Hok [Hf Hp Hw Hr Ht]. destruct (known_key key s) as [[k id]|] eqn:Ek.
  { destruct (enqueue_known plan key rp tp s k id Hok Ek) as (t & _ & _ & ->). simpl.
    split; [exact Hok|apply rtc_refl]. }
  rewrite enqueue_unknown by done. set (t := next_task plan key rp tp s).
  assert (Hok1 : state_ok (enqueued t s)).
  { apply (add_task_ok (qs_queue s) t); [done|exact Hf| |exact Hp|exact Hr|exact Ht].
    intros k Hk. unfold known_key in Ek. simpl in Hk. rewrite Hk in Ek. simpl in Ek.
    by destruct (q_index (qs_queue s) !! k). }
  destruct (persist_enqueue_ok t (enqueued t s) Hok1 Hw) as [Hok2 (Hq & _)]; [apply lookup_insert_eq|].
  assert (Hs : snd ((persist_enqueue t ;;; ret t) (enqueued t s)) = snd (persist_enqueue t (enqueued t s))).
  { unfold bind. by destruct (persist_enqueue t _) as [[[]|] ?]. }
  rewrite Hs. split; [done|]. unfold views. rewrite Hq. simpl. rewrite fmap_insert. apply rtc_once.
  change (view_of t) with (new_view (max_attempts (default default_retry_policy rp))). apply qm_enqueue; [|exact Hr].
  rewrite lookup_fmap. by rewrite Hf.
Qed.

(** The runner: the kernel changes plans but removes none. *)
Context (kernel_run : nat -> M (KState X) exn unit).
Definition kernel_grows : Prop :=
  forall i, keeps (fun k k' => length (k_plans k) <= length (k_plans k')) (kernel_run i).
Lemma handle_failure_works t w why now : works (handle_failure t w why now).
Proof. unfold handle_failure. destruct (_ <? _)%Z; [apply retry_works|apply fail_works]. Qed.
Lemma attempt_quiet i : kernel_grows -> keeps quiet (attempt kernel_run i).
Proof.
  intros Hk s. specialize (Hk i {| k_plans := qs_plans s; k_sys := qs_sys s; k_env := qs_env s |}).
  unfold attempt, catch, bind, run_kernel. destruct (kernel_run i _) as [[[]|e] k]; by split.
Qed.
Lemma conclude_works t w now : works (conclude t w now).
Proof.
  unfold conclude. apply works_bind; [apply works_quiet, get_plan_quiet|]. intros p.
  apply works_bind; [apply works_quiet, audit_quiet_queue|]. intros _.
  case_bool_decide; [apply complete_works|apply handle_failure_works].
Qed.
Lemma run_next_works w now : kernel_grows -> works (run_next kernel_run w now).
Proof.
  intros Hk. unfold run_next. apply works_bind; [apply claim_works|]. intros [t|].
  - apply works_bind; [apply works_quiet, plan_id_quiet|]. intros pid.
    apply works_bind; [apply works_quiet, audit_quiet_queue|]. intros _.
    apply works_bind; [by apply works_quiet, attempt_quiet|]. intros raised.
    apply works_bind; [|intros t'; by apply works_quiet].
    destruct raised; [apply handle_failure_works|apply conclude_works].
  - apply works_bind; [apply works_quiet, audit_quiet_queue|]. intros _. by apply works_quiet.
Qed.
End inv.
