(* ===== verification/AuditProps.v ===== *)
(** Properties of the audit log: what verification accepts, and what an
    intact last hash protects. *)
From S2P Require Import Prelude Enums PyValue Sanitization Goals Plans Tools AuditTrail.
From S2P Require Import Goals Plans Causal Egress Policy Approval Gates Transactions Fixtures.

Section verify.
Context `{PyRuntime}.

Lemma neq_VInt x y : py_neq (VInt x) (VInt y) = false <-> x = y.
Proof.
  unfold py_neq. simpl. rewrite negb_false_iff. destruct (Z.compare_spec x y); simpl; split; try done; lia.
Qed.
Lemma neq_VStr x y : py_neq (VStr x) (VStr y) = false <-> x = y.
Proof. unfold py_neq. simpl. rewrite negb_false_iff. apply String.eqb_eq. Qed.
Lemma if_nil {A} (b : bool) (x : A) : (if b then [x] else []) = [] <-> b = false.
Proof. by destruct b. Qed.

Lemma record_issues_nil i seq prev e :
  record_issues i seq prev (event_asdict e) = [] <->
  sequence e = seq /\ previous_hash e = prev /\ event_hash e = hash_event_record (event_asdict e).
Proof.
  unfold record_issues. cbv zeta.
  replace (dget "sequence" (event_asdict e)) with (Some (VInt (sequence e))) by reflexivity.
  replace (dget "previous_hash" (event_asdict e)) with (Some (VStr (previous_hash e))) by reflexivity.
  replace (dget "event_hash" (event_asdict e)) with (Some (VStr (event_hash e))) by reflexivity.
  cbn [default from_option id].
  rewrite !app_nil, !if_nil, !neq_VStr, neq_VInt. done.
Qed.
Lemma verify_loop_nil i seq prev es :
  verify_loop i seq prev (map event_asdict es) = [] <-> chain_from prev seq es.
Proof.
  revert i seq prev. induction es as [|e es IH]; intros i seq prev; [done|].
  cbn [map verify_loop chain_from]. rewrite app_nil, record_issues_nil.
  replace (default VNone (dget "event_hash" (event_asdict e))) with (VStr (event_hash e)) by reflexivity.
  replace (if truthy (VStr (event_hash e)) then py_str (VStr (event_hash e)) else "") with (event_hash e).
  - rewrite IH. tauto.
  - simpl. destruct (String.eqb_spec (event_hash e) "") as [->|]; reflexivity.
Qed.
Lemma verify_records_chain es : ok (verify_event_records (map event_asdict es)) = true <-> chain_valid es.
Proof.
  unfold verify_event_records, chain_valid. rewrite <-(verify_loop_nil 0).
  by destruct (verify_loop _ _ _ _).
Qed.
Lemma log_ok_verifies l : log_ok l -> ok (verify_integrity l) = true.
Proof.
  intros [Hc Hf]. unfold verify_integrity, records. destruct (al_file l) as [lines|]; [subst lines|];
    by apply verify_records_chain.
Qed.

(** ** The text of a record determines the hash it points back to *)

Definition is_hex (c : ascii) : bool := is_digit c || ascii_in 97 102 c.
Definition hex64 (s : string) : Prop := String.length s = 64%nat /\ all_chars is_hex s = true.

Lemma str_app_inj_r (a a' b b' : string) :
  String.length b = String.length b' -> a +:+ b = a' +:+ b' -> a = a' /\ b = b'.
Proof.
  intros Hl. revert a'. induction a as [|x a IH]; intros [|x' a'] E; rewrite ?str_app_cons in E.
  - done.
  - exfalso. change ("" +:+ b) with b in E. subst b. simpl in Hl. rewrite str_length_app in Hl. lia.
  - exfalso. change ("" +:+ b') with b' in E. subst b'. simpl in Hl. rewrite str_length_app in Hl. lia.
  - injection E as -> E. destruct (IH a' E) as [-> ->]. done.
Qed.
Lemma str_app_tail_inj n h h' t :
  String.length h = n -> String.length h' = n -> h +:+ t = h' +:+ t -> h = h'.
Proof.
  revert h h'. induction n as [|n IH]; intros [|c h] [|c' h'] Hl Hl' E; simpl in *; try done.
  rewrite !str_app_cons in E. injection E as -> E. f_equal. eapply IH; [| |exact E]; lia.
Qed.
Lemma json_char_hex c : is_hex c = true -> json_char c = String c "".
Proof. by destruct c as [[] [] [] [] [] [] [] []]. Qed.
Lemma json_string_hex s : all_chars is_hex s = true -> json_string s = String dq (s +:+ String dq "").
Proof.
  intros Hs. unfold json_string. f_equal. f_equal. induction s as [|c s IH]; simpl in *; [done|].
  apply andb_true_iff in Hs as [Hc Hs]. rewrite json_char_hex, IH by done. done.
Qed.

(** The text of a record: a part that depends on the other fields, the
    previous hash, the sequence number. *)
Lemma record_text_shape e :
  exists a, record_text (event_asdict e) =
    a +:+ json_string (previous_hash e) +:+ "," +:+ json_string "sequence" +:+ ":" +:+ str_Z (sequence e) +:+ "}".
Proof.
  set (enc := json_string). set (dump := json_dumps "," ":" enc).
  assert (E : record_text (event_asdict e) = "{" +:+ str_join "," (map (fun kv => enc kv.1 +:+ ":" +:+ kv.2)
    [("created_at", dump (VFloat (ev_created_at e))); ("event_id", enc (event_id e));
     ("event_type", enc (event_type e)); ("message", enc (ev_message e)); ("payload", dump (VDict (payload e)));
     ("previous_hash", enc (previous_hash e)); ("sequence", str_Z (sequence e))]) +:+ "}") by reflexivity.
  rewrite E. clear E. cbn [map str_join fst snd].
  eexists ("{" +:+ enc "created_at" +:+ ":" +:+ dump (VFloat (ev_created_at e)) +:+ ","
    +:+ enc "event_id" +:+ ":" +:+ enc (event_id e) +:+ "," +:+ enc "event_type" +:+ ":" +:+ enc (event_type e) +:+ ","
    +:+ enc "message" +:+ ":" +:+ enc (ev_message e) +:+ ","
    +:+ enc "payload" +:+ ":" +:+ dump (VDict (payload e)) +:+ "," +:+ enc "previous_hash" +:+ ":").
  rewrite !str_app_assoc. reflexivity.
Qed.
Lemma record_text_prev e e' :
  hex64 (previous_hash e) -> hex64 (previous_hash e') -> sequence e = sequence e' ->
  record_text (event_asdict e) = record_text (event_asdict e') -> previous_hash e = previous_hash e'.
Proof.
  intros [L1 X1] [L2 X2] Hs Ht.
  destruct (record_text_shape e) as [a Ea], (record_text_shape e') as [a' Ea'].
  rewrite Ea, Ea', Hs, (json_string_hex (previous_hash e)), (json_string_hex (previous_hash e')) in Ht by done.
  apply str_app_inj_r in Ht as [_ Ht].
  - rewrite !str_app_cons in Ht. injection Ht as Ht. rewrite !str_app_assoc in Ht. by eapply str_app_tail_inj; [| |exact Ht].
  - rewrite !str_app_cons. simpl. by rewrite !str_length_app, L1, L2.
Qed.

(** ** Tamper evidence *)

Definition event_text (e : AuditEvent) : string := record_text (event_asdict e).
Definition last_hash (prev : string) (es : list AuditEvent) : string :=
  match last es with Some e => event_hash e | None => prev end.
(** Two records with different texts and the same SHA-256 digest. *)
Definition collision (es es' : list AuditEvent) : Prop :=
  exists e e', e ∈ es /\ e' ∈ es' /\ event_text e <> event_text e' /\
    sha256_hex (event_text e) = sha256_hex (event_text e').

Lemma chain_hex seq prev es e :
  (forall s, hex64 (sha256_hex s)) -> hex64 prev -> chain_from prev seq es -> last es = Some e -> hex64 (event_hash e).
Proof.
  intros Hh. revert seq prev. induction es as [|x es IH]; intros seq prev Hp; [done|].
  simpl. intros (_ & _ & Hx & Hc). destruct es as [|y es]; [|intros Hl; eapply (IH _ (event_hash x)); [rewrite Hx; apply Hh|exact Hc|exact Hl]].
  intros [= <-]. rewrite Hx. apply Hh.
Qed.
Lemma last_hash_snoc prev es e : last_hash prev (es ++ [e]) = event_hash e.
Proof. unfold last_hash. by rewrite last_snoc. Qed.

Lemma chains_equal_or_collide prev seq es es' :
  (forall s, hex64 (sha256_hex s)) -> hex64 prev ->
  chain_from prev seq es -> chain_from prev seq es' ->
  length es = length es' -> last_hash prev es = last_hash prev es' ->
  map event_text es = map event_text es' \/ collision es es'.
Proof.
  intros Hh Hp. revert es'. induction es as [|e es IH] using rev_ind; intros es' Hc Hc' Hl Hlast.
  { destruct es'; [by left|done]. }
  destruct (rev es') as [|e' r] eqn:Er.
  { rewrite <-(rev_involutive es'), Er in Hl. rewrite length_app in Hl. simpl in Hl. lia. }
  assert (es' = rev r ++ [e']) as -> by (by rewrite <-(rev_involutive es'), Er).
  rewrite !length_app in Hl. simpl in Hl. rewrite !last_hash_snoc in Hlast.
  apply chain_from_app in Hc as [Hc (Hs & Hprev & Hhe & _)].
  apply chain_from_app in Hc' as [Hc' (Hs' & Hprev' & Hhe' & _)].
  destruct (decide (event_text e = event_text e')) as [Et|Hne].
  - assert (Hlen : length es = length (rev r)) by lia.
    assert (Hx : forall l x, chain_from prev seq l -> previous_hash x = last_hash prev l -> hex64 (previous_hash x)).
    { intros l x Hcl ->. unfold last_hash. destruct (last l) eqn:El; [by eapply chain_hex|done]. }
    assert (Eprev : previous_hash e = previous_hash e').
    { apply record_text_prev; [exact (Hx _ _ Hc Hprev)|exact (Hx _ _ Hc' Hprev')|by rewrite Hs, Hs', Hlen|exact Et]. }
    destruct (IH (rev r)) as [IHt|(x & x' & ? & ? & ?)]; try done.
    + unfold last_hash. by rewrite <-Hprev, <-Hprev'.
    + left. rewrite !map_app, IHt. simpl. by rewrite Et.
    + right. exists x, x'. rewrite !elem_of_app. naive_solver.
  - right. exists e, e'. rewrite !elem_of_app, !list_elem_of_singleton. split_and!; [by right|by right|done|].
    fold (hash_event_record (event_asdict e)) (hash_event_record (event_asdict e')).
    unfold event_text. fold (hash_event_record (event_asdict e)) (hash_event_record (event_asdict e')). congruence.
Qed.
End verify.

(** ** Properties *)

Section props.
Context `{PyRuntime}.

(** C37: verification of a sequence of audit records succeeds exactly on the
    hash chains: consecutive sequence numbers from 1, each record pointing to
    the hash of its predecessor (the genesis hash for the first) and carrying
    the SHA-256 of its own canonical text. *)
Theorem audit_verification_exact es :
  ok (verify_event_records (map event_asdict es)) = true <-> chain_valid es.
Proof. apply verify_records_chain. Qed.

(** C5: tamper evidence: two logs of the same length that both verify and end
    in the same hash record the same texts throughout, unless they exhibit two
    different texts with the same SHA-256 digest. *)
Theorem audit_tamper_evident es es' :
  (forall s, hex64 (sha256_hex s)) ->
  ok (verify_event_records (map event_asdict es)) = true ->
  ok (verify_event_records (map event_asdict es')) = true ->
  length es = length es' -> last_hash GENESIS_HASH es = last_hash GENESIS_HASH es' ->
  map event_text es = map event_text es' \/ collision es es'.
Proof.
  intros Hh Hv Hv'. apply verify_records_chain in Hv, Hv'. intros Hl Hlast. by apply (chains_equal_or_collide GENESIS_HASH 1).
Qed.

(** What [record] writes: an event whose message and payload (plain data)
    contain nothing secret-like is recorded unchanged up to sanitizing, and
    the result is clean; otherwise the whole event is replaced by an
    [audit.secret_blocked] event that carries neither message nor payload. *)
Theorem audit_record_content et msg pl :
  json_like (VDict pl) = true ->
  (has_secret_like (VStr msg) || has_secret_like (VDict pl) = false ->
   exists d, record_content et msg pl = (et, msg, d) /\ clean (VDict d) = true) /\
  (has_secret_like (VStr msg) || has_secret_like (VDict pl) = true ->
   exists cls why, record_content et msg pl =
     ("audit.secret_blocked", "Audit payload contained secret-like value and was blocked",
      [("original_event_type", VStr et); ("error_type", VStr cls); ("reason", VStr why)])).
Proof.
  intros Hj. unfold record_content.
  pose proof (sanitize_reject_ok "$.message" (VStr msg)) as Om.
  pose proof (sanitize_reject_ok "$.payload" (VDict pl)) as Op.
  destruct (sanitize_for_boundary REJECT "$.message" (VStr msg)) as [m|em] eqn:Em; simpl in Om.
  2: { symmetry in Om. apply negb_false_iff in Om. simpl. rewrite Om. split; [done|]. intros _. simpl. eauto. }
  symmetry in Om. apply negb_true_iff in Om. simpl in Em.
  destruct (string_value msg REJECT "$.message") as [m'|] eqn:Es; [|done].
  apply string_value_reject_inv in Es as [-> _]. injection Em as <-.
  replace (has_secret_like (VStr msg)) with false by (symmetry; exact Om). cbn [orb].
  destruct (sanitize_for_boundary REJECT "$.payload" (VDict pl)) as [p|ep] eqn:Ep; cbn [is_ok] in Op.
  - symmetry in Op. apply negb_true_iff in Op. rewrite Op. split; [|done]. intros _.
    assert (Hc : clean p = true) by (by eapply sanitize_reject_clean).
    simpl in Ep. destruct (sanitize_mapping _ _ _ _ _) as [d|] eqn:Ed; [|done]. injection Ep as <-.
    simpl. eauto.
  - symmetry in Op. apply negb_false_iff in Op. rewrite Op. split; [done|]. intros _. simpl. eauto.
Qed.
End props.

(** ** Witnesses *)

Definition toy_sys : Sys := {| sys_log := new_log; n_time := 0; n_uuid := 0 |}.
Definition toy_log (msg : string) : list AuditEvent :=
  events (sys_log (record "b" msg [("k", VInt 2)] (record "a" "first" [] toy_sys))).
Lemma toy_hash_hex s : hex64 (toy_hash s).
Proof.
  unfold toy_hash. set (x := checksum 7 s).
  assert (Hd : forall n, is_hex (hex_digit (N.to_nat (n mod 16))) = true).
  { intros n. assert (Hb : (N.to_nat (n mod 16) < 16)%nat).
    { pose proof (N.mod_lt n 16 ltac:(done)). lia. }
    revert Hb. generalize (N.to_nat (n mod 16)). intros m Hm.
    do 16 (destruct m as [|m]; [done|]). lia. }
  assert (Hh : forall n y acc, String.length (hex_digits n y acc) = (n + String.length acc)%nat /\
            (all_chars is_hex acc = true -> all_chars is_hex (hex_digits n y acc) = true)).
  { induction n as [|n IH]; intros y acc; [done|]. destruct (IH (y / 16)%N
      (String (hex_digit (N.to_nat (y mod 16))) acc)) as [L A]. cbn [hex_digits]. rewrite L.
    split; [simpl; lia|]. intros Ha. apply A. cbn [all_chars]. by rewrite Hd, Ha. }
  destruct (Hh 16%nat x "") as [L A]. specialize (A eq_refl).
  set (h := hex_digits 16 x "") in *. change (String.length h = 16)%nat in L.
  clearbody h. split; [by rewrite !str_length_app, L|]. by rewrite !all_chars_app, A.
Qed.
Lemma audit_tamper_evident_witness :
  map event_text (toy_log "x") = map event_text (toy_log "x") \/ collision (toy_log "x") (toy_log "x").
Proof.
  apply (@audit_tamper_evident toy_runtime (toy_log "x") (toy_log "x") toy_hash_hex); vm_compute; reflexivity.
Defined.
Lemma audit_record_content_witness :
  (exists d, record_content "step.executed" "done" [("path", VPath "a.txt")] = ("step.executed", "done", d) /\
     clean (VDict d) = true) /\
  (exists cls why, record_content "step.executed" "done" [("token", VStr "ghp_abcdefgh1234")] =
     ("audit.secret_blocked", "Audit payload contained secret-like value and was blocked",
      [("original_event_type", VStr "step.executed"); ("error_type", VStr cls); ("reason", VStr why)])).
Proof.
  split.
  - apply (audit_record_content "step.executed" "done" [("path", VPath "a.txt")]); vm_compute; reflexivity.
  - apply (audit_record_content "step.executed" "done" [("token", VStr "ghp_abcdefgh1234")]); vm_compute; reflexivity.
Defined.
