(* ===== verification/TxInvariants.v ===== *)
(** What every run of the transaction manager preserves: the relation [grows]
    between the states before and after.  The audit log only grows and its
    chain stays valid; the history of tool calls only grows, by permitted calls; steps keep their
    identity and arguments; the plan keeps its identity and its goal moves
    along the goal life cycle. *)
From S2P Require Import Prelude Enums PyValue Sanitization Goals Plans Tools AuditTrail Causal Egress Policy Approval Gates Transactions.

(** The attributes of a step that execution never changes. *)
Definition same_step (a b : ActionStep) : Prop :=
  tool_name a = tool_name b /\ arguments a = arguments b /\ reason a = reason b /\
  idempotency_key a = idempotency_key b /\ preconditions a = preconditions b /\
  postconditions a = postconditions b /\ invariants a = invariants b /\ step_id a = step_id b.
#[export] Instance same_step_preorder : PreOrder same_step.
Proof. split; [done|]. unfold same_step. intros x y z. naive_solver congruence. Qed.

Definition goal_moves (g g' : Goal) : Prop := rtc goal_step g g'.
Record same_plan (p p' : TransactionPlan) : Prop := {
  sp_steps : p_steps p' = p_steps p;
  sp_id : plan_id p' = plan_id p;
  sp_budget : p_budget p' = p_budget p;
  sp_goal : goal_moves (p_goal p) (p_goal p');
}.
#[export] Instance same_plan_preorder : PreOrder same_plan.
Proof.
  split; [intros p; split; try done; apply rtc_refl|].
  intros x y z [? ? ? ?] [? ? ? ?]. split; try congruence. unfold goal_moves in *. by etrans.
Qed.
Lemma goal_moves_id g g' : goal_moves g g' -> goal_id g' = goal_id g /\ budget g' = budget g.
Proof.
  induction 1 as [|x y z Hxy _ [IH1 IH2]]; [done|]. apply goal_step_id in Hxy as [? ?]. split; congruence.
Qed.

Section grows.
Context `{PyRuntime} `{JsonSchemaValidator} {X G : Type}.
Context (tm : TransactionManager X G) (permitted : tool_call -> Prop).
Implicit Types s : TState X G.

Record grows s s' : Prop := {
  gr_log : sys_extends (t_sys s) (t_sys s');
  gr_calls : exists new, t_calls s' = t_calls s ++ new /\ Forall permitted new;
  gr_heap : Forall2 same_step (t_heap s) (t_heap s');
  gr_plan : same_plan (t_plan s) (t_plan s');
}.
#[export] Instance grows_preorder : PreOrder grows.
Proof.
  split.
  - intros s. split; try reflexivity. exists []. by rewrite app_nil_r.
  - intros x y z [L1 (n1 & C1 & F1) H1 P1] [L2 (n2 & C2 & F2) H2 P2]. split; try by etrans.
    exists (n1 ++ n2). rewrite C2, C1, app_assoc. split; [done|]. by apply Forall_app.
Qed.

(** A change that leaves calls, steps and plan alone and only extends the log. *)
Lemma grows_simple s s' :
  sys_extends (t_sys s) (t_sys s') -> t_calls s' = t_calls s -> t_heap s' = t_heap s -> t_plan s' = t_plan s ->
  grows s s'.
Proof.
  intros HL HC HH HP. split; [done|exists []; by rewrite app_nil_r| |]; by rewrite ?HH, ?HP.
Qed.
Lemma audit_grows et msg pl : keeps grows (audit (St:=TState X G) et msg pl).
Proof. intros s. apply grows_simple; try done. exact (audit_keeps (St:=TState X G) et msg pl s). Qed.
Lemma time_grows : keeps grows (time_time (St:=TState X G)).
Proof. intros s. apply grows_simple; try done. Qed.
Lemma uuid_grows : keeps grows (uuid4 (St:=TState X G)).
Proof. intros s. apply grows_simple; try done. Qed.
Lemma world_grows f : keeps (E:=exn) grows (modify (fun s => with_world (f s) s)).
Proof. intros s. apply grows_simple; try done. Qed.
Lemma stack_grows f : keeps (E:=exn) grows (modify (fun s => with_stack (f s) s)).
Proof. intros s. apply grows_simple; try done. Qed.
Lemma stack_const_grows k : keeps (E:=exn) grows (modify (with_stack k)).
Proof. intros s. apply grows_simple; try done. Qed.
Lemma uses_grows f : keeps (E:=exn) grows (modify (fun s => with_uses (f s) s)).
Proof. intros s. apply grows_simple; try done. Qed.
Lemma gate_grows {A} (m : GM G A) : keeps grows (lift_gate (X:=X) m).
Proof.
  intros s. unfold lift_gate. destruct (m _) as [r [g n]]. apply grows_simple; try done.
Qed.
Lemma upd_step_grows i f : (forall st, same_step st (f st)) -> keeps grows (upd_step (X:=X) (G:=G) i f).
Proof.
  intros Hf s. unfold upd_step, modify. simpl. split; simpl; try reflexivity.
  - exists []. by rewrite app_nil_r.
  - apply Forall2_same_length_lookup_2; [by rewrite length_alter|].
    intros j x y Hx. destruct (decide (i = j)) as [->|Hne].
    + rewrite list_lookup_alter_eq, Hx. intros [= <-]. apply Hf.
    + rewrite list_lookup_alter_ne by done. rewrite Hx. by intros [= <-].
Qed.
Lemma status_grows i v : keeps grows (put_status (X:=X) (G:=G) i v).
Proof. by apply upd_step_grows. Qed.
Lemma call_grows k i st t args :
  (forall r, permitted (ToolCall k i st (spec t) args r)) -> keeps grows (call_tool (G:=G) k i st t args).
Proof.
  intros Hp s. unfold call_tool. destruct (_ args _) as [r [e w]]. split; simpl; try reflexivity.
  exists [ToolCall k i st (spec t) args r]. split; [done|]. by repeat constructor.
Qed.
Lemma transition_to_grows v : keeps grows (transition_to (X:=X) (G:=G) v).
Proof.
  intros s. unfold transition_to, bind. simpl. unfold of_res.
  destruct (transition v (p_goal (t_plan s))) as [g|e] eqn:Et; [|reflexivity].
  unfold modify. simpl. etrans; [|exact (audit_grows _ _ _ (with_plan (set_p_goal g (t_plan s)) s))].
  split; simpl; try reflexivity.
  - exists []. by rewrite app_nil_r.
  - split; try done. simpl. eapply rtc_once. by econstructor.
Qed.
End grows.
#[export] Hint Resolve audit_grows time_grows uuid_grows world_grows stack_grows stack_const_grows uses_grows
  gate_grows status_grows transition_to_grows : keeps.

Section runs.
Context `{PyRuntime} `{JsonSchemaValidator} {X G : Type}.
Context (tm : TransactionManager X G) (permitted : tool_call -> Prop).
Abbreviation GR := (grows (X:=X) (G:=G) permitted).
(** Rollback calls that pass the egress guard are permitted. *)
Context (Hrb : forall i st (t : Tool X) args r, rollback_egress_block_reason tm (spec t) = None ->
  permitted (ToolCall Rollback i st (spec t) args r)).

Lemma get_step_grows i : keeps GR (get_step i).
Proof. apply keeps_gets. apply _. Qed.
#[local] Hint Resolve get_step_grows : keeps.

Lemma manual_recovery_grows st ts why : keeps GR (record_manual_recovery tm st ts why).
Proof. unfold record_manual_recovery, recovery_build. keeps_auto. Qed.
#[local] Hint Resolve manual_recovery_grows : keeps.
Lemma rollback_one_grows t token i : keeps GR (rollback_one tm t token i).
Proof.
  unfold rollback_one. apply keeps_bind; [apply _|keeps_auto|intros st].
  apply keeps_bind; [apply _|keeps_auto|intros _].
  destruct (rollback_egress_block_reason tm (spec t)) as [[[host ms] why]|] eqn:Ee; [keeps_auto|].
  apply keeps_bind; [apply _|keeps_auto|intros _].
  apply keeps_bind; [apply _| |intros r; keeps_auto].
  apply keeps_catch; [apply _|apply call_grows; auto|intros e; keeps_auto].
Qed.
#[local] Hint Resolve rollback_one_grows : keeps.
Lemma rollback_loop_grows k a b : keeps GR (rollback_loop tm k a b).
Proof.
  revert a b. induction k as [|[[t token] i] k IH]; intros a b; simpl; [keeps_auto|].
  apply keeps_bind; [apply _|keeps_auto|intros _].
  apply keeps_bind; [apply _|keeps_auto|intros []; apply IH].
Qed.
#[local] Hint Resolve rollback_loop_grows : keeps.
Lemma rollback_all_grows : keeps GR (rollback_all tm).
Proof. unfold rollback_all. keeps_auto. Qed.
#[local] Hint Resolve rollback_all_grows : keeps.
Lemma stop_grows {A} i v evs : keeps GR (stop (A:=A) tm i v evs).
Proof. unfold stop, audit_all. keeps_auto. Qed.
#[local] Hint Resolve stop_grows : keeps.
Lemma plan_goal_grows v : keeps GR (transition_plan_goal v).
Proof. unfold transition_plan_goal. keeps_auto. Qed.
Lemma attestation_grows st t : keeps GR (runtime_attestation_block_reason tm st t).
Proof. unfold runtime_attestation_block_reason. keeps_auto. Qed.
#[local] Hint Resolve attestation_grows : keeps.
Lemma hydrate_same ts st : same_step st (hydrate ts st).
Proof. done. Qed.
Lemma budget_record_grows i msg pl : keeps GR (record_budget_exceeded i msg pl).
Proof. unfold record_budget_exceeded. keeps_auto. Qed.
#[local] Hint Resolve budget_record_grows : keeps.
Lemma hydrate_grows i ts : keeps GR (upd_step i (hydrate ts)).
Proof. apply upd_step_grows. apply hydrate_same. Qed.
#[local] Hint Resolve hydrate_grows : keeps.
Lemma budget_loop_grows b l fw nr : keeps GR (budget_loop tm b l fw nr).
Proof.
  revert fw nr. induction l as [|i l IH]; intros fw nr; cbn [budget_loop]; [keeps_auto|].
  apply keeps_bind; [apply _|keeps_auto|intros st].
  destruct (registry_get _ _) as [t|e]; [|keeps_auto].
  apply keeps_bind; [apply _|keeps_auto|intros _].
  apply keeps_bind; [apply _|keeps_auto|intros st'].
  repeat (match goal with |- keeps _ (if ?b then _ else _) => destruct b end); try apply IH; keeps_auto.
Qed.
#[local] Hint Resolve budget_loop_grows : keeps.
Lemma budget_grows b : keeps GR (budget_exceeded tm b).
Proof. unfold budget_exceeded. keeps_auto. Qed.

Lemma guards_grows i st t : keeps GR (step_guards tm i st t).
Proof.
  unfold step_guards, audit_egress, check_attestation, check_production, check_sandbox, check_secrets,
    predict_and_review, review, check_idempotency, check_preconditions.
  repeat first [apply keeps_bind; [apply _| |intros ?] | progress keeps_auto | by apply upd_step_grows].
Qed.
Lemma find_grant_grows n gs uses who tool : keeps GR (find_grant n gs uses who tool).
Proof.
  revert n. induction gs as [|g gs IH]; intros n; simpl; unfold applies_to; keeps_auto; apply IH.
Qed.
Lemma matching_grant_grows e uses tool : keeps GR (matching_grant e uses tool).
Proof.
  unfold matching_grant. destruct (principal e); [|keeps_auto].
  destruct (String.eqb _ _); [keeps_auto|apply find_grant_grows].
Qed.
#[local] Hint Resolve matching_grant_grows : keeps.
Lemma decide_step_grows e uses st : keeps GR (decide_step e uses st).
Proof. unfold decide_step. keeps_auto. Qed.
Lemma checks_grows i st t preds r : keeps GR (step_checks tm i st t preds r).
Proof.
  unfold step_checks, check_output, check_contract, observe_and_verify, check_postconditions, finish_step,
    record_grant_use, record_idempotency_key.
  repeat first [apply keeps_bind; [apply _| |intros ?] | progress keeps_auto].
Qed.
End runs.
