(* ===== verification/TxSafety.v ===== *)
(** Safety of plan execution: no tool runs before every gate has been passed,
    and the trace of tool calls of a whole plan consists of permitted calls. *)
From S2P Require Import Prelude Enums PyValue Sanitization Goals Plans Tools AuditTrail Causal Egress Policy Approval Gates Transactions TxInvariants.

(** ** What the policy engine's decisions mean *)

(** The permissions and the maximal risk under which a step may be approved
    automatically: the engine's own, or those of one of its grants. *)
Inductive in_force (e : PolicyEngine) (st : ActionStep) : list Permission -> RiskLevel -> Prop :=
| in_force_default : in_force e st (granted_permissions e) (max_auto_risk e)
| in_force_grant g who :
    principal e = Some who -> g ∈ grants e -> cg_principal g = who ->
    (cg_tools g = [] \/ tool_name st ∈ cg_tools g) ->
    (forall p, p ∈ required_permissions st -> p ∉ cg_deny_permissions g) ->
    in_force e st (cg_permissions g) (default (max_auto_risk e) (cg_max_risk g)).

Record policy_approves `{PyRuntime} (e : PolicyEngine) (st : ActionStep) : Prop := {
  pa_no_rule : first_rule (rules e) st (profile_name e) = Ok None;
  pa_not_denied : forall p, p ∈ required_permissions st -> p ∉ deny_permissions e;
  pa_auto : exists granted mr, in_force e st granted mr /\ auto_approvable e st granted mr;
}.

(** Rules as [PolicyRule.__post_init__] leaves them. *)
Definition rules_ok (e : PolicyEngine) : Prop := Forall (fun r => pr_decision r <> APPROVED) (rules e).

Ltac binv H :=
  let e := fresh "e" in let a := fresh "a" in let s1 := fresh "s" in let Hm := fresh "Hm" in
  apply bind_inv in H as [(e & ? & ?)|(a & s1 & Hm & H)]; [discriminate|].

Section decide.
Context `{PyRuntime} {St : Type} `{HasSys St}.

Lemma applies_to_inv g u who tool (s s' : St) :
  applies_to g u who tool s = (Ok true, s') ->
  cg_principal g = who /\ (cg_tools g = [] \/ tool ∈ cg_tools g).
Proof.
  unfold applies_to. destruct (String.eqb_spec (cg_principal g) who) as [Hp|]; simpl; [|done].
  destruct (bool_decide_reflect (cg_tools g = [])); simpl; [eauto|].
  destruct (str_mem tool (cg_tools g)) eqn:Em; simpl; [|done]. apply str_mem_elem in Em. eauto.
Qed.
Lemma find_grant_inv n gs uses who tool (s s' : St) i g :
  find_grant n gs uses who tool s = (Ok (Some (i, g)), s') ->
  g ∈ gs /\ cg_principal g = who /\ (cg_tools g = [] \/ tool ∈ cg_tools g).
Proof.
  revert n s. induction gs as [|g0 gs IH]; intros n s; simpl; [done|]. intros Hf. binv Hf.
  destruct a; [|apply IH in Hf as (? & ?); split; [by right|done]].
  injection Hf as -> -> ->. apply applies_to_inv in Hm as [? ?]. split; [left|done].
Qed.
Lemma matching_grant_inv e uses tool (s s' : St) i g :
  matching_grant e uses tool s = (Ok (Some (i, g)), s') ->
  exists who, principal e = Some who /\ g ∈ grants e /\ cg_principal g = who /\
  (cg_tools g = [] \/ tool ∈ cg_tools g).
Proof.
  unfold matching_grant. destruct (principal e) as [who|]; [|done]. destruct (String.eqb who ""); [done|].
  intros (? & ? & ?)%find_grant_inv. eauto.
Qed.

(** An automatic approval rests on granted permissions, a bounded risk, and
    reversibility, and no rule, denial or human requirement stands against it. *)
Lemma decide_approved e uses st (s s' : St) dr :
  rules_ok e -> decide_step e uses st s = (Ok dr, s') -> dr_decision dr = APPROVED -> policy_approves e st.
Proof.
  intros Hr. unfold decide_step. intros Hd Ha. binv Hd. unfold of_res in Hm.
  injection Hm as Hm ->. destruct a as [r|].
  { injection Hd as <- <-. exfalso. apply first_rule_In in Hm.
    unfold rules_ok in Hr. rewrite Forall_forall in Hr. by apply (Hr r). }
  destruct (perms_meet (required_permissions st) (deny_permissions e)) eqn:Ed.
  { injection Hd as <- <-. done. }
  rewrite perms_meet_false in Ed. split; [done|done|].
  binv Hd. destruct a as [[i g]|].
  - apply matching_grant_inv in Hm0 as (who & ? & ? & ? & ?).
    destruct (perms_meet _ (cg_deny_permissions g)) eqn:Eg; injection Hd as <- <-; [done|].
    apply decide_with_approved in Ha. rewrite perms_meet_false in Eg.
    eexists _, _. split; [by eapply in_force_grant|done].
  - injection Hd as <- <-. apply decide_with_approved in Ha. eexists _, _. split; [constructor|done].
Qed.
(** A denied permission is denied unless a rule of the policy speaks first. *)
Lemma decide_denied_perm e uses st (s s' : St) dr p :
  first_rule (rules e) st (profile_name e) = Ok None ->
  p ∈ required_permissions st -> p ∈ deny_permissions e ->
  decide_step e uses st s = (Ok dr, s') -> dr_decision dr = DENIED.
Proof.
  intros Hr Hp Hd. unfold decide_step, bind, of_res. rewrite Hr.
  assert (perms_meet (required_permissions st) (deny_permissions e) = true) as ->
    by (apply perms_meet_spec; eauto).
  by intros [= <- <-].
Qed.
End decide.

(** ** Permitted calls *)

Section safety.
Context `{PyRuntime} `{JsonSchemaValidator} {X G : Type}.
Context (tm : TransactionManager X G).
Abbreviation pol := (tm_policy tm).
Abbreviation GR := (grows (X:=X) (G:=G)).

(** The gates a step has passed when one of the methods of its tool is called. *)
Record gates_passed (c : tool_call) : Prop := {
  gp_tool : exists t, registry_get (tool_name (tc_step c)) (tm_registry tm) = Ok t /\ spec t = tc_spec c /\
    (is_production (profile_name pol) = true -> is_network_tool (spec t) = true ->
     exists x, attestation_failure tm (spec t) (callable_client t) (attest x t) = None);
  gp_hydrated : tc_step c = hydrate (tc_spec c) (tc_step c);
  gp_production : production_block_reason pol (tc_step c) (tc_spec c) = None;
  gp_sandbox : enforce_sandbox tm (tc_spec c) = None;
  gp_secrets : secrets_allowed (tc_spec c) = false ->
    contains_secrets (VDict (arguments (tc_step c))) = false /\ contains_secrets (VDict (tc_args c)) = false;
  gp_args : tc_args c = prepare_arguments (arguments (tc_step c)) (secrets_allowed (tc_spec c))
    (preserved_keys (tc_spec c));
}.

(** The authority under which a step executes: the policy approved it, or a
    valid human approval bound to this very step and profile exists, given
    through a signing gate when the policy demands one. *)
Inductive authorized (gid pid : string) (st : ActionStep) (ts : ToolSpec) : Prop :=
| by_policy : policy_approves pol st -> authorized gid pid st ts
| by_human p d now :
    approval_valid p d (build_step_hash gid pid st ts) (profile_name pol) now ->
    (require_signed_approval pol = true -> exists g, signed_approval_enforced (tm_gate tm) g = true) ->
    (first_rule (rules pol) st (profile_name pol) = Ok None ->
     forall q, q ∈ required_permissions st -> q ∉ deny_permissions pol) ->
    authorized gid pid st ts.

Definition permitted (gid pid : string) (c : tool_call) : Prop :=
  match tc_kind c with
  | DryRun => gates_passed c
  | Execute => gates_passed c /\ authorized gid pid (tc_step c) (tc_spec c)
  | Rollback => rollback_egress_block_reason tm (tc_spec c) = None
  end.

Lemma stop_not_some {A} i v evs s a s' : stop (A:=A) tm i v evs s <> (Ok (Some a), s').
Proof. unfold stop. intros Hb. do 3 binv Hb. done. Qed.

Lemma keeps_at {A} (m : M (TState X G) exn A) s r s' :
  keeps (GR (fun _ => True)) m -> m s = (r, s') -> same_plan (t_plan s) (t_plan s').
Proof. intros Hk Hm. specialize (Hk s). rewrite Hm in Hk. apply Hk. Qed.

(** The plan's identity does not change under [same_plan]. *)
Lemma same_plan_ids p p' : same_plan p p' -> goal_id (p_goal p') = goal_id (p_goal p) /\ plan_id p' = plan_id p.
Proof. intros [_ Hi _ Hg]. split; [by apply goal_moves_id|done]. Qed.

Lemma decide_packet_inv i st ts dr p s d s' :
  decide_packet tm i st ts dr p s = (Ok (Some d), s') ->
  exists now, approval_valid p d (build_step_hash (goal_id (p_goal (t_plan s))) (plan_id (t_plan s)) st ts)
                (profile_name pol) now.
Proof.
  unfold decide_packet. intros Hd. binv Hd. binv Hd. binv Hd.
  assert (Hp : same_plan (t_plan s) (t_plan s2)).
  { etrans; [eapply keeps_at; [|exact Hm]; apply audit_grows|].
    etrans; [eapply keeps_at; [|exact Hm0]; apply gate_grows|].
    eapply keeps_at; [|exact Hm1]; apply audit_grows. }
  binv Hd. injection Hm2 as <- <-. binv Hd.
  apply same_plan_ids in Hp as [Hgid Hpid]. rewrite <-Hgid, <-Hpid.
  destruct (nonempty a2) eqn:En; [by apply stop_not_some in Hd|].
  injection Hd as -> ->. exists (time_at (n_time (t_sys s2))).
  refine (proj1 (validate_valid (St:=TState X G) p d _ (profile_name pol) s2) _). rewrite Hm2. simpl. f_equal.
  assert (Hne : a2 <> Some "").
  { intros ->. clear - Hm2. revert Hm2. unfold validate_approval_decision.
    repeat (match goal with |- context [if ?b then _ else _] => destruct b end; [done|]).
    intros Hv. binv Hv. destruct a; [done|]. by destruct (ad_decision d). }
  destruct a2 as [w|]; [|done]. simpl in En.
  destruct (String.eqb_spec w "") as [->|]; [done|done].
Qed.

(** ** Blocks keep the relation *)

(** With [permitted0] closed under the rollbacks that pass the egress guard. *)
Section blocks.
Context (permitted0 : tool_call -> Prop).
Context (Hrb : forall i st (t : Tool X) args r, rollback_egress_block_reason tm (spec t) = None ->
  permitted0 (ToolCall Rollback i st (spec t) args r)).
Abbreviation GRP := (GR permitted0).

Lemma stop_grows' {A} i v evs : keeps GRP (stop (A:=A) tm i v evs).
Proof. by apply stop_grows. Qed.
#[local] Hint Resolve stop_grows' : keeps.
Lemma prepare_packet_grows i st dr p : keeps GRP (prepare_step_packet tm i st dr p).
Proof. unfold prepare_step_packet. keeps_auto. Qed.
Lemma decide_packet_grows i st ts dr p : keeps GRP (decide_packet tm i st ts dr p).
Proof. unfold decide_packet, validate_approval_decision. keeps_auto. Qed.
Lemma signed_gate_grows i st dr : keeps GRP (check_signed_gate tm i st dr).
Proof. unfold check_signed_gate. keeps_auto. Qed.
Lemma use_approval_grows i st dr p d : keeps GRP (use_approval tm i st dr p d).
Proof. unfold use_approval. keeps_auto. Qed.
#[local] Hint Resolve prepare_packet_grows decide_packet_grows signed_gate_grows use_approval_grows : keeps.
Lemma build_packet_grows plan st ts sum pr who ex :
  keeps GRP (build_approval_packet plan st ts sum pr who ex).
Proof. unfold build_approval_packet. keeps_auto. Qed.
#[local] Hint Resolve build_packet_grows : keeps.
Lemma authorize_grows i st t args :
  (forall r, permitted0 (ToolCall DryRun i st (spec t) args r)) -> keeps GRP (authorize tm i st t args).
Proof.
  intros Hdry. pose proof (call_grows (G:=G) permitted0 DryRun i st t args Hdry) as Hcall.
  unfold authorize. apply keeps_bind; [apply _|keeps_auto|intros uses].
  apply keeps_bind; [apply _|apply decide_step_grows|intros dr].
  destruct (dr_decision dr); unfold dry_run_step, human_approval, request_approval; keeps_auto.
Qed.
Lemma request_approval_grows i st t dr dry : keeps GRP (request_approval tm i st t dr dry).
Proof. unfold request_approval. keeps_auto. Qed.
Lemma execute_grows i st t args :
  (forall r, permitted0 (ToolCall Execute i st (spec t) args r)) -> keeps GRP (execute_step tm i st t args).
Proof.
  intros Hex. pose proof (call_grows (G:=G) permitted0 Execute i st t args Hex) as Hcall.
  unfold execute_step. keeps_auto.
Qed.
End blocks.

Lemma human_approval_inv i st t args dr s s' :
  human_approval tm i st t args dr s = (Ok (Some tt), s') ->
  (exists p d now, approval_valid p d (build_step_hash (goal_id (p_goal (t_plan s))) (plan_id (t_plan s)) st (spec t))
     (profile_name pol) now) /\
  (require_signed_approval pol = true -> exists g, signed_approval_enforced (tm_gate tm) g = true).
Proof.
  unfold human_approval. intros Hh. binv Hh.
  assert (P0 : same_plan (t_plan s) (t_plan s0)) by (eapply keeps_at; [|exact Hm]; by apply call_grows).
  destruct (ok a); simpl in Hh; [|by apply stop_not_some in Hh].
  binv Hh. apply keeps_at in Hm0; [|apply status_grows].
  binv Hh. apply keeps_at in Hm1; [|apply audit_grows]. unfold request_approval in Hh.
  apply step_inv in Hh as (u & s3 & Hsg & Hh).
  assert (P3 : same_plan (t_plan s2) (t_plan s3)) by (eapply keeps_at; [|exact Hsg]; by apply signed_gate_grows).
  binv Hh. injection Hm2 as <- <-. binv Hh. apply keeps_at in Hm2; [|by apply build_packet_grows].
  apply step_inv in Hh as (p & s5 & Hp & Hh). apply keeps_at in Hp; [|by apply prepare_packet_grows].
  apply step_inv in Hh as (d & s6 & Hd & _).
  assert (Hall : same_plan (t_plan s) (t_plan s5)) by (repeat (etrans; [eassumption|]); reflexivity).
  apply same_plan_ids in Hall as [<- <-]. split.
  - apply decide_packet_inv in Hd as [now Hv]. eauto.
  - intros Hreq. unfold check_signed_gate in Hsg. binv Hsg. rewrite Hreq in Hsg. simpl in Hsg.
    destruct (signed_approval_enforced (tm_gate tm) _) eqn:Es; [eauto|by apply stop_not_some in Hsg].
Qed.
Lemma authorize_inv i st t args s s' :
  rules_ok pol -> authorize tm i st t args s = (Ok (Some tt), s') ->
  authorized (goal_id (p_goal (t_plan s))) (plan_id (t_plan s)) st (spec t).
Proof.
  intros Hr. unfold authorize. intros Ha. binv Ha. injection Hm as <- <-. binv Ha.
  assert (Hp : same_plan (t_plan s) (t_plan s0)) by (eapply keeps_at; [|exact Hm]; apply decide_step_grows).
  destruct (dr_decision a) eqn:Ed.
  - apply by_policy. by eapply decide_approved.
  - by apply stop_not_some in Ha.
  - apply human_approval_inv in Ha as [(p & d & now & Hv) Hs].
    apply same_plan_ids in Hp as [<- <-]. eapply by_human; [exact Hv|done|].
    intros Hn q Hq Hq'. pose proof (decide_denied_perm _ _ _ _ _ _ _ Hn Hq Hq' Hm). congruence.
Qed.

(** ** The guards before the decision *)

Lemma nonempty_None o : o <> Some "" -> nonempty o = None -> o = None.
Proof. destruct o as [w|]; [|done]. simpl. destruct (String.eqb_spec w "") as [->|]; done. Qed.
Lemma app_nonempty a b : b <> "" -> a +:+ b <> "".
Proof. by destruct a. Qed.
Lemma app_left_nonempty a b : a <> "" -> a +:+ b <> "".
Proof. by destruct a. Qed.
Ltac solve_nonempty :=
  repeat match goal with |- context [if ?b then _ else _] => destruct b end; try discriminate;
  try (intros [= Hx]; revert Hx; first [by apply app_nonempty, app_left_nonempty | by apply app_nonempty]).
Lemma egress_reason_nonempty e st ts a :
  production_egress_assessment e st ts = Some a -> ea_reason a <> Some "".
Proof.
  unfold production_egress_assessment.
  repeat case_match; intros [= <-]; simpl; try discriminate;
    intros [= Hx]; revert Hx; first [by apply app_nonempty, app_left_nonempty | by apply app_nonempty].
Qed.
Lemma production_reason_nonempty e st ts : production_block_reason e st ts <> Some "".
Proof.
  unfold production_block_reason.
  destruct (production_egress_assessment e st ts) as [a|] eqn:Ea; [apply egress_reason_nonempty in Ea|];
    solve_nonempty; done.
Qed.
Lemma sandbox_reason_nonempty ts : enforce_sandbox tm ts <> Some "".
Proof. unfold enforce_sandbox. solve_nonempty. Qed.
Lemma attestation_reason_nonempty ts b a w pl : attestation_failure tm ts b a = Some (w, pl) -> w <> "".
Proof.
  unfold attestation_failure.
  repeat match goal with |- context [if ?b then _ else _] => destruct b end; intros [= <- _]; try discriminate;
    by apply app_nonempty.
Qed.

Lemma attestation_inv i st t s s' :
  check_attestation tm i st t s = (Ok (Some tt), s') ->
  is_production (profile_name pol) = true -> is_network_tool (spec t) = true ->
  exists x, attestation_failure tm (spec t) (callable_client t) (attest x t) = None.
Proof.
  intros Hc Hp Hn. unfold check_attestation in Hc. binv Hc.
  unfold runtime_attestation_block_reason in Hm. rewrite Hp, Hn in Hm. simpl in Hm.
  binv Hm. injection Hm0 as <- <-. binv Hm. exists (t_env s).
  destruct (attestation_failure _ _ _ _) as [[w pl]|] eqn:Ef; [|done]. exfalso.
  binv Hm. injection Hm as <- <-. apply attestation_reason_nonempty in Ef. simpl in Hc.
  destruct (String.eqb_spec w "") as [|]; [done|]. by apply stop_not_some in Hc.
Qed.

Lemma guards_inv i st t s preds s' :
  step_guards tm i st t s = (Ok (Some preds), s') ->
  (is_production (profile_name pol) = true -> is_network_tool (spec t) = true ->
   exists x, attestation_failure tm (spec t) (callable_client t) (attest x t) = None) /\
  production_block_reason pol st (spec t) = None /\ enforce_sandbox tm (spec t) = None /\
  (secrets_allowed (spec t) = false -> contains_secrets (VDict (arguments st)) = false).
Proof.
  unfold step_guards. intros Hg. binv Hg.
  apply step_inv in Hg as ([] & s1 & Hat & Hg). apply step_inv in Hg as ([] & s2 & Hpr & Hg).
  apply step_inv in Hg as ([] & s3 & Hsb & Hg). apply step_inv in Hg as ([] & s4 & Hse & _).
  split_and!.
  - by eapply attestation_inv.
  - unfold check_production in Hpr. destruct (nonempty _) eqn:En; [by apply stop_not_some in Hpr|].
    eapply nonempty_None, En. apply production_reason_nonempty.
  - unfold check_sandbox in Hsb. destruct (nonempty _) eqn:En; [by apply stop_not_some in Hsb|].
    eapply nonempty_None, En. apply sandbox_reason_nonempty.
  - unfold check_secrets in Hse. intros Hsec. rewrite Hsec, andb_true_r in Hse.
    destruct (contains_secrets _); [by apply stop_not_some in Hse|done].
Qed.

(** ** The loop body and the whole plan *)

Lemma prepared_no_secrets args keys : contains_secrets (VDict (prepare_arguments args false keys)) = false.
Proof. exact (redact_args_no_secrets (VDict args)). Qed.
Lemma permitted_rollback gid pid i st (t : Tool X) args r :
  rollback_egress_block_reason tm (spec t) = None -> permitted gid pid (ToolCall Rollback i st (spec t) args r).
Proof. done. Qed.

(** The loop body from the guards on, for a hydrated step. *)
Definition run_hydrated (i : nat) (t : Tool X) (st : ActionStep) : M (TState X G) exn (option unit) :=
  step! preds := step_guards tm i st t in
  let args := prepare_arguments (arguments st) (secrets_allowed (spec t)) (preserved_keys (spec t)) in
  step! _u := authorize tm i st t args in
  step! r := execute_step tm i st t args in
  step_checks tm i st t preds r.
Lemma run_step_unfold i s :
  i < length (t_heap s) ->
  exists st0, t_heap s !! i = Some st0 /\
  ((exists e, registry_get (tool_name st0) (tm_registry tm) = Raise e /\
      run_step tm i s = ((let! o := resolve_tool tm i in
                          match (o : option (Tool X)) with Some _ => ret None | None => ret None end) s)) \/
   (exists t, registry_get (tool_name st0) (tm_registry tm) = Ok t /\
      run_step tm i s = run_hydrated i t (hydrate (spec t) st0) (with_heap (alter (hydrate (spec t)) i (t_heap s)) s))).
Proof.
  intros Hi. destruct (lookup_lt_is_Some_2 _ _ Hi) as [st0 Hst]. exists st0. split; [done|].
  unfold run_step, bind, resolve_tool, get_step, gets, bind. cbv beta iota. rewrite Hst. simpl.
  destruct (registry_get _ _) as [t|e] eqn:Et; [right|left]; eexists; (split; [done|]).
  - unfold upd_step, modify, bind, ret. simpl. by rewrite list_lookup_alter_eq, Hst.
  - destruct (negb (is_production (profile_name pol))); [done|].
    destruct (stop (A:=Tool X) tm i BLOCKED _ s) as [[[t|]|e'] s'] eqn:Es; [by apply stop_not_some in Es|done|done].
Qed.

Lemma run_hydrated_grows gid pid i t st s :
  rules_ok pol -> registry_get (tool_name st) (tm_registry tm) = Ok t -> st = hydrate (spec t) st ->
  goal_id (p_goal (t_plan s)) = gid -> plan_id (t_plan s) = pid ->
  GR (permitted gid pid) s (snd (run_hydrated i t st s)).
Proof.
  intros Hr Ht Hst Hg Hp. unfold run_hydrated.
  set (args := prepare_arguments _ _ _).
  unfold bind at 1. pose proof (guards_grows tm _ (permitted_rollback gid pid) i st t s) as Gg.
  destruct (step_guards tm i st t s) as [[[preds|]|e] s1] eqn:Eg; [|exact Gg|exact Gg]. simpl in Gg.
  etrans; [exact Gg|]. apply guards_inv in Eg as (Fat & Fpr & Fsb & Fse).
  assert (Fgate : forall k r, gates_passed (ToolCall k i st (spec t) args r)).
  { intros k r. split; simpl; try done; [by eauto|]. intros Hs. split; [by apply Fse|].
    subst args. rewrite Hs. apply prepared_no_secrets. }
  unfold bind at 1.
  pose proof (authorize_grows _ (permitted_rollback gid pid) i st t args (Fgate DryRun) s1) as Ga.
  destruct (authorize tm i st t args s1) as [[[[]|]|e] s2] eqn:Ea; [|exact Ga|exact Ga]. simpl in Ga.
  etrans; [exact Ga|]. apply authorize_inv in Ea; [|done].
  destruct (same_plan_ids _ _ (gr_plan _ _ _ Gg)) as [Eg Ep]. rewrite Eg, Ep, Hg, Hp in Ea.
  refine (keeps_bind (GR (permitted gid pid)) _ _ _ _ s2).
  - apply execute_grows; [apply permitted_rollback|]. intros r. split; [apply Fgate|exact Ea].
  - intros [r|]; [apply checks_grows, permitted_rollback|apply keeps_ret; apply _].
Qed.
Lemma resolve_grows gid pid i : keeps (GR (permitted gid pid)) (resolve_tool tm i).
Proof.
  unfold resolve_tool, get_step. apply keeps_bind; [apply _|keeps_auto|intros st].
  destruct (registry_get _ _); [keeps_auto|]. destruct (negb _); [keeps_auto|].
  apply stop_grows', permitted_rollback.
Qed.
Lemma run_step_grows gid pid i s :
  rules_ok pol -> i < length (t_heap s) ->
  goal_id (p_goal (t_plan s)) = gid -> plan_id (t_plan s) = pid ->
  GR (permitted gid pid) s (snd (run_step tm i s)).
Proof.
  intros Hr Hi Hg Hp. destruct (run_step_unfold i s Hi) as (st0 & Hst & [(e & He & ->)|(t & Ht & ->)]).
  - refine (keeps_bind (GR (permitted gid pid)) _ _ (resolve_grows gid pid i) _ s).
    intros []; apply keeps_ret; apply _.
  - etrans; [exact (hydrate_grows (permitted gid pid) i (spec t) s)|].
    apply run_hydrated_grows; done.
Qed.

(** The plan's step references are valid. *)
Definition steps_valid (s : TState X G) : Prop := Forall (fun i => i < length (t_heap s)) (p_steps (t_plan s)).
Lemma grows_heap_length P s s' : GR P s s' -> length (t_heap s') = length (t_heap s).
Proof. intros Hg. symmetry. eapply Forall2_length, Hg. Qed.
Lemma run_steps_grows gid pid l s :
  rules_ok pol -> Forall (fun i => i < length (t_heap s)) l ->
  goal_id (p_goal (t_plan s)) = gid -> plan_id (t_plan s) = pid ->
  GR (permitted gid pid) s (snd (run_steps tm l s)).
Proof.
  intros Hr. revert s. induction l as [|i l IH]; intros s Hl Hg Hp; simpl; [reflexivity|].
  apply Forall_cons in Hl as [Hi Hl]. pose proof (run_step_grows gid pid i s Hr Hi Hg Hp) as Gs. unfold bind.
  destruct (run_step tm i s) as [[[u|]|e] s1]; simpl in Gs; [|exact Gs|exact Gs].
  etrans; [exact Gs|]. destruct (same_plan_ids _ _ (gr_plan _ _ _ Gs)) as [Eg Ep].
  apply IH; [|congruence|congruence]. by rewrite (grows_heap_length _ _ _ Gs).
Qed.
Lemma finish_grows gid pid : keeps (GR (permitted gid pid)) finish_plan.
Proof. unfold finish_plan, transition_plan_goal. keeps_auto. Qed.

(** Every run of a plan grows the state by permitted calls. *)
Lemma execute_plan_grows s :
  rules_ok pol -> steps_valid s ->
  GR (permitted (goal_id (p_goal (t_plan s))) (plan_id (t_plan s))) s (snd (execute_plan tm s)).
Proof.
  intros Hr Hv. set (P := permitted _ _). unfold execute_plan. unfold bind at 1. simpl.
  set (m1 := audit _ _ _). set (m2 := modify (with_stack [])).
  assert (K1 : keeps (GR P) m1) by apply audit_grows.
  unfold bind at 1. specialize (K1 s). destruct (m1 s) as [[u|e] s1]; [|exact K1]. simpl in K1.
  unfold bind at 1. pose proof (plan_goal_grows P G_RUNNING s1) as K2.
  destruct (transition_plan_goal G_RUNNING s1) as [[u2|e] s2]; simpl in K2; [|by etrans].
  assert (K3 : GR P s2 (with_stack [] s2)) by (by apply stack_const_grows).
  unfold bind at 1, m2, modify. set (s3 := with_stack [] s2) in *. unfold bind at 1. simpl.
  set (b := default _ _). unfold bind at 1.
  pose proof (budget_grows tm P b s3) as K4.
  destruct (budget_exceeded tm b s3) as [[ex|e] s4]; simpl in K4.
  2: { etrans; [exact K1|]. etrans; [exact K2|]. etrans; [exact K3|exact K4]. }
  assert (K3' : GR P s s2) by (etrans; [exact K1|exact K2]).
  assert (K : GR P s s4) by (etrans; [exact K3'|]; etrans; [exact K3|exact K4]).
  etrans; [exact K|]. unfold bind.
  destruct (same_plan_ids _ _ (gr_plan _ _ _ K)) as [Eg Ep].
  assert (K5 : GR P s4 (snd ((if ex then ret tt else run_steps tm (p_steps (t_plan s2))) s4))).
  { destruct ex; [reflexivity|]. apply run_steps_grows; [done| |done|done].
    rewrite (grows_heap_length _ _ _ K), (sp_steps _ _ (gr_plan _ _ _ K3')). exact Hv. }
  destruct ((if ex then ret tt else run_steps tm (p_steps (t_plan s2))) s4) as [[u5|e] s5]; simpl in K5; [|exact K5].
  etrans; [exact K5|]. apply finish_grows.
Qed.
End safety.
