(* ===== verification/TxRollback.v ===== *)
(** Compensation: which rollbacks a run performs and in which order.  A plan
    that stops early has attempted, last executed first, the rollback of every
    step that executed and returned a rollback token (unless the production
    egress policy forbids the attempt); a plan that does not stop has verified
    every step and rolled nothing back. *)
From S2P Require Import Prelude Enums PyValue Sanitization Goals Plans Tools AuditTrail Causal Egress Policy Approval Gates Transactions.

Section rollback.
Context `{PyRuntime} `{JsonSchemaValidator} {X G : Type}.
Context (tm : TransactionManager X G).
Implicit Types s : TState X G.

(** What identifies a rollback: the step, the tool and the token. *)
Definition desc : Type := nat * ToolSpec * dict pyval.
Definition entry_desc (en : Tool X * dict pyval * nat) : desc := (en.2, spec en.1.1, en.1.2).
Definition call_desc (c : tool_call) : desc := (tc_index c, tc_spec c, tc_args c).
(** The rollback a call leaves pending. *)
Definition call_token (c : tool_call) : option desc :=
  match tc_kind c, tc_result c with
  | Execute, Ok r =>
      if ok r then match rollback_token r with
                   | Some ((_ :: _) as token) => Some (tc_index c, tc_spec c, token)
                   | _ => None
                   end
      else None
  | _, _ => None
  end.
Definition pending_rollbacks (l : list tool_call) : list desc := rev (omap call_token l).
Definition forward (c : tool_call) : Prop := tc_kind c <> Rollback.
Definition egress_open (d : desc) : Prop := rollback_egress_block_reason tm d.1.2 = None.
#[export] Instance egress_open_dec d : base.Decision (egress_open d).
Proof. unfold egress_open. destruct (rollback_egress_block_reason tm d.1.2); [by right|by left]. Defined.

(** ** One rollback and the whole stack *)

Definition quiet s s' : Prop := t_calls s' = t_calls s /\ t_stack s' = t_stack s.
#[export] Instance quiet_preorder : PreOrder quiet.
Proof. split; [done|]. intros x y z [? ?] [? ?]. split; congruence. Qed.
Lemma audit_quiet et msg pl : keeps quiet (audit (St:=TState X G) et msg pl).
Proof. done. Qed.
Lemma time_quiet : keeps quiet (time_time (St:=TState X G)).
Proof. done. Qed.
Lemma uuid_quiet : keeps quiet (uuid4 (St:=TState X G)).
Proof. done. Qed.
Lemma upd_quiet i f : keeps quiet (upd_step (X:=X) (G:=G) i f).
Proof. done. Qed.
Lemma put_quiet i v : keeps quiet (put_status (X:=X) (G:=G) i v).
Proof. done. Qed.
Lemma get_quiet i : keeps quiet (get_step (X:=X) (G:=G) i).
Proof. done. Qed.
#[local] Hint Resolve audit_quiet time_quiet uuid_quiet upd_quiet put_quiet get_quiet : keeps.
Lemma manual_quiet st ts why : keeps quiet (record_manual_recovery tm st ts why).
Proof. unfold record_manual_recovery, recovery_build. keeps_auto. Qed.
#[local] Hint Resolve manual_quiet : keeps.

Lemma manual_total st ts why : total (record_manual_recovery tm st ts why).
Proof. unfold record_manual_recovery, recovery_build. total_auto. Qed.
#[local] Hint Resolve manual_total : total.
Lemma rollback_one_total t token i : total (rollback_one tm t token i).
Proof. unfold rollback_one, put_status, upd_step, get_step. total_auto. Qed.
Lemma rollback_loop_total k a b : total (rollback_loop tm k a b).
Proof.
  revert a b. induction k as [|[[t token] i] k IH]; intros a b; simpl; [total_auto|].
  apply total_bind; [total_auto|intros _]. apply total_bind; [apply rollback_one_total|intros []; apply IH].
Qed.
(** Rolling back never raises. *)
Lemma rollback_all_total : total (rollback_all tm).
Proof.
  unfold rollback_all. apply total_bind; [total_auto|intros k].
  apply total_bind; [apply rollback_loop_total|]. intros sf. total_auto.
Qed.

(** The calls one iteration appends: the rollback, unless egress is blocked. *)
Definition back_calls (ds : list desc) (s s' : TState X G) : Prop :=
  exists new, t_calls s' = t_calls s ++ new /\ Forall (fun c => tc_kind c = Rollback) new /\
  map call_desc new = filter egress_open ds.
Lemma back_calls_app ds ds' s s' s'' :
  back_calls ds s s' -> back_calls ds' s' s'' -> back_calls (ds ++ ds') s s''.
Proof.
  intros (n1 & C1 & F1 & E1) (n2 & C2 & F2 & E2). exists (n1 ++ n2).
  rewrite C2, C1, app_assoc, map_app, filter_app, E1, E2. split_and!; [done|by apply Forall_app|done].
Qed.
(** [back_calls] with the stack unchanged, and its composition with quiet methods. *)
Definition backs ds s s' : Prop := back_calls ds s s' /\ t_stack s' = t_stack s.
Lemma backs_quiet_l ds s s1 s' : quiet s s1 -> backs ds s1 s' -> backs ds s s'.
Proof.
  intros [Q1 Q2] [(n & C & F & E) Hs]. split; [|congruence]. exists n. by rewrite <-Q1.
Qed.
Lemma backs_quiet_r ds s s1 s' : backs ds s s1 -> quiet s1 s' -> backs ds s s'.
Proof.
  intros [(n & C & F & E) Hs] [Q1 Q2]. split; [|congruence]. exists n. by rewrite Q1.
Qed.
Lemma backs_bind_l {A B} ds s (m : M (TState X G) exn A) (f : A -> M (TState X G) exn B) :
  keeps quiet m -> total m -> (forall a s1, backs ds s1 (snd (f a s1))) -> backs ds s (snd (bind m f s)).
Proof.
  intros Hq Ht Hf. unfold bind. specialize (Hq s). destruct (Ht s) as (a & s1 & E). rewrite E in *.
  by eapply backs_quiet_l.
Qed.
Lemma backs_bind_r {A B} ds s (m : M (TState X G) exn A) (f : A -> M (TState X G) exn B) :
  backs ds s (snd (m s)) -> (forall a, keeps quiet (f a)) -> backs ds s (snd (bind m f s)).
Proof.
  intros Hm Hf. unfold bind. destruct (m s) as [[a|e] s1]; [|done]. eapply backs_quiet_r; [exact Hm|apply Hf].
Qed.
Lemma backs_catch {A} ds s (m : M (TState X G) exn A) h :
  backs ds s (snd (m s)) -> (forall e, keeps quiet (h e)) -> backs ds s (snd (catch m h s)).
Proof.
  intros Hm Hf. unfold catch. destruct (m s) as [[a|e] s1]; [done|]. eapply backs_quiet_r; [exact Hm|apply Hf].
Qed.

Lemma call_back t token i st s :
  egress_open (i, spec t, token) -> backs [(i, spec t, token)] s (snd (call_tool Rollback i st t token s)).
Proof.
  intros Ho. unfold call_tool. destruct (rollback t token _) as [r [e w]]. split; [|done]. simpl.
  eexists. split; [done|]. split; [by repeat constructor|]. simpl.
  rewrite filter_cons_True by done. done.
Qed.
Lemma rollback_one_calls t token i s : backs [(i, spec t, token)] s (snd (rollback_one tm t token i s)).
Proof.
  unfold rollback_one. apply backs_bind_l; [keeps_auto|apply total_gets|intros st s1].
  apply backs_bind_l; [keeps_auto|total_auto|intros _ s2].
  destruct (decide (egress_open (i, spec t, token))) as [Ho|Ho].
  - pose proof Ho as Ho'. unfold egress_open in Ho'. simpl in Ho'. rewrite Ho'. clear Ho'.
    apply backs_bind_l; [keeps_auto|total_auto|intros _ s3].
    apply backs_bind_r; [|intros r; keeps_auto].
    apply backs_catch; [by apply call_back|intros e; keeps_auto].
  - destruct (rollback_egress_block_reason tm (spec t)) as [[[host ms] why]|] eqn:Ee; [|done].
    eapply backs_quiet_r; [|match goal with |- quiet _ (snd (?m s2)) =>
      assert (Hk : keeps quiet m) by keeps_auto; apply Hk end].
    split; [|done]. exists []. rewrite app_nil_r. split_and!; [done|constructor|].
    rewrite filter_cons_False by done. done.
Qed.
Lemma rollback_loop_calls k a b s :
  t_stack s = k ->
  back_calls (map entry_desc k) s (snd (rollback_loop tm k a b s)) /\
  t_stack (snd (rollback_loop tm k a b s)) = [].
Proof.
  revert a b s. induction k as [|[[t token] i] k IH]; intros a b s Hs; simpl.
  - split; [|done]. exists []. rewrite app_nil_r. by repeat constructor.
  - unfold bind, modify. pose proof (rollback_one_calls t token i (with_stack k s)) as [Hc Hk].
    destruct (rollback_one_total t token i (with_stack k s)) as (r & s1 & Er). rewrite Er in Hc, Hk |- *.
    simpl in Hc, Hk. destruct r;
      (match goal with |- context [rollback_loop tm k ?x ?y s1] => destruct (IH x y s1 Hk) as [IH1 IH2] end);
      (split; [|done]); exact (back_calls_app [(i, spec t, token)] _ _ _ _ Hc IH1).
Qed.

(** [_rollback] empties the stack, from its top, and returns. *)
Lemma rollback_all_calls s :
  exists s', rollback_all tm s = (Ok tt, s') /\ back_calls (map entry_desc (t_stack s)) s s' /\ t_stack s' = [].
Proof.
  destruct (rollback_all_total s) as ([] & s' & E). exists s'. split; [done|].
  replace s' with (snd (rollback_all tm s)) by (by rewrite E). clear s' E.
  unfold rollback_all, bind, gets. pose proof (rollback_loop_calls (t_stack s) 0 0 s eq_refl) as [Hc Hk].
  destruct (rollback_loop_total (t_stack s) 0 0 s) as (sf & s1 & Er). rewrite Er in *. simpl in Hc, Hk.
  by destruct (_ && _).
Qed.
End rollback.
#[export] Hint Resolve audit_quiet time_quiet uuid_quiet upd_quiet put_quiet get_quiet manual_quiet : keeps.
