(* ===== verification/ReplayRuns.v ===== *)
(** Replaying what the transaction manager records: every run keeps the replayed facts in
    step with the facts of the run. *)
From S2P Require Import Prelude Enums PyValue Sanitization Goals Plans Tools AuditTrail Replay Causal Egress Policy Approval Gates Transactions TxInvariants TxRollback.


(** ** Worlds up to sanitization *)

(** [v'] is the boundary's form of [v]. *)
Definition safe_of (v v' : pyval) : Prop := exists p, sanitize_for_boundary REJECT p v = Ok v'.
Definition is_marker (k : string) : Prop := exists key, k = idempotency_marker key.
(** [w'] has the facts of [w] in their boundary form, with the same trust; idempotency markers
    apart, which are facts of the manager and not recorded as facts. *)
Definition shows (w' w : WorldState) : Prop := forall k, ~ is_marker k ->
  option_Forall2 safe_of (facts w !! k) (facts w' !! k) /\ trust w' !! k = trust w !! k.

(** The last value of a key. *)
Fixpoint dlast {A} (k : string) (d : dict A) : option A :=
  match d with
  | [] => None
  | (k', v) :: d' => match dlast k d' with Some x => Some x | None => if String.eqb k k' then Some v else None end
  end.
Lemma observe_lookup d tl w k :
  facts (observe d tl w) !! k = match dlast k d with Some v => Some v | None => facts w !! k end /\
  trust (observe d tl w) !! k = match dlast k d with Some _ => Some tl | None => trust w !! k end.
Proof.
  unfold observe. revert w. induction d as [|[k' v] d IH]; intros w; simpl; [done|].
  destruct (IH (set_fact k' v tl w)) as [-> ->]. simpl. destruct (dlast k d); [done|].
  destruct (String.eqb_spec k k') as [->|Hne]; [by rewrite !lookup_insert_eq|by rewrite !lookup_insert_ne].
Qed.
Lemma dlast_not_in {A} k (d : dict A) : k ∉ dkeys d -> dlast k d = None.
Proof.
  induction d as [|[k' v] d IH]; simpl; [done|]. rewrite not_elem_of_cons. intros [Hne Hk]. rewrite IH by done.
  by rewrite (proj2 (String.eqb_neq k k')).
Qed.
Lemma dlast_dget {A} k (d : dict A) : NoDup (dkeys d) -> dlast k d = dget k d.
Proof.
  induction d as [|[k' v] d IH]; simpl; [done|]. intros [Hk Hnd]%NoDup_cons. rewrite IH by done.
  destruct (String.eqb_spec k k') as [->|]; [|by destruct (dget k d)].
  by rewrite <-IH, dlast_not_in.
Qed.
(** The boundary form of a mapping has the boundary forms of its last values. *)
Lemma sanitize_mapping_last p d safe d' :
  sanitize_mapping (sanitize_for_boundary REJECT) REJECT p d safe = Ok d' -> NoDup (dkeys safe) ->
  NoDup (dkeys d') /\
  forall k, match dlast k d with
            | Some v => exists v', dget k d' = Some v' /\ safe_of v v'
            | None => dget k d' = dget k safe
            end.
Proof.
  revert safe. induction d as [|[k0 v0] d IH]; intros safe; simpl; [by intros [= ->]|].
  destruct (string_value k0 REJECT _) as [k1|] eqn:Ek; [|done]. apply string_value_reject_inv in Ek as [-> _]. cbn [res_bind].
  destruct (sanitize_for_boundary REJECT _ v0) as [v1|] eqn:Ev; [|done]. cbn [res_bind]. intros Hm Hnd.
  destruct (IH _ Hm) as [Hd Hk]; [by apply dset_NoDup|]. split; [done|]. intros k. specialize (Hk k).
  destruct (dlast k d) as [v|]; [done|]. destruct (String.eqb_spec k k0) as [->|Hne].
  - rewrite dget_dset_eq in Hk. exists v1. split; [done|]. by eexists.
  - by rewrite dget_dset_ne in Hk.
Qed.
Lemma sanitize_dict p d v : sanitize_for_boundary REJECT p (VDict d) = Ok v ->
  exists d', v = VDict d' /\ NoDup (dkeys d') /\
    forall k, match dlast k d with
              | Some v => exists v', dget k d' = Some v' /\ safe_of v v'
              | None => dget k d' = None
              end.
Proof.
  simpl. destruct (sanitize_mapping _ _ _ _ _) as [d'|] eqn:E; [|done]. intros [= <-]. exists d'. split; [done|].
  by apply (sanitize_mapping_last p d []); [|constructor].
Qed.
Lemma safe_of_str s v : safe_of (VStr s) v -> v = VStr s.
Proof.
  intros [p Hs]. simpl in Hs. destruct (string_value s REJECT p) as [s'|] eqn:E; [|done].
  apply string_value_reject_inv in E as [-> _]. by injection Hs as <-.
Qed.
Lemma safe_of_strs l v : safe_of (VList (map VStr l)) v -> v = VList (map VStr l).
Proof.
  intros [p Hs]. simpl in Hs. destruct (sanitize_items _ p 0 (map VStr l)) as [l'|] eqn:E; [|done]. injection Hs as <-. f_equal.
  revert l' E. generalize 0%nat. induction l as [|s l IH]; intros n l'; simpl; [by intros [= <-]|].
  destruct (string_value s REJECT _) as [s'|] eqn:Es; [|done]. apply string_value_reject_inv in Es as [-> _]. simpl.
  destruct (sanitize_items _ p (S n) (map VStr l)) as [r|] eqn:E; [|done]. intros [= <-]. by rewrite (IH _ _ E).
Qed.
Lemma safe_of_dict d v : safe_of (VDict d) v ->
  exists d', v = VDict d' /\ NoDup (dkeys d') /\
    forall k, match dlast k d with
              | Some v => exists v', dget k d' = Some v' /\ safe_of v v'
              | None => dget k d' = None
              end.
Proof. intros [p Hp]. by eapply sanitize_dict. Qed.

Lemma shows_observe d d' tl w' w : safe_of (VDict d) (VDict d') -> shows w' w -> shows (observe d' tl w') (observe d tl w).
Proof.
  intros Hd Hw k Hm. destruct (safe_of_dict _ _ Hd) as (d1 & [= <-] & Hnd & Hk). specialize (Hk k).
  destruct (observe_lookup d tl w k) as [-> ->], (observe_lookup d' tl w' k) as [-> ->].
  rewrite (dlast_dget k d' Hnd). destruct (dlast k d) as [v|].
  - destruct Hk as (v' & -> & Hv). split; [by constructor|done].
  - rewrite Hk. by apply Hw.
Qed.
Lemma shows_mark ks tl w' w : shows w' w -> shows (mark_trust ks tl w') (mark_trust ks tl w).
Proof.
  unfold mark_trust. revert w' w. induction ks as [|k0 ks IH]; intros w' w Hw; [done|]. cbn [fold_left]. apply IH.
  intros k Hm. destruct (Hw k Hm) as [Hf Ht].
  assert (Hcase : forall w1 : WorldState, facts (if decide (is_Some (facts w1 !! k0))
    then {| facts := facts w1; assumptions := assumptions w1; uncertainty := uncertainty w1; trust := <[k0 := tl]> (trust w1) |}
    else w1) = facts w1) by (intros w1; by case_decide).
  rewrite !Hcase. split; [done|]. destruct (decide (k = k0)) as [<-|Hne].
  - assert (Hi : is_Some (facts w !! k) <-> is_Some (facts w' !! k)) by (inversion Hf; by split).
    do 2 case_decide; try tauto; simpl; by rewrite ?lookup_insert_eq.
  - do 2 case_decide; simpl; by rewrite ?lookup_insert_ne.
Qed.
(** Keys that are facts are verified. *)
Definition marked (ks : list string) (w : WorldState) : Prop :=
  forall k, k ∈ ks -> is_Some (facts w !! k) -> trust w !! k = Some TL_VERIFIED.
Lemma mark_lookup ks tl w k :
  facts (mark_trust ks tl w) = facts w /\
  trust (mark_trust ks tl w) !! k = if decide (k ∈ ks /\ is_Some (facts w !! k)) then Some tl else trust w !! k.
Proof.
  unfold mark_trust. revert w. induction ks as [|k0 ks IH]; intros w; cbn [fold_left].
  { case_decide as Hd; [by destruct Hd as [Hd%elem_of_nil _]|done]. }
  destruct (IH (if decide (is_Some (facts w !! k0)) then {| facts := facts w; assumptions := assumptions w;
    uncertainty := uncertainty w; trust := <[k0 := tl]> (trust w) |} else w)) as [-> ->].
  assert (Hf : facts (if decide (is_Some (facts w !! k0)) then {| facts := facts w; assumptions := assumptions w;
    uncertainty := uncertainty w; trust := <[k0 := tl]> (trust w) |} else w) = facts w) by (destruct (decide _); done).
  rewrite Hf. split; [done|].
  destruct (decide (k ∈ ks /\ is_Some (facts w !! k))) as [Hd|Hd], (decide (k ∈ k0 :: ks /\ is_Some (facts w !! k))) as [He|He];
    rewrite elem_of_cons in He; [done|tauto| |].
  - assert (k = k0) as -> by tauto. destruct (decide (is_Some (facts w !! k0))); [apply lookup_insert_eq|tauto].
  - destruct (decide (is_Some (facts w !! k0))) as [H0|H0]; [|done]. apply lookup_insert_ne. intros ->. tauto.
Qed.
Lemma marked_mark ks w : marked ks (mark_trust ks TL_VERIFIED w).
Proof. intros k Hk Hf. destruct (mark_lookup ks TL_VERIFIED w k) as [Ef ->]. rewrite Ef in Hf. by case_decide; [|tauto]. Qed.
Lemma marked_verified ks k v w : marked ks w -> marked ks (set_fact k v TL_VERIFIED w).
Proof.
  intros Hm k' Hk. simpl. destruct (decide (k = k')) as [->|Hne]; [by rewrite !lookup_insert_eq|].
  rewrite !lookup_insert_ne by done. by apply Hm.
Qed.
Lemma shows_marked ks w' w : marked ks w -> shows w' w -> shows (mark_trust ks TL_VERIFIED w') w.
Proof.
  intros Hm Hw k Hk. destruct (Hw k Hk) as [Hf Ht]. destruct (mark_lookup ks TL_VERIFIED w' k) as [-> ->]. split; [done|].
  case_decide as Hd; [|done]. destruct Hd as [Hin Hsome]. symmetry. apply Hm; [done|].
  inversion Hf as [x y Hs E1 E2|E1 E2]; [by exists x|]. rewrite <-E2 in Hsome. by destruct Hsome.
Qed.
Lemma shows_marker key v tl w' w : shows w' w -> shows w' (set_fact (idempotency_marker key) v tl w).
Proof.
  intros Hw k Hm. assert (Hne : idempotency_marker key <> k) by (intros <-; apply Hm; by exists key).
  simpl. rewrite !lookup_insert_ne by done. by apply Hw.
Qed.
Lemma shows_empty : shows empty_world empty_world.
Proof. intros k _. split; [constructor|done]. Qed.

(** * Every step of the transaction manager keeps the replay of the log in step with the world. *)


Section events.
Context `{PyRuntime}.

(** Event types that replaying does not apply to the state, whatever their payload is. *)
Definition quiet (et : string) : bool :=
  negb (str_mem et ["step.executed"; "step.verified"; "goal.created"; "goal.status_changed"; "plan.started"; "plan.finished";
                    "memory.written"; "task.enqueued"; "task.claimed"; "task.completed"; "task.failed"; "task.timed_out";
                    "task.cancelled"; "task.retry_scheduled"; "state.trust_escalated"; "audit.secret_blocked"]).
Definition state_kept (et : string) (pl : dict pyval) (r : ReplayResult) : Prop :=
  exists r', apply_payload et pl r = Ok r' /\ rp_state r' = rp_state r.
Lemma state_kept_refl et pl r : apply_payload et pl r = Ok r -> state_kept et pl r.
Proof. intros E. by exists r. Qed.
Lemma quiet_kept et pl r : quiet et = true -> state_kept et pl r.
Proof.
  unfold quiet, state_kept, apply_payload. intros Hq.
  rewrite negb_true_iff in Hq. unfold str_mem at 1 in Hq. cbn [existsb] in Hq. repeat match type of Hq with (_ || _)%bool = false => apply orb_false_iff in Hq as [?E Hq] end.
  repeat match goal with E : String.eqb et _ = false |- _ => rewrite E; clear E end. cbv iota.
  repeat (match goal with |- context [if ?b then _ else _] => destruct b; [by eexists|] end). by eexists.
Qed.
(** The event of a goal or a plan, recorded under its id. *)
Lemma keyed_kept et pl r key id :
  key_arg key pl = Ok id -> et ∈ ["goal.status_changed"; "plan.started"; "plan.finished"] ->
  key = (if String.eqb et "goal.status_changed" then "goal_id" else "plan_id") -> state_kept et pl r.
Proof.
  intros Hk Hin ->. unfold state_kept, apply_payload. rewrite !elem_of_cons, elem_of_nil in Hin.
  destruct Hin as [->|[->|[->|[]]]]; cbn in Hk |- *; rewrite Hk; cbn; [by eexists..|].
  destruct (kget id (rp_plans r)); by eexists.
Qed.

Lemma apply_payload_ok et pl r r' : apply_payload et pl r = Ok r' -> rp_ok r' = rp_ok r.
Proof.
  unfold apply_payload, task_status, res_map. intros Ha.
  repeat match type of Ha with (if ?b then _ else _) = _ => destruct b end;
    repeat match type of Ha with
    | match ?x with _ => _ end = _ => destruct x; try done
    | res_bind ?x _ = _ => destruct x; simpl in Ha; try done
    end; injection Ha as <-; try done; by destruct (kget _ _).
Qed.
Lemma apply_records_ok l r r' : apply_records r l = Ok r' -> rp_ok r' = rp_ok r.
Proof.
  revert r. induction l as [|x l IH]; intros r; simpl; [by intros [= ->]|].
  destruct (apply_record r x) as [r1|] eqn:E; [|done]. simpl. intros Hl%IH. rewrite Hl. revert E. unfold apply_record.
  destruct (default _ (dget "payload" x)); try (by intros [= ->]). destruct (as_str _); [apply apply_payload_ok|].
  unfold res_map. destruct (need_hash _); [by intros [= ->]|done].
Qed.

Definition unblocked (es : list AuditEvent) : Prop := Forall (fun e => event_type e <> "audit.secret_blocked") es.
(** The log replays to a state that shows [w]. *)
Definition replays_to (es : list AuditEvent) (w : WorldState) : Prop :=
  unblocked es -> exists r, apply_records empty_replay (map event_asdict es) = Ok r /\ shows (rp_state r) w.
Lemma apply_records_app r l l' : apply_records r (l ++ l') = res_bind (apply_records r l) (fun r' => apply_records r' l').
Proof. revert r. induction l as [|x l IH]; intros r; [done|]. simpl. destruct (apply_record r x); [|done]. apply IH. Qed.
Lemma apply_event r e : apply_record r (event_asdict e) = apply_payload (event_type e) (payload e) r.
Proof. done. Qed.

(** Recording an event whose replay takes a state that shows [w] to one that shows [w1]. *)
Definition applies_to_world (et : string) (pl : dict pyval) (w w1 : WorldState) : Prop :=
  forall d r, safe_of (VDict pl) (VDict d) -> shows (rp_state r) w ->
    exists r', apply_payload et d r = Ok r' /\ shows (rp_state r') w1.
Lemma record_replays et msg pl x w w1 :
  et <> "audit.secret_blocked" -> applies_to_world et pl w w1 ->
  replays_to (events (sys_log x)) w -> replays_to (events (sys_log (record et msg pl x))) w1.
Proof.
  intros Het Ha Hx. unfold record. destruct (record_content et msg pl) as [[et' msg'] d] eqn:Ec. cbn [append_event sys_log events].
  unfold replays_to. set (e := {| event_type := _ |}). intros [Hu Hl]%Forall_app. apply Forall_cons in Hl as [Hl _]. simpl in Hl.
  destruct (Hx Hu) as (r & Er & Hs). rewrite map_app, apply_records_app, Er. cbn [res_bind map apply_records].
  rewrite apply_event. unfold record_content in Ec.
  destruct (sanitize_for_boundary REJECT "$.message" (VStr msg)) as [m|x1] eqn:Em; [|by injection Ec as <- _ _].
  destruct (sanitize_for_boundary REJECT "$.payload" (VDict pl)) as [p|x1] eqn:Ep; [|by injection Ec as <- _ _].
  cbn [res_bind res_map] in Ec. destruct (sanitize_dict _ _ _ Ep) as (d0 & -> & _).
  assert (m = VStr msg) as -> by (eapply safe_of_str; by eexists). injection Ec as <- <- <-.
  destruct (Ha d0 r) as (r' & Hr' & Hs'); [by eexists|done|]. exists r'. subst e. cbn [event_type payload]. by rewrite Hr'.
Qed.
Lemma quiet_applies et pl w : quiet et = true -> applies_to_world et pl w w.
Proof. intros Hq d r _ Hs. destruct (quiet_kept et d r Hq) as (r' & Hr & E). exists r'. by rewrite E. Qed.
(** A string of the payload comes back. *)
Lemma safe_str key s pl d : safe_of (VDict pl) (VDict d) -> dlast key pl = Some (VStr s) -> dget key d = Some (VStr s).
Proof.
  intros Hd Hk. destruct (safe_of_dict _ _ Hd) as (d1 & [= <-] & _ & H1). specialize (H1 key). rewrite Hk in H1.
  destruct H1 as (v' & -> & Hv). by rewrite (safe_of_str _ _ Hv).
Qed.
Lemma keyed_applies et key id pl w : dlast key pl = Some (VStr id) ->
  et ∈ ["goal.status_changed"; "plan.started"; "plan.finished"] ->
  key = (if String.eqb et "goal.status_changed" then "goal_id" else "plan_id") -> applies_to_world et pl w w.
Proof.
  intros Hk Hin Hkey d r Hd Hs. destruct (keyed_kept et d r key (VStr id)) as (r' & Hr & E); [|done..|exists r'; by rewrite E].
  unfold key_arg. by rewrite (safe_str _ _ _ _ Hd Hk).
Qed.
Lemma executed_applies sid delta w :
  applies_to_world "step.executed" [("step_id", VStr sid); ("observed", VDict delta);
     ("observed_trust", VStr (TrustLevel_value TL_TOOL_REPORTED))] w (observe delta TL_TOOL_REPORTED w).
Proof.
  intros d r Hd Hs. pose proof (safe_str "observed_trust" _ _ _ Hd eq_refl) as Ht.
  destruct (safe_of_dict _ _ Hd) as (d1 & [= <-] & _ & H1). specialize (H1 "observed"). simpl in H1.
  destruct H1 as (v & Hv & Hsafe). destruct (safe_of_dict _ _ Hsafe) as (obs & -> & _).
  eexists. unfold apply_payload, trust_arg. cbn [String.eqb Ascii.eqb Bool.eqb]. rewrite Hv, Ht. cbn. split; [reflexivity|].
  cbn. by apply shows_observe.
Qed.
Lemma mark_values_strs keys tl w : mark_values (map VStr keys) tl w = Ok (mark_trust keys tl w).
Proof.
  unfold mark_values. assert (Hh : fold_right (fun k acc => res_bind (need_hash k) (fun _ => acc)) (Ok tt) (map VStr keys) = Ok tt)
    by (induction keys; done). rewrite Hh. cbn. do 2 f_equal. clear Hh. induction keys as [|k keys IH]; [done|]. cbn. by rewrite IH.
Qed.
Lemma marked_applies et key1 key2 more keys w :
  (et = "step.verified" /\ key1 = "verified" /\ key2 = "verified_trust" \/
   et = "state.trust_escalated" /\ key1 = "keys" /\ key2 = "to_trust") ->
  dlast key1 more = Some (strs keys) -> dlast key2 more = Some (VStr (TrustLevel_value TL_VERIFIED)) ->
  applies_to_world et more w (mark_trust keys TL_VERIFIED w).
Proof.
  intros Hk H1 H2 d r Hd Hs. pose proof (safe_str _ _ _ _ Hd H2) as Ht.
  destruct (safe_of_dict _ _ Hd) as (d1 & [= <-] & _ & Hl). specialize (Hl key1). rewrite H1 in Hl.
  destruct Hl as (v & Hv & Hsafe). apply safe_of_strs in Hsafe as ->.
  unfold apply_payload, trust_arg. destruct Hk as [(-> & -> & ->)|(-> & -> & ->)]; cbn [String.eqb Ascii.eqb Bool.eqb str_mem existsb];
    eexists; rewrite Hv, Ht; cbn [default from_option id py_str]; (split; [cbn; rewrite mark_values_strs; reflexivity|by apply shows_mark]).
Qed.
Lemma verified_applies more keys w :
  dlast "verified" more = Some (strs keys) -> dlast "verified_trust" more = Some (VStr (TrustLevel_value TL_VERIFIED)) ->
  marked keys w -> applies_to_world "step.verified" more w w.
Proof.
  intros H1 H2 Hm d r Hd Hs. destruct (marked_applies "step.verified" "verified" "verified_trust" more keys w) with (d := d) (r := r)
    as (r' & Hr & _); [by left|done..|].
  exists r'. split; [done|]. revert Hr. pose proof (safe_str _ _ _ _ Hd H2) as Ht.
  destruct (safe_of_dict _ _ Hd) as (d1 & [= <-] & _ & Hl). specialize (Hl "verified"). rewrite H1 in Hl.
  destruct Hl as (v & Hv & Hsafe). apply safe_of_strs in Hsafe as ->.
  unfold apply_payload, trust_arg. cbn [String.eqb Ascii.eqb Bool.eqb]. rewrite Hv, Ht. cbn. rewrite mark_values_strs. cbn.
  intros [= <-]. simpl. by apply shows_marked.
Qed.
End events.
