(* ===== verification/TxEnv.v ===== *)
(** What a run of the transaction manager does to the environment of the
    tools.  The tools of the registry are sound for an invariant [J] on environments and
    pending rollbacks when dry runs keep it, executions keep it with the token they issue
    pushed, and rolling the last token back keeps it with that token popped; then every run of a plan keeps it,
    whatever the plan, the policy, the gate and the failures are. *)
From S2P Require Import Prelude Enums PyValue Sanitization Goals Plans Tools AuditTrail Causal Egress Policy Approval Gates Transactions TxInvariants TxRollback.

(** The pending rollbacks after an execution. *)
Definition pushed {X} (t : Tool X) (r : res exn ToolResult) (k : list (Tool X * dict pyval)) : list (Tool X * dict pyval) :=
  match r with
  | Ok r => if ok r then match rollback_token r with Some ((_ :: _) as token) => (t, token) :: k | _ => k end else k
  | Raise _ => k
  end.

Section env.
Context `{PyRuntime} `{JsonSchemaValidator} {X G : Type}.
Context (tm : TransactionManager X G) (J : X -> list (Tool X * dict pyval) -> Prop).
Implicit Types s : TState X G.

Record tool_sound (t : Tool X) : Prop := {
  so_dry : forall args e w k, J e k -> J (snd (dry_run t args (e, w))).1 k;
  so_execute : forall args e w k, J e k ->
    J (snd (execute t args (e, w))).1 (pushed t (fst (execute t args (e, w))) k);
  so_rollback : forall token e w k, J e ((t, token) :: k) -> J (snd (rollback t token (e, w))).1 k;
  so_skip : forall token e k, rollback_egress_block_reason tm (spec t) <> None -> J e ((t, token) :: k) -> J e k;
}.

Definition joint s : Prop := J (t_env s) (map fst (t_stack s)) /\ Forall (fun x => tool_sound x.1.1) (t_stack s).
Definition env_kept s s' : Prop := joint s -> joint s'.
Abbreviation EK := (keeps env_kept).
#[export] Instance env_kept_preorder : PreOrder env_kept.
Proof. split; [intros s Hs; exact Hs|]. intros x y z H1 H2 Hx. exact (H2 (H1 Hx)). Qed.
Lemma env_kept_same s s' : t_env s' = t_env s -> t_stack s' = t_stack s -> env_kept s s'.
Proof. intros He Hk Hs. unfold joint. by rewrite He, Hk. Qed.
Lemma audit_env et msg pl : EK (audit (St:=TState X G) et msg pl).
Proof. intros s. by apply env_kept_same. Qed.
Lemma time_env : EK (time_time (St:=TState X G)).
Proof. intros s. by apply env_kept_same. Qed.
Lemma uuid_env : EK (uuid4 (St:=TState X G)).
Proof. intros s. by apply env_kept_same. Qed.
Lemma world_env f : keeps (E:=exn) env_kept (modify (fun s => with_world (f s) s)).
Proof. intros s. by apply env_kept_same. Qed.
Lemma plan_env f : keeps (E:=exn) env_kept (modify (fun s => with_plan (f s) s)).
Proof. intros s. by apply env_kept_same. Qed.
Lemma plan_const_env p : keeps (E:=exn) env_kept (modify (with_plan p)).
Proof. intros s. by apply env_kept_same. Qed.
Lemma uses_env f : keeps (E:=exn) env_kept (modify (fun s => with_uses (f s) s)).
Proof. intros s. by apply env_kept_same. Qed.
Lemma gate_env {A} (m : GM G A) : EK (lift_gate (X:=X) m).
Proof. intros s. unfold lift_gate. destruct (m _) as [r [g n]]. by apply env_kept_same. Qed.
Lemma upd_step_env i f : EK (upd_step (X:=X) (G:=G) i f).
Proof. intros s. by apply env_kept_same. Qed.
Lemma status_env i v : EK (put_status (X:=X) (G:=G) i v).
Proof. apply upd_step_env. Qed.
Lemma get_step_env i : EK (get_step (X:=X) (G:=G) i).
Proof. intros s. by apply env_kept_same. Qed.
#[local] Hint Resolve audit_env time_env uuid_env world_env plan_env plan_const_env uses_env gate_env upd_step_env
  status_env get_step_env : keeps.

Lemma dry_env i st t args : tool_sound t -> EK (call_tool (G:=G) DryRun i st t args).
Proof.
  intros Ht s [Hj Hs]. unfold call_tool. pose proof (so_dry _ Ht args (t_env s) (t_world s) _ Hj) as Hd.
  destruct (dry_run t args _) as [r [e w]]. by split.
Qed.
Lemma manual_recovery_env st ts why : EK (record_manual_recovery tm st ts why).
Proof. unfold record_manual_recovery, recovery_build. keeps_auto. Qed.
#[local] Hint Resolve manual_recovery_env : keeps.

(** Between popping a rollback and running it. *)
Definition popped (t : Tool X) (token : dict pyval) s : Prop :=
  J (t_env s) ((t, token) :: map fst (t_stack s)) /\ Forall (fun x => tool_sound x.1.1) (t_stack s).
Definition pop_kept t token s s' : Prop := popped t token s -> popped t token s'.
#[local] Instance pop_kept_preorder t token : PreOrder (pop_kept t token).
Proof. split; [intros s Hs; exact Hs|]. intros x y z H1 H2 Hx. exact (H2 (H1 Hx)). Qed.
Lemma pop_kept_same t token s s' : t_env s' = t_env s -> t_stack s' = t_stack s -> pop_kept t token s s'.
Proof. intros He Hk Hs. unfold popped. by rewrite He, Hk. Qed.
Lemma pop_then {A B} t token (m : M (TState X G) exn A) (f : A -> M (TState X G) exn B) s :
  popped t token s -> keeps (pop_kept t token) m -> total m ->
  (forall a s', popped t token s' -> joint (snd (f a s'))) -> joint (snd (bind m f s)).
Proof.
  intros Hs Hm Ht Hf. unfold bind. pose proof (Hm s Hs) as H1. destruct (Ht s) as (a & s1 & E). rewrite E in *. by apply Hf.
Qed.
Lemma audit_pop t token et msg pl : keeps (pop_kept t token) (audit (St:=TState X G) et msg pl).
Proof. intros s. by apply pop_kept_same. Qed.
Lemma recovery_pop t token st ts why : keeps (pop_kept t token) (record_manual_recovery tm st ts why).
Proof.
  assert (keeps (pop_kept t token) (time_time (St:=TState X G))) by (intros s; by apply pop_kept_same).
  assert (keeps (pop_kept t token) (uuid4 (St:=TState X G))) by (intros s; by apply pop_kept_same).
  pose proof (audit_pop t token). unfold record_manual_recovery, recovery_build. keeps_auto.
Qed.
Lemma rollback_one_env t token i s : tool_sound t -> popped t token s -> joint (snd (rollback_one tm t token i s)).
Proof.
  intros Ht Hs. unfold rollback_one. apply (pop_then t token); [done|intros ?; by apply pop_kept_same|intros s0; by eexists _, _|].
  clear s Hs. intros st s Hs.
  apply (pop_then t token); [done|apply audit_pop|intros s0; by eexists _, _|]. clear s Hs. intros [] s Hs.
  destruct (rollback_egress_block_reason tm (spec t)) as [[[host ms] why]|] eqn:Eb.
  - assert (Hj : joint s) by (destruct Hs as [Hj Hf]; split; [eapply so_skip; [done| |done]; congruence|done]).
    revert Hj. match goal with |- joint s -> joint (snd (?m s)) => cut (EK m); [intros Hk; apply Hk|] end. keeps_auto.
  - apply (pop_then t token); [done|destruct (is_network_tool _); [apply audit_pop|intros ?; by apply pop_kept_same]
      |destruct (is_network_tool _); intros s0; by eexists _, _|]. clear s Hs. intros [] s Hs.
    assert (Hcall : forall h, (forall e s', joint s' -> joint (snd (h e s'))) ->
      joint (snd (catch (call_tool (G:=G) Rollback i st t token) h s))).
    { intros h Hh. unfold catch, call_tool. pose proof (so_rollback _ Ht token (t_env s) (t_world s) _ (proj1 Hs)) as Hr.
      destruct (rollback t token (t_env s, t_world s)) as [[r|e] [x w]]; [|apply Hh]; (split; [exact Hr|exact (proj2 Hs)]). }
    match goal with |- joint (snd (bind ?m ?f s)) =>
      assert (Hm : joint (snd (m s))) by (by apply Hcall); assert (Hf : forall r, EK (f r)) by (intros r; keeps_auto);
      unfold bind; destruct (m s) as [[r|e] s'] end; [by apply Hf|done].
Qed.
Lemma rollback_loop_env k a b s :
  J (t_env s) (map fst k) -> Forall (fun x => tool_sound x.1.1) k -> t_stack s = k ->
  joint (snd (rollback_loop tm k a b s)).
Proof.
  intros Hj Hk. revert a b s Hj. induction Hk as [|[[t token] i] k Ht Hk IH]; intros a b s Hj Hs; simpl in *.
  { split; by rewrite Hs. }
  unfold bind at 1, modify. unfold bind.
  pose proof (rollback_one_env t token i (with_stack k s) Ht (conj Hj Hk)) as Ho.
  destruct (rollback_one_calls tm t token i (with_stack k s)) as [_ Hst].
  destruct (rollback_one tm t token i (with_stack k s)) as [[b'|e] s1]; simpl in *; [|done].
  destruct Ho as [Hj1 _]. rewrite Hst in Hj1. destruct b'; by apply IH.
Qed.
Lemma rollback_all_env : EK (rollback_all tm).
Proof.
  intros s Hs. unfold rollback_all. unfold bind at 1, gets.
  pose proof (rollback_loop_env (t_stack s) 0 0 s (proj1 Hs) (proj2 Hs) eq_refl) as Hl. unfold bind.
  destruct (rollback_loop tm (t_stack s) 0 0 s) as [[sf|e] s1]; simpl in Hl; [|done].
  destruct (negb _ && negb _); [|done].
  by apply (audit_env "rollback_partially_completed" "Some rollback steps succeeded and some failed"
    [("succeeded", VInt (fst sf)); ("failed", VInt (snd sf))] s1).
Qed.
#[local] Hint Resolve rollback_all_env : keeps.
Lemma stop_env {A} i v evs : EK (stop (A:=A) tm i v evs).
Proof. unfold stop, audit_all. keeps_auto. Qed.
#[local] Hint Resolve stop_env : keeps.
Lemma transition_to_env v : EK (transition_to (X:=X) (G:=G) v).
Proof. unfold transition_to. keeps_auto. Qed.
#[local] Hint Resolve transition_to_env : keeps.
Lemma plan_goal_env v : EK (transition_plan_goal (X:=X) (G:=G) v).
Proof. unfold transition_plan_goal. keeps_auto. Qed.
Lemma attestation_env st t : EK (runtime_attestation_block_reason tm st t).
Proof. unfold runtime_attestation_block_reason. keeps_auto. Qed.
#[local] Hint Resolve attestation_env plan_goal_env : keeps.
Lemma budget_record_env i msg pl : EK (record_budget_exceeded (X:=X) (G:=G) i msg pl).
Proof. unfold record_budget_exceeded. keeps_auto. Qed.
#[local] Hint Resolve budget_record_env : keeps.
Lemma budget_loop_env b l fw nr : EK (budget_loop tm b l fw nr).
Proof.
  revert fw nr. induction l as [|i l IH]; intros fw nr; cbn [budget_loop]; [keeps_auto|].
  apply keeps_bind; [apply _|keeps_auto|intros st].
  destruct (registry_get _ _) as [t|e]; [|keeps_auto].
  apply keeps_bind; [apply _|keeps_auto|intros _].
  apply keeps_bind; [apply _|keeps_auto|intros st'].
  repeat (match goal with |- keeps _ (if ?b then _ else _) => destruct b end); try apply IH; keeps_auto.
Qed.
#[local] Hint Resolve budget_loop_env : keeps.
Lemma budget_env b : EK (budget_exceeded tm b).
Proof. unfold budget_exceeded. keeps_auto. Qed.
Lemma guards_env i st t : EK (step_guards tm i st t).
Proof.
  unfold step_guards, audit_egress, check_attestation, check_production, check_sandbox, check_secrets,
    predict_and_review, review, check_idempotency, check_preconditions. keeps_auto.
Qed.
Lemma find_grant_env n gs uses who tool : EK (find_grant (St:=TState X G) n gs uses who tool).
Proof. revert n. induction gs as [|g gs IH]; intros n; simpl; unfold applies_to; keeps_auto; apply IH. Qed.
Lemma matching_grant_env e uses tool : EK (matching_grant (St:=TState X G) e uses tool).
Proof.
  unfold matching_grant. destruct (principal e); [|keeps_auto].
  destruct (String.eqb _ _); [keeps_auto|apply find_grant_env].
Qed.
#[local] Hint Resolve matching_grant_env : keeps.
Lemma decide_step_env e uses st : EK (decide_step (St:=TState X G) e uses st).
Proof. unfold decide_step. keeps_auto. Qed.
#[local] Hint Resolve decide_step_env : keeps.
Lemma checks_env i st t preds r : EK (step_checks tm i st t preds r).
Proof.
  unfold step_checks, check_output, check_contract, observe_and_verify, check_postconditions, finish_step,
    record_grant_use, record_idempotency_key. keeps_auto.
Qed.
Lemma authorize_env i st t args : tool_sound t -> EK (authorize tm i st t args).
Proof.
  intros Ht. pose proof (dry_env i st t args Ht) as Hcall.
  unfold authorize, human_approval, request_approval, check_signed_gate, prepare_step_packet, decide_packet,
    use_approval, dry_run_step, build_approval_packet, validate_approval_decision. keeps_auto.
Qed.
Lemma execute_env i st t args : tool_sound t -> EK (execute_step tm i st t args).
Proof.
  intros Ht s [Hj Hs]. unfold execute_step. unfold bind at 1, call_tool.
  pose proof (so_execute _ Ht args (t_env s) (t_world s) _ Hj) as Hx.
  destruct (execute t args (t_env s, t_world s)) as [[r|e] [x w]]; cbn [fst snd pushed] in Hx; [|by split].
  destruct (ok r); cbn [negb].
  2: { match goal with |- joint (snd (?m ?s1)) => assert (Hk : EK m) by keeps_auto; apply Hk end. by split. }
  unfold bind at 1, put_status, upd_step, modify.
  destruct (rollback_token r) as [[|kv token]|]; split; try done. by constructor.
Qed.

Context (Hreg : forall n t, registry_get n (tm_registry tm) = Ok t -> tool_sound t).
Lemma run_step_env i : EK (run_step tm i).
Proof.
  unfold run_step. apply keeps_step_yields; [apply _|unfold resolve_tool; keeps_auto|].
  intros t (s0 & s1 & Ht).
  assert (Hk : tool_sound t).
  { revert Ht. unfold resolve_tool, bind, get_step, gets. destruct (registry_get _ _) as [t'|e] eqn:Er.
    - intros [= <- _]. by eapply Hreg.
    - destruct (negb _); [done|]. destruct (stop tm i BLOCKED _ s0) as [o s2] eqn:Es. intros [= -> ->].
      revert Es. unfold stop. intros Hb. apply bind_inv in Hb as [(? & _ & ?)|(? & ? & _ & Hb)]; [done|].
      apply bind_inv in Hb as [(? & _ & ?)|(? & ? & _ & Hb)]; [done|].
      by apply bind_inv in Hb as [(? & _ & ?)|(? & ? & _ & Hb)]. }
  apply keeps_bind; [apply _|keeps_auto|intros _]. apply keeps_bind; [apply _|keeps_auto|intros st].
  apply keeps_step_yields; [apply _|apply guards_env|intros preds _]. cbv zeta.
  apply keeps_step_yields; [apply _|by apply authorize_env|intros _ _].
  apply keeps_step_yields; [apply _|by apply execute_env|intros r _]. apply checks_env.
Qed.
Lemma run_steps_env l : EK (run_steps tm l).
Proof.
  induction l as [|i l IH]; simpl; [keeps_auto|]. apply keeps_bind; [apply _|apply run_step_env|].
  intros [u|]; [apply IH|keeps_auto].
Qed.

(** Before the stack is emptied the environment is not touched. *)
Definition env_eq s s' : Prop := t_env s' = t_env s.
#[local] Instance env_eq_preorder : PreOrder env_eq.
Proof. split; [done|]. intros x y z Hx Hy. exact (eq_trans Hy Hx). Qed.
Lemma plan_goal_env_eq v : keeps env_eq (transition_plan_goal (X:=X) (G:=G) v).
Proof.
  assert (Ha : forall et msg pl, keeps env_eq (audit (St:=TState X G) et msg pl)) by done.
  assert (Hm : forall p, keeps (E:=exn) env_eq (modify (with_plan (X:=X) (G:=G) p))) by done.
  unfold transition_plan_goal, transition_to. keeps_auto.
Qed.
(** Every run of a plan keeps [J]. *)
Definition plan_joint e0 (x : res exn unit * TState X G) : Prop :=
  joint (snd x) \/ t_env (snd x) = e0 /\ is_ok (fst x) = false.
Lemma execute_plan_joint s : J (t_env s) [] -> plan_joint (t_env s) (execute_plan tm s).
Proof.
  intros HJ. unfold execute_plan. unfold bind at 1, gets. unfold bind at 1, audit, modify.
  match goal with |- context [upd_sys ?x s] => set (s1 := upd_sys x s) end.
  change (t_env s) with (t_env s1) in *. clearbody s1. unfold bind at 1. pose proof (plan_goal_env_eq G_RUNNING s1) as E2.
  destruct (transition_plan_goal G_RUNNING s1) as [[u|e] s2]; unfold env_eq in E2; simpl in E2; [left|right; by split].
  unfold bind at 1. rewrite <-E2 in HJ. set (s3 := with_stack [] s2). change (t_env s2) with (t_env s3) in *.
  assert (H3 : joint s3) by (split; [exact HJ|constructor]). clearbody s3.
  match goal with |- joint (snd (?m s3)) => cut (EK m); [intros Hk; by apply Hk|] end.
  pose proof run_steps_env. pose proof budget_env. unfold finish_plan. keeps_auto.
Qed.
End env.

(** ** Tools that keep a relation *)

(** A tool that keeps [R] and whose executions, in environments of [I], issue tokens of [P]. *)
Record tool_keeps {X} (R : relation X) (I : X -> Prop) (P : dict pyval -> Prop) (t : Tool X) : Prop := {
  tk_dry : forall args e w, R e (snd (dry_run t args (e, w))).1;
  tk_execute : forall args e w, R e (snd (execute t args (e, w))).1;
  tk_token : forall args e w r x token, I e -> execute t args (e, w) = (Ok r, x) -> rollback_token r = Some token -> P token;
  tk_rollback : forall token e w, P token -> R e (snd (rollback t token (e, w))).1;
}.

Section relation.
Context `{PyRuntime} `{JsonSchemaValidator} {X G : Type}.
Context (tm : TransactionManager X G) (R : relation X) `{!PreOrder R} (I : X -> Prop) (P : Tool X -> dict pyval -> Prop).
Context (HI : forall e e', R e e' -> I e -> I e').

Definition related (e0 e : X) (k : list (Tool X * dict pyval)) : Prop := R e0 e /\ I e /\ Forall (fun x => P x.1 x.2) k.
Lemma keeps_sound e0 t : tool_keeps R I (P t) t -> tool_sound tm (related e0) t.
Proof.
  intros [Hd He Ht Hr]. split.
  - intros args e w k (HR & Hi & ?).
    split_and!; [etrans; [exact HR|apply Hd]|exact (HI _ _ (Hd args e w) Hi)|done].
  - intros args e w k (HR & Hi & Hk).
    split_and!; [etrans; [exact HR|apply He]|exact (HI _ _ (He args e w) Hi)|].
    destruct (execute t args (e, w)) as [[r|x] s] eqn:E; [|done]. simpl. destruct (ok r); [|done].
    destruct (rollback_token r) as [[|kv token]|] eqn:Er; [done| |done]. constructor; [|done]. by eapply Ht.
  - intros token e w k (HR & Hi & [Hp Hk]%Forall_cons).
    split_and!; [etrans; [exact HR|by apply Hr]|exact (HI _ _ (Hr token e w Hp) Hi)|done].
  - intros token e k _ (? & ? & [Hp Hk]%Forall_cons). by split_and!.
Qed.
(** Every run of a plan keeps [R]. *)
Lemma execute_plan_env s :
  (forall n t, registry_get n (tm_registry tm) = Ok t -> tool_keeps R I (P t) t) ->
  I (t_env s) -> R (t_env s) (t_env (snd (execute_plan tm s))).
Proof.
  intros Hreg Hi.
  assert (Hs : forall n t, registry_get n (tm_registry tm) = Ok t -> tool_sound tm (related (t_env s)) t).
  { intros n t Ht. by eapply keeps_sound, Hreg. }
  destruct (execute_plan_joint tm _ Hs s) as [[(HR & _) _]|[-> _]]; [|done|reflexivity].
  split_and!; [reflexivity|done|constructor].
Qed.
End relation.
