(* ===== verification/GitHubTheory.v ===== *)
(** The theory of the GitHub tools: what every method keeps, and which parts of
    the state the credentials can reach. *)
From S2P Require Import Prelude Enums PyValue Sanitization Goals Plans Tools Credentials GitHubClient GitHubTools AuditTrail Causal Egress Policy Approval Gates Transactions TxInvariants TxEnv.

(** ** What every method keeps *)

(** A client all of whose operations keep a relation. *)
Record client_keeps {C} (R : relation C) (client : GitHubClient C) : Prop := {
  ck_read_issue : forall a b c, keeps R (gc_read_issue client a b c);
  ck_repository_info : forall a b, keeps R (gc_repository_info client a b);
  ck_get_branch : forall a b c, keeps R (gc_get_branch client a b c);
  ck_get_pr : forall a b c, keeps R (gc_get_pr client a b c);
  ck_create_branch : forall a b c d, keeps R (gc_create_branch client a b c d);
  ck_delete_branch : forall a b c, keeps R (gc_delete_branch client a b c);
  ck_get_file : forall a b c d, keeps R (gc_get_file client a b c d);
  ck_update_file : forall a b c d e f g h, keeps R (gc_update_file client a b c d e f g h);
  ck_open_pr : forall a b c d e f g, keeps R (gc_open_pr client a b c d e f g);
  ck_close_pr : forall a b c, keeps R (gc_close_pr client a b c);
  ck_comment : forall a b c d, keeps R (gc_comment client a b c d);
  ck_delete_comment : forall a b c, keeps R (gc_delete_comment client a b c);
  ck_ci_status : forall a b c, keeps R (gc_ci_status client a b c);
}.

Section kept.
Context `{PyRuntime} `{ToolPlatform} {C V : Type} (client : GitHubClient C) (vault : option (CredentialVault V)).
Context (R : relation C) `{!PreOrder R} (Hclient : client_keeps R client).
Definition client_rel (e e' : GhEnv C V) : Prop := R (ge_client e) (ge_client e').
Definition method_rel (x y : GhEnv C V * WorldState) : Prop := client_rel x.1 y.1.
#[export] Instance client_rel_preorder : PreOrder client_rel.
Proof. unfold client_rel. split; [by intros x|intros x y z; apply transitivity]. Qed.
#[local] Instance method_rel_preorder : PreOrder method_rel.
Proof. unfold method_rel. split; [by intros x|intros x y z; apply transitivity]. Qed.

Lemma in_client_keeps {A} (m : M C exn A) : keeps R m -> keeps method_rel (in_client (V:=V) m).
Proof.
  intros Hm [e w]. specialize (Hm (ge_client e)). unfold in_client. by destruct (m (ge_client e)) as [r c].
Qed.
Lemma in_vault_keeps {A} (m : VM V A) : keeps method_rel (in_vault (C:=C) m).
Proof.
  intros [e w]. unfold in_vault. destruct (m _) as [r [v c]]. unfold method_rel, client_rel. simpl. reflexivity.
Qed.
Lemma token_map_keeps (f : GhEnv C V * WorldState -> GhEnv C V * WorldState) :
  (forall x, ge_client (f x).1 = ge_client x.1) -> keeps (E:=exn) method_rel (modify f).
Proof. intros Hf x. unfold method_rel, client_rel. simpl. by rewrite Hf. Qed.
Lemma try_leos_keeps {A} (m : TM (GhEnv C V) A) k :
  keeps method_rel m -> (forall a, keeps method_rel (k a)) -> keeps method_rel (try_leos m k).
Proof.
  intros Hm Hk x. specialize (Hm x). unfold try_leos. destruct (m x) as [[a|e] x']; simpl in Hm.
  - etrans; [exact Hm|apply Hk].
  - by destruct (isinstance e LeosError).
Qed.
Lemma remember_keeps tool secret repo : keeps method_rel (remember_rollback_credential (C:=C) vault tool secret repo).
Proof.
  unfold remember_rollback_credential. destruct secret as [s|]; [|keeps_auto]. destruct vault as [cv|].
  - apply keeps_bind; [apply _|apply in_vault_keeps|intros h; keeps_auto].
  - apply keeps_bind; [apply _|apply in_vault_keeps|intros id].
    apply keeps_bind; [apply _|by apply token_map_keeps; intros []|intros _; keeps_auto].
Qed.
Lemma auth_token_keeps tool token : keeps method_rel (rollback_auth_token (C:=C) vault tool token).
Proof.
  unfold rollback_auth_token. destruct (dget "auth_handle" token) as [h|].
  - destruct vault as [cv|]; [|keeps_auto]. intros x.
    assert (Hf : keeps method_rel (fetch_credential (C:=C) cv token h)).
    { unfold fetch_credential. apply keeps_bind; [apply _|keeps_auto|intros d].
      apply keeps_bind; [apply _|apply in_vault_keeps|intros h']. apply in_vault_keeps. }
    specialize (Hf x). destruct (fetch_credential cv token h x) as [[s|e] x']; simpl in *; [done|]. by destruct (credential_errors e).
  - destruct (dget "auth_token_id" token) as [[]|]; try (apply keeps_ret; apply _);
      (apply keeps_bind; [apply _|keeps_auto|intros m]; apply keeps_bind; [apply _|by apply token_map_keeps; intros []|intros _; keeps_auto]).
Qed.
Lemma str_of_keeps k d : keeps method_rel (str_of (C:=C) (V:=V) k d).
Proof. unfold str_of. keeps_auto. Qed.
Lemma int_of_keeps k d : keeps method_rel (int_of (C:=C) (V:=V) k d).
Proof. unfold int_of. keeps_auto. Qed.
#[local] Hint Resolve str_of_keeps int_of_keeps remember_keeps auth_token_keeps in_vault_keeps : keeps.
#[local] Hint Extern 1 (keeps method_rel (in_client _)) => apply in_client_keeps, Hclient : keeps.
Lemma rolling_back_keeps tool token calls msg :
  (forall auth, keeps method_rel (calls auth)) -> keeps method_rel (rolling_back (C:=C) vault tool token calls msg).
Proof.
  intros Hc. unfold rolling_back. apply keeps_bind; [apply _|keeps_auto|intros [auth|err]; [|keeps_auto]].
  apply try_leos_keeps; [done|intros _; keeps_auto].
Qed.
Lemma executing_keeps dry args body :
  (forall s, keeps method_rel (body s)) -> keeps method_rel (executing (C:=C) (V:=V) dry args body).
Proof. intros Hb. unfold executing. destruct (negb _); [keeps_auto|]. destruct (token_secret args); [apply Hb|keeps_auto]. Qed.

Ltac methods :=
  repeat match goal with
  | |- keeps _ (executing _ _ _) => apply executing_keeps; intros ?
  | |- keeps _ (rolling_back _ _ _ _ _) => apply rolling_back_keeps; intros ?
  | |- keeps _ (try_leos _ _) => apply try_leos_keeps; [|intros ?]
  | _ => keeps_step
  end.
Lemma tool_keeps_intro (t : Tool (GhEnv C V)) :
  (forall args, keeps method_rel (dry_run t args)) -> (forall args, keeps method_rel (execute t args)) ->
  (forall token, keeps method_rel (rollback t token)) -> tool_keeps client_rel (fun _ => True) (fun _ => True) t.
Proof. intros Hd He Hr. split; [intros args e w; exact (Hd args (e, w))|intros args e w; exact (He args (e, w))|done|intros token e w _; exact (Hr token (e, w))]. Qed.
Lemma github_tools_keep : Forall (tool_keeps client_rel (fun _ => True) (fun _ => True)) (github_tools client vault).
Proof.
  repeat constructor; apply tool_keeps_intro; intros args; cbn;
    unfold no_rollback, create_branch_execute, create_branch_rollback, update_file_execute, update_file_rollback,
      open_pr_execute, open_pr_rollback, comment_execute, comment_rollback, close_pr_execute, delete_branch_execute;
    methods.
Qed.
End kept.

(** ** Nothing on a protected branch disappears *)

Record protects (s s' : GhState) : Prop := {
  pt_branch : forall r b, b ∈ protected_branches -> is_Some (gh_branches s !! (r, b)) -> is_Some (gh_branches s' !! (r, b));
  pt_file : forall r b p, b ∈ protected_branches -> is_Some (gh_files s !! (r, b, p)) -> is_Some (gh_files s' !! (r, b, p));
  pt_pr : forall k, is_Some (gh_prs s !! k) -> is_Some (gh_prs s' !! k);
}.
#[export] Instance protects_preorder : PreOrder protects.
Proof. split; [by split|]. intros x y z [? ? ?] [? ? ?]. split; eauto. Qed.
Lemma is_Some_insert `{Countable K} {A} (m : gmap K A) k k' v : is_Some (m !! k) -> is_Some (<[k' := v]> m !! k).
Proof. intros Hk. destruct (decide (k' = k)) as [->|Hne]; [by rewrite lookup_insert_eq|by rewrite lookup_insert_ne]. Qed.
Lemma protects_same s s' : gh_branches s' = gh_branches s -> gh_files s' = gh_files s -> gh_prs s' = gh_prs s -> protects s s'.
Proof. intros E1 E2 E3. split; by rewrite ?E1, ?E2, ?E3. Qed.
Lemma copy_files_lookup r b base l files k :
  copy_files r b base l files !! k =
    match files !! k with
    | o => fold_left (fun o kf => if String.eqb kf.1.1.1 r && String.eqb kf.1.1.2 base && bool_decide ((r, b, kf.1.2) = k)
                                  then Some kf.2 else o) l o
    end.
Proof.
  revert files. induction l as [|[[[r' b'] p] f] l IH]; intros files; simpl; [done|]. rewrite IH. f_equal.
  destruct (String.eqb r' r && String.eqb b' base); simpl; [|done].
  case_bool_decide as E; [subst k; by rewrite lookup_insert_eq|by rewrite lookup_insert_ne].
Qed.
Lemma copy_files_is_Some r b base l files k : is_Some (files !! k) -> is_Some (copy_files r b base l files !! k).
Proof.
  rewrite copy_files_lookup. generalize (files !! k). induction l as [|kf l IH]; intros o Ho; simpl; [done|]. apply IH.
  by destruct (_ && bool_decide _).
Qed.

Section memory.
Context `{PyRuntime}.

Lemma record_token_protects t : keeps protects (record_token t).
Proof. apply keeps_modify. intros s. destruct t; by apply protects_same. Qed.
Lemma must_find_keeps (R : relation GhState) `{!PreOrder R} {A} key (o : option A) : keeps R (must_find key o).
Proof. unfold must_find. keeps_auto. Qed.
#[local] Hint Resolve record_token_protects : keeps.
#[local] Hint Extern 1 (keeps protects (must_find _ _)) => apply must_find_keeps, _ : keeps.
Lemma delete_branch_protects r b t : keeps protects (mem_delete_branch r b t).
Proof.
  unfold mem_delete_branch. apply keeps_bind; [apply _|keeps_auto|intros _].
  destruct (str_mem b protected_branches) eqn:Eb; [keeps_auto|]. apply str_mem_false in Eb.
  apply keeps_modify. intros s. split; simpl; [| |done].
  - intros r' b' Hbr. rewrite lookup_delete_ne; [done|]. by intros [= -> ->].
  - intros r' b' p Hbr [f Hf]. exists f. apply map_lookup_filter_Some. split; [done|]. intros [_ E]. simpl in E. by subst.
Qed.
#[local] Hint Resolve delete_branch_protects : keeps.
Lemma memory_keeps : client_keeps protects InMemoryGitHubClient.
Proof.
  split; intros; cbn;
    unfold mem_read_issue, mem_repository_info, mem_get_branch, mem_get_pr, mem_create_branch,
      mem_get_file, mem_update_file, mem_open_pr, mem_close_pr, mem_comment, mem_delete_comment, mem_ci_status;
    keeps_auto; apply keeps_modify; intros s.
  - split; simpl; [|intros r br p _; apply copy_files_is_Some|done]. intros r br _. by apply is_Some_insert.
  - split; simpl; [|intros r br p _; apply is_Some_insert|done]. intros r br _. by apply is_Some_insert.
  - split; simpl; [done..|]. intros k. by apply is_Some_insert.
  - split; simpl; [done..|]. intros k. by apply is_Some_insert.
  - by apply protects_same.
  - by apply protects_same.
Qed.
End memory.

(** ** Two runs: which results the secrets can reach *)

(** From related states two methods end in related states, with related
    values or the same exception. *)
Definition res_rel {A} (Q : relation A) (r1 r2 : res exn A) : Prop :=
  match r1, r2 with Ok a, Ok b => Q a b | Raise e, Raise e' => e = e' | _, _ => False end.
Definition agree {S A} (RS : relation S) (Q : relation A) (m1 m2 : M S exn A) : Prop := forall s1 s2,
  RS s1 s2 -> RS (snd (m1 s1)) (snd (m2 s2)) /\ res_rel Q (fst (m1 s1)) (fst (m2 s2)).

Section agree.
Context {S : Type} (RS : relation S).

Lemma agree_ret {A} (Q : relation A) a b : Q a b -> agree RS Q (ret a) (ret b).
Proof. intros HQ s1 s2 Hs. by split. Qed.
Lemma agree_raise {A} (Q : relation A) e : agree RS Q (raise e) (raise e).
Proof. intros s1 s2 Hs. by split. Qed.
Lemma agree_of_res {A} (Q : relation A) r1 r2 : res_rel Q r1 r2 -> agree RS Q (of_res r1) (of_res r2).
Proof. intros HQ s1 s2 Hs. by split. Qed.
Lemma agree_of_eq {A} (r : res exn A) : agree RS eq (of_res r) (of_res r).
Proof. apply agree_of_res. by destruct r. Qed.
Lemma agree_bind {A B} (Q : relation A) (Q' : relation B) m1 m2 f1 f2 :
  agree RS Q m1 m2 -> (forall a b, Q a b -> agree RS Q' (f1 a) (f2 b)) -> agree RS Q' (bind m1 f1) (bind m2 f2).
Proof.
  intros Hm Hf s1 s2 Hs. destruct (Hm s1 s2 Hs) as [Hs' Hr]. unfold bind.
  destruct (m1 s1) as [[a|e] s1'], (m2 s2) as [[b|e'] s2']; simpl in *; try done. by apply Hf.
Qed.
Lemma agree_bind_eq {A B} (Q' : relation B) (m1 m2 : M S exn A) f1 f2 :
  agree RS eq m1 m2 -> (forall a, agree RS Q' (f1 a) (f2 a)) -> agree RS Q' (bind m1 f1) (bind m2 f2).
Proof. intros Hm Hf. eapply agree_bind; [exact Hm|]. by intros a _ <-. Qed.
Lemma agree_modify f1 f2 : (forall s1 s2, RS s1 s2 -> RS (f1 s1) (f2 s2)) -> agree RS eq (modify f1) (modify f2).
Proof. intros Hf s1 s2 Hs. split; [by apply Hf|done]. Qed.
Lemma agree_gets {A} (Q : relation A) f1 f2 : (forall s1 s2, RS s1 s2 -> Q (f1 s1) (f2 s2)) -> agree RS Q (gets f1) (gets f2).
Proof. intros Hf s1 s2 Hs. split; [done|by apply Hf]. Qed.
End agree.

(** Both absent or both present. *)
Definition same_shape {A} (o1 o2 : option A) : Prop := is_Some o1 <-> is_Some o2.
Lemma same_shape_cases {A} (o1 o2 : option A) : same_shape o1 o2 -> (o1 = None /\ o2 = None) \/ exists a b, o1 = Some a /\ o2 = Some b.
Proof.
  unfold same_shape. destruct o1, o2; [right; eauto|intros [Hx _]|intros [_ Hx]|by left];
    destruct Hx as [? ?]; try done; eauto.
Qed.

(** The in-memory client records of a token its fingerprint, in a list that nothing reads. *)
Definition tokens_differ (s1 s2 : GhState) : Prop := exists l,
  s2 = with_tokens (accepted_token_count s1) l s1 /\ length l = length (accepted_token_fingerprints s1).
Section noninterference.
Context `{PyRuntime} `{ToolPlatform}.

Lemma record_token_agree t1 t2 : same_shape t1 t2 -> agree tokens_differ eq (record_token t1) (record_token t2).
Proof.
  intros [[-> ->]|(a & b & -> & ->)]%same_shape_cases; apply agree_modify; [done|].
  intros s1 s2 (l & -> & Hl). eexists. split; [reflexivity|]. simpl. rewrite !length_app. simpl. lia.
Qed.
(** After the token is recorded, an operation is the same function on both sides. *)
Lemma token_free_agree {A} t1 t2 (m1 m2 : M GhState exn A) (m : M GhState exn A) :
  same_shape t1 t2 -> m1 = (record_token t1 ;;; m) -> m2 = (record_token t2 ;;; m) ->
  (forall s l, m (with_tokens (accepted_token_count s) l s) =
     (fst (m s), with_tokens (accepted_token_count s) l (snd (m s)))) ->
  (forall s, accepted_token_count (snd (m s)) = accepted_token_count s /\
     accepted_token_fingerprints (snd (m s)) = accepted_token_fingerprints s) ->
  agree tokens_differ eq m1 m2.
Proof.
  intros Ht -> -> Hm Hk. apply agree_bind_eq; [by apply record_token_agree|]. intros _ s1 s2 (l & -> & Hl).
  rewrite Hm. simpl. destruct (Hk s1) as [E1 E2]. split; [|by destruct (fst (m s1))].
  exists l. rewrite E1, E2. by split.
Qed.

Record client_agrees {C} (RC : relation C) (client : GitHubClient C) : Prop := {
  ca_read_issue : forall a b t1 t2, same_shape t1 t2 -> agree RC eq (gc_read_issue client a b t1) (gc_read_issue client a b t2);
  ca_repository_info : forall a t1 t2, same_shape t1 t2 -> agree RC eq (gc_repository_info client a t1) (gc_repository_info client a t2);
  ca_get_branch : forall a b t1 t2, same_shape t1 t2 -> agree RC eq (gc_get_branch client a b t1) (gc_get_branch client a b t2);
  ca_get_pr : forall a b t1 t2, same_shape t1 t2 -> agree RC eq (gc_get_pr client a b t1) (gc_get_pr client a b t2);
  ca_create_branch : forall a b c t1 t2, same_shape t1 t2 ->
    agree RC eq (gc_create_branch client a b c t1) (gc_create_branch client a b c t2);
  ca_delete_branch : forall a b t1 t2, same_shape t1 t2 ->
    agree RC eq (gc_delete_branch client a b t1) (gc_delete_branch client a b t2);
  ca_get_file : forall a b c t1 t2, same_shape t1 t2 -> agree RC eq (gc_get_file client a b c t1) (gc_get_file client a b c t2);
  ca_update_file : forall a b c d e f g t1 t2, same_shape t1 t2 ->
    agree RC eq (gc_update_file client a b c d e f g t1) (gc_update_file client a b c d e f g t2);
  ca_open_pr : forall a b c d e f t1 t2, same_shape t1 t2 ->
    agree RC eq (gc_open_pr client a b c d e f t1) (gc_open_pr client a b c d e f t2);
  ca_close_pr : forall a b t1 t2, same_shape t1 t2 -> agree RC eq (gc_close_pr client a b t1) (gc_close_pr client a b t2);
  ca_comment : forall a b c t1 t2, same_shape t1 t2 -> agree RC eq (gc_comment client a b c t1) (gc_comment client a b c t2);
  ca_delete_comment : forall a b t1 t2, same_shape t1 t2 ->
    agree RC eq (gc_delete_comment client a b t1) (gc_delete_comment client a b t2);
  ca_ci_status : forall a b t1 t2, same_shape t1 t2 -> agree RC eq (gc_ci_status client a b t1) (gc_ci_status client a b t2);
}.
Lemma memory_agrees : client_agrees tokens_differ InMemoryGitHubClient.
Proof.
  split; intros; cbn;
    unfold mem_read_issue, mem_repository_info, mem_get_branch, mem_get_pr, mem_create_branch, mem_delete_branch,
      mem_get_file, mem_update_file, mem_open_pr, mem_close_pr, mem_comment, mem_delete_comment, mem_ci_status, must_find;
    (eapply token_free_agree; [eassumption|reflexivity|reflexivity|intros s l|intros s]);
    unfold bind, gets, modify, ret, raise; cbn; repeat (case_match; cbn in *); simplify_eq; done.
Qed.
End noninterference.

(** A vault that keeps the secrets apart from everything else. *)
Record vault_agrees `{ToolPlatform} {V} (RV : relation (V * Clock)) (cv : CredentialVault V) : Prop := {
  va_put : forall s1 s2 sc e, agree RV eq (cv_put cv s1 sc e) (cv_put cv s2 sc e);
  va_get : forall h sc, agree RV (fun _ _ => True) (cv_get cv h sc) (cv_get cv h sc);
}.
(** Arguments that differ at most in the token, a secret on both sides. *)
Record same_args (a1 a2 : dict pyval) : Prop := {
  sa_rest : forall k, k <> "token" -> dget k a1 = dget k a2;
  sa_token : match dget "token" a1, dget "token" a2 with
             | Some (VSecret _ _), Some (VSecret _ _) => True
             | o1, o2 => o1 = o2
             end;
}.

Section tools.
Context `{PyRuntime} `{ToolPlatform} {C V : Type} (client : GitHubClient C) (vault : option (CredentialVault V)).
Context (RC : relation C) (RV : relation (V * Clock)).
Context (Hclient : client_agrees RC client) (Hvault : forall cv, vault = Some cv -> vault_agrees RV cv).
Context (Huuid : agree RV eq (clock_uuid (V:=V)) clock_uuid) (Htime : agree RV eq (clock_time (V:=V)) clock_time).

Record same_env (e1 e2 : GhEnv C V) : Prop := {
  se_client : RC (ge_client e1) (ge_client e2);
  se_vault : RV (ge_vault e1, ge_clock e1) (ge_vault e2, ge_clock e2);
  se_tokens : forall tool id, same_shape (token_map tool e1 !! id) (token_map tool e2 !! id);
}.
Definition same_state (x y : GhEnv C V * WorldState) : Prop := same_env x.1 y.1 /\ x.2 = y.2.
Abbreviation AG := (agree same_state).

Lemma in_client_agree {A} (m1 m2 : M C exn A) : agree RC eq m1 m2 -> AG eq (in_client (V:=V) m1) (in_client m2).
Proof.
  intros Hm [e1 w1] [e2 w2] [[Hc Hv Ht] Hw]. simpl in *. subst. destruct (Hm _ _ Hc) as [Hc' Hr]. unfold in_client.
  destruct (m1 _) as [r1 c1], (m2 _) as [r2 c2]. simpl in *. split; [|done]. by split.
Qed.
Lemma in_vault_agree {A} (Q : relation A) (m1 m2 : VM V A) : agree RV Q m1 m2 -> AG Q (in_vault (C:=C) m1) (in_vault m2).
Proof.
  intros Hm [e1 w1] [e2 w2] [[Hc Hv Ht] Hw]. simpl in *. subst. destruct (Hm _ _ Hv) as [Hv' Hr]. unfold in_vault.
  destruct (m1 _) as [r1 [v1 c1]], (m2 _) as [r2 [v2 c2]]. simpl in *. split; [|done]. by split.
Qed.
Lemma try_leos_agree {A} (Q : relation A) (m1 m2 : TM (GhEnv C V) A) k1 k2 :
  AG Q m1 m2 -> (forall a b, Q a b -> AG eq (k1 a) (k2 b)) -> AG eq (try_leos m1 k1) (try_leos m2 k2).
Proof.
  intros Hm Hk s1 s2 Hs. destruct (Hm s1 s2 Hs) as [Hs' Hr]. unfold try_leos.
  destruct (m1 s1) as [[a|e] s1'], (m2 s2) as [[b|e'] s2']; simpl in *; try done; [by apply Hk|]. subst e'.
  by destruct (isinstance e LeosError).
Qed.
Lemma token_map_insert (tool tool' : string) m (e : GhEnv C V) :
  token_map tool' (with_token_map tool m e) = if String.eqb tool tool' then m else token_map tool' e.
Proof.
  unfold token_map, with_token_map. simpl. destruct (String.eqb_spec tool tool') as [->|Hne].
  - by rewrite lookup_insert_eq.
  - by rewrite lookup_insert_ne.
Qed.
Lemma shape_insert {A} id id' (a b : A) (m1 m2 : gmap string A) :
  same_shape (m1 !! id') (m2 !! id') -> same_shape (<[id := a]> m1 !! id') (<[id := b]> m2 !! id').
Proof.
  destruct (decide (id = id')) as [->|Hne]; [rewrite !lookup_insert_eq; by split; eauto|by rewrite !lookup_insert_ne].
Qed.
Lemma shape_delete {A} id id' (m1 m2 : gmap string A) :
  same_shape (m1 !! id') (m2 !! id') -> same_shape (delete id m1 !! id') (delete id m2 !! id').
Proof.
  destruct (decide (id = id')) as [->|Hne]; [by rewrite !lookup_delete_eq|by rewrite !lookup_delete_ne].
Qed.
Lemma map_agree tool (f1 f2 : GhEnv C V -> gmap string string) :
  (forall e1 e2, same_env e1 e2 -> forall id, same_shape (f1 e1 !! id) (f2 e2 !! id)) ->
  AG eq (modify (fun '(e, w) => (with_token_map tool (f1 e) e, w))) (modify (fun '(e, w) => (with_token_map tool (f2 e) e, w))).
Proof.
  intros Hf. apply agree_modify. intros [e1 w1] [e2 w2] [He Hw]. simpl in *. split; [|done]. destruct He as [Hc Hv Ht].
  split; [done|done|]. intros tool' id. simpl. rewrite !token_map_insert. destruct (String.eqb tool tool'); [|done].
  apply Hf. by split.
Qed.
Lemma remember_agree tool s1 s2 repo : same_shape s1 s2 ->
  AG eq (remember_rollback_credential (C:=C) vault tool s1 repo) (remember_rollback_credential vault tool s2 repo).
Proof.
  intros [[-> ->]|(a & b & -> & ->)]%same_shape_cases; unfold remember_rollback_credential; [by apply agree_ret|].
  destruct vault as [cv|].
  - apply agree_bind_eq; [apply in_vault_agree, Hvault; done|intros h; by apply agree_ret].
  - apply agree_bind_eq; [by apply in_vault_agree|intros id].
    apply agree_bind_eq; [|intros _; by apply agree_ret]. apply map_agree. intros e1 e2 [_ _ Ht] i. apply shape_insert, Ht.
Qed.
Definition same_auth (x y : option string + ToolResult) : Prop :=
  match x, y with inl o1, inl o2 => same_shape o1 o2 | inr r1, inr r2 => r1 = r2 | _, _ => False end.
Lemma handle_from_dict_agree d : agree RV eq (handle_from_dict d) (handle_from_dict d).
Proof.
  unfold handle_from_dict. apply agree_bind_eq; [done|intros now]. cbv zeta.
  apply agree_bind_eq; [apply agree_of_eq|intros id]. apply agree_bind_eq; [apply agree_of_eq|intros sc].
  apply agree_bind_eq; [destruct (float_like _); [apply agree_of_eq|done]|intros cr].
  apply agree_bind_eq; [|intros ex; by apply agree_ret]. destruct (float_like _); [|by apply agree_ret].
  apply agree_bind_eq; [apply agree_of_eq|intros f; by apply agree_ret].
Qed.
Lemma auth_token_agree tool token :
  AG same_auth (rollback_auth_token (C:=C) vault tool token) (rollback_auth_token vault tool token).
Proof.
  unfold rollback_auth_token. destruct (dget "auth_handle" token) as [h|].
  - destruct vault as [cv|]; [|by apply agree_ret]. intros x1 x2 Hx.
    assert (Hf : AG (fun _ _ => True) (fetch_credential (C:=C) cv token h) (fetch_credential cv token h)).
    { unfold fetch_credential. apply agree_bind_eq; [apply agree_of_eq|intros d].
      apply agree_bind_eq; [apply in_vault_agree, handle_from_dict_agree|intros h'].
      apply in_vault_agree. by apply Hvault. }
    destruct (Hf x1 x2 Hx) as [Hx' Hr]. destruct (fetch_credential cv token h x1) as [[s1|e1] y1],
      (fetch_credential cv token h x2) as [[s2|e2] y2]; simpl in *; try done.
    subst e2. by destruct (credential_errors e1).
  - assert (Hpop : forall id, AG same_auth
      (let! m := gets (fun '(e, _) => token_map (C:=C) (V:=V) tool e) in
       modify (fun '(e, w) => (with_token_map tool (delete id m) e, w)) ;;; ret (inl (m !! id)))
      (let! m := gets (fun '(e, _) => token_map (C:=C) (V:=V) tool e) in
       modify (fun '(e, w) => (with_token_map tool (delete id m) e, w)) ;;; ret (inl (m !! id)))).
    { intros id. eapply (agree_bind _ (fun m1 m2 => forall i, same_shape (m1 !! i) (m2 !! i))).
      - apply agree_gets. intros [e1 w1] [e2 w2] [[_ _ Ht] _]. simpl. apply Ht.
      - intros m1 m2 Hm. apply agree_bind_eq; [|intros _; apply agree_ret, Hm].
        apply (map_agree tool (fun _ => delete id m1) (fun _ => delete id m2)). intros _ _ _ i. apply shape_delete, Hm. }
    destruct (dget "auth_token_id" token) as [[]|]; try (by apply agree_ret); apply Hpop.
Qed.
Lemma token_secret_agree a1 a2 : same_args a1 a2 ->
  res_rel same_shape (token_secret a1) (token_secret a2).
Proof.
  intros [_ Ht]. unfold token_secret, res_rel. destruct (dget "token" a1) as [[]|], (dget "token" a2) as [[]|]; simplify_eq; done.
Qed.
Lemma rolling_back_agree tool token calls msg :
  (forall t1 t2, same_shape t1 t2 -> AG eq (calls t1) (calls t2)) ->
  AG eq (rolling_back (C:=C) vault tool token calls msg) (rolling_back vault tool token calls msg).
Proof.
  intros Hc. unfold rolling_back. eapply agree_bind; [apply auth_token_agree|]. intros [t1|r1] [t2|r2] Ha; [|done..|].
  - eapply try_leos_agree; [by apply Hc|intros _ _ _; by apply agree_ret].
  - simpl in Ha. subst. by apply agree_ret.
Qed.
Lemma executing_agree dry1 dry2 a1 a2 body1 body2 : dry1 = dry2 -> same_args a1 a2 ->
  (forall s1 s2, same_shape s1 s2 -> AG eq (body1 s1) (body2 s2)) ->
  AG eq (executing (C:=C) (V:=V) dry1 a1 body1) (executing dry2 a2 body2).
Proof.
  intros -> Ha Hb. unfold executing. destruct (negb (ok dry2)); [by apply agree_ret|].
  pose proof (token_secret_agree a1 a2 Ha) as Hs. unfold res_rel in Hs.
  destruct (token_secret a1) as [s1|e1], (token_secret a2) as [s2|e2]; try done; [by apply Hb|]. subst. by apply agree_ret.
Qed.

Section args.
Context (a1 a2 : dict pyval) (Hargs : same_args a1 a2).

Lemma dget_same k : k <> "token" -> dget k a1 = dget k a2.
Proof. apply Hargs. Qed.
Lemma item_same k : k <> "token" -> dget_item k a1 = dget_item k a2.
Proof. intros Hk. unfold dget_item. by rewrite (dget_same k Hk). Qed.
Lemma dmem_same k : k <> "token" -> dmem k a1 = dmem k a2.
Proof. intros Hk. unfold dmem. by rewrite (dget_same k Hk). Qed.
Lemma item_agree k : k <> "token" -> AG eq (of_res (dget_item k a1)) (of_res (dget_item k a2)).
Proof. intros Hk. rewrite (item_same k Hk). apply agree_of_eq. Qed.
Lemma str_of_agree k : k <> "token" -> AG eq (str_of k a1) (str_of k a2).
Proof. intros Hk. unfold str_of. rewrite (item_same k Hk). apply agree_of_eq. Qed.
Lemma int_of_agree k : k <> "token" -> AG eq (int_of k a1) (int_of k a2).
Proof. intros Hk. unfold int_of. rewrite (item_same k Hk). apply agree_of_eq. Qed.
Lemma require_same names : "token" ∉ names -> require a1 names = require a2 names.
Proof.
  intros Hn. unfold require. replace (List.filter (fun n => negb (dmem n a1)) names) with (List.filter (fun n => negb (dmem n a2)) names); [done|].
  induction names as [|n names IH]; simpl; [done|]. apply not_elem_of_cons in Hn as [Hn Hns].
  rewrite (dmem_same n) by done. by rewrite IH.
Qed.
Lemma reading_dry_same names msg : "token" ∉ names -> reading_dry names msg a1 = reading_dry names msg a2.
Proof. intros Hn. unfold reading_dry. by rewrite (require_same names Hn). Qed.
Lemma update_file_dry_same : update_file_dry a1 = update_file_dry a2.
Proof.
  unfold update_file_dry. rewrite (require_same ["repo"; "path"; "branch"; "content"; "message"]) by set_solver.
  by rewrite !dmem_same by done.
Qed.
Lemma delete_branch_dry_same : delete_branch_dry a1 = delete_branch_dry a2.
Proof.
  unfold delete_branch_dry. rewrite (require_same ["repo"; "branch"; "expected_sha"]) by set_solver.
  by rewrite (dget_same "branch") by done.
Qed.
End args.
Lemma str_of_refl k d : AG eq (str_of k d) (str_of k d).
Proof. apply agree_of_eq. Qed.
Lemma int_of_refl k d : AG eq (int_of k d) (int_of k d).
Proof. apply agree_of_eq. Qed.

(** The three methods of a tool, on arguments that differ in the token. *)
Record tool_agrees (t : Tool (GhEnv C V)) : Prop := {
  ta_dry : forall a1 a2, same_args a1 a2 -> AG eq (dry_run t a1) (dry_run t a2);
  ta_execute : forall a1 a2, same_args a1 a2 -> AG eq (execute t a1) (execute t a2);
  ta_rollback : forall token, AG eq (rollback t token) (rollback t token);
}.
Lemma token_of_shape s1 s2 : same_shape s1 s2 -> same_shape (token_of s1) (token_of s2).
Proof. intros [[-> ->]|(a & b & -> & ->)]%same_shape_cases; done. Qed.
#[local] Hint Resolve token_of_shape : core.
Ltac agree_step :=
  match goal with
  | |- agree _ eq (executing _ _ _) (executing _ _ _) => apply executing_agree; [|done|intros ? ? ?]
  | |- agree _ eq (rolling_back _ _ _ _ _) _ => apply rolling_back_agree; intros ? ? ?
  | |- agree _ eq (try_leos _ _) (try_leos _ _) => eapply (try_leos_agree eq); [|intros ? _ <-]
  | |- agree _ eq (bind _ _) (bind _ _) => apply agree_bind_eq; [|intros ?]
  | |- agree _ eq (ret _) (ret _) => apply agree_ret
  | |- agree _ eq (raise _) (raise _) => apply agree_raise
  | |- agree _ eq (in_client _) (in_client _) => apply in_client_agree, Hclient; auto
  | |- agree _ eq (remember_rollback_credential _ _ _ _) _ => apply remember_agree; auto
  | |- agree _ eq (str_of _ ?d) (str_of _ ?d) => apply str_of_refl
  | |- agree _ eq (int_of _ ?d) (int_of _ ?d) => apply int_of_refl
  | |- agree _ eq (str_of _ _) (str_of _ _) => by apply str_of_agree
  | |- agree _ eq (int_of _ _) (int_of _ _) => by apply int_of_agree
  | |- agree _ eq (of_res ?r) (of_res ?r) => apply agree_of_eq
  | |- agree _ eq (of_res (dget_item _ _)) (of_res (dget_item _ _)) => by apply item_agree
  | |- agree _ eq (let _ := _ in _) (let _ := _ in _) => cbv zeta
  | |- agree _ eq (if ?b then _ else _) (if ?b then _ else _) => destruct b
  | |- agree _ eq (match ?x with _ => _ end) (match ?x with _ => _ end) => destruct x
  end.
Lemma tool_agrees_intro ts dry exec back :
  (forall a1 a2, same_args a1 a2 -> dry a1 = dry a2) -> (forall a1 a2, same_args a1 a2 -> AG eq (exec a1) (exec a2)) ->
  (forall token, AG eq (back token) (back token)) -> tool_agrees (github_tool client ts dry exec back).
Proof. intros Hd He Hb. split; [|done|done]. intros a1 a2 Ha. cbn. rewrite (Hd a1 a2 Ha). by apply agree_ret. Qed.
Lemma github_tools_agree : Forall tool_agrees (github_tools client vault).
Proof.
  repeat (apply Forall_cons; split); [..|apply Forall_nil; done]; apply tool_agrees_intro;
    try (intros a1 a2 Ha; try apply reading_dry_same; try apply update_file_dry_same; try apply delete_branch_dry_same; first [done|set_solver]);
    try (intros token; unfold no_rollback, create_branch_rollback, update_file_rollback, open_pr_rollback, comment_rollback; repeat agree_step; done);
    intros a1 a2 Ha;
    unfold create_branch_execute, update_file_execute, open_pr_execute, comment_execute, close_pr_execute,
      delete_branch_execute, opt_str_of, create_branch_dry, open_pr_dry, comment_dry, close_pr_dry;
    rewrite ?(dget_same a1 a2 Ha "idempotency_key"), ?(dget_same a1 a2 Ha "expected_sha"), ?(dget_same a1 a2 Ha "expected_previous") by done;
    rewrite ?(update_file_dry_same a1 a2 Ha), ?(delete_branch_dry_same a1 a2 Ha);
    repeat agree_step; try done; (apply reading_dry_same; [done|set_solver]).
Qed.
End tools.

(** The in-memory vault keeps secrets apart. *)
Record secrets_differ (x y : Vault * Clock) : Prop := {
  sd_handles : v_handles y.1 = v_handles x.1;
  sd_revoked : v_revoked y.1 = v_revoked x.1;
  sd_secrets : forall id, same_shape (v_secrets x.1 !! id) (v_secrets y.1 !! id);
  sd_clock : y.2 = x.2;
}.
Section memory_vault.
Context `{ToolPlatform}.

Lemma clock_uuid_agree : agree secrets_differ eq (clock_uuid (V:=Vault)) clock_uuid.
Proof. intros [v1 c1] [v2 c2] [? ? ? ?]. simpl in *. subst c2. done. Qed.
Lemma clock_time_agree : agree secrets_differ eq (clock_time (V:=Vault)) clock_time.
Proof. intros [v1 c1] [v2 c2] [? ? ? ?]. simpl in *. subst c2. done. Qed.
Lemma memory_vault_agrees : vault_agrees secrets_differ InMemoryCredentialVault.
Proof.
  split; cbn.
  - intros s1 s2 sc e. unfold vault_put. destruct (String.eqb sc ""); [apply agree_raise|].
    apply agree_bind_eq; [apply clock_uuid_agree|intros id]. apply agree_bind_eq; [apply clock_time_agree|intros now]. cbv zeta.
    apply agree_bind_eq; [|intros _; by apply agree_ret]. apply agree_modify.
    intros [v1 c1] [v2 c2] [Hh Hr Hs Hc]. simpl in *. split; simpl; [by rewrite Hh|done| |done]. intros i. apply shape_insert, Hs.
  - intros h sc [v1 c1] [v2 c2] [Hh Hr Hs Hc]. simpl in *. subst c2. unfold vault_get, bind, gets. simpl. rewrite Hh, Hr.
    assert (Hsame : secrets_differ (v1, c1) (v2, c1)) by done.
    destruct (v_handles v1 !! handle_id h) as [stored|]; [|done]. destruct (bool_decide _); [done|]. destruct (_ || _); [done|].
    assert (Hfind : forall c, secrets_differ (v1, c) (v2, c) -> forall b : bool,
      let m v := (if b then raise (Exn CredentialExpiredError "Credential handle has expired")
                  else match v_secrets v !! handle_id h with Some s => ret s | None => raise (Exn KeyError (py_repr (handle_id h))) end
                  : VM Vault Secret) in
      secrets_differ (snd (m v1 (v1, c))) (snd (m v2 (v2, c))) /\ res_rel (fun _ _ => True) (fst (m v1 (v1, c))) (fst (m v2 (v2, c)))).
    { intros c Hc [] m; [done|]. unfold m. destruct (same_shape_cases _ _ (Hs (handle_id h))) as [[-> ->]|(s1 & s2 & -> & ->)]; done. }
    destruct (sh_expires_at stored) as [x|]; [|by apply (Hfind c1 Hsame false)].
    apply (Hfind {| c_uuid := c_uuid c1; c_time := S (c_time c1) |}). done.
Qed.
End memory_vault.
