(* ===== verification/TxOutcome.v ===== *)
(** The outcome of a plan: either every step is verified and nothing was
    rolled back, or the plan stopped and its executed steps were compensated,
    last first. *)
From S2P Require Import Prelude Enums PyValue Sanitization Goals Plans Tools AuditTrail Causal Egress Policy Approval Gates Transactions TxInvariants TxRollback TxEnv.


Section outcome.
Context `{PyRuntime} `{JsonSchemaValidator} {X G : Type}.
Context (tm : TransactionManager X G).
Implicit Types s : TState X G.
Abbreviation MT A := (M (TState X G) exn A).

(** Progress within step [i]: forward calls only, the stack records the
    rollbacks they leave pending, no other step is touched. *)
Record progress (i : nat) s s' : Prop := {
  pg_calls : exists fwd, t_calls s' = t_calls s ++ fwd /\ Forall forward fwd /\
    map entry_desc (t_stack s') = pending_rollbacks fwd ++ map entry_desc (t_stack s);
  pg_heap : forall j, j <> i -> t_heap s' !! j = t_heap s !! j;
  pg_length : length (t_heap s') = length (t_heap s);
  pg_plan : t_plan s' = t_plan s;
}.
(** The state after the compensation of everything pending. *)
Record compensated s s' : Prop := {
  cp_calls : exists fwd back, t_calls s' = t_calls s ++ fwd ++ back /\ Forall forward fwd /\
    Forall (fun c => tc_kind c = Rollback) back /\
    map call_desc back = filter (egress_open tm) (pending_rollbacks fwd ++ map entry_desc (t_stack s));
  cp_stack : t_stack s' = [];
}.

Lemma pending_app l l' : pending_rollbacks (l ++ l') = pending_rollbacks l' ++ pending_rollbacks l.
Proof. unfold pending_rollbacks. by rewrite omap_app, rev_app_distr. Qed.

#[export] Instance progress_preorder i : PreOrder (progress i).
Proof.
  split.
  - intros s. split; try done. exists []. by rewrite app_nil_r.
  - intros x y z [(f1 & C1 & F1 & S1) H1 L1 P1] [(f2 & C2 & F2 & S2) H2 L2 P2]. split.
    + exists (f1 ++ f2). rewrite C2, C1, <-app_assoc, S2, S1, pending_app, <-app_assoc.
      split_and!; [done|by apply Forall_app|done].
    + intros j Hj. by rewrite H2, H1.
    + congruence.
    + congruence.
Qed.
Lemma progress_compensated i s s1 s' : progress i s s1 -> compensated s1 s' -> compensated s s'.
Proof.
  intros [(f1 & C1 & F1 & S1) _ _ _] [(f2 & b & C2 & F2 & Fb & B) K]. split; [|done].
  exists (f1 ++ f2), b. rewrite C2, C1, B, S1, pending_app, !app_assoc.
  split_and!; [done|by apply Forall_app|done|done].
Qed.

Lemma progress_simple i s s' :
  t_calls s' = t_calls s -> t_stack s' = t_stack s -> t_plan s' = t_plan s ->
  (forall j, j <> i -> t_heap s' !! j = t_heap s !! j) -> length (t_heap s') = length (t_heap s) -> progress i s s'.
Proof. intros C S P Hh L. split; try done. exists []. by rewrite C, S, app_nil_r. Qed.
Lemma audit_progress i et msg pl : keeps (progress i) (audit (St:=TState X G) et msg pl).
Proof. intros s. by apply progress_simple. Qed.
Lemma time_progress i : keeps (progress i) (time_time (St:=TState X G)).
Proof. intros s. by apply progress_simple. Qed.
Lemma uuid_progress i : keeps (progress i) (uuid4 (St:=TState X G)).
Proof. intros s. by apply progress_simple. Qed.
Lemma upd_progress i f : keeps (progress i) (upd_step (X:=X) (G:=G) i f).
Proof.
  intros s. apply progress_simple; try done; simpl; [|by rewrite length_alter].
  intros j Hj. by rewrite list_lookup_alter_ne by done.
Qed.
Lemma put_progress i v : keeps (progress i) (put_status (X:=X) (G:=G) i v).
Proof. apply upd_progress. Qed.
Lemma get_progress i j : keeps (progress i) (get_step (X:=X) (G:=G) j).
Proof. intros s. by apply progress_simple. Qed.
Lemma world_progress i f : keeps (E:=exn) (progress i) (modify (fun s => with_world (f s) s)).
Proof. intros s. by apply progress_simple. Qed.
Lemma uses_progress i f : keeps (E:=exn) (progress i) (modify (fun s => with_uses (f s) s)).
Proof. intros s. by apply progress_simple. Qed.
Lemma gate_progress i {A} (m : GM G A) : keeps (progress i) (lift_gate (X:=X) m).
Proof. intros s. unfold lift_gate. destruct (m _) as [r [g n]]. by apply progress_simple. Qed.
Lemma dry_progress i j st (t : Tool X) args : keeps (progress i) (call_tool (G:=G) DryRun j st t args).
Proof.
  intros s. unfold call_tool. destruct (dry_run t args _) as [r [e w]]. split; try done. simpl.
  eexists. split; [done|]. split; [by repeat constructor|done].
Qed.
Lemma find_grant_progress i n gs uses who tool : keeps (progress i) (find_grant (St:=TState X G) n gs uses who tool).
Proof.
  pose proof time_progress i. revert n.
  induction gs as [|g gs IH]; intros n; simpl; unfold applies_to; keeps_auto; apply IH.
Qed.
Lemma matching_grant_progress i e uses tool : keeps (progress i) (matching_grant (St:=TState X G) e uses tool).
Proof.
  unfold matching_grant. destruct (principal e); [|keeps_auto].
  destruct (String.eqb _ _); [keeps_auto|apply find_grant_progress].
Qed.
#[local] Hint Resolve audit_progress time_progress uuid_progress upd_progress put_progress get_progress
  world_progress uses_progress gate_progress dry_progress matching_grant_progress : keeps.
Lemma decide_progress i e uses st : keeps (progress i) (decide_step (St:=TState X G) e uses st).
Proof. unfold decide_step. keeps_auto. Qed.
Lemma validate_progress i p d h pr : keeps (progress i) (validate_approval_decision (St:=TState X G) p d h pr).
Proof. unfold validate_approval_decision. keeps_auto. Qed.
Lemma build_progress i plan st ts sum pr who ex :
  keeps (progress i) (build_approval_packet (St:=TState X G) plan st ts sum pr who ex).
Proof. unfold build_approval_packet. keeps_auto. Qed.
Lemma attestation_progress i st t : keeps (progress i) (runtime_attestation_block_reason (G:=G) tm st t).
Proof. unfold runtime_attestation_block_reason. keeps_auto. Qed.
#[local] Hint Resolve decide_progress validate_progress build_progress attestation_progress : keeps.

(** ** Blocks that go on or stop *)

Record block_ok (i : nat) {A} (m : MT (option A)) : Prop := {
  bo_some : forall s a s', m s = (Ok (Some a), s') -> progress i s s';
  bo_none : forall s s', m s = (Ok None, s') -> compensated s s';
}.
Lemma block_ret i {A} (a : A) : block_ok i (ret (Some a)).
Proof. split; [|done]. intros s b s' [= _ <-]. reflexivity. Qed.
Lemma block_raise i {A} e : block_ok (A:=A) i (raise e).
Proof. by split. Qed.
Lemma block_bind i {A B} (m : MT A) (f : A -> MT (option B)) :
  keeps (progress i) m -> (forall a, block_ok i (f a)) -> block_ok i (bind m f).
Proof.
  intros Hm Hf. split.
  - intros s b s' [(e & _ & ?)|(a & s1 & Em & Ef)]%bind_inv; [done|]. specialize (Hm s). rewrite Em in Hm.
    etrans; [exact Hm|exact (bo_some _ _ (Hf a) _ _ _ Ef)].
  - intros s s' [(e & _ & ?)|(a & s1 & Em & Ef)]%bind_inv; [done|]. specialize (Hm s). rewrite Em in Hm.
    eapply progress_compensated; [exact Hm|exact (bo_none _ _ (Hf a) _ _ Ef)].
Qed.
Lemma block_step i {A B} (m : MT (option A)) (f : A -> MT (option B)) :
  block_ok i m -> (forall a, block_ok i (f a)) ->
  block_ok i (bind m (fun o => match o with Some x => f x | None => ret None end)).
Proof.
  intros Hm Hf. split.
  - intros s b s' (a & s1 & Em & Ef)%step_inv. etrans; [exact (bo_some _ _ Hm _ _ _ Em)|exact (bo_some _ _ (Hf a) _ _ _ Ef)].
  - intros s s' [(e & _ & ?)|([a|] & s1 & Em & Ef)]%bind_inv; [done| |].
    + eapply progress_compensated; [exact (bo_some _ _ Hm _ _ _ Em)|exact (bo_none _ _ (Hf a) _ _ Ef)].
    + injection Ef as <-. exact (bo_none _ _ Hm _ _ Em).
Qed.
Lemma block_stop i {A} v evs : block_ok i (stop (A:=A) tm i v evs).
Proof.
  assert (Hp : forall s, progress i s (snd ((put_status i v ;;; audit_all evs) s))).
  { intros s. revert s. change (keeps (progress i) (put_status (X:=X) (G:=G) i v ;;; audit_all evs)).
    unfold audit_all. keeps_auto. }
  assert (Ht : total (put_status (X:=X) (G:=G) i v ;;; audit_all evs)).
  { unfold put_status, upd_step, audit_all. total_auto. }
  assert (E : forall s, exists s1 s2, (put_status i v ;;; audit_all evs) s = (Ok tt, s1) /\
     rollback_all tm s1 = (Ok tt, s2) /\ stop (A:=A) tm i v evs s = (Ok None, s2)).
  { intros s. destruct (Ht s) as ([] & s1 & E1). destruct (rollback_all_calls tm s1) as (s2 & E2 & _).
    exists s1, s2. split_and!; [done|done|]. unfold stop. unfold bind in *.
    destruct (put_status i v s) as [[u|e] s0]; [|done]. rewrite E1, E2. done. }
  split.
  - intros s a s' Hs. destruct (E s) as (s1 & s2 & _ & _ & E3). rewrite E3 in Hs. done.
  - intros s s' Hs. destruct (E s) as (s1 & s2 & E1 & E2 & E3). rewrite E3 in Hs. injection Hs as <-.
    eapply progress_compensated; [specialize (Hp s); rewrite E1 in Hp; exact Hp|].
    destruct (rollback_all_calls tm s1) as (s2' & E2' & (n & C & F & D) & K). rewrite E2 in E2'.
    injection E2' as <-. split; [|done]. exists [], n. by split_and!.
Qed.

Ltac block_one :=
  match goal with
  | |- block_ok _ (bind _ (fun o => match o with Some _ => _ | None => _ end)) => apply block_step; [|intros ?]
  | |- block_ok _ (bind _ _) => apply block_bind; [keeps_auto|intros ?]
  | |- block_ok _ (ret (Some _)) => apply block_ret
  | |- block_ok _ (raise _) => apply block_raise
  | |- block_ok _ (stop _ _ _ _) => apply block_stop
  | |- block_ok _ (let _ := _ in _) => cbv zeta
  | |- block_ok _ (match ?x with _ => _ end) => destruct x
  end.
Ltac block_auto := repeat block_one.

Lemma call_progress i k j st (t : Tool X) args s r e w :
  k <> Rollback -> call_token (ToolCall k j st (spec t) args r) = None ->
  progress i s (with_call e w (ToolCall k j st (spec t) args r) s).
Proof.
  intros Hk Hc. split; try done. exists [ToolCall k j st (spec t) args r].
  split; [done|]. split; [by repeat constructor|]. unfold pending_rollbacks. cbn [omap list_omap]. by rewrite Hc.
Qed.
(** What a successful execution leaves: the call and, when there is a token, its stack entry. *)
Lemma execute_some i st t args s r s' :
  execute_step (G:=G) tm i st t args s = (Ok (Some r), s') -> progress i s s'.
Proof.
  unfold execute_step, call_tool. unfold bind at 1. destruct (execute t args _) as [[r0|e] [x w]]; [|done].
  set (c := ToolCall Execute i st (spec t) args (Ok r0)). set (s1 := with_call x w c s).
  destruct (ok r0) eqn:Eok; cbn [negb].
  2: { intros Hs. etrans; [|exact (bo_some _ _ (block_stop i FAILED _) _ _ _ Hs)].
       apply call_progress; [done|]. unfold call_token. cbn. by rewrite Eok. }
  destruct (rollback_token r0) as [[|kv tok]|] eqn:Etok.
  all: unfold put_status, upd_step, modify, bind, ret; cbn; intros [= _ <-].
  all: apply (transitivity (y:=with_heap (alter (set_status EXECUTED) i (t_heap s)) s));
    [exact (upd_progress i (set_status EXECUTED) s)|].
  all: split; try done; exists [c]; (split; [done|]); (split; [by repeat constructor|]).
  all: unfold pending_rollbacks, c, call_token; cbn [omap list_omap tc_kind tc_result]; by rewrite Eok, Etok.
Qed.
Lemma execute_block i st t args : block_ok i (execute_step tm i st t args).
Proof.
  split; [intros s r s'; apply execute_some|]. intros s s'.
  unfold execute_step, call_tool. unfold bind at 1. destruct (execute t args _) as [[r0|e] [x w]]; [|done].
  destruct (ok r0) eqn:Eok; cbn [negb].
  - intros Hb. exfalso. unfold bind in Hb. destruct (put_status i EXECUTED _) as [[u|e] s1]; [|done].
    by destruct (rollback_token r0) as [[|kv tok]|].
  - intros Hs. eapply (progress_compensated i); [|exact (bo_none _ _ (block_stop i FAILED _) _ _ Hs)].
    apply call_progress; [done|]. unfold call_token. cbn. by rewrite Eok.
Qed.
Lemma guards_block i st t : block_ok i (step_guards tm i st t).
Proof.
  unfold step_guards, audit_egress, check_attestation, check_production, check_sandbox, check_secrets,
    predict_and_review, review, check_idempotency, check_preconditions.
  block_auto.
Qed.
Lemma request_block i st t dr dry : block_ok i (request_approval tm i st t dr dry).
Proof.
  unfold request_approval, check_signed_gate, prepare_step_packet, decide_packet, use_approval. block_auto.
Qed.
Lemma authorize_block i st t args : block_ok i (authorize tm i st t args).
Proof. unfold authorize, dry_run_step, human_approval. block_auto; apply request_block. Qed.
Lemma checks_block i st t preds r : block_ok i (step_checks tm i st t preds r).
Proof.
  unfold step_checks, check_output, check_contract, observe_and_verify, check_postconditions, finish_step,
    record_grant_use, record_idempotency_key.
  block_auto.
Qed.
Lemma run_step_block i : block_ok i (run_step tm i).
Proof.
  unfold run_step, resolve_tool. apply block_step; [block_auto|intros t].
  apply block_bind; [keeps_auto|intros _]. apply block_bind; [keeps_auto|intros st].
  apply block_step; [apply guards_block|intros preds]. cbv zeta.
  apply block_step; [apply authorize_block|intros []].
  apply block_step; [apply execute_block|intros r]. apply checks_block.
Qed.

(** ** All steps of a plan *)

Definition verified_at (s : TState X G) (i : nat) : Prop :=
  exists st, t_heap s !! i = Some st /\ status st = VERIFIED.
Lemma put_status_at i v s :
  i < length (t_heap s) ->
  exists s' st, put_status (X:=X) (G:=G) i v s = (Ok tt, s') /\ t_heap s' !! i = Some st /\ status st = v.
Proof.
  intros Hi. destruct (lookup_lt_is_Some_2 _ _ Hi) as [st Hst].
  exists (with_heap (alter (set_status v) i (t_heap s)) s), (set_status v st).
  split_and!; [done| |done]. simpl. by rewrite list_lookup_alter_eq, Hst.
Qed.
Lemma finish_verified i st r v s u s' :
  finish_step tm i st r v s = (Ok u, s') -> i < length (t_heap s) -> verified_at s' i.
Proof.
  unfold finish_step. intros Hf Hi.
  assert (K : forall A (f : MT A) s, keeps (progress i) f -> length (t_heap (snd (f s))) = length (t_heap s)).
  { intros A f s0 Hk. apply (pg_length _ _ _ (Hk s0)). }
  apply bind_inv in Hf as [(e & _ & ?)|(a1 & s1 & E1 & Hf)]; [done|].
  apply bind_inv in Hf as [(e & _ & ?)|(a2 & s2 & E2 & Hf)]; [done|].
  apply bind_inv in Hf as [(e & _ & ?)|(a3 & s3 & E3 & Hf)]; [done|].
  apply bind_inv in Hf as [(e & _ & ?)|(a4 & s4 & E4 & Hf)]; [done|].
  assert (K1 : length (t_heap s1) = length (t_heap s)) by (injection E1 as _ <-; done).
  assert (K2 : length (t_heap s2) = length (t_heap s1)).
  { replace s2 with (snd (record_grant_use tm st s1)) by (by rewrite E2). apply K.
    unfold record_grant_use. keeps_auto. }
  assert (K3 : length (t_heap s3) = length (t_heap s2)) by (injection E3 as _ <-; done).
  assert (K4 : length (t_heap s4) = length (t_heap s3)).
  { match type of E4 with ?m _ = _ => replace s4 with (snd (m s3)) by (by rewrite E4) end. apply K.
    unfold record_idempotency_key. keeps_auto. }
  destruct (put_status_at i VERIFIED s4) as (s5 & st' & E5 & Hl & Hv); [lia|].
  unfold bind in Hf. rewrite E5 in Hf. injection Hf as _ <-. by exists st'.
Qed.
Lemma run_step_verified i s s' :
  run_step tm i s = (Ok (Some tt), s') -> i < length (t_heap s) -> verified_at s' i.
Proof.
  intros Hr Hi. unfold run_step in Hr. apply step_inv in Hr as (t & s1 & E1 & Hr).
  assert (B : block_ok i (resolve_tool tm i)) by (unfold resolve_tool; block_auto).
  pose proof (pg_length _ _ _ (bo_some _ _ B _ _ _ E1)) as L1.
  apply bind_inv in Hr as [(e & _ & ?)|(a & s2 & E2 & Hr)]; [done|].
  pose proof (pg_length _ _ _ (upd_progress i (hydrate (spec t)) s1)) as L2. rewrite E2 in L2. simpl in L2.
  apply bind_inv in Hr as [(e & _ & ?)|(st & s3 & E3 & Hr)]; [done|]. injection E3 as _ <-.
  apply step_inv in Hr as (preds & s4 & E4 & Hr).
  pose proof (pg_length _ _ _ (bo_some _ _ (guards_block i st t) _ _ _ E4)) as L4.
  apply step_inv in Hr as ([] & s5 & E5 & Hr).
  pose proof (pg_length _ _ _ (bo_some _ _ (authorize_block i st t _) _ _ _ E5)) as L5.
  apply step_inv in Hr as (r & s6 & E6 & Hr).
  pose proof (pg_length _ _ _ (bo_some _ _ (execute_block i st t _) _ _ _ E6)) as L6.
  unfold step_checks in Hr.
  apply step_inv in Hr as ([] & s7 & E7 & Hr). apply step_inv in Hr as ([] & s8 & E8 & Hr).
  apply step_inv in Hr as (v & s9 & E9 & Hr). apply step_inv in Hr as ([] & s10 & E10 & Hr).
  assert (B7 : block_ok i (check_output tm i st (spec t) r)) by (unfold check_output; block_auto).
  assert (B8 : block_ok i (check_contract tm i st (spec t) r)) by (unfold check_contract; block_auto).
  assert (B9 : block_ok i (observe_and_verify tm i st preds r)) by (unfold observe_and_verify; block_auto).
  assert (B10 : block_ok i (check_postconditions tm i st)) by (unfold check_postconditions; block_auto).
  pose proof (pg_length _ _ _ (bo_some _ _ B7 _ _ _ E7)). pose proof (pg_length _ _ _ (bo_some _ _ B8 _ _ _ E8)).
  pose proof (pg_length _ _ _ (bo_some _ _ B9 _ _ _ E9)). pose proof (pg_length _ _ _ (bo_some _ _ B10 _ _ _ E10)).
  apply bind_inv in Hr as [(e & _ & ?)|(u & s11 & E11 & Hr)]; [done|]. injection Hr as <-.
  eapply finish_verified; [exact E11|]. lia.
Qed.

(** Forward progress over several steps. *)
Record advanced s s' : Prop := {
  ad_calls : exists fwd, t_calls s' = t_calls s ++ fwd /\ Forall forward fwd /\
    map entry_desc (t_stack s') = pending_rollbacks fwd ++ map entry_desc (t_stack s);
  ad_length : length (t_heap s') = length (t_heap s);
}.
Lemma progress_advanced i s s1 s' : progress i s s1 -> advanced s1 s' -> advanced s s'.
Proof.
  intros [(f1 & C1 & F1 & S1) _ L1 _] [(f2 & C2 & F2 & S2) L2]. split; [|congruence].
  exists (f1 ++ f2). rewrite C2, C1, S2, S1, pending_app, !app_assoc. split_and!; [done|by apply Forall_app|done].
Qed.
(** The loop either verifies every step, or stops with everything pending compensated. *)
Lemma run_steps_outcome l s s' :
  Forall (fun i => i < length (t_heap s)) l -> run_steps tm l s = (Ok tt, s') ->
  (advanced s s' /\ forall j, j ∈ l \/ verified_at s j -> verified_at s' j) \/ compensated s s'.
Proof.
  revert s. induction l as [|i l IH]; intros s Hl; simpl.
  - intros [= <-]. left. split.
    + split; [|done]. exists []. by rewrite app_nil_r.
    + intros j [Hj|Hj]; [by apply elem_of_nil in Hj|done].
  - apply Forall_cons in Hl as [Hi Hl]. intros [(e & _ & ?)|(o & s1 & E1 & Hr)]%bind_inv; [done|].
    destruct o as [[]|].
    2: { injection Hr as <-. right. exact (bo_none _ _ (run_step_block i) _ _ E1). }
    pose proof (bo_some _ _ (run_step_block i) _ _ _ E1) as P1.
    pose proof (run_step_verified _ _ _ E1 Hi) as V1.
    destruct (IH s1) as [[A V]|C]; [by rewrite (pg_length _ _ _ P1)|done| |].
    + left. split; [by eapply progress_advanced|]. intros j Hj. apply V.
      destruct (decide (j = i)) as [->|Hne]; [by right|].
      destruct Hj as [[->|Hj]%elem_of_cons|(st & Hst & Hv)]; [done|by left|right].
      exists st. split; [|done]. by rewrite (pg_heap _ _ _ P1).
    + right. by eapply progress_compensated.
Qed.
End outcome.

(** ** The whole plan *)

Section plan.
Context `{PyRuntime} `{JsonSchemaValidator} {X G : Type}.
Context (tm : TransactionManager X G).
Implicit Types s : TState X G.

(** Calls, stack and steps untouched. *)
Definition idle s s' : Prop := t_calls s' = t_calls s /\ t_stack s' = t_stack s /\ t_heap s' = t_heap s.
#[export] Instance idle_preorder : PreOrder idle.
Proof. split; [done|]. intros x y z (? & ? & ?) (? & ? & ?). unfold idle. split_and!; congruence. Qed.
Lemma audit_idle et msg pl : keeps idle (audit (St:=TState X G) et msg pl).
Proof. done. Qed.
#[local] Hint Resolve audit_idle : keeps.
Lemma transition_to_inv v s s' :
  transition_to v s = (Ok tt, s') ->
  idle s s' /\ exists g, transition v (p_goal (t_plan s)) = Ok g /\ t_plan s' = set_p_goal g (t_plan s).
Proof.
  unfold transition_to, bind, gets, of_res. destruct (transition v (p_goal (t_plan s))) as [g|e]; [|done].
  intros [= <-]. split; [done|]. by exists g.
Qed.
Lemma plan_goal_inv v s s' :
  transition_plan_goal v s = (Ok tt, s') ->
  idle s s' /\ g_status (p_goal (t_plan s')) = v /\ p_steps (t_plan s') = p_steps (t_plan s) /\
  p_budget (t_plan s') = p_budget (t_plan s) /\ budget (p_goal (t_plan s')) = budget (p_goal (t_plan s)).
Proof.
  assert (HT : forall v s s', transition_to v s = (Ok tt, s') -> idle s s' /\ g_status (p_goal (t_plan s')) = v /\
    p_steps (t_plan s') = p_steps (t_plan s) /\ p_budget (t_plan s') = p_budget (t_plan s) /\
    budget (p_goal (t_plan s')) = budget (p_goal (t_plan s))).
  { intros v' x x' (I & g & T & ->)%transition_to_inv. apply transition_inv in T as [_ ->]. by split_and!. }
  unfold transition_plan_goal. unfold bind at 1, gets. destruct (decide (_ = v)) as [E|E]; [by intros [= <-]|].
  intros [(e & _ & ?)|([] & s1 & E1 & E2)]%bind_inv; [done|].
  apply HT in E2 as (I2 & V2 & S2 & B2 & G2).
  destruct (decide (_ /\ _)); [|injection E1 as <-; done].
  apply HT in E1 as (I1 & V1 & S1 & B1 & G1). split_and!; [by etrans|done|congruence|congruence|congruence].
Qed.
Lemma finish_plan_inv s s' :
  finish_plan s = (Ok tt, s') ->
  idle s s' /\ g_status (p_goal (t_plan s')) = final_goal_status (step_statuses s').
Proof.
  unfold finish_plan. unfold bind at 1, gets. intros [(e & _ & ?)|([] & s1 & E1 & E2)]%bind_inv; [done|].
  apply plan_goal_inv in E1 as (I1 & G1 & P1 & _).
  unfold bind at 1 in E2. injection E2 as <-. split; [exact I1|]. simpl. rewrite G1.
  f_equal. destruct I1 as (_ & _ & Hh). unfold step_statuses. simpl. by rewrite P1, Hh.
Qed.

Definition sized s s' : Prop := length (t_heap s') = length (t_heap s).
#[export] Instance sized_preorder : PreOrder sized.
Proof. split; [done|]. unfold sized. intros x y z ? ?. congruence. Qed.
Definition quiet_sized s s' : Prop := quiet s s' /\ sized s s' /\ t_plan s' = t_plan s.
#[export] Instance quiet_sized_preorder : PreOrder quiet_sized.
Proof.
  split; [by intros s|]. intros x y z (? & ? & ?) (? & ? & ?). split_and!; [by etrans|by etrans|congruence].
Qed.
Lemma upd_quiet_sized i f : keeps quiet_sized (upd_step (X:=X) (G:=G) i f).
Proof. intros s. split_and!; [done| |done]. unfold sized. simpl. by rewrite length_alter. Qed.
Lemma put_quiet_sized i v : keeps quiet_sized (put_status (X:=X) (G:=G) i v).
Proof. apply upd_quiet_sized. Qed.
Lemma get_quiet_sized i : keeps quiet_sized (get_step (X:=X) (G:=G) i).
Proof. done. Qed.
Lemma audit_quiet_sized et msg pl : keeps quiet_sized (audit (St:=TState X G) et msg pl).
Proof. done. Qed.
#[local] Hint Resolve upd_quiet_sized put_quiet_sized get_quiet_sized audit_quiet_sized : keeps.
Lemma budget_record_quiet i msg pl : keeps quiet_sized (record_budget_exceeded (X:=X) (G:=G) i msg pl).
Proof. unfold record_budget_exceeded. keeps_auto. Qed.
#[local] Hint Resolve budget_record_quiet : keeps.
Lemma budget_loop_quiet b l fw nr : keeps quiet_sized (budget_loop tm b l fw nr).
Proof.
  revert fw nr. induction l as [|i l IH]; intros fw nr; cbn [budget_loop]; [keeps_auto|].
  apply keeps_bind; [apply _|keeps_auto|intros st].
  destruct (registry_get _ _) as [t|e]; [|keeps_auto].
  apply keeps_bind; [apply _|keeps_auto|intros _].
  apply keeps_bind; [apply _|keeps_auto|intros st'].
  repeat (match goal with |- keeps _ (if ?b then _ else _) => destruct b end); try apply IH; keeps_auto.
Qed.
#[local] Hint Resolve budget_loop_quiet : keeps.
(** Checking the budget calls no tool. *)
Lemma budget_quiet b : keeps quiet_sized (budget_exceeded tm b).
Proof. unfold budget_exceeded. keeps_auto. Qed.

(** The history of a run that returns. *)
Definition plan_outcome s s' : Prop :=
  exists fwd back, t_calls s' = t_calls s ++ fwd ++ back /\ Forall forward fwd /\
  ((back = [] /\ forall i, i ∈ p_steps (t_plan s) -> verified_at s' i) \/
   (Forall (fun c => tc_kind c = Rollback) back /\
    map call_desc back = filter (egress_open tm) (pending_rollbacks fwd))).

Lemma execute_plan_inv s s' :
  execute_plan tm s = (Ok tt, s') ->
  exists s1 ex s2 s3, t_calls s1 = t_calls s /\ t_heap s1 = t_heap s /\ t_stack s1 = [] /\
    p_steps (t_plan s1) = p_steps (t_plan s) /\
    budget_exceeded tm (default (budget (p_goal (t_plan s))) (p_budget (t_plan s))) s1 = (Ok ex, s2) /\
    (if ex then s3 = s2 else run_steps tm (p_steps (t_plan s)) s2 = (Ok tt, s3)) /\
    finish_plan s3 = (Ok tt, s').
Proof.
  unfold execute_plan. intros He. unfold bind at 1, gets in He. unfold bind at 1, audit at 1, modify in He.
  apply bind_inv in He as [(e & _ & ?)|([] & s1 & E1 & He)]; [done|].
  apply plan_goal_inv in E1 as ((C1 & _ & H1) & _ & P1 & B1 & G1). simpl in C1, H1, P1, B1, G1.
  unfold bind at 1 in He. unfold bind at 1 in He.
  apply bind_inv in He as [(e & _ & ?)|(ex & s2 & E2 & He)]; [done|].
  apply bind_inv in He as [(e & _ & ?)|([] & s3 & E3 & He)]; [done|].
  exists (with_stack [] s1), ex, s2, s3. simpl. split_and!; try done.
  - by rewrite <-B1, <-G1.
  - destruct ex; [by injection E3 as <-|]. simpl in E3. by rewrite P1 in E3.
Qed.
Lemma execute_plan_outcome s s' :
  Forall (fun i => i < length (t_heap s)) (p_steps (t_plan s)) -> execute_plan tm s = (Ok tt, s') ->
  plan_outcome s s' /\ g_status (p_goal (t_plan s')) = final_goal_status (step_statuses s').
Proof.
  intros Hv He. apply execute_plan_inv in He as (s1 & ex & s2 & s3 & C1 & H1 & K1 & P1 & Eb & Er & Ef).
  apply finish_plan_inv in Ef as [(Cf & Kf & Hf) Gf]. split; [|exact Gf].
  pose proof (budget_quiet (default (budget (p_goal (t_plan s))) (p_budget (t_plan s))) s1) as Q.
  rewrite Eb in Q. simpl in Q. destruct Q as ([C2 K2] & L2 & P2). unfold plan_outcome. rewrite Cf.
  destruct ex.
  { subst s3. exists [], []. rewrite C2, C1, !app_nil_r. split_and!; [done|constructor|]. right. split; [constructor|done]. }
  apply run_steps_outcome in Er; [|unfold sized in L2; by rewrite L2, H1].
  destruct Er as [[[(fwd & C & F & S) _] V]|[(fwd & back & C & F & B & D) S]].
  - rewrite C2, C1 in C. exists fwd, []. rewrite app_nil_r. split_and!; [done|done|]. left. split; [done|].
    intros i Hi. destruct (V i) as (st & Hst & Hvs); [by left|]. exists st. by rewrite Hf.
  - rewrite C2, C1 in C. exists fwd, back. split_and!; [done|done|]. right. split; [done|].
    by rewrite D, K2, K1, app_nil_r.
Qed.
End plan.

(** * Atomicity: when the rollback of every tool restores, in what one observes of the environment, the
    state before its execution, a plan that does not verify all its steps leaves
    that observation as it was. *)


Section atomic.
Context `{PyRuntime} `{JsonSchemaValidator} {X Y G : Type}.
Context (tm : TransactionManager X G) (I : X -> Prop) (view : X -> Y).
Implicit Types s : TState X G.

(** Rolling [token] back takes any environment that looks like [y1] to one that looks like [y0]. *)
Definition restores (t : Tool X) (token : dict pyval) (y1 y0 : Y) : Prop :=
  forall e w, I e -> view e = y1 -> let e' := (snd (rollback t token (e, w))).1 in I e' /\ view e' = y0.

(** A tool whose executions can be undone, or do nothing one can see. *)
Record undoable (t : Tool X) : Prop := {
  un_dry : forall args e w, I e -> let e' := (snd (dry_run t args (e, w))).1 in I e' /\ view e' = view e;
  un_execute : forall args e w, I e -> let '(r, (e', _)) := execute t args (e, w) in
    I e' /\ match pushed t r [] with
            | (_, token) :: _ => restores t token (view e') (view e)
            | [] => view e' = view e
            end;
  un_egress : rollback_egress_block_reason tm (spec t) = None;
}.

(** Undoing the pending rollbacks, last first, leads back to [y]. *)
Fixpoint undoes (y : Y) (k : list (Tool X * dict pyval)) (y1 : Y) : Prop :=
  match k with
  | [] => y1 = y
  | (t, token) :: k' => exists y0, restores t token y1 y0 /\ undoes y k' y0
  end.
Definition pending_ok (y : Y) (e : X) (k : list (Tool X * dict pyval)) : Prop := I e /\ undoes y k (view e).
Lemma pushed_app t r (k : list (Tool X * dict pyval)) : pushed t r k = pushed t r [] ++ k.
Proof. destruct r as [r|]; simpl; [|done]. destruct (ok r); [|done]. by destruct (rollback_token r) as [[|]|]. Qed.
Lemma undoable_sound y t : undoable t -> tool_sound tm (pending_ok y) t.
Proof.
  intros [Hd He Hg]. split.
  - intros args e w k [Hi Hu]. destruct (Hd args e w Hi) as [Hi' Hv]. split; [done|]. by rewrite Hv.
  - intros args e w k [Hi Hu]. specialize (He args e w Hi). rewrite pushed_app.
    destruct (execute t args (e, w)) as [r [e' w']]. destruct He as [Hi' Hr]. split; [done|]. simpl.
    destruct (pushed t r []) as [|[t' token] l] eqn:Ep; [simpl; by rewrite Hr|].
    assert (t' = t /\ l = []) as [-> ->].
    { revert Ep. destruct r as [r|]; simpl; [|done]. destruct (ok r); [|done].
      destruct (rollback_token r) as [[|]|]; by intros [= -> _ ->]. }
    exists (view e). by split.
  - intros token e w k [Hi (y0 & Hr & Hu)]. destruct (Hr e w Hi eq_refl) as [Hi' Hv]. split; [done|]. by rewrite Hv.
  - intros token e k Hn. congruence.
Qed.

(** A plan that ran to its end either verified all its steps or left no trace. *)
Lemma plan_undone s s' :
  (forall n t, registry_get n (tm_registry tm) = Ok t -> undoable t) -> I (t_env s) ->
  Forall (fun i => i < length (t_heap s)) (p_steps (t_plan s)) -> execute_plan tm s = (Ok tt, s') ->
  (forall i, i ∈ p_steps (t_plan s) -> verified_at s' i) \/ view (t_env s') = view (t_env s).
Proof.
  intros Hreg Hi Hv He.
  assert (Hsound : forall n t, registry_get n (tm_registry tm) = Ok t -> tool_sound tm (pending_ok (view (t_env s))) t).
  { intros n t Ht. by eapply undoable_sound, Hreg. }
  assert (Hj : pending_ok (view (t_env s)) (t_env s') (map fst (t_stack s'))).
  { destruct (execute_plan_joint tm _ Hsound s) as [[Hj _]|[_ Hr]]; [by split|..]; rewrite He in *; [exact Hj|done]. }
  apply execute_plan_inv in He as (s1 & ex & s2 & s3 & C1 & H1 & K1 & P1 & Eb & Er & Ef).
  apply finish_plan_inv in Ef as [(Cf & Kf & Hf) Gf].
  pose proof (budget_quiet tm (default (budget (p_goal (t_plan s))) (p_budget (t_plan s))) s1) as Q.
  rewrite Eb in Q. simpl in Q. destruct Q as ([C2 K2] & L2 & P2).
  assert (Hend : t_stack s3 = [] -> view (t_env s') = view (t_env s)).
  { intros Hs. rewrite Kf, Hs in Hj. exact (proj2 Hj). }
  destruct ex; [right; apply Hend; by subst; rewrite K2|].
  apply run_steps_outcome in Er; [|unfold sized in L2; by rewrite L2, H1].
  destruct Er as [[_ V]|[_ S]]; [left|right; by apply Hend].
  intros i Hin. destruct (V i) as (st & Hst & Hvs); [by left|]. exists st. by rewrite Hf.
Qed.
End atomic.
