(* ===== verification/TxProps.v ===== *)
(** Properties of plan execution. *)
From S2P Require Import Prelude Enums PyValue Sanitization Goals Plans Tools AuditTrail Causal Egress Policy Approval Gates Transactions Fixtures AuditProps TxInvariants TxSafety TxRollback TxOutcome.

Section lemmas.
Context `{PyRuntime} `{JsonSchemaValidator} {X G : Type}.
Context (tm : TransactionManager X G).
Implicit Types s : TState X G.
Abbreviation ANY := (fun _ : tool_call => True).

(** ** The audit log over a whole plan *)

Lemma run_step_any i : keeps (grows ANY) (run_step tm i).
Proof.
  assert (Hrb : forall i st (t : Tool X) args r, rollback_egress_block_reason tm (spec t) = None ->
    ANY (ToolCall Rollback i st (spec t) args r)) by done.
  unfold run_step, resolve_tool, get_step.
  apply keeps_bind; [apply _| |].
  { apply keeps_bind; [apply _|keeps_auto|intros st]. destruct (registry_get _ _); [keeps_auto|].
    destruct (negb _); [keeps_auto|]. by apply stop_grows'. }
  intros [t|]; [|keeps_auto].
  apply keeps_bind; [apply _|by apply hydrate_grows|intros _].
  apply keeps_bind; [apply _|keeps_auto|intros st].
  apply keeps_bind; [apply _|by apply guards_grows|intros [preds|]; [|keeps_auto]]. cbv zeta.
  apply keeps_bind; [apply _|by apply authorize_grows|intros [[]|]; [|keeps_auto]].
  apply keeps_bind; [apply _|by apply execute_grows|intros [r|]; [|keeps_auto]].
  by apply checks_grows.
Qed.
Lemma run_steps_any l : keeps (grows ANY) (run_steps tm l).
Proof.
  induction l as [|i l IH]; simpl; [keeps_auto|].
  apply keeps_bind; [apply _|apply run_step_any|intros [u|]; [exact IH|keeps_auto]].
Qed.
Lemma execute_plan_any : keeps (grows ANY) (execute_plan tm).
Proof.
  unfold execute_plan, finish_plan. pose proof (fun v => plan_goal_grows (X:=X) (G:=G) ANY v) as Hg.
  pose proof (budget_grows tm ANY) as Hb. pose proof run_steps_any as Hr. keeps_auto.
Qed.

(** ** Where a plan may not act *)

(** The tool a step of the plan names, if it is registered. *)
Definition step_tool s (i : nat) : option ToolSpec :=
  match registry_get (tool_name (default default_step (t_heap s !! i))) (tm_registry tm) with
  | Ok t => Some (spec t)
  | Raise _ => None
  end.
Definition step_risk s (i : nat) : RiskLevel :=
  match step_tool s i with
  | Some ts => assess ts (arguments (default default_step (t_heap s !! i)))
  | None => LOW
  end.
Definition step_writes s (i : nat) : bool :=
  match step_tool s i with Some ts => perm_in WRITE_FILES (permissions ts) | None => false end.
Definition step_requests s (i : nat) : bool :=
  match step_tool s i with Some ts => is_network_tool ts | None => false end.
Definition count (f : nat -> bool) (l : list nat) : Z := Z.of_nat (length (List.filter f l)).
(** A plan within a budget. *)
Record within_budget (b : ResourceBudget) s (l : list nat) : Prop := {
  wb_calls : over (max_tool_calls b) (Z.of_nat (length l)) = false;
  wb_known : Forall (fun i => is_Some (step_tool s i)) l;
  wb_risk : Forall (fun i => (risk_value (step_risk s i) <= risk_value (max_risk_level b))%Z) l;
  wb_writes : (0 < count (step_writes s) l)%Z -> over (max_file_writes b) (count (step_writes s) l) = false;
  wb_requests : (0 < count (step_requests s) l)%Z -> over (max_network_requests b) (count (step_requests s) l) = false;
}.

(** What the budget loop leaves unchanged: the identity of steps. *)
Lemma step_tool_grows P s s' i : grows P s s' -> i < length (t_heap s) ->
  step_tool s' i = step_tool s i /\ arguments (default default_step (t_heap s' !! i)) =
    arguments (default default_step (t_heap s !! i)).
Proof.
  intros Hg Hi. pose proof (gr_heap _ _ _ Hg) as HF. rewrite Forall2_lookup in HF. specialize (HF i).
  destruct (lookup_lt_is_Some_2 _ _ Hi) as [st Hst]. rewrite Hst in HF. inversion HF as [a b Hab Ha Hb|]. subst.
  unfold step_tool. rewrite Hst, <-Hb. simpl. destruct Hab as (-> & -> & _). done.
Qed.
Lemma over_le o n m : over o m = false -> (n <= m)%Z -> over o n = false.
Proof. destruct o as [k|]; [|done]. unfold over. rewrite !Z.ltb_ge. lia. Qed.
Lemma count_nonneg f l : (0 <= count f l)%Z.
Proof. unfold count. lia. Qed.
Lemma count_cons f i l : count f (i :: l) = ((if f i then 1 else 0) + count f l)%Z.
Proof. unfold count. simpl. destruct (f i); simpl length; lia. Qed.

Lemma count_ext f g l : Forall (fun i => f i = g i) l -> count f l = count g l.
Proof. induction 1 as [|i l Hi _ IH]; [done|]. by rewrite !count_cons, Hi, IH. Qed.

(** One step that passes the budget loop. *)
Lemma hydrated_lookup i ts s st :
  t_heap s !! i = Some st -> default default_step (alter (hydrate ts) i (t_heap s) !! i) = hydrate ts st.
Proof. intros Hst. by rewrite list_lookup_alter_eq, Hst. Qed.
Lemma budget_loop_step b i l fw nr s s' :
  i < length (t_heap s) -> budget_loop tm b (i :: l) fw nr s = (Ok false, s') ->
  exists s1 fw1 nr1, grows ANY s s1 /\ budget_loop tm b l fw1 nr1 s1 = (Ok false, s') /\
    is_Some (step_tool s i) /\ (risk_value (step_risk s i) <= risk_value (max_risk_level b))%Z /\
    fw1 = (if step_writes s i then fw + 1 else fw)%Z /\ nr1 = (if step_requests s i then nr + 1 else nr)%Z /\
    (step_writes s i = true -> over (max_file_writes b) fw1 = false) /\
    (step_requests s i = true -> over (max_network_requests b) nr1 = false).
Proof.
  intros Hi. destruct (lookup_lt_is_Some_2 _ _ Hi) as [st Hst].
  cbn [budget_loop]. unfold bind at 1, get_step at 1, gets.
  unfold step_risk, step_writes, step_requests, step_tool. rewrite Hst. simpl.
  destruct (registry_get (tool_name st) (tm_registry tm)) as [t|e].
  2: { destruct (negb _); [done|]. intros Hb. by binv Hb. }
  unfold bind at 1, upd_step, modify. unfold bind at 1, get_step, gets. cbn [t_heap with_heap].
  rewrite (hydrated_lookup i (spec t) s st Hst). cbn [risk required_permissions hydrate set_metadata].
  set (s1 := with_heap _ s).
  assert (G1 : grows ANY s s1) by (exact (hydrate_grows ANY i (spec t) s)).
  destruct (Z.ltb_spec (risk_value (max_risk_level b)) (risk_value (assess (spec t) (arguments st)))) as [|Hr].
  { intros Hb. by binv Hb. }
  destruct (perm_in WRITE_FILES (permissions (spec t)) && over (max_file_writes b) _) eqn:Ew.
  { intros Hb. by binv Hb. }
  match goal with |- context [if ?c && over (max_network_requests b) _ then _ else _] =>
    destruct (c && over (max_network_requests b) _) eqn:En end.
  { intros Hb. by binv Hb. }
  intros Hb. eexists s1, _, _. split_and!; [exact G1|exact Hb|eauto|exact Hr|done|done| |].
  - intros Hw. rewrite Hw in *. exact Ew.
  - unfold is_network_tool in *. intros Hn. rewrite Hn in *. exact En.
Qed.
Lemma budget_loop_within b l fw nr s s' :
  Forall (fun i => i < length (t_heap s)) l -> budget_loop tm b l fw nr s = (Ok false, s') ->
  Forall (fun i => is_Some (step_tool s i)) l /\
  Forall (fun i => (risk_value (step_risk s i) <= risk_value (max_risk_level b))%Z) l /\
  ((0 < count (step_writes s) l)%Z -> over (max_file_writes b) (fw + count (step_writes s) l) = false) /\
  ((0 < count (step_requests s) l)%Z -> over (max_network_requests b) (nr + count (step_requests s) l) = false).
Proof.
  revert fw nr s. induction l as [|i l IH]; intros fw nr s Hl Hb.
  { split_and!; try constructor; unfold count; simpl; lia. }
  apply Forall_cons in Hl as [Hi Hl].
  apply budget_loop_step in Hb as (s1 & fw1 & nr1 & G1 & Hb & Hk & Hr & Hfw & Hnr & Ow & On); [|done].
  destruct (IH fw1 nr1 s1) as (IK & IR & IW & IN); [by rewrite (grows_heap_length _ _ _ G1)|done|].
  assert (Hsame : forall j, j ∈ l -> step_tool s1 j = step_tool s j /\ step_risk s1 j = step_risk s j /\
            step_writes s1 j = step_writes s j /\ step_requests s1 j = step_requests s j).
  { intros j Hj. rewrite Forall_forall in Hl. destruct (step_tool_grows _ _ _ j G1 (Hl j Hj)) as [Et Ea].
    unfold step_risk, step_writes, step_requests. by rewrite Et, Ea. }
  rewrite (count_ext (step_writes s1) (step_writes s)) in IW by (apply Forall_forall; intros j Hj; apply Hsame, Hj).
  rewrite (count_ext (step_requests s1) (step_requests s)) in IN by (apply Forall_forall; intros j Hj; apply Hsame, Hj).
  rewrite !count_cons. pose proof (count_nonneg (step_writes s) l). pose proof (count_nonneg (step_requests s) l).
  split_and!.
  - constructor; [done|]. rewrite Forall_forall in *. intros j Hj. destruct (Hsame j Hj) as (<- & _). by apply IK.
  - constructor; [done|]. rewrite Forall_forall in *. intros j Hj. destruct (Hsame j Hj) as (_ & <- & _). by apply IR.
  - intros Hp. destruct (decide (0 < count (step_writes s) l)%Z) as [Hc|Hc].
    + specialize (IW Hc). subst fw1. destruct (step_writes s i); eapply over_le; try exact IW; lia.
    + destruct (step_writes s i); [|lia]. eapply over_le; [apply Ow; done|]. lia.
  - intros Hp. destruct (decide (0 < count (step_requests s) l)%Z) as [Hc|Hc].
    + specialize (IN Hc). subst nr1. destruct (step_requests s i); eapply over_le; try exact IN; lia.
    + destruct (step_requests s i); [|lia]. eapply over_le; [apply On; done|]. lia.
Qed.
Lemma budget_within b s s' :
  Forall (fun i => i < length (t_heap s)) (p_steps (t_plan s)) -> budget_exceeded tm b s = (Ok false, s') ->
  within_budget b s (p_steps (t_plan s)).
Proof.
  intros Hl. unfold budget_exceeded. unfold bind at 1, gets.
  destruct (over (max_tool_calls b) _) eqn:Eo. { intros Hb. by do 2 binv Hb. }
  intros Hb. binv Hb. destruct a; [done|].
  apply budget_loop_within in Hm as (? & ? & ? & ?); [|done]. by split.
Qed.

(** ** The calls of one step *)

Abbreviation NONE := (fun _ : tool_call => False).
Abbreviation BACK := (fun c : tool_call => tc_kind c = Rollback).
Lemma back_rollback i st (t : Tool X) args r :
  rollback_egress_block_reason tm (spec t) = None -> BACK (ToolCall Rollback i st (spec t) args r).
Proof. done. Qed.
Lemma no_calls s s' : grows NONE s s' -> t_calls s' = t_calls s.
Proof. intros [_ (n & C & F) _ _]. destruct F as [|c n []]. by rewrite C, app_nil_r. Qed.
Lemma only_rollbacks s s' : grows BACK s s' -> exists back, t_calls s' = t_calls s ++ back /\ Forall BACK back.
Proof. by intros [_ Hc _ _]. Qed.
Lemma forward_back_nil l : Forall forward l -> Forall BACK l -> l = [].
Proof. intros Hf Hb. destruct l as [|c l]; [done|]. inv Hf. inv Hb. done. Qed.

(** A dry run, then rollbacks only; on success nothing after the dry run, which succeeded. *)
Definition dry_then i st (t : Tool X) args (r : res exn (option unit)) s s' : Prop :=
  exists rd back, t_calls s' = t_calls s ++ ToolCall DryRun i st (spec t) args rd :: back /\ Forall BACK back /\
    (r = Ok (Some tt) -> back = [] /\ exists d, rd = Ok d /\ ok d = true).
Lemma call_then_back i st t args (k : ToolResult -> M (TState X G) exn (option unit)) s r s' :
  (forall d, keeps (grows BACK) (k d)) ->
  (forall d s0 s1, k d s0 = (Ok (Some tt), s1) -> ok d = true /\ progress i s0 s1) ->
  bind (call_tool DryRun i st t args) k s = (r, s') -> dry_then i st t args r s s'.
Proof.
  intros Hk Hs. unfold bind, call_tool. destruct (dry_run t args _) as [rd [e w]].
  set (c := ToolCall DryRun i st (spec t) args rd). set (s1 := with_call e w c s).
  destruct rd as [d|er].
  2: { intros [= <- <-]. exists (Raise er), []. split_and!; [done|constructor|done]. }
  intros Hr. pose proof (Hk d s1) as Hg. rewrite Hr in Hg. apply only_rollbacks in Hg as (back & C & F). cbn [snd] in C.
  exists (Ok d), back. rewrite C. simpl. rewrite <-app_assoc. split_and!; [done|done|].
  intros ->. destruct (Hs _ _ _ Hr) as [Hd [(fwd & C' & F' & _) _ _ _]]. split; [|by exists d].
  rewrite C in C'. apply app_inv_head in C' as ->. by apply forward_back_nil.
Qed.
Lemma authorize_calls i st t args s r s' :
  authorize tm i st t args s = (r, s') ->
  (grows BACK s s' /\ r <> Ok (Some tt)) \/ dry_then i st t args r s s'.
Proof.
  unfold authorize. unfold bind at 1, gets. intros Ha. unfold bind at 1 in Ha.
  pose proof (decide_step_grows (G:=G) NONE (tm_policy tm) (t_uses s) st s) as Hn.
  pose proof (decide_step_grows (G:=G) BACK (tm_policy tm) (t_uses s) st s) as Hb.
  destruct (decide_step (tm_policy tm) (t_uses s) st s) as [[dr|e] s1]; simpl in Hn, Hb.
  2: { injection Ha as <- <-. by left. }
  apply no_calls in Hn. unfold dry_then. rewrite <-Hn.
  destruct (dr_decision dr); [right|left|right].
  - unfold dry_run_step in Ha. refine (call_then_back i st t args _ _ _ _ _ _ Ha).
    + intros d. destruct (negb (ok d)); [by apply stop_grows'|keeps_auto].
    + intros d s2 s3 Hd. destruct (ok d); cbn [negb] in Hd; [|by apply stop_not_some in Hd]. split; [done|].
      assert (B : block_ok tm i (put_status (X:=X) (G:=G) i DRY_RUN_OK;;; audit "step.dry_run_ok" (message d) (id_tool st);;;
        ret (Some tt))).
      { apply block_bind; [apply put_progress|intros _]. apply block_bind; [apply audit_progress|intros _]. apply block_ret. }
      exact (bo_some _ _ _ B _ _ _ Hd).
  - pose proof (stop_grows' tm BACK back_rollback (A:=unit)) as Hst.
    match type of Ha with stop _ _ _ ?ev _ = _ => specialize (Hst i BLOCKED ev s1) end.
    rewrite Ha in Hst. split; [by etrans|]. intros ->. by apply stop_not_some in Ha.
  - unfold human_approval in Ha. refine (call_then_back i st t args _ _ _ _ _ _ Ha).
    + intros d. pose proof (request_approval_grows tm BACK back_rollback i st t dr d).
      destruct (negb (ok d)); [by apply stop_grows'|keeps_auto].
    + intros d s2 s3 Hd. destruct (ok d) eqn:Eok; cbn [negb] in Hd; [|by apply stop_not_some in Hd]. split; [done|].
      refine (bo_some _ _ _ (block_bind tm i _ _ (put_progress i DRY_RUN_OK) (fun _ => block_bind tm i _ _
        (audit_progress i _ _ _) (fun _ => request_block tm i st t dr d))) _ _ _ Hd).
Qed.

Lemma execute_calls i st t args s r s' :
  execute_step tm i st t args s = (r, s') ->
  exists re back, t_calls s' = t_calls s ++ ToolCall Execute i st (spec t) args re :: back /\ Forall BACK back /\
    (forall x, r = Ok (Some x) -> back = [] /\ re = Ok x /\ ok x = true).
Proof.
  unfold execute_step, call_tool. unfold bind at 1. destruct (execute t args _) as [re [e w]].
  set (c := ToolCall Execute i st (spec t) args re). set (s1 := with_call e w c s). intros H1. exists re.
  destruct re as [x|er].
  2: { injection H1 as <- <-. exists []. by split_and!. }
  destruct (ok x) eqn:Eok; cbn [negb] in *.
  - destruct (rollback_token x) as [[|kv tok]|]; unfold bind, put_status, upd_step, modify, ret in *; cbn in *;
      injection H1 as <- <-; exists []; (split_and!; [done|done|]); intros y [= <-]; done.
  - match type of H1 with stop _ _ _ ?ev _ = _ =>
      pose proof (stop_grows' tm BACK back_rollback (A:=ToolResult) i FAILED ev s1) as Hst end.
    rewrite H1 in Hst. apply only_rollbacks in Hst as (back & C & F). cbn [snd] in C. exists back.
    rewrite C. simpl. rewrite <-app_assoc. split_and!; [done|done|]. intros y ->. by apply stop_not_some in H1.
Qed.

(** The tool calls of one execution of the loop body: none, or a dry run, or a
    successful dry run followed by the execution with the same arguments;
    then rollbacks.  A step that completes performs exactly the last two. *)
Inductive step_calls (i : nat) : bool -> list tool_call -> Prop :=
| sc_none back : Forall BACK back -> step_calls i false back
| sc_dry st (t : Tool X) args rd back :
    registry_get (tool_name st) (tm_registry tm) = Ok t -> Forall BACK back ->
    step_calls i false (ToolCall DryRun i st (spec t) args rd :: back)
| sc_execute st (t : Tool X) args d re back :
    registry_get (tool_name st) (tm_registry tm) = Ok t -> ok d = true -> Forall BACK back ->
    step_calls i false (ToolCall DryRun i st (spec t) args (Ok d) ::
                        ToolCall Execute i st (spec t) args re :: back)
| sc_done st (t : Tool X) args d x :
    registry_get (tool_name st) (tm_registry tm) = Ok t -> ok d = true -> ok x = true ->
    step_calls i true [ToolCall DryRun i st (spec t) args (Ok d); ToolCall Execute i st (spec t) args (Ok x)].
Definition succeeded (r : res exn (option unit)) : bool := match r with Ok (Some _) => true | _ => false end.

Lemma run_hydrated_calls i t st s r s' :
  registry_get (tool_name st) (tm_registry tm) = Ok t -> run_hydrated tm i t st s = (r, s') ->
  exists new, t_calls s' = t_calls s ++ new /\ step_calls i (succeeded r) new.
Proof.
  intros Ht Hr. unfold run_hydrated in Hr. set (args := prepare_arguments _ _ _) in *.
  pose proof (guards_grows tm BACK back_rollback i st t s) as Gb.
  unfold bind at 1 in Hr. destruct (step_guards tm i st t s) as [[[preds|]|e] s1] eqn:Eg; simpl in Gb;
    apply only_rollbacks in Gb as (back & C & F).
  2,3: injection Hr as <- <-; exists back; (split; [done|]); by apply sc_none.
  assert (C1 : t_calls s1 = t_calls s).
  { destruct (bo_some _ _ _ (guards_block tm i st t) _ _ _ Eg) as [(f & C' & F' & _) _ _ _].
    rewrite C in C'. apply app_inv_head in C' as ->. by rewrite C, (forward_back_nil _ F' F), app_nil_r. }
  clear C F back. unfold bind at 1 in Hr. destruct (authorize tm i st t args s1) as [ra s2] eqn:Ea.
  apply authorize_calls in Ea as [[Gb2 Hne]|(rd & back & C2 & F2 & Hok)].
  { apply only_rollbacks in Gb2 as (back & C & F). exists back. rewrite <-C1, <-C.
    destruct ra as [[[]|]|e]; [done| |]; injection Hr as <- <-; (split; [done|]); by apply sc_none. }
  rewrite C1 in C2. destruct ra as [[[]|]|e].
  2,3: injection Hr as <- <-; eexists; (split; [exact C2|]); by apply sc_dry.
  destruct (Hok eq_refl) as (-> & d & -> & Hd). clear Hok.
  unfold bind at 1 in Hr. destruct (execute_step tm i st t args s2) as [rx s3] eqn:Ex.
  apply execute_calls in Ex as (re & back & C3 & F3 & Hx). rewrite C2, <-app_assoc in C3. simpl in C3.
  destruct rx as [[x|]|e].
  2,3: injection Hr as <- <-; eexists; (split; [exact C3|]); by apply sc_execute.
  destruct (Hx x eq_refl) as (-> & -> & Hxo).
  pose proof (checks_grows tm BACK back_rollback i st t preds x s3) as Gc. rewrite Hr in Gc. cbn [snd] in Gc.
  apply only_rollbacks in Gc as (back & C4 & F4). rewrite C3, <-app_assoc in C4. simpl in C4.
  eexists. split; [exact C4|]. destruct r as [[[]|]|e]; simpl; [|by apply sc_execute|by apply sc_execute].
  destruct (bo_some _ _ _ (checks_block tm i st t preds x) _ _ _ Hr) as [(f & C' & F' & _) _ _ _].
  rewrite C4, C3, <-app_assoc in C'. apply app_inv_head in C'. injection C' as C'. subst f.
  rewrite (forward_back_nil _ F' F4). by apply sc_done.
Qed.
Lemma resolve_back i : keeps (grows BACK) (resolve_tool tm i).
Proof.
  unfold resolve_tool, get_step. apply keeps_bind; [apply _|keeps_auto|intros st].
  destruct (registry_get _ _); [keeps_auto|]. destruct (negb _); [keeps_auto|]. apply stop_grows', back_rollback.
Qed.
Lemma run_step_calls i s r s' :
  i < length (t_heap s) -> run_step tm i s = (r, s') ->
  exists new, t_calls s' = t_calls s ++ new /\ step_calls i (succeeded r) new.
Proof.
  intros Hi Hr. destruct (run_step_unfold tm i s Hi) as (st0 & Hst & [(e & He & E)|(t & Ht & E)]); rewrite Hr in E.
  - unfold bind in E. pose proof (resolve_back i s) as Hk. destruct (resolve_tool tm i s) as [[[t|]|e'] s1]; cbn [snd] in Hk;
      injection E as -> ->; apply only_rollbacks in Hk as (back & C & F); exists back; (split; [done|]);
      by apply sc_none.
  - symmetry in E. eapply run_hydrated_calls in E; [exact E|done].
Qed.

(** ** Idempotency *)

Definition same_world s s' : Prop := t_world s' = t_world s.
#[export] Instance same_world_preorder : PreOrder same_world.
Proof. split; [done|]. unfold same_world. intros x y z ? ?. congruence. Qed.
Lemma audit_world et msg pl : keeps same_world (audit (St:=TState X G) et msg pl).
Proof. done. Qed.
#[local] Hint Resolve audit_world : keeps.
Lemma attestation_world i st t s s' :
  check_attestation tm i st t s = (Ok (Some tt), s') -> same_world s s'.
Proof.
  unfold check_attestation. intros [(e & _ & ?)|(o & s1 & E1 & E2)]%bind_inv; [done|].
  assert (Hk : keeps same_world (runtime_attestation_block_reason tm st t))
    by (unfold runtime_attestation_block_reason; keeps_auto).
  specialize (Hk s). rewrite E1 in Hk. destruct (nonempty o); [by apply stop_not_some in E2|].
  by injection E2 as <-.
Qed.
Lemma guards_fresh_key i st t s preds s' key :
  step_guards tm i st t s = (Ok (Some preds), s') -> idem_key st = Some key ->
  facts (t_world s) !! idempotency_marker key = None.
Proof.
  unfold step_guards. intros Hg Hkey.
  apply bind_inv in Hg as [(e & _ & ?)|(u & s0 & E0 & Hg)]; [done|].
  assert (W0 : same_world s s0).
  { assert (Hk : keeps same_world (audit_egress (X:=X) (G:=G) tm st (spec t))) by (unfold audit_egress; keeps_auto).
    specialize (Hk s). by rewrite E0 in Hk. }
  apply step_inv in Hg as ([] & s1 & Hat & Hg). apply step_inv in Hg as ([] & s2 & Hpr & Hg).
  apply step_inv in Hg as ([] & s3 & Hsb & Hg). apply step_inv in Hg as ([] & s4 & Hse & Hg).
  apply attestation_world in Hat.
  assert (s2 = s1) as ->.
  { unfold check_production in Hpr. destruct (nonempty _); [by apply stop_not_some in Hpr|by injection Hpr]. }
  assert (s3 = s1) as ->.
  { unfold check_sandbox in Hsb. destruct (nonempty _); [by apply stop_not_some in Hsb|by injection Hsb]. }
  assert (s4 = s1) as ->.
  { unfold check_secrets in Hse. destruct (_ && _); [by apply stop_not_some in Hse|by injection Hse]. }
  apply bind_inv in Hg as [(e & _ & ?)|(ps & s5 & Ep & Hg)]; [done|].
  assert (W5 : same_world s1 s5).
  { assert (Hk : keeps same_world (predict_and_review tm i st (spec t))).
    { unfold predict_and_review, review, upd_step. keeps_auto. by apply keeps_modify. }
    specialize (Hk s1). by rewrite Ep in Hk. }
  apply step_inv in Hg as ([] & s6 & Hid & _). unfold check_idempotency in Hid. rewrite Hkey in Hid.
  unfold bind, gets in Hid. unfold same_world in *. rewrite W5, Hat, W0 in Hid.
  destruct (facts (t_world s) !! _) eqn:Ef; [by apply stop_not_some in Hid|done].
Qed.
Lemma run_step_duplicate i s r s' st0 key v :
  t_heap s !! i = Some st0 -> idem_key st0 = Some key -> facts (t_world s) !! idempotency_marker key = Some v ->
  run_step tm i s = (r, s') ->
  succeeded r = false /\ exists back, t_calls s' = t_calls s ++ back /\ Forall BACK back.
Proof.
  intros Hst Hkey Hf Hr. assert (Hi : i < length (t_heap s)) by (by eapply lookup_lt_Some).
  destruct (run_step_unfold tm i s Hi) as (st & Hst' & [(e & He & E)|(t & Ht & E)]); rewrite Hr in E;
    rewrite Hst in Hst'; injection Hst' as <-.
  - unfold bind in E. pose proof (resolve_back i s) as Hk.
    destruct (resolve_tool tm i s) as [[[t|]|e'] s1]; cbn [snd] in Hk; injection E as -> ->;
      (split; [done|]); by apply only_rollbacks in Hk.
  - set (st := hydrate (spec t) st0) in *. set (s0 := with_heap _ s) in *.
    pose proof (guards_grows tm BACK back_rollback i st t s0) as Gb. symmetry in E. unfold run_hydrated, bind at 1 in E.
    destruct (step_guards tm i st t s0) as [[[preds|]|e] s1] eqn:Eg; cbn [snd] in Gb.
    + exfalso. eapply guards_fresh_key in Eg; [|exact Hkey]. change (t_world s0) with (t_world s) in Eg. congruence.
    + injection E as <- <-. split; [done|]. by apply only_rollbacks in Gb.
    + injection E as <- <-. split; [done|]. by apply only_rollbacks in Gb.
Qed.

(** ** What a completed step has established *)

Record step_meaning (st : ActionStep) (ts : ToolSpec) (preds : list ActionConsequence) (r : ToolResult) s' : Prop := {
  sm_schema : validate_output ts (observed_state_delta r) = [];
  sm_required : forall c, causal_contract ts = Some c ->
    (forall k, k ∈ cc_required_observations c -> dmem k (observed_state_delta r) = true) /\
    Forall (requirement_met (observed_state_delta r) (arguments st)) (cc_required_fields c);
  sm_predicted : Forall (prediction_holds (observed_state_delta r)) preds;
  sm_trusted : forall k, k ∈ dkeys (observed_state_delta r) -> trust (t_world s') !! k = Some TL_VERIFIED;
}.
Lemma contract_checked i st ts r s s' :
  check_contract (X:=X) (G:=G) tm i st ts r s = (Ok (Some tt), s') ->
  same_world s s' /\ forall c, causal_contract ts = Some c ->
    (forall k, k ∈ cc_required_observations c -> dmem k (observed_state_delta r) = true) /\
    Forall (requirement_met (observed_state_delta r) (arguments st)) (cc_required_fields c).
Proof.
  unfold check_contract. destruct (contract_missing ts r) eqn:Em; [|by intros ?%stop_not_some].
  destruct (contract_violations ts st r) eqn:Ev; [|by intros ?%stop_not_some].
  intros Hc. split.
  - destruct (causal_contract ts); by injection Hc as <-.
  - intros c Ec. unfold contract_missing, contract_violations in *. rewrite Ec in *.
    split; [by apply missing_required_nil|by apply field_violations_nil].
Qed.
Lemma finish_trusted i st r v s u s' :
  finish_step (X:=X) (G:=G) tm i st r v s = (Ok u, s') ->
  (forall k, k ∈ dkeys (observed_state_delta r) -> is_Some (facts (t_world s) !! k)) ->
  forall k, k ∈ dkeys (observed_state_delta r) -> trust (t_world s') !! k = Some TL_VERIFIED.
Proof.
  unfold finish_step. set (keys := dkeys _). unfold bind at 1, modify. set (s0 := with_world _ s). intros Hf Hin k Hk.
  assert (T0 : trust (t_world s0) !! k = Some TL_VERIFIED).
  { simpl. rewrite mark_trust_lookup, decide_True; auto. }
  set (T (x : TState X G) := trust (t_world x) !! k = Some TL_VERIFIED) in *. change (T s'). change (T s0) in T0.
  apply bind_inv in Hf as [(e & _ & ?)|(a1 & s1 & E1 & Hf)]; [done|].
  apply bind_inv in Hf as [(e & _ & ?)|(a2 & s2 & E2 & Hf)]; [done|]. injection E2 as _ <-.
  apply bind_inv in Hf as [(e & _ & ?)|(a3 & s3 & E3 & Hf)]; [done|].
  apply bind_inv in Hf as [(e & _ & ?)|(a4 & s4 & E4 & Hf)]; [done|]. injection E4 as _ <-. injection Hf as _ <-.
  assert (W1 : same_world s0 s1).
  { assert (Hk1 : keeps same_world (record_grant_use (X:=X) (G:=G) tm st)).
    { unfold record_grant_use, matching_grant. assert (keeps same_world (time_time (St:=TState X G))) by done.
      assert (forall n gs u w t, keeps same_world (find_grant (St:=TState X G) n gs u w t)).
      { intros n gs. revert n. induction gs as [|g gs IH]; intros n u' w t; simpl; unfold applies_to; keeps_auto; apply IH. }
      keeps_auto. }
    specialize (Hk1 s0). by rewrite E1 in Hk1. }
  change (T s3). assert (T1 : T s1) by (unfold T; by rewrite W1). clear W1 T0 E1.
  destruct (idem_key st) as [key|]; [|by injection E3 as _ <-].
  unfold record_idempotency_key, bind, modify in E3. injection E3 as _ <-. unfold T. simpl.
  destruct (decide (k = idempotency_marker key)) as [->|]; [by rewrite lookup_insert_eq|by rewrite lookup_insert_ne].
Qed.
Lemma checks_meaning i st t preds r s s' :
  step_checks tm i st t preds r s = (Ok (Some tt), s') -> step_meaning st (spec t) preds r s'.
Proof.
  unfold step_checks. intros Hc.
  apply step_inv in Hc as ([] & s1 & E1 & Hc). apply step_inv in Hc as ([] & s2 & E2 & Hc).
  apply step_inv in Hc as (v & s3 & E3 & Hc). apply step_inv in Hc as ([] & s4 & E4 & Hc).
  apply bind_inv in Hc as [(e & _ & ?)|(u & s5 & E5 & Hc)]; [done|]. injection Hc as <-.
  apply contract_checked in E2 as [_ Hctr].
  unfold observe_and_verify, bind, modify in E3. cbn [audit modify] in E3.
  destruct (ok (verify preds r)) eqn:Ev; cbn [negb] in E3; [|by apply stop_not_some in E3]. injection E3 as _ <-.
  assert (W4 : same_world (with_world (observe (observed_state_delta r) TL_TOOL_REPORTED (t_world s2)) s2) s4).
  { unfold check_postconditions, bind, gets in E4. destruct (check_conditions _ _); [by injection E4 as <-|].
    by apply stop_not_some in E4. }
  split.
  - unfold check_output in E1. destruct (validate_output _ _); [done|by apply stop_not_some in E1].
  - exact Hctr.
  - by apply verify_ok.
  - eapply finish_trusted; [exact E5|]. intros k Hk. rewrite W4. simpl. by apply observe_facts_in.
Qed.
End lemmas.

Ltac solve_status :=
  split; [intros E; first [discriminate E | tauto] | intros E; first [reflexivity | exfalso; tauto]].

(** ** Properties *)

Section props.
Context `{PyRuntime} `{JsonSchemaValidator} {X G : Type}.
Context (tm : TransactionManager X G).
Implicit Types s : TState X G.


(** C2: a plan whose execution returns either has verified all its steps and
    rolled nothing back, or has, after its last forward call, attempted the
    rollback of exactly the steps that executed and returned a rollback token
    (those the production egress policy forbids excepted), in the reverse order
    of their execution and each with its own tool and token. *)
Theorem plan_compensates s s' :
  steps_valid s -> execute_plan tm s = (Ok tt, s') -> plan_outcome tm s s'.
Proof. intros Hv He. by apply execute_plan_outcome. Qed.

(** C29: whatever the tools and the gate do, and even when the run ends in an
    exception, executing a plan only appends to the audit log, keeps its hash
    chain valid, and leaves a log that passes integrity verification. *)
Theorem plan_audit_chain s :
  log_ok (sys_log (t_sys s)) ->
  let l' := sys_log (t_sys (snd (execute_plan tm s))) in
  events (sys_log (t_sys s)) `prefix_of` events l' /\ log_ok l' /\ ok (verify_integrity l') = true.
Proof.
  intros Hl. destruct (gr_log _ _ _ (execute_plan_any tm s)) as [Hp Hok].
  split_and!; [exact Hp|by apply Hok|by apply log_ok_verifies, Hok].
Qed.

(** a plan that calls any tool is within its resource budget: the number
    of steps, the risk of every step, and the numbers of steps that write files
    or use the network are within the limits (the plan's own budget if it has
    one, else the goal's), and every step names a registered tool. *)
Theorem plan_budget_enforced s s' :
  steps_valid s -> execute_plan tm s = (Ok tt, s') -> t_calls s' <> t_calls s ->
  within_budget tm (default (budget (p_goal (t_plan s))) (p_budget (t_plan s))) s (p_steps (t_plan s)).
Proof.
  intros Hv He Hne. apply execute_plan_inv in He as (s1 & ex & s2 & s3 & C1 & H1 & K1 & P1 & Eb & Er & Ef).
  destruct ex.
  - exfalso. apply Hne. apply finish_plan_inv in Ef as [(-> & _) _]. subst s3.
    pose proof (budget_quiet tm (default (budget (p_goal (t_plan s))) (p_budget (t_plan s))) s1) as Q.
    rewrite Eb in Q. simpl in Q. destruct Q as ([-> _] & _). exact C1.
  - apply budget_within in Eb; [|by rewrite H1, P1]. rewrite P1 in Eb. destruct Eb as [W1 W2 W3 W4 W5].
    unfold step_writes, step_requests, step_risk, step_tool in *. rewrite H1 in *. by split.
Qed.

(** the goal of a plan that has been executed is PARTIALLY_DONE when the
    plan is empty or some step is verified, else BLOCKED when some step is
    blocked, else FAILED; the transaction manager never marks a goal SUCCEEDED. *)
Theorem plan_final_goal_status s s' :
  steps_valid s -> execute_plan tm s = (Ok tt, s') ->
  let l := step_statuses s' in
  (g_status (p_goal (t_plan s')) = G_PARTIALLY_DONE <-> l = [] \/ VERIFIED ∈ l) /\
  (g_status (p_goal (t_plan s')) = G_BLOCKED <-> l <> [] /\ VERIFIED ∉ l /\ BLOCKED ∈ l) /\
  (g_status (p_goal (t_plan s')) = G_FAILED <-> l <> [] /\ VERIFIED ∉ l /\ BLOCKED ∉ l).
Proof.
  intros Hv He l. apply execute_plan_outcome in He as [_ ->]; [|done]. fold l. unfold final_goal_status.
  destruct l as [|v l0] eqn:El; [set_solver|]. rewrite <-El.
  assert (Hver : (length (filter (fun v => v = VERIFIED) l) = 0)%nat <-> VERIFIED ∉ l).
  { split.
    - intros Hz%nil_length_inv Hin. assert (Hf : VERIFIED ∈ filter (fun v => v = VERIFIED) l)
        by (by apply list_elem_of_filter). rewrite Hz in Hf. by apply elem_of_nil in Hf.
    - intros Hn. destruct (filter _ l) as [|x r] eqn:Ef; [done|]. exfalso. apply Hn.
      assert (Hf : x ∈ filter (fun v => v = VERIFIED) l) by (rewrite Ef; left).
      apply list_elem_of_filter in Hf as [-> Hf]. exact Hf. }
  assert (Hbl : existsb (fun v => bool_decide (v = BLOCKED)) l = true <-> BLOCKED ∈ l).
  { rewrite existsb_exists. setoid_rewrite bool_decide_eq_true. setoid_rewrite <-list_elem_of_In. naive_solver. }
  assert (Hne : l <> []) by (by rewrite El).
  destruct (Nat.eqb_spec (length (filter (fun v => v = VERIFIED) l)) 0) as [E0|E0].
  - rewrite E0. assert (0 =? length l = false)%nat as -> by (by rewrite El). simpl.
    apply Hver in E0. destruct (existsb (fun v => bool_decide (v = BLOCKED)) l) eqn:Eb.
    + pose proof (proj1 Hbl eq_refl) as Hb. clear - E0 Hb Hne. split_and!; solve_status.
    + assert (Hb : BLOCKED ∉ l) by (by rewrite <-Hbl). clear - E0 Hb Hne.
      destruct (existsb _ l); split_and!; solve_status.
  - assert (Hin : VERIFIED ∈ l) by (destruct (decide (VERIFIED ∈ l)); tauto).
    assert (HG : forall b : bool, (if b then G_PARTIALLY_DONE else G_PARTIALLY_DONE) = G_PARTIALLY_DONE) by (by intros []).
    cbn [negb]. rewrite HG. clear - Hin Hne. split_and!; solve_status.
Qed.

(** One execution of the loop body performs no tool call, or a dry run
    alone, or a successful dry run immediately followed by the execution of
    the same step with the same arguments, and after these only rollbacks; a
    step that completes performs exactly a successful dry run and a successful
    execution.  Nothing executes without a preceding successful dry run. *)
Theorem step_dry_run_first i s :
  i < length (t_heap s) ->
  exists new, t_calls (snd (run_step tm i s)) = t_calls s ++ new /\
    step_calls tm i (succeeded (fst (run_step tm i s))) new.
Proof. intros Hi. destruct (run_step tm i s) as [r s'] eqn:E. by apply run_step_calls. Qed.

(** a step whose idempotency key was already consumed does not complete
    and its tool is neither dry-run nor executed: the only calls are rollbacks
    of earlier steps. *)
Theorem step_idempotent i s st key v :
  t_heap s !! i = Some st -> idem_key st = Some key -> facts (t_world s) !! idempotency_marker key = Some v ->
  succeeded (fst (run_step tm i s)) = false /\
  exists back, t_calls (snd (run_step tm i s)) = t_calls s ++ back /\ Forall (fun c => tc_kind c = Rollback) back.
Proof. intros Hst Hk Hf. destruct (run_step tm i s) as [r s'] eqn:E. by eapply run_step_duplicate. Qed.

(** A step that passes the checks after its execution has an observed
    delta that satisfies the tool's output schema, its causal contract (all
    required observations present, all field requirements met) and every
    causal prediction, and every observed key ends with trust VERIFIED. *)
Theorem step_checks_meaning i st t preds r s s' :
  step_checks tm i st t preds r s = (Ok (Some tt), s') -> step_meaning st (spec t) preds r s'.
Proof. apply checks_meaning. Qed.

(** C36: rolling back never raises: it empties the rollback stack from its top
    and appends, besides nothing else, one rollback call per entry that the
    egress policy lets through, in stack order. *)
Theorem rollback_total_lifo s :
  exists s', rollback_all tm s = (Ok tt, s') /\ back_calls tm (map entry_desc (t_stack s)) s s' /\ t_stack s' = [].
Proof. apply rollback_all_calls. Qed.
End props.

(** ** Witnesses *)

Abbreviation TOY := (toy_manager developer_engine yes_gate).
Lemma toy_valid steps : steps_valid (toy_state steps).
Proof.
  unfold steps_valid. simpl. apply Forall_forall. intros i Hi. apply elem_of_seq in Hi. lia.
Qed.
Lemma plan_compensates_witness : plan_outcome TOY (toy_state failing_plan) (snd (run_toy failing_plan)).
Proof. apply (plan_compensates TOY); [apply toy_valid|apply run_ok; vm_compute; reflexivity]. Defined.
Lemma plan_audit_chain_witness :
  let l' := sys_log (t_sys (snd (run_toy failing_plan))) in
  events (sys_log (t_sys (toy_state failing_plan))) `prefix_of` events l' /\ log_ok l' /\ ok (verify_integrity l') = true.
Proof. apply (plan_audit_chain TOY (toy_state failing_plan)). split; exact I. Defined.
Lemma plan_budget_enforced_witness :
  within_budget TOY (default (budget (p_goal (t_plan (toy_state good_plan)))) (p_budget (t_plan (toy_state good_plan))))
    (toy_state good_plan) (p_steps (t_plan (toy_state good_plan))).
Proof.
  apply (plan_budget_enforced TOY (toy_state good_plan) (snd (run_toy good_plan)));
    [apply toy_valid|apply run_ok; vm_compute; reflexivity|vm_compute; discriminate].
Defined.
Lemma plan_final_goal_status_witness :
  g_status (p_goal (t_plan (snd (run_toy good_plan)))) = G_PARTIALLY_DONE.
Proof.
  apply (plan_final_goal_status TOY (toy_state good_plan) (snd (run_toy good_plan)));
    [apply toy_valid|apply run_ok; vm_compute; reflexivity|vm_compute; right; left].
Defined.
Lemma step_dry_run_first_witness :
  exists new, t_calls (snd (run_step TOY 0 (toy_state good_plan))) = t_calls (toy_state good_plan) ++ new /\
    step_calls TOY 0 (succeeded (fst (run_step TOY 0 (toy_state good_plan)))) new.
Proof. apply (step_dry_run_first TOY 0 (toy_state good_plan)). simpl. lia. Defined.
Definition keyed_step : ActionStep :=
  {| tool_name := "append"; arguments := [("line", VStr "x")]; reason := "r"; status := PENDING; risk := LOW;
     reversibility := IRREVERSIBLE; compensation_strategy := CS_NONE; rollback_reliability := fzero;
     required_permissions := []; predictions := []; counterfactual_report := None; idempotency_key := Some "k";
     preconditions := []; postconditions := []; invariants := []; step_id := "s" |}.
Lemma step_idempotent_witness :
  let s := with_world (set_fact "idempotency:k" VNone TL_VERIFIED empty_world) (toy_state [keyed_step]) in
  succeeded (fst (run_step TOY 0 s)) = false /\
  exists back, t_calls (snd (run_step TOY 0 s)) = t_calls s ++ back /\ Forall (fun c => tc_kind c = Rollback) back.
Proof.
  intros s. apply (step_idempotent TOY 0 s keyed_step "k" VNone); vm_compute; reflexivity.
Defined.
Lemma step_checks_meaning_witness :
  let r := journal_result "append" "one" in
  let s := snd (step_checks TOY 0 (toy_step 0 "append" "one") (journal_tool "append" [WRITE_FILES] REVERSIBLE true) [] r
                 (toy_state good_plan)) in
  step_meaning (toy_step 0 "append" "one") (journal_spec "append" [WRITE_FILES] REVERSIBLE) [] r s.
Proof.
  intros r s. apply (step_checks_meaning TOY 0 _ (journal_tool "append" [WRITE_FILES] REVERSIBLE true) [] r
    (toy_state good_plan)). apply run_ok. vm_compute. reflexivity.
Defined.
