(* ===== verification/ReplayProps.v ===== *)
(** Replaying the audit log of a plan gives the facts of the run back. *)
From S2P Require Import Prelude Enums PyValue Sanitization Goals Plans Tools AuditTrail Causal Egress Policy Approval Gates Transactions TxInvariants TxSafety TxRollback TxProps AuditProps Replay ReplayRuns Fixtures.

(** A tool that leaves the world state alone: observations reach it through the manager. *)
Record world_blind {X} (t : Tool X) : Prop := {
  wb_dry : forall args e w, (snd (dry_run t args (e, w))).2 = w;
  wb_execute : forall args e w, (snd (execute t args (e, w))).2 = w;
  wb_rollback : forall token e w, (snd (rollback t token (e, w))).2 = w;
}.

Section tracked.
Context `{PyRuntime} {X G : Type}.
Implicit Types s : TState X G.
Definition log_of s : list AuditEvent := events (sys_log (t_sys s)).
(** The log of [s] replays to its world. *)
Definition tracked s : Prop := replays_to (log_of s) (t_world s).
End tracked.

Section replay.
Context `{PyRuntime} `{JsonSchemaValidator} {X G : Type}.
Context (tm : TransactionManager X G) (Q : Tool X -> Prop).
Implicit Types s : TState X G.

(** The log of [s] replays to its world, and every pending rollback belongs to a tool of [Q]. *)
Definition in_step s : Prop := tracked s /\ Forall (fun x => Q x.1.1) (t_stack s).
Definition step_kept s s' : Prop := in_step s -> in_step s'.
Abbreviation IK := (keeps step_kept).
#[export] Instance step_kept_preorder : PreOrder step_kept.
Proof. split; [intros s Hs; exact Hs|]. intros x y z H1 H2 Hx. exact (H2 (H1 Hx)). Qed.
Lemma in_step_same s s' : log_of s' = log_of s -> t_world s' = t_world s -> t_stack s' = t_stack s -> step_kept s s'.
Proof. intros Hl Hw Hk. unfold step_kept, in_step, tracked. by rewrite Hl, Hw, Hk. Qed.
(** An event, after the world went from [w] to that of [s]. *)
Lemma audit_in_step et msg pl s w : et <> "audit.secret_blocked" -> applies_to_world et pl w (t_world s) ->
  replays_to (log_of s) w -> Forall (fun x => Q x.1.1) (t_stack s) -> in_step (snd (audit et msg pl s)).
Proof. intros Het Ha Hs Hk. split; [|exact Hk]. by eapply (record_replays et msg pl (t_sys s)). Qed.
Lemma quiet_not_blocked et : quiet et = true -> et <> "audit.secret_blocked".
Proof. by intros Hq ->. Qed.
Lemma replay_audit_quiet et msg pl : quiet et = true -> IK (audit (St:=TState X G) et msg pl).
Proof.
  intros Hq s [Hs Hk]. eapply (audit_in_step et msg pl s); [by apply quiet_not_blocked|by apply quiet_applies|done|done].
Qed.
Lemma audit_keyed et msg pl key id : et ∈ ["goal.status_changed"; "plan.started"; "plan.finished"] ->
  key = (if String.eqb et "goal.status_changed" then "goal_id" else "plan_id") -> dlast key pl = Some (VStr id) ->
  IK (audit (St:=TState X G) et msg pl).
Proof.
  intros Hin Hkey Hd s [Hs Hk]. eapply (audit_in_step et msg pl s); [|by eapply keyed_applies|done|done].
  intros ->. by rewrite !elem_of_cons, elem_of_nil in Hin; destruct Hin as [|[|[|]]].
Qed.
Lemma time_ik : IK (time_time (St:=TState X G)).
Proof. intros s. by apply in_step_same. Qed.
Lemma uuid_ik : IK (uuid4 (St:=TState X G)).
Proof. intros s. by apply in_step_same. Qed.
Lemma plan_ik f : keeps (E:=exn) step_kept (modify (fun s => with_plan (f s) s)).
Proof. intros s. by apply in_step_same. Qed.
Lemma plan_const_ik p : keeps (E:=exn) step_kept (modify (with_plan p)).
Proof. intros s. by apply in_step_same. Qed.
Lemma uses_ik f : keeps (E:=exn) step_kept (modify (fun s => with_uses (f s) s)).
Proof. intros s. by apply in_step_same. Qed.
Lemma gate_ik {A} (m : GM G A) : IK (lift_gate (X:=X) m).
Proof. intros s. unfold lift_gate. destruct (m _) as [r [g n]]. by apply in_step_same. Qed.
Lemma upd_step_ik i f : IK (upd_step (X:=X) (G:=G) i f).
Proof. intros s. by apply in_step_same. Qed.
Lemma status_ik i v : IK (put_status (X:=X) (G:=G) i v).
Proof. apply upd_step_ik. Qed.
Lemma get_step_ik i : IK (get_step (X:=X) (G:=G) i).
Proof. intros s. by apply in_step_same. Qed.
#[local] Hint Extern 1 (quiet _ = true) => repeat case_match; reflexivity : keeps.
#[local] Hint Resolve replay_audit_quiet time_ik uuid_ik plan_ik plan_const_ik uses_ik gate_ik upd_step_ik status_ik get_step_ik : keeps.
Lemma transition_to_ik v : IK (transition_to (X:=X) (G:=G) v).
Proof.
  unfold transition_to. apply keeps_bind; [apply _|keeps_auto|intros plan]. cbv zeta.
  apply keeps_bind; [apply _|keeps_auto|intros g]. apply keeps_bind; [apply _|keeps_auto|intros _].
  by apply (audit_keyed _ _ _ "goal_id" (goal_id g)); [left|..].
Qed.
#[local] Hint Resolve transition_to_ik : keeps.
Lemma plan_goal_ik v : IK (transition_plan_goal (X:=X) (G:=G) v).
Proof. unfold transition_plan_goal. keeps_auto. Qed.
#[local] Hint Resolve plan_goal_ik : keeps.
Context (HQ : forall t, Q t -> world_blind t).
Lemma call_ik k i st t args : Q t -> IK (call_tool (G:=G) k i st t args).
Proof.
  intros [Hd He Hr]%HQ s [Hs Hk]. unfold call_tool.
  specialize (Hd args (t_env s) (t_world s)). specialize (He args (t_env s) (t_world s)). specialize (Hr args (t_env s) (t_world s)).
  destruct k; cbn; [destruct (dry_run t args _) as [r [e w]]|destruct (execute t args _) as [r [e w]]|destruct (rollback t args _) as [r [e w]]];
    simpl in *; subst w; by split.
Qed.
#[local] Hint Resolve call_ik : keeps.
Lemma manual_recovery_ik st ts why : IK (record_manual_recovery tm st ts why).
Proof. unfold record_manual_recovery, recovery_build. keeps_auto. Qed.
#[local] Hint Resolve manual_recovery_ik : keeps.
Lemma rollback_one_ik t token i : Q t -> IK (rollback_one tm t token i).
Proof. intros Ht. unfold rollback_one. keeps_auto. Qed.
Lemma rollback_loop_ik k a b : Forall (fun x => Q x.1.1) k -> IK (rollback_loop tm k a b).
Proof.
  intros Hk. revert a b. induction Hk as [|[[t token] i] k Ht Hk IH]; intros a b; simpl; [keeps_auto|].
  apply keeps_bind; [apply _| |intros _].
  - intros s [Hs Hst]. split; [exact Hs|exact Hk].
  - apply keeps_bind; [apply _|by apply rollback_one_ik|]. intros []; apply IH.
Qed.
Lemma rollback_all_ik : IK (rollback_all tm).
Proof.
  intros s [Hs Hk]. unfold rollback_all. unfold bind at 1, gets. cbv beta iota.
  match goal with |- in_step (snd (?m s)) => cut (IK m); [intros HK; by apply HK|] end.
  pose proof (rollback_loop_ik (t_stack s) 0 0 Hk). keeps_auto.
Qed.
#[local] Hint Resolve rollback_all_ik : keeps.
Lemma audit_all_ik evs : Forall (fun ev => quiet ev.1.1 = true) evs -> IK (audit_all (X:=X) (G:=G) evs).
Proof.
  unfold audit_all. induction 1 as [|ev evs Hq _ IH]; simpl; [keeps_auto|].
  apply keeps_bind; [apply _|by apply replay_audit_quiet|intros _; exact IH].
Qed.
Lemma stop_ik {A} i v evs : Forall (fun ev => quiet ev.1.1 = true) evs -> IK (stop (A:=A) tm i v evs).
Proof. intros He. unfold stop. pose proof (audit_all_ik evs He). keeps_auto. Qed.
#[local] Hint Extern 1 (Forall (fun ev => quiet ev.1.1 = true) _) => repeat constructor : keeps.
#[local] Hint Resolve stop_ik : keeps.
Lemma attestation_ik st t : IK (runtime_attestation_block_reason tm st t).
Proof. unfold runtime_attestation_block_reason. keeps_auto. Qed.
#[local] Hint Resolve attestation_ik : keeps.
Lemma budget_record_ik i msg pl : IK (record_budget_exceeded (X:=X) (G:=G) i msg pl).
Proof. unfold record_budget_exceeded. keeps_auto. Qed.
#[local] Hint Resolve budget_record_ik : keeps.
Lemma budget_loop_ik b l fw nr : IK (budget_loop tm b l fw nr).
Proof.
  revert fw nr. induction l as [|i l IH]; intros fw nr; cbn [budget_loop]; [keeps_auto|].
  apply keeps_bind; [apply _|keeps_auto|intros st].
  destruct (registry_get _ _) as [t|e]; [|keeps_auto].
  apply keeps_bind; [apply _|keeps_auto|intros _].
  apply keeps_bind; [apply _|keeps_auto|intros st'].
  repeat (match goal with |- keeps _ (if ?b then _ else _) => destruct b end); try apply IH; keeps_auto.
Qed.
#[local] Hint Resolve budget_loop_ik : keeps.
Lemma budget_ik b : IK (budget_exceeded tm b).
Proof. unfold budget_exceeded. keeps_auto. Qed.
Lemma guards_ik i st t : IK (step_guards tm i st t).
Proof.
  unfold step_guards, audit_egress, check_attestation, check_production, check_sandbox, check_secrets,
    predict_and_review, review, check_idempotency, check_preconditions. keeps_auto.
Qed.
Lemma find_grant_ik n gs uses who tool : IK (find_grant (St:=TState X G) n gs uses who tool).
Proof. revert n. induction gs as [|g gs IH]; intros n; simpl; unfold applies_to; keeps_auto; apply IH. Qed.
Lemma matching_grant_ik e uses tool : IK (matching_grant (St:=TState X G) e uses tool).
Proof.
  unfold matching_grant. destruct (principal e); [|keeps_auto].
  destruct (String.eqb _ _); [keeps_auto|apply find_grant_ik].
Qed.
#[local] Hint Resolve matching_grant_ik : keeps.
Lemma decide_step_ik e uses st : IK (decide_step (St:=TState X G) e uses st).
Proof. unfold decide_step. keeps_auto. Qed.
#[local] Hint Resolve decide_step_ik : keeps.
Lemma scope_quiet st a b c evs : Forall (fun ev => quiet ev.1.1 = true) evs ->
  Forall (fun ev => quiet ev.1.1 = true) (scope_events st a b c ++ evs).
Proof. intros He. apply Forall_app. split; [|done]. unfold scope_events. repeat case_match; repeat constructor. Qed.
#[local] Hint Extern 1 (Forall (fun ev => quiet ev.1.1 = true) (_ ++ _)) => apply scope_quiet; repeat constructor : keeps.
Lemma authorize_ik i st t args : Q t -> IK (authorize tm i st t args).
Proof.
  intros Ht. pose proof (call_ik DryRun i st t args Ht) as Hcall.
  unfold authorize, human_approval, request_approval, check_signed_gate, prepare_step_packet, decide_packet,
    use_approval, dry_run_step, build_approval_packet, validate_approval_decision. keeps_auto.
Qed.
Lemma execute_ik i st t args : Q t -> IK (execute_step tm i st t args).
Proof.
  intros Ht s Hs. unfold execute_step. unfold bind at 1. pose proof (call_ik Execute i st t args Ht s Hs) as Hc.
  destruct (call_tool Execute i st t args s) as [[r|e] s1]; [|exact Hc]. simpl in Hc.
  destruct (ok r); cbn [negb].
  2: { match goal with |- in_step (snd (?m s1)) => assert (Hk : IK m) by keeps_auto; by apply Hk end. }
  unfold bind at 1. pose proof (status_ik i EXECUTED s1 Hc) as Hc2.
  destruct (put_status i EXECUTED s1) as [[u|e] s2]; [|exact Hc2]. simpl in Hc2. destruct Hc2 as [H2 K2].
  unfold bind. destruct (rollback_token r) as [[|kv token]|]; (split; [exact H2|]); try done. by constructor.
Qed.
(** Observing what was executed. *)
Lemma observe_ik i st preds r : IK (observe_and_verify tm i st preds r).
Proof.
  intros s [Hs Hk]. unfold observe_and_verify. unfold bind at 1, modify. unfold bind at 1.
  set (s1 := with_world _ s).
  pose proof (audit_in_step "step.executed" (message r)
    [("step_id", VStr (step_id st)); ("observed", VDict (observed_state_delta r));
     ("observed_trust", VStr (TrustLevel_value TL_TOOL_REPORTED))] s1 (t_world s)) as Ha.
  destruct (audit _ _ _ s1) as [[u|e] s2]; simpl in Ha; (assert (H2 : in_step s2) by (apply Ha; [done|apply executed_applies|done|done]));
    [|done].
  match goal with |- in_step (snd (?m s2)) => assert (HK : IK m) by keeps_auto; by apply HK end.
Qed.
(** Counting a grant reads the clock and raises nothing. *)
Definition log_same s s' : Prop := log_of s' = log_of s /\ t_world s' = t_world s /\ t_stack s' = t_stack s.
#[local] Instance log_same_preorder : PreOrder log_same.
Proof. split; [done|]. intros x y z (? & ? & ?) (? & ? & ?). split_and!; congruence. Qed.
Lemma time_same : keeps log_same (time_time (St:=TState X G)).
Proof. done. Qed.
Lemma uses_same f : keeps (E:=exn) log_same (modify (fun s => with_uses (f s) s)).
Proof. done. Qed.
Lemma replay_time_total : total (time_time (St:=TState X G)).
Proof. intros s. by eexists _, _. Qed.
#[local] Hint Resolve time_same uses_same : keeps.
#[local] Hint Resolve replay_time_total : total.
Lemma grant_same e uses tool : keeps log_same (matching_grant (St:=TState X G) e uses tool) /\
  total (matching_grant (St:=TState X G) e uses tool).
Proof.
  unfold matching_grant. destruct (principal e) as [who|]; [|split; [keeps_auto|total_auto]].
  destruct (String.eqb who ""); [split; [keeps_auto|total_auto]|]. generalize 0%nat.
  induction (grants e) as [|g gs IH]; intros n; simpl; [split; [keeps_auto|total_auto]|]. destruct (IH (S n)) as [K T].
  unfold applies_to. split; [keeps_auto|total_auto]; done.
Qed.
Lemma grant_use_quiet st s : exists u s', record_grant_use tm st s = (Ok u, s') /\ log_same s s'.
Proof.
  assert (K : keeps log_same (record_grant_use tm st)).
  { unfold record_grant_use. apply keeps_bind; [apply _|done|intros uses].
    apply keeps_bind; [apply _|apply grant_same|intros [[j g]|]; keeps_auto]. }
  assert (T : total (record_grant_use tm st)).
  { unfold record_grant_use. apply total_bind; [apply total_gets|intros uses].
    apply total_bind; [apply grant_same|intros [[j g]|]; total_auto]. }
  specialize (K s). destruct (T s) as (u & s' & E). rewrite E in K. by exists u, s'.
Qed.
Lemma audit_run et msg pl s : exists s', audit et msg pl s = (Ok tt, s').
Proof. by eexists. Qed.
(** The marks of a finished step: in the world first, in the log after the grant is counted. *)
Lemma finish_ik i st r v : IK (finish_step tm i st r v).
Proof.
  intros s [Hs Hk]. unfold finish_step. cbv zeta. unfold bind at 1, modify.
  set (keys := dkeys (observed_state_delta r)). set (s1 := with_world _ s).
  destruct (grant_use_quiet st s1) as (u & s2 & E & Hl & Hw & Hst). unfold bind at 1. rewrite E. clear E.
  unfold bind at 1. match goal with |- context [audit ?et ?msg ?pl s2] =>
    pose proof (audit_in_step et msg pl s2 (t_world s)) as Ha; destruct (audit_run et msg pl s2) as [s3 E3]; rewrite E3 in Ha |- * end.
  simpl in Ha. assert (H3 : in_step s3).
  { apply Ha; [done| |by rewrite Hl|by rewrite Hst]. rewrite Hw. by eapply (marked_applies _ "keys" "to_trust"); [right| |]. }
  assert (M3 : marked keys (t_world s3)).
  { injection E3 as <-. change (marked keys (t_world s2)). rewrite Hw. apply marked_mark. }
  clear Ha E3.
  assert (Hkey : exists s4, match idem_key st with Some key => record_idempotency_key st key | None => ret tt end s3 = (Ok tt, s4) /\
    in_step s4 /\ marked keys (t_world s4)).
  { destruct (idem_key st) as [key|]; [|by exists s3]. unfold record_idempotency_key. cbv zeta. unfold bind, modify.
    set (s4 := with_world _ s3). eexists. split; [reflexivity|]. split; [|by apply marked_verified].
    apply replay_audit_quiet; [reflexivity|]. destruct H3 as [H3 K3]. split; [|exact K3]. intros Hu. destruct (H3 Hu) as (r4 & Er & Hsh).
    exists r4. split; [done|]. by apply shows_marker. }
  destruct Hkey as (s4 & E4 & H4 & M4). unfold bind at 1. rewrite E4. unfold bind, put_status, upd_step, modify.
  destruct H4 as [H4 K4]. match goal with |- in_step (snd (audit ?et ?msg ?pl ?s5)) =>
    apply (audit_in_step et msg pl s5 (t_world s4)); [done| |exact H4|exact K4] end.
  by apply (verified_applies _ keys).
Qed.
#[local] Hint Resolve observe_ik finish_ik : keeps.
Lemma checks_ik i st t preds r : IK (step_checks tm i st t preds r).
Proof.
  unfold step_checks, check_output, check_contract, check_postconditions. keeps_auto.
Qed.
Context (Hreg : forall n t, registry_get n (tm_registry tm) = Ok t -> Q t).
Lemma run_step_ik i : IK (run_step tm i).
Proof.
  unfold run_step. apply keeps_step_yields; [apply _|unfold resolve_tool; keeps_auto|].
  intros t (s0 & s1 & Ht).
  assert (Hk : Q t).
  { revert Ht. unfold resolve_tool, bind, get_step, gets. destruct (registry_get _ _) as [t'|e] eqn:Er.
    - intros [= <- _]. by eapply Hreg.
    - destruct (negb _); [done|]. destruct (stop tm i BLOCKED _ s0) as [o s2] eqn:Es. intros [= -> ->].
      revert Es. unfold stop. intros Hb. apply bind_inv in Hb as [(? & _ & ?)|(? & ? & _ & Hb)]; [done|].
      apply bind_inv in Hb as [(? & _ & ?)|(? & ? & _ & Hb)]; [done|].
      by apply bind_inv in Hb as [(? & _ & ?)|(? & ? & _ & Hb)]. }
  apply keeps_bind; [apply _|keeps_auto|intros _]. apply keeps_bind; [apply _|keeps_auto|intros st].
  apply keeps_step_yields; [apply _|apply guards_ik|intros preds _]. cbv zeta.
  apply keeps_step_yields; [apply _|by apply authorize_ik|intros _ _].
  apply keeps_step_yields; [apply _|by apply execute_ik|intros r _]. apply checks_ik.
Qed.
Lemma run_steps_ik l : IK (run_steps tm l).
Proof.
  induction l as [|i l IH]; simpl; [keeps_auto|]. apply keeps_bind; [apply _|apply run_step_ik|].
  intros [u|]; [apply IH|keeps_auto].
Qed.
Lemma finish_plan_ik : IK (finish_plan (X:=X) (G:=G)).
Proof.
  unfold finish_plan. apply keeps_bind; [apply _|keeps_auto|intros v]. apply keeps_bind; [apply _|apply plan_goal_ik|intros _].
  apply keeps_bind; [apply _|keeps_auto|intros plan]. by apply (audit_keyed _ _ _ "plan_id" (plan_id plan)); [right; right; left|..].
Qed.
End replay.

Section runs.
Context `{PyRuntime} `{JsonSchemaValidator} {X G : Type} (tm : TransactionManager X G).
Implicit Types s : TState X G.
Lemma execute_plan_ik s : (forall n t, registry_get n (tm_registry tm) = Ok t -> world_blind t) ->
  tracked s -> tracked (snd (execute_plan tm s)).
Proof.
  intros Hreg Hs. unfold execute_plan. unfold bind at 1, gets. cbv beta iota.
  set (any := fun _ : Tool X => True).
  assert (Hall : forall s0, Forall (fun x => any x.1.1) (t_stack s0)) by (intros s0; by apply Forall_true).
  unfold bind at 1. match goal with |- context [audit ?et ?msg ?pl s] =>
    assert (K1 : step_kept any s (snd (audit et msg pl s))); [|destruct (audit_run et msg pl s) as [s1 E1]; rewrite E1 in K1 |- *] end.
  { by apply (audit_keyed any _ _ _ "plan_id" (plan_id (t_plan s))); [right; left|..]. }
  destruct (K1 (conj Hs (Hall s))) as [H1 _]. clear K1 E1.
  unfold bind at 1. pose proof (plan_goal_ik any G_RUNNING s1 (conj H1 (Hall s1))) as [H2 _].
  destruct (transition_plan_goal G_RUNNING s1) as [[u|e] s2]; [|exact H2]. simpl in H2.
  unfold bind at 1, modify. set (s3 := with_stack [] s2).
  assert (H3 : in_step world_blind s3) by (split; [exact H2|constructor]). clearbody s3.
  match goal with |- tracked (snd (?m s3)) => assert (HK : keeps (step_kept world_blind) m); [|by apply HK] end.
  pose proof (run_steps_ik tm world_blind (fun _ Ht => Ht) Hreg). pose proof (budget_ik tm world_blind). pose proof (finish_plan_ik world_blind (X:=X) (G:=G)).
  apply keeps_bind; [apply _|intros s4 Hs4; exact Hs4|intros plan]. apply keeps_bind; [apply _|done|intros b].
  apply keeps_bind; [apply _|destruct b; [keeps_auto|done]|done].
Qed.

(** C6: the audit log tells what happened.  Take tools that report their effects through the manager.
    After any run of a plan, one that was stopped or ended in an exception included, replaying
    the log passes the integrity check and gives back the world state of the run: the same facts, in the form
    in which the secret boundary lets them into the log, with the same trust levels.  The idempotency
    markers are left out, which are not replayed, and so is a log from which an event was blocked because it
    contained a secret.  The log may already hold earlier runs, if they replay to the world the run starts in. *)
Theorem plan_replay_exact s :
  (forall n t, registry_get n (tm_registry tm) = Ok t -> world_blind t) ->
  log_ok (sys_log (t_sys s)) -> tracked s ->
  let s' := snd (execute_plan tm s) in
  tracked s' /\
  (unblocked (log_of s') -> exists r, replay (sys_log (t_sys s')) true = Ok r /\ rp_ok r = true /\ shows (rp_state r) (t_world s')).
Proof.
  intros Hreg Hl Hs s'. pose proof (execute_plan_ik s Hreg Hs) as H'. fold s' in H'. split; [done|]. intros Hu.
  destruct (H' Hu) as (r & Hr & Hsh). exists r.
  destruct (gr_log _ _ _ (execute_plan_any tm s)) as [_ Hok]. apply Hok in Hl. fold s' in Hl.
  assert (Hrec : records (sys_log (t_sys s')) = map event_asdict (log_of s')).
  { unfold records. destruct Hl as [_ Hf]. by destruct (al_file _). }
  unfold replay, replay_records. rewrite (log_ok_verifies _ Hl : ok (verify_event_records (records (sys_log (t_sys s')))) = true). cbn [negb andb].
  rewrite Hrec. split_and!; [exact Hr|by rewrite (apply_records_ok _ _ _ Hr)|done].
Qed.
End runs.

Lemma toy_blind n t : registry_get n (tm_registry (toy_manager developer_engine yes_gate)) = Ok t -> world_blind t.
Proof.
  unfold registry_get. simpl. repeat case_match; intros; simplify_eq;
    (split; [done| |done]); intros args e w; simpl; by repeat case_match.
Qed.
Lemma toy_tracked steps : tracked (toy_state steps).
Proof. intros _. exists empty_replay. split; [reflexivity|apply shows_empty]. Qed.
Lemma plan_replay_exact_witness : exists r,
  replay (sys_log (t_sys (snd (run_toy good_plan)))) true = Ok r /\ rp_ok r = true /\ is_Some (facts (rp_state r) !! "append").
Proof.
  destruct (plan_replay_exact (toy_manager developer_engine yes_gate) (toy_state good_plan) toy_blind (conj I I) (toy_tracked _)) as [_ Hr].
  destruct Hr as (r & Hr & Hok & Hs).
  - apply (bool_decide_unpack _). vm_compute. exact I.
  - exists r. split; [exact Hr|]. split; [exact Hok|]. destruct (Hs "append") as [Hf _]; [by intros [key Hkey]; discriminate|].
    assert (Ew : facts (t_world (snd (run_toy good_plan))) !! "append" = Some (VStr "one")) by (vm_compute; reflexivity).
    rewrite Ew in Hf. inversion Hf as [x y Hx E1 E2|]. by exists y.
Defined.
