(* ===== verification/PlannerProps.v ===== *)
(** What the planner selects, and what the validation of proposals guarantees. *)
From S2P Require Import Prelude Enums PyValue Sanitization Goals Plans Tools AuditTrail Causal Egress Policy Approval Gates Transactions Planner TxInvariants TxSafety Fixtures.

(** ** The planner *)

Section planner.
Context `{PyRuntime} {X G : Type}.
Context (registry : ToolRegistry X) (config : PlannerConfig).
Implicit Types t : TState X G.

(** A proposal the configuration accepts: every step within the risk limit,
    the cost and the benefit within theirs. *)
Definition tool_risk (st : ActionStep) : res exn RiskLevel :=
  res_map (fun tool => assess (spec tool) (arguments st)) (registry_get (tool_name st) registry).
Record acceptable (p : PlanProposal) : Prop := {
  ac_risk : Forall (fun st => exists r, tool_risk st = Ok r /\ (risk_value r <= risk_value (max_risk_cfg config))%Z) (pp_steps p);
  ac_cost : fleb (pp_estimated_cost p) (max_cost config) = true;
  ac_benefit : fleb (min_benefit config) (pp_expected_benefit p) = true;
}.
Definition known_tools (p : PlanProposal) : Prop := Forall (fun st => is_ok (tool_risk st) = true) (pp_steps p).

Lemma step_risks_known steps :
  Forall (fun st => is_ok (tool_risk st) = true) steps ->
  exists rs, step_risks registry steps = Ok rs /\ Forall2 (fun st r => tool_risk st = Ok r) steps rs.
Proof.
  induction 1 as [|st l Hst _ (rs & IH & HF)]; simpl; [by exists []|]. unfold tool_risk in Hst.
  destruct (registry_get (tool_name st) registry) as [t|e] eqn:Et; [|done]. simpl. rewrite IH. simpl.
  eexists. split; [done|]. constructor; [|done]. unfold tool_risk. by rewrite Et.
Qed.
Lemma step_risks_unknown steps e : step_risks registry steps = Raise e -> exn_cls e = KeyError.
Proof.
  induction steps as [|st l IH]; simpl; [done|]. unfold registry_get.
  destruct (dget _ _) as [t|]; simpl; [|by intros [= <-]]. destruct (step_risks registry l); [done|]. simpl.
  intros [= <-]. by apply IH.
Qed.
Lemma max_risk_le rs m :
  (risk_value (max_risk rs) <= risk_value m)%Z <-> Forall (fun r => (risk_value r <= risk_value m)%Z) rs.
Proof.
  assert (Hf : forall l r, (risk_value (fold_left (fun m x => if (risk_value m <? risk_value x)%Z then x else m) l r)
              <= risk_value m)%Z <-> (risk_value r <= risk_value m)%Z /\ Forall (fun r => (risk_value r <= risk_value m)%Z) l).
  { induction l as [|x l IH]; intros r; simpl; [rewrite Forall_nil; tauto|]. rewrite IH, Forall_cons.
    destruct (Z.ltb_spec (risk_value r) (risk_value x)); intuition lia. }
  destruct rs as [|r rs]; cbn [max_risk]; [|by rewrite Hf, Forall_cons]. rewrite Forall_nil.
  split; [done|]. intros _. destruct m; simpl; lia.
Qed.
Lemma satisfies_acceptable p rs :
  Forall2 (fun st r => tool_risk st = Ok r) (pp_steps p) rs ->
  ps_satisfies (plan_score config p rs) = true <-> acceptable p.
Proof.
  intros HF. unfold plan_score. cbn [ps_satisfies]. rewrite !andb_true_iff, Z.leb_le, max_risk_le.
  assert (Hr : Forall (fun r => (risk_value r <= risk_value (max_risk_cfg config))%Z) rs <->
    Forall (fun st => exists r, tool_risk st = Ok r /\ (risk_value r <= risk_value (max_risk_cfg config))%Z) (pp_steps p)).
  { induction HF as [|st r l l' Hst _ IH]; [by rewrite !Forall_nil|]. rewrite !Forall_cons, IH, Hst. naive_solver. }
  rewrite Hr. split; [intros [[? ?] ?]; by split|intros [? ? ?]; done].
Qed.

(** ** Candidates *)

(** A candidate for a proposal: its plan has the proposal's steps, as new objects. *)
Record candidate_of (g : Goal) (h : list ActionStep) (p : PlanProposal) (c : PlanCandidate) : Prop := {
  co_proposal : pc_proposal c = p;
  co_goal : p_goal (pc_plan c) = g;
  co_steps : plan_steps h (pc_plan c) = pp_steps p;
  co_valid : Forall (fun i => i < length h) (p_steps (pc_plan c));
}.
Lemma plan_steps_app h h' p : Forall (fun i => i < length h) (p_steps p) -> plan_steps (h ++ h') p = plan_steps h p.
Proof.
  unfold plan_steps. intros Hv. apply map_ext_in. intros i Hi%list_elem_of_In. rewrite Forall_forall in Hv.
  by rewrite lookup_app_l by auto.
Qed.
Lemma candidate_of_app g h h' p c : candidate_of g h p c -> candidate_of g (h ++ h') p c.
Proof.
  intros [Hp Hg Hs Hv]. split; [done|done|by rewrite plan_steps_app|]. eapply Forall_impl; [exact Hv|].
  intros i Hi. simpl in *. rewrite length_app. lia.
Qed.
Lemma clones l : map clone l = l.
Proof. induction l as [|x l IH]; simpl; [done|]. by rewrite clone_eq, IH. Qed.
(** Planning appends to the heap and the log and changes nothing else. *)
Record plans_only t t' : Prop := {
  po_log : sys_extends (t_sys t) (t_sys t');
  po_heap : t_heap t `prefix_of` t_heap t';
  po_rest : t_calls t' = t_calls t /\ t_world t' = t_world t /\ t_env t' = t_env t /\ t_plan t' = t_plan t /\
            t_uses t' = t_uses t /\ t_gate t' = t_gate t /\ t_stack t' = t_stack t;
}.
#[export] Instance plans_only_preorder : PreOrder plans_only.
Proof.
  split; [intros t; by split|]. intros x y z [L1 H1 R1] [L2 H2 R2]. split; [by etrans|by etrans|].
  destruct R1 as (?&?&?&?&?&?&?), R2 as (?&?&?&?&?&?&?). split_and!; congruence.
Qed.
Lemma audit_plans et msg pl : keeps plans_only (audit (St:=TState X G) et msg pl).
Proof. intros t. split; [exact (audit_keeps (St:=TState X G) et msg pl t)|done|done]. Qed.
#[local] Hint Resolve audit_plans : keeps.
Lemma new_plan_spec g steps t :
  exists p t', new_plan g steps t = (Ok p, t') /\ plans_only t t' /\ t_heap t' = t_heap t ++ steps /\
    p_goal p = g /\ plan_steps (t_heap t') p = steps /\ Forall (fun i => i < length (t_heap t')) (p_steps p).
Proof.
  eexists _, _. split; [reflexivity|]. simpl. split_and!; try done.
  - split; [done|by apply prefix_app_r|done].
  - unfold plan_steps. cbn [p_steps]. apply list_eq. intros i. change (map ?f ?l) with (f <$> l). rewrite list_lookup_fmap.
    destruct (decide (i < length steps)) as [Hi|Hi].
    + rewrite lookup_seq_lt by done. simpl. rewrite lookup_app_r by lia.
      replace (length (t_heap t) + i - length (t_heap t)) with i by lia.
      by destruct (lookup_lt_is_Some_2 steps i Hi) as [x ->].
    + rewrite lookup_seq_ge by lia. simpl. symmetry. apply lookup_ge_None. lia.
  - apply Forall_forall. intros i Hi%elem_of_seq. rewrite length_app. lia.
Qed.
Lemma make_candidates_spec g ps t :
  exists cs t', make_candidates g ps t = (Ok cs, t') /\ plans_only t t' /\
    Forall2 (candidate_of g (t_heap t')) ps cs /\ Forall (fun c => pc_score c = None) cs.
Proof.
  revert t. induction ps as [|p ps IH]; intros t; simpl; [exists [], t; split_and!; try done; constructor|].
  rewrite clones. unfold bind at 1. destruct (new_plan_spec g (pp_steps p) t) as (pl & t1 & -> & K1 & H1 & Eg & Es & Ev).
  unfold bind at 1. destruct (IH t1) as (cs & t2 & -> & K2 & HF & HN). eexists _, _. split; [reflexivity|].
  split_and!; [by etrans| |by constructor]. constructor; [|done]. destruct (po_heap _ _ K2) as [h ->].
  apply candidate_of_app. by split.
Qed.

(** ** Selection *)

#[local] Arguments plan_score : simpl never.
Definition proposal_score (p : PlanProposal) : PlanScore :=
  plan_score config p (match step_risks registry (pp_steps p) with Ok rs => rs | Raise _ => [] end).
Definition scored (c : PlanCandidate) : PlanCandidate := with_score (proposal_score (pc_proposal c)) c.
Definition chosen (c : PlanCandidate) : bool := ps_satisfies (proposal_score (pc_proposal c)).
Lemma select_loop_known g h cs ps sel t :
  t_heap t = h -> Forall2 (candidate_of g h) ps cs -> Forall (fun c => pc_score c = None) cs -> Forall known_tools ps ->
  select_loop registry config cs sel t =
    (Ok (map scored cs, match sel with Some _ => sel | None => scored <$> List.find chosen cs end), t).
Proof.
  intros Hh HF. revert sel. induction HF as [|p c ps cs Hc _ IH]; intros sel HN HK; simpl; [by destruct sel|].
  apply Forall_cons in HN as [Hn HN]. apply Forall_cons in HK as [Hk HK]. rewrite Hn.
  unfold bind at 1, score, bind at 1, gets, bind at 1. rewrite Hh, (co_steps _ _ _ _ Hc).
  destruct (step_risks_known _ Hk) as (rs & Hrs & _). rewrite Hrs. unfold of_res, ret at 1. cbv beta iota zeta.
  assert (Es : plan_score config (pc_proposal c) rs = proposal_score (pc_proposal c)).
  { unfold proposal_score. by rewrite (co_proposal _ _ _ _ Hc), Hrs. }
  rewrite Es. fold (scored c). unfold bind at 1. rewrite IH by done. fold (chosen c). unfold ret.
  destruct sel; [done|]. cbn [List.find]. by destruct (chosen c).
Qed.
Lemma select_loop_unknown g h cs ps sel t :
  t_heap t = h -> Forall2 (candidate_of g h) ps cs -> Forall (fun c => pc_score c = None) cs -> ~ Forall known_tools ps ->
  exists e, select_loop registry config cs sel t = (Raise e, t) /\ exn_cls e = KeyError.
Proof.
  intros Hh HF. revert sel. induction HF as [|p c ps cs Hc _ IH]; intros sel HN HK; [by destruct HK; constructor|].
  apply Forall_cons in HN as [Hn HN]. simpl. rewrite Hn.
  unfold bind at 1, score, bind at 1, gets, bind at 1. rewrite Hh, (co_steps _ _ _ _ Hc). unfold of_res.
  destruct (step_risks registry (pp_steps p)) as [rs|e] eqn:Er.
  - simpl. set (x := plan_score _ _ _). set (sel' := match sel with Some _ => sel | None => _ end).
    assert (Hps : ~ Forall known_tools ps).
    { intros HKs. apply HK. constructor; [|done]. unfold known_tools. clear - Er. revert rs Er.
      induction (pp_steps p) as [|st l IHl]; intros rs; simpl; [constructor|].
      destruct (registry_get (tool_name st) registry) as [u|] eqn:Eu; [|done]. simpl.
      destruct (step_risks registry l) as [rs'|]; [|done]. intros _. constructor; [|by eapply IHl].
      unfold tool_risk. by rewrite Eu. }
    destruct (IH sel' HN Hps) as (e & He & Hc'). exists e. unfold bind. by rewrite He.
  - exists e. split; [done|]. by eapply step_risks_unknown.
Qed.
Lemma find_split {A} (f : A -> bool) l x :
  List.find f l = Some x -> exists l1 l2, l = l1 ++ x :: l2 /\ f x = true /\ Forall (fun y => f y = false) l1.
Proof.
  induction l as [|y l IH]; simpl; [done|]. destruct (f y) eqn:Ey.
  - intros [= ->]. exists [], l. by split_and!; [|done|constructor].
  - intros (l1 & l2 & -> & Hx & Hl)%IH. exists (y :: l1), l2. by split_and!; [|done|constructor].
Qed.
Lemma chosen_acceptable g h p c : candidate_of g h p c -> known_tools p -> chosen c = true <-> acceptable p.
Proof.
  intros [Hp _ _ _] Hk. unfold chosen, proposal_score. rewrite Hp. destruct (step_risks_known _ Hk) as (rs & -> & HF).
  by apply satisfies_acceptable.
Qed.
Lemma scored_candidate g h p c : candidate_of g h p c -> candidate_of g h p (scored c).
Proof. intros [? ? ? ?]. by split. Qed.
Lemma not_chosen g h ps cs :
  Forall2 (candidate_of g h) ps cs -> Forall known_tools ps -> Forall (fun c => chosen c = false) cs ->
  Forall (fun p => ~ acceptable p) ps.
Proof.
  induction 1 as [|p c ps cs Hc _ IH]; intros HK HN; [constructor|]. apply Forall_cons in HK as [Hk HK].
  apply Forall_cons in HN as [Hn HN]. constructor; [|by apply IH]. rewrite <-(chosen_acceptable _ _ _ _ Hc Hk). congruence.
Qed.
Lemma find_none_all {A} (f : A -> bool) l : List.find f l = None -> Forall (fun y => f y = false) l.
Proof.
  induction l as [|y l IH]; simpl; [constructor|]. destruct (f y) eqn:Ey; [done|]. constructor; auto.
Qed.
Lemma find_chosen g h ps cs :
  Forall2 (candidate_of g h) ps cs -> Forall known_tools ps ->
  match scored <$> List.find chosen cs with
  | Some c => exists l p l', ps = l ++ p :: l' /\ candidate_of g h p c /\ acceptable p /\ Forall (fun q => ~ acceptable q) l
  | None => Forall (fun p => ~ acceptable p) ps
  end.
Proof.
  intros HF HK. destruct (List.find chosen cs) as [c|] eqn:Ef; simpl.
  2: { eapply not_chosen; [done|done|]. by apply find_none_all. }
  apply find_split in Ef as (l1 & l2 & -> & Hc & Hl).
  apply Forall2_app_inv_r in HF as (p1 & p2 & HF1 & HF2 & ->). inversion HF2 as [|p ? p2' ? Hp _ E1 E2]; subst.
  apply Forall_app in HK as [HK1 HK2]. apply Forall_cons in HK2 as [Hk _].
  exists p1, p, p2'. split_and!; [done|by apply scored_candidate| |by eapply not_chosen].
  by apply (chosen_acceptable _ _ _ _ Hp Hk).
Qed.

Lemma generate_spec g ps t :
  success_criteria g <> [] -> exists cs t', generate_candidates g ps t = (Ok cs, t') /\ plans_only t t' /\
    Forall2 (candidate_of g (t_heap t')) ps cs /\ Forall (fun c => pc_score c = None) cs.
Proof.
  intros Hg. unfold generate_candidates. destruct (success_criteria g); [done|].
  destruct (make_candidates_spec g ps t) as (cs & t1 & Em & K1 & HF & HN). unfold bind at 1. rewrite Em.
  eexists cs, _. split; [reflexivity|]. split_and!; [etrans; [exact K1|apply audit_plans]|exact HF|exact HN].
Qed.

(** Whatever the goal and the proposals: planning only plans, and a selected
    plan is for the goal and refers to steps of the heap. *)
Lemma planner_plan_spec g ps t :
  plans_only t (snd (planner_plan registry config g ps t)) /\
  forall r c, fst (planner_plan registry config g ps t) = Ok r -> pr_selected r = Some c ->
    p_goal (pc_plan c) = g /\
    Forall (fun i => i < length (t_heap (snd (planner_plan registry config g ps t)))) (p_steps (pc_plan c)).
Proof.
  assert (Hc : success_criteria g = [] \/ success_criteria g <> []) by (destruct (success_criteria g); [by left|by right]).
  destruct Hc as [Hg|Hg]. { unfold planner_plan, generate_candidates. by rewrite Hg. }
  destruct (generate_spec g ps t Hg) as (cs & t1 & Eg & K1 & HF & HN).
  destruct (decide (Forall (fun p => Forall (fun st => is_ok (tool_risk st) = true) (pp_steps p)) ps)) as [HK|HK].
  - set (sel := scored <$> List.find chosen cs).
    assert (E : exists t2, planner_plan registry config g ps t =
      (Ok {| pr_goal := g; pr_candidates := map scored cs; pr_selected := sel |}, t2) /\ plans_only t1 t2 /\ t_heap t2 = t_heap t1).
    { unfold planner_plan, bind. rewrite Eg. unfold select_satisfactory, bind.
      rewrite (select_loop_known g (t_heap t1) cs ps None t1) by done.
      eexists. split; [reflexivity|]. split; [apply audit_plans|done]. }
    destruct E as (t2 & -> & K2 & H2). cbn [fst snd]. split; [by etrans|]. intros r c [= <-]. cbn [pr_selected]. intros Hs.
    pose proof (find_chosen g (t_heap t1) ps cs HF HK) as Hf. fold sel in Hf. rewrite Hs in Hf.
    destruct Hf as (l & p & l' & _ & Hcd & _). split; [apply Hcd|]. rewrite H2. exact (co_valid _ _ _ _ Hcd).
  - assert (E : exists e, planner_plan registry config g ps t = (Raise e, t1)).
    { unfold planner_plan, bind. rewrite Eg. unfold select_satisfactory, bind.
      destruct (select_loop_unknown g (t_heap t1) cs ps None t1) as (e & -> & _); [done..|]. by exists e. }
    by destruct E as (e & ->).
Qed.

(** The planner is the satisficing one it claims to be.  When every step
    of every proposal names a registered tool it selects the first proposal
    all of whose steps are within the risk limit and whose cost and benefit
    are within theirs, and none exactly when there is no such proposal; the
    selected plan holds new copies of that proposal's steps.  An unknown tool
    anywhere raises KeyError.  Planning calls no tool and changes only the log
    and the heap of steps. *)
Theorem planner_selects_first g ps t :
  success_criteria g <> [] ->
  (Forall known_tools ps -> exists r t', planner_plan registry config g ps t = (Ok r, t') /\ plans_only t t' /\
    match pr_selected r with
    | Some c => exists l p l', ps = l ++ p :: l' /\ candidate_of g (t_heap t') p c /\ acceptable p /\
                  Forall (fun q => ~ acceptable q) l
    | None => Forall (fun p => ~ acceptable p) ps
    end) /\
  (~ Forall known_tools ps -> exists e t', planner_plan registry config g ps t = (Raise e, t') /\ plans_only t t' /\
    exn_cls e = KeyError).
Proof.
  intros Hg. unfold planner_plan. destruct (generate_spec g ps t Hg) as (cs & t1 & Eg & K1 & HF & HN).
  split; intros HK; unfold bind at 1; rewrite Eg; unfold bind at 1, select_satisfactory, bind at 1.
  - rewrite (select_loop_known g (t_heap t1) cs ps) by done.
    eexists _, _. split; [reflexivity|]. split; [etrans; [exact K1|apply audit_plans]|]. by apply find_chosen.
  - destruct (select_loop_unknown g (t_heap t1) cs ps None t1) as (e & -> & He); [done..|]. by exists e, t1.
Qed.
End planner.

(** ** Proposals of a language model *)

Section llm.
Context `{PyRuntime} `{JsonSchemaValidator} {St : Type} `{HasSys St}.
Notation MS := (M St exn).

(** A step as the validation makes it: a known tool, a reason, the defaults of
    the dataclass for everything that carries authority. *)
Record step_well_typed (available : list string) (st : ActionStep) : Prop := {
  sw_tool : tool_name st ∈ available;
  sw_reason : reason st <> "";
  sw_defaults : exists tool args why sid, st = new_step tool args why sid;
}.
Record proposal_well_typed (available : list string) (raw : dict pyval) (p : PlanProposal) : Prop := {
  pw_schema : validate_json_schema raw PLAN_PROPOSAL_SCHEMA = [];
  pw_tokens : Forall (fun tok => str_in tok (rendered raw) = false) DANGEROUS_UNTRUSTED_TOKENS;
  pw_steps : pp_steps p <> [];
  pw_typed : Forall (step_well_typed available) (pp_steps p);
  pw_rationale : exists v, dget "rationale" raw = Some v /\ pp_rationale p = py_strip (py_str v);
}.
Lemma llm_error_not {A} msg (s : St) (a : A) s' : llm_error msg s <> (Ok a, s').
Proof. done. Qed.
Lemma validate_step_typed available i j v (s : St) st s' :
  is_json v = true -> validate_step available i j v s = (Ok st, s') -> step_well_typed available st.
Proof.
  unfold validate_step. destruct v as [| | | | | | | | | | | | |d| |]; try done. intros Hj.
  destruct (negb (truthy _)); [done|]. set (tool := dget_or _ _ _).
  assert (Ht : is_json tool = true).
  { unfold tool, dget_or. destruct (dget "tool_name" d) as [w|] eqn:Ew; [|done]. apply dget_In in Ew. simpl in *.
    rewrite forallb_forall in Hj. by apply (Hj ("tool_name", w)). }
  clearbody tool. intros Hv. binv Hv. unfold of_res in Hm. injection Hm as Hm ->. destruct a eqn:Ea; [done|]. unfold tool_unknown in Hm.
  destruct (negb (hashable tool)); [done|].
  destruct (as_str tool) as [x|] eqn:Ex; [|done]. injection Hm as Hm. apply negb_false_iff, str_mem_elem in Hm.
  assert (Hx : py_str tool = x) by (destruct tool; try discriminate Ht; try discriminate Ex; injection Ex as ->; reflexivity).
  destruct (dget_or "arguments" VNone d) as [| | | | | | | | | | | | |args| |]; try done. revert Hv.
  destruct (as_str (dget_or "reason" _ _)) as [why|]; [|done]. destruct (String.eqb_spec (py_strip why) "") as [|Hw]; [done|].
  intros Hv. binv Hv. injection Hv as <- <-. split; [by rewrite <-Hx in Hm|done|by repeat eexists].
Qed.
Lemma validate_steps_typed available i j l (s : St) sts s' :
  forallb is_json l = true -> validate_steps available i j l s = (Ok sts, s') ->
  Forall (step_well_typed available) sts /\ length sts = length l.
Proof.
  revert j s sts. induction l as [|v l IH]; intros j s sts; simpl; [by intros _ [= <- <-]; split; [constructor|]|].
  intros [Hv Hl]%andb_prop Hs. binv Hs. binv Hs. injection Hs as <- <-.
  apply validate_step_typed in Hm; [|done]. apply IH in Hm0 as [HF Hlen]; [|done]. split; [by constructor|simpl; congruence].
Qed.
Lemma py_chars_nil x cur : py_chars x cur = [] -> x = "" /\ cur = "".
Proof.
  revert cur. induction x as [|c x IH]; intros cur; cbn [py_chars].
  - destruct (String.eqb_spec cur ""); done.
  - destruct (_ && _).
    + intros [_ Hc]%IH. by destruct cur.
    + intros [_ Hc]%app_nil. by apply IH in Hc as [_ ?].
Qed.
Lemma py_iter_nonempty v l : is_json v = true -> truthy v = true -> py_iter v = Ok l -> l <> [] /\ forallb is_json l = true.
Proof.
  destruct v as [| | | |x| | | | | |l0| | |d| |]; try done; simpl; intros Hj Ht [= <-].
  - split.
    + intros Hn. apply map_eq_nil, py_chars_nil in Hn as [-> _]. done.
    + induction (py_chars x "") as [|y ys IH]; [done|exact IH].
  - split; [by intros ->|done].
  - split; [by intros Hn; destruct d|]. clear. induction d as [|y ys IH]; [done|exact IH].
Qed.
Lemma validate_proposal_typed available i v (s : St) p s' :
  is_json v = true -> validate_proposal available i v s = (Ok p, s') ->
  exists raw, v = VDict raw /\ proposal_well_typed available raw p.
Proof.
  unfold validate_proposal. destruct v as [| | | | | | | | | | | | |raw| |]; try done. intros Hj Hv. exists raw. split; [done|].
  destruct (validate_json_schema raw _) eqn:Es; [|done]. binv Hv. unfold of_res in Hm. injection Hm as Hm ->.
  destruct (truthy a) eqn:Et; cbn [negb] in Hv; [|done]. binv Hv.
  unfold reject_untrusted_control_intent in Hm0. destruct (List.find _ _) eqn:Ef; [done|]. injection Hm0 as <- <-.
  binv Hv. unfold of_res in Hm0. injection Hm0 as Hi ->. do 4 (binv Hv). binv Hv. injection Hv as <- <-.
  unfold dget_item in Hm. destruct (dget "steps" raw) as [sv|] eqn:Esv; [|done]. injection Hm as ->.
  assert (Ha : is_json a = true).
  { apply dget_In in Esv. simpl in Hj. rewrite forallb_forall in Hj. by apply (Hj ("steps", a)). }
  destruct (py_iter_nonempty _ _ Ha Et Hi) as [Hne Hja].
  apply validate_steps_typed in Hm0 as [HF Hlen]; [|done]. split; simpl; [done| | |done|].
  - apply find_none_all in Ef. exact Ef.
  - intros Hn. apply Hne, length_zero_iff_nil. rewrite <-Hlen. by rewrite Hn.
  - unfold of_res in Hm1. injection Hm1 as Hr _. unfold dget_item in Hr. destruct (dget "rationale" raw) as [w|]; [|done].
    injection Hr as ->. eauto.
Qed.
Lemma validate_proposals_typed available i l (s : St) ps s' :
  forallb is_json l = true -> validate_proposals available i l s = (Ok ps, s') ->
  exists raws, l = map VDict raws /\ Forall2 (proposal_well_typed available) raws ps.
Proof.
  revert i s ps. induction l as [|v l IH]; intros i s ps; simpl; [by intros _ [= <- <-]; exists []|].
  intros [Hv Hl]%andb_prop Hs. binv Hs. binv Hs. injection Hs as <- <-.
  apply validate_proposal_typed in Hm as (raw & -> & Hp); [|done]. apply IH in Hm0 as (raws & -> & HF); [|done].
  exists (raw :: raws). split; [done|by constructor].
Qed.

(** C35: what the validation of a language model's output lets through is well
    typed.  If it returns proposals for JSON data, the data are a list of
    objects, one per proposal and in order, each valid for the proposal schema
    and free of the forbidden control tokens; every proposal has at least one
    step; every step names an available tool, has a non-empty reason, and
    takes the defaults for status, risk, permissions, predictions and
    conditions, whatever the model wrote. *)
Theorem llm_proposals_well_typed data available (s : St) ps s' :
  is_json data = true -> validate_llm_proposals data available s = (Ok ps, s') ->
  exists raws, data = VList (map VDict raws) /\ Forall2 (proposal_well_typed available) raws ps.
Proof.
  unfold validate_llm_proposals. destruct data as [| | | | | | | | | |l| | | | |]; try done. intros Hj Hv.
  apply validate_proposals_typed in Hv as (raws & -> & HF); [|done]. eauto.
Qed.
End llm.

(** ** Witnesses *)

Definition toy_proposal (tool : string) (cost : Z) (n : nat) : PlanProposal := {|
  pp_steps := [toy_step n tool "one"]; pp_rationale := "because"; pp_estimated_cost := f_of_Z cost;
  pp_expected_benefit := fone; pp_proposal_id := "proposal-" +:+ str_Z (Z.of_nat n) |}.
Definition toy_planner_config : PlannerConfig := {|
  max_risk_cfg := MEDIUM; max_cost := f_of_Z 5; min_benefit := fzero; benefit_weight := fone;
  cost_weight := fone; risk_weight := fone |}.
Definition toy_proposals : list PlanProposal := [toy_proposal "append" 9 0; toy_proposal "append" 1 1].
Example toy_selection :
  match fst (planner_plan toy_registry toy_planner_config toy_goal toy_proposals (toy_state [])) with
  | Ok r => (fun c => pp_proposal_id (pc_proposal c)) <$> pr_selected r
  | Raise _ => None
  end = Some "proposal-1".
Proof. vm_compute. reflexivity. Qed.
Lemma planner_selects_first_witness :
  exists r t', planner_plan toy_registry toy_planner_config toy_goal toy_proposals (toy_state []) = (Ok r, t') /\
    plans_only (toy_state []) t' /\
    match pr_selected r with
    | Some c => exists l p l', toy_proposals = l ++ p :: l' /\ candidate_of toy_goal (t_heap t') p c /\
                  acceptable toy_registry toy_planner_config p /\
                  Forall (fun q => ~ acceptable toy_registry toy_planner_config q) l
    | None => Forall (fun p => ~ acceptable toy_registry toy_planner_config p) toy_proposals
    end.
Proof.
  apply (planner_selects_first toy_registry toy_planner_config toy_goal toy_proposals (toy_state [])); [discriminate|].
  repeat constructor.
Defined.
Definition toy_raw : dict pyval :=
  [("rationale", VStr " keep notes "); ("estimated_cost", VInt 1);
   ("steps", VList [VDict [("tool_name", VStr "append"); ("arguments", VDict [("line", VStr "one")]);
                           ("reason", VStr "note it")]])].
Lemma llm_proposals_well_typed_witness :
  exists raws, VList [VDict toy_raw] = VList (map VDict raws) /\
    Forall2 (proposal_well_typed ["append"; "echo"]) raws
      (match fst (validate_llm_proposals (VList [VDict toy_raw]) ["append"; "echo"] sys0) with Ok ps => ps | Raise _ => [] end).
Proof.
  eapply (llm_proposals_well_typed (VList [VDict toy_raw]) ["append"; "echo"] sys0); [reflexivity|].
  apply run_ok. vm_compute. reflexivity.
Defined.
