(* ===== verification/LoopTheory.v ===== *)
(** What one iteration of the agent loop can do: the theory behind the
    properties of LoopProps.v. *)
From S2P Require Import Prelude Enums PyValue Sanitization Goals Plans Tools AuditTrail Memory Evaluator Causal Egress Policy Approval Gates Transactions Planner AgentLoop TxInvariants TxSafety TxRollback TxOutcome TxProps PlannerProps.

(** What no component changes in a goal. *)
Definition goal_core (g : Goal) : string * list GoalCriterion * list string :=
  (goal_id g, criteria g, success_criteria g).
Lemma transition_core st g g' : transition st g = Ok g' -> goal_core g' = goal_core g.
Proof. by intros [_ ->]%transition_inv. Qed.
Lemma goal_moves_core g g' : goal_moves g g' -> goal_core g' = goal_core g.
Proof.
  induction 1 as [|x y z [g0 st g1 Ht] _ IH]; [done|]. rewrite IH. by eapply transition_core.
Qed.

(** ** How often a plan executes its tools *)

Definition executions (l : list tool_call) : nat := length (List.filter (fun c => bool_decide (tc_kind c = Execute)) l).
Lemma executions_app l l' : executions (l ++ l') = executions l + executions l'.
Proof. unfold executions. by rewrite List.filter_app, length_app. Qed.
Lemma executions_back l : Forall (fun c => tc_kind c = Rollback) l -> executions l = 0.
Proof. unfold executions. induction 1 as [|c l Hc _ IH]; simpl; [done|]. by rewrite bool_decide_false by congruence. Qed.

Section tx.
Context `{PyRuntime} `{JsonSchemaValidator} {X G : Type}.
Context (tm : TransactionManager X G).
Implicit Types t : TState X G.

Lemma step_executions i b l : step_calls tm i b l -> executions l <= 1.
Proof.
  assert (Hc : forall k j st ts a r (l : list tool_call), executions (ToolCall k j st ts a r :: l) =
            (if bool_decide (k = Execute) then 1 else 0) + executions l).
  { intros k j st ts a r l'. unfold executions. simpl. by destruct (bool_decide (k = Execute)). }
  intros [back F|st t args rd back _ F|st t args d re back _ _ F|st t args d x _ _ _]; rewrite ?Hc;
    repeat (rewrite bool_decide_false by done); repeat (rewrite bool_decide_true by done);
    rewrite ?(executions_back _ F); try lia. unfold executions. simpl. lia.
Qed.
Lemma run_steps_executions l t :
  Forall (fun i => i < length (t_heap t)) l ->
  exists new, t_calls (snd (run_steps tm l t)) = t_calls t ++ new /\ executions new <= length l.
Proof.
  revert t. induction l as [|i l IH]; intros t Hl; simpl.
  { exists []. by rewrite app_nil_r. }
  apply Forall_cons in Hl as [Hi Hl]. unfold bind. pose proof (run_step_any tm i t) as Gr.
  destruct (run_step tm i t) as [r t1] eqn:E. simpl in Gr. apply run_step_calls in E as (new & C & Hs%step_executions); [|done].
  destruct r as [[u|]|e]; [|exists new; split; [done|lia]|exists new; split; [done|lia]].
  destruct (IH t1) as (new' & C' & Hn); [by rewrite (grows_heap_length _ _ _ Gr)|].
  exists (new ++ new'). rewrite C', C, executions_app, app_assoc. split; [done|lia].
Qed.
Lemma quiet_calls t t' : grows (fun _ => False) t t' -> t_calls t' = t_calls t.
Proof. apply no_calls. Qed.
Lemma plan_executions t :
  steps_valid t -> exists new, t_calls (snd (execute_plan tm t)) = t_calls t ++ new /\
    executions new <= length (p_steps (t_plan t)).
Proof.
  intros Hv. set (NO := fun _ : tool_call => False).
  assert (Hnil : forall x : TState X G, t_calls x = t_calls t ->
    exists new, t_calls x = t_calls t ++ new /\ executions new <= length (p_steps (t_plan t))).
  { intros x ->. exists []. rewrite app_nil_r. split; [done|]. apply Nat.le_0_l. }
  unfold execute_plan. unfold bind at 1, gets. unfold bind at 1.
  pose proof (audit_grows NO "plan.started" "Starting transaction plan"
    [("plan_id", VStr (plan_id (t_plan t))); ("goal", VStr (description (p_goal (t_plan t))))] t) as K1.
  destruct (audit _ _ _ t) as [[u|e] t1]; [|by apply Hnil, quiet_calls]. simpl in K1.
  unfold bind at 1. pose proof (plan_goal_grows NO G_RUNNING t1) as K2.
  destruct (transition_plan_goal G_RUNNING t1) as [[u2|e] t2]; simpl in K2;
    [|apply Hnil, quiet_calls; by etrans].
  unfold bind at 1, modify. set (t3 := with_stack [] t2). unfold bind at 1, gets. unfold bind at 1.
  assert (K3 : grows NO t t3) by (etrans; [exact K1|]; etrans; [exact K2|]; by apply (stack_const_grows NO [] t2)).
  set (b := default _ _). pose proof (budget_grows tm NO b t3) as K4.
  destruct (budget_exceeded tm b t3) as [[ex|e] t4]; simpl in K4; [|apply Hnil, quiet_calls; by etrans].
  assert (K : grows NO t t4) by (by etrans). clear K1 K2 K4.
  assert (Hlen : p_steps (t_plan t3) = p_steps (t_plan t)) by apply K3.
  assert (Hx : exists new, t_calls (snd ((if ex then ret tt else run_steps tm (p_steps (t_plan t3))) t4)) = t_calls t ++ new /\
    executions new <= length (p_steps (t_plan t))).
  { destruct ex; [by apply Hnil, quiet_calls|]. change (p_steps (t_plan t2)) with (p_steps (t_plan t3)). rewrite Hlen.
    destruct (run_steps_executions (p_steps (t_plan t)) t4) as (new & C & Hn).
    { by rewrite (grows_heap_length _ _ _ K). }
    exists new. by rewrite C, (quiet_calls _ _ K). }
  unfold bind at 1. destruct ((if ex then ret tt else run_steps tm (p_steps (t_plan t3))) t4) as [[u5|e] t5]; [|exact Hx]. simpl in Hx. destruct Hx as (new & C & Hn).
  exists new. split; [|done]. rewrite <-C. apply quiet_calls.
  assert (Hf : keeps (grows NO) (finish_plan (X:=X) (G:=G))) by (unfold finish_plan, transition_plan_goal; keeps_auto).
  apply Hf.
Qed.

(** ** Planning in the kernel *)

Lemma accept_goal_spec g msg t :
  plans_only t (snd (accept_goal tm g msg t)) /\
  forall g', fst (accept_goal tm g msg t) = Ok g' -> goal_core g' = goal_core g.
Proof.
  split.
  - assert (Hk : keeps plans_only (accept_goal tm g msg)).
    { pose proof (audit_plans (X:=X) (G:=G)). unfold accept_goal, transition_goal. keeps_auto. }
    apply Hk.
  - unfold accept_goal, transition_goal, bind, of_res. destruct (validate_goal _ g); [|done].
    destruct (stop_conditions g); cbn [fst];
      (destruct (transition G_PLANNING g) as [g1|e] eqn:Et; [|done]); intros g' [= <-]; by eapply transition_core.
Qed.
Lemma kernel_plan_spec pc g ps t :
  plans_only t (snd (kernel_plan tm pc g ps t)) /\
  forall r c, fst (kernel_plan tm pc g ps t) = Ok r -> pr_selected r = Some c ->
    goal_core (p_goal (pc_plan c)) = goal_core g /\
    Forall (fun i => i < length (t_heap (snd (kernel_plan tm pc g ps t)))) (p_steps (pc_plan c)).
Proof.
  unfold kernel_plan, bind. destruct (accept_goal_spec g "Goal accepted by planner" t) as [K1 C1].
  destruct (accept_goal tm g _ t) as [[g1|e] t1]; cbn [fst snd] in *; [|done].
  destruct (planner_plan_spec (tm_registry tm) pc g1 ps t1) as [K2 C2]. split; [by etrans|].
  intros r c Hr Hc. destruct (C2 r c Hr Hc) as [Eg Hv]. split; [|done]. rewrite Eg. by apply C1.
Qed.
End tx.

(** ** The parts of an iteration that call no tool *)

Section loop.
Context `{PyRuntime} `{JsonSchemaValidator} {X G P R : Type}.
Context (tm : TransactionManager X G) (planner_config : PlannerConfig).
Context (provider : ProposalProvider X P) (store : option (RuntimeStore R)).
Context (evaluators : EvaluatorRegistry) (cfg : AgentLoopConfig).
Implicit Types s : LState X G P R.

(** The log grows; calls, world state and existing steps are as before. *)
Record still s s' : Prop := {
  st_log : sys_extends (t_sys (l_tx s)) (t_sys (l_tx s'));
  st_calls : t_calls (l_tx s') = t_calls (l_tx s);
  st_world : t_world (l_tx s') = t_world (l_tx s);
  st_heap : length (t_heap (l_tx s)) <= length (t_heap (l_tx s'));
}.
#[export] Instance still_preorder : PreOrder still.
Proof.
  split; [intros s; by split|]. intros x y z [? ? ? ?] [? ? ? ?]. split; [by etrans|congruence|congruence|lia].
Qed.
Lemma still_run {A} (m : M (LState X G P R) exn A) s r s' : keeps still m -> m s = (r, s') -> still s s'.
Proof. intros Hm Hs. specialize (Hm s). by rewrite Hs in Hm. Qed.
Lemma audit_still et msg pl : keeps still (audit (St:=LState X G P R) et msg pl).
Proof. intros s. split; [exact (audit_keeps (St:=LState X G P R) et msg pl s)|done|done|done]. Qed.
#[local] Hint Resolve audit_still : keeps.
Lemma in_tx_still {A} (m : M (TState X G) exn A) s : plans_only (l_tx s) (snd (m (l_tx s))) -> still s (snd (in_tx m s)).
Proof.
  unfold in_tx. destruct (m (l_tx s)) as [r t]. simpl. intros [L H1 (C & W & _)]. split; simpl; [done|done|done|].
  by apply prefix_length.
Qed.
Lemma in_memory_still {A} (m : M MState exn A) : keeps log_extends m -> keeps still (in_memory m).
Proof.
  intros Hm s. unfold in_memory. specialize (Hm {| m_store := l_memory s; m_sys := t_sys (l_tx s) |}).
  destruct (m _) as [r x]. split; simpl; [exact Hm|done|done|done].
Qed.
Lemma in_provider_still {A} (m : M P exn A) : keeps still (in_provider m).
Proof. intros s. unfold in_provider. by destruct (m _) as [r p]. Qed.
Lemma in_store_still (m : M R exn unit) : keeps still (in_store m).
Proof. intros s. unfold in_store. by destruct (m _) as [r p]. Qed.
#[local] Hint Resolve in_provider_still in_store_still : keeps.
Lemma store_op_still op cb : keeps still (store_op store op cb).
Proof. unfold store_op. keeps_auto. Qed.
Lemma recall_still key b sc ty : keeps (log_extends (St:=MState)) (recall key b sc ty).
Proof. unfold recall. keeps_auto. Qed.
Lemma remember_still mk : keeps (log_extends (St:=MState)) (remember mk).
Proof.
  assert (Hm : forall f, (forall x : MState, m_sys (f x) = m_sys x) -> keeps (E:=exn) (log_extends (St:=MState)) (modify f)).
  { intros f Hf x. unfold log_extends. simpl. by rewrite Hf. }
  unfold remember, persist. keeps_auto; by apply Hm.
Qed.
Lemma recall_goal_still g : keeps still (recall_goal_memory cfg g).
Proof. pose proof (fun k b sc ty => in_memory_still _ (recall_still k b sc ty)). unfold recall_goal_memory. keeps_auto. Qed.
Lemma write_memory_still g i p : keeps still (write_iteration_memory cfg g i p).
Proof. pose proof (fun mk => in_memory_still _ (remember_still mk)). unfold write_iteration_memory. keeps_auto. Qed.
Lemma transition_still g e : keeps still (transition_for_evaluation g e).
Proof. unfold transition_for_evaluation. keeps_auto. Qed.
#[local] Hint Resolve store_op_still recall_goal_still write_memory_still transition_still : keeps.
Lemma get_proposals_still v : keeps still (get_proposals tm provider v).
Proof. unfold get_proposals. keeps_auto. Qed.
Lemma repair_still f c : keeps still (propose_repair_of tm f c).
Proof. unfold propose_repair_of. keeps_auto. Qed.
Lemma new_plan_still g l : keeps still (in_tx (new_plan g l)).
Proof.
  intros s. apply in_tx_still. destruct (new_plan_spec g l (l_tx s)) as (p & t & -> & K & _). exact K.
Qed.
#[local] Hint Resolve get_proposals_still repair_still new_plan_still : keeps.
Lemma planning_failed_still i e v : keeps still (planning_failed tm provider cfg i e v).
Proof. unfold planning_failed, audit_analysis. keeps_auto. Qed.
Lemma maybe_replan_still i p why v : keeps still (maybe_replan tm provider cfg i p why v).
Proof. unfold maybe_replan, audit_analysis, steps_of. keeps_auto. Qed.
Lemma evaluate_goal_still i g p : keeps still (evaluate_goal evaluators cfg i g p).
Proof. unfold evaluate_goal. keeps_auto. Qed.

(** ** Repairs are bounded *)

Inductive replan_outcome (v : LoopVars) (why : string) : outcome -> Prop :=
| ro_stop : replan_outcome v why (Stop v why)
| ro_analysed a : (lv_replans v < max_replans cfg)%Z -> replan_outcome v why (Stop (add_analysis a v) why)
| ro_empty a ps : (lv_replans v < max_replans cfg)%Z ->
    replan_outcome v why (Stop (set_pending ps (count_replan (add_analysis a v))) why)
| ro_again a ps : (lv_replans v < max_replans cfg)%Z -> fa_retryable a = true -> why <> "goal_succeeded" ->
    replan_outcome v why (Next (set_pending ps (count_replan (add_analysis a v)))).
Lemma planning_failed_outcome i e v s o s' :
  planning_failed tm provider cfg i e v s = (Ok o, s') -> replan_outcome v "no_satisfactory_plan" o.
Proof.
  unfold planning_failed. destruct (propose_repair provider) as [f|]; [|intros [= <- _]; constructor].
  destruct (Z.ltb_spec (lv_replans v) (max_replans cfg)) as [Hr|_]; [|intros [= <- _]; constructor].
  intros Hp. do 3 (binv Hp). injection Hp as <- _. destruct a1 as [|p ps]; [by constructor|].
  by apply ro_again.
Qed.
Lemma maybe_replan_outcome i p why v s o s' :
  maybe_replan tm provider cfg i p why v s = (Ok o, s') -> replan_outcome v why o.
Proof.
  unfold maybe_replan. destruct (propose_repair provider) as [f|]; [|intros [= <- _]; constructor].
  destruct (str_mem why _) eqn:Ew; simpl andb; [|intros [= <- _]; constructor].
  destruct (Z.ltb_spec (lv_replans v) (max_replans cfg)) as [Hr|_]; [|intros [= <- _]; constructor].
  assert (Hw : why <> "goal_succeeded") by (by intros ->).
  intros Hp. binv Hp. unfold bind at 1, gets in Hp. cbv zeta in Hp. binv Hp.
  destruct (fa_retryable _) eqn:Ea; [|injection Hp as <- _; by constructor].
  binv Hp. apply bind_inv in Hp as [(e & _ & ?)|(repair & s3 & _ & Hp)]; [done|].
  destruct repair as [|q qs]; [injection Hp as <- _; by constructor|].
  binv Hp. injection Hp as <- _. by apply ro_again.
Qed.

(** ** Executing the selected plan *)

(** The log grows, and at most [n] executions are among the new calls. *)
Record ran (ok : tool_call -> Prop) (n : nat) s s' : Prop := {
  rn_log : sys_extends (t_sys (l_tx s)) (t_sys (l_tx s'));
  rn_calls : exists new, t_calls (l_tx s') = t_calls (l_tx s) ++ new /\ Forall ok new /\ executions new <= n;
}.
Lemma still_ran ok n s s' : still s s' -> ran ok n s s'.
Proof. intros [L C _ _]. split; [done|]. exists []. rewrite C, app_nil_r. split_and!; [done|constructor|apply Nat.le_0_l]. Qed.
Lemma ran_trans ok n m s1 s2 s3 : ran ok n s1 s2 -> ran ok m s2 s3 -> ran ok (n + m) s1 s3.
Proof.
  intros [L1 (n1 & C1 & F1 & E1)] [L2 (n2 & C2 & F2 & E2)]. split; [by etrans|]. exists (n1 ++ n2).
  rewrite C2, C1, app_assoc, executions_app. split_and!; [done|by apply Forall_app|lia].
Qed.
Lemma ran_still ok n s1 s2 s3 : ran ok n s1 s2 -> still s2 s3 -> ran ok n s1 s3.
Proof. intros H1 H2. rewrite <-(Nat.add_0_r n). eapply ran_trans; [exact H1|by apply still_ran]. Qed.
Lemma ran_weaken (ok ok' : tool_call -> Prop) n s s' : (forall c, ok c -> ok' c) -> ran ok n s s' -> ran ok' n s s'.
Proof. intros Hw [L (new & C & F & E)]. split; [done|]. exists new. split_and!; [done|by eapply Forall_impl|done]. Qed.

Definition plan_permits (p : TransactionPlan) : tool_call -> Prop := permitted tm (goal_id (p_goal p)) (plan_id p).
Lemma kernel_execute_ran p s :
  rules_ok (tm_policy tm) -> Forall (fun i => i < length (t_heap (l_tx s))) (p_steps p) ->
  ran (plan_permits p) (length (p_steps p)) s (snd (in_tx (kernel_execute tm p) s)) /\
  forall ex, fst (in_tx (kernel_execute tm p) s) = Ok ex ->
    ex = t_plan (l_tx (snd (in_tx (kernel_execute tm p) s))) /\ same_plan p ex.
Proof.
  intros Hr Hv. unfold in_tx, kernel_execute, bind, modify. set (t := with_plan p (l_tx s)).
  pose proof (execute_plan_grows tm t Hr Hv) as Gr. destruct (plan_executions tm t Hv) as (new & C & E).
  destruct (execute_plan tm t) as [[u|e] t']; cbn [snd fst] in *.
  - unfold gets. cbn [fst snd]. split; [|intros ex [= <-]; split; [done|apply Gr]].
    split; [apply Gr|]. destruct (gr_calls _ _ _ Gr) as (new' & C' & F). exists new. split_and!; [done| |done].
    simpl in *. rewrite C in C'. by apply app_inv_head in C' as ->.
  - split; [|done]. split; [apply Gr|]. destruct (gr_calls _ _ _ Gr) as (new' & C' & F). exists new.
    split_and!; [done| |done]. simpl in *. rewrite C in C'. by apply app_inv_head in C' as ->.
Qed.

(** What follows the execution of a plan. *)
Definition conclude_plan (i : Z) (v : LoopVars) (n : Z) (executed : TransactionPlan) : M (LState X G P R) exn outcome :=
  let g := p_goal executed in
  audit "loop.plan_executed" "Agent loop executed selected plan"
    [("goal_id", VStr (goal_id g)); ("iteration", VInt i); ("plan_id", VStr (plan_id executed));
     ("goal_status", VStr (GoalStatus_value (g_status g)))] ;;;
  let! p := gets (fun s => track_progress (step_statuses (l_tx s))) in
  audit "loop.goal_progress_checked" "Agent loop checked goal progress"
    [("goal_id", VStr (goal_id g)); ("iteration", VInt i); ("verified_steps", VInt (verified_steps p));
     ("blocked_steps", VInt (blocked_steps p)); ("failed_steps", VInt (failed_steps p));
     ("rolled_back_steps", VInt (rolled_back_steps p)); ("phase", VStr (phase p))] ;;;
  let! (g', e, why) := evaluate_goal evaluators cfg i g p in
  write_iteration_memory cfg g' i p ;;;
  let v' := after_plan g' executed n p (match e with Some _ => e | None => lv_evaluation v end) v in
  match why with
  | Some reason => maybe_replan tm provider cfg i executed reason v'
  | None => ret (Next v')
  end.
Lemma conclude_still i v n ex : keeps still (conclude_plan i v n ex).
Proof.
  pose proof evaluate_goal_still. pose proof maybe_replan_still. unfold conclude_plan. keeps_auto.
Qed.
Lemma act_ran i c v s :
  rules_ok (tm_policy tm) -> Forall (fun j => j < length (t_heap (l_tx s))) (p_steps (pc_plan c)) ->
  ran (plan_permits (pc_plan c)) (length (p_steps (pc_plan c))) s
    (snd (act tm provider store evaluators cfg i c v s)).
Proof.
  intros Hr Hv. set (plan := pc_plan c) in *. set (n := Z.of_nat (length (p_steps plan))).
  change (ran (plan_permits plan) (length (p_steps plan)) s (snd ((let! steps := steps_of plan in
    store_op store "save_plan" (fun st => save_plan st plan steps) ;;;
    audit "loop.plan_selected" "Agent loop selected a plan"
      [("goal_id", VStr (goal_id (lv_goal v))); ("iteration", VInt i); ("plan_id", VStr (plan_id plan));
       ("proposal_id", VStr (pp_proposal_id (pc_proposal c))); ("step_count", VInt n)] ;;;
    let! executed := in_tx (kernel_execute tm plan) in conclude_plan i v n executed) s))).
  unfold bind at 1, steps_of, gets. set (op := store_op store _ _). unfold bind at 1.
  assert (K1 : keeps still op) by apply store_op_still. specialize (K1 s). destruct (op s) as [[u|e] s1]; [|by apply still_ran].
  cbn [snd] in K1. unfold bind at 1. set (a := audit _ _ _). assert (K2 : keeps still a) by apply audit_still.
  specialize (K2 s1). destruct (a s1) as [[u2|e] s2]; cbn [snd] in K2; [|apply still_ran; by etrans].
  assert (K : still s s2) by (by etrans). clear K1 K2. unfold bind.
  destruct (kernel_execute_ran plan s2 Hr) as [Rn _].
  { eapply Forall_impl; [exact Hv|]. intros j Hj. pose proof (st_heap _ _ K). simpl in *. lia. }
  destruct (in_tx (kernel_execute tm plan) s2) as [[ex|e] s3]; cbn [snd] in *.
  - eapply ran_trans with (n := 0); [by apply still_ran|]. eapply ran_still; [exact Rn|]. apply conclude_still.
  - eapply ran_trans with (n := 0); [by apply still_ran|exact Rn].
Qed.

(** What an executed plan adds to the variables of the loop, for the world
    state [w] it left: [why] is the reason to stop, if any. *)
Record acted (w : WorldState) (c : PlanCandidate) v v1 (why : option string) : Prop := {
  ac_core : goal_core (lv_goal v1) = goal_core (p_goal (pc_plan c));
  ac_plans : exists ex, lv_plans v1 = lv_plans v ++ [ex] /\ p_steps ex = p_steps (pc_plan c);
  ac_calls : lv_tool_calls v1 = (lv_tool_calls v + Z.of_nat (length (p_steps (pc_plan c))))%Z;
  ac_replans : lv_replans v1 = lv_replans v /\ lv_analyses v1 = lv_analyses v;
  ac_eval : if use_goal_evaluator cfg
    then exists g p e, goal_core g = goal_core (p_goal (pc_plan c)) /\ lv_progress v1 = Some p /\
      lv_evaluation v1 = Some e /\ evaluate evaluators g w (Some p) = Ok e /\ why = evaluation_stop_reason e
    else lv_evaluation v1 = lv_evaluation v /\ why = goal_stop_reason (lv_goal v1);
}.
Definition after_acting (v1 : LoopVars) (why : option string) (o : outcome) : Prop :=
  match why with None => o = Next v1 | Some reason => replan_outcome v1 reason o end.

Lemma transition_for_core g e s g' s' : transition_for_evaluation g e s = (Ok g', s') -> goal_core g' = goal_core g.
Proof.
  unfold transition_for_evaluation. destruct (evaluation_target e) as [target|]; [|by intros [= <- _]].
  case_bool_decide; [by intros [= <- _]|]. cbv zeta. destruct (transition target g) as [g1|x] eqn:Et; intros Hb.
  - binv Hb. injection Hb as <- _. by eapply transition_core.
  - binv Hb. by injection Hb as <- _.
Qed.
Lemma evaluate_goal_result i g p s g' e why s' :
  evaluate_goal evaluators cfg i g p s = (Ok (g', e, why), s') ->
  goal_core g' = goal_core g /\
  if use_goal_evaluator cfg
  then exists ev, e = Some ev /\ evaluate evaluators g (t_world (l_tx s)) (Some p) = Ok ev /\
    why = evaluation_stop_reason ev
  else e = None /\ why = goal_stop_reason g'.
Proof.
  unfold evaluate_goal. destruct (use_goal_evaluator cfg); [|by intros [= <- <- <- _]].
  intros Hb. unfold bind at 1, gets in Hb. unfold bind at 1, of_res in Hb.
  destruct (evaluate _ _ _ _) as [ev|x] eqn:Ev; [|done]. binv Hb.
  destruct (evaluation_stop_reason ev) as [r|] eqn:Er.
  - apply bind_inv in Hb as [(x & _ & ?)|(g1 & s2 & Ht & Hb)]; [done|]. injection Hb as <- <- <- _.
    apply transition_for_core in Ht. eauto 10.
  - injection Hb as <- <- <- _. eauto 10.
Qed.
Lemma conclude_result i c v ex s o s' :
  same_plan (pc_plan c) ex ->
  conclude_plan i v (Z.of_nat (length (p_steps (pc_plan c)))) ex s = (Ok o, s') ->
  exists v1 why, acted (t_world (l_tx s')) c v v1 why /\ after_acting v1 why o.
Proof.
  intros Hsame Hc. apply still_run in Hc as K; [|apply conclude_still]. unfold conclude_plan in Hc. cbv zeta in Hc. apply bind_inv in Hc as [(x & _ & ?)|(u & s1 & H1 & Hc)]; [done|].
  apply still_run in H1 as K1; [|apply audit_still]. unfold bind at 1, gets in Hc.
  set (p := track_progress _) in Hc. apply bind_inv in Hc as [(x & _ & ?)|(u2 & s2 & H2 & Hc)]; [done|].
  apply still_run in H2 as K2; [|apply audit_still].
  apply bind_inv in Hc as [(x & _ & ?)|([[g' e] why] & s3 & H3 & Hc)]; [done|]. binv Hc.
  apply evaluate_goal_result in H3 as [Hcore He].
  set (v1 := after_plan g' ex _ _ _ v) in Hc. exists v1, why. split.
  - assert (Hw : t_world (l_tx s') = t_world (l_tx s2)).
    { rewrite (st_world _ _ K). by rewrite (st_world _ _ K2), (st_world _ _ K1). }
    rewrite <-Hw in He. pose proof (goal_moves_core _ _ (sp_goal _ _ Hsame)) as Hg.
    split; simpl.
    + congruence.
    + exists ex. split; [done|]. apply Hsame.
    + done.
    + done.
    + destruct (use_goal_evaluator cfg).
      * destruct He as (ev & -> & Hev & ->). exists (p_goal ex), p, ev. done.
      * by destruct He as [-> ->].
  - destruct why as [reason|]; simpl; [by eapply maybe_replan_outcome|by injection Hc].
Qed.

Lemma act_result i c v s o s' :
  rules_ok (tm_policy tm) -> Forall (fun j => j < length (t_heap (l_tx s))) (p_steps (pc_plan c)) ->
  act tm provider store evaluators cfg i c v s = (Ok o, s') ->
  exists v1 why, acted (t_world (l_tx s')) c v v1 why /\ after_acting v1 why o.
Proof.
  intros Hr Hv Ha. unfold act in Ha. cbv zeta in Ha. unfold bind at 1, steps_of, gets in Ha.
  apply bind_inv in Ha as [(x & _ & ?)|(u & s1 & H1 & Ha)]; [done|].
  apply bind_inv in Ha as [(x & _ & ?)|(u2 & s2 & H2 & Ha)]; [done|].
  apply bind_inv in Ha as [(x & _ & ?)|(ex & s3 & H3 & Ha)]; [done|].
  apply still_run in H1 as K1; [|apply store_op_still]. apply still_run in H2 as K2; [|apply audit_still].
  destruct (kernel_execute_ran (pc_plan c) s2 Hr) as [_ Hex].
  { pose proof (st_heap _ _ K1). pose proof (st_heap _ _ K2). eapply Forall_impl; [exact Hv|]. simpl. lia. }
  rewrite H3 in Hex. destruct (Hex ex eq_refl) as [_ Hsame]. by eapply conclude_result.
Qed.

(** ** One iteration *)

(** The plan fits in what the budget of tool calls leaves. *)
Definition in_budget v (n : nat) : Prop :=
  match al_max_tool_calls cfg with Some m => (lv_tool_calls v + Z.of_nat n <= m)%Z | None => True end.
(** Calls for a plan of the goal [gid]. *)
Definition goal_permits (gid : string) (c : tool_call) : Prop := exists pid, permitted tm gid pid c.
Definition idle_reasons : list string := ["no_plan"; "no_satisfactory_plan"; "tool_call_budget_exceeded"].
(** What an iteration does from [s] with the variables [v]. *)
Inductive turn v s : res exn outcome -> LState X G P R -> Prop :=
| turn_raised e s' : still s s' -> turn v s (Raise e) s'
| turn_idle why s' : why ∈ idle_reasons -> still s s' -> turn v s (Ok (Stop v why)) s'
| turn_unplanned o s' : still s s' -> replan_outcome v "no_satisfactory_plan" o -> turn v s (Ok o) s'
| turn_acted c r s' :
    goal_core (p_goal (pc_plan c)) = goal_core (lv_goal v) -> in_budget v (length (p_steps (pc_plan c))) ->
    ran (goal_permits (goal_id (lv_goal v))) (length (p_steps (pc_plan c))) s s' ->
    (forall o, r = Ok o -> exists v1 why, acted (t_world (l_tx s')) c v v1 why /\ after_acting v1 why o) ->
    turn v s r s'.
Lemma still_turn v s s1 r s' : still s s1 -> turn v s1 r s' -> turn v s r s'.
Proof.
  intros K [e s2 K2|why s2 Hw K2|o s2 K2 Ho|c r2 s2 Hc Hb Hr Ho].
  - apply turn_raised. by etrans.
  - apply turn_idle; [done|by etrans].
  - apply turn_unplanned; [by etrans|done].
  - eapply turn_acted; [done|done| |done]. eapply (ran_trans _ 0); [by apply still_ran|done].
Qed.

Lemma act_turn i c v s :
  rules_ok (tm_policy tm) -> goal_core (p_goal (pc_plan c)) = goal_core (lv_goal v) ->
  Forall (fun j => j < length (t_heap (l_tx s))) (p_steps (pc_plan c)) ->
  in_budget v (length (p_steps (pc_plan c))) ->
  turn v s (fst (act tm provider store evaluators cfg i c v s)) (snd (act tm provider store evaluators cfg i c v s)).
Proof.
  intros Hr Hc Hv Hb. apply turn_acted with c; [done|done| |].
  - eapply ran_weaken; [|by apply act_ran]. intros k Hk. exists (plan_id (pc_plan c)).
    unfold plan_permits in Hk. apply (f_equal (fun x => x.1.1)) in Hc. simpl in Hc. by rewrite <-Hc.
  - intros o Ho. apply run_ok in Ho. by apply act_result in Ho.
Qed.
Lemma act_on_turn i r v s :
  rules_ok (tm_policy tm) ->
  (forall c, pr_selected r = Some c -> goal_core (p_goal (pc_plan c)) = goal_core (lv_goal v) /\
     Forall (fun j => j < length (t_heap (l_tx s))) (p_steps (pc_plan c))) ->
  turn v s (fst (act_on tm provider store evaluators cfg i r v s)) (snd (act_on tm provider store evaluators cfg i r v s)).
Proof.
  intros Hr Hsel. unfold act_on. destruct (pr_selected r) as [c|]; [|apply turn_idle; [set_solver|done]].
  destruct (Hsel c eq_refl) as [Hc Hv]. cbv zeta.
  pose proof (act_turn i c v s Hr Hc Hv) as Ha. unfold in_budget in Ha.
  destruct (al_max_tool_calls cfg) as [m|]; [|by apply Ha].
  destruct (Z.ltb_spec m (lv_tool_calls v + Z.of_nat (length (p_steps (pc_plan c))))) as [_|Hm]; [|by apply Ha].
  unfold bind. destruct (audit _ _ _ s) as [[u|e] s1] eqn:E; apply still_run in E; try apply audit_still.
  - apply turn_idle; [set_solver|done].
  - by apply turn_raised.
Qed.
(** Planning, with the handler of KeyError. *)
Abbreviation try_plan g ps :=
  (catch (let! r := in_tx (kernel_plan tm planner_config g ps) in ret (Ok r))
     (fun e => if isinstance e KeyError then ret (Raise e) else raise e) : M (LState X G P R) exn (res exn PlannerResult)).
Lemma try_plan_still g ps : keeps still (try_plan g ps).
Proof.
  assert (Hk : keeps still (in_tx (P:=P) (R:=R) (kernel_plan tm planner_config g ps))).
  { intros s. apply in_tx_still, kernel_plan_spec. }
  keeps_auto.
Qed.
Lemma try_plan_selected g ps s r s' c :
  try_plan g ps s = (Ok (Ok r), s') -> pr_selected r = Some c ->
  goal_core (p_goal (pc_plan c)) = goal_core g /\ Forall (fun j => j < length (t_heap (l_tx s'))) (p_steps (pc_plan c)).
Proof.
  destruct (kernel_plan_spec tm planner_config g ps (l_tx s)) as [_ Hsel].
  unfold catch, bind, in_tx. destruct (kernel_plan _ _ _ _ _) as [[r0|e] t]; simpl in *.
  - intros [= -> <-] Hc. by apply (Hsel r).
  - destruct (isinstance e KeyError); [by intros [=]|by intros [=]].
Qed.
Lemma iterate_turn i v s :
  rules_ok (tm_policy tm) ->
  let m := iterate tm planner_config provider store evaluators cfg i v s in turn (set_pending None v) s (fst m) (snd m).
Proof.
  intros Hr. cbv zeta. unfold iterate.
  assert (Hbind : forall A (m : M (LState X G P R) exn A) f s0, keeps still m ->
    (forall a s1, m s0 = (Ok a, s1) -> turn (set_pending None v) s1 (fst (f a s1)) (snd (f a s1))) ->
    turn (set_pending None v) s0 (fst (bind m f s0)) (snd (bind m f s0))).
  { intros A m f s0 Hk Hf. unfold bind. destruct (m s0) as [[a|e] s1] eqn:E; apply still_run in E as K; try done.
    - eapply still_turn; [exact K|]. by apply Hf.
    - by apply turn_raised. }
  apply Hbind; [keeps_auto|intros keys s0 _]. apply Hbind; [apply audit_still|intros _ s1 _].
  apply Hbind; [apply store_op_still|intros _ s2 _].
  apply Hbind; [apply recall_goal_still|intros _ s3 _]. apply Hbind; [apply get_proposals_still|intros ps s4 _].
  destruct ps as [|q qs]; [apply turn_idle; [set_solver|done]|]. set (proposals := q :: qs).
  apply Hbind; [apply try_plan_still|intros planned s5 Hp]. destruct planned as [r|e].
  - apply act_on_turn; [done|]. intros c Hc. by eapply (try_plan_selected _ _ _ _ _ _ Hp).
  - destruct (planning_failed tm provider cfg i e _ s5) as [[o|x] s6] eqn:Hf; simpl;
      apply still_run in Hf as K; try apply planning_failed_still.
    + apply turn_unplanned; [done|]. by eapply planning_failed_outcome.
    + by apply turn_raised.
Qed.
End loop.
