(* ===== verification/LoopProps.v ===== *)
(** Properties of whole runs of the agent loop: bounds, safety, and what its
    success means. *)
From S2P Require Import Prelude Enums PyValue Sanitization Goals Plans Tools AuditTrail Memory Evaluator Causal Egress Policy Approval Gates Transactions Planner AgentLoop Fixtures TxInvariants TxSafety TxRollback TxOutcome TxProps PlannerProps EvaluatorProps AuditProps LoopTheory.

(** The steps of the plans a run has executed. *)
Definition steps_run (plans : list TransactionPlan) : nat := sum_list_with (fun p => length (p_steps p)) plans.
Definition stop_reasons : list string :=
  idle_reasons ++ ["goal_succeeded"; "goal_blocked"; "goal_failed"; "max_iterations_reached"].

Lemma achieved_core `{PyRuntime} g g' fs p : goal_core g = goal_core g' -> goal_achieved g fs p <-> goal_achieved g' fs p.
Proof. intros [= _ E1 E2]. unfold goal_achieved, unreadable. by rewrite E1, E2. Qed.

Section loop.
Context `{PyRuntime} `{JsonSchemaValidator} {X G P R : Type}.
Context (tm : TransactionManager X G) (planner_config : PlannerConfig).
Context (provider : ProposalProvider X P) (store : option (RuntimeStore R)).
Context (evaluators : EvaluatorRegistry) (cfg : AgentLoopConfig) (g0 : Goal).
Implicit Types s : LState X G P R.
Implicit Types v : LoopVars.

(** ** The invariant of the loop's variables, in the state [s] *)

Definition vars_succeeded v : bool :=
  match lv_evaluation v with
  | Some e => bool_decide (ge_status e = EV_SUCCEEDED)
  | None => bool_decide (g_status (lv_goal v) = G_SUCCEEDED)
  end.
Definition unfinished : Prop := g_status g0 <> G_SUCCEEDED.
Record vars_ok v s : Prop := {
  vk_core : goal_core (lv_goal v) = goal_core g0;
  vk_calls : lv_tool_calls v = Z.of_nat (steps_run (lv_plans v));
  vk_budget : in_budget cfg v 0;
  vk_analyses : (Z.of_nat (length (lv_analyses v)) <= max_replans cfg)%Z;
  vk_none : lv_plans v = [] -> lv_evaluation v = None /\ lv_goal v = g0;
  vk_eval : if use_goal_evaluator cfg
    then lv_plans v <> [] -> exists g p e, goal_core g = goal_core g0 /\ lv_progress v = Some p /\
      lv_evaluation v = Some e /\ evaluate evaluators g (t_world (l_tx s)) (Some p) = Ok e
    else lv_evaluation v = None;
}.
(** The loop goes on, or ends for the reason [why]. *)
Record going v s : Prop := {
  go_ok : vars_ok v s;
  go_replans : lv_replans v = Z.of_nat (length (lv_analyses v));
  go_open : unfinished -> vars_succeeded v = false;
}.
Record ended v why s : Prop := {
  en_ok : vars_ok v s;
  en_reason : why ∈ stop_reasons;
  en_success : unfinished -> vars_succeeded v = true <-> why = "goal_succeeded";
}.

Lemma vars_ok_still v s s' : still s s' -> vars_ok v s -> vars_ok v s'.
Proof. intros K [? ? ? ? ? E]. split; try done. by rewrite (st_world _ _ K). Qed.
Lemma vars_ok_pending v ps s : vars_ok v s -> vars_ok (set_pending ps v) s.
Proof. by intros [? ? ? ? ? ?]. Qed.
Lemma going_pending v ps s : going v s -> going (set_pending ps v) s.
Proof. intros [? ? ?]. split; [by apply vars_ok_pending|done|done]. Qed.
Lemma vars_ok_analysed v a s :
  vars_ok v s -> lv_replans v = Z.of_nat (length (lv_analyses v)) -> (lv_replans v < max_replans cfg)%Z ->
  vars_ok (add_analysis a v) s.
Proof. intros [? ? ? ? ? ?] Hr Hl. split; try done. simpl. rewrite length_app. simpl. lia. Qed.
Lemma vars_ok_counted v s : vars_ok v s -> vars_ok (count_replan v) s.
Proof. by intros [? ? ? ? ? ?]. Qed.

(** A repair is asked for at most [max_replans] times. *)
Lemma replan_outcome_ok v why o s :
  vars_ok v s -> lv_replans v = Z.of_nat (length (lv_analyses v)) -> why ∈ stop_reasons ->
  (unfinished -> vars_succeeded v = true <-> why = "goal_succeeded") -> replan_outcome cfg v why o ->
  match o with Next v' => going v' s | Stop v' w => ended v' w s end.
Proof.
  intros Hv Hr Hw Hs [|a Hl|a ps Hl|a ps Hl _ Hne].
  - by split.
  - split; [by apply vars_ok_analysed|done|done].
  - split; [by apply vars_ok_pending, vars_ok_counted, vars_ok_analysed|done|done].
  - split; [by apply vars_ok_pending, vars_ok_counted, vars_ok_analysed| |].
    + simpl. rewrite length_app. simpl. lia.
    + intros Hu. apply not_true_is_false. intros Ht. by apply Hne, Hs.
Qed.
Lemma evaluation_stop_success e : evaluation_stop_reason e = Some "goal_succeeded" <-> ge_status e = EV_SUCCEEDED.
Proof. unfold evaluation_stop_reason. by destruct (ge_status e). Qed.
Lemma goal_stop_success g : goal_stop_reason g = Some "goal_succeeded" <-> g_status g = G_SUCCEEDED.
Proof. unfold goal_stop_reason. by destruct (g_status g). Qed.
Lemma evaluation_stop_reasons e why : evaluation_stop_reason e = Some why -> why ∈ stop_reasons.
Proof. unfold evaluation_stop_reason. destruct (ge_status e); intros [= <-]; set_solver. Qed.
Lemma goal_stop_reasons g why : goal_stop_reason g = Some why -> why ∈ stop_reasons.
Proof. unfold goal_stop_reason. destruct (g_status g); intros [= <-]; set_solver. Qed.

Lemma acted_ok c v v1 why s s' :
  going v s -> goal_core (p_goal (pc_plan c)) = goal_core (lv_goal v) ->
  in_budget cfg v (length (p_steps (pc_plan c))) -> acted evaluators cfg (t_world (l_tx s')) c v v1 why ->
  vars_ok v1 s' /\ lv_replans v1 = Z.of_nat (length (lv_analyses v1)) /\
  (vars_succeeded v1 = true <-> why = Some "goal_succeeded") /\ (forall w, why = Some w -> w ∈ stop_reasons).
Proof.
  intros [Hv Hr Ho] Hc Hb [Ac (ex & Ap & As) At [Ar Aa] Ae]. split_and!.
  - split.
    + rewrite Ac, Hc. apply Hv.
    + rewrite At, Ap, (vk_calls _ _ Hv). unfold steps_run. rewrite sum_list_with_app. simpl. rewrite As. lia.
    + unfold in_budget in *. rewrite At. destruct (al_max_tool_calls cfg); [lia|done].
    + rewrite Aa. apply Hv.
    + rewrite Ap. by destruct (lv_plans v).
    + pose proof (vk_eval _ _ Hv) as He. destruct (use_goal_evaluator cfg).
      * intros _. destruct Ae as (g & p & e & Hg & Hp & Hev & He' & _). exists g, p, e. split_and!; [|done|done|done].
        rewrite Hg, Hc. apply Hv.
      * destruct Ae as [-> _]. done.
  - rewrite Ar, Aa. exact Hr.
  - pose proof (vk_eval _ _ Hv) as He. unfold vars_succeeded. destruct (use_goal_evaluator cfg).
    + destruct Ae as (g & p & e & _ & _ & -> & _ & ->). rewrite evaluation_stop_success. apply bool_decide_eq_true.
    + destruct Ae as [-> ->]. rewrite He, goal_stop_success. apply bool_decide_eq_true.
  - destruct (use_goal_evaluator cfg).
    + destruct Ae as (g & p & e & _ & _ & _ & _ & ->). intros w. apply evaluation_stop_reasons.
    + destruct Ae as [_ ->]. intros w. apply goal_stop_reasons.
Qed.

(** ** One iteration, and all of them *)

Definition vars_of (o : outcome) : LoopVars := match o with Next v => v | Stop v _ => v end.
Lemma replan_same v why o : replan_outcome cfg v why o ->
  lv_tool_calls (vars_of o) = lv_tool_calls v /\ lv_plans (vars_of o) = lv_plans v.
Proof. by intros [| | |]. Qed.

(** From [v] and [s], [k] more steps have run and at most [n] more plans. *)
Record progressed (n k : nat) v v' : Prop := {
  pg_calls : lv_tool_calls v' = (lv_tool_calls v + Z.of_nat k)%Z;
  pg_plans : length (lv_plans v') <= n + length (lv_plans v);
}.
Definition outcome_ok (o : outcome) s : Prop := match o with Next v => going v s | Stop v why => ended v why s end.
Lemma turn_ok v s r s' :
  going v s -> turn tm evaluators cfg v s r s' ->
  exists k, in_budget cfg v k /\ ran (goal_permits tm (goal_id g0)) k s s' /\
    forall o, r = Ok o -> outcome_ok o s' /\ progressed 1 k v (vars_of o).
Proof.
  intros Hg Ht. pose proof (go_ok _ _ Hg) as Hv. pose proof (vk_budget _ _ Hv) as Hb.
  assert (Hid : goal_id (lv_goal v) = goal_id g0).
  { pose proof (vk_core _ _ Hv) as Hc. by apply (f_equal (fun x => x.1.1)) in Hc. }
  assert (Hnone : forall v' : LoopVars, lv_tool_calls v' = lv_tool_calls v -> lv_plans v' = lv_plans v -> progressed 1 0 v v').
  { intros v' E1 E2. split; rewrite ?E1, ?E2; lia. }
  destruct Ht as [e s' K|why s' Hw K|o s' K Ho|c r s' Hc Hbc Hr Ho].
  - exists 0. split_and!; [done|by apply still_ran|done].
  - exists 0. split_and!; [done|by apply still_ran|]. intros o [= <-]. split; [|by apply Hnone].
    split; [by eapply vars_ok_still|apply elem_of_app; by left|].
    intros Hu. rewrite (go_open _ _ Hg Hu). split; [done|]. intros ->. set_solver.
  - exists 0. split_and!; [done|by apply still_ran|]. intros o' [= <-]. pose proof (replan_same _ _ _ Ho) as [E1 E2].
    split; [|by apply Hnone]. eapply replan_outcome_ok in Ho; [exact Ho|by eapply vars_ok_still|apply Hg|set_solver|].
    intros Hu. by rewrite (go_open _ _ Hg Hu).
  - exists (length (p_steps (pc_plan c))). rewrite <-Hid. split_and!; [done|done|].
    intros o ->. destruct (Ho o eq_refl) as (v1 & why & Ha & Hafter).
    pose proof (acted_ok c v v1 why s s' Hg Hc Hbc Ha) as (Hv1 & Hr1 & Hs1 & Hw1).
    assert (Hp : progressed 1 (length (p_steps (pc_plan c))) v v1).
    { destruct (ac_plans _ _ _ _ _ _ _ Ha) as (ex & Ep & _). split; [by apply Ha|]. rewrite Ep, length_app. simpl. lia. }
    unfold after_acting in Hafter. destruct why as [w|].
    + pose proof (replan_same _ _ _ Hafter) as [E1 E2]. split.
      * eapply replan_outcome_ok in Hafter; [exact Hafter|done|done|by apply Hw1|].
        intros _. rewrite Hs1. split; [by intros [= ->]|by intros ->].
      * destruct Hp as [P1 P2]. split; congruence.
    + subst o. split; [|exact Hp]. split; [done|done|]. intros _. apply not_true_is_false. by rewrite Hs1.
Qed.
Lemma iterations_ok n i v s :
  rules_ok (tm_policy tm) -> going v s ->
  let m := iterations tm planner_config provider store evaluators cfg n i v s in
  exists k, in_budget cfg v k /\ ran (goal_permits tm (goal_id g0)) k s (snd m) /\
    forall v' why, fst m = Ok (v', why) -> ended v' why (snd m) /\ progressed n k v v'.
Proof.
  intros Hr. cbv zeta. revert i v s. induction n as [|n IH]; intros i v s Hg; simpl.
  { exists 0. split_and!; [by apply (vk_budget _ s), Hg|by apply still_ran|]. intros v' why [= <- <-]. split; [|split; lia].
    split; [by apply Hg|set_solver|]. intros Hu. by rewrite (go_open _ _ Hg Hu). }
  pose proof (iterate_turn tm planner_config provider store evaluators cfg i v s Hr) as Ht. cbv zeta in Ht.
  apply turn_ok in Ht as (k & Hb & Hran & Ho); [|by apply going_pending]. unfold bind.
  destruct (iterate tm planner_config provider store evaluators cfg i v s) as [[o|e] s1]; simpl in *;
    [|by exists k].
  destruct (Ho o eq_refl) as [Hok [P1 P2]]. destruct o as [v1|v1 why]; simpl in *.
  - destruct (IH (i + 1)%Z v1 s1 Hok) as (k' & Hb' & Hran' & Hend). exists (k + k'). split_and!.
    + unfold in_budget in *. destruct (al_max_tool_calls cfg); [lia|done].
    + by eapply ran_trans.
    + intros v' why Hf. destruct (Hend v' why Hf) as [He [Q1 Q2]]. split; [done|]. split; lia.
  - exists k. split_and!; [done|done|]. intros v' w [= <- <-]. split; [done|]. split; [done|lia].
Qed.

(** ** The whole run *)

Lemma init_going s : AgentLoopConfig_check cfg = Ok cfg -> going (init_vars g0) s.
Proof.
  unfold AgentLoopConfig_check. destruct (Z.ltb_spec (max_iterations cfg) 1) as [|H1]; [done|].
  destruct (Z.ltb_spec (max_replans cfg) 0) as [|H2]; [done|]. intros Hc. split.
  - split; simpl; try (done || lia).
    + unfold in_budget. destruct (al_max_tool_calls cfg) as [m|]; [|done]. simpl.
      destruct (Z.ltb_spec m 1); [done|lia].
    + by destruct (use_goal_evaluator cfg).
  - done.
  - intros Hu. by apply bool_decide_eq_false.
Qed.
Lemma loop_config_positive : AgentLoopConfig_check cfg = Ok cfg -> (1 <= max_iterations cfg)%Z.
Proof. unfold AgentLoopConfig_check. by destruct (Z.ltb_spec (max_iterations cfg) 1). Qed.
(** What a run returns, in terms of the variables it ends with. *)
Record returned (r : AgentLoopResult) v : Prop := {
  rt_goal : lr_goal r = lv_goal v;
  rt_plans : lr_selected_plans r = lv_plans v;
  rt_progress : lr_progress r = lv_progress v;
  rt_eval : lr_evaluation r = lv_evaluation v;
  rt_analyses : lr_analyses r = lv_analyses v;
  rt_iterations : (lr_iterations r <= Z.max (max_iterations cfg) (Z.of_nat (length (lv_plans v))))%Z;
}.
Lemma loop_run_ok s x s' :
  rules_ok (tm_policy tm) -> AgentLoopConfig_check cfg = Ok cfg ->
  loop_run tm planner_config provider store evaluators cfg g0 s = (x, s') ->
  exists k, in_budget cfg (init_vars g0) k /\ ran (goal_permits tm (goal_id g0)) k s s' /\
    forall r, x = Ok r -> exists v, returned r v /\ ended v (lr_stop_reason r) s' /\
      progressed (Z.to_nat (max_iterations cfg)) k (init_vars g0) v.
Proof.
  intros Hr Hc. unfold loop_run.
  assert (Hfail : forall e s1, still s s1 -> Raise e = x -> s1 = s' -> exists k, in_budget cfg (init_vars g0) k /\
    ran (goal_permits tm (goal_id g0)) k s s' /\ forall r, x = Ok r -> exists v, returned r v /\
      ended v (lr_stop_reason r) s' /\ progressed (Z.to_nat (max_iterations cfg)) k (init_vars g0) v).
  { intros e s1 K <- <-. exists 0. split_and!; [|by apply still_ran|done]. apply (vk_budget _ s), go_ok, init_going, Hc. }
  intros Hl. apply bind_inv in Hl as [(e & E1 & Hx)|(u & s1 & E1 & Hl)]; apply still_run in E1 as K1;
    try apply audit_still; [by apply (Hfail e s')|].
  apply bind_inv in Hl as [(e & E2 & Hx)|(u2 & s2 & E2 & Hl)]; apply still_run in E2 as K2;
    try apply store_op_still; [apply (Hfail e s'); [by etrans|done|done]|].
  assert (K : still s s2) by (by etrans). clear K1 K2 E1 E2 Hfail.
  destruct (iterations_ok (Z.to_nat (max_iterations cfg)) 1 (init_vars g0) s2 Hr (init_going s2 Hc)) as (k & Hb & Hran & Ho).
  exists k. split; [done|].
  apply bind_inv in Hl as [(e & E3 & ->)|([v why] & s3 & E3 & Hl)]; rewrite E3 in Hran, Ho; cbn [fst snd] in *.
  { split; [|done]. eapply (ran_trans _ 0); [by apply still_ran|done]. }
  destruct (Ho v why eq_refl) as [He Hp].
  match type of Hl with ?m _ = _ => assert (Kr : keeps still m) end.
  { pose proof (fun op cb => store_op_still (X:=X) (G:=G) (P:=P) store op cb).
    pose proof (fun et msg pl => audit_still (X:=X) (G:=G) (P:=P) (R:=R) et msg pl). keeps_auto. }
  apply still_run in Hl as K'; [|exact Kr].
  split; [eapply (ran_trans _ 0); [by apply still_ran|by eapply ran_still]|].
  intros r ->. exists v. unfold bind at 1, gets in Hl. cbv zeta in Hl. do 2 binv Hl. injection Hl as <-.
  split_and!; [|destruct He as [Ev ? ?]; split; [by eapply vars_ok_still|done|done]|done].
  split; simpl; try done. destruct (lv_plans v); simpl; lia.
Qed.

(** C10: a run of the loop is bounded, whatever the provider, the store and the
    tools do and also when it ends in an exception: it never executes more tools than
    [max_tool_calls]; when it returns it has executed at most the steps
    of the selected plans, selected at most [max_iterations] plans, asked for at most
    [max_replans] repairs, and it names one of the seven reasons to stop. *)
Theorem loop_bounded s x s' :
  rules_ok (tm_policy tm) -> AgentLoopConfig_check cfg = Ok cfg ->
  loop_run tm planner_config provider store evaluators cfg g0 s = (x, s') ->
  exists new, t_calls (l_tx s') = t_calls (l_tx s) ++ new /\
    (forall m, al_max_tool_calls cfg = Some m -> (Z.of_nat (executions new) <= m)%Z) /\
    forall r, x = Ok r ->
      executions new <= steps_run (lr_selected_plans r) /\
      (Z.of_nat (length (lr_selected_plans r)) <= max_iterations cfg)%Z /\
      (lr_iterations r <= max_iterations cfg)%Z /\
      (Z.of_nat (length (lr_analyses r)) <= max_replans cfg)%Z /\
      lr_stop_reason r ∈ stop_reasons.
Proof.
  intros Hr Hc Hl. destruct (loop_run_ok s x s' Hr Hc Hl) as (k & Hb & [_ (new & C & _ & E)] & Ho).
  exists new. split_and!; [done| |].
  - intros m Hm. unfold in_budget in Hb. rewrite Hm in Hb. simpl in Hb. lia.
  - intros r Hx. destruct (Ho r Hx) as (v & [_ Ep _ _ Ea Ei] & [[_ Vc _ Va _ _] Hw _] & [Pc Pp]). simpl in *.
    rewrite Ep, Ea. apply loop_config_positive in Hc. split_and!; [lia|lia|lia|done|done].
Qed.

End loop.

(** C4: a run that starts with an unfinished goal and evaluates it with the
    built-in evaluators succeeds exactly when it stops with goal_succeeded,
    and this is the case exactly when it has executed a plan and, in the
    final world state, the goal is achieved by the meaning of its criteria. *)
Theorem loop_success_exact `{PyRuntime} `{JsonSchemaValidator} {X G P R : Type} (tm : TransactionManager X G) pc
    (provider : ProposalProvider X P) (store : option (RuntimeStore R)) cfg g (s s' : LState X G P R) r :
  rules_ok (tm_policy tm) -> AgentLoopConfig_check cfg = Ok cfg -> use_goal_evaluator cfg = true ->
  g_status g <> G_SUCCEEDED ->
  loop_run tm pc provider store default_registry cfg g s = (Ok r, s') ->
  (loop_succeeded r = true <-> lr_stop_reason r = "goal_succeeded") /\
  (loop_succeeded r = true <->
     lr_selected_plans r <> [] /\ goal_achieved g (facts (t_world (l_tx s'))) (lr_progress r)).
Proof.
  intros Hr Hc Hu Hg Hl. destruct (loop_run_ok tm pc provider store default_registry cfg g s _ s' Hr Hc Hl) as (k & _ & _ & Ho).
  destruct (Ho r eq_refl) as (v & [Eg Ep Epr Ee _ _] & [Hv _ Hs] & _).
  assert (E : loop_succeeded r = vars_succeeded v) by (unfold loop_succeeded, vars_succeeded; by rewrite Eg, Ee).
  split; [rewrite E; by apply Hs|]. rewrite E, Ep, Epr. pose proof (vk_eval _ _ _ _ _ Hv) as He. rewrite Hu in He.
  destruct (decide (lv_plans v = [])) as [Hn|Hn].
  - unfold vars_succeeded. destruct (vk_none _ _ _ _ _ Hv Hn) as [-> ->]. rewrite bool_decide_eq_true. naive_solver.
  - destruct (He Hn) as (g' & p & e & Hcore & -> & Hev & Hok).
    destruct (evaluate_default g' (t_world (l_tx s')) (Some p)) as (e' & He' & Hsucc & _).
    rewrite Hok in He'. injection He' as <-. unfold vars_succeeded. rewrite Hev, bool_decide_eq_true, Hsucc.
    pose proof (achieved_core _ _ (facts (t_world (l_tx s'))) (Some p) Hcore). tauto.
Qed.

(** ** A run on the journal tools *)

Definition toy_loop_config : AgentLoopConfig :=
  {| max_iterations := 2; max_replans := 1; al_max_tool_calls := Some 3%Z; memory_scope := "loop"; use_goal_evaluator := true |}.
Definition toy_provider : ProposalProvider (list string) Z := deterministic_provider [toy_proposals].
(** A store that fails to save checkpoints. *)
Definition toy_store : RuntimeStore (list string) := {|
  save_goal := fun g s => (Ok tt, s ++ [goal_id g]);
  save_plan := fun p _ s => (Ok tt, s ++ [plan_id p]);
  append_runtime_event := fun _ s => (Ok tt, s);
  save_checkpoint := fun _ _ s => (Raise (Exn RuntimeError "disk full"), s) |}.
Definition toy_loop_state : LState (list string) unit Z (list string) :=
  {| l_tx := toy_state []; l_memory := empty_store (Some None); l_provider := 0%Z; l_store := [] |}.
Definition toy_tm : TransactionManager (list string) unit := toy_manager developer_engine yes_gate.
Abbreviation toy_loop := (loop_run toy_tm toy_planner_config toy_provider
  (Some toy_store) default_registry toy_loop_config toy_goal toy_loop_state).
Definition toy_result : AgentLoopResult :=
  match fst toy_loop with
  | Ok r => r
  | Raise _ => {| lr_goal := toy_goal; lr_stop_reason := ""; lr_iterations := 0; lr_selected_plans := [];
                  lr_progress := None; lr_evaluation := None; lr_analyses := [] |}
  end.
Lemma toy_loop_returns : fst toy_loop = Ok toy_result.
Proof. vm_compute. reflexivity. Qed.
Example toy_loop_effects :
  (lr_stop_reason toy_result, map plan_id (lr_selected_plans toy_result), t_env (l_tx (snd toy_loop)),
   l_store (snd toy_loop), executions (t_calls (l_tx (snd toy_loop)))) =
  ("goal_succeeded", ["id-7"], ["one"], ["goal-1"; "id-7"], 1).
Proof. vm_compute. reflexivity. Qed.

Lemma loop_bounded_witness :
  exists new, t_calls (l_tx (snd toy_loop)) = [] ++ new /\ (Z.of_nat (executions new) <= 3)%Z.
Proof.
  destruct (loop_bounded toy_tm toy_planner_config toy_provider (Some toy_store) default_registry
    toy_loop_config toy_goal toy_loop_state (fst toy_loop) (snd toy_loop)) as (new & C & E & _);
    [constructor|reflexivity|apply surjective_pairing|].
  exists new. split; [exact C|]. exact (E 3%Z eq_refl).
Defined.
Lemma loop_success_exact_witness :
  lr_selected_plans toy_result <> [] /\
  goal_achieved toy_goal (facts (t_world (l_tx (snd toy_loop)))) (lr_progress toy_result).
Proof.
  apply (loop_success_exact toy_tm toy_planner_config toy_provider (Some toy_store)
    toy_loop_config toy_goal toy_loop_state (snd toy_loop) toy_result);
    [constructor|reflexivity|reflexivity|discriminate|apply run_ok, toy_loop_returns|vm_compute; reflexivity].
Defined.
