(* ===== verification/CoreProps.v ===== *)
(** Properties of the components below the transaction manager: sanitizer,
    goals, world state, contracts, egress, policy, approval and gates. *)
From S2P Require Import Prelude Enums PyValue Sanitization Goals Plans Tools AuditTrail Causal Egress Policy Approval Gates Transactions Fixtures TxSafety Serialization.

(** ** The secret boundary *)

(** REJECT mode accepts exactly the values in which no [Secret] object and
    no secret-like string or mapping key occurs, at any depth; REDACT mode
    accepts every value; and what either mode lets through is plain JSON. *)
Theorem sanitizer_exact p v :
  is_ok (sanitize_for_boundary REJECT p v) = negb (has_secret_like v) /\
  is_ok (sanitize_for_boundary REDACT p v) = true /\
  forall m w, sanitize_for_boundary m p v = Ok w -> is_json w = true.
Proof.
  split_and!; [apply sanitize_reject_ok|apply sanitize_redact_total|intros m w; apply sanitize_is_json].
Qed.

(** A plain value that passed the REJECT boundary crosses every later
    boundary, in either mode, unchanged: sanitizing is idempotent and data
    without secrets is never altered twice. *)
Theorem sanitizer_idempotent p v w m p' :
  json_like v = true -> sanitize_for_boundary REJECT p v = Ok w -> sanitize_for_boundary m p' w = Ok w.
Proof. intros Hj Hw. by eapply sanitize_clean_id, sanitize_reject_clean. Qed.
Lemma sanitizer_idempotent_witness :
  sanitize_for_boundary REDACT "$.x" (VDict [("path", VStr "a.txt"); ("n", VList [VInt 1])]) =
  Ok (VDict [("path", VStr "a.txt"); ("n", VList [VInt 1])]).
Proof.
  apply (sanitizer_idempotent "$" (VDict [("path", VPath "a.txt"); ("n", VTuple [VInt 1])])); vm_compute; reflexivity.
Defined.

(** ** Goals *)

(** along any sequence of goal transitions the goal keeps its identity and
    budget, CREATED is never entered again, and a succeeded, cancelled or
    archived goal either stays as it is or ends archived. *)
Theorem goal_lifecycle g g' :
  rtc goal_step g g' ->
  goal_id g' = goal_id g /\ budget g' = budget g /\
  (g_status g' = G_CREATED -> g' = g) /\
  (settled (g_status g) = true -> g' = g \/ g_status g' = G_ARCHIVED).
Proof.
  induction 1 as [g|g1 g2 g3 Hstep Hr (IHi & IHb & IHc & IHs)]; [naive_solver|].
  pose proof (goal_step_id _ _ Hstep) as [Hi Hb]. pose proof (goal_step_not_created _ _ Hstep) as Hc.
  split_and!; [congruence|congruence| |].
  - intros H3. specialize (IHc H3). congruence.
  - intros Hs. pose proof (goal_step_settled _ _ Hstep Hs) as Ha. rewrite Ha in IHs.
    destruct (IHs eq_refl) as [->|]; by right.
Qed.
Lemma goal_lifecycle_witness :
  let g := set_g_status G_SUCCEEDED toy_goal in let g' := set_g_status G_ARCHIVED toy_goal in
  goal_id g' = goal_id g /\ budget g' = budget g /\ (g_status g' = G_CREATED -> g' = g) /\
  (settled (g_status g) = true -> g' = g \/ g_status g' = G_ARCHIVED).
Proof.
  apply (goal_lifecycle (set_g_status G_SUCCEEDED toy_goal)). eapply rtc_once.
  apply (goal_step_intro _ G_ARCHIVED). reflexivity.
Defined.

(** ** World state *)

Inductive world_step : relation WorldState :=
| ws_set_fact w k v t : world_step w (set_fact k v t w)
| ws_observe w d t : world_step w (observe d t w)
| ws_mark_trust w ks t : world_step w (mark_trust ks t w)
| ws_set_assumption w k v t u : world_step w (set_assumption k v t u w)
| ws_promote w k t w' : promote_assumption k t w = Ok w' -> world_step w w'.

(** starting from the empty world, whatever sequence of operations is
    performed, every fact and every assumption has a trust level. *)
Theorem world_trust_complete w : rtc world_step empty_world w -> trust_complete w.
Proof.
  intros Hr. assert (Hgen : forall w0 w1, rtc world_step w0 w1 -> trust_complete w0 -> trust_complete w1).
  { induction 1 as [|x y z Hxy _ IH]; [done|]. intros Hx. apply IH. destruct Hxy.
    - by apply set_fact_trust_complete.
    - by apply observe_trust_complete.
    - by apply mark_trust_trust_complete.
    - by apply set_assumption_trust_complete.
    - by eapply promote_trust_complete. }
  eapply Hgen; [exact Hr|]. apply trust_complete_empty.
Qed.
Lemma world_trust_complete_witness :
  trust_complete (mark_trust ["k"] TL_VERIFIED (set_fact "k" VNone TL_OBSERVED empty_world)).
Proof.
  apply world_trust_complete. eapply rtc_l; [apply (ws_set_fact _ "k" VNone TL_OBSERVED)|].
  eapply rtc_once. apply ws_mark_trust.
Defined.

(** ** Causal contracts and predictions *)

(** the causal checks say what they mean: no required observation is
    missing and no field violated exactly when every required observation is
    present and every field requirement is met, and the verification of
    predictions succeeds exactly when each predicted variable was observed
    with the predicted value (or the prediction only said that it changes). *)
Theorem causal_checks_exact c args preds result :
  let delta := observed_state_delta result in
  (missing_required_observations c delta = [] <->
     forall k, k ∈ cc_required_observations c -> dmem k delta = true) /\
  (field_violations c delta (Some args) = [] <-> Forall (requirement_met delta args) (cc_required_fields c)) /\
  (ok (verify preds result) = true <-> Forall (prediction_holds delta) preds).
Proof. split_and!; [apply missing_required_nil|apply field_violations_nil|apply verify_ok]. Qed.

(** ** Egress *)

Section core.
Context `{PyRuntime}.

(** The runtime guard fails closed: it allows a URL only when it was
    explicitly made unrestricted, or when a policy is configured whose
    allow-lists contain the URL's host and the method, the host having no
    wildcard and not being a loopback, private or otherwise special address. *)
Theorem egress_fails_closed (hostname : string -> option string) g url method d :
  require_url hostname g url method = Ok d ->
  reg_allow_unrestricted g = true \/
  exists p, reg_policy g = Some p /\ let host := py_lower (py_strip (red_host d)) in
    host <> "" /\ str_in "*" host = false /\ host_is_blocked_address host = false /\
    host ∈ map py_lower (allowed_hosts p) /\ py_upper (py_strip (red_method d)) ∈ map py_upper (allowed_methods p).
Proof.
  unfold require_url, check_url. intros Hr.
  destruct (reg_allow_unrestricted g); [by left|]. right.
  destruct (reg_policy g) as [p|]; [|done]. exists p. split; [done|].
  repeat case_match; simplify_eq/=.
  match goal with Ha : negb _ = false |- _ => apply negb_false_iff in Ha; rewrite allows_inv in Ha end.
  by destruct_and?; split_and!.
Qed.

(** ** Policy decisions *)

Context {St : Type} `{HasSys St}.

(** An approval that the policy engine gives by itself is justified: no
    rule matched the step, none of its permissions is denied, and under the
    engine's own grants or those of a matching capability grant every required
    permission is granted and free of a human requirement, the risk is within
    the bound, and a consequential step is fully reversible. *)
Theorem policy_approval_sound e uses st (s s' : St) dr :
  rules_ok e -> decide_step e uses st s = (Ok dr, s') -> dr_decision dr = APPROVED -> policy_approves e st.
Proof. apply decide_approved. Qed.

(** the exact decision of an engine without rules and principal: DENIED if
    a required permission is denied, else APPROVED if the step can be approved
    automatically, else NEEDS_HUMAN. *)
Theorem policy_default_decision e uses st (s : St) :
  rules e = [] -> principal e = None ->
  exists dr, fst (decide_step e uses st s) = Ok dr /\
    (dr_decision dr = DENIED <-> exists p, p ∈ required_permissions st /\ p ∈ deny_permissions e) /\
    (dr_decision dr = APPROVED <->
       (forall p, p ∈ required_permissions st -> p ∉ deny_permissions e) /\
       auto_approvable e st (granted_permissions e) (max_auto_risk e)).
Proof.
  intros Hr Hp. apply ungranted_decision; [done|]. unfold matching_grant. by rewrite Hp.
Qed.

(** ** Approval *)

(** A human decision is accepted exactly when it names the packet, carries
    the packet's step hash, which is also the hash of the step about to
    execute, was given for the profile in force, has not expired and approves. *)
Theorem approval_validation_exact p d h profile (s : St) :
  fst (validate_approval_decision p d h profile s) = Ok None <->
  approval_valid p d h profile (time_at (n_time (sys_of s))).
Proof. apply validate_valid. Qed.

(** a packet survives the exchange format: reading back the mapping of a
    packet yields the same packet. *)
Theorem approval_packet_roundtrip now p : packet_from_mapping now (packet_as_dict p) = Ok p.
Proof. apply packet_roundtrip. Qed.
End core.

Lemma egress_fails_closed_witness :
  let p := {| allowed_hosts := ["API.github.com"]; allowed_methods := ["GET"]; max_requests := None |} in
  let g := {| reg_policy := Some p; reg_allow_unrestricted := false |} in
  let d := check_url (fun _ => Some "api.github.com") g "https://api.github.com/x" "get" in
  reg_allow_unrestricted g = true \/
  exists q, reg_policy g = Some q /\ let host := py_lower (py_strip (red_host d)) in
    host <> "" /\ str_in "*" host = false /\ host_is_blocked_address host = false /\
    host ∈ map py_lower (allowed_hosts q) /\ py_upper (py_strip (red_method d)) ∈ map py_upper (allowed_methods q).
Proof.
  intros p g d. apply (egress_fails_closed (fun _ => Some "api.github.com") g "https://api.github.com/x" "get").
  vm_compute. reflexivity.
Defined.
Lemma policy_approval_sound_witness :
  policy_approves developer_engine (hydrate (journal_spec "append" [WRITE_FILES] REVERSIBLE) (toy_step 1 "append" "x")).
Proof.
  eapply (policy_approval_sound developer_engine (fun _ => 0%Z) _ sys0); [by constructor|apply run_ok|];
    vm_compute; reflexivity.
Defined.
Lemma policy_default_decision_witness :
  exists dr, fst (decide_step developer_engine (fun _ => 0%Z) (toy_step 1 "append" "x") sys0) = Ok dr /\
    (dr_decision dr = DENIED <->
       exists p, p ∈ required_permissions (toy_step 1 "append" "x") /\ p ∈ deny_permissions developer_engine) /\
    (dr_decision dr = APPROVED <->
       (forall p, p ∈ required_permissions (toy_step 1 "append" "x") -> p ∉ deny_permissions developer_engine) /\
       auto_approvable developer_engine (toy_step 1 "append" "x") (granted_permissions developer_engine)
         (max_auto_risk developer_engine)).
Proof. by apply policy_default_decision. Defined.

(** ** Gates *)

Section gates.
Context `{PyRuntime} {G : Type} (gate : ApprovalGate G) (spent : string -> G -> Prop) `{!AntiReplay gate spent}.

(** One use of a gate by the transaction manager, and the approval id it
    consumed successfully, if any. *)
Inductive gate_use : G * nat -> option string -> G * nat -> Prop :=
| gu_prepare p st s : gate_use s None (snd (prepare_packet gate p st s))
| gu_request p st s : gate_use s None (snd (request_packet gate p st s))
| gu_consumed p d st s s' : consume_approval gate p d st s = (Ok None, s') -> gate_use s (Some (ap_approval_id p)) s'
| gu_refused p d st s r s' :
    consume_approval gate p d st s = (r, s') -> r <> Ok None -> gate_use s None s'.
(** A history of uses with the consumed ids, first first. *)
Inductive gate_history : G * nat -> list string -> G * nat -> Prop :=
| gh_nil s : gate_history s [] s
| gh_cons s o s1 l s2 :
    gate_use s o s1 -> gate_history s1 l s2 ->
    gate_history s (match o with Some i => i :: l | None => l end) s2.

Lemma gate_use_spent s o s' i : gate_use s o s' -> spent i s.1 -> spent i s'.1.
Proof.
  intros [p st s0|p st s0|p d st s0 s1 E|p d st s0 r s1 E _] Hi.
  - by apply prepare_spent.
  - by apply request_spent.
  - pose proof (consume_spent p d st s0 i Hi) as Hs. by rewrite E in Hs.
  - pose proof (consume_spent p d st s0 i Hi) as Hs. by rewrite E in Hs.
Qed.
Lemma gate_history_fresh s l s' i : gate_history s l s' -> spent i s.1 -> i ∉ l.
Proof.
  induction 1 as [s|s o s1 l s2 Hu Hh IH]; intros Hi; [apply not_elem_of_nil|].
  pose proof (gate_use_spent _ _ _ _ Hu Hi) as H1. destruct o as [j|]; [|by apply IH].
  apply not_elem_of_cons. split; [|by apply IH]. intros ->.
  inversion Hu as [| |p d st s0 s0' E|]; subst. apply (consume_fresh p d st s s1) in E as [Hn _]. done.
Qed.

End gates.



(** ** What an approving decision of the file exchange went through *)

Section file_gate.
Context `{PyRuntime}.

Lemma new_decision_value {G} p v a w (s : G * nat) d s' : new_decision p v a w s = (Ok d, s') -> ad_decision d = v.
Proof. destruct s. by intros [= <- _]. Qed.
Lemma read_decision_approve c p f s d s' :
  read_decision c p f s = (Ok d, s') -> ad_decision d = AD_APPROVE ->
  decision_file_permission_issue c f = None /\ approver_allowlist_issue c d = None /\
  exists data, read_json f = Ok data /\ signature_issue c d data = Ok None.
Proof.
  unfold read_decision. intros Hr Hd.
  destruct (decision_file_permission_issue c f); [apply new_decision_value in Hr; congruence|split; [done|]].
  apply bind_inv in Hr as [(? & _ & ?)|(data & s1 & Hj & Hr)]; [done|]. unfold of_res in Hj. simplify_eq.
  apply bind_inv in Hr as [(? & _ & ?)|(d1 & s2 & Hm & Hr)]; [done|].
  destruct (approver_allowlist_issue c d1) eqn:Ea; [apply new_decision_value in Hr; congruence|].
  apply bind_inv in Hr as [(? & _ & ?)|(issue & s3 & Hi & Hr)]; [done|]. unfold of_res in Hi. simplify_eq.
  destruct issue; [apply new_decision_value in Hr; congruence|].
  assert (d1 = d) as -> by (destruct s3, (fc_require_signature c); by inversion Hr).
  split; [done|by exists data].
Qed.
Lemma permission_issue_none c f :
  decision_file_permission_issue c f = None -> fc_require_private_decision_files c = true ->
  exists m, df_mode f = Some m /\ Z.land m 63 = 0%Z.
Proof.
  unfold decision_file_permission_issue. intros Hi Hc. rewrite Hc in Hi. simpl in Hi.
  destruct (df_mode f) as [m|]; [|done]. exists m. split; [done|]. destruct (Z.eqb_spec (Z.land m 63) 0); done.
Qed.
Lemma allowlist_issue_none c d allowed :
  approver_allowlist_issue c d = None -> fc_allowed_approvers c = Some allowed ->
  exists a, ad_approver d = Some a /\ a ∈ allowed.
Proof.
  unfold approver_allowlist_issue. intros Hi E. rewrite E in Hi. destruct (ad_approver d) as [a|]; [|done].
  exists a. split; [done|]. apply str_mem_elem. by destruct (str_mem a allowed).
Qed.
Lemma safe_approval_id_ok i j : safe_approval_id i = Ok j -> j = i.
Proof.
  unfold safe_approval_id. destruct (filter_chars id_char i =? ""); [done|].
  destruct (String.eqb_spec (filter_chars id_char i) i); [|done]. simpl. congruence.
Qed.
Lemma signature_issue_none c d data :
  signature_issue c d data = Ok None -> fc_require_signature c = true ->
  exists secret v, fc_signature_secret c = Some secret /\ secret <> "" /\
    dget "signature" data = Some v /\ as_str v = Some (sign_approval_decision d secret).
Proof.
  unfold signature_issue, verify_approval_decision_signature. intros Hi E. rewrite E in Hi.
  destruct (fc_signature_secret c) as [secret|]; [|done]. cbn [negb default] in Hi. unfold default, id in Hi.
  destruct (String.eqb_spec secret ""); [done|]. exists secret.
  destruct (dget "signature" data) as [v|]; [|done]. exists v.
  destruct v as [| | | |sig|? ? sig| | | | | | | | | |]; try done;
    (destruct (sig =? ""); [done|]; destruct (is_ascii sig); [|done]; cbn [res_map] in Hi;
     destruct (String.eqb_spec (sign_approval_decision d secret) sig); [subst sig; by split_and!|done]).
Qed.

(** C40: when the file gate answers with an approval, a decision file for
    exactly this approval id was present, its mode bits gave no access to group
    or others (if private files are required), its approver is on the allow-list
    (if there is one), and its signature field is the HMAC of the decision under
    the gate's non-empty secret (if signatures are required). *)
Theorem file_gate_approval_checked c p s d s' :
  file_request_packet c p s = (Ok d, s') -> ad_decision d = AD_APPROVE ->
  exists f data, dget (ap_approval_id p +:+ ".json") (fg_decision_dir s.1) = Some f /\ read_json f = Ok data /\
    (fc_require_private_decision_files c = true -> exists m, df_mode f = Some m /\ Z.land m 63 = 0%Z) /\
    (forall allowed, fc_allowed_approvers c = Some allowed -> exists a, ad_approver d = Some a /\ a ∈ allowed) /\
    (fc_require_signature c = true -> exists secret v, fc_signature_secret c = Some secret /\ secret <> "" /\
       dget "signature" data = Some v /\ as_str v = Some (sign_approval_decision d secret)).
Proof.
  intros Hr Hd. destruct s as [g n]. unfold file_request_packet in Hr.
  apply bind_inv in Hr as [(? & _ & ?)|([] & s1 & [= <-] & Hr)]; [done|].
  apply bind_inv in Hr as [(? & _ & ?)|(i & s2 & Hi & Hr)]; [done|]. unfold of_res in Hi. simplify_eq.
  match goal with Hi : _ = Ok _ |- _ => apply safe_approval_id_ok in Hi as -> end.
  apply bind_inv in Hr as [(? & _ & ?)|([] & s3 & [= <-] & Hr)]; [done|].
  apply bind_inv in Hr as [(? & _ & ?)|(g' & s4 & [= <- <-] & Hr)]; [done|]. simpl in Hr.
  destruct (dget _ (fg_decision_dir g)) as [f|] eqn:Ef; [|apply new_decision_value in Hr; congruence].
  apply read_decision_approve in Hr as (Hp & Ha & data & Hj & Hs); [|done].
  exists f, data. split_and!; [done|done|by apply permission_issue_none| |by apply signature_issue_none].
  intros allowed. by apply allowlist_issue_none.
Qed.
End file_gate.

Lemma file_gate_approval_checked_witness :
  exists f data, dget "approval-1.json" (fg_decision_dir toy_file_gate) = Some f /\ read_json f = Ok data /\
    (fc_require_private_decision_files toy_gate_config = true -> exists m, df_mode f = Some m /\ Z.land m 63 = 0%Z) /\
    (forall allowed, fc_allowed_approvers toy_gate_config = Some allowed ->
       exists a, ad_approver toy_decision = Some a /\ a ∈ allowed) /\
    (fc_require_signature toy_gate_config = true -> exists secret v,
       fc_signature_secret toy_gate_config = Some secret /\ secret <> "" /\
       dget "signature" data = Some v /\ as_str v = Some (sign_approval_decision toy_decision secret)).
Proof.
  eapply (file_gate_approval_checked toy_gate_config toy_packet (toy_file_gate, 0)); [apply run_ok|];
    vm_compute; reflexivity.
Defined.

(** ** Plans as JSON *)

Section json_plans.
Context `{PyRuntime}.

(** C38: storing a plan as JSON is faithful.  It succeeds exactly when every
    argument, criterion value and condition value is JSON data, with
    SerializationError otherwise; reading the document back yields the plan
    with those values in JSON form (predictions and creation time are not
    stored), and writing that plan again gives the same document. *)
Theorem plan_json_roundtrip p now :
  plan_wf p ->
  is_ok (serialize_plan p) = jsonable (plan_data p) /\
  match serialize_plan p with
  | Ok doc => is_json doc = true /\ deserialize_plan now doc = Some (Ok (restored_plan now p)) /\
      serialize_plan (restored_plan now p) = Ok doc
  | Raise e => exn_cls e = SerializationError
  end.
Proof.
  intros Hp. split; [rewrite <-json_doc_ok; unfold serialize_plan; by destruct (json_doc _)|].
  destruct (serialize_plan p) as [doc|e] eqn:Es.
  - split_and!; [|by apply plan_read|by apply plan_rewrite].
    revert Es. unfold serialize_plan. destruct (json_doc (plan_data p)) as [d|] eqn:E; [|done]. intros [= <-].
    by eapply json_doc_json.
  - revert Es. unfold serialize_plan. destruct (json_doc _); [done|]. by intros [= <-].
Qed.
End json_plans.

Lemma plan_json_roundtrip_witness :
  is_ok (serialize_plan toy_plan_obj) = jsonable (plan_data toy_plan_obj) /\
  match serialize_plan toy_plan_obj with
  | Ok doc => is_json doc = true /\ deserialize_plan fone doc = Some (Ok (restored_plan fone toy_plan_obj)) /\
      serialize_plan (restored_plan fone toy_plan_obj) = Ok doc
  | Raise e => exn_cls e = SerializationError
  end.
Proof. apply (plan_json_roundtrip toy_plan_obj fone). split_and!; [reflexivity|constructor|intros b [=]]. Defined.
