(* ===== verification/GateTheory.v ===== *)
(** The gate over a run of a plan: what the methods of the gate keep, the run keeps; a verified step that the policy does
    not approve by itself has consumed an approval. *)
From S2P Require Import Prelude Enums PyValue Sanitization Goals Plans Tools AuditTrail Causal Egress Policy Approval Gates Transactions TxInvariants TxSafety TxOutcome TxProps.

(** ** A relation that every method of the gate keeps *)

Section kept.
Context `{PyRuntime} `{JsonSchemaValidator} {X G : Type}.
Context (tm : TransactionManager X G) (R : relation G) `{!PreOrder R}.
Record gate_keeps : Prop := {
  gk_prepare : forall p st x, R x.1 (snd (prepare_packet (tm_gate tm) p st x)).1;
  gk_request : forall p st x, R x.1 (snd (request_packet (tm_gate tm) p st x)).1;
  gk_consume : forall p d st x, R x.1 (snd (consume_approval (tm_gate tm) p d st x)).1;
}.
Context (Hgate : gate_keeps).
Implicit Types s : TState X G.

Definition gate_kept s s' : Prop := R (t_gate s) (t_gate s').
Abbreviation GK := (keeps gate_kept).
#[export] Instance gate_kept_preorder : PreOrder gate_kept.
Proof. split; [intros s; unfold gate_kept; reflexivity|]. intros x y z H1 H2. unfold gate_kept in *. by etrans. Qed.
Lemma gate_untouched {A} (m : M (TState X G) exn A) : (forall s, t_gate (snd (m s)) = t_gate s) -> GK m.
Proof. intros Hm s. unfold gate_kept. by rewrite Hm. Qed.
Lemma lift_gate_kept {A} (m : GM G A) : (forall x : G * nat, R x.1 (snd (m x)).1) -> GK (lift_gate m).
Proof.
  intros Hm s. unfold gate_kept, lift_gate. specialize (Hm (t_gate s, n_time (t_sys s))).
  by destruct (m _) as [r [g n]].
Qed.
Lemma prepare_gk p st : GK (lift_gate (prepare_packet (tm_gate tm) p st)).
Proof. apply lift_gate_kept, Hgate. Qed.
Lemma request_gk p st : GK (lift_gate (request_packet (tm_gate tm) p st)).
Proof. apply lift_gate_kept, Hgate. Qed.
Lemma consume_gk p d st : GK (lift_gate (consume_approval (tm_gate tm) p d st)).
Proof. apply lift_gate_kept, Hgate. Qed.
Lemma audit_gk et msg pl : GK (audit et msg pl).
Proof. by apply gate_untouched. Qed.
Lemma time_gk : GK time_time.
Proof. by apply gate_untouched. Qed.
Lemma uuid_gk : GK uuid4.
Proof. by apply gate_untouched. Qed.
Lemma world_gk f : keeps (E:=exn) gate_kept (modify (fun s => with_world (f s) s)).
Proof. by apply gate_untouched. Qed.
Lemma uses_gk f : keeps (E:=exn) gate_kept (modify (fun s => with_uses (f s) s)).
Proof. by apply gate_untouched. Qed.
Lemma stack_gk f : keeps (E:=exn) gate_kept (modify (fun s => with_stack (f s) s)).
Proof. by apply gate_untouched. Qed.
Lemma stack_const_gk k : keeps (E:=exn) gate_kept (modify (with_stack k)).
Proof. by apply gate_untouched. Qed.
Lemma plan_const_gk p : keeps (E:=exn) gate_kept (modify (with_plan p)).
Proof. by apply gate_untouched. Qed.
Lemma upd_gk i f : GK (upd_step i f).
Proof. by apply gate_untouched. Qed.
Lemma status_gk i v : GK (put_status i v).
Proof. by apply gate_untouched. Qed.
Lemma get_gk i : GK (get_step i).
Proof. by apply gate_untouched. Qed.
Lemma call_gk k i st t args : GK (call_tool k i st t args).
Proof. apply gate_untouched. intros s. unfold call_tool. by destruct (_ args _) as [r [e w]]. Qed.
#[local] Hint Resolve prepare_gk request_gk consume_gk audit_gk time_gk uuid_gk world_gk uses_gk stack_gk stack_const_gk
  plan_const_gk upd_gk status_gk get_gk call_gk : keeps.

Lemma recovery_gk st ts why : GK (record_manual_recovery tm st ts why).
Proof. unfold record_manual_recovery, recovery_build. keeps_auto. Qed.
#[local] Hint Resolve recovery_gk : keeps.
Lemma rollback_one_gk t token i : GK (rollback_one tm t token i).
Proof. unfold rollback_one. keeps_auto. Qed.
#[local] Hint Resolve rollback_one_gk : keeps.
Lemma rollback_loop_gk k a b : GK (rollback_loop tm k a b).
Proof.
  revert a b. induction k as [|[[t token] i] k IH]; intros a b; cbn [rollback_loop]; [keeps_auto|].
  apply keeps_bind; [apply _|keeps_auto|intros _]. apply keeps_bind; [apply _|keeps_auto|intros []]; apply IH.
Qed.
#[local] Hint Resolve rollback_loop_gk : keeps.
Lemma stop_gk {A} i v evs : GK (stop (A:=A) tm i v evs).
Proof. unfold stop, audit_all, rollback_all. keeps_auto. Qed.
#[local] Hint Resolve stop_gk : keeps.
Lemma plan_goal_gk v : GK (transition_plan_goal v).
Proof. unfold transition_plan_goal, transition_to. keeps_auto. Qed.
Lemma attestation_gk st t : GK (runtime_attestation_block_reason tm st t).
Proof. unfold runtime_attestation_block_reason. keeps_auto. Qed.
Lemma budget_record_gk i msg pl : GK (record_budget_exceeded i msg pl).
Proof. unfold record_budget_exceeded. keeps_auto. Qed.
#[local] Hint Resolve plan_goal_gk attestation_gk budget_record_gk : keeps.
Lemma budget_loop_gk b l fw nr : GK (budget_loop tm b l fw nr).
Proof.
  revert fw nr. induction l as [|i l IH]; intros fw nr; cbn [budget_loop]; [keeps_auto|].
  apply keeps_bind; [apply _|keeps_auto|intros st].
  destruct (registry_get _ _) as [t|e]; [|keeps_auto].
  apply keeps_bind; [apply _|keeps_auto|intros _].
  apply keeps_bind; [apply _|keeps_auto|intros st'].
  repeat (match goal with |- keeps _ (if ?b then _ else _) => destruct b end); try apply IH; keeps_auto.
Qed.
Lemma guards_gk i st t : GK (step_guards tm i st t).
Proof.
  unfold step_guards, audit_egress, check_attestation, check_production, check_sandbox, check_secrets,
    predict_and_review, review, check_idempotency, check_preconditions. keeps_auto.
Qed.
Lemma find_grant_gk n gs uses who tool : GK (find_grant n gs uses who tool).
Proof. revert n. induction gs as [|g gs IH]; intros n; simpl; unfold applies_to; keeps_auto; apply IH. Qed.
#[local] Hint Resolve budget_loop_gk guards_gk find_grant_gk : keeps.
Lemma decide_step_gk e uses st : GK (decide_step e uses st).
Proof. unfold decide_step, matching_grant. keeps_auto. Qed.
Lemma packet_gk plan st ts sum pr who ex : GK (build_approval_packet plan st ts sum pr who ex).
Proof. unfold build_approval_packet. keeps_auto. Qed.
Lemma validate_gk p d h pr : GK (validate_approval_decision p d h pr).
Proof. unfold validate_approval_decision. keeps_auto. Qed.
#[local] Hint Resolve decide_step_gk packet_gk validate_gk : keeps.
Lemma authorize_gk i st t args : GK (authorize tm i st t args).
Proof.
  unfold authorize, human_approval, request_approval, check_signed_gate, prepare_step_packet, decide_packet,
    use_approval, dry_run_step. keeps_auto.
Qed.
Lemma execute_gk i st t args : GK (execute_step tm i st t args).
Proof. unfold execute_step. keeps_auto. Qed.
Lemma checks_gk i st t preds r : GK (step_checks tm i st t preds r).
Proof.
  unfold step_checks, check_output, check_contract, observe_and_verify, check_postconditions, finish_step,
    record_grant_use, record_idempotency_key, matching_grant. keeps_auto.
Qed.
Lemma resolve_gk i : GK (resolve_tool tm i).
Proof. unfold resolve_tool. keeps_auto. Qed.
#[local] Hint Resolve authorize_gk execute_gk checks_gk resolve_gk : keeps.
Lemma run_step_gk i : GK (run_step tm i).
Proof. unfold run_step. keeps_auto. Qed.
Lemma run_steps_gk l : GK (run_steps tm l).
Proof.
  induction l as [|i l IH]; simpl; [keeps_auto|].
  apply keeps_bind; [apply _|apply run_step_gk|intros [u|]; [exact IH|keeps_auto]].
Qed.
#[local] Hint Resolve run_steps_gk : keeps.
Lemma execute_plan_gk : GK (execute_plan tm).
Proof. unfold execute_plan, budget_exceeded, finish_plan. keeps_auto. Qed.

Lemma gk_at {A} (m : M (TState X G) exn A) s r s' : GK m -> m s = (r, s') -> gate_kept s s'.
Proof. intros Hk Hm. specialize (Hk s). by rewrite Hm in Hk. Qed.

(** ** What a successful step took from the gate *)

(** Between [s] and [s'] the gate prepared a packet for the step, decided on it and consumed it; the decision is valid for
    the step as it is in the plan of [s]. *)
Record taken_with (ts : ToolSpec) (st : ActionStep) s s' (p : ApprovalPacket) (d : ApprovalDecision) : Prop := {
  tw_prepared : exists p0 x, R (t_gate s) x.1 /\ fst (prepare_packet (tm_gate tm) p0 st x) = Ok p;
  tw_decided : exists x, R (t_gate s) x.1 /\ fst (request_packet (tm_gate tm) p st x) = Ok d;
  tw_valid : exists now, approval_valid p d (build_step_hash (goal_id (p_goal (t_plan s))) (plan_id (t_plan s)) st ts)
                           (profile_name (tm_policy tm)) now;
  tw_consumed : exists o x x', R (t_gate s) x.1 /\ consume_approval (tm_gate tm) p d st x = (Ok o, x') /\ nonempty o = None /\
                               R x'.1 (t_gate s');
}.
Definition approval_taken (ts : ToolSpec) (st : ActionStep) s s' : Prop := exists p d, taken_with ts st s s' p d.
Definition same_ids s s' : Prop :=
  goal_id (p_goal (t_plan s')) = goal_id (p_goal (t_plan s)) /\ plan_id (t_plan s') = plan_id (t_plan s).
#[local] Instance same_ids_preorder : PreOrder same_ids.
Proof. split; [done|]. unfold same_ids. intros x y z [? ?] [? ?]. split; congruence. Qed.
Lemma ids_at {A} (m : M (TState X G) exn A) s r s' :
  keeps (grows (fun _ => True)) m -> m s = (r, s') -> same_ids s s'.
Proof. intros Hk Hm. eapply same_plan_ids, keeps_at; [exact Hk|exact Hm]. Qed.
Lemma taken_weaken ts st s0 s s' s1 :
  gate_kept s0 s -> same_ids s0 s -> approval_taken ts st s s' -> gate_kept s' s1 -> approval_taken ts st s0 s1.
Proof.
  intros Ha [Hg Hp] (p & d & [(p0 & x & ? & ?) (y & ? & ?) Hv (o & z & z' & ? & ? & ? & ?)]) Hb.
  rewrite Hg, Hp in Hv. unfold gate_kept in *. exists p, d. split.
  - exists p0, x. split; [by etrans|done].
  - exists y. split; [by etrans|done].
  - done.
  - exists o, z, z'. split_and!; [by etrans|done|done|by etrans].
Qed.

Lemma decide_packet_request i st ts dr p s d s' :
  decide_packet tm i st ts dr p s = (Ok (Some d), s') ->
  exists x, x.1 = t_gate s /\ fst (request_packet (tm_gate tm) p st x) = Ok d.
Proof.
  unfold decide_packet. intros Hd. binv Hd. injection Hm as _ <-. binv Hd. unfold lift_gate in Hm.
  match type of Hm with context [request_packet _ p st ?x] => exists x; split; [done|]; destruct (request_packet (tm_gate tm) p st x) as [r [g n]] eqn:Er end.
  injection Hm as -> <-. simpl. f_equal. binv Hd. binv Hd. binv Hd. destruct (nonempty _); [by apply stop_not_some in Hd|].
  by injection Hd as ->.
Qed.
Lemma request_taken i st t dr dry s s' :
  request_approval tm i st t dr dry s = (Ok (Some tt), s') -> approval_taken (spec t) st s s'.
Proof.
  unfold request_approval. intros Hr. apply step_inv in Hr as (u & s1 & E1 & Hr).
  assert (I1 : same_ids s s1) by (eapply ids_at; [by apply signed_gate_grows|exact E1]).
  apply (gk_at) in E1; [|unfold check_signed_gate; keeps_auto].
  binv Hr. injection Hm as _ <-. binv Hr.
  assert (I2 : same_ids s1 s0) by (eapply ids_at; [by apply build_packet_grows|exact Hm]).
  apply gk_at in Hm; [|keeps_auto].
  apply step_inv in Hr as (p & s3 & E3 & Hr).
  assert (Hs : gate_kept s s0) by (by etrans).
  unfold prepare_step_packet in E3. apply bind_inv in E3 as [(e & _ & ?)|(x & s4 & E4 & E3)]; [done|].
  destruct x as [p'|e]; [|by apply stop_not_some in E3]. injection E3 as -> <-.
  unfold catch, bind, lift_gate in E4.
  destruct (prepare_packet (tm_gate tm) a0 st (t_gate s0, n_time (t_sys s0))) as [[q|e] [g n]] eqn:Ep; [|done].
  injection E4 as <- <-. set (s4 := with_gate g n s0) in Hr.
  assert (H4 : gate_kept s s4).
  { pose proof (gk_prepare Hgate a0 st (t_gate s0, n_time (t_sys s0))) as Hp. rewrite Ep in Hp. unfold gate_kept in *. by etrans. }
  assert (I4 : same_ids s s4) by (etrans; [exact I1|exact I2]). clearbody s4.
  apply step_inv in Hr as (d & s5 & E5 & Hr).
  pose proof (decide_packet_inv tm _ _ _ _ _ _ _ _ E5) as Hvalid. destruct I4 as [Hgid Hpid]. rewrite Hgid, Hpid in Hvalid.
  pose proof (decide_packet_request _ _ _ _ _ _ _ _ E5) as (x & Hx & Hreq).
  apply gk_at in E5; [|unfold decide_packet; keeps_auto].
  apply step_inv in Hr as (w & s6 & E6 & Hr).
  unfold use_approval in E6. apply bind_inv in E6 as [(e & _ & ?)|(o & s7 & E7 & E6)]; [done|].
  unfold lift_gate in E7.
  destruct (consume_approval (tm_gate tm) q d st (t_gate s5, n_time (t_sys s5))) as [r [g2 n2]] eqn:Ec.
  injection E7 as -> <-. destruct (nonempty o) eqn:En; [by apply stop_not_some in E6|].
  exists q, d. split; [|by exists x; rewrite Hx|exact Hvalid|].
  - exists a0, (t_gate s0, n_time (t_sys s0)). by rewrite Ep.
  - exists o, (t_gate s5, n_time (t_sys s5)), (g2, n2). split_and!; [|done|done|]; simpl.
    + change (gate_kept s s5). by etrans.
    + change (gate_kept (with_gate g2 n2 s5) s').
      etrans; [eapply gk_at; [|exact E6]; keeps_auto|eapply gk_at; [|exact Hr]; keeps_auto].
Qed.
Lemma authorize_taken i st t args s s' :
  rules_ok (tm_policy tm) -> authorize tm i st t args s = (Ok (Some tt), s') ->
  policy_approves (tm_policy tm) st \/ approval_taken (spec t) st s s'.
Proof.
  intros Hr. unfold authorize. intros Ha. binv Ha. injection Hm as <- <-. binv Ha.
  destruct (dr_decision a) eqn:Ed; [left; by eapply decide_approved|by apply stop_not_some in Ha|right].
  assert (Ia : same_ids s s0) by (eapply ids_at; [apply decide_step_grows|exact Hm]).
  apply gk_at in Hm; [|keeps_auto]. unfold human_approval in Ha. binv Ha.
  assert (Ib : same_ids s0 s1) by (eapply ids_at; [by apply call_grows|exact Hm0]). apply gk_at in Hm0; [|keeps_auto].
  destruct (ok a0); [|by apply stop_not_some in Ha]. simpl in Ha.
  binv Ha. assert (Ic : same_ids s1 s2) by (eapply ids_at; [apply status_grows|exact Hm1]). apply gk_at in Hm1; [|keeps_auto].
  binv Ha. assert (Id : same_ids s2 s3) by (eapply ids_at; [apply audit_grows|exact Hm2]). apply gk_at in Hm2; [|keeps_auto].
  apply request_taken in Ha. eapply (taken_weaken (spec t) st s s3 s' s'); [| |exact Ha|reflexivity].
  - etrans; [exact Hm|]. etrans; [exact Hm0|]. by etrans; [exact Hm1|].
  - etrans; [exact Ia|]. etrans; [exact Ib|]. by etrans; [exact Ic|].
Qed.
(** A step that returns without a stop was approved by the policy or consumed an approval. *)
Lemma run_step_taken i s s' :
  rules_ok (tm_policy tm) -> run_step tm i s = (Ok (Some tt), s') ->
  exists t st, registry_get (tool_name st) (tm_registry tm) = Ok t /\ same_step (default default_step (t_heap s !! i)) st /\
    (is_Some (t_heap s !! i) -> st = hydrate (spec t) st) /\ (policy_approves (tm_policy tm) st \/ approval_taken (spec t) st s s').
Proof.
  intros Hr. unfold run_step. intros Hs. apply step_inv in Hs as (t & s1 & E1 & Hs).
  unfold resolve_tool in E1. unfold bind at 1 in E1. unfold get_step at 1, gets in E1.
  destruct (registry_get _ _) as [t'|e] eqn:Et; [|by destruct (negb _); [|apply stop_not_some in E1]].
  injection E1 as -> <-. unfold bind at 1, upd_step, modify in Hs.
  set (s2 := with_heap _ s) in Hs. unfold bind at 1, get_step, gets in Hs.
  set (st := default default_step (t_heap s2 !! i)) in Hs.
  apply step_inv in Hs as (preds & s3 & E3 & Hs). cbv zeta in Hs.
  apply step_inv in Hs as ([] & s4 & E4 & Hs). apply step_inv in Hs as (r & s5 & E5 & Hs).
  apply authorize_taken in E4; [|done].
  assert (I3 : same_ids s s3) by (change (same_ids s2 s3); eapply ids_at; [by apply guards_grows|exact E3]).
  apply gk_at in E3; [|keeps_auto].
  assert (Hk : forall st', same_step st' (hydrate (spec t) st')) by (intros st'; by split_and!).
  exists t, st. split_and!.
  - subst st s2. simpl. rewrite list_lookup_alter_eq. by destruct (t_heap s !! i).
  - subst st s2. simpl. rewrite list_lookup_alter_eq. destruct (t_heap s !! i) as [st0|]; [apply Hk|reflexivity].
  - intros Hi. subst st s2. simpl in Hi |- *. rewrite list_lookup_alter_eq in *. destruct (t_heap s !! i) as [st0|]; [|by destruct Hi].
    by destruct st0.
  - destruct E4 as [?|Ht]; [by left|right]. eapply (taken_weaken (spec t) st s s3 s4 s'); [by change (gate_kept s2 s3)|done|done|].
    etrans; [eapply gk_at; [|exact E5]; keeps_auto|eapply gk_at; [|exact Hs]; keeps_auto].
Qed.

(** ** A stopped step is not verified *)

Definition unverified (i : nat) s : Prop := status (default default_step (t_heap s !! i)) <> VERIFIED.
Definition still_unverified (i : nat) s s' : Prop := unverified i s -> unverified i s'.
Abbreviation UK i := (keeps (still_unverified i)).
#[export] Instance still_unverified_preorder i : PreOrder (still_unverified i).
Proof. split; [intros s Hs; exact Hs|]. intros x y z Ha Hb Hx. exact (Hb (Ha Hx)). Qed.
Lemma heap_untouched {A} i (m : M (TState X G) exn A) : (forall s, t_heap (snd (m s)) = t_heap s) -> UK i m.
Proof. intros Hm s. unfold still_unverified, unverified. by rewrite Hm. Qed.
Lemma audit_uk i et msg pl : UK i (audit et msg pl).
Proof. by apply heap_untouched. Qed.
Lemma time_uk i : UK i time_time.
Proof. by apply heap_untouched. Qed.
Lemma uuid_uk i : UK i uuid4.
Proof. by apply heap_untouched. Qed.
Lemma stack_uk i k : keeps (E:=exn) (still_unverified i) (modify (with_stack k)).
Proof. by apply heap_untouched. Qed.
Lemma get_uk i j : UK i (get_step j).
Proof. by apply heap_untouched. Qed.
Lemma call_uk i k j st t args : UK i (call_tool k j st t args).
Proof. apply heap_untouched. intros s. unfold call_tool. by destruct (_ args _) as [r [e w]]. Qed.
Lemma set_unverified v i j s : v <> VERIFIED -> unverified j s \/ i = j -> unverified j (snd (put_status i v s)).
Proof.
  unfold unverified. intros Hv Hj. simpl. destruct (decide (i = j)) as [->|Hne].
  - rewrite list_lookup_alter_eq. by destruct (t_heap s !! j).
  - rewrite list_lookup_alter_ne by done. by destruct Hj.
Qed.
Lemma status_uk i j v : v <> VERIFIED -> UK i (put_status j v).
Proof. intros Hv s Hs. apply set_unverified; [done|by left]. Qed.
Lemma hydrate_uk i j ts : UK i (upd_step j (hydrate ts)).
Proof.
  intros s. unfold still_unverified, unverified. simpl. destruct (decide (j = i)) as [->|Hne].
  - rewrite list_lookup_alter_eq. by destruct (t_heap s !! i).
  - by rewrite list_lookup_alter_ne.
Qed.
#[local] Hint Resolve audit_uk time_uk uuid_uk stack_uk get_uk call_uk hydrate_uk : keeps.
#[local] Hint Extern 1 (keeps (still_unverified _) (put_status _ _)) =>
  apply status_uk; repeat (match goal with |- (if ?b then _ else _) <> _ => destruct b end); discriminate : keeps.
Lemma rollback_one_uk i t token j : UK i (rollback_one tm t token j).
Proof. unfold rollback_one, record_manual_recovery, recovery_build. keeps_auto. Qed.
#[local] Hint Resolve rollback_one_uk : keeps.
Lemma rollback_loop_uk i k a b : UK i (rollback_loop tm k a b).
Proof.
  revert a b. induction k as [|[[t token] j] k IH]; intros a b; cbn [rollback_loop]; [keeps_auto|].
  apply keeps_bind; [apply _|keeps_auto|intros _]. apply keeps_bind; [apply _|keeps_auto|intros []]; apply IH.
Qed.
#[local] Hint Resolve rollback_loop_uk : keeps.
Lemma budget_uk i b : UK i (budget_exceeded tm b).
Proof.
  assert (forall j msg pl, UK i (record_budget_exceeded (X:=X) (G:=G) j msg pl)) by (intros; unfold record_budget_exceeded; keeps_auto).
  assert (forall l fw nr, UK i (budget_loop tm b l fw nr)).
  { induction l as [|j l IH]; intros fw nr; cbn [budget_loop]; [keeps_auto|].
    apply keeps_bind; [apply _|keeps_auto|intros st]. destruct (registry_get _ _); [|keeps_auto].
    apply keeps_bind; [apply _|keeps_auto|intros _].
    apply keeps_bind; [apply _|keeps_auto|intros st'].
    repeat (match goal with |- keeps _ (if ?b then _ else _) => destruct b end); try apply IH; keeps_auto. }
  unfold budget_exceeded. keeps_auto.
Qed.

(** What a block that stops leaves. *)
Definition stops (i : nat) {A} (m : M (TState X G) exn (option A)) : Prop := forall s s', m s = (Ok None, s') -> unverified i s'.
Lemma stops_some i {A} (a : A) : stops i (ret (Some a)).
Proof. done. Qed.
Lemma stops_raise i {A} e : stops (A:=A) i (raise e).
Proof. done. Qed.
Lemma stops_bind i {A B} (m : M (TState X G) exn A) (f : A -> M (TState X G) exn (option B)) :
  (forall a, stops i (f a)) -> stops i (bind m f).
Proof. intros Hf s s' [(e & _ & ?)|(a & s1 & _ & Ef)]%bind_inv; [done|exact (Hf a _ _ Ef)]. Qed.
Lemma stops_step i {A B} (m : M (TState X G) exn (option A)) (f : A -> M (TState X G) exn (option B)) :
  stops i m -> (forall a, stops i (f a)) -> stops i (bind m (fun o => match o with Some x => f x | None => ret None end)).
Proof.
  intros Hm Hf s s' [(e & _ & ?)|([a|] & s1 & Em & Ef)]%bind_inv; [done|exact (Hf a _ _ Ef)|].
  injection Ef as <-. exact (Hm _ _ Em).
Qed.
Lemma stops_stop i {A} v evs : v <> VERIFIED -> stops i (stop (A:=A) tm i v evs).
Proof.
  intros Hv s s' Hs. unfold stop in Hs. unfold bind at 1 in Hs. pose proof (set_unverified v i i s Hv (or_intror eq_refl)) as H1.
  destruct (put_status i v s) as [[u|e] s1]; [|done]. simpl in H1. revert Hs.
  match goal with |- ?m s1 = _ -> _ => assert (Hk : UK i m) by (unfold audit_all, rollback_all; keeps_auto) end.
  intros Hs. specialize (Hk s1 H1). by rewrite Hs in Hk.
Qed.
Ltac stops_one :=
  match goal with
  | |- stops _ (bind _ (fun o => match o with Some _ => _ | None => _ end)) => apply stops_step; [|intros ?]
  | |- stops _ (bind _ _) => apply stops_bind; intros ?
  | |- stops _ (ret (Some _)) => apply stops_some
  | |- stops _ (raise _) => apply stops_raise
  | |- stops _ (stop _ _ _ _) => apply stops_stop; repeat (match goal with |- (if ?b then _ else _) <> _ => destruct b end); discriminate
  | |- stops _ (let _ := _ in _) => cbv zeta
  | |- stops _ (match ?x with _ => _ end) => destruct x
  end.
Lemma run_step_stops i : stops i (run_step tm i).
Proof.
  unfold run_step, resolve_tool, step_guards, audit_egress, check_attestation, check_production, check_sandbox, check_secrets,
    predict_and_review, review, check_idempotency, check_preconditions, authorize, human_approval, request_approval,
    check_signed_gate, prepare_step_packet, decide_packet, use_approval, dry_run_step, execute_step, step_checks,
    check_output, check_contract, observe_and_verify, check_postconditions, finish_step.
  repeat stops_one.
Qed.

(** ** All steps of a plan *)

(** How the step [j] of [s] came to be verified in a run from [s] to [s']. *)
Definition step_taken (j : nat) s s' : Prop := exists t st,
  registry_get (tool_name st) (tm_registry tm) = Ok t /\ same_step (default default_step (t_heap s !! j)) st /\
  (is_Some (t_heap s !! j) -> st = hydrate (spec t) st) /\ (policy_approves (tm_policy tm) st \/ approval_taken (spec t) st s s').
Lemma step_taken_weaken j s0 s s' s1 :
  gate_kept s0 s -> same_ids s0 s -> Forall2 same_step (t_heap s0) (t_heap s) -> step_taken j s s' -> gate_kept s' s1 -> step_taken j s0 s1.
Proof.
  intros Ha Hi Hh (t & st & Ht & Hst & Hhy & Hd) Hb. exists t, st.
  assert (Hs : same_step (default default_step (t_heap s0 !! j)) (default default_step (t_heap s !! j)) /\
               (is_Some (t_heap s0 !! j) -> is_Some (t_heap s !! j))).
  { pose proof (proj1 (Forall2_lookup _ _ _) Hh j) as Hj. by destruct Hj; split. }
  destruct Hs as [Hs Hsome]. split_and!; [done|by etrans|naive_solver|].
  destruct Hd as [?|Hd]; [by left|right]. by eapply taken_weaken.
Qed.
Lemma run_steps_taken l s s' :
  rules_ok (tm_policy tm) -> run_steps tm l s = (Ok tt, s') -> (forall j, j ∈ l -> ~ unverified j s') ->
  forall j, j ∈ l -> step_taken j s s'.
Proof.
  intros Hr. revert s. induction l as [|i l IH]; intros s Hs Hv j Hj; [by apply elem_of_nil in Hj|].
  simpl in Hs. apply bind_inv in Hs as [(e & _ & ?)|(o & s1 & E1 & Hs)]; [done|]. destruct o as [[]|].
  2: { injection Hs as <-. exfalso. apply (Hv i); [by left|]. by eapply run_step_stops. }
  pose proof (gk_at _ _ _ _ (run_steps_gk l) Hs) as Hg.
  apply elem_of_cons in Hj as [->|Hj].
  - eapply (step_taken_weaken i s s s1 s'); [reflexivity..|by apply run_step_taken|done].
  - eapply (step_taken_weaken j s s1 s' s'); [by eapply gk_at; [apply run_step_gk|]| | |apply IH; [done| |done]|reflexivity].
    + by eapply ids_at; [apply run_step_any|].
    + pose proof (run_step_any tm i s) as Hg1. rewrite E1 in Hg1. apply Hg1.
    + intros k Hk. apply Hv. by right.
Qed.
(** A plan whose steps were not verified before and are afterwards: each was approved by the policy or consumed an approval
    that the gate had prepared for it. *)
Lemma execute_plan_taken s s' :
  rules_ok (tm_policy tm) -> execute_plan tm s = (Ok tt, s') ->
  (forall j, j ∈ p_steps (t_plan s) -> unverified j s /\ ~ unverified j s') ->
  forall j, j ∈ p_steps (t_plan s) -> step_taken j s s'.
Proof.
  intros Hr He Hv j Hj. unfold execute_plan in He. unfold bind at 1, gets in He. unfold bind at 1, audit at 1, modify in He.
  match type of He with context [upd_sys ?x s] => set (s0 := upd_sys x s) in He end.
  apply bind_inv in He as [(e & _ & ?)|([] & s1 & E1 & He)]; [done|].
  pose proof E1 as I1. pose proof (gk_at _ _ _ _ (plan_goal_gk G_RUNNING) E1) as K1. change (gate_kept s s1) in K1.
  apply plan_goal_inv in E1 as ((_ & _ & H1) & _ & P1 & _). change (t_heap s1 = t_heap s) in H1.
  change (p_steps (t_plan s1) = p_steps (t_plan s)) in P1.
  unfold bind at 1 in He. unfold bind at 1 in He.
  apply bind_inv in He as [(e & _ & ?)|(ex & s2 & E2 & He)]; [done|].
  apply bind_inv in He as [(e & _ & ?)|([] & s3 & E3 & Ef)]; [done|].
  pose proof (budget_grows tm (fun _ => True) (default (budget (p_goal (t_plan (with_stack [] s1))))
    (p_budget (t_plan (with_stack [] s1)))) (with_stack [] s1)) as G2. rewrite E2 in G2.
  assert (K2 : gate_kept s1 s2).
  { change (gate_kept (with_stack [] s1) s2). eapply gk_at; [|exact E2]. unfold budget_exceeded. keeps_auto. }
  set (b := default _ _) in E2, G2.
  assert (U2 : forall i, still_unverified i (with_stack [] s1) s2) by (intros i; pose proof (budget_uk i b (with_stack [] s1)) as U; by rewrite E2 in U).
  assert (K3 : gate_kept s3 s') by (eapply gk_at; [|exact Ef]; unfold finish_plan; keeps_auto).
  apply finish_plan_inv in Ef as [(_ & _ & Hf) _].
  assert (Huv : forall i, unverified i s3 <-> unverified i s') by (intros i; unfold unverified; by rewrite Hf).
  destruct ex.
  { injection E3 as <-. exfalso. destruct (Hv j Hj) as [Hu Hn]. apply Hn, Huv, U2. unfold unverified in *. simpl. by rewrite H1. }
  cbn [t_plan with_stack] in E3. rewrite P1 in E3.
  eapply (step_taken_weaken j s s2 s3 s'); [by etrans| | | |done].
  - etrans; [exact (ids_at (transition_plan_goal G_RUNNING) s0 _ s1 (plan_goal_grows _ _) I1)|].
    change (same_ids (with_stack [] s1) s2). apply same_plan_ids, G2.
  - rewrite <-H1. exact (gr_heap _ _ _ G2).
  - eapply run_steps_taken; [done|exact E3| |done]. intros i Hi. rewrite Huv. by apply Hv.
Qed.
End kept.
