(* ===== verification/PolicyProps.v ===== *)
(** Generated policies deny first and always parse; a signed manifest loads exactly the signed policy. *)
From S2P Require Import Prelude Enums PyValue FileSystem PyText Sanitization Goals Plans Serialization Tools AuditTrail Egress Policy PolicyConfig Fixtures.


Section generated.
Context `{PyRuntime}.

Lemma risk_of_value r : enum_of (A:=RiskLevel) (RiskLevel_value r) = Ok r.
Proof. exact (enum_of_value r). Qed.
Lemma str_entries_strs l : str_entries (map VStr l) = dret l.
Proof. unfold str_entries. induction l as [|s l IH]; [done|]. simpl. by rewrite IH. Qed.
(** The profile that the generated dictionary stands for. *)
Definition generated_profile (n : string) (granted : list Permission) (risk : RiskLevel) (tools hosts : list string) :
    PolicyProfile :=
  strict_profile (py_strip n) (List.filter (fun p => perm_in p CONSEQUENTIAL) granted)
    (List.filter (fun p => negb (perm_in p granted)) (enum_all Permission))
    match hosts with
    | [] => None
    | _ => Some {| allowed_hosts := hosts; allowed_methods := default_methods; max_requests := None |}
    end tools true.
Definition with_granted (granted : list Permission) (risk : RiskLevel) (p : PolicyProfile) : PolicyProfile := {|
  pp_name := pp_name p; pp_granted_permissions := granted; pp_max_auto_risk := risk;
  pp_require_human_for := pp_require_human_for p; pp_deny_permissions := pp_deny_permissions p;
  pp_rules := pp_rules p; pp_grants := pp_grants p;
  pp_require_strong_sandbox_for_execute := pp_require_strong_sandbox_for_execute p;
  pp_network_default_deny := pp_network_default_deny p;
  pp_require_causal_contract_for_medium_risk := pp_require_causal_contract_for_medium_risk p;
  pp_require_timeout_for_medium_risk := pp_require_timeout_for_medium_risk p;
  pp_require_output_schema_for_medium_risk := pp_require_output_schema_for_medium_risk p;
  pp_require_typed_goal_criteria := pp_require_typed_goal_criteria p;
  pp_egress_policy := pp_egress_policy p; pp_allowed_tools := pp_allowed_tools p;
  pp_require_signed_approval := pp_require_signed_approval p |}.

Lemma policy_config_parses n granted risk tools hosts :
  PolicyProfile_from_mapping (policy_config n granted risk tools hosts) =
  dret (with_granted granted risk (generated_profile n granted risk tools hosts)).
Proof.
  unfold PolicyProfile_from_mapping, policy_config, permission_values, tuple_entry, flag_entry, dget_or.
  destruct hosts as [|h hosts]; simpl;
    rewrite risk_of_value; simpl;
    [|change (VStr h :: map VStr hosts) with (map VStr (h :: hosts)); rewrite str_entries_strs]; simpl;
    rewrite !permissions_of_values, py_str_strs; reflexivity.
Qed.

Lemma generate_cases n tools perms mr hosts :
  (exists ps r, permissions_of (map VStr perms) = Ok ps /\ enum_of mr = Ok r /\ py_strip n <> "" /\
     generate_policy_config n tools perms mr hosts = dret (policy_config n ps r tools hosts)) \/
  exists e, generate_policy_config n tools perms mr hosts = dlift (Raise e) /\ exn_cls e = ValueError /\
    (py_strip n = "" \/ is_ok (permissions_of (map VStr perms)) = false \/ is_ok (enum_of (A:=RiskLevel) mr) = false).
Proof.
  unfold generate_policy_config. destruct (String.eqb_spec (py_strip n) "") as [->|Hn]; [right; eauto 6|].
  destruct (permissions_of _) as [ps|e] eqn:Ep; [|right; eauto 8].
  destruct (enum_of mr) as [r|e] eqn:Er; [|right; eauto 8]. left. exists ps, r. split_and!; try done.
  unfold validate_policy_config. by rewrite policy_config_parses.
Qed.

Lemma perm_in_spec p l : perm_in p l = true <-> p ∈ l.
Proof. unfold perm_in. apply bool_decide_eq_true. Qed.
Lemma generated_denied granted p :
  p ∈ List.filter (fun p => negb (perm_in p granted)) (enum_all Permission) <-> p ∉ granted.
Proof.
  rewrite list_elem_of_In, List.filter_In, <-list_elem_of_In, negb_true_iff, <-not_true_iff_false, perm_in_spec.
  split; [by intros []|]. split; [apply enum_all_complete|done].
Qed.
Lemma generated_human granted p :
  p ∈ List.filter (fun p => perm_in p CONSEQUENTIAL) granted <-> p ∈ granted /\ p ∈ CONSEQUENTIAL.
Proof. by rewrite list_elem_of_In, List.filter_In, <-list_elem_of_In, perm_in_spec. Qed.
End generated.

Section theorems.
Context `{PyRuntime} {St : Type} `{HasSys St}.


(** A manifest verifies iff its signature entry is the keyed hash of the canonical text of its policy. *)
Record verified (m policy : dict pyval) (secret : string) : Prop := {
  vf_policy : dget "policy" m = Some (VDict policy);
  vf_signature : exists sig c v, dget "signature" m = Some (VDict sig) /\
    py_neq (dget_or "algorithm" VNone sig) (VStr ALGORITHM) = false /\
    as_str (dget_or "value" VNone sig) = Some v /\ v <> "" /\
    canonicalize policy = Ok c /\ hmac_sha256_hex secret c = v /\ is_ascii_text v = true;
}.
Lemma truthy_str v s : as_str v = Some s -> truthy v = negb (String.eqb s "").
Proof. by destruct v; intros [= ->]. Qed.
Lemma compare_digest_true a v : compare_digest a v = Ok true <-> as_str v = Some a /\ is_ascii_text a = true.
Proof.
  unfold compare_digest. destruct (as_str v) as [s|]; [|naive_solver].
  destruct (String.eqb_spec a s) as [->|Hn]; destruct (is_ascii_text s) eqn:Es; simpl; try naive_solver.
  destruct (is_ascii_text a); naive_solver.
Qed.
Lemma verify_exact manifest secret :
  verify_policy_manifest manifest secret = Ok tt <->
  exists m policy, manifest = VDict m /\ verified m policy secret.
Proof.
  split.
  - unfold verify_policy_manifest. destruct manifest as [| | | | | | | | | | | | |m| |]; try done.
    destruct (dget "policy" m) as [p|] eqn:Ep; unfold dget_or at 1; rewrite Ep; [|done]. cbn [default id].
    destruct p as [| | | | | | | | | | | | |policy| |]; try done.
    unfold dget_or at 1. destruct (dget "signature" m) as [g|] eqn:Eg; [|done]. cbn [default id]. destruct g as [| | | | | | | | | | | | |sig| |]; try done.
    destruct (py_neq (dget_or "algorithm" VNone sig) (VStr ALGORITHM)) eqn:Ea; [done|].
    destruct (truthy (dget_or "value" VNone sig)) eqn:Et; [|done]. simpl.
    destruct (canonicalize policy) as [c|] eqn:Ec; [simpl|done].
    destruct (compare_digest _ _) as [[]|] eqn:Ed; try done. intros _.
    apply compare_digest_true in Ed as [Hs Ha]. exists m, policy. split; [done|]. split; [done|].
    exists sig, c, (hmac_sha256_hex secret c). split_and!; try done.
    intros Hv. rewrite (truthy_str _ _ Hs), Hv in Et. done.
  - intros (m & policy & -> & [Hp (sig & c & v & Hs & Ha & Hv & Hn & Hc & Hh & Hascii)]). unfold verify_policy_manifest.
    unfold dget_or at 1 2. rewrite Hp, Hs. simpl. rewrite Ha. rewrite (truthy_str _ _ Hv), Hc. simpl.
    destruct (String.eqb_spec v ""); [done|]. simpl. subst v. by rewrite (proj2 (compare_digest_true _ _)).
Qed.
End theorems.

Section manifest_theorem.
Context `{PyRuntime}.

Lemma canonical_doc policy d : json_doc (VDict policy) = Ok (VDict d) -> canonicalize d = canonicalize policy.
Proof. intros Hj. unfold canonicalize. rewrite Hj, (json_doc_id _ (json_doc_json _ _ Hj)). done. Qed.

(** C31: A signed policy manifest is authentic and faithful.  Loading a manifest file gives an engine exactly when
    the file holds a JSON object whose signature entry is the keyed hash, under the secret, of the canonical
    text of its policy entry, and that policy parses to the engine: a missing file, an undecodable one, another
    algorithm, a missing or different signature value never yield an engine.  And writing the manifest that
    [sign_policy] makes and loading it with the same secret gives the engine of the signed policy (its JSON
    form), whatever the policy, as the key order and the layout of the text do not change the canonical text. *)
Theorem policy_manifest_exact p file secret who :
  (forall e, load_policy_from_file p file secret who = dret e <->
     exists m policy, file = Some (Ok (VDict m)) /\ verified m policy secret /\ PolicyEngine_from_mapping policy who = dret e) /\
  (forall policy d m, json_doc (VDict policy) = Ok (VDict d) -> sign_policy policy secret = Ok m ->
     (forall c, canonicalize policy = Ok c -> hmac_sha256_hex secret c <> "" /\ is_ascii_text (hmac_sha256_hex secret c) = true) ->
     exists doc, json_doc (manifest_value m) = Ok doc /\
       load_policy_from_file p (Some (Ok doc)) secret who = PolicyEngine_from_mapping d who).
Proof.
  split.
  - intros e. unfold load_policy_from_file. destruct file as [[manifest|]|]; [|by split; [|intros (? & ? & [=] & _)]..].
    destruct (verify_policy_manifest manifest secret) as [[]|er] eqn:Ev.
    + apply verify_exact in Ev as (m & policy & -> & Hv). unfold must, dget_item. simpl. rewrite (vf_policy _ _ _ Hv). simpl.
      split; [by eauto 6|]. intros (m' & policy' & [= <-] & Hv' & He).
      pose proof (vf_policy _ _ _ Hv). pose proof (vf_policy _ _ _ Hv'). by simplify_eq.
    + split; [done|]. intros (m & policy & [= ->] & Hv & _).
      assert (verify_policy_manifest (VDict m) secret = Ok tt) as E by (apply verify_exact; eauto). congruence.
  - intros policy d m Hj Hs Hhash. unfold sign_policy in Hs. destruct (canonicalize policy) as [c|] eqn:Ec; [|done].
    destruct (Hhash c eq_refl) as [Hn Ha]. injection Hs as <-.
    exists (VDict [("policy", VDict d); ("signature", VDict [("algorithm", VStr ALGORITHM); ("value", VStr (hmac_sha256_hex secret c))])]).
    split. { unfold manifest_value. rewrite json_doc_dict. simpl. unfold json_field at 1. simpl. simpl in Hj. rewrite Hj. done. }
    assert (E : verify_policy_manifest (VDict [("policy", VDict d); ("signature",
      VDict [("algorithm", VStr ALGORITHM); ("value", VStr (hmac_sha256_hex secret c))])]) secret = Ok tt).
    { apply verify_exact. do 2 eexists. split; [done|]. split; [done|]. do 3 eexists. split; [done|].
      rewrite (canonical_doc _ _ Hj). by split_and!. }
    unfold load_policy_from_file. rewrite E. done.
Qed.
End manifest_theorem.

Definition tuple_policy : dict pyval := [("name", VStr "ops"); ("granted_permissions", VTuple [VStr "read_files"])].
Definition list_policy : dict pyval := [("name", VStr "ops"); ("granted_permissions", VList [VStr "read_files"])].
Lemma policy_manifest_exact_witness :
  exists m doc, sign_policy tuple_policy "key" = Ok m /\ json_doc (manifest_value m) = Ok doc /\
    load_policy_from_file ["etc"; "ops.json"] (Some (Ok doc)) "key" None = PolicyEngine_from_mapping list_policy None /\
    is_Some (load_policy_from_file ["etc"; "ops.json"] (Some (Ok doc)) "key" None).
Proof.
  eexists.
  destruct (proj2 (policy_manifest_exact ["etc"; "ops.json"] None "key" None) tuple_policy list_policy
    {| sm_policy := tuple_policy;
       sm_signature := [("algorithm", VStr ALGORITHM);
         ("value", VStr (match canonicalize tuple_policy with Ok c => hmac_sha256_hex "key" c | _ => "" end))] |})
    as (doc & H1 & H2); [vm_compute; reflexivity|vm_compute; reflexivity| |].
  { intros c Hc. vm_compute in Hc. injection Hc as <-. split; [vm_compute; discriminate|vm_compute; reflexivity]. }
  exists doc. split_and!; [vm_compute; reflexivity|exact H1|exact H2|]. rewrite H2. vm_compute. eauto.
Defined.

(** * Properties of tool manifests and their registry. *)


(** The methods of a registered manifest are in upper case. *)
Definition upper_methods (m : ToolManifest) : ToolManifest := {|
  tm_name := tm_name m; tm_version := tm_version m; tm_permissions := tm_permissions m; tm_risk := tm_risk m;
  tm_reversibility := tm_reversibility m; tm_input_schema := tm_input_schema m; tm_output_schema := tm_output_schema m;
  tm_timeout_ms := tm_timeout_ms m; tm_network_access := tm_network_access m; tm_egress_host := tm_egress_host m;
  tm_egress_methods := map py_upper (tm_egress_methods m);
  tm_rollback_egress_methods := map py_upper (tm_rollback_egress_methods m);
  tm_filesystem_scope := tm_filesystem_scope m; tm_secrets_allowed := tm_secrets_allowed m;
  tm_sandbox_policy := tm_sandbox_policy m; tm_requires_human_for := tm_requires_human_for m;
  tm_rollback_reliability := tm_rollback_reliability m; tm_compensation_strategy := tm_compensation_strategy m |}.

Section manifests.
Context `{PyRuntime} `{JsonSchemaValidator}.

Lemma manifest_reads_back m :
  validate_tool_manifest (manifest_to_mapping m) = [] ->
  tool_manifest_from_mapping (manifest_to_mapping m) = Ok (upper_methods m).
Proof.
  intros Hv. unfold tool_manifest_from_mapping. rewrite Hv. unfold str_list_of, manifest_to_mapping, str_values, dget_item, dget_or. simpl.
  rewrite permissions_of_values. simpl.
  assert (enum_of (RiskLevel_value (tm_risk m)) = Ok (tm_risk m)) as -> by exact (enum_of_value _). simpl.
  assert (enum_of (Reversibility_value (tm_reversibility m)) = Ok (tm_reversibility m)) as -> by exact (enum_of_value _). simpl.
  assert (enum_of (SandboxPolicy_value (tm_sandbox_policy m)) = Ok (tm_sandbox_policy m)) as -> by exact (enum_of_value _). simpl.
  assert (enum_of (CompensationStrategy_value (tm_compensation_strategy m)) = Ok (tm_compensation_strategy m)) as ->
    by exact (enum_of_value _). simpl.
  rewrite !py_str_strs. unfold upper_methods. by destruct (tm_egress_host m).
Qed.
Lemma normalize_exact m n : normalize_manifest m = Ok n <-> validate_tool_manifest (manifest_to_mapping m) = [] /\ n = upper_methods m.
Proof.
  unfold normalize_manifest. destruct (validate_tool_manifest _) as [|i l] eqn:Ev; [|naive_solver].
  rewrite manifest_reads_back by done. naive_solver.
Qed.

(** What every entry of a registry satisfies. *)
Definition entry_ok (kv : string * ToolManifest) : Prop :=
  tm_name kv.2 = kv.1 /\ kv.1 <> "" /\ (exists m, kv.2 = upper_methods m /\ validate_tool_manifest (manifest_to_mapping m) = []) /\
  (tm_reversibility kv.2 = IRREVERSIBLE -> tm_compensation_strategy kv.2 <> CS_UNDO).
Lemma register_manifest_inv m r r' : register_manifest m r = Ok r' ->
  dget (tm_name m) r = None /\ r' = dset (tm_name m) (upper_methods m) r /\ entry_ok (tm_name m, upper_methods m).
Proof.
  unfold register_manifest. destruct (normalize_manifest m) as [n|] eqn:En; [|done]. apply normalize_exact in En as [Hv ->]. simpl.
  destruct (dmem (tm_name m) r) eqn:Em; [done|]. unfold validate_manifest_semantics. simpl.
  destruct (String.eqb_spec (tm_name m) ""); [done|]. destruct (bool_decide _ && bool_decide _) eqn:Eb; [done|].
  intros [= <-]. split_and!; [by unfold dmem in Em; destruct (dget _ r)|done|]. split_and!; [done|done|by eexists|].
  simpl. intros Hi Hu. rewrite !bool_decide_true in Eb by done. done.
Qed.
Lemma register_ok m r :
  validate_tool_manifest (manifest_to_mapping m) = [] -> tm_name m <> "" ->
  (tm_reversibility m = IRREVERSIBLE -> tm_compensation_strategy m <> CS_UNDO) -> dget (tm_name m) r = None ->
  register_manifest m r = Ok (dset (tm_name m) (upper_methods m) r).
Proof.
  intros Hv Hn Hs Hr. unfold register_manifest. rewrite (proj2 (normalize_exact m _) (conj Hv eq_refl)). simpl.
  unfold dmem. rewrite Hr. unfold validate_manifest_semantics. simpl.
  rewrite (proj2 (String.eqb_neq _ _)) by done. case_bool_decide; case_bool_decide; try done. naive_solver.
Qed.
Lemma register_keeps_entries m r r' : Forall entry_ok r -> register_manifest m r = Ok r' -> Forall entry_ok r'.
Proof. intros Hr Hm. apply register_manifest_inv in Hm as (_ & -> & Hok). by apply Forall_dset. Qed.
Lemma load_keeps_entries files r : Forall entry_ok r -> Forall entry_ok (snd (load_directory files r)).
Proof.
  revert r. induction files as [|[f file] files IH]; intros r Hr; [done|]. simpl.
  destruct (load_one file r) as [r'|e] eqn:El; [|done]. apply IH. unfold load_one in El.
  destruct file as [[]|]; try done. simpl in El. destruct (tool_manifest_from_mapping _) as [m|]; [|done].
  by eapply register_keeps_entries.
Qed.

(** When a tool validates. *)
Lemma validate_exact r s : Forall entry_ok r ->
  validate_against_tool r s = Ok tt <-> exists m, dget (name s) r = Some m /\
    tm_permissions m = permissions s /\ tm_risk m = default_risk s /\ tm_secrets_allowed m = secrets_allowed s /\
    py_eq (VDict (tm_input_schema m)) (VDict (input_schema s)) = true /\
    py_eq (VDict (tm_output_schema m)) (VDict (output_schema s)) = true.
Proof.
  intros Hr. unfold validate_against_tool, get_manifest. destruct (dget (name s) r) as [m|] eqn:Em; [|naive_solver].
  assert (Hn : tm_name m = name s). { apply dget_In in Em. rewrite List.Forall_forall in Hr. by destruct (Hr _ Em). }
  cbn [res_bind]. rewrite Hn, String.eqb_refl. cbn [negb]. unfold py_neq.
  set (si := py_eq (VDict (tm_input_schema m)) (VDict (input_schema s))).
  set (so := py_eq (VDict (tm_output_schema m)) (VDict (output_schema s))).
  assert (Hgoal : (exists m0, Some m = Some m0 /\ tm_permissions m0 = permissions s /\ tm_risk m0 = default_risk s /\
      tm_secrets_allowed m0 = secrets_allowed s /\ py_eq (VDict (tm_input_schema m0)) (VDict (input_schema s)) = true /\
      py_eq (VDict (tm_output_schema m0)) (VDict (output_schema s)) = true) <->
    tm_permissions m = permissions s /\ tm_risk m = default_risk s /\ tm_secrets_allowed m = secrets_allowed s /\ si = true /\ so = true).
  { split; [by intros (m0 & [= <-] & ?)|intros Hm; by exists m]. }
  rewrite Hgoal. clearbody si so. case_bool_decide as Hp; cbn [negb]; [|naive_solver].
  destruct (Z.ltb_spec (risk_value (tm_risk m)) (risk_value (default_risk s))) as [Hlt|_].
  { split; [done|]. intros (_ & Hrisk & _). rewrite Hrisk in Hlt. lia. }
  case_bool_decide as Hk; cbn [negb]; [|naive_solver].
  destruct (tm_secrets_allowed m), (secrets_allowed s), si, so; cbn; split; naive_solver.
Qed.

(** The manifest registry vouches for what it holds.  Loading a directory, also when a file fails half-way,
    keeps every entry under its own non-empty name, valid against the manifest schema, with methods in upper
    case and never irreversible with undo as compensation; a tool validates exactly when the manifest under its name has its
    permissions in the same order, its risk, its secret access and equal schemas; and the manifest that a
    tool's specification makes registers under a free name and validates against that tool. *)
Theorem manifest_registry_vouches files r s :
  Forall entry_ok r ->
  Forall entry_ok (snd (load_directory files r)) /\
  (validate_against_tool r s = Ok tt <-> exists m, dget (name s) r = Some m /\ tm_permissions m = permissions s /\
     tm_risk m = default_risk s /\ tm_secrets_allowed m = secrets_allowed s /\
     py_eq (VDict (tm_input_schema m)) (VDict (input_schema s)) = true /\
     py_eq (VDict (tm_output_schema m)) (VDict (output_schema s)) = true) /\
  (validate_tool_manifest (manifest_to_mapping (spec_manifest s)) = [] -> name s <> "" -> dget (name s) r = None ->
   (ts_reversibility s = IRREVERSIBLE -> ts_compensation_strategy s <> CS_UNDO) ->
   py_eq (VDict (input_schema s)) (VDict (input_schema s)) = true ->
   py_eq (VDict (output_schema s)) (VDict (output_schema s)) = true ->
   exists r', register_manifest (spec_manifest s) r = Ok r' /\ Forall entry_ok r' /\ validate_against_tool r' s = Ok tt).
Proof.
  intros Hr.
  split_and!; [by apply load_keeps_entries|by apply validate_exact|].
  intros Hv Hn Hfree Hsem Hi Ho. pose proof (register_ok (spec_manifest s) r Hv Hn Hsem Hfree) as Hreg.
  eexists. split; [exact Hreg|]. pose proof (register_keeps_entries _ _ _ Hr Hreg) as Hr'. split; [done|].
  apply validate_exact; [done|]. eexists. split; [apply dget_dset_eq|]. by split_and!.
Qed.
End manifests.

Definition manifest_tool : ToolSpec := journal_spec "append" [WRITE_FILES] REVERSIBLE.
Lemma manifest_registry_vouches_witness :
  exists r', register_manifest (spec_manifest manifest_tool) [] = Ok r' /\ Forall entry_ok r' /\
    validate_against_tool r' manifest_tool = Ok tt.
Proof.
  apply (manifest_registry_vouches [] [] manifest_tool); [by constructor|..]; try (vm_compute; reflexivity); done.
Defined.
Example wrong_risk :
  match register_manifest (spec_manifest manifest_tool) [] with
  | Ok r => validate_against_tool r (journal_spec "append" [READ_FILES] REVERSIBLE)
  | Raise e => Raise e
  end = Raise (registry_error "Manifest permissions do not match tool spec").
Proof. vm_compute. reflexivity. Qed.
