(* ===== verification/QueueProps.v ===== *)
(** Properties of the task queue, its watchdog and the runner. *)
From S2P Require Import Prelude Enums PyValue Goals Plans Serialization TaskSpec AuditTrail TaskQueue QueueRuns QueueInv Fixtures.

Section props.
Context `{PyRuntime} {X : Type}.
Implicit Types s : QState X.

(** One call of a method, by any worker, whether it returns or raises. *)
Inductive queue_step : relation (QState X) :=
| qst_enqueue plan key rp tp s : enqueue_pre plan rp tp s -> queue_step s (snd (enqueue plan key rp tp s))
| qst_claim w now s : queue_step s (snd (claim w now s))
| qst_heartbeat id w now s : queue_step s (snd (heartbeat id w now s))
| qst_complete id w now s : queue_step s (snd (complete id w now s))
| qst_fail id w why now s : queue_step s (snd (fail id w why now s))
| qst_retry id w why s : queue_step s (snd (retry id w why s))
| qst_cancel id why now s : queue_step s (snd (cancel id why now s))
| qst_pause id w s : queue_step s (snd (pause id w s))
| qst_resume id s : queue_step s (snd (resume id s))
| qst_watchdog now s : queue_step s (snd (watchdog_check now s))
| qst_run_next kernel w now s : kernel_grows kernel -> queue_step s (snd (run_next kernel w now s)).

Lemma queue_step_sound s s' :
  queue_step s s' -> state_ok s -> state_ok s' /\ queue_moves (views (qs_queue s)) (views (qs_queue s')).
Proof.
  intros Hs Hok.
  assert (Hw : forall A (m : M (QState X) exn A), works m ->
            state_ok (snd (m s)) /\ queue_moves (views (qs_queue s)) (views (qs_queue (snd (m s))))).
  { intros A m Hm. specialize (Hm s Hok). split; [by eapply work_ok|by apply work_moves]. }
  destruct Hs; [by apply enqueue_ok|apply Hw..]; auto using claim_works, heartbeat_works, complete_works, fail_works, retry_works,
    cancel_works, pause_works, resume_works, watchdog_works, run_next_works.
Qed.
Lemma queue_steps_sound s s' :
  rtc queue_step s s' -> state_ok s -> state_ok s' /\ queue_moves (views (qs_queue s)) (views (qs_queue s')).
Proof.
  induction 1 as [s|s1 s2 s3 Hs _ IH]; intros Hok; [split; [done|apply rtc_refl]|].
  destruct (queue_step_sound _ _ Hs Hok) as [Hok2 Hm2]. destruct (IH Hok2) as [Hok3 Hm3].
  split; [done|]. by etrans.
Qed.


(** Over any history of calls a task is locked exactly while it runs, its
    attempts never decrease, its attempt limit is fixed, and once it has
    succeeded, failed, timed out or been cancelled it never runs again: only a
    cancellation can still change its status. *)
Theorem queue_task_lifecycle s s' id t :
  rtc queue_step s s' -> state_ok s -> views_ok (views (qs_queue s)) ->
  q_tasks (qs_queue s) !! id = Some t ->
  exists t', q_tasks (qs_queue s') !! id = Some t' /\ view_later (view_of t) (view_of t') /\
    (rt_status t' = T_RUNNING <-> is_Some (locked_by t')).
Proof.
  intros Hr Hok Hv Ht. destruct (queue_steps_sound _ _ Hr Hok) as [_ Hm].
  assert (Hl : views (qs_queue s) !! id = Some (view_of t)) by (unfold views; by rewrite lookup_fmap, Ht).
  destruct (queue_moves_later _ _ _ _ Hm Hl) as (v' & Hv' & L).
  pose proof (queue_moves_ok _ _ Hm Hv id v' Hv') as (Hlock & _).
  unfold views in Hv'. rewrite lookup_fmap in Hv'. destruct (q_tasks (qs_queue s') !! id) as [t'|]; [|done].
  injection Hv' as <-. eauto.
Qed.

(** ** The lock *)

(** The five methods that need the lock. *)
Inductive lock_call : Type :=
| LHeartbeat (now : option float) | LComplete (now : option float) | LFail (why : string) (now : option float)
| LRetry (why : string) | LPause.
Definition call_locked (c : lock_call) (id w : string) : M (QState X) exn RuntimeTask :=
  match c with
  | LHeartbeat now => heartbeat id w now
  | LComplete now => complete id w now
  | LFail why now => fail id w why now
  | LRetry why => retry id w why
  | LPause => pause id w
  end.
(** What the call makes of the task, at time [at_]. *)
Definition lock_result (c : lock_call) (at_ : float) (t : RuntimeTask) : RuntimeTask :=
  match c with
  | LHeartbeat _ => set_life (rt_status t) (locked_by t) (attempts t) (started_at t) (Some at_) (finished_at t)
                      (failure_reason t) t
  | LComplete _ => finished_task T_SUCCEEDED at_ t
  | LFail why _ => failed_task why at_ t
  | LRetry why => retried_task why t
  | LPause => paused_task t
  end.
Definition lock_time (c : lock_call) s : float :=
  match c with LHeartbeat now | LComplete now | LFail _ now => instant now (qs_sys s) | _ => fzero end.

(** Heartbeat, complete, fail, retry and pause succeed exactly for the
    worker that holds the lock of a running task, and then store exactly the
    changed task; for an unknown task they raise KeyError, for any other
    worker or status PermissionError, and leave everything as it was. *)
Theorem queue_lock_exact c id w s :
  match q_tasks (qs_queue s) !! id with
  | None => call_locked c id w s = (Raise (Exn KeyError ("Unknown task: " +:+ id)), s)
  | Some t =>
      if bool_decide (rt_status t = T_RUNNING) && bool_decide (locked_by t = Some w)
      then exists s', call_locked c id w s = (Ok (lock_result c (lock_time c s) t), s') /\
             qs_queue s' = store_task (lock_result c (lock_time c s) t) (qs_queue s)
      else call_locked c id w s = (Raise (Exn PermissionError "Task is not locked by this worker"), s)
  end.
Proof.
  destruct c; cbn [call_locked lock_result lock_time];
    rewrite ?heartbeat_run, ?complete_run, ?fail_run, ?retry_run, ?pause_run; unfold locked_run, owns;
    (destruct (q_tasks (qs_queue s) !! id) as [t|]; [|done]); (destruct (_ && _); [|done]); eauto.
Qed.

(** Claiming is first in, first out: a claim locks the first queued task
    of the order for the worker, counts the attempt and returns it; it returns
    nothing, and changes nothing, exactly when no task is queued. *)
Theorem queue_claim_fifo w now s :
  state_ok s ->
  match fst (claim w now s) with
  | Ok (Some t') => exists l id l' t, q_order (qs_queue s) = l ++ id :: l' /\
      q_tasks (qs_queue s) !! id = Some t /\ rt_status t = T_QUEUED /\
      (forall i t0, i ∈ l -> q_tasks (qs_queue s) !! i = Some t0 -> rt_status t0 <> T_QUEUED) /\
      t' = claimed_task w (instant now (qs_sys s)) t /\
      qs_queue (snd (claim w now s)) = store_task t' (qs_queue s)
  | Ok None => (forall i t0, q_tasks (qs_queue s) !! i = Some t0 -> rt_status t0 <> T_QUEUED) /\
      qs_queue (snd (claim w now s)) = qs_queue s
  | Raise _ => False
  end.
Proof.
  intros Hok. rewrite claim_run by (by apply state_order_ok). destruct (first_queued _ _) as [t|] eqn:Ef; simpl.
  - apply first_queued_spec in Ef as (l & id & l' & Ho & Ht & Hq & Hl). exists l, id, l', t. split_and!; try done.
    intros i t0 Hi Hi0. destruct (Hl i Hi) as (t1 & Ht1 & Hn). congruence.
  - split; [|done]. intros i t0 Hi. eapply first_queued_none in Ef; [|intros j Hj|by apply (qo_order _ _ Hok)|exact Hi].
    + exact Ef.
    + by apply (qo_order _ _ Hok).
Qed.

(** enqueueing is idempotent in the key: when a task with the (non-empty)
    key exists, enqueue returns that task and changes neither the queue nor
    its database; otherwise the new task appears at the end of the order and
    is the one every later enqueue with the key returns. *)
Theorem queue_enqueue_idempotent plan key rp tp s :
  state_ok s -> enqueue_pre plan rp tp s ->
  match known_key key s with
  | Some (k, id) => exists t, q_tasks (qs_queue s) !! id = Some t /\ real_key (rt_key t) = Some k /\
      fst (enqueue plan key rp tp s) = Ok t /\ qs_queue (snd (enqueue plan key rp tp s)) = qs_queue s
  | None => let s' := snd (enqueue plan key rp tp s) in let id := uuid_at (n_uuid (qs_sys s)) in
      q_order (qs_queue s') = q_order (qs_queue s) ++ [id] /\
      (forall k, real_key key = Some k -> known_key key s' = Some (k, id)) /\
      forall t, fst (enqueue plan key rp tp s) = Ok t -> task_id t = id /\ q_tasks (qs_queue s') !! id = Some t
  end.
Proof.
  intros Hok Hpre. destruct (known_key key s) as [[k id]|] eqn:Ek.
  { destruct (enqueue_known plan key rp tp s k id Hok Ek) as (t & Ht & Htk & ->). eauto. }
  rewrite (enqueue_unknown plan key rp tp s (ep_plan _ _ _ _ Hpre) Ek). set (t := next_task plan key rp tp s).
  assert (Hok1 : state_ok (enqueued t s)).
  { destruct Hpre as [Hf Hp _ Hr Ht]. apply (add_task_ok (qs_queue s) t); [done|exact Hf| |exact Hp|exact Hr|exact Ht].
    intros k Hk. unfold known_key in Ek. simpl in Hk. rewrite Hk in Ek. simpl in Ek. by destruct (q_index _ !! k). }
  destruct (persist_enqueue_ok t (enqueued t s) Hok1 (ep_wf _ _ _ _ Hpre)) as [_ (Hq & Ho & Hx & _)]; [apply lookup_insert_eq|].
  unfold bind. destruct (persist_enqueue t (enqueued t s)) as [r s'] eqn:Ep. cbn [snd] in *.
  assert (Hsnd : snd (match r with Ok _ => ret t s' | Raise e => (Raise e, s') end) = s') by (by destruct r).
  rewrite Hsnd. clear Hsnd. cbv zeta. split_and!.
  - rewrite Ho. reflexivity.
  - intros k Hk. unfold known_key. rewrite Hk, Hx. cbn [option_bind mbind]. unfold enqueued, add_task. cbn [qs_queue q_index].
    change (rt_key t) with key. rewrite Hk, lookup_insert_eq. done.
  - intros t0 Ht0. assert (t0 = t) as -> by (destruct r; by inversion Ht0). split; [done|].
    rewrite Hq. apply lookup_insert_eq.
Qed.
End props.

(** ** The watchdog *)

Section watchdog.
Context `{PyRuntime} {X : Type}.
Implicit Types s : QState X.

Definition expired (now : float) (t : RuntimeTask) : option string :=
  if bool_decide (rt_status t = T_RUNNING) then timeout_reason t now else None.
Definition expire (now : float) (t : RuntimeTask) : RuntimeTask :=
  match expired now t with
  | Some why => set_life T_TIMED_OUT None (attempts t) (started_at t) (last_heartbeat_at t) (Some now) (Some why) t
  | None => t
  end.
Definition overdue (m : gmap string RuntimeTask) (now : float) (id : string) : bool :=
  match m !! id with Some t => if expired now t then true else false | None => false end.

Lemma check_loop_exact now ids acc s :
  state_ok s -> NoDup ids -> (forall id, id ∈ ids -> is_Some (q_tasks (qs_queue s) !! id)) ->
  exists s', check_loop now ids acc s =
      (Ok (acc ++ List.filter (overdue (q_tasks (qs_queue s)) now) ids), s') /\
    q_order (qs_queue s') = q_order (qs_queue s) /\ q_index (qs_queue s') = q_index (qs_queue s) /\
    forall id, q_tasks (qs_queue s') !! id =
      (if decide (id ∈ ids) then expire now else (fun t => t)) <$> q_tasks (qs_queue s) !! id.
Proof.
  revert acc s. induction ids as [|id ids IH]; intros acc s Hok Hnd Hin.
  { exists s. simpl. rewrite app_nil_r. split_and!; try done. intros id. by destruct (q_tasks (qs_queue s) !! id). }
  apply NoDup_cons in Hnd as [Hni Hnd]. cbn [check_loop List.filter]. rewrite require_run.
  destruct (Hin id) as [t Et]; [left|]. unfold overdue at 1. rewrite Et. unfold expired at 1.
  assert (Hskip : expire now t = t -> forall s', (forall i, q_tasks (qs_queue s') !! i =
      (if decide (i ∈ ids) then expire now else (fun t => t)) <$> q_tasks (qs_queue s) !! i) ->
    forall i, q_tasks (qs_queue s') !! i =
      (if decide (i ∈ id :: ids) then expire now else (fun t => t)) <$> q_tasks (qs_queue s) !! i).
  { intros He s' Hs' i. rewrite Hs'. destruct (decide (i = id)) as [->|Hne].
    - rewrite Et, decide_False, decide_True by (done || left). simpl. by rewrite He.
    - destruct (decide (i ∈ ids)); [rewrite decide_True by (by right)|rewrite decide_False by set_solver]; done. }
  assert (Hin' : forall i, i ∈ ids -> is_Some (q_tasks (qs_queue s) !! i)) by (intros i Hi; apply Hin; by right).
  case_bool_decide as Hr; cbn [negb]; cycle 1.
  { destruct (IH acc s Hok Hnd Hin') as (s' & E & Ho & Hx & Hs'). exists s'. split_and!; try done.
    apply Hskip; [|done]. unfold expire, expired. by rewrite bool_decide_false. }
  destruct (timeout_reason t now) as [why|] eqn:Ew; cycle 1.
  { destruct (IH acc s Hok Hnd Hin') as (s' & E & Ho & Hx & Hs'). exists s'. split_and!; try done.
    apply Hskip; [|done]. unfold expire, expired. by rewrite bool_decide_true, Ew. }
  set (t' := set_life _ _ _ _ _ _ _ t).
  assert (He : expire now t = t') by (unfold expire, expired; by rewrite bool_decide_true, Ew).
  unfold bind at 1. cbn [assign modify]. unfold bind at 1. rewrite persist_run. unfold bind at 1.
  rewrite plan_id_run by exact (qo_plans _ _ Hok id t Et). unfold bind at 1. cbn [audit modify].
  set (s1 := upd_sys _ _).
  assert (Hid : task_id t = id) by exact (qo_ids _ _ Hok id t Et).
  assert (Ht : touch s s1).
  { exists t, t'. split_and!; [by rewrite Hid|apply set_life_static|right; by apply (vs_timeout (view_of t))| |done].
    by destruct s as [[? ? ? []] ? ? ?]. }
  assert (Hm : q_tasks (qs_queue s1) = <[id := t']> (q_tasks (qs_queue s))) by (simpl; by rewrite Hid).
  destruct (IH (acc ++ [id]) s1) as (s' & E & Ho & Hx & Hs'); [by eapply touch_ok|done| |].
  { intros i Hi. rewrite Hm. apply lookup_insert_is_Some'. auto. }
  exists s'. split_and!; [|by rewrite Ho|by rewrite Hx|].
  - assert (Hf : List.filter (overdue (q_tasks (qs_queue s1)) now) ids =
      List.filter (overdue (q_tasks (qs_queue s)) now) ids).
    { apply List.filter_ext_in. intros i Hi%list_elem_of_In. unfold overdue. rewrite Hm, lookup_insert_ne; [done|].
      by intros ->. }
    rewrite E, Hf, <-app_assoc. done.
  - intros i. rewrite Hs', Hm. destruct (decide (i = id)) as [->|Hne].
    + rewrite lookup_insert_eq, Et, decide_False, decide_True by (done || left). simpl. by rewrite He.
    + rewrite lookup_insert_ne by done.
      destruct (decide (i ∈ ids)); [rewrite decide_True by (by right)|rewrite decide_False by set_solver]; done.
Qed.

Lemma tasks_run s : state_ok s ->
  exists ts, tasks s = (Ok ts, s) /\ map task_id ts = q_order (qs_queue s).
Proof.
  intros Hok. assert (Hl : forall ids, (forall id, id ∈ ids -> is_Some (q_tasks (qs_queue s) !! id)) ->
    exists ts, lookup_all (q_tasks (qs_queue s)) ids = Ok ts /\ map task_id ts = ids).
  { induction ids as [|id ids IH]; intros Hi; [by exists []|]. destruct (Hi id) as [t Ht]; [left|].
    destruct IH as (ts & E & Ets); [intros i ?; apply Hi; by right|]. exists (t :: ts). simpl. rewrite Ht, E, Ets.
    by rewrite (qo_ids _ _ Hok id t Ht). }
  destruct (Hl (q_order (qs_queue s))) as (ts & E & Ets); [intros id; apply (qo_order _ _ Hok)|].
  exists ts. unfold tasks, bind, gets, of_res. by rewrite E.
Qed.

(** The watchdog is exact: it times out precisely the running tasks whose
    heartbeat or runtime limit is exceeded at that moment, reports them in
    queue order, releases their locks, and leaves every other task as it was. *)
Theorem watchdog_exact now s :
  state_ok s ->
  let at_ := instant now (qs_sys s) in
  exists s', watchdog_check now s =
      (Ok (List.filter (overdue (q_tasks (qs_queue s)) at_) (q_order (qs_queue s))), s') /\
    q_tasks (qs_queue s') = expire at_ <$> q_tasks (qs_queue s) /\
    q_order (qs_queue s') = q_order (qs_queue s) /\ q_index (qs_queue s') = q_index (qs_queue s).
Proof.
  intros Hok at_. unfold watchdog_check. unfold bind at 1. rewrite now_or_run.
  assert (Hok1 : state_ok (with_qsys (tick now (qs_sys s)) s)) by exact Hok.
  destruct (tasks_run _ Hok1) as (ts & E & Ets). unfold bind at 1. rewrite E, Ets.
  destruct (check_loop_exact at_ (q_order (qs_queue s)) [] _ Hok1) as (s' & Es & Ho & Hx & Hm).
  - exact (qo_nodup _ _ Hok).
  - intros id. apply (qo_order _ _ Hok).
  - exists s'. split_and!; [exact Es| |exact Ho|exact Hx]. apply map_eq. intros id. rewrite Hm, lookup_fmap. simpl.
    destruct (q_tasks (qs_queue s) !! id) as [t|] eqn:Et; [|done]. rewrite decide_True; [done|].
    apply (qo_order _ _ Hok). eauto.
Qed.
End watchdog.

(** ** The runner *)

Section runner.
Context `{PyRuntime} {X : Type} (kernel : nat -> M (KState X) exn unit).
Implicit Types s : QState X.

(** How the run of a claimed task [t] (with its new attempt counted) ends. *)
Record run_ends (t t' : RuntimeTask) : Prop := {
  re_static : same_static t t';
  re_attempts : attempts t' = attempts t;
  re_unlocked : locked_by t' = None;
  re_status : rt_status t' = T_SUCCEEDED \/
    (rt_status t' = T_QUEUED /\ (attempts t < max_attempts (retry_policy t))%Z) \/
    (rt_status t' = T_FAILED /\ (max_attempts (retry_policy t) <= attempts t)%Z);
}.
Lemma handle_failure_ends t w why now s :
  q_tasks (qs_queue s) !! task_id t = Some t -> owns w t = true ->
  exists t' s', handle_failure t w why now s = (Ok t', s') /\ qs_queue s' = store_task t' (qs_queue s) /\
    qs_plans s' = qs_plans s /\ run_ends t t' /\ rt_status t' <> T_SUCCEEDED.
Proof.
  intros Ht Ho. unfold handle_failure. destruct (Z.ltb_spec (attempts t) (max_attempts (retry_policy t))).
  - rewrite retry_run. unfold locked_run. rewrite Ht, Ho. do 2 eexists. split_and!; [done|done|done| |done].
    by split; [split|..]; auto.
  - rewrite fail_run. unfold locked_run. rewrite Ht, Ho. do 2 eexists. split_and!; [done|done|done| |done].
    by split; [split|..]; auto.
Qed.
Lemma conclude_ends t w now s :
  q_tasks (qs_queue s) !! task_id t = Some t -> owns w t = true -> rt_plan t < length (qs_plans s) ->
  exists t' s', conclude t w now s = (Ok t', s') /\ qs_queue s' = store_task t' (qs_queue s) /\
    qs_plans s' = qs_plans s /\ run_ends t t' /\
    (rt_status t' = T_SUCCEEDED <->
       exists p, qs_plans s !! rt_plan t = Some p /\ g_status (po_goal p) = G_SUCCEEDED).
Proof.
  intros Ht Ho Hp. apply lookup_lt_is_Some in Hp as [p Hp]. unfold conclude, get_plan.
  unfold bind at 1. unfold bind at 1. cbn [gets]. rewrite Hp. cbn [ret]. unfold bind at 1. cbn [audit modify].
  case_bool_decide as Hs.
  - rewrite complete_run. unfold locked_run. cbn [upd_sys QState_HasSys with_qsys qs_queue]. rewrite Ht, Ho.
    do 2 eexists. split_and!; [done|done|done| |naive_solver]. by split; [split|..]; auto.
  - edestruct (handle_failure_ends t w) as (t' & s' & E & Hq & Hpl & Hre & Hn); [| |].
    3: { rewrite E. exists t', s'. split_and!; [done|exact Hq|exact Hpl|done|]. split; [done|].
         intros (p' & Hp' & Hs'). congruence. }
    + exact Ht.
    + exact Ho.
Qed.

(** One call of the runner, exactly: with no queued task it does nothing;
    otherwise it claims the first queued task, runs its plan once, and always
    returns that task unlocked with one more attempt: succeeded exactly when
    the kernel returned and left the goal of the plan SUCCEEDED, else requeued
    while attempts remain, else failed.  Exceptions of the kernel never escape
    and no other task changes. *)
Theorem run_next_exact w now s :
  kernel_grows kernel -> state_ok s ->
  match first_queued (q_tasks (qs_queue s)) (q_order (qs_queue s)) with
  | None => exists s', run_next kernel w now s = (Ok None, s') /\ qs_queue s' = qs_queue s
  | Some t =>
      let t1 := claimed_task w (instant now (qs_sys s)) t in
      exists t' s' k0, run_next kernel w now s = (Ok (Some t'), s') /\
        qs_queue s' = store_task t' (store_task t1 (qs_queue s)) /\ run_ends t1 t' /\
        k_plans k0 = qs_plans s /\ k_env k0 = qs_env s /\ qs_plans s' = k_plans (snd (kernel (rt_plan t) k0)) /\
        (rt_status t' = T_SUCCEEDED <-> fst (kernel (rt_plan t) k0) = Ok tt /\
           exists p, qs_plans s' !! rt_plan t = Some p /\ g_status (po_goal p) = G_SUCCEEDED)
  end.
Proof.
  intros Hk Hok. pose proof (claim_run w now s (state_order_ok s Hok)) as Ec.
  destruct (first_queued _ _) as [t|] eqn:Ef; unfold run_next; cycle 1.
  { unfold bind at 1. rewrite Ec. by eexists. }
  unfold bind at 1. rewrite Ec. clear Ec.
  apply first_queued_spec in Ef as (l & id & l' & _ & Ht & Hq & _). cbv zeta.
  assert (Hid : task_id t = id) by exact (qo_ids _ _ Hok id t Ht).
  pose proof (qo_plans _ _ Hok id t Ht) as Hp.
  set (t1 := claimed_task w (instant now (qs_sys s)) t).
  unfold bind at 1. rewrite plan_id_run by exact Hp. unfold bind at 1. cbn [audit modify].
  set (s1 := upd_sys _ _). unfold bind at 1.
  assert (Hs1 : qs_queue s1 = store_task t1 (qs_queue s)) by done.
  assert (Ht1 : q_tasks (qs_queue s1) !! task_id t1 = Some t1) by (rewrite Hs1; apply lookup_insert_eq).
  assert (Ho1 : owns w t1 = true) by (unfold owns; simpl; by rewrite !bool_decide_true).
  set (k0 := {| k_plans := qs_plans s1; k_sys := qs_sys s1; k_env := qs_env s1 |}).
  assert (Ha : attempt kernel (rt_plan t) s1 =
    (Ok (match fst (kernel (rt_plan t) k0) with Ok _ => None | Raise e => Some e end),
     let k := snd (kernel (rt_plan t) k0) in
     {| qs_queue := qs_queue s1; qs_plans := k_plans k; qs_sys := k_sys k; qs_env := k_env k |})).
  { unfold attempt, catch, bind, run_kernel. fold k0. by destruct (kernel (rt_plan t) k0) as [[[]|e] k]. }
  change (rt_plan t1) with (rt_plan t). rewrite Ha. cbv zeta.
  specialize (Hk (rt_plan t) k0). destruct (kernel (rt_plan t) k0) as [r k] eqn:Ek. cbn [fst snd] in *.
  set (s2 := {| qs_queue := qs_queue s1; qs_plans := k_plans k; qs_sys := k_sys k; qs_env := k_env k |}).
  assert (Hp2 : rt_plan t1 < length (qs_plans s2)) by (simpl in *; lia).
  destruct r as [[]|e].
  - destruct (conclude_ends t1 w now s2 Ht1 Ho1 Hp2) as (t' & s' & E & Hq' & Hpl & Hre & Hsu).
    exists t', s', k0. unfold bind at 1. rewrite E, Ek. split_and!; try done. rewrite Hpl. simpl in *. naive_solver.
  - destruct (handle_failure_ends t1 w ("Task execution raised: " +:+ exn_str e) now s2 Ht1 Ho1)
      as (t' & s' & E & Hq' & Hpl & Hre & Hn).
    exists t', s', k0. unfold bind at 1. rewrite E, Ek. split_and!; try done. naive_solver.
Qed.

(** ** Termination of the runner *)

(** Runs a queued task may still cause. *)
Definition weight (t : RuntimeTask) : nat :=
  if bool_decide (rt_status t = T_QUEUED)
  then Z.to_nat (Z.max 1 (max_attempts (retry_policy t) - attempts t)) else 0.
Definition weight_at (m : gmap string RuntimeTask) (id : string) : nat := from_option weight 0 (m !! id).
Definition pending_runs (q : TaskQueue) : nat := sum_list_with (weight_at (q_tasks q)) (q_order q).

Lemma sum_list_change (f g : string -> nat) l id :
  NoDup l -> id ∈ l -> (forall i, i <> id -> g i = f i) -> g id < f id ->
  S (sum_list_with g l) <= sum_list_with f l.
Proof.
  intros Hnd Hin Hne Hlt. induction l as [|i l IH]; [by apply elem_of_nil in Hin|].
  apply NoDup_cons in Hnd as [Hni Hnd]. simpl. destruct (decide (i = id)) as [->|Hi].
  - assert (sum_list_with g l = sum_list_with f l); [|lia]. clear IH Hin Hnd.
    induction l as [|j l IH]; [done|]. apply not_elem_of_cons in Hni as [Hj Hni]. simpl.
    rewrite Hne by done. rewrite IH; done.
  - apply elem_of_cons in Hin as [|Hin]; [done|]. rewrite (Hne i Hi). specialize (IH Hnd Hin). lia.
Qed.
Lemma run_next_pending w now s t :
  kernel_grows kernel -> state_ok s -> fst (run_next kernel w now s) = Ok (Some t) ->
  S (pending_runs (qs_queue (snd (run_next kernel w now s)))) <= pending_runs (qs_queue s).
Proof.
  intros Hk Hok Hr. pose proof (run_next_exact w now s Hk Hok) as Hx.
  destruct (first_queued _ _) as [t0|] eqn:Ef; [|by destruct Hx as (s' & E & _); rewrite E in Hr].
  apply first_queued_spec in Ef as (l & id & l' & Ho & Ht & Hq & _).
  destruct Hx as (t' & s' & k0 & E & Hq' & [Hst Ha _ Hs] & _). rewrite E in *. clear Hr. cbn [snd]. rewrite Hq'.
  assert (Hid : task_id t0 = id) by exact (qo_ids _ _ Hok id t0 Ht).
  assert (Hid' : task_id t' = id) by (rewrite (st_id _ _ Hst); exact Hid).
  unfold pending_runs. cbn [store_task q_order q_tasks].
  apply (sum_list_change _ _ _ id); [exact (qo_nodup _ _ Hok)|rewrite Ho; set_solver| |].
  - intros i Hi. unfold weight_at. change (task_id (claimed_task w (instant now (qs_sys s)) t0)) with (task_id t0).
    rewrite !lookup_insert_ne by congruence. done.
  - unfold weight_at. rewrite Hid', lookup_insert_eq, Ht. cbn [from_option]. unfold weight.
    rewrite (bool_decide_true (rt_status t0 = T_QUEUED)) by done.
    pose proof (st_retry _ _ Hst) as Hrp. rewrite Hrp, Ha. cbn [claimed_task set_life retry_policy attempts] in *.
    case_bool_decide as Hq''; [|lia]. destruct Hs as [Hs|[[_ Hs]|[Hs _]]]; [congruence| |congruence]. lia.
Qed.

(** [n] consecutive calls that ran a task each, with any workers and clocks. *)
Inductive runner_runs : nat -> relation (QState X) :=
| rr_nil s : runner_runs 0 s s
| rr_cons n w now s t s' :
    fst (run_next kernel w now s) = Ok (Some t) -> runner_runs n (snd (run_next kernel w now s)) s' ->
    runner_runs (S n) s s'.

(** C34: the retry loop terminates: if tasks are only taken by the runner, the
    number of plan executions is bounded by the sum, over the queued tasks, of
    the attempts they have left (at least one each), however the kernel
    behaves; and the runner stops only when no task is queued. *)
Theorem runner_terminates n s s' :
  kernel_grows kernel -> state_ok s -> runner_runs n s s' ->
  n + pending_runs (qs_queue s') <= pending_runs (qs_queue s) /\
  forall w now, fst (run_next kernel w now s') = Ok None <->
    forall id t, q_tasks (qs_queue s') !! id = Some t -> rt_status t <> T_QUEUED.
Proof.
  intros Hk Hok Hr. induction Hr as [s|n w now s t s' Ht _ IH].
  - split; [lia|]. intros w now. pose proof (run_next_exact w now s Hk Hok) as Hx.
    pose proof (first_queued_none (q_tasks (qs_queue s)) (q_order (qs_queue s))
                  (fun id => proj1 (qo_order _ _ Hok id))) as Hn.
    assert (Hin : forall id t, q_tasks (qs_queue s) !! id = Some t -> id ∈ q_order (qs_queue s))
      by (intros id t Ht; apply (qo_order _ _ Hok); eauto).
    destruct (first_queued _ _) as [t|]; [destruct Hx as (t' & s' & k0 & E & _)|destruct Hx as (s' & E & _)]; rewrite E; simpl.
    + split; [done|]. intros Hall. exfalso. assert (Some t = None) as [=]. apply Hn. intros id t0 _. apply Hall.
    + split; [|done]. intros _ id t Ht. eapply Hn; eauto.
  - pose proof (run_next_pending w now s t Hk Hok Ht) as Hlt.
    assert (Hok' : state_ok (snd (run_next kernel w now s))) by (eapply work_ok, Hok; by apply run_next_works).
    destruct (IH Hok') as [Hle Hstop]. split; [lia|done].
Qed.
End runner.

(** ** Plans that cannot be stored *)

Section unserializable.
Context `{PyRuntime} {X : Type}.
Implicit Types s : QState X.

(** What enqueue does to a plan that has no JSON form, in a queue with a
    database: it raises SerializationError, and the task is nevertheless
    queued in memory and indexed under its key, without any database row; the
    next claim can take it, and after a restart it is gone. *)
Theorem queue_unserializable_enqueue plan key rp tp s p db e :
  state_ok s -> enqueue_pre plan rp tp s -> known_key key s = None ->
  qs_plans s !! plan = Some p -> q_db (qs_queue s) = Some db -> serialize_plan p = Raise e ->
  let s' := snd (enqueue plan key rp tp s) in let t := next_task plan key rp tp s in
  fst (enqueue plan key rp tp s) = Raise e /\ exn_cls e = SerializationError /\
  q_tasks (qs_queue s') !! task_id t = Some t /\ rt_status t = T_QUEUED /\
  q_order (qs_queue s') = q_order (qs_queue s) ++ [task_id t] /\ q_db (qs_queue s') = Some db /\
  (task_id t ∉ map row_id (db_tasks db)).
Proof.
  intros Hok Hpre Hk Hp Hdb Hs. cbv zeta. rewrite (enqueue_unknown plan key rp tp s (ep_plan _ _ _ _ Hpre) Hk).
  set (t := next_task plan key rp tp s).
  assert (E : persist_enqueue t (enqueued t s) = (Raise e, enqueued t s)).
  { unfold persist_enqueue, get_plan, bind, gets. simpl. rewrite Hdb. simpl. rewrite Hp. simpl. unfold of_res.
    by rewrite Hs. }
  unfold bind. rewrite E. split_and!; try done.
  - revert Hs. unfold serialize_plan. destruct (json_doc _); [done|]. by intros [= <-].
  - apply lookup_insert_eq.
  - intros Hin. apply list_elem_of_fmap in Hin as (r & Hr & Hin).
    pose proof (db_rows _ _ _ (qo_db _ _ Hok db Hdb)) as Hrows. rewrite Forall_forall in Hrows.
    destruct (Hrows r Hin) as (t0 & Ht0 & _). rewrite <-Hr in Ht0.
    pose proof (ep_fresh _ _ _ _ Hpre) as Hf. change (task_id t) with (uuid_at (n_uuid (qs_sys s))) in Ht0. congruence.
Qed.
End unserializable.

(** ** Witnesses *)

Lemma toy_queue_ok : state_ok toy_queue.
Proof. apply (empty_db_queue_ok 2). Qed.
Lemma toy_pre i : i < 2 -> enqueue_pre i None None toy_queue.
Proof.
  intros Hi. split; [done|exact Hi| |done|done]. destruct i as [|[|i]]; [| |lia];
    intros p [= <-]; (split_and!; [done|constructor|done]).
Qed.
Lemma toy_kernel_grows : kernel_grows toy_kernel.
Proof. intros i k. done. Qed.
Lemma toy_steps : rtc queue_step toy_queue toy_claimed.
Proof.
  eapply rtc_l; [apply (qst_enqueue 0 (Some "key") None None toy_queue), toy_pre; lia|].
  apply rtc_once. apply (qst_claim "worker" None).
Qed.
Lemma toy_enqueued_ok : state_ok toy_enqueued.
Proof. apply enqueue_ok; [apply toy_queue_ok|apply toy_pre; lia]. Qed.
Lemma queue_task_lifecycle_witness :
  exists t', q_tasks (qs_queue toy_claimed) !! "id-0" = Some t' /\
    view_later (view_of (next_task 0 (Some "key") None None toy_queue)) (view_of t') /\
    (rt_status t' = T_RUNNING <-> is_Some (locked_by t')).
Proof.
  apply (queue_task_lifecycle toy_enqueued toy_claimed "id-0" _); [|apply toy_enqueued_ok| |reflexivity].
  - apply rtc_once. apply (qst_claim "worker" None).
  - eapply (queue_moves_ok ∅); [|apply map_Forall_empty].
    exact (proj2 (enqueue_ok 0 (Some "key") None None toy_queue toy_queue_ok (toy_pre 0 ltac:(lia)))).
Defined.
Lemma queue_claim_fifo_witness :
  exists t' l id l' t, fst (claim "worker" None toy_enqueued) = Ok (Some t') /\
    q_order (qs_queue toy_enqueued) = l ++ id :: l' /\ q_tasks (qs_queue toy_enqueued) !! id = Some t /\
    rt_status t = T_QUEUED /\ qs_queue toy_claimed = store_task t' (qs_queue toy_enqueued).
Proof.
  pose proof (queue_claim_fifo "worker" None toy_enqueued toy_enqueued_ok) as Hc.
  change (snd (claim "worker" None toy_enqueued)) with toy_claimed in Hc.
  destruct (fst (claim "worker" None toy_enqueued)) as [[t'|]|] eqn:E; [|discriminate E|discriminate E].
  destruct Hc as (l & id & l' & t & H1 & H2 & H3 & _ & _ & H4). by exists t', l, id, l', t.
Defined.
Lemma queue_enqueue_idempotent_witness :
  exists t, q_tasks (qs_queue toy_enqueued) !! "id-0" = Some t /\ real_key (rt_key t) = Some "key" /\
    fst (enqueue 1 (Some "key") None None toy_enqueued) = Ok t /\
    qs_queue (snd (enqueue 1 (Some "key") None None toy_enqueued)) = qs_queue toy_enqueued.
Proof.
  apply (queue_enqueue_idempotent 1 (Some "key") None None toy_enqueued toy_enqueued_ok).
  split; [reflexivity|apply (Nat.ltb_lt 1 2); reflexivity| |done|done].
  intros p [= <-]. split_and!; [done|constructor|done].
Defined.
Lemma watchdog_exact_witness :
  exists s', watchdog_check (Some (f_of_Z 2000)) toy_claimed = (Ok ["id-0"], s') /\
    q_tasks (qs_queue s') = expire (f_of_Z 2000) <$> q_tasks (qs_queue toy_claimed) /\
    q_order (qs_queue s') = q_order (qs_queue toy_claimed) /\ q_index (qs_queue s') = q_index (qs_queue toy_claimed).
Proof.
  apply (watchdog_exact (Some (f_of_Z 2000)) toy_claimed).
  apply (work_ok toy_enqueued); [|apply toy_enqueued_ok]. apply claim_works, toy_enqueued_ok.
Defined.
Lemma run_next_exact_witness :
  let t := next_task 0 (Some "key") None None toy_queue in
  let t1 := claimed_task "worker" (f_of_Z 5) t in
  exists t' s' k0, run_next toy_kernel "worker" (Some (f_of_Z 5)) toy_enqueued = (Ok (Some t'), s') /\
    qs_queue s' = store_task t' (store_task t1 (qs_queue toy_enqueued)) /\ run_ends t1 t' /\
    k_plans k0 = qs_plans toy_enqueued /\ k_env k0 = qs_env toy_enqueued /\
    qs_plans s' = k_plans (snd (toy_kernel (rt_plan t) k0)) /\
    (rt_status t' = T_SUCCEEDED <-> fst (toy_kernel (rt_plan t) k0) = Ok tt /\
       exists p, qs_plans s' !! rt_plan t = Some p /\ g_status (po_goal p) = G_SUCCEEDED).
Proof.
  exact (run_next_exact toy_kernel "worker" (Some (f_of_Z 5)) toy_enqueued toy_kernel_grows toy_enqueued_ok).
Defined.
Lemma runner_terminates_witness :
  let s' := snd (run_next toy_kernel "worker" None toy_enqueued) in
  1 + pending_runs (qs_queue s') <= pending_runs (qs_queue toy_enqueued) /\
  forall w now, fst (run_next toy_kernel w now s') = Ok None <->
    forall id t, q_tasks (qs_queue s') !! id = Some t -> rt_status t <> T_QUEUED.
Proof.
  apply (runner_terminates toy_kernel 1 toy_enqueued _ toy_kernel_grows toy_enqueued_ok).
  eapply (rr_cons toy_kernel 0 "worker" None toy_enqueued); [vm_compute; reflexivity|constructor].
Defined.
Lemma queue_unserializable_enqueue_witness :
  exists e db, let s' := snd (enqueue 1 None None None toy_queue) in let t := next_task 1 None None None toy_queue in
  fst (enqueue 1 None None None toy_queue) = Raise e /\ exn_cls e = SerializationError /\
  q_tasks (qs_queue s') !! task_id t = Some t /\ rt_status t = T_QUEUED /\
  q_order (qs_queue s') = q_order (qs_queue toy_queue) ++ [task_id t] /\ q_db (qs_queue s') = Some db /\
  (task_id t ∉ map row_id (db_tasks db)).
Proof.
  do 2 eexists. eapply (queue_unserializable_enqueue 1 None None None toy_queue secret_plan_obj);
    [apply toy_queue_ok|apply toy_pre; lia|reflexivity|reflexivity|reflexivity|vm_compute; reflexivity].
Defined.
