(* ===== verification/QueueReload.v ===== *)
(** Restarting a task queue: what loading the SQLite database gives back. *)
From Stdlib Require Import Sorting.Sorted.
From S2P Require Import Prelude Enums PyValue Goals Plans Serialization TaskSpec AuditTrail TaskQueue Fixtures QueueRuns QueueInv QueueProps.

Definition with_ref (ref : nat) (t : RuntimeTask) : RuntimeTask := {|
  rt_plan := ref; task_id := task_id t; rt_status := rt_status t; retry_policy := retry_policy t;
  timeout_policy := timeout_policy t; rt_key := rt_key t; attempts := attempts t; locked_by := locked_by t;
  enqueued_at := enqueued_at t; started_at := started_at t; last_heartbeat_at := last_heartbeat_at t;
  finished_at := finished_at t; failure_reason := failure_reason t |}.
(** What a row can hold without loss: no NaN timestamp, an enqueue time other
    than zero, and a worker not called None. *)
Definition is_nan (f : float) : bool := match f with S754_nan => true | _ => false end.
Definition is_zero (f : float) : bool := match f with S754_zero _ => true | _ => false end.
Definition nan_opt (o : option float) : bool := match o with Some f => is_nan f | None => false end.
Definition storable (t : RuntimeTask) : bool :=
  negb (is_nan (enqueued_at t) || is_zero (enqueued_at t) || nan_opt (started_at t) ||
        nan_opt (last_heartbeat_at t) || nan_opt (finished_at t) || bool_decide (locked_by t = Some "None")).

Section reload.
Context `{PyRuntime} {X : Type}.
Implicit Types s : QState X.

Lemma sql_opt_id o : nan_opt o = false -> sql_opt o = o.
Proof. destruct o as [[]|]; done. Qed.
Lemma sql_real_id f : is_nan f = false -> sql_real f = Some f.
Proof. by destruct f. Qed.
Lemma load_row_ok n ref t p doc :
  plan_wf p -> serialize_plan p = Ok doc -> retry_wf (retry_policy t) -> timeout_wf (timeout_policy t) ->
  storable t = true -> load_row n ref (new_row t doc) = dret (with_ref ref t, restored_plan (time_at n) p, S n).
Proof.
  intros Hp Hs Hr Ht Hst. unfold storable in Hst.
  apply negb_true_iff, orb_false_iff in Hst as [Hst Hl]. apply orb_false_iff in Hst as [Hst Hfin].
  apply orb_false_iff in Hst as [Hst Hbeat]. apply orb_false_iff in Hst as [Hst Hstart].
  apply orb_false_iff in Hst as [Hnan Hzero].
  unfold load_row. cbn [new_row row_plan row_status row_retry row_timeout row_enqueued row_locked row_started
    row_heartbeat row_finished row_failure row_id row_key row_attempts].
  rewrite (plan_read (time_at n) p doc Hp Hs). cbn [dbind dret].
  change (TaskStatus_value (rt_status t)) with (enum_value (rt_status t)). rewrite enum_of_value. cbn [dlift dbind].
  rewrite retry_roundtrip, timeout_roundtrip by done. cbn [dbind dret].
  rewrite sql_real_id, !sql_opt_id by done.
  assert (Hlock : match locked_by t with Some w => if String.eqb w "None" then None else Some w | None => None end = locked_by t).
  { destruct (locked_by t) as [w|]; [|done]. destruct (String.eqb_spec w "None") as [->|]; [|done].
    by rewrite bool_decide_true in Hl. }
  rewrite Hlock. destruct (enqueued_at t) eqn:Ee; try done; unfold with_ref; by rewrite Ee.
Qed.

(** A row that loads: the current row of a storable task. *)
Definition loadable (m : gmap string RuntimeTask) (r : TaskRow) : Prop :=
  exists t p, m !! row_id r = Some t /\ r = new_row t (row_plan r) /\ plan_wf p /\
    serialize_plan p = Ok (row_plan r) /\ retry_wf (retry_policy t) /\ timeout_wf (timeout_policy t) /\
    storable t = true /\ task_id t = row_id r.
(** The task and the plan loaded from a row. *)
Definition loaded_row (m m' : gmap string RuntimeTask) (plans' : list PlanObj) (r : TaskRow) : Prop :=
  exists t p ref n, m !! row_id r = Some t /\ m' !! row_id r = Some (with_ref ref t) /\
    plans' !! ref = Some (restored_plan (time_at n) p) /\ serialize_plan p = Ok (row_plan r).
Lemma load_rows_ok m rows q0 plans n :
  Forall (loadable m) rows -> NoDup (map row_id rows) ->
  exists q' plans' n', load_rows rows q0 plans n = dret (q', plans', n') /\
    q_order q' = q_order q0 ++ map row_id rows /\ q_index q' = q_index q0 /\ q_db q' = q_db q0 /\
    plans `prefix_of` plans' /\ Forall (loaded_row m (q_tasks q') plans') rows /\
    forall id, id ∉ map row_id rows -> q_tasks q' !! id = q_tasks q0 !! id.
Proof.
  revert q0 plans n. induction rows as [|r rows IH]; intros q0 plans n Hl Hnd.
  { exists q0, plans, n. simpl. rewrite app_nil_r. split_and!; try done. }
  apply Forall_cons in Hl as [(t & p & Ht & Hr & Hp & Hs & Hrw & Htw & Hst & Hid) Hl].
  simpl in Hnd. apply NoDup_cons in Hnd as [Hni Hnd]. cbn [load_rows].
  assert (Hload : load_row n (length plans) r = dret (with_ref (length plans) t, restored_plan (time_at n) p, S n)).
  { rewrite Hr. by apply load_row_ok. }
  rewrite Hload. cbn [dbind dret].
  match goal with |- context [load_rows rows ?q ?ps ?k] => destruct (IH q ps k Hl Hnd)
    as (q' & plans' & n' & E & Ho & Hx & Hdb & Hpre & Hall & Hm) end.
  exists q', plans', n'. cbn [q_tasks q_order q_index q_db] in *.
  change (task_id (with_ref (length plans) t)) with (task_id t) in *. rewrite Hid in *.
  split_and!; [exact E| |done|done| | |].
  - rewrite Ho, <-app_assoc. done.
  - etrans; [by apply prefix_app_r|exact Hpre].
  - constructor; [|done]. exists t, p, (length plans), n. split_and!; [done| | |done].
    + rewrite Hm by done. apply lookup_insert_eq.
    + eapply prefix_lookup_Some; [|exact Hpre]. rewrite lookup_app_r by lia. by rewrite Nat.sub_diag.
  - intros id Hn. simpl in Hn. apply not_elem_of_cons in Hn as [Hne Hn]. rewrite Hm by done.
    by rewrite lookup_insert_ne.
Qed.

Lemma insert_row_perm r l : insert_row r l ≡ₚ r :: l.
Proof.
  induction l as [|r' l IH]; simpl; [done|]. destruct (enqueued_before r' r); [|done]. rewrite IH. constructor.
Qed.
Lemma order_by_perm l : order_by_enqueued l ≡ₚ l.
Proof. induction l as [|r l IH]; simpl; [done|]. by rewrite insert_row_perm, IH. Qed.
Lemma order_by_sorted l : StronglySorted (fun r r' => enqueued_before r' r = false) l -> order_by_enqueued l = l.
Proof.
  induction 1 as [|r l _ IH Hall]; [done|]. simpl. rewrite IH. destruct l as [|r' l]; [done|]. simpl.
  apply Forall_cons in Hall as [Hr _]. by rewrite Hr.
Qed.
Lemma fold_index (l : list (string * string)) (m : gmap string string) k id :
  NoDup (map fst l) ->
  fold_left (fun m kv => <[kv.1 := kv.2]> m) l m !! k = Some id <->
  (k, id) ∈ l \/ (k ∉ map fst l /\ m !! k = Some id).
Proof.
  revert m. induction l as [|[k0 i0] l IH]; intros m Hnd; simpl; [set_solver|].
  simpl in Hnd. apply NoDup_cons in Hnd as [Hni Hnd]. rewrite IH by done.
  destruct (decide (k = k0)) as [->|Hne].
  - rewrite lookup_insert_eq. split.
    + intros [Hin|[_ [= ->]]]; [right|]; [|left; left]. exfalso. apply Hni. by apply (list_elem_of_fmap_2 fst) in Hin.
    + intros [Hin|[Hn _]]; [|exfalso; apply Hn; left]. apply elem_of_cons in Hin as [[= ->]|Hin]; auto.
  - rewrite lookup_insert_ne by done. rewrite elem_of_cons, not_elem_of_cons. naive_solver.
Qed.

End reload.

