(* ===== verification/PgTheory.v ===== *)
(** The PostgreSQL queue as a refinement of the abstract queue: the invariant
    of the table and the effect of the statements on it. *)
From S2P Require Import Prelude Enums PyValue Sanitization Goals Plans Serialization TaskSpec AuditTrail TaskQueue PgQueue Fixtures.

(** ** The table *)

Definition status_of (r : PgRow) : TaskStatus := match enum_of (pg_status r) with Ok st => st | Raise _ => T_QUEUED end.
Definition pg_view (r : PgRow) : TaskView :=
  {| tv_status := status_of r; tv_owner := pg_locked r; tv_attempts := pg_attempts r; tv_max := pg_max r |}.
Definition pg_views (rows : list PgRow) : gmap string TaskView := list_to_map (map (fun r => (pg_id r, pg_view r)) rows).

(** Every row can be read back, and its bound is the policy's. *)
Record row_ok `{PyRuntime} (r : PgRow) : Prop := {
  ro_plan : exists p, plan_wf p /\ serialize_plan p = Ok (pg_plan r);
  ro_status : pg_status r = TaskStatus_value (status_of r);
  ro_retry : exists rp, retry_wf rp /\ pg_retry r = serialize_retry_policy rp /\ pg_max r = max_attempts rp;
  ro_timeout : exists tp, timeout_wf tp /\ pg_timeout r = serialize_timeout_policy tp;
}.
Record table_ok `{PyRuntime} (rows : list PgRow) : Prop := {
  tk_ids : NoDup (map pg_id rows);
  tk_keys : NoDup (omap pg_key rows);
  tk_rows : Forall row_ok rows;
  tk_ints : Forall (fun r => int4 (pg_attempts r) = true) rows;
}.

Lemma has_status_spec st r : has_status st r = true <-> pg_status r = TaskStatus_value st.
Proof. apply String.eqb_eq. Qed.
Lemma status_value st r : pg_status r = TaskStatus_value st -> status_of r = st.
Proof. unfold status_of. intros ->. change (TaskStatus_value st) with (enum_value st). by rewrite enum_of_value. Qed.
Lemma has_status_view st r : has_status st r = true -> tv_status (pg_view r) = st.
Proof. intros Hs. by apply status_value, has_status_spec. Qed.

Section theory.
Context `{PyRuntime}.
Implicit Types rows : list PgRow.

(** The rest of the program may rely on this of any change of the table. *)
Definition table_moves rows rows' : Prop := table_ok rows -> table_ok rows' /\ queue_moves (pg_views rows) (pg_views rows').
#[export] Instance table_moves_preorder : PreOrder table_moves.
Proof.
  split; [intros rows Hr; split; [done|apply rtc_refl]|].
  intros r1 r2 r3 H1 H2 Hr. destruct (H1 Hr) as [T2 M2]. destruct (H2 T2) as [T3 M3]. split; [done|]. by etrans.
Qed.

Record row_moved (r r' : PgRow) : Prop := {
  rm_id : pg_id r' = pg_id r;
  rm_key : pg_key r' = pg_key r;
  rm_ok : row_ok r -> row_ok r';
  rm_view : pg_view r' = pg_view r \/ view_step (pg_view r) (pg_view r');
}.
Lemma row_moved_refl r : row_moved r r.
Proof. split; auto. Qed.

Lemma pg_views_cons r rows : pg_views (r :: rows) = <[pg_id r := pg_view r]> (pg_views rows).
Proof. done. Qed.
Lemma pg_views_none id rows : pg_views rows !! id = None <-> id ∉ map pg_id rows.
Proof.
  unfold pg_views. rewrite <-not_elem_of_list_to_map. by rewrite <-list_fmap_compose.
Qed.
Lemma moves_frame m m' id v : queue_moves m m' -> m' !! id = None -> queue_moves (<[id := v]> m) (<[id := v]> m').
Proof.
  intros Hm. induction Hm as [m|m1 m2 m3 Hs Hm IH]; intros Hn; [apply rtc_refl|].
  eapply rtc_l; [|by apply IH]. assert (Hn2 : m2 !! id = None).
  { destruct (m2 !! id) as [v2|] eqn:E; [|done]. by destruct (queue_moves_later _ _ _ _ Hm E) as (v3 & E3 & _); simplify_eq. }
  destruct Hs as [m i max Hi Hmax|m i v1 v2 Hi Hs].
  - destruct (decide (i = id)) as [->|Hne]; [by rewrite lookup_insert_eq in Hn2|].
    rewrite insert_insert_ne by done. apply qm_enqueue; [by rewrite lookup_insert_ne|done].
  - destruct (decide (i = id)) as [->|Hne]; [by rewrite lookup_insert_eq in Hn2|].
    rewrite insert_insert_ne by done. eapply qm_task; [by rewrite lookup_insert_ne|done].
Qed.
Lemma rows_moved_ids rows rows' : Forall2 row_moved rows rows' -> map pg_id rows' = map pg_id rows.
Proof. induction 1 as [|r r' l l' Hr _ IH]; simpl; [done|]. by rewrite IH, (rm_id _ _ Hr). Qed.
Lemma rows_moved_keys rows rows' : Forall2 row_moved rows rows' -> omap pg_key rows' = omap pg_key rows.
Proof. induction 1 as [|r r' l l' Hr _ IH]; csimpl; [done|]. by rewrite IH, (rm_key _ _ Hr). Qed.
Lemma rows_moved_views rows rows' :
  Forall2 row_moved rows rows' -> NoDup (map pg_id rows) -> queue_moves (pg_views rows) (pg_views rows').
Proof.
  induction 1 as [|r r' l l' Hr Hl IH]; intros Hn; [apply rtc_refl|]. simpl in Hn. apply NoDup_cons in Hn as [Hi Hn].
  rewrite !pg_views_cons, (rm_id _ _ Hr). trans (<[pg_id r := pg_view r']> (pg_views l)).
  - destruct (rm_view _ _ Hr) as [->|Hs]; [apply rtc_refl|]. apply rtc_once.
    rewrite <-(insert_insert_eq (pg_views l) (pg_id r) (pg_view r') (pg_view r)).
    eapply qm_task; [apply lookup_insert_eq|done].
  - apply moves_frame; [by apply IH|]. apply pg_views_none. by rewrite (rows_moved_ids _ _ Hl).
Qed.
Lemma rows_moved_table rows rows' :
  Forall2 row_moved rows rows' -> (Forall (fun r => int4 (pg_attempts r) = true) rows -> Forall (fun r => int4 (pg_attempts r) = true) rows') ->
  table_moves rows rows'.
Proof.
  intros Hf Hint [Hi Hk Hr Hn]. split; [split|by apply rows_moved_views].
  - by rewrite (rows_moved_ids _ _ Hf).
  - by rewrite (rows_moved_keys _ _ Hf).
  - clear Hi Hk Hint Hn. induction Hf as [|r r' l l' Hm _ IH]; [constructor|]. apply Forall_cons in Hr as [H1 H2].
    constructor; [by apply Hm|by apply IH].
  - by apply Hint.
Qed.

(** ** The statements *)

Definition sql_moves {A} (op : sql A) : Prop := forall rows rows' a, op rows = Ok (rows', a) -> table_moves rows rows'.
Lemma select_moves {A} (f : list PgRow -> A) : sql_moves (sql_select f).
Proof. by intros rows rows' a [= <- _]. Qed.
Lemma update_moves_in cond f rows rows' l :
  (forall r, r ∈ rows -> cond r = true -> row_moved r (f r)) -> sql_update cond f rows = Ok (rows', l) -> table_moves rows rows'.
Proof.
  unfold sql_update. intros Hf. destruct (forallb _ _) eqn:Hb; [|done]. intros [= <- _]. apply rows_moved_table.
  - clear Hb. induction rows as [|r rows IH]; simpl; [constructor|]. constructor.
    + destruct (cond r) eqn:Hc; [apply Hf; [by left|done]|apply row_moved_refl].
    + apply IH. intros r0 Hr0. apply Hf. by right.
  - rewrite !Forall_forall. intros Hn r (r0 & -> & Hin)%list_elem_of_fmap. destruct (cond r0) eqn:Hc; [|by apply Hn].
    rewrite forallb_forall in Hb. apply Hb, List.filter_In. split; [by apply list_elem_of_In|done].
Qed.
Lemma update_moves cond f : (forall r, cond r = true -> row_moved r (f r)) -> sql_moves (sql_update cond f).
Proof. intros Hf rows rows' l Hu. eapply update_moves_in; [|exact Hu]. auto. Qed.

(** [set_pg] keeps what identifies the task. *)
Lemma set_pg_ok st lock n a b c d why r : row_ok r -> row_ok (set_pg st lock n a b c d why r).
Proof. intros [Hp Hs Hr Ht]. split; [exact Hp| |exact Hr|exact Ht]. by rewrite (status_value st). Qed.
Lemma set_pg_moved st lock n a b c d why r :
  pg_view (set_pg st lock n a b c d why r) = pg_view r \/ view_step (pg_view r) (pg_view (set_pg st lock n a b c d why r)) ->
  row_moved r (set_pg st lock n a b c d why r).
Proof.
  intros Hv. split; [done|done|apply set_pg_ok|exact Hv].
Qed.
Lemma set_pg_view st lock n a b c d why r : pg_view (set_pg st lock n a b c d why r) =
  {| tv_status := st; tv_owner := lock; tv_attempts := n; tv_max := pg_max r |}.
Proof. unfold pg_view. f_equal. by apply status_value. Qed.
Lemma locked_owned id w r : locked_cond id w r = true -> pg_id r = id /\ owned w (pg_view r).
Proof.
  unfold locked_cond. rewrite !andb_true_iff, bool_decide_eq_true, String.eqb_eq. intros [[Hi Hs%has_status_view] Hl]. by split.
Qed.
Ltac set_moved := apply set_pg_moved; right; rewrite set_pg_view.
Lemma finish_moves id w st why now : st = T_SUCCEEDED \/ st = T_FAILED ->
  sql_moves (sql_update (locked_cond id w) (finish_row st why now)).
Proof. intros Hst. apply update_moves. intros r [_ Ho]%locked_owned. set_moved. by eapply vs_finish. Qed.
Lemma retry_moves id w why : sql_moves (sql_update (locked_cond id w) (retry_row why)).
Proof. apply update_moves. intros r [_ Ho]%locked_owned. set_moved. by eapply vs_retry. Qed.
Lemma pause_moves id w : sql_moves (sql_update (locked_cond id w) pause_row).
Proof. apply update_moves. intros r [_ Ho]%locked_owned. set_moved. by eapply vs_pause. Qed.
Lemma beat_moves id w now l : sql_moves (sql_update (locked_cond id w) (beat_row now l)).
Proof.
  apply update_moves. intros r _. split; [done|done| |by left]. intros [Hp Hs Hr Ht]. by split.
Qed.
Lemma cancel_moves id why now : sql_moves (sql_update (fun r => String.eqb (pg_id r) id) (finish_row T_CANCELLED why now)).
Proof. apply update_moves. intros r _. set_moved. apply vs_cancel. Qed.
Lemma resume_moves id : sql_moves (sql_update (fun r => String.eqb (pg_id r) id && has_status T_PAUSED r) resume_row).
Proof.
  apply update_moves. intros r [_ Hs%has_status_view]%andb_true_iff. set_moved. by apply (vs_resume (pg_view r)).
Qed.
Lemma requeue_moves now : sql_moves (sql_update (fun r => lease_expired now r && (pg_attempts r <? pg_max r)%Z) requeue_row).
Proof.
  apply update_moves. intros r [[Hs%has_status_view _]%andb_true_iff Ha%Z.ltb_lt]%andb_true_iff. set_moved. by apply (vs_reclaim (pg_view r)).
Qed.
Lemma timeout_moves now : sql_moves (sql_update (fun r => lease_expired now r && (pg_max r <=? pg_attempts r)%Z) (timeout_row now)).
Proof.
  apply update_moves. intros r [[Hs%has_status_view _]%andb_true_iff _]%andb_true_iff. set_moved. by apply (vs_timeout (pg_view r)).
Qed.

Lemma insert_pg_perm r l : insert_pg r l ≡ₚ r :: l.
Proof. induction l as [|r' l IH]; simpl; [done|]. destruct (pg_before r' r); [|done]. rewrite IH. constructor. Qed.
Lemma pg_sorted_perm l : pg_sorted l ≡ₚ l.
Proof. induction l as [|r l IH]; simpl; [done|]. by rewrite insert_pg_perm, IH. Qed.
Lemma claimable_in rows locked r : claimable rows locked = Some r -> r ∈ rows /\ has_status T_QUEUED r = true /\ locked (pg_id r) = false.
Proof.
  unfold claimable. intros (Hin & Hc)%List.find_some. apply andb_true_iff in Hc as [Hs Hl%negb_true_iff].
  split_and!; [|done|done]. by rewrite <-(pg_sorted_perm rows), list_elem_of_In.
Qed.
Lemma row_unique rows r r' : NoDup (map pg_id rows) -> r ∈ rows -> r' ∈ rows -> pg_id r' = pg_id r -> r' = r.
Proof.
  intros Hn H1 H2 E. apply list_elem_of_lookup in H1 as [i Hi], H2 as [j Hj].
  assert (i = j) as ->; [|congruence]. eapply NoDup_lookup; [exact Hn|by rewrite list_lookup_fmap, Hi|].
  rewrite list_lookup_fmap, Hj. simpl. by rewrite E.
Qed.
Lemma claim_moves locked lease w now n : sql_moves (claim_sql locked lease w now n).
Proof.
  intros rows rows' l. unfold claim_sql. destruct (claimable rows (locked n)) as [r|] eqn:Hc; [|by intros [= <- _]].
  apply claimable_in in Hc as (Hin & Hs%has_status_view & _). intros Hu Hok.
  eapply update_moves_in; [|exact Hu|exact Hok]. intros r' Hr' Hi%String.eqb_eq.
  assert (r' = r) as -> by (eapply row_unique; [apply Hok|done|done|done]). set_moved. by apply vs_claim.
Qed.
Lemma insert_moves skip r : row_ok r -> pg_view r = new_view (pg_max r) -> sql_moves (sql_insert skip r).
Proof.
  intros Hr Hv rows rows' l. unfold sql_insert. destruct (int4 (pg_max r)); simpl; [|done].
  set (same_key := existsb _ rows). destruct (skip && same_key); [by intros [= <- _]|].
  destruct (bool_decide (pg_id r ∈ map pg_id rows)) eqn:Hi; [done|]. apply bool_decide_eq_false in Hi.
  destruct same_key eqn:Hk; [done|]. intros [= <- _] [Hid Hkeys Hrows Hints]. split; [split|].
  - rewrite map_app. simpl. apply NoDup_app. split_and!; [done|set_solver|apply NoDup_singleton].
  - rewrite omap_app. simpl. destruct (pg_key r) as [k|] eqn:Ek; [|by rewrite app_nil_r].
    apply NoDup_app. split_and!; [done| |apply NoDup_singleton]. intros k' Hk' ->%list_elem_of_singleton.
    apply list_elem_of_omap in Hk' as (r' & Hin & Er). assert (same_key = true); [|congruence].
    apply existsb_exists. exists r'. rewrite Er, String.eqb_eq. split; [by apply list_elem_of_In|done].
  - apply Forall_app. split; [done|]. by constructor.
  - apply Forall_app. split; [done|]. constructor; [|constructor]. by injection Hv as _ _ ->.
  - assert (E : pg_views (rows ++ [r]) = <[pg_id r := pg_view r]> (pg_views rows)).
    { unfold pg_views. rewrite map_app, list_to_map_app. simpl.
      rewrite <-insert_union_r by (by apply pg_views_none). by rewrite (right_id_L ∅ (∪)). }
    rewrite E, Hv. apply rtc_once, qm_enqueue; [by apply pg_views_none|].
    destruct (ro_retry _ Hr) as (rp & Hrp & _ & ->). exact Hrp.
Qed.
End theory.
