(* ===== verification/PgProps.v ===== *)
(** Properties of the PostgreSQL task queue. *)
From S2P Require Import Prelude Enums PyValue Sanitization Goals Plans Serialization TaskSpec AuditTrail TaskQueue PgQueue Fixtures QueueRuns QueueInv QueueProps QueueReload PgTheory.

(** A task with the fields of the row. *)
Record reads (r : PgRow) (t : RuntimeTask) : Prop := {
  rd_id : task_id t = pg_id r;
  rd_status : rt_status t = status_of r;
  rd_retry : serialize_retry_policy (retry_policy t) = pg_retry r;
  rd_timeout : serialize_timeout_policy (timeout_policy t) = pg_timeout r;
  rd_key : rt_key t = pg_key r;
  rd_attempts : attempts t = pg_attempts r;
  rd_locked : locked_by t = pg_locked r;
  rd_enqueued : enqueued_at t = pg_enqueued r;
  rd_started : started_at t = pg_started r;
  rd_heartbeat : last_heartbeat_at t = pg_heartbeat r;
  rd_finished : finished_at t = pg_finished r;
  rd_failure : failure_reason t = pg_failure r;
}.

Section props.
Context `{PyRuntime} (interfere : nat -> list PgRow -> list PgRow) (locked_rows : nat -> string -> bool)
  (fault : nat -> option string) (lease_seconds : float).
Implicit Types s : PgState.
Implicit Types rows : list PgRow.

Lemma task_from_row_ok r s : row_ok r ->
  exists t p, task_from_row r s = (Ok t, {| pg_rows := pg_rows s; pg_count := pg_count s; pg_plans := pg_plans s ++ [p];
      pg_sys := {| sys_log := sys_log (pg_sys s); n_time := S (n_time (pg_sys s)); n_uuid := n_uuid (pg_sys s) |} |}) /\
    reads r t /\ rt_plan t = length (pg_plans s) /\ serialize_plan p = Ok (pg_plan r).
Proof.
  intros [(p & Hp & Hs) Hst (rp & Hrp & Er & Em) (tp & Htp & Et)]. unfold task_from_row, pg_task.
  rewrite (plan_read _ p _ Hp Hs). cbn [dbind dret]. rewrite Hst. change (TaskStatus_value (status_of r)) with (enum_value (status_of r)).
  rewrite enum_of_value. cbn [dlift dbind]. rewrite Er, Et, retry_roundtrip, timeout_roundtrip by done. cbn [dbind dret].
  eexists _, _. split; [reflexivity|]. split; [by split|]. split; [done|]. by apply plan_rewrite.
Qed.

(** ** Every operation moves the table along the abstract queue *)

Definition tmoves : relation PgState := fun s s' => table_moves (pg_rows s) (pg_rows s').
#[export] Instance tmoves_preorder : PreOrder tmoves.
Proof. split; [intros s; unfold tmoves; reflexivity|]. intros x y z H1 H2. unfold tmoves in *. by etrans. Qed.
(** The other workers change the table along the abstract queue too. *)
Definition rely : Prop := forall n rows, table_moves rows (interfere n rows).

Lemma audit_tmoves et msg pl : keeps tmoves (audit (St:=PgState) et msg pl).
Proof. intros s. unfold tmoves. done. Qed.
Lemma time_tmoves : keeps tmoves (time_time (St:=PgState)).
Proof. intros s. unfold tmoves. done. Qed.
Lemma uuid_tmoves : keeps tmoves (uuid4 (St:=PgState)).
Proof. intros s. unfold tmoves. done. Qed.
Lemma row_tmoves r : keeps tmoves (task_from_row r).
Proof. intros s. unfold tmoves, task_from_row. by destruct (pg_task _ _ _) as [[[t p]|e]|]. Qed.
#[local] Hint Resolve audit_tmoves time_tmoves uuid_tmoves row_tmoves : keeps.

Section moves.
Hypothesis Hrely : rely.
Lemma run_sql_moves {A} kind (op : nat -> sql A) :
  (forall n, sql_moves (op n)) -> keeps tmoves (run_sql interfere fault kind op).
Proof.
  intros Ho s. unfold tmoves, run_sql. destruct (fault (pg_count s)); [apply Hrely|].
  destruct (op (pg_count s) _) as [[rows' a]|cls] eqn:E; simpl; [|apply Hrely].
  etrans; [apply Hrely|by eapply Ho].
Qed.
Lemma mutate_moves op : (forall n, sql_moves (op n)) -> keeps tmoves (mutate interfere fault op).
Proof. intros Ho. pose proof (run_sql_moves "write" op Ho). unfold mutate. keeps_auto. Qed.
Lemma fetch_one_moves c : keeps tmoves (fetch_one interfere fault c).
Proof. apply run_sql_moves. intros n. apply select_moves. Qed.
Lemma locked_mutate_moves id w f :
  sql_moves (sql_update (locked_cond id w) f) -> keeps tmoves (locked_mutate interfere fault id w f).
Proof.
  intros Hf. pose proof (mutate_moves (fun _ => sql_update (locked_cond id w) f) (fun _ => Hf)).
  pose proof fetch_one_moves. unfold locked_mutate, require_exists. keeps_auto.
Qed.
Lemma reap_loop_moves ev msg rows : keeps tmoves (reap_loop ev msg rows).
Proof. induction rows as [|r rows IH]; simpl; unfold plan_id_at; keeps_auto. Qed.
Lemma tasks_moves rows : keeps tmoves (tasks_from_rows rows).
Proof. induction rows as [|r rows IH]; simpl; keeps_auto. Qed.
Lemma claim_keeps w now : keeps tmoves (pg_claim interfere locked_rows fault lease_seconds w now).
Proof.
  pose proof (fun ts => mutate_moves _ (claim_moves locked_rows lease_seconds w ts)).
  unfold pg_claim, pg_now, plan_id_at. keeps_auto.
Qed.
Lemma heartbeat_keeps id w now : keeps tmoves (pg_heartbeat_op interfere fault lease_seconds id w now).
Proof. pose proof (fun ts => locked_mutate_moves _ _ _ (beat_moves id w ts lease_seconds)). unfold pg_heartbeat_op, pg_now. keeps_auto. Qed.
Lemma finish_keeps id w st why now : st = T_SUCCEEDED \/ st = T_FAILED -> keeps tmoves (pg_finish interfere fault id w st why now).
Proof. intros Hst. pose proof (fun ts => locked_mutate_moves _ _ _ (finish_moves id w st why ts Hst)). unfold pg_finish, pg_now. keeps_auto. Qed.
Lemma complete_keeps id w now : keeps tmoves (pg_complete interfere fault id w now).
Proof. pose proof (finish_keeps id w T_SUCCEEDED None now (or_introl eq_refl)). unfold pg_complete. keeps_auto. Qed.
Lemma fail_keeps id w why now : keeps tmoves (pg_fail interfere fault id w why now).
Proof. pose proof (finish_keeps id w T_FAILED (Some why) now (or_intror eq_refl)). unfold pg_fail. keeps_auto. Qed.
Lemma retry_keeps id w why : keeps tmoves (pg_retry_op interfere fault id w why).
Proof. pose proof (locked_mutate_moves _ _ _ (retry_moves id w why)). unfold pg_retry_op. keeps_auto. Qed.
Lemma pause_keeps id w : keeps tmoves (pg_pause interfere fault id w).
Proof. pose proof (locked_mutate_moves _ _ _ (pause_moves id w)). unfold pg_pause. keeps_auto. Qed.
Lemma cancel_keeps id why now : keeps tmoves (pg_cancel interfere fault id why now).
Proof. pose proof (fun ts => mutate_moves _ (fun _ => cancel_moves id (Some why) ts)). unfold pg_cancel, pg_now. keeps_auto. Qed.
Lemma resume_keeps id : keeps tmoves (pg_resume interfere fault id).
Proof.
  pose proof (mutate_moves _ (fun _ => resume_moves id)). pose proof fetch_one_moves.
  unfold pg_resume, require_exists. keeps_auto.
Qed.
Lemma reap_keeps now : keeps tmoves (reap_expired_leases interfere fault now).
Proof.
  pose proof (fun ts => run_sql_moves "write" _ (fun _ => requeue_moves ts)).
  pose proof (fun ts => run_sql_moves "write" _ (fun _ => timeout_moves ts)).
  pose proof reap_loop_moves. unfold reap_expired_leases, mutate_all, pg_now. keeps_auto.
Qed.
Lemma get_keeps id : keeps tmoves (pg_get interfere fault id).
Proof. pose proof fetch_one_moves. unfold pg_get. keeps_auto. Qed.
Lemma tasks_keeps : keeps tmoves (pg_tasks interfere fault).
Proof.
  pose proof (run_sql_moves "read" _ (fun _ => select_moves pg_sorted)). pose proof tasks_moves.
  unfold pg_tasks, fetch_all. keeps_auto.
Qed.
(** What the constructors have checked. *)
Record pg_enqueue_pre (plan : PlanObj) (rp : option RetryPolicy) (tp : option TimeoutPolicy) : Prop := {
  pe_plan : plan_wf plan;
  pe_retry : retry_wf (default default_retry_policy rp);
  pe_timeout : timeout_wf (default default_timeout_policy tp);
}.
Lemma new_row_ok id doc plan rp tp key now :
  plan_wf plan -> serialize_plan plan = Ok doc -> retry_wf rp -> timeout_wf tp ->
  row_ok (pg_new_row id doc rp tp key now) /\
  pg_view (pg_new_row id doc rp tp key now) = new_view (pg_max (pg_new_row id doc rp tp key now)).
Proof. intros Hp Hs Hr Ht. split; [|done]. split; simpl; eauto. Qed.
Lemma enqueue_keeps plan key rp tp : pg_enqueue_pre plan rp tp -> keeps tmoves (pg_enqueue interfere fault plan key rp tp).
Proof.
  intros [Hp Hr Ht]. unfold pg_enqueue. apply keeps_bind_yields; [apply _|keeps_auto|]. intros doc (s0 & s1 & Hd).
  injection Hd as Hd _. pose proof (fun i now => mutate_moves _ (fun _ => insert_moves (bool_decide (is_Some key)) _
    (proj1 (new_row_ok i doc plan _ _ key now Hp Hd Hr Ht)) (proj2 (new_row_ok i doc plan _ _ key now Hp Hd Hr Ht)))).
  pose proof fetch_one_moves. unfold plan_id_at. keeps_auto.
Qed.
End moves.

(** One call of a method of this worker, whether it returns or raises. *)
Inductive pg_step : relation PgState :=
| pst_enqueue plan key rp tp s : pg_enqueue_pre plan rp tp -> pg_step s (snd (pg_enqueue interfere fault plan key rp tp s))
| pst_claim w now s : pg_step s (snd (pg_claim interfere locked_rows fault lease_seconds w now s))
| pst_heartbeat id w now s : pg_step s (snd (pg_heartbeat_op interfere fault lease_seconds id w now s))
| pst_complete id w now s : pg_step s (snd (pg_complete interfere fault id w now s))
| pst_fail id w why now s : pg_step s (snd (pg_fail interfere fault id w why now s))
| pst_retry id w why s : pg_step s (snd (pg_retry_op interfere fault id w why s))
| pst_cancel id why now s : pg_step s (snd (pg_cancel interfere fault id why now s))
| pst_pause id w s : pg_step s (snd (pg_pause interfere fault id w s))
| pst_resume id s : pg_step s (snd (pg_resume interfere fault id s))
| pst_reap now s : pg_step s (snd (reap_expired_leases interfere fault now s))
| pst_get id s : pg_step s (snd (pg_get interfere fault id s))
| pst_tasks s : pg_step s (snd (pg_tasks interfere fault s)).


(** ** What each statement does *)

Lemma pg_now_run now s : pg_now now s = (Ok (instant now (pg_sys s)), with_pgsys (tick now (pg_sys s)) s).
Proof. destruct now, s as [? ? ? []]; done. Qed.
(** The table with the rows that meet [cond] replaced. *)
Definition updated (cond : PgRow -> bool) (f : PgRow -> PgRow) (rows : list PgRow) : list PgRow :=
  map (fun r => if cond r then f r else r) rows.
Lemma filter_unique cond rows r :
  NoDup (map pg_id rows) -> r ∈ rows -> cond r = true -> (forall r', cond r' = true -> pg_id r' = pg_id r) ->
  List.filter cond rows = [r].
Proof.
  intros Hn Hin Hc Hu. induction rows as [|r' rows IH]; [by apply not_elem_of_nil in Hin|].
  simpl in Hn. apply NoDup_cons in Hn as [Hi Hn]. simpl.
  assert (Hnone : pg_id r ∉ map pg_id rows -> List.filter cond rows = []).
  { intros Hr. clear IH Hin. destruct (List.filter cond rows) as [|x l] eqn:E; [done|]. exfalso. apply Hr.
    assert (Hx : x ∈ List.filter cond rows) by (rewrite E; by left).
    apply list_elem_of_In, List.filter_In in Hx as [Hx Hcx]. rewrite <-(Hu x Hcx).
    by apply list_elem_of_fmap_2, list_elem_of_In. }
  apply elem_of_cons in Hin as [<-|Hin].
  - rewrite Hc. f_equal. by apply Hnone.
  - destruct (cond r') eqn:Hc'; [|by apply IH].
    exfalso. apply Hi. rewrite (Hu r' Hc'). by apply list_elem_of_fmap_2.
Qed.
Lemma filter_find cond rows : List.filter cond rows = [] -> find cond rows = None.
Proof. induction rows as [|r rows IH]; simpl; [done|]. destruct (cond r); [done|exact IH]. Qed.
Lemma find_filter cond rows : find cond rows = None -> List.filter cond rows = [].
Proof. induction rows as [|r rows IH]; simpl; [done|]. destruct (cond r); [done|exact IH]. Qed.

Lemma update_one id cond f rows r :
  table_ok rows -> (forall r', cond r' = true -> pg_id r' = id) -> r ∈ rows -> cond r = true ->
  sql_update cond f rows =
    (if int4 (pg_attempts (f r)) then Ok (updated cond f rows, [f r]) else Raise "NumericValueOutOfRange").
Proof.
  intros Hok Hc Hin Hr. unfold sql_update.
  rewrite (filter_unique cond rows r); [|apply Hok|done|done|intros r' Hr'; by rewrite (Hc r' Hr'), (Hc r Hr)].
  simpl. by rewrite andb_true_r.
Qed.
Lemma update_none cond f rows : find cond rows = None -> sql_update cond f rows = Ok (rows, []).
Proof.
  intros Hf. unfold sql_update. rewrite (find_filter _ _ Hf). simpl. f_equal. f_equal.
  induction rows as [|r rows IH]; simpl in *; [done|]. destruct (cond r); [done|]. f_equal. by apply IH.
Qed.

(** The failed statement: the table is as the other workers left it. *)
Definition store_failed {A} (found : list PgRow) (p : res exn A * PgState) : Prop :=
  (exists msg, fst p = Raise (Exn RuntimeStoreError msg)) /\ pg_rows (snd p) = found.
Definition found_by s : list PgRow := interfere (pg_count s) (pg_rows s).
Definition after_sql rows s : PgState :=
  {| pg_rows := rows; pg_count := S (pg_count s); pg_plans := pg_plans s; pg_sys := pg_sys s |}.

(** A statement that changes rows, as the method sees it. *)
Lemma mutate_failed op s : is_Some (fault (pg_count s)) \/ (exists cls, op (pg_count s) (found_by s) = Raise cls) ->
  exists msg, mutate interfere fault op s = (Raise (Exn RuntimeStoreError msg), after_sql (found_by s) s).
Proof.
  intros Hf. unfold mutate, bind, run_sql. fold (found_by s).
  destruct (fault (pg_count s)) as [cls|]; [by eexists|]. destruct Hf as [[? ?]|[cls ->]]; [done|]. by eexists.
Qed.
Lemma mutate_ok op s rows l : fault (pg_count s) = None -> op (pg_count s) (found_by s) = Ok (rows, l) ->
  mutate interfere fault op s = (Ok (head l), after_sql rows s).
Proof. intros Hf Ho. unfold mutate, bind, run_sql. fold (found_by s). by rewrite Hf, Ho. Qed.

Lemma fetch_one_run c s : fetch_one interfere fault c s =
  (match fault (pg_count s) with
   | Some cls => Raise (Exn RuntimeStoreError ("postgres task queue read failed: " +:+ cls))
   | None => Ok (find c (found_by s))
   end, after_sql (found_by s) s).
Proof. unfold fetch_one, run_sql. fold (found_by s). by destruct (fault (pg_count s)). Qed.
Lemma find_existsb {A} (f : A -> bool) (l : list A) : existsb f l = bool_decide (is_Some (find f l)).
Proof. induction l as [|x l IH]; simpl; [done|]. by destruct (f x). Qed.

(** A claim, on every branch.  When the statement fails it raises
    RuntimeStoreError and claims nothing; when no queued row is free it
    returns None; otherwise it takes the first free queued row in the order of enqueueing,
    which from then on is RUNNING for this worker alone with one more attempt and a fresh
    lease, returns exactly this task, and touches no other row. *)
Theorem pg_claim_exact w now s :
  rely -> table_ok (pg_rows s) ->
  let claimed := claim_row w (instant now (pg_sys s)) lease_seconds in
  let out := pg_claim interfere locked_rows fault lease_seconds w now s in
  match fault (pg_count s), claimable (found_by s) (locked_rows (pg_count s)) with
  | Some _, _ => store_failed (found_by s) out
  | None, None => fst out = Ok None /\ pg_rows (snd out) = found_by s
  | None, Some r =>
      r ∈ found_by s /\ has_status T_QUEUED r = true /\ locked_rows (pg_count s) (pg_id r) = false /\
      if int4 (pg_attempts r + 1)
      then (exists t, fst out = Ok (Some t) /\ reads (claimed r) t) /\
        pg_rows (snd out) = updated (fun r' => String.eqb (pg_id r') (pg_id r)) claimed (found_by s)
      else store_failed (found_by s) out
  end.
Proof.
  intros Hrely Hok. cbv zeta. destruct (Hrely (pg_count s) _ Hok) as [Hf _]. fold (found_by s) in Hf.
  unfold pg_claim. rewrite (bind_ok _ _ _ _ _ (pg_now_run now s)). set (s0 := with_pgsys _ s).
  set (op := claim_sql _ _ _ _).
  pose proof (claim_moves locked_rows lease_seconds w (instant now (pg_sys s)) (pg_count s) (found_by s)) as Hm.
  assert (Eop : op (pg_count s0) (found_by s0) = claim_sql locked_rows lease_seconds w (instant now (pg_sys s)) (pg_count s) (found_by s)) by done.
  unfold claim_sql in Eop.
  destruct (fault (pg_count s)) as [cls|] eqn:Hflt.
  { destruct (mutate_failed op s0) as [msg E]; [left; by exists cls|].
    rewrite (bind_raise _ _ _ _ _ E). split; [by eexists|done]. }
  destruct (claimable (found_by s) (locked_rows (pg_count s))) as [r|] eqn:Hc.
  2:{ by rewrite (bind_ok _ _ _ _ _ (mutate_ok op s0 _ _ Hflt Eop)). }
  pose proof (claimable_in _ _ _ Hc) as (Hin & Hs & Hl). split_and!; [done|done|done|].
  rewrite (update_one (pg_id r) _ _ _ r Hf) in Eop; [|by intros r' ?%String.eqb_eq|done|by apply String.eqb_eq].
  change (pg_attempts (claim_row w _ lease_seconds r)) with (pg_attempts r + 1)%Z in Eop.
  destruct (int4 (pg_attempts r + 1)).
  2:{ destruct (mutate_failed op s0) as [msg E]; [right; eauto|]. rewrite (bind_raise _ _ _ _ _ E). split; [by eexists|done]. }
  rewrite (bind_ok _ _ _ _ _ (mutate_ok op s0 _ _ Hflt Eop)). cbn [head].
  set (r1 := claim_row w _ lease_seconds r) in *. set (s1 := after_sql _ s0).
  assert (Hr1 : row_ok r1).
  { destruct (Hm _ _ Eop Hf) as [[_ _ Hrows _] _]. rewrite Forall_forall in Hrows. apply Hrows. unfold updated.
    apply list_elem_of_fmap. exists r. by rewrite String.eqb_refl. }
  destruct (task_from_row_ok r1 s1 Hr1) as (t & p & Et & Hreads & _).
  rewrite (bind_ok _ _ _ _ _ Et). split; [|done]. by exists t.
Qed.

(** ** The lock *)

Definition pg_call (c : lock_call) (id w : string) : M PgState exn RuntimeTask :=
  match c with
  | LHeartbeat now => pg_heartbeat_op interfere fault lease_seconds id w now
  | LComplete now => pg_complete interfere fault id w now
  | LFail why now => pg_fail interfere fault id w why now
  | LRetry why => pg_retry_op interfere fault id w why
  | LPause => pg_pause interfere fault id w
  end.
Definition pg_time (c : lock_call) s : float :=
  match c with LHeartbeat now | LComplete now | LFail _ now => instant now (pg_sys s) | _ => fzero end.
(** What the call makes of the row, and of a task with its fields: the result
    of the in-memory queue, but a completed task loses its old failure reason. *)
Definition lock_row (c : lock_call) (at_ : float) (r : PgRow) : PgRow :=
  match c with
  | LHeartbeat _ => beat_row at_ lease_seconds r
  | LComplete _ => finish_row T_SUCCEEDED None at_ r
  | LFail why _ => finish_row T_FAILED (Some why) at_ r
  | LRetry why => retry_row why r
  | LPause => pause_row r
  end.
Definition pg_result (c : lock_call) (at_ : float) (t : RuntimeTask) : RuntimeTask :=
  let t' := lock_result c at_ t in
  match c with
  | LComplete _ => set_life (rt_status t') (locked_by t') (attempts t') (started_at t') (last_heartbeat_at t')
                     (finished_at t') None t'
  | _ => t'
  end.
Lemma lock_row_result c at_ r t : reads r t -> reads (lock_row c at_ r) (pg_result c at_ t).
Proof.
  intros [? ? ? ? ? ? ? ? ? ? ? ?]. destruct c; split; simpl; try done; unfold status_of in *; simpl;
    by rewrite ?(status_value T_SUCCEEDED), ?(status_value T_FAILED).
Qed.
Lemma lock_row_moves c id w at_ : sql_moves (sql_update (locked_cond id w) (lock_row c at_)).
Proof. destruct c; [apply beat_moves|apply finish_moves; by left|apply finish_moves; by right|apply retry_moves|apply pause_moves]. Qed.
Lemma pg_call_run c id w s : exists et msg pl sys,
  pg_call c id w s = (let! t := locked_mutate interfere fault id w (lock_row c (pg_time c s)) in
                      audit et msg (pl t) ;;; ret t) (with_pgsys sys s).
Proof.
  assert (Hs : s = with_pgsys (pg_sys s) s) by by destruct s.
  assert (Hb : forall A B (f : A -> M PgState exn B) (m : float -> M PgState exn A) now,
    (let! x := (let! t := pg_now now in m t) in f x) s =
    (let! x := m (instant now (pg_sys s)) in f x) (with_pgsys (tick now (pg_sys s)) s)).
  { intros A B f m now. unfold bind at 1. by rewrite (bind_ok _ _ _ _ _ (pg_now_run now s)). }
  destruct c; cbn [pg_call lock_row pg_time].
  - eexists _, _, (fun _ => _), (tick now (pg_sys s)). refine (eq_trans (bind_ok _ _ _ _ _ (pg_now_run now s)) _). reflexivity.
  - eexists _, _, (fun _ => _), (tick now (pg_sys s)). refine (eq_trans (Hb _ _ _ (fun t => locked_mutate _ _ _ _ (finish_row _ _ t)) now) _). reflexivity.
  - eexists _, _, (fun _ => _), (tick now (pg_sys s)). refine (eq_trans (Hb _ _ _ (fun t => locked_mutate _ _ _ _ (finish_row _ _ t)) now) _). reflexivity.
  - eexists _, _, (fun t => _), (pg_sys s). rewrite <-Hs. reflexivity.
  - eexists _, _, (fun _ => _), (pg_sys s). rewrite <-Hs. reflexivity.
Qed.

Definition refusal (id : string) (rows : list PgRow) : exn :=
  if existsb (fun r => String.eqb (pg_id r) id) rows then Exn PermissionError "Task is not locked by this worker"
  else Exn KeyError ("Unknown task: " +:+ id).
Lemma locked_mutate_none id w f s :
  fault (pg_count s) = None -> find (locked_cond id w) (found_by s) = None ->
  exists e s', locked_mutate interfere fault id w f s = (Raise e, s') /\
    pg_rows s' = interfere (S (pg_count s)) (found_by s) /\
    match fault (S (pg_count s)) with
    | Some _ => exists msg, e = Exn RuntimeStoreError msg
    | None => e = refusal id (interfere (S (pg_count s)) (found_by s))
    end.
Proof.
  intros Hflt Hc. unfold locked_mutate.
  rewrite (bind_ok _ _ _ _ _ (mutate_ok (fun _ => sql_update (locked_cond id w) f) s _ _ Hflt (update_none _ _ _ Hc))).
  cbn [head]. set (s1 := after_sql (found_by s) s). unfold require_exists, bind. rewrite fetch_one_run.
  change (pg_count s1) with (S (pg_count s)). change (found_by s1) with (interfere (S (pg_count s)) (found_by s)).
  destruct (fault (S (pg_count s))) as [cls|]; [by eauto 10|]. unfold refusal. rewrite find_existsb.
  destruct (find _ (interfere _ _)); eexists _, _; split_and!; reflexivity.
Qed.

(** Heartbeat, complete, fail, retry and pause, on every branch.  A failed
    statement raises RuntimeStoreError and changes nothing.  For the worker
    that holds the running task exactly its row changes, to what the
    in-memory queue makes of the task, and the changed task is returned.  Anyone else
    changes nothing and gets KeyError when the task does not exist,
    PermissionError when it does. *)
Theorem pg_lock_exact c id w s :
  rely -> table_ok (pg_rows s) ->
  let out := pg_call c id w s in
  let changed := lock_row c (pg_time c s) in
  match fault (pg_count s), find (locked_cond id w) (found_by s) with
  | Some _, _ => store_failed (found_by s) out
  | None, Some r =>
      pg_id r = id /\ owned w (pg_view r) /\ pg_rows (snd out) = updated (locked_cond id w) changed (found_by s) /\
      (exists t, fst out = Ok t /\ reads (changed r) t) /\
      forall t, reads r t -> reads (changed r) (pg_result c (pg_time c s) t)
  | None, None =>
      let later := interfere (S (pg_count s)) (found_by s) in
      match fault (S (pg_count s)) with
      | Some _ => store_failed later out
      | None => pg_rows (snd out) = later /\
          fst out = Raise (refusal id later)
      end
  end.
Proof.
  intros Hrely Hok. cbv zeta. destruct (Hrely (pg_count s) _ Hok) as [Hf _]. fold (found_by s) in Hf.
  destruct (pg_call_run c id w s) as (et & msg & pl & sys & ->). set (s0 := with_pgsys sys s).
  set (f := lock_row c (pg_time c s)). set (op := fun _ : nat => sql_update (locked_cond id w) f).
  destruct (fault (pg_count s)) as [cls|] eqn:Hflt.
  { destruct (mutate_failed op s0) as [m E]; [left; by exists cls|]. unfold locked_mutate.
    rewrite (bind_raise _ _ _ _ _ (bind_raise _ _ _ _ _ E)). split; [by eexists|done]. }
  destruct (find (locked_cond id w) (found_by s)) as [r|] eqn:Hc.
  - apply List.find_some in Hc as [Hin%list_elem_of_In Hr]. pose proof (locked_owned _ _ _ Hr) as [Hid Ho].
    assert (Eop : op (pg_count s0) (found_by s0) = Ok (updated (locked_cond id w) f (found_by s), [f r])).
    { unfold op. erewrite (update_one id); [|exact Hf|by intros r' [? _]%locked_owned|exact Hin|exact Hr].
      pose proof (tk_ints _ Hf) as Hi. rewrite Forall_forall in Hi. specialize (Hi r Hin).
      assert (pg_attempts (f r) = pg_attempts r) as -> by (unfold f; by destruct c). by rewrite Hi. }
    assert (Hr1 : row_ok (f r)).
    { destruct (lock_row_moves c id w (pg_time c s) _ _ _ Eop Hf) as [[_ _ Hrows _] _]. rewrite Forall_forall in Hrows.
      apply Hrows. apply list_elem_of_fmap. exists r. by rewrite Hr. }
    destruct (task_from_row_ok (f r) (after_sql (updated (locked_cond id w) f (found_by s)) s0) Hr1) as (t & p & Et & Hreads & _).
    unfold locked_mutate. rewrite (bind_ok _ _ _ t _ (eq_trans (bind_ok _ _ _ _ _ (mutate_ok op s0 _ _ Hflt Eop)) Et)).
    split_and!; [done|done|done|by exists t|]. intros t0 Ht0. by apply lock_row_result.
  - destruct (locked_mutate_none id w f s0 Hflt Hc) as (e & s' & E & Hrows & He). rewrite (bind_raise _ _ _ _ _ E).
    change (pg_count s0) with (pg_count s) in *. change (found_by s0) with (found_by s) in *.
    destruct (fault (S (pg_count s))); [destruct He as [m ->]; split; [by eexists|done]|]. by rewrite He.
Qed.

(** ** Leases *)

Lemma reap_loop_ok ev msg rows s : Forall row_ok rows ->
  exists ts s', reap_loop ev msg rows s = (Ok ts, s') /\ Forall2 reads rows ts /\
    pg_rows s' = pg_rows s /\ pg_count s' = pg_count s.
Proof.
  intros Hr. revert s. induction Hr as [|r rows Hr _ IH]; intros s; simpl; [exists [], s; by repeat constructor|].
  destruct (task_from_row_ok r s Hr) as (t & p & Et & Hreads & _). rewrite (bind_ok _ _ _ _ _ Et).
  unfold bind at 1, plan_id_at, gets. unfold bind at 1, audit, modify. cbv beta iota.
  match goal with |- context [bind (reap_loop ev msg rows) _ ?s1] => destruct (IH s1) as (ts & s2 & E & F & R1 & R2) end.
  rewrite (bind_ok _ _ _ _ _ E). exists (t :: ts), s2. split_and!; [done|by constructor|done|done].
Qed.
Lemma update_all cond f rows : (forall r, pg_attempts (f r) = pg_attempts r) -> table_ok rows ->
  sql_update cond f rows = Ok (updated cond f rows, map f (List.filter cond rows)).
Proof.
  intros Hf Hok. unfold sql_update. assert (forallb (fun r => int4 (pg_attempts (f r))) (List.filter cond rows) = true) as ->; [|done].
  apply forallb_forall. intros r [Hin _]%List.filter_In. rewrite Hf. pose proof (tk_ints _ Hok) as Hi.
  rewrite Forall_forall in Hi. by apply Hi, list_elem_of_In.
Qed.
Definition reclaimable (now : float) (r : PgRow) : bool := lease_expired now r && (pg_attempts r <? pg_max r)%Z.
Definition exhausted (now : float) (r : PgRow) : bool := lease_expired now r && (pg_max r <=? pg_attempts r)%Z.
Definition reap_row (now : float) (r : PgRow) : PgRow :=
  if reclaimable now r then requeue_row r else if exhausted now r then timeout_row now r else r.
Lemma exhausted_requeued now r : exhausted now (requeue_row r) = false.
Proof. done. Qed.
Lemma reclaimable_exhausted now r : reclaimable now r = true -> exhausted now r = false.
Proof.
  unfold reclaimable, exhausted. intros [-> Ha%Z.ltb_lt]%andb_true_iff. simpl. apply Z.leb_gt. lia.
Qed.
Lemma exhausted_updated now rows :
  List.filter (exhausted now) (updated (reclaimable now) requeue_row rows) = List.filter (exhausted now) rows.
Proof.
  induction rows as [|r rows IH]; simpl; [done|]. destruct (reclaimable now r) eqn:Hc; simpl.
  - by rewrite (reclaimable_exhausted _ _ Hc).
  - by rewrite IH.
Qed.
Lemma reap_rows now rows :
  updated (exhausted now) (timeout_row now) (updated (reclaimable now) requeue_row rows) = map (reap_row now) rows.
Proof.
  induction rows as [|r rows IH]; simpl; [done|]. f_equal; [|exact IH]. unfold reap_row.
  destruct (reclaimable now r); [by rewrite exhausted_requeued|done].
Qed.

(** Reaping, when no other worker acts in between and the statements succeed, changes
    exactly the running tasks whose lease is over: those with attempts left
    are queued again, the others have timed out; all of them are returned, and
    no task whose lease still runs, or that does not run, is touched. *)
Theorem pg_reap_exact now s :
  (forall n rows, interfere n rows = rows) -> (forall n, fault n = None) -> table_ok (pg_rows s) ->
  let at_ := instant now (pg_sys s) in
  exists ts s', reap_expired_leases interfere fault now s = (Ok ts, s') /\
    pg_rows s' = map (reap_row at_) (pg_rows s) /\
    Forall2 reads (map requeue_row (List.filter (reclaimable at_) (pg_rows s)) ++
                   map (timeout_row at_) (List.filter (exhausted at_) (pg_rows s))) ts.
Proof.
  intros Hi Hnf Hok at_. unfold reap_expired_leases. rewrite (bind_ok _ _ _ _ _ (pg_now_run now s)). fold at_.
  assert (Hsql : forall A kind (op : nat -> sql A) s rows a, op (pg_count s) (pg_rows s) = Ok (rows, a) ->
    run_sql interfere fault kind op s = (Ok a, after_sql rows s)).
  { intros A kind op s0 rows a Ho. unfold run_sql. by rewrite Hi, Hnf, Ho. }
  set (rows := pg_rows s) in *. set (rows1 := updated (reclaimable at_) requeue_row rows).
  pose proof (update_all (reclaimable at_) requeue_row rows (fun _ => eq_refl) Hok) as E1.
  destruct (requeue_moves at_ _ _ _ E1 Hok) as [Hok1 _].
  pose proof (update_all (exhausted at_) (timeout_row at_) rows1 (fun _ => eq_refl) Hok1) as E2.
  destruct (timeout_moves at_ _ _ _ E2 Hok1) as [Hok2 _].
  unfold rows1 in E2 at 3. rewrite exhausted_updated in E2. unfold rows1 in E2 at 2. rewrite reap_rows in E2. clear Hok2.
  unfold mutate_all. change (fun r => lease_expired at_ r && (pg_attempts r <? pg_max r)%Z) with (reclaimable at_).
  change (fun r => lease_expired at_ r && (pg_max r <=? pg_attempts r)%Z) with (exhausted at_).
  rewrite (bind_ok _ _ _ _ _ (Hsql _ "write" (fun _ => sql_update (reclaimable at_) requeue_row) (with_pgsys _ s) _ _ E1)).
  assert (Hrows : forall f c, (forall r, row_ok r -> row_ok (f r)) -> Forall row_ok (map f (List.filter c rows))).
  { intros f c Hf. apply Forall_forall. intros r (r0 & -> & [Hr0 _]%list_elem_of_In%List.filter_In)%list_elem_of_fmap.
    pose proof (tk_rows _ Hok) as Hr. rewrite Forall_forall in Hr. by apply Hf, Hr, list_elem_of_In. }
  match goal with |- context [bind (reap_loop ?ev ?msg ?l) _ ?s0] =>
    destruct (reap_loop_ok ev msg l s0) as (ts1 & s1 & R1 & F1 & Er1 & Ec1); [apply Hrows; intros r; apply set_pg_ok|] end.
  rewrite (bind_ok _ _ _ _ _ R1).
  assert (E2' : sql_update (exhausted at_) (timeout_row at_) (pg_rows s1) =
    Ok (map (reap_row at_) rows, map (timeout_row at_) (List.filter (exhausted at_) rows))) by (rewrite Er1; exact E2).
  rewrite (bind_ok _ _ _ _ _ (Hsql _ "write" (fun _ => sql_update (exhausted at_) (timeout_row at_)) _ _ _ E2')).
  match goal with |- context [bind (reap_loop ?ev ?msg ?l) _ ?s0] =>
    destruct (reap_loop_ok ev msg l s0) as (ts2 & s2 & R2 & F2 & Er2 & Ec2); [apply Hrows; intros r; apply set_pg_ok|] end.
  rewrite (bind_ok _ _ _ _ _ R2). exists (ts1 ++ ts2), s2. split_and!; [done|exact Er2|by apply Forall2_app].
Qed.
End props.

(** ** A table with one task *)

Definition alone (n : nat) (rows : list PgRow) : list PgRow := rows.
(** Before the second statement another worker claims. *)
Definition rival (n : nat) (rows : list PgRow) : list PgRow :=
  if Nat.eqb n 1
  then match claim_sql (fun _ _ => false) (f_of_Z 60) "rival" (f_of_Z 5) n rows with Ok (rows', _) => rows' | Raise _ => rows end
  else rows.
Lemma alone_rely : rely alone.
Proof. intros n rows. reflexivity. Qed.
Lemma rival_rely : rely rival.
Proof.
  intros n rows. unfold rival. destruct (Nat.eqb n 1); [|reflexivity].
  destruct (claim_sql _ _ _ _ n rows) as [[rows' l]|] eqn:E; [|reflexivity]. by eapply claim_moves.
Qed.
Definition toy_table : PgState := {| pg_rows := []; pg_count := 0; pg_plans := []; pg_sys := sys0 |}.
Definition works_well (n : nat) : option string := None.
Definition unlocked (n : nat) (id : string) : bool := false.
Definition toy_pg (others : nat -> list PgRow -> list PgRow) : PgState :=
  snd (pg_enqueue others works_well toy_plan_obj (Some "key") None None toy_table).
Definition toy_pg_claimed : PgState := snd (pg_claim alone unlocked works_well (f_of_Z 60) "ann" (Some fone) (toy_pg alone)).
Lemma toy_enqueue_pre : pg_enqueue_pre toy_plan_obj None None.
Proof. split; [split_and!; [done|constructor|done]|done|done]. Qed.
Lemma toy_table_ok : table_ok (pg_rows toy_table).
Proof. split; constructor. Qed.
Lemma toy_pg_ok : table_ok (pg_rows (toy_pg alone)).
Proof. apply (enqueue_keeps alone works_well alone_rely toy_plan_obj (Some "key") None None toy_enqueue_pre toy_table toy_table_ok). Qed.
Lemma toy_claimed_ok : table_ok (pg_rows toy_pg_claimed).
Proof. apply (claim_keeps alone unlocked works_well (f_of_Z 60) alone_rely "ann" (Some fone) (toy_pg alone) toy_pg_ok). Qed.

(** The rival takes the task between the enqueueing and the claim. *)
Example rival_wins :
  map (fun r => (pg_id r, pg_status r, pg_locked r)) (pg_rows (snd (pg_claim rival unlocked works_well (f_of_Z 60) "ann" (Some fone) (toy_pg rival))))
  = [("id-0", "running", Some "rival")].
Proof. vm_compute. reflexivity. Qed.
Example toy_claimed_rows :
  map (fun r => (pg_id r, pg_status r, pg_locked r, pg_attempts r)) (pg_rows toy_pg_claimed) = [("id-0", "running", Some "ann", 1%Z)].
Proof. vm_compute. reflexivity. Qed.

Definition toy_row : PgRow := default (pg_new_row "" VNone default_retry_policy default_timeout_policy None fzero) (head (pg_rows (toy_pg alone))).
Lemma pg_claim_exact_witness :
  (exists t, fst (pg_claim alone unlocked works_well (f_of_Z 60) "ann" (Some fone) (toy_pg alone)) = Ok (Some t) /\
     reads (claim_row "ann" fone (f_of_Z 60) toy_row) t) /\
  pg_rows toy_pg_claimed =
    updated (fun r => String.eqb (pg_id r) (pg_id toy_row)) (claim_row "ann" fone (f_of_Z 60)) (pg_rows (toy_pg alone)).
Proof.
  pose proof (pg_claim_exact alone unlocked works_well (f_of_Z 60) "ann" (Some fone) (toy_pg alone) alone_rely toy_pg_ok) as Hx.
  cbv zeta in Hx. assert (E : claimable (found_by alone (toy_pg alone)) (unlocked (pg_count (toy_pg alone))) = Some toy_row)
    by (vm_compute; reflexivity).
  rewrite E in Hx. destruct Hx as (_ & _ & _ & Hx). exact Hx.
Defined.
Definition held : PgRow := default toy_row (head (pg_rows toy_pg_claimed)).
Lemma pg_lock_exact_witness :
  let out := pg_complete alone works_well "id-0" "ann" (Some fone) toy_pg_claimed in
  (exists t, fst out = Ok t /\ reads (finish_row T_SUCCEEDED None fone held) t) /\
  fst (pg_complete alone works_well "id-0" "bob" None toy_pg_claimed) =
    Raise (Exn PermissionError "Task is not locked by this worker").
Proof.
  split.
  - pose proof (pg_lock_exact alone works_well (f_of_Z 60) (LComplete (Some fone)) "id-0" "ann" toy_pg_claimed alone_rely
      toy_claimed_ok) as Hx. cbv zeta in Hx.
    assert (E : find (locked_cond "id-0" "ann") (found_by alone toy_pg_claimed) = Some held) by (vm_compute; reflexivity).
    rewrite E in Hx. destruct Hx as (_ & _ & _ & Hx & _). exact Hx.
  - pose proof (pg_lock_exact alone works_well (f_of_Z 60) (LComplete None) "id-0" "bob" toy_pg_claimed alone_rely
      toy_claimed_ok) as Hx. cbv zeta in Hx.
    assert (E : find (locked_cond "id-0" "bob") (found_by alone toy_pg_claimed) = None) by (vm_compute; reflexivity).
    rewrite E in Hx. destruct Hx as [_ Hx]. exact Hx.
Defined.
Lemma pg_reap_exact_witness :
  exists ts s', reap_expired_leases alone works_well (Some (f_of_Z 1000)) toy_pg_claimed = (Ok ts, s') /\
    map (fun r => (pg_id r, pg_status r, pg_failure r)) (pg_rows s') =
      [("id-0", "timed_out", Some "Task lease expired; attempts exhausted")].
Proof.
  destruct (pg_reap_exact alone works_well (Some (f_of_Z 1000)) toy_pg_claimed) as (ts & s' & E & Hr & _);
    [done|done|apply toy_claimed_ok|].
  exists ts, s'. split; [exact E|]. rewrite Hr. vm_compute. reflexivity.
Defined.
