(* ===== verification/StoreProps.v ===== *)
(** The three kinds of runtime store satisfy [StoreLaws]; what follows for every history of calls. *)
From S2P Require Import Prelude Enums PyValue Sanitization Goals Plans Serialization AuditTrail RuntimeStores StoreSpec Fixtures.


(** ** What is written is what is read *)

(** A goal loses its budget and its criteria values become documents. *)
Definition stored_goal (g : Goal) : Goal := {|
  description := description g; success_criteria := success_criteria g;
  criteria := map restored_criterion (criteria g); constraints := constraints g;
  stop_conditions := stop_conditions g; priority := priority g; goal_id := goal_id g; owner := owner g;
  deadline := deadline g; budget := default_budget; g_status := g_status g |}.

Section payloads.
Context `{PyRuntime}.

Lemma strs_from_doc k d l : dget k d = Some (strs_doc l) -> strs_from k d = dret l.
Proof.
  intros Hd. unfold strs_from, dget_or. rewrite Hd. cbn. f_equal. rewrite List.map_map. apply List.map_id.
Qed.
Lemma goal_payload_read g doc :
  goal_fine g -> json_doc (VDict (goal_to_dict g)) = Ok doc ->
  exists d, doc = VDict d /\ goal_from_dict d = dret (stored_goal g) /\ dget "goal_id" d = Some (VStr (goal_id g)).
Proof.
  intros Hc. unfold goal_to_dict. rewrite json_doc_dict. intros (fs & Hf & <-)%res_map_inv. field_docs Hf.
  eexists. split; [reflexivity|]. split; [|done].
  rewrite strs_doc_ok in E, E1, E2. rewrite opt_str_doc in E3. rewrite opt_float_doc_ok in E4.
  injection E as <-. injection E1 as <-. injection E2 as <-. injection E3 as <-. injection E4 as <-.
  apply doc_list_inv in E0 as (l & -> & E0).
  unfold goal_from_dict. erewrite !strs_from_doc by reflexivity. unfold must, dget_item, dget_or, opt_str.
  cbn [dget String.eqb Ascii.eqb Bool.eqb default id dbind dret dlift as_VList as_VInt].
  rewrite (dmap_restored _ _ restored_criterion _ _ E0).
  2: { eapply Forall_impl; [exact Hc|]. intros c Hok x. by apply criterion_read. }
  destruct g as [de sc cr co sp pr gi ow dl bu st]. unfold stored_goal. cbn.
  destruct ow, dl, st; reflexivity.
Qed.
Lemma plan_payload_read p doc :
  plan_wf p -> plan_payload p = Ok doc ->
  exists d, doc = VDict d /\ (forall now, deserialize_plan now doc = dret (restored_plan now p)) /\
    dget "plan_id" d = Some (VStr (po_plan_id p)) /\ is_json doc = true.
Proof.
  intros Hp. unfold plan_payload. destruct (serialize_plan p) as [x|e] eqn:Es; [|by destruct (_ || _)]. intros [= ->].
  assert (Hd : exists d, doc = VDict d /\ dget "plan_id" d = Some (VStr (po_plan_id p)) /\ is_json doc = true).
  { revert Es. unfold serialize_plan. destruct (json_doc (plan_data p)) as [y|] eqn:Ej; [|done]. intros [= ->].
    pose proof (json_doc_json _ _ Ej) as Hj. revert Ej. unfold plan_data. rewrite json_doc_dict. intros (fs & Hf & <-)%res_map_inv.
    field_docs Hf. eexists. split_and!; [reflexivity|done|done]. }
  destruct Hd as (d & -> & Hid & Hj). exists d. split_and!; [done| |done|done]. intros now. by apply plan_read.
Qed.
Lemma plan_from_read now p d : deserialize_plan now (VDict d) = dret p -> plan_from now (VDict d) = dret p.
Proof. unfold plan_from. by intros ->. Qed.
Lemma dict_doc v doc : json_doc (VDict v) = Ok doc -> doc = VDict (doc_args v).
Proof. apply doc_args_ok. Qed.
End payloads.

(** ** In memory *)

Section mem.
Context `{PyRuntime}.

#[export] Instance mem_ops : StoreOps MemStore nat := {|
  op_save_goal := mem_save_goal; op_load_goal := mem_load_goal; op_save_plan := mem_save_plan;
  op_load_plan := mem_load_plan; op_append_event := mem_append_event; op_list_events := mem_list_events;
  op_save_checkpoint := mem_save_checkpoint; op_load_checkpoint := mem_load_checkpoint;
  store_ok := fun s => map_Forall (fun id ref => exists p, mm_heap s !! ref = Some p /\ po_plan_id p = id) (mm_plans s);
  contents := fun s => {|
    as_goals := mm_goals s; as_plans := omap (fun ref => unstamp <$> mm_heap s !! ref) (mm_plans s);
    as_events := mm_events s; as_checkpoints := mm_checkpoints s |};
  plan_at := fun s ref => mm_heap s !! ref;
  admissible := fun _ => True; kept_goal := id; kept_plan := id; kept_dict := id |}.

Lemma guarded_writes (s : MemStore) v f F :
  store_ok (f s) -> contents (f s) = F (contents s) -> store_ok s ->
  writes_at s (of_res (assert_store_safe "RuntimeStore" v) ;;; modify f) F.
Proof.
  intros H1 H2 H3 r s'. unfold bind, of_res, modify. by destruct (assert_store_safe _ v); intros [= <- <-].
Qed.
#[export] Instance mem_laws : StoreLaws MemStore nat.
Proof.
  split.
  - intros g s Hok _ _ r s' [= <- <-]. done.
  - intros id s r s' Hok [= <- <-]. split_and!; [done|done|]. by intros a [= <-].
  - intros h p s Hok Hp _ _ r s'. cbn [op_save_plan mem_ops] in *. unfold mem_save_plan. unfold bind at 1, gets. simpl in Hp.
    unfold id. rewrite Hp. intros [= <- <-]. split.
    + apply map_Forall_insert_2; [by exists p|done].
    + cbn. unfold add_plan. cbn. f_equal. apply map_eq. intros i. rewrite lookup_omap.
      destruct (decide (i = po_plan_id p)) as [->|Hne].
      * rewrite !lookup_insert_eq. cbn. by rewrite Hp.
      * rewrite !lookup_insert_ne by done. by rewrite lookup_omap.
  - intros id s r s' Hok [= <- <-]. split_and!; [done|done|]. intros a [= <-]. unfold loaded_plan. cbn.
    rewrite lookup_omap. destruct (mm_plans s !! id) as [ref|] eqn:E; [|done]. cbn.
    destruct (Hok id ref E) as (p & Hp & _). exists p. by rewrite Hp.
  - intros e s Hok _ _. by apply guarded_writes.
  - intros goal s r s' Hok [= <- <-]. split_and!; [done|done|]. by intros a [= <-].
  - intros k v s Hok _. by apply guarded_writes.
  - intros k s r s' Hok [= <- <-]. split_and!; [done|done|]. by intros a [= <-].
Qed.
End mem.

(** ** JSON lines *)

Definition good_line (P : dict pyval -> Prop) (l : line) : Prop :=
  exists d, l = LDoc (VDict d) /\ splits_doc (VDict d) = false /\ P d.
Definition line_docs (lines : list line) : list (dict pyval) :=
  omap (fun l => match l with LDoc (VDict d) => Some d | _ => None end) lines.
(** The latest object of each key. *)
Definition latest {A} (f : dict pyval -> option A) (key : A -> string) (rs : list (dict pyval)) (m : gmap string A) :
    gmap string A :=
  fold_left (fun m d => match f d with Some a => <[key a := a]> m | None => m end) rs m.
Lemma dget_map {A} k (d : dict A) : dget k d = (list_to_map d : gmap string A) !! k.
Proof.
  induction d as [|[k' v] d IH]; simpl; [by rewrite lookup_empty|]. destruct (String.eqb_spec k k') as [->|Hne].
  - by rewrite lookup_insert_eq.
  - by rewrite lookup_insert_ne by congruence.
Qed.

Section jsonl.
Context `{PyRuntime}.

Definition goal_of (d : dict pyval) : option Goal := match goal_from_dict d with Some (Ok g) => Some g | _ => None end.
Definition plan_of (d : dict pyval) : option PlanObj :=
  match deserialize_plan fzero (VDict d) with Some (Ok p) => Some p | _ => None end.
Definition goal_record (d : dict pyval) : Prop :=
  exists g, goal_from_dict d = dret g /\ dget "goal_id" d = Some (VStr (goal_id g)).
Definition plan_record (d : dict pyval) : Prop :=
  exists p, (forall now, exists p', deserialize_plan now (VDict d) = dret p' /\ unstamp p' = unstamp p) /\
    dget "plan_id" d = Some (VStr (po_plan_id p)).
Definition dict_val (v : pyval) : option (dict pyval) := match v with VDict d => Some d | _ => None end.

Lemma read_good file P lines n : Forall (good_line P) lines -> read_jsonl file n lines = Ok (line_docs lines).
Proof.
  intros Hl. revert n. induction Hl as [|l lines (d & -> & Hs & _) _ IH]; intros n; [done|]. cbn [read_jsonl].
  rewrite Hs, IH. done.
Qed.
Lemma docs_good P lines : Forall (good_line P) lines -> Forall P (line_docs lines).
Proof. induction 1 as [|l lines (d & -> & _ & Hd) _ IH]; [constructor|]. by constructor. Qed.
Lemma docs_app l l' : line_docs (l ++ l') = line_docs l ++ line_docs l'.
Proof. apply omap_app. Qed.
Lemma latest_app {A} (f : dict pyval -> option A) key rs d m a :
  f d = Some a -> latest f key (rs ++ [d]) m = <[key a := a]> (latest f key rs m).
Proof. intros Hf. unfold latest. rewrite fold_left_app. simpl. by rewrite Hf. Qed.
Lemma find_goal_latest id rs m found :
  Forall goal_record rs -> found = m !! id -> find_goal id rs found = dret (latest goal_of goal_id rs m !! id).
Proof.
  intros Hr. revert m found. induction Hr as [|d rs (g & Hg & Hid) _ IH]; intros m found ->; simpl; [done|].
  assert (Hd : goal_of d = Some g) by (unfold goal_of; by rewrite Hg). rewrite Hd, Hid. cbn [is_str]. rewrite Hg. cbn [dbind dret].
  destruct (String.eqb_spec (goal_id g) id) as [<-|Hne]; apply IH.
  - by rewrite lookup_insert_eq.
  - by rewrite lookup_insert_ne.
Qed.
Definition stamped (o o' : option PlanObj) : Prop := unstamp <$> o = unstamp <$> o'.
Lemma find_plan_latest id rs m found s :
  Forall plan_record rs -> stamped found (m !! id) -> exists o s', find_plan id rs found s = (Ok o, s') /\
    stamped o (latest plan_of po_plan_id rs m !! id) /\
    jl_goals s' = jl_goals s /\ jl_plans s' = jl_plans s /\ jl_events s' = jl_events s /\ jl_checkpoints s' = jl_checkpoints s.
Proof.
  intros Hr. revert m found s. induction Hr as [|d rs (p & Hp & Hid) _ IH]; intros m found s Hf; simpl.
  { exists found, s. by split_and!. }
  destruct (Hp fzero) as (p0 & Hp0 & Hu0).
  assert (Hd : plan_of d = Some p0) by (unfold plan_of; by rewrite Hp0). rewrite Hd, Hid. cbn [is_str].
  assert (Hi : po_plan_id p0 = po_plan_id p) by (by injection Hu0). rewrite Hi.
  destruct (String.eqb_spec (po_plan_id p) id) as [<-|Hne].
  - unfold bind at 1, time_time. unfold bind at 1, of_D. destruct (Hp (time_at (n_time (jl_sys s)))) as (p1 & Hp1 & Hu1).
    cbn [sys_of JsonlStore_HasSys]. rewrite (plan_from_read _ _ _ Hp1). unfold dret. cbv beta iota.
    match goal with |- context [find_plan _ rs (Some p1) ?s1] => destruct (IH (<[po_plan_id p := p0]> m) (Some p1) s1) as (o & s' & E & Ho & Hs) end.
    { rewrite lookup_insert_eq. unfold stamped. simpl. congruence. }
    exists o, s'. split_and!; [exact E|exact Ho|apply Hs..].
  - apply IH. by rewrite lookup_insert_ne.
Qed.

#[local] Arguments latest {A} _ _ _ _ : simpl never.
#[local] Arguments line_docs _ : simpl never.
#[export] Instance jsonl_ops : StoreOps JsonlStore PlanObj := {|
  op_save_goal := jsonl_save_goal; op_load_goal := jsonl_load_goal; op_save_plan := jsonl_save_plan;
  op_load_plan := jsonl_load_plan; op_append_event := jsonl_append_event; op_list_events := jsonl_list_events;
  op_save_checkpoint := jsonl_save_checkpoint; op_load_checkpoint := jsonl_load_checkpoint;
  store_ok := fun s =>
    Forall (good_line goal_record) (jl_goals s) /\ Forall (good_line plan_record) (jl_plans s) /\
    Forall (good_line (fun _ => True)) (jl_events s) /\
    exists d, read_checkpoints (jl_checkpoints s) = Ok d /\ is_json (VDict d) = true /\
      Forall (fun kv => is_Some (dict_val kv.2)) d;
  contents := fun s => {|
    as_goals := latest goal_of goal_id (line_docs (jl_goals s)) ∅;
    as_plans := unstamp <$> latest plan_of po_plan_id (line_docs (jl_plans s)) ∅;
    as_events := line_docs (jl_events s);
    as_checkpoints := match read_checkpoints (jl_checkpoints s) with
                      | Ok d => omap dict_val (list_to_map d : gmap string pyval)
                      | Raise _ => ∅
                      end |};
  plan_at := fun _ p => Some p;
  admissible := fun v => splits_doc (doc_of v) = false;
  kept_goal := stored_goal; kept_plan := restored_plan fzero; kept_dict := doc_args |}.

Lemma jsonl_line_good file v l P :
  jsonl_line file v = Ok l -> splits_doc (doc_of v) = false ->
  (forall doc, json_doc v = Ok doc -> exists d, doc = VDict d /\ P d) ->
  exists d, json_doc v = Ok (VDict d) /\ l = LDoc (VDict d) /\ good_line P l.
Proof.
  unfold jsonl_line, doc_of. destruct (assert_store_safe _ v); [|done]. cbn [res_bind]. intros Hl Hs Hp.
  destruct (json_doc v) as [doc|e]; [|by destruct (isinstance e TypeError)].
  destruct (Hp doc eq_refl) as (d & -> & Hd). injection Hl as <-. exists d. split_and!; [done|done|]. by exists d.
Qed.
Lemma list_to_map_dset {A} k (v : A) (d : dict A) : (list_to_map (dset k v d) : gmap string A) = <[k := v]> (list_to_map d).
Proof.
  apply map_eq. intros i. rewrite <-dget_map. destruct (decide (i = k)) as [->|Hne].
  - by rewrite dget_dset_eq, lookup_insert_eq.
  - by rewrite dget_dset_ne, lookup_insert_ne, dget_map by done.
Qed.

Lemma goal_doc_record g doc : goal_fine g -> json_doc (VDict (goal_to_dict g)) = Ok doc ->
  exists d, doc = VDict d /\ goal_record d /\ goal_of d = Some (stored_goal g).
Proof.
  intros Hg Hd. destruct (goal_payload_read g doc Hg Hd) as (d & -> & Hr & Hid). exists d. split_and!; [done| |].
  - by exists (stored_goal g).
  - unfold goal_of. by rewrite Hr.
Qed.
Lemma plan_doc_record p doc : plan_wf p -> plan_payload p = Ok doc ->
  exists d, doc = VDict d /\ plan_record d /\ plan_of d = Some (restored_plan fzero p) /\ json_doc doc = Ok doc.
Proof.
  intros Hp Hd. destruct (plan_payload_read p doc Hp Hd) as (d & -> & Hr & Hid & Hj). exists d. split_and!; [done| | |by apply json_doc_id].
  - exists (restored_plan fzero p). split; [|done]. intros now. exists (restored_plan now p). by rewrite Hr.
  - unfold plan_of. by rewrite Hr.
Qed.
Lemma plan_payload_doc p doc : plan_payload p = Ok doc -> doc_of (plan_data p) = doc.
Proof.
  unfold plan_payload, serialize_plan, doc_of. destruct (json_doc (plan_data p)); [by intros [= ->]|].
  by destruct (_ || _).
Qed.
Lemma json_field_id k x : is_json x = true -> json_field (k, x) = Ok (k, x).
Proof. intros Hj. unfold json_field. simpl. by rewrite (json_doc_id _ Hj). Qed.
Lemma checkpoint_doc k v d doc : is_json (VDict d) = true -> json_doc (VDict (dset k (VDict v) d)) = Ok doc ->
  doc = VDict (dset k (VDict (doc_args v)) d).
Proof.
  rewrite json_doc_dict. intros Hj (d' & Ht & <-)%res_map_inv. f_equal. revert d' Hj Ht.
  induction d as [|[k0 x] d IH]; intros d' Hj; cbn [dset]; intros Ht.
  - apply json_doc_field in Ht as (w & d0 & ->%dict_doc & [= <-] & ->). done.
  - cbn in Hj. apply andb_true_iff in Hj as [Hx Hj]. destruct (String.eqb k k0).
    + apply json_doc_field in Ht as (w & d0 & ->%dict_doc & Ht & ->). do 1 f_equal.
      assert (Hd : res_traverse json_field d = Ok d).
      { apply (res_traverse_id _ (fun kv => is_json kv.2)); [|done]. apply Forall_forall. intros [k1 y] _. apply json_field_id. }
      congruence.
    + apply json_doc_field in Ht as (w & d0 & Hw & Ht & ->). rewrite (json_doc_id x Hx) in Hw. injection Hw as <-.
      f_equal. by apply IH.
Qed.
Lemma dset_dicts k v (d : dict pyval) :
  Forall (fun kv => is_Some (dict_val kv.2)) d -> Forall (fun kv => is_Some (dict_val kv.2)) (dset k (VDict v) d).
Proof.
  induction 1 as [|[k0 x] d Hx Hd IH]; cbn; [constructor; [by eexists|constructor]|].
  destruct (String.eqb k k0); by constructor.
Qed.

Lemma jsonl_save_goal_law g s : store_ok s -> goal_fine g -> admissible (VDict (goal_to_dict g)) ->
  writes_at s (op_save_goal g) (add_goal (kept_goal g)).
Proof.
  intros (Hg & Hp & He & Hc) Hf Ha r s'. cbn [op_save_goal jsonl_ops] in *. unfold jsonl_save_goal. intros Hb.
  apply bind_inv in Hb as [(e & [= _ <-] & ->)|(l & s1 & [= Hl <-] & [= <- <-])]; [done|].
  destruct (jsonl_line_good _ _ _ goal_record Hl Ha) as (d & Hd & -> & Hgood).
  { intros doc Hdoc. destruct (goal_doc_record g doc Hf Hdoc) as (d & ? & ? & _). eauto. }
  destruct (goal_doc_record g _ Hf Hd) as (d' & [= <-] & _ & Hof). split.
  + split_and!; [apply Forall_app; split; [done|by constructor]|done|done|done].
  + cbn. unfold add_goal. cbn. f_equal. rewrite docs_app. exact (latest_app goal_of goal_id _ d ∅ (stored_goal g) Hof).
Qed.
Lemma jsonl_load_goal_law id : reads_as (op_load_goal id) (fun a _ o => o = as_goals a !! id).
Proof.
  intros s r s' Hok. pose proof Hok as (Hg & Hp & He & Hc). cbn [op_load_goal jsonl_ops]. unfold jsonl_load_goal, bind, gets, of_res.
  rewrite (read_good _ _ _ _ Hg). unfold of_D. rewrite (find_goal_latest id _ ∅ None); [|by apply docs_good|by rewrite lookup_empty].
  intros [= <- <-]. split_and!; [done|done|]. by intros a [= <-].
Qed.
Lemma jsonl_save_plan_law h p s : store_ok s -> plan_at s h = Some p -> plan_wf p -> admissible (plan_data p) ->
  writes_at s (op_save_plan h) (add_plan (unstamp (kept_plan p))).
Proof.
  intros (Hg & Hp & He & Hc) Hh Hw Ha r s'. cbn in Hh. injection Hh as ->. cbn [op_save_plan jsonl_ops] in *. unfold jsonl_save_plan.
  intros Hb. apply bind_inv in Hb as [(e & [= _ <-] & ->)|(doc & s1 & [= Hdoc <-] & Hb)]; [done|].
  apply bind_inv in Hb as [(e & [= _ <-] & ->)|(u & s1 & [= _ <-] & Hb)]; [done|].
  apply bind_inv in Hb as [(e & [= _ <-] & ->)|(l & s1 & [= Hl <-] & [= <- <-])]; [done|].
  destruct (plan_doc_record p doc Hw Hdoc) as (d & -> & Hr & Hof & Hj).
  destruct (jsonl_line_good _ _ _ plan_record Hl) as (d' & Hd & -> & Hgood).
  { unfold admissible in Ha. cbn in Ha. rewrite (plan_payload_doc _ _ Hdoc) in Ha. unfold doc_of. by rewrite Hj. }
  { intros doc' Hdoc'. rewrite Hj in Hdoc'. injection Hdoc' as <-. eauto. }
  rewrite Hj in Hd. injection Hd as <-. split.
  + split_and!; [done|apply Forall_app; split; [done|by constructor]|done|done].
  + cbn. unfold add_plan. cbn. f_equal. rewrite docs_app.
    rewrite (latest_app plan_of po_plan_id (line_docs (jl_plans s)) d ∅ (restored_plan fzero p)) by done. by rewrite fmap_insert.
Qed.
Lemma jsonl_load_plan_law id : reads_as (op_load_plan id) (loaded_plan id).
Proof.
  intros s r s' Hok. pose proof Hok as (Hg & Hp & He & Hc). cbn [op_load_plan jsonl_ops]. unfold jsonl_load_plan. unfold bind at 1, gets. unfold bind at 1, of_res.
  rewrite (read_good _ _ _ _ Hp).
  destruct (find_plan_latest id (line_docs (jl_plans s)) ∅ None s) as (o & s1 & E & Ho & E1 & E2 & E3 & E4);
    [by apply docs_good|by rewrite lookup_empty|]. rewrite E. intros [= <- <-].
  split; [|split].
  + unfold store_ok. cbn. by rewrite E1, E2, E3, E4.
  + unfold contents. cbn. by rewrite E1, E2, E3, E4.
  + intros a [= <-]. unfold stamped in Ho. unfold loaded_plan. cbn. rewrite lookup_fmap, <-Ho.
    destruct o as [p|]; [by exists p|done].
Qed.
Lemma jsonl_append_event_law e s : store_ok s -> event_fine e -> admissible (VDict e) ->
  writes_at s (op_append_event e) (add_event (kept_dict e)).
Proof.
  intros (Hg & Hp & He & Hc) Hf Ha r s'. cbn [op_append_event jsonl_ops] in *. unfold jsonl_append_event. intros Hb.
  apply bind_inv in Hb as [(x & [= _ <-] & ->)|(u & s1 & [= _ <-] & Hb)]; [done|].
  apply bind_inv in Hb as [(x & [= _ <-] & ->)|(l & s1 & [= Hl <-] & [= <- <-])]; [done|].
  destruct (jsonl_line_good _ _ _ (fun _ => True) Hl Ha) as (d & Hd & -> & Hgood).
  { intros doc ->%dict_doc. eauto. }
  pose proof (dict_doc _ _ Hd) as [= ->]. split.
  + split_and!; [done|done|apply Forall_app; split; [done|by constructor]|done].
  + cbn. unfold add_event. cbn. f_equal. by rewrite docs_app.
Qed.
Lemma jsonl_list_events_law goal : reads_as (op_list_events goal) (fun a _ l => l = events_of goal (as_events a)).
Proof.
  intros s r s' Hok. pose proof Hok as (Hg & Hp & He & Hc). cbn [op_list_events jsonl_ops]. unfold jsonl_list_events, bind, gets, of_res.
  rewrite (read_good _ _ _ _ He). intros [= <- <-]. split_and!; [done|done|]. by intros a [= <-].
Qed.
Lemma jsonl_save_checkpoint_law k v s : store_ok s -> admissible (VDict v) ->
  writes_at s (op_save_checkpoint k v) (add_checkpoint k (kept_dict v)).
Proof.
  intros (Hg & Hp & He & d & Hd & Hj & Hv) Ha r s'. cbn [op_save_checkpoint jsonl_ops] in *. unfold jsonl_save_checkpoint. intros Hb.
  assert (Hok : store_ok s) by (split_and!; [done|done|done|by exists d]).
  apply bind_inv in Hb as [(x & [= _ <-] & ->)|(u & s1 & [= _ <-] & Hb)]; [done|].
  unfold bind at 1, gets in Hb. unfold bind at 1, of_res in Hb. rewrite Hd in Hb.
  apply bind_inv in Hb as [(x & [= _ <-] & ->)|(doc & s1 & [= Hdoc <-] & [= <- <-])]; [done|].
  change (json_doc (VDict (dset k (VDict v) d)) = Ok doc) in Hdoc. pose proof (json_doc_json _ _ Hdoc) as Hj'. apply checkpoint_doc in Hdoc as ->; [|done]. split.
  + split_and!; [done|done|done|]. eexists. split_and!; [reflexivity|exact Hj'|by apply dset_dicts].
  + cbn. unfold add_checkpoint. cbn. f_equal. rewrite Hd, list_to_map_dset. by rewrite (omap_insert_Some _ _ _ _ (doc_args v)).
Qed.
Lemma jsonl_load_checkpoint_law k : reads_as (op_load_checkpoint k) (fun a _ o => o = as_checkpoints a !! k).
Proof.
  intros s r s' Hok. pose proof Hok as (Hg & Hp & He & d & Hd & Hj & Hv). cbn [op_load_checkpoint jsonl_ops]. unfold jsonl_load_checkpoint, bind, gets, of_res.
  rewrite Hd. intros [= <- <-]. split_and!; [done|done|]. intros a [= <-]. cbn. rewrite Hd, lookup_omap, <-dget_map.
  by destruct (dget k d) as [[]|].
Qed.
#[export] Instance jsonl_laws : StoreLaws JsonlStore PlanObj.
Proof.
  split; eauto using jsonl_save_goal_law, jsonl_load_goal_law, jsonl_save_plan_law, jsonl_load_plan_law, jsonl_append_event_law, jsonl_list_events_law, jsonl_save_checkpoint_law, jsonl_load_checkpoint_law.
Qed.
End jsonl.

(** ** SQL tables *)

Definition rows_map (rows : list SqlRow) : gmap string pyval := list_to_map (map (fun r => (sq_key r, sq_payload r)) rows).
Lemma rows_map_upsert r rows : rows_map (upsert r rows) = <[sq_key r := sq_payload r]> (rows_map rows).
Proof.
  unfold rows_map. induction rows as [|r' rows IH]; simpl; [done|]. destruct (String.eqb_spec (sq_key r') (sq_key r)) as [E|Hne]; simpl.
  - rewrite E. by rewrite insert_insert_eq.
  - rewrite IH. by rewrite insert_insert_ne.
Qed.
Lemma find_row_map k rows : find_row k rows = rows_map rows !! k.
Proof.
  unfold rows_map, find_row. induction rows as [|r rows IH]; simpl; [by rewrite lookup_empty|].
  destruct (String.eqb_spec (sq_key r) k) as [->|Hne]; simpl; [by rewrite lookup_insert_eq|by rewrite lookup_insert_ne].
Qed.

Section sql.
Context `{PyRuntime}.

Lemma dget_doc k (e d : dict pyval) :
  res_traverse json_field e = Ok d -> dget k d = (dget k e ≫= fun v => match json_doc v with Ok w => Some w | Raise _ => None end).
Proof.
  revert d. induction e as [|[k0 v] e IH]; intros d Ht.
  - by injection Ht as <-.
  - apply json_doc_field in Ht as (w & d0 & Hw & Ht & ->). cbn. destruct (String.eqb k k0); [cbn; by rewrite Hw|by apply IH].
Qed.
Definition goal_row (k : string) (doc : pyval) : Prop := exists d g, doc = VDict d /\ goal_from_dict d = dret g /\ goal_id g = k.
Definition plan_row (k : string) (doc : pyval) : Prop :=
  exists p, (forall now, exists p', deserialize_plan now doc = dret p' /\ unstamp p' = unstamp p) /\ po_plan_id p = k.
Definition event_row (e : SqlEvent) : Prop := exists d, ev_payload e = VDict d /\
  forall id, is_str id (dget "goal_id" d) = bool_decide (ev_goal e = Some id).
Definition goal_of_doc (doc : pyval) : option Goal := dict_val doc ≫= goal_of.
Definition plan_of_doc (doc : pyval) : option PlanObj :=
  match deserialize_plan fzero doc with Some (Ok p) => Some (unstamp p) | _ => None end.

Context (dia : Dialect) (fault : nat -> option string).
Definition sql_ops : StoreOps SqlStore PlanObj := {|
  op_save_goal := sql_save_goal dia fault; op_load_goal := sql_load_goal dia fault;
  op_save_plan := sql_save_plan dia fault; op_load_plan := sql_load_plan dia fault;
  op_append_event := sql_append_event dia fault; op_list_events := sql_list_events dia fault;
  op_save_checkpoint := sql_save_checkpoint dia fault; op_load_checkpoint := sql_load_checkpoint dia fault;
  store_ok := fun s => map_Forall goal_row (rows_map (sq_goals s)) /\ map_Forall plan_row (rows_map (sq_plans s)) /\
    map_Forall (fun _ doc => is_Some (dict_val doc)) (rows_map (sq_checkpoints s)) /\ Forall event_row (sq_events s);
  contents := fun s => {|
    as_goals := omap goal_of_doc (rows_map (sq_goals s));
    as_plans := omap plan_of_doc (rows_map (sq_plans s));
    as_events := omap (fun e => dict_val (ev_payload e)) (sq_events s);
    as_checkpoints := omap dict_val (rows_map (sq_checkpoints s)) |};
  plan_at := fun _ p => Some p; admissible := fun _ => True;
  kept_goal := stored_goal; kept_plan := restored_plan fzero; kept_dict := doc_args |}.
#[local] Existing Instance sql_ops.

(** The same tables. *)
Definition same_tables (s s' : SqlStore) : Prop :=
  sq_goals s' = sq_goals s /\ sq_plans s' = sq_plans s /\ sq_checkpoints s' = sq_checkpoints s /\ sq_events s' = sq_events s.
Lemma same_ok s s' : same_tables s s' -> store_ok s -> store_ok s' /\ contents s' = contents s.
Proof. intros (E1 & E2 & E3 & E4) Hok. unfold store_ok, contents in *. cbn in *. by rewrite E1, E2, E3, E4. Qed.
Lemma sql_run_inv {A} kind (op : SqlStore -> res string (SqlStore * A)) s r s' :
  sql_run dia fault kind op s = (r, s') -> exists s1, same_tables s s1 /\
    ((exists e, r = Raise e /\ s' = s1) \/ (exists a, op s1 = Ok (s', a) /\ r = Ok a)).
Proof.
  unfold sql_run. set (s1 := {| sq_goals := _ |}). intros Hr. exists s1. split; [done|].
  destruct (fault (sq_count s)); [injection Hr as <- <-; eauto|].
  destruct (op s1) as [[s2 a]|cls]; injection Hr as <- <-; eauto.
Qed.
(** A write is built from guards, a time stamp and the statement. *)
Lemma writes_of_res {A} s (x : res exn A) (m : A -> M SqlStore exn unit) F :
  store_ok s -> (forall d, x = Ok d -> writes_at s (m d) F) -> writes_at s (let! d := of_res x in m d) F.
Proof. intros Hok Hm r s'. destruct x as [d|e]; [apply Hm; done|]. by intros [= <- <-]. Qed.
Lemma writes_time s (m : float -> M SqlStore exn unit) F :
  store_ok s -> (forall now s0, same_tables s s0 -> store_ok s0 -> writes_at s0 (m now) F) ->
  writes_at s (let! now := time_time in m now) F.
Proof.
  intros Hok Hm r s' Hb. unfold bind, time_time in Hb.
  match type of Hb with m _ ?s0 = _ => assert (Hs : same_tables s s0) by done; pose proof (same_ok _ _ Hs Hok) as [H0 Hc];
    destruct (Hm _ _ Hs H0 _ _ Hb) as [? ->] end. by rewrite Hc.
Qed.
Lemma writes_run s (op : SqlStore -> res string (SqlStore * unit)) F :
  store_ok s -> (forall s1 s2, same_tables s s1 -> store_ok s1 -> op s1 = Ok (s2, tt) ->
    store_ok s2 /\ contents s2 = F (contents s1)) -> writes_at s (sql_run dia fault "write" op) F.
Proof.
  intros Hok Hop r s' Hb. apply sql_run_inv in Hb as (s1 & Hs1 & Hb). destruct (same_ok _ _ Hs1 Hok) as [Hok1 Hc1].
  destruct Hb as [(e & -> & ->)|([] & Ho & ->)]; [done|]. rewrite <-Hc1. eauto.
Qed.
Lemma sql_read {A B} (op : SqlStore -> A) (k : A -> M SqlStore exn B) Q :
  (forall s1 r s2, store_ok s1 -> k (op s1) s1 = (r, s2) ->
    same_tables s1 s2 /\ forall a, r = Ok a -> Q (contents s1) s2 a) ->
  reads_as (let! x := sql_run dia fault "read" (fun s => Ok (s, op s)) in k x) Q.
Proof.
  intros Hk s r s' Hok Hb. apply bind_inv in Hb as [(e & Hr & ->)|(x & s1 & Hr & Hb)];
    apply sql_run_inv in Hr as (s2 & Hs2 & [(e' & Er & ->)|(a & Ho & Er)]); simplify_eq;
    destruct (same_ok _ _ Hs2 Hok) as [Hok2 Hc2]; [by split_and!|].
  destruct (Hk _ _ _ Hok2 Hb) as [Hs' Hq]. destruct (same_ok _ _ Hs' Hok2) as [Hok' Hc'].
  rewrite <-Hc2. split_and!; [done|done|done].
Qed.
Lemma omap_upsert {A} (f : pyval -> option A) k doc now a rows :
  f doc = Some a -> omap f (rows_map (upsert (row_of k doc now) rows)) = <[k := a]> (omap f (rows_map rows)).
Proof. intros Hf. rewrite rows_map_upsert. cbn. by rewrite (omap_insert_Some _ _ _ _ a). Qed.
Lemma rows_Forall_upsert (P : string -> pyval -> Prop) k doc now rows :
  P k doc -> map_Forall P (rows_map rows) -> map_Forall P (rows_map (upsert (row_of k doc now) rows)).
Proof. intros Hp Hm. rewrite rows_map_upsert. by apply map_Forall_insert_2. Qed.
Lemma same_trans s s0 s1 : same_tables s s0 -> same_tables s0 s1 -> same_tables s s1.
Proof. unfold same_tables. intuition congruence. Qed.
Lemma goal_of_doc_read d g : goal_from_dict d = dret g -> goal_of_doc (VDict d) = Some g.
Proof. intros Hr. unfold goal_of_doc, dict_val, goal_of. simpl. by rewrite Hr. Qed.
Lemma plan_from_ok now doc p : deserialize_plan now doc = dret p -> plan_from now doc = dret p.
Proof. unfold plan_from. by intros ->. Qed.
Lemma event_row_bound e goal now :
  event_fine e -> json_doc (VDict e) = Ok (VDict (doc_args e)) -> bind_goal_id dia (dget "goal_id" e) = Ok goal ->
  event_row {| ev_goal := goal; ev_payload := VDict (doc_args e); ev_created := now |}.
Proof.
  intros Hf Hd Hb. rewrite json_doc_dict in Hd. destruct (res_traverse json_field e) as [d|] eqn:Et; [|done].
  injection Hd as Hd. exists (doc_args e). split; [done|]. intros id. cbn [ev_goal]. rewrite <-Hd, (dget_doc _ _ _ Et).
  unfold event_fine in Hf. revert Hb. destruct (dget "goal_id" e) as [[]|]; try done; cbn; [by intros [= <-]| |by intros [= <-]].
  destruct (d_text dia _); [|done]. intros [= <-]. case_bool_decide as Hs; [injection Hs as ->; apply String.eqb_refl|].
  apply String.eqb_neq. congruence.
Qed.
Lemma events_read goal evs :
  Forall event_row evs ->
  res_traverse (fun e => loads_object (ev_payload e) "runtime event")
    (match goal with None => evs | Some id => List.filter (fun e => bool_decide (ev_goal e = Some id)) evs end) =
  Ok (events_of goal (omap (fun e => dict_val (ev_payload e)) evs)).
Proof.
  induction 1 as [|e evs (d & Hd & Hg) _ IH]; [by destruct goal|]. destruct goal as [id|]; simpl; rewrite Hd; simpl.
  - rewrite Hg. destruct (bool_decide _); [|exact IH]. simpl. rewrite Hd. simpl. by rewrite IH.
  - by rewrite IH.
Qed.

Lemma sql_save_goal_law g s : store_ok s -> goal_fine g -> admissible (VDict (goal_to_dict g)) ->
  writes_at s (op_save_goal g) (add_goal (kept_goal g)).
Proof.
  intros Hok Hf _. cbn [op_save_goal sql_ops]. unfold sql_save_goal.
  apply writes_of_res; [done|]. intros _ _. apply writes_time; [done|]. intros now s0 _ Hok0.
  apply writes_of_res; [done|]. intros doc Hd. apply writes_run; [done|]. intros s1 s2 _ (Hg & Hp & Hc & He) Ho.
  destruct (accepted dia _ _); [|done]. injection Ho as <-.
  destruct (goal_payload_read g doc Hf Hd) as (d & -> & Hr & _). split.
  + split_and!; [|done..]. apply rows_Forall_upsert; [|done]. by exists d, (stored_goal g).
  + unfold contents, add_goal. cbn. f_equal. apply (omap_upsert goal_of_doc). by apply goal_of_doc_read.
Qed.
Lemma sql_load_goal_law id : reads_as (op_load_goal id) (fun a _ o => o = as_goals a !! id).
Proof.
  cbn [op_load_goal sql_ops]. apply sql_read. intros s1 r s2 (Hg & Hp & Hc & He). rewrite find_row_map. cbn [contents sql_ops as_goals].
  rewrite lookup_omap. destruct (rows_map (sq_goals s1) !! id) as [doc|] eqn:E; cbn [mbind option_bind].
  2: { intros [= <- <-]. split; [done|]. by intros a [= <-]. }
  destruct (Hg _ _ E) as (d & g & -> & Hr & _). rewrite (goal_of_doc_read _ _ Hr). unfold bind, of_res, of_D. cbn [loads_object].
  rewrite Hr. intros [= <- <-]. split; [done|]. by intros a [= <-].
Qed.
Lemma sql_save_plan_law h p s : store_ok s -> plan_at s h = Some p -> plan_wf p -> admissible (plan_data p) ->
  writes_at s (op_save_plan h) (add_plan (unstamp (kept_plan p))).
Proof.
  intros Hok Hh Hw _. cbn in Hh. injection Hh as ->. cbn [op_save_plan sql_ops]. unfold sql_save_plan.
  apply writes_of_res; [done|]. intros doc Hd. apply writes_of_res; [done|]. intros _ _.
  apply writes_time; [done|]. intros now s0 _ Hok0. apply writes_run; [done|]. intros s1 s2 _ (Hg & Hp & Hc & He) Ho.
  destruct (accepted dia _ _); [|done]. injection Ho as <-.
  destruct (plan_payload_read p doc Hw Hd) as (d & -> & Hr & _). split.
  + split_and!; [done| |done..]. apply rows_Forall_upsert; [|done]. exists (restored_plan fzero p). split; [|done].
    intros now'. exists (restored_plan now' p). by rewrite Hr.
  + unfold contents, add_plan. cbn. f_equal. apply (omap_upsert plan_of_doc). unfold plan_of_doc. by rewrite Hr.
Qed.
Lemma sql_load_plan_law id : reads_as (op_load_plan id) (loaded_plan id).
Proof.
  cbn [op_load_plan sql_ops]. apply sql_read. intros s1 r s2 (Hg & Hp & Hc & He). rewrite find_row_map. unfold loaded_plan. cbn [contents sql_ops as_plans].
  rewrite lookup_omap. destruct (rows_map (sq_plans s1) !! id) as [doc|] eqn:E; cbn [mbind option_bind].
  2: { intros [= <- <-]. split; [done|]. by intros a [= <-]. }
  destruct (Hp _ _ E) as (p & Hr & _). unfold bind, time_time, of_D. destruct (Hr (time_at (n_time (sq_sys s1)))) as (p1 & Hp1 & Hu1).
  destruct (Hr fzero) as (p0 & Hp0 & Hu0). cbn [sys_of SqlStore_HasSys]. rewrite (plan_from_ok _ _ _ Hp1). intros [= <- <-].
  split; [done|]. intros a [= <-]. exists p1. split; [done|]. unfold plan_of_doc. rewrite Hp0. simpl. congruence.
Qed.
Lemma sql_append_event_law e s : store_ok s -> event_fine e -> admissible (VDict e) ->
  writes_at s (op_append_event e) (add_event (kept_dict e)).
Proof.
  intros Hok Hf _. cbn [op_append_event sql_ops]. unfold sql_append_event.
  apply writes_of_res; [done|]. intros _ _. apply writes_time; [done|]. intros now s0 _ Hok0.
  apply writes_of_res; [done|]. intros doc Hd. apply writes_run; [done|]. intros s1 s2 _ (Hg & Hp & Hc & He) Ho.
  apply dict_doc in Hd as Hd'. subst doc. destruct (bind_goal_id _ _) as [goal|] eqn:Eb; [|done].
  destruct (negb _); [done|]. injection Ho as <-. split.
  + split_and!; [done..|]. apply Forall_app. split; [done|]. constructor; [|done]. by apply event_row_bound.
  + unfold contents, add_event. cbn. by rewrite omap_app.
Qed.
Lemma sql_list_events_law goal : reads_as (op_list_events goal) (fun a _ l => l = events_of goal (as_events a)).
Proof.
  cbn [op_list_events sql_ops]. apply sql_read. intros s1 r s2 (_ & _ & _ & He). rewrite (events_read goal _ He). unfold of_res. intros [= <- <-].
  split; [done|]. by intros a [= <-].
Qed.
Lemma sql_save_checkpoint_law k v s : store_ok s -> admissible (VDict v) ->
  writes_at s (op_save_checkpoint k v) (add_checkpoint k (kept_dict v)).
Proof.
  intros Hok _. cbn [op_save_checkpoint sql_ops]. unfold sql_save_checkpoint.
  apply writes_of_res; [done|]. intros _ _. apply writes_time; [done|]. intros now s0 _ Hok0.
  apply writes_of_res; [done|]. intros doc Hd. apply writes_run; [done|]. intros s1 s2 _ (Hg & Hp & Hc & He) Ho.
  destruct (accepted dia _ _); [|done]. injection Ho as <-. apply dict_doc in Hd as ->. split.
  + split_and!; [done..| |done]. apply rows_Forall_upsert; [by eexists|done].
  + unfold contents, add_checkpoint. cbn. f_equal. by apply omap_upsert.
Qed.
Lemma sql_load_checkpoint_law k : reads_as (op_load_checkpoint k) (fun a _ o => o = as_checkpoints a !! k).
Proof.
  cbn [op_load_checkpoint sql_ops]. apply sql_read. intros s1 r s2 (Hg & Hp & Hc & He). rewrite find_row_map. cbn [contents sql_ops as_checkpoints].
  rewrite lookup_omap. destruct (rows_map (sq_checkpoints s1) !! k) as [doc|] eqn:E; cbn [mbind option_bind].
  2: { intros [= <- <-]. split; [done|]. by intros a [= <-]. }
  destruct (Hc _ _ E) as (d & Hd). destruct doc; try done. intros [= <- <-]. split; [done|]. by intros a [= <-].
Qed.
#[local] Instance sql_laws : StoreLaws SqlStore PlanObj.
Proof.
  split; eauto using sql_save_goal_law, sql_load_goal_law, sql_save_plan_law, sql_load_plan_law, sql_append_event_law, sql_list_events_law, sql_save_checkpoint_law, sql_load_checkpoint_law.
Qed.
End sql.

(** * Properties of the runtime stores: they refine the abstract store, what a
    reload gives back, and the files a line separator ruins. *)


(** Every history of a store is a history of the abstract store. *)
Definition implements {S Hd} (ops : StoreOps S Hd) : Prop := forall s l s',
  store_ok s -> trace store_step s l s' -> store_ok s' /\ trace astore_step (contents s) l (contents s').
Lemma laws_implement {S Hd} (ops : StoreOps S Hd) : StoreLaws S Hd -> implements ops.
Proof. intros Hl s l s' Hok Ht. by apply store_trace_sound. Qed.

Definition mem_empty (heap : list PlanObj) : MemStore :=
  {| mm_goals := ∅; mm_plans := ∅; mm_events := []; mm_checkpoints := ∅; mm_heap := heap |}.
Definition jsonl_empty (x : Sys) : JsonlStore :=
  {| jl_goals := []; jl_plans := []; jl_events := []; jl_checkpoints := None; jl_sys := x |}.
Definition sql_empty (x : Sys) : SqlStore :=
  {| sq_goals := []; sq_plans := []; sq_checkpoints := []; sq_events := []; sq_count := 0; sq_sys := x |}.

(** C12: Each of the four runtime stores refines the abstract store of goals,
    plans, events and checkpoints: from the empty store, whatever calls are made on
    admissible arguments and however they end (statement failures of the
    database included), a call that raised has changed nothing, a write that
    returned is done, and every read that returned gave the abstract answer. *)
Theorem stores_refine `{PyRuntime} (bind_value : pyval -> res string (option string)) (fault : nat -> option string) :
  (implements mem_ops /\ forall heap, store_ok (mem_empty heap)) /\
  (implements jsonl_ops /\ forall x, store_ok (jsonl_empty x)) /\
  (implements (sql_ops (sqlite_dialect bind_value) fault) /\
     forall x, @store_ok _ _ (sql_ops (sqlite_dialect bind_value) fault) (sql_empty x)) /\
  (implements (sql_ops (postgres_dialect bind_value) fault) /\
     forall x, @store_ok _ _ (sql_ops (postgres_dialect bind_value) fault) (sql_empty x)).
Proof.
  split_and!.
  - apply laws_implement, mem_laws.
  - intros heap id ref Hr. done.
  - apply laws_implement, jsonl_laws.
  - intros x. split_and!; [constructor..|]. by exists [].
  - apply laws_implement, sql_laws.
  - intros x. split_and!; done.
  - apply laws_implement, sql_laws.
  - intros x. split_and!; done.
Qed.

(** A history of the SQLite store in which the second statement fails. *)
Definition toy_bind (v : pyval) : res string (option string) := Raise "InterfaceError".
Definition toy_fault (n : nat) : option string := if Nat.eqb n 1 then Some "OperationalError" else None.
Abbreviation toy_ops := (sql_ops (sqlite_dialect toy_bind) toy_fault).
Definition toy_event : dict pyval := [("goal_id", VStr "goal-1"); ("event", VStr "started")].
Definition toy_history : list obs :=
  [SaveGoal toy_goal (Ok tt);
   SavePlan toy_plan_obj (Raise (store_error "sqlite runtime store write failed: OperationalError"));
   AppendEvent toy_event (Ok tt); ListEvents (Some "goal-1") (Ok [toy_event]);
   LoadPlan "plan-1" (Ok None); LoadGoal "goal-1" (Ok (Some (stored_goal toy_goal)))].
Lemma toy_plan_obj_wf : plan_wf toy_plan_obj.
Proof. split_and!; [reflexivity|constructor|intros b [=]]. Qed.
Lemma toy_history_runs : exists s', trace (@store_step _ _ toy_ops) (sql_empty sys0) toy_history s'.
Proof.
  eexists. unfold toy_history.
  eapply trace_cons; [eapply ss_save_goal; [constructor|done|vm_compute; reflexivity]|].
  eapply trace_cons; [eapply ss_save_plan; [reflexivity|apply toy_plan_obj_wf|done|vm_compute; reflexivity]|].
  eapply trace_cons; [eapply ss_append_event; [done|done|vm_compute; reflexivity]|].
  eapply trace_cons; [eapply ss_list_events; vm_compute; reflexivity|].
  eapply trace_cons; [eapply (ss_load_plan _ _ (Ok None)); vm_compute; reflexivity|].
  eapply trace_cons; [eapply ss_load_goal; vm_compute; reflexivity|constructor].
Qed.
Lemma stores_refine_witness : exists s', trace (@store_step _ _ toy_ops) (sql_empty sys0) toy_history s' /\
  trace (@astore_step _ _ toy_ops) (@contents _ _ toy_ops (sql_empty sys0)) toy_history (@contents _ _ toy_ops s').
Proof.
  destruct toy_history_runs as [s' Ht]. exists s'. split; [exact Ht|].
  destruct (stores_refine toy_bind toy_fault) as (_ & _ & [Hi Hok] & _). by apply Hi.
Defined.

(** After a goal has been saved in a SQL store, and unless a later save of
    the same goal returned, every load of it that returns gives that goal back: with its
    criteria's values as documents and, since the payload leaves the
    budget out, with the default budget. *)
Theorem sql_goal_durable `{PyRuntime} (dia : Dialect) (fault : nat -> option string) s before g after r s' :
  @store_ok _ _ (sql_ops dia fault) s ->
  trace (@store_step _ _ (sql_ops dia fault)) s
    (before ++ SaveGoal g (Ok tt) :: after ++ [LoadGoal (goal_id g) (Ok r)]) s' ->
  Forall (fun o => forall g', o = SaveGoal g' (Ok tt) -> goal_id g' <> goal_id g) after ->
  r = Some (stored_goal g).
Proof.
  intros Hok Ht Ha. destruct (laws_implement _ (sql_laws dia fault) _ _ _ Hok Ht) as [_ Ht'].
  apply trace_app_inv in Ht' as (a & _ & Ht'). eapply (@trace_last_goal _ _ (sql_ops dia fault)); [exact Ht'|done|].
  eapply Forall_impl; [exact Ha|]. intros o Ho. destruct o as [g' [[]|]| | | | | | |]; try done. apply String.eqb_neq, (Ho g' eq_refl).
Qed.
Lemma sql_goal_durable_witness : exists s', trace (@store_step _ _ toy_ops) (sql_empty sys0) toy_history s' /\
  Some (stored_goal toy_goal) = Some (stored_goal toy_goal).
Proof.
  destruct toy_history_runs as [s' Ht]. exists s'. split; [exact Ht|].
  apply (sql_goal_durable (sqlite_dialect toy_bind) toy_fault (sql_empty sys0) [] toy_goal (removelast (tail toy_history)) _ s').
  - split_and!; done.
  - exact Ht.
  - repeat constructor; intros g' [=].
Defined.

Lemma assert_store_safe_ok label v : is_ok (assert_store_safe label v) = is_ok (assert_no_secrets v).
Proof. unfold assert_store_safe. destruct (assert_no_secrets v) as [|e]; [done|]. by destruct (isinstance e SanitizationError). Qed.
Lemma jsonl_line_ok `{PyRuntime} file v :
  is_ok (jsonl_line file v) = is_ok (assert_no_secrets v) && is_ok (json_doc v) /\
  forall l, jsonl_line file v = Ok l -> l = LDoc (doc_of v).
Proof.
  unfold jsonl_line, doc_of. rewrite <-(assert_store_safe_ok "RuntimeStore"). destruct (assert_store_safe _ v); [|done].
  simpl. destruct (json_doc v) as [doc|e]; [split; [done|by intros l [= <-]]|]. by destruct (isinstance e TypeError).
Qed.
Lemma read_broken file P lines doc later n :
  Forall (good_line P) lines -> splits_doc doc = true ->
  read_jsonl file n (lines ++ LDoc doc :: later) =
  Raise (store_error ((file +:+ ":" +:+ str_Z (Z.of_nat (n + length lines)) +:+ ": ") +:+ "corrupt JSONL")).
Proof.
  intros Hl Hd. revert n. induction Hl as [|l lines (d & -> & Hs & _) _ IH]; intros n; cbn [read_jsonl app length].
  - by rewrite Hd, Nat.add_0_r.
  - by rewrite Hs, IH, Nat.add_succ_r.
Qed.

(** A JSON lines store accepts a goal one of whose texts holds a line
    separator that the JSON encoder leaves alone (U+0085, U+2028 or U+2029), and the save
    returns; from then on every load of a goal, of that one or any
    other, raises and names the line, whatever is saved later. *)
Theorem jsonl_line_break `{PyRuntime} g s r s' :
  store_ok s -> jsonl_save_goal g s = (r, s') -> splits_doc (doc_of (VDict (goal_to_dict g))) = true ->
  (is_ok r = true <-> is_ok (assert_no_secrets (VDict (goal_to_dict g))) = true /\
     is_ok (json_doc (VDict (goal_to_dict g))) = true) /\
  (is_ok r = true -> forall later s2 id, jl_goals s2 = jl_goals s' ++ later ->
     fst (jsonl_load_goal id s2) =
     Raise (store_error (("goals.jsonl:" +:+ str_Z (Z.of_nat (S (length (jl_goals s)))) +:+ ": ") +:+ "corrupt JSONL"))).
Proof.
  intros (Hg & _) Hs Hb. destruct (jsonl_line_ok "goals.jsonl" (VDict (goal_to_dict g))) as [Hok Hdoc].
  unfold jsonl_save_goal, of_res, bind at 1 in Hs. destruct (jsonl_line _ _) as [l|e]; injection Hs as <- <-.
  - split; [by rewrite <-andb_true_iff, <-Hok|]. intros _ later s2 id Hl. simpl in Hl. rewrite (Hdoc l eq_refl), <-app_assoc in Hl. cbn [app] in Hl.
    unfold jsonl_load_goal, bind, gets, of_res. by rewrite Hl, (read_broken _ _ _ _ _ _ Hg Hb).
  - split; [by rewrite <-andb_true_iff, <-Hok|done].
Qed.

Definition broken_goal : Goal := {|
  description := "keep a" +:+ utf8 [226; 128; 168] +:+ "journal"; success_criteria := ["journal written"]; criteria := [];
  constraints := []; stop_conditions := []; priority := 0; goal_id := "goal-2"; owner := None;
  deadline := None; budget := default_budget; g_status := G_CREATED |}.
Lemma jsonl_line_break_witness :
  let s := snd (jsonl_save_goal toy_goal (jsonl_empty sys0)) in let '(r, s') := jsonl_save_goal broken_goal s in
  r = Ok tt /\ fst (jsonl_load_goal "goal-1" s) = Ok (Some (stored_goal toy_goal)) /\
  fst (jsonl_load_goal "goal-1" s') = Raise (store_error "goals.jsonl:2: corrupt JSONL").
Proof.
  intros s. destruct (jsonl_save_goal broken_goal s) as [r s'] eqn:E.
  assert (Hok0 : store_ok (jsonl_empty sys0)) by (split_and!; [constructor..|by exists []]).
  pose proof (jsonl_save_goal_law toy_goal _ Hok0 (Forall_nil_2 _) eq_refl (Ok tt) s eq_refl) as [Hok _].
  destruct (jsonl_line_break broken_goal s r s' Hok E) as [Hr Hl]; [vm_compute; reflexivity|].
  assert (Hr' : is_ok r = true) by (apply Hr; split; vm_compute; reflexivity).
  split; [by destruct r as [[]|]|]. split; [vm_compute; reflexivity|].
  rewrite (Hl Hr' [] s' "goal-1" (eq_sym (app_nil_r _))). vm_compute. reflexivity.
Defined.
