(* ===== verification/VaultProps.v ===== *)
(** Properties of the credential vaults. *)
From S2P Require Import Prelude Enums PyValue Sanitization Goals Credentials StoreSpec Fixtures.


(** A call of the vault with its result. *)
Inductive vcall : Type :=
| VPut (s : Secret) (sc : string) (expires : option float) (r : res exn SecretHandle)
| VGet (h : SecretHandle) (sc : string) (r : res exn Secret)
| VRevoke (h : SecretHandle)
| VHas (h : SecretHandle) (b : bool).
(** What the history says about a handle: revoked at some point; the last
    secret put under its id while it was not revoked. *)
Definition revokes (id : string) (o : vcall) : bool :=
  match o with VRevoke h => String.eqb (handle_id h) id | _ => false end.
Definition issues (id : string) (o : vcall) : option (Secret * SecretHandle) :=
  match o with VPut s _ _ (Ok h) => if String.eqb (handle_id h) id then Some (s, h) else None | _ => None end.
Definition entry (l : list vcall) (id : string) : option (Secret * SecretHandle) :=
  if existsb (revokes id) l then None
  else fold_left (fun found o => match issues id o with Some x => Some x | None => found end) l None.

Section vault.
Context `{ToolPlatform}.

Inductive vault_step : Vault * Clock -> vcall -> Vault * Clock -> Prop :=
| vs_put s sc e x r y : vault_put s sc e x = (r, y) -> vault_step x (VPut s sc e r) y
| vs_get h sc x r y : vault_get h sc x = (r, y) -> vault_step x (VGet h sc r) y
| vs_revoke h x r y : vault_revoke h x = (r, y) -> vault_step x (VRevoke h) y
| vs_has h x b y : vault_has h x = (Ok b, y) -> vault_step x (VHas h b) y.
(** What a state keeps of its history. *)
Record holds (l : list vcall) (v : Vault) : Prop := {
  ho_ok : vault_ok v;
  ho_alive : forall id, alive v !! id = entry l id;
  ho_revoked : forall id, id ∈ v_revoked v <-> existsb (revokes id) l = true;
}.
Lemma entry_app l o id :
  entry (l ++ [o]) id = if existsb (revokes id) l || revokes id o then None
                        else match issues id o with Some x => Some x | None => entry l id end.
Proof.
  unfold entry. rewrite existsb_app, fold_left_app. simpl. rewrite orb_false_r. by destruct (existsb _ l), (revokes id o).
Qed.
Lemma entry_quiet l o id : revokes id o = false -> issues id o = None -> entry (l ++ [o]) id = entry l id.
Proof. intros Hr Hi. rewrite entry_app, Hr, Hi, orb_false_r. unfold entry. by destruct (existsb _ l). Qed.
Lemma holds_step l v c o v' c' : holds l v -> vault_step (v, c) o (v', c') -> holds (l ++ [o]) v'.
Proof.
  intros [Hok Ha Hr] Hs. assert (Hrev : forall id, revokes id o = false -> v_revoked v' = v_revoked v ->
    id ∈ v_revoked v' <-> existsb (revokes id) (l ++ [o]) = true).
  { intros id Ho Ev. rewrite existsb_app. simpl. by rewrite Ho, !orb_false_r, Ev. }
  remember (v, c) as x eqn:Ex. remember (v', c') as y eqn:Ey. destruct Hs as [s sc e x r y Hp|h sc x r y Hg|h x r y Hv|h x b y Hh]; subst.
  - apply vault_put_spec in Hp as [Hok' Hp]; [|done]. destruct (String.eqb sc "").
    + destruct Hp as (-> & -> & ->). split; [done| |intros id; by apply Hrev]. intros id. by rewrite entry_quiet.
    + destruct Hp as (h & -> & Eh & Hnew & Hold & _ & Ev). split; [done| |intros id; by apply Hrev]. intros id.
      assert (Hid : handle_id h = tool_uuid (c_uuid c)) by (by subst h).
      rewrite entry_app. simpl. rewrite Hid, orb_false_r. set (new := tool_uuid (c_uuid c)) in *.
      destruct (decide (new ∈ v_revoked v)) as [Hin|Hin].
      * rewrite (Hold Hin), Ha. destruct (String.eqb_spec new id) as [<-|Hne].
        -- apply Hr in Hin. unfold entry. by rewrite Hin.
        -- unfold entry. by destruct (existsb _ l).
      * rewrite (Hnew Hin). destruct (String.eqb_spec new id) as [<-|Hne].
        -- rewrite lookup_insert_eq. destruct (existsb (revokes new) l) eqn:E; [by apply Hr in E|done].
        -- rewrite lookup_insert_ne by done. rewrite Ha. unfold entry. by destruct (existsb _ l).
  - apply vault_get_spec in Hg as (-> & _ & _); [|done]. split; [done| |intros id; by apply Hrev].
    intros id. by rewrite entry_quiet.
  - apply vault_revoke_spec in Hv as (-> & Hok' & -> & Ealive & Er); [|done]. split; [done| |].
    + intros id. rewrite Ealive, entry_app. simpl. destruct (String.eqb_spec (handle_id h) id) as [<-|Hne].
      * by rewrite lookup_delete_eq, orb_true_r.
      * rewrite lookup_delete_ne, Ha, orb_false_r by done. unfold entry. by destruct (existsb _ l).
    + intros id. rewrite Er, existsb_app. simpl. rewrite orb_false_r, orb_true_iff, <-Hr, elem_of_union, elem_of_singleton.
      rewrite String.eqb_eq. naive_solver.
  - rewrite vault_has_spec in Hh by done. injection Hh as _ <- <-. split; [done| |intros id; by apply Hrev].
    intros id. by rewrite entry_quiet.
Qed.
Lemma holds_trace l v c o v' c' : holds l v -> trace vault_step (v, c) o (v', c') -> holds (l ++ o) v'.
Proof.
  intros Hl Ht. remember (v, c) as x eqn:Ex. remember (v', c') as y eqn:Ey. revert l v c Hl Ex.
  induction Ht as [x|x o [v1 c1] ls y Hs _ IH]; intros l v c Hl ->.
  - injection Ey as -> ->. by rewrite app_nil_r.
  - rewrite cons_middle, app_assoc. eapply IH; [done|eapply holds_step; [exact Hl|exact Hs]|done].
Qed.

(** The vault answers from the history of its calls, whatever the calls were and whichever
    ids the uuid generator drew.  [get] returns the secret that was put under the
    handle's id, exactly when the handle was never revoked, both the
    recorded and the presented scope are the one asked for, and the recorded
    expiry has not passed; every other case raises the error of that case.  [has] says
    whether there is such a secret, and neither call changes the vault. *)
Theorem vault_history l v c h sc :
  trace vault_step (empty_vault, clock0) l (v, c) ->
  fst (vault_get h sc (v, c)) = open_entry (entry l (handle_id h)) h sc (tool_time (c_time c)) /\
  fst (snd (vault_get h sc (v, c))) = v /\
  vault_has h (v, c) = (Ok (bool_decide (is_Some (entry l (handle_id h)))), (v, c)).
Proof.
  intros Ht. destruct (holds_trace [] _ _ _ _ _ ltac:(split; [apply empty_vault_ok|done|set_solver]) Ht) as [Hok Ha Hr].
  destruct (vault_get h sc (v, c)) as [r [v' c']] eqn:Eg. apply vault_get_spec in Eg as (-> & _ & ->); [|done].
  simpl. rewrite vault_has_spec by done. by rewrite Ha.
Qed.
End vault.

(** A vault with a scoped secret that is read, asked for in another scope, and revoked. *)
#[export] Instance toy_platform : ToolPlatform := {|
  tool_uuid := fun n => "handle-" +:+ str_Z (Z.of_nat n);
  tool_time := fun n => f_of_Z (100 + Z.of_nat n) |}.
Definition toy_secret : Secret := {| secret_id := 1; unwrap := "ghp_token" |}.
Definition toy_handle : SecretHandle :=
  {| handle_id := "handle-0"; scope := "github:leos"; sh_created_at := f_of_Z 100; sh_expires_at := None |}.
Definition toy_calls : list vcall :=
  [VPut toy_secret "github:leos" None (Ok toy_handle); VGet toy_handle "github:leos" (Ok toy_secret);
   VGet toy_handle "github:other" (Raise (Exn CredentialScopeError "Credential handle scope mismatch"));
   VRevoke toy_handle].
Lemma toy_calls_run : exists v c, trace vault_step (empty_vault, clock0) toy_calls (v, c).
Proof.
  do 2 eexists. eapply trace_cons; [eapply vs_put; vm_compute; reflexivity|].
  eapply trace_cons; [eapply vs_get; vm_compute; reflexivity|].
  eapply trace_cons; [eapply vs_get; vm_compute; reflexivity|].
  eapply trace_cons; [eapply vs_revoke; vm_compute; reflexivity|]. constructor.
Qed.
Lemma vault_history_witness : exists v c, trace vault_step (empty_vault, clock0) toy_calls (v, c) /\
  fst (vault_get toy_handle "github:leos" (v, c)) =
    Raise (Exn CredentialRevokedError "Credential handle is missing or revoked").
Proof.
  destruct toy_calls_run as (v & c & Ht). exists v, c. split; [exact Ht|].
  etrans; [apply (vault_history toy_calls v c toy_handle "github:leos" Ht)|]. reflexivity.
Defined.

(** * Every envelope store that keeps its promise makes a vault that implements the abstract one; the file and the keyring do. *)


(** ** The stores *)

Definition file_content (f : EnvFile) : gmap string pyval :=
  match ef_file f with Entries d => list_to_map d | _ => ∅ end.
(** A file written by this vault, or none. *)
Definition file_good (f : EnvFile) : Prop :=
  match ef_file f with NoFile => True | Entries d => NoDup (dkeys d) | _ => False end.
Lemma entries_lookup (d : dict pyval) k : (list_to_map d : gmap string pyval) !! k = dget k d.
Proof.
  induction d as [|[k' v] d IH]; simpl; [done|]. destruct (String.eqb_spec k k') as [->|Hn].
  - by rewrite lookup_insert_eq.
  - by rewrite lookup_insert_ne.
Qed.
Lemma dget_ddel_ne k k' (d : dict pyval) : k <> k' -> dget k (ddel k' d) = dget k d.
Proof.
  intros Hn. induction d as [|[i v] d IH]; simpl; [done|]. destruct (String.eqb_spec k' i) as [->|]; simpl.
  - by rewrite (proj2 (String.eqb_neq k i)).
  - by rewrite IH.
Qed.
Lemma ddel_sub k x (d : dict pyval) : x ∈ dkeys (ddel k d) -> x ∈ dkeys d.
Proof.
  induction d as [|[i v] d IH]; simpl; [done|]. destruct (String.eqb k i); simpl; rewrite ?elem_of_cons; naive_solver.
Qed.
Lemma ddel_NoDup k (d : dict pyval) : NoDup (dkeys d) -> NoDup (dkeys (ddel k d)) /\ k ∉ dkeys (ddel k d).
Proof.
  induction d as [|[i v] d IH]; simpl; [by split; [|apply not_elem_of_nil]|].
  rewrite NoDup_cons. intros [Hi Hd]. destruct (IH Hd) as [H1 H2]. destruct (String.eqb_spec k i) as [->|Hn]; [done|].
  simpl. rewrite NoDup_cons, not_elem_of_cons. split_and!; [|done|done|done]. by intros ?%ddel_sub.
Qed.
#[export] Program Instance env_file_promise : StorePromise EnvFileStore := {| content := file_content; good := file_good |}.
Next Obligation.
  intros id e [f m] Hg. unfold file_good in Hg. simpl in Hg. destruct f as [| | |d]; try done; simpl; unfold bind; simpl.
  - eexists. split; [done|]. split; [apply NoDup_singleton|]. unfold file_content. simpl. by rewrite insert_empty.
  - eexists. split; [done|]. split; [by apply dset_NoDup|]. unfold file_content. simpl. apply map_eq. intros i.
    rewrite entries_lookup. destruct (decide (i = id)) as [->|Hn].
    + by rewrite dget_dset_eq, lookup_insert_eq.
    + rewrite dget_dset_ne by done. by rewrite lookup_insert_ne, entries_lookup.
Qed.
Next Obligation.
  intros id [f m] Hg. unfold file_good in Hg. unfold file_content. simpl in *.
  destruct f as [| | |d]; try done; unfold bind; simpl; by rewrite ?entries_lookup.
Qed.
Next Obligation.
  intros id [f m] Hg. unfold file_good in Hg. simpl in Hg. destruct f as [| | |d]; try done; simpl; unfold bind; simpl.
  - eexists. split; [done|]. split; [apply NoDup_nil_2|]. unfold file_content. simpl. by rewrite delete_empty.
  - destruct (ddel_NoDup id d Hg) as [H1 H2]. eexists. split; [done|]. split; [done|]. unfold file_content. simpl.
    apply map_eq. intros i. rewrite entries_lookup. destruct (decide (i = id)) as [->|Hn].
    + by rewrite lookup_delete_eq, dget_None.
    + by rewrite lookup_delete_ne, dget_ddel_ne, entries_lookup.
Qed.

(** What a keyring documents: [set] then [get], and [delete] may fail only when there is nothing. *)
Class KeyringPromise (B : Type) `{KeyringBackend B} (service : string) := {
  kr_content : B -> gmap string pyval;
  kr_set : forall id e b, exists b', set_password service id e b = (Ok tt, b') /\ kr_content b' = <[id := e]> (kr_content b);
  kr_get : forall id b, get_password service id b = (Ok (kr_content b !! id), b);
  kr_delete : forall id b, kr_content (snd (delete_password service id b)) = delete id (kr_content b);
}.
#[export] Program Instance keyring_promise {B} `{KeyringBackend B} service `{!KeyringPromise B service} :
  StorePromise (KeyringStore service) := {| content := kr_content; good := fun _ => True |}.
Next Obligation. intros B HB service HP id e b _. simpl. destruct (kr_set (service:=service) id e b) as (b' & -> & ?). by exists b'. Qed.
Next Obligation. intros B HB service HP id b _. apply kr_get. Qed.
Next Obligation.
  intros B HB service HP id b _. pose proof (kr_delete (service:=service) id b) as Hd. simpl. unfold catch.
  destruct (delete_password service id b) as [[[]|e] b']; simpl in Hd |- *; by exists b'.
Qed.

(** ** Refinement *)

Section refinement.
Context `{PyRuntime} `{ToolPlatform} {V : Type} (store : EnvelopeStore V) `{!StorePromise store}.

(** The envelope of a credential, of any creation time. *)
Definition envelope_of (doc : pyval) (cr : credential) : Prop :=
  exists created, doc = envelope_doc (cr_value cr) (cr_scope cr) created (cr_expires cr).
Definition represents (v : V) (a : gmap string credential) : Prop :=
  good v /\ forall id, option_Forall2 envelope_of (content v !! id) (a !! id).
(** Two runs that agree on result and clock, in states that still represent each other. *)
Definition agree {A} (x : res exn A * (V * Clock)) (y : res exn A * (gmap string credential * Clock)) : Prop :=
  fst x = fst y /\ snd (snd x) = snd (snd y) /\ represents (fst (snd x)) (fst (snd y)).
Lemma vault_agree_bind {A B} (m : VM V A) m' (f : A -> VM V B) f' x y :
  agree (m x) (m' y) -> (forall r v a k, represents v a -> agree (f r (v, k)) (f' r (a, k))) -> agree (bind m f x) (bind m' f' y).
Proof.
  unfold bind. destruct (m x) as [[r|e] [v k]], (m' y) as [[r'|e'] [a k']]; intros (E1 & E2 & Hr) Hf; simpl in *;
    try discriminate; injection E1 as <-; subst k'; [by apply Hf|done].
Qed.
Lemma vault_agree_ret {A} (r : A) v a k : represents v a -> agree (ret r (v, k)) (ret r (a, k)).
Proof. by intros ?. Qed.

Lemma put_agrees s sc e v a k : represents v a -> agree (base_put store s sc e (v, k)) (spec_put s sc e (a, k)).
Proof.
  intros [Hg Hr]. unfold base_put, spec_put. destruct (String.eqb sc ""); [by split_and!|].
  unfold bind, clock_uuid, make_envelope, clock_time, in_store, modify, ret. simpl.
  destruct (write_ok (tool_uuid (c_uuid k)) (envelope_doc (unwrap s) sc (tool_time (c_time k)) e) v Hg) as (v' & -> & Hg' & Hc).
  split_and!; [done|done|]. split; [done|]. intros id. simpl. rewrite Hc. destruct (decide (id = tool_uuid (c_uuid k))) as [->|Hn].
  - rewrite !lookup_insert_eq. constructor. by eexists.
  - rewrite !lookup_insert_ne by done. apply Hr.
Qed.
Lemma get_agrees h sc v a k : represents v a -> agree (base_get store h sc (v, k)) (spec_get h sc (a, k)).
Proof.
  intros Hv. pose proof Hv as [Hg Hr]. unfold base_get, spec_get, bind, gets, in_store. simpl.
  rewrite (read_ok (handle_id h) v Hg). specialize (Hr (handle_id h)).
  destruct Hr as [doc cr [created ->]|]; [|by split_and!].
  unfold envelope_doc, dget_or, dget_item. simpl. unfold py_neq. simpl.
  destruct (String.eqb (cr_scope cr) sc), (String.eqb (scope h) sc); simpl; try by split_and!.
  destruct (cr_expires cr) as [f|]; simpl; [|by split_and!].
  unfold clock_time, of_res, ret. simpl. destruct (fltb f _); by split_and!.
Qed.
Lemma revoke_agrees h v a k : represents v a ->
  agree (base_revoke store h (v, k)) (modify (E:=exn) (fun '(a, k) => (delete (handle_id h) a, k)) (a, k)).
Proof.
  intros [Hg Hr]. unfold base_revoke, in_store, modify. destruct (delete_ok (handle_id h) v Hg) as (v' & -> & Hg' & Hc).
  split_and!; [done|done|]. split; [done|]. intros id. simpl. rewrite Hc. destruct (decide (id = handle_id h)) as [->|Hn].
  - rewrite !lookup_delete_eq. constructor.
  - rewrite !lookup_delete_ne by done. apply Hr.
Qed.
Lemma has_agrees h v a k : represents v a ->
  agree (base_has store h (v, k)) (gets (E:=exn) (fun '(a, _) => bool_decide (is_Some (a !! handle_id h))) (a, k)).
Proof.
  intros Hv. pose proof Hv as [Hg Hr]. unfold base_has, bind, in_store, gets. rewrite (read_ok (handle_id h) v Hg).
  split_and!; [|done|done]. simpl. by destruct (Hr (handle_id h)).
Qed.
Lemma call_agrees cl v a k : represents v a -> agree (do_call (base_ops store) cl (v, k)) (do_call spec_ops cl (a, k)).
Proof.
  intros Hv. destruct cl; simpl; (eapply vault_agree_bind; [|intros; by apply vault_agree_ret]).
  - by apply put_agrees.
  - by apply get_agrees.
  - by apply revoke_agrees.
  - by apply has_agrees.
Qed.

End refinement.

(** ** At a fresh file *)

#[local] Instance backend_platform : ToolPlatform := {| tool_uuid n := "h" +:+ str_Z (Z.of_nat n); tool_time n := f_of_Z (Z.of_nat n) |}.
Definition no_file : EnvFile := {| ef_file := NoFile; ef_mode := 0 |}.
Definition new_handle (id sc : string) : SecretHandle := {| handle_id := id; scope := sc; sh_created_at := fzero; sh_expires_at := None |}.
Definition vault_calls : list bcall :=
  [BPut {| secret_id := 1; unwrap := "pat" |} "repo:a" None; BPut {| secret_id := 2; unwrap := "old" |} "repo:b" (Some fzero);
   BGet (new_handle "h0" "repo:a") "repo:a"; BGet (new_handle "h0" "repo:b") "repo:b"; BGet (new_handle "h1" "repo:b") "repo:b";
   BRevoke (new_handle "h0" "repo:a"); BGet (new_handle "h0" "repo:a") "repo:a"; BHas (new_handle "h1" "")].
