(* ===== verification/GitHubProps.v ===== *)
(** Properties of the GitHub tools over the in-memory client. *)
From S2P Require Import Prelude Enums PyValue Sanitization Goals Plans Tools Credentials GitHubClient GitHubTools AuditTrail Causal Egress Policy Approval Gates Transactions TxInvariants TxEnv Fixtures VaultProps GitHubTheory.

(** With or without the in-memory vault. *)
Definition memory_vault `{ToolPlatform} (b : bool) : option (CredentialVault Vault) :=
  if b then Some InMemoryCredentialVault else None.
Abbreviation GH := (GhEnv GhState Vault).

Section runs.
Context `{PyRuntime} `{JsonSchemaValidator} `{ToolPlatform} {V G : Type}.

End runs.

Section tokens.
Context `{PyRuntime} `{ToolPlatform}.

(** Environments that differ at most in tokens: the secrets of the
    vault, the tokens kept for rollbacks, the fingerprints the client recorded. *)
Definition same_but_tokens (e1 e2 : GH) : Prop := same_env tokens_differ secrets_differ e1 e2.

End tokens.

(** ** Exact behaviour of the writing tools *)

Section exact.
Context `{PyRuntime} `{ToolPlatform} (b : bool).
Implicit Types e : GH.

(** The request of an update whose guards the repository satisfies. *)
Definition text (k : string) (args : dict pyval) : option string := py_str <$> dget k args.
Definition token_fine (args : dict pyval) : bool := is_ok (token_secret args).
Definition guards_hold (args : dict pyval) (old : option GhFile) : bool :=
  (dmem "expected_sha" args || dmem "expected_previous" args) &&
  match text "expected_sha" args with Some x => bool_decide (gf_sha <$> old = Some x) | None => true end &&
  match text "expected_previous" args with Some x => String.eqb (from_option gf_content "" old) x | None => true end.
Definition update_wanted (args : dict pyval) (c : GhState) : option (file_key * string) :=
  match text "repo" args, text "path" args, text "branch" args, text "content" args, text "message" args with
  | Some repo, Some path, Some branch, Some content, Some _ =>
      if token_fine args && guards_hold args (gh_files c !! (repo, branch, path))
      then Some ((repo, branch, path), content) else None
  | _, _, _, _, _ => None
  end.
(** The repository after a file is written. *)
Definition written (k : file_key) (content : string) (c : GhState) : gmap file_key GhFile * gmap (string * string) string :=
  (<[k := {| gf_path := k.2; gf_content := content; gf_sha := content_sha content |}]> (gh_files c),
   <[(k.1.1, k.1.2) := content_sha content]> (gh_branches c)).
Definition code (e : GH) : gmap file_key GhFile * gmap (string * string) string := (gh_files (ge_client e), gh_branches (ge_client e)).

(** Remembering the credential always succeeds and leaves the repository alone. *)
Lemma remember_credential_ok tool secret repo e w : exists d e',
  remember_rollback_credential (memory_vault b) tool secret repo (e, w) = (Ok d, (e', w)) /\ ge_client e' = ge_client e /\
  rollback_items d = d.
Proof.
  unfold remember_rollback_credential. destruct secret as [s|]; [|by exists [], e]. destruct b; simpl.
  - unfold bind, in_vault. simpl. unfold vault_put.
    by do 2 eexists.
  - by do 2 eexists.
Qed.
Lemma dmem_text k args : dmem k args = bool_decide (is_Some (text k args)).
Proof. unfold dmem, text. by destruct (dget k args). Qed.
Lemma require_None args names :
  require args names = None <-> Forall (fun n => is_Some (dget n args)) names.
Proof.
  unfold require. induction names as [|n names IH]; simpl; [done|]. rewrite Forall_cons. unfold dmem at 1.
  destruct (dget n args) as [v|]; simpl; [|split; [done|intros [[? ?] _]; done]]. rewrite IH. naive_solver.
Qed.
Lemma require_Some_not_ok args names r : require args names = Some r -> ok r = false.
Proof. unfold require. destruct (List.filter _ names); [done|]. by intros [= <-]. Qed.
Lemma str_of_ok k d v (x : GH * WorldState) : text k d = Some v -> str_of k d x = (Ok v, x).
Proof. unfold text, str_of, dget_item, of_res. destruct (dget k d); [|done]. by intros [= <-]. Qed.
Lemma item_ok k d v (x : GH * WorldState) : dget k d = Some v -> of_res (dget_item k d) x = (Ok v, x).
Proof. unfold dget_item, of_res. by intros ->. Qed.
Lemma text_inv k d v : text k d = Some v -> exists x, dget k d = Some x /\ py_str x = v.
Proof. unfold text. destruct (dget k d) as [x|]; [|done]. intros [= <-]. by exists x. Qed.
Lemma text_None k d : text k d = None -> dget k d = None.
Proof. unfold text. by destruct (dget k d). Qed.
Definition others (e : GH) := (gh_issues (ge_client e), gh_prs (ge_client e), gh_comments (ge_client e), gh_pr_idempotency (ge_client e)).

(** The call of the client in an update. *)
Lemma mem_update_run repo path branch content msg sha prev token (c : GhState) :
  let k := (repo, branch, path) in let old := gh_files c !! k in
  exists n l, let c' := with_tokens n l c in
  mem_update_file repo path branch content msg sha prev token c =
    if match sha with Some x => bool_decide (gf_sha <$> old = Some x) | None => true end &&
       match prev with Some x => String.eqb (from_option gf_content "" old) x | None => true end
    then (Ok [("repo", VStr repo); ("path", VStr path); ("branch", VStr branch); ("sha", VStr (content_sha content));
              ("previous", match old with Some f => VDict (file_dict f) | None => VNone end)],
          with_code (written k content c).2 (written k content c).1 c')
    else (Raise (Exn LeosError (if match sha with Some x => bool_decide (gf_sha <$> old = Some x) | None => true end
                                then "expected_previous mismatch" else "expected_sha mismatch")), c').
Proof.
  intros k old. subst old k. unfold mem_update_file, record_token, bind, modify, gets.
  destruct token as [t|]; [exists (accepted_token_count c + 1)%Z, (accepted_token_fingerprints c ++ [token_fingerprint t])
    |exists (accepted_token_count c), (accepted_token_fingerprints c)]; cbn;
    (destruct sha as [x|]; [destruct (bool_decide (gf_sha <$> gh_files c !! (repo, branch, path) = Some x))|]; cbn; try by destruct c);
    (destruct prev as [y|]; [destruct (String.eqb (from_option gf_content "" (gh_files c !! (repo, branch, path))) y)|]; cbn;
     by destruct c).
Qed.
(** The common beginning of an execution. *)
Lemma executing_run {C V} dry args body (x : GhEnv C V * WorldState) :
  executing dry args body x =
    if ok dry then match token_secret args with Ok secret => body secret x | Raise e => (Ok (tool_error e), x) end
    else (Ok dry, x).
Proof. unfold executing. destruct (ok dry); [|done]. simpl. by destruct (token_secret args). Qed.
Lemma update_dry_ok args repo path branch content msg :
  text "repo" args = Some repo -> text "path" args = Some path -> text "branch" args = Some branch ->
  text "content" args = Some content -> text "message" args = Some msg ->
  ok (update_file_dry args) = dmem "expected_sha" args || dmem "expected_previous" args.
Proof.
  intros (? & E1 & _)%text_inv (? & E2 & _)%text_inv (? & E3 & _)%text_inv (? & E4 & _)%text_inv (? & E5 & _)%text_inv.
  unfold update_file_dry. assert (require args ["repo"; "path"; "branch"; "content"; "message"] = None) as ->.
  { apply require_None. rewrite !Forall_cons, E1, E2, E3, E4, E5. by eauto 10. }
  rewrite <-negb_orb. by destruct (_ || _).
Qed.
Lemma dry_missing names args k : k ∈ names -> dget k args = None -> exists r, require args names = Some r /\ ok r = false.
Proof.
  intros Hk Hn. destruct (require args names) as [r|] eqn:E; [exists r; split; [done|by eapply require_Some_not_ok]|].
  apply require_None in E. rewrite Forall_forall in E. destruct (E k Hk) as [? ?]. congruence.
Qed.

(** An update that is wanted, and one that is not. *)
Definition update_token (vr vp vb : pyval) (old : option GhFile) (credential : dict pyval) : dict pyval :=
  [("repo", vr); ("path", vp); ("branch", vb); ("previous", match old with Some f => VDict (file_dict f) | None => VNone end)]
  ++ credential.
Lemma update_wanted_run args e w k content :
  update_wanted args (ge_client e) = Some (k, content) ->
  exists r vr vp vb credential e', update_file_execute InMemoryGitHubClient (memory_vault b) args (e, w) = (Ok r, (e', w)) /\
    ok r = true /\ rollback_token r = Some (update_token vr vp vb (gh_files (ge_client e) !! k) credential) /\
    k = (py_str vr, py_str vb, py_str vp) /\ others e' = others e /\ code e' = written k content (ge_client e).
Proof.
  unfold update_wanted. destruct (text "repo" args) as [repo|] eqn:E1; [|done]. destruct (text "path" args) as [path|] eqn:E2; [|done].
  destruct (text "branch" args) as [branch|] eqn:E3; [|done]. destruct (text "content" args) as [cont|] eqn:E4; [|done].
  destruct (text "message" args) as [msg|] eqn:E5; [|done]. unfold token_fine, guards_hold.
  destruct (token_secret args) as [secret|x] eqn:Et; [|done]. cbn [is_ok andb].
  destruct (dmem "expected_sha" args || dmem "expected_previous" args) eqn:Eg; [|done]. cbn [andb].
  destruct (_ && _) eqn:Eh; [|done]. intros [= <- <-].
  unfold update_file_execute. rewrite executing_run, (update_dry_ok args repo path branch cont msg), Eg, Et by done.
  unfold try_leos, bind. rewrite (str_of_ok _ args _ (e, w) E1), (str_of_ok _ args _ (e, w) E2), (str_of_ok _ args _ (e, w) E3),
    (str_of_ok _ args _ (e, w) E4), (str_of_ok _ args _ (e, w) E5).
  unfold in_client. cbn [gc_update_file InMemoryGitHubClient]. unfold opt_str_of.
  destruct (mem_update_run repo path branch cont msg (text "expected_sha" args) (text "expected_previous" args)
    (token_of secret) (ge_client e)) as (n & l & Hrun). unfold text in Hrun, Eh. rewrite Hrun, Eh.
  destruct (text_inv _ _ _ E1) as (vr & D1 & <-), (text_inv _ _ _ E2) as (vp & D2 & <-), (text_inv _ _ _ E3) as (vb & D3 & <-).
  match goal with |- context [of_res (dget_item "repo" args) ?x] => set (st := x); rewrite (item_ok "repo" args vr st D1),
    (item_ok "path" args vp st D2), (item_ok "branch" args vb st D3) end.
  destruct (remember_credential_ok "github_update_file" secret vr st.1 w) as (d & e' & Hrem & Hcl & _).
  replace st with (st.1, w) by done. rewrite Hrem. exists (observed "Updated GitHub file" "github_file_updated"
    (VDict [("repo", VStr (py_str vr)); ("path", VStr (py_str vp)); ("branch", VStr (py_str vb)); ("sha", VStr (content_sha cont))])
    (Some (update_token vr vp vb (gh_files (ge_client e) !! (py_str vr, py_str vb, py_str vp)) d))), vr, vp, vb, d, e'.
  unfold others, code. rewrite Hcl. by split_and!.
Qed.
Lemma update_unwanted_run args e w :
  update_wanted args (ge_client e) = None ->
  exists r e', update_file_execute InMemoryGitHubClient (memory_vault b) args (e, w) = (Ok r, (e', w)) /\
    ok r = false /\ others e' = others e /\ code e' = code e.
Proof.
  unfold update_wanted, update_file_execute. rewrite executing_run.
  assert (Hmiss : forall k, k ∈ ["repo"; "path"; "branch"; "content"; "message"] -> text k args = None ->
    ok (update_file_dry args) = false).
  { intros k Hk Hn%text_None. destruct (dry_missing _ args k Hk Hn) as (r & Hr & Ho). unfold update_file_dry. by rewrite Hr. }
  destruct (ok (update_file_dry args)) eqn:Ed; [|by exists (update_file_dry args), e].
  destruct (text "repo" args) as [repo|] eqn:E1; [|discriminate (Hmiss "repo" ltac:(set_solver) E1)].
  destruct (text "path" args) as [path|] eqn:E2; [|discriminate (Hmiss "path" ltac:(set_solver) E2)].
  destruct (text "branch" args) as [branch|] eqn:E3; [|discriminate (Hmiss "branch" ltac:(set_solver) E3)].
  destruct (text "content" args) as [cont|] eqn:E4; [|discriminate (Hmiss "content" ltac:(set_solver) E4)].
  destruct (text "message" args) as [msg|] eqn:E5; [|discriminate (Hmiss "message" ltac:(set_solver) E5)]. clear Hmiss.
  rewrite (update_dry_ok args repo path branch cont msg) in Ed by done. unfold guards_hold, token_fine. rewrite Ed.
  destruct (token_secret args) as [secret|x]; [|by exists (tool_error x), e]. cbn [is_ok andb]. destruct (_ && _) eqn:Eh; [done|]. intros _.
  unfold try_leos, bind. rewrite (str_of_ok _ args _ (e, w) E1), (str_of_ok _ args _ (e, w) E2), (str_of_ok _ args _ (e, w) E3),
    (str_of_ok _ args _ (e, w) E4), (str_of_ok _ args _ (e, w) E5).
  unfold in_client. cbn [gc_update_file InMemoryGitHubClient]. unfold opt_str_of.
  destruct (mem_update_run repo path branch cont msg (text "expected_sha" args) (text "expected_previous" args)
    (token_of secret) (ge_client e)) as (n & l & Hrun). unfold text in Hrun, Eh. rewrite Hrun, Eh. by do 2 eexists.
Qed.

(** The update of a file, on every branch.  The file is written exactly when all
    arguments are there, the token is none or a secret, a guard is given,
    and every given guard holds of the file as it is now; then the
    file has the new content and its hash, the branch moves to it, and nothing else
    changes.  Otherwise the result is a failure and the repository is as before.  It
    never raises. *)
Theorem github_update_exact args e w : exists r e',
  execute (GitHubUpdateFileTool InMemoryGitHubClient (memory_vault b)) args (e, w) = (Ok r, (e', w)) /\
  others e' = others e /\
  match update_wanted args (ge_client e) with
  | Some (k, content) => ok r = true /\ code e' = written k content (ge_client e)
  | None => ok r = false /\ code e' = code e
  end.
Proof.
  cbn [execute GitHubUpdateFileTool github_tool]. destruct (update_wanted args (ge_client e)) as [[k content]|] eqn:E.
  - destruct (update_wanted_run args e w k content E) as (r & _ & _ & _ & _ & e' & -> & Ho & _ & _ & ? & ?). by exists r, e'.
  - destruct (update_unwanted_run args e w E) as (r & e' & -> & ? & ? & ?). by exists r, e'.
Qed.

Lemma mem_get_run repo path ref token (c : GhState) : exists n l,
  mem_get_file repo path ref token c =
  (match gh_files c !! (repo, ref, path) with Some f => Ok (file_dict f) | None => Raise (Exn LeosError "GitHub file not found") end,
   with_tokens n l c).
Proof.
  unfold mem_get_file, record_token, bind, modify, gets.
  destruct token as [t|]; [exists (accepted_token_count c + 1)%Z, (accepted_token_fingerprints c ++ [token_fingerprint t])
    |exists (accepted_token_count c), (accepted_token_fingerprints c)]; cbn; by destruct c, (_ !! _).
Qed.
Lemma auth_code tool token e w :
  ge_client (fst (snd (rollback_auth_token (C:=GhState) (memory_vault b) tool token (e, w)))) = ge_client e.
Proof. symmetry. exact (auth_token_keeps (memory_vault b) eq tool token (e, w)). Qed.

(** undoing an update.  However much later the update is rolled back, and whatever
    the file contains by then, the file gets back the content it had
    before the update, provided the kept credential is still available;
    without it nothing changes and the result says so.  A file the update
    created is not removed: that rollback reports success and does nothing. *)
Theorem github_update_undone args e w k content r x token e2 w2 :
  let tool := GitHubUpdateFileTool InMemoryGitHubClient (memory_vault b) in
  update_wanted args (ge_client e) = Some (k, content) ->
  execute tool args (e, w) = (Ok r, x) -> rollback_token r = Some token -> is_Some (gh_files (ge_client e2) !! k) ->
  let '(r2, (e3, w3)) := rollback tool token (e2, w2) in
  match gh_files (ge_client e) !! k, fst (rollback_auth_token (memory_vault b) "github_update_file" token (e2, w2)) with
  | None, _ => r2 = Ok (tool_result true "No previous GitHub file content to restore") /\ code e3 = code e2
  | Some f, Ok (inl _) =>
      r2 = Ok (tool_result true "Restored previous GitHub file content") /\ code e3 = written k (gf_content f) (ge_client e2)
  | Some _, Ok (inr error) => r2 = Ok error /\ code e3 = code e2
  | Some _, Raise x => r2 = Raise x /\ code e3 = code e2
  end.
Proof.
  intros tool Hw Hx Htok [cur Hcur].
  destruct (update_wanted_run args e w k content Hw) as (r' & vr & vp & vb & d & e' & Hrun & _ & Htok' & Hk & _ & _).
  change (execute tool args (e, w)) with (update_file_execute InMemoryGitHubClient (memory_vault b) args (e, w)) in Hx.
  rewrite Hrun in Hx. injection Hx as <- <-. rewrite Htok in Htok'. injection Htok' as ->.
  change (rollback tool) with (update_file_rollback InMemoryGitHubClient (memory_vault b)). unfold update_file_rollback.
  set (old := gh_files (ge_client e) !! k) in *. set (token := update_token vr vp vb old d).
  replace (dget "previous" token) with (Some (match old with Some f => VDict (file_dict f) | None => VNone end)) by done.
  destruct old as [f|]; [|done]. unfold rolling_back, bind at 1.
  pose proof (auth_code "github_update_file" token e2 w2) as Ha.
  destruct (rollback_auth_token (memory_vault b) "github_update_file" token (e2, w2)) as [[[auth|error]|x] [e3 w3]];
    simpl in Ha; cbn [fst]; [|cbn; unfold code; by rewrite Ha..].
  unfold try_leos, bind at 1. rewrite (str_of_ok "repo" token (py_str vr)) by done. unfold bind at 1.
  rewrite (str_of_ok "path" token (py_str vp)) by done. unfold bind at 1. rewrite (str_of_ok "branch" token (py_str vb)) by done.
  unfold bind at 1, in_client at 1. cbn [gc_get_file InMemoryGitHubClient].
  destruct (mem_get_run (py_str vr) (py_str vp) (py_str vb) auth (ge_client e3)) as (n & l & Hget).
  rewrite Hget, Ha. rewrite Hk in Hcur. rewrite Hcur. unfold bind at 1. rewrite (str_of_ok "sha" (file_dict cur) (gf_sha cur)) by done.
  unfold bind at 1, in_client at 1. cbn [gc_update_file InMemoryGitHubClient ge_client with_client].
  match goal with |- context [mem_update_file ?a ?b ?c ?t ?m ?s ?p ?au ?st] =>
    destruct (mem_update_run a b c t m s p au st) as (n' & l' & Hup); rewrite Hup end.
  cbn [gh_files with_tokens]. rewrite Hcur. cbn [fmap option_fmap option_map]. rewrite bool_decide_true by done. cbn [andb].
  unfold code, written. rewrite Hk. done.
Qed.
(** ** Branches *)

Lemma auth_after_remember tool secret repo e w d e' w' token :
  remember_rollback_credential (memory_vault b) tool secret repo (e, w) = (Ok d, (e', w')) ->
  dget "repo" token = Some repo -> dget "auth_handle" token = dget "auth_handle" d ->
  dget "auth_token_id" token = dget "auth_token_id" d -> tool_uuid (c_uuid (ge_clock e)) ∉ v_revoked (ge_vault e) ->
  exists o, fst (rollback_auth_token (memory_vault b) tool token (e', w')) = Ok (inl o).
Proof.
  intros Hr Hrepo H1 H2 Hfresh. unfold rollback_auth_token. rewrite H1, H2. unfold remember_rollback_credential in Hr.
  destruct secret as [s|]; [|injection Hr as <- <- <-; by exists None]. destruct b; simpl in Hr.
  - unfold bind, in_vault in Hr. simpl in Hr. unfold vault_put in Hr. simpl in Hr. injection Hr as <- <- <-. simpl. exists (Some (unwrap s)).
    unfold fetch_credential. rewrite Hrepo. unfold bind, in_vault, handle_from_dict. simpl.
    unfold vault_get, bind, gets. simpl. rewrite lookup_insert_eq, bool_decide_false by done. simpl.
    rewrite String.eqb_refl. simpl. by rewrite lookup_insert_eq.
  - unfold bind, in_vault in Hr. simpl in Hr. injection Hr as <- <- <-. simpl. by eexists.
Qed.
Lemma mem_create_run repo branch base token (c : GhState) : exists n l sha,
  mem_create_branch repo branch base token c =
  (Ok [("repo", VStr repo); ("branch", VStr branch); ("base", VStr base); ("sha", VStr sha)],
   with_code (<[(repo, branch) := sha]> (gh_branches c))
     (copy_files repo branch base (map_to_list (gh_files c)) (gh_files c)) (with_tokens n l c)).
Proof.
  unfold mem_create_branch, record_token, bind, modify, gets.
  destruct token as [t|]; [exists (accepted_token_count c + 1)%Z, (accepted_token_fingerprints c ++ [token_fingerprint t])
    |exists (accepted_token_count c), (accepted_token_fingerprints c)]; eexists; cbn; by destruct c.
Qed.
(** The repository without a branch. *)
Definition without (repo branch : string) (c : GhState) : gmap file_key GhFile * gmap (string * string) string :=
  (filter (fun kv => ~ on_branch repo branch kv.1) (gh_files c), delete (repo, branch) (gh_branches c)).
Lemma mem_delete_run repo branch token (c : GhState) : exists n l, let c' := with_tokens n l c in
  mem_delete_branch repo branch token c =
  if str_mem branch protected_branches
  then (Raise (Exn LeosError ("Refusing to delete protected branch '" +:+ branch +:+ "'")), c')
  else (Ok tt, with_code (without repo branch c).2 (without repo branch c).1 c').
Proof.
  unfold mem_delete_branch, record_token, bind, modify, gets.
  destruct token as [t|]; [exists (accepted_token_count c + 1)%Z, (accepted_token_fingerprints c ++ [token_fingerprint t])
    |exists (accepted_token_count c), (accepted_token_fingerprints c)]; cbn -[protected_branches str_mem];
    destruct (str_mem branch protected_branches); by destruct c.
Qed.
Lemma without_copied repo branch base sha (c : GhState) :
  without repo branch (with_code (<[(repo, branch) := sha]> (gh_branches c))
    (copy_files repo branch base (map_to_list (gh_files c)) (gh_files c)) c) = without repo branch c.
Proof.
  unfold without. cbn. f_equal; [|by rewrite delete_insert_eq].
  apply map_eq. intros k. destruct (decide (on_branch repo branch k)) as [Hk|Hk].
  - trans (@None GhFile); [|symmetry]; apply map_lookup_filter_None_2; right; intros x _ Hn; by apply Hn.
  - rewrite !map_lookup_filter, copy_files_lookup. f_equal. generalize (gh_files c !! k). induction (map_to_list (gh_files c)) as [|[[[r' b'] p] f] l IH]; intros o; simpl; [done|].
    rewrite bool_decide_false; [by rewrite andb_false_r|]. intros <-. by apply Hk.
Qed.
Lemma without_absent repo branch (c : GhState) :
  gh_branches c !! (repo, branch) = None -> (forall p, gh_files c !! (repo, branch, p) = None) ->
  without repo branch c = (gh_files c, gh_branches c).
Proof.
  intros Hb Hf. unfold without. rewrite delete_id by done. f_equal. apply map_filter_id. intros [[r br] p] f Hp [E1 E2].
  simpl in E1, E2. subst. by rewrite Hf in Hp.
Qed.

Lemma reading_dry_ok names msg args : ok (reading_dry names msg args) = true -> Forall (fun n => is_Some (dget n args)) names.
Proof.
  unfold reading_dry. destruct (require args names) as [r|] eqn:E; simpl; [|by intros _; apply require_None].
  apply require_Some_not_ok in E. congruence.
Qed.
Lemma reading_dry_token names msg args token : rollback_token (reading_dry names msg args) <> Some token.
Proof. unfold reading_dry, require. by destruct (List.filter _ names). Qed.

(** Undoing a new branch.  Rolling back the creation of a branch that did not exist
    gives the repository back exactly as it was; more generally the result is the repository
    before the creation less that branch, so a branch that existed already
    is lost with its files.  If its name is protected the rollback fails and
    the branch stays. *)
Theorem github_branch_undone args e w r e1 w1 token repo branch :
  let tool := GitHubCreateBranchTool InMemoryGitHubClient (memory_vault b) in
  execute tool args (e, w) = (Ok r, (e1, w1)) -> rollback_token r = Some token ->
  dget "repo" args = Some (VStr repo) -> dget "branch" args = Some (VStr branch) ->
  tool_uuid (c_uuid (ge_clock e)) ∉ v_revoked (ge_vault e) ->
  let '(r2, (e2, w2)) := rollback tool token (e1, w1) in
  if str_mem branch protected_branches then (exists x, r2 = Ok (tool_error x)) /\ code e2 = code e1
  else r2 = Ok (tool_result true "Deleted GitHub branch") /\ code e2 = without repo branch (ge_client e) /\
       (gh_branches (ge_client e) !! (repo, branch) = None -> (forall p, gh_files (ge_client e) !! (repo, branch, p) = None) ->
        code e2 = code e).
Proof.
  intros tool Hx Htok Hrepo Hbr Hfresh.
  change (execute tool args (e, w)) with (create_branch_execute InMemoryGitHubClient (memory_vault b) args (e, w)) in Hx.
  change (rollback tool token (e1, w1)) with (create_branch_rollback InMemoryGitHubClient (memory_vault b) token (e1, w1)).
  unfold create_branch_execute in Hx. rewrite executing_run in Hx.
  destruct (ok (create_branch_dry args)) eqn:Ed; [|injection Hx as <- <- <-; by apply reading_dry_token in Htok].
  destruct (token_secret args) as [secret|x]; [|by injection Hx as <- <- <-].
  apply reading_dry_ok in Ed. rewrite !Forall_cons in Ed. destruct Ed as (_ & _ & [vbase Hbase] & _).
  unfold try_leos, bind at 1 in Hx. rewrite (str_of_ok "repo" args repo) in Hx by (unfold text; by rewrite Hrepo).
  unfold bind at 1 in Hx. rewrite (str_of_ok "branch" args branch) in Hx by (unfold text; by rewrite Hbr).
  unfold bind at 1 in Hx. rewrite (str_of_ok "base" args (py_str vbase)) in Hx by (unfold text; by rewrite Hbase).
  unfold in_client in Hx. cbn [gc_create_branch InMemoryGitHubClient] in Hx.
  destruct (mem_create_run repo branch (py_str vbase) (token_of secret) (ge_client e)) as (n & l & sha & Hrun). rewrite Hrun in Hx.
  unfold bind at 1 in Hx. rewrite (item_ok "repo" args (VStr repo)) in Hx by done.
  unfold bind at 1 in Hx. rewrite (item_ok "branch" args (VStr branch)) in Hx by done.
  set (c1 := with_code _ _ _) in Hx.
  destruct (remember_credential_ok "github_create_branch" secret (VStr repo) (with_client c1 e) w) as (d & e' & Hrem & Hcl & Hitems).
  unfold bind at 1 in Hx. rewrite Hrem in Hx. injection Hx as <- <- <-.
  assert (token = [("repo", VStr repo); ("branch", VStr branch)] ++ d) as -> by (injection Htok as <-; unfold rollback_items in *; simpl; by rewrite Hitems).
  destruct (auth_after_remember _ _ _ _ _ _ _ _ ([("repo", VStr repo); ("branch", VStr branch)] ++ d) Hrem eq_refl eq_refl eq_refl Hfresh)
    as [auth Hauth].
  unfold create_branch_rollback, rolling_back, bind at 1. set (token := _ ++ d) in *.
  pose proof (auth_code "github_create_branch" token e' w) as Hcode.
  destruct (rollback_auth_token (memory_vault b) "github_create_branch" token (e', w)) as [ra [e2 w2]]. simpl in Hauth, Hcode. subst ra.
  unfold try_leos, bind at 1. rewrite (str_of_ok "repo" token repo) by done. unfold bind at 1. rewrite (str_of_ok "branch" token branch) by done.
  unfold in_client. cbn [gc_delete_branch InMemoryGitHubClient].
  destruct (mem_delete_run repo branch auth (ge_client e2)) as (n2 & l2 & Hdel). cbv zeta in Hdel. rewrite Hdel, Hcode, Hcl.
  cbn [ge_client with_client]. destruct (str_mem branch protected_branches).
  - split; [by eexists|]. unfold code. by rewrite Hcl.
  - assert (Hw : without repo branch c1 = without repo branch (ge_client e)).
    { exact (without_copied repo branch (py_str vbase) sha (ge_client e)). }
    split; [done|]. split; [unfold code; simpl; rewrite <-Hw; done|].
    intros Hb Hf. trans (without repo branch (ge_client e)); [rewrite <-Hw; done|by apply without_absent].
Qed.

(** The branch a cleanup may delete. *)
Definition delete_wanted (args : dict pyval) (c : GhState) : option (string * string) :=
  match text "repo" args, text "branch" args, text "expected_sha" args with
  | Some repo, Some branch, Some sha =>
      if String.prefix "leos/" branch && token_fine args && bool_decide (gh_branches c !! (repo, branch) = Some sha)
      then Some (repo, branch) else None
  | _, _, _ => None
  end.
Lemma mem_get_branch_run repo branch token (c : GhState) : exists n l,
  mem_get_branch repo branch token c =
  (Ok [("repo", VStr repo); ("branch", VStr branch); ("exists", VBool (bool_decide (is_Some (gh_branches c !! (repo, branch)))));
       ("sha", VStr (default "" (gh_branches c !! (repo, branch))))], with_tokens n l c).
Proof.
  unfold mem_get_branch, record_token, bind, modify, gets.
  destruct token as [t|]; [exists (accepted_token_count c + 1)%Z, (accepted_token_fingerprints c ++ [token_fingerprint t])
    |exists (accepted_token_count c), (accepted_token_fingerprints c)]; cbn; by destruct c.
Qed.
Lemma leos_unprotected branch : String.prefix "leos/" branch = true -> str_mem branch protected_branches = false.
Proof.
  intros Hp. apply str_mem_false. intros Hin. unfold protected_branches in Hin.
  repeat (apply elem_of_cons in Hin as [->|Hin]; [done|]). by apply elem_of_nil in Hin.
Qed.

Lemma delete_dry_ok args : ok (delete_branch_dry args) =
  match text "repo" args, text "branch" args, text "expected_sha" args with
  | Some _, Some branch, Some _ => String.prefix "leos/" branch | _, _, _ => false end.
Proof.
  unfold delete_branch_dry. destruct (require args ["repo"; "branch"; "expected_sha"]) as [r|] eqn:E.
  - rewrite (require_Some_not_ok _ _ _ E). destruct (text "repo" args) as [?|] eqn:E1; [|done].
    destruct (text "branch" args) as [?|] eqn:E2; [|done]. destruct (text "expected_sha" args) as [?|] eqn:E3; [|done].
    assert (Hn : require args ["repo"; "branch"; "expected_sha"] = None); [|congruence]. apply require_None.
    apply text_inv in E1 as (? & D1 & _), E2 as (? & D2 & _), E3 as (? & D3 & _). rewrite !Forall_cons, D1, D2, D3. by eauto 10.
  - apply require_None in E. rewrite !Forall_cons in E. destruct E as ([? D1] & [vb D2] & [? D3] & _).
    unfold text. rewrite D1, D2, D3. simpl. by destruct (String.prefix "leos/" (py_str vb)).
Qed.

Lemma entry_str k s d x : dget k d = Some (VStr x) -> entry_is k s d = String.eqb x s.
Proof. unfold entry_is. by intros ->. Qed.
Lemma entry_flag k d x : dget k d = Some (VBool x) -> truthy (default VNone (dget k d)) = x.
Proof. by intros ->. Qed.

(** Cleanup is bounded.  The tool deletes a branch exactly when all arguments are there, its
    name begins with leos/, the token is none or a secret, and the branch
    exists at the expected commit; then this branch and its files are gone and nothing
    else changes.  In every other case the result is a failure and the repository is
    as before.  It never raises. *)
Theorem github_delete_bounded args e w : exists r e',
  execute (GitHubDeleteBranchTool (V:=Vault) InMemoryGitHubClient) args (e, w) = (Ok r, (e', w)) /\
  others e' = others e /\
  match delete_wanted args (ge_client e) with
  | Some (repo, branch) => ok r = true /\ code e' = without repo branch (ge_client e)
  | None => ok r = false /\ code e' = code e
  end.
Proof.
  change (execute _ args (e, w)) with (delete_branch_execute (V:=Vault) InMemoryGitHubClient args (e, w)).
  unfold delete_branch_execute. rewrite executing_run. unfold delete_wanted.
  rewrite delete_dry_ok. destruct (text "repo" args) as [repo|] eqn:E1; [|by exists (delete_branch_dry args), e; rewrite delete_dry_ok, E1].
  destruct (text "branch" args) as [branch|] eqn:E2; [|by exists (delete_branch_dry args), e; rewrite delete_dry_ok, E1, E2].
  destruct (text "expected_sha" args) as [sha|] eqn:E3; [|by exists (delete_branch_dry args), e; rewrite delete_dry_ok, E1, E2, E3].
  destruct (String.prefix "leos/" branch) eqn:Ep; cbn [andb]; [|by exists (delete_branch_dry args), e; rewrite delete_dry_ok, E1, E2, E3].
  unfold token_fine. destruct (token_secret args) as [secret|x]; [|by exists (tool_error x), e]. cbn [is_ok andb].
  unfold bind at 1. rewrite (str_of_ok _ args _ (e, w) E1). unfold bind at 1. rewrite (str_of_ok _ args _ (e, w) E2).
  unfold bind at 1. rewrite (str_of_ok _ args _ (e, w) E3). unfold try_leos, bind at 1, in_client at 1. cbn [gc_get_branch InMemoryGitHubClient].
  destruct (mem_get_branch_run repo branch (token_of secret) (ge_client e)) as (n & l & Hget). rewrite Hget.
  set (found := gh_branches (ge_client e) !! (repo, branch)) in *.
  match goal with |- context [entry_is "sha" sha ?d] => rewrite (entry_str "sha" sha d (default "" found)) by done;
    rewrite (entry_flag "exists" d (bool_decide (is_Some found))) by done end.
  destruct found as [x|] eqn:Ef; cbn [default id]; [|rewrite bool_decide_false by (by intros [? ?]); by do 2 eexists].
  rewrite bool_decide_true by done. destruct (String.eqb_spec x sha) as [->|Hne]; cbn [negb orb];
    [|rewrite bool_decide_false by congruence; by do 2 eexists].
  rewrite bool_decide_true by done. unfold bind at 1, in_client at 1. cbn [gc_delete_branch InMemoryGitHubClient].
  match goal with |- context [mem_delete_branch repo branch ?t ?c] => destruct (mem_delete_run repo branch t c) as (n2 & l2 & Hdel) end.
  cbv zeta in Hdel. rewrite Hdel, leos_unprotected by done. unfold bind at 1, in_client at 1. cbn [gc_get_branch InMemoryGitHubClient].
  match goal with |- context [mem_get_branch repo branch ?t ?c] => destruct (mem_get_branch_run repo branch t c) as (n3 & l3 & Hget2) end.
  rewrite Hget2. match goal with |- context [gh_branches ?c !! (repo, branch)] => assert (Hgone : gh_branches c !! (repo, branch) = None) end.
  { simpl. by rewrite lookup_delete_eq. }
  rewrite Hgone. match goal with |- context [dget "exists" ?d] => rewrite (entry_flag "exists" d false) by done end.
  do 2 eexists. split; [reflexivity|]. done.
Qed.
End exact.

(** ** A repository, and a plan that fails after two changes *)

Definition toy_repo : GhState :=
  seed_file "leos" "leos/old" "notes.txt" "draft" (seed_file "leos" "main" "README.md" "hello" empty_github).
Definition toy_gh : GH := {| ge_client := toy_repo; ge_vault := empty_vault; ge_clock := clock0; ge_tokens := ∅ |}.
Definition registry_of {X} (l : list (Tool X)) : ToolRegistry X := map (fun t => (name (spec t), t)) l.
Lemma registry_of_in {X} (l : list (Tool X)) n t : registry_get n (registry_of l) = Ok t -> t ∈ l.
Proof.
  unfold registry_get, registry_of. destruct (dget n _) as [u|] eqn:E; [|done]. intros [= ->]. apply dget_In in E.
  apply list_elem_of_In in E. apply list_elem_of_fmap in E as (x & [= _ ->] & Hx). done.
Qed.
Definition gh_tools : list (Tool GH) := github_tools InMemoryGitHubClient (memory_vault true).
Definition gh_manager : TransactionManager GH unit := {|
  tm_registry := registry_of gh_tools; tm_policy := developer_engine; tm_causal := []; tm_gate := yes_gate;
  tm_allow_network_tools := true; tm_sandbox_runners := [] |}.
Definition gh_token : string * pyval := ("token", VSecret 1 "ghp_secret").
Definition gh_step (n : nat) (tool : string) (args : dict pyval) : ActionStep :=
  new_step tool (args ++ [gh_token]) "because" ("step-" +:+ str_Z (Z.of_nat n)).
Definition gh_plan_steps : list ActionStep :=
  [gh_step 0 "github_create_branch" [("repo", VStr "leos"); ("branch", VStr "leos/fix"); ("base", VStr "main")];
   gh_step 1 "github_update_file" [("repo", VStr "leos"); ("path", VStr "README.md"); ("branch", VStr "leos/fix");
     ("content", VStr "hello world"); ("message", VStr "more"); ("expected_previous", VStr "hello")];
   gh_step 2 "github_update_file" [("repo", VStr "leos"); ("path", VStr "README.md"); ("branch", VStr "leos/fix");
     ("content", VStr "again"); ("message", VStr "conflict"); ("expected_previous", VStr "hello")]].
Definition gh_state (steps : list ActionStep) : TState GH unit := {|
  t_sys := sys0; t_env := toy_gh; t_world := empty_world; t_heap := steps; t_plan := toy_plan steps;
  t_uses := fun _ => 0%Z; t_gate := tt; t_stack := []; t_calls := [] |}.
Definition gh_run : res exn unit * TState GH unit := execute_plan gh_manager (gh_state gh_plan_steps).
(** The stale guard of the third step fails it; the branch and its change are undone. *)
Example gh_run_undone :
  (fst gh_run, step_statuses (snd gh_run), bool_decide (code (t_env (snd gh_run)) = code toy_gh)) =
  (Ok tt, [ROLLED_BACK; ROLLED_BACK; FAILED], true).
Proof. vm_compute. reflexivity. Qed.

Definition args_with (secret : string) : dict pyval :=
  [("repo", VStr "leos"); ("branch", VStr "leos/fix"); ("base", VStr "main"); ("token", VSecret 1 secret)].
Lemma same_but_tokens_refl e : same_but_tokens e e.
Proof.
  split; [|by split|done]. exists (accepted_token_fingerprints (ge_client e)). split; [by destruct (ge_client e)|done].
Qed.
Lemma args_with_same s1 s2 : same_args (args_with s1) (args_with s2).
Proof.
  split; [|done]. intros k Hk. cbn. destruct (String.eqb k "repo"); [done|]. destruct (String.eqb k "branch"); [done|].
  destruct (String.eqb k "base"); [done|]. by rewrite (proj2 (String.eqb_neq k "token") Hk).
Qed.
Definition update_args (content : string) : dict pyval :=
  [("repo", VStr "leos"); ("path", VStr "README.md"); ("branch", VStr "main"); ("content", VStr content); ("message", VStr "edit");
   ("expected_previous", VStr "hello"); gh_token].
Definition update_tool : Tool GH := GitHubUpdateFileTool InMemoryGitHubClient (memory_vault true).
Definition updated_run := execute update_tool (update_args "hello world") (toy_gh, empty_world).
Definition updated_token : dict pyval :=
  match fst updated_run with Ok r => default [] (rollback_token r) | Raise _ => [] end.
Definition updated_result : ToolResult := match fst updated_run with Ok r => r | Raise _ => tool_result false "" end.
Lemma updated_run_eq : updated_run = (Ok updated_result, snd updated_run) /\ rollback_token updated_result = Some updated_token.
Proof. vm_compute. done. Qed.
Definition undone_run := rollback update_tool updated_token (fst (snd updated_run), empty_world).
Lemma github_update_undone_witness :
  gf_content <$> (fst (code (fst (snd updated_run))) !! ("leos", "main", "README.md")) = Some "hello world" /\
  fst undone_run = Ok (tool_result true "Restored previous GitHub file content") /\
  gf_content <$> (fst (code (fst (snd undone_run))) !! ("leos", "main", "README.md")) = Some "hello".
Proof.
  split; [vm_compute; reflexivity|].
  pose proof (github_update_undone true (update_args "hello world") toy_gh empty_world ("leos", "main", "README.md") "hello world"
    updated_result (snd updated_run) updated_token (fst (snd updated_run)) empty_world) as Hx. cbv zeta in Hx.
  destruct updated_run_eq as [E1 E2]. specialize (Hx ltac:(vm_compute; reflexivity) E1 E2 ltac:(by vm_compute; eexists)).
  fold update_tool in Hx. fold undone_run in Hx. destruct undone_run as [r2 [e3 w3]] eqn:Eu.
  assert (Eold : gh_files (ge_client toy_gh) !! ("leos", "main", "README.md") =
    Some {| gf_path := "README.md"; gf_content := "hello"; gf_sha := content_sha "hello" |}) by (vm_compute; reflexivity).
  rewrite Eold in Hx.
  assert (Ea : exists o, fst (rollback_auth_token (C:=GhState) (memory_vault true) "github_update_file" updated_token
    (fst (snd updated_run), empty_world)) = Ok (inl o)) by (eexists; vm_compute; reflexivity).
  destruct Ea as [o Ea]. rewrite Ea in Hx. destruct Hx as [-> Hc]. split; [done|]. cbn [fst snd]. rewrite Hc. vm_compute. reflexivity.
Defined.
Definition branch_tool : Tool GH := GitHubCreateBranchTool InMemoryGitHubClient (memory_vault true).
Definition branch_run (branch : string) := execute branch_tool
  [("repo", VStr "leos"); ("branch", VStr branch); ("base", VStr "main"); gh_token] (toy_gh, empty_world).
Definition branch_result (branch : string) : ToolResult :=
  match fst (branch_run branch) with Ok r => r | Raise _ => tool_result false "" end.
Definition branch_token (branch : string) : dict pyval := default [] (rollback_token (branch_result branch)).
(** A new branch is undone; an existing one is lost. *)
Lemma github_branch_undone_witness :
  code (fst (snd (rollback branch_tool (branch_token "leos/fix") (snd (branch_run "leos/fix"))))) = code toy_gh /\
  fst (code (fst (snd (rollback branch_tool (branch_token "leos/old") (snd (branch_run "leos/old")))))) !! ("leos", "leos/old", "notes.txt") = None /\
  is_Some (fst (code toy_gh) !! ("leos", "leos/old", "notes.txt")).
Proof.
  split; [|split; [vm_compute; reflexivity|by vm_compute; eexists]].
  pose proof (github_branch_undone true [("repo", VStr "leos"); ("branch", VStr "leos/fix"); ("base", VStr "main"); gh_token] toy_gh
    empty_world (branch_result "leos/fix") (fst (snd (branch_run "leos/fix"))) (snd (snd (branch_run "leos/fix")))
    (branch_token "leos/fix") "leos" "leos/fix") as Hx. cbv zeta in Hx.
  specialize (Hx ltac:(vm_compute; reflexivity) ltac:(vm_compute; reflexivity) eq_refl eq_refl ltac:(apply not_elem_of_empty)).
  fold branch_tool in Hx. change (fst (snd (branch_run "leos/fix")), snd (snd (branch_run "leos/fix"))) with
    (let x := snd (branch_run "leos/fix") in (fst x, snd x)) in Hx. cbv zeta in Hx. rewrite <-surjective_pairing in Hx.
  destruct (rollback branch_tool (branch_token "leos/fix") (snd (branch_run "leos/fix"))) as [r2 [e2 w2]].
  destruct Hx as (_ & _ & Hx). apply Hx; [vm_compute; reflexivity|]. intros p. simpl.
  unfold toy_repo, seed_file. simpl. rewrite !lookup_insert_ne by (by intros [=]). apply lookup_empty.
Defined.
