(* ===== verification/RestProps.v ===== *)
(** Properties of the GitHub REST client: what it may send, and the encoding of file contents. *)
From S2P Require Import Prelude Enums PyValue FileSystem PyText Sanitization Goals Plans Tools AuditTrail Causal Egress Policy Approval Gates Credentials GitHubClient GitHubRest GitHubTools Transactions Fixtures TxInvariants TxEnv GitHubTheory VaultProps.


(** The operations with their arguments. *)
Inductive rest_call : Type :=
| ReadIssue (repo : string) (n : Z)
| RepositoryInfo (repo : string)
| GetBranch (repo branch : string)
| GetPr (repo : string) (n : Z)
| CreateBranch (repo branch base : string)
| DeleteBranch (repo branch : string)
| GetFile (repo path ref : string)
| UpdateFile (repo path branch content message : string) (expected_sha expected_previous : option string)
| OpenPr (repo title text head base : string) (key : option string)
| ClosePr (repo : string) (n : Z)
| Comment (repo : string) (n : Z) (text : string)
| DeleteComment (repo : string) (id : Z)
| CiStatus (repo ref : string).
Definition call_repo (cl : rest_call) : string :=
  match cl with
  | ReadIssue r _ | RepositoryInfo r | GetBranch r _ | GetPr r _ | CreateBranch r _ _ | DeleteBranch r _
  | GetFile r _ _ | UpdateFile r _ _ _ _ _ _ | OpenPr r _ _ _ _ _ | ClosePr r _ | Comment r _ _ | DeleteComment r _
  | CiStatus r _ => r
  end.
(** The methods a call may use. *)
Definition call_methods (cl : rest_call) : list string :=
  match cl with
  | ReadIssue _ _ | RepositoryInfo _ | GetBranch _ _ | GetPr _ _ | GetFile _ _ _ | CiStatus _ _ => ["GET"]
  | CreateBranch _ branch base => if unsafe_name branch || unsafe_name base then [] else ["GET"; "POST"]
  | DeleteBranch _ branch => if unsafe_name branch || str_mem branch PROTECTED_BRANCHES then [] else ["DELETE"]
  | UpdateFile _ _ _ _ _ es ep =>
      match es, ep with None, None => [] | _, None => ["PUT"] | _, Some _ => ["GET"; "PUT"] end
  | OpenPr _ _ _ _ _ key => match GitHubRest.idempotency_marker key with Some _ => ["GET"; "POST"] | None => ["POST"] end
  | ClosePr _ _ => ["PATCH"]
  | Comment _ _ _ => ["POST"]
  | DeleteComment _ _ => ["DELETE"]
  end.
(** A path segment in which nothing is a separator. *)
Definition segment (s : string) : bool := all_chars (fun c => always_safe c || Ascii.eqb c "%") s.

Section rest.
Context `{PyRuntime} `{JsonText} (hostname : string -> option string) {C : Type} `{GitHubTransport C}.
Context (c : GitHubRESTClient).

Definition run_call (cl : rest_call) (token : option string) : RM C unit :=
  let run {A} (m : RM C A) := let! _ := m in ret tt in
  match cl with
  | ReadIssue r n => run (rest_read_issue hostname c r n token)
  | RepositoryInfo r => run (rest_repository_info hostname c r token)
  | GetBranch r b => run (rest_get_branch hostname c r b token)
  | GetPr r n => run (rest_get_pr hostname c r n token)
  | CreateBranch r b x => run (rest_create_branch hostname c r b x token)
  | DeleteBranch r b => run (rest_delete_branch hostname c r b token)
  | GetFile r p x => run (rest_get_file hostname c r p x token)
  | UpdateFile r p b x m es ep => run (rest_update_file hostname c r p b x m es ep token)
  | OpenPr r t x h b k => run (rest_open_pr hostname c r t x h b k token)
  | ClosePr r n => run (rest_close_pr hostname c r n token)
  | Comment r n x => run (rest_comment hostname c r n x token)
  | DeleteComment r n => run (rest_delete_comment hostname c r n token)
  | CiStatus r x => run (rest_ci_status hostname c r x token)
  end.
(** Not the deletion of a protected branch. *)
Definition unprotected (method rest : string) : Prop :=
  method = "DELETE" -> forall b, b ∈ PROTECTED_BRANCHES -> rest <> "/git/refs/heads/" +:+ b.
(** A request the call [cl] may send. *)
Record may_send (cl : rest_call) (token : option string) (rq : HTTPRequest) : Prop := {
  ms_guard : enforce_egress c = true -> red_allowed (check_url hostname (egress_guard c) (rq_url rq) (rq_method rq)) = true;
  ms_url : exists owner nm rest, parse_repo (call_repo cl) = Ok (owner, nm) /\ segment owner = true /\ segment nm = true /\
             rq_url rq = base_url c +:+ repos owner nm rest /\ unprotected (rq_method rq) rest;
  ms_method : rq_method rq ∈ call_methods cl;
  ms_token : dget "Authorization" (rq_headers rq) = (fun t => "Bearer " +:+ t) <$> token;
}.

Lemma percent_segment x : segment (percent x) = true.
Proof. destruct x as [[] [] [] [] [] [] [] []]; vm_compute; reflexivity. Qed.
Lemma segment_app a b : segment (a +:+ b) = segment a && segment b.
Proof. unfold segment. induction a as [|x a IH]; simpl; [done|]. by rewrite IH, andb_assoc. Qed.
Lemma quote_segment s : segment (quote (fun _ => false) s) = true.
Proof.
  unfold quote. induction s as [|x s IH]; [done|]. simpl. rewrite segment_app, IH, andb_true_r.
  unfold quote_char. rewrite orb_false_r. destruct (always_safe x) eqn:E; [|apply percent_segment].
  unfold segment. simpl. by rewrite E.
Qed.
(** Quoting does not make a protected name of another one. *)
Lemma quote_plain x b : all_chars (fun a => negb (Ascii.eqb a "%")) b = true -> quote_path x = b -> x = b.
Proof.
  intros Hb <-. revert Hb. unfold quote_path, quote. induction x as [|a x IH]; [done|]. cbn [string_flat_map].
  unfold quote_char at 1 3. destruct (always_safe a || Ascii.eqb "/" a); [|intros Hp; discriminate Hp].
  cbn [String.append all_chars]. intros [_ Hb]%andb_true_iff. f_equal. by apply IH.
Qed.
Lemma parse_repo_segments repo owner nm : parse_repo repo = Ok (owner, nm) -> segment owner = true /\ segment nm = true.
Proof.
  unfold parse_repo. repeat case_match; try done. intros [= <- <-]. split; apply quote_segment.
Qed.

Context (R : relation C) `{!PreOrder R}.
Lemma guard_keeps rq : keeps R (guard_request hostname c rq).
Proof. unfold guard_request. repeat case_match; keeps_auto. Qed.
Lemma get_of_keeps k d v : keeps R (get_of (C:=C) k d v).
Proof. unfold get_of. case_match; keeps_auto. Qed.
Lemma object_sha_keeps d v : keeps R (object_sha (C:=C) d v).
Proof. unfold object_sha. keeps_auto; apply get_of_keeps. Qed.
Lemma py_call_keeps {A} (r : res exn A) : keeps R (py_call (C:=C) r).
Proof. unfold py_call. case_match; keeps_auto. Qed.
Lemma pr_payload_keeps repo v k b : keeps R (pr_payload (C:=C) repo v k b).
Proof. unfold pr_payload. keeps_auto; apply get_of_keeps. Qed.

Context (cl : rest_call) (token : option string).
Hypothesis Hsend : forall rq, may_send cl token rq -> keeps R (transport_request rq).
Lemma request_keeps method owner nm rest jb :
  parse_repo (call_repo cl) = Ok (owner, nm) -> unprotected method rest -> method ∈ call_methods cl ->
  keeps R (request_json hostname c method (repos owner nm rest) token jb).
Proof.
  intros Hr Hu Hm s. unfold request_json, bind, guard_request.
  set (rq := make_request c method (repos owner nm rest) token jb).
  assert (Hms : (enforce_egress c = true -> red_allowed (check_url hostname (egress_guard c) (rq_url rq) (rq_method rq)) = true) ->
    may_send cl token rq).
  { intros Hg. destruct (parse_repo_segments _ _ _ Hr). split; [done|by exists owner, nm, rest|done|].
    unfold rq, make_request. destruct jb, token; reflexivity. }
  assert (Hk : may_send cl token rq -> R s (snd (match transport_request rq s with
    | (Ok r, s') => of_res (parse_response r token) s' | (Raise e, s') => (Raise e, s') end))).
  { intros Hrq. specialize (Hsend _ Hrq s). by destruct (transport_request rq s) as [[] ?]. }
  destruct (enforce_egress c) eqn:Ee; [|by apply Hk, Hms].
  unfold require_url. destruct (red_allowed _) eqn:Ea; simpl; [by apply Hk, Hms|done].
Qed.

Lemma keeps_of_res_bind {A B} (r : res api_error A) (f : A -> RM C B) :
  (forall a, r = Ok a -> keeps R (f a)) -> keeps R (bind (of_res r) f).
Proof. intros Hf s. unfold bind, of_res. destruct r as [a|e]; [by apply Hf|done]. Qed.
Ltac rest_step :=
  match goal with
  | |- keeps _ (bind (of_res _) _) => apply keeps_of_res_bind; intros ? ?
  | |- keeps _ (bind _ _) => apply keeps_bind; [done| |intros ?]
  | |- keeps _ (catch _ _) => apply keeps_catch; [done| |intros ?]
  | |- keeps _ (ret _) => by apply keeps_ret
  | |- keeps _ (raise _) => by apply keeps_raise
  | |- keeps _ (get_of _ _ _) => apply get_of_keeps
  | |- keeps _ (object_sha _ _) => apply object_sha_keeps
  | |- keeps _ (py_call _) => apply py_call_keeps
  | |- keeps _ (pr_payload _ _ _ _) => apply pr_payload_keeps
  | |- keeps _ (ignore_missing _) => unfold ignore_missing
  | |- keeps _ (request_json _ _ _ _ _ _) => eapply request_keeps; [eassumption|try done|]
  | a : (string * string)%type |- _ => destruct a
  | |- keeps _ (match ?x with _ => _ end) => let E := fresh "E" in destruct x eqn:E
  end.
Ltac rest_auto := repeat rest_step.
Lemma get_file_keeps p ref : "GET" ∈ call_methods cl -> keeps R (rest_get_file hostname c (call_repo cl) p ref token).
Proof. intros Hm. unfold rest_get_file, contents. by rest_auto. Qed.
Lemma check_previous_keeps p branch es ep :
  (ep <> None -> "GET" ∈ call_methods cl) -> keeps R (check_previous hostname c (call_repo cl) p branch es ep token).
Proof. intros Hm. unfold check_previous. destruct ep as [w|]; rest_auto; try (apply get_file_keeps; by apply Hm). Qed.

(** The REST client only sends the requests its operations stand for.  Whatever an operation does to the
    remote side is the effect of requests which, when egress is enforced, pass the runtime guard for exactly
    their URL and method; go to the repository named in the call, under the configured base URL, with an owner
    and a name that contain no separator; use only the methods of the operation - GET for every read, nothing
    at all for deleting a protected branch or for an update without an optimistic guard; and carry the
    call's own token or none. *)
Lemma rest_call_keeps : keeps R (run_call cl token).
Proof.
  assert (exists x, x = cl) as [x Ecl] by eauto. rewrite <-Ecl.
  destruct x as [r n|r|r b|r n|r b x|r b|r p x|r p b x m es ep|r t x h b k|r n|r n x|r n|r x]; unfold run_call;
    (apply keeps_bind; [done| |intros ?; by apply keeps_ret]);
    pose proof (f_equal call_repo Ecl) as Hrepo; pose proof (f_equal call_methods Ecl) as Hmeth;
    cbn [call_repo call_methods] in Hrepo, Hmeth; subst r.
  - unfold rest_read_issue. rest_auto. rewrite <-Hmeth. set_solver.
  - unfold rest_repository_info. rest_auto. rewrite <-Hmeth. set_solver.
  - unfold rest_get_branch, branch_ref. rest_auto. rewrite <-Hmeth. set_solver.
  - unfold rest_get_pr. rest_auto. rewrite <-Hmeth. set_solver.
  - unfold rest_create_branch, branch_ref, validate_branch. rest_auto;
      (destruct (unsafe_name b); [done|]); (destruct (unsafe_name x); [done|]); rewrite <-Hmeth; set_solver.
  - unfold rest_delete_branch, validate_branch. rest_auto.
    + intros _ pb Hpb Heq. apply str_mem_false in E. apply E.
      assert (Hq : quote_path b = pb) by (by injection Heq). apply quote_plain in Hq; [by subst|]. clear Heq Hq.
      revert pb Hpb. apply Forall_forall. by repeat constructor.
    + rewrite <-Hmeth. destruct (unsafe_name b); [done|]. set_solver.
  - apply get_file_keeps. rewrite <-Hmeth. set_solver.
  - unfold rest_update_file, contents. rest_auto; try (apply check_previous_keeps; intros ?); rewrite <-Hmeth;
      destruct es, ep; first [congruence|set_solver].
  - unfold rest_open_pr, find_existing. rest_auto; rewrite <-Hmeth;
      destruct (GitHubRest.idempotency_marker k) eqn:Ek; first [congruence|set_solver].
  - unfold rest_close_pr. rest_auto. rewrite <-Hmeth. set_solver.
  - unfold rest_comment. rest_auto. rewrite <-Hmeth. set_solver.
  - unfold rest_delete_comment. rest_auto. rewrite <-Hmeth. set_solver.
  - unfold rest_ci_status. rest_auto. rewrite <-Hmeth. set_solver.
Qed.
End rest.

(** What [update_file] sends is what [get_file] reads.  The content written into the request body decodes to the
    same text when the server returns it, also when the server breaks the base64 text into lines; and a text
    that is no UTF-8 is reported as an error, never returned. *)
Theorem file_content_roundtrip content lines :
  str_replace LF_str "" lines = b64encode content ->
  decode_content lines = if utf8_valid content then Ok content
                         else Raise (api_plain GitHubAPIError "GitHub file content could not be decoded as UTF-8").
Proof. intros Hl. unfold decode_content. by rewrite Hl, b64_roundtrip. Qed.
Lemma file_content_roundtrip_witness :
  decode_content ("TGVvcyBl" +:+ LF_str +:+ "ZGl0cwo=" +:+ LF_str) = Ok ("Leos edits" +:+ LF_str).
Proof. rewrite (file_content_roundtrip ("Leos edits" +:+ LF_str)); vm_compute; reflexivity. Defined.

(** ** At a recording transport *)

(** A server that answers every request with an empty object and keeps what it got. *)
#[export] Instance recorder : GitHubTransport (list HTTPRequest) := {|
  transport_request := fun rq log => (Ok {| status_code := 200; body := ""; headers := [] |}, log ++ [rq]) |}.
Definition toy_hostname (url : string) : option string :=
  if String.prefix "https://api.github.com/" url then Some "api.github.com" else None.
Definition toy_rest : GitHubRESTClient :=
  rest_client_new "https://api.github.com/" fone "leos" (Some {| allowed_hosts := ["api.github.com"];
    allowed_methods := ["GET"; "PUT"]; max_requests := None |}) true None.
#[local] Instance no_json : JsonText := {| json_loads := fun _ => inl "Expecting value: line 1 column 1 (char 0)" |}.
Lemma rest_update_requests :
  let call := UpdateFile "acme/web" "README.md" "leos/fix" "new" "Fix" (Some "abc") None in
  let sent := snd (run_call toy_hostname toy_rest call (Some "tok") []) in
  length sent = 1%nat /\ Forall (may_send toy_hostname toy_rest call (Some "tok")) sent.
Proof.
  intros call sent. split; [vm_compute; reflexivity|].
  assert (only_adds (may_send toy_hostname toy_rest call (Some "tok")) [] sent) as (rqs & E & Hall).
  { apply (rest_call_keeps toy_hostname toy_rest (only_adds (may_send toy_hostname toy_rest call (Some "tok"))) call).
    intros rq Hrq l. exists [rq]. split; [reflexivity|]. by constructor. }
  rewrite E. exact Hall.
Defined.
(** A method outside the allow-list and a protected branch: nothing is sent. *)
Example guarded_calls :
  (map (fun call => length (snd (run_call toy_hostname toy_rest call None [])))
     [DeleteBranch "acme/web" "main"; DeleteBranch "acme/web" "leos/fix"; Comment "acme/web" 1 "hi"; ReadIssue "acme/web" 1;
      ReadIssue "acme/web/x" 1]) = [0; 0; 0; 1; 0]%nat.
Proof. vm_compute. reflexivity. Qed.

(** The token is looked for only after the body was cut, so a part of a token across the cut survives. *)
Fixpoint repeat_char (c : ascii) (n : nat) : string := match n with O => "" | S n' => String c (repeat_char c n') end.
Example token_across_the_cut :
  let reply := repeat_char "x" 502 +:+ "ghs_0123456789abcdef" in
  str_in "ghs_012345" (body_preview reply (Some "ghs_0123456789abcdef")) = true.
Proof. vm_compute. reflexivity. Qed.

(** * Plans over the GitHub REST client: what a whole run of the transaction manager may send. *)


Section plans.
Context `{PyRuntime} `{JsonText} (hostname : string -> option string) {C : Type} `{GitHubTransport C} (c : GitHubRESTClient).
Context (R : relation C) `{!PreOrder R}.
(** A request that some operation may send, with some token. *)
Definition permitted (rq : HTTPRequest) : Prop := exists cl token, may_send hostname c cl token rq.
Context (Hsend : forall rq, permitted rq -> keeps R (transport_request rq)).

Lemma call_keeps cl token : keeps R (run_call hostname c cl token).
Proof. apply rest_call_keeps; [done|]. intros rq Hrq. apply Hsend. by exists cl, token. Qed.
(** A call and the operation it stands for have the same effect. *)
Lemma ran_keeps {A} (m : RM C A) : keeps R (let! _ := m in ret tt) -> keeps R (at_boundary m).
Proof. intros Hm s. specialize (Hm s). unfold at_boundary. unfold bind in Hm. by destruct (m s) as [[a|e] s']. Qed.
Lemma rest_client_keeps : client_keeps R (rest_client hostname c).
Proof.
  split; intros; apply ran_keeps.
  - apply (call_keeps (ReadIssue _ _)).
  - apply (call_keeps (RepositoryInfo _)).
  - apply (call_keeps (GetBranch _ _)).
  - apply (call_keeps (GetPr _ _)).
  - apply (call_keeps (CreateBranch _ _ _)).
  - apply (call_keeps (DeleteBranch _ _)).
  - apply (call_keeps (GetFile _ _ _)).
  - apply (call_keeps (UpdateFile _ _ _ _ _ _ _)).
  - apply (call_keeps (OpenPr _ _ _ _ _ _)).
  - apply (call_keeps (ClosePr _ _)).
  - apply (call_keeps (Comment _ _ _)).
  - apply (call_keeps (DeleteComment _ _)).
  - apply (call_keeps (CiStatus _ _)).
Qed.

(** C17: A plan over GitHub sends nothing but permitted requests.  Whatever the plan, the policy, the gate and the
    failures are, and whatever the server answers: when the registered tools are the GitHub tools over the REST
    client, everything a run of the transaction manager does to the remote side, rollbacks included, is the effect
    of requests that one of the client's operations may send - past the runtime egress guard for their URL and method when
    egress is enforced, under the configured base URL and a repository path, with a method of that operation. *)
Theorem github_plan_requests_guarded `{JsonSchemaValidator} `{ToolPlatform} {V G : Type}
    (tm : TransactionManager (GhEnv C V) G) (vault : option (CredentialVault V)) s :
  (forall n t, registry_get n (tm_registry tm) = Ok t -> t ∈ github_tools (rest_client hostname c) vault) ->
  R (ge_client (t_env s)) (ge_client (t_env (snd (execute_plan tm s)))).
Proof.
  intros Hreg. apply (execute_plan_env tm (client_rel R) (fun _ => True) (fun _ _ => True)); [done| |done].
  intros n t Ht. pose proof (github_tools_keep (rest_client hostname c) vault R rest_client_keeps) as Hall.
  rewrite Forall_forall in Hall. by eapply Hall, Hreg.
Qed.
End plans.

(** ** A plan against a recording server *)

(** The documents a server answers with, by name. *)
#[local] Instance server_json : JsonText := {| json_loads s :=
  if String.eqb s "ref" then inr (VDict [("object", VDict [("sha", VStr "c0ffee")])])
  else if String.eqb s "file" then inr (VDict [("content", VStr (b64encode "hello")); ("encoding", VStr "base64"); ("sha", VStr "f11e")])
  else inl "Expecting value: line 1 column 1 (char 0)" |}.
(** It keeps what it gets; a closed pull request is not found. *)
#[local] Instance server : GitHubTransport (list HTTPRequest) := {| transport_request rq log :=
  let reply n text := Ok {| status_code := n; body := text; headers := [] |} in
  (if String.eqb (rq_method rq) "PATCH" then reply 404%Z ""
   else if str_in "?ref=" (rq_url rq) || ends_with "/odd.md" (rq_url rq) then reply 200%Z "file" else reply 200%Z "ref", log ++ [rq]) |}.
Abbreviation RGH := (GhEnv (list HTTPRequest) Vault).
Definition rest_tools : list (Tool RGH) := github_tools (rest_client toy_hostname toy_rest) (Some InMemoryCredentialVault).
Definition rest_manager : TransactionManager RGH unit := {|
  tm_registry := map (fun t => (name (spec t), t)) rest_tools; tm_policy := developer_engine; tm_causal := []; tm_gate := yes_gate;
  tm_allow_network_tools := true; tm_sandbox_runners := [] |}.
Definition rest_step (n : nat) (tool : string) (args : dict pyval) : ActionStep :=
  new_step tool (("repo", VStr "acme/web") :: args ++ [("token", VSecret 1 "ghp_secret")]) "because" ("step-" +:+ str_Z (Z.of_nat n)).
Definition rest_plan (path : string) : list ActionStep :=
  [rest_step 0 "github_update_file" [("path", VStr path); ("branch", VStr "leos/fix"); ("content", VStr "bye");
     ("message", VStr "more"); ("expected_previous", VStr "hello")];
   rest_step 1 "github_close_pr" [("pr_number", VInt 3)]].
Definition rest_state (steps : list ActionStep) : TState RGH unit := {|
  t_sys := sys0; t_env := {| ge_client := []; ge_vault := empty_vault; ge_clock := clock0; ge_tokens := ∅ |};
  t_world := empty_world; t_heap := steps; t_plan := toy_plan steps;
  t_uses := fun _ => 0%Z; t_gate := tt; t_stack := []; t_calls := [] |}.
Definition rest_run (path : string) : res exn unit * TState RGH unit := execute_plan rest_manager (rest_state (rest_plan path)).
Definition sent (x : TState RGH unit) : list HTTPRequest := ge_client (t_env x).
(** The last step fails its dry run; the update is undone through the same client. *)
Example rest_run_undone :
  let x := rest_run "README.md" in
  (fst x, step_statuses (snd x), map rq_method (sent (snd x))) =
  (Ok tt, [ROLLED_BACK; FAILED], ["GET"; "PUT"; "GET"; "PUT"]).
Proof. vm_compute. reflexivity. Qed.
(** An answer of another shape than expected: the exception leaves the run after the file was written. *)
Example odd_answer_escapes :
  let x := rest_run "odd.md" in
  (fst x, map rq_method (sent (snd x)), length (t_stack (snd x))) =
  (Raise (Exn AttributeError "'str' object has no attribute 'get'"), ["GET"; "PUT"], 0%nat).
Proof. vm_compute. reflexivity. Qed.
Lemma rest_registered n t : registry_get n (tm_registry rest_manager) = Ok t -> t ∈ rest_tools.
Proof.
  unfold registry_get, rest_manager. cbn [tm_registry]. destruct (dget n _) as [u|] eqn:E; [|done].
  intros [= ->]. apply dget_In in E. apply list_elem_of_In, list_elem_of_fmap in E as (x & [= _ ->] & Hx). exact Hx.
Qed.
Lemma github_plan_requests_guarded_witness :
  Forall (permitted toy_hostname toy_rest) (sent (snd (rest_run "README.md"))).
Proof.
  assert (Hsend : forall rq, permitted toy_hostname toy_rest rq ->
    keeps (only_adds (permitted toy_hostname toy_rest)) (transport_request rq)).
  { intros rq Hrq l. exists [rq]. split; [reflexivity|]. by constructor. }
  destruct (github_plan_requests_guarded toy_hostname toy_rest _ Hsend rest_manager (Some InMemoryCredentialVault)
    (rest_state (rest_plan "README.md")) rest_registered) as (rqs & E & Hall).
  unfold sent, rest_run. rewrite E. exact Hall.
Defined.

(** * Which credential the GitHub resolver returns, and when it asks for a new one. *)


Section auth.
Context `{PyRuntime} `{JsonText} `{AppPlatform} {C : Type} `{GitHubTransport C}.
Implicit Types s : AuthState (C:=C).

Lemma token_cases p s x s' : provider_token p s = (Ok x, s') ->
  au_clock s' = S (au_clock s) /\ au_providers s' = au_providers s /\
  ((fresh p (app_clock (au_clock s)) = Some (fst x) /\ snd x = p /\ au_transport s' = au_transport s) \/
   (fresh p (app_clock (au_clock s)) = None /\ fst x <> "" /\ exists rq r, transport_request rq (au_transport s) = (Ok r, au_transport s') /\
      rq_method rq = "POST" /\ status_code r = 201%Z /\ cached_token (snd x) = Some (fst x) /\
      refresh_skew_seconds (snd x) = refresh_skew_seconds p)).
Proof.
  unfold provider_token, bind, clock_now. set (now := app_clock (au_clock s)). destruct (fresh p now) as [t|] eqn:Ef.
  { intros [= <- <-]. split_and!; [done|done|]. by left. }
  unfold exchange, bind, of_res. destruct (app_jwt p now) as [jwt|]; [|done]. unfold send_request. simpl.
  match goal with |- context [transport_request ?rq] => destruct (transport_request rq (au_transport s)) as [[r|e] y] eqn:Et; [|done]; set (q := rq) in Et end.
  destruct (Z.eqb_spec (status_code r) 201) as [Hc|]; [simpl|done].
  destruct (read_token_payload (body r) now) as [[t e]|er]; [|by destruct (isinstance er ValueError || isinstance er KeyError)].
  destruct (String.eqb_spec t "") as [|Hn]; [done|]. simpl. intros [= <- <-]. split_and!; [done|done|]. right. simpl.
  split_and!; [done|done|]. exists q, r. by split_and!.
Qed.

(** The cached token, with more than the margin left. *)
Definition usable (p : GitHubAppTokenProvider) (now : float) (v : string) : Prop :=
  cached_token p = Some v /\ fltb now (fsub (cached_expires_at p) (refresh_skew_seconds p)) = true.
Lemma fresh_exact p now v : fresh p now = Some v <-> usable p now v.
Proof. unfold fresh, usable. destruct (cached_token p); [|naive_solver]. destruct (fltb _ _); naive_solver. Qed.
Lemma resolve_cached required env s p v :
  env_get PAT_ENV env = "" -> configured env = true -> au_providers s !! app_values env = Some p ->
  fresh p (app_clock (au_clock s)) = Some v ->
  exists s'', resolve_github_credential required env s = (Ok (Some v), s'') /\ au_transport s'' = au_transport s.
Proof.
  intros Hp Hc Hk Hf. unfold resolve_github_credential, provider_token, bind, gets, clock_now. rewrite Hp, Hc. simpl. rewrite Hk.
  simpl. rewrite Hf. by eexists.
Qed.

(** The GitHub credential is the configured one and never stale.  A personal token always wins and is returned without a
    request; without any configuration the result is None or, when a credential is required, ValueError; otherwise
    the token is either the cached one, while more than the refresh margin is left before it expires, or the
    non-empty token of one exchange answered 201, which is then cached under the configuration: at the next call, if it
    still has that margin, it is returned without another request. *)
Theorem github_credential_fresh required env s t s' :
  resolve_github_credential required env s = (Ok t, s') ->
  let pat := env_get PAT_ENV env in
  (pat <> "" /\ t = Some pat /\ s' = s) \/
  (pat = "" /\ Forall (fun v => v = "") (app_values env) /\ required = false /\ t = None /\ s' = s) \/
  (pat = "" /\ exists v p, t = Some v /\ au_providers s' !! app_values env = Some p /\
     ((au_transport s' = au_transport s /\ usable p (app_clock (au_clock s)) v) \/
      (v <> "" /\ cached_token p = Some v /\ exists rq r,
         transport_request rq (au_transport s) = (Ok r, au_transport s') /\ rq_method rq = "POST" /\ status_code r = 201%Z)) /\
     (usable p (app_clock (au_clock s')) v ->
      exists s'', resolve_github_credential required env s' = (Ok (Some v), s'') /\ au_transport s'' = au_transport s')).
Proof.
  intros Hr pat. subst pat. unfold resolve_github_credential in Hr. destruct (String.eqb_spec (env_get PAT_ENV env) "") as [Hp|Hp]; cbn [negb] in Hr.
  2: { injection Hr as <- <-. by left. }
  right. destruct (configured env) eqn:Ea.
  2: { left. destruct required; [discriminate Hr|]. injection Hr as <- <-. split_and!; try done.
       apply Forall_forall. intros v Hv. destruct (String.eqb_spec v "") as [|Hn]; [done|]. exfalso.
       unfold configured in Ea. rewrite <-not_true_iff_false in Ea. apply Ea, existsb_exists. exists v. rewrite <-list_elem_of_In. split; [done|].
       by apply negb_true_iff, String.eqb_neq. }
  right. split; [done|]. set (k := app_values env) in *.
  apply bind_inv in Hr as [(e & _ & [=])|(found & s1 & [= <- <-] & Hr)].
  apply bind_inv in Hr as [(e & _ & [=])|(p & s2 & Hp2 & Hr)].
  assert (Hs2 : au_transport s2 = au_transport s /\ au_clock s2 = au_clock s).
  { destruct (au_providers s !! k) as [q|]; [by injection Hp2 as <- <-|].
    apply bind_inv in Hp2 as [(e & _ & [=])|(q & s3 & Hq & Hk)]. unfold of_res in Hq. injection Hq as _ <-.
    apply bind_inv in Hk as [(e & _ & [=])|([] & s4 & Hk & Hret)]. injection Hk as <-. by injection Hret as <- <-. }
  destruct Hs2 as [Ht2 Hc2].
  apply bind_inv in Hr as [(e & _ & [=])|(x & s3 & Hx & Hr)].
  apply bind_inv in Hr as [(e & _ & [=])|([] & s4 & Hk & Hret)]. injection Hk as <-. injection Hret as <- <-.
  apply token_cases in Hx as (Hclk & Hprov & Hx). rewrite Hc2, Ht2 in Hx.
  exists (fst x), (snd x). simpl. split; [done|]. split; [by rewrite lookup_insert_eq|]. split.
  - destruct Hx as [(Hf & -> & Ht)|(Hf & Hn & rq & r & Hrq & Hm & Hs & Hcached & _)]; [left; by rewrite <-fresh_exact|right]. split_and!; [done|done|].
    by exists rq, r.
  - intros Hfresh%fresh_exact.
    pose proof (resolve_cached required env {| au_transport := au_transport s3; au_clock := au_clock s3;
      au_providers := <[k := x.2]> (au_providers s3) |} x.2 x.1) as Hcached. cbn [au_transport au_clock au_providers] in Hcached.
    apply Hcached; [done|done|apply lookup_insert_eq|done].
Qed.
End auth.

(** ** A configured App *)

#[local] Instance app_json : JsonText := {| json_loads _ :=
  inr (VDict [("token", VStr "ghs_1"); ("expires_at", VStr "later")]) |}.
#[local] Instance app_platform : AppPlatform := {|
  app_clock n := f_of_Z (Z.of_nat n * 100); jwt_encode _ _ := Ok "jwt"; iso_timestamp _ := Some (f_of_Z 1000);
  read_key_file _ := Ok "key" |}.
#[local] Instance app_server : GitHubTransport nat :=
  {| transport_request _ n := (Ok {| status_code := 201; body := "{}"; headers := [] |}, S n) |}.
Definition app_env : dict string :=
  [(APP_ID_ENV, "12"); (INSTALLATION_ID_ENV, "34"); (PRIVATE_KEY_PATH_ENV, "/key.pem")].
Definition app_state0 : AuthState (C:=nat) := {| au_transport := 0%nat; au_clock := 0; au_providers := ∅ |}.
Definition app_state1 : AuthState (C:=nat) := snd (resolve_github_credential true app_env app_state0).
Lemma github_credential_fresh_witness :
  resolve_github_credential true app_env app_state0 = (Ok (Some "ghs_1"), app_state1) /\
  exists s'', resolve_github_credential true app_env app_state1 = (Ok (Some "ghs_1"), s'') /\ au_transport s'' = 1%nat.
Proof.
  assert (Hr : resolve_github_credential true app_env app_state0 = (Ok (Some "ghs_1"), app_state1)) by (vm_compute; reflexivity).
  split; [exact Hr|]. pose proof (github_credential_fresh true app_env app_state0 (Some "ghs_1") app_state1 Hr) as Hx.
  cbv zeta in Hx. destruct Hx as [(Hp & _)|[(_ & Hall & _)|(_ & v & p & Hv & Hp & _ & Hnext)]].
  - exfalso. apply Hp. vm_compute. reflexivity.
  - exfalso. apply Forall_inv in Hall. vm_compute in Hall. discriminate Hall.
  - assert (v = "ghs_1") as -> by congruence.
    assert (Hq : usable p (app_clock (au_clock app_state1)) "ghs_1").
    { assert (Some p = au_providers app_state1 !! app_values app_env) as E by (symmetry; exact Hp).
      vm_compute in E. injection E as ->. by split; vm_compute. }
    destruct (Hnext Hq) as (s'' & Hs & Ht). exists s''. split; [exact Hs|]. rewrite Ht. vm_compute. reflexivity.
Defined.
(** One exchange serves ten calls; at the eleventh less than the margin is left. *)
Example token_refreshed :
  let calls n := Nat.iter n (fun s => snd (resolve_github_credential true app_env s)) app_state0 in
  (au_transport (calls 1%nat), au_transport (calls 10%nat), au_transport (calls 11%nat)) = (1, 1, 2)%nat.
Proof. vm_compute. reflexivity. Qed.
