(* ===== verification/ProviderProps.v ===== *)
(** Properties of the planner over a language model and of the GitHub issue planner. *)
From S2P Require Import Prelude Enums PyValue PyText Sanitization Goals Plans Serialization Tools AuditTrail Memory Evaluator Causal Egress Policy Approval Gates Credentials GitHubClient GitHubTools Transactions Planner AgentLoop PlanProviders Fixtures EvaluatorProps TxInvariants TxEnv GitHubTheory PlannerProps VaultProps GitHubProps.


Section llm.
Context `{PyRuntime} `{JsonSchemaValidator} `{JsonText} `{TextLib} {C X : Type} `{ModelClient C}.
Context (p : LLMPlanner) (registry : ToolRegistry X).
Implicit Types s : LState C.

(** What leaves the client and the requests as they are. *)
Definition asks_nothing s s' : Prop := l_requests s' = l_requests s.
#[local] Instance asks_nothing_preorder : PreOrder asks_nothing.
Proof. split; [done|]. intros x y z Hx Hy. exact (eq_trans Hy Hx). Qed.
Lemma llm_audit_quiet et msg pl : keeps asks_nothing (llm_audit (C:=C) p et msg pl).
Proof. unfold llm_audit. destruct (lp_audited p); [by intros s|keeps_auto]. Qed.
Lemma llm_audit_ok et msg pl s : exists s', llm_audit p et msg pl s = (Ok tt, s').
Proof. unfold llm_audit. destruct (lp_audited p); by eexists. Qed.
Lemma llm_uuid_quiet : keeps asks_nothing (uuid4 (St:=LState C)).
Proof. by intros s. Qed.
#[local] Hint Resolve llm_audit_quiet llm_uuid_quiet : keeps.
Lemma validate_quiet data available : keeps asks_nothing (validate_llm_proposals (St:=LState C) data available).
Proof.
  assert (Hs : forall i j v, keeps asks_nothing (validate_step (St:=LState C) available i j v)).
  { intros i j v. unfold validate_step, llm_error. keeps_auto. }
  assert (Hss : forall i l j, keeps asks_nothing (validate_steps (St:=LState C) available i j l)).
  { intros i l. induction l as [|v l IH]; intros j; simpl; keeps_auto; apply IH. }
  assert (Hp : forall i v, keeps asks_nothing (validate_proposal (St:=LState C) available i v)).
  { intros i v. unfold validate_proposal, reject_untrusted_control_intent, llm_error. keeps_auto. }
  assert (Hps : forall l i, keeps asks_nothing (validate_proposals (St:=LState C) available i l)).
  { intros l. induction l as [|v l IH]; intros i; simpl; keeps_auto; apply IH. }
  unfold validate_llm_proposals, llm_error. keeps_auto; apply Hps.
Qed.

(** What an attempt can come back with. *)
Definition validated (ps : list PlanProposal) : Prop := exists data s1 s2,
  validate_llm_proposals (St:=LState C) (VList data) (names registry) s1 = (Ok ps, s2) /\
  (is_json (VList data) = true -> exists raws, Forall2 (proposal_well_typed (names registry)) raws ps).
Lemma validate_validated data ps s1 s2 :
  validate_llm_proposals (St:=LState C) (VList data) (names registry) s1 = (Ok ps, s2) -> validated ps.
Proof.
  intros Hv. exists data, s1, s2. split; [done|]. intros Hj. cbn [validate_llm_proposals] in Hv.
  apply validate_proposals_typed in Hv as (raws & _ & HF); [|done]. by exists raws.
Qed.
Lemma attempt_once_spec r s : exists x s', attempt_once p registry r s = (Ok x, s') /\ l_requests s' = l_requests s ++ [r] /\
  match x with inr ps => validated ps | inl _ => True end.
Proof.
  unfold attempt_once, catch, bind at 1 2, call_model.
  destruct (generate r (l_client s)) as [[response|e] c]; [|by eexists _, _].
  cbn [ret]. set (s1 := {| l_sys := _ |}). assert (Hreq : l_requests s1 = l_requests s ++ [r]) by done. clearbody s1.
  unfold bind at 1. match goal with |- context [llm_audit p ?et ?msg ?pl s1] =>
    destruct (llm_audit_ok et msg pl s1) as [s2 E]; pose proof (llm_audit_quiet et msg pl s1) as K; rewrite E in K |- * end.
  unfold asks_nothing in K. cbn [snd] in K. rewrite <-K in Hreq. clear K E.
  destruct (match parsed_json response with VNone => _ | v => _ end) as [msg|data]; [by eexists _, _|].
  destruct data as [| | | | | | | | | |l| | | | |]; try (by eexists _, _).
  unfold bind at 1. pose proof (validate_quiet (VList l) (names registry) s2) as Kv. unfold asks_nothing in Kv.
  destruct (validate_llm_proposals (VList l) (names registry) s2) as [[ps|e] s3] eqn:Ev; cbn [snd] in Kv; rewrite <-Kv in Hreq.
  - eexists _, _. split; [reflexivity|]. split; [done|]. by eapply validate_validated.
  - unfold bind. match goal with |- context [llm_audit p ?et ?msg ?pl s3] =>
      destruct (llm_audit_ok et msg pl s3) as [s4 E]; pose proof (llm_audit_quiet et msg pl s3) as K; rewrite E in K |- * end.
    unfold asks_nothing in K. cbn [snd] in K. rewrite <-K in Hreq. by eexists _, _.
Qed.
Lemma attempts_spec n i prompt g last s : exists x s' k,
  attempts p registry n i prompt g last s = (Ok x, s') /\ (k <= n)%nat /\
  l_requests s' = l_requests s ++ map (request_at p prompt g) (seqZ i (Z.of_nat k)) /\
  match x with inr ps => (0 < k)%nat /\ validated ps | inl _ => k = n end.
Proof.
  revert i last s. induction n as [|n IH]; intros i last s; cbn [attempts].
  { exists (inl last), s, 0%nat. by rewrite app_nil_r. }
  unfold bind at 1. destruct (attempt_once_spec (request_at p prompt g i) s) as ([e|ps] & s1 & -> & Hr & Hv).
  - destruct (IH (i + 1)%Z (Some e) s1) as (x & s2 & k & -> & Hk & Hr2 & Hx). exists x, s2, (S k).
    split_and!; [done|lia| |by destruct x as [|ps]; [congruence|destruct Hx; split; [lia|]]].
    rewrite Hr2, Hr, <-(assoc_L (++)). f_equal. rewrite Nat2Z.inj_succ, (seqZ_cons i) by lia. by rewrite Z.pred_succ.
  - unfold bind. match goal with |- context [llm_audit p ?et ?msg ?pl s1] =>
      destruct (llm_audit_ok et msg pl s1) as [s2 E]; pose proof (llm_audit_quiet et msg pl s1) as K; rewrite E in K |- * end.
    unfold asks_nothing in K. cbn [snd] in K. exists (inr ps), s2, 1%nat. split_and!; [done|lia|by rewrite K, Hr|lia|done].
Qed.

(** asking a language model.  Whatever the model answers, and whether its client raises or not,
    the planner makes at most max_retries + 1 requests, numbered from 0 and all with the prompt of the goal, the tools and
    the facts.  It returns proposals only when an answer passes the validation, which makes them well typed
    over the registered tools, and asks no more; it never returns a rejected or partial answer.  Otherwise
    it has made all the requests and raises StructuredOutputError, and no other error. *)
Theorem llm_planner_bounded g w s t lines prompt :
  prompt_get "planner.proposal" (lp_prompts p) = Ok t ->
  res_traverse (tool_line registry) (names registry) = Ok lines ->
  render t (prompt_args g w (str_join newline lines)) = Ok prompt ->
  let '(r, s') := generate_proposals p registry g w s in
  exists k, l_requests s' = l_requests s ++ map (request_at p prompt g) (seqZ 0 (Z.of_nat k)) /\
    (Z.of_nat k <= Z.max 0 (max_retries p + 1))%Z /\
    match r with
    | Ok ps => (0 < k)%nat /\ validated ps
    | Raise e => exn_cls e = StructuredOutputError /\ Z.of_nat k = Z.max 0 (max_retries p + 1)
    end.
Proof.
  intros Ht Hl Hp. unfold generate_proposals. rewrite Ht. unfold bind at 1, of_res. cbv beta iota. rewrite Hl.
  unfold bind at 1. cbv beta iota. rewrite Hp. unfold bind at 1. cbv beta iota.
  unfold bind at 1. match goal with |- context [llm_audit p ?et ?msg ?pl s] =>
    destruct (llm_audit_ok et msg pl s) as [s1 E]; pose proof (llm_audit_quiet et msg pl s) as K; rewrite E in K |- * end.
  unfold asks_nothing in K. cbn [snd] in K. rewrite <-K. clear K E. cbv zeta. unfold bind at 1.
  destruct (attempts_spec (Z.to_nat (max_retries p + 1)) 0 prompt g None s1) as (x & s2 & k & -> & Hk & Hr & Hx).
  destruct x as [e|ps].
  - unfold bind. match goal with |- context [llm_audit p ?et ?msg ?pl s2] =>
      destruct (llm_audit_ok et msg pl s2) as [s3 E]; pose proof (llm_audit_quiet et msg pl s2) as K; rewrite E in K |- * end.
    unfold asks_nothing in K. cbn [snd] in K. exists k. rewrite K. split_and!; [done|lia|done|lia].
  - exists k. destruct Hx. split_and!; [done|lia|done|done].
Qed.
End llm.

(** ** At a fake client *)

(** A text library that decodes nothing but the empty array. *)
#[export] Instance toy_json : JsonText := {|
  json_loads := fun s => if String.eqb s "[]" then inr (VList []) else inl "Expecting value: line 1 column 1 (char 0)" |}.
#[export] Instance toy_text : TextLib := {|
  format_field := fun f _ => Raise (Exn ValueError "unsupported field") |}.
Definition toy_llm : LLMPlanner :=
  {| lp_prompts := DEFAULT_PROMPT_REGISTRY; lp_model := "fake"; max_retries := 1; lp_audited := true |}.
Definition llm_state (f : FakeModel) : LState FakeModel := {| l_sys := sys0; l_client := f; l_requests := [] |}.
Definition good_model : FakeModel := set_response "" (VList [VDict toy_raw]) "fake" new_fake.
Definition bad_model : FakeModel := set_response "no json" VNone "fake" new_fake.
Example llm_retries :
  (length (l_requests (snd (generate_proposals toy_llm toy_registry toy_goal empty_world (llm_state bad_model)))),
   length (l_requests (snd (generate_proposals toy_llm toy_registry toy_goal empty_world (llm_state good_model))))) = (2, 1)%nat.
Proof. vm_compute. reflexivity. Qed.
Lemma llm_planner_bounded_witness : exists ps,
  fst (generate_proposals toy_llm toy_registry toy_goal empty_world (llm_state good_model)) = Ok ps /\
  validated (C:=FakeModel) toy_registry ps /\ length ps = 1%nat.
Proof.
  destruct (res_traverse (tool_line toy_registry) (names toy_registry)) as [lines|] eqn:El; [|vm_compute in El; discriminate].
  destruct (prompt_get "planner.proposal" (lp_prompts toy_llm)) as [t|] eqn:Et; [|vm_compute in Et; discriminate].
  destruct (render t (prompt_args toy_goal empty_world (str_join newline lines))) as [prompt|] eqn:Ep.
  - pose proof (llm_planner_bounded (C:=FakeModel) toy_llm toy_registry toy_goal empty_world (llm_state good_model) t lines prompt Et El Ep) as Hb.
    destruct (generate_proposals toy_llm toy_registry toy_goal empty_world (llm_state good_model)) as [[ps|e] s'] eqn:Eg.
    + destruct Hb as (k & _ & _ & _ & Hv). exists ps. split; [reflexivity|]. split; [exact Hv|].
      vm_compute in Eg. injection Eg as <- _. reflexivity.
    + vm_compute in Eg. discriminate.
  - vm_compute in Et. injection Et as <-. vm_compute in El. injection El as <-. vm_compute in Ep. discriminate.
Defined.

(** * Properties of the GitHub issue planner: what it proposes and when. *)


Section provider.
Context `{PyRuntime} (c : GitHubIssuePlanConfig).

(** A step within the bounds of the configuration: its repository, its token under "token" and no secret elsewhere. *)
Record step_within (st : ActionStep) : Prop := {
  sw_repo : dget "repo" (arguments st) = Some (VStr (ic_repo c));
  sw_token : dget "token" (arguments st) = secret_val <$> ic_token c;
  sw_public : forall k v, dget k (arguments st) = Some v -> k <> "token" -> (exists s, v = VStr s) \/ exists n, v = VInt n;
}.
(** What the provider proposes in a state of the world. *)
Definition observing (q : PlanProposal) : Prop :=
  map tool_name (pp_steps q) = OBSERVE_TOOLS ++ (if ic_check_ci c then ["github_check_ci_status"] else []).
Record changing (issue file_data : dict pyval) (q : PlanProposal) : Prop := {
  cg_tools : map tool_name (pp_steps q) = PR_TOOLS;
  cg_branch : Forall (fun st => forall k v, k ∈ ["branch"; "head"] -> dget k (arguments st) = Some v -> v = VStr (ic_branch c)) (pp_steps q);
  cg_guard : forall st, st ∈ pp_steps q -> tool_name st = "github_update_file" ->
    dget "expected_previous" (arguments st) = Some (VStr (py_str (dget_or "content" (VStr "") file_data))) /\
    dget "content" (arguments st) = Some (VStr (ic_new_content c));
  cg_key : forall st, st ∈ pp_steps q -> tool_name st = "github_open_pr" ->
    idempotency_key st = Some (given_or (ic_idempotency_key c) (default_idempotency_key c)) /\
    dget "idempotency_key" (arguments st) = VStr <$> idempotency_key st;
}.
Definition ready (w : WorldState) : option (dict pyval * dict pyval) :=
  match facts w !! "github_issue", facts w !! "github_file" with
  | Some (VDict issue), Some (VDict file_data) => Some (issue, file_data)
  | _, _ => None
  end.
Definition needed (w : WorldState) : list string :=
  match ready w with
  | Some _ => PR_TOOLS ++ (if ic_check_ci c then ["github_check_ci_status"] else [])
  | None => OBSERVE_TOOLS
  end.

Lemma within_intro st args :
  arguments st = args ++ token_args c -> Forall (fun kv => (exists s, kv.2 = VStr s) \/ exists n, kv.2 = VInt n) args ->
  dget "repo" args = Some (VStr (ic_repo c)) -> dget "token" args = None -> step_within st.
Proof.
  intros Hs Hp Hr Ht.
  assert (Happ : forall k, dget k (args ++ token_args c) = match dget k args with Some v => Some v | None => dget k (token_args c) end).
  { intros k. clear. induction args as [|[k' v] args IH]; [done|]. simpl. by destruct (String.eqb k k'). }
  split; rewrite Hs.
  - by rewrite Happ, Hr.
  - rewrite Happ, Ht. unfold token_args. by destruct (ic_token c).
  - intros k v. rewrite Happ. destruct (dget k args) as [u|] eqn:E.
    + intros [= <-] _. apply dget_In in E. rewrite List.Forall_forall in Hp. exact (Hp _ E).
    + unfold token_args. destruct (ic_token c); simpl; [|done]. by destruct (String.eqb_spec k "token").
Qed.
Ltac within :=
  match goal with |- step_within ?st =>
    let a := eval cbv [arguments new_step] in (arguments st) in
    match a with ?x ++ _ =>
      apply (within_intro st x); [reflexivity| |reflexivity|reflexivity];
      repeat (apply List.Forall_cons; [first [by left; eexists|by right; eexists]|]); apply List.Forall_nil
    end
  end.
Ltac within_all := cbn [pp_steps]; repeat (apply List.Forall_cons; [within|]); apply List.Forall_nil.
Lemma observe_exact p : exists q p', observe_proposal c p = (Ok q, p') /\ ip_calls p' = ip_calls p /\
  Forall step_within (pp_steps q) /\ observing q.
Proof.
  unfold observe_proposal, observing. destruct (ic_check_ci c); (eexists _, _; split; [reflexivity|]; split; [reflexivity|]; split;
    [within_all|reflexivity]).
Qed.
Lemma change_exact issue file_data p : exists q p', pr_proposal c issue file_data p = (Ok q, p') /\ ip_calls p' = ip_calls p /\
  Forall step_within (pp_steps q) /\ changing issue file_data q.
Proof.
  eexists _, _. split; [reflexivity|]. split; [reflexivity|]. split; [within_all|]. split.
  - reflexivity.
  - cbn [pp_steps]. repeat (apply List.Forall_cons; [|]); [..|apply List.Forall_nil]; intros k v Hk; apply elem_of_cons in Hk as [->|Hk%list_elem_of_singleton]; subst; cbn; unfold token_args;
      destruct (ic_token c); cbn; try done; by intros [= <-].
  - cbn [pp_steps]. intros st Hst Hn. repeat (apply elem_of_cons in Hst as [->|Hst]; [try discriminate Hn|]); [by split|].
    by apply not_elem_of_nil in Hst.
  - cbn [pp_steps]. intros st Hst Hn. repeat (apply elem_of_cons in Hst as [->|Hst]; [try discriminate Hn|]); [by split|].
    by apply not_elem_of_nil in Hst.
Qed.

(** The issue planner changes nothing it has not observed.  Every call counts itself, never fails, and gives at most one
    proposal, and one exactly when the tools it asks for are registered; every step names the configured repository, carries the configured
    token under "token" as a secret and only strings and numbers elsewhere; while the issue or the file is not in the facts the steps
    only read; and once both are, they create the configured branch, update the file on it under the guard of the
    content that was observed, and open a pull request under a key that depends on the configuration alone. *)
Theorem issue_provider_exact {X} w (registry : ToolRegistry X) p :
  exists ps p', issue_propose c w registry p = (Ok ps, p') /\ ip_calls p' = (ip_calls p + 1)%Z /\
  match ps with
  | [] => exists n, n ∈ needed w /\ n ∉ names registry
  | [q] => (forall n, n ∈ needed w -> n ∈ names registry) /\ Forall step_within (pp_steps q) /\
           match ready w with Some (issue, file_data) => changing issue file_data q | None => observing q end
  | _ => False
  end.
Proof.
  assert (Hsub : forall l, (subset l (names registry) = true /\ forall n, n ∈ l -> n ∈ names registry) \/
                           (subset l (names registry) = false /\ exists n, n ∈ l /\ n ∉ names registry)).
  { intros l. unfold subset. destruct (forallb _ l) eqn:E; [left|right]; (split; [done|]).
    - rewrite forallb_forall in E. intros n Hn. apply str_mem_elem, E. by apply list_elem_of_In.
    - apply not_true_iff_false in E. rewrite forallb_forall in E.
      destruct (List.existsb (fun n => negb (str_mem n (names registry))) l) eqn:Ex.
      + apply existsb_exists in Ex as (n & Hn & Hm%negb_true_iff). exists n. split; [by apply list_elem_of_In|by apply str_mem_false].
      + exfalso. apply E. intros n Hn. apply not_true_iff_false in Ex. destruct (str_mem n (names registry)) eqn:Em; [done|].
        exfalso. apply Ex, existsb_exists. exists n. split; [done|]. by rewrite Em. }
  unfold issue_propose, bind at 1, modify. set (p1 := {| ip_calls := _; ip_ids := _ |}).
  assert (Hobs : ready w = None -> exists ps p',
    (if negb (subset OBSERVE_TOOLS (names registry)) then ret [] else let! q := observe_proposal c in ret [q]) p1 = (Ok ps, p') /\
    ip_calls p' = (ip_calls p + 1)%Z /\
    match ps with
    | [] => exists n, n ∈ needed w /\ n ∉ names registry
    | [q] => (forall n, n ∈ needed w -> n ∈ names registry) /\ Forall step_within (pp_steps q) /\ observing q
    | _ => False
    end).
  { intros Hr. unfold needed. rewrite Hr. destruct (Hsub OBSERVE_TOOLS) as [[-> Hin]|[-> Hout]]; simpl; [|by exists [], p1].
    destruct (observe_exact p1) as (q & p' & Hq & Hc & Hs & Ho). unfold bind. rewrite Hq. by exists [q], p'. }
  unfold ready in Hobs |- *. unfold needed, ready in *.
  destruct (facts w !! "github_issue") as [[]|], (facts w !! "github_file") as [[]|]; try by apply Hobs.
  destruct (Hsub (PR_TOOLS ++ (if ic_check_ci c then ["github_check_ci_status"] else []))) as [[-> Hin]|[-> Hout]]; simpl;
    [|by exists [], p1].
  edestruct change_exact as (q & p' & Hq & Hc & Hs & Ho). unfold bind. rewrite Hq. by exists [q], p'.
Qed.
End provider.

(** ** From an issue to a pull request *)

Definition issue_config : GitHubIssuePlanConfig := {|
  ic_repo := "leos"; ic_issue_number := 7; ic_path := "README.md"; ic_base_branch := "main"; ic_branch := "leos/fix";
  ic_new_content := "hello world"; ic_token := Some {| secret_id := 1; unwrap := "ghp_secret" |}; ic_commit_message := None;
  ic_pr_title := None; ic_pr_body := None; ic_idempotency_key := None; ic_check_ci := false; ic_ci_ref := None |}.
Definition issue_gh : GH :=
  {| ge_client := seed_issue "leos" 7 "Greeting" "too short" toy_repo; ge_vault := empty_vault; ge_clock := clock0; ge_tokens := ∅ |}.
Definition pr_goal : Goal := {|
  description := "fix the issue"; success_criteria := ["PR opened"]; criteria := [];
  constraints := []; stop_conditions := []; priority := 0; goal_id := "goal-7"; owner := None;
  deadline := None; budget := default_budget; g_status := G_CREATED |}.
Definition issue_loop_config : AgentLoopConfig :=
  {| max_iterations := 2; max_replans := 0; al_max_tool_calls := None; memory_scope := "issues"; use_goal_evaluator := true |}.
Definition issue_run := loop_run gh_manager toy_planner_config (GitHubIssuePlanProvider issue_config)
  (None : option (RuntimeStore unit)) default_registry issue_loop_config pr_goal
  {| l_tx := {| t_sys := sys0; t_env := issue_gh; t_world := empty_world; t_heap := []; t_plan := toy_plan [];
                t_uses := fun _ => 0%Z; t_gate := tt; t_stack := []; t_calls := [] |};
     l_memory := empty_store (Some None); l_provider := {| ip_calls := 0; ip_ids := 0 |}; l_store := tt |}.
(** Two iterations, one to observe and one to change, open the pull request with the new content on the working branch. *)
Example issue_to_pull_request :
  let e := ge_client (t_env (l_tx (snd issue_run))) in
  (match fst issue_run with Ok r => (lr_stop_reason r, lr_iterations r) | Raise e => (exn_msg e, 0%Z) end,
   gf_content <$> gh_files e !! ("leos", "leos/fix", "README.md"), gf_content <$> gh_files e !! ("leos", "main", "README.md"),
   (fun pr => (dget "head" pr, dget "base" pr, dget "title" pr)) <$> gh_prs e !! ("leos", 1%Z),
   ip_calls (l_provider (snd issue_run))) =
  (("goal_succeeded", 2%Z), Some "hello world", Some "hello",
   Some (Some (VStr "leos/fix"), Some (VStr "main"), Some (VStr "Fix #7: Greeting")), 2%Z).
Proof. vm_compute. reflexivity. Qed.
