(* ===== verification/OperatorProps.v ===== *)
(** Properties of the operator's GitHub workflow: what an applied plan went through, and that its approvals apply once. *)
From S2P Require Import Prelude Enums PyValue FileSystem PyText Sanitization Goals Plans Serialization Tools AuditTrail Memory Evaluator Causal Egress Policy Approval Gates Credentials GitHubClient GitHubRest GitHubTools Transactions Planner AgentLoop PlanProviders Fixtures VaultProps TxInvariants TxSafety TxOutcome TxProps CoreProps GateTheory Operator.

(** ** The prepared gate *)

Section prepared.
Context `{PyRuntime} (secret : string).

(** Packets and decisions stay, receipts accumulate. *)
Record prepared_kept (g g' : PreparedGate) : Prop := {
  pk_packets : pg_packets g' = pg_packets g;
  pk_decisions : pg_decisions g' = pg_decisions g;
  pk_receipts : forall k, dmem k (pg_receipts g) = true -> dmem k (pg_receipts g') = true;
}.
#[export] Instance prepared_kept_preorder : PreOrder prepared_kept.
Proof. split; [by split|]. intros x y z [P1 D1 R1] [P2 D2 R2]. split; [congruence|congruence|naive_solver]. Qed.

Definition kept_pair (x y : PreparedGate * nat) : Prop := prepared_kept x.1 y.1.
#[local] Instance kept_pair_preorder : PreOrder kept_pair.
Proof. split; [intros x; unfold kept_pair; reflexivity|]. intros x y z. unfold kept_pair. intros ? ?. by etrans. Qed.
Lemma set_last_pk b a : keeps kept_pair (let! g := gate_get in gate_put (set_pg_last b a g)).
Proof. by intros [g n]. Qed.
Lemma new_decision_pk p v a w : keeps kept_pair (new_decision p v a w).
Proof. by intros [g n]. Qed.
Lemma gate_get_pk : keeps kept_pair gate_get.
Proof. by intros [g n]. Qed.
Lemma request_pk p : keeps kept_pair (prepared_request_packet secret p).
Proof.
  pose proof set_last_pk. pose proof new_decision_pk. pose proof gate_get_pk.
  unfold prepared_request_packet. apply keeps_bind; [apply _|done|intros _].
  apply keeps_bind; [apply _|done|intros g]. destruct (dget _ _) as [data|]; [|done].
  do 7 (apply keeps_bind; [apply _|keeps_auto|intros ?]).
  destruct (_ : bool); [|done]. apply keeps_bind; [apply _|done|intros _; keeps_auto].
Qed.
Lemma prepared_gate_keeps {X} (tm : TransactionManager X PreparedGate) : tm_gate tm = prepared_gate secret -> gate_keeps tm prepared_kept.
Proof.
  intros Hg. split; rewrite Hg; simpl.
  - intros p st [g n]. unfold prepared_prepare_packet, bind, gate_get. destruct (dget _ _); [|done]. by destruct (_ || _).
  - intros p st x. apply request_pk.
  - intros p d st [g n]. unfold prepared_consume_approval, bind, of_res. destruct (safe_approval_id _); [|done]. simpl.
    destruct (dmem _ _); [done|]. split; [done..|]. intros k Hk. simpl. by apply dmem_dset.
Qed.

Lemma prepared_prepare_inv p0 st x p :
  fst (prepared_prepare_packet p0 st x) = Ok p -> dget (step_id st) (pg_packets x.1) = Some p.
Proof.
  destruct x as [g n]. unfold prepared_prepare_packet, bind, gate_get. simpl.
  destruct (dget _ _); [|done]. destruct (_ || _); [done|]. by intros [= ->].
Qed.
(** An approving answer is one of the prepared decisions, under its signature. *)
Definition signed_answer (g : PreparedGate) (p : ApprovalPacket) (d : ApprovalDecision) : Prop :=
  exists data sig, dget (ap_approval_id p) (pg_decisions g) = Some data /\ dget "signature" data = Some sig /\
    as_str sig = Some (sign_approval_decision d secret).
Lemma prepared_request_inv p x d :
  fst (prepared_request_packet secret p x) = Ok d -> ad_decision d = AD_APPROVE -> signed_answer x.1 p d.
Proof.
  destruct x as [g n]. intros Hr Hd.
  destruct (prepared_request_packet secret p (g, n)) as [r x'] eqn:E. simpl in Hr. subst r. revert E.
  unfold prepared_request_packet. intros Hr. binv Hr. injection Hm as _ <-. binv Hr. injection Hm as <- <-. cbn [pg_decisions set_pg_last] in Hr.
  destruct (dget _ (pg_decisions g)) as [data|] eqn:Ed; [|apply new_decision_value in Hr; congruence].
  do 7 binv Hr. destruct (a6 : bool) eqn:Ea; [|apply new_decision_value in Hr; congruence].
  binv Hr. injection Hr as <- _. exists data.
  destruct (dget "signature" data) as [sig|] eqn:Es; [|by injection Hm5].
  exists sig. split; [done|]. split; [done|].
  clear Hm Hm0 Hm1 Hm2 Hm3 Hm4 Es. unfold verify_approval_decision_signature in Hm5.
  destruct sig; try discriminate Hm5;
    (destruct (is_ascii _); [|discriminate Hm5];
     match type of Hm5 with of_res (Ok ?b) _ = _ => assert (Hs : b = true) by (unfold of_res in Hm5; congruence) end;
     apply String.eqb_eq in Hs; simpl; by rewrite <-Hs).
Qed.
Lemma prepared_consume_inv p d st x o x' :
  prepared_consume_approval p d st x = (Ok o, x') -> nonempty o = None ->
  ~ receipt_spent (ap_approval_id p) x.1 /\ receipt_spent (ap_approval_id p) x'.1.
Proof.
  intros Hc Ho. assert (o = None) as ->.
  { revert Hc. destruct x as [g n]. unfold prepared_consume_approval. intros Hc. do 3 binv Hc.
    destruct (dmem _ _); [by injection Hc as <- _|]. binv Hc. by injection Hc. }
  exact (consume_fresh (gate:=prepared_gate secret) (spent:=receipt_spent) p d st x x' Hc).
Qed.

(** What the transaction manager took from the gate for a step. *)
Record step_signed (gid pid profile : string) (g g' : PreparedGate) (ts : ToolSpec) (st : ActionStep) (p : ApprovalPacket)
    (d : ApprovalDecision) : Prop := {
  ss_packet : dget (step_id st) (pg_packets g) = Some p;
  ss_signed : signed_answer g p d;
  ss_valid : exists now, approval_valid p d (build_step_hash gid pid st ts) profile now;
  ss_fresh : ~ receipt_spent (ap_approval_id p) g;
  ss_used : receipt_spent (ap_approval_id p) g';
}.
Lemma taken_signed `{JsonSchemaValidator} {X} (tm : TransactionManager X PreparedGate) ts st s s' p d :
  tm_gate tm = prepared_gate secret -> taken_with tm prepared_kept ts st s s' p d ->
  step_signed (goal_id (p_goal (t_plan s))) (plan_id (t_plan s)) (profile_name (tm_policy tm)) (t_gate s) (t_gate s') ts st p d.
Proof.
  intros Hg [(p0 & x & Rx & Hp) (y & Ry & Hy) (now & Hv) (o & z & z' & Rz & Hc & Ho & Rz')]. rewrite Hg in Hp, Hy, Hc. simpl in Hp, Hy, Hc.
  apply prepared_prepare_inv in Hp. rewrite (pk_packets _ _ Rx) in Hp.
  apply prepared_consume_inv in Hc as [Hf Hu]; [|done]. split.
  - done.
  - apply prepared_request_inv in Hy as (data & sig & ? & ? & ?); [|apply Hv]. exists data, sig. by rewrite <-(pk_decisions _ _ Ry).
  - by exists now.
  - intros Hs. apply Hf. unfold receipt_spent in *. by apply (pk_receipts _ _ Rz).
  - unfold receipt_spent in *. by apply (pk_receipts _ _ Rz').
Qed.
End prepared.

(** ** An applied plan *)

Section bundles.
Context `{PyRuntime}.
(** The packets and the decisions that two bundles hold; the clock only fills in missing creation times. *)
Definition bundle_packet (approval : dict pyval) (sid : string) (p : ApprovalPacket) : Prop :=
  exists items n ps n', py_iter (dget_or "packets" (VList []) approval) = Ok items /\
    load_packets items [] n = (Ok ps, n') /\ dget sid ps = Some p.
Definition bundle_decision (decision : dict pyval) (i : string) (data : dict pyval) : Prop :=
  exists items ds, py_iter (dget_or "decisions" (VList []) decision) = Ok items /\ load_decisions items [] = Ok ds /\
    dget i ds = Some data.
Definition receipt_on_disk (i : string) (receipts : dict string) : bool := dmem (i +:+ ".json") receipts.

Lemma prepared_init_inv approval decision receipts n g n' :
  prepared_init approval decision receipts n = (Ok g, n') ->
  pg_receipts g = receipts /\ (forall sid p, dget sid (pg_packets g) = Some p -> bundle_packet approval sid p) /\
  (forall i data, dget i (pg_decisions g) = Some data -> bundle_decision decision i data).
Proof.
  unfold prepared_init. do 3 (destruct (py_neq _ _); [done|]).
  destruct (py_iter (default (VList []) (dget "packets" approval))) as [items|] eqn:Ei; [|done].
  destruct (load_packets items [] n) as [[ps|e] k] eqn:El; [|done].
  unfold res_bind, res_map. destruct (py_iter (default (VList []) (dget "decisions" decision))) as [ds|] eqn:Ed; [|done].
  destruct (load_decisions ds []) as [dec|] eqn:Edec; [|done]. intros [= <- <-]. simpl.
  split; [done|]. split; [intros sid p Hp; by exists items, n, ps, k|intros i data Hd; by exists ds, dec].
Qed.
(** The identifiers of a packet do not depend on the clock. *)
Lemma packet_ids_now now now' d p p' :
  packet_from_mapping now d = Ok p -> packet_from_mapping now' d = Ok p' ->
  ap_step_id p' = ap_step_id p /\ ap_approval_id p' = ap_approval_id p.
Proof.
  unfold packet_from_mapping, res_bind. intros H1 H2.
  repeat (match type of H1 with context [match ?x with Ok _ => _ | Raise _ => _ end] => destruct x eqn:?; [|discriminate] end).
  repeat (match type of H2 with context [match ?x with Ok _ => _ | Raise _ => _ end] => destruct x eqn:?; [|discriminate] end).
  injection H1 as <-. injection H2 as <-. simpl. split; congruence.
Qed.
Definition same_ids_by_step (a b : dict ApprovalPacket) : Prop :=
  forall k, ap_approval_id <$> dget k a = ap_approval_id <$> dget k b.
Lemma load_packets_ids items acc acc' n m ps ps' n' m' :
  same_ids_by_step acc acc' -> load_packets items acc n = (Ok ps, n') -> load_packets items acc' m = (Ok ps', m') ->
  same_ids_by_step ps ps'.
Proof.
  revert acc acc' n m. induction items as [|v items IH]; intros acc acc' n m Hacc; simpl.
  - by intros [= <- _] [= <- _].
  - destruct (dict_of v) as [d|]; [|done].
    destruct (packet_from_mapping (time_at n) d) as [p|] eqn:E1; [|done].
    destruct (packet_from_mapping (time_at m) d) as [p'|] eqn:E2; [|done].
    destruct (packet_ids_now _ _ _ _ _ E1 E2) as [Hs Ha]. intros L1 L2. eapply IH; [|exact L1|exact L2].
    intros k. rewrite Hs. destruct (decide (k = ap_step_id p)) as [->|Hne].
    + rewrite !dget_dset_eq. simpl. by rewrite Ha.
    + by rewrite !dget_dset_ne by done.
Qed.
Lemma bundle_packet_id approval sid p p' :
  bundle_packet approval sid p -> bundle_packet approval sid p' -> ap_approval_id p' = ap_approval_id p.
Proof.
  intros (items & n & ps & n' & Hi & Hl & Hp) (items' & m & ps' & m' & Hi' & Hl' & Hp').
  rewrite Hi in Hi'. injection Hi' as <-.
  pose proof (load_packets_ids items [] [] n m ps ps' n' m' (fun _ => eq_refl) Hl Hl' sid) as E.
  rewrite Hp, Hp' in E. by injection E.
Qed.

(** ** What compiling gives *)

Definition STEP_TOOLS : list string := ["github_create_branch"; "github_update_file"; "github_open_pr"].
Lemma res_bind_ok {A B} (m : res exn A) (f : A -> res exn B) b : res_bind m f = Ok b -> exists a, m = Ok a /\ f a = Ok b.
Proof. destruct m; [eauto|done]. Qed.
Ltac compiled Hc :=
  repeat (let a := fresh "v" in let Ha := fresh "Hv" in apply res_bind_ok in Hc as (a & Ha & Hc)); injection Hc as <- <-.
Lemma compile_shape data token g steps :
  compile_steps data token = Ok (g, steps) ->
  (exists ids, Forall2 (fun k i => item2 "step_ids" k data = Ok i) ["create_branch"; "update_file"; "open_pr"] ids /\
               map step_id steps = ids) /\
  map tool_name steps = STEP_TOOLS /\ Forall (fun st => status st = PENDING) steps.
Proof.
  unfold compile_steps. destruct (validate_operator_plan data true); [|done]. cbv zeta. intros Hc. compiled Hc.
  split; [|split; [reflexivity|repeat constructor]].
  eexists. split; [|reflexivity]. repeat constructor; assumption.
Qed.
End bundles.

Section applied.
Context `{PyRuntime} `{JsonSchemaValidator} `{ToolPlatform} {C : Type} (client : GitHubClient C).
Abbreviation ENV := (GhEnv C unit).

(** No step of the workflow is approved by the policy alone. *)
Lemma operator_needs_human policy st q :
  from_profile PROFILE None = Ok policy -> q ∈ [WRITE_FILES; SEND_MESSAGE] -> q ∈ required_permissions st ->
  ~ policy_approves policy st.
Proof.
  intros [= <-] Hq Hst [_ _ (granted & mr & _ & Ha)]. apply (aa_no_human _ _ _ _ Ha q Hst).
  apply elem_of_cons in Hq as [->|Hq%list_elem_of_singleton]; [|subst q]; simpl; set_solver.
Qed.
Lemma profile_facts policy :
  from_profile PROFILE None = Ok policy -> rules_ok policy /\ profile_name policy = PROFILE.
Proof. intros [= <-]. split; [constructor|reflexivity]. Qed.
Lemma step_tool_writes r n t :
  build_github_operator_registry client = Ok r -> n ∈ STEP_TOOLS -> registry_get n r = Ok t ->
  exists q, q ∈ [WRITE_FILES; SEND_MESSAGE] /\ q ∈ permissions (spec t).
Proof.
  intros [= <-] Hn. apply elem_of_cons in Hn as [->|Hn]; [|apply elem_of_cons in Hn as [->|Hn%list_elem_of_singleton]; [|subst n]];
    intros [= <-]; [exists WRITE_FILES|exists WRITE_FILES|exists SEND_MESSAGE]; simpl; set_solver.
Qed.

(** The rest of a command on the gate: reading the file back. *)
Lemma build_and_run_pk secret (tm : TransactionManager ENV PreparedGate) g l :
  tm_gate tm = prepared_gate secret -> keeps (gate_kept prepared_kept) (build_and_run tm g l).
Proof.
  intros Hg%prepared_gate_keeps. pose proof (execute_plan_gk tm prepared_kept Hg).
  pose proof (audit_gk (X:=ENV) prepared_kept). pose proof (uuid_gk (X:=ENV) prepared_kept).
  pose proof (time_gk (X:=ENV) prepared_kept). pose proof (plan_const_gk (X:=ENV) prepared_kept).
  unfold build_and_run, build_plan, accept_goal, transition_goal, kernel_execute. keeps_auto.
Qed.

(** How a step was authorized: the packet of the bundle under its id, a decision of the bundle on that packet signed with
    the secret and valid for the hash of the step, and a receipt that was not there before. *)
Record step_authorized (gid pid : string) (approval decision : dict pyval) (secret : string) (before after : dict string)
    (st0 : ActionStep) (ts : ToolSpec) (st : ActionStep) (p : ApprovalPacket) (d : ApprovalDecision) : Prop := {
  sa_step : same_step st0 st /\ st = hydrate ts st;
  sa_packet : bundle_packet approval (step_id st0) p;
  sa_signed : exists data sig, bundle_decision decision (ap_approval_id p) data /\ dget "signature" data = Some sig /\
    as_str sig = Some (sign_approval_decision d secret);
  sa_valid : exists now, approval_valid p d (build_step_hash gid pid st ts) PROFILE now;
  sa_receipt : receipt_on_disk (ap_approval_id p) before = false /\ receipt_on_disk (ap_approval_id p) after = true;
}.

Lemma run_authorized secret r policy p steps path branch repo content token approval decision gate receipts n n' o s' x :
  let tm := operator_kernel r policy (prepared_gate secret) in
  from_profile PROFILE None = Ok policy -> build_github_operator_registry client = Ok r ->
  prepared_init approval decision receipts n = (Ok gate, n') ->
  map tool_name steps = STEP_TOOLS -> Forall (fun st => status st = PENDING) steps -> p_steps p = seq 0 3 ->
  run_and_read_back tm p repo path branch content token (kernel_state p steps gate o) = (Ok (Some x), s') ->
  Forall (fun st0 => exists ts st q d, step_authorized (goal_id (p_goal p)) (plan_id p) approval decision secret
    receipts (pg_receipts (t_gate s')) st0 ts st q d) steps.
Proof.
  intros tm Hpol Hreg Hinit Hnames Hpend Hsteps Hrun.
  pose proof (prepared_gate_keeps secret tm eq_refl) as Hk.
  unfold run_and_read_back in Hrun.
  apply bind_inv in Hrun as [(e & _ & ?)|(executed & s1 & E1 & Hrun)]; [done|].
  unfold kernel_execute in E1. unfold bind at 1, modify in E1.
  apply bind_inv in E1 as [(e & _ & ?)|([] & s2 & E2 & E1)]; [done|]. injection E1 as <- <-.
  change (with_plan p (kernel_state p steps gate o)) with (kernel_state p steps gate o) in E2.
  set (s0 := kernel_state p steps gate o) in *.
  apply bind_inv in Hrun as [(e & _ & ?)|(statuses & s3 & E3 & Hrun)]; [done|]. injection E3 as <- <-.
  destruct (forallb _ (step_statuses s2)) eqn:Ev; [|done]. cbn [negb] in Hrun.
  assert (Hlate : prepared_kept (t_gate s2) (t_gate s')).
  { change (gate_kept prepared_kept s2 s'). eapply gk_at; [|exact Hrun].
    pose proof (fun g l => build_and_run_pk secret tm g l eq_refl). pose proof (uuid_gk (X:=ENV) prepared_kept).
    pose proof (world_gk (X:=ENV) prepared_kept).
    assert (forall h, keeps (E:=exn) (gate_kept prepared_kept) (modify (fun s : TState ENV PreparedGate => with_heap (h s) s)))
      by (intros h s; unfold gate_kept; simpl; reflexivity). keeps_auto. }
  assert (Hlen : length steps = 3) by (by rewrite <-(length_map tool_name steps), Hnames).
  assert (Hp2 : p_steps (t_plan s2) = seq 0 3).
  { pose proof (execute_plan_any tm s0) as Hg. rewrite E2 in Hg. apply gr_plan in Hg. apply sp_steps in Hg. simpl in Hg. by rewrite Hg. }
  destruct (profile_facts policy Hpol) as [Hrules Hname].
  apply Forall_lookup_2. intros j st0 Hst0.
  assert (Hj : j ∈ seq 0 3) by (apply elem_of_seq; apply lookup_lt_Some in Hst0; lia).
  assert (Hstep : default default_step (t_heap s0 !! j) = st0) by (subst s0; simpl; by rewrite Hst0).
  destruct (execute_plan_taken tm prepared_kept Hk s0 s2 Hrules E2) with (j := j) as (t & st & Ht & Hsame & Hhy & Hd).
  { change (p_steps (t_plan s0)) with (p_steps p). rewrite Hsteps. intros i Hi. split.
    - unfold unverified, s0. simpl. apply elem_of_seq in Hi. destruct (lookup_lt_is_Some_2 steps i) as [sti Hsti]; [lia|].
      rewrite Hsti. simpl. rewrite Forall_forall in Hpend. rewrite (Hpend sti); [done|]. by apply list_elem_of_lookup_2 in Hsti.
    - unfold unverified. intros Hn. apply Hn. rewrite forallb_forall in Ev. specialize (Ev (status (default default_step (t_heap s2 !! i)))).
      eapply bool_decide_eq_true_1, Ev. unfold step_statuses. rewrite Hp2. apply in_map_iff. exists i. split; [done|]. by apply list_elem_of_In. }
  { change (p_steps (t_plan s0)) with (p_steps p). by rewrite Hsteps. }
  rewrite Hstep in Hsame.
  assert (Hname0 : tool_name st0 ∈ STEP_TOOLS) by (rewrite <-Hnames; apply list_elem_of_fmap; exists st0; split; [done|]; by apply list_elem_of_lookup_2 in Hst0).
  assert (Hst : st = hydrate (spec t) st) by (apply Hhy; subst s0; simpl; by rewrite Hst0).
  destruct Hd as [Hpa|(q & d & Htw)].
  { exfalso. destruct (step_tool_writes r (tool_name st0) t Hreg Hname0) as (w & Hw & Hw').
    - rewrite (proj1 Hsame). exact Ht.
    - refine (operator_needs_human policy st w Hpol Hw _ Hpa). rewrite Hst. exact Hw'. }
  apply (taken_signed secret tm) in Htw as [Hpk (data & sig & Hdata & Hsig & Hs) (now & Hv) Hf Hu]; [|done].
  apply prepared_init_inv in Hinit as (Hrec & Hpks & Hdecs).
  change (t_gate s0) with gate in *. exists (spec t), st, q, d. split.
  - by split.
  - apply Hpks. destruct Hsame as (_ & _ & _ & _ & _ & _ & _ & ->). exact Hpk.
  - exists data, sig. split; [by apply Hdecs|done].
  - exists now. change (profile_name (tm_policy tm)) with (profile_name policy) in Hv. rewrite Hname in Hv. exact Hv.
  - unfold receipt_spent, receipt_on_disk in *. rewrite <-Hrec. split; [by apply not_true_iff_false|].
    by apply (pk_receipts _ _ Hlate).
Qed.

Lemma of_res_ok {S A} (m : res exn A) (s s' : S) a : of_res m s = (Ok a, s') -> m = Ok a /\ s' = s.
Proof. unfold of_res. by intros [= -> ->]. Qed.
Definition plan_authorized (approval decision : dict pyval) (secret : string) (before after : dict string)
    (g : Goal) (pid : string) (steps : list ActionStep) : Prop :=
  Forall (fun st0 => exists ts st p d, step_authorized (goal_id g) pid approval decision secret before after st0 ts st p d) steps.
Lemma apply_authorized env data approval decision token secret path o r o' :
  apply_operator_plan client env data approval decision token secret path o = (Ok r, o') -> or_ok r = true ->
  dget "LEOS_ENABLE_REAL_GITHUB_WRITES" env = Some "1" /\
  (exists digest, operator_plan_digest data = Ok digest /\ differs "plan_digest" approval (VStr digest) = false /\
                  differs "plan_digest" decision (VStr digest) = false) /\
  exists g steps pid, compile_steps data token = Ok (g, steps) /\ str_item "plan_id" data = Ok pid /\
    plan_authorized approval decision secret (os_receipts o) (os_receipts o') g pid steps.
Proof.
  unfold apply_operator_plan. intros Ha Hok.
  destruct (bool_decide_reflect (dget "LEOS_ENABLE_REAL_GITHUB_WRITES" env = Some "1")) as [Henv|]; [|by injection Ha as <- _].
  cbn [negb] in Ha. split; [exact Henv|].
  destruct (validate_operator_plan data true); [|by injection Ha as <- _].
  destruct (differs "profile" approval _ || differs "profile" decision _); [by injection Ha as <- _|].
  destruct (id_mismatch data approval decision); [by injection Ha as <- _|].
  binv Ha. apply of_res_ok in Hm as [Hdig ->].
  destruct (differs "plan_digest" approval (VStr a)) eqn:D1; [by injection Ha as <- _|].
  destruct (differs "plan_digest" decision (VStr a)) eqn:D2; [by injection Ha as <- _|]. cbn [orb] in Ha.
  split; [by exists a|].
  binv Ha. apply of_res_ok in Hm as [Hpol ->]. binv Ha. apply of_res_ok in Hm as [Hreg ->].
  binv Ha. unfold prepared_gate_of in Hm.
  destruct (prepared_init approval decision (os_receipts o) (n_time (os_sys o))) as [ri n] eqn:Ei. injection Hm as -> <-.
  binv Ha. destruct a3 as [p steps]. unfold compile_operator_plan in Hm. binv Hm. apply of_res_ok in Hm0 as [Hcomp ->].
  binv Hm. apply of_res_ok in Hm0 as [Hpid ->]. binv Hm. injection Hm0 as <- <-. injection Hm as <- <- <-.
  destruct a3 as [g steps]. cbn [fst snd] in *.
  binv Ha. apply of_res_ok in Hm as [_ ->]. binv Ha. destruct a5 as [x w]. unfold in_kernel in Hm.
  match type of Hm with context [run_and_read_back ?tm ?p ?a ?b ?c ?d ?e ?s0] =>
    destruct (run_and_read_back tm p a b c d e s0) as [rr s'] eqn:Erun end.
  destruct rr as [xx|e]; [|done]. injection Hm as -> <- <-.
  destruct x as [[[g' progress] verified]|]; [|by injection Ha as <- _].
  pose proof (compile_shape _ _ _ _ Hcomp) as (_ & Hnames & Hpend).
  pose proof (fun E => run_authorized secret a1 a0 _ steps _ _ _ _ _ approval decision a2 _ _ _ _ _ _ Hpol Hreg Ei Hnames Hpend E Erun) as Hall.
  specialize (Hall eq_refl).
  exists g, steps, a4. split; [exact Hcomp|]. split; [exact Hpid|]. unfold plan_authorized.
  binv Ha. apply of_res_ok in Hm as [_ ->]. binv Ha. apply of_res_ok in Hm as [_ ->]. binv Ha. injection Hm as _ <-.
  assert (os_receipts o' = pg_receipts (t_gate s')) as ->; [|exact Hall].
  destruct (negb verified || _); [by injection Ha as _ <-|]. by apply of_res_ok in Ha as [_ ->].
Qed.

(** An approval bundle authorizes a plan once: the receipt of the first step is still there. *)
Definition receipts_grow (before after : dict string) : Prop := forall k, dmem k before = true -> dmem k after = true.
#[export] Instance receipts_grow_preorder : PreOrder receipts_grow.
Proof. split; [by intros x k|intros x y z Hxy Hyz k Hk; auto]. Qed.
Lemma authorized_once data approval token token2 decision decision2 secret secret2 before after before2 after2 g g2 steps steps2 pid pid2 :
  compile_steps data token = Ok (g, steps) -> plan_authorized approval decision secret before after g pid steps ->
  compile_steps data token2 = Ok (g2, steps2) -> plan_authorized approval decision2 secret2 before2 after2 g2 pid2 steps2 ->
  ~ receipts_grow after before2.
Proof.
  intros Hc Hall Hc2 Hall2 Hsub.
  destruct (compile_shape _ _ _ _ Hc) as ((ids & Hids & Hsids) & Hnames & _).
  destruct (compile_shape _ _ _ _ Hc2) as ((ids2 & Hids2 & Hsids2) & _ & _).
  assert (Heq : map step_id steps2 = map step_id steps).
  { rewrite Hsids, Hsids2. clear - Hids Hids2. revert ids2 Hids2.
    induction Hids as [|k i ks js Hi _ IH]; intros ids2; inversion 1; subst; [done|]. f_equal; [congruence|by apply IH]. }
  destruct steps as [|st steps]; [done|]. destruct steps2 as [|st2 steps2]; [done|]. injection Heq as Hid _.
  apply Forall_cons in Hall as [(ts & st1 & p & d & HA) _]. destruct HA as [_ Hpk _ _ [_ Hused]].
  apply Forall_cons in Hall2 as [(ts2 & st3 & p2 & d2 & HB) _]. destruct HB as [_ Hpk2 _ _ [Hfresh _]]. rewrite Hid in Hpk2.
  unfold receipt_on_disk in *. rewrite (bundle_packet_id _ _ _ _ Hpk Hpk2), (Hsub _ Hused) in Hfresh. done.
Qed.

(** Every application, also one that fails or raises, keeps the receipts. *)
Lemma run_and_read_back_pk secret (tm : TransactionManager ENV PreparedGate) p repo path branch content token :
  tm_gate tm = prepared_gate secret ->
  keeps (gate_kept prepared_kept) (run_and_read_back tm p repo path branch content token).
Proof.
  intros Hg. pose proof (fun g l => build_and_run_pk secret tm g l Hg). apply prepared_gate_keeps in Hg.
  pose proof (execute_plan_gk tm prepared_kept Hg). pose proof (plan_const_gk (X:=ENV) prepared_kept).
  pose proof (uuid_gk (X:=ENV) prepared_kept). pose proof (world_gk (X:=ENV) prepared_kept).
  assert (forall h, keeps (E:=exn) (gate_kept prepared_kept) (modify (fun s : TState ENV PreparedGate => with_heap (h s) s)))
    by (intros h s; unfold gate_kept; simpl; reflexivity).
  unfold run_and_read_back, kernel_execute. keeps_auto.
Qed.
Abbreviation OM A := (M (OpState C) exn A).
Definition grows : relation (OpState C) := fun o o' => receipts_grow (os_receipts o) (os_receipts o').
#[export] Instance grows_preorder : PreOrder grows.
Proof. split; [intros o; unfold grows; reflexivity|intros x y z Hxy Hyz; unfold grows in *; by etrans]. Qed.
Lemma grows_same {A} (m : OM A) : (forall o, os_receipts (snd (m o)) = os_receipts o) -> keeps grows m.
Proof. intros Hm o. unfold grows. by rewrite Hm. Qed.
Lemma op_audit_grows et msg pl : keeps grows (audit (St:=OpState C) et msg pl).
Proof. by apply grows_same. Qed.
Lemma op_time_grows : keeps grows (time_time (St:=OpState C)).
Proof. by apply grows_same. Qed.
Lemma op_uuid_grows : keeps grows (uuid4 (St:=OpState C)).
Proof. by apply grows_same. Qed.
Lemma kernel_grows secret (tm : TransactionManager ENV PreparedGate) p repo path branch content token steps gate o :
  tm_gate tm = prepared_gate secret -> pg_receipts gate = os_receipts o ->
  grows o (snd (in_kernel (fun g _ => pg_receipts g) (run_and_read_back tm p repo path branch content token) (kernel_state p steps gate) o)).
Proof.
  intros Hg Hr. pose proof (run_and_read_back_pk secret tm p repo path branch content token Hg (kernel_state p steps gate o)) as Hk.
  unfold in_kernel, grows. destruct (run_and_read_back _ _ _ _ _ _ _ _) as [r s']. simpl in *.
  intros k Hm. apply (pk_receipts _ _ Hk). simpl. by rewrite Hr.
Qed.
Lemma bind_grows {A B} (m : OM A) (f : A -> OM B) o :
  grows o (snd (m o)) -> (forall x o', m o = (Ok x, o') -> grows o' (snd (f x o'))) -> grows o (snd (bind m f o)).
Proof. intros Hm Hf. unfold bind. destruct (m o) as [[x|e] o'] eqn:E; [|done]. simpl in *. etrans; [exact Hm|by apply Hf]. Qed.
Lemma compile_receipts data token o : os_receipts (snd (compile_operator_plan (S:=OpState C) data token o)) = os_receipts o.
Proof. unfold compile_operator_plan, bind, of_res. destruct (compile_steps data token); [|done]. by destruct (str_item _ _). Qed.
Lemma apply_grows env data approval decision token secret path : keeps grows (apply_operator_plan client env data approval decision token secret path).
Proof.
  pose proof op_audit_grows. unfold apply_operator_plan. cbv zeta.
  destruct (negb _); [apply keeps_ret, _|]. destruct (validate_operator_plan _ _); [|apply keeps_ret, _].
  destruct (_ || _); [apply keeps_ret, _|]. destruct (id_mismatch _ _ _); [apply keeps_ret, _|].
  apply keeps_bind; [apply _|apply keeps_of_res, _|intros digest]. destruct (_ || _); [apply keeps_ret, _|].
  apply keeps_bind; [apply _|apply keeps_of_res, _|intros policy].
  apply keeps_bind; [apply _|apply keeps_of_res, _|intros r].
  intros o. apply bind_grows.
  { unfold prepared_gate_of. destruct (prepared_init _ _ _ _); unfold grows; simpl; reflexivity. }
  intros gate o1 Hgate. assert (Hrec : pg_receipts gate = os_receipts o1).
  { unfold prepared_gate_of in Hgate. destruct (prepared_init _ _ _ _) as [[g|e] n] eqn:Ei; [|done].
    injection Hgate as <- <-. by apply prepared_init_inv in Ei as (-> & _). }
  apply bind_grows; [unfold grows; rewrite compile_receipts; reflexivity|].
  intros [p steps] o2 Hcompile. pose proof (compile_receipts data token o1) as Hcr. rewrite Hcompile in Hcr. simpl in Hcr.
  apply bind_grows; [unfold grows; simpl; reflexivity|]. intros change o3 [_ ->]%of_res_ok.
  apply bind_grows; [apply (kernel_grows secret); [done|by rewrite Hrec]|].
  intros [[[[g progress] verified]|] w] o4 _; [|apply (keeps_ret grows)].
  match goal with |- grows _ (snd (?m _)) => cut (keeps grows m); [intros K; apply K|] end. keeps_auto.
Qed.

(** C8: An operator plan is applied only under its approvals, and under them only once.  Whatever the client and the server do,
    when applying a plan succeeds, real writes were enabled, both bundles carry the digest of exactly this plan, and each of
    its three steps went through one packet of the approval bundle made for that step: a decision of the decision bundle on it,
    signed with the secret, approves the hash of the step as it was executed, and its receipt did not exist before and exists
    afterwards.  Every later application of the same plan and approvals that finds these receipts - with any
    token, secret or decisions, in any state of the client - does not succeed. *)
Theorem operator_applies_once env data approval decision token secret path o r o' :
  apply_operator_plan client env data approval decision token secret path o = (Ok r, o') -> or_ok r = true ->
  (dget "LEOS_ENABLE_REAL_GITHUB_WRITES" env = Some "1" /\
   (exists digest, operator_plan_digest data = Ok digest /\ differs "plan_digest" approval (VStr digest) = false /\
                   differs "plan_digest" decision (VStr digest) = false) /\
   exists g steps pid, compile_steps data token = Ok (g, steps) /\ str_item "plan_id" data = Ok pid /\
     map tool_name steps = STEP_TOOLS /\
     plan_authorized approval decision secret (os_receipts o) (os_receipts o') g pid steps) /\
  forall env2 decision2 token2 secret2 path2 o2 r2 o3,
    (forall k, dmem k (os_receipts o') = true -> dmem k (os_receipts o2) = true) ->
    apply_operator_plan client env2 data approval decision2 token2 secret2 path2 o2 = (Ok r2, o3) -> or_ok r2 = false.
Proof.
  intros Ha Hok. destruct (apply_authorized _ _ _ _ _ _ _ _ _ _ Ha Hok) as (Henv & Hdig & g & steps & pid & Hc & Hp & Hall).
  destruct (compile_shape _ _ _ _ Hc) as (_ & Hnames & _).
  split; [split; [done|]; split; [done|]; by exists g, steps, pid|].
  intros env2 decision2 token2 secret2 path2 o2 r2 o3 Hsub H2. apply not_true_iff_false. intros Hok2.
  destruct (apply_authorized _ _ _ _ _ _ _ _ _ _ H2 Hok2) as (_ & _ & g2 & steps2 & pid2 & Hc2 & _ & Hall2).
  exact (authorized_once _ _ _ _ _ _ _ _ _ _ _ _ _ _ _ _ _ _ Hc Hall Hc2 Hall2 Hsub).
Qed.
End applied.

(** ** From an issue to an applied plan, against a scripted server *)

Definition op_hostname (url : string) : option string :=
  if String.prefix "https://api.github.com" url then Some "api.github.com" else None.
Definition op_rest : GitHubRESTClient :=
  rest_client_new DEFAULT_BASE_URL fone "leos"
    (Some {| allowed_hosts := [GITHUB_HOST]; allowed_methods := ["GET"; "POST"; "PUT"; "PATCH"; "DELETE"]; max_requests := None |}) true None.
Definition file_doc (text : string) : pyval :=
  VDict [("content", VStr (b64encode text)); ("encoding", VStr "base64"); ("sha", VStr "f11e")].
#[local] Instance op_json : JsonText := {| json_loads s :=
  if String.eqb s "issue" then inr (VDict [("number", VInt 7); ("title", VStr "Greeting"); ("state", VStr "open")])
  else if String.eqb s "ref" then inr (VDict [("object", VDict [("sha", VStr "c0ffee")])])
  else if String.eqb s "old" then inr (file_doc "hello")
  else if String.eqb s "new" then inr (file_doc "hello world")
  else if String.eqb s "put" then inr (VDict [("content", VDict [("sha", VStr "beef")]); ("commit", VDict [("sha", VStr "feed")])])
  else if String.eqb s "pulls" then inr (VList [])
  else if String.eqb s "pr" then inr (VDict [("number", VInt 1); ("title", VStr "Fix #7"); ("state", VStr "open"); ("html_url", VStr "u")])
  else inl "Expecting value: line 1 column 1 (char 0)" |}.
(** It keeps what it gets; a file reads as written once it was put. *)
#[local] Instance op_server : GitHubTransport (list HTTPRequest) := {| transport_request rq log :=
  let has m t := String.eqb (rq_method rq) m && str_in t (rq_url rq) in
  let text := if has "GET" "/issues/" then "issue" else if has "PUT" "/contents/" then "put"
              else if has "GET" "/contents/" then (if existsb (fun q => String.eqb (rq_method q) "PUT") log then "new" else "old")
              else if has "GET" "/pulls" then "pulls" else if has "POST" "/pulls" then "pr" else "ref" in
  (Ok {| status_code := 200; body := text; headers := [] |}, log ++ [rq]) |}.
Definition op_client : GitHubClient (list HTTPRequest) := rest_client op_hostname op_rest.
Definition op_state0 : OpState (list HTTPRequest) := {|
  os_sys := sys0; os_receipts := [];
  os_env := {| ge_client := []; ge_vault := tt; ge_clock := clock0; ge_tokens := ∅ |} |}.
Definition op_token : Secret := {| secret_id := 1; unwrap := "ghp_secret" |}.
(** The recipe for one file, from the issue to the decisions. *)
Definition op_change : GitHubFileChange := {|
  fc_repo := "acme/web"; fc_issue_number := 7; fc_path := "README.md"; fc_content := "hello world";
  fc_work_branch := "leos/greeting"; fc_commit_message := Some "Greet"; fc_expected_sha := None;
  fc_expected_previous := Some "hello"; fc_base_branch := "main" |}.
Definition ok_or {A} (d : A) (r : res exn A) : A := match r with Ok a => a | Raise _ => d end.
Definition op_prepare := prepare_single_file_pr op_client op_change (Some op_token) (f_of_Z 900) op_state0.
Definition op_prepared : PreparedChange := Eval vm_compute in ok_or {| pc_plan := []; pc_approval := [] |} (fst op_prepare).
Definition op_decide := approve_single_file_pr op_prepared "ann" "key" "approve" None op_state0.
Definition op_decision : dict pyval := Eval vm_compute in ok_or [] (fst op_decide).
Definition op_environ : dict string := [("LEOS_ENABLE_REAL_GITHUB_WRITES", "1")].
Definition op_apply (secret : string) (o : OpState (list HTTPRequest)) :=
  apply_operator_plan op_client op_environ (pc_plan op_prepared) (pc_approval op_prepared) op_decision op_token secret "audit.jsonl" o.
Definition op_applied := op_apply "key" op_state0.
Definition op_refusal : OperatorResult := failed "" [].
Lemma ran_ok {A} (d : A) {S} (m : res exn A * S) : is_ok (fst m) = true -> m = (Ok (ok_or d (fst m)), snd m).
Proof. by destruct m as [[a|e] s]. Qed.
Lemma quad_inv {A B C D} {a a' : A} {b b' : B} {c c' : C} {d d' : D} :
  (a, b, c, d) = (a', b', c', d') -> a = a' /\ b = b' /\ c = c' /\ d = d'.
Proof. by intros [= -> -> -> ->]. Qed.
(** The plan is applied with one branch, one commit and one pull request; the same approvals do not apply again. *)
Lemma operator_applies_once_witness :
  (or_ok (ok_or op_refusal (fst op_applied)), map rq_method (ge_client (os_env (snd op_applied)))) =
    (true, ["GET"; "POST"; "GET"; "PUT"; "GET"; "POST"; "GET"]) /\
  or_ok (ok_or op_refusal (fst (op_apply "other" (snd op_applied)))) = false.
Proof.
  assert (E : (is_ok (fst op_applied), or_ok (ok_or op_refusal (fst op_applied)),
               map rq_method (ge_client (os_env (snd op_applied))), is_ok (fst (op_apply "other" (snd op_applied)))) =
              (true, true, ["GET"; "POST"; "GET"; "PUT"; "GET"; "POST"; "GET"], true)) by (vm_compute; reflexivity).
  destruct (quad_inv E) as (E1 & E2 & E3 & E4). split; [rewrite E2, E3; reflexivity|].
  destruct (operator_applies_once op_client op_environ (pc_plan op_prepared) (pc_approval op_prepared) op_decision op_token "key" "audit.jsonl" op_state0
    (ok_or op_refusal (fst op_applied)) (snd op_applied) (ran_ok op_refusal op_applied E1) E2) as [_ Honce].
  eapply (Honce op_environ op_decision op_token "other" "audit.jsonl" (snd op_applied)); [exact (fun _ Hk => Hk)|].
  exact (ran_ok op_refusal (op_apply "other" (snd op_applied)) E4).
Defined.

(** ** Private files: a document with a secret is refused and no file changes. *)

Lemma private_json_refused `{PyRuntime} p d fs e :
  assert_no_secrets (VDict d) = Raise e -> write_private_json p d fs = (Raise e, fs).
Proof. intros He. unfold write_private_json, bind, of_res. by rewrite He. Qed.
