(* ===== verification/ServerProps.v ===== *)
(** Properties of the HTTP service: its pages, its guards, whole histories of requests, the inbox and the configuration. *)
From S2P Require Import Prelude Enums PyValue FileSystem PyText Sanitization Goals Plans Serialization Tools AuditTrail Egress Policy PolicyConfig Approval Gates Traces Credentials GitHubClient GitHubRest GitHubTools RuntimeStores Transactions Operator ServerConfig Server Fixtures VaultProps AuditProps TxInvariants TxSafety TxOutcome GateTheory OperatorProps.

(** ** Markup *)

(** The tags of a text: what stands between a [<] and the next [>]; [open] is the part of a tag read so far. *)
Fixpoint tags (open : option string) (s : string) : list string :=
  match s, open with
  | EmptyString, None => []
  | EmptyString, Some t => [t]
  | String c s', None => tags (if Ascii.eqb c "<" then Some "" else None) s'
  | String c s', Some t => if Ascii.eqb c ">" then t :: tags None s' else tags (Some (t +:+ String c "")) s'
  end.
Definition markup (s : string) : list string := tags None s.
(** A fragment with the tags [l] that leaves none open. *)
Definition fragment (s : string) (l : list string) : Prop := forall rest, markup (s +:+ rest) = l ++ markup rest.

Lemma fragment_app a b l m : fragment a l -> fragment b m -> fragment (a +:+ b) (l ++ m).
Proof. intros Ha Hb rest. by rewrite str_app_assoc, Ha, Hb, app_assoc. Qed.
Lemma fragment_markup s l : fragment s l -> markup s = l.
Proof. intros Hs. specialize (Hs ""). by rewrite str_app_nil, app_nil_r in Hs. Qed.
Definition plain : string -> bool := all_chars (fun c => negb (Ascii.eqb c "<")).
Lemma plain_fragment s : plain s = true -> fragment s [].
Proof.
  unfold plain, fragment, markup. intros Hs rest. induction s as [|c s IH]; [done|].
  apply andb_true_iff in Hs as [Hc Hs]. rewrite str_app_cons. simpl. destruct (Ascii.eqb c "<"); [done|auto].
Qed.
Lemma escape_plain s : plain (html_escape s) = true.
Proof.
  unfold html_escape, plain. induction s as [|c s IH]; [done|]. simpl. rewrite all_chars_app, IH, andb_true_r.
  unfold html_char. destruct (Ascii.eqb c "&"); [done|]. destruct (Ascii.eqb c "<") eqn:E; [done|].
  repeat case_match; try done. simpl. by rewrite E.
Qed.
Lemma fragment_join sep l ts : plain sep = true -> Forall (fun s => fragment s ts) l ->
  fragment (str_join sep l) (concat (repeat ts (length l))).
Proof.
  intros Hsep. induction 1 as [|x l Hx Hl IH]; [done|]. destruct l as [|y l].
  - simpl. by rewrite app_nil_r.
  - change (str_join sep (x :: y :: l)) with (x +:+ sep +:+ str_join sep (y :: l)).
    change (concat (repeat ts (length (x :: y :: l)))) with (ts ++ [] ++ concat (repeat ts (length (y :: l)))).
    apply fragment_app; [done|]. by apply fragment_app; [apply plain_fragment|].
Qed.
(** Decimal numbers. *)
Lemma pretty_go_chars f x s :
  (forall n, f (pretty_N_char n) = true) -> all_chars f s = true -> all_chars f (pretty_N_go x s) = true.
Proof.
  intros Hf. revert s. induction (N.lt_wf_0 x) as [x _ IH]; intros s Hs.
  destruct (decide (x = 0%N)) as [->|Hx]; [done|]. rewrite pretty_N_go_step by lia.
  apply IH; [apply N.div_lt; lia|]. simpl. by rewrite Hf.
Qed.
Lemma str_Z_chars f n : (forall n, f (pretty_N_char n) = true) -> f "-"%char = true -> all_chars f (str_Z n) = true.
Proof.
  intros Hf Hd. assert (HN : forall x : N, all_chars f (pretty x) = true).
  { intros x. unfold pretty, pretty_N. case_match; [|by apply pretty_go_chars]. pose proof (Hf 0%N) as H0. simpl in *. by rewrite H0. }
  unfold str_Z, pretty, pretty_Z. destruct n; [exact (HN 0%N)|apply HN|]. apply andb_true_iff. split; [done|apply HN].
Qed.
Lemma digit_char n (f : ascii -> bool) : forallb f ["0"; "1"; "2"; "3"; "4"; "5"; "6"; "7"; "8"; "9"]%char = true -> f (pretty_N_char n) = true.
Proof.
  simpl. intros Hf. repeat (apply andb_true_iff in Hf as [? Hf]). unfold pretty_N_char. by repeat case_match.
Qed.
Lemma str_Z_plain n : plain (str_Z n) = true.
Proof. apply str_Z_chars; [intros k; by apply (digit_char k (fun c => negb (Ascii.eqb c "<")))|done]. Qed.

(** The tags of the trace of [n] records with [k] types of events, and of a packet. *)
Definition ROW_TAGS : list string :=
  ["tr"; "td"; "/td"; "td"; "code"; "/code"; "/td"; "td"; "/td"; "td"; "pre"; "/pre"; "/td"; "/tr"].
Definition COUNT_TAGS : list string := ["li"; "code"; "/code"; "/li"].
Definition trace_tags (n k : nat) : list string :=
  markup page_head ++ markup page_style ++ markup page_summary ++ markup page_types ++
  concat (repeat COUNT_TAGS k) ++ markup page_table ++ concat (repeat ROW_TAGS n) ++ markup page_end.
Definition packet_tags : list string := ["!doctype html"; "html"; "body"; "pre"; "/pre"; "/body"; "/html"].

Section pages.
Context `{PyRuntime}.
#[local] Hint Resolve escape_plain str_Z_plain : core.
(** A concatenation of fixed fragments and plain texts. *)
Ltac fixed := intros ?; unfold markup; reflexivity.
Lemma row_fragment i r : fragment (render_event_row i r) ROW_TAGS.
Proof.
  unfold render_event_row. cbn [str_join].
  change ROW_TAGS with (["tr"] ++ [] ++ (["td"] ++ [] ++ ["/td"]) ++ [] ++ (["td"; "code"] ++ [] ++ ["/code"; "/td"]) ++ [] ++
    (["td"] ++ [] ++ ["/td"]) ++ [] ++ (["td"; "pre"] ++ [] ++ ["/pre"; "/td"]) ++ [] ++ ["/tr"]).
  repeat (apply fragment_app; [solve [fixed|by apply plain_fragment|repeat (apply fragment_app; [solve [fixed|by apply plain_fragment]|]); fixed]|]).
  fixed.
Qed.
Lemma count_fragment e : fragment (render_count e) COUNT_TAGS.
Proof.
  unfold render_count. change COUNT_TAGS with (["li"; "code"] ++ [] ++ ["/code"] ++ [] ++ ["/li"]).
  repeat (apply fragment_app; [solve [fixed|by apply plain_fragment]|]). fixed.
Qed.
Lemma enumerate_all {A B} (P : B -> Prop) (f : Z -> A -> B) n l : (forall i x, P (f i x)) -> Forall P (enumerate_from f n l).
Proof. intros Hf. revert n. induction l; intros n; simpl; constructor; auto. Qed.
Lemma enumerate_length {A B} (f : Z -> A -> B) n l : length (enumerate_from f n l) = length l.
Proof. revert n. induction l; intros n; simpl; auto. Qed.
Lemma trace_markup records title :
  markup (render_trace_html records title) = trace_tags (length records) (length (event_counts (safe_records records))).
Proof.
  apply fragment_markup. unfold render_trace_html, trace_tags.
  assert (Hrows : fragment (str_join LF_str (enumerate_from render_event_row 1 (safe_records records)))
                           (concat (repeat ROW_TAGS (length records)))).
  { rewrite <-(length_map safe_record records). fold (safe_records records).
    rewrite <-(enumerate_length render_event_row 1 (safe_records records)).
    apply fragment_join; [done|]. apply enumerate_all, row_fragment. }
  assert (Hcounts : fragment (str_join LF_str (map render_count (event_counts (safe_records records))))
                             (concat (repeat COUNT_TAGS (length (event_counts (safe_records records)))))).
  { rewrite <-(length_map render_count (event_counts _)). apply fragment_join; [done|].
    apply Forall_map, Forall_forall. intros e _. apply count_fragment. }
  apply (fragment_app page_head _ (markup page_head)); [fixed|].
  apply (fragment_app (html_escape title) _ []); [by apply plain_fragment|].
  apply (fragment_app page_style _ (markup page_style)); [fixed|].
  apply (fragment_app (html_escape title) _ []); [by apply plain_fragment|].
  apply (fragment_app page_summary _ (markup page_summary)); [fixed|].
  apply (fragment_app (str_Z _) _ []); [by apply plain_fragment|].
  apply (fragment_app page_types _ (markup page_types)); [fixed|].
  apply fragment_app; [exact Hcounts|].
  apply (fragment_app page_table _ (markup page_table)); [fixed|].
  apply fragment_app; [exact Hrows|fixed].
Qed.
Lemma packet_markup p : markup (render_approval_packet_html p) = packet_tags.
Proof.
  apply fragment_markup. unfold render_approval_packet_html, html_page.
  change packet_tags with (["!doctype html"; "html"; "body"; "pre"] ++ [] ++ ["/pre"; "/body"; "/html"]).
  apply fragment_app; [fixed|]. apply fragment_app; [by apply plain_fragment|fixed].
Qed.
End pages.

(** ** One request *)

(** [authed] and [write_guarded] endpoints, and what reaches the state. *)
Section serve.
Context `{PyRuntime} `{JsonText} `{JsonSchemaValidator} `{ToolPlatform} `{AppPlatform} `{ServerClock}.
Context {C T : Type} `{GitHubTransport T} (client : GitHubClient C) (a : App).
Implicit Types s : Server C T.

Definition http_status (r : Response) : Z :=
  match r with JSONResponse status _ => status | HTMLResponse _ => 200 | InternalServerError => 500 end%Z.

Lemma endpoint_page env e s page s' :
  endpoint client a env e s = (Ok (HTMLResponse page), s') ->
  (exists records title, page = render_trace_html records title) \/ (exists p, page = render_approval_packet_html p).
Proof.
  destruct e; simpl; intros He.
  - done.
  - unfold readyz in He. by destruct (from_profile _ _).
  - unfold post_plans in He. repeat case_match; try done. by binv He.
  - unfold post_plans_validate in He. by destruct (object_entry _ _).
  - unfold post_approvals in He. destruct (object_entry _ _); [|done]. by do 2 binv He.
  - unfold post_approvals_decide in He. destruct (object_entry _ _); [|done]. by do 2 binv He.
  - unfold post_apply in He. repeat (destruct (object_entry _ _); [|done]). do 2 binv He. destruct a1; [|done].
    do 3 binv He. by destruct (or_ok _).
  - unfold get_audit in He. by do 2 binv He.
  - unfold get_trace in He. do 2 binv He. injection He as <- _. left. eauto.
  - unfold get_inbox in He. by do 2 binv He.
  - unfold get_inbox_packet in He. binv He. injection He as <- _. right. eauto.
  - unfold post_inbox_decide in He. do 3 binv He. destruct (a2 : bool); [done|]. by do 2 binv He.
Qed.

(** The guards in front of an endpoint. *)
Lemma match_keys_ok provided keys m b :
  match_keys provided keys m = Ok b -> b = true -> m = true \/ provided ∈ keys.
Proof.
  revert m. induction keys as [|k keys IH]; intros m; simpl; [intros [= ->]; auto|].
  destruct (compare_digest _ _) as [same|] eqn:E; [|done]. simpl. intros Hm Hb. destruct (IH _ Hm Hb) as [Ho|Hin]; [|set_solver].
  apply orb_true_iff in Ho as [?|?]; [auto|]. subst same. right. revert E. unfold compare_digest. simpl.
  destruct (_ && _); [|done]. intros [= ->%String.eqb_eq]. set_solver.
Qed.
Lemma require_api_key_inv provided s r s' :
  require_api_key (C:=C) (T:=T) a provided s = (r, s') ->
  s' = s /\ ((r = Ok tt /\ default "" provided ∈ app_keys a) \/ (exists text, r = Raise (HTTPException 401 text)) \/ exists e, r = Raise (Fault e)).
Proof.
  unfold require_api_key, pure. intros Hr. apply bind_inv in Hr as [(f & Hm & ->)|(m & s1 & Hm & Hr)].
  - unfold of_res in Hm. injection Hm as Hm <-. split; [done|]. destruct (match_keys _ _ _); [done|]. injection Hm as <-. eauto.
  - unfold of_res in Hm. injection Hm as Hm <-. destruct (match_keys _ _ _) as [b|] eqn:E; [|done]. injection Hm as <-.
    destruct (b : bool).
    + injection Hr as <- <-. split; [done|]. left. split; [done|]. by destruct (match_keys_ok _ _ _ _ E eq_refl).
    + injection Hr as <- <-. split; [done|]. eauto.
Qed.
Definition refused_status (z : Z) : Prop := z ∈ [401; 404; 413; 500]%Z.
Lemma serve_unauthenticated env rq s r s' :
  serve client a env rq s = (r, s') -> authed (rq_endpoint rq) = true -> default "" (rq_api_key rq) ∉ app_keys a ->
  s' = s /\ refused_status (http_status r).
Proof.
  unfold serve, refused_status. destruct (_ && too_large _ _); [intros [= <- <-] _ _; split; [done|set_solver]|].
  intros Hs Ha Hk. destruct (handle client a env rq s) as [x s1] eqn:E.
  assert (s1 = s /\ match x with Ok _ => False | Raise (HTTPException z _) => z ∈ [401; 404]%Z | Raise (Fault _) => True end) as [-> Hx].
  { revert E. unfold handle. destruct (_ && match app_inbox a with _ => _ end); [intros [= <- <-]; set_solver|]. rewrite Ha. simpl.
    intros E. apply bind_inv in E as [(f & Hm & ->)|([] & s2 & Hm & E)]; apply require_api_key_inv in Hm as [-> [[? ?]|[[? ?]|[? ?]]]]; simplify_eq; set_solver. }
  destruct x as [?|[z t|e]]; [done|injection Hs as <- <-; split; [done|set_solver]..].
Qed.
Lemma parse_api_keys_long raw keys : parse_api_keys raw = Ok keys -> Forall (fun k => (MIN_API_KEY_LENGTH <= py_len k)%Z) keys.
Proof.
  unfold parse_api_keys. destruct (List.filter _ (map py_strip _)) as [|k ks]; [done|].
  set (l := k :: ks). destruct (length _ =? 0)%nat eqn:El; [|done]. intros [= <-].
  apply Nat.eqb_eq, length_zero_iff_nil in El. apply Forall_forall. intros x Hx.
  destruct (decide (MIN_API_KEY_LENGTH <= py_len x)%Z); [done|]. exfalso.
  assert (Hin : In x (List.filter (fun k => (py_len k <? MIN_API_KEY_LENGTH)%Z) l)).
  { apply filter_In. split; [by apply list_elem_of_In|]. apply Z.ltb_lt. lia. }
  by rewrite El in Hin.
Qed.

(** Receipts only accumulate, whatever the request. *)
Definition keeps_receipts : relation (Server C T) := fun s s' => receipts_grow (os_receipts (sv_op s)) (os_receipts (sv_op s')).
#[local] Instance keeps_receipts_preorder : PreOrder keeps_receipts.
Proof. split; [intros s; unfold keeps_receipts; reflexivity|intros x y z Hxy Hyz; unfold keeps_receipts in *; by etrans]. Qed.
Abbreviation KR := (keeps keeps_receipts).
Lemma same_op {A} (m : M (Server C T) fault A) : (forall s, sv_op (snd (m s)) = sv_op s) -> KR m.
Proof. intros Hm s. unfold keeps_receipts. by rewrite Hm. Qed.
Lemma op_kr {A} (m : M (OpState C) exn A) : keeps grows m -> KR (op m).
Proof. intros Hm s. specialize (Hm (sv_op s)). unfold op. by destruct (m (sv_op s)). Qed.
Lemma unlogged_kr {A} (m : M (OpState C) exn A) : keeps grows m -> KR (unlogged m).
Proof. intros Hm s. exact (op_kr m Hm (set_op (set_log new_log (sv_op s)) s)). Qed.
Lemma audited_kr {A} dir file (m : M (OpState C) exn A) : keeps grows m -> KR (audited dir file m).
Proof. intros Hm s. specialize (Hm (set_log (open_log []) (sv_op s))). unfold audited. by destruct (m _). Qed.
Lemma failing_kr {A} (m : M (Server C T) fault A) caught z text : KR m -> KR (failing m caught z text).
Proof. intros Hm. unfold failing. apply keeps_catch; [apply _|done|]. intros [? ?|e]; [apply keeps_raise, _|]. destruct (caught e); apply keeps_raise, _. Qed.
Lemma auth_kr {A} (m : M (AuthState (C:=T)) exn A) : KR (auth m).
Proof. apply same_op. intros s. unfold auth. by destruct (m _). Qed.
Lemma budget_kr : KR require_write_budget.
Proof. apply same_op. intros s. unfold require_write_budget. destruct (sv_bucket s) as [b|]; [|done]. by destruct (bucket_allow _ _) as [[] b']. Qed.
Lemma key_kr k : KR (require_api_key a k).
Proof. unfold require_api_key, pure, http. keeps_auto. Qed.
Lemma time_kr : KR now_ns.
Proof. by apply same_op. Qed.
Lemma inbox_kr name f : keeps (E:=fault) keeps_receipts (modify (fun s : Server C T => set_inbox (record_decision name f (sv_inbox s)) s)).
Proof. by apply same_op. Qed.
Lemma new_tools_grows : keeps (E:=exn) (grows (C:=C)) (modify (new_tools (C:=C))).
Proof. by apply grows_same. Qed.
Lemma dry_run_grows (t : Tool (GhEnv C unit)) st : keeps grows (dry_run_message t st).
Proof. apply grows_same. intros o. unfold dry_run_message. by destruct (dry_run _ _ _) as [r [e w]]. Qed.
Lemma silent_kernel_grows {G A} (m : M (TState (GhEnv C unit) G) exn A) start : keeps grows (in_kernel (fun _ rs => rs) m start).
Proof. apply grows_same. intros o. unfold in_kernel. by destruct (m _). Qed.
#[local] Hint Resolve op_audit_grows op_time_grows op_uuid_grows new_tools_grows dry_run_grows silent_kernel_grows : keeps.
Lemma draft_grows repo n token : keeps grows (create_draft_plan client repo n token).
Proof. unfold create_draft_plan, github_issue_dry_run. keeps_auto. Qed.
Lemma packet_grows plan st ts sum pr who ex : keeps (grows (C:=C)) (build_approval_packet plan st ts sum pr who ex).
Proof. unfold build_approval_packet. keeps_auto. Qed.
#[local] Hint Resolve packet_grows : keeps.
Lemma packets_grows r policy p steps ex : keeps (grows (C:=C)) (build_packets r policy p steps ex).
Proof. induction steps as [|st steps IH]; cbn [build_packets]; keeps_auto; exact IH. Qed.
#[local] Hint Resolve packets_grows : keeps.
Lemma bundle_grows data ex : keeps grows (build_approval_bundle client data ex).
Proof. unfold build_approval_bundle, compile_operator_plan. keeps_auto. Qed.
Lemma sign_grows l v who secret why : keeps (grows (C:=C)) (sign_packets l v who secret why).
Proof. induction l as [|x l IH]; cbn [sign_packets]; keeps_auto; exact IH. Qed.
#[local] Hint Resolve sign_grows : keeps.
Lemma signed_bundle_grows b v who secret why : keeps (grows (C:=C)) (build_signed_decision_bundle b v who secret why).
Proof. unfold build_signed_decision_bundle. keeps_auto. Qed.
Lemma read_packet_grows f : keeps (grows (C:=C)) (read_approval_packet f).
Proof. unfold read_approval_packet. keeps_auto. Qed.
Lemma build_decision_grows p v who why : keeps (grows (C:=C)) (build_decision_for_packet p v who why).
Proof. unfold build_decision_for_packet. keeps_auto. Qed.
#[local] Hint Resolve draft_grows bundle_grows signed_bundle_grows read_packet_grows build_decision_grows apply_grows : keeps.
#[local] Hint Resolve op_kr unlogged_kr audited_kr failing_kr auth_kr budget_kr key_kr time_kr inbox_kr : keeps.
Lemma secret_kr env : KR (hmac_secret env).
Proof. unfold hmac_secret, http. keeps_auto. Qed.
Lemma plan_id_kr i : KR (safe_plan_id i).
Proof. unfold safe_plan_id, http. keeps_auto. Qed.
Lemma load_kr i : KR (load_audit_records i).
Proof. unfold load_audit_records, http, pure. keeps_auto. Qed.
Lemma read_kr i : KR (read_packet i).
Proof. unfold read_packet, http. keeps_auto. Qed.
Lemma pending_kr l : KR (pending l).
Proof. induction l as [|x l IH]; cbn [pending]; keeps_auto; exact IH. Qed.
#[local] Hint Resolve secret_kr plan_id_kr load_kr read_kr pending_kr : keeps.
Lemma credential_kr env : KR (credential env).
Proof. unfold credential. keeps_auto. Qed.
#[local] Hint Resolve credential_kr : keeps.
Lemma endpoint_kr env e : KR (endpoint client a env e).
Proof.
  destruct e; simpl; [apply keeps_ret, _|unfold readyz|unfold post_plans|unfold post_plans_validate|unfold post_approvals|
    unfold post_approvals_decide|unfold post_apply|unfold get_audit|unfold get_trace|unfold get_inbox|unfold get_inbox_packet|
    unfold post_inbox_decide]; unfold pure, http; keeps_auto.
Qed.
#[local] Hint Resolve endpoint_kr : keeps.
Lemma serve_receipts env rq s : keeps_receipts s (snd (serve client a env rq s)).
Proof.
  assert (Hk : KR (handle client a env rq)) by (unfold handle, when, http; keeps_auto).
  unfold serve. destruct (_ && _); [simpl; reflexivity|]. specialize (Hk s).
  by destruct (handle client a env rq s) as [[r|[]] s'].
Qed.

(** ** Histories of requests *)

(** An answered request, in the process environment of its time. *)
Record Exchange := { ex_env : dict string; ex_request : Request; ex_before : Server C T; ex_response : Response; ex_after : Server C T }.
Fixpoint history (l : list (dict string * Request)) s : list Exchange :=
  match l with
  | [] => []
  | (env, rq) :: l' =>
      let '(r, s') := serve client a env rq s in
      {| ex_env := env; ex_request := rq; ex_before := s; ex_response := r; ex_after := s' |} :: history l' s'
  end.
Lemma history_served l s i x : history l s !! i = Some x ->
  serve client a (ex_env x) (ex_request x) (ex_before x) = (ex_response x, ex_after x) /\ keeps_receipts s (ex_before x).
Proof.
  revert s i. induction l as [|[env rq] l IH]; intros s i; [done|]. simpl.
  pose proof (serve_receipts env rq s) as Hr. destruct (serve client a env rq s) as [r s'] eqn:E. destruct i as [|i]; simpl.
  - intros [= <-]. split; [done|reflexivity].
  - intros Hx. destruct (IH s' i Hx) as [? ?]. split; [done|]. etrans; [exact Hr|done].
Qed.
Lemma history_request l s i x : history l s !! i = Some x ->
  ex_env x = default [] (fst <$> l !! i) /\ ex_request x = default (ex_request x) (snd <$> l !! i).
Proof.
  revert s i. induction l as [|[env rq] l IH]; intros s i; [done|]. simpl.
  destruct (serve client a env rq s) as [r s'] eqn:E. destruct i as [|i]; simpl; [by intros [= <-]|]. apply IH.
Qed.
Lemma history_grows l s i j x y : history l s !! i = Some x -> history l s !! j = Some y -> (i < j)%nat ->
  keeps_receipts (ex_after x) (ex_before y).
Proof.
  revert s i j. induction l as [|[env rq] l IH]; intros s i j; [done|]. simpl.
  destruct (serve client a env rq s) as [r s'] eqn:E. destruct i as [|i], j as [|j]; simpl; try lia.
  - intros [= <-] Hy _. simpl. by apply history_served in Hy as [_ ?].
  - intros Hx Hy Hij. apply (IH s' i j); [done..|lia].
Qed.

(** The answer to an application that went through. *)
Definition apply_answer (r : Response) : Prop := exists c, r = JSONResponse 200 (VDict c) /\ dget "ok" c = Some (VBool true).
Definition apply_request (rq : Request) (plan approval decision : dict pyval) : Prop :=
  exists body, rq_endpoint rq = PostApply body /\ object_entry "plan" body = Some plan /\
    object_entry "approval" body = Some approval /\ object_entry "decision" body = Some decision.
(** What stood behind it: a key of the service, enabled writes, and an authorized application over the receipts of the server. *)
Record apply_gated (env : dict string) (rq : Request) s s' (plan approval decision : dict pyval) : Prop := {
  ag_key : default "" (rq_api_key rq) ∈ app_keys a;
  ag_writes : dget "LEOS_ENABLE_REAL_GITHUB_WRITES" env = Some "1";
  ag_secret : env_value "LEOS_APPROVAL_HMAC_SECRET" env <> "";
  ag_digest : exists digest, operator_plan_digest plan = Ok digest /\ differs "plan_digest" approval (VStr digest) = false /\
    differs "plan_digest" decision (VStr digest) = false;
  ag_steps : exists token g steps pid, compile_steps plan token = Ok (g, steps) /\ str_item "plan_id" plan = Ok pid /\
    map tool_name steps = STEP_TOOLS /\
    plan_authorized approval decision (env_value "LEOS_APPROVAL_HMAC_SECRET" env) (os_receipts (sv_op s)) (os_receipts (sv_op s')) g pid steps;
}.
Lemma failing_ok {A} (m : M (Server C T) fault A) caught z text s x s' : failing m caught z text s = (Ok x, s') -> m s = (Ok x, s').
Proof.
  unfold failing, catch. destruct (m s) as [[y|[|e]] s1]; [done|done|]. by destruct (caught e).
Qed.
Lemma hmac_ok env s x s' : hmac_secret (C:=C) (T:=T) env s = (Ok x, s') -> s' = s /\ x = env_value "LEOS_APPROVAL_HMAC_SECRET" env /\ x <> "".
Proof. unfold hmac_secret. destruct (String.eqb_spec (env_value "LEOS_APPROVAL_HMAC_SECRET" env) ""); [done|]. by intros [= <- <-]. Qed.
Lemma credential_op env s x s' : credential (C:=C) env s = (Ok x, s') -> sv_op s' = sv_op s.
Proof.
  unfold credential. intros Hc. binv Hc. injection Hc as _ <-. revert Hm. unfold auth. destruct (resolve_github_credential _ _ _) as [r x1].
  by intros [= _ <-].
Qed.
Lemma post_apply_gated env rq body s r s' :
  rq_endpoint rq = PostApply body -> default "" (rq_api_key rq) ∈ app_keys a ->
  post_apply client a env body s = (Ok r, s') -> exists plan approval decision,
  apply_request rq plan approval decision /\ apply_gated env rq s s' plan approval decision.
Proof.
  intros He Hk. unfold post_apply.
  destruct (object_entry "plan" body) as [plan|] eqn:Ep; [|done]. destruct (object_entry "approval" body) as [approval|] eqn:Ea; [|done].
  destruct (object_entry "decision" body) as [decision|] eqn:Ed; [|done]. intros Hp.
  exists plan, approval, decision. split; [by exists body|].
  binv Hp. assert (s0 = s) as -> by (revert Hm; unfold safe_plan_id; destruct (safe_id _); [by intros [= _ <-]|done]).
  binv Hp. apply failing_ok in Hm0. pose proof (credential_op _ _ _ _ Hm0) as Hop. destruct a1 as [token|]; [|done].
  binv Hp. apply hmac_ok in Hm1 as (-> & -> & Hne). binv Hp. injection Hm1 as _ <-. binv Hp.
  destruct (or_ok _) eqn:Hok; [|done]. injection Hp as _ <-. clear Hm Hm0. revert Hm1. unfold audited.
  destruct (apply_operator_plan _ _ _ _ _ _ _ _ _) as [res o] eqn:Hap. intros [= Hres <-].
  destruct res as [x|]; [|done]. injection Hres as ->.
  destruct (apply_authorized _ _ _ _ _ _ _ _ _ _ _ Hap Hok) as (Hw & Hd & g & steps & pid & Hc & Hpid & Hall). simpl in Hall. rewrite Hop in Hall.
  destruct (compile_shape _ _ _ _ Hc) as (_ & Hn & _). split; [done..|]. by exists token, g, steps, pid.
Qed.
Lemma serve_apply env rq body s r s' :
  rq_endpoint rq = PostApply body -> serve client a env rq s = (r, s') -> apply_answer r -> exists plan approval decision,
  apply_request rq plan approval decision /\ apply_gated env rq s s' plan approval decision.
Proof.
  intros He Hs Hr. unfold serve in Hs. destruct (_ && _); [by injection Hs as <- _; destruct Hr as (c & [= <-] & ?)|].
  destruct (handle client a env rq s) as [[r0|[z t|e]] s1] eqn:Hh; simplify_eq; [|by destruct Hr as (c & [= _ <-] & ?)|by destruct Hr as (c & ? & _)].
  unfold handle in Hh. rewrite He in Hh. simpl in Hh. binv Hh. apply require_api_key_inv in Hm as [-> [[_ Hk]|[[? ?]|[? ?]]]]; [|done..].
  binv Hh. assert (Hop : sv_op s0 = sv_op s).
  { revert Hm. unfold require_write_budget. destruct (sv_bucket s) as [b|]; [|by intros [= _ <-]].
    destruct (bucket_allow _ _) as [[] b']; [|done]. by intros [= _ <-]. }
  destruct (post_apply_gated _ _ _ _ _ _ He Hk Hh) as (plan & approval & decision & Hrq & [K W S D P]).
  exists plan, approval, decision. split; [done|]. split; [done..|]. by rewrite Hop in P.
Qed.


(** C20: Data cannot add markup to the pages of the service.  The tags of every HTML answer are those of a trace with some
    number of records and event types, or those of an approval packet: audit records, titles, plan ids and packets, whatever text
    they hold, contribute none. *)
Theorem pages_inert env rq s page s' :
  serve client a env rq s = (HTMLResponse page, s') ->
  (exists n k, markup page = trace_tags n k) \/ markup page = packet_tags.
Proof.
  unfold serve, detail. destruct (_ && too_large _ _); [done|].
  destruct (handle client a env rq s) as [[r|[z t|e]] s1] eqn:Hh; [|done..]. intros [= -> ->].
  unfold handle in Hh. destruct (_ && match app_inbox a with _ => _ end); [done|]. do 2 binv Hh.
  apply endpoint_page in Hh as [(records & title & ->)|(p & ->)]; [left|right; apply packet_markup].
  do 2 eexists. apply trace_markup.
Qed.

End serve.

(** ** Decisions through the inbox *)

Section redaction.
Context `{PyRuntime}.

(** What the boundary leaves of a text. *)
Definition shown (x : string) : string := if secret_like x then REDACTED else x.
Definition shown_decision (d : ApprovalDecision) : ApprovalDecision := {|
  ad_approval_id := shown (ad_approval_id d); ad_step_hash := shown (ad_step_hash d); ad_decision := ad_decision d;
  ad_decided_at := ad_decided_at d; ad_approver := shown <$> ad_approver d; ad_reason := shown <$> ad_reason d |}.
Lemma shown_twice x : shown (shown x) = shown x.
Proof. unfold shown at 2 3. destruct (secret_like x) eqn:E; [reflexivity|]. unfold shown. by rewrite E. Qed.
Lemma shown_decision_twice d : shown_decision (shown_decision d) = shown_decision d.
Proof.
  unfold shown_decision. simpl. rewrite !shown_twice.
  destruct (ad_approver d), (ad_reason d); simpl; by rewrite ?shown_twice.
Qed.
Definition field_texts (d : dict pyval) : Prop :=
  Forall (fun kv => secret_like kv.1 = false /\ match kv.2 with VStr _ | VNone | VFloat _ => True | _ => False end) d.
Definition shown_val (v : pyval) : pyval := match v with VStr x => VStr (shown x) | v => v end.
Lemma redact_flat p d acc : field_texts d -> NoDup (dkeys d) -> (forall k, k ∈ dkeys d -> k ∉ dkeys acc) ->
  sanitize_mapping (sanitize_for_boundary REDACT) REDACT p d acc = Ok (acc ++ map (fun kv => (kv.1, shown_val kv.2)) d).
Proof.
  revert acc. induction d as [|[k v] d IH]; intros acc Hd Hn Hacc; simpl; [by rewrite app_nil_r|].
  apply Forall_cons in Hd as [[Hk Hv] Hd]. apply NoDup_cons in Hn as [Hnk Hn]. simpl in Hk, Hv.
  rewrite (string_value_clean k) by done. simpl.
  assert (Hs : forall q, sanitize_for_boundary REDACT q v = Ok (shown_val v)).
  { intros q. destruct v; try done. simpl. by rewrite string_value_redact. }
  rewrite Hs. simpl. rewrite dkeys_dset_fresh by (apply Hacc; left).
  rewrite IH; [by rewrite <-app_assoc|done|done|].
  intros j Hj. unfold dkeys. rewrite map_app. simpl. intros [Hin|Hin%list_elem_of_singleton]%elem_of_app; [|by subst].
  apply (Hacc j); [by right|done].
Qed.
Lemma redact_decision d sig : secret_like sig = false ->
  redact_secrets (VDict (decision_document d (Some sig))) = VDict (decision_document (shown_decision d) (Some sig)).
Proof.
  intros Hs. unfold redact_secrets. simpl sanitize_for_boundary.
  pose proof (redact_flat "$" (decision_document d (Some sig)) []) as Hr. unfold decision_document in Hr |- *. simpl in Hr |- *.
  rewrite Hr; clear Hr.
  - assert (Hss : shown sig = sig) by (unfold shown; by rewrite Hs).
    destruct (ad_decision d), (ad_approver d), (ad_reason d); simpl; rewrite Hss; reflexivity.
  - repeat constructor; simpl; try done; by destruct (ad_approver d), (ad_reason d).
  - vm_compute. repeat constructor; set_solver.
  - set_solver.
Qed.
Lemma redact_payload d : redact_secrets (VDict (decision_as_dict d)) = VDict (decision_as_dict (shown_decision d)).
Proof.
  unfold redact_secrets. simpl sanitize_for_boundary.
  pose proof (redact_flat "$" (decision_as_dict d) []) as Hr. simpl in Hr |- *. rewrite Hr; clear Hr.
  - destruct d as [? ? [] ? [] []]; reflexivity.
  - repeat constructor; simpl; try done; by destruct (ad_approver d), (ad_reason d).
  - vm_compute. repeat constructor; set_solver.
  - set_solver.
Qed.
(** The signature covers the decision as it is shown. *)
Lemma sign_shown d secret : sign_approval_decision (shown_decision d) secret = sign_approval_decision d secret.
Proof. unfold sign_approval_decision, decision_signature_payload. by rewrite !redact_payload, shown_decision_twice. Qed.

(** A hexadecimal digest is no secret-like text. *)
Lemma head_not_in lit s : all_chars is_hex s = true -> match lit with String c _ => is_hex c = false | EmptyString => False end -> str_in lit s = false.
Proof.
  destruct lit as [|c lit]; [done|]. intros Hs Hc. induction s as [|x s IH]; [done|]. simpl in Hs. apply andb_true_iff in Hs as [Hx Hs].
  cbn [str_in]. rewrite IH by done. rewrite orb_false_r. simpl. destruct (ascii_dec c x); [congruence|done].
Qed.
Lemma regex_not_in r s prev : all_chars is_hex s = true -> match tr_lit r with String c _ => is_hex c = false | EmptyString => False end ->
  regex_search r prev s = false.
Proof.
  intros Hs Hc. revert prev. induction s as [|x s IH]; intros prev; cbn [regex_search].
  - destruct (tr_lit r) as [|c lit]; [done|]. simpl. by rewrite andb_false_r.
  - simpl in Hs. apply andb_true_iff in Hs as [Hx Hs]. rewrite IH by done. destruct (tr_lit r) as [|c lit]; [done|]. simpl.
    destruct (Ascii.eqb_spec c x); [congruence|]. simpl. by rewrite andb_false_r.
Qed.
Lemma signature_clean h : all_chars is_hex h = true -> secret_like ("hmac-sha256:" +:+ h) = false.
Proof.
  intros Hh. unfold secret_like, secret_string_reason.
  assert (Hin : forall lit, lit = SECRET_MARKER \/ lit = PRIVATE_KEY_HEADER -> str_in lit ("hmac-sha256:" +:+ h) = false).
  { intros lit Hl. assert (Hn : str_in lit h = false) by (apply head_not_in; [done|]; by destruct Hl as [->| ->]).
    destruct Hl as [->| ->]; unfold SECRET_MARKER, PRIVATE_KEY_HEADER in *; simpl; by change ("" +:+ h) with h. }
  rewrite !Hin by auto.
  clear Hin. assert (Hre : forall r, r ∈ TOKEN_REGEXES -> regex_search r false ("hmac-sha256:" +:+ h) = false).
  { intros r Hr. assert (Hn : regex_search r false h = false).
    { apply regex_not_in; [done|]. unfold TOKEN_REGEXES in Hr. repeat (apply elem_of_cons in Hr as [->|Hr]; [done|]). by apply not_elem_of_nil in Hr. }
    unfold TOKEN_REGEXES in Hr. repeat (apply elem_of_cons in Hr as [->|Hr]; [simpl; exact Hn|]). by apply not_elem_of_nil in Hr. }
  destruct (List.find _ TOKEN_REGEXES) as [r|] eqn:Ef; [|done]. apply List.find_some in Ef as [Hr%list_elem_of_In Hf].
  by rewrite Hre in Hf.
Qed.
Lemma signature_ascii h : all_chars is_hex h = true -> is_ascii ("hmac-sha256:" +:+ h) = true.
Proof.
  intros Hh. simpl. change ("" +:+ h) with h. induction h as [|c h IH]; [done|]. simpl in *. apply andb_true_iff in Hh as [Hc Hh].
  rewrite IH by done. rewrite andb_true_r. unfold is_hex, is_digit, ascii_in in Hc. unfold N_of_ascii in Hc.
  apply Nat.ltb_lt. revert Hc. destruct c as [[] [] [] [] [] [] [] []]; vm_compute; intros; try done; lia.
Qed.
(** The gate reads a decision that was written for its packet as it was shown, with its signature. *)
Lemma read_back {G} d sig (x : G * nat) : decision_from_mapping (decision_document d (Some sig)) x = (Ok d, (x.1, S x.2)).
Proof. destruct x, d as [i h [] t [] []]; reflexivity. Qed.
Lemma gate_accepts c secret p d g n :
  all_chars is_hex (hmac_sha256_hex secret (decision_signature_payload d)) = true ->
  fc_require_signature c = true -> fc_signature_secret c = Some secret -> secret <> "" ->
  safe_approval_id (ap_approval_id p) = Ok (ap_approval_id p) ->
  dget (ap_approval_id p +:+ ".json") (fg_decision_dir g) = Some (written_decision d (Some (sign_approval_decision d secret))) ->
  approver_allowlist_issue c (shown_decision d) = None ->
  exists g', file_request_packet c p (g, n) = (Ok (shown_decision d), (g', S n)) /\ fg_last_valid g' = true.
Proof.
  intros Hhex Hc Hsec Hne Hsafe Hf Hallow. eexists. unfold file_request_packet.
  erewrite bind_ok by reflexivity. erewrite bind_ok by (unfold of_res; by rewrite Hsafe). cbv zeta.
  erewrite bind_ok by reflexivity. erewrite bind_ok by reflexivity.
  cbn [fg_decision_dir write_packet set_last]. rewrite Hf. unfold read_decision.
  replace (decision_file_permission_issue c _) with (@None string).
  2: { unfold decision_file_permission_issue. simpl. by destruct (fc_require_private_decision_files c). }
  erewrite bind_ok by (unfold of_res, read_json, written_decision; cbn [df_json];
    rewrite redact_decision by (by apply signature_clean); reflexivity).
  erewrite bind_ok by apply read_back. rewrite Hallow.
  erewrite (bind_ok _ _ _ None).
  2: { unfold of_res, signature_issue. rewrite Hc, Hsec. cbn [negb default]. unfold default, id.
       destruct (String.eqb_spec secret ""); [done|].
       replace (dget "signature" _) with (Some (VStr (sign_approval_decision d secret))) by (by destruct d as [? ? [] ? [] []]).
       destruct (String.eqb_spec (sign_approval_decision d secret) "") as [Hs|]; [by unfold sign_approval_decision in Hs|].
       unfold verify_approval_decision_signature. unfold sign_approval_decision at 1. rewrite signature_ascii by done.
       rewrite sign_shown, String.eqb_refl. reflexivity. }
  rewrite Hc. split; reflexivity.
Qed.

(** The identifiers of a packet in the file the gate writes. *)
Lemma redact_entry p d acc w : sanitize_mapping (sanitize_for_boundary REDACT) REDACT p d acc = Ok w ->
  Forall (fun kv => secret_like kv.1 = false) d -> NoDup (dkeys d) -> forall k,
  (k ∉ dkeys d -> dget k w = dget k acc) /\ (forall x, dget k d = Some (VStr x) -> dget k w = Some (VStr (shown x))).
Proof.
  revert acc. induction d as [|[k0 v] d IH]; intros acc; simpl; [by intros [= <-] _ _ k|].
  intros Hw [Hk Hd]%Forall_cons [Hn Hnd]%NoDup_cons k. simpl in Hk. rewrite (string_value_clean k0) in Hw by done. simpl in Hw.
  destruct (sanitize_for_boundary REDACT _ v) as [y|] eqn:Ey; [|done]. simpl in Hw.
  destruct (IH _ Hw Hd Hnd k) as [IH1 IH2]. split.
  - intros Hk2. rewrite IH1 by set_solver. apply dget_dset_ne. set_solver.
  - intros x. destruct (String.eqb_spec k k0) as [->|Hne]; [|apply IH2]. intros [= ->]. rewrite IH1 by done. rewrite dget_dset_eq.
    simpl in Ey. rewrite string_value_redact in Ey. by injection Ey as <-.
Qed.
Lemma packet_ids now w q : packet_from_mapping now w = Ok q ->
  Ok (ap_approval_id q) = str_item "approval_id" w /\ Ok (ap_step_hash q) = str_item "step_hash" w.
Proof.
  unfold packet_from_mapping. intros Hq. repeat (apply res_bind_ok in Hq as (? & ? & Hq)). injection Hq as <-. by split.
Qed.
Lemma written_packet_ids p now data q :
  read_json {| df_mode := Some 384%Z; df_json := Ok (redact_secrets (VDict (packet_as_dict p))) |} = Ok data -> packet_from_mapping now data = Ok q ->
  ap_approval_id q = shown (ap_approval_id p) /\ ap_step_hash q = shown (ap_step_hash p).
Proof.
  unfold read_json, redact_secrets. cbn [df_json res_bind sanitize_for_boundary]. intros Hd Hq.
  destruct (sanitize_mapping _ _ _ _ _) as [w|] eqn:Ew; [|done]. injection Hd as ->.
  pose proof (redact_entry _ _ _ _ Ew) as He. destruct (packet_ids _ _ _ Hq) as [Hi Hh].
  assert (Hkeys : Forall (fun kv => secret_like kv.1 = false) (packet_as_dict p)) by (repeat constructor).
  assert (Hnd : NoDup (dkeys (packet_as_dict p))).
  { change (dkeys (packet_as_dict p)) with (map fst (packet_as_dict p)). cbn [packet_as_dict map fst].
    apply (bool_decide_unpack _). vm_compute. exact I. }
  destruct (He Hkeys Hnd "approval_id") as [_ H1]. destruct (He Hkeys Hnd "step_hash") as [_ H2].
  unfold str_item, dget_item in Hi, Hh. rewrite (H1 _ eq_refl) in Hi. rewrite (H2 _ eq_refl) in Hh. simpl in Hi, Hh. by simplify_eq.
Qed.
End redaction.

Section inbox.
Context `{PyRuntime} `{JsonText} `{JsonSchemaValidator} `{ToolPlatform} `{AppPlatform} `{ServerClock}.
Context {C T : Type} `{GitHubTransport T} (client : GitHubClient C) (a : App).
Implicit Types s : Server C T.

(** No request changes a decision that is there. *)
Definition decisions_kept : relation (Server C T) := fun s s' =>
  forall name f, dget name (ib_decisions (sv_inbox s)) = Some f -> dget name (ib_decisions (sv_inbox s')) = Some f.
#[local] Instance decisions_kept_preorder : PreOrder decisions_kept.
Proof. split; [by intros s name f|intros x y z Hxy Hyz name f Hf; auto]. Qed.
Abbreviation DK := (keeps decisions_kept).
Lemma same_inbox {A} (m : M (Server C T) fault A) : (forall s, sv_inbox (snd (m s)) = sv_inbox s) -> DK m.
Proof. intros Hm s name f. by rewrite Hm. Qed.
Lemma op_inbox {A} (m : M (OpState C) exn A) s : sv_inbox (snd (op m s)) = sv_inbox s.
Proof. unfold op. by destruct (m (sv_op s)). Qed.
Lemma op_dk {A} (m : M (OpState C) exn A) : DK (op m).
Proof. apply same_inbox, op_inbox. Qed.
Lemma unlogged_dk {A} (m : M (OpState C) exn A) : DK (unlogged m).
Proof. apply same_inbox. intros s. unfold unlogged. by rewrite op_inbox. Qed.
Lemma audited_dk {A} dir file (m : M (OpState C) exn A) : DK (audited dir file m).
Proof. apply same_inbox. intros s. unfold audited. by destruct (m _). Qed.
Lemma failing_dk {A} (m : M (Server C T) fault A) caught z text : DK m -> DK (failing m caught z text).
Proof. intros Hm. unfold failing. apply keeps_catch; [apply _|done|]. intros [? ?|e]; [apply keeps_raise, _|]. destruct (caught e); apply keeps_raise, _. Qed.
Lemma auth_dk {A} (m : M (AuthState (C:=T)) exn A) : DK (auth m).
Proof. apply same_inbox. intros s. unfold auth. by destruct (m _). Qed.
Lemma budget_dk : DK require_write_budget.
Proof. apply same_inbox. intros s. unfold require_write_budget. destruct (sv_bucket s) as [b|]; [|done]. by destruct (bucket_allow _ _) as [[] b']. Qed.
Lemma time_dk : DK now_ns.
Proof. by apply same_inbox. Qed.
#[local] Hint Resolve op_dk unlogged_dk audited_dk failing_dk auth_dk budget_dk time_dk : keeps.
Lemma pending_dk l : DK (pending l).
Proof. induction l as [|x l IH]; cbn [pending]; keeps_auto; exact IH. Qed.
#[local] Hint Resolve pending_dk : keeps.
Lemma credential_dk env : DK (credential (C:=C) env).
Proof. unfold credential. keeps_auto. Qed.
#[local] Hint Resolve credential_dk : keeps.
Ltac opened := unfold hmac_secret, safe_plan_id, load_audit_records, read_packet, http, pure.
(** The path of a decision that is recorded. *)
Definition decided (r : Response) : Prop := exists c, r = JSONResponse 200 (VDict c) /\ dmem "decision" c = true.
Record recorded (env : dict string) (id : string) (body : dict pyval) s s' : Prop := {
  rd_new : dmem (id +:+ ".json") (ib_decisions (sv_inbox s)) = false;
  rd_secret : env_value "LEOS_APPROVAL_HMAC_SECRET" env <> "";
  rd_file : exists f now now' p v, dget (id +:+ ".json") (ib_packets (sv_inbox s)) = Some f /\
    res_bind (read_json f) (packet_from_mapping now) = Ok p /\ enum_of (A:=ApprovalDecisionValue) (str_entry "decision" body) = Ok v /\
    let d := {| ad_approval_id := ap_approval_id p; ad_step_hash := ap_step_hash p; ad_decision := v; ad_decided_at := now';
                ad_approver := str_or_none (str_entry "approver" body); ad_reason := opt_str "reason" body |} in
    dget (id +:+ ".json") (ib_decisions (sv_inbox s')) =
      Some (written_decision d (Some (sign_approval_decision d (env_value "LEOS_APPROVAL_HMAC_SECRET" env))));
}.
Lemma read_packet_inv id s p s' : read_packet (C:=C) (T:=T) id s = (Ok p, s') -> sv_inbox s' = sv_inbox s /\
  exists f now, dget (id +:+ ".json") (ib_packets (sv_inbox s)) = Some f /\ res_bind (read_json f) (packet_from_mapping now) = Ok p.
Proof.
  unfold read_packet. destruct (safe_id id); [|done]. intros Hr. binv Hr. injection Hm as <- <-.
  destruct (dget _ _) as [f|] eqn:Ef; [|done]. pose proof (op_inbox (read_approval_packet f) s) as Hi.
  rewrite Hr in Hi. simpl in Hi. split; [done|]. exists f. revert Hr. unfold op.
  destruct (read_approval_packet f (sv_op s)) as [r o] eqn:Er. intros [= Hr _]. destruct r as [x|]; [|done]. injection Hr as ->.
  unfold read_approval_packet in Er. binv Er. apply of_res_ok in Hm as [Hj ->]. binv Er. apply of_res_ok in Er as [Hp _].
  exists a1. split; [done|]. by rewrite Hj.
Qed.
Lemma post_inbox_decide_run env id body s r s' : post_inbox_decide (C:=C) (T:=T) env id body s = (r, s') ->
  decisions_kept s s' /\ (is_ok r = true -> recorded env id body s s').
Proof.
  unfold post_inbox_decide. intros Hr.
  apply bind_inv in Hr as [(e & Hm & ->)|(p & s1 & Hm & Hr)].
  { split; [|done]. assert (DK (read_packet (C:=C) (T:=T) id)) as Hk by (unfold read_packet, http; keeps_auto). specialize (Hk s). by rewrite Hm in Hk. }
  apply read_packet_inv in Hm as [Hi (f & now & Hf & Hp)].
  apply bind_inv in Hr as [(e & Hm & ->)|(secret & s2 & Hm & Hr)].
  { split; [|done]. revert Hm. unfold hmac_secret. destruct (String.eqb _ _); [|done]. intros [= _ <-] name g. by rewrite Hi. }
  apply hmac_ok in Hm as (-> & -> & Hne). binv Hr; injection Hm as <- <-.
  rewrite Hi in Hr. destruct (dmem _ (ib_decisions (sv_inbox s))) eqn:Ed; [injection Hr as <- <-; split; [intros name g; by rewrite Hi|done]|].
  apply bind_inv in Hr as [(e & Hm & ->)|(d & s3 & Hm & Hr)].
  { split; [|done]. assert (DK (failing (C:=C) (T:=T) (op (build_decision_for_packet p (str_entry "decision" body) (str_or_none (str_entry "approver" body)) (opt_str "reason" body)))
      (fun e => isinstance e ValueError) 400 (fun e => "invalid decision: " +:+ exn_str e))) as Hk by auto with keeps.
    specialize (Hk s1). rewrite Hm in Hk. intros name g Hg. apply Hk. by rewrite Hi. }
  apply failing_ok in Hm. pose proof (op_inbox (build_decision_for_packet p (str_entry "decision" body) (str_or_none (str_entry "approver" body)) (opt_str "reason" body)) s1) as Hi3.
  rewrite Hm in Hi3. simpl in Hi3. rewrite Hi in Hi3. injection Hr as <- <-. simpl. rewrite Hi3. split.
  - intros name g Hg. simpl. destruct (decide (name = id +:+ ".json")) as [->|Hn]; [|by rewrite dget_dset_ne].
    unfold dmem in Ed. by rewrite Hg in Ed.
  - intros _. split; [done|done|]. revert Hm. unfold op.
    destruct (build_decision_for_packet p _ _ _ (sv_op s1)) as [rd o] eqn:Eb. intros [= Hrd _]. destruct rd as [x|]; [|done]. injection Hrd as ->.
    unfold build_decision_for_packet in Eb. binv Eb. apply of_res_ok in Hm as [Hv ->]. binv Eb. injection Eb as <- _.
    exists f, now. eexists _, p, _. split; [done|]. split; [done|]. split; [exact Hv|]. simpl. rewrite dget_dset_eq. reflexivity.
Qed.
Lemma endpoint_dk env e : DK (endpoint client a env e).
Proof.
  destruct e; simpl; [apply keeps_ret, _|unfold readyz|unfold post_plans|unfold post_plans_validate|unfold post_approvals|
    unfold post_approvals_decide|unfold post_apply|unfold get_audit|unfold get_trace|unfold get_inbox|unfold get_inbox_packet|
    intros s; by destruct (post_inbox_decide env approval_id body s) as [r s'] eqn:E; apply post_inbox_decide_run in E as [? _]]; opened; keeps_auto.
Qed.
Lemma serve_decisions env rq s : decisions_kept s (snd (serve client a env rq s)).
Proof.
  assert (Hk : DK (handle client a env rq)).
  { pose proof endpoint_dk. unfold handle, when, require_api_key. opened. keeps_auto. }
  unfold serve. destruct (_ && _); [simpl; reflexivity|]. specialize (Hk s). by destruct (handle client a env rq s) as [[r|[]] s'].
Qed.

Fixpoint serve_all (l : list (dict string * Request)) s : Server C T :=
  match l with [] => s | (env, rq) :: l' => serve_all l' (snd (serve client a env rq s)) end.
Lemma serve_all_decisions l s : decisions_kept s (serve_all l s).
Proof.
  revert s. induction l as [|[env rq] l IH]; intros s; simpl; [reflexivity|]. etrans; [apply serve_decisions|apply IH].
Qed.
Lemma serve_recorded env rq id body s r s' :
  rq_endpoint rq = PostInboxDecide id body -> serve client a env rq s = (r, s') -> decided r -> recorded env id body s s'.
Proof.
  intros He Hs Hd. unfold serve in Hs. destruct (_ && _); [by injection Hs as <- _; destruct Hd as (c & [= <-] & ?)|].
  destruct (handle client a env rq s) as [[r0|[z t|e]] s1] eqn:Hh; simplify_eq; [|by destruct Hd as (c & [= _ <-] & ?)|by destruct Hd as (c & ? & _)].
  unfold handle in Hh. rewrite He in Hh. destruct (inbox_endpoint _ && _); [done|]. simpl in Hh.
  binv Hh. apply require_api_key_inv in Hm as [-> _].
  binv Hh. assert (Hi : sv_inbox s0 = sv_inbox s).
  { revert Hm. unfold require_write_budget. destruct (sv_bucket s) as [b|]; [|by intros [= _ <-]].
    destruct (bucket_allow _ _) as [[] b']; [|done]. by intros [= _ <-]. }
  destruct (post_inbox_decide_run _ _ _ _ _ _ Hh) as [_ Hrec]. destruct (Hrec eq_refl) as [N S F].
  rewrite Hi in N, F. by split.
Qed.

(** C19: A decision recorded in the inbox is the one the file gate takes, and it stays.  Suppose the gate wrote the packet of a
    step, whose id is no secret-like text, into the inbox of the service and requires signatures under the service's
    secret.  When POST /inbox/{id}/decide is answered with a decision, none was recorded before; and whatever requests the
    service gets afterwards, the gate that next asks for the packet answers with that decision, with the
    packet's own id and step hash, and with its signature verified - as long as the allow-list has the
    approver.  The decision is redacted on its way, and its signature still holds. *)
Theorem inbox_decision_reaches_gate c p g n env rq body s r s' later :
  let id := ap_approval_id p in let secret := env_value "LEOS_APPROVAL_HMAC_SECRET" env in
  (forall k m, all_chars is_hex (hmac_sha256_hex k m) = true) ->
  fc_require_signature c = true -> fc_signature_secret c = Some secret ->
  (forall allowed, fc_allowed_approvers c = Some allowed ->
     str_entry "approver" body <> "" /\ shown (str_entry "approver" body) ∈ allowed) ->
  safe_approval_id id = Ok id -> secret_like id = false -> secret_like (ap_step_hash p) = false ->
  dget (id +:+ ".json") (ib_packets (sv_inbox s)) =
    Some {| df_mode := Some 384%Z; df_json := Ok (redact_secrets (VDict (packet_as_dict p))) |} ->
  rq_endpoint rq = PostInboxDecide id body -> serve client a env rq s = (r, s') -> decided r ->
  fg_decision_dir g = ib_decisions (sv_inbox (serve_all later s')) ->
  dmem (id +:+ ".json") (ib_decisions (sv_inbox s)) = false /\
  exists d g', file_request_packet c p (g, n) = (Ok d, (g', S n)) /\ ad_approval_id d = id /\ ad_step_hash d = ap_step_hash p /\
    enum_of (str_entry "decision" body) = Ok (ad_decision d) /\ fg_last_valid g' = true.
Proof.
  intros id secret Hhex Hc Hsec Hallow Hsafe Hid Hhash Hp He Hs Hd Hg.
  destruct (serve_recorded _ _ _ _ _ _ _ He Hs Hd) as [Hnew Hne (f & now & now' & q & v & Hf & Hq & Hv & Hw)].
  split; [exact Hnew|]. rewrite Hp in Hf. injection Hf as <-.
  destruct (read_json _) as [data|] eqn:Hj; [|done]. simpl in Hq. destruct (written_packet_ids _ _ _ _ Hj Hq) as [Hqi Hqh].
  unfold shown in Hqi, Hqh. rewrite Hhash in Hqh. fold id in Hqi. rewrite Hid in Hqi.
  apply (serve_all_decisions later) in Hw. rewrite <-Hg in Hw. cbv zeta in Hw. rewrite Hqi, Hqh in Hw.
  set (d := {| ad_approval_id := id |}) in Hw.
  destruct (gate_accepts c secret p d g n) as (g' & Hrun & Hlast); [apply Hhex|done|done|done|done|exact Hw| |].
  - unfold approver_allowlist_issue. destruct (fc_allowed_approvers c) as [allowed|]; [|done].
    destruct (Hallow allowed eq_refl) as [Hn Hin]. simpl. unfold str_or_none. destruct (String.eqb_spec (str_entry "approver" body) ""); [done|].
    simpl. by rewrite (proj2 (str_mem_elem _ _) Hin).
  - exists (shown_decision d), g'. split; [exact Hrun|]. simpl. unfold shown. by rewrite Hid, Hhash.
Qed.
End inbox.

(** ** The service in front of the scripted GitHub server *)

#[local] Existing Instance op_json.
#[local] Existing Instance op_server.
#[local] Instance web_platform : AppPlatform := {|
  app_clock n := f_of_Z (Z.of_nat n); jwt_encode _ _ := Ok "jwt"; iso_timestamp _ := None; read_key_file _ := Ok "key" |}.
#[local] Instance web_clock : ServerClock := {| monotonic n := f_of_Z (Z.of_nat n); time_ns n := Z.of_nat n |}.
Definition WEB_KEY : string := "0123456789abcdef0123456789abcdef".
Definition web_env : dict string :=
  [("LEOS_SERVER_API_KEY", "old-key-old-key-old-key-old-key-old, " +:+ WEB_KEY); ("LEOS_ENABLE_REAL_GITHUB_WRITES", "1");
   ("LEOS_APPROVAL_HMAC_SECRET", "key"); ("LEOS_GITHUB_TOKEN", "ghp_secret")].
Definition web_app : App := {|
  app_keys := ["old-key-old-key-old-key-old-key-old"; WEB_KEY]; app_data_dir := "data"; app_inbox := Some "inbox"; app_rate := 60; app_max_body := 1000000 |}.
Definition web_server : Server (list HTTPRequest) (list HTTPRequest) := {|
  sv_op := op_state0; sv_auth := {| au_transport := []; au_clock := 0; au_providers := ∅ |};
  sv_bucket := write_bucket web_app fzero; sv_ticks := 0; sv_audits := []; sv_inbox := {| ib_packets := []; ib_decisions := [] |} |}.
Definition web_request (key : option string) (e : Endpoint) : dict string * Request :=
  (web_env, {| rq_api_key := key; rq_content_length := Some "4096"; rq_endpoint := e |}).
Definition web_apply : Endpoint := PostApply
  [("plan", VDict (pc_plan op_prepared)); ("approval", VDict (pc_approval op_prepared)); ("decision", VDict op_decision)].
Definition web_plan_id : string := Eval vm_compute in str_entry "plan_id" (pc_plan op_prepared).
Definition web_requests : list (dict string * Request) :=
  [web_request None web_apply; web_request (Some WEB_KEY) web_apply; web_request (Some WEB_KEY) web_apply;
   web_request (Some WEB_KEY) (GetTrace web_plan_id)].
Definition web_history : list Exchange := history op_client web_app web_requests web_server.
Definition answers (r : Response) : bool :=
  match r with JSONResponse 200 (VDict c) => match dget "ok" c with Some (VBool true) => true | _ => false end | _ => false end.
Lemma answers_apply r : answers r = true -> apply_answer r.
Proof.
  destruct r as [z c| |]; [|done..]. destruct z as [|p|]; [done| |done]. simpl.
  do 8 (destruct p as [p|p|]; try done). destruct c; try done. intros Hd. eexists. split; [done|].
  destruct (dget "ok" d) as [[]|]; try done. by destruct b.
Qed.
Definition web_summary (h : list (Exchange (C:=list HTTPRequest) (T:=list HTTPRequest))) : list Z * list bool * nat :=
  (map (fun x => http_status (ex_response x)) h, map (fun x => answers (ex_response x)) h,
   match last h with Some x => match ex_response x with HTMLResponse page => length (filter (String.eqb "tr") (markup page)) | _ => 0%nat end | None => 0%nat end).
Lemma web_summary_inv h zs n : web_summary h = (zs, [false; true; false; false], n) ->
  exists x y, h !! 1%nat = Some x /\ h !! 2%nat = Some y /\ answers (ex_response x) = true.
Proof. intros E. destruct h as [|x0 [|x [|y h]]]; [discriminate E..|]. exists x, y. split; [done|]. split; [done|].
  pose proof (f_equal (fun t => t.1.2 !! 1%nat) E) as E2. by injection E2. Qed.

Definition hostile_event : pyval :=
  VDict [("event_type", VStr "<script>x</script>"); ("message", VStr "</td><img src=x>"); ("payload", VDict [("a<b", VStr "</pre>")])].
Definition traced_server : Server (list HTTPRequest) (list HTTPRequest) :=
  set_audits [("p", [("apply-1.jsonl", [LDoc hostile_event])])] web_server.
Definition trace_request : Request := (web_request (Some WEB_KEY) (GetTrace "p")).2.
Definition traced_page : string := Eval vm_compute in
  match serve op_client web_app web_env trace_request traced_server with (HTMLResponse page, _) => page | _ => "" end.
Lemma pages_inert_witness :
  str_in "&lt;script&gt;" traced_page = true /\ ((exists n k, markup traced_page = trace_tags n k) \/ markup traced_page = packet_tags).
Proof.
  split; [vm_compute; reflexivity|].
  apply (pages_inert op_client web_app web_env trace_request traced_server traced_page (snd (serve op_client web_app web_env trace_request traced_server))).
  vm_compute. reflexivity.
Defined.

(** A packet the gate wrote, decided through the inbox, and asked for again after other requests. *)
Definition web_gate_config : FileGateConfig := {|
  fc_allowed_approvers := Some ["ann"]; fc_require_private_decision_files := true; fc_signature_secret := Some "key"; fc_require_signature := true |}.
Definition web_gate0 : FileGate := {|
  fg_packet_dir := []; fg_decision_dir := []; fg_consumed := []; fg_last_valid := false; fg_last_algorithm := None |}.
Definition web_gate1 : FileGate := Eval vm_compute in (snd (file_request_packet web_gate_config toy_packet (web_gate0, 0%nat))).1.
Definition inbox_server : Server (list HTTPRequest) (list HTTPRequest) :=
  set_inbox {| ib_packets := map (fun kv => (kv.1, {| df_mode := Some 384%Z; df_json := Ok kv.2 |})) (fg_packet_dir web_gate1); ib_decisions := [] |} web_server.
Definition decide_request (value : string) : dict string * Request :=
  web_request (Some WEB_KEY) (PostInboxDecide (ap_approval_id toy_packet) [("decision", VStr value); ("approver", VStr "ann"); ("reason", VStr "ok")]).
Definition later_requests : list (dict string * Request) := [decide_request "deny"; web_request (Some WEB_KEY) GetInbox].
Definition decided_server := Eval vm_compute in snd (serve op_client web_app web_env (decide_request "approve").2 inbox_server).
Definition web_gate2 : FileGate := {|
  fg_packet_dir := fg_packet_dir web_gate1; fg_decision_dir := ib_decisions (sv_inbox (serve_all op_client web_app later_requests decided_server));
  fg_consumed := []; fg_last_valid := false; fg_last_algorithm := None |}.
Lemma inbox_decision_reaches_gate_witness :
  map (fun x => http_status (ex_response x)) (history op_client web_app later_requests decided_server) = [409; 200]%Z /\
  exists d g', file_request_packet web_gate_config toy_packet (web_gate2, 7%nat) = (Ok d, (g', 8%nat)) /\ ad_decision d = AD_APPROVE /\ fg_last_valid g' = true.
Proof.
  split; [vm_compute; reflexivity|].
  destruct (inbox_decision_reaches_gate op_client web_app web_gate_config toy_packet web_gate2 7 web_env (decide_request "approve").2
    [("decision", VStr "approve"); ("approver", VStr "ann"); ("reason", VStr "ok")] inbox_server
    (fst (serve op_client web_app web_env (decide_request "approve").2 inbox_server)) decided_server later_requests)
    as [_ (d & g' & Hr & _ & _ & Hv & Hl)].
  - intros k m. apply toy_hash_hex.
  - reflexivity.
  - reflexivity.
  - intros allowed [= <-]. split; [done|]. vm_compute. left.
  - vm_compute. reflexivity.
  - vm_compute. reflexivity.
  - vm_compute. reflexivity.
  - vm_compute. reflexivity.
  - reflexivity.
  - vm_compute. reflexivity.
  - eexists. split; [vm_compute; reflexivity|reflexivity].
  - reflexivity.
  - exists d, g'. split; [exact Hr|]. split; [by injection Hv|exact Hl].
Defined.
(** ** The configuration *)

Section config.
Context `{PyRuntime}.
Context (toml_load : option (string -> res exn pyval)) (toml_exists : string -> bool).

Lemma fold_entries_get {A} (skip : A -> option pyval) (l : dict A) (v : dict pyval) k : NoDup (dkeys l) ->
  dget k (fold_left (fun d kv => match skip kv.2 with Some x => dset kv.1 x d | None => d end) l v) =
  match dget k l with Some y => match skip y with Some x => Some x | None => dget k v end | None => dget k v end.
Proof.
  revert v. induction l as [|[k0 y] l IH]; intros v; [done|]. intros [Hn Hl]%NoDup_cons. simpl. rewrite IH by done.
  destruct (String.eqb_spec k k0) as [->|Hne].
  - apply dget_None in Hn. cbn [fst snd] in *. rewrite Hn. destruct (skip y); [apply dget_dset_eq|done].
  - destruct (skip y); [by rewrite dget_dset_ne|done].
Qed.
(** The value of a setting: the override, else the environment variable, else the entry of the file. *)
Definition setting (env : dict string) (overrides table : dict pyval) (k : string) : option pyval :=
  match dget k overrides with
  | Some v => if is_none v then match dget k SETTING_ENV_VARS with
                | Some n => if String.eqb (env_value n env) "" then dget k table else Some (VStr (env_value n env)) | None => dget k table end
              else Some v
  | None => match dget k SETTING_ENV_VARS with
            | Some n => if String.eqb (env_value n env) "" then dget k table else Some (VStr (env_value n env)) | None => dget k table end
  end.
Lemma with_env_get env v k : dget k (with_env env v) =
  match dget k SETTING_ENV_VARS with
  | Some n => if String.eqb (env_value n env) "" then dget k v else Some (VStr (env_value n env)) | None => dget k v end.
Proof.
  unfold with_env. pose proof (fold_entries_get (fun n => if String.eqb (env_value n env) "" then None else Some (VStr (env_value n env)))
    SETTING_ENV_VARS v k) as Hf.
  assert (Hn : NoDup (dkeys SETTING_ENV_VARS)) by (apply (bool_decide_unpack _); vm_compute; exact I). specialize (Hf Hn).
  etrans; [|etrans; [exact Hf|]].
  - f_equal. unfold SETTING_ENV_VARS. simpl. repeat case_match; reflexivity.
  - destruct (dget k SETTING_ENV_VARS); [|done]. by destruct (String.eqb _ "").
Qed.
Lemma settings_get env overrides table k : NoDup (dkeys overrides) ->
  dget k (with_overrides overrides (with_env env table)) = setting env overrides table k.
Proof.
  intros Hn. unfold with_overrides, setting.
  pose proof (fold_entries_get (fun v => if is_none v then None else Some v) overrides (with_env env table) k Hn) as Hf.
  etrans; [|etrans; [exact Hf|]].
  - f_equal. clear. generalize (with_env env table) as d. induction overrides as [|[k0 v] l IH]; intros d; [done|]. simpl. rewrite <-IH.
    by destruct (is_none v).
  - rewrite with_env_get. destruct (dget k overrides) as [v|]; [|done]. by destruct (is_none v).
Qed.

(** The files the service reads settings from. *)
Definition config_file (p : option string) (env : dict string) : string :=
  match p with Some f => f | None => if String.eqb (env_value CONFIG_PATH_ENV env) "" then DEFAULT_CONFIG_FILENAME else env_value CONFIG_PATH_ENV env end.
Definition table_of (file : string) (table : dict pyval) : Prop :=
  (toml_exists file = false /\ table = []) \/
  (toml_exists file = true /\ exists load d, toml_load = Some load /\ load file = Ok (VDict d) /\ table = lowered d /\
   forall k, k ∈ dkeys table -> k ∈ ALLOWED_TOML_KEYS /\ k ∉ SECRET_TOML_KEYS).
Lemma no_keys keys (d : dict pyval) : listed keys d = [] -> forall k, k ∈ dkeys d -> k ∉ keys.
Proof.
  unfold listed. intros Hl k Hk Hin. assert (Hp : py_sorted (List.filter (fun k => str_mem k keys) (dkeys d)) ≡ₚ []) by by rewrite Hl.
  rewrite py_sorted_perm in Hp. symmetry in Hp. apply Permutation_nil in Hp.
  assert (Hf : In k (List.filter (fun k => str_mem k keys) (dkeys d))).
  { apply filter_In. split; [by apply list_elem_of_In|by apply str_mem_elem]. }
  by rewrite Hp in Hf.
Qed.
Lemma only_keys keys (d : dict pyval) : unlisted keys d = [] -> forall k, k ∈ dkeys d -> k ∈ keys.
Proof.
  unfold unlisted. intros Hl k Hk. assert (Hp : py_sorted (List.filter (fun k => negb (str_mem k keys)) (dkeys d)) ≡ₚ []) by by rewrite Hl.
  rewrite py_sorted_perm in Hp. symmetry in Hp. apply Permutation_nil in Hp. apply str_mem_elem. destruct (str_mem k keys) eqn:E; [done|]. exfalso.
  assert (Hf : In k (List.filter (fun k => negb (str_mem k keys)) (dkeys d))).
  { apply filter_In. split; [by apply list_elem_of_In|by rewrite E]. }
  by rewrite Hp in Hf.
Qed.
Lemma read_toml_table file table : read_toml toml_load file = Ok table -> toml_exists file = true -> table_of file table.
Proof.
  unfold read_toml, checked_table. intros Hr He. right. split; [done|]. destruct toml_load as [load|]; [|done]. exists load.
  destruct (load file) as [doc|e] eqn:El; [|by destruct (_ || _)]. destruct doc; try done.
  destruct (listed _ _) eqn:E1; [|done]. destruct (unlisted _ _) eqn:E2; [|done]. injection Hr as <-.
  eexists. split; [done|]. split; [done|]. split; [done|]. intros k Hk. split; [by apply (only_keys _ _ E2)|by apply (no_keys _ _ E1)].
Qed.
Lemma int_value_ok name v z : int_value name v = Ok z -> py_int v = Ok z.
Proof. unfold int_value. destruct (py_int v); [done|]. by destruct (_ || _). Qed.
Lemma load_inv p env overrides c : load_server_config toml_load toml_exists p env overrides = Ok c ->
  exists table, table_of (config_file p env) table /\ validate_config (with_overrides overrides (with_env env table)) = Ok c.
Proof.
  unfold load_server_config. fold (config_file p env).
  assert (Hf : default DEFAULT_CONFIG_FILENAME (match p with Some _ => p | None => if String.eqb (env_value CONFIG_PATH_ENV env) "" then None else Some (env_value CONFIG_PATH_ENV env) end) = config_file p env).
  { unfold config_file. destruct p; [done|]. by destruct (String.eqb _ ""). }
  cbv zeta. rewrite Hf. destruct (match _ with Some _ => _ | None => false end); [done|].
  destruct (toml_exists (config_file p env)) eqn:Ee.
  - intros (table & Hr & Hv)%res_bind_ok. exists table. split; [by apply read_toml_table|done].
  - intros Hv. exists []. split; [by left|exact Hv].
Qed.

(** C22: The settings of the service are exactly the configured ones, within their bounds, and never secrets from a file.  When
    loading succeeds, there is a table - empty when the file does not exist, else what the TOML parser gave for it with
    lower-case keys, all of them allowed keys and none the name of a secret - such that every setting is the override if one is
    given, else the environment variable if it is not empty, else the entry of the table, else the default; the port is in
    1..65535, there is a worker, the host is not blank and the two limits are not negative. *)
Theorem server_config_exact p env overrides c :
  NoDup (dkeys overrides) -> load_server_config toml_load toml_exists p env overrides = Ok c ->
  exists table, table_of (config_file p env) table /\
  let get k dflt := default dflt (setting env overrides table k) in
  sc_host c = py_str (get "host" (VStr "127.0.0.1")) /\ py_strip (sc_host c) <> "" /\
  py_int (get "port" (VInt 8080)) = Ok (sc_port c) /\ (1 <= sc_port c <= 65535)%Z /\
  py_int (get "workers" (VInt 1)) = Ok (sc_workers c) /\ (1 <= sc_workers c)%Z /\
  sc_data_dir c = py_str (get "data_dir" (VStr "leos-data")) /\
  sc_inbox_dir c = (if truthy (get "inbox_dir" VNone) then Some (py_str (get "inbox_dir" VNone)) else None) /\
  py_int (get "rate_limit_per_minute" (VInt 60)) = Ok (sc_rate_limit_per_minute c) /\ (0 <= sc_rate_limit_per_minute c)%Z /\
  py_int (get "max_body_bytes" (VInt 1000000)) = Ok (sc_max_body_bytes c) /\ (0 <= sc_max_body_bytes c)%Z.
Proof.
  intros Hn Hl. destruct (load_inv _ _ _ _ Hl) as (table & Ht & Hv). exists table. split; [exact Ht|]. cbv zeta.
  unfold validate_config, dget_or in Hv. rewrite !settings_get in Hv by done. cbv zeta in Hv.
  destruct (String.eqb_spec (py_strip (py_str (default (VStr "127.0.0.1") (setting env overrides table "host")))) "") as [|Hh]; [done|].
  apply res_bind_ok in Hv as (port & Hport%int_value_ok & Hv). destruct ((1 <=? port) && (port <=? 65535))%Z eqn:Ep; [|done]. simpl in Hv.
  apply res_bind_ok in Hv as (workers & Hw%int_value_ok & Hv). destruct (workers <? 1)%Z eqn:Ew; [done|].
  apply res_bind_ok in Hv as (rate & Hr%int_value_ok & Hv). apply res_bind_ok in Hv as (mb & Hm%int_value_ok & Hv).
  destruct ((rate <? 0) || (mb <? 0))%Z eqn:Eb; [done|]. injection Hv as <-. simpl.
  apply andb_true_iff in Ep as [?%Z.leb_le ?%Z.leb_le]. apply Z.ltb_ge in Ew. apply orb_false_iff in Eb as [?%Z.ltb_ge ?%Z.ltb_ge].
  by split_and!.
Qed.

(** [int(str(n))] *)
Lemma digits_of_N x s b : (0 < x)%N -> digits_value (pretty_N_go x s) b 0 = digits_value s true (Z.of_N x).
Proof.
  revert s b. induction (N.lt_wf_0 x) as [x _ IH]; intros s b Hx. rewrite pretty_N_go_step by done.
  assert (Hd : forall b acc, digits_value (String (pretty_N_char (x `mod` 10)) s) b acc = digits_value s true (acc * 10 + Z.of_N (x `mod` 10))%Z).
  { intros b' acc. assert (Hm : (x `mod` 10 < 10)%N) by (apply N.mod_lt; lia). revert Hm. generalize (x `mod` 10)%N. intros m Hm.
    assert (m = 0 \/ m = 1 \/ m = 2 \/ m = 3 \/ m = 4 \/ m = 5 \/ m = 6 \/ m = 7 \/ m = 8 \/ m = 9)%N as Hc by lia.
    repeat (destruct Hc as [->|Hc]; [reflexivity|]). by subst m. }
  assert (Hq : (Z.of_N x = Z.of_N (x `div` 10) * 10 + Z.of_N (x `mod` 10))%Z) by (pose proof (N.div_mod x 10 ltac:(done)); lia).
  destruct (decide (x `div` 10 = 0)%N) as [Hz|Hz].
  - rewrite Hz, pretty_N_go_0, Hd. f_equal. rewrite Hq, Hz. lia.
  - rewrite IH; [|by apply N.div_lt|by apply N.neq_0_lt_0]. rewrite Hd. f_equal. by rewrite <-Hq.
Qed.
Lemma no_strip s : all_chars (fun c => negb (is_space c)) s = true -> py_strip s = s.
Proof.
  intros Hs. unfold py_strip, strip_chars.
  assert (Hl : strip_left is_space s = s) by (destruct s as [|c s]; [done|]; simpl in *; by destruct (is_space c)). rewrite Hl. clear Hl.
  induction s as [|c s IH]; [done|]. simpl in *. apply andb_true_iff in Hs as [Hc Hs]. rewrite IH by done. by destruct s, (is_space c).
Qed.
Lemma int_of_str_Z n : int_of_str (str_Z n) = Some n.
Proof.
  unfold int_of_str. rewrite no_strip by (apply str_Z_chars; [intros k; by apply (digit_char k (fun c => negb (is_space c)))|done]).
  assert (Hp : forall p : positive, digits_value (pretty (N.pos p)) false 0 = Some (Z.pos p) /\
    exists c s, pretty (N.pos p) = String c s /\ is_digit c = true).
  { intros p. unfold pretty, pretty_N. case_match; [done|]. split; [by rewrite digits_of_N|].
    pose proof (pretty_go_chars is_digit (N.pos p) "" (fun m => digit_char m is_digit eq_refl) eq_refl) as Hc.
    destruct (pretty_N_go (N.pos p) "") as [|c s] eqn:E; [|exists c, s; split; [done|]; simpl in Hc; by apply andb_true_iff in Hc as [? _]].
    exfalso. pose proof (digits_of_N (N.pos p) "" false ltac:(lia)) as Hv. by rewrite E in Hv. }
  unfold str_Z, pretty, pretty_Z, pretty, pretty_positive, pretty in *. destruct n as [|p|p]; [done| |].
  - destruct (Hp p) as [Hv (c & s & Hs & Hd)]. rewrite Hs in *.
    destruct c as [[] [] [] [] [] [] [] []]; try done; exact Hv.
  - destruct (Hp p) as [Hv _]. change (Z.opp <$> digits_value (pretty_N (N.pos p)) false 0 = Some (Z.neg p)). by rewrite Hv.
Qed.
Lemma path_text_nonempty d : path_text d <> "".
Proof. unfold path_text. repeat case_match; try done; intros E; by rewrite E in *. Qed.
Lemma env_dset_eq n v env : env_value n (dset n v env) = v.
Proof. unfold env_value. by rewrite dget_dset_eq. Qed.
Lemma env_dset_ne n n' v env : n <> n' -> env_value n (dset n' v env) = env_value n env.
Proof. intros Hn. unfold env_value. by rewrite dget_dset_ne. Qed.
Lemma str_Z_nonempty n : str_Z n <> "".
Proof. intros E. pose proof (int_of_str_Z n) as Hn. by rewrite E in Hn. Qed.
Lemma setting_env env table k n : dget k SETTING_ENV_VARS = Some n -> env_value n env <> "" -> setting env [] table k = Some (VStr (env_value n env)).
Proof. intros Hk Hv. unfold setting. simpl dget at 1. rewrite Hk. by destruct (String.eqb_spec (env_value n env) ""). Qed.

(** C23: The worker processes serve with the settings of the parent.  A worker starts from the environment [run_server]
    leaves and reads the configuration again; when that succeeds, its limits and its data directory are the
    parent's, and so is its inbox if the parent has one. *)
Theorem workers_share_settings env c env' c' :
  run_server true true env c = Ok env' -> load_server_config toml_load toml_exists None env' [] = Ok c' ->
  sc_rate_limit_per_minute c' = sc_rate_limit_per_minute c /\ sc_max_body_bytes c' = sc_max_body_bytes c /\
  sc_data_dir c' = path_text (sc_data_dir c) /\ (forall d, sc_inbox_dir c = Some d -> sc_inbox_dir c' = Some (path_text d)).
Proof.
  intros Hr Hl. destruct (load_inv _ _ _ _ Hl) as (table & _ & Hv).
  assert (Henv : env' = worker_env c env) by (revert Hr; unfold run_server; simpl; destruct (app_from_config _ _ _); [by intros [= <-]|done]).
  assert (Hget : forall k n v, dget k SETTING_ENV_VARS = Some n -> env_value n env' = v -> v <> "" ->
    dget_or k VNone (with_overrides [] (with_env env' table)) = VStr v /\ forall dflt, dget_or k dflt (with_overrides [] (with_env env' table)) = VStr v).
  { intros k n v Hk He Hne. unfold dget_or. rewrite settings_get by constructor. rewrite (setting_env _ _ _ _ Hk) by congruence. by rewrite He. }
  assert (Hrate : env_value "LEOS_SERVER_RATE_LIMIT_PER_MINUTE" env' = str_Z (sc_rate_limit_per_minute c)).
  { rewrite Henv. unfold worker_env. destruct (sc_inbox_dir c); rewrite ?env_dset_ne by done; by rewrite env_dset_eq. }
  assert (Hmax : env_value "LEOS_SERVER_MAX_BODY_BYTES" env' = str_Z (sc_max_body_bytes c)).
  { rewrite Henv. unfold worker_env. destruct (sc_inbox_dir c); rewrite ?env_dset_ne by done; by rewrite env_dset_eq. }
  assert (Hdir : env_value "LEOS_SERVER_DATA_DIR" env' = path_text (sc_data_dir c)).
  { rewrite Henv. unfold worker_env. destruct (sc_inbox_dir c); rewrite ?env_dset_ne by done; by rewrite env_dset_eq. }
  assert (Hin : forall d, sc_inbox_dir c = Some d -> env_value "LEOS_SERVER_INBOX_DIR" env' = path_text d).
  { intros d Hd. rewrite Henv. unfold worker_env. rewrite Hd. by rewrite env_dset_eq. }
  unfold validate_config in Hv. cbv zeta in Hv. destruct (String.eqb _ ""); [done|].
  apply res_bind_ok in Hv as (port & _ & Hv). destruct (negb _); [done|].
  apply res_bind_ok in Hv as (workers & _ & Hv). destruct (_ <? _)%Z; [done|].
  rewrite (proj2 (Hget "rate_limit_per_minute" _ _ eq_refl Hrate (str_Z_nonempty _))) in Hv.
  rewrite (proj2 (Hget "max_body_bytes" _ _ eq_refl Hmax (str_Z_nonempty _))) in Hv.
  rewrite (proj2 (Hget "data_dir" _ _ eq_refl Hdir (path_text_nonempty _))) in Hv.
  unfold int_value, py_int in Hv. rewrite !int_of_str_Z in Hv. cbn [res_bind] in Hv.
  destruct (_ || _)%Z; [done|]. injection Hv as <-. cbn [sc_rate_limit_per_minute sc_max_body_bytes sc_data_dir sc_inbox_dir py_str]. split; [done|]. split; [done|]. split; [done|].
  intros d Hd. pose proof (proj1 (Hget "inbox_dir" _ _ eq_refl (Hin d Hd) (path_text_nonempty d))) as Hx.
  change (with_overrides [] (with_env env' table)) with (with_env env' table) in Hx. rewrite Hx. cbn [truthy py_str].
  destruct (String.eqb_spec (path_text d) ""); [by apply path_text_nonempty in e|done].
Qed.
End config.

(** A file with a port and limits, an override and the environment. *)
Definition web_toml (file : string) : res exn pyval :=
  if String.eqb file "leos-server.toml"
  then Ok (VDict [("Port", VInt 9000); ("rate_limit_per_minute", VStr " 1_0 "); ("inbox_dir", VStr "shared/inbox"); ("workers", VInt 4)])
  else if String.eqb file "plain.toml" then Ok (VDict [("workers", VInt 2)])
  else if String.eqb file "secret.toml" then Ok (VDict [("GITHUB_TOKEN", VStr "ghp_x")])
  else Raise (Exn FileNotFoundError file).
Definition web_exists (file : string) : bool := is_ok (web_toml file).
Definition web_load := load_server_config (Some web_toml) web_exists.
Definition web_config : ServerConfig := {|
  sc_host := "0.0.0.0"; sc_port := 9000; sc_workers := 2; sc_data_dir := "leos-data"; sc_inbox_dir := Some "shared/inbox";
  sc_rate_limit_per_minute := 10; sc_max_body_bytes := 1000000 |}.
Lemma server_config_exact_witness :
  is_ok (web_load (Some "secret.toml") web_env []) = false /\
  web_load None (("LEOS_SERVER_HOST", "0.0.0.0") :: web_env) [("workers", VInt 2); ("host", VNone)] = Ok web_config /\
  (1 <= sc_port web_config <= 65535)%Z.
Proof.
  split; [vm_compute; reflexivity|]. split; [vm_compute; reflexivity|].
  destruct (server_config_exact (Some web_toml) web_exists None (("LEOS_SERVER_HOST", "0.0.0.0") :: web_env)
    [("workers", VInt 2); ("host", VNone)] web_config) as (table & _ & _ & _ & _ & Hp & _); [|vm_compute; reflexivity|exact Hp].
  apply (bool_decide_unpack _). vm_compute. exact I.
Defined.
(** A parent started from another file than the one in the working directory: its workers have the same limits, but an inbox it
    does not have. *)
Definition plain_config : ServerConfig := {|
  sc_host := "127.0.0.1"; sc_port := 8080; sc_workers := 2; sc_data_dir := "leos-data"; sc_inbox_dir := None;
  sc_rate_limit_per_minute := 60; sc_max_body_bytes := 1000000 |}.
Definition worker_config : ServerConfig := {|
  sc_host := "127.0.0.1"; sc_port := 9000; sc_workers := 4; sc_data_dir := "leos-data"; sc_inbox_dir := Some "shared/inbox";
  sc_rate_limit_per_minute := 60; sc_max_body_bytes := 1000000 |}.
Lemma workers_share_settings_witness :
  web_load (Some "plain.toml") web_env [] = Ok plain_config /\ sc_inbox_dir plain_config = None /\ sc_inbox_dir worker_config = Some "shared/inbox" /\
  sc_rate_limit_per_minute worker_config = sc_rate_limit_per_minute plain_config.
Proof.
  split; [vm_compute; reflexivity|]. split; [reflexivity|]. split; [reflexivity|].
  apply (workers_share_settings (Some web_toml) web_exists web_env plain_config (worker_env plain_config web_env) worker_config); vm_compute; reflexivity.
Defined.
(** The bucket gives its capacity at once, then one request a second. *)
Definition burst (times : list Z) (b : TokenBucket) : list bool :=
  fst (fold_left (fun acc t => let '(out, b) := acc in let (ok, b') := bucket_allow (f_of_Z t) b in (out ++ [ok], b')) times ([], b)).
Example bucket_burst :
  burst ([0; 0; 0; 0; 1; 1; 60; 60; 60; 60]%Z) (new_bucket (f_of_Z 3) fone fzero) =
    [true; true; true; false; true; false; true; true; true; false].
Proof. vm_compute. reflexivity. Qed.
