(* ===== verification/FileTheory.v ===== *)
(** The file system: well-formedness, paths without links, and what resolving
    a path guarantees.  The tools act on resolved paths, so on these paths the kernel's
    walk is plain lookup. *)
From S2P Require Import Prelude Enums FileSystem.

(** ** Names and paths *)

Definition no_slash (c : string) : bool := forallb (fun a => negb (Ascii.eqb a slash)) (list_ascii_of_string c).
(** A name of a directory entry. *)
Definition good (c : string) : bool := negb (is_dot c) && negb (String.eqb c "..") && negb (has_nul c) && no_slash c.
Abbreviation good_path p := (Forall (fun c => good c = true) p).

Lemma good_inv c : good c = true -> is_dot c = false /\ String.eqb c ".." = false /\ has_nul c = false /\ no_slash c = true.
Proof.
  unfold good. destruct (is_dot c), (String.eqb c ".."), (has_nul c), (no_slash c); naive_solver.
Qed.
Lemma split_slash_no_slash s : Forall (fun c => no_slash c = true) (split_slash s).
Proof.
  induction s as [|a s IH]; simpl; [by repeat constructor|].
  destruct (Ascii.eqb a slash) eqn:E; [by constructor|].
  destruct (split_slash s) as [|x l]; [inversion IH; constructor; [|done]|inversion IH; subst; constructor; [|done]];
    unfold no_slash in *; simpl; by rewrite E.
Qed.
Lemma parent_snoc (p : path) c : parent (p ++ [c]) = p.
Proof. apply removelast_last. Qed.
Lemma parent_prefix (p : path) : parent p `prefix_of` p.
Proof.
  destruct (decide (p = [])) as [->|Hp]; [done|]. destruct (exists_last Hp) as (q & c & ->).
  rewrite parent_snoc. by exists [c].
Qed.
Lemma prefix_snoc (q p : path) c : q `prefix_of` p ++ [c] -> q = p ++ [c] \/ q `prefix_of` p.
Proof.
  intros [k Hk]. induction k as [|x k _] using rev_ind; [left; by rewrite app_nil_r in Hk|right].
  rewrite (assoc_L (++)) in Hk. apply app_inj_tail in Hk as [-> _]. by exists k.
Qed.
Lemma good_parent p : good_path p -> good_path (parent p).
Proof. intros Hp. destruct (parent_prefix p) as [l Hl]. rewrite Hl in Hp. by apply Forall_app in Hp as [? _]. Qed.
Lemma good_normal done rest : good_path rest -> normpath done rest = done ++ rest.
Proof.
  intros Hr. revert done. induction Hr as [|c rest Hc _ IH]; intros done; simpl; [by rewrite app_nil_r|].
  destruct (good_inv _ Hc) as (-> & -> & _ & _). by rewrite IH, <-app_assoc.
Qed.
Lemma commonpath_prefix a b : commonpath a b `prefix_of` b.
Proof.
  revert b. induction a as [|x a IH]; intros [|y b]; simpl; try apply prefix_nil.
  destruct (String.eqb x y) eqn:E; [|apply prefix_nil]. apply String.eqb_eq in E as ->. apply prefix_cons, IH.
Qed.
Lemma commonpath_of_prefix a b : a `prefix_of` b -> commonpath a b = a.
Proof. intros [l ->]. induction a as [|x a IH]; simpl; [done|]. by rewrite String.eqb_refl, IH. Qed.
Lemma commonpath_iff root q : commonpath root q = root <-> root `prefix_of` q.
Proof. split; [intros H; rewrite <-H; apply commonpath_prefix|apply commonpath_of_prefix]. Qed.
(** [Path(str(p))] is [p] again. *)
Lemma split_slash_app a s : no_slash a = true -> split_slash (a +:+ String slash s) = a :: split_slash s.
Proof.
  induction a as [|c a IH]; simpl; [done|]. unfold no_slash. simpl. intros [Hc%negb_true_iff Ha]%andb_prop.
  by rewrite Hc, IH.
Qed.
Lemma split_slash_one a : no_slash a = true -> split_slash a = [a].
Proof.
  induction a as [|c a IH]; simpl; [done|]. unfold no_slash. simpl. intros [Hc%negb_true_iff Ha]%andb_prop.
  by rewrite Hc, IH.
Qed.
Lemma path_parts_str p : good_path p -> path_parts (path_str p) = p.
Proof.
  intros Hp. unfold path_parts, path_str. cbn [split_slash String.append].
  change (String.append "/" ?s) with (String slash s). simpl split_slash.
  rewrite filter_cons_False by done. induction Hp as [|c p Hc Hp IH]; [done|].
  destruct (good_inv _ Hc) as (Hd & _ & _ & Hs). destruct p as [|c' p].
  - simpl str_join. rewrite split_slash_one by done. by rewrite filter_cons_True.
  - change (str_join "/" (c :: c' :: p)) with (c +:+ String slash (str_join "/" (c' :: p))).
    rewrite split_slash_app by done. rewrite filter_cons_True by done. by rewrite IH.
Qed.
Lemma joinpath_str cwd p : good_path p -> joinpath cwd (path_str p) = p.
Proof. intros Hp. unfold joinpath. rewrite path_parts_str by done. unfold is_abs, path_str. by destruct (str_join "/" p). Qed.

(** ** Well-formed trees and real paths *)

(** Every entry has a good name and lies in a directory. *)
Record wf_fs (fs : FS) : Prop := {
  wf_root : fs !! [] = None;
  wf_good : forall p n, fs !! p = Some n -> good_path p;
  wf_parent : forall p n, fs !! p = Some n -> node_at fs (parent p) = Some Dir;
}.
(** No component of the path is a link. *)
Definition real (l : FS) (p : path) : Prop := good_path p /\ forall q, q `prefix_of` p -> l !! q = None.

Lemma links_lookup fs p n : links fs !! p = Some n <-> fs !! p = Some n /\ is_link n = true.
Proof. apply map_lookup_filter_Some. Qed.
Lemma real_nil l : l !! [] = None -> real l [].
Proof. intros Hl. split; [constructor|]. intros q [[|] Hq]; destruct q; try done. Qed.
Lemma real_prefix l p q : q `prefix_of` p -> real l p -> real l q.
Proof.
  intros Hq [Hg Hp]. split; [destruct Hq as [k ->]; by apply Forall_app in Hg as [? _]|].
  intros r Hr. apply Hp. by etrans.
Qed.
Lemma real_parent l p : real l p -> real l (parent p).
Proof. apply real_prefix, parent_prefix. Qed.
Lemma real_snoc l p c : real l p -> good c = true -> l !! (p ++ [c]) = None -> real l (p ++ [c]).
Proof.
  intros [Hg Hp] Hc Hn. split; [apply Forall_app; auto|]. intros q Hq.
  apply prefix_snoc in Hq as [->|Hq]; [done|by apply Hp].
Qed.
Lemma links_root fs : wf_fs fs -> links fs !! [] = None.
Proof. intros Hw. apply map_lookup_filter_None_2. left. apply (wf_root _ Hw). Qed.
(** On a real path a lookup finds no link. *)
Lemma real_lookup fs p t : real (links fs) p -> fs !! p <> Some (Link t).
Proof.
  intros [_ Hp] Hl. specialize (Hp p (reflexivity _)). assert (links fs !! p = Some (Link t)) by by apply links_lookup.
  congruence.
Qed.
Lemma node_at_snoc fs p c : node_at fs (p ++ [c]) = fs !! (p ++ [c]).
Proof. by destruct p. Qed.
Lemma node_parent fs p n : wf_fs fs -> node_at fs p = Some n -> node_at fs (parent p) = Some Dir.
Proof. intros Hw. destruct p as [|c p]; [done|]. apply (wf_parent _ Hw). Qed.
(** Every prefix of an existing path exists, the proper ones as directories. *)
Lemma node_prefix fs p q n : wf_fs fs -> node_at fs p = Some n -> q `prefix_of` p -> q = p \/ node_at fs q = Some Dir.
Proof.
  intros Hw. revert n. induction p as [|c p IH] using rev_ind; intros n Hn Hq.
  - destruct Hq as [k Hk]. destruct q; [by left|done].
  - apply prefix_snoc in Hq as [->|Hq]; [by left|right].
    pose proof (node_parent _ _ _ Hw Hn) as Hd. rewrite parent_snoc in Hd. destruct (IH _ Hd Hq) as [->|]; done.
Qed.

(** ** The kernel's walk along a real path *)

Lemma walk_nil n creat fs cur : walk n creat fs cur [] = inr cur.
Proof. by destruct n. Qed.
Lemma walk_cons n creat fs cur c rest : good c = true -> fs !! (cur ++ [c]) = None \/ is_link <$> fs !! (cur ++ [c]) = Some false ->
  walk n creat fs cur (c :: rest) =
  match fs !! (cur ++ [c]) with
  | None => if creat && bool_decide (rest = []) then inr (cur ++ [c]) else inl ENOENT
  | Some Dir => walk n creat fs (cur ++ [c]) rest
  | _ => if bool_decide (rest = []) then inr (cur ++ [c]) else inl ENOTDIR
  end.
Proof.
  intros Hc Hl. destruct (good_inv _ Hc) as (Hd & Hp & _ & _). destruct n; cbn [walk]; rewrite Hd, Hp;
    destruct (fs !! (cur ++ [c])) as [[| |]|]; try done; by destruct Hl.
Qed.
Lemma real_not_link fs p : real (links fs) p -> fs !! p = None \/ is_link <$> fs !! p = Some false.
Proof. intros Hr. destruct (fs !! p) as [[| |t]|] eqn:E; auto. by apply real_lookup in E. Qed.
(** Along a real path the walk gets to the path itself or nowhere. *)
Lemma walk_real n creat fs cur rest :
  real (links fs) (cur ++ rest) ->
  match walk n creat fs cur rest with
  | inr q => q = cur ++ rest /\
             (rest = [] \/ is_Some (fs !! q) \/
              creat = true /\ fs !! q = None /\ (parent q = cur \/ fs !! parent q = Some Dir))
  | inl e => e = ENOENT \/ e = ENOTDIR
  end.
Proof.
  revert cur. induction rest as [|c rest IH]; intros cur Hr.
  { rewrite walk_nil, app_nil_r. auto. }
  rewrite (assoc_L (++) cur [c] rest : cur ++ c :: rest = (cur ++ [c]) ++ rest) in *.
  assert (Hc : real (links fs) (cur ++ [c])) by (eapply real_prefix, Hr; by exists rest).
  assert (Hg : good c = true) by (destruct Hc as [[_ Hg]%Forall_app _]; by inversion Hg).
  rewrite walk_cons by auto using real_not_link. specialize (IH _ Hr).
  destruct (fs !! (cur ++ [c])) as [[| |t]|] eqn:E.
  - destruct (walk n creat fs (cur ++ [c]) rest) as [e|q]; [done|]. destruct IH as [-> Hq]. split; [done|].
    destruct Hq as [->|[?|(? & ? & Hp)]]; [right; left; rewrite app_nil_r, E; eauto|auto|].
    right; right. split_and!; [done..|]. destruct Hp as [->|]; auto.
  - case_bool_decide as Hn; [|auto]. subst. rewrite app_nil_r, E. eauto.
  - case_bool_decide as Hn; [|auto]. subst. rewrite app_nil_r, E. eauto.
  - destruct creat; simpl; [|auto]. case_bool_decide as Hn; [|auto]. subst. rewrite app_nil_r, E, parent_snoc. auto 10.
Qed.
(** An existing real path is found. *)
Lemma walk_found n creat fs cur rest x :
  wf_fs fs -> real (links fs) (cur ++ rest) -> node_at fs (cur ++ rest) = Some x -> walk n creat fs cur rest = inr (cur ++ rest).
Proof.
  intros Hw. revert cur. induction rest as [|c rest IH]; intros cur Hr Hx.
  { by rewrite walk_nil, app_nil_r. }
  rewrite (assoc_L (++) cur [c] rest : cur ++ c :: rest = (cur ++ [c]) ++ rest) in *.
  assert (Hc : real (links fs) (cur ++ [c])) by (eapply real_prefix, Hr; by exists rest).
  assert (Hg : good c = true) by (destruct Hc as [[_ Hg]%Forall_app _]; by inversion Hg).
  rewrite walk_cons by auto using real_not_link.
  destruct (node_prefix fs _ (cur ++ [c]) x Hw Hx) as [He|He]; [by exists rest| |].
  - rewrite <-He in Hx. rewrite node_at_snoc in Hx. rewrite Hx. assert (rest = []) as ->.
    { rewrite <-(app_nil_r (cur ++ [c])) in He at 1. by apply app_inv_head in He. }
    rewrite bool_decide_true by done. destruct x; [|by rewrite app_nil_r..]. by rewrite walk_nil, app_nil_r.
  - rewrite node_at_snoc in He. rewrite He. by apply IH.
Qed.

(** ** System calls on real paths *)

Section calls.
Context (fs : FS) (Hw : wf_fs fs).
Implicit Types p : path.

Lemma namei_found p x : real (links fs) p -> node_at fs p = Some x -> forall creat, namei creat fs p = inr p.
Proof. intros Hr Hx creat. unfold namei. by rewrite (walk_found _ _ _ [] p x). Qed.
Lemma namei_real p creat q : real (links fs) p -> namei creat fs p = inr q -> q = p /\
  (is_Some (node_at fs p) \/ creat = true /\ node_at fs p = None /\ node_at fs (parent p) = Some Dir).
Proof.
  intros Hr Hn. unfold namei in Hn. pose proof (walk_real MAXSYMLINKS creat fs [] p Hr) as H.
  rewrite Hn in H. destruct H as [-> H]. split; [done|]. cbn [app] in *. destruct p as [|c p]; [left; by eexists|].
  destruct H as [?|[?|(? & ? & Hp)]]; [done|by left|right]. split_and!; [done..|].
  destruct Hp as [Hp|Hp]; [by rewrite Hp|]. unfold node_at. by destruct (parent (c :: p)).
Qed.
Lemma namei_real_err p creat e : real (links fs) p -> namei creat fs p = inl e -> e = ENOENT \/ e = ENOTDIR.
Proof.
  intros Hr Hn. unfold namei in Hn. pose proof (walk_real MAXSYMLINKS creat fs [] p Hr) as H. by rewrite Hn in H.
Qed.
Lemma stat_real p : real (links fs) p ->
  match node_at fs p with Some x => stat fs p = inr x | None => stat fs p = inl ENOENT \/ stat fs p = inl ENOTDIR end.
Proof.
  intros Hr. destruct (node_at fs p) as [x|] eqn:E.
  - unfold stat. by rewrite (namei_found p x), E.
  - unfold stat. destruct (namei false fs p) as [e|q] eqn:En.
    + destruct (namei_real_err _ _ _ Hr En) as [-> | ->]; auto.
    + destruct (namei_real _ _ _ Hr En) as [-> [[? Hs]|[? _]]]; [congruence|done].
Qed.
Lemma in_parent_real p q : real (links fs) p -> p <> [] -> in_parent fs p = inr q -> q = p /\ node_at fs (parent p) = Some Dir.
Proof.
  intros Hr Hp. unfold in_parent. destruct (namei false fs (parent p)) as [e|r] eqn:En; [done|].
  destruct (namei_real _ _ _ (real_parent _ _ Hr) En) as [-> Hn].
  destruct (node_at fs (parent p)) as [[| |]|] eqn:E; try done. intros [= <-]. split; [|done].
  destruct (exists_last Hp) as (r & c & ->). by rewrite parent_snoc, last_snoc.
Qed.
Lemma in_parent_found p : real (links fs) p -> p <> [] -> node_at fs (parent p) = Some Dir -> in_parent fs p = inr p.
Proof.
  intros Hr Hp Hd. unfold in_parent. rewrite (namei_found (parent p) Dir), Hd by auto using real_parent.
  destruct (exists_last Hp) as (r & c & ->). by rewrite parent_snoc, last_snoc.
Qed.
Lemma in_parent_err p e : real (links fs) p -> in_parent fs p = inl e -> e = ENOENT \/ e = ENOTDIR.
Proof.
  intros Hr. unfold in_parent. destruct (namei false fs (parent p)) as [e'|r] eqn:En.
  - intros [= <-]. eauto using namei_real_err, real_parent.
  - destruct (node_at fs r) as [[| |]|]; intros [= <-]; auto.
Qed.
(** [lstat] of an entry of a real directory is the lookup. *)
Lemma lstat_link p c t : real (links fs) p -> good c = true ->
  lstat fs (p ++ [c]) = inr (Link t) <-> fs !! (p ++ [c]) = Some (Link t).
Proof.
  intros Hr Hc. unfold lstat, in_parent. rewrite parent_snoc, last_snoc. split.
  - destruct (namei false fs p) as [e|q] eqn:En; [done|]. destruct (namei_real _ _ _ Hr En) as [-> _].
    destruct (node_at fs p) as [[| |]|]; try done. rewrite node_at_snoc. destruct (fs !! (p ++ [c])); [|done]. by intros [= ->].
  - intros Hl. pose proof (wf_parent _ Hw _ _ Hl) as Hd. rewrite parent_snoc in Hd.
    by rewrite (namei_found p Dir), Hd, node_at_snoc, Hl.
Qed.
End calls.

(** ** What resolving guarantees *)

Lemma joinreal_cons d fs active cur c rest :
  joinreal d fs active cur (c :: rest) =
    if is_dot c then joinreal d fs active cur rest
    else if String.eqb c ".." then joinreal d fs active (parent cur) rest
    else if has_nul c then Raise nul_error
    else match lstat fs (cur ++ [c]) with
         | inr (Link t) =>
             if bool_decide (cur ++ [c] ∈ active) then Ok (raw_join (cur ++ [c]) rest, false)
             else match d with
                  | O => Ok (raw_join (cur ++ [c]) rest, false)
                  | S d' => match joinreal d' fs ((cur ++ [c]) :: active) (link_start cur t) (split_slash t) with
                            | Ok (p, true) => joinreal d fs active p rest
                            | Ok (p, false) => Ok (raw_join p rest, false)
                            | Raise e => Raise e
                            end
                  end
         | _ => joinreal d fs active (cur ++ [c]) rest
         end.
Proof. by destruct d. Qed.
Lemma joinreal_nil d fs active cur : joinreal d fs active cur [] = Ok (cur, true).
Proof. by destruct d. Qed.
Abbreviation plain := (Forall (fun c => no_slash c = true)).
Lemma link_start_real l cur t : l !! [] = None -> real l cur -> real l (link_start cur t).
Proof. intros Hl Hr. unfold link_start. destruct (is_abs t); [by apply real_nil|done]. Qed.
Lemma joinreal_real d fs active cur rest q :
  wf_fs fs -> real (links fs) cur -> plain rest -> joinreal d fs active cur rest = Ok (q, true) -> real (links fs) q.
Proof.
  intros Hw. revert active cur rest q. induction d as [d IHd] using lt_wf_ind. intros active cur rest q Hr Hp.
  revert cur Hr. induction Hp as [|c rest Hc Hp IH]; intros cur Hr.
  { rewrite joinreal_nil. by intros [= <-]. }
  rewrite joinreal_cons. destruct (is_dot c) eqn:Ed; [by apply IH|].
  destruct (String.eqb c "..") eqn:Ep; [by apply IH, real_parent|].
  destruct (has_nul c) eqn:En; [done|].
  assert (Hg : good c = true) by (unfold good; by rewrite Ed, Ep, En, Hc).
  assert (Hnext : lstat fs (cur ++ [c]) <> inr (Link (match fs !! (cur ++ [c]) with Some (Link t) => t | _ => "" end)) ->
    joinreal d fs active (cur ++ [c]) rest = Ok (q, true) -> real (links fs) q).
  { intros Hnl. apply IH, real_snoc; [done..|]. destruct (links fs !! (cur ++ [c])) as [n|] eqn:El; [|done].
    apply links_lookup in El as [El Hk]. destruct n as [| |t]; try done. rewrite El in Hnl. exfalso. by apply Hnl, lstat_link. }
  destruct (lstat fs (cur ++ [c])) as [e|[| |t]] eqn:El; [by apply Hnext..|].
  case_bool_decide; [done|]. destruct d as [|d]; [done|].
  destruct (joinreal d fs _ _ _) as [[p [|]]|e] eqn:Ej; [|done..]. apply IH.
  eapply (IHd d); [lia| |apply split_slash_no_slash|exact Ej]. apply link_start_real; [by apply links_root|done].
Qed.

(** The result depends on the links only. *)
Lemma joinreal_links d fs fs' active cur rest :
  wf_fs fs -> wf_fs fs' -> links fs' = links fs -> real (links fs) cur -> plain rest ->
  joinreal d fs' active cur rest = joinreal d fs active cur rest.
Proof.
  intros Hw Hw' Hl. revert active cur rest. induction d as [d IHd] using lt_wf_ind. intros active cur rest Hr Hp.
  revert cur Hr. induction Hp as [|c rest Hc Hp IH]; intros cur Hr; [by rewrite !joinreal_nil|].
  rewrite !joinreal_cons. destruct (is_dot c) eqn:Ed; [by apply IH|].
  destruct (String.eqb c "..") eqn:Ep; [by apply IH, real_parent|].
  destruct (has_nul c) eqn:En; [done|].
  assert (Hg : good c = true) by (unfold good; by rewrite Ed, Ep, En, Hc).
  assert (Ht : forall t, lstat fs' (cur ++ [c]) = inr (Link t) <-> lstat fs (cur ++ [c]) = inr (Link t)).
  { intros t. rewrite !lstat_link by (rewrite ?Hl; done).
    pose proof (links_lookup fs (cur ++ [c]) (Link t)) as H1. pose proof (links_lookup fs' (cur ++ [c]) (Link t)) as H2.
    rewrite Hl in H2. naive_solver. }
  assert (Hnext : (forall t, lstat fs (cur ++ [c]) <> inr (Link t)) ->
    joinreal d fs' active (cur ++ [c]) rest = joinreal d fs active (cur ++ [c]) rest).
  { intros Hnl. apply IH, real_snoc; [done..|]. destruct (links fs !! (cur ++ [c])) as [n|] eqn:El; [|done].
    apply links_lookup in El as [El Hk]. destruct n as [| |t]; try done. exfalso. by apply (Hnl t), lstat_link. }
  destruct (lstat fs (cur ++ [c])) as [e|[| |t]] eqn:El.
  1-3: destruct (lstat fs' (cur ++ [c])) as [e'|[| |t']]; try (by apply Hnext); discriminate (proj1 (Ht t') eq_refl).
  rewrite (proj2 (Ht t) eq_refl). case_bool_decide; [done|]. destruct d as [|d]; [done|].
  rewrite (IHd d) by (auto using link_start_real, links_root, split_slash_no_slash; lia).
  destruct (joinreal d fs _ _ _) as [[p [|]]|e] eqn:Ej; [|done..]. apply IH.
  eapply joinreal_real; [done| |apply split_slash_no_slash|exact Ej]. apply link_start_real; [by apply links_root|done].
Qed.

(** The bound on nested links is never reached: with as many as there are links, more make no difference. *)
Lemma joinreal_enough fs d d' active cur rest :
  wf_fs fs -> real (links fs) cur -> plain rest -> NoDup active -> Forall (fun p => is_Some (links fs !! p)) active ->
  (size (links fs) < d + length active)%nat -> (size (links fs) < d' + length active)%nat ->
  joinreal d' fs active cur rest = joinreal d fs active cur rest.
Proof.
  intros Hw. revert d' active cur rest. induction d as [d IHd] using lt_wf_ind. intros d' active cur rest Hr Hp Hnd Hin H1 H2.
  revert cur Hr. induction Hp as [|c rest Hc Hp IH]; intros cur Hr; [by rewrite !joinreal_nil|].
  rewrite !joinreal_cons. destruct (is_dot c) eqn:Ed; [by apply IH|].
  destruct (String.eqb c "..") eqn:Ep; [by apply IH, real_parent|].
  destruct (has_nul c) eqn:En; [done|].
  assert (Hg : good c = true) by (unfold good; by rewrite Ed, Ep, En, Hc).
  assert (Hnext : (forall t, lstat fs (cur ++ [c]) <> inr (Link t)) ->
    joinreal d' fs active (cur ++ [c]) rest = joinreal d fs active (cur ++ [c]) rest).
  { intros Hnl. apply IH, real_snoc; [done..|]. destruct (links fs !! (cur ++ [c])) as [n|] eqn:El; [|done].
    apply links_lookup in El as [El Hk]. destruct n as [| |t]; try done. exfalso. by apply (Hnl t), lstat_link. }
  destruct (lstat fs (cur ++ [c])) as [e|[| |t]] eqn:El; try by apply Hnext.
  case_bool_decide as Ha; [done|].
  assert (Hnew : is_Some (links fs !! (cur ++ [c]))).
  { exists (Link t). apply links_lookup. split; [by apply lstat_link in El|done]. }
  assert (Hsz : (S (length active) <= size (links fs))%nat).
  { rewrite <-(size_dom (D:=gset path)). change (S (length active)) with (length ((cur ++ [c]) :: active)).
    rewrite <-(size_list_to_set (C:=gset path)) by (by constructor). apply subseteq_size. intros p Hpin%elem_of_list_to_set.
    apply elem_of_dom. rewrite Forall_forall in Hin. rewrite elem_of_cons in Hpin.
    destruct Hpin as [->|Hpin]; auto. }
  destruct d as [|d]; [lia|]. destruct d' as [|d']; [lia|].
  rewrite (IHd d) by (simpl; auto using link_start_real, links_root, split_slash_no_slash, NoDup_cons_2; lia).
  destruct (joinreal d fs _ _ _) as [[p [|]]|e] eqn:Ej; [|done..]. apply IH.
  eapply joinreal_real; [done| |apply split_slash_no_slash|exact Ej]. apply link_start_real; [by apply links_root|done].
Qed.

(** No symbolic link leads back to itself. *)
Definition loop_free (fs : FS) : Prop := forall p q b, plain p -> realpath fs p = Ok (q, b) -> b = true.
Lemma loop_free_links fs fs' : wf_fs fs -> wf_fs fs' -> links fs' = links fs -> loop_free fs -> loop_free fs'.
Proof.
  intros Hw Hw' Hl Hf p q b Hp. unfold realpath. rewrite Hl, (joinreal_links _ fs fs') by (auto using real_nil, links_root).
  by apply Hf.
Qed.
Lemma has_nul_good p : good_path p -> existsb has_nul p = false.
Proof. induction 1 as [|c p Hc _ IH]; [done|]. simpl. by destruct (good_inv _ Hc) as (_ & _ & -> & _). Qed.
Lemma resolve_real fs p q : wf_fs fs -> loop_free fs -> plain p -> resolve fs p = Ok q -> real (links fs) q.
Proof.
  intros Hw Hf Hp. unfold resolve. destruct (realpath fs p) as [[r b]|e] eqn:Er; [|done].
  assert (b = true) as -> by eauto. assert (Hr : real (links fs) r).
  { eapply joinreal_real, Er; [done|by apply real_nil, links_root|done]. }
  rewrite good_normal by apply Hr. rewrite has_nul_good by apply Hr. simpl. pose proof (stat_real fs Hw r Hr) as Hs.
  destruct (node_at fs r) as [x|]; [|destruct Hs as [Hs|Hs]]; rewrite Hs; by intros [= <-].
Qed.

(** ** A sufficient condition *)

(** Every link's target resolves through no other link. *)
Definition flat_link (fs : FS) (p : path) (n : node) : bool :=
  match n with
  | Link t => match joinreal 0 fs [] (link_start (parent p) t) (split_slash t) with Ok (_, b) => b | Raise _ => false end
  | _ => true
  end.
Lemma joinreal_flat d fs active cur rest q : joinreal 0 fs [] cur rest = Ok (q, true) -> joinreal d fs active cur rest = Ok (q, true).
Proof.
  revert cur. induction rest as [|c rest IH]; intros cur; [by rewrite !joinreal_nil|].
  rewrite !joinreal_cons. destruct (is_dot c); [apply IH|]. destruct (String.eqb c ".."); [apply IH|].
  destruct (has_nul c); [done|]. by destruct (lstat fs (cur ++ [c])) as [e|[| |t]]; auto.
Qed.
Lemma flat_loop_free fs : wf_fs fs -> (forall p n, fs !! p = Some n -> flat_link fs p n = true) -> loop_free fs.
Proof.
  intros Hw Hflat p q b Hp. unfold realpath.
  assert (Hr : real (links fs) []) by (by apply real_nil, links_root). revert Hr. generalize (@nil string) as cur.
  induction Hp as [|c rest Hc Hp IH]; intros cur Hr; [rewrite joinreal_nil; congruence|].
  rewrite joinreal_cons. destruct (is_dot c) eqn:Ed; [by apply IH|].
  destruct (String.eqb c "..") eqn:Ep; [by apply IH, real_parent|]. destruct (has_nul c) eqn:En; [done|].
  assert (Hg : good c = true) by (unfold good; by rewrite Ed, Ep, En, Hc).
  assert (Hnext : (forall t, lstat fs (cur ++ [c]) <> inr (Link t)) -> real (links fs) (cur ++ [c])).
  { intros Hnl. apply real_snoc; [done..|]. destruct (links fs !! (cur ++ [c])) as [n|] eqn:El; [|done].
    apply links_lookup in El as [El Hk]. destruct n as [| |t]; try done. exfalso. by apply (Hnl t), lstat_link. }
  destruct (lstat fs (cur ++ [c])) as [e|[| |t]] eqn:El; try by apply IH, Hnext.
  case_bool_decide as Hin; [by apply elem_of_nil in Hin|]. apply lstat_link in El; [|done..].
  apply Hflat in El. unfold flat_link in El. rewrite parent_snoc in El.
  destruct (joinreal 0 fs [] _ _) as [[r []]|] eqn:Ej; try done. rewrite (joinreal_flat _ _ _ _ _ _ Ej).
  apply IH. eapply joinreal_real; [done| |apply split_slash_no_slash|exact Ej]. apply link_start_real; [by apply links_root|done].
Qed.
