(* ===== verification/Workspace.v ===== *)
(** What the file tools keep of the file system: everything outside the workspace, and every link. *)
From S2P Require Import Prelude Enums PyValue FileSystem Sanitization Goals Plans Tools Egress Approval Gates FileTools Transactions TxEnv FileTheory.


(** A workspace: a real directory of a tree without link loops. *)
Record ws (root : path) (fs : FS) : Prop := {
  ws_wf : wf_fs fs;
  ws_loops : loop_free fs;
  ws_dir : node_at fs root = Some Dir;
  ws_real : real (links fs) root;
}.
Definition outside_same (root : path) (fs fs' : FS) : Prop := forall p, ~ root `prefix_of` p -> fs' !! p = fs !! p.
Definition kept (root : path) (fs fs' : FS) : Prop :=
  ws root fs -> ws root fs' /\ links fs' = links fs /\ outside_same root fs fs'.
#[export] Instance kept_preorder root : PreOrder (kept root).
Proof.
  split; [intros fs Hw; by split_and!|]. intros f1 f2 f3 H1 H2 Hw. destruct (H1 Hw) as (W1 & L1 & O1).
  destruct (H2 W1) as (W2 & L2 & O2). split_and!; [done|congruence|]. intros p Hp. by rewrite O2, O1.
Qed.

Section ops.
Context (root : path).
Implicit Types (p q : path) (fs : FS).

Lemma ws_links fs fs' : ws root fs -> wf_fs fs' -> links fs' = links fs -> node_at fs' root = Some Dir -> ws root fs'.
Proof.
  intros Hw Hw' Hl Hd. split; [done| |done|rewrite Hl; apply Hw]. eapply loop_free_links; [apply Hw|done|done|apply Hw].
Qed.
(** Entering a file or directory under a real path. *)
Lemma put_wf fs q n : wf_fs fs -> good_path q -> q <> [] -> node_at fs (parent q) = Some Dir -> fs !! q <> Some Dir ->
  wf_fs (<[q := n]> fs).
Proof.
  intros Hw Hg Hq Hd Hn. split.
  - rewrite lookup_insert_ne by done. apply Hw.
  - intros p m. rewrite lookup_insert_Some. intros [[<- _]|[_ Hp]]; [done|by eapply wf_good].
  - intros p m Hp. assert (Hne : parent p <> q \/ n = Dir).
    { destruct (decide (parent p = q)) as [He|]; [|by left]. apply lookup_insert_Some in Hp as [[<- _]|[Hqp Hp]].
      - left. intros He'. destruct (exists_last Hq) as (r & c & ->). rewrite parent_snoc in He'.
        apply (f_equal length) in He'. rewrite length_app in He'. simpl in He'. lia.
      - pose proof (wf_parent _ Hw _ _ Hp) as Hd'. rewrite He in Hd'. destruct q; [done|]. simpl in *. congruence. }
    assert (Hold : node_at fs (parent p) = Some Dir).
    { apply lookup_insert_Some in Hp as [[<- _]|[_ Hp]]; [done|by eapply wf_parent]. }
    destruct (parent p) as [|c r] eqn:Er; [done|]. unfold node_at in *.
    destruct (decide (q = c :: r)) as [->|Hqr]; [|by rewrite lookup_insert_ne].
    rewrite lookup_insert. destruct Hne; [done|]. subst. by case_decide.
Qed.
Lemma put_links fs q n : real (links fs) q -> is_link n = false -> links (<[q := n]> fs) = links fs.
Proof.
  intros Hr Hn. unfold links. rewrite map_filter_insert_False by (simpl; congruence).
  rewrite map_filter_delete. apply delete_id. apply (proj2 Hr). reflexivity.
Qed.
Lemma put_kept fs q n : real (links fs) q -> root `prefix_of` q -> q <> [] -> is_link n = false ->
  node_at fs (parent q) = Some Dir -> fs !! q <> Some Dir -> kept root fs (<[q := n]> fs).
Proof.
  intros Hr Hq Hne Hn Hd Hnd Hw. pose proof (put_links fs q n Hr Hn) as Hl. split_and!; [|done|].
  - apply (ws_links fs); [done|apply put_wf; [apply Hw|apply Hr|done..]|done|].
    pose proof (ws_dir _ _ Hw) as Hroot. destruct root as [|c r]; [done|]. simpl in *.
    destruct (decide (q = c :: r)) as [->|]; [done|]. by rewrite lookup_insert_ne.
  - intros p Hp. rewrite lookup_insert_ne; [done|]. by intros ->.
Qed.
Lemma del_kept fs q c : real (links fs) q -> root `prefix_of` q -> fs !! q = Some (File c) -> kept root fs (delete q fs).
Proof.
  intros Hr Hq Hc Hw. assert (Hdir : forall p, node_at fs p = Some Dir -> node_at (delete q fs) p = Some Dir).
  { intros p Hp. destruct p as [|x p]; [done|]. simpl in *. destruct (decide (q = x :: p)) as [->|]; [congruence|].
    by rewrite lookup_delete_ne. }
  assert (Hl : links (delete q fs) = links fs).
  { unfold links. rewrite map_filter_delete. apply delete_id. apply (proj2 Hr). reflexivity. }
  split_and!; [|done|].
  - apply (ws_links fs); [done| |done|apply Hdir, Hw]. pose proof (ws_wf _ _ Hw) as W. split.
    + apply lookup_delete_None. right. apply W.
    + intros p m. rewrite lookup_delete_Some. intros [_ Hp]. by eapply wf_good.
    + intros p m. rewrite lookup_delete_Some. intros [_ Hp]. by eapply Hdir, wf_parent.
  - intros p Hp. rewrite lookup_delete_ne; [done|]. by intros ->.
Qed.

(** ** The operations on a real path of the workspace *)

Lemma node_ne_lookup fs q x : node_at fs q <> Some Dir -> node_at fs q = x -> q <> [] /\ fs !! q = x.
Proof. destruct q; [done|]. by intros _ <-. Qed.
Lemma write_text_kept q s fs : real (links fs) q -> root `prefix_of` q -> kept root fs (snd (write_text q s fs)).
Proof.
  intros Hr Hq Hw. unfold write_text. destruct (namei true fs q) as [e|r] eqn:En; [by apply kept_preorder|].
  destruct (namei_real fs _ _ _ Hr En) as [-> Hn].
  assert (Hput : node_at fs q <> Some Dir -> node_at fs (parent q) = Some Dir -> kept root fs (<[q := File s]> fs)).
  { intros Hnd Hd. destruct (node_ne_lookup fs q _ Hnd eq_refl) as [Hne Hl]. apply put_kept; [done..|]. congruence. }
  assert (Hpar : node_at fs q <> Some Dir -> node_at fs (parent q) = Some Dir).
  { intros Hnd. destruct Hn as [[x Hx]|(_ & _ & Hd)]; [|done]. eapply node_parent, Hx. apply Hw. }
  destruct (node_at fs q) as [[| |]|] eqn:E; [by apply kept_preorder|..]; (apply Hput; [done|by apply Hpar|done]).
Qed.
Lemma unlink_kept q fs : real (links fs) q -> root `prefix_of` q -> kept root fs (snd (unlink q fs)).
Proof.
  intros Hr Hq Hw. unfold unlink. destruct (in_parent fs q) as [e|r] eqn:En; [destruct e; by apply kept_preorder|].
  destruct (decide (q = [])) as [->|Hne].
  { vm_compute in En. injection En as <-. by apply kept_preorder. }
  destruct (in_parent_real fs _ _ Hr Hne En) as [-> Hd].
  destruct (node_at fs q) as [[|c|t]|] eqn:E; [by apply kept_preorder| | |by apply kept_preorder];
    (destruct q as [|x q]; [done|]); simpl in E.
  - by eapply del_kept.
  - exfalso. by eapply real_lookup.
Qed.
(** Making directories on the way to a path of the workspace. *)
Definition near q : Prop := root `prefix_of` q \/ q `prefix_of` root.
Lemma near_parent q : near q -> near (parent q).
Proof.
  intros [Hq|Hq]; [|right; etrans; [apply parent_prefix|done]].
  destruct (decide (q = [])) as [->|Hne]; [by left|]. destruct (exists_last Hne) as (r & c & ->). rewrite parent_snoc.
  apply prefix_snoc in Hq as [->|Hq]; [right; by exists [c]|by left].
Qed.
Lemma os_mkdir_kept q fs : real (links fs) q -> near q -> kept root fs (snd (os_mkdir q fs)).
Proof.
  intros Hr Hq Hw. unfold os_mkdir. destruct (in_parent fs q) as [e|r] eqn:En; [by apply kept_preorder|].
  destruct (decide (q = [])) as [->|Hne].
  { vm_compute in En. injection En as <-. by apply kept_preorder. }
  destruct (in_parent_real fs _ _ Hr Hne En) as [-> Hd].
  destruct (node_at fs q) as [x|] eqn:E; [by apply kept_preorder|].
  destruct (node_ne_lookup fs q None) as [_ Hl]; [by rewrite E|done|].
  apply put_kept; [done| |done..|congruence|done]. destruct Hq as [|Hq]; [done|].
  destruct (node_prefix fs _ q _ (ws_wf _ _ Hw) (ws_dir _ _ Hw) Hq) as [->|]; [done|congruence].
Qed.
Lemma catch_kept {A} (m : FM A) h fs :
  kept root fs (snd (m fs)) -> (forall e fs', kept root fs fs' -> ws root fs' -> links fs' = links fs -> kept root fs' (snd (h e fs'))) ->
  kept root fs (snd (catch m h fs)).
Proof.
  intros Hm Hh Hw. unfold catch. destruct (m fs) as [[a|e] fs'] eqn:E; simpl in *; [by apply Hm|].
  destruct (Hm Hw) as (W & L & O). destruct (Hh e fs' Hm W L W) as (W2 & L2 & O2).
  eapply (transitivity (R:=kept root)); [exact Hm|by apply Hh|done].
Qed.
Lemma exist_ok_kept q e fs : kept root fs (snd (exist_ok q e fs)).
Proof. unfold exist_ok. by destruct (_ && _). Qed.
Lemma mkdir_exist_ok_kept q fs : real (links fs) q -> near q -> kept root fs (snd (mkdir_exist_ok q fs)).
Proof.
  intros Hr Hq. apply catch_kept; [by apply os_mkdir_kept|]. intros e fs' _ _ _.
  destruct (isinstance e _); [reflexivity|apply exist_ok_kept].
Qed.
Lemma mkdir_parents_kept n q fs : real (links fs) q -> near q -> kept root fs (snd (mkdir_parents n q fs)).
Proof.
  revert q fs. induction n as [|n IH]; intros q fs Hr Hq; cbn [mkdir_parents];
    (apply catch_kept; [by apply os_mkdir_kept|]); intros e fs' _ _ Hl;
    (destruct (isinstance e _); [|apply exist_ok_kept]); [reflexivity|].
  unfold bind. pose proof (IH (parent q) fs') as Hk. rewrite Hl in Hk. specialize (Hk (real_parent _ _ Hr) (near_parent _ Hq)).
  destruct (mkdir_parents n (parent q) fs') as [[[]|e1] fs1]; simpl in Hk; [|done].
  intros W. destruct (Hk W) as (W1 & L1 & _). apply (transitivity (R:=kept root) Hk); [|done].
  apply mkdir_exist_ok_kept; [by rewrite L1, Hl|done].
Qed.
Lemma mkdir_kept q fs : real (links fs) q -> root `prefix_of` q -> kept root fs (snd (mkdir (parent q) fs)).
Proof. intros Hr Hq. apply mkdir_parents_kept; [by apply real_parent|]. apply near_parent. by left. Qed.
Lemma read_bytes_same q fs : snd (read_bytes q fs) = fs.
Proof. unfold read_bytes, bind, sys. destruct (stat fs q) as [e|[| |]]; done. Qed.
Lemma read_text_same q fs : snd (read_text q fs) = fs.
Proof.
  unfold read_text, bind at 1. pose proof (read_bytes_same q fs) as H. destruct (read_bytes q fs) as [[r|e] fs']; simpl in *; [|done].
  subst. unfold bind, of_res. by destruct (decode_utf8 r).
Qed.
End ops.

(** ** What making directories adds *)

(** [fs'] has some more directories on the way to [q]. *)
Definition grown (q : path) (fs fs' : FS) : Prop :=
  links fs' = links fs /\
  forall p, fs' !! p = fs !! p \/ fs !! p = None /\ fs' !! p = Some Dir /\ p `prefix_of` q.
Lemma grown_refl q fs : grown q fs fs.
Proof. split; auto. Qed.
Lemma grown_trans q r f1 f2 f3 : r `prefix_of` q -> grown r f1 f2 -> grown q f2 f3 -> grown q f1 f3.
Proof.
  intros Hr [L1 G1] [L2 G2]. split; [congruence|]. intros p. destruct (G1 p) as [E1|(N1 & D1 & P1)].
  - destruct (G2 p) as [E2|(N2 & D2 & P2)]; [left; congruence|right; split_and!; [congruence|done..]].
  - right. split_and!; [done| |by etrans]. destruct (G2 p) as [E2|(N2 & _)]; congruence.
Qed.
Lemma os_mkdir_grown q fs : real (links fs) q -> grown q fs (snd (os_mkdir q fs)).
Proof.
  intros Hr. unfold os_mkdir. destruct (in_parent fs q) as [e|r] eqn:En; [apply grown_refl|].
  destruct (node_at fs r) as [x|] eqn:E; [apply grown_refl|].
  destruct (decide (q = [])) as [->|Hne]; [vm_compute in En; by injection En as <-|].
  destruct (in_parent_real fs _ _ Hr Hne En) as [-> Hd]. destruct (node_ne_lookup fs q None) as [_ Hl]; [by rewrite E|done|].
  split; [by apply put_links|]. intros p. simpl. destruct (decide (q = p)) as [<-|]; [|by left; apply lookup_insert_ne].
  right. split_and!; [done|by rewrite lookup_insert_eq|done].
Qed.
Lemma catch_grown {A} (q : path) (m : FM A) (h : exn -> FM A) (fs : FS) :
  grown q fs (snd (m fs)) -> (forall e fs', links fs' = links fs -> grown q fs' (snd (h e fs'))) -> grown q fs (snd (catch m h fs)).
Proof.
  intros Hm Hh. unfold catch. destruct (m fs) as [[a|e] fs']; simpl in *; [done|].
  eapply grown_trans; [reflexivity|exact Hm|]. apply Hh, Hm.
Qed.
Lemma exist_ok_grown r q e fs : grown r fs (snd (exist_ok q e fs)).
Proof. unfold exist_ok. destruct (_ && _); apply grown_refl. Qed.
Lemma mkdir_parents_grown n q fs : real (links fs) q -> grown q fs (snd (mkdir_parents n q fs)).
Proof.
  revert q fs. induction n as [|n IH]; intros q fs Hr; cbn [mkdir_parents];
    (apply (catch_grown q); [by apply os_mkdir_grown|]); intros e fs' Hl;
    (destruct (isinstance e _); [|apply exist_ok_grown]); [apply grown_refl|].
  unfold bind. pose proof (IH (parent q) fs') as Hk. rewrite Hl in Hk. specialize (Hk (real_parent _ _ Hr)).
  assert (Hup : forall fs1, grown (parent q) fs' fs1 -> grown q fs' fs1).
  { intros fs1 Hg. eapply grown_trans; [apply parent_prefix|exact Hg|apply grown_refl]. }
  destruct (mkdir_parents n (parent q) fs') as [[[]|e1] fs1]; simpl in Hk; [|by apply Hup].
  eapply grown_trans; [apply parent_prefix|exact Hk|]. assert (Hl1 : links fs1 = links fs) by (rewrite <-Hl; apply Hk).
  apply (catch_grown q); [apply os_mkdir_grown; by rewrite Hl1|]. intros e2 fs2 _.
  destruct (isinstance e2 _); [apply grown_refl|apply exist_ok_grown].
Qed.

(** ** Reading and writing files that are there *)

Lemma node_of_lookup (fs : FS) (q : path) x : wf_fs fs -> fs !! q = Some x -> node_at fs q = Some x /\ q <> [].
Proof. intros Hw. destruct q; [by rewrite (wf_root _ Hw)|done]. Qed.
Section files.
Context (fs : FS) (Hw : wf_fs fs) (q : path) (Hr : real (links fs) q).

Lemma read_previous_cases :
  match node_at fs q with
  | None => path_exists fs q = false
  | Some (File c) => path_exists fs q = true /\ fst (read_text q fs) = res_map universal_newlines (decode_utf8 c)
  | Some _ => path_exists fs q = true /\ is_ok (fst (read_text q fs)) = false
  end.
Proof.
  pose proof (stat_real fs Hw q Hr) as Hs. unfold path_exists, read_text, read_bytes, bind, sys.
  destruct (node_at fs q) as [[|c|t]|]; [rewrite Hs; split; [done|]..|by destruct Hs as [-> | ->]]; try done.
  unfold of_res, ret. simpl. by destruct (decode_utf8 c).
Qed.
Lemma write_existing c s : fs !! q = Some (File c) -> write_text q s fs = (Ok tt, <[q := File s]> fs).
Proof.
  intros Hq. destruct (node_of_lookup fs q _ Hw Hq) as [Hn _].
  unfold write_text. by rewrite (namei_found fs Hw q _ Hr Hn), Hn.
Qed.
Lemma unlink_existing c : fs !! q = Some (File c) -> unlink q fs = (Ok tt, delete q fs).
Proof.
  intros Hq. destruct (node_of_lookup fs q _ Hw Hq) as [Hn Hne].
  unfold unlink. by rewrite (in_parent_found fs Hw q Hr Hne (node_parent _ _ _ Hw Hn)), Hn.
Qed.
Lemma write_text_inv s u fs' : write_text q s fs = (Ok u, fs') -> fs' = <[q := File s]> fs.
Proof.
  unfold write_text. destruct (namei true fs q) as [e|r] eqn:En; [done|].
  destruct (namei_real fs _ _ _ Hr En) as [-> _]. destruct (node_at fs q) as [[| |]|]; by intros [= _ <-].
Qed.
End files.

(** * What the file tools do to a workspace: a logic for methods that stay below its root. *)


(** ** Resolving in a workspace *)

Lemma plain_good p : good_path p -> plain p.
Proof. intros Hp. eapply Forall_impl; [exact Hp|]. intros c Hc. by apply good_inv in Hc as (_ & _ & _ & ?). Qed.
Lemma plain_parts s : plain (path_parts s).
Proof.
  apply Forall_forall. intros c [_ Hc]%list_elem_of_filter. pose proof (split_slash_no_slash s) as Hs.
  rewrite Forall_forall in Hs. by apply Hs.
Qed.
Lemma plain_join root s : good_path root -> plain (joinpath root s).
Proof. intros Hr. unfold joinpath. destruct (is_abs s); [apply plain_parts|]. apply Forall_app. auto using plain_good, plain_parts. Qed.
Lemma joinreal_id fs d active cur rest : wf_fs fs -> real (links fs) (cur ++ rest) -> joinreal d fs active cur rest = Ok (cur ++ rest, true).
Proof.
  intros Hw. revert cur. induction rest as [|c rest IH]; intros cur Hr; [by rewrite joinreal_nil, app_nil_r|].
  rewrite (assoc_L (++) cur [c] rest : cur ++ c :: rest = (cur ++ [c]) ++ rest) in *.
  assert (Hc : real (links fs) (cur ++ [c])) by (eapply real_prefix, Hr; by exists rest).
  assert (Hg : good c = true) by (destruct Hc as [[_ Hg]%Forall_app _]; by inversion Hg).
  rewrite joinreal_cons. destruct (good_inv _ Hg) as (-> & -> & -> & _).
  destruct (lstat fs (cur ++ [c])) as [e|[| |t]] eqn:El; try by apply IH.
  exfalso. apply lstat_link in El; [by eapply real_lookup|done|eapply real_prefix, Hc; by exists [c]|done].
Qed.
Lemma resolve_id fs p : wf_fs fs -> real (links fs) p -> resolve fs p = Ok p.
Proof.
  intros Hw Hr. unfold resolve, realpath. rewrite (joinreal_id _ _ _ [] p) by done. simpl.
  rewrite good_normal by apply Hr. simpl. rewrite has_nul_good by apply Hr.
  pose proof (stat_real fs Hw p Hr) as Hs. destruct (node_at fs p); [by rewrite Hs|by destruct Hs as [-> | ->]].
Qed.
(** What passes the check is a real path of the workspace. *)
Lemma checked_path root fs s q : ws root fs ->
  res_bind (resolve fs (joinpath root s)) (check_inside root) = Ok q -> real (links fs) q /\ root `prefix_of` q.
Proof.
  intros Hw. destruct (resolve fs (joinpath root s)) as [r|e] eqn:Er; [|done]. simpl. unfold check_inside, inside.
  case_bool_decide as Hc; [|done]. intros [= <-]. split; [|by apply commonpath_iff].
  eapply resolve_real, Er; [apply Hw..|apply plain_join, Hw].
Qed.
Lemma write_target_path `{PyRuntime} root args fs q : ws root fs -> write_target root args fs = Ok q -> real (links fs) q /\ root `prefix_of` q.
Proof.
  intros Hw. unfold write_target. destruct (dget_item "path" args) as [v|e]; [|done]. by apply checked_path.
Qed.
Lemma workspace_path root fs s q : ws root fs -> resolve_workspace_path root fs s = Ok q -> real (links fs) q /\ root `prefix_of` q.
Proof. intros Hw. unfold resolve_workspace_path. rewrite resolve_id by apply Hw. by apply checked_path. Qed.
Lemma arg_path_ok `{PyRuntime} root args fs q : ws root fs -> arg_path root args fs = Ok q -> real (links fs) q /\ root `prefix_of` q.
Proof.
  intros Hw. unfold arg_path. destruct (dget_item "path" args) as [v|e]; [|done]. by apply workspace_path.
Qed.

(** ** A logic for methods that stay in a workspace *)

Section safe.
Context (root : path) (L : FS).

Definition at_ws (e : HostEnv) : Prop := ws root (h_fs e) /\ links (h_fs e) = L.
Definition confined (e e' : HostEnv) : Prop :=
  at_ws e -> at_ws e' /\ outside_same root (h_fs e) (h_fs e') /\ h_procs e' = h_procs e.
#[export] Instance confined_preorder : PreOrder confined.
Proof.
  split; [intros e He; by split_and!|]. intros e1 e2 e3 H1 H2 Hw. destruct (H1 Hw) as (W1 & O1 & P1).
  destruct (H2 W1) as (W2 & O2 & P2). split_and!; [done| |congruence]. intros p Hp. by rewrite O2, O1.
Qed.
(** [m] confined to the workspace, its results in [Q]. *)
Definition safe {A} (Q : A -> Prop) (m : TM HostEnv A) : Prop := forall e w, at_ws e ->
  confined e (snd (m (e, w))).1 /\ forall a, fst (m (e, w)) = Ok a -> Q a.

Lemma safe_ret {A} (Q : A -> Prop) a : Q a -> safe Q (ret a).
Proof. intros Ha e w _. split; [reflexivity|]. by intros ? [= <-]. Qed.
Lemma safe_raise {A} (Q : A -> Prop) x : safe Q (raise x).
Proof. intros e w _. split; [reflexivity|done]. Qed.
Lemma safe_bind {A B} (Q1 : A -> Prop) (Q : B -> Prop) m k :
  safe Q1 m -> (forall a, Q1 a -> safe Q (k a)) -> safe Q (bind m k).
Proof.
  intros Hm Hk e w He. destruct (Hm e w He) as [C1 H1]. unfold bind. destruct (m (e, w)) as [[a|x] [e1 w1]]; simpl in *; [|done].
  destruct (Hk a (H1 a eq_refl) e1 w1) as [C2 H2]; [by apply C1|]. split; [by etrans|done].
Qed.
Lemma safe_of_res {A B} (Q : B -> Prop) (r : res exn A) k : (forall a, r = Ok a -> safe Q (k a)) -> safe Q (bind (of_res r) k).
Proof. intros Hk. destruct r as [a|x]; [by apply Hk|]. intros e w _. by split. Qed.
Lemma safe_the_fs {B} (Q : B -> Prop) k : (forall fs, ws root fs -> links fs = L -> safe Q (k fs)) -> safe Q (bind the_fs k).
Proof. intros Hk e w He. exact (Hk _ (proj1 He) (proj2 He) e w He). Qed.
Lemma safe_gets {A} (f : HostEnv * WorldState -> A) : safe (fun _ => True) (gets f).
Proof. intros e w _. split; [reflexivity|done]. Qed.
Lemma safe_in_fs {A} (m : FM A) : (forall fs, links fs = L -> kept root fs (snd (m fs))) -> safe (fun _ => True) (in_fs m).
Proof.
  intros Hm e w [Hw Hl]. split; [|done]. unfold in_fs. destruct (m (h_fs e)) as [r fs] eqn:E. simpl. intros _.
  pose proof (Hm _ Hl) as Hk. rewrite E in Hk. destruct (Hk Hw) as (W & L' & O). split_and!; [|done|done].
  split; [done|]. by etrans.
Qed.
Lemma safe_weaken {A} (Q Q' : A -> Prop) m : safe Q m -> (forall a, Q a -> Q' a) -> safe Q' m.
Proof. intros Hm HQ e w He. destruct (Hm e w He) as [C H]. split; [done|]. auto. Qed.

(** Rollback tokens name a real path of the workspace. *)
Definition token_ok (token : dict pyval) : Prop :=
  exists q, dget "path" token = Some (VStr (path_str q)) /\ real L q /\ root `prefix_of` q.
Definition result_ok (r : ToolResult) : Prop := forall token, rollback_token r = Some token -> token_ok token.
Lemma no_token r : rollback_token r = None -> result_ok r.
Proof. intros Hr token. congruence. Qed.

Record tool_safe (t : Tool HostEnv) : Prop := {
  ts_dry : forall args, safe (fun _ => True) (dry_run t args);
  ts_execute : forall args, safe result_ok (execute t args);
  ts_rollback : forall token, token_ok token -> safe (fun _ => True) (rollback t token);
}.
Lemma tool_safe_keeps t : tool_safe t -> tool_keeps confined at_ws token_ok t.
Proof.
  intros [Hd He Hr]. split.
  - intros args e w C. by apply (Hd args e w C).
  - intros args e w C. by apply (He args e w C).
  - intros args e w r x token C Hx. apply (He args e w C). by rewrite Hx.
  - intros token e w Ht C. by apply (Hr token Ht e w C).
Qed.
End safe.

Section tools.
Context `{PyRuntime} `{JsonSchemaValidator} (wd root : path) (L : FS).
Abbreviation SAFE := (safe root L).
Abbreviation TRUE := (fun _ => True).

Lemma read_previous_safe q : SAFE TRUE (read_previous q).
Proof.
  apply safe_the_fs. intros fs _ _. destruct (path_exists fs q); [|by apply safe_ret].
  eapply safe_bind; [|intros; by apply safe_ret]. apply safe_in_fs. intros fs' _. rewrite read_text_same. reflexivity.
Qed.
Lemma token_path_safe token q : dget "path" token = Some (VStr (path_str q)) -> good_path q -> SAFE (fun p => p = q) (token_path wd token).
Proof.
  intros Ht Hg. apply safe_of_res. intros v. unfold dget_item. rewrite Ht. intros [= <-]. apply safe_ret. by apply joinpath_str.
Qed.
Lemma mkdir_safe q : real L q -> root `prefix_of` q -> SAFE TRUE (in_fs (mkdir (parent q))).
Proof. intros Hr Hq. apply safe_in_fs. intros fs Hl. apply mkdir_kept; [by rewrite Hl|done]. Qed.
Lemma write_safe q s : real L q -> root `prefix_of` q -> SAFE TRUE (in_fs (write_text q s)).
Proof. intros Hr Hq. apply safe_in_fs. intros fs Hl. apply write_text_kept; [by rewrite Hl|done]. Qed.
Lemma unlink_safe q : real L q -> root `prefix_of` q -> SAFE TRUE (in_fs (unlink q)).
Proof. intros Hr Hq. apply safe_in_fs. intros fs Hl. apply unlink_kept; [by rewrite Hl|done]. Qed.
Lemma with_path_safe (Q : ToolResult -> Prop) args k :
  (forall msg e, Q (failed msg e)) -> (forall q, real L q -> root `prefix_of` q -> SAFE Q (k q)) -> SAFE Q (with_path root args k).
Proof.
  intros Hf Hk. apply safe_the_fs. intros fs Hw Hl. destruct (arg_path root args fs) as [q|e] eqn:Ep; [|by apply safe_ret].
  apply arg_path_ok in Ep as [Hr ?]; [|done]. rewrite Hl in Hr. by apply Hk.
Qed.
Lemma dry_then_safe dry k Q : SAFE (fun r => ok r = false -> Q r) dry -> SAFE Q k -> SAFE Q (dry_then dry k).
Proof. intros Hd Hk. eapply safe_bind; [exact Hd|]. intros r Hr. destruct (ok r) eqn:E; [exact Hk|]. by apply safe_ret, Hr. Qed.

Lemma echo_safe : tool_safe root L EchoTool.
Proof.
  split; cbn; intros args; [by apply safe_ret| |intros _; by apply safe_ret].
  destruct (dget "message" args); [by apply safe_ret|apply safe_raise].
Qed.
Lemma safe_write_safe : tool_safe root L (SafeFileWriteTool wd root).
Proof.
  split; cbn.
  - intros args. unfold safe_write_dry. destruct (validate_input _ args); [|by apply safe_ret].
    apply safe_the_fs. intros fs _ _. by apply safe_ret.
  - intros args. apply safe_the_fs. intros fs Hw Hl. apply safe_of_res. intros q Hq.
    apply write_target_path in Hq as [Hr Hin]; [|done]. rewrite Hl in Hr.
    eapply safe_bind; [apply read_previous_safe|intros previous _].
    eapply safe_bind; [by apply mkdir_safe|intros _ _]. apply safe_of_res. intros content _.
    eapply safe_bind; [by apply write_safe|intros _ _]. apply safe_ret. intros token [= <-]. by exists q.
  - intros token (q & Ht & Hr & Hin). eapply safe_bind; [by apply token_path_safe; [|apply Hr]|intros p ->].
    eapply safe_bind; [|intros; by apply safe_ret].
    destruct (default VNone (dget "previous" token)); auto using write_safe, unlink_safe.
Qed.
Abbreviation NO_TOKEN := (fun r => rollback_token r = None).
Lemma list_dry_safe args : SAFE NO_TOKEN (list_files_dry root args).
Proof.
  apply safe_the_fs. intros fs _ _. destruct (resolve_workspace_path _ _ _) as [q|e]; [by apply safe_ret|].
  destruct (isinstance e _); [by apply safe_ret|apply safe_raise].
Qed.
Lemma list_execute_safe args : SAFE NO_TOKEN (list_files_execute root args).
Proof.
  apply dry_then_safe; [eapply safe_weaken; [apply list_dry_safe|done]|].
  apply safe_the_fs. intros fs _ _. do 5 (apply safe_of_res; intros ? _). by apply safe_ret.
Qed.
Lemma list_safe : tool_safe root L (ListFilesTool root).
Proof.
  split; cbn; intros args; [by eapply safe_weaken; [apply list_dry_safe|]| |intros _; by apply safe_ret].
  eapply safe_weaken; [apply list_execute_safe|intros; by apply no_token].
Qed.
Lemma read_dry_safe args : SAFE NO_TOKEN (read_file_dry root args).
Proof.
  apply with_path_safe; [done|]. intros q _ _. apply safe_the_fs. intros fs _ _. apply safe_ret.
  by destruct (negb _ || _); [|destruct (is_binary _ _)].
Qed.
Lemma read_execute_safe args : SAFE NO_TOKEN (read_file_execute root args).
Proof.
  apply dry_then_safe; [eapply safe_weaken; [apply read_dry_safe|done]|].
  apply safe_the_fs. intros fs _ _. do 2 (apply safe_of_res; intros ? _).
  eapply safe_bind; [apply safe_in_fs; intros fs' _; rewrite read_bytes_same; reflexivity|intros raw _].
  do 2 (apply safe_of_res; intros ? _). by apply safe_ret.
Qed.
Lemma read_safe : tool_safe root L (ReadFileTool root).
Proof.
  split; cbn; intros args; [eapply safe_weaken; [apply read_dry_safe|done]| |intros _; by apply safe_ret].
  eapply safe_weaken; [apply read_execute_safe|intros; by apply no_token].
Qed.
Lemma patch_dry_safe args : SAFE NO_TOKEN (patch_file_dry root args).
Proof.
  apply with_path_safe; [done|]. intros q _ _. apply safe_the_fs. intros fs _ _.
  destruct (as_str _); [|by apply safe_ret]. destruct (path_exists _ _ && _); [by apply safe_ret|]. cbv zeta.
  destruct (default VNone (dget "expected_previous" args)); try (by apply safe_ret);
    (eapply safe_bind; [apply read_previous_safe|intros o _]; apply safe_ret; by destruct (py_neq _ _)).
Qed.
Lemma patch_safe : tool_safe root L (PatchFileTool wd root).
Proof.
  split; cbn.
  - intros args. eapply safe_weaken; [apply patch_dry_safe|done].
  - intros args. apply dry_then_safe; [eapply safe_weaken; [apply patch_dry_safe|intros; by apply no_token]|].
    apply safe_the_fs. intros fs Hw Hl. apply safe_of_res. intros q Hq.
    apply arg_path_ok in Hq as [Hr Hin]; [|done]. rewrite Hl in Hr.
    eapply safe_bind; [apply read_previous_safe|intros previous _].
    eapply safe_bind; [apply safe_gets|intros existed _]. apply safe_of_res. intros content _. cbv zeta.
    eapply safe_bind; [by apply mkdir_safe|intros _ _].
    eapply safe_bind; [by apply write_safe|intros _ _]. apply safe_ret. intros token [= <-]. by exists q.
  - intros token (q & Ht & Hr & Hin). eapply safe_bind; [by apply token_path_safe; [|apply Hr]|intros p ->].
    eapply safe_bind; [|intros; by apply safe_ret].
    destruct (truthy _); auto using write_safe, unlink_safe.
Qed.
End tools.
