(* ===== verification/FileProps.v ===== *)
(** Undoing what the file tools write: the runs of the two writing tools, their rollbacks, and what
    both do to the texts of a tree; then whole runs over the file tools. *)
From S2P Require Import Prelude Enums PyValue FileSystem Sanitization Goals Plans Tools AuditTrail Causal Egress Policy Approval Gates FileTools Transactions Fixtures TxInvariants TxSafety TxRollback TxEnv TxOutcome FileTheory Workspace.


(** ** Methods that leave the files alone *)

Section same.
Context `{PyRuntime} `{JsonSchemaValidator} (wd root : path).
Definition same_files (x y : HostEnv * WorldState) : Prop := h_fs y.1 = h_fs x.1.
#[local] Instance same_files_preorder : PreOrder same_files.
Proof. split; [done|]. intros x y z H1 H2. exact (eq_trans H2 H1). Qed.
Abbreviation SAME := (keeps same_files).
Lemma the_fs_same : SAME the_fs.
Proof. done. Qed.
Lemma in_fs_same {A} (m : FM A) : (forall fs, snd (m fs) = fs) -> SAME (in_fs m).
Proof.
  intros Hm [e w]. unfold in_fs. specialize (Hm (h_fs e)). destruct (m (h_fs e)) as [r fs]. exact Hm.
Qed.
Lemma previous_same q : SAME (read_previous q).
Proof.
  unfold read_previous. apply keeps_bind; [apply _|apply the_fs_same|intros fs]. destruct (path_exists fs q); [|keeps_auto].
  apply keeps_bind; [apply _|apply in_fs_same, read_text_same|intros ?; keeps_auto].
Qed.
Lemma bytes_same q : SAME (in_fs (read_bytes q)).
Proof. apply in_fs_same, read_bytes_same. Qed.
#[local] Hint Resolve the_fs_same previous_same bytes_same : keeps.
Lemma dry_same args : SAME (safe_write_dry root args) /\ SAME (list_files_dry root args) /\
  SAME (read_file_dry root args) /\ SAME (patch_file_dry root args).
Proof. unfold safe_write_dry, list_files_dry, read_file_dry, patch_file_dry, with_path. split_and!; keeps_auto. Qed.
Lemma list_same args : SAME (list_files_execute root args).
Proof. pose proof (dry_same args) as (_ & Hl & _). unfold list_files_execute, dry_then. keeps_auto. Qed.
Lemma read_same args : SAME (read_file_execute root args).
Proof. pose proof (dry_same args) as (_ & _ & Hl & _). unfold read_file_execute, dry_then. keeps_auto. Qed.
End same.

(** ** Texts *)

(** The texts of a tree: what reading each file gives. *)
Definition texts (fs : FS) : gmap path string :=
  omap (fun n => match n with File c => Some (universal_newlines c) | _ => None end) fs.

Lemma universal_newlines_idem s : universal_newlines (universal_newlines s) = universal_newlines s.
Proof.
  assert (Hn : forall n s, (String.length s <= n)%nat -> universal_newlines (universal_newlines s) = universal_newlines s).
  { clear s. induction n as [|n IH]; intros [|a s] Hl; simpl in *; try done; [lia|].
    destruct (Ascii.eqb a CR) eqn:Ea; simpl.
    - f_equal. destruct s as [|b s]; [done|]. destruct (Ascii.eqb b LF); apply IH; simpl in *; lia.
    - rewrite Ea. f_equal. apply IH. lia. }
  by eapply Hn.
Qed.
Lemma texts_put fs q c : texts (<[q := File c]> fs) = <[q := universal_newlines c]> (texts fs).
Proof. unfold texts. by rewrite omap_insert. Qed.
Lemma texts_delete fs q : texts (delete q fs) = delete q (texts fs).
Proof. unfold texts. by rewrite omap_delete. Qed.
Lemma texts_grown q fs fs' : grown q fs fs' -> texts fs' = texts fs.
Proof.
  intros [_ G]. apply map_eq. intros p. unfold texts. rewrite !lookup_omap.
  destruct (G p) as [-> |(-> & -> & _)]; done.
Qed.
Lemma texts_lookup fs q : texts fs !! q = match fs !! q with Some (File c) => Some (universal_newlines c) | _ => None end.
Proof. unfold texts. rewrite lookup_omap. by destruct (fs !! q) as [[| |]|]. Qed.

(** ** Runs of the writing tools *)

(** What a tool remembers of the file it replaces. *)
Definition previous_is (fs : FS) (q : path) (o : option string) : Prop :=
  match node_at fs q with
  | Some (File c) => o = Some (universal_newlines c)
  | Some _ => False
  | None => o = None
  end.
(** Written, and besides only directories made on the way. *)
Definition wrote (q : path) (c : string) (fs fs' : FS) : Prop :=
  exists fs1, grown (parent q) fs fs1 /\ fs' = <[q := File c]> fs1.
Lemma texts_wrote q c fs fs' : wrote q c fs fs' -> texts fs' = <[q := universal_newlines c]> (texts fs).
Proof. intros (fs1 & Hg & ->). by rewrite texts_put, (texts_grown _ _ _ Hg). Qed.

Section undo.
Context `{PyRuntime} `{JsonSchemaValidator} (wd root : path).

Lemma read_previous_run q e w r x : wf_fs (h_fs e) -> real (links (h_fs e)) q -> read_previous q (e, w) = (Ok r, x) ->
  x = (e, w) /\ match node_at (h_fs e) q with
                | Some (File c) => r = Some (universal_newlines c)
                | Some _ => False
                | None => r = None
                end.
Proof.
  intros Hw Hr. pose proof (read_previous_cases (h_fs e) Hw q Hr) as Hc. pose proof (read_text_same q (h_fs e)) as Hs.
  unfold read_previous, the_fs, bind at 1, gets. cbv beta iota.
  destruct (node_at (h_fs e) q) as [[|c|t]|]; [destruct Hc as [-> Hc]..|rewrite Hc; by intros [= <- <-]];
    unfold bind, in_fs; destruct (read_text q (h_fs e)) as [[v|v] fs']; simpl in *; subst; try done;
    intros [= <- <-]; (split; [by destruct e|]); try done.
  unfold decode_utf8 in Hc. destruct (utf8_valid c); simpl in Hc; congruence.
Qed.

Lemma token_path_run token q x : dget "path" token = Some (VStr (path_str q)) -> good_path q -> token_path wd token x = (Ok q, x).
Proof.
  intros Ht Hg. unfold token_path, bind, of_res, dget_item. rewrite Ht. cbn. by rewrite joinpath_str.
Qed.


(** [m] from [x] returns in [Q] or raises in a state that shows the texts of [fs]. *)
Definition ends {A} (m : TM HostEnv A) (x : HostEnv * WorldState) (fs : FS) (Q : A -> HostEnv * WorldState -> Prop) : Prop :=
  match m x with (Ok a, y) => Q a y | (Raise _, y) => texts (h_fs y.1) = texts fs end.
Lemma ends_ret {A} (a : A) (x : HostEnv * WorldState) fs (Q : A -> HostEnv * WorldState -> Prop) : Q a x -> ends (ret a) x fs Q.
Proof. done. Qed.
Lemma ends_bind {A B} (m : TM HostEnv A) (k : A -> TM HostEnv B) (x : HostEnv * WorldState) fs Q :
  ends m x fs (fun a y => ends (k a) y fs Q) -> ends (bind m k) x fs Q.
Proof. unfold ends, bind. by destruct (m x) as [[a|e] y]. Qed.
Lemma ends_weaken {A} (m : TM HostEnv A) (x : HostEnv * WorldState) fs (Q Q' : A -> HostEnv * WorldState -> Prop) :
  ends m x fs Q -> (forall a y, Q a y -> Q' a y) -> ends m x fs Q'.
Proof. unfold ends. intros Hm HQ. destruct (m x) as [[a|e] y]; auto. Qed.
Lemma ends_of_res {A} (r : res exn A) (x : HostEnv * WorldState) (Q : A -> HostEnv * WorldState -> Prop) fs :
  texts (h_fs x.1) = texts fs -> (forall a, r = Ok a -> Q a x) -> ends (of_res r) x fs Q.
Proof. intros Hx Hr. destruct r as [a|e]; [by apply Hr|done]. Qed.
Lemma ends_same {A} (m : TM HostEnv A) e w : keeps same_files m ->
  ends m (e, w) (h_fs e) (fun a y => m (e, w) = (Ok a, y) /\ h_fs y.1 = h_fs e).
Proof. intros Hm. pose proof (Hm (e, w)) as Hs. unfold ends, same_files in *. destruct (m (e, w)) as [[a|x] y]; simpl in *; by rewrite Hs. Qed.
Lemma ends_previous q e w : ws root (h_fs e) -> real (links (h_fs e)) q ->
  ends (read_previous q) (e, w) (h_fs e) (fun o y => y = (e, w) /\ previous_is (h_fs e) q o).
Proof.
  intros Hw Hr. unfold ends. pose proof (previous_same q (e, w)) as Hs. unfold same_files in Hs.
  destruct (read_previous q (e, w)) as [[o|x] y] eqn:E; simpl in *; [|by rewrite Hs].
  eapply read_previous_run; [apply Hw|done..].
Qed.
Definition existed (o : option string) : bool := match o with Some _ => true | None => false end.
Lemma previous_existed fs q o : wf_fs fs -> real (links fs) q -> previous_is fs q o -> path_exists fs q = existed o.
Proof.
  intros Hw Hr. pose proof (read_previous_cases fs Hw q Hr) as Hc. unfold previous_is.
  destruct (node_at fs q) as [[|c|t]|]; [done| |done|]; intros ->; [apply Hc|exact Hc].
Qed.
Lemma ends_mkdir q e w : real (links (h_fs e)) q ->
  ends (in_fs (mkdir (parent q))) (e, w) (h_fs e) (fun _ y => exists fs1, grown (parent q) (h_fs e) fs1 /\ y = (with_fs fs1 e, w)).
Proof.
  intros Hr. pose proof (mkdir_parents_grown (length (parent q)) (parent q) (h_fs e) (real_parent _ _ Hr)) as Hg.
  fold (mkdir (parent q)) in Hg. unfold ends, in_fs. destruct (mkdir (parent q) (h_fs e)) as [[[]|x] fs1]; [by exists fs1|].
  exact (texts_grown _ _ _ Hg).
Qed.
Lemma ends_write q s fs1 e w fs : real (links fs1) q -> texts fs1 = texts fs ->
  ends (in_fs (write_text q s)) (with_fs fs1 e, w) fs (fun _ y => y = (with_fs (<[q := File s]> fs1) e, w)).
Proof.
  intros Hr Hs. unfold ends, in_fs. cbn [h_fs with_fs]. destruct (write_text q s fs1) as [[[]|x] fs'] eqn:E.
  - by apply write_text_inv in E as ->.
  - assert (fs' = fs1) as ->; [|done]. revert E. unfold write_text. destruct (namei true fs1 q) as [y|r]; [by intros [= _ <-]|].
    destruct (node_at fs1 r) as [[| |]|]; by intros [= _ <-].
Qed.
(** What a successful write leaves: the file written, and a token with its path and earlier text. *)
Definition writes (fs : FS) q s previous (token : dict pyval) (r : ToolResult) (y : HostEnv * WorldState) : Prop :=
  real (links fs) q /\ previous_is fs q previous /\ wrote q s fs (h_fs y.1) /\
  ok r = true /\ rollback_token r = Some token.
Lemma safe_write_run args e w : ws root (h_fs e) ->
  ends (safe_write_execute root args) (e, w) (h_fs e) (fun r y => exists q content previous,
    write_target root args (h_fs e) = Ok q /\ dget "content" args = Some content /\
    writes (h_fs e) q (py_str content) previous [("path", VStr (path_str q)); ("previous", text_or_none previous)] r y).
Proof.
  intros Hw. apply ends_bind; cbn. apply ends_bind, ends_of_res; [done|intros q Hq].
  destruct (write_target_path root args _ _ Hw Hq) as [Hr _].
  apply ends_bind. eapply ends_weaken; [by apply ends_previous|]. intros previous y [-> Hp].
  apply ends_bind. eapply ends_weaken; [by apply ends_mkdir|]. intros _ y (fs1 & Hg & ->).
  apply ends_bind, ends_of_res; [by eapply texts_grown|]. intros content Hc. unfold dget_item in Hc.
  assert (Hr1 : real (links fs1) q) by (destruct Hg as [-> _]; done).
  apply ends_bind. eapply ends_weaken; [apply ends_write; [done|by eapply texts_grown]|]. intros _ y ->. apply ends_ret.
  exists q, content, previous. unfold writes. split_and!; try done; [by destruct (dget _ _); simplify_eq|by exists fs1].
Qed.
Lemma patch_run args e w : ws root (h_fs e) ->
  ends (patch_file_execute root args) (e, w) (h_fs e) (fun r y =>
    ok r = false /\ h_fs y.1 = h_fs e \/
    exists q content previous, arg_path root args (h_fs e) = Ok q /\ dget "new_content" args = Some content /\
      writes (h_fs e) q (py_str content) previous
        [("path", VStr (path_str q)); ("previous", text_or_none previous); ("existed", VBool (existed previous))] r y).
Proof.
  intros Hw. apply ends_bind. pose proof (dry_same root args) as (_ & _ & _ & Hd).
  eapply ends_weaken; [by apply ends_same|]. intros d [e1 w1] [_ Hs]. simpl in Hs.
  destruct (ok d) eqn:Eo; simpl; [|apply ends_ret; by left]. rewrite <-Hs in *. clear Hs Hd.
  apply ends_bind; cbn. apply ends_bind, ends_of_res; [done|intros q Hq].
  destruct (arg_path_ok root args _ _ Hw Hq) as [Hr _].
  apply ends_bind. eapply ends_weaken; [by apply ends_previous|]. intros previous y [-> Hp].
  apply ends_bind; cbn. apply ends_bind, ends_of_res; [done|]. intros content Hc. unfold dget_item in Hc.
  apply ends_bind. eapply ends_weaken; [by apply ends_mkdir|]. intros _ y (fs1 & Hg & ->).
  assert (Hr1 : real (links fs1) q) by (destruct Hg as [-> _]; done).
  apply ends_bind. eapply ends_weaken; [apply ends_write; [done|by eapply texts_grown]|]. intros _ y ->. apply ends_ret.
  right. exists q, content, previous. unfold writes. split_and!; try done; [by destruct (dget _ _); simplify_eq|by exists fs1|].
  cbn. rewrite (previous_existed _ _ _ (ws_wf _ _ Hw) Hr Hp). done.
Qed.

(** Rolling back a token of a write. *)
Definition putback (q : path) (previous : option string) (fs : FS) : FS :=
  match previous with Some s => <[q := File s]> fs | None => delete q fs end.
Definition undoes_write (back : dict pyval -> TM HostEnv ToolResult) token q (previous : option string) : Prop :=
  forall e w, ws root (h_fs e) -> real (links (h_fs e)) q -> (exists c, h_fs e !! q = Some (File c)) ->
    back token (e, w) = (Ok (tool_result true ("Rolled back " +:+ path_str q)), (with_fs (putback q previous (h_fs e)) e, w)).
Lemma putback_run q (previous : option string) e w : ws root (h_fs e) -> real (links (h_fs e)) q -> (exists c, h_fs e !! q = Some (File c)) ->
  in_fs match previous with Some s => write_text q s | None => unlink q end (e, w) =
    (Ok tt, (with_fs (putback q previous (h_fs e)) e, w)).
Proof.
  intros Hw Hr [c Hc]. unfold in_fs. destruct previous as [s|].
  - by rewrite (write_existing _ (ws_wf _ _ Hw) q Hr c s Hc).
  - by rewrite (unlink_existing _ (ws_wf _ _ Hw) q Hr c Hc).
Qed.
Lemma safe_write_undoes q previous :
  undoes_write (safe_write_rollback wd) [("path", VStr (path_str q)); ("previous", text_or_none previous)] q previous.
Proof.
  intros e w Hw Hr Hc. unfold safe_write_rollback. rewrite (bind_ok _ _ _ q (e, w)) by (by apply token_path_run, Hr).
  erewrite bind_ok; [done|]. rewrite <-(putback_run q previous e w Hw Hr Hc). by destruct previous.
Qed.
Lemma patch_undoes q previous :
  undoes_write (patch_file_rollback wd)
    [("path", VStr (path_str q)); ("previous", text_or_none previous); ("existed", VBool (existed previous))] q previous.
Proof.
  intros e w Hw Hr Hc. unfold patch_file_rollback. rewrite (bind_ok _ _ _ q (e, w)) by (by apply token_path_run, Hr).
  erewrite bind_ok; [done|]. rewrite <-(putback_run q previous e w Hw Hr Hc). by destruct previous.
Qed.
End undo.

(** ** Tools that can be undone *)

Section undoable.
Context `{PyRuntime} `{JsonSchemaValidator} {G : Type} (tm : TransactionManager HostEnv G) (wd root : path) (L : FS).
Definition texts_of (e : HostEnv) : gmap path string := texts (h_fs e).
Abbreviation UNDO := (undoable tm (at_ws root L) texts_of).

Lemma safe_at_ws {A} (Q : A -> Prop) (m : TM HostEnv A) e w : safe root L Q m -> at_ws root L e -> at_ws root L (snd (m (e, w))).1.
Proof. intros Hm He. apply (Hm e w He), He. Qed.
Lemma same_undoable t : tool_safe root L t -> (forall args, keeps same_files (dry_run t args)) ->
  (forall args, keeps same_files (execute t args)) -> (forall args, safe root L (fun r => rollback_token r = None) (execute t args)) ->
  rollback_egress_block_reason tm (spec t) = None -> UNDO t.
Proof.
  intros [Sd Se _] Hd He Hn Hg. split; [| |done].
  - intros args e w Hi e'. split; [by eapply safe_at_ws|]. unfold texts_of, e'. by rewrite (Hd args (e, w)).
  - intros args e w Hi. pose proof (safe_at_ws _ _ e w (Se args) Hi) as Hi'. pose proof (He args (e, w)) as Hs.
    destruct (Hn args e w Hi) as [_ Hr]. unfold same_files in Hs. destruct (execute t args (e, w)) as [r [e' w']]. simpl in *.
    split; [done|]. assert (texts_of e' = texts_of e) by (unfold texts_of; by rewrite Hs).
    destruct r as [r|x]; [|done]. simpl. destruct (ok r); [|done]. by rewrite (Hr r eq_refl).
Qed.
Lemma texts_file fs q c : texts fs !! q = Some c -> exists c', fs !! q = Some (File c').
Proof. rewrite texts_lookup. destruct (fs !! q) as [[|c'|]|]; [done|by exists c'|done|done]. Qed.
Lemma texts_putback fs fs1 q c previous : wf_fs fs -> previous_is fs q previous -> q <> [] ->
  texts fs1 = <[q := c]> (texts fs) -> texts (putback q previous fs1) = texts fs.
Proof.
  intros Hw Hp Hne Ht. unfold previous_is, node_at in Hp. destruct q as [|x q]; [done|].
  set (p := x :: q) in *. destruct previous as [s|]; simpl.
  - destruct (fs !! p) as [[|c'|t]|] eqn:E; try done. injection Hp as ->.
    rewrite texts_put, Ht, insert_insert_eq, universal_newlines_idem. apply insert_id. by rewrite texts_lookup, E.
  - rewrite texts_delete, Ht, delete_insert_eq. apply delete_id. rewrite texts_lookup. by destruct (fs !! p) as [[| |]|].
Qed.
Lemma write_undoable t : tool_safe root L t -> (forall args, keeps same_files (dry_run t args)) ->
  (forall args e w, ws root (h_fs e) -> ends (execute t args) (e, w) (h_fs e) (fun r y => ok r = false /\ h_fs y.1 = h_fs e \/
     exists q c previous kv token, writes (h_fs e) q c previous (kv :: token) r y /\
       undoes_write root (rollback t) (kv :: token) q previous)) ->
  rollback_egress_block_reason tm (spec t) = None -> UNDO t.
Proof.
  intros [Sd Se Sr] Hd He Hg. split; [| |done].
  { intros args e w Hi e'. split; [by eapply safe_at_ws|]. unfold texts_of, e'. by rewrite (Hd args (e, w)). }
  intros args e w Hi. pose proof (safe_at_ws _ _ e w (Se args) Hi) as Hi'. specialize (He args e w (proj1 Hi)).
  destruct (Se args e w Hi) as [_ Hok]. unfold ends in He. destruct (execute t args (e, w)) as [[r|x] [e' w']]; simpl in *; [|by split]. split; [done|].
  destruct He as [[-> Hs]|(q & c & previous & kv & token & (Hr & Hp & Hw & -> & Htok) & Hu)]; [unfold texts_of; by rewrite Hs|].
  rewrite Htok.
  intros e2 w2 [Hw2 Hl2] Ht e2'. apply texts_wrote in Hw. cbn [fst] in Hw. unfold texts_of in Ht. rewrite <-Ht in Hw.
  destruct (texts_file (h_fs e2) q (universal_newlines c)) as [c' Hc]; [by rewrite Hw, lookup_insert_eq|].
  assert (Hr2 : real (links (h_fs e2)) q) by (rewrite Hl2, <-(proj2 Hi); done).
  assert (Hne : q <> []) by (intros ->; by rewrite (wf_root _ (ws_wf _ _ Hw2)) in Hc).
  split; [apply (safe_at_ws (fun _ => True) _ e2 w2); [apply Sr; by apply (Hok r)|by split]|].
  unfold e2', texts_of. rewrite (Hu e2 w2 Hw2 Hr2 (ex_intro _ c' Hc)). simpl.
  eapply texts_putback; [apply Hi|done..].
Qed.

Lemma offline_rollback ts : is_network_tool ts = false -> rollback_egress_block_reason tm ts = None.
Proof. intros Hn. unfold rollback_egress_block_reason. rewrite Hn. by destruct (negb _). Qed.
Lemma file_tools_undoable : Forall UNDO [EchoTool; SafeFileWriteTool wd root; ListFilesTool root; ReadFileTool root; PatchFileTool wd root].
Proof.
  pose proof (dry_same root) as Hdry. rewrite !Forall_cons. split_and!; [| | | | |done].
  - apply same_undoable; [apply echo_safe|..]; [done|intros args..|by apply offline_rollback].
    + cbn. destruct (dget "message" args); done.
    + cbn. destruct (dget "message" args); [by apply safe_ret|apply safe_raise].
  - apply write_undoable; [apply safe_write_safe|apply Hdry| |by apply offline_rollback]. intros args e w Hw.
    eapply ends_weaken; [by apply safe_write_run|]. intros r y (q & c & previous & _ & _ & Hr). right.
    eexists q, _, previous, _, _. split; [exact Hr|apply safe_write_undoes].
  - apply same_undoable; [apply list_safe|apply Hdry|apply list_same|apply list_execute_safe|by apply offline_rollback].
  - apply same_undoable; [apply read_safe|apply Hdry|apply read_same|apply read_execute_safe|by apply offline_rollback].
  - apply write_undoable; [apply patch_safe|apply Hdry| |by apply offline_rollback]. intros args e w Hw.
    eapply ends_weaken; [by apply patch_run|]. intros r y [?|(q & c & previous & _ & _ & Hr)]; [by left|right].
    eexists q, _, previous, _, _. split; [exact Hr|apply patch_undoes].
Qed.
End undoable.

(** * Properties of the file tools: whole runs stay in the workspace, writing is undone exactly, and a
    plan that fails leaves the texts of the workspace as they were. *)


Section runs.
Context `{PyRuntime} `{JsonSchemaValidator} {G : Type}.
(** The file tools of a workspace. *)
Definition file_tools (wd root : path) : list (Tool HostEnv) :=
  [EchoTool; SafeFileWriteTool wd root; ListFilesTool root; ReadFileTool root; PatchFileTool wd root].
(** C15: no run of a plan over the file tools, whatever the plan, the policy, the gate and the failures
    are, touches anything outside the workspace: no file, directory or link there is made,
    changed or removed, rollbacks included.  Inside, no link is made or removed and the root stays
    a directory; no process is started.  The tree must have no link that leads back to itself. *)
Theorem file_tools_confined (tm : TransactionManager HostEnv G) wd root s :
  (forall n t, registry_get n (tm_registry tm) = Ok t -> t ∈ file_tools wd root) ->
  ws root (h_fs (t_env s)) ->
  let fs := h_fs (t_env s) in
  let e' := t_env (snd (execute_plan tm s)) in
  ws root (h_fs e') /\ links (h_fs e') = links fs /\
  (forall p, ~ root `prefix_of` p -> h_fs e' !! p = fs !! p) /\ h_procs e' = h_procs (t_env s).
Proof.
  intros Hreg Hw fs e'. set (L := links fs).
  assert (Hall : Forall (tool_safe root L) (file_tools wd root)).
  { unfold file_tools. rewrite !Forall_cons. auto 10 using echo_safe, safe_write_safe, list_safe, read_safe, patch_safe. }
  assert (Hc : confined root L (t_env s) e').
  { apply (execute_plan_env tm _ (at_ws root L) (fun _ => token_ok root L)); [|intros n t Ht|done].
    - intros e1 e2 Hc He. by apply Hc.
    - apply tool_safe_keeps. rewrite Forall_forall in Hall. by eapply Hall, Hreg. }
  destruct Hc as ([? ?] & ? & ?); [done|]. by split_and!.
Qed.
(** C14: atomicity of plans over the file tools.  A plan that ran to its end has verified all its steps,
    or else every file of the tree reads as it did before the plan started, and there is no other: what the
    steps had written is rolled back, last write first, also when two steps wrote the same file.
    (A file is compared by the text reading it gives: line ends come back as LF.) *)
Theorem file_plan_atomic (tm : TransactionManager HostEnv G) wd root s s' :
  (forall n t, registry_get n (tm_registry tm) = Ok t -> t ∈ file_tools wd root) ->
  ws root (h_fs (t_env s)) -> steps_valid s -> execute_plan tm s = (Ok tt, s') ->
  (forall i, i ∈ p_steps (t_plan s) -> verified_at s' i) \/
  forall p, texts (h_fs (t_env s')) !! p = texts (h_fs (t_env s)) !! p.
Proof.
  intros Hreg Hw Hv He. set (L := links (h_fs (t_env s))).
  destruct (plan_undone tm (at_ws root L) texts_of s s') as [Hok|Hu]; [|done..|by left|].
  - intros n t Ht. pose proof (file_tools_undoable tm wd root L) as Hall. rewrite Forall_forall in Hall. by eapply Hall, Hreg.
  - right. intros p. unfold texts_of in Hu. by rewrite Hu.
Qed.
End runs.

(** ** Undoing a write *)

Section undo.
Context `{PyRuntime} `{JsonSchemaValidator} (wd root : path).

(** Undoing a write.  A successful execution writes the content to the resolved path of the
    workspace and besides makes only directories leading to it.  Its rollback, at any
    later time when the file is still there, puts the earlier content
    back and changes nothing else, or removes the file if it was new.  What is put back is the earlier
    text with its line ends turned into LF; the directories stay. *)
Theorem file_write_undone args e w r e1 w1 token :
  ws root (h_fs e) -> execute (SafeFileWriteTool wd root) args (e, w) = (Ok r, (e1, w1)) -> rollback_token r = Some token ->
  exists q content fs1,
    write_target root args (h_fs e) = Ok q /\ dget "content" args = Some content /\
    grown (parent q) (h_fs e) fs1 /\ h_fs e1 = <[q := File (py_str content)]> fs1 /\
    forall e2 w2, ws root (h_fs e2) -> links (h_fs e2) = links (h_fs e) -> (exists c, h_fs e2 !! q = Some (File c)) ->
      rollback (SafeFileWriteTool wd root) token (e2, w2) =
        (Ok (tool_result true ("Rolled back " +:+ path_str q)),
         (with_fs match h_fs e !! q with
                  | Some (File c) => <[q := File (universal_newlines c)]> (h_fs e2)
                  | _ => delete q (h_fs e2)
                  end e2, w2)).
Proof.
  intros Hw He Ht. pose proof (safe_write_run root args e w Hw) as Hrun. unfold ends in Hrun. change (safe_write_execute root args (e, w) = (Ok r, (e1, w1))) in He. rewrite He in Hrun.
  destruct Hrun as (q & content & previous & Hq & Hc & Hr & Hp & (fs1 & Hg & Hfs) & _ & Htok).
  rewrite Ht in Htok. injection Htok as ->. exists q, content, fs1. split_and!; try done.
  intros e2 w2 Hw2 Hl2 Hex. cbn [rollback SafeFileWriteTool file_tool].
  rewrite (safe_write_undoes wd root q previous e2 w2 Hw2) by (by rewrite ?Hl2).
  unfold previous_is in Hp. destruct Hex as [c2 Hc2].
  assert (Hnode : node_at (h_fs e) q = h_fs e !! q) by (destruct q; [by rewrite (wf_root _ (ws_wf _ _ Hw2)) in Hc2|done]).
  rewrite Hnode in Hp. by destruct (h_fs e !! q) as [[|c|t]|]; subst.
Qed.
End undo.

(** ** At concrete trees *)


(** A workspace with a file and a link that leads out of it. *)
Definition toy_fs : FS := list_to_map
  [(["ws"], Dir); (["ws"; "a.txt"], File "one"); (["ws"; "link"], Link "../out");
   (["out"], Dir); (["out"; "secret"], File "s")].
Definition toy_host : HostEnv := {| h_fs := toy_fs; h_procs := [] |}.
Definition file_manager : TransactionManager HostEnv unit := {|
  tm_registry := [("safe_file_write", SafeFileWriteTool [] ["ws"]); ("echo", EchoTool); ("patch_file", PatchFileTool [] ["ws"])];
  tm_policy := developer_engine; tm_causal := []; tm_gate := yes_gate;
  tm_allow_network_tools := false; tm_sandbox_runners := [] |}.
Definition write_step (n : nat) (p content : string) : ActionStep :=
  new_step "safe_file_write" [("path", VStr p); ("content", VStr content)] "because" ("step-" +:+ str_Z (Z.of_nat n)).
Definition file_state (steps : list ActionStep) : TState HostEnv unit := {|
  t_sys := sys0; t_env := toy_host; t_world := empty_world;
  t_heap := steps; t_plan := toy_plan steps; t_uses := fun _ => 0%Z; t_gate := tt; t_stack := []; t_calls := [] |}.
(** Writing twice, then through the link. *)
Definition escaping_plan : list ActionStep :=
  [write_step 0 "a.txt" "two"; write_step 1 "d/b.txt" "new"; write_step 2 "link/x" "out"].

Lemma toy_cases p n : toy_fs !! p = Some n ->
  (p, n) ∈ [(["ws"], Dir); (["ws"; "a.txt"], File "one"); (["ws"; "link"], Link "../out"); (["out"], Dir); (["out"; "secret"], File "s")].
Proof. apply elem_of_list_to_map_2. Qed.
Ltac toy_case H := apply toy_cases in H; rewrite !elem_of_cons, elem_of_nil in H; destruct H as [H|[H|[H|[H|[H|[]]]]]]; simplify_eq; try done.
Lemma toy_wf : wf_fs toy_fs.
Proof. split; [done|intros p n Hp; toy_case Hp; by repeat constructor|intros p n Hp; toy_case Hp]. Qed.
Lemma toy_ws : ws ["ws"] toy_fs.
Proof.
  split; [apply toy_wf|apply flat_loop_free; [apply toy_wf|intros p n Hp; toy_case Hp]|done|].
  apply (real_snoc _ [] "ws"); [by apply real_nil|reflexivity|vm_compute; reflexivity].
Qed.
Lemma file_manager_tools n t : registry_get n (tm_registry file_manager) = Ok t -> t ∈ file_tools [] ["ws"].
Proof.
  unfold registry_get. simpl. unfold file_tools. rewrite !elem_of_cons.
  repeat case_match; intros; simplify_eq; auto 10.
Qed.
Abbreviation escaping_run := (execute_plan file_manager (file_state escaping_plan)).
Lemma file_tools_confined_witness :
  h_fs (t_env (snd escaping_run)) !! ["out"; "x"] = None /\ h_fs (t_env (snd escaping_run)) !! ["out"; "secret"] = Some (File "s").
Proof.
  destruct (file_tools_confined file_manager [] ["ws"] (file_state escaping_plan) file_manager_tools toy_ws) as (_ & _ & Ho & _).
  split; (etrans; [apply Ho; intros [k Hk]; discriminate|vm_compute; reflexivity]).
Defined.
Lemma file_plan_atomic_witness :
  (fst escaping_run, step_statuses (snd escaping_run)) = (Ok tt, [ROLLED_BACK; ROLLED_BACK; FAILED]) /\
  forall p, texts (h_fs (t_env (snd escaping_run))) !! p = texts toy_fs !! p.
Proof.
  assert (Hs : (fst escaping_run, step_statuses (snd escaping_run)) = (Ok tt, [ROLLED_BACK; ROLLED_BACK; FAILED]))
    by (vm_compute; reflexivity).
  split; [exact Hs|].
  destruct (file_plan_atomic file_manager [] ["ws"] (file_state escaping_plan) (snd escaping_run) file_manager_tools toy_ws)
    as [Hv|Ht]; [repeat constructor| |exfalso|exact Ht].
  - rewrite <-(f_equal fst Hs : fst escaping_run = Ok tt). apply surjective_pairing.
  - destruct (Hv 2) as (st & Hst & Hvs); [by right; right; left|].
    vm_compute in Hst. injection Hst as <-. discriminate.
Defined.
Definition toy_write := execute (SafeFileWriteTool [] ["ws"]) [("path", VStr "a.txt"); ("content", VStr "two")] (toy_host, empty_world).
Definition written_host : HostEnv := (snd toy_write).1.
Definition write_token : dict pyval := [("path", VStr "/ws/a.txt"); ("previous", VStr "one")].
Lemma file_write_undone_witness :
  h_fs written_host !! ["ws"; "a.txt"] = Some (File "two") /\
  h_fs (snd (rollback (SafeFileWriteTool [] ["ws"]) write_token (written_host, empty_world))).1 !! ["ws"; "a.txt"] = Some (File "one").
Proof.
  split; [vm_compute; reflexivity|].
  destruct (file_write_undone [] ["ws"] [("path", VStr "a.txt"); ("content", VStr "two")] toy_host empty_world
    (observing "Wrote /ws/a.txt" [("file_written", VStr "/ws/a.txt")] (Some write_token)) written_host empty_world write_token)
    as (q & c & fs1 & Hq & Hc & Hg & Hf & Hback); [apply toy_ws|vm_compute; reflexivity|reflexivity|].
  vm_compute in Hq. injection Hq as <-.
  assert (Hl : links (h_fs written_host) = links toy_fs) by (vm_compute; reflexivity).
  rewrite (Hback written_host empty_world); [vm_compute; reflexivity| |exact Hl|exists "two"; vm_compute; reflexivity].
  destruct (safe_write_safe [] ["ws"] (links toy_fs)) as [_ He _].
  apply (He [("path", VStr "a.txt"); ("content", VStr "two")] toy_host empty_world); (split; [apply toy_ws|reflexivity]).
Defined.

(** A link that leads back to itself defeats the check: [Path.resolve] gives up at the loop and
    leaves the rest of the path as it is, so a later link, here to the directory above, is not resolved and passes the test
    on prefixes; the write follows it. *)
Definition loop_fs : FS := list_to_map
  [(["ws"], Dir); (["ws"; "loop"], Link "loop"); (["ws"; "link"], Link "../out"); (["out"], Dir)].
Definition loop_args : dict pyval := [("path", VStr "loop/../link/x"); ("content", VStr "escaped")].
Example loop_escapes :
  write_target ["ws"] loop_args loop_fs = Ok ["ws"; "link"; "x"] /\
  h_fs (snd (execute (SafeFileWriteTool [] ["ws"]) loop_args ({| h_fs := loop_fs; h_procs := [] |}, empty_world))).1 !! ["out"; "x"]
    = Some (File "escaped").
Proof. vm_compute. split; reflexivity. Qed.
