(* ===== verification/EvalProps.v ===== *)
(** The safety evaluation (eval_runner.py): what a report says about the files it was made from, the cases that pass on
    every platform, and the whole suite on a concrete one.  The evidence of a release (proof.py): what a manifest says about
    the worktree and the commands that were run. *)
From S2P Require Import Prelude Enums PyValue Sanitization Goals Plans Tools FileSystem PyText NetworkTools AuditTrail Evaluator Causal Egress Policy PolicyConfig Approval Gates Traces Credentials GitHubClient GitHubRest GitHubTools FileTools Sandbox Transactions Planner RuntimeStores Evals Evidence Fixtures TxSafety.

(** ** Reports *)

Lemma count_partition {A} (f : A -> bool) (l : list A) :
  (count_if f l + count_if (fun x => negb (f x)) l = Z.of_nat (length l))%Z.
Proof.
  unfold count_if. induction l as [|x l IH]; [done|]. cbn [List.filter]. destruct (f x); cbn [negb length]; lia.
Qed.
Lemma none_counted {A} (f : A -> bool) (l : list A) : count_if f l = 0%Z <-> Forall (fun x => f x = false) l.
Proof.
  unfold count_if. induction l as [|x l IH]; [done|]. rewrite Forall_cons. cbn [List.filter].
  destruct (f x); cbn [length]; [split; [lia | by intros [? _]] |]. rewrite IH. naive_solver.
Qed.
Lemma report_counts suite cases :
  (er_passed (eval_report suite cases) + er_failed (eval_report suite cases) = er_total (eval_report suite cases))%Z.
Proof. apply count_partition. Qed.
Lemma report_green suite cases :
  er_failed (eval_report suite cases) = 0%Z <-> Forall (fun c => ec_status c = "passed") cases.
Proof.
  cbn [er_failed eval_report]. rewrite none_counted. apply Forall_iff. intros c. unfold not_passed.
  by rewrite negb_false_iff, String.eqb_eq.
Qed.

Section evals.
Context `{PyRuntime} `{JsonSchemaValidator} `{ToolPlatform} `{UrlParser} `{JsonText} `{Processes}.
Context (wd : path) (hostname : string -> option string) (getaddrinfo : string -> option Z -> M unit exn (list (res exn string)))
  (temp_path : FS -> path).
Abbreviation runners := (by_name wd hostname getaddrinfo temp_path).

(** What the case of a fixture file is: the file was read, and the outcome is that of the runner with its name. *)
Definition ran (p : path) (c : EvalCaseResult) : Prop := exists h data h1,
  read_fixture p h = (Ok data, h1) /\ ec_name c = fixture_name p data /\
  match dget (ec_name c) runners with
  | None => ec_status c = "failed" /\ ec_actual c = "missing fixture runner"
  | Some runner => exists r h2, runner h1 = (Ok r, h2) /\ ec_status c = ec_status r /\ ec_actual c = ec_actual r
  end.

Lemma run_fixture_ran p h c h' : run_fixture wd hostname getaddrinfo temp_path p h = (Ok c, h') -> ran p c.
Proof.
  unfold run_fixture, bind. destruct (read_fixture p h) as [[data|e] h1] eqn:Er; [|done].
  destruct (dget (fixture_name p data) runners) as [runner|] eqn:En.
  - destruct (runner h1) as [[r|e] h2] eqn:Em; [|done]. intros [= <- <-]. exists h, data, h1. cbn [ec_name ec_status ec_actual]. rewrite En.
    split_and!; [done|done|]. by exists r, h2.
  - intros [= <- <-]. exists h, data, h1. cbn [ec_name case_result]. by rewrite En.
Qed.
Lemma run_cases_forall2 {A} (f : A -> EM EvalCaseResult) (P : A -> EvalCaseResult -> Prop) l :
  (forall a h c h', f a h = (Ok c, h') -> P a c) ->
  forall h cs h', run_cases (map f l) h = (Ok cs, h') -> Forall2 P l cs.
Proof.
  intros Hf. induction l as [|a l IH]; intros h cs h'; cbn [map run_cases].
  - intros [= <- <-]. constructor.
  - unfold bind. destruct (f a h) as [[c|e] h1] eqn:Ea; [|done].
    destruct (run_cases (map f l) h1) as [[cs'|e] h2] eqn:El; [|done]. intros [= <- <-]. constructor; eauto.
Qed.


(** ** Cases that pass whatever the platform does *)

Definition passes (m : EM EvalCaseResult) : Prop := forall h, exists c, fst (m h) = Ok c /\ ec_status c = "passed".

Lemma injection_rejected raw available h :
  existsb (fun t => str_in t (rendered raw)) DANGEROUS_UNTRUSTED_TOKENS = true ->
  (exists v, dget_item "steps" raw = Ok v /\ truthy v = true) ->
  fst (proposal_rejected raw available h) = Ok true.
Proof.
  intros Ht [v [Hs Hv]]. unfold proposal_rejected, call_sys, catch, validate_llm_proposals. cbn [validate_proposals]. unfold bind.
  assert (Hr : exists e, forall s : Sys, validate_proposal available 0 (VDict raw) s = (Raise e, s)).
  { unfold validate_proposal. destruct (validate_json_schema raw PLAN_PROPOSAL_SCHEMA); [|by eexists].
    unfold bind, of_res. rewrite Hs, Hv. cbn [negb]. unfold reject_untrusted_control_intent.
    destruct (List.find _ DANGEROUS_UNTRUSTED_TOKENS) as [t|] eqn:Ef; [by eexists|].
    apply existsb_exists in Ht as (t & Hin & Ht). by rewrite (List.find_none _ _ Ef t Hin) in Ht. }
  destruct Hr as [e Hr]. by rewrite Hr.
Qed.
Lemma injection_passes raw available n threat expected yes no sev :
  existsb (fun t => str_in t (rendered raw)) DANGEROUS_UNTRUSTED_TOKENS = true ->
  (exists v, dget_item "steps" raw = Ok v /\ truthy v = true) ->
  passes (let! passed := proposal_rejected raw available in
          ret (case_result n threat expected (if (passed : bool) then yes else no) passed sev)).
Proof.
  intros Ht Hs h. pose proof (injection_rejected raw available h Ht Hs) as Hi. unfold bind.
  destruct (proposal_rejected raw available h) as [r h1]. cbn [fst] in Hi. rewrite Hi. by eexists.
Qed.
Ltac injection_case := apply injection_passes; [vm_compute; reflexivity | eexists; split; vm_compute; reflexivity].
Ltac evaluated_case := intros h; eexists; split; [vm_compute; reflexivity | reflexivity].

Lemma wrong_scope_refused : passes credential_wrong_scope.
Proof.
  intros h. unfold credential_wrong_scope, in_new_vault, InMemoryCredentialVault, cv_put, cv_get, vault_put, vault_get, catch.
  unfold bind, gets, clock_uuid, clock_time, modify, ret. cbn [v_handles v_revoked handle_id fst].
  cbn. rewrite lookup_insert_eq, bool_decide_eq_false_2 by set_solver. cbn. by eexists.
Qed.

(** Fifteen cases of the evaluation pass on every platform: whatever the clock, the uuids, the hash, the JSON Schema
    validator, the URL and JSON parsers, the processes and the files are. *)
Theorem evals_pass_on_every_platform : Forall passes
  [policy_bypass; credential_wrong_scope; runtime_store_secret_checkpoint; runtime_store_token_string;
   trace_secret_rendering; github_update_without_expected_sha; github_token_plain_string hostname;
   github_delete_protected_branch hostname; github_pr_duplicate; evaluator_unmatched_criteria;
   prompt_injection_policy_override; prompt_injection_reveal_secret; prompt_injection_grant_permission;
   rollback_reliability_case; container_without_runner_blocked].
Proof.
  repeat apply Forall_cons_2; [| | | | | | | | | | | | | | |apply Forall_nil_2].
  2: exact wrong_scope_refused.
  10: unfold prompt_injection_policy_override; injection_case.
  10: unfold prompt_injection_reveal_secret; injection_case.
  10: unfold prompt_injection_grant_permission; injection_case.
  all: evaluated_case.
Qed.
End evals.

(** ** The evidence of a release (proof.py) *)

Section evidence.
Context `{PyRuntime} `{JsonSchemaValidator} `{ToolPlatform} `{UrlParser} `{Processes} `{EvidencePlatform}.
Context (wd : path) (getaddrinfo : string -> option Z -> M unit exn (list (res exn string))) (temp_path : FS -> path).

(** No process is started. *)
Definition same_runs (h h' : EvidenceHost) : Prop := pv_runs h' = pv_runs h.
#[local] Instance same_runs_preorder : PreOrder same_runs.
Proof. split; [done|]. unfold same_runs. intros x y z -> ->. done. Qed.

Lemma on_host_quiet {A} (m : EM A) : keeps same_runs (on_host m).
Proof. intros h. unfold on_host. by destruct (m (pv_host h)). Qed.
Lemma on_files_quiet {A} (m : FM A) : keeps same_runs (on_files m).
Proof. apply on_host_quiet. Qed.
Lemma now_quiet : keeps same_runs now. Proof. done. Qed.
Lemma files_quiet : keeps same_runs files. Proof. done. Qed.
Lemma each_quiet {A B} (f : A -> PM B) l : (forall a, keeps same_runs (f a)) -> keeps same_runs (each f l).
Proof.
  intros Hf. induction l as [|a l IH]; cbn [each]; [apply keeps_ret; apply _|].
  apply keeps_bind; [apply _|apply Hf|]. intros b. apply keeps_bind; [apply _|exact IH|]. intros bs. apply keeps_ret. apply _.
Qed.
#[local] Hint Resolve on_host_quiet on_files_quiet now_quiet files_quiet : keeps.
Lemma package_version_quiet root : keeps same_runs (package_version root).
Proof. unfold package_version, pyproject_version. keeps_auto. Qed.
#[local] Hint Resolve package_version_quiet : keeps.
Lemma environment_quiet root v : keeps same_runs (environment root v).
Proof. unfold environment. keeps_auto. Qed.
Lemma snapshot_quiet root rel : keeps same_runs (snapshot_file root rel).
Proof. unfold snapshot_file. keeps_auto. Qed.
Lemma skipped_quiet why e : keeps same_runs (skipped_command why e).
Proof. unfold skipped_command. keeps_auto. Qed.
Lemma scan_quiet m : keeps same_runs (render_security_scan wd m).
Proof.
  unfold render_security_scan. apply keeps_bind; [apply _| |intros ?; apply keeps_ret; apply _].
  apply each_quiet. intros rel. unfold mentions_nosec. keeps_auto.
Qed.
#[local] Hint Resolve environment_quiet snapshot_quiet skipped_quiet scan_quiet : keeps.
Lemma write_all_quiet output m : keeps same_runs (write_all wd getaddrinfo temp_path output m).
Proof. unfold write_all, write_doc. keeps_auto. Qed.

(** The three queries of git. *)
Lemma git_runs root args h r h' : git root args h = (r, h') -> pv_runs h' = S (pv_runs h).
Proof.
  unfold git, bind, process, ret. destruct (start_process _ _ _ _ _ _) as [o fs]. by intros [= _ <-].
Qed.
Lemma metadata_runs root h d h' :
  git_metadata root h = (Ok d, h') -> pv_runs h' = (pv_runs h + 3)%nat.
Proof.
  unfold git_metadata. intros Hb. binv Hb. binv Hb. binv Hb. injection Hb as _ <-.
  apply git_runs in Hm, Hm0, Hm1. lia.
Qed.

(** Every list of commands has one entry per command, in order, with one of three outcomes. *)
Definition outcome_ok (entry : string * list string) (c : CommandProof) : Prop :=
  (cp_name c, cp_command c) = entry /\ cp_status c ∈ ["passed"; "failed"; "skipped"] /\
  (cp_status c = "passed" <-> cp_exit_code c = Some 0%Z).
Lemma each_forall2 {A B} (f : A -> PM B) (P : A -> B -> Prop) l :
  (forall a h b h', f a h = (Ok b, h') -> P a b) -> forall h bs h', each f l h = (Ok bs, h') -> Forall2 P l bs.
Proof.
  intros Hf. induction l as [|a l IH]; intros h bs h' Hb; cbn [each] in Hb.
  - injection Hb as <- <-. constructor.
  - binv Hb. binv Hb. injection Hb as <- <-. constructor; eauto.
Qed.
Lemma ended_inv n command code st at_ t out err why h c h' :
  ended n command code st at_ t out err why h = (Ok c, h') ->
  cp_name c = n /\ cp_command c = command /\ cp_status c = st /\ cp_exit_code c = code.
Proof. unfold ended. intros Hb. binv Hb. binv Hb. by injection Hb as <- <-. Qed.
Lemma run_command_ok root entry h c h' : run_command root entry h = (Ok c, h') -> outcome_ok entry c.
Proof.
  destruct entry as [n command]. unfold run_command, outcome_ok. intros Hb. binv Hb. binv Hb. binv Hb.
  destruct a1 as [code out err|out err|e]; [| |destruct (isinstance e FileNotFoundError); [|discriminate]].
  all: apply ended_inv in Hb as (-> & -> & -> & ->); split; [done|].
  - destruct (Z.eqb_spec code 0); split; [set_solver|naive_solver|set_solver|naive_solver].
  - split; [set_solver|naive_solver].
  - split; [set_solver|naive_solver].
Qed.
Lemma skipped_command_ok why entry h c h' :
  skipped_command why entry h = (Ok c, h') -> outcome_ok entry c /\ cp_status c = "skipped".
Proof.
  unfold skipped_command, outcome_ok. intros Hb. binv Hb. injection Hb as <- <-. cbn. destruct entry.
  split; [|done]. split; [done|]. split; [set_solver|done].
Qed.
Lemma outcomes_names l cs : Forall2 outcome_ok l cs -> map (fun c => (cp_name c, cp_command c)) cs = l.
Proof. induction 1 as [|e c l cs [He _] _ IH]; [done|]. cbn. by rewrite He, IH. Qed.
Lemma outcomes_counted cs :
  Forall (fun c => cp_status c ∈ ["passed"; "failed"; "skipped"]) cs ->
  (with_status "passed" cs + with_status "failed" cs + with_status "skipped" cs = Z.of_nat (length cs))%Z.
Proof.
  unfold with_status, count_if. induction 1 as [|c cs Hc _ IH]; [done|]. cbn [List.filter].
  repeat (apply elem_of_cons in Hc as [Hc|Hc]; [rewrite Hc; cbn; lia|]). by apply not_elem_of_nil in Hc.
Qed.

Lemma gather_ok root st no_run h cs h' :
  gather_commands root st no_run h = (Ok cs, h') ->
  Forall2 outcome_ok COMMANDS cs /\
  (no_run = true \/ st = "failed_dirty_worktree" -> Forall (fun c => cp_status c = "skipped") cs /\ same_runs h h').
Proof.
  unfold gather_commands.
  assert (Hskip : forall why, each (skipped_command why) COMMANDS h = (Ok cs, h') ->
    Forall2 outcome_ok COMMANDS cs /\ Forall (fun c => cp_status c = "skipped") cs /\ same_runs h h').
  { intros why He. pose proof (each_quiet _ COMMANDS (skipped_quiet why) h) as Hq. rewrite He in Hq.
    apply (each_forall2 _ (fun e c => outcome_ok e c /\ cp_status c = "skipped")) in He;
      [|intros a h0 b h1; apply skipped_command_ok].
    split_and!; [|by eapply Forall2_Forall_r; [exact He|]; apply Forall_true; intros ? ? [_ ?]|exact Hq].
    eapply Forall2_impl; [exact He|]. by intros ? ? [? _]. }
  destruct (String.eqb_spec st "failed_dirty_worktree") as [->|Hst].
  { intros He. apply Hskip in He as (? & ? & ?). tauto. }
  destruct no_run.
  { intros He. apply Hskip in He as (? & ? & ?). tauto. }
  intros He. split; [|by intros [?|?]]. eapply each_forall2; [|exact He]. intros a h0 b h1. apply run_command_ok.
Qed.
Lemma test_count_inv cs :
  Forall (fun c => cp_status c = "passed" <-> cp_exit_code c = Some 0%Z) cs -> is_Some (test_count cs) ->
  Exists (fun c => cp_name c = "unit_tests" /\ cp_exit_code c = Some 0%Z) cs.
Proof.
  unfold test_count, named. intros Hall. destruct (List.find _ cs) as [c|] eqn:Ef; [|by intros []].
  apply find_some in Ef as [Hin Hn]. destruct (String.eqb_spec (cp_status c) "passed") as [Hp|]; [|by intros []].
  intros _. apply Exists_exists. exists c. apply base.list_elem_of_In in Hin. rewrite Forall_forall in Hall.
  split; [done|]. split; [by apply String.eqb_eq|]. by apply Hall.
Qed.
Lemma failed_exists cs : existsb (fun c => String.eqb (cp_status c) "failed") cs = true <-> Exists (fun c => cp_status c = "failed") cs.
Proof.
  rewrite existsb_exists, Exists_exists. apply exist_proper. intros c. by rewrite base.list_elem_of_In, String.eqb_eq.
Qed.
Lemma proof_status_inv dirty require_clean :
  let '(st, grade, _) := proof_status dirty require_clean in
  (grade = true <-> dirty = Some false) /\ (st = "failed_dirty_worktree" <-> require_clean = true /\ dirty = Some true).
Proof. destruct dirty as [[]|], require_clean; cbn; naive_solver. Qed.

Lemma quiet_bind {A B} (x : PM A) (f : A -> PM B) h b h' :
  keeps same_runs x -> bind x f h = (Ok b, h') ->
  exists a h1, same_runs h h1 /\ f a h1 = (Ok b, h').
Proof.
  intros Hx Hb. binv Hb. exists a, s. split; [|done]. specialize (Hx h). by rewrite Hm in Hx.
Qed.
Ltac quiet Hb Q := apply quiet_bind in Hb as (? & ? & Q & Hb); [|first [done | apply keeps_of_res; apply _ | auto with keeps]].

(** A finished generation: the status is that of the worktree, and the commands were gathered after the three queries. *)
Lemma generate_inv output require_clean no_run repo h m h' :
  generate_proofs wd getaddrinfo temp_path output require_clean no_run repo h = (Ok m, h') ->
  proof_status (pm_dirty m) require_clean = (pm_proof_status m, pm_release_grade m, pm_warnings m) /\
  pm_test_count m = test_count (pm_commands m) /\
  exists root h1 h2, gather_commands root (pm_proof_status m) no_run h1 = (Ok (pm_commands m), h2) /\
    pv_runs h1 = (pv_runs h + 3)%nat /\ pv_runs h' = pv_runs h2.
Proof.
  unfold generate_proofs. intros Hb.
  quiet Hb Q1. quiet Hb Q2. quiet Hb Q3. quiet Hb Q4. binv Hb. apply metadata_runs in Hm.
  destruct (proof_status a.2 require_clean) as [[st grade] warnings] eqn:Es.
  apply quiet_bind in Hb as (? & ? & Q5 & Hb); [|apply each_quiet; auto with keeps].
  quiet Hb Q6. quiet Hb Q7. apply quiet_bind in Hb as (? & ? & Q8 & Hb); [|apply each_quiet; auto with keeps].
  quiet Hb Q9. binv Hb. quiet Hb Q10.
  apply quiet_bind in Hb as (? & ? & Q11 & Hb); [|apply write_all_quiet]. injection Hb as <- <-.
  cbn [pm_dirty pm_proof_status pm_release_grade pm_warnings pm_test_count pm_commands].
  split; [done|]. split; [done|]. eexists _, _, _. split; [exact Hm0|]. unfold same_runs in *. split; congruence.
Qed.

End evidence.

(** ** The suite on a concrete platform *)

#[local] Instance eval_runtime : PyRuntime := {|
  sha256_hex := toy_hash; hmac_sha256_hex := @hmac_sha256_hex toy_runtime; float_repr := @float_repr toy_runtime;
  float_fmt2 := @float_fmt2 toy_runtime; float_of_str := @float_of_str toy_runtime; float_sum := @float_sum toy_runtime;
  set_order := fun l => l; obj_repr := @obj_repr toy_runtime; time_at := @time_at toy_runtime; uuid_at := @uuid_at toy_runtime;
  ip_blocked := fun s => if str_mem s ["127.0.0.1"; "10.0.0.1"; "169.254.169.254"] then Some true else None |}.
(** The part of JSON Schema the probes use. *)
#[local] Instance eval_schema : JsonSchemaValidator := {| schema_issues := fun inst schema =>
  let required := match dget "required" schema with Some (VList l) => omap as_str l | _ => [] end in
  let properties := match dget "properties" schema with Some (VDict d) => dkeys d | _ => [] end in
  let closed := match dget "additionalProperties" schema with Some (VBool false) => true | _ => false end in
  map VStr (List.filter (fun k => negb (dmem k inst)) required ++
            (if closed then List.filter (fun k => negb (str_mem k properties)) (dkeys inst) else [])) |}.
#[local] Instance eval_platform : ToolPlatform := {| tool_uuid := @uuid_at toy_runtime; tool_time := @time_at toy_runtime |}.
#[local] Instance eval_urls : UrlParser := {| urlparse := fun u =>
  let p := fun sch host => {| NetworkTools.scheme := sch; url_hostname := Some host; username := None; password := None;
                              port := Ok None |} in
  default (p "" "")
    (dget u [("https://example.com", p "https" "example.com"); ("http://localhost", p "http" "localhost");
             ("http://127.0.0.1", p "http" "127.0.0.1"); ("http://169.254.169.254", p "http" "169.254.169.254");
             ("https://evil.test", p "https" "evil.test")]) |}.
(** Two fixture texts, one of which claims an outcome, and the pulls of the REST case. *)
#[local] Instance eval_json : JsonText := {| json_loads := fun s =>
  if String.eqb s marked_pulls
  then inr (VList [VDict [("number", VInt 9); ("body", VStr eval_marker); ("state", VStr "open")]])
  else if String.eqb s "known" then inr (VDict [("name", VStr "policy_bypass"); ("severity", VStr "low")])
  else inr (VDict [("status", VStr "passed"); ("actual", VStr "blocked")]) |}.
#[local] Instance eval_processes : Processes := {| which := fun _ => None; os_environ := [];
  subprocess_run := fun _ fs => (Completed 0 "" "", fs) |}.
Definition eval_host : EvalHost := {| eh_clock := clock0; eh_fs :=
  <[["ws"] := Dir]> (<[["tmp"] := Dir]> (<[["suite"] := Dir]> (<[["suite"; "a.json"] := File "known"]>
  (<[["suite"; "b.json"] := File "claims"]> (<[["suite"; "notes.txt"] := File "x"]> ∅))))) |}.
Definition offline : string -> option Z -> M unit exn (list (res exn string)) := fun _ _ => raise (Exn OSError "offline").
Definition github_host : string -> option string := fun _ => Some "api.github.com".
Definition next_temp : FS -> path := fun _ => ["tmp"; "t1"].

Example safety_suite_passes :
  res_map (fun r => (format_eval_report r, er_findings r)) (fst (run_safety_evals ["ws"] offline next_temp eval_host)) =
  Ok ("safety: 15/15 passed, 0 failed", []).
Proof. vm_compute. reflexivity. Qed.
Example fixture_runners_pass :
  forallb (fun kv => match fst (kv.2 eval_host) with Ok c => String.eqb (ec_status c) "passed" | Raise _ => false end)
    (by_name ["ws"] github_host offline next_temp) = true.
Proof. vm_compute. reflexivity. Qed.

Definition fixture_run := run_eval_suite ["ws"] github_host offline next_temp ["suite"] eval_host.

(** A repository with a clean worktree whose version is installed; every process answers with one line. *)
Definition quoted (s : string) : string := String dq_char (s +:+ String dq_char "").
Definition repo_files : FS :=
  <[["ws"] := Dir]> (<[["tmp"] := Dir]> (<[["ws"; "tests"] := Dir]> (<[["ws"; "tests"; "test_a.py"] := File "pass"]>
  (<[["ws"; "pyproject.toml"] := File ("[project]" +:+ LF_str +:+ "version = " +:+ quoted "0.1.0" +:+ LF_str +:+ "[tool]")]> ∅)))).
#[local] Instance eval_evidence : EvidencePlatform := {|
  start_process := fun _ argv _ _ _ fs =>
    (Finished 0 (if str_mem "status" argv then "" else "Ran 3 tests in 1s" +:+ LF_str +:+ "token: abc, OK") "", fs);
  monotonic_at := fun n => f_of_Z (Z.of_nat n); iso_now_at := fun n => "t" +:+ str_Z (Z.of_nat n); round3 := fun f => f;
  installed_version := Some "0.1.0"; python_version := "3.12"; platform_text := "linux" |}.
Definition repo_host : EvidenceHost :=
  {| pv_host := {| eh_clock := clock0; eh_fs := repo_files |}; pv_runs := 0; pv_monotonic := 0; pv_now := 0 |}.
Definition gather (no_run : bool) :=
  generate_proofs ["ws"] offline next_temp ["ws"; "out"] true no_run None repo_host.

Example evidence_of_a_run :
  res_map (fun m => (exit_code_for_manifest m, pm_test_count m, map cp_stdout (take 1 (pm_commands m)), map sn_path (pm_tests m)))
    (fst (gather false)) =
  Ok (0%Z, Some 3%Z, ["Ran 3 tests in 1s" +:+ LF_str +:+ "token: <redacted>, OK"],
      ["tests/test_a.py"; "tests/test_proof_generation.py"]).
Proof. vm_compute. reflexivity. Qed.
